(* ===== verification/_CoqProject ===== *)
-Q . S2P
Prelude.v
Layout.v
FrameAlloc.v
Mmu.v
MmuClone.v
ListHead.v
TaskState.v
Task.v
Sched.v
SysProc.v
Fdio.v
Machine.v
Brk.v
Fork.v
CStr.v
Fs.v
Tmpfs.v
Cpiofs.v
Intr.v
Console.v
Word.v
WordScan.v
MemCopy.v
MemCmp.v
Sep.v
Malloc.v
MallocHeap.v
MallocFree.v
MallocSys.v
MallocTake.v
MallocBest.v
MallocMore.v
MallocRun.v
Arena.v
Blocks.v
SysFile.v
UserMem.v
SysMem.v
Syscall.v
Elf.v
Exec.v
Boot.v
ArchInit.v
Kmain.v
UserCall.v
Traps.v
Programs.v
Execve.v
Calm.v
Runs.v
