(* ===== verification/Prelude.v ===== *)
(** * The ak kernel: a verification library

    ak is a small kernel for 32-bit x86: physical and virtual memory, tasks with fork,
    signals and a preemptive round-robin scheduler, an in-memory file system with a
    ramdisk and a terminal, system calls, and the loading of ELF programs.  Its own code
    is under [kernel/] and [arch/]; [uClibc/], [userspace/busybox] and [userspace/dash]
    are copies of other projects.  This library models the kernel's C code as
    functions, operation by operation, and proves what makes each part correct; of the C
    library it models the string functions the kernel calls, the word-at-a-time
    functions that scan, copy, fill and compare memory, and [malloc] and [free].

    ** How the code is modelled

    A function of the code is a [Definition] with the same name in the monad [M S] of
    this file: a function from a state to an [outcome], which is a result with a new
    state ([Ret]), a PANIC ([Panic]), something C or the processor gives no meaning to
    ([Fault]: an index outside an array, a NULL or freed pointer, a call through NULL, an
    address without a translation), or a loop that does not end ([Diverge]).  A theorem
    that concludes [Ret] thus also says that none of the others happens.

    Integers are [Z] with the wrap-around of their width written out ([u8], [u16],
    [u32], [s32], and the operators [+u], [-u], [*u] of [u32_scope]).  Pointers to objects
    are numbers that key the maps of a state; freeing an object removes it from its map.
    malloc gives a new number and does not fail.  Addresses the processor translates are
    32-bit integers, and every access through them goes through the page tables.

    Loops are [while fuel body] with a bound that cannot be passed without repeating a
    state (the number of objects of a list, of words of a bitmap, of bytes of a buffer,
    of values of a counter); the termination and liveness theorems conclude [Ret], so
    they show the bound is enough, and [while_forever] is used to show that a loop has
    none.

    A component has its own state.  [Has S T] says that a state [S] contains a [T], and
    [zoom] runs an operation of the part on the whole, so that a component is written
    against its own state and composed without change.

    ** The files

    - [Prelude]: outcomes, the monad, [Has], integers, arrays, loops, their laws and hints.
    - [Layout]: [arch/x86/mem/map.h] and [mmu.h], the address-space layout and the
      page-entry macros.
    - [FrameAlloc]: [arch/x86/mem/framealloc.c], the bitmap of physical frames.
    - [Mmu]: [arch/x86/mem/mmu.c]; the processor's walk of the page tables, the window of
      temporary mappings, mapping, demand paging and the page-fault handler.
    - [MmuClone]: [mmu_clone_dir.c], the copy of an address space for fork.
    - [ListHead]: [kernel/list.c] over the class [ListStore] of stores of linked objects.
    - [TaskState], [Task]: [kernel/proc/task.h] and [task.c], [arch/x86/proc/task.c] and
      [context.S]; the task control block and the context switch.
    - [Sched]: [kernel/proc/sched.c].   [SysProc]: [kernel/syscall/proc.c], [signal.c].
    - [Fdio]: [kernel/io/fdio.c], descriptor tables.
    - [Machine]: tasks and memory together.   [Brk]: [arch/x86/mem/brk.c] and
      [early_malloc.c].   [Fork]: [task_fork] and [sys_fork], in parent and child.
    - [CStr]: strlen, strcmp, strcpy, strncpy, strtok of the C library.
    - [Fs]: [kernel/fs/node.c], the tree and path lookup.   [Tmpfs]: [tmpfs.c] and
      [devfs.c].   [Cpiofs]: [cpiofs.c] and [kernel/initrd.c].
    - [Intr]: [gdt.c], [idt.c], [pic.c], [pit.c], [io.c] under [arch/x86].
    - [Console]: [vga_console.c], [kbd.c], [keymap.h] and [console.c] of [arch/x86].
    - [Word], [WordScan]: the longword tricks of [uClibc/libc/string/generic].
      [MemCopy]: [memcpy], [memmove] and [memset], in [i386/] with string instructions and in
      [generic/] with unrolled loops.   [MemCmp]: [generic/memcmp.c].
    - [Malloc]: [malloc.h], [malloc.c] and [free.c] of [uClibc/libc/stdlib/malloc-standard], on
      the byte memory of [Word].  Its proofs: [Sep], assertions on parts of a memory (Iris's
      [uPred] and proof mode) and the rule [wp] for computations; [MallocHeap], the heap as tiles
      of chunks and rings of free ones; [MallocFree], consolidation and [free]'s chunk;
      [MallocSys], the class [System] of what it needs of sbrk and mmap, trimming, [free];
      [MallocTake], [MallocBest], the fastbins, bins and bin map; [MallocMore], memory from the
      system, fenceposts; [MallocRun], a whole call.  [Arena]: both operations, from the first
      call on.   [Blocks]: the abstract store they refine.
    - [SysFile]: [kernel/syscall/fdio.c].   [SysMem]: [kernel/syscall/mem.c].
    - [Syscall]: the call table, every registration and [arch/x86/syscall.c].
    - [UserMem]: the kernel's stores to user addresses.   [Elf]: [kernel/proc/elf/read_elf.c].
      [Exec]: [kernel/proc/elf/exec.c], [arch/x86/proc/exec.c] and [sys_execve].
    - [Boot]: [pg_init], [arch/x86/boot] and [kernel/module.c].   [ArchInit]: what
      [arch_init] leaves: the kernel's space, the marked frames, the early heap.
    - [Kmain]: [kernel/kmain.c] and [kernel/tty/console.c], on the state of all components.
    - [UserCall]: the table's functions that return to their caller, with the words of a
      program's registers, pointers followed through its page tables.
    - [Traps]: [isr_root.S] and [idt_handler] on the whole state: the handlers, the system
      calls that enter another task or a program, and how an entered task goes on.
    - [Programs]: what programs achieve with sequences of calls and ticks of the timer.
    - [Execve]: [execve] by number, from the path in memory to the entry point.
    - [Calm]: which operations leave the scheduler's data alone.   [Runs]: any sequence of
      program steps, interrupts and calls, from an invariant or from the start.

    How they interact: the memory code acts on the directory of the current task, which
    [Machine.on_vm] hands it; fork clones the directory, the descriptors and the context;
    the scheduler runs over the list of tasks through [ListStore]; the file calls of
    [SysFile] join the descriptor table, the tree and the devices, whose function pointers
    are the names [Fs.cfun]; [Kmain] joins everything; [Traps] adds to that the frames of
    the tasks that left the processor, which its [trap] and [tick] enter again.

    ** What is shown

    - Memory: no frame is handed out twice along any run of the allocator; mapping and
      unmapping change the processor's translation at exactly one page; a cloned address
      space translates alike and shares no private frame; demand paging; mmap regions
      and the break stay mapped and private.
    - Tasks: a yield enters the first runnable task and drops those that quit; a
      runnable task waits at most its distance on the list; fork returns twice as it
      should; signals are run on entry.
    - Files: the ramdisk undoes the encoding of an archive; path lookup is resolution in a
      tree, and linking keeps the tree; a tmpfs file refines an array of bytes with
      a position; descriptors are the lowest free ones; opening and reading a file
      gives its bytes in pieces of any size.
    - Terminal: vga_console_putc refines an abstract terminal with scrolling and
      backspace; console_read returns the edited line.
    - Programs: read_elf.c parses what the bytes describe; elf_load gives the program its
      image in private memory; the stack of a started program holds its arguments.
    - System calls: every number is dispatched to its function with the right registers;
      a program's open, read and write bring a file into its memory and onto the terminal,
      through every layer from the interrupt to the screen; a program that forks and waits
      is given its child's pid and status, through every switch between the two; a program
      that calls execve with a file of the ramdisk goes on in it, with its arguments.
    - Runs: from the end of [kmain]'s initialisation, whatever programs and interrupts do, the
      next tick of the timer finds a task that can run and brings it back to the context in which it
      was left, but for two cases that the theorem names.
    - Start: arch_init ends with the frames marked as the boot information says, the kernel
      translated where it was linked and nowhere else, and a space that the theorems on
      mapping and cloning apply to; kmain brings up the calls, the handlers, the tree and
      the standard descriptors and prints its first file.
    - C library: the word-at-a-time functions find what the byte-at-a-time ones find; the
      two versions of memmove, of memcpy and of memset end in the same memory, with the source's
      bytes at the destination and nothing else changed; memcmp is the comparison byte by byte.
    - Allocator: any program of [malloc]s, [free]s, stores and loads sees a store of disjoint
      blocks that keep their bytes, whatever chunks are split, binned, consolidated, mapped and
      given back; [malloc] fails only when the size is 0 or out of range or the system
      refused memory.  The loops get [CHUNKS] rounds, more than there can be chunks, and a call
      nests once ([malloc_depth 2]): the theorem concludes [Ret], so both are enough.

    The theorems named by the findings of the manifest show what the code does where that
    is not what it means to do; they are about the code as it is.

    ** What is not modelled, and why

    The bytes of kernel stacks: a switch restores a saved context, [resume] says where it
    continues and [Traps.frame] what the stack holds there.  Assembly that runs before C
    ([boot.S], [multiboot.S]): what it fixes is an argument.
    The translation cache: every walk reads the tables, as after the flush the code makes.
    The streams of the C library are parameters, with their contract where a theorem needs one
    ([Kmain.Stdio], [Execve.ExecFiles]); these contracts leave out the heap and the break that
    streams use.  [Malloc] works on a flat memory of its own: the kernel's objects come from
    new numbers, not from it.  It is modelled as configured ([uClibc/.config]: no threads, so the
    lock is empty, and no debugging, so the checks are); its other entry points ([calloc],
    [realloc], [memalign], [mallopt], [mallinfo], [malloc_trim]) are not, and requests from
    2^31 - 2^22 to 2^32 - 33 bytes are outside the theorem.
    Interrupts come only where the code waits for them ([Console.deliver]), yields, or
    runs a program ([Traps.tick], [Runs.kstep]); a call that enables interrupts in its middle
    (console_read's wait, sys_wait4 once it goes on) is one step but for the keys it waits for.
    [Runs.kstep] has the steps that return, and forks whose clone finds its frames
    ([Runs.forkable]).  Reference counts of descriptors do not reach the width of an int.
    In [SysFile] bytes a call reads or writes through a user pointer are its argument or
    result; [UserCall] follows the pointers.
    The programs under [userspace/] and the rest of [uClibc/] are other projects' code.

    ** What could follow

    The allocator's other entry points over [Arena]; [System] discharged by [sys_brk] and
    [sys_mmap_pgoff] through a program's page tables; the streams over the file calls. *)
From Stdlib Require Import ZArith Lia.
From stdpp Require Import base gmap list list_numbers strings.

Open Scope Z_scope.

(** ** Outcomes of kernel code *)

(** What a piece of C does that the C standard, or the processor, gives no
    meaning to.  Every load, store and indirect call of the model checks for
    these, so a theorem that concludes [Ret] also excludes them. *)
Inductive fault : Type :=
| OutOfBounds     (** an array index outside the object *)
| NullDeref       (** a NULL or unallocated object pointer is followed *)
| UseAfterFree    (** a freed heap object is used *)
| BadCall         (** a call through a NULL function pointer *)
| BadAccess.      (** a virtual address that does not translate *)

Inductive outcome (A : Type) : Type :=
| Ret (a : A)
| Panic (msg : string)   (** the PANIC macro: print, then spin forever *)
| Fault (f : fault)
| Diverge.               (** a loop that ran its whole iteration bound *)
Arguments Ret {A} a.
Arguments Panic {A} msg.
Arguments Fault {A} f.
Arguments Diverge {A}.

(** ** The state and failure monad *)

Definition M (S A : Type) : Type := S → outcome (A * S).

Definition mret_M {S A : Type} (a : A) : M S A := λ s, Ret (a, s).
Definition mbind_M {S A B : Type} (f : A → M S B) (m : M S A) : M S B :=
  λ s, match m s with
       | Ret (a, s') => f a s'
       | Panic msg => Panic msg
       | Fault e => Fault e
       | Diverge => Diverge
       end.
#[global] Instance M_ret {S} : MRet (M S) := λ A, mret_M.
#[global] Instance M_bind {S} : MBind (M S) := λ A B, mbind_M.

Definition getS {S : Type} : M S S := λ s, Ret (s, s).
Definition putS {S : Type} (s : S) : M S unit := λ _, Ret (tt, s).
Definition gets {S A : Type} (f : S → A) : M S A := λ s, Ret (f s, s).
Definition modify {S : Type} (f : S → S) : M S unit := λ s, Ret (tt, f s).
Definition panic {S A : Type} (msg : string) : M S A := λ _, Panic msg.
Definition crash {S A : Type} (f : fault) : M S A := λ _, Fault f.

Definition diverge {S A : Type} : M S A := λ _, Diverge.

(** An optional value that must be there. *)
Definition need {S A : Type} (f : fault) (o : option A) : M S A :=
  match o with Some a => mret a | None => crash f end.

Definition whenM {S : Type} (b : bool) (m : M S unit) : M S unit :=
  if b then m else mret tt.

(** Running one component inside a larger state. *)
Class Has (S T : Type) := {
  proj : S → T;
  embed : T → S → S;
  proj_embed t s : proj (embed t s) = t;
  embed_embed t t' s : embed t (embed t' s) = embed t s;
  embed_proj s : embed (proj s) s = s
}.

Definition zoom {S T A : Type} `{Has S T} (m : M T A) : M S A :=
  λ s, match m (proj s) with
       | Ret (a, t) => Ret (a, embed t s)
       | Panic msg => Panic msg
       | Fault e => Fault e
       | Diverge => Diverge
       end.

(** ** Machine integers *)

Definition u8 (x : Z) : Z := x mod 2 ^ 8.
Definition u16 (x : Z) : Z := x mod 2 ^ 16.
Definition u32 (x : Z) : Z := x mod 2 ^ 32.
(** The value a signed 32-bit int holds. *)
Definition s32 (x : Z) : Z :=
  let y := x mod 2 ^ 32 in if y <? 2 ^ 31 then y else y - 2 ^ 32.

(** Unsigned 32-bit arithmetic, in a scope of its own. *)
Declare Scope u32_scope.
Delimit Scope u32_scope with u32.
Notation "x +u y" := (u32 (x + y)) (at level 50, left associativity) : u32_scope.
Notation "x -u y" := (u32 (x - y)) (at level 50, left associativity) : u32_scope.
Notation "x *u y" := (u32 (x * y)) (at level 40, left associativity) : u32_scope.
Notation "'is_u32' x" := (0 ≤ x < 2 ^ 32) (at level 10, x at level 9) : u32_scope.
Open Scope u32_scope.

(** ** Arrays, indexed by C integers *)

Definition lookupZ {A} (l : list A) (i : Z) : option A :=
  if 0 <=? i then l !! Z.to_nat i else None.
Definition insertZ {A} (i : Z) (x : A) (l : list A) : list A :=
  <[Z.to_nat i := x]> l.

(** Reading and writing an element: outside the array both are faults. *)
Definition aget {S A} (l : list A) (i : Z) : M S A :=
  need OutOfBounds (lookupZ l i).
Definition aset {S A} (l : list A) (i : Z) (x : A) : M S (list A) :=
  if (0 <=? i) && (i <? Z.of_nat (length l)) then mret (insertZ i x l)
  else crash OutOfBounds.

(** ** Loops *)

(** [run_pos p body a] runs [body] from the loop state [a], at most [p] times,
    until it leaves the loop with [inr b]; it hands back the loop state when it
    has not left.  The bound is binary, so that bounds such as [2 ^ 32] cost
    nothing. *)
Fixpoint run_pos {S A B} (p : positive) (body : A → M S (A + B)) (a : A) : M S (A + B) :=
  match p with
  | xH => body a
  | xO q =>
      r ← run_pos q body a;
      match r with inl a' => run_pos q body a' | inr b => mret (inr b) end
  | xI q =>
      r ← body a;
      match r with
      | inl a' =>
          r' ← run_pos q body a';
          match r' with inl a'' => run_pos q body a'' | inr b => mret (inr b) end
      | inr b => mret (inr b)
      end
  end.

(** A while loop of at most [fuel] iterations. *)
Definition while {S A B} (fuel : positive) (body : A → M S (A + B)) (a : A) : M S B :=
  r ← run_pos fuel body a;
  match r with inl _ => diverge | inr b => mret b end.

(** The same run with a unary bound: what the proofs work with. *)
Fixpoint run_nat {S A B} (n : nat) (body : A → M S (A + B)) (a : A) : M S (A + B) :=
  match n with
  | O => mret (inl a)
  | Datatypes.S n' =>
      r ← body a;
      match r with inl a' => run_nat n' body a' | inr b => mret (inr b) end
  end.

(** A loop over an explicit list of values. *)
Fixpoint forM {S A} (l : list A) (f : A → M S unit) : M S unit :=
  match l with
  | [] => mret tt
  | x :: l' => f x ;; forM l' f
  end.

(** [for (i = lo; i < n; i++)]: the body carries [a] on, or returns from the function
    with [inr b].  At most [2 ^ 32] iterations, more than an [int] can count. *)
Definition for_loop {S A B} (lo n : Z) (a : A) (body : Z → A → M S (A + B)) : M S (A + B) :=
  while 4294967297
    (λ st : Z * A,
       let (i, a) := st in
       if i <? n then
         r ← body i a;
         match r with inl a' => mret (inl (i + 1, a')) | inr b => mret (inr (inr b)) end
       else mret (inr (inl a))) (lo, a).

Create HintDb ak discriminated.
Create Rewrite HintDb akarith.

(** ** Laws of the monad *)

Lemma bind_ret {S A B} (m : M S A) (k : A → M S B) s a s' :
  m s = Ret (a, s') → (m ≫= k) s = k a s'.
Proof. intros E. unfold mbind, M_bind, mbind_M. by rewrite E. Qed.

Lemma bind_panic {S A B} (m : M S A) (k : A → M S B) s msg :
  m s = Panic msg → (m ≫= k) s = Panic msg.
Proof. intros E. unfold mbind, M_bind, mbind_M. by rewrite E. Qed.

Lemma bind_fault {S A B} (m : M S A) (k : A → M S B) s e :
  m s = Fault e → (m ≫= k) s = Fault e.
Proof. intros E. unfold mbind, M_bind, mbind_M. by rewrite E. Qed.

Lemma bind_diverge {S A B} (m : M S A) (k : A → M S B) s : m s = Diverge → (m ≫= k) s = Diverge.
Proof. intros E. unfold mbind, M_bind, mbind_M. by rewrite E. Qed.

Lemma bind_inv {S A B} (m : M S A) (k : A → M S B) s b s'' :
  (m ≫= k) s = Ret (b, s'') → ∃ a s', m s = Ret (a, s') ∧ k a s' = Ret (b, s'').
Proof.
  unfold mbind, M_bind, mbind_M. destruct (m s) as [[a s']| | |] eqn:E; try done.
  intros K. by exists a, s'.
Qed.

Lemma bind_assoc {S A B C} (m : M S A) (f : A → M S B) (g : B → M S C) s :
  ((m ≫= f) ≫= g) s = (m ≫= λ a, f a ≫= g) s.
Proof. unfold mbind, M_bind, mbind_M. by destruct (m s) as [[a s']| | |]. Qed.

Lemma bind_ext {S A B} (m m' : M S A) (k k' : A → M S B) s :
  m s = m' s → (∀ a s', k a s' = k' a s') → (m ≫= k) s = (m' ≫= k') s.
Proof.
  intros E K. unfold mbind, M_bind, mbind_M. rewrite E.
  by destruct (m' s) as [[a s']| | |].
Qed.

Lemma zoom_ret {S T A} `{Has S T} (m : M T A) (s : S) a t :
  m (proj s) = Ret (a, t) → zoom m s = Ret (a, embed t s).
Proof. intros E. unfold zoom. by rewrite E. Qed.

Lemma zoom_inv {S T A} `{Has S T} (m : M T A) (s : S) a s' :
  zoom m s = Ret (a, s') → ∃ t, m (proj s) = Ret (a, t) ∧ s' = embed t s.
Proof. unfold zoom. destruct (m (proj s)) as [[b t]| | |]; try done. intros [= -> <-]. by exists t. Qed.
Lemma zoom_diverge {S T A} `{Has S T} (m : M T A) (s : S) : m (proj s) = Diverge → zoom m s = Diverge.
Proof. intros E. unfold zoom. by rewrite E. Qed.
Lemma zoom_panic {S T A} `{Has S T} (m : M T A) (s : S) msg :
  m (proj s) = Panic msg → zoom m s = Panic msg.
Proof. intros E. unfold zoom. by rewrite E. Qed.

Lemma zoom_fault {S T A} `{Has S T} (m : M T A) (s : S) e :
  m (proj s) = Fault e → zoom m s = Fault e.
Proof. intros E. unfold zoom. by rewrite E. Qed.

Lemma zoom_bind {S T A B} `{Has S T} (m : M T A) (k : A → M T B) (s : S) :
  zoom (m ≫= k) s = (zoom m ≫= λ a, zoom (k a)) s.
Proof.
  unfold zoom, mbind, M_bind, mbind_M.
  destruct (m (proj s)) as [[a t]| | |]; try done.
  rewrite proj_embed. destruct (k a t) as [[b t']| | |]; try done.
  by rewrite embed_embed.
Qed.

(** ** Automation *)

(** One monadic step whose result is known. *)
Tactic Notation "mstep" uconstr(E) := rewrite (bind_ret _ _ _ _ _ E).
(** Reducing the steps that compute: reads of the state, returns, tests. *)
Ltac mred :=
  unfold mbind, M_bind, mbind_M, mret, M_ret, mret_M, getS, putS, gets, modify, whenM, need;
  cbv beta iota.

(** [lia] with quotients and remainders by constants. *)
Ltac zlia := Z.div_mod_to_equations; lia.

(** Case analysis on the boolean comparisons of integers in the goal. *)
Ltac zcase :=
  repeat match goal with
  | |- context [?a <? ?b] => destruct (Z.ltb_spec a b)
  | |- context [?a <=? ?b] => destruct (Z.leb_spec a b)
  | |- context [?a =? ?b] => destruct (Z.eqb_spec a b)
  end.

(** ** Laws of loops *)

Lemma run_nat_add {S A B} n m (body : A → M S (A + B)) a s :
  run_nat (n + m) body a s =
  (r ← run_nat n body a;
   match r with inl a' => run_nat m body a' | inr b => mret (inr b) end) s.
Proof.
  revert a s. induction n as [|n IH]; intros a s; [done|]. cbn [run_nat Nat.add].
  rewrite bind_assoc. apply bind_ext; [done|]. intros [a'|b] s'; [apply IH|done].
Qed.

Lemma run_pos_nat {S A B} p (body : A → M S (A + B)) a s :
  run_pos p body a s = run_nat (Pos.to_nat p) body a s.
Proof.
  revert a s. induction p as [p IH|p IH|]; intros a s.
  - rewrite Pos2Nat.inj_xI. cbn [run_pos run_nat].
    apply bind_ext; [done|]. intros [a'|b] s'; [|done].
    replace (2 * Pos.to_nat p)%nat with (Pos.to_nat p + Pos.to_nat p)%nat by lia.
    rewrite run_nat_add. apply bind_ext; [apply IH|].
    intros [a''|b] s''; [apply IH|done].
  - rewrite Pos2Nat.inj_xO. cbn [run_pos].
    replace (2 * Pos.to_nat p)%nat with (Pos.to_nat p + Pos.to_nat p)%nat by lia.
    rewrite run_nat_add. apply bind_ext; [apply IH|].
    intros [a''|b] s''; [apply IH|done].
  - change (Pos.to_nat 1) with 1%nat. cbn [run_pos run_nat].
    unfold mbind, M_bind, mbind_M. by destruct (body a s) as [[[]]| | |].
Qed.

(** Total correctness of a loop from an invariant and a variant below the
    iteration bound. *)
Lemma while_total {S A B} (I : A → S → Prop) (μ : A → S → Z) (Q : B → S → Prop)
    (body : A → M S (A + B)) fuel a s :
  (∀ a s, I a s →
     (∃ a' s', body a s = Ret (inl a', s') ∧ I a' s' ∧ 0 ≤ μ a' s' < μ a s) ∨
     (∃ b s', body a s = Ret (inr b, s') ∧ Q b s')) →
  I a s → μ a s < Z.pos fuel →
  ∃ b s', while fuel body a s = Ret (b, s') ∧ Q b s'.
Proof.
  intros Hstep HI Hμ.
  enough (∃ b s', run_nat (Pos.to_nat fuel) body a s = Ret (inr b, s') ∧ Q b s')
    as (b & s' & E & HQ).
  { exists b, s'. split; [|done]. unfold while.
    rewrite (bind_ret _ _ s (inr b) s'); [done|]. by rewrite run_pos_nat. }
  assert (Hn : (1 ≤ Pos.to_nat fuel)%nat) by lia.
  rewrite <- (positive_nat_Z fuel) in Hμ. clear Hn.
  assert (Hn : Pos.to_nat fuel ≠ 0%nat) by lia. revert Hn Hμ.
  generalize (Pos.to_nat fuel) as n. intros n. revert a s HI.
  induction n as [|n IH]; intros a s HI Hn Hμ; [done|].
  destruct (Hstep a s HI) as [(a' & s' & E & HI' & ? & ?)|(b & s' & E & HQ)].
  - cbn [run_nat]. rewrite (bind_ret _ _ _ _ _ E). apply IH; [done|lia|lia].
  - exists b, s'. cbn [run_nat]. by rewrite (bind_ret _ _ _ _ _ E).
Qed.

(** A counting loop from its invariant. *)
Lemma for_loop_total {S A B} (I : Z → A → S → Prop) (Q : B → S → Prop) (body : Z → A → M S (A + B)) lo n a s :
  lo ≤ n → n - lo ≤ 2 ^ 32 →
  (∀ i a s, lo ≤ i < n → I i a s →
     (∃ a' s', body i a s = Ret (inl a', s') ∧ I (i + 1) a' s') ∨ (∃ b s', body i a s = Ret (inr b, s') ∧ Q b s')) →
  I lo a s →
  ∃ r s', for_loop lo n a body s = Ret (r, s') ∧ match r with inl a' => I n a' s' | inr b => Q b s' end.
Proof.
  intros Hle Hn Hbody HI.
  apply (while_total (λ st s, lo ≤ st.1 ≤ n ∧ I st.1 st.2 s) (λ st _, n - st.1)
    (λ r s', match r with inl a' => I n a' s' | inr b => Q b s' end)).
  - intros [i a1] s1 [Hi HI1]. cbn [fst snd] in *. destruct (Z.ltb_spec i n) as [Hlt|Hge].
    + destruct (Hbody i a1 s1) as [(a' & s' & E & HI')|(b & s' & E & HQ)]; [lia|done| |].
      * left. exists (i + 1, a'), s'. rewrite (bind_ret _ _ _ _ _ E). split; [done|]. cbn. split; [|lia]. by split; [lia|].
      * right. exists (inr b), s'. by rewrite (bind_ret _ _ _ _ _ E).
    + right. exists (inl a1), s1. split; [done|]. by replace n with i by lia.
  - cbn. by split; [lia|].
  - cbn. lia.
Qed.

(** One iteration of a loop that goes on, or leaves. *)
Lemma while_leave {S A B} (body : A → M S (A + B)) fuel a s b s' :
  body a s = Ret (inr b, s') → while fuel body a s = Ret (b, s').
Proof.
  intros E. unfold while. rewrite (bind_ret _ _ s (inr b) s'); [done|].
  rewrite run_pos_nat. destruct (Pos2Nat.is_succ fuel) as [n ->].
  cbn [run_nat]. by rewrite (bind_ret _ _ _ _ _ E).
Qed.

Lemma while_fault {S A B} (body : A → M S (A + B)) fuel a s e :
  body a s = Fault e → while fuel body a s = Fault e.
Proof.
  intros E. unfold while. rewrite (bind_fault _ _ s e); [done|].
  rewrite run_pos_nat. destruct (Pos2Nat.is_succ fuel) as [n ->].
  cbn [run_nat]. by rewrite (bind_fault _ _ _ _ E).
Qed.

(** [n] iterations that go on, then one that leaves. *)
Lemma while_steps {S A B} (body : A → M S (A + B)) fuel n a s a' s' :
  run_nat n body a s = Ret (inl a', s') → Z.of_nat n < Z.pos fuel →
  while fuel body a s = (r ← run_nat (Pos.to_nat fuel - n) body a';
                         match r with inl _ => diverge | inr b => mret b end) s'.
Proof.
  intros E Hn. unfold while.
  apply (eq_trans (y := (r ← run_nat (Pos.to_nat fuel) body a;
                         match r with inl _ => diverge | inr b => mret b end) s)).
  { apply bind_ext; [apply run_pos_nat|done]. }
  replace (Pos.to_nat fuel) with (n + (Pos.to_nat fuel - n))%nat at 1 by lia.
  unfold mbind, M_bind. unfold mbind_M at 1. rewrite run_nat_add.
  unfold mbind, M_bind, mbind_M. by rewrite E.
Qed.

(** A body that keeps an invariant and never leaves. *)
Lemma while_forever {S A B} (I : A → S → Prop) (body : A → M S (A + B)) fuel a s :
  (∀ a s, I a s → ∃ a' s', body a s = Ret (inl a', s') ∧ I a' s') → I a s →
  while fuel body a s = Diverge.
Proof.
  intros Hstep HI.
  assert (∀ n a s, I a s → ∃ a' s', run_nat n body a s = Ret (inl a', s')) as K.
  { induction n as [|n IH]; intros a1 s1 H1; [by exists a1, s1|].
    destruct (Hstep _ _ H1) as (a2 & s2 & E & H2). destruct (IH _ _ H2) as (a3 & s3 & E3).
    exists a3, s3. cbn [run_nat]. by rewrite (bind_ret _ _ _ _ _ E). }
  destruct (K (Pos.to_nat fuel) a s HI) as (a' & s' & E). unfold while.
  rewrite (bind_ret _ _ s (inl a') s'); [done|]. by rewrite run_pos_nat.
Qed.

(** A run that leaves within the bound. *)
Lemma while_run {S A B} (body : A → M S (A + B)) fuel n a s b s' :
  run_nat n body a s = Ret (inr b, s') → (n ≤ Pos.to_nat fuel)%nat → while fuel body a s = Ret (b, s').
Proof.
  intros E Hn. unfold while. rewrite (bind_ret _ _ s (inr b) s'); [done|]. rewrite run_pos_nat.
  replace (Pos.to_nat fuel) with (n + (Pos.to_nat fuel - n))%nat by lia.
  rewrite run_nat_add. by rewrite (bind_ret _ _ _ _ _ E).
Qed.

Lemma run_nat_snoc {S A B} (body : A → M S (A + B)) n a s a' s' r s'' :
  run_nat n body a s = Ret (inl a', s') → body a' s' = Ret (r, s'') →
  run_nat (Datatypes.S n) body a s = Ret (r, s'').
Proof.
  intros E E'. replace (Datatypes.S n) with (n + 1)%nat by lia.
  rewrite run_nat_add, (bind_ret _ _ _ _ _ E). cbn [run_nat].
  rewrite (bind_ret _ _ _ _ _ E'). by destruct r.
Qed.

(** A loop whose [n]-th state makes the body fault, or leave. *)
Lemma while_steps_fault {S A B} (body : A → M S (A + B)) fuel n a s a' s' e :
  run_nat n body a s = Ret (inl a', s') → Z.of_nat n < Z.pos fuel →
  body a' s' = Fault e → while fuel body a s = Fault e.
Proof.
  intros E Hn E'. rewrite (while_steps _ _ _ _ _ _ _ E Hn).
  destruct (Pos.to_nat fuel - n)%nat as [|m] eqn:Em; [lia|]. cbn [run_nat].
  unfold mbind, M_bind, mbind_M. by rewrite E'.
Qed.

Lemma while_steps_leave {S A B} (body : A → M S (A + B)) fuel n a s a' s' b s'' :
  run_nat n body a s = Ret (inl a', s') → Z.of_nat n < Z.pos fuel →
  body a' s' = Ret (inr b, s'') → while fuel body a s = Ret (b, s'').
Proof.
  intros E Hn E'. rewrite (while_steps _ _ _ _ _ _ _ E Hn).
  destruct (Pos.to_nat fuel - n)%nat as [|m] eqn:Em; [lia|]. cbn [run_nat].
  unfold mbind, M_bind, mbind_M. by rewrite E'.
Qed.

Lemma forM_app {S A} (l1 l2 : list A) (f : A → M S unit) s :
  forM (l1 ++ l2) f s = (forM l1 f ;; forM l2 f) s.
Proof.
  revert s. induction l1 as [|x l1 IH]; intros s; [done|].
  cbn [forM app]. rewrite bind_assoc. apply bind_ext; [done|]. intros [] s'. apply IH.
Qed.

(** A loop over a list whose body always succeeds preserves an invariant that is
    indexed by the part of the list already done. *)
Lemma forM_total {S A} (f : A → M S unit) (I : list A → S → Prop) l s :
  (∀ l1 x l2 s, l = l1 ++ x :: l2 → I l1 s → ∃ s', f x s = Ret (tt, s') ∧ I (l1 ++ [x]) s') →
  I [] s → ∃ s', forM l f s = Ret (tt, s') ∧ I l s'.
Proof.
  intros Hstep HI.
  enough (∀ l2 l1 s, l = l1 ++ l2 → I l1 s → ∃ s', forM l2 f s = Ret (tt, s') ∧ I l s') as K.
  { by apply (K l []). }
  induction l2 as [|x l2 IH]; intros l1 s1 E HI1.
  - exists s1. split; [done|]. by rewrite app_nil_r in E; subst.
  - destruct (Hstep l1 x l2 s1 E HI1) as (s2 & E2 & HI2).
    cbn [forM]. rewrite (bind_ret _ _ _ _ _ E2). apply (IH (l1 ++ [x])); [|done].
    by rewrite <- app_assoc.
Qed.

(** The same for a counting loop, the invariant indexed by the counter. *)
Lemma forM_count {S} (f : Z → M S unit) (I : Z → S → Prop) n s :
  0 ≤ n →
  (∀ i s, 0 ≤ i < n → I i s → ∃ s', f i s = Ret (tt, s') ∧ I (i + 1) s') →
  I 0 s → ∃ s', forM (seqZ 0 n) f s = Ret (tt, s') ∧ I n s'.
Proof.
  intros Hn Hstep HI.
  enough (∀ k i s, 0 ≤ i → i + Z.of_nat k = n → I i s →
    ∃ s', forM (seqZ i (Z.of_nat k)) f s = Ret (tt, s') ∧ I n s') as K.
  { destruct (K (Z.to_nat n) 0 s) as (s' & E & ?); [lia|lia|done|].
    exists s'. split; [|done]. by rewrite Z2Nat.id in E by done. }
  induction k as [|k IH]; intros i s1 Hi Ek HI1.
  - exists s1. split; [done|]. by replace n with i by lia.
  - rewrite seqZ_cons by lia. destruct (Hstep i s1 ltac:(lia) HI1) as (s2 & E2 & HI2).
    cbn [forM]. rewrite (bind_ret _ _ _ _ _ E2).
    replace (Z.pred (Z.of_nat (Datatypes.S k))) with (Z.of_nat k) by lia.
    change (Z.succ i) with (i + 1). apply IH; [lia|lia|done].
Qed.

(** ** Arrays *)

Lemma lookupZ_lt {A} (l : list A) i x :
  lookupZ l i = Some x → 0 ≤ i < Z.of_nat (length l).
Proof.
  unfold lookupZ. destruct (Z.leb_spec 0 i); [|done].
  intros E%lookup_lt_Some. lia.
Qed.

Lemma lookupZ_is_Some {A} (l : list A) i :
  0 ≤ i < Z.of_nat (length l) → ∃ x, lookupZ l i = Some x.
Proof.
  intros [? ?]. unfold lookupZ. destruct (Z.leb_spec 0 i); [|lia].
  apply lookup_lt_is_Some. lia.
Qed.

Lemma lookupZ_None {A} (l : list A) i :
  lookupZ l i = None ↔ i < 0 ∨ Z.of_nat (length l) ≤ i.
Proof.
  unfold lookupZ. destruct (Z.leb_spec 0 i).
  - rewrite lookup_ge_None. lia.
  - split; [lia|done].
Qed.

Lemma lookupZ_insert_eq {A} (l : list A) i x :
  0 ≤ i < Z.of_nat (length l) → lookupZ (insertZ i x l) i = Some x.
Proof.
  intros [? ?]. unfold lookupZ, insertZ. destruct (Z.leb_spec 0 i); [|lia].
  apply list_lookup_insert_eq. lia.
Qed.

Lemma lookupZ_insert_ne {A} (l : list A) i j x :
  0 ≤ i → i ≠ j → lookupZ (insertZ i x l) j = lookupZ l j.
Proof.
  intros ? ?. unfold lookupZ, insertZ. destruct (Z.leb_spec 0 j); [|done].
  apply list_lookup_insert_ne. lia.
Qed.

Lemma length_insertZ {A} (l : list A) i x : length (insertZ i x l) = length l.
Proof. apply length_insert. Qed.

Lemma insertZ_insertZ {A} (l : list A) i x y :
  insertZ i x (insertZ i y l) = insertZ i x l.
Proof. apply list_insert_insert_eq. Qed.

Lemma insertZ_id {A} (l : list A) i x : lookupZ l i = Some x → insertZ i x l = l.
Proof.
  unfold lookupZ, insertZ. destruct (0 <=? i); [|done]. apply list_insert_id.
Qed.

Lemma insertZ_comm {A} (l : list A) i j x y :
  0 ≤ i → 0 ≤ j → i ≠ j → insertZ i x (insertZ j y l) = insertZ j y (insertZ i x l).
Proof. intros ???. apply list_insert_insert_ne. lia. Qed.

Lemma lookupZ_ext {A} (l k : list A) :
  (∀ i, lookupZ l i = lookupZ k i) → l = k.
Proof.
  intros E. apply list_eq. intros i. specialize (E (Z.of_nat i)).
  unfold lookupZ in E. destruct (Z.leb_spec 0 (Z.of_nat i)); [|lia].
  by rewrite Nat2Z.id in E.
Qed.

Lemma lookupZ_replicate {A} n (x : A) i :
  0 ≤ i < Z.of_nat n → lookupZ (replicate n x) i = Some x.
Proof.
  intros [? ?]. unfold lookupZ. destruct (Z.leb_spec 0 i); [|lia].
  apply lookup_replicate_2. lia.
Qed.

Lemma aget_Some {S A} (l : list A) i x (s : S) :
  lookupZ l i = Some x → aget l i s = Ret (x, s).
Proof. unfold aget. by intros ->. Qed.

Lemma aget_oob {S A} (l : list A) i (s : S) :
  i < 0 ∨ Z.of_nat (length l) ≤ i → aget l i s = Fault OutOfBounds.
Proof. intros E%lookupZ_None. unfold aget. by rewrite E. Qed.

Lemma aset_ok {S A} (l : list A) i x (s : S) :
  0 ≤ i < Z.of_nat (length l) → aset l i x s = Ret (insertZ i x l, s).
Proof.
  intros [? ?]. unfold aset.
  destruct (Z.leb_spec 0 i); [|lia]. destruct (Z.ltb_spec i (Z.of_nat (length l))); [done|lia].
Qed.

Lemma aset_oob {S A} (l : list A) i x (s : S) :
  i < 0 ∨ Z.of_nat (length l) ≤ i → aset l i x s = Fault OutOfBounds.
Proof.
  intros ?. unfold aset.
  destruct (Z.leb_spec 0 i); destruct (Z.ltb_spec i (Z.of_nat (length l))); try done; lia.
Qed.

Lemma list_filter_ext_in {A} (P Q : A → Prop) `{!∀ x, Decision (P x), !∀ x, Decision (Q x)} (l : list A) :
  (∀ x, x ∈ l → P x ↔ Q x) → filter P l = filter Q l.
Proof.
  intros HPQ. induction l as [|y l IH]; [done|]. rewrite !filter_cons.
  rewrite IH by (intros z Hz; by apply HPQ, list_elem_of_further).
  pose proof (HPQ y (list_elem_of_here _ _)) as Hy.
  destruct (decide (P y)), (decide (Q y)); tauto.
Qed.

Lemma seqZ_mid n l1 x l2 : seqZ 0 n = l1 ++ x :: l2 → 0 ≤ x < n.
Proof.
  intros E. assert (Hx : x ∈ seqZ 0 n).
  { rewrite E. apply elem_of_app. right. apply list_elem_of_here. }
  apply elem_of_seqZ in Hx. lia.
Qed.

(** A range that starts elsewhere, mapped over. *)
Lemma fmap_seqZ_shift {A} (f : Z → A) a n : f <$> seqZ a n = (λ i, f (a + i)) <$> seqZ 0 n.
Proof.
  rewrite <- (Z.add_0_r a) at 1. rewrite <- fmap_add_seqZ, <- list_fmap_compose. done.
Qed.

(** ** Machine integers *)

Lemma u8_small x : 0 ≤ x < 2 ^ 8 → u8 x = x.
Proof. apply Z.mod_small. Qed.
Lemma u16_small x : 0 ≤ x < 2 ^ 16 → u16 x = x.
Proof. apply Z.mod_small. Qed.
Lemma u32_small x : is_u32 x → u32 x = x.
Proof. apply Z.mod_small. Qed.
Lemma u32_s32 x : u32 (s32 x) = u32 x.
Proof.
  unfold u32, s32. cbv zeta. destruct (_ <? _); [by rewrite Z.mod_mod|].
  rewrite <- (Z.mod_add _ 1), Z.mul_1_l, Z.sub_add by done. by rewrite Z.mod_mod.
Qed.
Lemma u8_bound x : 0 ≤ u8 x < 2 ^ 8.
Proof. by apply Z.mod_pos_bound. Qed.
Lemma u16_bound x : 0 ≤ u16 x < 2 ^ 16.
Proof. by apply Z.mod_pos_bound. Qed.
Lemma u32_bound x : is_u32 (u32 x).
Proof. by apply Z.mod_pos_bound. Qed.
Lemma s32_small x : - 2 ^ 31 ≤ x < 2 ^ 31 → s32 x = x.
Proof.
  intros ?. unfold s32. destruct (Z.leb_spec 0 x).
  - rewrite Z.mod_small by lia. destruct (Z.ltb_spec x (2 ^ 31)); lia.
  - replace (x mod 2 ^ 32) with (x + 2 ^ 32).
    + destruct (Z.ltb_spec (x + 2 ^ 32) (2 ^ 31)); lia.
    + rewrite <- (Z.mod_small (x + 2 ^ 32) (2 ^ 32)) by lia.
      rewrite <- (Z_mod_plus_full x 1 (2 ^ 32)). f_equal; lia.
Qed.
Lemma s32_u32 x : s32 (u32 x) = s32 x.
Proof. unfold s32, u32. by rewrite Zmod_mod. Qed.
#[export] Hint Resolve u8_bound u16_bound u32_bound : ak.
#[export] Hint Rewrite u32_small using lia : akarith.

Lemma testbit_small x n i : 0 ≤ x < 2 ^ n → 0 ≤ n ≤ i → Z.testbit x i = false.
Proof.
  intros ? [? ?]. rewrite <- (Z.mod_small x (2 ^ n)) by done.
  by apply Z.mod_pow2_bits_high.
Qed.

Lemma bits_bound x n :
  0 ≤ n → 0 ≤ x → (∀ i, n ≤ i → Z.testbit x i = false) → x < 2 ^ n.
Proof.
  intros ? ? Hb. destruct (Z.lt_ge_cases x (2 ^ n)); [done|].
  assert (0 < 2 ^ n) by (by apply Z.pow_pos_nonneg).
  assert (n ≤ Z.log2 x) by (rewrite <- (Z.log2_pow2 n) by done; by apply Z.log2_le_mono).
  specialize (Hb (Z.log2 x) ltac:(done)). rewrite Z.bit_log2 in Hb by lia. done.
Qed.

Lemma lor_bound x y n : 0 ≤ n → 0 ≤ x < 2 ^ n → 0 ≤ y < 2 ^ n → 0 ≤ Z.lor x y < 2 ^ n.
Proof.
  intros ? ? ?. split; [rewrite Z.lor_nonneg; lia|].
  apply bits_bound; [done|rewrite Z.lor_nonneg; lia|].
  intros i ?. rewrite Z.lor_spec. by rewrite !(testbit_small _ n).
Qed.

Lemma land_bound_l x y n : 0 ≤ n → 0 ≤ x < 2 ^ n → 0 ≤ Z.land x y < 2 ^ n.
Proof.
  intros ? ?. split; [rewrite Z.land_nonneg; lia|].
  apply bits_bound; [done|rewrite Z.land_nonneg; lia|].
  intros i ?. rewrite Z.land_spec. by rewrite (testbit_small x n).
Qed.
#[export] Hint Resolve lor_bound land_bound_l : ak.

Lemma testbit_u32 x i : 0 ≤ i < 32 → Z.testbit (u32 x) i = Z.testbit x i.
Proof. intros ?. unfold u32. apply Z.mod_pow2_bits_low. lia. Qed.

(** The mask [1 << j] and its use as a test. *)
Lemma testbit_shiftl_1 j i : 0 ≤ j → 0 ≤ i → Z.testbit (Z.shiftl 1 j) i = bool_decide (i = j).
Proof.
  intros ? ?. rewrite Z.shiftl_1_l, Z.pow2_bits_eqb by done.
  case_bool_decide; destruct (Z.eqb_spec j i); try done; lia.
Qed.

Lemma land_shiftl_1 w j : 0 ≤ j → 
  Z.land w (Z.shiftl 1 j) = if Z.testbit w j then 2 ^ j else 0.
Proof.
  intros ?. rewrite Z.shiftl_1_l. apply Z.bits_inj'. intros i ?.
  rewrite Z.land_spec, Z.pow2_bits_eqb by done.
  destruct (Z.eqb_spec j i) as [->|].
  - destruct (Z.testbit w i) eqn:E; rewrite ?Z.bits_0; [|done].
    rewrite Z.pow2_bits_true by done. done.
  - rewrite andb_false_r. destruct (Z.testbit w j); rewrite ?Z.bits_0; [|done].
    by rewrite Z.pow2_bits_false.
Qed.

Lemma land_shiftl_1_eqb w j :
  0 ≤ j → (Z.land w (Z.shiftl 1 j) =? 0) = negb (Z.testbit w j).
Proof.
  intros ?. rewrite land_shiftl_1 by done. destruct (Z.testbit w j); [|done].
  apply Z.eqb_neq. apply Z.pow_nonzero; lia.
Qed.

(** ** Scanning loops *)

(** A loop that runs through the states [f 0], [f 1], ... and leaves at [f n]. *)
Lemma while_scan {S A B} (body : A → M S (A + B)) (f : nat → A) fuel n a s b s' :
  f 0%nat = a → (∀ k, (k < n)%nat → body (f k) s = Ret (inl (f (Datatypes.S k)), s)) →
  body (f n) s = Ret (inr b, s') → (n < Pos.to_nat fuel)%nat → while fuel body a s = Ret (b, s').
Proof.
  intros <- Hgo Hout Hn. apply (while_steps_leave _ _ n _ _ (f n) s); [|lia|done].
  clear Hout Hn. revert f Hgo. induction n as [|n IH]; intros f Hgo; [done|]. cbn [run_nat].
  rewrite (bind_ret _ _ _ _ _ (Hgo 0%nat ltac:(lia))).
  apply (IH (λ k, f (Datatypes.S k))). intros k Hk. apply Hgo. lia.
Qed.

Lemma lookupZ_app_l {A} (l k : list A) i : i < Z.of_nat (length l) → lookupZ (l ++ k) i = lookupZ l i.
Proof.
  intros Hi. unfold lookupZ. destruct (Z.leb_spec 0 i); [|done]. apply lookup_app_l. lia.
Qed.

Lemma lookupZ_app_r {A} (l k : list A) i :
  Z.of_nat (length l) ≤ i → lookupZ (l ++ k) i = lookupZ k (i - Z.of_nat (length l)).
Proof.
  intros Hi. unfold lookupZ. destruct (Z.leb_spec 0 i); [|lia].
  destruct (Z.leb_spec 0 (i - Z.of_nat (length l))); [|lia].
  rewrite lookup_app_r by lia. f_equal. lia.
Qed.

(** The element in the middle of a list. *)
Lemma lookupZ_middle {A} (l k : list A) x i : i = Z.of_nat (length l) → lookupZ (l ++ x :: k) i = Some x.
Proof. intros ->. rewrite lookupZ_app_r by lia. by rewrite Z.sub_diag. Qed.

Lemma insertZ_middle {A} (l k : list A) x y i : i = Z.of_nat (length l) → insertZ i y (l ++ x :: k) = l ++ y :: k.
Proof.
  intros ->. unfold insertZ. rewrite Nat2Z.id, insert_app_r_alt by lia. by rewrite Nat.sub_diag.
Qed.

Lemma lookup_nth {A} (l : list A) n d : (n < length l)%nat → l !! n = Some (nth n l d).
Proof.
  intros Hn. destruct (lookup_lt_is_Some_2 l n Hn) as [x Ex]. rewrite Ex. f_equal. symmetry. by apply nth_lookup_Some.
Qed.

(** ** What runs of an operation have in common *)

(** Every run of [m] that ends takes the state along [R].  For a reflexive and transitive
    [R] this follows from the parts of [m]: the tactic [moves] decomposes it down to
    the lemmas of the hint database of the same name. *)
Definition moves {S A} (R : S → S → Prop) (m : M S A) : Prop := ∀ s a s', m s = Ret (a, s') → R s s'.

Create HintDb moves discriminated.
#[export] Hint Constants Opaque : moves.

Section Moves.
Context {S : Type} (R : S → S → Prop) `{HR : !PreOrder R}.

Lemma moves_ret {A} (a : A) : moves R (mret a).
Proof. by intros s b s' [= _ <-]. Qed.
Lemma moves_bind {A B} (m : M S A) (k : A → M S B) : moves R m → (∀ a, moves R (k a)) → moves R (m ≫= k).
Proof. intros Hm Hk s b s' (a & s1 & E1 & E2)%bind_inv. transitivity s1; [by eapply Hm|by eapply Hk]. Qed.
Lemma moves_getS : moves R getS.
Proof. by intros s b s' [= _ <-]. Qed.
Lemma moves_gets {A} (f : S → A) : moves R (gets f).
Proof. by intros s b s' [= _ <-]. Qed.
Lemma moves_crash {A} f : moves R (crash (A := A) f).
Proof. by intros s b s'. Qed.
Lemma moves_panic {A} x : moves R (panic (A := A) x).
Proof. by intros s b s'. Qed.
Lemma moves_diverge {A} : moves R (diverge (A := A)).
Proof. by intros s b s'. Qed.
Lemma moves_need {A} f (o : option A) : moves R (need f o).
Proof. destruct o; [apply moves_ret|apply moves_crash]. Qed.
Lemma moves_aget {A} (l : list A) i : moves R (aget l i).
Proof. apply moves_need. Qed.
Lemma moves_aset {A} (l : list A) i x : moves R (aset l i x).
Proof. unfold aset. destruct (_ && _); [apply moves_ret|apply moves_crash]. Qed.
Lemma moves_while {A B} fuel (body : A → M S (A + B)) a : (∀ a, moves R (body a)) → moves R (while fuel body a).
Proof.
  intros Hb. unfold while. apply moves_bind; [|intros []; [apply moves_diverge|apply moves_ret]]. intros s r s'. rewrite run_pos_nat.
  generalize (Pos.to_nat fuel) as n. intros n. revert a s r s'.
  induction n as [|n IH]; intros a; [apply moves_ret|]. cbn [run_nat]. apply moves_bind; [done|]. intros [a'|b]; [exact (IH a')|apply moves_ret].
Qed.
Lemma moves_for_loop {A B} lo n a (body : Z → A → M S (A + B)) : (∀ i a, moves R (body i a)) → moves R (for_loop lo n a body).
Proof.
  intros Hb. apply moves_while. intros [i x]. destruct (i <? n); [|apply moves_ret]. apply moves_bind; [done|]. intros []; apply moves_ret.
Qed.
Lemma moves_forM {A} (l : list A) (f : A → M S unit) : (∀ x, moves R (f x)) → moves R (forM l f).
Proof. intros Hf. induction l as [|x l IH]; [apply moves_ret|]. cbn [forM]. by apply moves_bind. Qed.
Lemma moves_when b (m : M S unit) : moves R m → moves R (whenM b m).
Proof. by destruct b; [|intros _; apply moves_ret]. Qed.
Lemma moves_modify f : (∀ s, R s (f s)) → moves R (modify f).
Proof. by intros Hf s b s' [= _ <-]. Qed.
End Moves.

Lemma moves_zoom {S T A} `{Has S T} (RT : T → T → Prop) (RS : S → S → Prop) (m : M T A) :
  (∀ s t, RT (proj s) t → RS s (embed t s)) → moves RT m → moves RS (zoom m).
Proof.
  intros HR Hm s a s'. unfold zoom. destruct (m (proj s)) as [[b t]| | |] eqn:E; try done. intros [= <- <-]. apply HR. by eapply Hm.
Qed.
(** A part whose changes do not matter. *)
Lemma moves_zoom_any {S T A} `{Has S T} (RS : S → S → Prop) (m : M T A) : (∀ s t, RS s (embed t s)) → moves RS (zoom m).
Proof. intros HR. apply (moves_zoom (λ _ _, True)); [by intros|]. by intros s a s' _. Qed.

Ltac moves_step :=
  lazymatch goal with
  | |- ∀ _, _ => intros
  | |- moves _ (_ ≫= _) => apply moves_bind; [typeclasses eauto| |]
  | |- moves _ (mret _) => apply moves_ret; typeclasses eauto
  | |- moves _ getS => apply moves_getS; typeclasses eauto
  | |- moves _ (gets _) => apply moves_gets; typeclasses eauto
  | |- moves _ (crash _) => apply moves_crash
  | |- moves _ (panic _) => apply moves_panic
  | |- moves _ diverge => apply moves_diverge
  | |- moves _ (need _ _) => apply moves_need; typeclasses eauto
  | |- moves _ (aget _ _) => apply moves_aget; typeclasses eauto
  | |- moves _ (aset _ _ _) => apply moves_aset; typeclasses eauto
  | |- moves _ (while _ _ _) => apply moves_while; [typeclasses eauto|]
  | |- moves _ (for_loop _ _ _ _) => apply moves_for_loop; [typeclasses eauto|]
  | |- moves _ (forM _ _) => apply moves_forM; [typeclasses eauto|]
  | |- moves _ (whenM _ _) => apply moves_when; [typeclasses eauto|]
  | |- moves _ (match ?x with _ => _ end) => destruct x
  end.
Ltac moves := repeat (cbv beta zeta; first [solve [eauto 3 with moves nocore] | moves_step]).
