(* ===== verification/Layout.v ===== *)
(** * The address-space layout and the page-entry macros

    [arch/x86/mem/map.h] (the fixed virtual addresses of the kernel) and the
    macros of [arch/x86/mem/mmu.h] (flags, the fields of a page entry, the two
    indices of a virtual address), with their arithmetic.  [page_loop] is the
    shape all loops over page ranges of the memory code have. *)
From Stdlib Require Import ZArith Lia.
From stdpp Require Import base list list_numbers strings.
From S2P Require Import Prelude.
Open Scope Z_scope.
Open Scope u32_scope.

(** ** arch/x86/mem/map.h *)

Definition MEMMAX : Z := 0xFFFFFFFF.
Definition KZERO : Z := 0xC0000000.
Definition KTEXT : Z := 0x00100000 + KZERO.
(** The last 4m is used as a temporary mapping area. *)
Definition KTMPMEM : Z := MEMMAX - (0x400000 - 1).
Definition KSTACK : Z := KZERO.
Definition VGA_TEXT_BASE : Z := 0xB8000 + KZERO.
Definition KBSSTOPHYS (addr : Z) : Z := addr -u KZERO.
Definition PHYSTOKBSS (addr : Z) : Z := addr +u KZERO.

(** ** arch/x86/mem/mmu.h *)

Definition PAGE_PRESENT : Z := Z.shiftl 1 0.
Definition PAGE_RW : Z := Z.shiftl 1 1.
Definition PAGE_USER : Z := Z.shiftl 1 2.
Definition PAGE_EXTENDED : Z := Z.shiftl 1 7.
Definition PAGE_LINK : Z := Z.shiftl 1 9.
Definition PAGE_RESERVED : Z := Z.shiftl 1 10.
Definition PAGE_STACK_END : Z := Z.shiftl 1 1.

Definition PAGE_SIZE : Z := 0x1000.

Definition PAGE_ENTRY (addr flags : Z) : Z := Z.lor addr flags.
Definition PGADDR (addr : Z) : Z := addr - addr mod PAGE_SIZE.

Definition ADDR_PDE (addr : Z) : Z := Z.shiftr addr 22.
Definition ADDR_PTE (addr : Z) : Z := Z.shiftr addr 12 mod 1024.

Definition PDE_ADDR_MASK : Z := 0xFFC00000.
Definition PTE_ADDR_MASK : Z := 0xFFFFF000.
Definition PDE_ADDR (pde : Z) : Z := Z.land pde PDE_ADDR_MASK.
Definition PTE_ADDR (pte : Z) : Z := Z.land pte PTE_ADDR_MASK.
Definition PDE_FLAGS (pde : Z) : Z := Z.land pde (u32 (Z.lnot PDE_ADDR_MASK)).
Definition PTE_FLAGS (pte : Z) : Z := Z.land pte (u32 (Z.lnot PTE_ADDR_MASK)).

Definition NilPgEnt : Z := 0.

(** [(x & flag) != 0]. *)
Definition has_flag (x flag : Z) : bool := negb (Z.land x flag =? 0).

(** ** Loops over pages *)

(** [for (; i < lim; i += PAGE_SIZE) body(i)] on 32-bit addresses.  The address
    comes back to its first value after [2 ^ 20] steps, so a loop that has not
    ended after [2 ^ 20 + 1] iterations never does. *)
Definition page_loop {S} (i lim : Z) (body : Z → M S unit) : M S unit :=
  while 1048577
    (λ i, if i <? lim then body i ;; mret (inl (i +u PAGE_SIZE)) else mret (inr tt)) i.

(** The number of iterations, and the addresses visited, when nothing wraps. *)
Definition page_count (i lim : Z) : nat :=
  Z.to_nat ((lim - i + (PAGE_SIZE - 1)) / PAGE_SIZE).
Definition page_seq (i : Z) (n : nat) : list Z :=
  (λ k, i + PAGE_SIZE * k) <$> seqZ 0 (Z.of_nat n).

(** ** Fields of a page entry *)

Lemma PTE_ADDR_eq x : is_u32 x → PTE_ADDR x = x - x mod 4096.
Proof.
  intros Hx. unfold PTE_ADDR, PTE_ADDR_MASK.
  replace (x - x mod 4096) with (Z.shiftl (Z.shiftr x 12) 12).
  - apply Z.bits_inj'. intros i Hi.
    rewrite Z.land_spec, Z.shiftl_spec by done.
    change 0xFFFFF000 with (Z.shiftl (Z.ones 20) 12).
    rewrite Z.shiftl_spec by done.
    destruct (Z.lt_ge_cases i 12).
    { rewrite !(Z.testbit_neg_r _ (i - 12)) by lia. by rewrite andb_false_r. }
    rewrite Z.shiftr_spec by lia. replace (i - 12 + 12) with i by lia.
    destruct (Z.lt_ge_cases i 32).
    + rewrite Z.ones_spec_low by lia. by rewrite andb_true_r.
    + by rewrite (testbit_small x 32) by lia.
  - rewrite Z.shiftl_mul_pow2, Z.shiftr_div_pow2 by lia.
    change (2 ^ 12) with 4096. zlia.
Qed.

Lemma PTE_FLAGS_eq x : PTE_FLAGS x = x mod 4096.
Proof. unfold PTE_FLAGS. change (u32 (Z.lnot PTE_ADDR_MASK)) with (Z.ones 12). by rewrite Z.land_ones. Qed.

Lemma PDE_ADDR_eq x : is_u32 x → PDE_ADDR x = x - x mod 4194304.
Proof.
  intros Hx. unfold PDE_ADDR, PDE_ADDR_MASK.
  replace (x - x mod 4194304) with (Z.shiftl (Z.shiftr x 22) 22).
  - apply Z.bits_inj'. intros i Hi.
    rewrite Z.land_spec, Z.shiftl_spec by done.
    change 0xFFC00000 with (Z.shiftl (Z.ones 10) 22).
    rewrite Z.shiftl_spec by done.
    destruct (Z.lt_ge_cases i 22).
    { rewrite !(Z.testbit_neg_r _ (i - 22)) by lia. by rewrite andb_false_r. }
    rewrite Z.shiftr_spec by lia. replace (i - 22 + 22) with i by lia.
    destruct (Z.lt_ge_cases i 32).
    + rewrite Z.ones_spec_low by lia. by rewrite andb_true_r.
    + by rewrite (testbit_small x 32) by lia.
  - rewrite Z.shiftl_mul_pow2, Z.shiftr_div_pow2 by lia.
    change (2 ^ 22) with 4194304. zlia.
Qed.

Lemma PDE_FLAGS_eq x : PDE_FLAGS x = x mod 4194304.
Proof. unfold PDE_FLAGS. change (u32 (Z.lnot PDE_ADDR_MASK)) with (Z.ones 22). by rewrite Z.land_ones. Qed.

Lemma lor_add_aligned a f n : 0 ≤ n → a mod 2 ^ n = 0 → 0 ≤ f < 2 ^ n → Z.lor a f = a + f.
Proof.
  intros Hn Ha Hf.
  assert (Hd : Z.land a f = 0).
  { apply Z.bits_inj'. intros i Hi. rewrite Z.land_spec, Z.bits_0.
    destruct (Z.lt_ge_cases i n).
    - rewrite <- (Z.mod_pow2_bits_low a n) by lia. by rewrite Ha, Z.bits_0.
    - rewrite (testbit_small f n) by lia. by rewrite andb_false_r. }
  by rewrite Z.add_nocarry_lxor, Z.lxor_lor.
Qed.

Lemma PAGE_ENTRY_eq a f : a mod 4096 = 0 → 0 ≤ f < 4096 → PAGE_ENTRY a f = a + f.
Proof. intros. unfold PAGE_ENTRY. apply (lor_add_aligned _ _ 12); done. Qed.

Lemma ADDR_PDE_eq v : ADDR_PDE v = v / 4194304.
Proof. unfold ADDR_PDE. by rewrite Z.shiftr_div_pow2. Qed.
Lemma ADDR_PTE_eq v : ADDR_PTE v = (v / 4096) mod 1024.
Proof. unfold ADDR_PTE. by rewrite Z.shiftr_div_pow2. Qed.

#[export] Hint Rewrite PTE_FLAGS_eq PDE_FLAGS_eq ADDR_PDE_eq ADDR_PTE_eq : akarith.
#[export] Hint Rewrite PTE_ADDR_eq PDE_ADDR_eq using lia : akarith.
#[export] Hint Rewrite PAGE_ENTRY_eq using lia : akarith.

Lemma PAGE_ENTRY_bound a f : is_u32 a → is_u32 f → is_u32 (PAGE_ENTRY a f).
Proof. apply lor_bound. lia. Qed.
#[export] Hint Resolve PAGE_ENTRY_bound : ak.

Lemma PGADDR_aligned v : PGADDR v mod 4096 = 0.
Proof. unfold PGADDR, PAGE_SIZE. zlia. Qed.
Lemma PGADDR_id v : v mod 4096 = 0 → PGADDR v = v.
Proof. unfold PGADDR, PAGE_SIZE. lia. Qed.
Lemma PGADDR_bound v : is_u32 v → is_u32 (PGADDR v).
Proof. unfold PGADDR, PAGE_SIZE. zlia. Qed.
#[export] Hint Resolve PGADDR_aligned PGADDR_bound : ak.

Lemma has_flag_bit x j : 0 ≤ j → has_flag x (Z.shiftl 1 j) = Z.testbit x j.
Proof. intros ?. unfold has_flag. rewrite land_shiftl_1_eqb by done. apply negb_involutive. Qed.

(** The flags of an entry are the flags of the word it was made with. *)
Lemma has_flag_entry a f j :
  0 ≤ j < 12 → a mod 4096 = 0 →
  has_flag (PAGE_ENTRY a f) (Z.shiftl 1 j) = has_flag f (Z.shiftl 1 j).
Proof.
  intros ? Ha. rewrite !has_flag_bit by lia. unfold PAGE_ENTRY. rewrite Z.lor_spec.
  rewrite <- (Z.mod_pow2_bits_low a 12) by lia. change (2 ^ 12) with 4096.
  by rewrite Ha, Z.bits_0.
Qed.

(** ** Loops over pages *)

Lemma page_seq_elem i n x :
  x ∈ page_seq i n ↔ ∃ k, 0 ≤ k < Z.of_nat n ∧ x = i + PAGE_SIZE * k.
Proof.
  unfold page_seq. rewrite list_elem_of_fmap. split.
  - intros (k & -> & Hk%elem_of_seqZ). exists k. lia.
  - intros (k & Hk & ->). exists k. split; [done|]. apply elem_of_seqZ. lia.
Qed.

Lemma page_seq_cons i n : page_seq i (S n) = i :: page_seq (i + PAGE_SIZE) n.
Proof.
  unfold page_seq. rewrite seqZ_cons by lia. rewrite fmap_cons.
  f_equal; [unfold PAGE_SIZE; lia|]. replace (Z.pred (Z.of_nat (S n))) with (Z.of_nat n) by lia.
  change (Z.succ 0) with 1. rewrite <- (Z.add_0_r 1) at 1. rewrite <- fmap_add_seqZ.
  rewrite <- list_fmap_compose. apply list_fmap_ext. intros k x Hx. cbn. unfold PAGE_SIZE. lia.
Qed.

Lemma page_count_step i lim : i < lim → page_count i lim = S (page_count (i + PAGE_SIZE) lim).
Proof. unfold page_count, PAGE_SIZE. intros ?. zlia. Qed.

Lemma page_count_0 i lim : lim ≤ i → page_count i lim = 0%nat.
Proof. unfold page_count, PAGE_SIZE. intros ?. zlia. Qed.

Lemma page_count_bound i lim :
  0 ≤ i → lim < 2 ^ 32 → Z.of_nat (page_count i lim) ≤ 1048576.
Proof. unfold page_count, PAGE_SIZE. intros ? ?. zlia. Qed.

(** As long as the limit leaves room for one more page, the loop is a traversal
    of the pages from [i] on that start below the limit. *)
Lemma page_loop_forM {S} i lim (body : Z → M S unit) s :
  0 ≤ i → is_u32 i → lim ≤ 2 ^ 32 - PAGE_SIZE →
  page_loop i lim body s = forM (page_seq i (page_count i lim)) body s.
Proof.
  intros Hi Hi32 Hlim. unfold page_loop, while.
  set (bd := λ i : Z, if i <? lim then _ else _).
  assert (Hbd : ∀ a, bd a = if a <? lim then body a ;; mret (inl (a +u PAGE_SIZE))
                            else mret (inr tt)) by done.
  assert (K : ∀ n i s fuel, is_u32 i → page_count i lim = n → (n < fuel)%nat →
    (r ← run_nat fuel bd i; match r with inl _ => diverge | inr b => mret b end) s
    = forM (page_seq i n) body s).
  { induction n as [|n IH]; intros a s1 fuel Ha En Hf; (destruct fuel as [|fuel]; [lia|]).
    - cbn [run_nat]. rewrite (Hbd a). destruct (Z.ltb_spec a lim).
      { rewrite page_count_step in En by done. lia. } reflexivity.
    - cbn [run_nat]. rewrite (Hbd a). destruct (Z.ltb_spec a lim); [|by rewrite page_count_0 in En].
      rewrite page_count_step in En by done. injection En as En.
      rewrite page_seq_cons. cbn [forM]. rewrite !bind_assoc.
      apply bind_ext; [done|]. intros [] s2.
      change ((r ← run_nat fuel bd (a +u PAGE_SIZE);
               match r with inl _ => diverge | inr b => mret b end) s2
              = forM (page_seq (a + PAGE_SIZE) n) body s2).
      unfold PAGE_SIZE in *.
      rewrite u32_small by lia. apply IH; [lia|done|lia]. }
  transitivity ((r ← run_nat (Pos.to_nat 1048577) bd i;
                 match r with inl _ => diverge | inr b => mret b end) s).
  { apply bind_ext; [apply run_pos_nat|done]. }
  apply K; [lia|done|]. unfold PAGE_SIZE in *.
  pose proof (page_count_bound i lim ltac:(lia) ltac:(lia)). lia.
Qed.
