(* ===== verification/FrameAlloc.v ===== *)
(** * The physical frame allocator

    [arch/x86/mem/framealloc.c]: a bitmap with one bit per 4k frame, preceded by
    a pool of eight static frames used before the bitmap exists.  The record
    [frames] is the file's static variables; [frame_used] is the abstract view of
    the bitmap (the predicate the operations are specified with). *)
From Stdlib Require Import ZArith Lia.
From stdpp Require Import base gmap list list_numbers strings.
From S2P Require Import Prelude Layout.
Open Scope Z_scope.
Open Scope u32_scope.

(** ** State *)

Definition BITS_PER_ENTRY : Z := 8 * 4.
Definition BIT_IDX (x : Z) : Z := x / BITS_PER_ENTRY.
Definition BIT_OFFSET (x : Z) : Z := x mod BITS_PER_ENTRY.
Definition ADDR_PAGE (x : Z) : Z := x / PAGE_SIZE.

Definition PreallocMaxCount : Z := 8.

(** The statics of the file.  [FrameBitmap] is the array it points to (empty
    while the pointer is NULL); [PreallocFrames] is the link address of the
    static array of that name. *)
Record frames : Type := mkFrames {
  FrameAllocInitialized : bool;
  FrameBitmap : list Z;
  FrameCount : Z;
  PreallocFrames : Z;
  PreallocCount : Z
}.

Definition with_bitmap (bm : list Z) (s : frames) : frames :=
  mkFrames (FrameAllocInitialized s) bm (FrameCount s) (PreallocFrames s) (PreallocCount s).
Definition with_prealloc (n : Z) (s : frames) : frames :=
  mkFrames (FrameAllocInitialized s) (FrameBitmap s) (FrameCount s) (PreallocFrames s) n.

(** ** Operations *)

(** [malloc]ed room for the bitmap, filled with ones. *)
Definition frame_alloc_init (mem_max : Z) : M frames unit :=
  modify (λ s,
    let fc := ADDR_PAGE mem_max in
    let count := BIT_IDX fc in
    mkFrames true (replicate (Z.to_nat count) 0xFFFFFFFF) fc
             (PreallocFrames s) (PreallocCount s)).

Definition frame_clear (ptr : Z) : M frames unit :=
  s ← getS;
  if negb (FrameAllocInitialized s) then mret tt
  else
    let entry := ADDR_PAGE ptr in
    let idx := BIT_IDX entry in
    let off := BIT_OFFSET entry in
    w ← aget (FrameBitmap s) idx;
    bm ← aset (FrameBitmap s) idx (Z.land w (u32 (Z.lnot (Z.shiftl 1 off))));
    putS (with_bitmap bm s).

Definition frame_set (ptr : Z) : M frames unit :=
  s ← getS;
  if negb (FrameAllocInitialized s) then mret tt
  else
    let entry := ADDR_PAGE ptr in
    let idx := BIT_IDX entry in
    let off := BIT_OFFSET entry in
    w ← aget (FrameBitmap s) idx;
    bm ← aset (FrameBitmap s) idx (Z.lor w (Z.shiftl 1 off));
    putS (with_bitmap bm s).

Definition frame_clear_range (begin end_ : Z) : M frames unit :=
  page_loop begin (end_ +u PAGE_SIZE) frame_clear.

Definition frame_set_range (begin end_ : Z) : M frames unit :=
  page_loop begin (end_ +u PAGE_SIZE) frame_set.

Definition frame_test (ptr : Z) : M frames bool :=
  s ← getS;
  let entry := ADDR_PAGE ptr in
  let idx := BIT_IDX entry in
  let off := BIT_OFFSET entry in
  w ← aget (FrameBitmap s) idx;
  mret (negb (Z.land w (Z.shiftl 1 off) =? 0)).

(** The inner loop of [frame_alloc_after]: the first clear bit among [js]. *)
Fixpoint scan_bits (w : Z) (js : list Z) : option Z :=
  match js with
  | [] => None
  | j :: js' => if Z.land w (Z.shiftl 1 j) =? 0 then Some j else scan_bits w js'
  end.

Definition frame_alloc_after (addr : Z) : M frames Z :=
  s ← getS;
  while 4294967297
    (λ i,
       if i <? FrameCount s then
         w ← aget (FrameBitmap s) i;
         if w =? 0xFFFFFFFF then mret (inl (i +u 1))
         else match scan_bits w (seqZ 0 BITS_PER_ENTRY) with
              | Some j => mret (inr (u32 ((i * BITS_PER_ENTRY + j) * PAGE_SIZE)))
              | None => mret (inl (i +u 1))
              end
       else panic "Out of memory")
    (ADDR_PAGE addr).

Definition frame_alloc : M frames Z :=
  s ← getS;
  if negb (FrameAllocInitialized s) then
    if PreallocCount s =? PreallocMaxCount then panic "Out of preallocated frames"
    else
      putS (with_prealloc (PreallocCount s + 1) s) ;;
      mret (KBSSTOPHYS (PreallocFrames s + PAGE_SIZE * PreallocCount s))
  else frame_alloc_after 0.

(** The loop variables are [i] and [f0]; the body restarts the scan with [i = 0],
    which the loop header then increments. *)
Definition frame_alloc_4m : M frames Z :=
  s ← getS;
  let bytecount := BIT_IDX (FrameCount s) in
  while 4294967297
    (λ '(i, f0),
       if (i <? 32) && (f0 <? bytecount) then
         w ← aget (FrameBitmap s) (f0 + i);
         if negb (w =? 0) then
           let i := 0 in
           let f0 := f0 + i + 1 in
           mret (inl (i + 1, f0))
         else mret (inl (i + 1, f0))
       else mret (inr (u32 (f0 * BITS_PER_ENTRY * PAGE_SIZE))))
    (0, 0).

(** ** Specification *)

(** The bitmap is there and has one word per 32 frames. *)
Record frames_ok (s : frames) : Prop := {
  fo_init : FrameAllocInitialized s = true;
  fo_count : 0 ≤ FrameCount s ≤ 2 ^ 20;
  fo_len : Z.of_nat (length (FrameBitmap s)) = BIT_IDX (FrameCount s);
  fo_words : Forall (λ w, is_u32 w) (FrameBitmap s)
}.

(** The same, as a check that computes. *)
Definition frames_okb (s : frames) : bool :=
  FrameAllocInitialized s && (0 <=? FrameCount s) && (FrameCount s <=? 2 ^ 20) &&
  (Z.of_nat (length (FrameBitmap s)) =? BIT_IDX (FrameCount s)) &&
  forallb (λ w, (0 <=? w) && (w <? 2 ^ 32)) (FrameBitmap s).

(** The frame at [a] has a bit in the bitmap. *)
Definition frame_in (s : frames) (a : Z) : Prop :=
  0 ≤ a ∧ BIT_IDX (ADDR_PAGE a) < Z.of_nat (length (FrameBitmap s)).

(** The frame at [a] is marked allocated. *)
Definition frame_used (s : frames) (a : Z) : bool :=
  match lookupZ (FrameBitmap s) (BIT_IDX (ADDR_PAGE a)) with
  | Some w => Z.testbit w (BIT_OFFSET (ADDR_PAGE a))
  | None => true
  end.

(** The number of free frames. *)
Definition free_frames (s : frames) : nat :=
  length (filter (λ p, frame_used s (p * PAGE_SIZE) = false)
                 (seqZ 0 (32 * Z.of_nat (length (FrameBitmap s))))).

Definition same_frame (a b : Z) : bool := ADDR_PAGE a =? ADDR_PAGE b.

(** What [frame_set] and [frame_clear] do to the bitmap. *)
Definition set_frame (a : Z) (s : frames) : frames :=
  let i := BIT_IDX (ADDR_PAGE a) in
  match lookupZ (FrameBitmap s) i with
  | Some w => with_bitmap (insertZ i (Z.lor w (Z.shiftl 1 (BIT_OFFSET (ADDR_PAGE a)))) (FrameBitmap s)) s
  | None => s
  end.
Definition clear_frame (a : Z) (s : frames) : frames :=
  let i := BIT_IDX (ADDR_PAGE a) in
  match lookupZ (FrameBitmap s) i with
  | Some w => with_bitmap (insertZ i (Z.land w (u32 (Z.lnot (Z.shiftl 1 (BIT_OFFSET (ADDR_PAGE a))))))
                                   (FrameBitmap s)) s
  | None => s
  end.

Lemma frames_okb_ok s : frames_okb s = true → frames_ok s.
Proof.
  unfold frames_okb. rewrite !andb_true_iff, !Z.leb_le, Z.eqb_eq, forallb_forall.
  intros ((((? & ?) & ?) & ?) & Hw). split; try done. apply Forall_forall.
  intros w Hin%list_elem_of_In%Hw. apply andb_true_iff in Hin as [?%Z.leb_le ?%Z.ltb_lt]. done.
Qed.

(** ** Single frames *)

Lemma BIT_IDX_eq x : BIT_IDX x = x / 32.
Proof. done. Qed.
Lemma BIT_OFFSET_bound x : 0 ≤ BIT_OFFSET x < 32.
Proof. unfold BIT_OFFSET, BITS_PER_ENTRY. zlia. Qed.
#[export] Hint Resolve BIT_OFFSET_bound : ak.

Lemma frame_in_lookup s a :
  frame_in s a → ∃ w, lookupZ (FrameBitmap s) (BIT_IDX (ADDR_PAGE a)) = Some w.
Proof.
  intros [? ?]. apply lookupZ_is_Some. split; [|done].
  unfold BIT_IDX, ADDR_PAGE, BITS_PER_ENTRY, PAGE_SIZE. zlia.
Qed.

Lemma bitmap_word s i w : frames_ok s → lookupZ (FrameBitmap s) i = Some w → is_u32 w.
Proof.
  intros Hs. unfold lookupZ. destruct (0 <=? i); [|done]. intros Hw.
  by apply (Forall_lookup_1 _ _ _ _ (fo_words s Hs) Hw).
Qed.

Lemma frame_test_used s a : frame_in s a → frame_test a s = Ret (frame_used s a, s).
Proof.
  intros Ha. destruct (frame_in_lookup s a Ha) as [w Hw].
  unfold frame_test, frame_used. rewrite (bind_ret _ _ s s s) by done. cbv zeta.
  rewrite (bind_ret _ _ s w s) by (by apply aget_Some).
  rewrite land_shiftl_1_eqb by (pose proof (BIT_OFFSET_bound (ADDR_PAGE a)); lia).
  by rewrite Hw, negb_involutive.
Qed.

Lemma frame_set_eq s a :
  FrameAllocInitialized s = true → frame_in s a → frame_set a s = Ret (tt, set_frame a s).
Proof.
  intros Hi Ha. destruct (frame_in_lookup s a Ha) as [w Hw].
  unfold frame_set, set_frame. rewrite (bind_ret _ _ s s s) by done. rewrite Hi. cbn [negb]. cbv zeta.
  rewrite (bind_ret _ _ s w s) by (by apply aget_Some). rewrite Hw.
  by rewrite (bind_ret _ _ s _ s) by (apply aset_ok; by apply lookupZ_lt in Hw).
Qed.

Lemma frame_clear_eq s a :
  FrameAllocInitialized s = true → frame_in s a → frame_clear a s = Ret (tt, clear_frame a s).
Proof.
  intros Hi Ha. destruct (frame_in_lookup s a Ha) as [w Hw].
  unfold frame_clear, clear_frame. rewrite (bind_ret _ _ s s s) by done. rewrite Hi. cbn [negb]. cbv zeta.
  rewrite (bind_ret _ _ s w s) by (by apply aget_Some). rewrite Hw.
  by rewrite (bind_ret _ _ s _ s) by (apply aset_ok; by apply lookupZ_lt in Hw).
Qed.

Lemma same_frame_idx a b :
  0 ≤ a → 0 ≤ b → same_frame a b =
  ((BIT_IDX (ADDR_PAGE a) =? BIT_IDX (ADDR_PAGE b)) && (BIT_OFFSET (ADDR_PAGE a) =? BIT_OFFSET (ADDR_PAGE b))).
Proof.
  intros. unfold same_frame, BIT_IDX, BIT_OFFSET, BITS_PER_ENTRY. set (x := ADDR_PAGE a). set (y := ADDR_PAGE b).
  apply eq_true_iff_eq. rewrite andb_true_iff, !Z.eqb_eq. zlia.
Qed.

Lemma frame_used_set s a b :
  frame_in s a → 0 ≤ b → frame_used (set_frame a s) b = same_frame a b || frame_used s b.
Proof.
  intros Ha Hb. destruct (frame_in_lookup s a Ha) as [w Hw].
  pose proof (BIT_OFFSET_bound (ADDR_PAGE a)). pose proof (BIT_OFFSET_bound (ADDR_PAGE b)).
  pose proof (lookupZ_lt _ _ _ Hw).
  unfold frame_used, set_frame. rewrite Hw. cbn [FrameBitmap with_bitmap].
  rewrite same_frame_idx by (destruct Ha; lia).
  destruct (Z.eqb_spec (BIT_IDX (ADDR_PAGE a)) (BIT_IDX (ADDR_PAGE b))) as [E|E].
  - rewrite <- E, lookupZ_insert_eq, Hw by done. rewrite Z.lor_spec, testbit_shiftl_1 by lia.
    rewrite orb_comm. cbn [andb]. f_equal. case_bool_decide; destruct (Z.eqb_spec (BIT_OFFSET (ADDR_PAGE a)) (BIT_OFFSET (ADDR_PAGE b))); try done; lia.
  - by rewrite lookupZ_insert_ne by (try done; lia).
Qed.

Lemma frame_used_clear s a b :
  frame_in s a → 0 ≤ b → frame_used (clear_frame a s) b = negb (same_frame a b) && frame_used s b.
Proof.
  intros Ha Hb. destruct (frame_in_lookup s a Ha) as [w Hw].
  pose proof (BIT_OFFSET_bound (ADDR_PAGE a)). pose proof (BIT_OFFSET_bound (ADDR_PAGE b)).
  pose proof (lookupZ_lt _ _ _ Hw).
  unfold frame_used, clear_frame. rewrite Hw. cbn [FrameBitmap with_bitmap].
  rewrite same_frame_idx by (destruct Ha; lia).
  destruct (Z.eqb_spec (BIT_IDX (ADDR_PAGE a)) (BIT_IDX (ADDR_PAGE b))) as [E|E].
  - rewrite <- E, lookupZ_insert_eq, Hw by done.
    rewrite Z.land_spec, testbit_u32, Z.lnot_spec, testbit_shiftl_1 by lia.
    rewrite andb_comm. cbn [andb]. f_equal. case_bool_decide; destruct (Z.eqb_spec (BIT_OFFSET (ADDR_PAGE a)) (BIT_OFFSET (ADDR_PAGE b))); try done; lia.
  - by rewrite lookupZ_insert_ne by (try done; lia).
Qed.

(** ** The invariant *)

Lemma frames_ok_bitmap s bm :
  frames_ok s → length bm = length (FrameBitmap s) → Forall (λ w, is_u32 w) bm →
  frames_ok (with_bitmap bm s).
Proof. intros [] El Hw. split; cbn; try done. lia. Qed.

Lemma Forall_insertZ (P : Z → Prop) (l : list Z) i x : Forall P l → P x → Forall P (insertZ i x l).
Proof. intros. by apply Forall_insert. Qed.

Lemma shiftl_1_bound j : 0 ≤ j < 32 → is_u32 (Z.shiftl 1 j).
Proof.
  intros ?. rewrite Z.shiftl_1_l. split; [apply Z.pow_nonneg; lia|].
  apply Z.pow_lt_mono_r; lia.
Qed.

Lemma set_frame_ok s a : frames_ok s → frames_ok (set_frame a s).
Proof.
  intros Hs. unfold set_frame. destruct (lookupZ _ _) as [w|] eqn:Hw; [|done].
  apply frames_ok_bitmap; [done|apply length_insertZ|].
  apply Forall_insertZ; [apply Hs|]. apply lor_bound; [lia|by eapply bitmap_word|].
  apply shiftl_1_bound. auto with ak.
Qed.

Lemma clear_frame_ok s a : frames_ok s → frames_ok (clear_frame a s).
Proof.
  intros Hs. unfold clear_frame. destruct (lookupZ _ _) as [w|] eqn:Hw; [|done].
  apply frames_ok_bitmap; [done|apply length_insertZ|].
  apply Forall_insertZ; [apply Hs|]. apply land_bound_l; [lia|by eapply bitmap_word].
Qed.

Lemma set_frame_in s a b : frame_in (set_frame a s) b ↔ frame_in s b.
Proof.
  unfold frame_in, set_frame. destruct (lookupZ _ _); [|done].
  cbn [FrameBitmap with_bitmap]. by rewrite length_insertZ.
Qed.

Lemma clear_frame_in s a b : frame_in (clear_frame a s) b ↔ frame_in s b.
Proof.
  unfold frame_in, clear_frame. destruct (lookupZ _ _); [|done].
  cbn [FrameBitmap with_bitmap]. by rewrite length_insertZ.
Qed.

Lemma set_frame_init s a : FrameAllocInitialized (set_frame a s) = FrameAllocInitialized s.
Proof. unfold set_frame. by destruct (lookupZ _ _). Qed.
Lemma clear_frame_init s a : FrameAllocInitialized (clear_frame a s) = FrameAllocInitialized s.
Proof. unfold clear_frame. by destruct (lookupZ _ _). Qed.
#[export] Hint Resolve set_frame_ok clear_frame_ok : ak.
#[export] Hint Rewrite set_frame_init clear_frame_init : akarith.

Lemma frame_used_out s a : frame_used s a = false → 0 ≤ a → frame_in s a.
Proof.
  unfold frame_used. destruct (lookupZ _ _) as [w|] eqn:E; [|done]. intros _ ?.
  split; [done|]. apply lookupZ_lt in E. lia.
Qed.

(** ** Allocation *)

Lemma scan_bits_Some w js j :
  Forall (λ j, 0 ≤ j) js → scan_bits w js = Some j →
  j ∈ js ∧ Z.testbit w j = false.
Proof.
  induction 1 as [|k js Hk Hjs IH]; [done|]. cbn [scan_bits].
  rewrite land_shiftl_1_eqb by done. destruct (Z.testbit w k) eqn:E; cbn [negb].
  - intros [? ?]%IH. split; [by apply list_elem_of_further|done].
  - intros [= <-]. split; [apply list_elem_of_here|done].
Qed.

Lemma scan_bits_None w js :
  Forall (λ j, 0 ≤ j) js → scan_bits w js = None → Forall (λ j, Z.testbit w j = true) js.
Proof.
  induction 1 as [|k js Hk Hjs IH]; [done|]. cbn [scan_bits].
  rewrite land_shiftl_1_eqb by done. destruct (Z.testbit w k) eqn:E; cbn [negb]; [|done].
  intros ?. constructor; auto.
Qed.

(** Within [js] sorted as [n, n+1, ...], everything before the result is set. *)
Lemma scan_bits_first w n m j :
  0 ≤ n → scan_bits w (seqZ n m) = Some j →
  ∀ k, n ≤ k < j → Z.testbit w k = true.
Proof.
  intros Hn. remember (seqZ n m) as js eqn:Ejs. revert n m Hn Ejs.
  induction js as [|x js IH]; intros n m Hn Ejs; [done|]. cbn [scan_bits].
  destruct (Z.le_gt_cases m 0); [by rewrite seqZ_nil in Ejs|].
  rewrite seqZ_cons in Ejs by lia. injection Ejs as -> Ejs.
  rewrite land_shiftl_1_eqb by done.
  destruct (Z.testbit w n) eqn:E; cbn [negb].
  - intros Hs k Hk. destruct (Z.eq_dec k n) as [->|]; [done|].
    apply (IH (Z.succ n) (Z.pred m)); [lia|done|done|lia].
  - intros [= <-] k Hk. lia.
Qed.

Lemma seqZ_nonneg n : Forall (λ j, 0 ≤ j) (seqZ 0 n).
Proof. apply Forall_forall. intros j Hj%elem_of_seqZ. lia. Qed.

Lemma word_full w : is_u32 w → Forall (λ j, Z.testbit w j = true) (seqZ 0 32) → w = 0xFFFFFFFF.
Proof.
  intros Hw Hb. change 0xFFFFFFFF with (Z.ones 32). apply Z.bits_inj'. intros i Hi.
  destruct (Z.lt_ge_cases i 32).
  - rewrite Z.ones_spec_low by lia. rewrite Forall_forall in Hb. apply Hb.
    apply elem_of_seqZ. lia.
  - rewrite Z.ones_spec_high by lia. by apply (testbit_small _ 32).
Qed.

Lemma full_word_bits i : 0 ≤ i < 32 → Z.testbit 0xFFFFFFFF i = true.
Proof. intros. change 0xFFFFFFFF with (Z.ones 32). by apply Z.ones_spec_low. Qed.

Lemma frame_used_word s i j w :
  lookupZ (FrameBitmap s) i = Some w → 0 ≤ j < 32 →
  frame_used s ((i * 32 + j) * PAGE_SIZE) = Z.testbit w j.
Proof.
  intros Hw Hj. pose proof (lookupZ_lt _ _ _ Hw).
  assert (E : ADDR_PAGE ((i * 32 + j) * PAGE_SIZE) = i * 32 + j)
    by (unfold ADDR_PAGE, PAGE_SIZE; zlia).
  unfold frame_used. rewrite E.
  assert (Ei : BIT_IDX (i * 32 + j) = i) by (unfold BIT_IDX, BITS_PER_ENTRY; zlia).
  assert (Ej : BIT_OFFSET (i * 32 + j) = j) by (unfold BIT_OFFSET, BITS_PER_ENTRY; zlia).
  by rewrite Ei, Hw, Ej.
Qed.

(** The frames before word [i] are all allocated. *)
Definition full_below (s : frames) (i : Z) : Prop :=
  ∀ a, 0 ≤ a → BIT_IDX (ADDR_PAGE a) < i → frame_used s a = true.

Lemma frame_used_addr s a : 0 ≤ a →
  ∃ i j, 0 ≤ i ∧ 0 ≤ j < 32 ∧ i = BIT_IDX (ADDR_PAGE a) ∧ j = BIT_OFFSET (ADDR_PAGE a) ∧
    ADDR_PAGE a = i * 32 + j ∧ frame_used s a = frame_used s ((i * 32 + j) * PAGE_SIZE).
Proof.
  intros Ha. exists (BIT_IDX (ADDR_PAGE a)), (BIT_OFFSET (ADDR_PAGE a)).
  assert (E : ADDR_PAGE a = BIT_IDX (ADDR_PAGE a) * 32 + BIT_OFFSET (ADDR_PAGE a))
    by (unfold BIT_IDX, BIT_OFFSET, BITS_PER_ENTRY; zlia).
  assert (0 ≤ ADDR_PAGE a) by (unfold ADDR_PAGE, PAGE_SIZE; zlia).
  split; [unfold BIT_IDX, BITS_PER_ENTRY; zlia|]. split; [auto with ak|].
  do 3 (split; [done|]). rewrite <- E.
  unfold frame_used.
  by replace (ADDR_PAGE (ADDR_PAGE a * PAGE_SIZE)) with (ADDR_PAGE a)
    by (unfold ADDR_PAGE, PAGE_SIZE; zlia).
Qed.

Lemma full_below_0 s : full_below s 0.
Proof.
  intros a Ha Hi. exfalso. revert Hi. unfold BIT_IDX, ADDR_PAGE, BITS_PER_ENTRY, PAGE_SIZE. zlia.
Qed.

Lemma full_below_step s i w :
  lookupZ (FrameBitmap s) i = Some w → Forall (λ j, Z.testbit w j = true) (seqZ 0 32) →
  full_below s i → full_below s (i + 1).
Proof.
  intros Hw Hbits Hfull a Ha Hia.
  destruct (Z.eq_dec (BIT_IDX (ADDR_PAGE a)) i) as [Ei|]; [|apply Hfull; lia].
  destruct (frame_used_addr s a Ha) as (i' & j & ? & ? & ? & ? & ? & ->).
  rewrite (frame_used_word s i' j w) by (first [lia|congruence]).
  rewrite Forall_forall in Hbits. apply Hbits, elem_of_seqZ. lia.
Qed.

Lemma full_below_end s b i :
  full_below s i → 0 ≤ b → frame_used s b = false → i < Z.of_nat (length (FrameBitmap s)).
Proof.
  intros Hfull Hb Hfree. destruct (frame_used_out s b Hfree Hb) as [_ ?].
  destruct (Z.lt_ge_cases i (Z.of_nat (length (FrameBitmap s)))); [done|].
  rewrite Hfull in Hfree; [done|done|lia].
Qed.

Lemma lowest_in_word s i j w :
  lookupZ (FrameBitmap s) i = Some w → full_below s i → 0 ≤ j < 32 →
  Z.testbit w j = false → (∀ k, 0 ≤ k < j → Z.testbit w k = true) →
  let a := (i * 32 + j) * PAGE_SIZE in
  frame_used s a = false ∧ ∀ c, 0 ≤ c < a → frame_used s c = true.
Proof.
  intros Hw Hfull Hj Hbit Hfirst a. pose proof (lookupZ_lt _ _ _ Hw).
  split; [unfold a; by rewrite (frame_used_word s i j w)|]. intros c Hc.
  destruct (frame_used_addr s c ltac:(lia)) as (i' & j' & ? & ? & ? & ? & Hpc & ->).
  assert (i' * 32 + j' < i * 32 + j) by (unfold a, ADDR_PAGE, PAGE_SIZE in *; zlia).
  destruct (Z.eq_dec i' i) as [->|].
  - rewrite (frame_used_word s i j' w) by done. apply Hfirst. lia.
  - apply Hfull; [unfold PAGE_SIZE; lia|].
    unfold BIT_IDX, ADDR_PAGE, BITS_PER_ENTRY, PAGE_SIZE. zlia.
Qed.

(** With a free frame in the bitmap, the scan returns the lowest one. *)
Lemma frame_alloc_lowest s b :
  frames_ok s → 0 ≤ b → frame_used s b = false →
  ∃ a, frame_alloc s = Ret (a, s) ∧ is_u32 a ∧ a mod PAGE_SIZE = 0 ∧
       frame_in s a ∧ frame_used s a = false ∧
       (∀ c, 0 ≤ c < a → frame_used s c = true).
Proof.
  intros Hs Hb Hfree. unfold frame_alloc. rewrite (bind_ret _ _ s s s) by done.
  rewrite (fo_init s Hs). cbn [negb]. unfold frame_alloc_after.
  rewrite (bind_ret _ _ s s s) by done. change (ADDR_PAGE 0) with 0.
  pose proof (fo_len s Hs) as Hlen. pose proof (fo_count s Hs) as Hcount.
  set (n := Z.of_nat (length (FrameBitmap s))) in *.
  assert (Hn : n * 32 ≤ FrameCount s) by (rewrite Hlen; unfold BIT_IDX, BITS_PER_ENTRY; zlia).
  edestruct (while_total
    (λ i s', s' = s ∧ 0 ≤ i < n ∧ full_below s i) (λ i _, n - i)
    (λ a s', s' = s ∧ is_u32 a ∧ a mod PAGE_SIZE = 0 ∧ frame_in s a ∧
             frame_used s a = false ∧ ∀ c, 0 ≤ c < a → frame_used s c = true))
    as (a & s' & E & -> & HQ); [| | |by exists a].
  - intros i s' (-> & Hi & Hfull). destruct (Z.ltb_spec i (FrameCount s)); [|lia].
    destruct (lookupZ_is_Some (FrameBitmap s) i Hi) as [w Hw].
    rewrite (bind_ret _ _ s w s) by (by apply aget_Some).
    destruct (Z.eqb_spec w 0xFFFFFFFF) as [->|Hw1].
    + left. exists (i + 1), s. rewrite u32_small by lia. split; [done|].
      assert (Hfull' : full_below s (i + 1)).
      { apply (full_below_step s i _ Hw); [|done]. apply Forall_forall.
        intros j Hj%elem_of_seqZ. apply full_word_bits. lia. }
      pose proof (full_below_end s b _ Hfull' Hb Hfree). split_and!; try done; lia.
    + right. change BITS_PER_ENTRY with 32.
      destruct (scan_bits w (seqZ 0 32)) as [j|] eqn:Ej; last first.
      { exfalso. apply Hw1, word_full; [by eapply bitmap_word|].
        by apply scan_bits_None in Ej; [|apply seqZ_nonneg]. }
      pose proof (scan_bits_first w 0 32 j ltac:(done) Ej) as Hfirst.
      apply scan_bits_Some in Ej as [Hj%elem_of_seqZ Hbit]; [|apply seqZ_nonneg].
      destruct (lowest_in_word s i j w Hw Hfull ltac:(lia) Hbit Hfirst) as [Hfr Hlow].
      assert (is_u32 ((i * 32 + j) * PAGE_SIZE)) by (unfold PAGE_SIZE; lia).
      eexists _, s. rewrite u32_small by done. split; [done|].
      split_and!; try done; try lia; [unfold PAGE_SIZE; zlia|].
      apply frame_used_out; [done|lia].
  - pose proof (full_below_end s b 0 (full_below_0 s) Hb Hfree).
    split_and!; [done|done|done|apply full_below_0].
  - cbv beta. lia.
Qed.

(** ** Exhaustion *)

Lemma run_full_words s :
  frames_ok s → Forall (λ w, w = 0xFFFFFFFF) (FrameBitmap s) →
  ∀ k, Z.of_nat k ≤ Z.of_nat (length (FrameBitmap s)) →
  run_nat k
    (λ i,
       if i <? FrameCount s then
         w ← aget (FrameBitmap s) i;
         if w =? 0xFFFFFFFF then mret (inl (i +u 1))
         else match scan_bits w (seqZ 0 BITS_PER_ENTRY) with
              | Some j => mret (inr (u32 ((i * BITS_PER_ENTRY + j) * PAGE_SIZE)))
              | None => mret (inl (i +u 1))
              end
       else panic "Out of memory") 0 s = Ret (inl (Z.of_nat k), s).
Proof.
  intros Hs Hfull. pose proof (fo_len s Hs) as Hlen. pose proof (fo_count s Hs).
  unfold BIT_IDX, BITS_PER_ENTRY in Hlen.
  induction k as [|k IH]; intros Hk; [done|].
  apply (run_nat_snoc _ _ _ _ _ _ _ _ (IH ltac:(lia))). cbv beta.
  destruct (Z.ltb_spec (Z.of_nat k) (FrameCount s)); [|zlia].
  destruct (lookupZ_is_Some (FrameBitmap s) (Z.of_nat k) ltac:(lia)) as [w Hw].
  rewrite (bind_ret _ _ s w s) by (by apply aget_Some).
  assert (w = 0xFFFFFFFF) as ->.
  { unfold lookupZ in Hw. destruct (0 <=? Z.of_nat k); [|done].
    by apply (Forall_lookup_1 _ _ _ _ Hfull Hw). }
  cbn [Z.eqb Pos.eqb]. rewrite u32_small by zlia.
  by replace (Z.of_nat (S k)) with (Z.of_nat k + 1) by lia.
Qed.

Lemma frame_alloc_full s :
  frames_ok s → 0 < FrameCount s → Forall (λ w, w = 0xFFFFFFFF) (FrameBitmap s) →
  frame_alloc s = Fault OutOfBounds.
Proof.
  intros Hs Hpos Hfull. pose proof (fo_len s Hs) as Hlen. pose proof (fo_count s Hs).
  unfold BIT_IDX, BITS_PER_ENTRY in Hlen.
  unfold frame_alloc. rewrite (bind_ret _ _ s s s) by done.
  rewrite (fo_init s Hs). cbn [negb]. unfold frame_alloc_after.
  rewrite (bind_ret _ _ s s s) by done. change (ADDR_PAGE 0) with 0.
  eapply while_steps_fault; [apply (run_full_words s Hs Hfull); reflexivity|zlia|].
  cbv beta. destruct (Z.ltb_spec (Z.of_nat (length (FrameBitmap s))) (FrameCount s)); [|zlia].
  apply bind_fault, aget_oob. lia.
Qed.

Lemma frame_alloc_empty s :
  FrameAllocInitialized s = true → FrameCount s = 0 → frame_alloc s = Panic "Out of memory".
Proof.
  intros Hi Hc. unfold frame_alloc. rewrite (bind_ret _ _ s s s) by done. rewrite Hi. cbn [negb].
  unfold frame_alloc_after. rewrite (bind_ret _ _ s s s) by done. rewrite Hc. reflexivity.
Qed.

(** A bitmap word that is not full has a free frame. *)
Lemma frame_free_dec s :
  frames_ok s →
  Forall (λ w, w = 0xFFFFFFFF) (FrameBitmap s) ∨ ∃ b, 0 ≤ b ∧ frame_used s b = false.
Proof.
  intros Hs. destruct (decide (Forall (λ w, w = 0xFFFFFFFF) (FrameBitmap s))) as [|Hn]; [by left|].
  right. apply not_Forall_Exists, Exists_exists in Hn as (w & Hw & Hne); [|tc_solve].
  apply list_elem_of_lookup in Hw as [i Hw].
  assert (Hwz : lookupZ (FrameBitmap s) (Z.of_nat i) = Some w).
  { unfold lookupZ. destruct (Z.leb_spec 0 (Z.of_nat i)); [|lia]. by rewrite Nat2Z.id. }
  destruct (scan_bits w (seqZ 0 32)) as [j|] eqn:Ej.
  - apply scan_bits_Some in Ej as [Hj%elem_of_seqZ Hb]; [|apply seqZ_nonneg].
    exists ((Z.of_nat i * 32 + j) * PAGE_SIZE). split; [unfold PAGE_SIZE; lia|].
    by rewrite (frame_used_word s _ j w) by (first [done|lia]).
  - exfalso. apply Hne, word_full; [by eapply bitmap_word|].
    by apply scan_bits_None in Ej; [|apply seqZ_nonneg].
Qed.

(** Whatever [frame_alloc] returns was free. *)
Lemma frame_alloc_free s a s' :
  frames_ok s → frame_alloc s = Ret (a, s') →
  s' = s ∧ is_u32 a ∧ a mod PAGE_SIZE = 0 ∧ frame_in s a ∧ frame_used s a = false.
Proof.
  intros Hs E. destruct (frame_free_dec s Hs) as [Hfull|(b & Hb & Hfree)].
  - destruct (Z.eq_dec (FrameCount s) 0) as [H0|].
    + by rewrite frame_alloc_empty in E by (first [done|apply Hs]).
    + pose proof (fo_count s Hs). by rewrite frame_alloc_full in E by (first [done|lia]).
  - destruct (frame_alloc_lowest s b Hs Hb Hfree) as (a' & E' & ? & ? & ? & ? & _).
    rewrite E in E'. by injection E' as -> ->.
Qed.

(** ** Taking and giving back frames *)

(** The pattern [frame = frame_alloc(); frame_set(frame);] of every caller. *)
Definition frame_take : M frames Z := a ← frame_alloc; frame_set a ;; mret a.

Lemma frame_take_ok s a s' :
  frames_ok s → frame_take s = Ret (a, s') →
  s' = set_frame a s ∧ is_u32 a ∧ a mod PAGE_SIZE = 0 ∧ frame_in s a ∧ frame_used s a = false.
Proof.
  intros Hs (a' & s1 & E & K)%bind_inv.
  apply frame_alloc_free in E as (-> & Ha & Hal & Hin & Hfree); [|done].
  rewrite (bind_ret _ _ s tt (set_frame a' s)) in K by (apply frame_set_eq; [apply Hs|done]).
  by injection K as <- <-.
Qed.

Lemma frame_take_lowest s b :
  frames_ok s → 0 ≤ b → frame_used s b = false →
  ∃ a, frame_take s = Ret (a, set_frame a s) ∧ is_u32 a ∧ a mod PAGE_SIZE = 0 ∧
       frame_in s a ∧ frame_used s a = false ∧ ∀ c, 0 ≤ c < a → frame_used s c = true.
Proof.
  intros Hs Hb Hfree. destruct (frame_alloc_lowest s b Hs Hb Hfree) as (a & E & ? & ? & Hin & ? & ?).
  exists a. split; [|done]. unfold frame_take. rewrite (bind_ret _ _ _ _ _ E).
  by rewrite (bind_ret _ _ s tt (set_frame a s)) by (apply frame_set_eq; [apply Hs|done]).
Qed.

Lemma same_frame_aligned a b :
  a mod PAGE_SIZE = 0 → b mod PAGE_SIZE = 0 → same_frame a b = (a =? b).
Proof.
  unfold same_frame, ADDR_PAGE, PAGE_SIZE. intros. apply eq_true_iff_eq. rewrite !Z.eqb_eq. zlia.
Qed.

(** The frames left. *)
Lemma length_filter_one {A} (P Q : A → Prop) `{!∀ x, Decision (P x), !∀ x, Decision (Q x)} l x :
  NoDup l → x ∈ l → P x → (∀ y, Q y ↔ P y ∧ y ≠ x) →
  length (filter P l) = S (length (filter Q l)).
Proof.
  intros Hnd Hx HP HQ. induction Hnd as [|y l Hy Hnd IH]; [by apply not_elem_of_nil in Hx|].
  rewrite !filter_cons. apply elem_of_cons in Hx as [->|Hx].
  - rewrite decide_True by done. rewrite decide_False by (rewrite HQ; tauto). cbn.
    do 2 f_equal. apply list_filter_ext_in. intros z Hz. rewrite HQ.
    split; [|tauto]. intros ?. split; [done|]. by intros ->.
  - assert (y ≠ x) by (by intros ->). destruct (decide (P y)).
    + rewrite decide_True by (by apply HQ). cbn. by rewrite IH.
    + rewrite decide_False by (rewrite HQ; tauto). by apply IH.
Qed.

Lemma free_frames_pos s : (1 ≤ free_frames s)%nat → ∃ b, 0 ≤ b ∧ frame_used s b = false.
Proof.
  unfold free_frames. destruct (filter _ _) as [|p l] eqn:E; cbn; [lia|]. intros _.
  assert (Hp : p ∈ p :: l) by apply list_elem_of_here. rewrite <- E in Hp.
  apply list_elem_of_filter in Hp as [Hf Hp%elem_of_seqZ].
  exists (p * PAGE_SIZE). split; [unfold PAGE_SIZE; lia|done].
Qed.

Lemma free_frames_set s a :
  frame_in s a → a mod PAGE_SIZE = 0 → frame_used s a = false →
  free_frames s = S (free_frames (set_frame a s)).
Proof.
  intros Hin Hal Hf. unfold free_frames.
  replace (length (FrameBitmap (set_frame a s))) with (length (FrameBitmap s)); last first.
  { unfold set_frame. destruct (lookupZ _ _); [|done]. cbn. by rewrite length_insertZ. }
  assert (Ea : ADDR_PAGE a * PAGE_SIZE = a) by (unfold ADDR_PAGE, PAGE_SIZE in *; zlia).
  assert (0 ≤ a) by apply Hin.
  apply (length_filter_one _ _ _ (ADDR_PAGE a)).
  - apply NoDup_seqZ.
  - apply elem_of_seqZ. destruct Hin as [? Hin]. unfold BIT_IDX, BITS_PER_ENTRY in Hin.
    split; [unfold ADDR_PAGE, PAGE_SIZE; zlia|zlia].
  - by rewrite Ea.
  - intros y. destruct (Z.lt_ge_cases y 0).
    + unfold frame_used, set_frame. rewrite <- Ea at 1.
      assert (BIT_IDX (ADDR_PAGE (y * PAGE_SIZE)) < 0) by (unfold BIT_IDX, ADDR_PAGE, BITS_PER_ENTRY, PAGE_SIZE; zlia).
      assert (∀ l : list Z, lookupZ l (BIT_IDX (ADDR_PAGE (y * PAGE_SIZE))) = None) as HN
        by (intros l; apply lookupZ_None; lia). rewrite !HN. split; [done|by intros [? _]].
    + rewrite frame_used_set by (first [done|unfold PAGE_SIZE; lia]).
      rewrite same_frame_aligned by (first [done|unfold PAGE_SIZE; zlia]).
      destruct (Z.eqb_spec a (y * PAGE_SIZE)) as [E|Hne]; cbn [orb].
      * split; [done|]. intros [_ Hy]. exfalso. apply Hy. unfold ADDR_PAGE, PAGE_SIZE in *. zlia.
      * split; [|tauto]. intros ->. split; [done|]. intros ->. by rewrite Ea in Hne.
Qed.

(** Taking a frame while [n + 1] are left. *)
Lemma frame_take_avail s n :
  frames_ok s → (S n ≤ free_frames s)%nat →
  ∃ a, frame_take s = Ret (a, set_frame a s) ∧ is_u32 a ∧ a mod PAGE_SIZE = 0 ∧
       frame_in s a ∧ frame_used s a = false ∧ (n ≤ free_frames (set_frame a s))%nat.
Proof.
  intros Hs Hn. destruct (free_frames_pos s ltac:(lia)) as (b & Hb & Hfb).
  destruct (frame_take_lowest s b Hs Hb Hfb) as (a & E & ? & ? & Hin & Hfree & _).
  exists a. split_and!; try done; try lia.
  rewrite (free_frames_set s a) in Hn by done. lia.
Qed.

(** The allocator together with the set of frames its clients hold. *)
Inductive frame_step : frames * gset Z → frames * gset Z → Prop :=
| step_take s s' own a :
    frame_take s = Ret (a, s') → frame_step (s, own) (s', {[a]} ∪ own)
| step_give s s' own a :
    a ∈ own → frame_clear a s = Ret (tt, s') → frame_step (s, own) (s', own ∖ {[a]}).

(** Held frames are aligned, inside the bitmap and marked. *)
Definition held_ok (c : frames * gset Z) : Prop :=
  frames_ok c.1 ∧
  ∀ a, a ∈ c.2 → 0 ≤ a ∧ a mod PAGE_SIZE = 0 ∧ frame_in c.1 a ∧ frame_used c.1 a = true.


Lemma frame_step_held c c' : frame_step c c' → held_ok c → held_ok c'.
Proof.
  intros Hst [Hs Hown]. destruct Hst as [s s' own a E|s s' own a Ha E]; cbn [fst snd] in *.
  - apply frame_take_ok in E as (-> & Ha & Hal & Hin & Hfree); [|done].
    split; [by apply set_frame_ok|]. cbn [fst snd]. intros b. rewrite elem_of_union, elem_of_singleton. intros [->|Hb].
    + split_and!; [lia|done|by apply set_frame_in|]. rewrite frame_used_set by (done || lia).
      unfold same_frame. by rewrite Z.eqb_refl.
    + destruct (Hown b Hb) as (? & ? & ? & Hub). split_and!; [done|done|by apply set_frame_in|].
      rewrite frame_used_set by done. by rewrite Hub, orb_true_r.
  - destruct (Hown a Ha) as (Ha0 & Hal & Hin & _).
    rewrite frame_clear_eq in E by (first [apply Hs|done]). injection E as <-.
    split; [by apply clear_frame_ok|]. cbn [fst snd]. intros b. rewrite elem_of_difference, elem_of_singleton. intros [Hb Hne]. destruct (Hown b Hb) as (? & Hbl & ? & Hub).
    split_and!; [done|done|by apply clear_frame_in|]. rewrite frame_used_clear by done.
    rewrite same_frame_aligned, Hub by done. by destruct (Z.eqb_spec a b); [congruence|].
Qed.

Lemma frame_steps_held c c' : rtc frame_step c c' → held_ok c → held_ok c'.
Proof. induction 1; [done|]. intros ?. eauto using frame_step_held. Qed.

(** ** Ranges *)

(** The frames a range operation visits: those of the pages from the one of
    [begin] on that start below [end_ + PAGE_SIZE]. *)
Definition in_range (begin end_ b : Z) : bool :=
  (ADDR_PAGE begin <=? ADDR_PAGE b) && (ADDR_PAGE b * PAGE_SIZE <? end_ + PAGE_SIZE).

Lemma in_range_spec begin end_ b :
  0 ≤ begin → begin mod PAGE_SIZE = 0 → 0 ≤ b →
  in_range begin end_ b =
  existsb (λ a, same_frame a b) (page_seq begin (page_count begin (end_ + PAGE_SIZE))).
Proof.
  intros H0 Hal Hb. apply eq_true_iff_eq. unfold in_range.
  rewrite andb_true_iff, Z.leb_le, Z.ltb_lt, existsb_exists. split.
  - intros [H1 H2]. exists (ADDR_PAGE b * PAGE_SIZE). split.
    + apply list_elem_of_In, page_seq_elem. exists (ADDR_PAGE b - ADDR_PAGE begin).
      unfold ADDR_PAGE, page_count, PAGE_SIZE in *. zlia.
    + unfold same_frame. apply Z.eqb_eq. unfold ADDR_PAGE, PAGE_SIZE. zlia.
  - intros (a & (k & Hk & ->)%list_elem_of_In%page_seq_elem & E).
    unfold same_frame in E. apply Z.eqb_eq in E.
    unfold ADDR_PAGE, page_count, PAGE_SIZE in *. zlia.
Qed.

(** A traversal that sets, or clears, the frame of each address. *)
Lemma forM_frames (op : Z → M frames unit) (upd : Z → frames → frames) (f : bool → bool → bool) l s :
  (∀ s a, FrameAllocInitialized s = true → frame_in s a → op a s = Ret (tt, upd a s)) →
  (∀ s a, frames_ok s → frames_ok (upd a s)) →
  (∀ s a b, frame_in (upd a s) b ↔ frame_in s b) →
  (∀ s a b, frame_in s a → 0 ≤ b → frame_used (upd a s) b = f (same_frame a b) (frame_used s b)) →
  (∀ u, f false u = u) → (∀ x u, f true (f x u) = f true u) →
  frames_ok s → Forall (frame_in s) l →
  ∃ s', forM l op s = Ret (tt, s') ∧ frames_ok s' ∧ (∀ b, frame_in s' b ↔ frame_in s b) ∧
        ∀ b, 0 ≤ b → frame_used s' b = f (existsb (λ a, same_frame a b) l) (frame_used s b).
Proof.
  intros Hop Hok Hin Hused Hf0 Hf1 Hs Hl. rewrite Forall_forall in Hl.
  apply (forM_total op (λ l1 s', frames_ok s' ∧ (∀ b, frame_in s' b ↔ frame_in s b) ∧
    ∀ b, 0 ≤ b → frame_used s' b = f (existsb (λ a, same_frame a b) l1) (frame_used s b))).
  - intros l1 x l2 s1 El (Hs1 & Hin1 & Hu1).
    assert (Hx : frame_in s1 x) by (apply Hin1, Hl; rewrite El; apply elem_of_app; right; apply list_elem_of_here).
    exists (upd x s1). split; [apply Hop; [apply Hs1|done]|]. split; [by apply Hok|].
    split; [intros b; by rewrite Hin|]. intros b Hb. rewrite Hused, Hu1 by done.
    rewrite existsb_app. cbn [existsb]. rewrite orb_false_r.
    destruct (same_frame x b); [by rewrite Hf1, orb_true_r|by rewrite Hf0, orb_false_r].
  - split; [done|]. split; [done|]. intros b Hb. by rewrite Hf0.
Qed.

Lemma range_in s begin end_ :
  0 ≤ begin → frame_in s (end_ + PAGE_SIZE) →
  Forall (frame_in s) (page_seq begin (page_count begin (end_ + PAGE_SIZE))).
Proof.
  intros H0 [? Hin]. apply Forall_forall. intros a (k & Hk & ->)%page_seq_elem.
  split; [unfold PAGE_SIZE; lia|]. eapply Z.le_lt_trans; [|exact Hin].
  unfold BIT_IDX, ADDR_PAGE, page_count, BITS_PER_ENTRY, PAGE_SIZE in *. zlia.
Qed.

Section Ranges.
Context (s : frames) (begin end_ : Z).
Hypothesis Hs : frames_ok s.
Hypothesis Hbegin : is_u32 begin.
Hypothesis Halign : begin mod PAGE_SIZE = 0.
Hypothesis Hend : 0 ≤ end_ ≤ 2 ^ 32 - 2 * PAGE_SIZE.
Hypothesis Hin : frame_in s (end_ + PAGE_SIZE).

Lemma frame_set_range_spec :
  ∃ s', frame_set_range begin end_ s = Ret (tt, s') ∧ frames_ok s' ∧
        (∀ b, frame_in s' b ↔ frame_in s b) ∧
        ∀ b, 0 ≤ b → frame_used s' b = in_range begin end_ b || frame_used s b.
Proof.
  destruct (forM_frames frame_set set_frame orb
              (page_seq begin (page_count begin (end_ + PAGE_SIZE))) s)
    as (s' & E & Hs' & Hin' & Hu); try done.
  - intros. by apply frame_set_eq.
  - intros. by apply set_frame_ok.
  - intros. by apply set_frame_in.
  - intros. by apply frame_used_set.
  - apply range_in; [lia|done].
  - exists s'. split; [|split; [done|split; [done|]]].
    + unfold frame_set_range. rewrite u32_small by (unfold PAGE_SIZE in *; lia).
      rewrite page_loop_forM; [done|lia|done|lia].
    + intros b Hb. by rewrite Hu, in_range_spec by (done || lia).
Qed.

Lemma frame_clear_range_spec :
  ∃ s', frame_clear_range begin end_ s = Ret (tt, s') ∧ frames_ok s' ∧
        (∀ b, frame_in s' b ↔ frame_in s b) ∧
        ∀ b, 0 ≤ b → frame_used s' b = negb (in_range begin end_ b) && frame_used s b.
Proof.
  destruct (forM_frames frame_clear clear_frame (λ x u, negb x && u)
              (page_seq begin (page_count begin (end_ + PAGE_SIZE))) s)
    as (s' & E & Hs' & Hin' & Hu); try done.
  - intros. by apply frame_clear_eq.
  - intros. by apply clear_frame_ok.
  - intros. by apply clear_frame_in.
  - intros. by apply frame_used_clear.
  - apply range_in; [lia|done].
  - exists s'. split; [|split; [done|split; [done|]]].
    + unfold frame_clear_range. rewrite u32_small by (unfold PAGE_SIZE in *; lia).
      rewrite page_loop_forM; [done|lia|done|lia].
    + intros b Hb. by rewrite Hu, in_range_spec by (done || lia).
Qed.
End Ranges.

(** ** 4m blocks *)

Lemma frame_alloc_4m_run s w1 :
  frames_ok s → 33 ≤ Z.of_nat (length (FrameBitmap s)) →
  lookupZ (FrameBitmap s) 0 ≠ Some 0 →
  lookupZ (FrameBitmap s) 1 = Some w1 →
  (∀ i, 2 ≤ i ≤ 32 → lookupZ (FrameBitmap s) i = Some 0) →
  frame_alloc_4m s = Ret (0x20000, s).
Proof.
  intros Hs Hlen Hw0 Hw1 Hz. pose proof (fo_len s Hs) as Hc.
  unfold frame_alloc_4m. rewrite (bind_ret _ _ s s s) by done. cbv zeta. rewrite <- Hc.
  set (n := Z.of_nat (length (FrameBitmap s))) in *.
  assert (Hrun : ∀ k, (k < 32)%nat → run_nat (S k)
    (λ '(i, f0),
       if (i <? 32) && (f0 <? n) then
         w ← aget (FrameBitmap s) (f0 + i);
         if negb (w =? 0) then
           let i := 0 in
           let f0 := f0 + i + 1 in
           mret (inl (i + 1, f0))
         else mret (inl (i + 1, f0))
       else mret (inr (u32 (f0 * BITS_PER_ENTRY * PAGE_SIZE))))
    (0, 0) s = Ret (inl (Z.of_nat (S k), 1), s)).
  { induction k as [|k IH]; intros Hk.
    - cbn [run_nat]. destruct (Z.ltb_spec 0 n); [|lia]. cbn [andb Z.ltb Z.compare].
      destruct (lookupZ_is_Some (FrameBitmap s) 0 ltac:(lia)) as [w Hw].
      rewrite bind_assoc, (bind_ret _ _ s w s) by (by apply aget_Some).
      destruct (Z.eqb_spec w 0) as [->|]; [by rewrite Hw in Hw0|]. reflexivity.
    - apply (run_nat_snoc _ _ _ _ _ _ _ _ (IH ltac:(lia))).
      destruct (Z.ltb_spec (Z.of_nat (S k)) 32); [|lia]. destruct (Z.ltb_spec 1 n); [|lia].
      cbn [andb]. rewrite (bind_ret _ _ s 0 s) by (apply aget_Some, Hz; lia).
      cbn [negb Z.eqb]. by replace (Z.of_nat (S k) + 1) with (Z.of_nat (S (S k))) by lia. }
  eapply while_steps_leave; [apply (Hrun 31%nat); lia|lia|reflexivity].
Qed.

(** Two 32-frame words: the first is full, three frames of the second are used. *)
Definition demo_frames : frames := mkFrames true [0xFFFFFFFF; 0x7] 64 0xC0300000 0.
(** Room for the 4m search: words 0 and 1 have used frames, the rest is free. *)
Definition demo_frames_4m : frames :=
  mkFrames true ([1; 0xFF] ++ replicate 32 0) 1088 0xC0300000 0.

(** ** Properties *)

(** [frame_set] marks exactly the frame of its argument, [frame_clear] frees
    exactly that frame, and [frame_test] reads the mark back, for every frame of
    the bitmap; the bitmap invariant is kept. *)
Theorem frame_bit_ops s a b :
  frames_ok s → frame_in s a → frame_in s b →
  (∃ s', frame_set a s = Ret (tt, s') ∧ frames_ok s' ∧
         frame_test b s' = Ret (same_frame a b || frame_used s b, s')) ∧
  (∃ s', frame_clear a s = Ret (tt, s') ∧ frames_ok s' ∧
         frame_test b s' = Ret (negb (same_frame a b) && frame_used s b, s')).
Proof.
  intros Hs Ha Hb. pose proof (fo_init s Hs). split.
  - exists (set_frame a s). split; [by apply frame_set_eq|]. split; [by apply set_frame_ok|].
    rewrite frame_test_used by (by apply set_frame_in). by rewrite frame_used_set by apply Hb || done.
  - exists (clear_frame a s). split; [by apply frame_clear_eq|]. split; [by apply clear_frame_ok|].
    rewrite frame_test_used by (by apply clear_frame_in). by rewrite frame_used_clear by apply Hb || done.
Qed.

Lemma frame_bit_ops_witness :
  (∃ s', frame_set 0x23000 demo_frames = Ret (tt, s') ∧ frames_ok s' ∧
         frame_test 0x23000 s' = Ret (true, s')) ∧
  (∃ s', frame_clear 0x23000 demo_frames = Ret (tt, s') ∧ frames_ok s' ∧
         frame_test 0x23000 s' = Ret (false, s')).
Proof.
  apply (frame_bit_ops demo_frames 0x23000 0x23000);
    [by apply frames_okb_ok|split; vm_compute; congruence..].
Defined.

(** C39: on an initialised allocator with a free frame, [frame_alloc] succeeds
    without changing the state and returns the page-aligned address of the
    lowest free frame. *)
Theorem frame_alloc_first_fit s b :
  frames_ok s → 0 ≤ b → frame_used s b = false →
  ∃ a, frame_alloc s = Ret (a, s) ∧ is_u32 a ∧ a mod PAGE_SIZE = 0 ∧
       frame_used s a = false ∧ ∀ c, 0 ≤ c < a → frame_used s c = true.
Proof.
  intros Hs Hb Hf. destruct (frame_alloc_lowest s b Hs Hb Hf) as (a & ? & ? & ? & ? & ? & ?).
  by exists a.
Qed.

Lemma frame_alloc_first_fit_witness :
  ∃ a, frame_alloc demo_frames = Ret (a, demo_frames) ∧ is_u32 a ∧ a mod PAGE_SIZE = 0 ∧
       frame_used demo_frames a = false ∧ ∀ c, 0 ≤ c < a → frame_used demo_frames c = true.
Proof. apply (frame_alloc_first_fit demo_frames 0x3F000); [by apply frames_okb_ok|done|done]. Defined.

(** C3: no frame is handed out twice.  Along any sequence of allocations (the
    pattern [frame_alloc]; [frame_set] of all callers) and releases by holders,
    starting with nothing held, a newly allocated frame is held by nobody, is
    marked afterwards, and everything held stays marked. *)
Theorem frame_no_double_allocation s0 s own a s' :
  frames_ok s0 → rtc frame_step (s0, ∅) (s, own) → frame_take s = Ret (a, s') →
  (a ∉ own) ∧ frame_used s a = false ∧ frame_used s' a = true ∧
  ∀ b, b ∈ own → frame_used s' b = true.
Proof.
  intros Hs0 Hrun E.
  assert (H0 : held_ok (s0, ∅)) by (split; [done|set_solver]).
  pose proof (frame_steps_held _ _ Hrun H0) as [Hs Hown]. cbn [fst snd] in *.
  pose proof (frame_step_held _ _ (step_take s s' own a E) (conj Hs Hown)) as [Hs' Hown'].
  cbn [fst snd] in *. apply frame_take_ok in E as (-> & ? & ? & ? & Hfree); [|done].
  split_and!.
  - intros Ha. destruct (Hown a Ha) as (_ & _ & _ & Hu). by rewrite Hu in Hfree.
  - done.
  - apply Hown', elem_of_union_l, elem_of_singleton_2. done.
  - intros b Hb. by apply Hown', elem_of_union_r.
Qed.

Lemma frame_no_double_allocation_witness :
  ∃ s', frame_take demo_frames = Ret (0x23000, s') ∧
  ((0x23000 ∉ (∅ : gset Z)) ∧ frame_used demo_frames 0x23000 = false ∧
   frame_used s' 0x23000 = true ∧ ∀ b, b ∈ (∅ : gset Z) → frame_used s' b = true).
Proof.
  eexists. split; [reflexivity|].
  apply (frame_no_double_allocation demo_frames demo_frames);
    [by apply frames_okb_ok|apply rtc_refl|reflexivity].
Defined.

(** The range operations act on exactly the frames of the pages that start
    in [begin, end_ + PAGE_SIZE): one page more than the half-open range of the
    arguments when [end_] is page aligned.  No other frame changes. *)
Theorem frame_range_exact s begin end_ :
  frames_ok s → is_u32 begin → begin mod PAGE_SIZE = 0 →
  0 ≤ end_ ≤ 2 ^ 32 - 2 * PAGE_SIZE → frame_in s (end_ + PAGE_SIZE) →
  (∃ s', frame_set_range begin end_ s = Ret (tt, s') ∧ frames_ok s' ∧
         ∀ b, 0 ≤ b → frame_used s' b = in_range begin end_ b || frame_used s b) ∧
  (∃ s', frame_clear_range begin end_ s = Ret (tt, s') ∧ frames_ok s' ∧
         ∀ b, 0 ≤ b → frame_used s' b = negb (in_range begin end_ b) && frame_used s b).
Proof.
  intros Hs Hb Hal He Hin. split.
  - destruct (frame_set_range_spec s begin end_) as (s' & ? & ? & _ & ?); try done. by exists s'.
  - destruct (frame_clear_range_spec s begin end_) as (s' & ? & ? & _ & ?); try done. by exists s'.
Qed.

Lemma frame_range_exact_witness :
  (∃ s', frame_set_range 0x24000 0x26000 demo_frames = Ret (tt, s') ∧ frames_ok s' ∧
         ∀ b, 0 ≤ b → frame_used s' b = in_range 0x24000 0x26000 b || frame_used demo_frames b) ∧
  (∃ s', frame_clear_range 0x24000 0x26000 demo_frames = Ret (tt, s') ∧ frames_ok s' ∧
         ∀ b, 0 ≤ b → frame_used s' b = negb (in_range 0x24000 0x26000 b) && frame_used demo_frames b).
Proof.
  apply (frame_range_exact demo_frames 0x24000 0x26000);
    [by apply frames_okb_ok|done|done|done|split; vm_compute; congruence].
Defined.

(** [frame_alloc_4m] can hand out allocated memory.  After a word with a used
    frame it moves on without testing the first word of the new candidate, so
    with used frames in words 0 and 1 it returns the block that starts at word 1;
    the block overlaps an allocated frame and is not 4m aligned, although the
    page-directory entry made from it only keeps the 4m-aligned part. *)
Theorem frame_alloc_4m_overlap s w1 j :
  frames_ok s → 33 ≤ Z.of_nat (length (FrameBitmap s)) →
  lookupZ (FrameBitmap s) 0 ≠ Some 0 →
  lookupZ (FrameBitmap s) 1 = Some w1 → 0 ≤ j < 32 → Z.testbit w1 j = true →
  (∀ i, 2 ≤ i ≤ 32 → lookupZ (FrameBitmap s) i = Some 0) →
  ∃ a c, frame_alloc_4m s = Ret (a, s) ∧ a ≤ c < a + 1024 * PAGE_SIZE ∧
         frame_used s c = true ∧ PDE_ADDR a ≠ a.
Proof.
  intros Hs Hlen Hw0 Hw1 Hj Hbit Hz. exists 0x20000, ((1 * 32 + j) * PAGE_SIZE).
  split; [by eapply frame_alloc_4m_run|]. split; [unfold PAGE_SIZE; lia|].
  split; [by rewrite (frame_used_word s 1 j w1)|done].
Qed.

Lemma frame_alloc_4m_overlap_witness :
  ∃ a c, frame_alloc_4m demo_frames_4m = Ret (a, demo_frames_4m) ∧
         a ≤ c < a + 1024 * PAGE_SIZE ∧ frame_used demo_frames_4m c = true ∧ PDE_ADDR a ≠ a.
Proof.
  apply (frame_alloc_4m_overlap demo_frames_4m 0xFF 0); try done.
  - by apply frames_okb_ok.
  - intros i Hi. unfold demo_frames_4m; cbn [FrameBitmap].
    assert (Hin : i ∈ seqZ 2 31) by (apply elem_of_seqZ; lia). clear Hi; revert i Hin.
    apply Forall_forall. vm_compute. repeat constructor.
Defined.

(** An allocator whose bitmap is full does not reach its PANIC: the word loop
    runs up to [FrameCount] (the number of frames) instead of the number of
    words, and reads past the end of the bitmap. *)
Theorem frame_alloc_full_out_of_bounds s :
  frames_ok s → 0 < FrameCount s → (∀ b, frame_in s b → frame_used s b = true) →
  frame_alloc s = Fault OutOfBounds.
Proof.
  intros Hs Hpos Hall. apply frame_alloc_full; [done|done|].
  destruct (frame_free_dec s Hs) as [|(b & Hb & Hf)]; [done|].
  by rewrite Hall in Hf by (by apply frame_used_out).
Qed.

Lemma frame_alloc_full_out_of_bounds_witness :
  frame_alloc (mkFrames true [0xFFFFFFFF] 32 0xC0300000 0) = Fault OutOfBounds.
Proof.
  apply frame_alloc_full_out_of_bounds; [by apply frames_okb_ok|done|].
  intros b [Hb Hin]. cbn in Hin. unfold frame_used. cbn [FrameBitmap].
  assert (BIT_IDX (ADDR_PAGE b) = 0) as -> by
    (revert Hin; unfold BIT_IDX, ADDR_PAGE, BITS_PER_ENTRY, PAGE_SIZE; zlia).
  apply full_word_bits. auto with ak.
Defined.
