(* ===== verification/Mmu.v ===== *)
(** * Page tables and the temporary mapping window

    [arch/x86/mem/mmu.c].  The record [vm] holds the frame allocator's state,
    physical memory (32-bit words at 4-byte aligned addresses, unset words read
    0), the page table [TmpPageTbl] behind the window at [KTMPMEM], and the flag
    [MMUReady].  The kernel reaches page directories and tables only through that
    window; [vload] and [vstore] translate window addresses through [TmpPageTbl]
    as the processor does, and fault on a slot that is not present.  The TLB is not
    modelled: every change of a slot or entry is followed by the invalidation of
    the address in the source.

    The functions read two fields of the task they act on; these are passed as an
    [mmu_task] because nothing in this file changes them. *)
From Stdlib Require Import ZArith Lia.
From stdpp Require Import base gmap list list_numbers strings.
From S2P Require Import Prelude Layout FrameAlloc.
Open Scope Z_scope.
Open Scope u32_scope.

(** ** State *)

Record vm : Type := mkVm {
  vm_frames : frames;
  phys : gmap Z Z;
  TmpPageTbl : list Z;
  MMUReady : bool
}.

(** The fields of a [task_t] the memory code reads. *)
Record mmu_task : Type := mkMmuTask { mt_pid : Z; mt_pgd : Z }.

Definition with_frames (f : frames) (s : vm) : vm := mkVm f (phys s) (TmpPageTbl s) (MMUReady s).
Definition with_phys (m : gmap Z Z) (s : vm) : vm := mkVm (vm_frames s) m (TmpPageTbl s) (MMUReady s).
Definition with_tmp (t : list Z) (s : vm) : vm := mkVm (vm_frames s) (phys s) t (MMUReady s).
Definition with_ready (b : bool) (s : vm) : vm := mkVm (vm_frames s) (phys s) (TmpPageTbl s) b.

#[export] Program Instance vm_has_frames : Has vm frames :=
  {| proj := vm_frames; embed := with_frames |}.
Next Obligation. done. Qed.
Next Obligation. done. Qed.
Next Obligation. by intros []. Qed.

(** A word of physical memory. *)
Definition rd (m : gmap Z Z) (a : Z) : Z := default 0 (m !! a).

(** ** Flags *)

Definition BASE_FLAGS : Z := Z.lor PAGE_PRESENT PAGE_RW.
Definition USER_FLAGS : Z := Z.lor BASE_FLAGS PAGE_USER.
Definition KERNEL_FLAGS : Z := Z.lor BASE_FLAGS PAGE_LINK.
Definition KERNEL_LOW_4M : Z := PAGE_ENTRY 0 (Z.lor KERNEL_FLAGS PAGE_EXTENDED).
Definition KERNEL_PID : Z := 0.

Definition mmu_is_ready : M vm bool := gets MMUReady.

(** ** The window *)

(** The physical address behind an address of the window. *)
Definition tmp_translate (v : Z) : M vm Z :=
  if v <? KTMPMEM then crash BadAccess
  else
    s ← getS;
    e ← aget (TmpPageTbl s) (ADDR_PTE v);
    if has_flag e PAGE_PRESENT then mret (PTE_ADDR e + v mod PAGE_SIZE)
    else crash BadAccess.

Definition vload (v : Z) : M vm Z :=
  p ← tmp_translate v;
  gets (λ s, rd (phys s) p).
Definition vstore (v x : Z) : M vm unit :=
  p ← tmp_translate v;
  modify (λ s, with_phys (<[p := x]> (phys s)) s).

(** The byte at [v]: one of the four of its word. *)
Definition vload8 (v : Z) : M vm Z :=
  w ← vload (v - v mod 4);
  mret (Z.land (Z.shiftr w (8 * (v mod 4))) 0xFF).

(** [memset(p, 0, 4 * n)] and [memcpy(d, s, 4 * n)] on words, [memcpy(_, s, n)]
    on bytes (the bytes read). *)
Definition vclear (p : Z) (n : Z) : M vm unit :=
  forM (seqZ 0 n) (λ i, vstore (p + 4 * i) 0).
Definition vcopy (d p : Z) (n : Z) : M vm unit :=
  forM (seqZ 0 n) (λ i, x ← vload (p + 4 * i); vstore (d + 4 * i) x).
Fixpoint vbytes (p : Z) (n : nat) : M vm (list Z) :=
  match n with
  | O => mret []
  | S n' => b ← vload8 p; bs ← vbytes (p + 1) n'; mret (b :: bs)
  end.

(** The loop of [pg_free_tmp_map], from index [i]. *)
Fixpoint first_free (i : Z) (tbl : list Z) : Z :=
  match tbl with
  | [] => -1
  | e :: tbl' => if e =? 0 then i else first_free (i + 1) tbl'
  end.
Definition pg_free_tmp_map : M vm Z := gets (λ s, first_free 0 (TmpPageTbl s)).

Definition pg_tmp_map (addr : Z) : M vm Z :=
  entry ← pg_free_tmp_map;
  if entry =? -1 then panic "Out of free temporary mapping pages"
  else
    let tmpaddr := KTMPMEM + entry * PAGE_SIZE in
    s ← getS;
    tbl ← aset (TmpPageTbl s) entry (PAGE_ENTRY addr KERNEL_FLAGS);
    putS (with_tmp tbl s) ;;
    mret tmpaddr.

Definition pg_tmp_unmap (mapping : Z) : M vm unit :=
  s ← getS;
  tbl ← aset (TmpPageTbl s) (ADDR_PTE mapping) NilPgEnt;
  putS (with_tmp tbl s).

Definition pg_dir_new : M vm Z :=
  dirframe ← zoom frame_alloc;
  zoom (frame_set dirframe) ;;
  dir ← pg_tmp_map dirframe;
  vclear dir 1024 ;;
  pg_tmp_unmap dir ;;
  mret dirframe.

Section Operations.
(** [CurrentTask]. *)
Context (CurrentTask : mmu_task).

Definition base_flags : Z :=
  let flags := USER_FLAGS in
  if mt_pid CurrentTask =? KERNEL_PID then KERNEL_FLAGS else flags.

(** The block both [pg_write_entry] and [pg_read_entry] open with: a directory
    entry that is nil gets a new, empty table. *)
Definition pg_need_table (dirent : Z) : M vm unit :=
  d ← vload dirent;
  if d =? NilPgEnt then
    let ptflags := base_flags in
    tblframe ← pg_dir_new;
    vstore dirent (PAGE_ENTRY tblframe ptflags)
  else mret tt.

Definition pg_write_entry (pgd_addr vaddr entry : Z) : M vm unit :=
  dir ← pg_tmp_map pgd_addr;
  let dirent := dir + 4 * ADDR_PDE vaddr in
  pg_need_table dirent ;;
  d ← vload dirent;
  let tblframe := PTE_ADDR d in
  table ← pg_tmp_map tblframe;
  vstore (table + 4 * ADDR_PTE vaddr) entry ;;
  pg_tmp_unmap table ;;
  pg_tmp_unmap dir.

Definition pg_read_entry (pgd_addr vaddr : Z) : M vm Z :=
  dir ← pg_tmp_map pgd_addr;
  let dirent := dir + 4 * ADDR_PDE vaddr in
  pg_need_table dirent ;;
  d ← vload dirent;
  let tblframe := PTE_ADDR d in
  table ← pg_tmp_map tblframe;
  entry ← vload (table + 4 * ADDR_PTE vaddr);
  pg_tmp_unmap table ;;
  pg_tmp_unmap dir ;;
  mret entry.

Definition pg_map_ext (paddr vaddr flags : Z) : M vm unit :=
  let entry := PAGE_ENTRY paddr flags in
  pg_write_entry (mt_pgd CurrentTask) (PGADDR vaddr) entry.

Definition pg_unmap_ext (vaddr : Z) : M vm unit :=
  dir ← pg_tmp_map (mt_pgd CurrentTask);
  let dirent := dir + 4 * ADDR_PDE vaddr in
  d ← vload dirent;
  if d =? NilPgEnt then pg_tmp_unmap dir
  else
    vstore dirent NilPgEnt ;;
    pg_tmp_unmap dir.

Definition pg_unmap_low_kernel : M vm unit := pg_unmap_ext 0.

Definition pg_map (paddr vaddr : Z) : M vm unit :=
  let flags := base_flags in
  pg_map_ext paddr vaddr flags.

Definition pg_map_sequence (paddr vaddr length : Z) : M vm unit :=
  page_loop 0 length (λ i, pg_map (paddr +u i) (vaddr +u i)).

Definition pg_unmap (vaddr : Z) : M vm unit :=
  pg_write_entry (mt_pgd CurrentTask) (PGADDR vaddr) NilPgEnt.

Definition pg_alloc (vaddr : Z) : M vm unit :=
  frame ← zoom frame_alloc;
  zoom (frame_set frame) ;;
  pg_map frame vaddr.

(** [flags] is computed and not used. *)
Definition pg_alloc_range (start end_ : Z) (rw : bool) : M vm unit :=
  let flags := base_flags in
  let flags := if rw then Z.lor flags PAGE_RW else flags in
  page_loop start (end_ +u PAGE_SIZE) pg_alloc.

Definition pg_reserve (vaddr : Z) : M vm unit :=
  let flags := base_flags in
  let flags := Z.lor flags PAGE_RESERVED in
  let flags := Z.land flags (u32 (Z.lnot PAGE_PRESENT)) in
  pg_map_ext 0 vaddr flags.

Definition pg_reserve_range (start end_ : Z) (rw : bool) : M vm unit :=
  let flags := base_flags in
  let flags := Z.lor flags PAGE_RESERVED in
  let flags := Z.land flags (u32 (Z.lnot PAGE_PRESENT)) in
  let flags := if rw then Z.lor flags PAGE_RW else flags in
  page_loop start (end_ +u PAGE_SIZE) (λ start, pg_map_ext MEMMAX start flags).

(** The directory entry of [addr], then, for an entry that is not a 4m page, the
    table entry: what the two predicates below inspect. *)
Definition pg_is_allocated (addr : Z) : M vm bool :=
  dir ← pg_tmp_map (mt_pgd CurrentTask);
  pgd ← vload (dir + 4 * ADDR_PDE addr);
  pg_tmp_unmap dir ;;
  if pgd =? NilPgEnt then mret false
  else if Z.land pgd PAGE_PRESENT =? 0 then mret false
  else if negb (Z.land pgd PAGE_EXTENDED =? 0) then mret true
  else
    pt ← pg_tmp_map (PTE_ADDR pgd);
    pte ← vload (pt + 4 * ADDR_PTE addr);
    pg_tmp_unmap pt ;;
    if pte =? NilPgEnt then mret false
    else if Z.land pte PAGE_PRESENT =? 0 then mret false
    else mret true.

Definition pg_is_reserved (addr : Z) : M vm bool :=
  dir ← pg_tmp_map (mt_pgd CurrentTask);
  pgd ← vload (dir + 4 * ADDR_PDE addr);
  pg_tmp_unmap dir ;;
  if pgd =? NilPgEnt then mret false
  else if negb (Z.land pgd PAGE_RESERVED =? 0) && negb (Z.land pgd PAGE_EXTENDED =? 0) then mret true
  else if negb (Z.land pgd PAGE_EXTENDED =? 0) then mret false
  else
    pt ← pg_tmp_map (PTE_ADDR pgd);
    pte ← vload (pt + 4 * ADDR_PTE addr);
    pg_tmp_unmap pt ;;
    if pte =? NilPgEnt then mret false
    else if negb (Z.land pte PAGE_RESERVED =? 0) then mret true
    else mret false.

Definition pg_is_kernel (addr : Z) : bool := (KZERO <=? addr) && (addr <? KTMPMEM).

Definition pg_copy_mapping (dest_pgd src_pgd addr : Z) : M vm unit :=
  entry ← pg_read_entry src_pgd (PGADDR addr);
  if entry =? NilPgEnt then panic "Tried to copy nil page entry"
  else pg_write_entry dest_pgd (PGADDR addr) entry.

(** [UserTask] is the global of that name; [kernel_pgd] is [KernelTask.pgd];
    [fault_addr] is the content of CR2. *)
Definition pg_fault_handler (UserTask : option mmu_task) (kernel_pgd fault_addr : Z) : M vm unit :=
  let rest :=
    r ← pg_is_reserved fault_addr;
    if (r : bool) then
      frame ← zoom frame_alloc;
      zoom (frame_set frame) ;;
      pg_map frame fault_addr
    else panic "Page fault on unreserved page" in
  match UserTask with
  | Some ut => if pg_is_kernel fault_addr
               then pg_copy_mapping (mt_pgd ut) kernel_pgd fault_addr
               else rest
  | None => rest
  end.
End Operations.

(** The bytes [memcpy_phys] stores from [dest] on.  Each iteration copies up to
    the end of a page; at most [2 ^ 20 + 2] pages are involved. *)
Definition memcpy_phys (src len : Z) : M vm (list Z) :=
  while 1048578
    (λ '(x, acc),
       if x <? len then
         let seek := src +u x in
         let pg := PGADDR seek in
         let ofs := seek -u pg in
         let sz := PAGE_SIZE -u ofs in
         let sz := if (len -u x) <? sz then len -u x else sz in
         tmpmap ← pg_tmp_map pg;
         bs ← vbytes (tmpmap + ofs) (Z.to_nat sz);
         pg_tmp_unmap tmpmap ;;
         mret (inl (x +u sz, acc ++ bs))
       else mret (inr acc))
    (0, []).

(** ** Specification *)

(** The number of free slots of the window. *)
Fixpoint free_slots (tbl : list Z) : nat :=
  match tbl with
  | [] => 0
  | e :: tbl' => (if e =? 0 then 1 else 0) + free_slots tbl'
  end.

Definition tmp_addr (i : Z) : Z := KTMPMEM + i * PAGE_SIZE.

(** Slot [i] of the window shows the physical page at [a]. *)
Definition mapped (s : vm) (i a : Z) : Prop :=
  0 ≤ i < 1024 ∧ is_u32 a ∧ a mod PAGE_SIZE = 0 ∧
  lookupZ (TmpPageTbl s) i = Some (PAGE_ENTRY a KERNEL_FLAGS).

(** What the tables say, read directly from physical memory: the directory entry
    of an address, its table, and its table entry (0 when there is no table). *)
Definition pde_of (m : gmap Z Z) (pgd v : Z) : Z := rd m (pgd + 4 * ADDR_PDE v).
Definition table_of (m : gmap Z Z) (pgd v : Z) : Z := PTE_ADDR (pde_of m pgd v).
Definition entry_of (m : gmap Z Z) (pgd v : Z) : Z :=
  if pde_of m pgd v =? 0 then 0 else rd m (table_of m pgd v + 4 * ADDR_PTE v).

Definition same_page (v w : Z) : bool := v / PAGE_SIZE =? w / PAGE_SIZE.
Definition page_of (a : Z) : Z := a - a mod PAGE_SIZE.

(** A well-formed address space: the directory and its tables are pairwise
    distinct frames, and all of them are marked allocated. *)
Record space_ok (s : vm) (pgd : Z) : Prop := {
  sp_pgd : is_u32 pgd;
  sp_align : pgd mod PAGE_SIZE = 0;
  sp_pgd_used : frame_used (vm_frames s) pgd = true;
  sp_entry : ∀ v, is_u32 v → is_u32 (pde_of (phys s) pgd v);
  sp_table : ∀ v, is_u32 v → pde_of (phys s) pgd v ≠ 0 →
    table_of (phys s) pgd v ≠ pgd ∧ frame_used (vm_frames s) (table_of (phys s) pgd v) = true;
  sp_inj : ∀ v w, is_u32 v → is_u32 w →
    pde_of (phys s) pgd v ≠ 0 → pde_of (phys s) pgd w ≠ 0 →
    table_of (phys s) pgd v = table_of (phys s) pgd w → ADDR_PDE v = ADDR_PDE w
}.

(** The flags a table made for the task [ct] has in the directory: present,
    writable, for user accesses unless the task is the kernel's, not a 4m page. *)
Definition user_task (ct : mmu_task) : bool := negb (mt_pid ct =? KERNEL_PID).
Definition table_flags (ct : mmu_task) (d : Z) : Prop :=
  Z.testbit d 0 = true ∧ Z.testbit d 1 = true ∧ Z.testbit d 2 = user_task ct ∧ Z.testbit d 7 = false.

(** [s'] differs from [s] at most by new, empty tables of [pgd]: all entries read
    the same, the window is the same, no frame is freed, and memory in use
    outside the directory is untouched. *)
Record space_ext (ct : mmu_task) (pgd : Z) (s s' : vm) : Prop := {
  se_tmp : TmpPageTbl s' = TmpPageTbl s;
  se_ready : MMUReady s' = MMUReady s;
  se_used : ∀ b, 0 ≤ b → frame_used (vm_frames s) b = true → frame_used (vm_frames s') b = true;
  se_entry : ∀ w, is_u32 w → entry_of (phys s') pgd w = entry_of (phys s) pgd w;
  se_pde : ∀ w, is_u32 w → pde_of (phys s) pgd w ≠ 0 → pde_of (phys s') pgd w = pde_of (phys s) pgd w;
  se_flags : ∀ w, is_u32 w → pde_of (phys s) pgd w = 0 → pde_of (phys s') pgd w ≠ 0 →
    table_flags ct (pde_of (phys s') pgd w);
  se_fresh : ∀ w, is_u32 w → pde_of (phys s) pgd w = 0 → pde_of (phys s') pgd w ≠ 0 →
    frame_used (vm_frames s) (table_of (phys s') pgd w) = false;
  se_other : ∀ b, page_of b ≠ pgd → frame_used (vm_frames s) (page_of b) = true →
    rd (phys s') b = rd (phys s) b
}.

(** The window has [n] slots left. *)
Record win_ok (n : nat) (s : vm) : Prop := {
  wo_len : length (TmpPageTbl s) = 1024%nat;
  wo_free : (n ≤ free_slots (TmpPageTbl s))%nat
}.

(** The window and the allocator are in order, with [n] window slots and [k]
    frames left. *)
Record vm_ok (n k : nat) (s : vm) : Prop := {
  vo_frames : frames_ok (vm_frames s);
  vo_avail : (k ≤ free_frames (vm_frames s))%nat;
  vo_len : length (TmpPageTbl s) = 1024%nat;
  vo_free : (n ≤ free_slots (TmpPageTbl s))%nat
}.

(** ** The window *)

Lemma KERNEL_FLAGS_small : 0 ≤ KERNEL_FLAGS < 4096.
Proof. done. Qed.

Lemma first_free_spec tbl i :
  0 ≤ i → (1 ≤ free_slots tbl)%nat →
  ∃ k, first_free i tbl = i + Z.of_nat k ∧ tbl !! k = Some 0.
Proof.
  revert i. induction tbl as [|e tbl IH]; intros i Hi; cbn; [lia|].
  destruct (Z.eqb_spec e 0) as [->|]; intros Hf.
  - exists 0%nat. split; [lia|done].
  - destruct (IH (i + 1)) as (k & -> & Hk); [lia|lia|]. exists (S k). split; [lia|done].
Qed.

Lemma free_slots_insert tbl k x :
  tbl !! k = Some 0 → x ≠ 0 → free_slots tbl = S (free_slots (<[k := x]> tbl)).
Proof.
  revert k. induction tbl as [|e tbl IH]; intros [|k] Hk Hx; try done; cbn in *.
  - injection Hk as ->. cbn. by destruct (Z.eqb_spec x 0).
  - pose proof (IH k Hk Hx) as E. unfold insert, list_insert in *. destruct (e =? 0); lia.
Qed.

(** The slot [pg_tmp_map] picks. *)
Definition slot (s : vm) : Z := first_free 0 (TmpPageTbl s).

Lemma vm_ok_win n k s : vm_ok n k s → win_ok n s.
Proof. by intros []. Qed.
#[export] Hint Resolve vm_ok_win : ak.

Lemma win_slot s n : win_ok (S n) s → 0 ≤ slot s < 1024 ∧ lookupZ (TmpPageTbl s) (slot s) = Some 0.
Proof.
  intros []. destruct (first_free_spec (TmpPageTbl s) 0) as (k & E & Hk); [lia|lia|].
  unfold slot. rewrite E. pose proof (lookup_lt_Some _ _ _ Hk). split; [lia|].
  unfold lookupZ. destruct (Z.leb_spec 0 (0 + Z.of_nat k)); [|lia].
  by replace (Z.to_nat (0 + Z.of_nat k)) with k by lia.
Qed.
Lemma slot_spec s n f :
  vm_ok (S n) f s → 0 ≤ slot s < 1024 ∧ lookupZ (TmpPageTbl s) (slot s) = Some 0.
Proof. intros Hs. apply (win_slot s n). eauto with ak. Qed.

(** The state with a page shown in the slot [pg_tmp_map] picks. *)
Definition show (a : Z) (s : vm) : vm :=
  with_tmp (insertZ (slot s) (PAGE_ENTRY a KERNEL_FLAGS) (TmpPageTbl s)) s.
Definition hide (i : Z) (s : vm) : vm := with_tmp (insertZ i NilPgEnt (TmpPageTbl s)) s.

Lemma win_map n a s : win_ok (S n) s → pg_tmp_map a s = Ret (tmp_addr (slot s), show a s).
Proof.
  intros Hs. pose proof (win_slot s n Hs) as [Hi Hl].
  unfold pg_tmp_map. rewrite (bind_ret _ _ s (slot s) s) by done.
  destruct (Z.eqb_spec (slot s) (-1)); [lia|]. cbv zeta. rewrite (bind_ret _ _ s s s) by done.
  rewrite (bind_ret _ _ s _ s) by (apply aset_ok; rewrite (wo_len _ _ Hs); lia). done.
Qed.
Lemma pg_tmp_map_ok n f a s : vm_ok (S n) f s → pg_tmp_map a s = Ret (tmp_addr (slot s), show a s).
Proof. intros Hs. apply (win_map n). eauto with ak. Qed.

Lemma slot_entry_nonzero a : PAGE_ENTRY a KERNEL_FLAGS ≠ 0.
Proof.
  intros E. assert (Z.testbit (PAGE_ENTRY a KERNEL_FLAGS) 0 = true) as Hb.
  { unfold PAGE_ENTRY. rewrite Z.lor_spec. apply orb_true_r. }
  by rewrite E in Hb.
Qed.

Lemma win_show n a s : win_ok (S n) s → win_ok n (show a s).
Proof.
  intros Hs. pose proof (win_slot s n Hs) as [Hi Hl]. destruct Hs as [Hlen Hfree].
  split; [unfold show; cbn; by rewrite length_insertZ|].
  unfold show, insertZ. cbn [TmpPageTbl with_tmp].
  unfold lookupZ in Hl. destruct (0 <=? slot s); [|done].
  rewrite (free_slots_insert _ _ (PAGE_ENTRY a KERNEL_FLAGS) Hl) in Hfree by apply slot_entry_nonzero.
  lia.
Qed.
Lemma show_ok n f a s : vm_ok (S n) f s → vm_ok n f (show a s).
Proof. intros Hs. destruct (win_show n a s) as [H1 H2]; [eauto with ak|]. destruct Hs. by split. Qed.

Lemma win_mapped n a s : win_ok (S n) s → is_u32 a → a mod PAGE_SIZE = 0 → mapped (show a s) (slot s) a.
Proof.
  intros Hs ? ?. pose proof (win_slot s n Hs) as [Hi Hl].
  split_and!; try done; try lia. unfold show. cbn [TmpPageTbl with_tmp].
  apply lookupZ_insert_eq. rewrite (wo_len _ _ Hs). lia.
Qed.
Lemma show_mapped n f a s :
  vm_ok (S n) f s → is_u32 a → a mod PAGE_SIZE = 0 → mapped (show a s) (slot s) a.
Proof. intros Hs. apply (win_mapped n). eauto with ak. Qed.

(** Another slot is not disturbed. *)
Lemma win_mapped_other n a s i b : win_ok (S n) s → mapped s i b → mapped (show a s) i b.
Proof.
  intros Hs (Hi & Hb & Hal & Hm). pose proof (win_slot s n Hs) as [Hj Hl].
  split_and!; try done; try lia. unfold show. cbn [TmpPageTbl with_tmp].
  rewrite lookupZ_insert_ne; [done|lia|]. intros E. rewrite E, Hm in Hl.
  injection Hl. apply slot_entry_nonzero.
Qed.
Lemma show_mapped_other n f a s i b : vm_ok (S n) f s → mapped s i b → mapped (show a s) i b.
Proof. intros Hs. apply (win_mapped_other n). eauto with ak. Qed.

Lemma tmp_translate_ok s i a ofs :
  mapped s i a → 0 ≤ ofs < PAGE_SIZE → tmp_translate (tmp_addr i + ofs) s = Ret (a + ofs, s).
Proof.
  intros (Hi & Ha & Hal & Hm) Hofs. unfold tmp_translate, tmp_addr, KTMPMEM, MEMMAX, PAGE_SIZE in *.
  destruct (Z.ltb_spec (0xFFFFFFFF - (0x400000 - 1) + i * 0x1000 + ofs) (0xFFFFFFFF - (0x400000 - 1))); [lia|].
  rewrite (bind_ret _ _ s s s) by done.
  replace (ADDR_PTE (0xFFFFFFFF - (0x400000 - 1) + i * 0x1000 + ofs)) with i
    by (rewrite ADDR_PTE_eq; zlia).
  rewrite (bind_ret _ _ s _ s) by (by apply aget_Some).
  change PAGE_PRESENT with (Z.shiftl 1 0). rewrite has_flag_entry by (done || lia).
  change (has_flag KERNEL_FLAGS (Z.shiftl 1 0)) with true. cbv iota.
  pose proof KERNEL_FLAGS_small. unfold mret, M_ret, mret_M. do 2 f_equal.
  rewrite PAGE_ENTRY_eq by done. rewrite PTE_ADDR_eq by (split; zlia). zlia.
Qed.

Lemma vload_ok s i a k :
  mapped s i a → 0 ≤ k < 1024 → vload (tmp_addr i + 4 * k) s = Ret (rd (phys s) (a + 4 * k), s).
Proof.
  intros Hm Hk. unfold vload. unfold PAGE_SIZE in *.
  rewrite (bind_ret _ _ s (a + 4 * k) s); [done|]. apply tmp_translate_ok; [done|unfold PAGE_SIZE; lia].
Qed.

Lemma vstore_ok s i a k x :
  mapped s i a → 0 ≤ k < 1024 →
  vstore (tmp_addr i + 4 * k) x s = Ret (tt, with_phys (<[a + 4 * k := x]> (phys s)) s).
Proof.
  intros Hm Hk. unfold vstore.
  rewrite (bind_ret _ _ s (a + 4 * k) s); [done|]. apply tmp_translate_ok; [done|unfold PAGE_SIZE; lia].
Qed.

Lemma ADDR_PTE_tmp i : 0 ≤ i < 1024 → ADDR_PTE (tmp_addr i) = i.
Proof. intros. rewrite ADDR_PTE_eq. unfold tmp_addr, KTMPMEM, MEMMAX, PAGE_SIZE. zlia. Qed.

Lemma pg_tmp_unmap_ok s i :
  length (TmpPageTbl s) = 1024%nat → 0 ≤ i < 1024 →
  pg_tmp_unmap (tmp_addr i) s = Ret (tt, hide i s).
Proof.
  intros Hlen Hi. unfold pg_tmp_unmap. rewrite (bind_ret _ _ s s s) by done.
  rewrite ADDR_PTE_tmp by done. by rewrite (bind_ret _ _ s _ s) by (apply aset_ok; lia).
Qed.

Lemma ADDR_PDE_bound v : is_u32 v → 0 ≤ ADDR_PDE v < 1024.
Proof. intros. rewrite ADDR_PDE_eq. zlia. Qed.
Lemma ADDR_PTE_bound v : 0 ≤ ADDR_PTE v < 1024.
Proof. rewrite ADDR_PTE_eq. zlia. Qed.
#[export] Hint Resolve ADDR_PDE_bound ADDR_PTE_bound : ak.

(** Showing a page, changing other parts of the state, and hiding it again. *)
Lemma win_hide a s fr m n :
  win_ok (S n) s → hide (slot s) (mkVm fr m (TmpPageTbl (show a s)) (MMUReady s)) = mkVm fr m (TmpPageTbl s) (MMUReady s).
Proof.
  intros Hs. pose proof (win_slot s n Hs) as [_ Hl].
  unfold hide, show, with_tmp. cbn. by rewrite insertZ_insertZ, insertZ_id.
Qed.
Lemma hide_show a s fr m n f :
  vm_ok (S n) f s → hide (slot s) (mkVm fr m (TmpPageTbl (show a s)) (MMUReady s)) = mkVm fr m (TmpPageTbl s) (MMUReady s).
Proof. intros Hs. apply (win_hide a s fr m n). eauto with ak. Qed.

Lemma rd_insert_eq m a x : rd (<[a := x]> m) a = x.
Proof. unfold rd. by rewrite lookup_insert_eq. Qed.
Lemma rd_insert_ne m a b x : a ≠ b → rd (<[a := x]> m) b = rd m b.
Proof. intros. unfold rd. by rewrite lookup_insert_ne. Qed.

(** ** New tables *)

Lemma page_of_word a k : a mod PAGE_SIZE = 0 → 0 ≤ k < 1024 → page_of (a + 4 * k) = a.
Proof. unfold page_of, PAGE_SIZE. intros. zlia. Qed.

Lemma vclear_ok s i a :
  mapped s i a →
  ∃ m, vclear (tmp_addr i) 1024 s = Ret (tt, with_phys m s) ∧
       (∀ k, 0 ≤ k < 1024 → rd m (a + 4 * k) = 0) ∧
       (∀ b, page_of b ≠ a → rd m b = rd (phys s) b).
Proof.
  intros Hm. assert (Hal : a mod PAGE_SIZE = 0) by apply Hm.
  destruct (forM_total (λ i0, vstore (tmp_addr i + 4 * i0) 0)
    (λ l s', ∃ m, s' = with_phys m s ∧ (∀ k, k ∈ l → rd m (a + 4 * k) = 0) ∧
                  (∀ b, page_of b ≠ a → rd m b = rd (phys s) b))
    (seqZ 0 1024) s) as (s' & E & m & -> & Hz & Hr).
  - intros l1 x l2 s1 El (m & -> & Hz & Hr).
    pose proof (seqZ_mid _ _ _ _ El) as Hx.
    eexists. split; [apply (vstore_ok _ i a); [done|done]|].
    exists (<[a + 4 * x := 0]> m). split; [done|]. split.
    + intros k Hk. destruct (Z.eq_dec k x) as [->|]; [apply rd_insert_eq|].
      rewrite rd_insert_ne by lia. apply Hz. apply elem_of_app in Hk as [|Hk]; [done|].
      by apply list_elem_of_singleton in Hk.
    + intros b Hb. rewrite rd_insert_ne; [by apply Hr|]. intros <-. apply Hb. by apply page_of_word.
  - exists (phys s). split; [by destruct s|]. split; [|done]. intros k Hk. by apply not_elem_of_nil in Hk.
  - exists m. split; [done|]. split; [|done]. intros k Hk. apply Hz, elem_of_seqZ. lia.
Qed.

Lemma zoom_frames {A} (m : M frames A) s a f :
  m (vm_frames s) = Ret (a, f) → zoom m s = Ret (a, with_frames f s).
Proof. intros E. by apply (zoom_ret (H := vm_has_frames)). Qed.

Lemma zoom_frame_take n k s :
  vm_ok n (S k) s →
  ∃ a, frame_take (vm_frames s) = Ret (a, set_frame a (vm_frames s)) ∧
       is_u32 a ∧ a mod PAGE_SIZE = 0 ∧ frame_in (vm_frames s) a ∧
       frame_used (vm_frames s) a = false ∧
       vm_ok n k (with_frames (set_frame a (vm_frames s)) s) ∧
       ∀ (B : Type) (c : Z → M vm B), (b ← zoom frame_alloc; zoom (frame_set b) ;; c b) s =
                               c a (with_frames (set_frame a (vm_frames s)) s).
Proof.
  intros Hs. destruct (frame_take_avail (vm_frames s) k) as (a & E & Ha & Hal & Hin & Hf & Hav);
    [apply Hs|apply Hs|].
  exists a. do 5 (split; [done|]). split; [split; cbn; try apply Hs; [by apply set_frame_ok, Hs|done]|].
  intros B c. assert (E1 : frame_alloc (vm_frames s) = Ret (a, vm_frames s)).
  { unfold frame_take in E. apply bind_inv in E as (a' & s1 & E1 & E2).
    apply bind_inv in E2 as ([] & s2 & _ & [= -> _]).
    by pose proof (frame_alloc_free _ _ _ (vo_frames _ _ _ Hs) E1) as (-> & _). }
  assert (E2 := frame_set_eq (vm_frames s) a (fo_init _ (vo_frames _ _ _ Hs)) Hin).
  rewrite (bind_ret _ _ s a _ (zoom_frames frame_alloc s a _ E1)).
  by rewrite (bind_ret _ _ _ tt _ (zoom_frames (frame_set a) (with_frames (vm_frames s) s) tt _ E2)).
Qed.

(** [pg_dir_new]: a free frame, now marked and zeroed; nothing else changes. *)
Lemma pg_dir_new_ok n k s :
  vm_ok (S n) (S k) s →
  ∃ a m, pg_dir_new s = Ret (a, mkVm (set_frame a (vm_frames s)) m (TmpPageTbl s) (MMUReady s)) ∧
    is_u32 a ∧ a mod PAGE_SIZE = 0 ∧ frame_in (vm_frames s) a ∧ frame_used (vm_frames s) a = false ∧
    vm_ok (S n) k (mkVm (set_frame a (vm_frames s)) m (TmpPageTbl s) (MMUReady s)) ∧
    (∀ j, 0 ≤ j < 1024 → rd m (a + 4 * j) = 0) ∧ (∀ b, page_of b ≠ a → rd m b = rd (phys s) b).
Proof.
  intros Hs. destruct (zoom_frame_take (S n) k s Hs) as (a & _ & Ha & Hal & Hin & Hf & Hs1 & Hbind).
  set (s1 := with_frames (set_frame a (vm_frames s)) s) in *.
  pose proof (show_ok n k a s1 Hs1) as Hs2.
  pose proof (show_mapped n k a s1 Hs1 Ha Hal) as Hm.
  destruct (vclear_ok (show a s1) (slot s1) a Hm) as (m & Ec & Hz & Hr).
  exists a, m. split; [|done || (do 4 (split; [done|]); split; [|done])].
  - unfold pg_dir_new. rewrite Hbind.
    rewrite (bind_ret _ _ s1 _ _ (pg_tmp_map_ok n k a s1 Hs1)).
    rewrite (bind_ret _ _ _ _ _ Ec).
    rewrite (bind_ret _ _ _ tt (hide (slot s1) (with_phys m (show a s1))));
      [|apply pg_tmp_unmap_ok; [apply Hs2|apply Hm]].
    unfold mret, M_ret, mret_M. do 2 f_equal.
    by apply (hide_show a s1 (vm_frames s1) m n k).
  - split; cbn; apply Hs1.
Qed.

(** ** Tables on demand *)

Lemma PTE_ADDR_aligned x : is_u32 x → PTE_ADDR x mod PAGE_SIZE = 0.
Proof. intros. rewrite PTE_ADDR_eq by done. unfold PAGE_SIZE. zlia. Qed.
Lemma PTE_ADDR_bound x : is_u32 x → is_u32 (PTE_ADDR x).
Proof. intros. rewrite PTE_ADDR_eq by done. zlia. Qed.
#[export] Hint Resolve PTE_ADDR_aligned PTE_ADDR_bound : ak.

Lemma PTE_ADDR_entry a f : is_u32 a → a mod PAGE_SIZE = 0 → 0 ≤ f < 4096 → PTE_ADDR (PAGE_ENTRY a f) = a.
Proof.
  unfold PAGE_SIZE. intros ? ? ?. rewrite PAGE_ENTRY_eq by done. rewrite PTE_ADDR_eq by (split; zlia). zlia.
Qed.
Lemma PTE_FLAGS_entry a f : a mod PAGE_SIZE = 0 → 0 ≤ f < 4096 → PTE_FLAGS (PAGE_ENTRY a f) = f.
Proof. unfold PAGE_SIZE. intros ? ?. rewrite PAGE_ENTRY_eq, PTE_FLAGS_eq by done. zlia. Qed.

Lemma base_flags_cases ct : base_flags ct = 0x203 ∨ base_flags ct = 0x7.
Proof. unfold base_flags. destruct (_ =? _); [by left|by right]. Qed.
Lemma base_flags_small ct : 0 ≤ base_flags ct < 4096.
Proof. destruct (base_flags_cases ct) as [-> | ->]; done. Qed.
#[export] Hint Resolve base_flags_small : ak.

Lemma entry_nonzero a f : a mod PAGE_SIZE = 0 → 0 ≤ a → 0 < f < 4096 → PAGE_ENTRY a f ≠ 0.
Proof. unfold PAGE_SIZE. intros. rewrite PAGE_ENTRY_eq by (done || lia). lia. Qed.

Lemma table_flags_base ct a : a mod PAGE_SIZE = 0 → table_flags ct (PAGE_ENTRY a (base_flags ct)).
Proof.
  intros Ha. unfold table_flags. rewrite <- !(has_flag_bit _ 0), <- !(has_flag_bit _ 1),
    <- !(has_flag_bit _ 2), <- !(has_flag_bit _ 7) by done.
  rewrite !has_flag_entry by (done || lia). unfold base_flags, user_task.
  by destruct (mt_pid ct =? KERNEL_PID).
Qed.

Lemma space_ext_refl ct pgd s : space_ext ct pgd s s.
Proof. by split. Qed.

Lemma space_table_aligned s pgd v :
  space_ok s pgd → is_u32 v → table_of (phys s) pgd v mod PAGE_SIZE = 0 ∧ is_u32 (table_of (phys s) pgd v).
Proof. intros Hsp Hv. pose proof (sp_entry _ _ Hsp v Hv). unfold table_of. auto with ak. Qed.

(** Installing an empty table for [v] in an address space without one. *)
Section NewTable.
Context (s : vm) (ct : mmu_task) (pgd v a : Z) (m : gmap Z Z).
Let flags : Z := base_flags ct.
Hypothesis Hfr : frames_ok (vm_frames s).
Hypothesis Hsp : space_ok s pgd.
Hypothesis Hv : is_u32 v.
Hypothesis Hnil : pde_of (phys s) pgd v = 0.
Hypothesis Ha : is_u32 a.
Hypothesis Hal : a mod PAGE_SIZE = 0.
Hypothesis Hin : frame_in (vm_frames s) a.
Hypothesis Hfree : frame_used (vm_frames s) a = false.
Hypothesis Hz : ∀ j, 0 ≤ j < 1024 → rd m (a + 4 * j) = 0.
Hypothesis Hr : ∀ b, page_of b ≠ a → rd m b = rd (phys s) b.

Definition new_table : vm :=
  mkVm (set_frame a (vm_frames s)) (<[pgd + 4 * ADDR_PDE v := PAGE_ENTRY a flags]> m)
       (TmpPageTbl s) (MMUReady s).

Lemma flags_bound : 0 < flags < 4096.
Proof. unfold flags. destruct (base_flags_cases ct) as [-> | ->]; done. Qed.

Lemma new_pgd_ne : a ≠ pgd.
Proof. intros ->. by rewrite (sp_pgd_used _ _ Hsp) in Hfree. Qed.

Lemma new_rd b : b ≠ pgd + 4 * ADDR_PDE v → page_of b ≠ a → rd (phys new_table) b = rd (phys s) b.
Proof. intros. unfold new_table. cbn. rewrite rd_insert_ne by done. by apply Hr. Qed.

Lemma pgd_word_page w : is_u32 w → page_of (pgd + 4 * ADDR_PDE w) = pgd.
Proof. intros. apply page_of_word; [apply Hsp|auto with ak]. Qed.

Lemma new_pde w : is_u32 w →
  pde_of (phys new_table) pgd w =
  if ADDR_PDE w =? ADDR_PDE v then PAGE_ENTRY a flags else pde_of (phys s) pgd w.
Proof.
  intros Hw. unfold pde_of. destruct (Z.eqb_spec (ADDR_PDE w) (ADDR_PDE v)) as [E|Hne].
  - rewrite E. unfold new_table; cbn. apply rd_insert_eq.
  - apply new_rd; [lia|]. rewrite pgd_word_page by done. apply not_eq_sym, new_pgd_ne.
Qed.

Lemma new_old_table w : is_u32 w → pde_of (phys s) pgd w ≠ 0 → 
  ADDR_PDE w ≠ ADDR_PDE v ∧ table_of (phys new_table) pgd w = table_of (phys s) pgd w ∧
  table_of (phys s) pgd w ≠ a.
Proof.
  intros Hw Hd. assert (Hne : ADDR_PDE w ≠ ADDR_PDE v).
  { intros E. apply Hd. unfold pde_of in *. by rewrite E. }
  split; [done|]. split.
  - unfold table_of. rewrite new_pde by done. by destruct (Z.eqb_spec (ADDR_PDE w) (ADDR_PDE v)).
  - intros E. destruct (sp_table _ _ Hsp w Hw Hd) as [_ Hu]. by rewrite E, Hfree in Hu.
Qed.

Lemma new_this_table w : ADDR_PDE w = ADDR_PDE v → is_u32 w → table_of (phys new_table) pgd w = a.
Proof.
  intros E Hw. unfold table_of. rewrite new_pde, E, Z.eqb_refl by done. apply PTE_ADDR_entry; [done|done|]. pose proof flags_bound. lia.
Qed.

Lemma new_space_ok : space_ok new_table pgd.
Proof.
  split; try apply Hsp.
  - unfold new_table; cbn. rewrite frame_used_set by (done || apply Hsp).
    by rewrite (sp_pgd_used _ _ Hsp), orb_true_r.
  - intros w Hw. rewrite new_pde by done. destruct (_ =? _); [|by apply Hsp].
    apply PAGE_ENTRY_bound; [done|]. pose proof flags_bound. lia.
  - intros w Hw. rewrite new_pde by done.
    destruct (Z.eqb_spec (ADDR_PDE w) (ADDR_PDE v)) as [E|Hne]; intros Hd.
    + rewrite new_this_table by done. split; [apply new_pgd_ne|].
      unfold new_table; cbn. rewrite frame_used_set by (done || lia). unfold same_frame.
      by rewrite Z.eqb_refl.
    + destruct (new_old_table w Hw Hd) as (_ & -> & _). destruct (sp_table _ _ Hsp w Hw Hd) as [? Hu].
      split; [done|]. unfold new_table; cbn.
      destruct (space_table_aligned s pgd w Hsp Hw). rewrite frame_used_set by (done || lia).
      by rewrite Hu, orb_true_r.
  - intros w1 w2 Hw1 Hw2 Hd1 Hd2 E. rewrite new_pde in Hd1, Hd2 by done.
    destruct (Z.eqb_spec (ADDR_PDE w1) (ADDR_PDE v)), (Z.eqb_spec (ADDR_PDE w2) (ADDR_PDE v)); [congruence|..].
    + rewrite new_this_table in E by done. destruct (new_old_table w2 Hw2 Hd2) as (_ & E2 & []). congruence.
    + rewrite (new_this_table w2) in E by done. destruct (new_old_table w1 Hw1 Hd1) as (_ & E2 & []). congruence.
    + destruct (new_old_table w1 Hw1 Hd1) as (_ & E1 & _). destruct (new_old_table w2 Hw2 Hd2) as (_ & E2 & _).
      apply (sp_inj _ _ Hsp); congruence.
Qed.

Lemma new_table_ext : space_ext ct pgd s new_table.
Proof.
  split; [done|done|..].
  - intros b Hb Hu. unfold new_table; cbn. rewrite frame_used_set by done. by rewrite Hu, orb_true_r.
  - intros w Hw. unfold entry_of. rewrite new_pde by done.
    destruct (Z.eqb_spec (ADDR_PDE w) (ADDR_PDE v)) as [E|Hne].
    + assert (Hd0 : pde_of (phys s) pgd w = 0) by (unfold pde_of in *; by rewrite E).
      rewrite Hd0. destruct (Z.eqb_spec (PAGE_ENTRY a flags) 0) as [E0|_]; [done|].
      rewrite new_this_table by done. cbn [Z.eqb].
      unfold new_table; cbn. rewrite rd_insert_ne; [apply Hz; auto with ak|].
      intros E'. pose proof (f_equal page_of E') as E2. rewrite pgd_word_page in E2 by done.
      rewrite page_of_word in E2 by (done || apply ADDR_PTE_bound). by apply new_pgd_ne.
    + destruct (Z.eqb_spec (pde_of (phys s) pgd w) 0) as [|Hd]; [done|].
      destruct (new_old_table w Hw Hd) as (_ & -> & Hta). destruct (sp_table _ _ Hsp w Hw Hd) as [Htp _].
      destruct (space_table_aligned s pgd w Hsp Hw) as [Htal _].
      assert (Ep : page_of (table_of (phys s) pgd w + 4 * ADDR_PTE w) = table_of (phys s) pgd w)
        by (apply page_of_word; [done|auto with ak]).
      apply new_rd; [|by rewrite Ep]. intros E'. apply (f_equal page_of) in E'.
      rewrite Ep, pgd_word_page in E' by done. done.
  - intros w Hw Hd. rewrite new_pde by done. by destruct (new_old_table w Hw Hd) as [? _]; destruct (Z.eqb_spec (ADDR_PDE w) (ADDR_PDE v)).
  - intros w Hw. rewrite new_pde by done.
    destruct (Z.eqb_spec (ADDR_PDE w) (ADDR_PDE v)) as [E|Hne]; [|congruence].
    intros _ _. by apply table_flags_base.
  - intros w Hw. rewrite new_pde by done.
    destruct (Z.eqb_spec (ADDR_PDE w) (ADDR_PDE v)) as [E|Hne]; [|congruence].
    intros _ _. by rewrite new_this_table.
  - intros b Hb Hu. apply new_rd.
    + intros ->. by rewrite pgd_word_page in Hb.
    + intros E. by rewrite E, Hfree in Hu.
Qed.
End NewTable.

(** The opening block: afterwards [v] has a table, and nothing else changed. *)
Lemma pg_need_table_ok ct n k s i pgd v :
  vm_ok (S n) (S k) s → space_ok s pgd → mapped s i pgd → is_u32 v →
  ∃ s', pg_need_table ct (tmp_addr i + 4 * ADDR_PDE v) s = Ret (tt, s') ∧
    vm_ok (S n) k s' ∧ space_ok s' pgd ∧ space_ext ct pgd s s' ∧ pde_of (phys s') pgd v ≠ 0 ∧
    (pde_of (phys s) pgd v ≠ 0 → s' = s).
Proof.
  intros Hs Hsp Hm Hv. pose proof (ADDR_PDE_bound v Hv) as Hk.
  unfold pg_need_table. rewrite (bind_ret _ _ _ _ _ (vload_ok s i pgd _ Hm Hk)).
  fold (pde_of (phys s) pgd v). unfold NilPgEnt.
  destruct (Z.eqb_spec (pde_of (phys s) pgd v) 0) as [Hnil|Hd].
  - destruct (pg_dir_new_ok n k s Hs) as (a & m & E & Ha & Hal & Hin & Hfree & Hs1 & Hz & Hr).
    cbv zeta. rewrite (bind_ret _ _ _ _ _ E).
    assert (Hm1 : mapped (mkVm (set_frame a (vm_frames s)) m (TmpPageTbl s) (MMUReady s)) i pgd) by exact Hm.
    rewrite (vstore_ok _ i pgd) by done. eexists. split; [reflexivity|].
    assert (Hfl : 0 < base_flags ct < 4096) by (destruct (base_flags_cases ct) as [-> | ->]; done).
    change (with_phys _ _) with (new_table s ct pgd v a m).
    assert (Hsp' : space_ok (new_table s ct pgd v a m) pgd) by (by apply new_space_ok).
    split; [split; cbn; apply Hs1|]. split; [done|]. split; [by apply new_table_ext|].
    rewrite new_pde by done. rewrite Z.eqb_refl. split; [apply entry_nonzero; (done || lia)|done].
  - exists s. do 2 (split; [first [done|destruct Hs; split; (done || lia)]|]).
    split; [done|]. split; [apply space_ext_refl|done].
Qed.

(** ** Reading and writing entries *)

(** The page of [v] now has entry [e]; all other entries are unchanged. *)
Record entry_set (ct : mmu_task) (pgd v e : Z) (s s' : vm) : Prop := {
  es_tmp : TmpPageTbl s' = TmpPageTbl s;
  es_ready : MMUReady s' = MMUReady s;
  es_used : ∀ b, 0 ≤ b → frame_used (vm_frames s) b = true → frame_used (vm_frames s') b = true;
  es_entry : ∀ w, is_u32 w →
    entry_of (phys s') pgd w = if same_page v w then e else entry_of (phys s) pgd w;
  es_pde : ∀ w, is_u32 w → pde_of (phys s) pgd w ≠ 0 → pde_of (phys s') pgd w = pde_of (phys s) pgd w;
  es_flags : ∀ w, is_u32 w → pde_of (phys s) pgd w = 0 → pde_of (phys s') pgd w ≠ 0 →
    table_flags ct (pde_of (phys s') pgd w);
  es_fresh : ∀ w, is_u32 w → pde_of (phys s) pgd w = 0 → pde_of (phys s') pgd w ≠ 0 →
    frame_used (vm_frames s) (table_of (phys s') pgd w) = false;
  es_other : ∀ b, page_of b ≠ pgd → page_of b ≠ table_of (phys s) pgd v →
    frame_used (vm_frames s) (page_of b) = true → rd (phys s') b = rd (phys s) b
}.

Lemma same_page_idx v w :
  is_u32 v → is_u32 w →
  same_page v w = (ADDR_PDE v =? ADDR_PDE w) && (ADDR_PTE v =? ADDR_PTE w).
Proof.
  intros. unfold same_page, PAGE_SIZE. rewrite !ADDR_PDE_eq, !ADDR_PTE_eq.
  apply eq_true_iff_eq. rewrite andb_true_iff, !Z.eqb_eq. zlia.
Qed.

(** Storing into the table of [v]. *)
Section StoreEntry.
Context (s : vm) (pgd v e : Z).
Hypothesis Hsp : space_ok s pgd.
Hypothesis Hv : is_u32 v.
Hypothesis Hd : pde_of (phys s) pgd v ≠ 0.

Definition store_entry : vm :=
  with_phys (<[table_of (phys s) pgd v + 4 * ADDR_PTE v := e]> (phys s)) s.

Lemma table_word_page w : is_u32 w → pde_of (phys s) pgd w ≠ 0 →
  ∀ k, 0 ≤ k < 1024 → page_of (table_of (phys s) pgd w + 4 * k) = table_of (phys s) pgd w.
Proof. intros Hw Hdw k Hk. apply page_of_word; [|done]. by destruct (space_table_aligned s pgd w Hsp Hw). Qed.

Lemma store_rd b : page_of b ≠ table_of (phys s) pgd v → rd (phys store_entry) b = rd (phys s) b.
Proof.
  intros Hb. unfold store_entry; cbn. apply rd_insert_ne. intros <-. apply Hb.
  apply table_word_page; [done|done|auto with ak].
Qed.

Lemma store_pde w : is_u32 w → pde_of (phys store_entry) pgd w = pde_of (phys s) pgd w.
Proof.
  intros Hw. apply store_rd. rewrite page_of_word by first [apply Hsp|auto with ak].
  destruct (sp_table _ _ Hsp v Hv Hd). congruence.
Qed.

Lemma store_table w : is_u32 w → table_of (phys store_entry) pgd w = table_of (phys s) pgd w.
Proof. intros Hw. unfold table_of. by rewrite store_pde. Qed.

Lemma store_entry_of w : is_u32 w →
  entry_of (phys store_entry) pgd w = if same_page v w then e else entry_of (phys s) pgd w.
Proof.
  intros Hw. unfold entry_of. rewrite store_pde, store_table, same_page_idx by done.
  destruct (Z.eqb_spec (ADDR_PDE v) (ADDR_PDE w)) as [E|Hne]; cbn [andb].
  - assert (Ep : pde_of (phys s) pgd w = pde_of (phys s) pgd v) by (unfold pde_of; by rewrite E).
    assert (Et : table_of (phys s) pgd w = table_of (phys s) pgd v) by (unfold table_of; by rewrite Ep).
    rewrite Ep, Et. destruct (Z.eqb_spec (pde_of (phys s) pgd v) 0) as [|_]; [done|].
    unfold store_entry; cbn. destruct (Z.eqb_spec (ADDR_PTE v) (ADDR_PTE w)) as [<-|].
    + apply rd_insert_eq.
    + apply rd_insert_ne. lia.
  - destruct (Z.eqb_spec (pde_of (phys s) pgd w) 0) as [|Hdw]; [done|].
    apply store_rd. rewrite table_word_page by (done || auto with ak).
    intros E. apply Hne. symmetry. by apply (sp_inj _ _ Hsp).
Qed.

Lemma store_space_ok : space_ok store_entry pgd.
Proof.
  split; try apply Hsp.
  - intros w Hw. rewrite store_pde by done. by apply Hsp.
  - intros w Hw. rewrite store_pde, store_table by done. by apply Hsp.
  - intros w1 w2 Hw1 Hw2. rewrite !store_pde, !store_table by done. by apply Hsp.
Qed.
End StoreEntry.

Lemma space_ok_tmp s pgd t : space_ok s pgd → space_ok (with_tmp t s) pgd.
Proof. intros Hsp. split; apply Hsp. Qed.

Lemma vm_ok_weaken n n' k k' s : (n' ≤ n)%nat → (k' ≤ k)%nat → vm_ok n k s → vm_ok n' k' s.
Proof. intros ? ? []. split; (done || lia). Qed.

(** The common opening of [pg_write_entry] and [pg_read_entry]: the directory and
    the table of [v] are shown in two slots of the window; hiding both gives back
    the window as it was. *)
Lemma open_table ct n k s pgd v :
  vm_ok (S (S n)) (S k) s → space_ok s pgd → is_u32 v →
  ∃ s2 j, let s3 := with_tmp (insertZ j (PAGE_ENTRY (table_of (phys s2) pgd v) KERNEL_FLAGS)
                                (TmpPageTbl (show pgd s))) s2 in
    TmpPageTbl s2 = TmpPageTbl s ∧
    vm_ok (S (S n)) k s2 ∧ space_ok s2 pgd ∧ space_ext ct pgd s s2 ∧ pde_of (phys s2) pgd v ≠ 0 ∧
    (pde_of (phys s) pgd v ≠ 0 → s2 = s) ∧
    mapped s3 j (table_of (phys s2) pgd v) ∧
    (∀ m, (pg_tmp_unmap (tmp_addr j) ;; pg_tmp_unmap (tmp_addr (slot s))) (with_phys m s3)
          = Ret (tt, with_phys m s2)) ∧
    ∀ (B : Type) (c : Z → Z → M vm B),
      (dir ← pg_tmp_map pgd;
       pg_need_table ct (dir + 4 * ADDR_PDE v) ;;
       d ← vload (dir + 4 * ADDR_PDE v);
       table ← pg_tmp_map (PTE_ADDR d);
       c dir table) s = c (tmp_addr (slot s)) (tmp_addr j) s3.
Proof.
  intros Hs Hsp Hv. set (s1 := show pgd s). set (i := slot s).
  assert (Hs1 : vm_ok (S n) (S k) s1) by (by apply show_ok).
  assert (Hm1 : mapped s1 i pgd) by (apply (show_mapped (S n) (S k)); [done|apply Hsp|apply Hsp]).
  assert (Hsp1 : space_ok s1 pgd) by (by apply space_ok_tmp).
  destruct (pg_need_table_ok ct n k s1 i pgd v Hs1 Hsp1 Hm1 Hv)
    as (s2 & E2 & Hs2 & Hsp2 & Hx2 & Hd2 & Hold).
  assert (Hm2 : mapped s2 i pgd).
  { destruct Hm1 as (?&?&?&?). split_and!; try done; try lia. by rewrite (se_tmp _ _ _ _ Hx2). }
  pose proof (space_table_aligned s2 pgd v Hsp2 Hv) as [Hta Htb].
  pose proof (slot_spec s2 n k Hs2) as [Hj Hlj].
  pose proof (slot_spec s (S n) (S k) Hs) as [Hi Hli].
  assert (Hti : TmpPageTbl s1 = insertZ i (PAGE_ENTRY pgd KERNEL_FLAGS) (TmpPageTbl s)) by done.
  pose proof (se_tmp _ _ _ _ Hx2) as Ht2.
  exists (with_tmp (TmpPageTbl s) s2), (slot s2). cbv zeta. cbn [phys with_tmp TmpPageTbl].
  assert (E3 : with_tmp (insertZ (slot s2) (PAGE_ENTRY (table_of (phys s2) pgd v) KERNEL_FLAGS) (TmpPageTbl s1))
                (with_tmp (TmpPageTbl s) s2) = show (table_of (phys s2) pgd v) s2).
  { unfold show. by rewrite Ht2. }
  fold s1. rewrite E3.
  assert (Hm3 : mapped (show (table_of (phys s2) pgd v) s2) (slot s2) (table_of (phys s2) pgd v))
    by (by apply (show_mapped n k)).
  split; [done|]. split; [split; cbn; apply Hs2 || apply Hs|].
  split; [by apply space_ok_tmp|]. split; [split; try apply Hx2; done|].
  split; [done|]. split; [|split; [done|split]].
  - intros Hd. rewrite (Hold Hd). unfold s1, show. by destruct s.
  - intros m. rewrite (bind_ret _ _ _ tt (hide (slot s2) (with_phys m (show (table_of (phys s2) pgd v) s2)))).
    2: { apply pg_tmp_unmap_ok; [|done]. cbn. rewrite length_insertZ. apply Hs2. }
    change (with_phys m (show (table_of (phys s2) pgd v) s2)) with
      (mkVm (vm_frames s2) m (TmpPageTbl (show (table_of (phys s2) pgd v) s2)) (MMUReady s2)).
    rewrite (hide_show _ _ _ _ n k) by done.
    rewrite pg_tmp_unmap_ok; [|cbn; apply Hs2|done]. do 2 f_equal.
    unfold hide, with_phys, with_tmp. cbn. f_equal.
    by rewrite Ht2, Hti, insertZ_insertZ, insertZ_id.
  - intros B c. rewrite (bind_ret _ _ _ _ _ (pg_tmp_map_ok (S n) (S k) pgd s Hs)). fold i s1.
    rewrite (bind_ret _ _ _ _ _ E2).
    rewrite (bind_ret _ _ _ _ _ (vload_ok s2 i pgd _ Hm2 (ADDR_PDE_bound v Hv))).
    fold (pde_of (phys s2) pgd v). fold (table_of (phys s2) pgd v).
    by rewrite (bind_ret _ _ _ _ _ (pg_tmp_map_ok n k (table_of (phys s2) pgd v) s2 Hs2)).
Qed.

(** [pg_write_entry]: the page of [v] gets the entry, all other pages keep
    theirs, and the window is left as it was found. *)
Lemma pg_write_entry_ok ct n k s pgd v e :
  vm_ok (S (S n)) (S k) s → space_ok s pgd → is_u32 v →
  ∃ s', pg_write_entry ct pgd v e s = Ret (tt, s') ∧
    vm_ok (S (S n)) k s' ∧ space_ok s' pgd ∧ entry_set ct pgd v e s s' ∧
    pde_of (phys s') pgd v ≠ 0.
Proof.
  intros Hs Hsp Hv.
  destruct (open_table ct n k s pgd v Hs Hsp Hv)
    as (s2 & j & Ht & Hs2 & Hsp2 & Hx & Hd & Hold & Hm & Hun & Hc).
  exists (store_entry s2 pgd v e). split; [|split; [|split; [by apply store_space_ok|split]]].
  - unfold pg_write_entry. cbv zeta. rewrite Hc.
    rewrite (bind_ret _ _ _ _ _ (vstore_ok _ j _ (ADDR_PTE v) e Hm (ADDR_PTE_bound v))). apply Hun.
  - split; cbn; apply Hs2.
  - split; [done|apply Hx|apply Hx|..].
    + intros w Hw. rewrite store_entry_of by done. by rewrite (se_entry _ _ _ _ Hx w Hw).
    + intros w Hw Hdw. rewrite store_pde by done. by apply Hx.
    + intros w Hw Hdw. rewrite store_pde by done. by apply Hx.
    + intros w Hw Hdw. unfold table_of. rewrite store_pde by done. by apply Hx.
    + intros b Hb1 Hb2 Hu. destruct (decide (pde_of (phys s) pgd v = 0)) as [Hnil|Hn].
      * rewrite store_rd; [by apply Hx|done|done|done|]. intros E.
        rewrite E, (se_fresh _ _ _ _ Hx v) in Hu by done. done.
      * rewrite (Hold Hn) in *. by apply store_rd.
  - by rewrite store_pde.
Qed.


(** [pg_read_entry]: the entry of the page of [v]; a missing table is created,
    which changes no entry. *)
Lemma pg_read_entry_ok ct n k s pgd v :
  vm_ok (S (S n)) (S k) s → space_ok s pgd → is_u32 v →
  ∃ s', pg_read_entry ct pgd v s = Ret (entry_of (phys s) pgd v, s') ∧
    vm_ok (S (S n)) k s' ∧ space_ok s' pgd ∧ space_ext ct pgd s s' ∧
    (pde_of (phys s) pgd v ≠ 0 → s' = s).
Proof.
  intros Hs Hsp Hv.
  destruct (open_table ct n k s pgd v Hs Hsp Hv)
    as (s2 & j & Ht & Hs2 & Hsp2 & Hx & Hd & Hold & Hm & Hun & Hc).
  exists s2. split; [|done].
  unfold pg_read_entry. cbv zeta. rewrite Hc.
  rewrite (bind_ret _ _ _ _ _ (vload_ok _ j _ (ADDR_PTE v) Hm (ADDR_PTE_bound v))). cbn [phys with_tmp].
  specialize (Hun (phys s2)). apply bind_inv in Hun as ([] & s4 & E4 & E5).
  replace (with_phys (phys s2) _) with
    (with_tmp (insertZ j (PAGE_ENTRY (table_of (phys s2) pgd v) KERNEL_FLAGS) (TmpPageTbl (show pgd s))) s2)
    in E4 by done.
  rewrite (bind_ret _ _ _ _ _ E4), (bind_ret _ _ _ _ _ E5). unfold mret, M_ret, mret_M. do 2 f_equal.
  - rewrite <- (se_entry _ _ _ _ Hx v Hv). unfold entry_of.
    by destruct (Z.eqb_spec (pde_of (phys s2) pgd v) 0).
  - by destruct s2.
Qed.

(** Writing into a table that is there needs no frame: the allocator need not be set
    up yet. *)
Lemma pg_write_entry_there ct n s pgd v e :
  win_ok (S (S n)) s → is_u32 pgd → pgd mod PAGE_SIZE = 0 → is_u32 v →
  pde_of (phys s) pgd v ≠ 0 → is_u32 (pde_of (phys s) pgd v) →
  pg_write_entry ct pgd v e s = Ret (tt, store_entry s pgd v e).
Proof.
  intros Hs Hp Hal Hv Hd Hd32. unfold pg_write_entry. rewrite (bind_ret _ _ _ _ _ (win_map (S n) pgd s Hs)).
  set (s1 := show pgd s). set (i := slot s).
  assert (Hs1 : win_ok (S n) s1) by (by apply win_show).
  assert (Hm1 : mapped s1 i pgd) by (by apply (win_mapped (S n))).
  assert (El : vload (tmp_addr i + 4 * ADDR_PDE v) s1 = Ret (pde_of (phys s) pgd v, s1)) by exact (vload_ok s1 i pgd _ Hm1 (ADDR_PDE_bound v Hv)).
  cbv zeta. rewrite (bind_ret _ _ s1 tt s1).
  2: { unfold pg_need_table, NilPgEnt. rewrite (bind_ret _ _ _ _ _ El). by rewrite (proj2 (Z.eqb_neq _ _) Hd). }
  rewrite (bind_ret _ _ _ _ _ El). fold (table_of (phys s) pgd v). set (a := table_of (phys s) pgd v).
  assert (Ha : is_u32 a ∧ a mod PAGE_SIZE = 0) by (split; [by apply PTE_ADDR_bound|by apply PTE_ADDR_aligned]). destruct Ha as [Ha Haal].
  rewrite (bind_ret _ _ _ _ _ (win_map n a s1 Hs1)). set (s2 := show a s1). set (j := slot s1).
  assert (Hm2 : mapped s2 j a) by (by apply (win_mapped n)).
  rewrite (bind_ret _ _ _ _ _ (vstore_ok s2 j a _ e Hm2 (ADDR_PTE_bound v))).
  set (m := <[_ := e]> (phys s2)).
  assert (Hlen1 : length (TmpPageTbl s1) = 1024%nat) by apply Hs1.
  assert (Hlen2 : length (TmpPageTbl s2) = 1024%nat) by (unfold s2, show; cbn; by rewrite length_insertZ).
  rewrite (bind_ret _ _ _ tt (mkVm (vm_frames s) m (TmpPageTbl s1) (MMUReady s))).
  2: { rewrite pg_tmp_unmap_ok by (done || apply Hm2). do 2 f_equal. exact (win_hide a s1 (vm_frames s) m n Hs1). }
  rewrite pg_tmp_unmap_ok by (done || apply Hm1). do 2 f_equal. exact (win_hide pgd s (vm_frames s) m (S n) Hs).
Qed.

(** ** The processor's page walk *)

(** What the address translation of the processor finds for [v] (two-level walk,
    4m pages allowed): the physical address, and whether writes and user accesses
    are allowed.  It reads physical memory and none of the definitions above. *)
Definition hw_walk (m : gmap Z Z) (pgd v : Z) : option (Z * bool * bool) :=
  let d := rd m (pgd + 4 * (v / 2 ^ 22)) in
  if negb (Z.testbit d 0) then None
  else if Z.testbit d 7 then Some (d / 2 ^ 22 * 2 ^ 22 + v mod 2 ^ 22, Z.testbit d 1, Z.testbit d 2)
  else
    let e := rd m (d / 2 ^ 12 * 2 ^ 12 + 4 * (v / 2 ^ 12 mod 2 ^ 10)) in
    if negb (Z.testbit e 0) then None
    else Some (e / 2 ^ 12 * 2 ^ 12 + v mod 2 ^ 12,
               Z.testbit d 1 && Z.testbit e 1, Z.testbit d 2 && Z.testbit e 2).

(** The same from the two entries. *)
Definition walk_entries (d e v : Z) : option (Z * bool * bool) :=
  if negb (Z.testbit d 0) then None
  else if Z.testbit d 7 then Some (d / 2 ^ 22 * 2 ^ 22 + v mod 2 ^ 22, Z.testbit d 1, Z.testbit d 2)
  else if negb (Z.testbit e 0) then None
  else Some (e / 2 ^ 12 * 2 ^ 12 + v mod 2 ^ 12,
             Z.testbit d 1 && Z.testbit e 1, Z.testbit d 2 && Z.testbit e 2).

(** The page of [v] can be mapped through a table by the task: its part of the
    directory is empty or holds a table made for such a task. *)
Definition table_for (ct : mmu_task) (m : gmap Z Z) (pgd v : Z) : Prop :=
  pde_of m pgd v = 0 ∨ table_flags ct (pde_of m pgd v).

Lemma hw_walk_entries m pgd v :
  is_u32 v → is_u32 (pde_of m pgd v) → hw_walk m pgd v = walk_entries (pde_of m pgd v) (entry_of m pgd v) v.
Proof.
  intros Hv Hd. unfold hw_walk, walk_entries, entry_of, table_of, pde_of in *.
  rewrite ADDR_PDE_eq in *. change 4194304 with (2 ^ 22) in *.
  set (d := rd m (pgd + 4 * (v / 2 ^ 22))) in *. cbv zeta.
  destruct (Z.testbit d 0) eqn:E0; cbn [negb]; [|done].
  destruct (Z.testbit d 7); [done|].
  destruct (Z.eqb_spec d 0) as [E|_]; [by rewrite E in E0|].
  rewrite PTE_ADDR_eq, ADDR_PTE_eq by done. change 4096 with (2 ^ 12). change 1024 with (2 ^ 10).
  by replace (d - d mod 2 ^ 12) with (d / 2 ^ 12 * 2 ^ 12) by zlia.
Qed.

Lemma same_page_pde v w : same_page v w = true → ADDR_PDE v = ADDR_PDE w.
Proof. unfold same_page, PAGE_SIZE. rewrite Z.eqb_eq, !ADDR_PDE_eq. intros. zlia. Qed.

(** Addresses of one page translate together. *)
Lemma hw_walk_same_page s pgd v w :
  space_ok s pgd → is_u32 v → is_u32 w → same_page v w = true →
  is_Some (hw_walk (phys s) pgd v) ↔ is_Some (hw_walk (phys s) pgd w).
Proof.
  intros Hsp Hv Hw Hs. rewrite !hw_walk_entries by (done || by apply Hsp).
  assert (Ed : pde_of (phys s) pgd w = pde_of (phys s) pgd v)
    by (unfold pde_of; by rewrite (same_page_pde _ _ Hs)).
  assert (Ee : entry_of (phys s) pgd w = entry_of (phys s) pgd v).
  { rewrite same_page_idx in Hs by done. apply andb_true_iff in Hs as [_ Hp%Z.eqb_eq].
    unfold entry_of, table_of. rewrite Ed. by rewrite Hp. }
  rewrite Ed, Ee. unfold walk_entries.
  destruct (Z.testbit (pde_of (phys s) pgd v) 0); cbn [negb]; [|done].
  destruct (Z.testbit (pde_of (phys s) pgd v) 7); [by split; intros _; eexists|].
  destruct (Z.testbit (entry_of (phys s) pgd v) 0); cbn [negb]; [by split; intros _; eexists|done].
Qed.

(** Setting an entry changes the walk of its own page and no other. *)
Lemma entry_set_walk ct pgd v e s s' w :
  space_ok s pgd → space_ok s' pgd → entry_set ct pgd v e s s' → is_u32 v → is_u32 w →
  pde_of (phys s') pgd v ≠ 0 → table_for ct (phys s) pgd v →
  hw_walk (phys s') pgd w =
  if same_page v w then
    if Z.testbit e 0 then Some (e / 2 ^ 12 * 2 ^ 12 + w mod 2 ^ 12, Z.testbit e 1,
                                user_task ct && Z.testbit e 2) else None
  else hw_walk (phys s) pgd w.
Proof.
  intros Hsp Hsp' Hes Hv Hw Hd Htf.
  rewrite !hw_walk_entries by (done || by apply sp_entry).
  rewrite (es_entry _ _ _ _ _ _ Hes w Hw). destruct (same_page v w) eqn:Esp.
  - assert (Ep : pde_of (phys s') pgd w = pde_of (phys s') pgd v)
      by (unfold pde_of; by rewrite (same_page_pde _ _ Esp)).
    assert (Hf : table_flags ct (pde_of (phys s') pgd w)).
    { rewrite Ep. destruct (decide (pde_of (phys s) pgd v = 0)) as [Hn|Hn].
      - by apply (es_flags _ _ _ _ _ _ Hes).
      - rewrite (es_pde _ _ _ _ _ _ Hes) by done. by destruct Htf. }
    destruct Hf as (F0 & F1 & F2 & F7). unfold walk_entries. rewrite F0, F1, F2, F7. cbn [negb andb].
    by destruct (Z.testbit e 0).
  - destruct (decide (pde_of (phys s) pgd w = 0)) as [Hn|Hn].
    + assert (Ee : entry_of (phys s) pgd w = 0) by (unfold entry_of; by rewrite Hn).
      rewrite Hn, Ee. destruct (decide (pde_of (phys s') pgd w = 0)) as [->|Hn']; [done|].
      destruct (es_flags _ _ _ _ _ _ Hes w Hw Hn Hn') as (F0 & _ & _ & F7).
      unfold walk_entries. by rewrite F0, F7.
    + by rewrite (es_pde _ _ _ _ _ _ Hes).
Qed.

(** No directory entry is set to something else than a new table. *)
Lemma entry_set_table_for ct pgd v e s s' w :
  entry_set ct pgd v e s s' → is_u32 w → table_for ct (phys s) pgd w → table_for ct (phys s') pgd w.
Proof.
  intros Hes Hw Htf. unfold table_for. destruct (decide (pde_of (phys s') pgd w = 0)) as [|Hn']; [by left|right].
  destruct (decide (pde_of (phys s) pgd w = 0)) as [Hn|Hn].
  - by apply (es_flags _ _ _ _ _ _ Hes).
  - rewrite (es_pde _ _ _ _ _ _ Hes) by done. by destruct Htf.
Qed.

Lemma pg_write_entry_walk ct n k s v e :
  vm_ok (S (S n)) (S k) s → space_ok s (mt_pgd ct) → is_u32 v → table_for ct (phys s) (mt_pgd ct) v →
  ∃ s', pg_write_entry ct (mt_pgd ct) v e s = Ret (tt, s') ∧
    vm_ok (S (S n)) k s' ∧ space_ok s' (mt_pgd ct) ∧ entry_set ct (mt_pgd ct) v e s s' ∧
    table_for ct (phys s') (mt_pgd ct) v ∧
    ∀ w, is_u32 w → hw_walk (phys s') (mt_pgd ct) w =
      if same_page v w then
        if Z.testbit e 0 then Some (e / 2 ^ 12 * 2 ^ 12 + w mod 2 ^ 12, Z.testbit e 1,
                                    user_task ct && Z.testbit e 2) else None
      else hw_walk (phys s) (mt_pgd ct) w.
Proof.
  intros Hs Hsp Hv Htf.
  destruct (pg_write_entry_ok ct n k s (mt_pgd ct) v e Hs Hsp Hv) as (s' & E & Hs' & Hsp' & Hes & Hd).
  exists s'. do 4 (split; [done|]). split; [by apply (entry_set_table_for _ _ v e s s')|].
  intros w Hw; by apply (entry_set_walk _ _ v e s s').
Qed.

Lemma same_page_PGADDR v w : same_page (PGADDR v) w = same_page v w.
Proof. unfold same_page, PGADDR, PAGE_SIZE. by replace ((v - v mod 4096) / 4096) with (v / 4096) by zlia. Qed.

Lemma table_for_PGADDR ct m pgd v : table_for ct m pgd (PGADDR v) ↔ table_for ct m pgd v.
Proof.
  unfold table_for, pde_of. replace (ADDR_PDE (PGADDR v)) with (ADDR_PDE v); [done|].
  rewrite !ADDR_PDE_eq. unfold PGADDR, PAGE_SIZE. zlia.
Qed.

Lemma entry_bit a f j : a mod PAGE_SIZE = 0 → 0 ≤ j < 12 → Z.testbit (PAGE_ENTRY a f) j = Z.testbit f j.
Proof. intros Ha Hj. rewrite <- !has_flag_bit by lia. by apply has_flag_entry. Qed.

Lemma entry_page a f : a mod PAGE_SIZE = 0 → 0 ≤ f < 4096 → PAGE_ENTRY a f / 2 ^ 12 * 2 ^ 12 = a.
Proof. unfold PAGE_SIZE. intros. rewrite PAGE_ENTRY_eq by done. zlia. Qed.

(** [pg_map_ext] with flags that say present, and with flags that do not. *)
Lemma pg_map_ext_walk ct n k s pa v flags :
  vm_ok (S (S n)) (S k) s → space_ok s (mt_pgd ct) → is_u32 v → table_for ct (phys s) (mt_pgd ct) v →
  pa mod PAGE_SIZE = 0 → 0 ≤ flags < 4096 →
  ∃ s', pg_map_ext ct pa v flags s = Ret (tt, s') ∧
    vm_ok (S (S n)) k s' ∧ space_ok s' (mt_pgd ct) ∧ entry_set ct (mt_pgd ct) (PGADDR v) (PAGE_ENTRY pa flags) s s' ∧
    table_for ct (phys s') (mt_pgd ct) v ∧
    ∀ w, is_u32 w → hw_walk (phys s') (mt_pgd ct) w =
      if same_page v w then
        if Z.testbit flags 0 then Some (pa + w mod 2 ^ 12, Z.testbit flags 1, user_task ct && Z.testbit flags 2)
        else None
      else hw_walk (phys s) (mt_pgd ct) w.
Proof.
  intros Hs Hsp Hv Htf Hpa Hfl.
  destruct (pg_write_entry_walk ct n k s (PGADDR v) (PAGE_ENTRY pa flags) Hs Hsp)
    as (s' & E & Hs' & Hsp' & Hes & Htf' & Hw); [auto with ak|by rewrite table_for_PGADDR|].
  exists s'. do 4 (split; [done|]). rewrite table_for_PGADDR in Htf'. split; [done|]. intros w Hw32.
  rewrite Hw, same_page_PGADDR, entry_page by done.
  by rewrite !entry_bit by (done || lia).
Qed.

Lemma base_flags_bits ct :
  Z.testbit (base_flags ct) 0 = true ∧ Z.testbit (base_flags ct) 1 = true ∧
  Z.testbit (base_flags ct) 2 = user_task ct.
Proof. unfold base_flags, user_task. by destruct (mt_pid ct =? KERNEL_PID). Qed.

Lemma pg_map_walk ct n k s pa v :
  vm_ok (S (S n)) (S k) s → space_ok s (mt_pgd ct) → is_u32 v → table_for ct (phys s) (mt_pgd ct) v →
  pa mod PAGE_SIZE = 0 →
  ∃ s', pg_map ct pa v s = Ret (tt, s') ∧
    vm_ok (S (S n)) k s' ∧ space_ok s' (mt_pgd ct) ∧
    entry_set ct (mt_pgd ct) (PGADDR v) (PAGE_ENTRY pa (base_flags ct)) s s' ∧
    table_for ct (phys s') (mt_pgd ct) v ∧
    ∀ w, is_u32 w → hw_walk (phys s') (mt_pgd ct) w =
      if same_page v w then Some (pa + w mod 2 ^ 12, true, user_task ct)
      else hw_walk (phys s) (mt_pgd ct) w.
Proof.
  intros Hs Hsp Hv Htf Hpa.
  destruct (pg_map_ext_walk ct n k s pa v (base_flags ct) Hs Hsp Hv Htf Hpa)
    as (s' & E & Hs' & Hsp' & Hes & Htf' & Hw); [auto with ak|].
  exists s'. do 5 (split; [done|]). intros w Hw32. rewrite Hw by done.
  destruct (base_flags_bits ct) as (-> & -> & ->). by rewrite andb_diag.
Qed.

(** ** The predicates *)

(** Looking at one word of a page through the window leaves no trace. *)
Lemma win_read n s a (j : Z) B (c : Z → M vm B) :
  win_ok (S n) s → is_u32 a → a mod PAGE_SIZE = 0 → 0 ≤ j < 1024 →
  (p ← pg_tmp_map a; x ← vload (p + 4 * j); pg_tmp_unmap p ;; c x) s = c (rd (phys s) (a + 4 * j)) s.
Proof.
  intros Hs Ha Hal Hj. rewrite (bind_ret _ _ _ _ _ (win_map n a s Hs)).
  pose proof (win_mapped n a s Hs Ha Hal) as Hm.
  rewrite (bind_ret _ _ _ _ _ (vload_ok _ _ a j Hm Hj)).
  assert (Hlen : length (TmpPageTbl (show a s)) = 1024%nat)
    by (unfold show; cbn; rewrite length_insertZ; apply Hs).
  rewrite (bind_ret _ _ _ _ _ (pg_tmp_unmap_ok _ (slot s) Hlen ltac:(apply Hm))).
  unfold show at 2. cbn [phys with_tmp]. f_equal.
  etransitivity; [apply (win_hide a s (vm_frames s) (phys s) n Hs)|]. by destruct s.
Qed.
Lemma window_read n k s a (j : Z) B (c : Z → M vm B) :
  vm_ok (S n) k s → is_u32 a → a mod PAGE_SIZE = 0 → 0 ≤ j < 1024 →
  (p ← pg_tmp_map a; x ← vload (p + 4 * j); pg_tmp_unmap p ;; c x) s = c (rd (phys s) (a + 4 * j)) s.
Proof. intros Hs. apply (win_read n). eauto with ak. Qed.

Lemma pg_is_allocated_eq ct n k s v :
  vm_ok (S n) k s → space_ok s (mt_pgd ct) → is_u32 v →
  pg_is_allocated ct v s =
  Ret (match hw_walk (phys s) (mt_pgd ct) v with Some _ => true | None => false end, s).
Proof.
  intros Hs Hsp Hv. unfold pg_is_allocated.
  rewrite (window_read n k) by first [done|apply Hsp|auto with ak].
  fold (pde_of (phys s) (mt_pgd ct) v). unfold NilPgEnt.
  rewrite hw_walk_entries by (done || by apply Hsp). unfold walk_entries, entry_of.
  change PAGE_PRESENT with (Z.shiftl 1 0). change PAGE_EXTENDED with (Z.shiftl 1 7).
  rewrite !land_shiftl_1_eqb by done.
  destruct (Z.eqb_spec (pde_of (phys s) (mt_pgd ct) v) 0) as [->|Hd]; [done|].
  destruct (Z.testbit (pde_of (phys s) (mt_pgd ct) v) 0); cbn [negb]; [|done].
  destruct (Z.testbit (pde_of (phys s) (mt_pgd ct) v) 7); cbn [negb]; [done|].
  pose proof (space_table_aligned _ _ _ Hsp Hv) as [Hta Htb]. fold (table_of (phys s) (mt_pgd ct) v).
  rewrite (window_read n k) by first [done|auto with ak].
  set (e := rd _ _). rewrite land_shiftl_1_eqb by done.
  destruct (Z.eqb_spec e 0) as [->|]; [done|]. by destruct (Z.testbit e 0).
Qed.

(** A page is reserved: its entry, or that of its 4m page, says so. *)
Definition reserved (m : gmap Z Z) (pgd v : Z) : bool :=
  if Z.testbit (pde_of m pgd v) 7 then Z.testbit (pde_of m pgd v) 10
  else Z.testbit (entry_of m pgd v) 10.

Lemma pg_is_reserved_eq ct n k s v :
  vm_ok (S n) k s → space_ok s (mt_pgd ct) → is_u32 v →
  pg_is_reserved ct v s = Ret (reserved (phys s) (mt_pgd ct) v, s).
Proof.
  intros Hs Hsp Hv. unfold pg_is_reserved.
  rewrite (window_read n k) by first [done|apply Hsp|auto with ak].
  fold (pde_of (phys s) (mt_pgd ct) v). unfold NilPgEnt, reserved, entry_of.
  change PAGE_RESERVED with (Z.shiftl 1 10). change PAGE_EXTENDED with (Z.shiftl 1 7).
  rewrite !land_shiftl_1_eqb by done.
  destruct (Z.eqb_spec (pde_of (phys s) (mt_pgd ct) v) 0) as [->|Hd]; [done|].
  destruct (Z.testbit (pde_of (phys s) (mt_pgd ct) v) 7); cbn [negb].
  { by destruct (Z.testbit _ 10). }
  rewrite andb_false_r. cbv iota.
  pose proof (space_table_aligned _ _ _ Hsp Hv) as [Hta Htb]. fold (table_of (phys s) (mt_pgd ct) v).
  rewrite (window_read n k) by first [done|auto with ak].
  set (e := rd _ _). rewrite land_shiftl_1_eqb by done.
  destruct (Z.eqb_spec e 0) as [->|]; [done|]. by destruct (Z.testbit e 10).
Qed.

(** ** Demand paging *)

(** Marking a frame allocated keeps an address space well formed. *)
Lemma space_ok_take s pgd a : frame_in (vm_frames s) a → space_ok s pgd → space_ok (with_frames (set_frame a (vm_frames s)) s) pgd.
Proof.
  intros Ha Hsp. split; try apply Hsp.
  - cbn. rewrite frame_used_set by (done || apply Hsp). by rewrite (sp_pgd_used _ _ Hsp), orb_true_r.
  - intros v Hv Hd. destruct (sp_table _ _ Hsp v Hv Hd) as [? Hu]. split; [done|]. cbn.
    pose proof (space_table_aligned _ _ _ Hsp Hv) as [_ Htb].
    rewrite frame_used_set by (done || apply Htb). by rewrite Hu, orb_true_r.
Qed.

(** A frame that holds data: in use, and neither the directory nor one of its tables. *)
Record data_frame (s : vm) (pgd p : Z) : Prop := {
  df_aligned : 0 ≤ p ∧ p mod PAGE_SIZE = 0;
  df_used : frame_used (vm_frames s) p = true;
  df_pgd : p ≠ pgd;
  df_table w : is_u32 w → pde_of (phys s) pgd w ≠ 0 → table_of (phys s) pgd w ≠ p
}.

Lemma data_frame_kept ct pgd v e s s' p :
  entry_set ct pgd v e s s' → data_frame s pgd p → data_frame s' pgd p.
Proof.
  intros Hes [H1 H2 H3 H4]. split; [done|apply Hes; [lia|done]|done|]. intros w Hw Hd.
  destruct (decide (pde_of (phys s) pgd w = 0)) as [Hz|Hn].
  - pose proof (es_fresh _ _ _ _ _ _ Hes w Hw Hz Hd) as Hf. intros E. congruence.
  - unfold table_of in *. rewrite (es_pde _ _ _ _ _ _ Hes w Hw Hn). by apply H4.
Qed.

Lemma data_frame_bytes ct pgd v e s s' p b :
  entry_set ct pgd v e s s' → is_u32 v → pde_of (phys s) pgd v ≠ 0 ∨ p ≠ 0 → data_frame s pgd p → page_of b = p → rd (phys s') b = rd (phys s) b.
Proof.
  intros Hes Hv Hor [H1 H2 H3 H4] Hb. apply Hes; [by rewrite Hb| |by rewrite Hb]. rewrite Hb.
  destruct (decide (pde_of (phys s) pgd v = 0)) as [Hz|Hn]; [|intros E; symmetry in E; by apply (H4 v) in E].
  destruct Hor as [|Hp]; [done|]. unfold table_of. by rewrite Hz.
Qed.

(** [pg_alloc]: a frame that was free is mapped at the page of [v]; it holds data,
    as do all frames that did, and their content stays. *)
Lemma pg_alloc_full ct n k s v :
  vm_ok (S (S n)) (S (S k)) s → space_ok s (mt_pgd ct) → is_u32 v → table_for ct (phys s) (mt_pgd ct) v →
  ∃ a s', pg_alloc ct v s = Ret (tt, s') ∧
    is_u32 a ∧ a mod PAGE_SIZE = 0 ∧ frame_used (vm_frames s) a = false ∧ frame_used (vm_frames s') a = true ∧
    MMUReady s' = MMUReady s ∧ vm_ok (S (S n)) k s' ∧ space_ok s' (mt_pgd ct) ∧
    (∀ b, 0 ≤ b → frame_used (vm_frames s) b = true → frame_used (vm_frames s') b = true) ∧
    (∀ w, is_u32 w → table_for ct (phys s) (mt_pgd ct) w → table_for ct (phys s') (mt_pgd ct) w) ∧
    (∀ w, is_u32 w → hw_walk (phys s') (mt_pgd ct) w =
      if same_page v w then Some (a + w mod 2 ^ 12, true, user_task ct)
      else hw_walk (phys s) (mt_pgd ct) w) ∧
    data_frame s' (mt_pgd ct) a ∧
    (∀ p, data_frame s (mt_pgd ct) p → data_frame s' (mt_pgd ct) p ∧
      (p ≠ 0 → ∀ b, page_of b = p → rd (phys s') b = rd (phys s) b)).
Proof.
  intros Hs Hsp Hv Htf.
  destruct (zoom_frame_take (S (S n)) (S k) s Hs) as (a & _ & Ha & Hal & Hin & Hf & Hs1 & Hbind).
  set (s1 := with_frames (set_frame a (vm_frames s)) s) in *.
  assert (Hsp1 : space_ok s1 (mt_pgd ct)) by (by apply space_ok_take).
  destruct (pg_map_walk ct n k s1 a v Hs1 Hsp1 Hv Htf Hal) as (s' & E & Hs' & Hsp' & Hes & Htf' & Hw).
  assert (Hmono : ∀ b, 0 ≤ b → frame_used (vm_frames s1) b = true → frame_used (vm_frames s') b = true)
    by apply Hes.
  assert (Hset : ∀ b, 0 ≤ b → frame_used (vm_frames s1) b = same_frame a b || frame_used (vm_frames s) b)
    by (intros b Hb; unfold s1; cbn; by rewrite frame_used_set by (done || lia)).
  assert (Ha1 : frame_used (vm_frames s1) a = true).
  { rewrite Hset by lia. unfold same_frame. by rewrite Z.eqb_refl. }
  exists a, s'. split; [unfold pg_alloc; by rewrite Hbind|].
  do 3 (split; [done|]). split; [apply Hmono; [lia|done]|].
  split; [apply Hes|]. do 2 (split; [done|]). split; [|split; [|split; [done|split]]].
  - intros b Hb Hu. apply Hmono; [done|]. rewrite Hset by done. by rewrite Hu, orb_true_r.
  - intros w Hw32. by apply (entry_set_table_for _ _ (PGADDR v) (PAGE_ENTRY a (base_flags ct)) s1 s').
  - apply (data_frame_kept _ _ _ _ _ _ _ Hes). split; [lia|done| |].
    + intros E'. rewrite E', (sp_pgd_used _ _ Hsp) in Hf. done.
    + intros w Hw32 Hd E'. destruct (sp_table _ _ Hsp w Hw32 Hd) as [_ Hu].
      change (table_of (phys s1) (mt_pgd ct) w) with (table_of (phys s) (mt_pgd ct) w) in E'. congruence.
  - intros p [H1 H2 H3 H4]. assert (Hp1 : data_frame s1 (mt_pgd ct) p).
    { split; [done| |done|done]. rewrite Hset by lia. by rewrite H2, orb_true_r. }
    split; [by apply (data_frame_kept _ _ _ _ _ _ _ Hes)|]. intros Hp0 b Hb.
    rewrite (data_frame_bytes _ _ _ _ _ _ p b Hes); [done|auto with ak|by right|done|done].
Qed.

Lemma pg_alloc_walk ct n k s v :
  vm_ok (S (S n)) (S (S k)) s → space_ok s (mt_pgd ct) → is_u32 v → table_for ct (phys s) (mt_pgd ct) v →
  ∃ a s', pg_alloc ct v s = Ret (tt, s') ∧
    is_u32 a ∧ a mod PAGE_SIZE = 0 ∧ frame_used (vm_frames s) a = false ∧ frame_used (vm_frames s') a = true ∧
    MMUReady s' = MMUReady s ∧ vm_ok (S (S n)) k s' ∧ space_ok s' (mt_pgd ct) ∧
    (∀ b, 0 ≤ b → frame_used (vm_frames s) b = true → frame_used (vm_frames s') b = true) ∧
    (∀ w, is_u32 w → table_for ct (phys s) (mt_pgd ct) w → table_for ct (phys s') (mt_pgd ct) w) ∧
    ∀ w, is_u32 w → hw_walk (phys s') (mt_pgd ct) w =
      if same_page v w then Some (a + w mod 2 ^ 12, true, user_task ct)
      else hw_walk (phys s) (mt_pgd ct) w.
Proof.
  intros Hs Hsp Hv Htf. destruct (pg_alloc_full ct n k s v Hs Hsp Hv Htf) as (a & s' & H). exists a, s'. tauto.
Qed.

Definition reserve_flags (ct : mmu_task) : Z :=
  Z.land (Z.lor (base_flags ct) PAGE_RESERVED) (u32 (Z.lnot PAGE_PRESENT)).

Lemma reserve_flags_spec ct :
  0 ≤ reserve_flags ct < 4096 ∧ Z.testbit (reserve_flags ct) 0 = false ∧
  Z.testbit (reserve_flags ct) 10 = true ∧ reserve_flags ct ≠ 0.
Proof. unfold reserve_flags, base_flags. by destruct (mt_pid ct =? KERNEL_PID). Qed.

Lemma table_for_same ct m pgd v w : same_page v w = true → table_for ct m pgd v → table_for ct m pgd w.
Proof. intros E. unfold table_for, pde_of. by rewrite (same_page_pde _ _ E). Qed.

Lemma same_page_refl v : same_page v v = true.
Proof. apply Z.eqb_refl. Qed.

Lemma same_page_trans v w x : same_page v w = true → same_page w x = same_page v x.
Proof. unfold same_page. by intros ->%Z.eqb_eq. Qed.

(** [pg_reserve]: the page does not translate and is reserved. *)
Lemma pg_reserve_walk ct n k s v :
  vm_ok (S (S n)) (S k) s → space_ok s (mt_pgd ct) → is_u32 v → table_for ct (phys s) (mt_pgd ct) v →
  ∃ s', pg_reserve ct v s = Ret (tt, s') ∧
    vm_ok (S (S n)) k s' ∧ space_ok s' (mt_pgd ct) ∧
    (∀ b, 0 ≤ b → frame_used (vm_frames s) b = true → frame_used (vm_frames s') b = true) ∧
    table_for ct (phys s') (mt_pgd ct) v ∧
    (∀ w, is_u32 w → same_page v w = true → reserved (phys s') (mt_pgd ct) w = true) ∧
    ∀ w, is_u32 w → hw_walk (phys s') (mt_pgd ct) w =
      if same_page v w then None else hw_walk (phys s) (mt_pgd ct) w.
Proof.
  intros Hs Hsp Hv Htf. destruct (reserve_flags_spec ct) as (Hfl & H0 & H10 & Hnz).
  destruct (pg_map_ext_walk ct n k s 0 v (reserve_flags ct) Hs Hsp Hv Htf)
    as (s' & E & Hs' & Hsp' & Hes & Htf' & Hw); [done|done|].
  exists s'. do 3 (split; [done|]). split; [apply Hes|]. split; [done|]. split.
  - intros w Hw32 Hsw. unfold reserved. pose proof (table_for_same _ _ _ _ w Hsw Htf') as Htw.
    rewrite (es_entry _ _ _ _ _ _ Hes w Hw32), same_page_PGADDR, Hsw, entry_bit, H10 by (done || lia).
    destruct (pde_of (phys s') (mt_pgd ct) w =? 0) eqn:E0.
    + apply Z.eqb_eq in E0. by rewrite E0.
    + apply Z.eqb_neq in E0. destruct Htw as [|(_ & _ & _ & ->)]; done.
  - intros w Hw32. rewrite Hw by done. by rewrite H0.
Qed.

(** ** Copying from physical memory *)

(** The byte of physical memory at [a]. *)
Definition phys_byte (m : gmap Z Z) (a : Z) : Z :=
  Z.land (Z.shiftr (rd m (a - a mod 4)) (8 * (a mod 4))) 0xFF.

Lemma vbytes_ok s i a n ofs :
  mapped s i a → 0 ≤ ofs → ofs + Z.of_nat n ≤ PAGE_SIZE →
  vbytes (tmp_addr i + ofs) n s =
  Ret ((λ j, phys_byte (phys s) (a + ofs + j)) <$> seqZ 0 (Z.of_nat n), s).
Proof.
  intros Hm. assert (Hal : a mod 4096 = 0) by apply Hm. revert ofs.
  induction n as [|n IH]; intros ofs Hofs Hle; [done|].
  cbn [vbytes]. unfold PAGE_SIZE in *.
  rewrite (bind_ret _ _ s (phys_byte (phys s) (a + ofs)) s).
  - replace (tmp_addr i + ofs + 1) with (tmp_addr i + (ofs + 1)) by lia.
    rewrite (bind_ret _ _ _ _ _ (IH (ofs + 1) ltac:(lia) ltac:(lia))). unfold mret, M_ret, mret_M.
    rewrite (seqZ_cons 0 (Z.of_nat (S n))) by lia. rewrite fmap_cons. do 2 f_equal.
    f_equal; [by rewrite Z.add_0_r|]. replace (Z.pred (Z.of_nat (S n))) with (Z.of_nat n) by lia.
    rewrite (fmap_seqZ_shift _ (Z.succ 0)).
    apply list_fmap_ext. intros k x _. cbn. f_equal. lia.
  - unfold vload8.
    assert (Ht : tmp_addr i mod 4 = 0) by (unfold tmp_addr, KTMPMEM, MEMMAX, PAGE_SIZE; zlia).
    replace ((tmp_addr i + ofs) mod 4) with (ofs mod 4) by zlia.
    replace (tmp_addr i + ofs - ofs mod 4) with (tmp_addr i + 4 * (ofs / 4)) by zlia.
    rewrite (bind_ret _ _ _ _ _ (vload_ok s i a (ofs / 4) Hm ltac:(zlia))).
    unfold mret, M_ret, mret_M, phys_byte. do 2 f_equal.
    replace ((a + ofs) mod 4) with (ofs mod 4) by zlia.
    by replace (a + ofs - ofs mod 4) with (a + 4 * (ofs / 4)) by zlia.
Qed.

Lemma phys_bytes_app m a n k : 0 ≤ n → 0 ≤ k →
  ((λ j, phys_byte m (a + j)) <$> seqZ 0 n) ++ ((λ j, phys_byte m (a + n + j)) <$> seqZ 0 k)
  = (λ j, phys_byte m (a + j)) <$> seqZ 0 (n + k).
Proof.
  intros ? ?. rewrite seqZ_app by lia. rewrite fmap_app. f_equal.
  rewrite Z.add_0_l, (fmap_seqZ_shift _ n).
  apply list_fmap_ext. intros ? x _. cbn. f_equal. lia.
Qed.

(** One chunk of [memcpy_phys]. *)
Lemma memcpy_chunk n k s seek sz B (c : list Z → M vm B) :
  vm_ok (S n) k s → is_u32 seek → 0 ≤ sz → seek mod PAGE_SIZE + sz ≤ PAGE_SIZE →
  (tmpmap ← pg_tmp_map (PGADDR seek); bs ← vbytes (tmpmap + (seek -u PGADDR seek)) (Z.to_nat sz);
   pg_tmp_unmap tmpmap ;; c bs) s
  = c ((λ j, phys_byte (phys s) (seek + j)) <$> seqZ 0 sz) s.
Proof.
  intros Hs Hseek Hsz Hle.
  rewrite (bind_ret _ _ _ _ _ (pg_tmp_map_ok n k (PGADDR seek) s Hs)).
  pose proof (show_mapped n k (PGADDR seek) s Hs ltac:(auto with ak) ltac:(apply PGADDR_aligned)) as Hm.
  replace (seek -u PGADDR seek) with (seek mod PAGE_SIZE)
    by (unfold PGADDR, PAGE_SIZE; rewrite u32_small; zlia).
  assert (Hb := vbytes_ok _ _ _ (Z.to_nat sz) (seek mod PAGE_SIZE) Hm
    ltac:(unfold PAGE_SIZE; zlia) ltac:(unfold PAGE_SIZE in *; lia)).
  rewrite (bind_ret _ _ _ _ _ Hb).
  assert (Hlen : length (TmpPageTbl (show (PGADDR seek) s)) = 1024%nat)
    by (unfold show; cbn; rewrite length_insertZ; apply Hs).
  rewrite (bind_ret _ _ _ _ _ (pg_tmp_unmap_ok _ (slot s) Hlen ltac:(apply Hm))).
  replace (PGADDR seek + seek mod PAGE_SIZE) with seek by (unfold PGADDR; lia).
  rewrite Z2Nat.id by done. f_equal.
  etransitivity; [apply (hide_show _ s (vm_frames s) (phys s) n k Hs)|]. by destruct s.
Qed.

Lemma memcpy_phys_eq n k s src len :
  vm_ok (S n) k s → is_u32 src → 0 ≤ len → src + len ≤ 2 ^ 32 → len < 2 ^ 32 →
  memcpy_phys src len s = Ret ((λ j, phys_byte (phys s) (src + j)) <$> seqZ 0 len, s).
Proof.
  intros Hs Hsrc Hl0 Hl1 Hl2. unfold memcpy_phys.
  set (bytes := λ x, (λ j, phys_byte (phys s) (src + j)) <$> seqZ 0 x).
  edestruct (while_total
    (λ '(x, acc) s', s' = s ∧ 0 ≤ x ≤ len ∧ acc = bytes x)
    (λ '(x, acc) _, if x <? len then (src + len - 1) / 4096 - (src + x) / 4096 + 1 else 0)
    (λ acc s', acc = bytes len ∧ s' = s)) as (b & s' & E & -> & ->); [| | |exact E].
  - intros [x acc] s' (-> & Hx & ->). destruct (Z.ltb_spec x len) as [Hlt|Hge].
    + left. cbv zeta. rewrite (u32_small (src + x)), (u32_small (len - x)) by lia.
      assert (Hofs : PAGE_SIZE -u (src + x -u PGADDR (src + x)) = PAGE_SIZE - (src + x) mod PAGE_SIZE)
        by (unfold PGADDR, PAGE_SIZE; rewrite (u32_small (_ - (_ - _))) by zlia; rewrite u32_small; zlia).
      rewrite Hofs.
      set (sz := if len - x <? _ then _ else _).
      assert (Hsz : 0 < sz ∧ x + sz ≤ len ∧ (src + x) mod PAGE_SIZE + sz ≤ PAGE_SIZE ∧
                    (x + sz = len ∨ (src + x) mod PAGE_SIZE + sz = PAGE_SIZE)).
      { unfold sz, PAGE_SIZE in *. destruct (Z.ltb_spec (len - x) (4096 - (src + x) mod 4096)); zlia. }
      destruct Hsz as (Hs1 & Hs2 & Hs3 & Hs4).
      exists (x + sz, bytes (x + sz)), s. split; [|split; [split; [done|split; [lia|done]]|]].
      * rewrite (memcpy_chunk n k s (src + x) sz _ (λ bs, mret (inl (x +u sz, bytes x ++ bs)))) by (done || lia).
        unfold mret, M_ret, mret_M. do 3 f_equal. f_equal; [apply u32_small; lia|].
        unfold bytes. by rewrite phys_bytes_app by lia.
      * cbv beta iota. clearbody sz. unfold PAGE_SIZE in *.
        destruct (Z.ltb_spec (x + sz) len); [destruct Hs4; [lia|]|]; zlia.
    + right. exists (bytes x), s. split; [done|]. split; [|done]. f_equal. lia.
  - split; [done|]. split; [lia|done].
  - cbv beta iota. destruct (0 <? len); zlia.
Qed.

(** [pg_unmap]: one page less. *)
Lemma pg_unmap_walk ct n k s v :
  vm_ok (S (S n)) (S k) s → space_ok s (mt_pgd ct) → is_u32 v → table_for ct (phys s) (mt_pgd ct) v →
  ∃ s', pg_unmap ct v s = Ret (tt, s') ∧ vm_ok (S (S n)) k s' ∧ space_ok s' (mt_pgd ct) ∧
     TmpPageTbl s' = TmpPageTbl s ∧ MMUReady s' = MMUReady s ∧
     (∀ w, is_u32 w → table_for ct (phys s) (mt_pgd ct) w → table_for ct (phys s') (mt_pgd ct) w) ∧
     ∀ w, is_u32 w → hw_walk (phys s') (mt_pgd ct) w =
        if same_page v w then None else hw_walk (phys s) (mt_pgd ct) w.
Proof.
  intros Hs Hsp Hv Htf.
  destruct (pg_write_entry_walk ct n k s (PGADDR v) NilPgEnt Hs Hsp) as (s' & E & Hs' & Hsp' & Hes & _ & Hw);
    [auto with ak|by rewrite table_for_PGADDR|].
  exists s'. do 3 (split; [done|]). do 2 (split; [apply Hes|]). split.
  - intros w Hw32. by apply (entry_set_table_for _ _ (PGADDR v) NilPgEnt s s').
  - intros w Hw32. by rewrite Hw, same_page_PGADDR.
Qed.

(** ** Properties *)

(** A task with pid 1, and its empty directory in frame 1; the window is free. *)
Definition demo_task : mmu_task := mkMmuTask 1 0x1000.
Definition demo_vm : vm := mkVm demo_frames (<[0x3000 := 0x64636261]> ∅) (replicate 1024 0) true.

Lemma demo_rd a : a ≠ 0x3000 → rd (phys demo_vm) a = 0.
Proof. intros. unfold demo_vm; cbn. rewrite rd_insert_ne by done. done. Qed.

Lemma demo_pde v : is_u32 v → pde_of (phys demo_vm) 0x1000 v = 0.
Proof. intros Hv%ADDR_PDE_bound. apply demo_rd. lia. Qed.

Lemma demo_vm_ok : vm_ok 4 8 demo_vm.
Proof. split; [by apply frames_okb_ok|vm_compute; lia|done|vm_compute; lia]. Qed.

Lemma demo_space_ok : space_ok demo_vm 0x1000.
Proof.
  split; try done.
  - intros v Hv. by rewrite demo_pde.
  - intros v Hv. by rewrite demo_pde.
  - intros v w Hv Hw. by rewrite demo_pde.
Qed.

(** C1: refinement of an address-space map.  Read as what the processor's own
    page walk finds, a well-formed directory is a map from pages to frames:
    [pg_map] updates it at one page, with the rights of the task, [pg_unmap]
    removes one page, and all other pages keep their translation, across the
    page tables allocated on the way.  Memory outside the directory and the table
    of the page that was in use is not written, and the window is left as found. *)
Theorem pg_map_refines_walk ct n k s pa v :
  vm_ok (S (S n)) (S k) s → space_ok s (mt_pgd ct) → is_u32 v → table_for ct (phys s) (mt_pgd ct) v →
  pa mod PAGE_SIZE = 0 →
  (∃ s', pg_map ct pa v s = Ret (tt, s') ∧ vm_ok (S (S n)) k s' ∧ space_ok s' (mt_pgd ct) ∧
     TmpPageTbl s' = TmpPageTbl s ∧
     (∀ w, is_u32 w → hw_walk (phys s') (mt_pgd ct) w =
        if same_page v w then Some (pa + w mod 2 ^ 12, true, user_task ct)
        else hw_walk (phys s) (mt_pgd ct) w) ∧
     ∀ b, page_of b ≠ mt_pgd ct → page_of b ≠ table_of (phys s) (mt_pgd ct) v →
          frame_used (vm_frames s) (page_of b) = true → rd (phys s') b = rd (phys s) b) ∧
  (∃ s', pg_unmap ct v s = Ret (tt, s') ∧ vm_ok (S (S n)) k s' ∧ space_ok s' (mt_pgd ct) ∧
     TmpPageTbl s' = TmpPageTbl s ∧
     ∀ w, is_u32 w → hw_walk (phys s') (mt_pgd ct) w =
        if same_page v w then None else hw_walk (phys s) (mt_pgd ct) w).
Proof.
  intros Hs Hsp Hv Htf Hpa. split.
  - destruct (pg_map_walk ct n k s pa v Hs Hsp Hv Htf Hpa) as (s' & E & Hs' & Hsp' & Hes & _ & Hw).
    exists s'. do 3 (split; [done|]). split; [apply Hes|]. split; [done|].
    intros b Hb1 Hb2. apply Hes; [done|].
    replace (table_of (phys s) (mt_pgd ct) (PGADDR v)) with (table_of (phys s) (mt_pgd ct) v); [done|].
    unfold table_of, pde_of. by rewrite (same_page_pde (PGADDR v) v) by (rewrite same_page_PGADDR; apply same_page_refl).
  - destruct (pg_unmap_walk ct n k s v Hs Hsp Hv Htf) as (s' & E & Hs' & Hsp' & Ht & _ & _ & Hw).
    by exists s'.
Qed.

Lemma pg_map_refines_walk_witness :
  ∃ s', pg_map demo_task 0x24000 0x8048123 demo_vm = Ret (tt, s') ∧
    hw_walk (phys s') 0x1000 0x8048FFF = Some (0x24FFF, true, true) ∧
    hw_walk (phys s') 0x1000 0x8049000 = None.
Proof.
  destruct (pg_map_refines_walk demo_task 2 7 demo_vm 0x24000 0x8048123 demo_vm_ok demo_space_ok)
    as [(s' & E & _ & _ & _ & Hw & _) _]; [done|left; by apply demo_pde|done|].
  cbn [mt_pgd demo_task] in Hw. exists s'. split; [exact E|]. clear E.
  split; rewrite Hw by done; vm_compute; reflexivity.
Defined.

(** C40: [pg_is_allocated] answers whether the processor's walk of the address
    succeeds (4m pages included), and leaves the state, the window included, as
    it was. *)
Theorem pg_is_allocated_walk ct n k s v :
  vm_ok (S n) k s → space_ok s (mt_pgd ct) → is_u32 v →
  pg_is_allocated ct v s =
  Ret (match hw_walk (phys s) (mt_pgd ct) v with Some _ => true | None => false end, s).
Proof. apply pg_is_allocated_eq. Qed.

Lemma pg_is_allocated_walk_witness : pg_is_allocated demo_task 0x8048000 demo_vm = Ret (false, demo_vm).
Proof.
  rewrite (pg_is_allocated_walk demo_task 3 8 demo_vm 0x8048000 demo_vm_ok demo_space_ok) by done.
  reflexivity.
Defined.

(** C27: demand paging.  [pg_reserve] makes a page that does not translate; the
    first access to any of its addresses makes the fault handler give it a frame
    that was free, with the rights of the task, and every other page translates as
    before the reservation. *)
Theorem demand_paging ct ut kpgd n k s v v' :
  vm_ok (S (S n)) (S (S (S k))) s → space_ok s (mt_pgd ct) → is_u32 v → is_u32 v' →
  same_page v v' = true → table_for ct (phys s) (mt_pgd ct) v →
  ut = None ∨ pg_is_kernel v' = false →
  ∃ s1, pg_reserve ct v s = Ret (tt, s1) ∧ hw_walk (phys s1) (mt_pgd ct) v' = None ∧
  ∃ a s2, pg_fault_handler ct ut kpgd v' s1 = Ret (tt, s2) ∧
    frame_used (vm_frames s) a = false ∧ frame_used (vm_frames s2) a = true ∧
    vm_ok (S (S n)) k s2 ∧ space_ok s2 (mt_pgd ct) ∧
    ∀ w, is_u32 w → hw_walk (phys s2) (mt_pgd ct) w =
      if same_page v w then Some (a + w mod 2 ^ 12, true, user_task ct)
      else hw_walk (phys s) (mt_pgd ct) w.
Proof.
  intros Hs Hsp Hv Hv' Hsame Htf Hut.
  destruct (pg_reserve_walk ct n (S (S k)) s v Hs Hsp Hv Htf) as (s1 & E1 & Hs1 & Hsp1 & Hm1 & Htf1 & Hr1 & Hw1).
  exists s1. split; [done|]. split; [by rewrite Hw1, Hsame|].
  destruct (pg_alloc_walk ct n k s1 v' Hs1 Hsp1 Hv') as (a & s2 & E2 & Ha & Hal & Hf & Hu & _ & Hs2 & Hsp2 & _ & _ & Hw2);
    [by apply (table_for_same _ _ _ v)|].
  exists a, s2. split; [|split; [|split; [done|split; [done|split; [done|]]]]].
  - unfold pg_fault_handler. cbv zeta.
    assert (Er := pg_is_reserved_eq ct _ _ s1 v' Hs1 Hsp1 Hv'). rewrite (Hr1 v' Hv' Hsame) in Er.
    destruct Hut as [-> | Hk]; [|rewrite Hk; destruct ut];
      by rewrite (bind_ret _ _ _ _ _ Er).
  - destruct (frame_used (vm_frames s) a) eqn:Eu; [|done]. by rewrite Hm1 in Hf by (done || lia).
  - intros w Hw. rewrite Hw2, Hw1 by done.
    rewrite <- (same_page_trans v v' w Hsame). by destruct (same_page v' w).
Qed.

Lemma demand_paging_witness :
  ∃ s1 s2, pg_reserve demo_task 0x8048000 demo_vm = Ret (tt, s1) ∧
    pg_fault_handler demo_task None 0x1000 0x8048010 s1 = Ret (tt, s2) ∧
    is_Some (hw_walk (phys s2) 0x1000 0x8048ABC).
Proof.
  destruct (demand_paging demo_task None 0x1000 2 5 demo_vm 0x8048000 0x8048010 demo_vm_ok demo_space_ok)
    as (s1 & E1 & _ & a & s2 & E2 & _ & _ & _ & _ & Hw); [done|done|done|left; by apply demo_pde|by left|].
  cbn [mt_pgd demo_task] in Hw. exists s1, s2. split; [exact E1|]. split; [exact E2|]. clear E1 E2. rewrite Hw by done. vm_compute. by eexists.
Defined.

(** A fault on a kernel address while a user task exists copies the kernel's
    entry for that page into the user's directory and changes no other entry of
    it; a page the kernel has not mapped either is a PANIC. *)
Theorem kernel_fault_shares_entry ct ut kpgd n k s v :
  vm_ok (S (S n)) (S (S k)) s → space_ok s (mt_pgd ut) → space_ok s kpgd →
  is_u32 v → pg_is_kernel v = true →
  (entry_of (phys s) kpgd v ≠ 0 →
   ∃ s', pg_fault_handler ct (Some ut) kpgd v s = Ret (tt, s') ∧ space_ok s' (mt_pgd ut) ∧
     ∀ w, is_u32 w → entry_of (phys s') (mt_pgd ut) w =
       if same_page v w then entry_of (phys s) kpgd v else entry_of (phys s) (mt_pgd ut) w) ∧
  (entry_of (phys s) kpgd v = 0 →
   pg_fault_handler ct (Some ut) kpgd v s = Panic "Tried to copy nil page entry").
Proof.
  intros Hs Hut Hk Hv Hkv. unfold pg_fault_handler, pg_copy_mapping. cbv zeta. rewrite Hkv.
  destruct (pg_read_entry_ok ct n (S k) s kpgd (PGADDR v) Hs Hk) as (s1 & E1 & Hs1 & _ & _ & Hsame); [auto with ak|].
  assert (Ee : entry_of (phys s) kpgd (PGADDR v) = entry_of (phys s) kpgd v).
  { unfold entry_of, table_of, pde_of.
    replace (ADDR_PDE (PGADDR v)) with (ADDR_PDE v) by (rewrite !ADDR_PDE_eq; unfold PGADDR, PAGE_SIZE; zlia).
    replace (ADDR_PTE (PGADDR v)) with (ADDR_PTE v) by (rewrite !ADDR_PTE_eq; unfold PGADDR, PAGE_SIZE; zlia).
    done. }
  rewrite Ee in E1. rewrite (bind_ret _ _ _ _ _ E1). unfold NilPgEnt. split; intros He.
  - destruct (Z.eqb_spec (entry_of (phys s) kpgd v) 0); [done|].
    assert (s1 = s) as ->.
    { apply Hsame. intros Hd. apply He. rewrite <- Ee. unfold entry_of. by rewrite Hd. }
    destruct (pg_write_entry_ok ct n k s (mt_pgd ut) (PGADDR v) (entry_of (phys s) kpgd v) Hs1 Hut)
      as (s' & E & _ & Hsp' & Hes & _); [auto with ak|].
    exists s'. split; [done|]. split; [done|].
    intros w Hw. by rewrite (es_entry _ _ _ _ _ _ Hes w Hw), same_page_PGADDR.
  - by rewrite He.
Qed.

Lemma kernel_fault_shares_entry_witness :
  pg_fault_handler demo_task (Some demo_task) 0x1000 0xC0400000 demo_vm = Panic "Tried to copy nil page entry".
Proof.
  destruct (kernel_fault_shares_entry demo_task demo_task 0x1000 2 6 demo_vm 0xC0400000
    demo_vm_ok demo_space_ok demo_space_ok) as [_ H]; [done|done|]. apply H. clear H.
  unfold entry_of. by rewrite demo_pde.
Defined.

(** [memcpy_phys] delivers the bytes of physical memory from [src] on, in
    order and across page boundaries, and restores the window. *)
Theorem memcpy_phys_bytes n k s src len :
  vm_ok (S n) k s → is_u32 src → 0 ≤ len → src + len ≤ 2 ^ 32 → len < 2 ^ 32 →
  memcpy_phys src len s = Ret ((λ j, phys_byte (phys s) (src + j)) <$> seqZ 0 len, s).
Proof. apply memcpy_phys_eq. Qed.

Lemma memcpy_phys_bytes_witness : memcpy_phys 0x2FFE 5 demo_vm = Ret ([0; 0; 97; 98; 99], demo_vm).
Proof. rewrite (memcpy_phys_bytes 3 8 demo_vm 0x2FFE 5 demo_vm_ok) by done. reflexivity. Defined.

(** A page reserved through [pg_reserve_range] is mapped at once, to the top
    of physical memory: the function passes MEMMAX as the physical address, and
    the entry 0xFFFFFFFF it writes has the present, user and reserved bits, so the
    page translates and no fault will ever give it a frame. *)
Theorem pg_reserve_range_maps ct n k s v :
  vm_ok (S (S n)) (S k) s → space_ok s (mt_pgd ct) → is_u32 v → v mod PAGE_SIZE = 0 →
  v < 2 ^ 32 - 2 * PAGE_SIZE →
  table_for ct (phys s) (mt_pgd ct) v →
  ∃ s', pg_reserve_range ct v (u32 (v + 1 - PAGE_SIZE)) true s = Ret (tt, s') ∧
    hw_walk (phys s') (mt_pgd ct) v = Some (0xFFFFF000, true, user_task ct).
Proof.
  intros Hs Hsp Hv Hal Hlim Htf.
  set (flags := reserve_flags ct).
  destruct (pg_write_entry_walk ct n k s (PGADDR v) (PAGE_ENTRY MEMMAX (Z.lor flags PAGE_RW)) Hs Hsp)
    as (s' & E & _ & _ & _ & _ & Hw); [auto with ak|by rewrite table_for_PGADDR|].
  assert (Ef : PAGE_ENTRY MEMMAX (Z.lor flags PAGE_RW) = 0xFFFFFFFF).
  { unfold flags, reserve_flags, base_flags. by destruct (mt_pid ct =? KERNEL_PID). }
  exists s'. split.
  - unfold pg_reserve_range. cbv zeta. fold (reserve_flags ct). fold flags.
    replace (u32 (v + 1 - PAGE_SIZE) +u PAGE_SIZE) with (v + 1)
      by (unfold u32, PAGE_SIZE in *; zlia).
    rewrite page_loop_forM by (unfold PAGE_SIZE in *; lia).
    rewrite page_count_step, page_count_0 by (unfold PAGE_SIZE; lia).
    rewrite page_seq_cons. cbn [forM page_seq].
    change (page_seq (v + PAGE_SIZE) 0) with (@nil Z). cbn [forM].
    unfold pg_map_ext. by rewrite (bind_ret _ _ _ _ _ E).
  - rewrite Hw, same_page_PGADDR, same_page_refl, Ef by done. change (Z.testbit _ 0) with true.
    cbv iota. do 2 f_equal; [|by rewrite andb_true_r]. unfold PAGE_SIZE in Hal.
    change (2 ^ 12) with 4096. rewrite Hal. reflexivity.
Qed.

Lemma pg_reserve_range_maps_witness :
  ∃ s', pg_reserve_range demo_task 0x8048000 0x8047001 true demo_vm = Ret (tt, s') ∧
    hw_walk (phys s') 0x1000 0x8048000 = Some (0xFFFFF000, true, true).
Proof.
  apply (pg_reserve_range_maps demo_task 2 7 demo_vm 0x8048000 demo_vm_ok demo_space_ok);
    [done|done|done|left; by apply demo_pde].
Defined.
