(* ===== verification/MmuClone.v ===== *)
(** * Copying an address space

    [arch/x86/mem/mmu_clone_dir.c], called by [task_fork_context] for fork.  Pages
    and tables marked PAGE_LINK, and entries that are not present, are shared; all
    other tables and pages are copied to fresh frames.  The loops over the 1024
    entries of a directory or table are [forM] over the indices, the entry under
    the index being read once. *)
From Stdlib Require Import ZArith Lia.
From stdpp Require Import base gmap list list_numbers strings.
From S2P Require Import Prelude Layout FrameAlloc Mmu.
Open Scope Z_scope.
Open Scope u32_scope.

(** ** Operations *)

Definition frame_copy (src dest : Z) : M vm unit :=
  vsrc ← pg_tmp_map src;
  vdest ← pg_tmp_map dest;
  vcopy vdest vsrc 1024 ;;
  pg_tmp_unmap vsrc ;;
  pg_tmp_unmap vdest.

Definition pg_clone_page (page : Z) : M vm Z :=
  let flags := PTE_FLAGS page in
  let pgframe := PTE_ADDR page in
  if Z.land flags PAGE_PRESENT =? 0 then mret page
  else if negb (Z.land flags PAGE_LINK =? 0) then mret page
  else
    newpgframe ← zoom frame_alloc;
    zoom (frame_set newpgframe) ;;
    frame_copy pgframe newpgframe ;;
    mret (PAGE_ENTRY newpgframe flags).

Definition pg_clone_page_4m (page : Z) : M vm Z :=
  let flags := PDE_FLAGS page in
  let pgframe := PDE_ADDR page in
  if Z.land flags PAGE_PRESENT =? 0 then mret page
  else if negb (Z.land flags PAGE_LINK =? 0) then mret page
  else
    newpgframe ← zoom frame_alloc_4m;
    let num_pages := 1024 in
    let limit := newpgframe +u (num_pages * PAGE_SIZE) in
    zoom (frame_set_range newpgframe limit) ;;
    forM (seqZ 0 num_pages)
      (λ i, let offset := i *u PAGE_SIZE in
            frame_copy (pgframe +u offset) (newpgframe +u offset)) ;;
    mret (PAGE_ENTRY newpgframe flags).

Definition pg_clone_tbl (tblent : Z) : M vm Z :=
  let flags := PTE_FLAGS tblent in
  let tblframe := PTE_ADDR tblent in
  if negb (Z.land flags PAGE_LINK =? 0) then mret tblent
  else if Z.land flags PAGE_PRESENT =? 0 then mret tblent
  else
    newtblframe ← pg_dir_new;
    tbl ← pg_tmp_map tblframe;
    newtbl ← pg_tmp_map newtblframe;
    forM (seqZ 0 1024)
      (λ i, e ← vload (tbl + 4 * i);
            if e =? NilPgEnt then mret tt
            else e' ← pg_clone_page e; vstore (newtbl + 4 * i) e') ;;
    pg_tmp_unmap tbl ;;
    pg_tmp_unmap newtbl ;;
    mret (PAGE_ENTRY newtblframe flags).

Definition pg_clone_dir (dirframe : Z) : M vm Z :=
  newdirframe ← pg_dir_new;
  dir ← pg_tmp_map dirframe;
  newdir ← pg_tmp_map newdirframe;
  forM (seqZ 0 1024)
    (λ i, d ← vload (dir + 4 * i);
          if d =? NilPgEnt then mret tt
          else d' ← (if negb (Z.land d PAGE_EXTENDED =? 0) then pg_clone_page_4m d else pg_clone_tbl d);
               vstore (newdir + 4 * i) d') ;;
  pg_tmp_unmap dir ;;
  pg_tmp_unmap newdir ;;
  mret newdirframe.

(** ** Specification *)

(** An entry that is copied: present and not linked. *)
Definition copied (e : Z) : bool := Z.testbit e 0 && negb (Z.testbit e 9).

Definition used (s : vm) (a : Z) : bool := frame_used (vm_frames s) a.

(** From [s] to [s'] frames are only taken, and memory that was in use in [s] is
    not written. *)
Record grow (s s' : vm) : Prop := {
  gr_used : ∀ b, used s b = true → used s' b = true;
  gr_mem : ∀ b, used s (page_of b) = true → rd (phys s') b = rd (phys s) b
}.

(** [a] is a frame that was free in [s] and is held in [s']. *)
Definition fresh_frame (s s' : vm) (a : Z) : Prop :=
  is_u32 a ∧ a mod PAGE_SIZE = 0 ∧ used s a = false ∧ used s' a = true.

(** [r] is the clone of the table entry [e]: the entry itself, or an entry with
    the same flags for a fresh frame with the same content. *)
Definition page_copied (s s' : vm) (e r : Z) : Prop :=
  if copied e then
    ∃ a, r = PAGE_ENTRY a (PTE_FLAGS e) ∧ fresh_frame s s' a ∧
         ∀ j, 0 ≤ j < 1024 → rd (phys s') (a + 4 * j) = rd (phys s) (PTE_ADDR e + 4 * j)
  else r = e.

(** The frames that belong to the entry [r] of a clone: the page, and for a
    directory entry the table and its pages. *)
Definition own_page (m : gmap Z Z) (r a : Z) : Prop := copied r = true ∧ a = PTE_ADDR r.
Definition own_table (m : gmap Z Z) (r a : Z) : Prop :=
  copied r = true ∧
  (a = PTE_ADDR r ∨ ∃ j, 0 ≤ j < 1024 ∧ own_page m (rd m (PTE_ADDR r + 4 * j)) a).

(** Entries [0 .. n) of the table at [t] are clones of those of the table at [p],
    and no frame belongs to two of them. *)
Record entries_copied (R : vm → vm → Z → Z → Prop) (own : gmap Z Z → Z → Z → Prop)
    (s s' : vm) (p t n : Z) : Prop := {
  ec_copy : ∀ j, 0 ≤ j < n → R s s' (rd (phys s) (p + 4 * j)) (rd (phys s') (t + 4 * j));
  ec_apart : ∀ j1 j2 a, 0 ≤ j1 < j2 → j2 < n →
    own (phys s') (rd (phys s') (t + 4 * j1)) a → own (phys s') (rd (phys s') (t + 4 * j2)) a → False;
  ec_table : ∀ j, 0 ≤ j < n → own (phys s') (rd (phys s') (t + 4 * j)) t → False
}.

(** [r] is the clone of the directory entry [d]. *)
Definition table_copied (s s' : vm) (d r : Z) : Prop :=
  if copied d then
    ∃ t, r = PAGE_ENTRY t (PTE_FLAGS d) ∧ fresh_frame s s' t ∧
      entries_copied page_copied own_page s s' (PTE_ADDR d) t 1024
  else r = d.

(** What cloning needs of the source: entries are words, what is to be copied is
    marked allocated, and 4m pages are linked (as the kernel's is). *)
Definition table_clonable (s : vm) (d : Z) : Prop :=
  is_u32 d ∧
  (Z.testbit d 7 = true → copied d = false) ∧
  (copied d = true → used s (PTE_ADDR d) = true ∧
     ∀ j, 0 ≤ j < 1024 → let e := rd (phys s) (PTE_ADDR d + 4 * j) in
       is_u32 e ∧ (copied e = true → used s (PTE_ADDR e) = true)).
Record clonable (s : vm) (pgd : Z) : Prop := {
  cl_pgd : is_u32 pgd;
  cl_align : pgd mod PAGE_SIZE = 0;
  cl_used : used s pgd = true;
  cl_tables : ∀ i, 0 ≤ i < 1024 → table_clonable s (rd (phys s) (pgd + 4 * i));
  cl_linked : ∀ i, 0 ≤ i < 1024 → let d := rd (phys s) (pgd + 4 * i) in
    Z.testbit d 0 = true → Z.testbit d 7 = false → used s (PTE_ADDR d) = true
}.

(** The page of [v] is private to the address space: it is copied by a clone. *)
Definition private (m : gmap Z Z) (pgd v : Z) : bool := copied (pde_of m pgd v) && copied (entry_of m pgd v).

(** The number of frames a clone takes. *)
Definition sum_from (f : Z → nat) (i : Z) : nat :=
  foldr (λ x n, (f x + n)%nat) 0%nat (seqZ i (1024 - i)).
Definition page_cost (e : Z) : nat := if copied e then 1 else 0.
Definition table_cost (m : gmap Z Z) (d : Z) : nat :=
  if copied d then S (sum_from (λ j, page_cost (rd m (PTE_ADDR d + 4 * j))) 0) else 0.
Definition dir_cost (m : gmap Z Z) (pgd : Z) : nat :=
  S (sum_from (λ i, table_cost m (rd m (pgd + 4 * i))) 0).

(** ** Growing states *)

Lemma flags_small e : 0 ≤ PTE_FLAGS e < 4096.
Proof. rewrite PTE_FLAGS_eq. zlia. Qed.

Lemma flags_bit e j : 0 ≤ j < 12 → Z.testbit (PTE_FLAGS e) j = Z.testbit e j.
Proof. intros ?. rewrite PTE_FLAGS_eq. change 4096 with (2 ^ 12). by rewrite Z.mod_pow2_bits_low by lia. Qed.

Lemma copied_entry a e : a mod PAGE_SIZE = 0 → copied (PAGE_ENTRY a (PTE_FLAGS e)) = copied e.
Proof. intros. unfold copied. by rewrite !entry_bit, !flags_bit by (done || lia). Qed.


Lemma used_neg s b : b < 0 → used s b = true.
Proof.
  intros Hb. unfold used, frame_used.
  destruct (lookupZ _ _) eqn:E; [|done]. apply lookupZ_lt in E.
  unfold BIT_IDX, ADDR_PAGE, BITS_PER_ENTRY, PAGE_SIZE in E. zlia.
Qed.

Lemma grow_refl s : grow s s.
Proof. by split. Qed.

Lemma grow_trans s1 s2 s3 : grow s1 s2 → grow s2 s3 → grow s1 s3.
Proof.
  intros H1 H2. split.
  - intros b Hu. by apply H2, H1.
  - intros b Hu. rewrite (gr_mem _ _ H2), (gr_mem _ _ H1); [done|done|by apply H1].
Qed.

(** The relation only looks at frames and memory. *)
Lemma grow_frames_phys s s' fr m :
  (∀ b, 0 ≤ b → used s b = true → frame_used fr b = true) →
  (∀ b, used s (page_of b) = true → rd m b = rd (phys s) b) →
  vm_frames s' = fr → phys s' = m → grow s s'.
Proof.
  intros Hu Hm <- <-. split; [|done]. intros b Hb.
  destruct (Z.lt_ge_cases b 0); [by apply used_neg|by apply Hu].
Qed.

Lemma fresh_grow s s' s1 a : grow s' s1 → fresh_frame s s' a → fresh_frame s s1 a.
Proof. intros Hg (?&?&?&?). split_and!; try done; try lia. by apply Hg. Qed.

(** Frames are only taken, and the memory that belongs to [r] is kept. *)
Definition keeps (own : gmap Z Z → Z → Z → Prop) (s' s1 : vm) (r : Z) : Prop :=
  (∀ b, used s' b = true → used s1 b = true) ∧
  ∀ b, own (phys s') r (page_of b) → rd (phys s1) b = rd (phys s') b.

(** What holds of a clone is not disturbed while its memory is kept. *)
Lemma page_copied_keeps s s' s1 e r :
  page_copied s s' e r → keeps own_page s' s1 r → page_copied s s1 e r.
Proof.
  unfold page_copied. destruct (copied e) eqn:Ee; [|done].
  intros (a & -> & Hf & Hc) [Hu Hk]. exists a. split; [done|].
  destruct Hf as (?&?&?&?). split; [split_and!; try done; try lia; by apply Hu|].
  intros j Hj. rewrite <- Hc by done. apply Hk. rewrite page_of_word by done. split.
  - by rewrite copied_entry.
  - by rewrite PTE_ADDR_entry by (done || apply flags_small).
Qed.

(** Nor by looking at it from an earlier state in which the source was in use. *)
Lemma page_copied_from s0 s s' e r :
  grow s0 s → is_u32 e → (copied e = true → used s0 (PTE_ADDR e) = true) →
  page_copied s s' e r → page_copied s0 s' e r.
Proof.
  intros Hg He Hu. unfold page_copied. destruct (copied e); [|done].
  intros (a & -> & (?&?&Hf&?) & Hc). exists a. split; [done|]. split.
  - split_and!; try done; try lia. destruct (used s0 a) eqn:E; [|done]. by rewrite (gr_used _ _ Hg) in Hf.
  - intros j Hj. rewrite Hc by done. apply Hg.
    rewrite page_of_word by (done || by apply PTE_ADDR_aligned). by apply Hu.
Qed.

Lemma sum_from_step f i : 0 ≤ i < 1024 → sum_from f i = (f i + sum_from f (i + 1))%nat.
Proof.
  intros ?. unfold sum_from. rewrite seqZ_cons by lia. cbn [foldr].
  by replace (Z.pred (1024 - i)) with (1024 - (i + 1)) by lia.
Qed.

(** ** One page *)

Lemma vcopy_ok s i j src dest :
  mapped s i src → mapped s j dest → src ≠ dest →
  ∃ m, vcopy (tmp_addr j) (tmp_addr i) 1024 s = Ret (tt, with_phys m s) ∧
       (∀ k, 0 ≤ k < 1024 → rd m (dest + 4 * k) = rd (phys s) (src + 4 * k)) ∧
       (∀ b, page_of b ≠ dest → rd m b = rd (phys s) b).
Proof.
  intros Hi Hj Hne. assert (Hai : src mod PAGE_SIZE = 0) by apply Hi. assert (Haj : dest mod PAGE_SIZE = 0) by apply Hj.
  edestruct (forM_count (λ k, x ← vload (tmp_addr i + 4 * k); vstore (tmp_addr j + 4 * k) x)
    (λ n s', ∃ m, s' = with_phys m s ∧ (∀ k, 0 ≤ k < n → rd m (dest + 4 * k) = rd (phys s) (src + 4 * k)) ∧
                  (∀ b, page_of b ≠ dest → rd m b = rd (phys s) b)) 1024 s) as (s' & E & m & -> & Hc & Hr).
  - lia.
  - intros k s1 Hk (m & -> & Hc & Hr).
    assert (Hi' : mapped (with_phys m s) i src) by exact Hi.
    assert (Hj' : mapped (with_phys m s) j dest) by exact Hj.
    rewrite (bind_ret _ _ _ _ _ (vload_ok _ i src k Hi' Hk)), (vstore_ok _ j dest k _ Hj' Hk).
    eexists. split; [done|]. eexists. split; [done|]. cbn [phys with_phys].
    rewrite Hr by (by rewrite page_of_word). split.
    + intros k' Hk'. destruct (Z.eq_dec k' k) as [->|]; [apply rd_insert_eq|].
      rewrite rd_insert_ne by lia. apply Hc. lia.
    + intros b Hb. rewrite rd_insert_ne; [by apply Hr|]. intros <-. apply Hb. by apply page_of_word.
  - exists (phys s). split; [by destruct s|]. split; [lia|done].
  - exists m. done.
Qed.

(** Two pages shown one after the other, and hidden in the same order. *)
Section TwoSlots.
Context (n k : nat) (s : vm) (a b : Z).
Hypothesis Hs : vm_ok (S (S n)) k s.
Hypothesis Ha : is_u32 a ∧ a mod PAGE_SIZE = 0.
Hypothesis Hb : is_u32 b ∧ b mod PAGE_SIZE = 0.

Definition show2 : vm := show b (show a s).

Lemma show2_ok : vm_ok n k show2.
Proof. by do 2 apply show_ok. Qed.

Lemma show2_mapped : mapped show2 (slot s) a ∧ mapped show2 (slot (show a s)) b.
Proof.
  split.
  - apply (show_mapped_other n k); [by apply show_ok|]. apply (show_mapped (S n) k); [done|apply Ha|apply Ha].
  - apply (show_mapped n k); [by apply show_ok|..]; apply Hb.
Qed.

Lemma show2_maps B (c : Z → Z → M vm B) :
  (p ← pg_tmp_map a; q ← pg_tmp_map b; c p q) s = c (tmp_addr (slot s)) (tmp_addr (slot (show a s))) show2.
Proof.
  rewrite (bind_ret _ _ _ _ _ (pg_tmp_map_ok (S n) k a s Hs)).
  by rewrite (bind_ret _ _ _ _ _ (pg_tmp_map_ok n k b (show a s) (show_ok _ _ a s Hs))).
Qed.

Lemma show2_unmaps t B (c : M vm B) :
  TmpPageTbl t = TmpPageTbl show2 →
  (pg_tmp_unmap (tmp_addr (slot s)) ;; pg_tmp_unmap (tmp_addr (slot (show a s))) ;; c) t
  = c (with_tmp (TmpPageTbl s) t).
Proof.
  intros Ht. pose proof (slot_spec s _ _ Hs) as [Hi Hli].
  pose proof (slot_spec _ _ _ (show_ok _ _ a s Hs)) as [Hj Hlj].
  assert (Hlen : length (TmpPageTbl t) = 1024%nat).
  { rewrite Ht. unfold show2, show. cbn. rewrite !length_insertZ. apply Hs. }
  rewrite (bind_ret _ _ _ _ _ (pg_tmp_unmap_ok t (slot s) Hlen Hi)).
  rewrite (bind_ret _ _ _ _ _ (pg_tmp_unmap_ok (hide (slot s) t) (slot (show a s))
    ltac:(unfold hide; cbn; by rewrite length_insertZ) Hj)).
  f_equal. unfold hide, with_tmp. cbn [TmpPageTbl vm_frames phys MMUReady]. f_equal.
  rewrite Ht. change (TmpPageTbl show2) with
    (insertZ (slot (show a s)) (PAGE_ENTRY b KERNEL_FLAGS) (TmpPageTbl (show a s))).
  set (i := slot s) in *. set (j := slot (show a s)) in *. clearbody j.
  assert (Hm : lookupZ (TmpPageTbl (show a s)) i = Some (PAGE_ENTRY a KERNEL_FLAGS)).
  { unfold show; cbn. apply lookupZ_insert_eq. rewrite (vo_len _ _ _ Hs). lia. }
  assert (Hne : i ≠ j).
  { intros <-. rewrite Hm in Hlj. injection Hlj. apply slot_entry_nonzero. }
  unfold show in Hlj |- *. cbn [TmpPageTbl with_tmp] in *. fold i in Hlj |- *.
  rewrite lookupZ_insert_ne in Hlj by lia. clear Hm Ht.
  rewrite (insertZ_comm _ i j NilPgEnt) by lia. rewrite !insertZ_insertZ, (insertZ_id _ i) by done.
  by apply insertZ_id.
Qed.

Lemma show2_unmaps_last t :
  TmpPageTbl t = TmpPageTbl show2 →
  (pg_tmp_unmap (tmp_addr (slot s)) ;; pg_tmp_unmap (tmp_addr (slot (show a s)))) t
  = Ret (tt, with_tmp (TmpPageTbl s) t).
Proof.
  intros Ht. transitivity ((pg_tmp_unmap (tmp_addr (slot s)) ;;
    pg_tmp_unmap (tmp_addr (slot (show a s))) ;; mret tt) t); [|by rewrite show2_unmaps].
  apply bind_ext; [done|]. intros _ t'. unfold mbind, M_bind, mbind_M.
  by destruct (pg_tmp_unmap _ t') as [[[] ?]| | |].
Qed.
End TwoSlots.

Lemma frame_copy_ok n k s src dest :
  vm_ok (S (S n)) k s → is_u32 src → src mod PAGE_SIZE = 0 → is_u32 dest → dest mod PAGE_SIZE = 0 → src ≠ dest →
  ∃ m, frame_copy src dest s = Ret (tt, with_phys m s) ∧
       (∀ j, 0 ≤ j < 1024 → rd m (dest + 4 * j) = rd (phys s) (src + 4 * j)) ∧
       (∀ b, page_of b ≠ dest → rd m b = rd (phys s) b).
Proof.
  intros Hs Hs1 Hs2 Hd1 Hd2 Hne.
  destruct (show2_mapped n k s src dest Hs) as [Hi Hj]; [done|done|].
  destruct (vcopy_ok _ _ _ _ _ Hi Hj Hne) as (m & E & Hc & Hr).
  exists m. split; [|done]. unfold frame_copy. rewrite (show2_maps n k) by done.
  rewrite (bind_ret _ _ _ _ _ E). by rewrite (show2_unmaps_last n k s src dest).
Qed.

(** The tests on the flags of an entry. *)
Lemma flags_test e j : 0 ≤ j < 12 → (Z.land (PTE_FLAGS e) (Z.shiftl 1 j) =? 0) = negb (Z.testbit e j).
Proof.
  intros ?. rewrite land_shiftl_1_eqb, PTE_FLAGS_eq by lia. change 4096 with (2 ^ 12).
  by rewrite Z.mod_pow2_bits_low by lia.
Qed.

Lemma used_set s a b : frame_in (vm_frames s) a → 0 ≤ b →
  used (with_frames (set_frame a (vm_frames s)) s) b = same_frame a b || used s b.
Proof. intros. unfold used; cbn. by apply frame_used_set. Qed.

Lemma pg_clone_page_ok n k s e :
  vm_ok (S (S n)) (page_cost e + k) s → is_u32 e → (copied e = true → used s (PTE_ADDR e) = true) →
  ∃ r s', pg_clone_page e s = Ret (r, s') ∧ vm_ok (S (S n)) k s' ∧
    TmpPageTbl s' = TmpPageTbl s ∧ MMUReady s' = MMUReady s ∧ grow s s' ∧ page_copied s s' e r.
Proof.
  intros Hs He Hu. unfold pg_clone_page, page_copied, page_cost in *. unfold copied in *.
  change PAGE_PRESENT with (Z.shiftl 1 0). change PAGE_LINK with (Z.shiftl 1 9).
  rewrite !flags_test by lia.
  destruct (Z.testbit e 0) eqn:E0; cbn [negb andb] in *.
  2: { exists e, s. repeat split; (done || apply Hs || idtac). }
  destruct (Z.testbit e 9) eqn:E9; cbn [negb andb] in *.
  { exists e, s. repeat split; (done || apply Hs || idtac). }
  destruct (zoom_frame_take (S (S n)) k s Hs) as (a & _ & Ha & Hal & Hin & Hf & Hs1 & Hbind).
  set (s1 := with_frames (set_frame a (vm_frames s)) s) in *.
  assert (Hne : PTE_ADDR e ≠ a).
  { intros E. specialize (Hu eq_refl). unfold used in Hu. rewrite E in Hu. congruence. }
  destruct (frame_copy_ok n k s1 (PTE_ADDR e) a) as (m & E & Hc & Hr); try done; try auto with ak.
  exists (PAGE_ENTRY a (PTE_FLAGS e)), (with_phys m s1). cbv zeta.
  split; [rewrite Hbind; by rewrite (bind_ret _ _ _ _ _ E)|].
  split; [split; apply Hs1|]. do 2 (split; [done|]). split.
  - eapply grow_frames_phys; [| |done|done].
    + intros b Hb Hub. change (used s1 b = true). unfold s1. rewrite used_set by done. by rewrite Hub, orb_true_r.
    + intros b Hub. rewrite Hr; [done|]. intros E'. unfold used in Hub. rewrite E' in Hub. congruence.
  - exists a. split; [done|]. split; [|done]. split_and!; try done; try lia.
    change (used s1 a = true). unfold s1. rewrite used_set by (done || lia). unfold same_frame. by rewrite Z.eqb_refl.
Qed.

(** ** The loop over the entries of a table *)

Section CloneLoop.
Context (n : nat) (f : Z → M vm Z) (R : vm → vm → Z → Z → Prop) (own : gmap Z Z → Z → Z → Prop).
Context (pre : vm → Z → Prop) (cost : gmap Z Z → Z → nat).
(** [f] clones an entry, with [cost] frames. *)
Hypothesis f_ok : ∀ k s e, vm_ok n (cost (phys s) e + k) s → pre s e →
  ∃ r s', f e s = Ret (r, s') ∧ vm_ok n k s' ∧ TmpPageTbl s' = TmpPageTbl s ∧
    MMUReady s' = MMUReady s ∧ grow s s' ∧ R s s' e r.
Hypothesis R_own : ∀ s s' e r a, R s s' e r → own (phys s') r a → used s a = false ∧ used s' a = true.
Hypothesis R_keeps : ∀ s s' s1 e r, R s s' e r → keeps own s' s1 r → R s s1 e r.
Hypothesis own_keeps : ∀ s s' s1 e r a, R s s' e r → keeps own s' s1 r → own (phys s1) r a → own (phys s') r a.
Hypothesis R_from : ∀ s0 s s' e r, grow s0 s → pre s0 e → R s s' e r → R s0 s' e r.
Hypothesis pre_grow : ∀ s0 s e, grow s0 s → pre s0 e → pre s e ∧ cost (phys s) e = cost (phys s0) e.
Hypothesis R_nil : ∀ s s', R s s' 0 0.
Hypothesis cost_nil : ∀ m, cost m 0 = 0%nat.
Hypothesis own_nil : ∀ m a, own m 0 a → False.

Lemma keeps_grow s s' s1 e r : R s s' e r → grow s' s1 → keeps own s' s1 r.
Proof. intros HR Hg. split; [apply Hg|]. intros b Hb. apply Hg. by apply (R_own s s' e r). Qed.

(** Storing into a page that does not belong to [r]. *)
Lemma keeps_store s' t x y r :
  t mod PAGE_SIZE = 0 → 0 ≤ y < 1024 → (own (phys s') r t → False) →
  keeps own s' (with_phys (<[t + 4 * y := x]> (phys s')) s') r.
Proof.
  intros Ht Hy Hno. split; [done|]. intros b Hb. cbn. apply rd_insert_ne. intros <-.
  apply Hno. by rewrite page_of_word in Hb.
Qed.

Context (k : nat) (s : vm) (p t ip it : Z).
Hypothesis Hp : used s p = true.
Hypothesis Htf : used s t = false.
Hypothesis Hpre : ∀ j, 0 ≤ j < 1024 → pre s (rd (phys s) (p + 4 * j)).
Hypothesis Hpal : p mod PAGE_SIZE = 0.
Hypothesis Htal : t mod PAGE_SIZE = 0.

(** After the entries below [i]. *)
Record loop_inv (tbl : list Z) (ready : bool) (i : Z) (st : vm) : Prop := {
  li_ok : vm_ok n (sum_from (λ j, cost (phys s) (rd (phys s) (p + 4 * j))) i + k) st;
  li_tmp : TmpPageTbl st = tbl;
  li_ready : MMUReady st = ready;
  li_grow : grow s st;
  li_used : used st t = true;
  li_done : entries_copied R own s st p t i;
  li_rest : ∀ j, i ≤ j < 1024 → rd (phys st) (t + 4 * j) = 0
}.

Lemma store_grow st i r : grow s st → 0 ≤ i < 1024 → grow s (with_phys (<[t + 4 * i := r]> (phys st)) st).
Proof.
  intros Hg Hi. split; [apply Hg|]. intros b Hb. cbn. rewrite rd_insert_ne; [by apply Hg|].
  intros <-. rewrite page_of_word, Htf in Hb by done. done.
Qed.

(** An entry that is cloned and stored. *)
Lemma loop_store tbl ready i st st1 r :
  0 ≤ i < 1024 → loop_inv tbl ready i st →
  vm_ok n (sum_from (λ j, cost (phys s) (rd (phys s) (p + 4 * j))) (i + 1) + k) st1 →
  TmpPageTbl st1 = TmpPageTbl st → MMUReady st1 = MMUReady st → grow st st1 →
  R st st1 (rd (phys s) (p + 4 * i)) r →
  loop_inv tbl ready (i + 1) (with_phys (<[t + 4 * i := r]> (phys st1)) st1).
Proof.
  intros Hi [Hok Htmp Hrdy Hg Hut [Hcopy Hapart Htab] Hrest] Hok1 Htmp1 Hrdy1 Hg1 HR.
  set (st2 := with_phys _ st1).
  assert (Hgs1 : grow s st1) by (by apply (grow_trans _ st)).
  assert (Hrd : ∀ j, 0 ≤ j < 1024 → rd (phys st1) (t + 4 * j) = rd (phys st) (t + 4 * j)).
  { intros j Hj. apply Hg1. by rewrite page_of_word. }
  assert (Hrd2 : ∀ j, 0 ≤ j < 1024 → j ≠ i → rd (phys st2) (t + 4 * j) = rd (phys st) (t + 4 * j)).
  { intros j Hj Hne. rewrite <- Hrd by done. unfold st2; cbn. apply rd_insert_ne. lia. }
  assert (Hrdi : rd (phys st2) (t + 4 * i) = r) by apply rd_insert_eq.
  (* the old entries *)
  assert (Hold : ∀ j, 0 ≤ j < i → R s st2 (rd (phys s) (p + 4 * j)) (rd (phys st) (t + 4 * j)) ∧
    ∀ a, own (phys st2) (rd (phys st) (t + 4 * j)) a → own (phys st) (rd (phys st) (t + 4 * j)) a).
  { intros j Hj. pose proof (Hcopy j Hj) as HRj. pose proof (keeps_grow _ _ _ _ _ HRj Hg1) as Hk1.
    pose proof (R_keeps _ _ _ _ _ HRj Hk1) as HRj1.
    assert (Hk2 : keeps own st1 st2 (rd (phys st) (t + 4 * j))).
    { apply keeps_store; [done|done|]. intros Ho. apply (Htab j Hj). by eapply own_keeps. }
    split; [by eapply R_keeps|]. intros a Ho. eapply own_keeps; [done|done|]. by eapply own_keeps. }
  (* the new one *)
  assert (Hnt : own (phys st1) r t → False).
  { intros Ho. destruct (R_own _ _ _ _ _ HR Ho) as [Hf _]. by rewrite Hut in Hf. }
  assert (HRi : R s st1 (rd (phys s) (p + 4 * i)) r) by (apply (R_from s st); [done|by apply Hpre|done]).
  assert (Hki : keeps own st1 st2 r) by (by apply keeps_store).
  assert (Hown : ∀ a, own (phys st2) r a → own (phys st1) r a) by (intros a Ho; by eapply own_keeps).
  split; [split; apply Hok1|change (TmpPageTbl st1 = tbl); congruence|change (MMUReady st1 = ready); congruence
    |by apply store_grow|by apply Hg1|split|].
  - intros j Hj. destruct (Z.eq_dec j i) as [->|Hne].
    + rewrite Hrdi. by eapply R_keeps.
    + rewrite Hrd2 by lia. apply Hold. lia.
  - intros j1 j2 a Hj1 Hj2. rewrite (Hrd2 j1) by lia. destruct (Z.eq_dec j2 i) as [->|Hne].
    + rewrite Hrdi. intros Ho1%Hold%(R_own _ _ _ _ _ (Hcopy j1 ltac:(lia))) Ho2%Hown; [|lia].
      destruct (R_own _ _ _ _ _ HR Ho2). destruct Ho1. congruence.
    + rewrite Hrd2 by lia. intros Ho1%Hold Ho2%Hold; [|lia|lia]. by apply (Hapart j1 j2 a); try lia.
  - intros j Hj. destruct (Z.eq_dec j i) as [->|Hne].
    + rewrite Hrdi. by intros Ho%Hown.
    + rewrite Hrd2 by lia. intros Ho%Hold; [|lia]. by apply (Htab j); [lia|].
  - intros j Hj. rewrite Hrd2 by lia. apply Hrest. lia.
Qed.

Lemma clone_entries_ok st :
  loop_inv (TmpPageTbl st) (MMUReady st) 0 st → mapped st ip p → mapped st it t →
  ∃ st', forM (seqZ 0 1024)
      (λ i, e ← vload (tmp_addr ip + 4 * i);
            if e =? NilPgEnt then mret tt else e' ← f e; vstore (tmp_addr it + 4 * i) e') st = Ret (tt, st') ∧
    loop_inv (TmpPageTbl st) (MMUReady st) 1024 st'.
Proof.
  intros HI Hmp Hmt. apply forM_count; [done| |done].
  intros i st0 Hi Hinv. pose proof Hinv as [Hok Htmp Hrdy Hg Hut Hdone Hrest].
  assert (Hmp0 : mapped st0 ip p) by (unfold mapped; rewrite Htmp; exact Hmp).
  rewrite (bind_ret _ _ _ _ _ (vload_ok _ _ _ _ Hmp0 Hi)).
  assert (Ee : rd (phys st0) (p + 4 * i) = rd (phys s) (p + 4 * i)) by (apply Hg; by rewrite page_of_word).
  rewrite Ee. unfold NilPgEnt. rewrite sum_from_step in Hok by done.
  destruct (Z.eqb_spec (rd (phys s) (p + 4 * i)) 0) as [E0|Hn].
  - exists st0. split; [done|]. destruct Hdone as [Hcopy Hapart Htab].
    assert (Er : rd (phys st0) (t + 4 * i) = 0) by (apply Hrest; lia).
    rewrite E0, cost_nil in Hok.
    split; try done.
    + split.
      * intros j Hj. destruct (Z.eq_dec j i) as [->|]; [rewrite E0, Er; apply R_nil|apply Hcopy; lia].
      * intros j1 j2 a Hj1 Hj2 Ho1. destruct (Z.eq_dec j2 i) as [->|]; [rewrite Er; apply own_nil|].
        apply (Hapart j1 j2 a); [lia|lia|done].
      * intros j Hj. destruct (Z.eq_dec j i) as [->|]; [rewrite Er; apply own_nil|apply Htab; lia].
    + intros j Hj. apply Hrest. lia.
  - destruct (pre_grow _ _ _ Hg (Hpre i Hi)) as [Hpre0 Hcost].
    rewrite <- Hcost, <- Nat.add_assoc in Hok.
    destruct (f_ok _ _ _ Hok Hpre0) as (r & st1 & E & Hok1 & Htmp1 & Hrdy1 & Hg1 & HR).
    rewrite (bind_ret _ _ _ _ _ E).
    assert (Hmt1 : mapped st1 it t) by (unfold mapped; rewrite Htmp1, Htmp; exact Hmt).
    rewrite (vstore_ok _ _ _ _ _ Hmt1 Hi). eexists. split; [done|].
    by apply (loop_store _ _ i st0 st1 r).
Qed.
End CloneLoop.

(** ** Pages of a table *)

Definition page_pre (s : vm) (e : Z) : Prop := is_u32 e ∧ (copied e = true → used s (PTE_ADDR e) = true).

Lemma page_copied_own s s' e r a :
  page_copied s s' e r → own_page (phys s') r a → used s a = false ∧ used s' a = true.
Proof.
  unfold page_copied, own_page. destruct (copied e) eqn:Ee.
  - intros (a0 & -> & (?&?&?&?) & _) [_ ->]. by rewrite PTE_ADDR_entry by (done || apply flags_small).
  - intros -> [? _]. congruence.
Qed.

Lemma page_pre_grow s0 s e : grow s0 s → page_pre s0 e → page_pre s e.
Proof. intros Hg [? Hu]. split; [done|]. intros Hc. by apply Hg, Hu. Qed.

Lemma PTE_ADDR_clone a e : is_u32 a → a mod PAGE_SIZE = 0 → PTE_ADDR (PAGE_ENTRY a (PTE_FLAGS e)) = a.
Proof. intros. by apply PTE_ADDR_entry; [..|apply flags_small]. Qed.

(** A fresh zeroed frame, as [pg_dir_new] makes it, and two pages shown. *)
Lemma new_frame n k s :
  vm_ok (S n) (S k) s →
  ∃ a s1, pg_dir_new s = Ret (a, s1) ∧ fresh_frame s s1 a ∧ vm_ok (S n) k s1 ∧
    TmpPageTbl s1 = TmpPageTbl s ∧ MMUReady s1 = MMUReady s ∧ grow s s1 ∧
    (∀ j, 0 ≤ j < 1024 → rd (phys s1) (a + 4 * j) = 0).
Proof.
  intros Hs. destruct (pg_dir_new_ok n k s Hs) as (a & m & E & Ha & Hal & Hin & Hf & Hs1 & Hz & Hr).
  eexists a, _. split; [exact E|].
  assert (Hset : ∀ b, 0 ≤ b → frame_used (set_frame a (vm_frames s)) b = same_frame a b || frame_used (vm_frames s) b)
    by (intros b Hb; by apply frame_used_set).
  split; [|split; [done|do 2 (split; [done|])]].
  - split_and!; try done; try lia. unfold used; cbn. rewrite Hset by lia. unfold same_frame. by rewrite Z.eqb_refl.
  - split; [|done]. eapply grow_frames_phys; [| |done|done]; cbn.
    + intros b Hb Hub. rewrite Hset by done. unfold used in Hub. by rewrite Hub, orb_true_r.
    + intros b Hub. apply Hr. intros E'. unfold used in Hub. rewrite E', Hf in Hub. done.
Qed.

(** The loop of a clone, from a fresh table [t] and the source [p] shown in the
    window to both hidden again. *)
Section CloneTable.
Context (f : Z → M vm Z) (R : vm → vm → Z → Z → Prop) (own : gmap Z Z → Z → Z → Prop).
Context (pre : vm → Z → Prop) (cost : gmap Z Z → Z → nat) (n : nat).
Hypothesis f_ok : ∀ k s e, vm_ok n (cost (phys s) e + k) s → pre s e →
  ∃ r s', f e s = Ret (r, s') ∧ vm_ok n k s' ∧ TmpPageTbl s' = TmpPageTbl s ∧
    MMUReady s' = MMUReady s ∧ grow s s' ∧ R s s' e r.
Hypothesis R_own : ∀ s s' e r a, R s s' e r → own (phys s') r a → used s a = false ∧ used s' a = true.
Hypothesis R_keeps : ∀ s s' s1 e r, R s s' e r → keeps own s' s1 r → R s s1 e r.
Hypothesis own_keeps : ∀ s s' s1 e r a, R s s' e r → keeps own s' s1 r → own (phys s1) r a → own (phys s') r a.
Hypothesis R_from : ∀ s0 s s' e r, grow s0 s → pre s0 e → R s s' e r → R s0 s' e r.
Hypothesis pre_grow : ∀ s0 s e, grow s0 s → pre s0 e → pre s e ∧ cost (phys s) e = cost (phys s0) e.
Hypothesis R_nil : ∀ s s', R s s' 0 0.
Hypothesis cost_nil : ∀ m, cost m 0 = 0%nat.
Hypothesis own_nil : ∀ m a, own m 0 a → False.

Lemma clone_table_ok k s p :
  vm_ok (S (S n)) (S (sum_from (λ j, cost (phys s) (rd (phys s) (p + 4 * j))) 0 + k)) s →
  is_u32 p → p mod PAGE_SIZE = 0 → used s p = true → 
  (∀ j, 0 ≤ j < 1024 → pre s (rd (phys s) (p + 4 * j))) →
  ∃ t s', (t ← pg_dir_new; a ← pg_tmp_map p; b ← pg_tmp_map t;
     forM (seqZ 0 1024)
      (λ i, e ← vload (a + 4 * i);
            if e =? NilPgEnt then mret tt else e' ← f e; vstore (b + 4 * i) e') ;;
     pg_tmp_unmap a ;; pg_tmp_unmap b ;; mret t) s = Ret (t, s') ∧
    vm_ok (S (S n)) k s' ∧ TmpPageTbl s' = TmpPageTbl s ∧ MMUReady s' = MMUReady s ∧ grow s s' ∧
    fresh_frame s s' t ∧ entries_copied R own s s' p t 1024.
Proof.
  intros Hs Hp Hpal Hup Hpre.
  destruct (new_frame (S n) _ s Hs) as (t & s1 & E1 & Ht & Hs1 & Htmp1 & Hrdy1 & Hg1 & Hz).
  destruct Ht as (Ht & Htal & Htf & Htu).
  destruct (show2_mapped n _ s1 p t Hs1) as [Hmp Hmt]; [done|done|].
  set (s2 := show2 s1 p t) in *. assert (Hs2 : vm_ok n _ s2) by exact (show2_ok n _ s1 p t Hs1).
  edestruct (clone_entries_ok n f R own pre cost f_ok R_own R_keeps own_keeps R_from pre_grow R_nil
    cost_nil own_nil k s p t (slot s1) (slot (show p s1)) Hup Htf Hpre Hpal Htal s2) as (s3 & E3 & Hinv).
  - split; [exact Hs2|done|done|split; apply Hg1|exact Htu|split; intros; lia|exact Hz].
  - done.
  - done.
  - destruct Hinv as [Hok3 Htmp3 Hrdy3 Hg3 Hu3 Hec _].
    exists t, (with_tmp (TmpPageTbl s1) s3). rewrite (bind_ret _ _ _ _ _ E1).
    rewrite (show2_maps n _ s1 p t Hs1). fold s2. rewrite (bind_ret _ _ _ _ _ E3).
    rewrite (show2_unmaps n _ s1 p t Hs1) by done.
    split; [done|]. split; [split; apply Hok3 || apply Hs1|].
    split; [done|]. split; [by rewrite <- Hrdy1|]. split; [split; apply Hg3|].
    split; [split_and!; (done || lia)|]. destruct Hec as [Hc Ha Ht']. split; [|done|done].
    intros j Hj. eapply R_keeps; [by apply Hc|by split].
Qed.
End CloneTable.

(** ** One table *)

Lemma pages_copied_ok n k s p :
  vm_ok (S (S (S (S n)))) (S (sum_from (λ j, page_cost (rd (phys s) (p + 4 * j))) 0 + k)) s →
  is_u32 p → p mod PAGE_SIZE = 0 → used s p = true →
  (∀ j, 0 ≤ j < 1024 → page_pre s (rd (phys s) (p + 4 * j))) →
  ∃ t s', (t ← pg_dir_new; a ← pg_tmp_map p; b ← pg_tmp_map t;
     forM (seqZ 0 1024)
      (λ i, e ← vload (a + 4 * i);
            if e =? NilPgEnt then mret tt else e' ← pg_clone_page e; vstore (b + 4 * i) e') ;;
     pg_tmp_unmap a ;; pg_tmp_unmap b ;; mret t) s = Ret (t, s') ∧
    vm_ok (S (S (S (S n)))) k s' ∧ TmpPageTbl s' = TmpPageTbl s ∧ MMUReady s' = MMUReady s ∧ grow s s' ∧
    fresh_frame s s' t ∧ entries_copied page_copied own_page s s' p t 1024.
Proof.
  intros. apply (clone_table_ok pg_clone_page page_copied own_page page_pre (λ _, page_cost) (S (S n)));
    try done.
  - intros k' s' e Hok [He Hu]. by apply pg_clone_page_ok.
  - apply page_copied_own.
  - apply page_copied_keeps.
  - intros s0 s1 s2 e r Hg [He Hu]. by apply page_copied_from.
  - intros s0 s1 e Hg Hpre. split; [by apply (page_pre_grow s0)|done].
  - by intros m a [? _].
Qed.

Lemma table_pre_pages s d : table_clonable s d → copied d = true →
  is_u32 d ∧ used s (PTE_ADDR d) = true ∧ ∀ j, 0 ≤ j < 1024 → page_pre s (rd (phys s) (PTE_ADDR d + 4 * j)).
Proof. intros (Hd & _ & Hc) E. destruct (Hc E) as [Hu Hj]. split; [done|]. split; [done|]. intros j ?. by apply Hj. Qed.

(** The flag tests of [pg_clone_tbl] and [pg_clone_page_4m]. *)
Lemma pg_clone_tbl_eq d s :
  pg_clone_tbl d s =
  if copied d then
    (t ← (t ← pg_dir_new; a ← pg_tmp_map (PTE_ADDR d); b ← pg_tmp_map t;
     forM (seqZ 0 1024)
      (λ i, e ← vload (a + 4 * i);
            if e =? NilPgEnt then mret tt else e' ← pg_clone_page e; vstore (b + 4 * i) e') ;;
     pg_tmp_unmap a ;; pg_tmp_unmap b ;; mret t);
     mret (PAGE_ENTRY t (PTE_FLAGS d))) s
  else Ret (d, s).
Proof.
  unfold pg_clone_tbl, copied. cbv zeta.
  change PAGE_PRESENT with (Z.shiftl 1 0). change PAGE_LINK with (Z.shiftl 1 9).
  rewrite !flags_test by lia.
  destruct (Z.testbit d 0), (Z.testbit d 9); cbn [negb andb]; try done.
  repeat first [rewrite bind_assoc; apply bind_ext; [done|]; intros ? ? | done].
Qed.

Lemma pg_clone_tbl_ok n k s d :
  vm_ok (S (S (S (S n)))) (table_cost (phys s) d + k) s → table_clonable s d →
  ∃ r s', pg_clone_tbl d s = Ret (r, s') ∧ vm_ok (S (S (S (S n)))) k s' ∧ TmpPageTbl s' = TmpPageTbl s ∧
    MMUReady s' = MMUReady s ∧ grow s s' ∧ table_copied s s' d r.
Proof.
  intros Hs Hd. rewrite pg_clone_tbl_eq. unfold table_copied, table_cost in *.
  destruct (copied d) eqn:Ed.
  - destruct (table_pre_pages s d Hd Ed) as (Hd32 & Hu & Hj).
    destruct (pages_copied_ok n k s (PTE_ADDR d)) as (t & s' & E & Hok & Htmp & Hrdy & Hg & Hf & Hec);
      try done; try auto with ak.
    exists (PAGE_ENTRY t (PTE_FLAGS d)), s'. rewrite (bind_ret _ _ _ _ _ E).
    do 5 (split; [done|]). by exists t.
  - exists d, s. split; [done|]. split; [done|]. do 2 (split; [done|]). by split.
Qed.

Lemma table_copied_own s s' d r a :
  table_copied s s' d r → own_table (phys s') r a → used s a = false ∧ used s' a = true.
Proof.
  unfold table_copied, own_table. destruct (copied d) eqn:Ed; [|intros ->; intros [? _]; congruence].
  intros (t & -> & Hf & Hec) [_ Ho]. destruct Hf as (?&?&?&?). rewrite PTE_ADDR_clone in Ho by done.
  destruct Ho as [-> | (j & Hj & Ho)]; [done|].
  by apply (page_copied_own _ _ _ _ _ (ec_copy _ _ _ _ _ _ _ Hec j Hj)).
Qed.

(** What a cloned table keeps when its own memory is kept. *)
Lemma table_keeps s s' s1 d t :
  copied d = true → fresh_frame s s' t → keeps own_table s' s1 (PAGE_ENTRY t (PTE_FLAGS d)) →
  (∀ b, used s' b = true → used s1 b = true) ∧
  (∀ j, 0 ≤ j < 1024 → rd (phys s1) (t + 4 * j) = rd (phys s') (t + 4 * j)) ∧
  ∀ j, 0 ≤ j < 1024 → keeps own_page s' s1 (rd (phys s') (t + 4 * j)).
Proof.
  intros Hd (?&?&?&?) [Hu Hk]. split; [done|]. split.
  - intros j Hj. apply Hk. rewrite page_of_word by done. split; [by rewrite copied_entry|].
    left. by rewrite PTE_ADDR_clone.
  - intros j Hj. split; [done|]. intros b Ho. apply Hk. split; [by rewrite copied_entry|].
    right. exists j. split; [done|]. by rewrite PTE_ADDR_clone.
Qed.

Lemma table_copied_keeps s s' s1 d r :
  table_copied s s' d r → keeps own_table s' s1 r → table_copied s s1 d r.
Proof.
  unfold table_copied. destruct (copied d) eqn:Ed; [|done].
  intros (t & -> & Hf & [Hc Ha Ht]) Hk. destruct (table_keeps _ _ _ _ _ Ed Hf Hk) as (Hu & Hrd & Hkp).
  exists t. split; [done|]. destruct Hf as (?&?&?&?). split; [split_and!; try done; try lia; by apply Hu|].
  split.
  - intros j Hj. rewrite Hrd by done. by eapply page_copied_keeps; [apply Hc|apply Hkp].
  - intros j1 j2 a ? ?. rewrite !Hrd by lia. by apply Ha.
  - intros j ?. rewrite Hrd by done. by apply Ht.
Qed.

Lemma own_table_keeps s s' s1 d r a :
  table_copied s s' d r → keeps own_table s' s1 r → own_table (phys s1) r a → own_table (phys s') r a.
Proof.
  unfold table_copied. destruct (copied d) eqn:Ed; [|intros ->; intros _ [? _]; congruence].
  intros (t & -> & Hf & _) Hk. destruct (table_keeps _ _ _ _ _ Ed Hf Hk) as (_ & Hrd & _).
  destruct Hf as (?&?&?&?). intros [Hc Ho]. split; [done|].
  rewrite PTE_ADDR_clone in * by done. destruct Ho as [->|(j & Hj & Ho)]; [by left|].
  right. exists j. split; [done|]. by rewrite <- Hrd.
Qed.

Lemma table_word_grow s0 s d j :
  grow s0 s → is_u32 d → used s0 (PTE_ADDR d) = true → 0 ≤ j < 1024 →
  rd (phys s) (PTE_ADDR d + 4 * j) = rd (phys s0) (PTE_ADDR d + 4 * j).
Proof. intros Hg Hd Hu Hj. apply Hg. rewrite page_of_word; [done|by apply PTE_ADDR_aligned|done]. Qed.

Lemma table_copied_from s0 s s' d r :
  grow s0 s → table_clonable s0 d → table_copied s s' d r → table_copied s0 s' d r.
Proof.
  intros Hg Hd. unfold table_copied. destruct (copied d) eqn:Ed; [|done].
  destruct (table_pre_pages s0 d Hd Ed) as (Hd32 & Hu & Hj).
  intros (t & -> & (?&?&Hf&?) & [Hc Ha Ht]). exists t. split; [done|]. split.
  - split_and!; try done; try lia. destruct (used s0 t) eqn:E; [|done]. by rewrite (gr_used _ _ Hg) in Hf.
  - split; [|done|done]. intros j Hj'. destruct (Hj j Hj') as [He Hue].
    apply (page_copied_from s0 s); [done|done|done|].
    rewrite <- (table_word_grow s0 s) by done. by apply Hc.
Qed.

Lemma sum_from_ext f g i : 0 ≤ i → (∀ j, i ≤ j < 1024 → f j = g j) → sum_from f i = sum_from g i.
Proof.
  intros Hi E. unfold sum_from.
  assert (K : ∀ x, x ∈ seqZ i (1024 - i) → f x = g x) by (intros x Hx%elem_of_seqZ; apply E; lia).
  revert K. induction (seqZ i (1024 - i)) as [|y l IH]; intros K; [done|]. cbn.
  rewrite K by apply list_elem_of_here. rewrite IH; [done|]. intros x Hx. apply K. by apply list_elem_of_further.
Qed.

Lemma table_clonable_grow s0 s d :
  grow s0 s → table_clonable s0 d → table_clonable s d ∧ table_cost (phys s) d = table_cost (phys s0) d.
Proof.
  intros Hg Hd. pose proof Hd as (Hd32 & H7 & Hc). split.
  - split; [done|]. split; [done|]. intros Ed. destruct (Hc Ed) as [Hu Hj].
    split; [by apply Hg|]. intros j Hj'. rewrite (table_word_grow s0 s) by done.
    destruct (Hj j Hj') as [He Hue]. split; [done|]. intros. by apply Hg, Hue.
  - unfold table_cost. destruct (copied d) eqn:Ed; [|done]. destruct (Hc eq_refl) as [Hu _].
    f_equal. apply sum_from_ext; [done|]. intros j Hj. by rewrite (table_word_grow s0 s).
Qed.

(** ** A directory *)

Lemma pg_clone_page_4m_linked d s : copied d = false → pg_clone_page_4m d s = Ret (d, s).
Proof.
  unfold pg_clone_page_4m, copied. cbv zeta.
  change PAGE_PRESENT with (Z.shiftl 1 0). change PAGE_LINK with (Z.shiftl 1 9).
  rewrite !land_shiftl_1_eqb, PDE_FLAGS_eq by lia. change 4194304 with (2 ^ 22).
  rewrite !Z.mod_pow2_bits_low by lia.
  by destruct (Z.testbit d 0), (Z.testbit d 9).
Qed.

Lemma pg_clone_entry_ok n k s d :
  vm_ok (S (S (S (S n)))) (table_cost (phys s) d + k) s → table_clonable s d →
  ∃ r s', (if negb (Z.land d PAGE_EXTENDED =? 0) then pg_clone_page_4m d else pg_clone_tbl d) s = Ret (r, s') ∧
    vm_ok (S (S (S (S n)))) k s' ∧ TmpPageTbl s' = TmpPageTbl s ∧
    MMUReady s' = MMUReady s ∧ grow s s' ∧ table_copied s s' d r.
Proof.
  intros Hs Hd. change PAGE_EXTENDED with (Z.shiftl 1 7). rewrite land_shiftl_1_eqb, negb_involutive by done.
  destruct (Z.testbit d 7) eqn:E7; [|by apply pg_clone_tbl_ok].
  pose proof Hd as (_ & H7 & _). specialize (H7 E7). exists d, s. rewrite pg_clone_page_4m_linked by done.
  unfold table_cost in Hs. unfold table_copied. rewrite H7 in *. split; [done|]. split; [done|].
  do 2 (split; [done|]). by split.
Qed.

Lemma pg_clone_dir_ok n k s pgd :
  vm_ok (S (S (S (S (S (S n)))))) (dir_cost (phys s) pgd + k) s → clonable s pgd →
  ∃ t s', pg_clone_dir pgd s = Ret (t, s') ∧ vm_ok (S (S (S (S (S (S n)))))) k s' ∧
    TmpPageTbl s' = TmpPageTbl s ∧ MMUReady s' = MMUReady s ∧ grow s s' ∧
    fresh_frame s s' t ∧ entries_copied table_copied own_table s s' pgd t 1024.
Proof.
  intros Hs [Hp Hal Hu Ht _].
  apply (clone_table_ok (λ d, if negb (Z.land d PAGE_EXTENDED =? 0) then pg_clone_page_4m d else pg_clone_tbl d)
    table_copied own_table table_clonable table_cost (S (S (S (S n))))); try done.
  - intros k' s' d Hok Hd. by apply pg_clone_entry_ok.
  - apply table_copied_own.
  - apply table_copied_keeps.
  - apply own_table_keeps.
  - apply table_copied_from.
  - intros s0 s1 e Hg He. by apply table_clonable_grow.
  - by intros m a [? _].
Qed.

(** ** The clone as the processor sees it *)

Section Walk.
Context (s s' : vm) (pgd t : Z).
Hypothesis Hcl : clonable s pgd.
Hypothesis Hg : grow s s'.
Hypothesis Hec : entries_copied table_copied own_table s s' pgd t 1024.

Lemma pde_u32 v : is_u32 v → is_u32 (pde_of (phys s) pgd v).
Proof. intros Hv. by apply (cl_tables _ _ Hcl (ADDR_PDE v) (ADDR_PDE_bound v Hv)). Qed.

Lemma clone_pde v : is_u32 v → table_copied s s' (pde_of (phys s) pgd v) (pde_of (phys s') t v).
Proof. intros Hv. apply Hec. by apply ADDR_PDE_bound. Qed.

(** The entries of a private page, in the source and in the clone. *)
Lemma clone_private v : is_u32 v → private (phys s) pgd v = true →
  let d := pde_of (phys s) pgd v in let e := entry_of (phys s) pgd v in
  ∃ t1 a, pde_of (phys s') t v = PAGE_ENTRY t1 (PTE_FLAGS d) ∧
    fresh_frame s s' t1 ∧ entries_copied page_copied own_page s s' (PTE_ADDR d) t1 1024 ∧
    entry_of (phys s') t v = PAGE_ENTRY a (PTE_FLAGS e) ∧ fresh_frame s s' a ∧
    (∀ j, 0 ≤ j < 1024 → rd (phys s') (a + 4 * j) = rd (phys s) (PTE_ADDR e + 4 * j)) ∧
    is_u32 e ∧ used s (PTE_ADDR e) = true ∧
    rd (phys s') (t1 + 4 * ADDR_PTE v) = PAGE_ENTRY a (PTE_FLAGS e).
Proof.
  intros Hv Hp. unfold private in Hp. apply andb_true_iff in Hp as [Hd He]. cbv zeta.
  pose proof (clone_pde v Hv) as Htc. unfold table_copied in Htc. rewrite Hd in Htc.
  destruct Htc as (t1 & Er & Hf & Hec1). pose proof Hf as (?&?&?&?).
  destruct (table_pre_pages s _ (cl_tables _ _ Hcl _ (ADDR_PDE_bound v Hv)) Hd) as (Hd32 & Hud & Hj).
  fold (pde_of (phys s) pgd v) in Hd32, Hud, Hj.
  assert (Hnz : pde_of (phys s) pgd v ≠ 0) by (intros E0; by rewrite E0 in Hd).
  assert (Ee : entry_of (phys s) pgd v = rd (phys s) (PTE_ADDR (pde_of (phys s) pgd v) + 4 * ADDR_PTE v)).
  { unfold entry_of. by rewrite (proj2 (Z.eqb_neq _ _) Hnz). }
  assert (Ee' : entry_of (phys s') t v = rd (phys s') (t1 + 4 * ADDR_PTE v)).
  { unfold entry_of, table_of. rewrite Er, PTE_ADDR_clone by done.
    destruct (Z.eqb_spec (PAGE_ENTRY t1 (PTE_FLAGS (pde_of (phys s) pgd v))) 0) as [E0|]; [|done].
    rewrite <- (copied_entry t1) in Hd by done. by rewrite E0 in Hd. }
  pose proof (ec_copy _ _ _ _ _ _ _ Hec1 (ADDR_PTE v) (ADDR_PTE_bound v)) as Hpc.
  destruct (Hj (ADDR_PTE v) (ADDR_PTE_bound v)) as [He32 Hue].
  rewrite <- Ee, <- Ee' in Hpc. rewrite <- Ee in He32, Hue. unfold page_copied in Hpc. rewrite He in Hpc.
  destruct Hpc as (a & Ea & Hfa & Hc).
  exists t1, a. do 6 (split; [done|]). split; [done|]. split; [by apply Hue|]. by rewrite <- Ee'.
Qed.

Lemma walk_private v : is_u32 v → private (phys s) pgd v = true →
  ∃ e a, entry_of (phys s') t v = PAGE_ENTRY a (PTE_FLAGS e) ∧ fresh_frame s s' a ∧
    (∀ j, 0 ≤ j < 1024 → rd (phys s') (a + 4 * j) = rd (phys s) (PTE_ADDR e + 4 * j)) ∧ is_u32 e ∧
    ∃ w u, hw_walk (phys s) pgd v = Some (PTE_ADDR e + v mod 2 ^ 12, w, u) ∧
           hw_walk (phys s') t v = Some (a + v mod 2 ^ 12, w, u).
Proof.
  intros Hv Hp. destruct (clone_private v Hv Hp) as (t1 & a & Er & (?&?&?&?) & _ & Ea & Hfa & Hc & He32 & Hue & _).
  exists (entry_of (phys s) pgd v), a. do 4 (split; [done|]). pose proof Hfa as (?&?&?&?).
  unfold private in Hp. apply andb_true_iff in Hp as [Hd He].
  assert (H7 : Z.testbit (pde_of (phys s) pgd v) 7 = false).
  { destruct (Z.testbit _ 7) eqn:E7; [|done].
    destruct (cl_tables _ _ Hcl (ADDR_PDE v) (ADDR_PDE_bound v Hv)) as (_ & H7 & _).
    fold (pde_of (phys s) pgd v) in H7. rewrite H7 in Hd; done. }
  rewrite !hw_walk_entries by first [done | by apply pde_u32 |
    rewrite Er; apply PAGE_ENTRY_bound; [done|pose proof (flags_small (pde_of (phys s) pgd v)); lia]].
  rewrite Er, Ea. unfold walk_entries. rewrite !entry_bit, !flags_bit by (done || lia).
  rewrite entry_page by (done || apply flags_small). rewrite H7.
  unfold copied in Hd, He. apply andb_true_iff in Hd as [-> _]. apply andb_true_iff in He as [-> _]. cbn [negb].
  eexists _, _. split; [|reflexivity]. do 3 f_equal. rewrite PTE_ADDR_eq by done. zlia.
Qed.

Lemma walk_shared v : is_u32 v → private (phys s) pgd v = false → 
  hw_walk (phys s') t v = hw_walk (phys s) pgd v.
Proof.
  intros Hv Hp. pose proof (clone_pde v Hv) as Htc. unfold table_copied in Htc.
  unfold private in Hp. pose proof (pde_u32 v Hv) as Hd32.
  destruct (copied (pde_of (phys s) pgd v)) eqn:Hd; cbn [andb] in Hp.
  - destruct Htc as (t1 & Er & (?&?&?&?) & Hec1).
    assert (Hnz : pde_of (phys s) pgd v ≠ 0) by (intros E0; by rewrite E0 in Hd).
    assert (Ee' : entry_of (phys s') t v = entry_of (phys s) pgd v).
    { unfold entry_of in Hp |- *. unfold table_of in Hp |- *.
      rewrite (proj2 (Z.eqb_neq _ _) Hnz) in Hp |- *. rewrite Er, PTE_ADDR_clone by done.
      destruct (Z.eqb_spec (PAGE_ENTRY t1 (PTE_FLAGS (pde_of (phys s) pgd v))) 0) as [E0|].
      { rewrite <- (copied_entry t1) in Hd by done. by rewrite E0 in Hd. }
      pose proof (ec_copy _ _ _ _ _ _ _ Hec1 (ADDR_PTE v) (ADDR_PTE_bound v)) as Hpc.
      unfold page_copied in Hpc. by rewrite Hp in Hpc. }
    assert (H7 : Z.testbit (pde_of (phys s) pgd v) 7 = false).
    { destruct (Z.testbit _ 7) eqn:E7; [|done].
      destruct (cl_tables _ _ Hcl (ADDR_PDE v) (ADDR_PDE_bound v Hv)) as (_ & H7 & _).
      fold (pde_of (phys s) pgd v) in H7. rewrite H7 in Hd; done. }
    rewrite !hw_walk_entries by first [done |
      rewrite Er; apply PAGE_ENTRY_bound; [done|pose proof (flags_small (pde_of (phys s) pgd v)); lia]].
    rewrite Ee', Er. unfold walk_entries. rewrite !entry_bit, !flags_bit by (done || lia). by rewrite H7.
  - rewrite !hw_walk_entries by first [done | by rewrite Htc].
    unfold walk_entries. rewrite Htc.
    destruct (Z.testbit (pde_of (phys s) pgd v) 0) eqn:E0; cbn [negb]; [|done].
    destruct (Z.testbit (pde_of (phys s) pgd v) 7) eqn:E7; [done|].
    assert (Hu : used s (PTE_ADDR (pde_of (phys s) pgd v)) = true)
      by (by apply (cl_linked _ _ Hcl (ADDR_PDE v) (ADDR_PDE_bound v Hv))).
    assert (Ee : entry_of (phys s') t v = entry_of (phys s) pgd v).
    { unfold entry_of, table_of. rewrite Htc. destruct (_ =? 0); [done|].
      apply table_word_grow; [done|done|done|auto with ak]. }
    by rewrite Ee.
Qed.

(** Private pages of the clone do not share frames. *)
Lemma clone_apart v w a b f g :
  is_u32 v → is_u32 w → private (phys s) pgd v = true → private (phys s) pgd w = true →
  same_page v w = false → a mod PAGE_SIZE = 0 → b mod PAGE_SIZE = 0 →
  0 ≤ f < 4096 → 0 ≤ g < 4096 →
  entry_of (phys s') t v = PAGE_ENTRY a f → entry_of (phys s') t w = PAGE_ENTRY b g → a ≠ b.
Proof.
  intros Hv Hw Hpv Hpw Hne Ha Hb Hf Hg' Eva Ewb Eab. subst b.
  destruct (clone_private v Hv Hpv) as (t1 & a1 & Er1 & Hf1 & Hec1 & Ea1 & Hfa1 & _ & _ & _ & Ew1).
  destruct (clone_private w Hw Hpw) as (t2 & a2 & Er2 & Hf2 & Hec2 & Ea2 & Hfa2 & _ & _ & _ & Ew2).
  assert (Hpa : ∀ x y fx fy, x mod PAGE_SIZE = 0 → y mod PAGE_SIZE = 0 → 0 ≤ fx < 4096 → 0 ≤ fy < 4096 →
    PAGE_ENTRY x fx = PAGE_ENTRY y fy → x = y).
  { intros x y fx fy Hx Hy Hfx Hfy E. rewrite <- (entry_page x fx), <- (entry_page y fy) by done. by rewrite E. }
  pose proof Hf1 as (?&?&_). pose proof Hf2 as (?&?&_). pose proof Hfa1 as (?&?&_). pose proof Hfa2 as (?&?&_).
  assert (a1 = a) as -> by (eapply Hpa; [| | |exact Hf|by rewrite <- Ea1]; done || apply flags_small).
  assert (a2 = a) as -> by (eapply Hpa; [| | |exact Hg'|by rewrite <- Ea2]; done || apply flags_small).
  unfold private in Hpv, Hpw. apply andb_true_iff in Hpv as [Hdv Hev]. apply andb_true_iff in Hpw as [Hdw Hew].
  assert (Ho1 : own_page (phys s') (rd (phys s') (t1 + 4 * ADDR_PTE v)) a).
  { rewrite Ew1. split; [by rewrite copied_entry|]. by rewrite PTE_ADDR_clone. }
  assert (Ho2 : own_page (phys s') (rd (phys s') (t2 + 4 * ADDR_PTE w)) a).
  { rewrite Ew2. split; [by rewrite copied_entry|]. by rewrite PTE_ADDR_clone. }
  pose proof (ADDR_PTE_bound v). pose proof (ADDR_PTE_bound w).
  pose proof (ADDR_PDE_bound v Hv). pose proof (ADDR_PDE_bound w Hw).
  rewrite same_page_idx in Hne by done.
  destruct (Z.eqb_spec (ADDR_PDE v) (ADDR_PDE w)) as [E|Hn]; cbn [andb] in Hne.
  - apply Z.eqb_neq in Hne. assert (t1 = t2) as <-.
    { unfold pde_of in Er1, Er2. rewrite E in Er1. eapply Hpa; [| | | |by rewrite <- Er1, <- Er2]; done || apply flags_small. }
    assert (Hlt : ADDR_PTE v < ADDR_PTE w ∨ ADDR_PTE w < ADDR_PTE v) by lia. destruct Hlt.
    + by apply (ec_apart _ _ _ _ _ _ _ Hec1 (ADDR_PTE v) (ADDR_PTE w) a); try lia.
    + by apply (ec_apart _ _ _ _ _ _ _ Hec1 (ADDR_PTE w) (ADDR_PTE v) a); try lia.
  - assert (Hot : ∀ x tx, is_u32 x → pde_of (phys s') t x = PAGE_ENTRY tx (PTE_FLAGS (pde_of (phys s) pgd x)) →
      is_u32 tx → tx mod PAGE_SIZE = 0 → copied (pde_of (phys s) pgd x) = true →
      own_page (phys s') (rd (phys s') (tx + 4 * ADDR_PTE x)) a →
      own_table (phys s') (rd (phys s') (t + 4 * ADDR_PDE x)) a).
    { intros x tx Hx Er ? ? Hc Ho. fold (pde_of (phys s') t x). rewrite Er. split; [by rewrite copied_entry|].
      right. exists (ADDR_PTE x). split; [apply ADDR_PTE_bound|]. by rewrite PTE_ADDR_clone. }
    pose proof (Hot v t1 Hv Er1 ltac:(done) ltac:(done) Hdv Ho1) as O1.
    pose proof (Hot w t2 Hw Er2 ltac:(done) ltac:(done) Hdw Ho2) as O2.
    assert (Hlt : ADDR_PDE v < ADDR_PDE w ∨ ADDR_PDE w < ADDR_PDE v) by lia. destruct Hlt.
    + by apply (ec_apart _ _ _ _ _ _ _ Hec (ADDR_PDE v) (ADDR_PDE w) a); try lia.
    + by apply (ec_apart _ _ _ _ _ _ _ Hec (ADDR_PDE w) (ADDR_PDE v) a); try lia.
Qed.
End Walk.

(** ** Properties *)

(** A directory with one private page, at 0x2000 behind the table in frame 2, that
    maps the page at 0x8048000 to frame 3. *)
Definition clone_vm : vm :=
  mkVm (mkFrames true [0xFFFFFFFF; 0x7] 64 0xC0300000 0)
       (<[0x1000 + 4 * 32 := 0x2007]> (<[0x2000 + 4 * 72 := 0x3007]> (<[0x3008 := 42]> ∅)))
       (replicate 1024 0) true.

Lemma clone_vm_rd a : rd (phys clone_vm) a =
  if a =? 0x1080 then 0x2007 else if a =? 0x2120 then 0x3007 else if a =? 0x3008 then 42 else 0.
Proof.
  unfold rd, clone_vm; cbn [phys]. change (0x1000 + 4 * 32) with 0x1080. change (0x2000 + 4 * 72) with 0x2120.
  destruct (Z.eqb_spec a 0x1080) as [->|]; [done|]. rewrite lookup_insert_ne by lia.
  destruct (Z.eqb_spec a 0x2120) as [->|]; [done|]. rewrite lookup_insert_ne by lia.
  destruct (Z.eqb_spec a 0x3008) as [->|]; [done|]. by rewrite lookup_insert_ne by lia.
Qed.

Lemma table_clonable_nil s : table_clonable s 0.
Proof. by split. Qed.

Lemma clone_vm_clonable : clonable clone_vm 0x1000.
Proof.
  split; [done|done|done|..].
  - intros i Hi. rewrite clone_vm_rd. zcase; try lia; [|apply table_clonable_nil].
    split; [done|]. split; [done|]. intros _. split; [done|]. intros j Hj. rewrite clone_vm_rd.
    change (PTE_ADDR 0x2007) with 0x2000. by zcase; try lia.
  - intros i Hi. rewrite clone_vm_rd. by zcase; try lia.
Qed.

(** A copied directory is isolated: every address is translated as before, private
    pages to frames of their own with the same bytes. *)
Lemma cloned_isolated s s' pgd t :
  clonable s pgd → grow s s' → entries_copied table_copied own_table s s' pgd t 1024 →
  (∀ v, is_u32 v →
    if private (phys s) pgd v then
      ∃ pa pa' w u, hw_walk (phys s) pgd v = Some (pa, w, u) ∧ hw_walk (phys s') t v = Some (pa', w, u) ∧
        used s pa' = false ∧ used s' pa' = true ∧ phys_byte (phys s') pa' = phys_byte (phys s) pa
    else hw_walk (phys s') t v = hw_walk (phys s) pgd v) ∧
  (∀ v1 v2 pa1 pa2 w1 w2 u1 u2, is_u32 v1 → is_u32 v2 →
    private (phys s) pgd v1 = true → private (phys s) pgd v2 = true → same_page v1 v2 = false →
    hw_walk (phys s') t v1 = Some (pa1, w1, u1) → hw_walk (phys s') t v2 = Some (pa2, w2, u2) →
    page_of pa1 ≠ page_of pa2).
Proof.
  intros Hcl Hg Hec. split.
  - intros v Hv. destruct (private (phys s) pgd v) eqn:Hp; [|by apply (walk_shared s s')].
    destruct (walk_private s s' pgd t Hcl Hec v Hv Hp)
      as (e & a & _ & (Ha & Hal & Hf0 & Hf1) & Hc & He & w & u & Hw & Hw').
    exists (PTE_ADDR e + v mod 2 ^ 12), (a + v mod 2 ^ 12), w, u. do 2 (split; [done|]).
    pose proof (PTE_ADDR_aligned e He) as Hpal. unfold PAGE_SIZE in Hpal, Hal. change (2 ^ 12) with 4096.
    assert (Hsame : ∀ st, used st (a + v mod 4096) = used st a).
    { intros st. unfold used, frame_used, ADDR_PAGE, PAGE_SIZE.
      by replace ((a + v mod 4096) / 4096) with (a / 4096) by zlia. }
    rewrite !Hsame. do 2 (split; [done|]). unfold phys_byte.
    replace ((a + v mod 4096) mod 4) with (v mod 4) by zlia.
    replace ((PTE_ADDR e + v mod 4096) mod 4) with (v mod 4) by zlia.
    replace (a + v mod 4096 - v mod 4) with (a + 4 * (v mod 4096 / 4)) by zlia.
    replace (PTE_ADDR e + v mod 4096 - v mod 4) with (PTE_ADDR e + 4 * (v mod 4096 / 4)) by zlia.
    rewrite Hc by zlia. done.
  - intros v1 v2 pa1 pa2 w1 w2 u1 u2 Hv1 Hv2 Hp1 Hp2 Hne Hw1 Hw2.
    destruct (walk_private s s' pgd t Hcl Hec v1 Hv1 Hp1)
      as (e1 & a1 & Ee1 & (? & Hal1 & _) & _ & _ & ? & ? & _ & Hw1').
    destruct (walk_private s s' pgd t Hcl Hec v2 Hv2 Hp2)
      as (e2 & a2 & Ee2 & (? & Hal2 & _) & _ & _ & ? & ? & _ & Hw2').
    rewrite Hw1' in Hw1. rewrite Hw2' in Hw2. injection Hw1 as <- <- <-. injection Hw2 as <- <- <-.
    assert (Hn : a1 ≠ a2) by (apply (clone_apart s s' pgd t Hcl Hec v1 v2 a1 a2 (PTE_FLAGS e1) (PTE_FLAGS e2)); first [done|apply flags_small]).
    unfold page_of, PAGE_SIZE in *. change (2 ^ 12) with 4096. zlia.
Qed.

(** C2: fork isolates address spaces.  The clone of a directory translates every
    address as the original does, with the same rights.  A page that is private
    (present, not linked, behind a table of the same kind) is backed by a frame
    that was free before, holds the same bytes, and shares its frame with no other
    private page of the clone; every other page has the same translation.  Memory
    that was in use is not written, no frame is released, and the window is left
    as found. *)
Theorem pg_clone_dir_isolates n k s pgd :
  vm_ok (6 + n) (dir_cost (phys s) pgd + k) s → clonable s pgd →
  ∃ t s', pg_clone_dir pgd s = Ret (t, s') ∧ vm_ok (6 + n) k s' ∧ TmpPageTbl s' = TmpPageTbl s ∧
    fresh_frame s s' t ∧ grow s s' ∧
    (∀ v, is_u32 v →
      if private (phys s) pgd v then
        ∃ pa pa' w u, hw_walk (phys s) pgd v = Some (pa, w, u) ∧ hw_walk (phys s') t v = Some (pa', w, u) ∧
          used s pa' = false ∧ used s' pa' = true ∧ phys_byte (phys s') pa' = phys_byte (phys s) pa
      else hw_walk (phys s') t v = hw_walk (phys s) pgd v) ∧
    (∀ v1 v2 pa1 pa2 w1 w2 u1 u2, is_u32 v1 → is_u32 v2 →
      private (phys s) pgd v1 = true → private (phys s) pgd v2 = true → same_page v1 v2 = false →
      hw_walk (phys s') t v1 = Some (pa1, w1, u1) → hw_walk (phys s') t v2 = Some (pa2, w2, u2) →
      page_of pa1 ≠ page_of pa2).
Proof.
  intros Hs Hcl. destruct (pg_clone_dir_ok n k s pgd Hs Hcl) as (t & s' & E & Hok & Htmp & _ & Hg & Hf & Hec).
  exists t, s'. do 5 (split; [done|]). by apply cloned_isolated.
Qed.

Lemma pg_clone_dir_isolates_witness :
  ∃ t s', pg_clone_dir 0x1000 clone_vm = Ret (t, s') ∧
    ∃ pa', hw_walk (phys s') t 0x8048008 = Some (pa', true, true) ∧ used clone_vm pa' = false ∧
           phys_byte (phys s') pa' = 42.
Proof.
  destruct (pg_clone_dir_isolates 0 0 clone_vm 0x1000) as (t & s' & E & _ & _ & _ & _ & Hw & _).
  - split; [by apply frames_okb_ok|vm_compute; lia|done|vm_compute; lia].
  - exact clone_vm_clonable.
  - exists t, s'. split; [exact E|]. clear E. specialize (Hw 0x8048008 ltac:(done)).
    change (private _ _ _) with true in Hw. destruct Hw as (pa & pa' & w & u & H1 & H2 & H3 & _ & H4).
    change (hw_walk (phys clone_vm) 0x1000 0x8048008) with (Some (0x3008, true, true)) in H1.
    injection H1 as <- <- <-. exists pa'. split; [exact H2|]. split; [exact H3|]. rewrite H4. reflexivity.
Defined.
