(* ===== verification/ListHead.v ===== *)
(** * Intrusive doubly linked lists

    [kernel/list.c]: the [list_head] that tasks are strung on.  The operations are
    written against the class [ListStore]: a state in which an object pointer
    leads to the two links of its [list_head].  [list_elem] recovers the object
    from the address of its member; here an object and its member share one
    pointer, so it is the identity.

    [ring s (x :: l)] says that [x :: l] is a circular list; insertion and removal
    are specified on rings, and the rest of the store is shown unchanged. *)
From Stdlib Require Import ZArith Lia.
From stdpp Require Import base gmap list strings.
From S2P Require Import Prelude.
Open Scope Z_scope.

Definition NULL : Z := 0.

(** What following a pointer that leads nowhere is. *)
Definition ptr_fault (p : Z) : fault := if p =? NULL then NullDeref else UseAfterFree.

(** A store of list heads: [next] and [prev] of each object. *)
Class ListStore (S : Type) := {
  links : S → Z → option (Z * Z);
  set_links : Z → Z * Z → S → S;
  links_set s p q x y : links s p = Some y →
    links (set_links p x s) q = if p =? q then Some x else links s q
}.

(** ** Operations *)

Section Operations.
Context {S : Type} `{ListStore S}.

Definition get_links (p : Z) : M S (Z * Z) :=
  s ← getS; need (ptr_fault p) (links s p).
Definition get_next (p : Z) : M S Z := l ← get_links p; mret l.1.
Definition get_prev (p : Z) : M S Z := l ← get_links p; mret l.2.
Definition set_next (p n : Z) : M S unit := l ← get_links p; modify (set_links p (n, l.2)).
Definition set_prev (p n : Z) : M S unit := l ← get_links p; modify (set_links p (l.1, n)).

Definition list_prev (elem : Z) : M S Z := get_prev elem.
Definition list_next (elem : Z) : M S Z := get_next elem.

Definition list_insert_after (after elem : Z) : M S unit :=
  oldnext ← get_next after;
  n ← get_next after;
  p ← get_prev after;
  if (n =? NULL) && (p =? NULL) then
    set_prev after elem ;;
    set_next after elem ;;
    set_prev elem after ;;
    set_next elem after
  else
    set_next after elem ;;
    set_prev oldnext elem ;;
    set_next elem oldnext ;;
    set_prev elem after.

Definition list_insert_before (before elem : Z) : M S unit :=
  p ← get_prev before;
  list_insert_after p elem.

Definition list_remove (elem : Z) : M S unit :=
  next ← get_next elem;
  prev ← get_prev elem;
  set_prev elem NULL ;;
  set_next elem NULL ;;
  set_next prev next ;;
  set_prev next prev.
End Operations.

(** ** Specification *)

Section Rings.
Context {S : Type} `{ListStore S}.

Definition nxt (s : S) (p : Z) : option Z := fst <$> links s p.
Definition prv (s : S) (p : Z) : option Z := snd <$> links s p.

(** From [p] through [l] to [q], in both directions. *)
Fixpoint chain (s : S) (p : Z) (l : list Z) (q : Z) : Prop :=
  match l with
  | [] => nxt s p = Some q ∧ prv s q = Some p
  | x :: l' => (nxt s p = Some x ∧ prv s x = Some p) ∧ chain s x l' q
  end.

(** A circular list of distinct, allocated objects. *)
Definition ring (s : S) (l : list Z) : Prop :=
  match l with
  | [] => False
  | x :: l' => chain s x l' x ∧ NoDup l ∧ NULL ∉ l
  end.

(** The state after the two links of an object were set. *)
Definition put_links (p n q : Z) (s : S) : S := set_links p (n, q) s.

Lemma links_put s p n q y r : links s p = Some y →
  links (put_links p n q s) r = if p =? r then Some (n, q) else links s r.
Proof. apply links_set. Qed.

Lemma get_next_ok s p n : nxt s p = Some n → get_next p s = Ret (n, s).
Proof.
  unfold nxt, get_next, get_links. destruct (links s p) as [[n' q]|] eqn:E; cbn; [|done].
  intros [= ->]. mred. by rewrite E.
Qed.
Lemma get_prev_ok s p n : prv s p = Some n → get_prev p s = Ret (n, s).
Proof.
  unfold prv, get_prev, get_links. destruct (links s p) as [[n' q]|] eqn:E; cbn; [|done].
  intros [= ->]. mred. by rewrite E.
Qed.
Lemma set_next_ok s p n' n q : links s p = Some (n, q) → set_next p n' s = Ret (tt, put_links p n' q s).
Proof. intros E. unfold set_next, get_links. mred. by rewrite E. Qed.
Lemma set_prev_ok s p q' n q : links s p = Some (n, q) → set_prev p q' s = Ret (tt, put_links p n q' s).
Proof. intros E. unfold set_prev, get_links. mred. by rewrite E. Qed.

Lemma get_next_null s : links s NULL = None → get_next NULL s = Fault NullDeref.
Proof. intros E. unfold get_next, get_links. mred. by rewrite E. Qed.

Lemma chain_ext s s' p l q :
  (∀ x, x ∈ p :: l → nxt s' x = nxt s x) → (∀ x, x ∈ l ++ [q] → prv s' x = prv s x) →
  chain s p l q → chain s' p l q.
Proof.
  revert p. induction l as [|x l IH]; intros p Hn Hp; cbn [chain].
  - intros [<- <-]. split; [apply Hn|apply Hp]; apply list_elem_of_here.
  - intros [[<- <-] Hc]. split.
    + split; [apply Hn|apply Hp]; apply list_elem_of_here.
    + apply IH; [|..|done].
      * intros y Hy. apply Hn. by apply list_elem_of_further.
      * intros y Hy. apply Hp. by apply list_elem_of_further.
Qed.

Lemma chain_snoc s p l x q : chain s p (l ++ [x]) q ↔ chain s p l x ∧ chain s x [] q.
Proof. revert p. induction l as [|y l IH]; intros p; cbn [app chain]; [done|]. rewrite IH; cbn; tauto. Qed.

(** A ring read from its second element. *)
Lemma ring_rotate s x l : ring s (x :: l) → ring s (l ++ [x]).
Proof.
  intros (Hc & Hd & Hn). destruct l as [|y l]; [done|]. cbn [app ring].
  destruct Hc as [He Hc]. split; [|split].
  - by apply chain_snoc.
  - change (NoDup ((y :: l) ++ [x])). by rewrite <- Permutation_cons_append.
  - change (NULL ∉ (y :: l) ++ [x]). rewrite elem_of_app, list_elem_of_singleton.
    rewrite elem_of_cons in Hn. tauto.
Qed.

Lemma ring_rotate_app s l1 l2 : ring s (l1 ++ l2) → ring s (l2 ++ l1).
Proof.
  revert l2. induction l1 as [|x l1 IH]; intros l2; cbn [app]; [by rewrite app_nil_r|].
  intros Hr%ring_rotate. rewrite <- app_assoc in Hr. apply IH in Hr. by rewrite <- app_assoc in Hr.
Qed.

(** The links of a ring's head. *)
Lemma ring_head s x l : ring s (x :: l) →
  links s x = Some (default x (head l), default x (last l)).
Proof.
  intros (Hc & _ & _).
  assert (Hn : nxt s x = Some (default x (head l))) by (destruct l; apply Hc).
  assert (Hp : prv s x = Some (default x (last l))).
  { destruct l as [|y l _] using rev_ind; [apply Hc|]. rewrite last_snoc. apply chain_snoc in Hc as [_ [_ Hc]]. exact Hc. }
  unfold nxt, prv in *. destruct (links s x) as [[a b]|]; cbn in *; congruence.
Qed.

Lemma ring_links s l p : ring s l → p ∈ l → is_Some (links s p).
Proof.
  intros Hr (l1 & l2 & ->)%list_elem_of_split.
  apply ring_rotate_app in Hr. cbn [app] in Hr. by rewrite (ring_head _ _ _ Hr).
Qed.

Lemma ring_not_null s l p : ring s l → p ∈ l → p ≠ NULL.
Proof. destruct l; [done|]. intros (_ & _ & Hn) Hp ->. done. Qed.

Lemma ring_NoDup s l : ring s l → NoDup l.
Proof. destruct l; [done|]. by intros (_ & ? & _). Qed.

(** A ring is kept by changes elsewhere. *)
Lemma ring_frame s s' l : (∀ p, p ∈ l → links s' p = links s p) → ring s l → ring s' l.
Proof.
  intros Hf. destruct l as [|x l]; [done|]. intros (Hc & Hd & Hn). split; [|done].
  apply (chain_ext s); [| |done].
  - intros y Hy. unfold nxt. by rewrite Hf.
  - intros y Hy. unfold prv. rewrite Hf; [done|]. apply elem_of_app in Hy as [Hy|Hy%list_elem_of_singleton].
    + by apply list_elem_of_further.
    + subst. apply list_elem_of_here.
Qed.

Lemma nxt_put s p n q y r : links s p = Some y →
  nxt (put_links p n q s) r = if p =? r then Some n else nxt s r.
Proof. intros E. unfold nxt. rewrite (links_put _ _ _ _ _ _ E). by destruct (p =? r). Qed.
Lemma prv_put s p n q y r : links s p = Some y →
  prv (put_links p n q s) r = if p =? r then Some q else prv s r.
Proof. intros E. unfold prv. rewrite (links_put _ _ _ _ _ _ E). by destruct (p =? r). Qed.

(** A link word that was set. *)
Lemma links_put_eq s p n q y : links s p = Some y → links (put_links p n q s) p = Some (n, q).
Proof. intros E. by rewrite (links_put _ _ _ _ _ _ E), Z.eqb_refl. Qed.
Lemma links_put_ne s p n q y r : links s p = Some y → p ≠ r → links (put_links p n q s) r = links s r.
Proof. intros E Hne. rewrite (links_put _ _ _ _ _ _ E). by destruct (Z.eqb_spec p r). Qed.

(** Both insertions, on a ring that starts at [after]. *)
Lemma list_insert_after_ok s after l elem y :
  ring s (after :: l) → links s elem = Some y → elem ∉ after :: l → elem ≠ NULL →
  ∃ s', list_insert_after after elem s = Ret (tt, s') ∧ ring s' (after :: elem :: l) ∧
        ∀ p, p ∉ after :: elem :: l → links s' p = links s p.
Proof.
  intros Hr He Hni Hnn. pose proof (ring_head _ _ _ Hr) as Hh.
  set (b := default after (head l)) in *. set (z := default after (last l)) in *.
  assert (Hb : b ∈ after :: l) by (unfold b; destruct l; cbn; [apply list_elem_of_here|by right; left]).
  pose proof (ring_not_null _ _ _ Hr Hb) as Hbn. apply not_elem_of_cons in Hni as [Hea Hel].
  assert (Hbe : b ≠ elem) by (intros <-; apply elem_of_cons in Hb as [|]; congruence).
  destruct (ring_links _ _ _ Hr Hb) as [[bn bp] Hlb].
  unfold list_insert_after.
  rewrite (bind_ret _ _ _ _ _ (get_next_ok s after b ltac:(unfold nxt; by rewrite Hh))).
  rewrite (bind_ret _ _ _ _ _ (get_next_ok s after b ltac:(unfold nxt; by rewrite Hh))).
  rewrite (bind_ret _ _ _ _ _ (get_prev_ok s after z ltac:(unfold prv; by rewrite Hh))).
  destruct (Z.eqb_spec b NULL); [done|]. cbn [andb].
  rewrite (bind_ret _ _ _ _ _ (set_next_ok _ _ elem _ _ Hh)). set (s1 := put_links after elem z s).
  assert (Hb1 : ∃ c, links s1 b = Some c ∧ (b ≠ after → c = (bn, bp)) ∧ (b = after → c = (elem, z))).
  { unfold s1. rewrite (links_put _ _ _ _ _ _ Hh). destruct (Z.eqb_spec after b).
    - eexists. split; [done|]. split; [congruence|done].
    - eexists. split; [done|]. split; [done|congruence]. }
  destruct Hb1 as ([cn cp] & Hb1 & Hc1 & Hc2).
  rewrite (bind_ret _ _ _ _ _ (set_prev_ok _ _ elem _ _ Hb1)). set (s2 := put_links b cn elem s1).
  assert (He2 : links s2 elem = Some y).
  { unfold s2. rewrite (links_put_ne _ _ _ _ _ _ Hb1) by congruence. unfold s1. rewrite (links_put_ne _ _ _ _ _ _ Hh) by congruence. done. }
  destruct y as [yn yp].
  rewrite (bind_ret _ _ _ _ _ (set_next_ok _ _ b _ _ He2)). set (s3 := put_links elem b yp s2).
  assert (He3 : links s3 elem = Some (b, yp)) by (by eapply links_put_eq).
  rewrite (set_prev_ok _ _ after _ _ He3). eexists. split; [done|]. set (s4 := put_links elem b after s3).
  assert (Hlink : ∀ p, links s4 p = if elem =? p then Some (b, after) else if b =? p then Some (cn, elem)
                       else if after =? p then Some (elem, z) else links s p).
  { intros p. unfold s4. rewrite (links_put _ _ _ _ _ _ He3). unfold s3. rewrite (links_put _ _ _ _ _ _ He2).
    unfold s2. rewrite (links_put _ _ _ _ _ _ Hb1). unfold s1. rewrite (links_put _ _ _ _ _ _ Hh).
    by destruct (elem =? p). }
  split; [|].
  - pose proof Hr as (Hc & Hd & Hn). split; [|split].
    + cbn [chain]. unfold nxt, prv.
      split; [split; rewrite !Hlink; [|by rewrite Z.eqb_refl]|].
      { destruct (Z.eqb_spec elem after); [congruence|]. destruct (Z.eqb_spec b after) as [E|].
        - specialize (Hc2 E). by injection Hc2 as -> _.
        - by rewrite Z.eqb_refl. }
      destruct l as [|x l]; cbn [chain] in *.
      * unfold nxt, prv. rewrite !Hlink, Z.eqb_refl. split; [done|].
        destruct (Z.eqb_spec elem after); [congruence|]. cbn in b. fold b. by rewrite Z.eqb_refl.
      * change b with x in *. unfold nxt, prv. rewrite !Hlink, !Z.eqb_refl.
        destruct (Z.eqb_spec elem x); [congruence|]. split; [done|].
        apply NoDup_cons in Hd as [Hax Hd]. pose proof (proj1 (NoDup_cons _ _) Hd) as [Hxl Hdl].
        assert (Hxa : x ≠ after) by (intros ->; apply Hax; apply list_elem_of_here).
        specialize (Hc1 Hxa). injection Hc1 as -> ->.
        apply (chain_ext s); [| |apply Hc].
        -- intros p Hp. unfold nxt. rewrite Hlink.
           destruct (Z.eqb_spec elem p) as [->|]; [by destruct Hel|].
           destruct (Z.eqb_spec x p) as [<-|]; [by rewrite Hlb|].
           destruct (Z.eqb_spec after p) as [<-|]; [by destruct Hax|done].
        -- intros p Hp. unfold prv. rewrite Hlink.
           apply elem_of_app in Hp as [Hp|Hp%list_elem_of_singleton].
           ++ destruct (Z.eqb_spec elem p) as [->|]; [destruct Hel; by apply list_elem_of_further|].
              destruct (Z.eqb_spec x p) as [<-|]; [by destruct Hxl|].
              destruct (Z.eqb_spec after p) as [<-|]; [destruct Hax; by apply list_elem_of_further|done].
           ++ subst p. destruct (Z.eqb_spec elem after); [congruence|].
              destruct (Z.eqb_spec x after); [congruence|]. rewrite Z.eqb_refl. by rewrite Hh.
    + apply NoDup_cons in Hd as [? ?]. apply NoDup_cons. split; [rewrite elem_of_cons; intros [|]; congruence|].
      by apply NoDup_cons.
    + rewrite !elem_of_cons in *. intros [|[|]]; [tauto|congruence|tauto].
  - intros p Hp. rewrite !not_elem_of_cons in Hp. destruct Hp as (Hpa & Hpe & Hpl). rewrite Hlink.
    destruct (Z.eqb_spec elem p); [congruence|]. destruct (Z.eqb_spec b p) as [<-|].
    { apply elem_of_cons in Hb as [|]; congruence. }
    destruct (Z.eqb_spec after p); [congruence|done].
Qed.

(** Removal from a ring of at least two, read from the predecessor. *)
Lemma list_remove_ok s prev elem l :
  ring s (prev :: elem :: l) →
  ∃ s', list_remove elem s = Ret (tt, s') ∧ ring s' (prev :: l) ∧
        links s' elem = Some (NULL, NULL) ∧
        ∀ p, p ∉ prev :: elem :: l → links s' p = links s p.
Proof.
  intros Hr. pose proof (ring_head _ _ _ Hr) as Hhp. cbn [head default] in Hhp.
  pose proof (ring_rotate _ _ _ Hr) as Hr2. cbn [app] in Hr2.
  pose proof (ring_head _ _ _ Hr2) as Hhe. rewrite last_snoc in Hhe. cbn [default] in Hhe.
  set (n := default elem (head (l ++ [prev]))) in *. set (z := default prev (last (elem :: l))) in *.
  pose proof (ring_NoDup _ _ Hr) as Hd. apply NoDup_cons in Hd as [Hpe Hd]. apply not_elem_of_cons in Hpe as [Hpe Hpl].
  apply NoDup_cons in Hd as [Hel Hdl].
  assert (Hn : n ∈ prev :: l).
  { unfold n. destruct l; cbn; [apply list_elem_of_here|by right; left]. }
  assert (Hne : n ≠ elem) by (intros E; rewrite E in Hn; apply elem_of_cons in Hn as [|]; congruence).
  destruct (ring_links s _ n Hr) as [[nn np] Hln]; [apply elem_of_cons in Hn as [->|]; [left|by right; right]|].
  unfold list_remove.
  rewrite (bind_ret _ _ _ _ _ (get_next_ok s elem n ltac:(unfold nxt; by rewrite Hhe))).
  rewrite (bind_ret _ _ _ _ _ (get_prev_ok s elem prev ltac:(unfold prv; by rewrite Hhe))).
  rewrite (bind_ret _ _ _ _ _ (set_prev_ok _ _ NULL _ _ Hhe)). set (s1 := put_links elem n NULL s).
  assert (He1 : links s1 elem = Some (n, NULL)) by (by eapply links_put_eq).
  rewrite (bind_ret _ _ _ _ _ (set_next_ok _ _ NULL _ _ He1)). set (s2 := put_links elem NULL NULL s1).
  assert (Hlink2 : ∀ p, links s2 p = if elem =? p then Some (NULL, NULL) else links s p).
  { intros p. unfold s2. rewrite (links_put _ _ _ _ _ _ He1). unfold s1. rewrite (links_put _ _ _ _ _ _ Hhe).
    by destruct (elem =? p). }
  assert (Hp2 : links s2 prev = Some (elem, z)).
  { rewrite Hlink2. destruct (Z.eqb_spec elem prev); [congruence|done]. }
  rewrite (bind_ret _ _ _ _ _ (set_next_ok _ _ n _ _ Hp2)). set (s3 := put_links prev n z s2).
  assert (Hlink3 : ∀ p, links s3 p = if prev =? p then Some (n, z) else links s2 p).
  { intros p. unfold s3. by rewrite (links_put _ _ _ _ _ _ Hp2). }
  assert (Hn3 : ∃ c, links s3 n = Some c ∧ (n ≠ prev → c = (nn, np)) ∧ (n = prev → c = (n, z))).
  { rewrite Hlink3. destruct (Z.eqb_spec prev n) as [E|Hn'].
    - eexists. split; [done|]. split; [congruence|done].
    - rewrite Hlink2. destruct (Z.eqb_spec elem n); [congruence|]. eexists. split; [done|]. split; [done|congruence]. }
  destruct Hn3 as ([cn cp] & Hn3 & Hc1 & Hc2).
  rewrite (set_prev_ok _ _ prev _ _ Hn3). eexists. split; [done|]. set (s4 := put_links n cn prev s3).
  assert (Hlink : ∀ p, links s4 p = if n =? p then Some (cn, prev) else if prev =? p then Some (n, z)
                       else if elem =? p then Some (NULL, NULL) else links s p).
  { intros p. unfold s4. rewrite (links_put _ _ _ _ _ _ Hn3), Hlink3, Hlink2. done. }
  split; [|split].
  - pose proof Hr as ([_ Hc] & _ & Hnn). rewrite !not_elem_of_cons in Hnn. split; [|split].
    + destruct l as [|x l]; cbn [chain] in *.
      * change n with prev in *. unfold nxt, prv. rewrite !Hlink, !Z.eqb_refl. cbn.
        specialize (Hc2 eq_refl). by injection Hc2 as -> ->.
      * change n with x in *. destruct Hc as [_ Hc].
        apply not_elem_of_cons in Hel as [Hex Hel]. apply not_elem_of_cons in Hpl as [Hpx Hpl].
        apply NoDup_cons in Hdl as [Hxl _].
        assert (Hxp : x ≠ prev) by congruence. specialize (Hc1 Hxp). injection Hc1 as -> ->.
        unfold nxt, prv. rewrite !Hlink, !Z.eqb_refl.
        destruct (Z.eqb_spec x prev); [congruence|]. split; [done|].
        apply (chain_ext s); [| |done].
        -- intros p Hp. unfold nxt. rewrite Hlink. destruct (Z.eqb_spec x p) as [<-|]; [by rewrite Hln|].
           destruct (Z.eqb_spec prev p) as [<-|]; [by apply elem_of_cons in Hp as [|]|].
           destruct (Z.eqb_spec elem p) as [<-|]; [by apply elem_of_cons in Hp as [|]|done].
        -- intros p Hp. unfold prv. rewrite Hlink.
           apply elem_of_app in Hp as [Hp|Hp%list_elem_of_singleton].
           ++ destruct (Z.eqb_spec x p) as [<-|]; [done|].
              destruct (Z.eqb_spec prev p) as [<-|]; [done|].
              destruct (Z.eqb_spec elem p) as [<-|]; [done|done].
           ++ subst p. destruct (Z.eqb_spec x prev); [congruence|]. rewrite Z.eqb_refl. by rewrite Hhp.
    + by apply NoDup_cons.
    + rewrite not_elem_of_cons. tauto.
  - rewrite Hlink. destruct (Z.eqb_spec n elem); [congruence|]. destruct (Z.eqb_spec prev elem); [congruence|].
    by rewrite Z.eqb_refl.
  - intros p Hp. rewrite !not_elem_of_cons in Hp. destruct Hp as (Hpp & Hpe' & Hpl'). rewrite Hlink.
    destruct (Z.eqb_spec n p) as [<-|]; [by apply elem_of_cons in Hn as [|]|].
    destruct (Z.eqb_spec prev p); [congruence|]. by destruct (Z.eqb_spec elem p); [congruence|].
Qed.

(** The first insertion next to an element whose links are both NULL. *)
Lemma list_insert_first_ok s after elem y :
  links s after = Some (NULL, NULL) → links s elem = Some y → after ≠ elem → after ≠ NULL → elem ≠ NULL →
  ∃ s', list_insert_after after elem s = Ret (tt, s') ∧ ring s' [after; elem].
Proof.
  intros Ha He Hne Han Hen. unfold list_insert_after.
  rewrite (bind_ret _ _ _ _ _ (get_next_ok s after NULL ltac:(unfold nxt; by rewrite Ha))).
  rewrite (bind_ret _ _ _ _ _ (get_next_ok s after NULL ltac:(unfold nxt; by rewrite Ha))).
  rewrite (bind_ret _ _ _ _ _ (get_prev_ok s after NULL ltac:(unfold prv; by rewrite Ha))).
  change ((NULL =? NULL) && (NULL =? NULL)) with true. cbv iota.
  rewrite (bind_ret _ _ _ _ _ (set_prev_ok _ _ elem _ _ Ha)). set (s1 := put_links after NULL elem s).
  assert (Ha1 : links s1 after = Some (NULL, elem)) by (by eapply links_put_eq).
  rewrite (bind_ret _ _ _ _ _ (set_next_ok _ _ elem _ _ Ha1)). set (s2 := put_links after elem elem s1).
  assert (He2 : links s2 elem = Some y).
  { unfold s2. rewrite (links_put_ne _ _ _ _ _ _ Ha1) by congruence. unfold s1.
    by rewrite (links_put_ne _ _ _ _ _ _ Ha) by congruence. }
  destruct y as [yn yp].
  rewrite (bind_ret _ _ _ _ _ (set_prev_ok _ _ after _ _ He2)). set (s3 := put_links elem yn after s2).
  assert (He3 : links s3 elem = Some (yn, after)) by (by eapply links_put_eq).
  rewrite (set_next_ok _ _ after _ _ He3). eexists. split; [done|].
  assert (Hlink : ∀ p, links (put_links elem after after s3) p =
    if elem =? p then Some (after, after) else if after =? p then Some (elem, elem) else links s p).
  { intros p. rewrite (links_put _ _ _ _ _ _ He3). unfold s3. rewrite (links_put _ _ _ _ _ _ He2).
    unfold s2. rewrite (links_put _ _ _ _ _ _ Ha1). unfold s1. rewrite (links_put _ _ _ _ _ _ Ha).
    by destruct (elem =? p), (after =? p). }
  split; [|split].
  - cbn [chain]. unfold nxt, prv. rewrite !Hlink, !Z.eqb_refl. by destruct (Z.eqb_spec elem after); [congruence|].
  - apply NoDup_cons. split; [by rewrite list_elem_of_singleton|]. apply NoDup_cons.
    split; [apply not_elem_of_nil|apply NoDup_nil_2].
  - rewrite !not_elem_of_cons. split; [done|]. split; [done|]. apply not_elem_of_nil.
Qed.
End Rings.

(** ** Properties *)

(** A store of three objects, as a table of links. *)
#[export] Program Instance demo_store : ListStore (gmap Z (Z * Z)) :=
  {| links := λ s p, s !! p; set_links := λ p x s, <[p := x]> s |}.
Next Obligation.
  intros s p q x y _. cbn. destruct (Z.eqb_spec p q) as [->|]; [by rewrite lookup_insert_eq|by rewrite lookup_insert_ne].
Qed.
Definition demo_links : gmap Z (Z * Z) := <[10 := (20, 20)]> (<[20 := (10, 10)]> (<[30 := (0, 0)]> ∅)).

Lemma demo_ring : ring demo_links [10; 20].
Proof.
  split; [done|]. split; [apply (bool_decide_unpack _); reflexivity|apply (bool_decide_unpack _); reflexivity].
Qed.

(** Insertion.  Inserting an object after an element of a circular list puts
    it right behind that element and keeps the circle, the order of the others
    and the links of every object that is not on the list.  An element that is on
    no list (both links NULL) becomes a circle of two with the new one. *)
Theorem list_insert_after_ring {S} `{ListStore S} (s : S) after l elem y :
  links s elem = Some y → elem ∉ after :: l → elem ≠ NULL →
  (ring s (after :: l) →
   ∃ s', list_insert_after after elem s = Ret (tt, s') ∧ ring s' (after :: elem :: l) ∧
         ∀ p, p ∉ after :: elem :: l → links s' p = links s p) ∧
  (links s after = Some (NULL, NULL) → after ≠ NULL →
   ∃ s', list_insert_after after elem s = Ret (tt, s') ∧ ring s' [after; elem]).
Proof.
  intros He Hni Hnn. split; [intros Hr; by apply (list_insert_after_ok s after l elem y)|].
  intros Ha Han. apply (list_insert_first_ok s after elem y); try done.
  apply not_elem_of_cons in Hni as [? _]. congruence.
Qed.

Lemma list_insert_after_ring_witness :
  ∃ s', list_insert_after 10 30 demo_links = Ret (tt, s') ∧ ring s' [10; 30; 20].
Proof.
  destruct (list_insert_after_ring demo_links 10 [20] 30 (0, 0)) as [H _];
    [done|apply (bool_decide_unpack _); reflexivity|done|].
  destruct (H demo_ring) as (s' & E & Hr & _). by exists s'.
Defined.

(** Removal.  Removing an element of a circular list closes the circle over
    it, keeps the order of the others and the links of the objects that are not
    on the list, and leaves the removed object with both links NULL; removing
    what was just inserted gives the list before the insertion. *)
Theorem list_remove_ring {S} `{ListStore S} (s : S) prev elem l :
  ring s (prev :: elem :: l) →
  ∃ s', list_remove elem s = Ret (tt, s') ∧ ring s' (prev :: l) ∧
    links s' elem = Some (NULL, NULL) ∧ (∀ p, p ∉ prev :: elem :: l → links s' p = links s p) ∧
    ∃ s'', list_insert_after prev elem s' = Ret (tt, s'') ∧ ring s'' (prev :: elem :: l).
Proof.
  intros Hr. destruct (list_remove_ok s prev elem l Hr) as (s' & E & Hr' & He & Hf).
  exists s'. do 4 (split; [done|]).
  destruct (list_insert_after_ok s' prev l elem (NULL, NULL)) as (s'' & E' & Hr'' & _); [done|done|..].
  - pose proof (ring_NoDup _ _ Hr) as Hd. apply NoDup_cons in Hd as [Hp Hd]. apply NoDup_cons in Hd as [Hel _].
    rewrite not_elem_of_cons in *. split; [|done]. intros ->. tauto.
  - apply (ring_not_null _ _ _ Hr). right. left.
  - by exists s''.
Qed.

Lemma list_remove_ring_witness : ∃ s', list_remove 20 demo_links = Ret (tt, s') ∧ ring s' [10].
Proof. destruct (list_remove_ring demo_links 10 20 []) as (s' & E & Hr & _); [exact demo_ring|]. by exists s'. Defined.
