(* ===== verification/TaskState.v ===== *)
(** * Tasks: the data

    [kernel/proc/task.h], [arch/x86/proc/task.h] and the descriptor record of
    [kernel/io/fdio.h]: the task control block, the statics of [kernel/proc/task.c]
    and the heap objects tasks point to.

    Pointers are object identifiers: [KernelTask_ptr] for the static KernelTask, and
    increasing numbers from [heap] on for the objects [malloc] returns (malloc is
    taken not to fail).  A freed object leaves its map, so that following a
    pointer to it is a [UseAfterFree] fault.  The statement [printf] appends to
    [klog], a user signal handler that is called appends to [delivered]; what the
    handler does is user code.  [cpu] has the registers the context switch moves
    and the interrupt flag.

    The kernel stack of a task is not modelled; [resume] says where the code that
    saved the context in [arch] stands, which is what its contents decide. *)
From Stdlib Require Import ZArith Lia.
From stdpp Require Import base gmap list strings.
From S2P Require Import Prelude ListHead.
Open Scope Z_scope.
Open Scope u32_scope.

(** ** Constants of the headers *)

Definition NSIG : Z := 65.
Definition SIGTERM : Z := 15.
Definition SIGCHLD : Z := 17.
Definition SIG_IGN : Z := 1.
Definition PATH_MAX : Z := 4096.
Definition EBADF : Z := 9.

(** ** Data *)

Inductive tstate : Type := TaskInit | TaskReady | TaskSigWait | TaskQuit.
#[export] Instance tstate_eq_dec : EqDecision tstate.
Proof. solve_decision. Defined.

(** Where a saved context continues: after [task_store_context] in [task_enter],
    or after [task_fork_context] in [task_fork]. *)
Inductive resume_point : Type := InEnter | InFork.
#[export] Instance resume_point_eq_dec : EqDecision resume_point.
Proof. solve_decision. Defined.

Record arch_task : Type := mkArch { esp : Z; ebp : Z; pgd : Z }.
Record sigaction : Type := mkSigaction { sa_handler : Z; sa_flags : Z; sa_restorer : Z; sa_mask : Z }.
Definition nil_sigaction : sigaction := mkSigaction 0 0 0 0.

(** [fdescr_t]: the device and the number of references. *)
Record fdescr : Type := mkFdescr { dev : Z; refs : Z }.

Record cpu_regs : Type := mkCpu { r_esp : Z; r_ebp : Z; r_cr3 : Z; intr : bool }.

(** The messages task code prints. *)
Inductive kmsg : Type :=
| NoSuchParent (ppid : Z)
| TaskExited (pid status : Z).

Record task : Type := mkTask {
  pid : Z;
  ppid : Z;
  childcount : Z;
  brk : Z;
  state : tstate;
  list_next_of : Z;
  list_prev_of : Z;
  fdnext : Z;
  fdcap : Z;
  fdtbl : Z;
  exitcode : Z;
  sid : Z;
  pgid : Z;
  arch : arch_task;
  cwd : list Z;
  mmapbrk : Z;
  sigset : Z;
  sigact : list sigaction;
  sigpend : Z;
  sigwait : Z;
  sigchldpid : Z;
  sigchldexit : Z;
  resume : resume_point
}.

Definition set_pid (x : Z) (t : task) : task :=
  mkTask x (ppid t) (childcount t) (brk t) (state t) (list_next_of t) (list_prev_of t) (fdnext t) (fdcap t) (fdtbl t) (exitcode t) (sid t) (pgid t) (arch t) (cwd t) (mmapbrk t) (sigset t) (sigact t) (sigpend t) (sigwait t) (sigchldpid t) (sigchldexit t) (resume t).
Definition set_ppid (x : Z) (t : task) : task :=
  mkTask (pid t) x (childcount t) (brk t) (state t) (list_next_of t) (list_prev_of t) (fdnext t) (fdcap t) (fdtbl t) (exitcode t) (sid t) (pgid t) (arch t) (cwd t) (mmapbrk t) (sigset t) (sigact t) (sigpend t) (sigwait t) (sigchldpid t) (sigchldexit t) (resume t).
Definition set_childcount (x : Z) (t : task) : task :=
  mkTask (pid t) (ppid t) x (brk t) (state t) (list_next_of t) (list_prev_of t) (fdnext t) (fdcap t) (fdtbl t) (exitcode t) (sid t) (pgid t) (arch t) (cwd t) (mmapbrk t) (sigset t) (sigact t) (sigpend t) (sigwait t) (sigchldpid t) (sigchldexit t) (resume t).
Definition set_brk (x : Z) (t : task) : task :=
  mkTask (pid t) (ppid t) (childcount t) x (state t) (list_next_of t) (list_prev_of t) (fdnext t) (fdcap t) (fdtbl t) (exitcode t) (sid t) (pgid t) (arch t) (cwd t) (mmapbrk t) (sigset t) (sigact t) (sigpend t) (sigwait t) (sigchldpid t) (sigchldexit t) (resume t).
Definition set_state (x : tstate) (t : task) : task :=
  mkTask (pid t) (ppid t) (childcount t) (brk t) x (list_next_of t) (list_prev_of t) (fdnext t) (fdcap t) (fdtbl t) (exitcode t) (sid t) (pgid t) (arch t) (cwd t) (mmapbrk t) (sigset t) (sigact t) (sigpend t) (sigwait t) (sigchldpid t) (sigchldexit t) (resume t).
Definition set_list_next_of (x : Z) (t : task) : task :=
  mkTask (pid t) (ppid t) (childcount t) (brk t) (state t) x (list_prev_of t) (fdnext t) (fdcap t) (fdtbl t) (exitcode t) (sid t) (pgid t) (arch t) (cwd t) (mmapbrk t) (sigset t) (sigact t) (sigpend t) (sigwait t) (sigchldpid t) (sigchldexit t) (resume t).
Definition set_list_prev_of (x : Z) (t : task) : task :=
  mkTask (pid t) (ppid t) (childcount t) (brk t) (state t) (list_next_of t) x (fdnext t) (fdcap t) (fdtbl t) (exitcode t) (sid t) (pgid t) (arch t) (cwd t) (mmapbrk t) (sigset t) (sigact t) (sigpend t) (sigwait t) (sigchldpid t) (sigchldexit t) (resume t).
Definition set_fdnext (x : Z) (t : task) : task :=
  mkTask (pid t) (ppid t) (childcount t) (brk t) (state t) (list_next_of t) (list_prev_of t) x (fdcap t) (fdtbl t) (exitcode t) (sid t) (pgid t) (arch t) (cwd t) (mmapbrk t) (sigset t) (sigact t) (sigpend t) (sigwait t) (sigchldpid t) (sigchldexit t) (resume t).
Definition set_fdcap (x : Z) (t : task) : task :=
  mkTask (pid t) (ppid t) (childcount t) (brk t) (state t) (list_next_of t) (list_prev_of t) (fdnext t) x (fdtbl t) (exitcode t) (sid t) (pgid t) (arch t) (cwd t) (mmapbrk t) (sigset t) (sigact t) (sigpend t) (sigwait t) (sigchldpid t) (sigchldexit t) (resume t).
Definition set_fdtbl (x : Z) (t : task) : task :=
  mkTask (pid t) (ppid t) (childcount t) (brk t) (state t) (list_next_of t) (list_prev_of t) (fdnext t) (fdcap t) x (exitcode t) (sid t) (pgid t) (arch t) (cwd t) (mmapbrk t) (sigset t) (sigact t) (sigpend t) (sigwait t) (sigchldpid t) (sigchldexit t) (resume t).
Definition set_exitcode (x : Z) (t : task) : task :=
  mkTask (pid t) (ppid t) (childcount t) (brk t) (state t) (list_next_of t) (list_prev_of t) (fdnext t) (fdcap t) (fdtbl t) x (sid t) (pgid t) (arch t) (cwd t) (mmapbrk t) (sigset t) (sigact t) (sigpend t) (sigwait t) (sigchldpid t) (sigchldexit t) (resume t).
Definition set_sid (x : Z) (t : task) : task :=
  mkTask (pid t) (ppid t) (childcount t) (brk t) (state t) (list_next_of t) (list_prev_of t) (fdnext t) (fdcap t) (fdtbl t) (exitcode t) x (pgid t) (arch t) (cwd t) (mmapbrk t) (sigset t) (sigact t) (sigpend t) (sigwait t) (sigchldpid t) (sigchldexit t) (resume t).
Definition set_pgid (x : Z) (t : task) : task :=
  mkTask (pid t) (ppid t) (childcount t) (brk t) (state t) (list_next_of t) (list_prev_of t) (fdnext t) (fdcap t) (fdtbl t) (exitcode t) (sid t) x (arch t) (cwd t) (mmapbrk t) (sigset t) (sigact t) (sigpend t) (sigwait t) (sigchldpid t) (sigchldexit t) (resume t).
Definition set_arch (x : arch_task) (t : task) : task :=
  mkTask (pid t) (ppid t) (childcount t) (brk t) (state t) (list_next_of t) (list_prev_of t) (fdnext t) (fdcap t) (fdtbl t) (exitcode t) (sid t) (pgid t) x (cwd t) (mmapbrk t) (sigset t) (sigact t) (sigpend t) (sigwait t) (sigchldpid t) (sigchldexit t) (resume t).
Definition set_cwd (x : list Z) (t : task) : task :=
  mkTask (pid t) (ppid t) (childcount t) (brk t) (state t) (list_next_of t) (list_prev_of t) (fdnext t) (fdcap t) (fdtbl t) (exitcode t) (sid t) (pgid t) (arch t) x (mmapbrk t) (sigset t) (sigact t) (sigpend t) (sigwait t) (sigchldpid t) (sigchldexit t) (resume t).
Definition set_mmapbrk (x : Z) (t : task) : task :=
  mkTask (pid t) (ppid t) (childcount t) (brk t) (state t) (list_next_of t) (list_prev_of t) (fdnext t) (fdcap t) (fdtbl t) (exitcode t) (sid t) (pgid t) (arch t) (cwd t) x (sigset t) (sigact t) (sigpend t) (sigwait t) (sigchldpid t) (sigchldexit t) (resume t).
Definition set_sigset (x : Z) (t : task) : task :=
  mkTask (pid t) (ppid t) (childcount t) (brk t) (state t) (list_next_of t) (list_prev_of t) (fdnext t) (fdcap t) (fdtbl t) (exitcode t) (sid t) (pgid t) (arch t) (cwd t) (mmapbrk t) x (sigact t) (sigpend t) (sigwait t) (sigchldpid t) (sigchldexit t) (resume t).
Definition set_sigact (x : list sigaction) (t : task) : task :=
  mkTask (pid t) (ppid t) (childcount t) (brk t) (state t) (list_next_of t) (list_prev_of t) (fdnext t) (fdcap t) (fdtbl t) (exitcode t) (sid t) (pgid t) (arch t) (cwd t) (mmapbrk t) (sigset t) x (sigpend t) (sigwait t) (sigchldpid t) (sigchldexit t) (resume t).
Definition set_sigpend (x : Z) (t : task) : task :=
  mkTask (pid t) (ppid t) (childcount t) (brk t) (state t) (list_next_of t) (list_prev_of t) (fdnext t) (fdcap t) (fdtbl t) (exitcode t) (sid t) (pgid t) (arch t) (cwd t) (mmapbrk t) (sigset t) (sigact t) x (sigwait t) (sigchldpid t) (sigchldexit t) (resume t).
Definition set_sigwait (x : Z) (t : task) : task :=
  mkTask (pid t) (ppid t) (childcount t) (brk t) (state t) (list_next_of t) (list_prev_of t) (fdnext t) (fdcap t) (fdtbl t) (exitcode t) (sid t) (pgid t) (arch t) (cwd t) (mmapbrk t) (sigset t) (sigact t) (sigpend t) x (sigchldpid t) (sigchldexit t) (resume t).
Definition set_sigchldpid (x : Z) (t : task) : task :=
  mkTask (pid t) (ppid t) (childcount t) (brk t) (state t) (list_next_of t) (list_prev_of t) (fdnext t) (fdcap t) (fdtbl t) (exitcode t) (sid t) (pgid t) (arch t) (cwd t) (mmapbrk t) (sigset t) (sigact t) (sigpend t) (sigwait t) x (sigchldexit t) (resume t).
Definition set_sigchldexit (x : Z) (t : task) : task :=
  mkTask (pid t) (ppid t) (childcount t) (brk t) (state t) (list_next_of t) (list_prev_of t) (fdnext t) (fdcap t) (fdtbl t) (exitcode t) (sid t) (pgid t) (arch t) (cwd t) (mmapbrk t) (sigset t) (sigact t) (sigpend t) (sigwait t) (sigchldpid t) x (resume t).
Definition set_resume (x : resume_point) (t : task) : task :=
  mkTask (pid t) (ppid t) (childcount t) (brk t) (state t) (list_next_of t) (list_prev_of t) (fdnext t) (fdcap t) (fdtbl t) (exitcode t) (sid t) (pgid t) (arch t) (cwd t) (mmapbrk t) (sigset t) (sigact t) (sigpend t) (sigwait t) (sigchldpid t) (sigchldexit t) x.

(** The statics of task.c, the objects, errno and the processor. *)
Record tst : Type := mkTst {
  tasks : gmap Z task;
  CurrentTask : Z;
  UserTask : Z;
  next_pid : Z;
  fdtbls : gmap Z (list Z);
  fdescrs : gmap Z fdescr;
  errno : Z;
  heap : Z;
  cpu : cpu_regs;
  delivered : list (Z * Z * Z);
  klog : list kmsg
}.

Definition set_tasks (x : gmap Z task) (s : tst) : tst :=
  mkTst x (CurrentTask s) (UserTask s) (next_pid s) (fdtbls s) (fdescrs s) (errno s) (heap s) (cpu s) (delivered s) (klog s).
Definition set_CurrentTask (x : Z) (s : tst) : tst :=
  mkTst (tasks s) x (UserTask s) (next_pid s) (fdtbls s) (fdescrs s) (errno s) (heap s) (cpu s) (delivered s) (klog s).
Definition set_UserTask (x : Z) (s : tst) : tst :=
  mkTst (tasks s) (CurrentTask s) x (next_pid s) (fdtbls s) (fdescrs s) (errno s) (heap s) (cpu s) (delivered s) (klog s).
Definition set_next_pid (x : Z) (s : tst) : tst :=
  mkTst (tasks s) (CurrentTask s) (UserTask s) x (fdtbls s) (fdescrs s) (errno s) (heap s) (cpu s) (delivered s) (klog s).
Definition set_fdtbls (x : gmap Z (list Z)) (s : tst) : tst :=
  mkTst (tasks s) (CurrentTask s) (UserTask s) (next_pid s) x (fdescrs s) (errno s) (heap s) (cpu s) (delivered s) (klog s).
Definition set_fdescrs (x : gmap Z fdescr) (s : tst) : tst :=
  mkTst (tasks s) (CurrentTask s) (UserTask s) (next_pid s) (fdtbls s) x (errno s) (heap s) (cpu s) (delivered s) (klog s).
Definition set_errno (x : Z) (s : tst) : tst :=
  mkTst (tasks s) (CurrentTask s) (UserTask s) (next_pid s) (fdtbls s) (fdescrs s) x (heap s) (cpu s) (delivered s) (klog s).
Definition set_heap (x : Z) (s : tst) : tst :=
  mkTst (tasks s) (CurrentTask s) (UserTask s) (next_pid s) (fdtbls s) (fdescrs s) (errno s) x (cpu s) (delivered s) (klog s).
Definition set_cpu (x : cpu_regs) (s : tst) : tst :=
  mkTst (tasks s) (CurrentTask s) (UserTask s) (next_pid s) (fdtbls s) (fdescrs s) (errno s) (heap s) x (delivered s) (klog s).
Definition set_delivered (x : list (Z * Z * Z)) (s : tst) : tst :=
  mkTst (tasks s) (CurrentTask s) (UserTask s) (next_pid s) (fdtbls s) (fdescrs s) (errno s) (heap s) (cpu s) x (klog s).
Definition set_klog (x : list kmsg) (s : tst) : tst :=
  mkTst (tasks s) (CurrentTask s) (UserTask s) (next_pid s) (fdtbls s) (fdescrs s) (errno s) (heap s) (cpu s) (delivered s) x.

Definition KernelTask_ptr : Z := 1.

(** [task_t KernelTask], before its list is set up; [kern_end] is the address of
    the linker's [_kern_end]. *)
Definition KernelTask (kern_end : Z) : task :=
  mkTask 0 0 0 kern_end TaskReady NULL NULL 0 0 NULL 0 1 1 (mkArch 0 0 0) [47] 0 0
    (replicate (Z.to_nat NSIG) nil_sigaction) 0 0 0 0 InEnter.

(** ** Access *)

Definition get_task (p : Z) : M tst task :=
  s ← getS; need (ptr_fault p) (tasks s !! p).
Definition put_task (p : Z) (t : task) : M tst unit :=
  modify (λ s, set_tasks (<[p := t]> (tasks s)) s).
Definition upd_task (p : Z) (f : task → task) : M tst unit :=
  t ← get_task p; put_task p (f t).
Definition current : M tst task := p ← gets CurrentTask; get_task p.
Definition upd_current (f : task → task) : M tst unit := p ← gets CurrentTask; upd_task p f.

(** A new object identifier. *)
Definition new_ptr : M tst Z :=
  p ← gets heap; modify (set_heap (p + 1)) ;; mret p.

Definition set_errno_to (e : Z) : M tst unit := modify (set_errno e).
Definition printk (m : kmsg) : M tst unit := modify (λ s, set_klog (klog s ++ [m]) s).

(** Tasks are strung on their [list] member. *)
Definition tst_links (s : tst) (p : Z) : option (Z * Z) :=
  (λ t, (list_next_of t, list_prev_of t)) <$> tasks s !! p.
Definition tst_set_links (p : Z) (x : Z * Z) (s : tst) : tst :=
  match tasks s !! p with
  | Some t => set_tasks (<[p := set_list_prev_of x.2 (set_list_next_of x.1 t)]> (tasks s)) s
  | None => s
  end.

Lemma tst_links_set s p q x y : tst_links s p = Some y →
  tst_links (tst_set_links p x s) q = if p =? q then Some x else tst_links s q.
Proof.
  unfold tst_links, tst_set_links. destruct x as [a b], (tasks s !! p) as [t|] eqn:Et; [|done]. intros _. cbn.
  destruct (Z.eqb_spec p q) as [->|]; [by rewrite lookup_insert_eq|by rewrite lookup_insert_ne].
Qed.
#[export] Instance tst_list : ListStore tst :=
  {| links := tst_links; set_links := tst_set_links; links_set := tst_links_set |}.

(** ** Laws *)

Lemma get_task_ok s p t : tasks s !! p = Some t → get_task p s = Ret (t, s).
Proof. intros E. unfold get_task. mred. by rewrite E. Qed.

Lemma upd_task_ok s p f t : tasks s !! p = Some t →
  upd_task p f s = Ret (tt, set_tasks (<[p := f t]> (tasks s)) s).
Proof. intros E. unfold upd_task. by rewrite (bind_ret _ _ _ _ _ (get_task_ok s p t E)). Qed.

Lemma current_ok s t : tasks s !! CurrentTask s = Some t → current s = Ret (t, s).
Proof. intros E. unfold current. rewrite (bind_ret _ _ s (CurrentTask s) s) by done. by apply get_task_ok. Qed.

Lemma upd_current_ok s f t : tasks s !! CurrentTask s = Some t →
  upd_current f s = Ret (tt, set_tasks (<[CurrentTask s := f t]> (tasks s)) s).
Proof. intros E. unfold upd_current. rewrite (bind_ret _ _ s (CurrentTask s) s) by done. by apply upd_task_ok. Qed.

(** Updating a task that was just updated. *)
Lemma upd_task_again s p f t m :
  upd_task p f (set_tasks (<[p := t]> m) s) = Ret (tt, set_tasks (<[p := f t]> m) s).
Proof. rewrite (upd_task_ok _ _ _ t) by apply lookup_insert_eq. cbn [tasks set_tasks]. by rewrite insert_insert_eq. Qed.
