(* ===== verification/Task.v ===== *)
(** * Tasks: the operations

    [kernel/proc/task.c], and of [arch/x86/proc/task.c] and [context.S] the context
    switch.  [task_store_context] returns 0 to its caller, and a second time, with
    1, when a later [task_load_context] comes back to it; so [task_enter] does not
    return to the task that called it but to the one it enters, at the place its
    [resume] says.  What follows the switch there, [task_signal_exec] of the entered
    task, is the second half of [task_enter]; a task entered for the first time
    after a fork continues in [task_fork] instead. *)
From Stdlib Require Import ZArith Lia.
From stdpp Require Import base gmap list strings.
From S2P Require Import Prelude ListHead TaskState.
Open Scope Z_scope.
Open Scope u32_scope.

(** ** Operations *)

Definition task_next_pid : M tst Z :=
  p ← gets next_pid;
  modify (set_next_pid (s32 (p + 1))) ;;
  mret p.

Definition task_insert (p : Z) : M tst unit :=
  cur ← gets CurrentTask;
  list_insert_after cur p.

(** The walk visits one object per iteration and changes nothing, so one that has
    not ended after as many iterations as there are tasks never ends. *)
Definition task_get (pid_ : Z) : M tst Z :=
  s ← getS;
  while (Pos.of_succ_nat (size (tasks s)))
    (λ next_task,
       next_task ← get_next next_task;
       t ← get_task next_task;
       if pid t =? pid_ then mret (inr next_task)
       else
         cur ← current;
         if negb (pid t =? pid cur) then mret (inl next_task) else mret (inr NULL))
    (CurrentTask s).

Definition task_signal_raise (p signum : Z) : M tst unit := upd_task p (set_sigpend signum).

Definition task_exit (p status : Z) : M tst unit :=
  upd_task p (set_state TaskQuit) ;;
  upd_task p (set_exitcode status) ;;
  task_signal_raise p SIGTERM ;;
  t ← get_task p;
  parent ← task_get (ppid t);
  (if parent =? NULL then printk (NoSuchParent (ppid t))
   else
     upd_task parent (set_sigchldpid (pid t)) ;;
     t ← get_task p;
     upd_task parent (set_sigchldexit (exitcode t)) ;;
     task_signal_raise parent SIGCHLD ;;
     upd_task parent (λ t, set_childcount (s32 (childcount t - 1)) t)) ;;
  t ← get_task p;
  printk (TaskExited (pid t) status).

(** [strncpy(dst, src, PATH_MAX)] on a NUL-terminated buffer of that size. *)
Definition strncpy_path (src : list Z) : list Z := take (Z.to_nat PATH_MAX) src.

Definition fd_table (p : Z) : M tst (list Z) :=
  s ← getS; need (ptr_fault p) (fdtbls s !! p).

(** [fdtbl\[i\]->refs++] for the first [fdnext] entries that are not NULL. *)
Definition share_fds (tbl : list Z) (n : Z) : M tst unit :=
  forM (seqZ 0 n)
    (λ i, d ← aget tbl i;
          if negb (d =? 0) then
            s ← getS;
            fd ← need (ptr_fault d) (fdescrs s !! d);
            modify (λ s, set_fdescrs (<[d := mkFdescr (dev fd) (refs fd + 1)]> (fdescrs s)) s)
          else mret tt).

(** The argument is not used: the clone is of the current task.  [memcpy] of the
    descriptor table reads [fdcap] entries of it. *)
Definition task_clone (_ : Z) : M tst Z :=
  clone ← new_ptr;
  cur ← current;
  p ← task_next_pid;
  let t := mkTask p (pid cur) 0 (brk cur) TaskReady NULL NULL (fdnext cur) (fdcap cur) NULL 0
             (sid cur) (pgid cur) (mkArch 0 0 0) (strncpy_path (cwd cur)) (mmapbrk cur) (sigset cur)
             (sigact cur) (sigpend cur) (sigwait cur) 0 0 InEnter in
  upd_current (λ t, set_childcount (s32 (childcount t + 1)) t) ;;
  tblp ← new_ptr;
  src ← fd_table (fdtbl cur);
  (if Z.of_nat (length src) <? fdcap cur then crash OutOfBounds else mret tt) ;;
  let tbl := take (Z.to_nat (fdcap cur)) src in
  modify (λ s, set_fdtbls (<[tblp := tbl]> (fdtbls s)) s) ;;
  put_task clone (set_fdtbl tblp t) ;;
  share_fds tbl (fdnext cur) ;;
  mret clone.

Definition task_signal_exec (p : Z) : M tst unit :=
  t ← get_task p;
  if negb (sigpend t =? 0) then
    let signum := sigpend t in
    whenM (sigwait t =? sigpend t) (upd_task p (set_sigwait 0)) ;;
    upd_task p (set_sigpend 0) ;;
    a ← aget (sigact t) signum;
    let hndl := sa_handler a in
    if negb (hndl =? 0) && negb (hndl =? SIG_IGN)
    then modify (λ s, set_delivered (delivered s ++ [(p, hndl, signum)]) s)
    else mret tt
  else mret tt.

Definition task_signal (p signum handler : Z) : M tst Z :=
  t ← get_task p;
  old ← aget (sigact t) signum;
  l ← aset (sigact t) signum (mkSigaction handler (sa_flags old) (sa_restorer old) (sa_mask old));
  put_task p (set_sigact l t) ;;
  mret (sa_handler old).

(** ** The context switch *)

Definition task_store_context (p : Z) : M tst unit :=
  s ← getS;
  upd_task p (λ t, set_resume InEnter (set_arch (mkArch (r_esp (cpu s)) (r_ebp (cpu s)) (pgd (arch t))) t)).

Definition task_load_context (p : Z) : M tst unit :=
  t ← get_task p;
  modify (λ s, set_cpu (mkCpu (esp (arch t)) (ebp (arch t)) (pgd (arch t)) (intr (cpu s))) s).

Definition task_enter (p : Z) : M tst resume_point :=
  cur ← gets CurrentTask;
  task_store_context cur ;;
  modify (set_CurrentTask p) ;;
  task_load_context p ;;
  t ← get_task p;
  match resume t with
  | InEnter => cur ← gets CurrentTask; task_signal_exec cur ;; mret InEnter
  | InFork => mret InFork
  end.

(** ** Walking the ring *)

(** The tasks on a ring are allocated, so no ring is longer than the map. *)
Lemma ring_size (s : tst) l : ring s l → (length l ≤ size (tasks s))%nat.
Proof.
  intros Hr. rewrite <- size_dom, <- (size_list_to_set (C := gset Z)) by (by eapply ring_NoDup).
  apply subseteq_size. intros p Hp%elem_of_list_to_set. destruct (ring_links _ _ _ Hr Hp) as [y E].
  apply elem_of_dom. cbn in E. unfold tst_links in E. destruct (tasks s !! p); [by eexists|done].
Qed.

Lemma ring_task (s : tst) l p : ring s l → p ∈ l → ∃ t, tasks s !! p = Some t.
Proof.
  intros Hr Hp. destruct (ring_links _ _ _ Hr Hp) as [y E]. cbn in E. unfold tst_links in E.
  destruct (tasks s !! p) as [t|]; [by exists t|done].
Qed.

(** The element behind [a] in [x :: l1 ++ a :: l2]. *)
Lemma ring_next {S} `{ListStore S} (s : S) x l1 a l2 :
  ring s (x :: l1 ++ a :: l2) → nxt s a = Some (default x (head l2)).
Proof.
  intros Hr. change (x :: l1 ++ a :: l2) with ((x :: l1) ++ a :: l2) in Hr.
  apply ring_rotate_app in Hr. cbn [app] in Hr. unfold nxt. rewrite (ring_head _ _ _ Hr). cbn.
  by destruct l2.
Qed.

(** Pids identify the tasks of a ring. *)
Definition pids_distinct (s : tst) (l : list Z) : Prop :=
  ∀ p q tp tq, p ∈ l → q ∈ l → tasks s !! p = Some tp → tasks s !! q = Some tq → pid tp = pid tq → p = q.

(** The first task of [l] with the given pid, or NULL. *)
Definition has_pid (s : tst) (pid_ p : Z) : bool :=
  match tasks s !! p with Some t => pid t =? pid_ | None => false end.
Definition first_with_pid (s : tst) (pid_ : Z) (l : list Z) : Z := default NULL (List.find (has_pid s pid_) l).

Lemma has_pid_eq s pid_ p t : tasks s !! p = Some t → has_pid s pid_ p = (pid t =? pid_).
Proof. intros E. unfold has_pid. by rewrite E. Qed.

Lemma first_with_pid_cons s pid_ p l :
  first_with_pid s pid_ (p :: l) = if has_pid s pid_ p then p else first_with_pid s pid_ l.
Proof. unfold first_with_pid. cbn. by destruct (has_pid s pid_ p). Qed.

Lemma first_with_pid_cases s pid_ l :
  (first_with_pid s pid_ l = NULL ∧ ∀ p, p ∈ l → has_pid s pid_ p = false) ∨
  (first_with_pid s pid_ l ∈ l ∧ has_pid s pid_ (first_with_pid s pid_ l) = true).
Proof.
  induction l as [|p l IH]; [left; split; [done|intros p Hp; by apply not_elem_of_nil in Hp]|].
  rewrite first_with_pid_cons. destruct (has_pid s pid_ p) eqn:E.
  - right. split; [left|done].
  - destruct IH as [[-> Hn]|[Hin Ht]]; [left|right; split; [by right|done]].
    split; [done|]. intros q [->|Hq]%elem_of_cons; [done|by apply Hn].
Qed.

(** The loop of [task_get] from [a], with [l2] still to visit before [cur]. *)
Lemma task_get_loop s cur pid_ body :
  body = (λ next_task : Z,
       next_task ← get_next next_task;
       t ← get_task next_task;
       if pid t =? pid_ then mret (inr next_task)
       else
         cur ← current;
         if negb (pid t =? pid cur) then mret (inl next_task) else mret (inr NULL)) →
  CurrentTask s = cur → ∀ l2 l1 a,
  ring s (cur :: l1 ++ l2) → pids_distinct s (cur :: l1 ++ l2) → a = default cur (last l1) →
  run_nat (S (length l2)) body a s = Ret (inr (first_with_pid s pid_ (l2 ++ [cur])), s).
Proof.
  intros Hbody Hcur. induction l2 as [|y l2 IH]; intros l1 a Hr Hd Ha.
  - cbn [run_nat length app]. rewrite first_with_pid_cons, Hbody. cbn [head].
    destruct (ring_task s _ cur Hr) as [tc Etc]; [left|].
    assert (Hn : nxt s a = Some cur).
    { rewrite app_nil_r in Hr. destruct l1 as [|z l1 _] using rev_ind.
      - cbn in Ha. subst a. unfold nxt. by rewrite (ring_head _ _ _ Hr).
      - rewrite last_snoc in Ha. cbn in Ha. subst a. by rewrite (ring_next s cur l1 z []). }
    rewrite !bind_assoc. rewrite (bind_ret _ _ _ _ _ (get_next_ok s a cur Hn)).
    rewrite bind_assoc. rewrite (bind_ret _ _ _ _ _ (get_task_ok s cur tc Etc)).
    rewrite (has_pid_eq _ _ _ _ Etc). destruct (pid tc =? pid_); [done|].
    rewrite bind_assoc, <- Hcur in *. by rewrite (bind_ret _ _ _ _ _ (current_ok s tc Etc)), Z.eqb_refl.
  - cbn [length]. cbn [run_nat app]. rewrite first_with_pid_cons, Hbody.
    destruct (ring_task s _ cur Hr) as [tc Etc]; [left|].
    assert (Hyin : y ∈ cur :: l1 ++ y :: l2) by (right; apply elem_of_app; right; left).
    destruct (ring_task s _ y Hr Hyin) as [ty Ety].
    assert (Hn : nxt s a = Some y).
    { destruct l1 as [|z l1 _] using rev_ind.
      - cbn in Ha. subst a. unfold nxt. by rewrite (ring_head _ _ _ Hr).
      - rewrite last_snoc in Ha. cbn in Ha. subst a. rewrite <- app_assoc in Hr. by rewrite (ring_next s cur l1 z (y :: l2)). }
    rewrite !bind_assoc. rewrite (bind_ret _ _ _ _ _ (get_next_ok s a y Hn)).
    rewrite bind_assoc. rewrite (bind_ret _ _ _ _ _ (get_task_ok s y ty Ety)).
    rewrite (has_pid_eq _ _ _ _ Ety). destruct (pid ty =? pid_) eqn:Epid; [done|].
    assert (Hyc : y ≠ cur).
    { intros ->. pose proof (ring_NoDup _ _ Hr) as Hnd. apply NoDup_cons in Hnd as [Hnd _].
      apply Hnd. apply elem_of_app; right; left. }
    rewrite bind_assoc. rewrite <- Hcur in Etc.
    rewrite (bind_ret _ _ _ _ _ (current_ok s tc Etc)). rewrite Hcur in Etc.
    destruct (Z.eqb_spec (pid ty) (pid tc)) as [E|]; cbn [negb].
    { exfalso. apply Hyc. by apply (Hd y cur ty tc); [|left|..]. }
    change (run_nat (S (length l2)) (λ next_task : Z,
       next_task ← get_next next_task;
       t ← get_task next_task;
       if pid t =? pid_ then mret (inr next_task)
       else
         cur ← current;
         if negb (pid t =? pid cur) then mret (inl next_task) else mret (inr NULL)) y s =
         Ret (inr (first_with_pid s pid_ (l2 ++ [cur])), s)).
    rewrite <- Hbody. apply (IH (l1 ++ [y])); rewrite <- ?app_assoc; cbn [app]; [done|done|].
    by rewrite last_snoc.
Qed.

Lemma task_get_eq s l pid_ :
  ring s (CurrentTask s :: l) → pids_distinct s (CurrentTask s :: l) →
  task_get pid_ s = Ret (first_with_pid s pid_ (l ++ [CurrentTask s]), s).
Proof.
  intros Hr Hd. unfold task_get. rewrite (bind_ret _ _ s s s) by done.
  apply (while_run _ _ (S (length l))).
  - by apply (task_get_loop s (CurrentTask s) pid_ _ eq_refl eq_refl l [] (CurrentTask s)).
  - pose proof (ring_size s _ Hr) as Hs. cbn [length] in Hs. lia.
Qed.
