(* ===== verification/Sched.v ===== *)
(** * The scheduler

    [kernel/proc/sched.c], with [task_sigwait] of task.c, which yields: the libc's
    [sched_yield] is the system call that ends in [kern_sched_yield].

    The loop of [kern_sched_yield] visits a task per iteration and unlinks those
    that have quit; after one round nothing changes any more, so a run of two
    rounds that has not found a task never will: the iteration bound is twice the
    number of tasks, and two. *)
From Stdlib Require Import ZArith Lia.
From stdpp Require Import base gmap list strings.
From S2P Require Import Prelude ListHead TaskState Task.
Open Scope Z_scope.
Open Scope u32_scope.

(** ** Operations *)

Definition set_intr (b : bool) : M tst unit :=
  modify (λ s, set_cpu (mkCpu (r_esp (cpu s)) (r_ebp (cpu s)) (r_cr3 (cpu s)) b) s).
Definition intr_disable : M tst unit := set_intr false.
Definition intr_enable : M tst unit := set_intr true.

(** One iteration: [inl] goes on from the task, [inr] leaves the loop with it. *)
Definition sched_step (next_task : Z) : M tst (Z + Z) :=
  next_task ← get_next next_task;
  t ← get_task next_task;
  (if decide (state t = TaskQuit) then
     real_next ← get_next next_task;
     list_remove next_task ;;
     set_next next_task real_next
   else mret tt) ;;
  t ← get_task next_task;
  if bool_decide (state t = TaskSigWait) && negb (sigpend t =? 0) &&
     ((sigpend t =? sigwait t) || (sigwait t =? 0)) then
    upd_task next_task (set_state TaskReady) ;;
    mret (inr next_task)
  else if decide (state t = TaskReady) then mret (inr next_task) else mret (inl next_task).

Definition kern_sched_yield : M tst resume_point :=
  intr_disable ;;
  s ← getS;
  next_task ← while (Pos.of_succ_nat (2 * size (tasks s) + 1)) sched_step (CurrentTask s);
  r ← task_enter next_task;
  (match r with InEnter => intr_enable | InFork => mret tt end) ;;
  mret r.

(** A forked task that is entered for the first time does not come back here, and goes
    on with interrupts disabled. *)

(** The preemption mask and handler are the interrupt controller's and table's
    business; the ring of the kernel task is made here. *)
Definition sched_init : M tst unit :=
  set_next KernelTask_ptr KernelTask_ptr ;;
  set_prev KernelTask_ptr KernelTask_ptr.

Definition task_sigwait (p : Z) : M tst resume_point :=
  upd_task p (set_state TaskSigWait) ;;
  kern_sched_yield.

(** ** Specification *)

(** A task the scheduler may choose: ready, or waiting for a signal that is
    pending (any signal when it waits for none in particular). *)
Definition wakeable (t : task) : bool :=
  bool_decide (state t = TaskSigWait) && negb (sigpend t =? 0) &&
  ((sigpend t =? sigwait t) || (sigwait t =? 0)).
Definition runnable (t : task) : bool := wakeable t || bool_decide (state t = TaskReady).

Definition task_runnable (s : tst) (p : Z) : bool :=
  match tasks s !! p with Some t => runnable t | None => false end.
Definition task_quit (s : tst) (p : Z) : bool :=
  match tasks s !! p with Some t => bool_decide (state t = TaskQuit) | None => false end.

(** The same task with other links. *)
Definition relinked (t t' : task) : Prop := ∃ n q, t' = set_list_prev_of q (set_list_next_of n t).

(** What the scheduler and the delivery of signals leave alone in a task. *)
Definition proc_data (t : task) :=
  (pid t, ppid t, childcount t, brk t, (fdnext t, fdcap t, fdtbl t), (exitcode t, sid t, pgid t),
   (cwd t, mmapbrk t, sigset t, sigact t), (sigchldpid t, sigchldexit t)).

(** What is no task's. *)
Definition tst_rest (s : tst) := (UserTask s, next_pid s, (fdtbls s, fdescrs s, errno s), heap s, klog s).

(** From [s] to [s'] only links changed. *)
Record links_only (s s' : tst) : Prop := {
  lo_tasks : ∀ p t, tasks s !! p = Some t → ∃ t', tasks s' !! p = Some t' ∧ relinked t t';
  lo_back : ∀ p t', tasks s' !! p = Some t' → ∃ t, tasks s !! p = Some t ∧ relinked t t';
  lo_cur : CurrentTask s' = CurrentTask s;
  lo_cpu : cpu s' = cpu s;
  lo_delivered : delivered s' = delivered s;
  lo_rest : tst_rest s' = tst_rest s
}.

(** What a task becomes when the scheduler picks it. *)
Definition woken (t : task) : task := if wakeable t then set_state TaskReady t else t.

(** ** Links *)

Lemma relinked_refl t : relinked t t.
Proof. exists (list_next_of t), (list_prev_of t). by destruct t. Qed.
Lemma relinked_trans t1 t2 t3 : relinked t1 t2 → relinked t2 t3 → relinked t1 t3.
Proof. intros (n1 & q1 & ->) (n2 & q2 & ->). exists n2, q2. by destruct t1. Qed.
Lemma relinked_runnable t t' : relinked t t' → runnable t' = runnable t ∧ wakeable t' = wakeable t ∧ state t' = state t.
Proof. intros (n & q & ->). by destruct t. Qed.

Lemma relinked_data t t' : relinked t t' → proc_data t' = proc_data t.
Proof. intros (n & q & ->). by destruct t. Qed.

Lemma links_only_refl s : links_only s s.
Proof. split; try done; intros p t E; exists t; (split; [done|apply relinked_refl]). Qed.
Lemma links_only_trans s1 s2 s3 : links_only s1 s2 → links_only s2 s3 → links_only s1 s3.
Proof.
  intros [T1 B1 ? ? ? ?] [T2 B2 ? ? ? ?]. split; try congruence.
  - intros p t (t2 & E2 & R2)%T1. destruct (T2 _ _ E2) as (t3 & E3 & R3). exists t3. split; [done|].
    by eapply relinked_trans.
  - intros p t (t2 & E2 & R2)%B2. destruct (B1 _ _ E2) as (t3 & E3 & R3). exists t3. split; [done|].
    by eapply relinked_trans.
Qed.

Lemma links_only_runnable s s' p : links_only s s' → is_Some (tasks s !! p) → task_runnable s' p = task_runnable s p.
Proof.
  intros Hl [t E]. unfold task_runnable. destruct (lo_tasks _ _ Hl p t E) as (t' & -> & R). rewrite E.
  apply (relinked_runnable _ _ R).
Qed.

(** Operations that only set links. *)
#[export] Instance links_only_preorder : PreOrder links_only.
Proof. split; [exact links_only_refl|exact links_only_trans]. Qed.

Lemma set_links_only s p x y : links s p = Some y → links_only s (set_links p x s).
Proof.
  intros E. cbn in *. unfold tst_links, tst_set_links in *.
  destruct (tasks s !! p) as [t|] eqn:Et; [|done]. split; try done; cbn.
  - intros q tq Eq. destruct (decide (q = p)) as [->|Hne].
    + rewrite lookup_insert_eq. eexists. split; [done|]. rewrite Et in Eq. injection Eq as ->. by eexists _, _.
    + rewrite lookup_insert_ne by done. exists tq. split; [done|apply relinked_refl].
  - intros q tq. destruct (decide (q = p)) as [->|Hne].
    + rewrite lookup_insert_eq. intros [= <-]. exists t. split; [done|]. by eexists _, _.
    + rewrite lookup_insert_ne by done. intros Eq. exists tq. split; [done|apply relinked_refl].
Qed.

Lemma only_links_next p : moves links_only (get_next (S := tst) p).
Proof. unfold get_next, get_links. moves. Qed.
Lemma only_links_prev p : moves links_only (get_prev (S := tst) p).
Proof. unfold get_prev, get_links. moves. Qed.
Lemma only_links_set_next p n : moves links_only (set_next (S := tst) p n).
Proof.
  intros s a s'. unfold set_next, get_links. mred. destruct (links s p) eqn:E; [|done]. intros [= _ <-].
  by eapply set_links_only.
Qed.
Lemma only_links_set_prev p n : moves links_only (set_prev (S := tst) p n).
Proof.
  intros s a s'. unfold set_prev, get_links. mred. destruct (links s p) eqn:E; [|done]. intros [= _ <-].
  by eapply set_links_only.
Qed.
#[export] Hint Resolve only_links_next only_links_prev only_links_set_next only_links_set_prev : moves.
Lemma only_links_remove p : moves links_only (list_remove (S := tst) p).
Proof. unfold list_remove. moves. Qed.

(** ** The loop *)

(** Removing an element of a ring that is not its first. *)
Lemma ring_remove {S} `{ListStore S} (s : S) cur kept y rest :
  ring s (cur :: kept ++ y :: rest) →
  ∃ s', list_remove y s = Ret (tt, s') ∧ ring s' (cur :: kept ++ rest) ∧ links s' y = Some (NULL, NULL) ∧
        ∀ p, p ∉ cur :: kept ++ y :: rest → links s' p = links s p.
Proof.
  intros Hr. assert (∃ l1 prev, cur :: kept = l1 ++ [prev]) as (l1 & prev & E).
  { destruct kept as [|z k _] using rev_ind; [by exists [], cur|]. by exists (cur :: k), z. }
  change (cur :: kept ++ y :: rest) with ((cur :: kept) ++ y :: rest) in *.
  rewrite E, <- app_assoc in Hr. cbn [app] in Hr. apply ring_rotate_app in Hr. cbn [app] in Hr.
  destruct (list_remove_ok s prev y (rest ++ l1) Hr) as (s' & Er & Hr' & Hy & Hf).
  exists s'. split; [done|]. split; [|split; [done|]].
  - change (prev :: rest ++ l1) with ((prev :: rest) ++ l1) in Hr'. apply ring_rotate_app in Hr'.
    change (cur :: kept ++ rest) with ((cur :: kept) ++ rest). by rewrite E, <- app_assoc.
  - intros p Hp. apply Hf. rewrite E in Hp. revert Hp. rewrite <- app_assoc. cbn [app].
    rewrite !elem_of_cons, !elem_of_app, !elem_of_cons. tauto.
Qed.

(** A task that is passed over. *)
Lemma sched_step_skip s cur kept y rest a :
  ring s (cur :: kept ++ y :: rest) → nxt s a = Some y → task_runnable s y = false →
  ∃ s', sched_step a s = Ret (inl y, s') ∧ links_only s s' ∧
        ring s' (cur :: kept ++ (if task_quit s y then [] else [y]) ++ rest) ∧
        nxt s' y = Some (default cur (head rest)).
Proof.
  intros Hr Hn Hnr. assert (Hy : y ∈ cur :: kept ++ y :: rest) by (right; apply elem_of_app; right; left).
  destruct (ring_task s _ y Hr Hy) as [t Et]. unfold task_runnable in Hnr. unfold task_quit. rewrite Et in *.
  unfold runnable in Hnr. apply orb_false_iff in Hnr as [Hw Hrd]. unfold wakeable in Hw.
  unfold sched_step. rewrite (bind_ret _ _ _ _ _ (get_next_ok s a y Hn)).
  rewrite (bind_ret _ _ _ _ _ (get_task_ok s y t Et)).
  pose proof (ring_next s cur kept y rest Hr) as Hny.
  destruct (decide (state t = TaskQuit)) as [Eq|Hnq].
  - destruct (ring_remove s cur kept y rest Hr) as (s1 & E1 & Hr1 & Hl1 & _).
    pose proof (only_links_remove y _ _ _ E1) as Hlo1.
    set (s2 := put_links y (default cur (head rest)) NULL s1).
    assert (E2 : set_next y (default cur (head rest)) s1 = Ret (tt, s2)) by (by eapply set_next_ok).
    pose proof (only_links_set_next _ _ _ _ _ E2) as Hlo2. pose proof (links_only_trans _ _ _ Hlo1 Hlo2) as Hlo.
    rewrite (bind_ret _ _ s tt s2).
    2: { rewrite (bind_ret _ _ _ _ _ (get_next_ok s y _ Hny)). by rewrite (bind_ret _ _ _ _ _ E1). }
    destruct (lo_tasks _ _ Hlo y t Et) as (t2 & Et2 & Hrl). destruct (relinked_runnable _ _ Hrl) as (_ & _ & Est).
    rewrite (bind_ret _ _ _ _ _ (get_task_ok s2 y t2 Et2)). rewrite Est, Eq.
    rewrite bool_decide_eq_false_2 by done. cbn [andb]. rewrite decide_False by done.
    exists s2. split; [done|]. split; [done|]. rewrite bool_decide_eq_true_2 by done. cbn [app]. split.
    + apply (ring_frame s1); [|done]. intros p Hp. unfold s2. eapply links_put_ne; [done|].
      intros ->. pose proof (ring_NoDup _ _ Hr) as Hd. rewrite app_comm_cons in Hd, Hp.
      apply NoDup_app in Hd as (_ & Hd1 & Hd2). apply elem_of_app in Hp as [Hp|Hp].
      * apply (Hd1 _ Hp). left.
      * by apply NoDup_cons in Hd2 as [? _].
    + unfold s2, nxt. by rewrite (links_put_eq _ _ _ _ _ Hl1).
  - rewrite (bind_ret _ _ s tt s) by done. rewrite (bind_ret _ _ _ _ _ (get_task_ok s y t Et)). rewrite Hw.
    apply bool_decide_eq_false in Hrd. rewrite decide_False by done.
    exists s. split; [done|]. split; [apply links_only_refl|]. by rewrite bool_decide_eq_false_2.
Qed.

(** A run of tasks that are passed over. *)
Lemma sched_skip cur rest pre kept a s :
  ring s (cur :: kept ++ pre ++ rest) → nxt s a = Some (default cur (head (pre ++ rest))) →
  (∀ p, p ∈ pre → task_runnable s p = false) →
  ∃ a' s', run_nat (length pre) sched_step a s = Ret (inl a', s') ∧ links_only s s' ∧
    ring s' (cur :: kept ++ List.filter (λ p, negb (task_quit s p)) pre ++ rest) ∧
    nxt s' a' = Some (default cur (head rest)).
Proof.
  revert kept a s. induction pre as [|y pre IH]; intros kept a s Hr Hn Hnr.
  - exists a, s. split; [done|]. split; [apply links_only_refl|done].
  - cbn [app head default] in *.
    destruct (sched_step_skip s cur kept y (pre ++ rest) a Hr Hn) as (s1 & E1 & Hl1 & Hr1 & Hn1); [apply Hnr; left|].
    destruct (IH (kept ++ (if task_quit s y then [] else [y])) y s1) as (a' & s' & E & Hl & Hr' & Hn').
    + by rewrite <- app_assoc.
    + done.
    + intros p Hp. rewrite (links_only_runnable s); [apply Hnr; by right|done|].
      destruct (ring_task s _ p Hr) as [t ->]; [|by eexists].
      right. apply elem_of_app. right. right. apply elem_of_app. by left.
    + exists a', s'. cbn [run_nat length]. rewrite (bind_ret _ _ _ _ _ E1). split; [done|].
      split; [by eapply links_only_trans|]. split; [|done].
      rewrite <- app_assoc in Hr'. cbn [List.filter].
      assert (Ef : List.filter (λ p, negb (task_quit s1 p)) pre = List.filter (λ p, negb (task_quit s p)) pre).
      { apply List.filter_ext_in. intros p Hp%list_elem_of_In. f_equal. unfold task_quit.
        destruct (ring_task s _ p Hr) as [t Et].
        { right. apply elem_of_app. right. right. apply elem_of_app. by left. }
        destruct (lo_tasks _ _ Hl1 p t Et) as (t' & -> & Hrl). rewrite Et.
        by destruct (relinked_runnable _ _ Hrl) as (_ & _ & ->). }
      rewrite Ef in Hr'. by destruct (task_quit s y).
Qed.

(** The state with a task woken. *)
Definition wake (p : Z) (s : tst) : tst :=
  match tasks s !! p with
  | Some t => if wakeable t then set_tasks (<[p := set_state TaskReady t]> (tasks s)) s else s
  | None => s
  end.

(** The task that is chosen. *)
Lemma sched_step_pick s a y t :
  nxt s a = Some y → tasks s !! y = Some t → runnable t = true →
  sched_step a s = Ret (inr y, wake y s).
Proof.
  intros Hn Et Hrun. unfold sched_step, wake. rewrite Et.
  rewrite (bind_ret _ _ _ _ _ (get_next_ok s a y Hn)), (bind_ret _ _ _ _ _ (get_task_ok s y t Et)).
  unfold runnable in Hrun.
  destruct (decide (state t = TaskQuit)) as [Eq|_].
  { unfold wakeable in Hrun. rewrite Eq in Hrun. by rewrite !bool_decide_eq_false_2 in Hrun by done. }
  rewrite (bind_ret _ _ s tt s) by done. rewrite (bind_ret _ _ _ _ _ (get_task_ok s y t Et)).
  fold (wakeable t). destruct (wakeable t) eqn:Ew.
  - by rewrite (bind_ret _ _ _ _ _ (upd_task_ok s y _ t Et)).
  - cbn [orb] in Hrun. apply bool_decide_eq_true in Hrun. by rewrite decide_True.
Qed.

Lemma wake_links p s q : links (wake p s) q = links s q.
Proof.
  unfold wake. destruct (tasks s !! p) as [t|] eqn:Et; [|done]. destruct (wakeable t); [|done].
  cbn. unfold tst_links. cbn. destruct (decide (q = p)) as [->|]; [|by rewrite lookup_insert_ne].
  rewrite lookup_insert_eq, Et. by destruct t.
Qed.

Lemma wake_task p s t : tasks s !! p = Some t → tasks (wake p s) !! p = Some (woken t).
Proof.
  intros E. unfold wake, woken. rewrite E. destruct (wakeable t); [|done]. cbn. apply lookup_insert_eq.
Qed.

Lemma wake_other p s q : p ≠ q → tasks (wake p s) !! q = tasks s !! q.
Proof.
  intros Hne. unfold wake. destruct (tasks s !! p) as [t|]; [|done]. destruct (wakeable t); [|done].
  cbn. by rewrite lookup_insert_ne.
Qed.

(** ** The context switch *)

(** A pending signal has an entry in the table of actions. *)
Definition sig_ok (t : task) : Prop := 0 ≤ sigpend t < Z.of_nat (length (sigact t)).

(** What [task_signal_exec] does: the task without the pending signal, and the
    handler that is called. *)
Definition signalled (t : task) : task :=
  if sigpend t =? 0 then t
  else set_sigpend 0 (if sigwait t =? sigpend t then set_sigwait 0 t else t).
Definition handler_of (t : task) (signum : Z) : Z :=
  match lookupZ (sigact t) signum with Some a => sa_handler a | None => 0 end.
Definition calls (p : Z) (t : task) : list (Z * Z * Z) :=
  if sigpend t =? 0 then []
  else if negb (handler_of t (sigpend t) =? 0) && negb (handler_of t (sigpend t) =? SIG_IGN)
  then [(p, handler_of t (sigpend t), sigpend t)] else [].

(** The context of the running task, saved in its control block. *)
Definition stored (s : tst) (t : task) : task :=
  set_resume InEnter (set_arch (mkArch (r_esp (cpu s)) (r_ebp (cpu s)) (pgd (arch t))) t).

Lemma task_signal_exec_ok s p t :
  tasks s !! p = Some t → sig_ok t →
  task_signal_exec p s =
  Ret (tt, set_delivered (delivered s ++ calls p t) (set_tasks (<[p := signalled t]> (tasks s)) s)).
Proof.
  intros Et Hsig. unfold task_signal_exec. rewrite (bind_ret _ _ _ _ _ (get_task_ok s p t Et)).
  unfold signalled, calls. destruct (Z.eqb_spec (sigpend t) 0) as [E0|Hn]; cbn [negb].
  - rewrite insert_id, app_nil_r by done. by destruct s.
  - destruct (lookupZ_is_Some (sigact t) (sigpend t) Hsig) as [a Ea].
    set (t1 := if sigwait t =? sigpend t then set_sigwait 0 t else t).
    rewrite (bind_ret _ _ s tt (set_tasks (<[p := t1]> (tasks s)) s)).
    2: { unfold t1, whenM. destruct (sigwait t =? sigpend t); [by apply upd_task_ok|].
         rewrite insert_id by done. by destruct s. }
    rewrite (bind_ret _ _ _ _ _ (upd_task_ok (set_tasks (<[p := t1]> (tasks s)) s) p (set_sigpend 0) t1 (lookup_insert_eq _ _ _))).
    rewrite (bind_ret _ _ _ _ _ (aget_Some (sigact t) (sigpend t) a _ Ea)).
    cbn [tasks set_tasks]. rewrite insert_insert_eq. unfold handler_of. rewrite Ea.
    destruct (negb (sa_handler a =? 0) && negb (sa_handler a =? SIG_IGN)); [done|].
    rewrite app_nil_r. by destruct s.
Qed.

(** The tasks after [cur] saved its context. *)
Definition after_store (s : tst) (cur : Z) (tc : task) : gmap Z task := <[cur := stored s tc]> (tasks s).

Lemma task_enter_ok s p tc t :
  tasks s !! CurrentTask s = Some tc → after_store s (CurrentTask s) tc !! p = Some t → sig_ok t →
  ∃ s', task_enter p s = Ret (resume t, s') ∧ CurrentTask s' = p ∧
    cpu s' = mkCpu (esp (arch t)) (ebp (arch t)) (pgd (arch t)) (intr (cpu s)) ∧
    tasks s' = <[p := match resume t with InEnter => signalled t | InFork => t end]>
                 (after_store s (CurrentTask s) tc) ∧
    delivered s' = delivered s ++ match resume t with InEnter => calls p t | InFork => [] end.
Proof.
  intros Ec Ep Hsig. unfold task_enter. rewrite (bind_ret _ _ s (CurrentTask s) s) by done.
  set (s1 := set_tasks (after_store s (CurrentTask s) tc) s).
  rewrite (bind_ret _ _ s tt s1).
  2: { unfold task_store_context. rewrite (bind_ret _ _ s s s) by done.
       by rewrite (upd_task_ok s (CurrentTask s) _ tc Ec). }
  rewrite (bind_ret _ _ s1 tt (set_CurrentTask p s1)) by done.
  set (s2 := set_cpu (mkCpu (esp (arch t)) (ebp (arch t)) (pgd (arch t)) (intr (cpu s))) (set_CurrentTask p s1)).
  rewrite (bind_ret _ _ (set_CurrentTask p s1) tt s2).
  2: { unfold task_load_context. by rewrite (bind_ret _ _ _ _ _ (get_task_ok (set_CurrentTask p s1) p t Ep)). }
  rewrite (bind_ret _ _ _ _ _ (get_task_ok s2 p t Ep)). destruct (resume t).
  - rewrite (bind_ret _ _ s2 p s2) by done. rewrite (bind_ret _ _ _ _ _ (task_signal_exec_ok s2 p t Ep Hsig)).
    eexists. split; [done|]. done.
  - exists s2. split; [done|]. do 2 (split; [done|]). cbn. rewrite insert_id by done. split; [done|].
    by rewrite app_nil_r.
Qed.

Lemma task_enter_rest s p r s' : task_enter p s = Ret (r, s') → tst_rest s' = tst_rest s.
Proof.
  assert (Hu : ∀ q f u a u', upd_task q f u = Ret (a, u') → tst_rest u' = tst_rest u).
  { intros q f u a u' (t & v & Ev & E)%bind_inv. unfold get_task in Ev. revert Ev. mred. destruct (tasks u !! q); [|done].
    intros [= <- <-]. by injection E as _ <-. }
  assert (Hx : ∀ q u a u', task_signal_exec q u = Ret (a, u') → tst_rest u' = tst_rest u).
  { intros q u a u' (t & v & Ev & E)%bind_inv. assert (v = u) as ->.
    { unfold get_task in Ev. revert Ev. mred. destruct (tasks u !! q); [|done]. by intros [= _ <-]. }
    destruct (negb _); [|by injection E as _ <-].
    apply bind_inv in E as ([] & u1 & E1 & E). apply bind_inv in E as ([] & u2 & E2 & E). apply bind_inv in E as (h & u3 & E3 & E).
    assert (R1 : tst_rest u1 = tst_rest u) by (unfold whenM in E1; destruct (_ =? _); [by apply Hu in E1|by injection E1 as <-]).
    apply Hu in E2. assert (u3 = u2) as -> by (unfold aget in E3; destruct (lookupZ _ _); [by injection E3|done]).
    cbv zeta in E. destruct (negb (sa_handler h =? 0) && negb (sa_handler h =? SIG_IGN)); injection E as _ <-; cbn; by rewrite <- R1, <- E2. }
  unfold task_enter. intros (c & s1 & E1 & E)%bind_inv. injection E1 as <- <-. apply bind_inv in E as ([] & s2 & E2 & E).
  apply Hu in E2. apply bind_inv in E as ([] & s3 & E3 & E). injection E3 as <-. apply bind_inv in E as ([] & s4 & E4 & E).
  assert (R4 : tst_rest s4 = tst_rest (set_CurrentTask p s2)).
  { apply bind_inv in E4 as (t & v & Ev & E4). injection E4 as <-. unfold get_task in Ev. revert Ev. mred.
    destruct (tasks _ !! p); [|done]. by intros [= _ <-]. }
  apply bind_inv in E as (t & s5 & E5 & E). assert (s5 = s4) as ->.
  { unfold get_task in E5. revert E5. mred. destruct (tasks s4 !! p); [|done]. by intros [= _ <-]. }
  destruct (resume t).
  - apply bind_inv in E as (c & s6 & E6 & E). injection E6 as <- <-. apply bind_inv in E as ([] & s7 & E7 & E). injection E as _ <-.
    apply Hx in E7. by rewrite E7, R4, <- E2.
  - injection E as _ <-. by rewrite R4, <- E2.
Qed.

Lemma ring_same_links (s s' : tst) l : (∀ p t, tasks s !! p = Some t → ∃ t', tasks s' !! p = Some t' ∧
    list_next_of t' = list_next_of t ∧ list_prev_of t' = list_prev_of t) → ring s l → ring s' l.
Proof.
  intros Hf Hr. apply (ring_frame s); [|done]. intros p Hp. destruct (ring_task s l p Hr Hp) as [t Et].
  destruct (Hf p t Et) as (t' & Et' & E1 & E2). cbn. unfold tst_links. rewrite Et, Et'. cbn. by rewrite E1, E2.
Qed.

Lemma links_of_signalled t : list_next_of (signalled t) = list_next_of t ∧ list_prev_of (signalled t) = list_prev_of t.
Proof. unfold signalled. destruct (sigpend t =? 0); [done|]. by destruct (sigwait t =? sigpend t). Qed.

Lemma links_of_woken t : list_next_of (woken t) = list_next_of t ∧ list_prev_of (woken t) = list_prev_of t.
Proof. unfold woken. by destruct (wakeable t). Qed.

(** ** The choice *)

(** The order, the ring after [cur] and then [cur], is split at the first runnable task. *)
Definition picks (s : tst) (order pre : list Z) (y : Z) (post : list Z) : Prop :=
  order = pre ++ y :: post ∧ (∀ p, p ∈ pre → task_runnable s p = false) ∧ task_runnable s y = true.

Lemma sched_loop s cur l pre y post :
  CurrentTask s = cur → ring s (cur :: l) → picks s (l ++ [cur]) pre y post →
  ∃ s1, while (Pos.of_succ_nat (2 * size (tasks s) + 1)) sched_step cur s = Ret (y, wake y s1) ∧
    links_only s s1 ∧ ring s1 (y :: post ++ List.filter (λ p, negb (task_quit s p)) pre).
Proof.
  intros Hcur Hr (Ho & Hpre & Hy).
  assert (∃ rest, l = pre ++ rest ∧ default cur (head rest) = y ∧ rest ++ [cur] = y :: post) as (rest & -> & Hh & Hrest).
  { destruct post as [|z post _] using rev_ind.
    - apply app_inj_tail in Ho as [-> ->]. exists []. by rewrite app_nil_r.
    - rewrite app_comm_cons, app_assoc in Ho. apply app_inj_tail in Ho as [-> ->]. by exists (y :: post). }
  destruct (sched_skip cur rest pre [] cur s) as (a & s1 & E1 & Hl1 & Hr1 & Hn1); [done| |done|].
  { unfold nxt. by rewrite (ring_head _ _ _ Hr). }
  rewrite Hh in Hn1. cbn [app] in Hr1.
  assert (Hyin : y ∈ cur :: pre ++ rest).
  { assert (Hyr : y ∈ rest ++ [cur]) by (rewrite Hrest; left).
    apply elem_of_app in Hyr as [| ->%list_elem_of_singleton]; [right; apply elem_of_app; by right|left]. }
  destruct (ring_task s _ y Hr Hyin) as [t Et]. destruct (lo_tasks _ _ Hl1 y t Et) as (t1 & Et1 & Hrl).
  destruct (relinked_runnable _ _ Hrl) as (Hrun & _ & _). unfold task_runnable in Hy. rewrite Et in Hy.
  exists s1. split; [|split; [done|]].
  - apply (while_run _ _ (S (length pre))).
    + apply (run_nat_snoc _ _ _ _ a s1); [done|]. apply (sched_step_pick s1 a y t1); [done|done|congruence].
    + pose proof (ring_size s _ Hr) as Hs. cbn [length] in Hs. rewrite length_app in Hs. lia.
  - set (kept := List.filter _ pre) in *. change (cur :: kept ++ rest) with ((cur :: kept) ++ rest) in Hr1.
    apply ring_rotate_app in Hr1. change (cur :: kept) with ([cur] ++ kept) in Hr1.
    rewrite app_assoc, Hrest in Hr1. exact Hr1.
Qed.

Definition signals_ok (s : tst) : Prop := ∀ p t, tasks s !! p = Some t → sig_ok t.

(** A task that is neither left nor entered: only its links may have changed. *)
Definition untouched (s s' : tst) (p : Z) : Prop :=
  ∃ t t', tasks s !! p = Some t ∧ tasks s' !! p = Some t' ∧ relinked t t'.

Lemma relinked_sig t t' : relinked t t' → sig_ok t → sig_ok t'.
Proof. intros (n & q & ->). by destruct t. Qed.

Lemma signalled_sig t : sig_ok t → sig_ok (signalled t).
Proof.
  unfold signalled, sig_ok. destruct (sigpend t =? 0); [done|].
  by destruct (sigwait t =? sigpend t); cbn; lia.
Qed.

Lemma woken_fields t : sigpend (woken t) = sigpend t ∧ sigact (woken t) = sigact t ∧ resume (woken t) = resume t ∧
  arch (woken t) = arch t.
Proof. unfold woken. by destruct (wakeable t). Qed.

Lemma woken_ready t : runnable t = true → state (woken t) = TaskReady.
Proof.
  unfold runnable, woken. destruct (wakeable t); [done|]. cbn [orb]. apply bool_decide_eq_true.
Qed.

Lemma signalled_state t : state (signalled t) = state t.
Proof. unfold signalled. destruct (sigpend t =? 0); [done|]. by destruct (sigwait t =? sigpend t). Qed.

Lemma intr_disable_eq s : intr_disable s = Ret (tt, set_cpu (mkCpu (r_esp (cpu s)) (r_ebp (cpu s)) (r_cr3 (cpu s)) false) s).
Proof. done. Qed.

(** ** What the steps keep *)

Lemma signals_ok_links s s' : links_only s s' → signals_ok s → signals_ok s'.
Proof. intros Hl Hs p t' (t & E & R)%(lo_back _ _ Hl). by apply (relinked_sig _ _ R), (Hs p). Qed.

Lemma signals_ok_wake y s : signals_ok s → signals_ok (wake y s).
Proof.
  intros Hs p t. unfold wake. destruct (tasks s !! y) as [ty|] eqn:Ey; [|apply Hs].
  destruct (wakeable ty); [|apply Hs]. cbn. destruct (decide (p = y)) as [->|Hne].
  - rewrite lookup_insert_eq. intros [= <-]. exact (Hs y ty Ey).
  - rewrite lookup_insert_ne by done. apply Hs.
Qed.

Lemma wake_frame y s : CurrentTask (wake y s) = CurrentTask s ∧ cpu (wake y s) = cpu s ∧ delivered (wake y s) = delivered s.
Proof. unfold wake. destruct (tasks s !! y) as [t|]; [|done]. by destruct (wakeable t). Qed.

(** The task that is entered, as the switch finds it and as it goes on. *)
Definition at_switch (s : tst) (p : Z) (t : task) : task := if decide (CurrentTask s = p) then stored s t else t.
Definition entered (t : task) : task := match resume t with InEnter => signalled t | InFork => t end.

(** From [s] a yield went to [y], which continues at [r]. *)
Record yielded (s : tst) (y : Z) (r : resume_point) (s' : tst) : Prop := {
  yd_cur : CurrentTask s' = y;
  yd_task t : tasks s !! y = Some t → let t1 := at_switch s y (woken t) in
    r = resume t1 ∧ (∃ t', tasks s' !! y = Some t' ∧ relinked (entered t1) t') ∧
    cpu s' = mkCpu (esp (arch t1)) (ebp (arch t1)) (pgd (arch t1)) (bool_decide (r = InEnter)) ∧
    delivered s' = delivered s ++ match r with InEnter => calls y t1 | InFork => [] end;
  yd_left t : y ≠ CurrentTask s → tasks s !! CurrentTask s = Some t →
    ∃ t', tasks s' !! CurrentTask s = Some t' ∧ relinked (stored s t) t';
  yd_others p t : p ≠ y → p ≠ CurrentTask s → tasks s !! p = Some t → ∃ t', tasks s' !! p = Some t' ∧ relinked t t';
  yd_none p : tasks s !! p = None → tasks s' !! p = None;
  yd_rest : tst_rest s' = tst_rest s
}.

Lemma relinked_stored s t t' : relinked t t' → relinked (stored s t) (stored s t').
Proof. intros (n & q & ->). by exists n, q. Qed.
Lemma relinked_woken t t' : relinked t t' → relinked (woken t) (woken t').
Proof.
  intros H. destruct (relinked_runnable _ _ H) as (_ & Hw & _). unfold woken. rewrite Hw. destruct H as (n & q & ->).
  destruct (wakeable t); by exists n, q.
Qed.
Lemma relinked_entered t t' : relinked t t' → relinked (entered t) (entered t').
Proof.
  intros (n & q & ->). unfold entered. cbn. destruct (resume t); [|by exists n, q]. unfold signalled. cbn.
  destruct (sigpend t =? 0); [by exists n, q|]. destruct (sigwait t =? sigpend t); by exists n, q.
Qed.

(** The fields the switch and the delivery of signals leave. *)
Lemma entered_fields t : state (entered t) = state t ∧ proc_data (entered t) = proc_data t ∧ arch (entered t) = arch t ∧
  resume (entered t) = resume t ∧ sigact (entered t) = sigact t ∧ list_next_of (entered t) = list_next_of t ∧ list_prev_of (entered t) = list_prev_of t.
Proof.
  unfold entered. destruct (resume t) eqn:E; [|done]. unfold signalled. destruct (sigpend t =? 0); [done|]. by destruct (sigwait t =? sigpend t).
Qed.
Lemma entered_sig t : sig_ok t → sig_ok (entered t).
Proof. unfold entered. destruct (resume t); [apply signalled_sig|done]. Qed.
Lemma woken_data t : proc_data (woken t) = proc_data t.
Proof. unfold woken. by destruct (wakeable t). Qed.
Lemma at_switch_data s p t : proc_data (at_switch s p t) = proc_data t ∧ state (at_switch s p t) = state t ∧ sigpend (at_switch s p t) = sigpend t ∧
  sigact (at_switch s p t) = sigact t.
Proof. unfold at_switch. by destruct (decide _). Qed.

(** Entering the task the loop chose, [s1] being the state after the loop. *)
Lemma task_enter_yielded s s1 y t :
  links_only s s1 → is_Some (tasks s !! CurrentTask s) → tasks s !! y = Some t → signals_ok s →
  let t1 := at_switch s y (woken t) in
  ∃ s3, task_enter y (wake y s1) = Ret (resume t1, s3) ∧ intr (cpu s3) = intr (cpu s) ∧
    yielded s y (resume t1) (set_cpu (mkCpu (r_esp (cpu s3)) (r_ebp (cpu s3)) (r_cr3 (cpu s3)) (bool_decide (resume t1 = InEnter))) s3) ∧
    ∀ l, ring s1 l → ring s3 l.
Proof.
  intros Hl [tc Ec] Et Hsig t1. destruct (lo_tasks _ _ Hl y t Et) as (u & Eu & Hru). destruct (lo_tasks _ _ Hl _ tc Ec) as (uc & Euc & Hruc).
  destruct (wake_frame y s1) as (Hcw & Hcpuw & Hdw). rewrite (lo_cur _ _ Hl) in Hcw. rewrite (lo_cpu _ _ Hl) in Hcpuw. rewrite (lo_delivered _ _ Hl) in Hdw.
  assert (Hrestw : tst_rest (wake y s1) = tst_rest s).
  { rewrite <- (lo_rest _ _ Hl). unfold wake. destruct (tasks s1 !! y); [|done]. by destruct (wakeable _). }
  set (vc := if decide (CurrentTask s = y) then woken u else uc).
  assert (Evc : tasks (wake y s1) !! CurrentTask (wake y s1) = Some vc).
  { rewrite Hcw. unfold vc. destruct (decide (CurrentTask s = y)) as [->|Hn]; [by apply wake_task|by rewrite wake_other]. }
  set (v := at_switch s y (woken u)).
  assert (Ev : after_store (wake y s1) (CurrentTask (wake y s1)) vc !! y = Some v).
  { unfold after_store, v, at_switch, vc. rewrite Hcw. destruct (decide (CurrentTask s = y)) as [->|Hn].
    - rewrite lookup_insert_eq. unfold stored. by rewrite Hcpuw.
    - rewrite lookup_insert_ne by done. by apply wake_task. }
  assert (Hrv : relinked t1 v).
  { unfold t1, v, at_switch. destruct (decide _); [apply relinked_stored|]; by apply relinked_woken. }
  assert (Hvsig : sig_ok v).
  { apply (relinked_sig _ _ Hrv). destruct (at_switch_data s y (woken t)) as (_ & _ & Hp & Ha). destruct (woken_fields t) as (Hp' & Ha' & _).
    unfold sig_ok, t1. rewrite Hp, Ha, Hp', Ha'. exact (Hsig y t Et). }
  destruct (task_enter_ok (wake y s1) y vc v Evc Ev Hvsig) as (s3 & E & Hc & Hcpu & Ht & Hd).
  assert (Hf : resume v = resume t1 ∧ arch v = arch t1 ∧ calls y v = calls y t1).
  { destruct Hrv as (n & q & ->). done. }
  destruct Hf as (Hres & Harch & Hcalls). rewrite Hres in E, Hd, Ht. rewrite Harch in Hcpu.
  fold (entered v) in Ht. assert (Ht' : tasks s3 = <[y := entered v]> (after_store (wake y s1) (CurrentTask (wake y s1)) vc)).
  { rewrite Ht. unfold entered. by rewrite Hres. }
  exists s3. split; [done|]. split; [by rewrite Hcpu, Hcpuw|]. split.
  - split; cbn [CurrentTask tasks cpu delivered set_cpu].
    + done.
    + intros t' E'. rewrite Et in E'. injection E' as <-. fold t1. split; [done|]. split; [|split].
      * exists (entered v). rewrite Ht'. split; [apply lookup_insert_eq|by apply relinked_entered].
      * by rewrite Hcpu.
      * rewrite Hd, Hdw. by rewrite Hcalls.
    + intros t' Hne E'. rewrite Ec in E'. injection E' as <-. exists (stored s uc). rewrite Ht', lookup_insert_ne by done.
      unfold after_store. rewrite Hcw, lookup_insert_eq. split; [|by apply relinked_stored]. f_equal. unfold vc, stored. rewrite decide_False by done.
      by rewrite Hcpuw.
    + intros p t' Hpy Hpc E'. rewrite Ht', lookup_insert_ne by done. unfold after_store. rewrite Hcw, lookup_insert_ne by done.
      rewrite wake_other by done. exact (lo_tasks _ _ Hl p t' E').
    + intros p Hp. destruct (decide (p = y)) as [->|Hpy]; [by rewrite Et in Hp|].
      destruct (decide (p = CurrentTask s)) as [->|Hpc]; [by rewrite Ec in Hp|]. rewrite Ht', lookup_insert_ne by done.
      unfold after_store. rewrite Hcw, lookup_insert_ne, wake_other by done. destruct (tasks s1 !! p) as [x|] eqn:Ex; [|done].
      destruct (lo_back _ _ Hl p x Ex) as (x' & Ex' & _). by rewrite Hp in Ex'.
    + exact (eq_trans (task_enter_rest _ _ _ _ E) Hrestw).
  - intros l Hr. assert (Hrw : ring (wake y s1) l) by (apply (ring_frame s1); [intros p _; apply wake_links|done]).
    revert Hrw. apply ring_same_links. intros q tq Eq. rewrite Ht'. destruct (entered_fields v) as (_ & _ & _ & _ & _ & Ln & Lp).
    unfold after_store in Ev |- *. destruct (decide (q = y)) as [->|Hqy].
    + rewrite lookup_insert_eq. exists (entered v). split; [done|]. rewrite Ln, Lp. rewrite Hcw in Ev, Evc.
      destruct (decide (CurrentTask s = y)) as [Ecy|Hn].
      * rewrite Ecy, lookup_insert_eq in Ev. injection Ev as <-. rewrite Ecy, Eq in Evc. by injection Evc as ->.
      * rewrite lookup_insert_ne in Ev by done. rewrite Eq in Ev. by injection Ev as ->.
    + rewrite lookup_insert_ne by done. rewrite Hcw in Evc |- *. destruct (decide (q = CurrentTask s)) as [->|Hqc].
      * rewrite lookup_insert_eq. eexists. split; [done|]. rewrite Evc in Eq. by injection Eq as <-.
      * rewrite lookup_insert_ne by done. by exists tq.
Qed.

Lemma yielded_signals s y r s' : is_Some (tasks s !! y) → yielded s y r s' → signals_ok s → signals_ok s'.
Proof.
  intros [t Et] Hy Hs p t' E'. destruct (yd_task _ _ _ _ Hy t Et) as (_ & (u & Eu & Hru) & _).
  destruct (decide (p = y)) as [->|Hpy].
  - rewrite Eu in E'. injection E' as <-. apply (relinked_sig _ _ Hru). apply entered_sig.
    destruct (at_switch_data s y (woken t)) as (_ & _ & Hp & Ha). destruct (woken_fields t) as (Hp' & Ha' & _).
    unfold sig_ok. rewrite Hp, Ha, Hp', Ha'. exact (Hs y t Et).
  - destruct (tasks s !! p) as [tp|] eqn:Ep; [|by rewrite (yd_none _ _ _ _ Hy p Ep) in E'].
    destruct (decide (p = CurrentTask s)) as [->|Hpc].
    + destruct (yd_left _ _ _ _ Hy tp) as (x & Ex & Hx); [done|done|]. rewrite Ex in E'. injection E' as <-.
      apply (relinked_sig _ _ Hx). exact (Hs _ tp Ep).
    + destruct (yd_others _ _ _ _ Hy p tp Hpy Hpc Ep) as (x & Ex & Hx). rewrite Ex in E'. injection E' as <-.
      apply (relinked_sig _ _ Hx). exact (Hs _ tp Ep).
Qed.

(** One yield, in full. *)
Lemma kern_sched_yield_full s l pre y post :
  ring s (CurrentTask s :: l) → picks s (l ++ [CurrentTask s]) pre y post → signals_ok s →
  ∃ r s', kern_sched_yield s = Ret (r, s') ∧ yielded s y r s' ∧ signals_ok s' ∧
    ring s' (y :: post ++ List.filter (λ p, negb (task_quit s p)) pre).
Proof.
  intros Hr Hp Hsig. unfold kern_sched_yield. rewrite (bind_ret _ _ _ _ _ (intr_disable_eq s)).
  set (s0 := set_cpu _ s). rewrite (bind_ret _ _ s0 s0 s0) by done.
  assert (Hr0 : ring s0 (CurrentTask s :: l)) by (apply (ring_frame s); done).
  destruct (sched_loop s0 (CurrentTask s) l pre y post) as (s1 & E1 & Hl1 & Hr1); [done|done|done|].
  rewrite (bind_ret _ _ _ _ _ E1).
  destruct (ring_task s1 _ y Hr1) as [t1 Et1]; [left|].
  destruct (lo_back _ _ Hl1 y t1 Et1) as (t & Et & Hrl).
  destruct (ring_task s _ (CurrentTask s) Hr) as [tc Etc]; [left|].
  destruct (task_enter_yielded s0 s1 y t Hl1) as (s3 & E3 & Hi3 & Hy3 & Hr3); [by exists tc|done|done|].
  rewrite (bind_ret _ _ _ _ _ E3). set (r := resume (at_switch s0 y (woken t))) in *. exists r.
  set (s4 := set_cpu _ s3) in Hy3. exists s4.
  assert (Hy : yielded s y r s4) by (destruct Hy3; by split).
  split; [|split; [done|split]].
  - rewrite (bind_ret _ _ s3 tt s4); [done|]. unfold s4. destruct r; [done|]. change (bool_decide (InFork = InEnter)) with false.
    change false with (intr (cpu s0)). rewrite <- Hi3. by destruct s3 as [? ? ? ? ? ? ? ? [] ? ?].
  - apply (yielded_signals s y r); [by exists t|done|done].
  - apply (ring_frame s3); [done|]. by apply Hr3.
Qed.

Lemma kern_sched_yield_ok s l pre y post :
  ring s (CurrentTask s :: l) → picks s (l ++ [CurrentTask s]) pre y post → signals_ok s →
  ∃ r s' t', kern_sched_yield s = Ret (r, s') ∧ CurrentTask s' = y ∧
    tasks s' !! y = Some t' ∧ state t' = TaskReady ∧
    (∃ t, tasks s !! y = Some t ∧ proc_data t' = proc_data t) ∧
    intr (cpu s') = bool_decide (r = InEnter) ∧ r_cr3 (cpu s') = pgd (arch t') ∧ signals_ok s' ∧
    ring s' (y :: post ++ List.filter (λ p, negb (task_quit s p)) pre) ∧
    (∀ p, p ≠ y → p ≠ CurrentTask s → is_Some (tasks s !! p) → untouched s s' p).
Proof.
  intros Hr Hp Hsig. destruct (kern_sched_yield_full s l pre y post Hr Hp Hsig) as (r & s' & E & Hy & Hs' & Hr').
  destruct Hp as (_ & _ & Hrun). unfold task_runnable in Hrun. destruct (tasks s !! y) as [t|] eqn:Et; [|done].
  destruct (yd_task _ _ _ _ Hy t Et) as (_ & (t' & Et' & Hrl) & Hcpu & _). exists r, s', t'.
  destruct (relinked_runnable _ _ Hrl) as (_ & _ & Hst). destruct (entered_fields (at_switch s y (woken t))) as (F1 & F2 & F3 & _).
  destruct (at_switch_data s y (woken t)) as (G1 & G2 & _ & _).
  split; [done|]. split; [apply Hy|]. split; [done|]. split; [by rewrite Hst, F1, G2, woken_ready|]. split; [|split; [|split; [|split; [done|split; [done|]]]]].
  - exists t. split; [done|]. by rewrite (relinked_data _ _ Hrl), F2, G1, woken_data.
  - by rewrite Hcpu.
  - rewrite Hcpu. destruct Hrl as (n & q & ->). cbn. by rewrite F3.
  - intros p Hpy Hpc [tp Etp]. destruct (yd_others _ _ _ _ Hy p tp Hpy Hpc Etp) as (x & Ex & Hx). by exists tp, x.
Qed.

(** ** No task to run *)

Lemma remove_single s y : ring s [y] →
  ∃ s', list_remove y s = Ret (tt, s') ∧ ring s' [y] ∧ nxt s' y = Some y.
Proof.
  intros Hr. pose proof (ring_head _ _ _ Hr) as Hh. cbn [head last default] in Hh. pose proof Hr as (_ & Hd & Hn).
  unfold list_remove.
  rewrite (bind_ret _ _ _ _ _ (get_next_ok s y y ltac:(unfold nxt; by rewrite Hh))).
  rewrite (bind_ret _ _ _ _ _ (get_prev_ok s y y ltac:(unfold prv; by rewrite Hh))).
  rewrite (bind_ret _ _ _ _ _ (set_prev_ok _ _ NULL _ _ Hh)). set (s1 := put_links y y NULL s).
  assert (H1 : links s1 y = Some (y, NULL)) by (by eapply links_put_eq).
  rewrite (bind_ret _ _ _ _ _ (set_next_ok _ _ NULL _ _ H1)). set (s2 := put_links y NULL NULL s1).
  assert (H2 : links s2 y = Some (NULL, NULL)) by (by eapply links_put_eq).
  rewrite (bind_ret _ _ _ _ _ (set_next_ok _ _ y _ _ H2)). set (s3 := put_links y y NULL s2).
  assert (H3 : links s3 y = Some (y, NULL)) by (by eapply links_put_eq).
  rewrite (set_prev_ok _ _ y _ _ H3). eexists. split; [done|].
  assert (H4 : links (put_links y y y s3) y = Some (y, y)) by (by eapply links_put_eq).
  split; [|unfold nxt; by rewrite H4]. split; [|done]. cbn [chain]. unfold nxt, prv. by rewrite H4.
Qed.

(** No task on the ring can run, and the walk stands before one of them. *)
Definition idle (a : Z) (s : tst) : Prop :=
  ∃ y l, ring s (y :: l) ∧ nxt s a = Some y ∧ ∀ p, p ∈ y :: l → task_runnable s p = false.

Lemma sched_step_idle a s : idle a s → ∃ a' s', sched_step a s = Ret (inl a', s') ∧ idle a' s'.
Proof.
  intros (y & l & Hr & Hn & Hidle).
  destruct (ring_task s _ y Hr) as [t Et]; [left|].
  destruct l as [|z l _] using rev_ind.
  - pose proof (Hidle y ltac:(left)) as Hy. unfold task_runnable in Hy. rewrite Et in Hy.
    unfold runnable in Hy. apply orb_false_iff in Hy as [Hw Hrd]. unfold wakeable in Hw.
    unfold sched_step. rewrite (bind_ret _ _ _ _ _ (get_next_ok s a y Hn)), (bind_ret _ _ _ _ _ (get_task_ok s y t Et)).
    assert (Hny : nxt s y = Some y) by (unfold nxt; by rewrite (ring_head _ _ _ Hr)).
    destruct (decide (state t = TaskQuit)) as [Eq|Hnq].
    + destruct (remove_single s y Hr) as (s1 & E1 & Hr1 & Hn1).
      pose proof (only_links_remove y _ _ _ E1) as Hlo1.
      assert (Hl1 : links s1 y = Some (y, y)) by (by rewrite (ring_head _ _ _ Hr1)).
      set (s2 := put_links y y y s1).
      assert (E2 : set_next y y s1 = Ret (tt, s2)) by (by eapply set_next_ok).
      pose proof (links_only_trans _ _ _ Hlo1 (only_links_set_next _ _ _ _ _ E2)) as Hlo.
      rewrite (bind_ret _ _ s tt s2).
      2: { rewrite (bind_ret _ _ _ _ _ (get_next_ok s y _ Hny)). by rewrite (bind_ret _ _ _ _ _ E1). }
      destruct (lo_tasks _ _ Hlo y t Et) as (t2 & Et2 & Hrl). destruct (relinked_runnable _ _ Hrl) as (_ & _ & Est).
      rewrite (bind_ret _ _ _ _ _ (get_task_ok s2 y t2 Et2)). rewrite Est, Eq.
      rewrite bool_decide_eq_false_2 by done. cbn [andb]. rewrite decide_False by done.
      exists y, s2. split; [done|]. exists y, []. split; [|split].
      * apply (ring_frame s1); [|done]. intros p ->%list_elem_of_singleton. unfold s2. by rewrite (links_put_eq _ _ _ _ _ Hl1).
      * unfold s2, nxt. by rewrite (links_put_eq _ _ _ _ _ Hl1).
      * intros p ->%list_elem_of_singleton. rewrite (links_only_runnable s) by (done || by eexists).
        apply Hidle. left.
    + rewrite (bind_ret _ _ s tt s) by done. rewrite (bind_ret _ _ _ _ _ (get_task_ok s y t Et)), Hw.
      apply bool_decide_eq_false in Hrd. rewrite decide_False by done. exists y, s. split; [done|]. by exists y, [].
  - assert (Hr' : ring s (z :: [] ++ y :: l)).
    { change (y :: l ++ [z]) with ((y :: l) ++ [z]) in Hr. by apply ring_rotate_app in Hr. }
    destruct (sched_step_skip s z [] y l a Hr' Hn) as (s' & E & Hl & Hr1 & Hn1); [apply Hidle; left|].
    exists y, s'. split; [done|]. cbn [app] in Hr1.
    assert (Hin : ∀ p, p ∈ z :: (if task_quit s y then [] else [y]) ++ l → task_runnable s' p = false).
    { intros p Hp. assert (Hpo : p ∈ y :: l ++ [z]).
      { rewrite !elem_of_cons, elem_of_app in *. rewrite list_elem_of_singleton. destruct (task_quit s y).
        - destruct Hp as [|[Hp|]]; [tauto|by apply not_elem_of_nil in Hp|tauto].
        - rewrite list_elem_of_singleton in Hp. tauto. }
      rewrite (links_only_runnable s); [by apply Hidle|done|].
      destruct (ring_task s _ p Hr Hpo) as [tp ->]. by eexists. }
    destruct l as [|x l]; cbn [head default app] in *.
    + by eexists z, _.
    + destruct (task_quit s y); cbn [app] in *.
      * exists x, (l ++ [z]). split; [by apply ring_rotate in Hr1|]. split; [done|].
        intros p Hp. apply Hin. rewrite !elem_of_cons, elem_of_app, list_elem_of_singleton in *. tauto.
      * exists x, (l ++ [z; y]). split; [|split; [done|]].
        -- apply ring_rotate in Hr1. cbn [app] in Hr1. apply ring_rotate in Hr1. cbn [app] in Hr1.
           by rewrite <- app_assoc in Hr1.
        -- intros p Hp. apply Hin. rewrite !elem_of_cons, elem_of_app, !elem_of_cons in *. 
           pose proof (not_elem_of_nil p). tauto.
Qed.

Lemma sched_yield_idle s l :
  ring s (CurrentTask s :: l) → (∀ p, p ∈ CurrentTask s :: l → task_runnable s p = false) →
  kern_sched_yield s = Diverge.
Proof.
  intros Hr Hidle. unfold kern_sched_yield. rewrite (bind_ret _ _ _ _ _ (intr_disable_eq s)).
  set (s0 := set_cpu _ s). rewrite (bind_ret _ _ s0 s0 s0) by done.
  unfold mbind at 1, M_bind, mbind_M. rewrite (while_forever idle); [done|apply sched_step_idle|].
  assert (Hr0 : ring s0 (CurrentTask s :: l)) by (apply (ring_frame s); done).
  change (CurrentTask s0) with (CurrentTask s).
  destruct l as [|y l].
  - exists (CurrentTask s), []. split; [done|]. split; [|done]. unfold nxt. by rewrite (ring_head _ _ _ Hr0).
  - exists y, (l ++ [CurrentTask s]). split; [by apply ring_rotate in Hr0|]. split.
    + unfold nxt. by rewrite (ring_head _ _ _ Hr0).
    + intros p Hp. apply Hidle. rewrite !elem_of_cons, elem_of_app, list_elem_of_singleton in *. tauto.
Qed.

(** ** Waiting one's turn *)

Lemma picks_exists s order i z :
  order !! i = Some z → task_runnable s z = true →
  ∃ pre y post, picks s order pre y post ∧ (length pre ≤ i)%nat.
Proof.
  revert i. induction order as [|x order IH]; intros i Hi Hz; [done|].
  destruct (task_runnable s x) eqn:Ex.
  - exists [], x, order. split; [|cbn; lia]. split; [done|]. split; [|done]. intros p Hp. by apply not_elem_of_nil in Hp.
  - destruct i as [|i]; [injection Hi as ->; congruence|].
    destruct (IH i Hi Hz) as (pre & y & post & (-> & Hpre & Hy) & Hl).
    exists (x :: pre), y, post. split; [|cbn; lia]. split; [done|]. split; [|done].
    intros p [->|Hp]%elem_of_cons; [done|by apply Hpre].
Qed.

(** [n] yields, with nothing else in between. *)
Fixpoint yields (n : nat) : M tst unit :=
  match n with
  | O => mret tt
  | S n' => kern_sched_yield ;; yields n'
  end.

Lemma yields_reach i : ∀ s l z,
  ring s (CurrentTask s :: l) → signals_ok s → l !! i = Some z → task_runnable s z = true →
  ∃ n s', (1 ≤ n ≤ S i)%nat ∧ yields n s = Ret (tt, s') ∧ CurrentTask s' = z ∧
    ∃ t t', tasks s !! z = Some t ∧ tasks s' !! z = Some t' ∧ proc_data t' = proc_data t.
Proof.
  induction i as [i IH] using lt_wf_ind. intros s l z Hr Hsig Hi Hz.
  assert (Hi' : (l ++ [CurrentTask s]) !! i = Some z) by (by apply lookup_app_l_Some).
  destruct (picks_exists s _ i z Hi' Hz) as (pre & y & post & Hp & Hlen).
  destruct (kern_sched_yield_ok s l pre y post Hr Hp Hsig)
    as (r & s' & t' & E & Hc & Et' & _ & (ty & Ety & Hdy) & _ & _ & Hs' & Hr' & Hun).
  destruct (decide (z = y)) as [->|Hne].
  { exists 1%nat, s'. split; [lia|]. cbn [yields]. rewrite (bind_ret _ _ _ _ _ E). split; [done|].
    split; [done|]. by exists ty, t'. }
  destruct Hp as (Ho & Hpre & Hy).
  assert (Hzc : z ≠ CurrentTask s).
  { intros ->. apply ring_NoDup, NoDup_cons in Hr as [Hn _]. apply Hn. by eapply list_elem_of_lookup_2. }
  assert (Hpost : post !! (i - S (length pre))%nat = Some z).
  { rewrite Ho in Hi'. rewrite lookup_app_r in Hi' by done.
    destruct (i - length pre)%nat as [|j] eqn:Ej; [by injection Hi' as ->|].
    cbn in Hi'. by replace (i - S (length pre))%nat with j by lia. }
  assert (Hi2 : (S (length pre) ≤ i)%nat).
  { rewrite Ho in Hi'. rewrite lookup_app_r in Hi' by done.
    destruct (i - length pre)%nat as [|j] eqn:Ej; [by injection Hi' as ->|]. lia. }
  unfold task_runnable in Hz. destruct (tasks s !! z) as [tz|] eqn:Etz; [|done].
  destruct (Hun z Hne Hzc ltac:(by rewrite Etz)) as (t1 & t2 & E1 & E2 & Hrl).
  rewrite Etz in E1. injection E1 as <-.
  destruct (IH (i - S (length pre))%nat ltac:(lia) s' (post ++ List.filter (λ p, negb (task_quit s p)) pre) z)
    as (n & s2 & Hn & En & Hc2 & u & u' & Eu & Eu' & Hdu).
  - by rewrite Hc.
  - done.
  - by apply lookup_app_l_Some.
  - unfold task_runnable. rewrite E2. by destruct (relinked_runnable _ _ Hrl) as (-> & _).
  - exists (S n), s2. split; [lia|]. cbn [yields]. rewrite (bind_ret _ _ _ _ _ E). split; [done|].
    split; [done|]. exists tz, u'. split; [done|]. split; [done|].
    rewrite E2 in Eu. injection Eu as <-. by rewrite Hdu, (relinked_data _ _ Hrl).
Qed.

(** ** Properties *)

(** The kernel task runs; task 2 has quit, task 3 waits for the pending SIGCHLD,
    whose handler is at 500. *)
Definition demo_task (p : Z) (st : tstate) (n q : Z) (pend : Z) : task :=
  set_sigpend pend (set_state st (set_pid p (set_list_next_of n (set_list_prev_of q
    (set_arch (mkArch (100 * p) (100 * p) (4096 * p))
      (set_sigact (replicate 65 (mkSigaction 500 0 0 0)) (KernelTask 0))))))).
Definition demo_tst : tst :=
  mkTst (<[1 := demo_task 0 TaskReady 2 3 0]> (<[2 := demo_task 1 TaskQuit 3 1 15]>
        (<[3 := demo_task 2 TaskSigWait 1 2 17]> ∅))) 1 0 3 ∅ ∅ 0 10 (mkCpu 7 7 0 true) [] [].

Lemma demo_tst_ring : ring demo_tst [1; 2; 3].
Proof. split; [done|]. split; apply (bool_decide_unpack _); reflexivity. Qed.

Lemma demo_signals : signals_ok demo_tst.
Proof.
  intros p t E. cbn in E. apply lookup_insert_Some in E as [[_ <-]|[_ E]]; [done|].
  apply lookup_insert_Some in E as [[_ <-]|[_ E]]; [done|].
  by apply lookup_insert_Some in E as [[_ <-]|[_ E]].
Qed.

(** C17: round robin.  A yield enters the first task behind the current one on the
    ring that is ready, or waits for a signal that is pending (the current one
    comes last): it runs in its own address space, with interrupts enabled unless it
    is a fork's child at its first entry, is ready, and the ring goes on behind it in the old order, without the tasks
    that have quit on the way.  All other tasks keep everything but their links. *)
Theorem sched_yield_round_robin s l pre y post :
  ring s (CurrentTask s :: l) → picks s (l ++ [CurrentTask s]) pre y post → signals_ok s →
  ∃ r s' t', kern_sched_yield s = Ret (r, s') ∧ CurrentTask s' = y ∧
    tasks s' !! y = Some t' ∧ state t' = TaskReady ∧
    (∃ t, tasks s !! y = Some t ∧ proc_data t' = proc_data t) ∧
    intr (cpu s') = bool_decide (r = InEnter) ∧ r_cr3 (cpu s') = pgd (arch t') ∧ signals_ok s' ∧
    ring s' (y :: post ++ List.filter (λ p, negb (task_quit s p)) pre) ∧
    (∀ p, p ≠ y → p ≠ CurrentTask s → is_Some (tasks s !! p) → untouched s s' p).
Proof. apply kern_sched_yield_ok. Qed.

Lemma sched_yield_round_robin_witness :
  ∃ r s', kern_sched_yield demo_tst = Ret (r, s') ∧ CurrentTask s' = 3 ∧ ring s' [3; 1] ∧ intr (cpu s') = bool_decide (r = InEnter).
Proof.
  destruct (sched_yield_round_robin demo_tst [2; 3] [2] 3 [1]) as (r & s' & t' & E & Hc & _ & _ & _ & Hi & _ & _ & Hr & _).
  - exact demo_tst_ring.
  - split; [done|]. split; [|done]. by intros p ->%list_elem_of_singleton.
  - exact demo_signals.
  - by exists r, s'.
Defined.

(** C16: bounded waiting.  A task that can run and is the (i+1)-th behind the
    current one on the ring is entered after at most i+1 yields, whatever the
    other tasks' states are. *)
Theorem sched_bounded_waiting s l i z :
  ring s (CurrentTask s :: l) → signals_ok s → l !! i = Some z → task_runnable s z = true →
  ∃ n s', (1 ≤ n ≤ S i)%nat ∧ yields n s = Ret (tt, s') ∧ CurrentTask s' = z.
Proof.
  intros Hr Hs Hi Hz. destruct (yields_reach i s l z Hr Hs Hi Hz) as (n & s' & Hn & E & Hc & _). by exists n, s'.
Qed.

Lemma sched_bounded_waiting_witness :
  ∃ n s', (1 ≤ n ≤ 2)%nat ∧ yields n demo_tst = Ret (tt, s') ∧ CurrentTask s' = 3.
Proof. apply (sched_bounded_waiting demo_tst [2; 3] 1 3); [exact demo_tst_ring|exact demo_signals|done|done]. Defined.
