(* ===== verification/SysProc.v ===== *)
(** * Process and signal system calls

    [kernel/syscall/signal.c] and, of [kernel/syscall/proc.c], the calls that only
    touch tasks ([sys_fork] and [sys_execve] are in Fork.v and Exec.v).  A call that
    sleeps is given in two parts: up to the switch to another task, and what it
    does when its task is entered again.  The words and records a call reads or
    writes through a user pointer are arguments and results. *)
From Stdlib Require Import ZArith Lia.
From stdpp Require Import base gmap list strings.
From S2P Require Import Prelude ListHead TaskState Task Sched.
Open Scope Z_scope.
Open Scope u32_scope.

Definition WNOHANG : Z := 1.
Definition WUNTRACED : Z := 2.
Definition ESRCH : Z := 3.

(** ** kernel/syscall/signal.c *)

(** [inl r]: the call returns [r] at once; [inr r]: another task was entered. *)
Definition sys_wait4 (pid_ options : Z) : M tst (Z + resume_point) :=
  cur ← current;
  if (negb (Z.land options WNOHANG =? 0) || negb (Z.land options WUNTRACED =? 0))
     && (childcount cur =? 0)
  then mret (inl 0)
  else
    upd_current (set_sigwait SIGCHLD) ;;
    c ← gets CurrentTask;
    r ← task_sigwait c;
    mret (inr r).

(** [*status] and the result, once the waiting task runs again. *)
Definition sys_wait4_resumed : M tst (Z * Z) :=
  cur ← current;
  mret (sigchldexit cur, sigchldpid cur).

Definition sys_signal (signum handler : Z) : M tst Z :=
  c ← gets CurrentTask;
  task_signal c signum handler.

Definition sys_rt_sigsuspend : M tst resume_point :=
  c ← gets CurrentTask;
  task_sigwait c.
Definition sys_rt_sigsuspend_resumed : M tst Z := mret 0.

(** [oldact]: whether the pointer is not NULL; [act] is followed in any case. *)
Definition sys_rt_sigaction (signum : Z) (act : option sigaction) (oldact : bool) : M tst (option sigaction * Z) :=
  cur ← current;
  old ← (if oldact then a ← aget (sigact cur) signum; mret (Some a) else mret None);
  a ← need NullDeref act;
  l ← aset (sigact cur) signum a;
  upd_current (set_sigact l) ;;
  mret (old, 0).

(** ** kernel/syscall/proc.c *)

(** After this the task spins, with interrupts enabled, until it is preempted. *)
Definition sys_exit (status : Z) : M tst unit :=
  c ← gets CurrentTask;
  task_exit c status ;;
  intr_enable.

Definition sys_sched_yield : M tst resume_point := kern_sched_yield.
Definition sys_sched_yield_resumed : M tst Z := mret 0.

Definition sys_getppid : M tst Z := cur ← current; mret (ppid cur).
Definition sys_getpid : M tst Z := cur ← current; mret (pid cur).

Definition sys_getpgid (pid_ : Z) : M tst Z :=
  cur ← current;
  let pid_ := if pid_ =? 0 then pid cur else pid_ in
  p ← task_get pid_;
  if p =? NULL then set_errno_to ESRCH ;; mret (-1)
  else t ← get_task p; mret (pid t).

Definition sys_getpgrp : M tst Z := sys_getpgid 0.

Definition sys_setpgid (pid_ pgid_ : Z) : M tst Z :=
  cur ← current;
  let pid_ := if pid_ =? 0 then pid cur else pid_ in
  p ← task_get pid_;
  if p =? NULL then set_errno_to ESRCH ;; mret (-1)
  else
    t ← get_task p;
    let pgid_ := if pgid_ =? 0 then pid t else pgid_ in
    upd_task p (set_pgid pgid_) ;;
    mret 0.

(** ** Looking up tasks *)

Lemma first_with_pid_unique s l p t :
  p ≠ NULL → pids_distinct s l → (∀ q, q ∈ l → is_Some (tasks s !! q)) → p ∈ l → tasks s !! p = Some t →
  first_with_pid s (pid t) l = p.
Proof.
  intros Hp Hd Hall Hin Et.
  destruct (first_with_pid_cases s (pid t) l) as [[_ Hn]|[Hin' Hq]].
  - specialize (Hn p Hin). rewrite (has_pid_eq _ _ _ _ Et), Z.eqb_refl in Hn. done.
  - destruct (Hall _ Hin') as [tq Eq]. rewrite (has_pid_eq _ _ _ _ Eq) in Hq. apply Z.eqb_eq in Hq.
    by apply (Hd _ _ tq t).
Qed.

Lemma in_order (l : list Z) c p : p ∈ l ++ [c] ↔ p ∈ c :: l.
Proof. rewrite elem_of_app, list_elem_of_singleton, elem_of_cons. tauto. Qed.

Lemma task_get_found s l p t :
  ring s (CurrentTask s :: l) → pids_distinct s (CurrentTask s :: l) → p ∈ CurrentTask s :: l →
  tasks s !! p = Some t → task_get (pid t) s = Ret (p, s).
Proof.
  intros Hr Hd Hin Et. rewrite (task_get_eq s l) by done. do 2 f_equal.
  apply first_with_pid_unique; [by apply (ring_not_null _ _ _ Hr)|..|by apply in_order|done].
  - intros q1 q2 t1 t2 H1%in_order H2%in_order. by apply Hd.
  - intros q Hq%in_order. destruct (ring_task s _ q Hr Hq) as [tq ->]. by eexists.
Qed.

(** Changing a task but not its pid and links. *)
Section Update.
Context (s : tst) (p : Z) (f : task → task) (t : task).
Hypothesis Ht : tasks s !! p = Some t.
Hypothesis Hpid : pid (f t) = pid t.
Hypothesis Hn : list_next_of (f t) = list_next_of t.
Hypothesis Hv : list_prev_of (f t) = list_prev_of t.

Definition updated : tst := set_tasks (<[p := f t]> (tasks s)) s.

Lemma updated_ring l : ring s l → ring updated l.
Proof.
  apply ring_same_links. intros q tq Eq. unfold updated; cbn. destruct (decide (q = p)) as [->|].
  - rewrite lookup_insert_eq. eexists. split; [done|]. rewrite Ht in Eq. by injection Eq as <-.
  - rewrite lookup_insert_ne by done. by exists tq.
Qed.

Lemma updated_pids l : pids_distinct s l → pids_distinct updated l.
Proof.
  intros Hd q1 q2 t1 t2 H1 H2. unfold updated; cbn. intros E1 E2.
  assert (∀ q tq, <[p := f t]> (tasks s) !! q = Some tq → ∃ t0, tasks s !! q = Some t0 ∧ pid tq = pid t0) as K.
  { intros q tq. destruct (decide (q = p)) as [->|].
    - rewrite lookup_insert_eq. intros [= <-]. by exists t.
    - rewrite lookup_insert_ne by done. intros E. by exists tq. }
  destruct (K _ _ E1) as (u1 & F1 & ->), (K _ _ E2) as (u2 & F2 & ->). by apply (Hd q1 q2 u1 u2).
Qed.

Lemma updated_lookup q : tasks updated !! q = if decide (q = p) then Some (f t) else tasks s !! q.
Proof.
  unfold updated; cbn. destruct (decide (q = p)) as [->|]; [apply lookup_insert_eq|by rewrite lookup_insert_ne].
Qed.
End Update.

(** ** Leaving *)

(** The child that has exited, and its parent. *)
Definition exited (status : Z) (t : task) : task := set_sigpend SIGTERM (set_exitcode status (set_state TaskQuit t)).
Definition bereaved (c : task) (status : Z) (t : task) : task :=
  set_childcount (s32 (childcount t - 1)) (set_sigpend SIGCHLD (set_sigchldexit status (set_sigchldpid (pid c) t))).

Lemma sys_exit_ok s l p tc tp status :
  ring s (CurrentTask s :: l) → pids_distinct s (CurrentTask s :: l) →
  tasks s !! CurrentTask s = Some tc → p ∈ l → tasks s !! p = Some tp → ppid tc = pid tp →
  ∃ s', sys_exit status s = Ret (tt, s') ∧ CurrentTask s' = CurrentTask s ∧
    tasks s' = <[p := bereaved tc status tp]> (<[CurrentTask s := exited status tc]> (tasks s)) ∧
    klog s' = klog s ++ [TaskExited (pid tc) status].
Proof.
  intros Hr Hd Etc Hpl Etp Hpp. set (c := CurrentTask s) in *.
  assert (Hpc : p ≠ c) by (intros ->; apply ring_NoDup, NoDup_cons in Hr as [? _]; done).
  assert (Hpn : p ≠ NULL) by (apply (ring_not_null _ _ _ Hr); by right).
  set (s1 := updated s c (exited status) tc).
  assert (E1 : (upd_task c (set_state TaskQuit) ;; upd_task c (set_exitcode status) ;; task_signal_raise c SIGTERM) s = Ret (tt, s1)).
  { rewrite (bind_ret _ _ _ _ _ (upd_task_ok s c _ tc Etc)).
    rewrite (bind_ret _ _ _ _ _ (upd_task_again s c _ _ _)). unfold task_signal_raise.
    by rewrite upd_task_again. }
  assert (Etc1 : tasks s1 !! c = Some (exited status tc)).
  { unfold s1. rewrite updated_lookup. by rewrite decide_True. }
  assert (Etp1 : tasks s1 !! p = Some tp).
  { unfold s1. rewrite updated_lookup. by rewrite decide_False. }
  assert (Hr1 : ring s1 (c :: l)) by (by apply updated_ring).
  assert (Hg : task_get (ppid (exited status tc)) s1 = Ret (p, s1)).
  { change (ppid (exited status tc)) with (ppid tc). rewrite Hpp. apply (task_get_found s1 l); try done.
    - by apply updated_pids.
    - by right. }
  set (s2 := set_tasks (<[p := set_sigchldpid (pid tc) tp]> (tasks s1)) s1).
  assert (Etc2 : tasks s2 !! c = Some (exited status tc)) by (unfold s2; cbn; by rewrite lookup_insert_ne).
  exists (set_cpu (mkCpu (r_esp (cpu s)) (r_ebp (cpu s)) (r_cr3 (cpu s)) true)
    (set_klog (klog s ++ [TaskExited (pid tc) status]) (set_tasks (<[p := bereaved tc status tp]> (tasks s1)) s1))).
  split; [|done].
  unfold sys_exit. rewrite (bind_ret _ _ s c s) by done. unfold task_exit.
  apply bind_inv in E1 as ([] & sa & Ea & E1). apply bind_inv in E1 as ([] & sb & Eb & E1).
  rewrite (bind_ret _ _ s tt (set_klog (klog s ++ [TaskExited (pid tc) status]) (set_tasks (<[p := bereaved tc status tp]> (tasks s1)) s1)));
    [done|].
  rewrite (bind_ret _ _ _ _ _ Ea), (bind_ret _ _ _ _ _ Eb), (bind_ret _ _ _ _ _ E1).
  rewrite (bind_ret _ _ _ _ _ (get_task_ok s1 c _ Etc1)), (bind_ret _ _ _ _ _ Hg).
  destruct (Z.eqb_spec p NULL); [done|].
  rewrite (bind_ret _ _ s1 tt (set_tasks (<[p := bereaved tc status tp]> (tasks s1)) s1)).
  - assert (Etc3 : tasks (set_tasks (<[p := bereaved tc status tp]> (tasks s1)) s1) !! c = Some (exited status tc))
      by (cbn; by rewrite lookup_insert_ne).
    by rewrite (bind_ret _ _ _ _ _ (get_task_ok _ c _ Etc3)).
  - rewrite (bind_ret _ _ _ _ _ (upd_task_ok s1 p _ tp Etp1)). fold s2.
    rewrite (bind_ret _ _ _ _ _ (get_task_ok s2 c _ Etc2)).
    unfold s2, task_signal_raise.
    rewrite (bind_ret _ _ _ _ _ (upd_task_again s1 p _ _ _)), (bind_ret _ _ _ _ _ (upd_task_again s1 p _ _ _)).
    by rewrite upd_task_again.
Qed.

(** ** Properties *)

(** Task 3 (pid 2) runs; its parent, task 1 (pid 0), waits in [sys_wait4]. *)
Definition demo_exit : tst :=
  set_CurrentTask 3 (set_tasks (<[1 := set_sigwait SIGCHLD (demo_task 0 TaskSigWait 2 3 0)]>
    (<[2 := demo_task 1 TaskReady 3 1 0]> (<[3 := demo_task 2 TaskReady 1 2 0]> ∅))) demo_tst).

Lemma demo_exit_lookup p t : tasks demo_exit !! p = Some t →
  (p = 1 ∧ t = set_sigwait SIGCHLD (demo_task 0 TaskSigWait 2 3 0)) ∨ (p = 2 ∧ t = demo_task 1 TaskReady 3 1 0) ∨
  (p = 3 ∧ t = demo_task 2 TaskReady 1 2 0).
Proof.
  cbn. intros E. apply lookup_insert_Some in E as [[<- <-]|[_ E]]; [by left|].
  apply lookup_insert_Some in E as [[<- <-]|[_ E]]; [right; by left|].
  apply lookup_insert_Some in E as [[<- <-]|[_ E]]; [right; by right|done].
Qed.

(** A child's exit reaches the waiting parent.  When the current task exits
    with a status and its parent, the (i+1)-th behind it on the ring, sleeps in
    [sys_wait4], then after at most i+1 task switches the parent runs and
    [sys_wait4] returns the child's pid and the status. *)
Theorem exit_wakes_waiting_parent s l i p tc tp status :
  ring s (CurrentTask s :: l) → pids_distinct s (CurrentTask s :: l) → signals_ok s →
  SIGTERM < Z.of_nat (length (sigact tc)) → SIGCHLD < Z.of_nat (length (sigact tp)) →
  tasks s !! CurrentTask s = Some tc → l !! i = Some p → tasks s !! p = Some tp → ppid tc = pid tp →
  state tp = TaskSigWait → sigwait tp = SIGCHLD →
  ∃ s1 n s2, sys_exit status s = Ret (tt, s1) ∧ (1 ≤ n ≤ S i)%nat ∧ yields n s1 = Ret (tt, s2) ∧
    CurrentTask s2 = p ∧ sys_wait4_resumed s2 = Ret ((status, pid tc), s2).
Proof.
  intros Hr Hd Hsig Hlc Hlp Etc Hi Etp Hpp Hst Hw.
  assert (Hpl : p ∈ l) by (by eapply list_elem_of_lookup_2).
  destruct (sys_exit_ok s l p tc tp status Hr Hd Etc Hpl Etp Hpp) as (s1 & E1 & Hc1 & Ht1 & _).
  assert (Hpc : p ≠ CurrentTask s) by (intros ->; apply ring_NoDup, NoDup_cons in Hr as [? _]; done).
  assert (Ep1 : tasks s1 !! p = Some (bereaved tc status tp)) by (rewrite Ht1; apply lookup_insert_eq).
  destruct (yields_reach i s1 l p) as (n & s2 & Hn & E2 & Hc2 & t & t' & Et & Et' & Hdata).
  - rewrite Hc1. revert Hr. apply ring_same_links. intros q tq Eq. rewrite Ht1.
    destruct (decide (q = p)) as [->|Hqp].
    + rewrite lookup_insert_eq. eexists. split; [done|]. rewrite Etp in Eq. by injection Eq as <-.
    + rewrite lookup_insert_ne by done. destruct (decide (q = CurrentTask s)) as [->|Hqc].
      * rewrite lookup_insert_eq. eexists. split; [done|]. rewrite Etc in Eq. by injection Eq as <-.
      * rewrite lookup_insert_ne by done. by exists tq.
  - intros q tq. rewrite Ht1. destruct (decide (q = p)) as [->|Hqp].
    + rewrite lookup_insert_eq. intros [= <-]. split; [done|exact Hlp].
    + rewrite lookup_insert_ne by done. destruct (decide (q = CurrentTask s)) as [->|Hqc].
      * rewrite lookup_insert_eq. intros [= <-]. split; [done|exact Hlc].
      * rewrite lookup_insert_ne by done. apply Hsig.
  - done.
  - unfold task_runnable. rewrite Ep1. unfold runnable, wakeable. cbn. rewrite Hst, Hw. done.
  - exists s1, n, s2. do 4 (split; [done|]). unfold sys_wait4_resumed.
    assert (Ecur : tasks s2 !! CurrentTask s2 = Some t') by (by rewrite Hc2).
    rewrite (bind_ret _ _ _ _ _ (current_ok s2 t' Ecur)).
    rewrite Ep1 in Et. injection Et as <-. unfold proc_data in Hdata. injection Hdata as _ _ _ _ _ _ _ _ _ _ _ _ _ _ Ha Hb.
    unfold mret, M_ret, mret_M. by rewrite Ha, Hb.
Qed.

Lemma exit_wakes_waiting_parent_witness :
  ∃ s1 n s2, sys_exit 42 demo_exit = Ret (tt, s1) ∧ (1 ≤ n ≤ 1)%nat ∧ yields n s1 = Ret (tt, s2) ∧
    CurrentTask s2 = 1 ∧ sys_wait4_resumed s2 = Ret ((42, 2), s2).
Proof.
  apply (exit_wakes_waiting_parent demo_exit [1; 2] 0 1 (demo_task 2 TaskReady 1 2 0)
    (set_sigwait SIGCHLD (demo_task 0 TaskSigWait 2 3 0)) 42); try done.
  - split; [done|]. split; apply (bool_decide_unpack _); reflexivity.
  - intros p q tp tq _ _ Ep Eq.
    destruct (demo_exit_lookup _ _ Ep) as [[-> ->]|[[-> ->]|[-> ->]]];
      destruct (demo_exit_lookup _ _ Eq) as [[-> ->]|[[-> ->]|[-> ->]]]; done.
  - intros p t E. by destruct (demo_exit_lookup _ _ E) as [[-> ->]|[[-> ->]|[-> ->]]].
Defined.

(** [sys_getpgid] and [sys_getpgrp] answer with a pid, not with a process
    group: for any task on the ring, whatever group [sys_setpgid] put it in, the
    result is the pid that was asked for. *)
Theorem sys_getpgid_returns_pid s l p t g :
  ring s (CurrentTask s :: l) → pids_distinct s (CurrentTask s :: l) → p ∈ CurrentTask s :: l →
  tasks s !! p = Some t → pid t ≠ 0 → g ≠ 0 →
  ∃ s', sys_setpgid (pid t) g s = Ret (0, s') ∧ tasks s' !! p = Some (set_pgid g t) ∧
        sys_getpgid (pid t) s' = Ret (pid t, s').
Proof.
  intros Hr Hd Hin Et Hn Hg.
  destruct (ring_task s _ (CurrentTask s) Hr) as [tc Etc]; [left|].
  set (s' := updated s p (set_pgid g) t).
  assert (Hr' : ring s' (CurrentTask s' :: l)) by (by apply updated_ring).
  assert (Hd' : pids_distinct s' (CurrentTask s' :: l)) by (by apply updated_pids).
  assert (Et' : tasks s' !! p = Some (set_pgid g t)) by (unfold s'; rewrite updated_lookup; by rewrite decide_True).
  destruct (ring_task s' _ (CurrentTask s') Hr') as [tc' Etc']; [left|].
  pose proof (ring_not_null _ _ _ Hr Hin) as Hpn.
  exists s'. split; [|split; [done|]].
  - unfold sys_setpgid. rewrite (bind_ret _ _ _ _ _ (current_ok s tc Etc)). cbv zeta.
    destruct (Z.eqb_spec (pid t) 0); [done|].
    rewrite (bind_ret _ _ _ _ _ (task_get_found s l p t Hr Hd Hin Et)).
    destruct (Z.eqb_spec p NULL); [done|]. rewrite (bind_ret _ _ _ _ _ (get_task_ok s p t Et)).
    destruct (Z.eqb_spec g 0); [done|]. by rewrite (bind_ret _ _ _ _ _ (upd_task_ok s p _ t Et)).
  - unfold sys_getpgid. rewrite (bind_ret _ _ _ _ _ (current_ok s' tc' Etc')). cbv zeta.
    destruct (Z.eqb_spec (pid t) 0); [done|].
    change (pid t) with (pid (set_pgid g t)).
    rewrite (bind_ret _ _ _ _ _ (task_get_found s' l p _ Hr' Hd' Hin Et')).
    destruct (Z.eqb_spec p NULL); [done|]. by rewrite (bind_ret _ _ _ _ _ (get_task_ok s' p _ Et')).
Qed.

Lemma sys_getpgid_returns_pid_witness :
  ∃ s', sys_setpgid 2 9 demo_exit = Ret (0, s') ∧ sys_getpgid 2 s' = Ret (2, s').
Proof.
  destruct (sys_getpgid_returns_pid demo_exit [1; 2] 3 (demo_task 2 TaskReady 1 2 0) 9) as (s' & E & _ & E'); try done.
  - split; [done|]. split; apply (bool_decide_unpack _); reflexivity.
  - intros p q tp tq _ _ Ep Eq.
    destruct (demo_exit_lookup _ _ Ep) as [[-> ->]|[[-> ->]|[-> ->]]];
      destruct (demo_exit_lookup _ _ Eq) as [[-> ->]|[[-> ->]|[-> ->]]]; done.
  - left.
  - by exists s'.
Defined.
