(* ===== verification/Fdio.v ===== *)
(** * File descriptors

    [kernel/io/fdio.c]: the descriptor table of the current task.  A table is a
    heap object of [fdcap] pointers to descriptors (0 for none); descriptors are
    heap objects with a device and a reference count, shared between the tables
    of forked tasks.  [fd_t] is a 16-bit type. *)
From Stdlib Require Import ZArith Lia.
From stdpp Require Import base gmap list list_numbers strings.
From S2P Require Import Prelude ListHead TaskState Task.
Open Scope Z_scope.
Open Scope u32_scope.

(** ** Operations *)

Definition FD_MAX : Z := 0xFFFF.

Definition put_fd_table (p : Z) (tbl : list Z) : M tst unit :=
  modify (λ s, set_fdtbls (<[p := tbl]> (fdtbls s)) s).
Definition get_fdescr (d : Z) : M tst fdescr :=
  s ← getS; need (ptr_fault d) (fdescrs s !! d).
Definition put_fdescr (d : Z) (x : fdescr) : M tst unit :=
  modify (λ s, set_fdescrs (<[d := x]> (fdescrs s)) s).
Definition free_fdescr (d : Z) : M tst unit :=
  modify (λ s, set_fdescrs (delete d (fdescrs s)) s).

(** The table of the current task: reading and writing an entry. *)
Definition fdtbl_get (fd : Z) : M tst Z :=
  cur ← current; tbl ← fd_table (fdtbl cur); aget tbl fd.
Definition fdtbl_set (fd d : Z) : M tst unit :=
  cur ← current; tbl ← fd_table (fdtbl cur); tbl' ← aset tbl fd d; put_fd_table (fdtbl cur) tbl'.

(** [fdnext] is a 16-bit counter: a search that has not ended after [2 ^ 16] steps
    has seen every value. *)
Definition fd_alloc : M tst Z :=
  while 65537
    (λ _ : unit,
       cur ← current;
       d ← fdtbl_get (fdnext cur);
       if negb (d =? 0) then
         upd_current (set_fdnext (u16 (fdnext cur + 1))) ;; mret (inl tt)
       else mret (inr tt)) tt ;;
  cur ← current;
  (if fdcap cur <=? fdnext cur then
     let oldcap := fdcap cur in
     let newcap := u16 (fdcap cur * 2) in
     upd_current (set_fdcap newcap) ;;
     old ← fd_table (fdtbl cur);
     tblp ← new_ptr;
     modify (λ s, set_fdtbls (delete (fdtbl cur) (fdtbls s)) s) ;;
     (* the memset of the new part has a huge length when the capacity wrapped *)
     (if newcap <? oldcap then crash OutOfBounds else mret tt) ;;
     put_fd_table tblp (take (Z.to_nat oldcap) old ++ replicate (Z.to_nat (newcap - oldcap)) 0) ;;
     upd_current (set_fdtbl tblp)
   else mret tt) ;;
  cur ← current;
  mret (fdnext cur).

Definition fd_open (device : Z) : M tst Z :=
  fd ← fd_alloc;
  descr ← new_ptr;
  put_fdescr descr (mkFdescr device 1) ;;
  fdtbl_set fd descr ;;
  mret fd.

Definition fd_lookup (fd : Z) : M tst Z := fdtbl_get fd.

Definition fd_dupfd (from to : Z) : M tst Z :=
  d ← fdtbl_get from;
  if d =? NULL then set_errno_to EBADF ;; mret (-1)
  else
    to ← while 65537
      (λ to, d ← fdtbl_get to;
             if negb (d =? NULL) then mret (inl (u16 (to + 1))) else mret (inr to)) to;
    d ← fdtbl_get from;
    fdtbl_set to d ;;
    mret 0.

Definition fd_close (fd : Z) : M tst Z :=
  d ← fdtbl_get fd;
  if d =? NULL then set_errno_to EBADF ;; mret (-1)
  else
    x ← get_fdescr d;
    put_fdescr d (mkFdescr (dev x) (s32 (refs x - 1))) ;;
    x ← get_fdescr d;
    (if refs x =? 0 then free_fdescr d else mret tt) ;;
    fdtbl_set fd 0 ;;
    mret 0.

Definition fdio_tbl_init : M tst bool :=
  upd_current (set_fdnext 0) ;;
  upd_current (set_fdcap 16) ;;
  tblp ← new_ptr;
  upd_current (set_fdtbl tblp) ;;
  put_fd_table tblp (replicate 16 0) ;;
  mret true.

(** ** Specification *)

(** The current task has a table of [fdcap] entries. *)
Record fd_ok (s : tst) (cur : task) (tbl : list Z) : Prop := {
  fo_cur : tasks s !! CurrentTask s = Some cur;
  fo_tbl : fdtbls s !! fdtbl cur = Some tbl;
  fo_cap : Z.of_nat (length tbl) = fdcap cur;
  fo_max : 0 ≤ fdnext cur ∧ fdcap cur < 2 ^ 16;
  fo_heap : fdtbl cur < heap s
}.

(** The number of entries of a table that lead to [d]. *)
Definition references (d : Z) (tbl : list Z) : Z := Z.of_nat (count_occ Z.eq_dec tbl d).

Lemma fd_table_ok s p tbl : fdtbls s !! p = Some tbl → fd_table p s = Ret (tbl, s).
Proof. intros E. unfold fd_table. mred. by rewrite E. Qed.

Lemma fdtbl_get_ok s cur tbl fd d :
  fd_ok s cur tbl → lookupZ tbl fd = Some d → fdtbl_get fd s = Ret (d, s).
Proof.
  intros [Hc Ht _ _ _] Hd. unfold fdtbl_get. rewrite (bind_ret _ _ _ _ _ (current_ok s cur Hc)).
  rewrite (bind_ret _ _ _ _ _ (fd_table_ok s _ tbl Ht)). by apply aget_Some.
Qed.

Lemma fdtbl_get_oob s cur tbl fd :
  fd_ok s cur tbl → fdcap cur ≤ fd → fdtbl_get fd s = Fault OutOfBounds.
Proof.
  intros [Hc Ht Hl _ _] Hd. unfold fdtbl_get. rewrite (bind_ret _ _ _ _ _ (current_ok s cur Hc)).
  rewrite (bind_ret _ _ _ _ _ (fd_table_ok s _ tbl Ht)). apply aget_oob. lia.
Qed.

Definition with_entry (p : Z) (tbl : list Z) (s : tst) : tst := set_fdtbls (<[p := tbl]> (fdtbls s)) s.

Lemma fdtbl_set_ok s cur tbl fd d :
  fd_ok s cur tbl → 0 ≤ fd < fdcap cur →
  fdtbl_set fd d s = Ret (tt, with_entry (fdtbl cur) (insertZ fd d tbl) s) ∧
  fd_ok (with_entry (fdtbl cur) (insertZ fd d tbl) s) cur (insertZ fd d tbl).
Proof.
  intros [Hc Ht Hl Hm Hh] Hd. split.
  - unfold fdtbl_set. rewrite (bind_ret _ _ _ _ _ (current_ok s cur Hc)).
    rewrite (bind_ret _ _ _ _ _ (fd_table_ok s _ tbl Ht)). by rewrite (bind_ret _ _ s _ s) by (apply aset_ok; lia).
  - split; try done; [cbn; apply lookup_insert_eq|by rewrite length_insertZ].
Qed.

(** ** Searching for a free entry *)

(** Moving [fdnext] of the current task. *)
Definition at_next (n : Z) (cur : task) (s : tst) : tst :=
  set_tasks (<[CurrentTask s := set_fdnext n cur]> (tasks s)) s.

Lemma at_next_ok s cur tbl n : fd_ok s cur tbl → 0 ≤ n → fd_ok (at_next n cur s) (set_fdnext n cur) tbl.
Proof. intros [Hc Ht Hl Hm Hh] Hn. split; try done; [apply lookup_insert_eq|cbn; lia]. Qed.

Lemma at_next_self s cur tbl : fd_ok s cur tbl → at_next (fdnext cur) cur s = s.
Proof.
  intros [Hc _ _ _ _]. unfold at_next. replace (set_fdnext (fdnext cur) cur) with cur by (by destruct cur).
  rewrite insert_id by done. by destruct s.
Qed.

Lemma at_next_again s cur n m : at_next m (set_fdnext n cur) (at_next n cur s) = at_next m cur s.
Proof. unfold at_next; cbn. by rewrite insert_insert_eq. Qed.

(** The body of the loop in [fd_alloc]. *)
Definition alloc_step : unit → M tst (unit + unit) := λ _,
  cur ← current;
  d ← fdtbl_get (fdnext cur);
  if negb (d =? 0) then
    upd_current (set_fdnext (u16 (fdnext cur + 1))) ;; mret (inl tt)
  else mret (inr tt).

Lemma alloc_step_used s cur tbl d :
  fd_ok s cur tbl → lookupZ tbl (fdnext cur) = Some d → d ≠ 0 →
  alloc_step tt s = Ret (inl tt, at_next (fdnext cur + 1) cur s).
Proof.
  intros Hok Hd Hn. pose proof Hok as [Hc Ht Hl Hm Hh]. pose proof (lookupZ_lt _ _ _ Hd).
  unfold alloc_step. rewrite (bind_ret _ _ _ _ _ (current_ok s cur Hc)).
  rewrite (bind_ret _ _ _ _ _ (fdtbl_get_ok s cur tbl _ d Hok Hd)).
  destruct (Z.eqb_spec d 0); [done|]. cbn [negb].
  rewrite (bind_ret _ _ _ _ _ (upd_current_ok s _ cur Hc)). rewrite u16_small by lia. done.
Qed.

Lemma alloc_step_free s cur tbl :
  fd_ok s cur tbl → lookupZ tbl (fdnext cur) = Some 0 → alloc_step tt s = Ret (inr tt, s).
Proof.
  intros Hok Hd. pose proof Hok as [Hc Ht Hl Hm Hh].
  unfold alloc_step. rewrite (bind_ret _ _ _ _ _ (current_ok s cur Hc)).
  by rewrite (bind_ret _ _ _ _ _ (fdtbl_get_ok s cur tbl _ 0 Hok Hd)).
Qed.

(** Passing over [n] entries in use. *)
Lemma alloc_steps n s cur tbl :
  fd_ok s cur tbl →
  (∀ i, fdnext cur ≤ i < fdnext cur + Z.of_nat n → ∃ d, lookupZ tbl i = Some d ∧ d ≠ 0) →
  run_nat n alloc_step tt s = Ret (inl tt, at_next (fdnext cur + Z.of_nat n) cur s).
Proof.
  revert s cur. induction n as [|n IH]; intros s cur Hok Hall.
  - rewrite Z.add_0_r. by rewrite (at_next_self s cur tbl).
  - destruct (Hall (fdnext cur)) as (d & Hd & Hn); [lia|].
    cbn [run_nat]. rewrite (bind_ret _ _ _ _ _ (alloc_step_used s cur tbl d Hok Hd Hn)).
    pose proof Hok as [_ _ _ Hm _].
    rewrite (IH _ (set_fdnext (fdnext cur + 1) cur)).
    + rewrite at_next_again. cbn [fdnext set_fdnext]. do 3 f_equal. lia.
    + apply at_next_ok; [done|lia].
    + cbn [fdnext set_fdnext]. intros i Hi. apply Hall. lia.
Qed.

(** [fd_alloc] when there is a free entry from [fdnext] on. *)
Lemma fd_alloc_ok s cur tbl fd :
  fd_ok s cur tbl → fdnext cur ≤ fd → lookupZ tbl fd = Some 0 →
  (∀ i, fdnext cur ≤ i < fd → ∃ d, lookupZ tbl i = Some d ∧ d ≠ 0) →
  fd_alloc s = Ret (fd, at_next fd cur s) ∧ fd_ok (at_next fd cur s) (set_fdnext fd cur) tbl.
Proof.
  intros Hok Hfd Hz Hall. pose proof (lookupZ_lt _ _ _ Hz) as Hlt. pose proof Hok as [Hc Ht Hl Hm Hh].
  assert (Hok' : fd_ok (at_next fd cur s) (set_fdnext fd cur) tbl) by (apply at_next_ok; [done|lia]).
  split; [|done]. unfold fd_alloc. fold alloc_step.
  assert (Er : run_nat (Z.to_nat (fd - fdnext cur)) alloc_step tt s = Ret (inl tt, at_next fd cur s)).
  { rewrite (alloc_steps _ s cur tbl Hok); [by rewrite Z2Nat.id, Z.add_sub_assoc, Z.add_simpl_l by lia|].
    intros i Hi. apply Hall. lia. }
  rewrite (bind_ret _ _ _ _ _ (while_steps_leave _ 65537 _ _ _ _ _ _ _ Er ltac:(lia) (alloc_step_free _ _ _ Hok' Hz))).
  rewrite (bind_ret _ _ _ _ _ (current_ok _ _ (fo_cur _ _ _ Hok'))). cbn [fdcap fdnext set_fdnext].
  destruct (Z.leb_spec (fdcap cur) fd); [lia|].
  rewrite (bind_ret _ _ (at_next fd cur s) tt (at_next fd cur s)) by done.
  by rewrite (bind_ret _ _ _ _ _ (current_ok _ _ (fo_cur _ _ _ Hok'))).
Qed.

(** ** Sharing descriptors *)

Lemma references_snoc d l x : references d (l ++ [x]) = references d l + if Z.eq_dec x d then 1 else 0.
Proof.
  unfold references. rewrite count_occ_app. cbn [count_occ]. destruct (Z.eq_dec x d); lia.
Qed.

Lemma share_fds_ok tbl n s :
  0 ≤ n ≤ Z.of_nat (length tbl) → (∀ d, d ∈ tbl → d ≠ 0 → is_Some (fdescrs s !! d)) →
  ∃ m, share_fds tbl n s = Ret (tt, set_fdescrs m s) ∧
    ∀ d x, d ≠ 0 → fdescrs s !! d = Some x →
      m !! d = Some (mkFdescr (dev x) (refs x + references d (take (Z.to_nat n) tbl))).
Proof.
  intros Hn Hall. unfold share_fds.
  edestruct (forM_count (λ i, d ← aget tbl i;
          if negb (d =? 0) then
            s ← getS;
            fd ← need (ptr_fault d) (fdescrs s !! d);
            modify (λ s, set_fdescrs (<[d := mkFdescr (dev fd) (refs fd + 1)]> (fdescrs s)) s)
          else mret tt)
    (λ i s', ∃ m, s' = set_fdescrs m s ∧ ∀ d x, d ≠ 0 → fdescrs s !! d = Some x →
       m !! d = Some (mkFdescr (dev x) (refs x + references d (take (Z.to_nat i) tbl)))) n s)
    as (s' & E & m & -> & Hm); [lia|..].
  - intros i s1 Hi (m & -> & Hm). destruct (lookupZ_is_Some tbl i) as [d Hd]; [lia|].
    rewrite (bind_ret _ _ _ _ _ (aget_Some tbl i d _ Hd)).
    assert (Hd' : tbl !! Z.to_nat i = Some d).
    { unfold lookupZ in Hd. by destruct (0 <=? i). }
    assert (Et : take (Z.to_nat (i + 1)) tbl = take (Z.to_nat i) tbl ++ [d]).
    { replace (Z.to_nat (i + 1)) with (S (Z.to_nat i)) by lia. by apply take_S_r. }
    destruct (Z.eqb_spec d 0) as [->|Hnz]; cbn [negb].
    + eexists. split; [done|]. exists m. split; [done|]. intros d x Hd0 Ex. rewrite (Hm d x Hd0 Ex).
      do 2 f_equal. rewrite Et, references_snoc. destruct (Z.eq_dec 0 d); [congruence|lia].
    + destruct (Hall d) as [x Ex]; [by eapply list_elem_of_lookup_2|done|].
      rewrite (bind_ret _ _ (set_fdescrs m s) (set_fdescrs m s) (set_fdescrs m s)) by done.
      cbn [fdescrs set_fdescrs]. rewrite (Hm d x Hnz Ex). eexists. split; [done|].
      eexists. split; [done|]. intros d' x' Hd0 Ex'. cbn [fdescrs set_fdescrs].
      rewrite Et, references_snoc. destruct (Z.eq_dec d d') as [->|Hne].
      * rewrite lookup_insert_eq. cbn [dev refs]. rewrite Ex in Ex'. injection Ex' as ->. do 2 f_equal. lia.
      * rewrite lookup_insert_ne by done. rewrite (Hm d' x' Hd0 Ex'). do 2 f_equal. lia.
  - exists (fdescrs s). split; [by destruct s|]. intros d x _ Ex. rewrite Ex. f_equal. destruct x as [dv r].
    change (references d (take (Z.to_nat 0) tbl)) with 0. cbn [dev refs]. by rewrite Z.add_0_r.
  - by exists m.
Qed.

(** ** Cloning a task *)

Lemma new_ptr_ok s : new_ptr s = Ret (heap s, set_heap (heap s + 1) s).
Proof. done. Qed.

Lemma task_clone_ok s cur tbl a :
  fd_ok s cur tbl → CurrentTask s < heap s → fdnext cur ≤ fdcap cur →
  (∀ d, d ∈ tbl → d ≠ 0 → is_Some (fdescrs s !! d)) →
  ∃ s' t, task_clone a s = Ret (heap s, s') ∧ (CurrentTask s' = CurrentTask s ∧ cpu s' = cpu s ∧ heap s' = heap s + 2) ∧
    tasks s' = <[heap s := t]> (<[CurrentTask s := set_childcount (s32 (childcount cur + 1)) cur]> (tasks s)) ∧
    (pid t = next_pid s ∧ ppid t = pid cur ∧ childcount t = 0 ∧ state t = TaskReady ∧ brk t = brk cur ∧
     mmapbrk t = mmapbrk cur ∧ sid t = sid cur ∧ pgid t = pgid cur ∧ sigact t = sigact cur ∧
     cwd t = take (Z.to_nat PATH_MAX) (cwd cur) ∧ fdcap t = fdcap cur ∧ fdnext t = fdnext cur ∧ sigpend t = sigpend cur ∧ sigwait t = sigwait cur) ∧
    fdtbls s' !! fdtbl t = Some tbl ∧ fdtbls s' !! fdtbl cur = Some tbl ∧ fdtbl t ≠ fdtbl cur ∧
    next_pid s' = s32 (next_pid s + 1) ∧
    ∀ d x, d ≠ 0 → fdescrs s !! d = Some x →
      fdescrs s' !! d = Some (mkFdescr (dev x) (refs x + references d (take (Z.to_nat (fdnext cur)) tbl))).
Proof.
  intros [Hc Ht Hl Hm Hh] Hcur Hn Hall.
  set (t := mkTask (next_pid s) (pid cur) 0 (brk cur) TaskReady NULL NULL (fdnext cur) (fdcap cur) NULL 0
             (sid cur) (pgid cur) (mkArch 0 0 0) (strncpy_path (cwd cur)) (mmapbrk cur) (sigset cur)
             (sigact cur) (sigpend cur) (sigwait cur) 0 0 InEnter).
  set (s1 := set_next_pid (s32 (next_pid s + 1)) (set_heap (heap s + 1) s)).
  set (s2 := set_tasks (<[CurrentTask s := set_childcount (s32 (childcount cur + 1)) cur]> (tasks s)) s1).
  set (s3 := set_heap (heap s + 1 + 1) s2).
  set (s4 := set_tasks (<[heap s := set_fdtbl (heap s + 1) t]> (tasks s2))
               (set_fdtbls (<[heap s + 1 := tbl]> (fdtbls s)) s3)).
  destruct (share_fds_ok tbl (fdnext cur) s4) as (m & E & Hr); [lia|done|].
  exists (set_fdescrs m s4), (set_fdtbl (heap s + 1) t). split.
  - unfold task_clone. rewrite (bind_ret _ _ _ _ _ (new_ptr_ok s)).
    rewrite (bind_ret _ _ _ cur (set_heap (heap s + 1) s)) by (by apply current_ok).
    rewrite (bind_ret _ _ _ (next_pid s) s1) by done. cbv zeta.
    rewrite (bind_ret _ _ s1 tt s2) by (by rewrite (upd_current_ok s1 _ cur)).
    rewrite (bind_ret _ _ _ _ _ (new_ptr_ok s2)). fold s3. 
    rewrite (bind_ret _ _ _ _ _ (fd_table_ok s3 (fdtbl cur) tbl Ht)).
    rewrite (bind_ret _ _ s3 tt s3) by (by destruct (Z.ltb_spec (Z.of_nat (length tbl)) (fdcap cur)); [lia|]).
    rewrite (take_ge tbl) by lia.
    rewrite (bind_ret _ _ s3 tt (set_fdtbls (<[heap s + 1 := tbl]> (fdtbls s)) s3)) by done.
    rewrite (bind_ret _ _ _ tt s4) by done. by rewrite (bind_ret _ _ _ _ _ E).
  - split; [split; [done|split; [done|cbn; lia]]|]. split; [done|]. split; [by split_and!|]. cbn [fdtbl set_fdtbl]. split; [apply lookup_insert_eq|].
    split; [cbn; by rewrite lookup_insert_ne by lia|]. split; [lia|]. split; [done|].
    intros d x Hd Ex. by apply Hr.
Qed.

(** What [fd_open] leaves behind. *)
Definition opened_state (fd device : Z) (cur : task) (tbl : list Z) (s : tst) : tst :=
  with_entry (fdtbl cur) (insertZ fd (heap s) tbl)
    (set_fdescrs (<[heap s := mkFdescr device 1]> (fdescrs s)) (set_heap (heap s + 1) (at_next fd cur s))).

Lemma fd_open_ok s cur tbl fd device :
  fd_ok s cur tbl → fdnext cur ≤ fd → lookupZ tbl fd = Some 0 →
  (∀ i, fdnext cur ≤ i < fd → ∃ d, lookupZ tbl i = Some d ∧ d ≠ 0) →
  fd_open device s = Ret (fd, opened_state fd device cur tbl s) ∧
  fd_ok (opened_state fd device cur tbl s) (set_fdnext fd cur) (insertZ fd (heap s) tbl).
Proof.
  intros Hok Hfd Hz Hall. pose proof (lookupZ_lt _ _ _ Hz) as Hlt.
  destruct (fd_alloc_ok s cur tbl fd Hok Hfd Hz Hall) as [E Hok1]. set (s1 := at_next fd cur s) in *.
  set (cur' := set_fdnext fd cur) in *.
  set (s2 := set_fdescrs (<[heap s := mkFdescr device 1]> (fdescrs s)) (set_heap (heap s + 1) s1)).
  assert (Hok2 : fd_ok s2 cur' tbl) by (destruct Hok1 as [Hc Ht Hl Hm Hh]; split; try done; cbn in *; lia).
  assert (Hcap : 0 ≤ fd < fdcap cur') by (destruct Hok1 as [_ _ Hl _ _]; lia).
  destruct (fdtbl_set_ok s2 cur' tbl fd (heap s) Hok2 Hcap) as [E3 Hok3]. split; [|exact Hok3].
  unfold fd_open. rewrite (bind_ret _ _ _ _ _ E). rewrite (bind_ret _ _ _ _ _ (new_ptr_ok s1)).
  rewrite (bind_ret _ _ _ tt s2) by done. by rewrite (bind_ret _ _ _ _ _ E3).
Qed.

(** Closing a descriptor drops a reference and frees the entry. *)
Lemma fd_close_ok s cur tbl fd d dv r :
  fd_ok s cur tbl → lookupZ tbl fd = Some d → d ≠ NULL → fdescrs s !! d = Some (mkFdescr dv r) →
  let m := if s32 (r - 1) =? 0 then delete d (fdescrs s) else <[d := mkFdescr dv (s32 (r - 1))]> (fdescrs s) in
  fd_close fd s = Ret (0, with_entry (fdtbl cur) (insertZ fd 0 tbl) (set_fdescrs m s)) ∧
  fd_ok (with_entry (fdtbl cur) (insertZ fd 0 tbl) (set_fdescrs m s)) cur (insertZ fd 0 tbl).
Proof.
  intros Hok Hd Hn Ed m. pose proof (lookupZ_lt _ _ _ Hd) as Hlt.
  assert (Hcap : 0 ≤ fd < fdcap cur) by (destruct Hok as [_ _ Hl _ _]; lia).
  assert (Hok' : fd_ok (set_fdescrs m s) cur tbl) by (destruct Hok; by split).
  destruct (fdtbl_set_ok _ cur _ fd 0 Hok' Hcap) as [E6 Hok6]. split; [|exact Hok6].
  unfold fd_close. rewrite (bind_ret _ _ _ _ _ (fdtbl_get_ok s cur _ _ _ Hok Hd)).
  rewrite (proj2 (Z.eqb_neq d NULL)) by done.
  assert (E1 : get_fdescr d s = Ret (mkFdescr dv r, s)) by (unfold get_fdescr; mred; by rewrite Ed).
  rewrite (bind_ret _ _ _ _ _ E1). cbn [dev refs].
  set (s4 := set_fdescrs (<[d := mkFdescr dv (s32 (r - 1))]> (fdescrs s)) s).
  rewrite (bind_ret _ _ s tt s4) by done.
  assert (E4 : get_fdescr d s4 = Ret (mkFdescr dv (s32 (r - 1)), s4)).
  { unfold get_fdescr. mred. cbn. by rewrite lookup_insert_eq. }
  rewrite (bind_ret _ _ _ _ _ E4). cbn [dev refs].
  rewrite (bind_ret _ _ s4 tt (set_fdescrs m s)).
  { by rewrite (bind_ret _ _ _ _ _ E6). }
  unfold m, s4. destruct (s32 (r - 1) =? 0); [|done].
  unfold free_fdescr, modify. cbn. by rewrite delete_insert_eq.
Qed.

(** ** Properties *)

(** One task with a table of four entries, the first one in use. *)
Definition demo_cur : task := set_fdtbl 5 (set_fdcap 4 (KernelTask 0)).
Definition demo_fd : tst :=
  mkTst (<[1 := demo_cur]> ∅) 1 0 2 (<[5 := [6; 0; 0; 0]]> ∅) (<[6 := mkFdescr 77 1]> ∅) 0 10 (mkCpu 0 0 0 true) [] [].

Lemma demo_fd_ok : fd_ok demo_fd demo_cur [6; 0; 0; 0].
Proof. split; try done. Qed.

(** C29: [fd_open] gives the lowest free descriptor number from [fdnext] on, which
    leads to the device with one reference; all other entries and descriptors are
    as before, and closing it frees the descriptor and restores the table. *)
Theorem fd_open_lowest s cur tbl fd device :
  fd_ok s cur tbl → fdnext cur ≤ fd → lookupZ tbl fd = Some 0 →
  (∀ i, fdnext cur ≤ i < fd → ∃ d, lookupZ tbl i = Some d ∧ d ≠ 0) →
  fdescrs s !! heap s = None → heap s ≠ 0 →
  ∃ s' cur', fd_open device s = Ret (fd, s') ∧ fd_ok s' cur' (insertZ fd (heap s) tbl) ∧
    fd_lookup fd s' = Ret (heap s, s') ∧ fdescrs s' = <[heap s := mkFdescr device 1]> (fdescrs s) ∧
    (∀ i, i ≠ fd → 0 ≤ i < fdcap cur → ∃ d, lookupZ tbl i = Some d ∧ fd_lookup i s' = Ret (d, s')) ∧
    ∃ s'', fd_close fd s' = Ret (0, s'') ∧ fd_ok s'' cur' tbl ∧ fdescrs s'' = fdescrs s.
Proof.
  intros Hok Hfd Hz Hall Hfresh Hhn. pose proof (lookupZ_lt _ _ _ Hz) as Hlt.
  destruct (fd_open_ok s cur tbl fd device Hok Hfd Hz Hall) as [E Hok3].
  set (cur' := set_fdnext fd cur) in *. set (s3 := opened_state fd device cur tbl s) in *.
  assert (Hcap : 0 ≤ fd < fdcap cur') by (destruct Hok as [_ _ Hl _ _]; cbn; lia).
  exists s3, cur'. split; [done|split; [done|split; [|split; [done|split]]]].
  - apply (fdtbl_get_ok s3 cur' _ _ _ Hok3). by rewrite lookupZ_insert_eq.
  - intros i Hi Hr. destruct (lookupZ_is_Some tbl i) as [d Hd]; [destruct Hok; lia|]. exists d. split; [done|].
    apply (fdtbl_get_ok s3 cur' _ _ _ Hok3). by rewrite lookupZ_insert_ne by lia.
  - destruct (fd_close_ok s3 cur' (insertZ fd (heap s) tbl) fd (heap s) device 1) as [E6 Hok6]; try done.
    { by apply lookupZ_insert_eq. }
    { cbn. by rewrite lookup_insert_eq. }
    revert E6 Hok6. change (s32 (1 - 1) =? 0) with true. cbv iota. rewrite insertZ_insertZ, (insertZ_id tbl) by done. intros E6 Hok6.
    eexists. split; [exact E6|]. split; [exact Hok6|]. cbn. by rewrite delete_insert_id.
Qed.

Lemma fd_open_lowest_witness :
  ∃ s', fd_open 99 demo_fd = Ret (1, s') ∧ fd_lookup 1 s' = Ret (10, s') ∧
        fdescrs s' !! 10 = Some (mkFdescr 99 1).
Proof.
  destruct (fd_open_lowest demo_fd demo_cur [6; 0; 0; 0] 1 99 demo_fd_ok) as (s' & c & E & _ & El & Ed & _);
    [done|done| |done|done|].
  - intros i Hi. exists 6. change (fdnext demo_cur) with 0 in Hi. by replace i with 0 by lia.
  - exists s'. split; [exact E|]. split; [exact El|]. rewrite Ed. reflexivity.
Defined.

(** A full table is not grown.  When every entry from [fdnext] on is in use,
    the search of [fd_alloc] reads the entry behind the end of the table; the
    code that doubles the table is behind that loop. *)
Theorem fd_open_full_out_of_bounds s cur tbl device :
  fd_ok s cur tbl → fdnext cur ≤ fdcap cur →
  (∀ i, fdnext cur ≤ i < fdcap cur → ∃ d, lookupZ tbl i = Some d ∧ d ≠ 0) →
  fd_open device s = Fault OutOfBounds.
Proof.
  intros Hok Hle Hall. pose proof Hok as [Hc Ht Hl Hm Hh].
  assert (Er : run_nat (Z.to_nat (fdcap cur - fdnext cur)) alloc_step tt s = Ret (inl tt, at_next (fdcap cur) cur s)).
  { rewrite (alloc_steps _ s cur tbl Hok); [by rewrite Z2Nat.id, Z.add_sub_assoc, Z.add_simpl_l by lia|].
    intros i Hi. apply Hall. lia. }
  assert (Hok' : fd_ok (at_next (fdcap cur) cur s) (set_fdnext (fdcap cur) cur) tbl) by (apply at_next_ok; [done|lia]).
  unfold fd_open. rewrite (bind_fault _ _ s OutOfBounds); [done|]. unfold fd_alloc. fold alloc_step.
  rewrite (bind_fault _ _ s OutOfBounds); [done|].
  apply (while_steps_fault _ 65537 _ _ _ _ _ _ Er); [lia|]. unfold alloc_step.
  rewrite (bind_ret _ _ _ _ _ (current_ok _ _ (fo_cur _ _ _ Hok'))).
  by rewrite (bind_fault _ _ _ _ (fdtbl_get_oob _ _ _ (fdcap cur) Hok' ltac:(cbn; lia))).
Qed.

Lemma fd_open_full_out_of_bounds_witness :
  fd_open 99 (set_fdtbls (<[5 := [6; 6; 6; 6]]> ∅) demo_fd) = Fault OutOfBounds.
Proof.
  apply (fd_open_full_out_of_bounds _ demo_cur [6; 6; 6; 6]); [by split|done|].
  intros i Hi. exists 6. split; [|done]. cbn in Hi.
  assert (i = 0 ∨ i = 1 ∨ i = 2 ∨ i = 3) as [->|[->|[->| ->]]] by lia; done.
Defined.

(** [fd_dupfd] does not count the reference it makes: after closing the
    original, the duplicate leads to a freed descriptor, and using it (here,
    closing it) is a use after free. *)
Theorem fd_dupfd_dangles s cur tbl from to d device :
  fd_ok s cur tbl → lookupZ tbl from = Some d → d ≠ 0 → fdescrs s !! d = Some (mkFdescr device 1) →
  lookupZ tbl to = Some 0 →
  ∃ s1 s2, fd_dupfd from to s = Ret (0, s1) ∧ fd_close from s1 = Ret (0, s2) ∧
    fd_lookup to s2 = Ret (d, s2) ∧ fd_close to s2 = Fault UseAfterFree.
Proof.
  intros Hok Hd Hn Ed Hto. pose proof (lookupZ_lt _ _ _ Hd) as Hlf. pose proof (lookupZ_lt _ _ _ Hto) as Hlt.
  assert (Hne : from ≠ to) by congruence.
  assert (Hcf : 0 ≤ from < fdcap cur) by (destruct Hok; lia). assert (Hct : 0 ≤ to < fdcap cur) by (destruct Hok; lia).
  destruct (fdtbl_set_ok s cur tbl to d Hok Hct) as [E1 Hok1]. set (s1 := with_entry _ _ s) in *.
  assert (Hf1 : lookupZ (insertZ to d tbl) from = Some d) by (by rewrite lookupZ_insert_ne by lia).
  set (s2 := set_fdescrs (delete d (fdescrs s)) s1).
  assert (Hok2 : fd_ok s2 cur (insertZ to d tbl)) by (destruct Hok1; by split).
  destruct (fdtbl_set_ok s2 cur _ from 0 Hok2 Hcf) as [E3 Hok3]. set (s3 := with_entry _ _ s2) in *.
  assert (Ht3 : lookupZ (insertZ from 0 (insertZ to d tbl)) to = Some d).
  { rewrite lookupZ_insert_ne by (lia || congruence). by apply lookupZ_insert_eq. }
  exists s1, s3. split; [|split; [|split]].
  - unfold fd_dupfd. rewrite (bind_ret _ _ _ _ _ (fdtbl_get_ok s cur tbl from d Hok Hd)).
    destruct (Z.eqb_spec d NULL); [done|].
    rewrite (bind_ret _ _ s to s).
    + rewrite (bind_ret _ _ _ _ _ (fdtbl_get_ok s cur tbl from d Hok Hd)). by rewrite (bind_ret _ _ _ _ _ E1).
    + apply while_leave. by rewrite (bind_ret _ _ _ _ _ (fdtbl_get_ok s cur tbl to 0 Hok Hto)).
  - unfold fd_close. rewrite (bind_ret _ _ _ _ _ (fdtbl_get_ok s1 cur _ from d Hok1 Hf1)).
    destruct (Z.eqb_spec d NULL); [done|].
    assert (G1 : get_fdescr d s1 = Ret (mkFdescr device 1, s1)) by (unfold get_fdescr; mred; cbn; by rewrite Ed).
    rewrite (bind_ret _ _ _ _ _ G1). cbn [dev refs].
    rewrite (bind_ret _ _ s1 tt (set_fdescrs (<[d := mkFdescr device 0]> (fdescrs s)) s1)) by done.
    assert (G2 : get_fdescr d (set_fdescrs (<[d := mkFdescr device 0]> (fdescrs s)) s1) =
      Ret (mkFdescr device 0, set_fdescrs (<[d := mkFdescr device 0]> (fdescrs s)) s1))
      by (unfold get_fdescr; mred; cbn; by rewrite lookup_insert_eq).
    rewrite (bind_ret _ _ _ _ _ G2). cbn [dev refs]. change (0 =? 0) with true. cbv iota.
    rewrite (bind_ret _ _ _ tt s2); [by rewrite (bind_ret _ _ _ _ _ E3)|].
    unfold free_fdescr, modify, s2. cbn. by rewrite delete_insert_eq.
  - by apply (fdtbl_get_ok s3 cur _ to d Hok3).
  - unfold fd_close. rewrite (bind_ret _ _ _ _ _ (fdtbl_get_ok s3 cur _ to d Hok3 Ht3)).
    destruct (Z.eqb_spec d NULL) as [|Hdn]; [done|].
    rewrite (bind_fault _ _ s3 UseAfterFree); [done|]. unfold get_fdescr. mred. cbn.
    rewrite lookup_delete_eq. unfold need, crash, ptr_fault. by destruct (Z.eqb_spec d NULL).
Qed.

Lemma fd_dupfd_dangles_witness :
  ∃ s1 s2, fd_dupfd 0 1 demo_fd = Ret (0, s1) ∧ fd_close 0 s1 = Ret (0, s2) ∧
    fd_lookup 1 s2 = Ret (6, s2) ∧ fd_close 1 s2 = Fault UseAfterFree.
Proof. by apply (fd_dupfd_dangles demo_fd demo_cur [6; 0; 0; 0] 0 1 6 77 demo_fd_ok). Defined.

(** C28: [task_clone] makes a child of the current task that is ready, with a pid
    of its own, the parent's break, directory, group, signal actions and working
    directory, and a descriptor table of its own with the same content.  A
    descriptor gains one reference per entry below [fdnext], although the child's
    table refers to it from every entry: the descriptor at [fdnext] itself, the
    one opened last, is shared without being counted. *)
Theorem task_clone_child s cur tbl a :
  fd_ok s cur tbl → CurrentTask s < heap s → fdnext cur ≤ fdcap cur →
  (∀ d, d ∈ tbl → d ≠ 0 → is_Some (fdescrs s !! d)) →
  ∃ s' t, task_clone a s = Ret (heap s, s') ∧
    tasks s' = <[heap s := t]> (<[CurrentTask s := set_childcount (s32 (childcount cur + 1)) cur]> (tasks s)) ∧
    (pid t = next_pid s ∧ ppid t = pid cur ∧ childcount t = 0 ∧ state t = TaskReady ∧ brk t = brk cur ∧
     mmapbrk t = mmapbrk cur ∧ sid t = sid cur ∧ pgid t = pgid cur ∧ sigact t = sigact cur ∧
     cwd t = take (Z.to_nat PATH_MAX) (cwd cur) ∧ fdcap t = fdcap cur ∧ fdnext t = fdnext cur ∧ sigpend t = sigpend cur ∧ sigwait t = sigwait cur) ∧
    fdtbls s' !! fdtbl t = Some tbl ∧ fdtbls s' !! fdtbl cur = Some tbl ∧ fdtbl t ≠ fdtbl cur ∧
    next_pid s' = s32 (next_pid s + 1) ∧
    ∀ d x, d ≠ 0 → fdescrs s !! d = Some x →
      fdescrs s' !! d = Some (mkFdescr (dev x) (refs x + references d (take (Z.to_nat (fdnext cur)) tbl))).
Proof.
  intros Hok Hc Hn Hall. destruct (task_clone_ok s cur tbl a Hok Hc Hn Hall) as (s' & t & E & _ & H).
  by exists s', t.
Qed.

Lemma task_clone_child_witness :
  ∃ s' t, task_clone 1 demo_fd = Ret (10, s') ∧ tasks s' !! 10 = Some t ∧ fdtbls s' !! fdtbl t = Some [6; 0; 0; 0] ∧
    fdescrs s' !! 6 = Some (mkFdescr 77 1).
Proof.
  destruct (task_clone_child demo_fd demo_cur [6; 0; 0; 0] 1 demo_fd_ok)
    as (s' & t & E & Et & _ & Eb & _ & _ & _ & Hr); [done|done| |].
  - intros d Hd Hn. rewrite !elem_of_cons in Hd.
    destruct Hd as [->|[->|[->|[->|Hd]]]]; try done. by apply not_elem_of_nil in Hd.
  - exists s', t. split; [exact E|]. split; [rewrite Et; apply lookup_insert_eq|]. split; [exact Eb|].
    rewrite (Hr 6 (mkFdescr 77 1)); [reflexivity|done|reflexivity].
Defined.
