(* ===== verification/Machine.v ===== *)
(** * Tasks and memory together

    The state the code shared by the two components works on: the tasks, the
    memory, and the statics of [arch/x86/mem/early_malloc.c].  The memory functions
    act on the directory of the current task; [on_vm] hands them its pid and
    directory. *)
From Stdlib Require Import ZArith Lia.
From stdpp Require Import base gmap list strings.
From S2P Require Import Prelude Layout FrameAlloc Mmu ListHead TaskState.
Open Scope Z_scope.
Open Scope u32_scope.

Record mach : Type := mkMach {
  m_tst : tst;
  m_vm : vm;
  EarlyMallocEnabled : bool;
  AllocStack : list Z;
  AllocSP : Z;
  curbrk : Z
}.

Definition with_tst (t : tst) (s : mach) : mach := mkMach t (m_vm s) (EarlyMallocEnabled s) (AllocStack s) (AllocSP s) (curbrk s).
Definition with_vm (v : vm) (s : mach) : mach := mkMach (m_tst s) v (EarlyMallocEnabled s) (AllocStack s) (AllocSP s) (curbrk s).
Definition with_early (b : bool) (s : mach) : mach := mkMach (m_tst s) (m_vm s) b (AllocStack s) (AllocSP s) (curbrk s).
Definition with_stack (l : list Z) (sp : Z) (s : mach) : mach := mkMach (m_tst s) (m_vm s) (EarlyMallocEnabled s) l sp (curbrk s).
Definition with_curbrk (x : Z) (s : mach) : mach := mkMach (m_tst s) (m_vm s) (EarlyMallocEnabled s) (AllocStack s) (AllocSP s) x.

#[export] Program Instance mach_has_tst : Has mach tst := {| proj := m_tst; embed := with_tst |}.
Next Obligation. done. Qed.
Next Obligation. done. Qed.
Next Obligation. by intros []. Qed.
#[export] Program Instance mach_has_vm : Has mach vm := {| proj := m_vm; embed := with_vm |}.
Next Obligation. done. Qed.
Next Obligation. done. Qed.
Next Obligation. by intros []. Qed.

Definition liftT {A} (m : M tst A) : M mach A := zoom m.
Definition liftV {A} (m : M vm A) : M mach A := zoom m.

(** What the memory code sees of a task. *)
Definition mmu_view (t : task) : mmu_task := mkMmuTask (pid t) (pgd (arch t)).
Definition on_vm {A} (f : mmu_task → M vm A) : M mach A :=
  t ← liftT current; liftV (f (mmu_view t)).

(** ** Laws *)

Lemma liftT_ok {A} (m : M tst A) s a t : m (m_tst s) = Ret (a, t) → liftT m s = Ret (a, with_tst t s).
Proof. intros E. by apply (zoom_ret (H := mach_has_tst)). Qed.
Lemma liftV_ok {A} (m : M vm A) s a v : m (m_vm s) = Ret (a, v) → liftV m s = Ret (a, with_vm v s).
Proof. intros E. by apply (zoom_ret (H := mach_has_vm)). Qed.

Lemma with_tst_same s : with_tst (m_tst s) s = s.
Proof. by destruct s. Qed.
Lemma with_vm_same s : with_vm (m_vm s) s = s.
Proof. by destruct s. Qed.

Definition cur_task (s : mach) : option task := tasks (m_tst s) !! CurrentTask (m_tst s).

Lemma on_vm_ok {A} (f : mmu_task → M vm A) s t a v :
  cur_task s = Some t → f (mmu_view t) (m_vm s) = Ret (a, v) → on_vm f s = Ret (a, with_vm v s).
Proof.
  intros Et E. unfold on_vm.
  rewrite (bind_ret _ _ s t s) by (by rewrite (liftT_ok _ _ _ _ (current_ok _ _ Et)), with_tst_same).
  by apply liftV_ok.
Qed.
