(* ===== verification/Brk.v ===== *)
(** * The program break and the early allocator

    [arch/x86/mem/brk.c] and [arch/x86/mem/early_malloc.c].  The C library's
    allocator behind [__real_malloc] and [__real_free] is a parameter of the two
    wrappers. *)
From Stdlib Require Import ZArith Lia.
From stdpp Require Import base gmap list list_numbers strings.
From S2P Require Import Prelude Layout FrameAlloc Mmu ListHead TaskState Machine.
Open Scope Z_scope.
Open Scope u32_scope.

(** ** arch/x86/mem/brk.c *)

(** The bodies of the two loops. *)
Definition brk_map (cur : Z) : M mach unit :=
  ready ← liftV mmu_is_ready;
  if (ready : bool) then
    a ← on_vm (λ ct, pg_is_allocated ct cur);
    if negb (a : bool) then on_vm (λ ct, pg_alloc ct cur) else mret tt
  else mret tt.
Definition brk_unmap (i : Z) : M mach unit :=
  ready ← liftV mmu_is_ready;
  if (ready : bool) then on_vm (λ ct, pg_unmap ct i) else mret tt.

Definition task_brk (p brk_ : Z) : M mach Z :=
  t ← liftT (get_task p);
  let cur := brk t in
  (if brk_ =? 0 then mret tt
   else if cur <? brk_ then
     liftT (upd_task p (set_brk brk_)) ;;
     page_loop cur (brk_ +u PAGE_SIZE) brk_map
   else if brk_ <? cur then
     liftT (upd_task p (set_brk brk_)) ;;
     page_loop (PGADDR brk_ +u 1) (PGADDR cur) brk_unmap
   else mret tt) ;;
  t ← liftT (get_task p);
  mret (brk t).

(** ** arch/x86/mem/early_malloc.c *)

Definition sync_curbrk : M mach unit :=
  t ← liftT current;
  modify (with_curbrk (brk t)).

Definition early_malloc (size : Z) : M mach Z :=
  c ← liftT (gets CurrentTask);
  brk_ ← task_brk c 0;
  brk_ ← task_brk c (brk_ +u size);
  sync_curbrk ;;
  s ← getS;
  l ← aset (AllocStack s) (AllocSP s + 1) brk_;
  modify (with_stack l (AllocSP s + 1)) ;;
  mret (brk_ -u size).

Definition early_free (addr : Z) : M mach unit :=
  s ← getS;
  top ← aget (AllocStack s) (AllocSP s);
  if top =? addr then
    c ← liftT (gets CurrentTask);
    modify (with_stack (AllocStack s) (AllocSP s - 1)) ;;
    task_brk c top ;;
    sync_curbrk
  else mret tt.

Definition early_malloc_disable : M mach unit := modify (with_early false).

Definition enter_kernel : M mach unit :=
  s ← liftT getS;
  if negb (CurrentTask s =? KernelTask_ptr) then
    liftT (modify (λ s, set_CurrentTask KernelTask_ptr (set_UserTask (CurrentTask s) s)))
  else mret tt.
Definition leave_kernel : M mach unit :=
  s ← liftT getS;
  if negb (UserTask s =? NULL) then
    liftT (modify (λ s, set_CurrentTask (UserTask s) s))
  else mret tt.

Section Wrappers.
Context (real_malloc : Z → M mach Z) (real_free : Z → M mach unit).

Definition __wrap_malloc (size : Z) : M mach Z :=
  s ← getS;
  if EarlyMallocEnabled s then early_malloc size
  else
    enter_kernel ;;
    mem ← real_malloc size;
    leave_kernel ;;
    mret mem.

(** There is no return after [early_free]. *)
Definition __wrap_free (addr : Z) : M mach unit :=
  s ← getS;
  (if EarlyMallocEnabled s then early_free addr else mret tt) ;;
  enter_kernel ;;
  real_free addr ;;
  leave_kernel.
End Wrappers.

(** ** Specification *)

(** The current task's memory is in order, with room for [k] frames. *)
Record mem_ok (t : task) (k : nat) (s : mach) : Prop := {
  mo_cur : cur_task s = Some t;
  mo_ready : MMUReady (m_vm s) = true;
  mo_vm : vm_ok 2 k (m_vm s);
  mo_space : space_ok (m_vm s) (pgd (arch t))
}.

Definition walk (t : task) (s : mach) (v : Z) : option (Z * bool * bool) :=
  hw_walk (phys (m_vm s)) (pgd (arch t)) v.
Definition can_map (t : task) (s : mach) (v : Z) : Prop :=
  table_for (mmu_view t) (phys (m_vm s)) (pgd (arch t)) v.

Lemma ready_ok s : liftV mmu_is_ready s = Ret (MMUReady (m_vm s), s).
Proof. rewrite (liftV_ok _ s (MMUReady (m_vm s)) (m_vm s)) by done. by rewrite with_vm_same. Qed.

(** One page of the growing loop. *)
Lemma brk_map_ok t k s v :
  mem_ok t (S (S k)) s → is_u32 v → can_map t s v →
  ∃ s', brk_map v s = Ret (tt, s') ∧ mem_ok t k s' ∧ m_tst s' = m_tst s ∧ is_Some (walk t s' v) ∧
    (∀ w, is_u32 w → is_Some (walk t s w) → walk t s' w = walk t s w) ∧
    (∀ w, is_u32 w → can_map t s w → can_map t s' w) ∧
    (∀ w, is_u32 w → same_page v w = true → walk t s w = None → is_Some (walk t s' w)).
Proof.
  intros [Hc Hr Hv Hsp] Hv32 Hcm. unfold brk_map. rewrite (bind_ret _ _ _ _ _ (ready_ok s)), Hr.
  assert (Ea : on_vm (λ ct, pg_is_allocated ct v) s = Ret (match walk t s v with Some _ => true | None => false end, s)).
  { rewrite (on_vm_ok _ s t _ (m_vm s) Hc (pg_is_allocated_eq (mmu_view t) 1 (S (S k)) _ v Hv Hsp Hv32)).
    by rewrite with_vm_same. }
  rewrite (bind_ret _ _ _ _ _ Ea). destruct (walk t s v) as [x|] eqn:Ew; cbn [negb].
  - exists s. split; [done|]. split; [split; try done; by apply (vm_ok_weaken 2 _ (S (S k))); [|lia|]|].
    split; [done|]. rewrite Ew. split; [done|]. split; [done|]. split; [done|].
    intros w Hw Hsame _. apply (hw_walk_same_page _ _ v); [done|done|done|done|by eexists].
  - destruct (pg_alloc_walk (mmu_view t) 0 k (m_vm s) v Hv Hsp Hv32 Hcm)
      as (a & v' & E & Ha & Hal & _ & _ & Hrdy & Hv' & Hsp' & _ & Htf & Hw).
    rewrite (on_vm_ok _ s t _ _ Hc E). eexists. split; [done|]. rewrite Hr in Hrdy.
    split; [by split|]. split; [done|]. unfold walk, can_map in *. cbn [m_vm with_vm]. split; [|split; [|split]].
    + rewrite Hw, same_page_refl by done. by eexists.
    + intros w Hw32 Hx. rewrite Hw by done. destruct (same_page v w) eqn:Es; [|done].
      apply (hw_walk_same_page _ _ v) in Hx; [|done|done|done|done]. rewrite Ew in Hx. by destruct Hx.
    + done.
    + intros w Hw32 Es _. rewrite Hw, Es by done. by eexists.
Qed.

Lemma brk_map_all t k l s :
  mem_ok t (2 * length l + k) s → Forall (λ x, is_u32 x ∧ can_map t s x) l →
  ∃ s', forM l brk_map s = Ret (tt, s') ∧ mem_ok t k s' ∧ m_tst s' = m_tst s ∧
    (∀ x w, x ∈ l → is_u32 w → same_page x w = true → is_Some (walk t s' w)) ∧
    (∀ w, is_u32 w → is_Some (walk t s w) → walk t s' w = walk t s w).
Proof.
  revert s. induction l as [|x l IH]; intros s Hm Hl.
  - exists s. split; [done|]. split; [done|]. split; [done|]. split; [|done].
    intros y w Hy. by apply not_elem_of_nil in Hy.
  - apply Forall_cons in Hl as [[Hx Hcx] Hl].
    destruct (brk_map_ok t (2 * length l + k) s x) as (s1 & E1 & Hm1 & Ht1 & Hx1 & Hk1 & Hc1 & Hs1); [|done|done|].
    { by replace (S (S (2 * length l + k))) with (2 * length (x :: l) + k)%nat by (cbn; lia). }
    destruct (IH s1 Hm1) as (s' & E & Hm' & Ht' & Hcov & Hk).
    { eapply Forall_impl; [exact Hl|]. intros y [Hy Hcy]. split; [done|]. by apply Hc1. }
    exists s'. cbn [forM]. rewrite (bind_ret _ _ _ _ _ E1). split; [done|]. split; [done|]. split; [congruence|].
    split.
    + intros y w [->|Hy]%elem_of_cons Hw Hyw; [|by apply (Hcov y)].
      assert (Hw1 : is_Some (walk t s1 w)).
      { destruct (walk t s w) as [r|] eqn:Ew; [rewrite (Hk1 w Hw) by (by rewrite Ew); by rewrite Ew|by apply Hs1]. }
      by rewrite Hk.
    + intros w Hw Hs. rewrite Hk, Hk1; [done|done|done|done|]. by rewrite Hk1.
Qed.

Lemma brk_unmap_ok t k s v :
  mem_ok t (S k) s → is_u32 v → can_map t s v →
  ∃ s', brk_unmap v s = Ret (tt, s') ∧ mem_ok t k s' ∧ m_tst s' = m_tst s ∧
    (∀ w, is_u32 w → can_map t s w → can_map t s' w) ∧
    (∀ w, is_u32 w → walk t s' w = if same_page v w then None else walk t s w).
Proof.
  intros [Hc Hr Hv Hsp] Hv32 Hcm. unfold brk_unmap. rewrite (bind_ret _ _ _ _ _ (ready_ok s)), Hr.
  destruct (pg_unmap_walk (mmu_view t) 0 k (m_vm s) v Hv Hsp Hv32 Hcm) as (v' & E & Hv' & Hsp' & _ & Hrdy & Htf & Hw).
  rewrite (on_vm_ok _ s t _ _ Hc E). eexists. split; [done|]. rewrite Hr in Hrdy. by split.
Qed.

Lemma brk_unmap_all t k l s :
  mem_ok t (length l + k) s → Forall (λ x, is_u32 x ∧ can_map t s x) l →
  ∃ s', forM l brk_unmap s = Ret (tt, s') ∧ mem_ok t k s' ∧ m_tst s' = m_tst s ∧
    (∀ w, is_u32 w → walk t s' w = if existsb (λ x, same_page x w) l then None else walk t s w).
Proof.
  revert s. induction l as [|x l IH]; intros s Hm Hl; [by exists s|].
  apply Forall_cons in Hl as [[Hx Hcx] Hl].
  destruct (brk_unmap_ok t (length l + k) s x Hm Hx Hcx) as (s1 & E1 & Hm1 & Ht1 & Hc1 & Hw1).
  destruct (IH s1 Hm1) as (s' & E & Hm' & Ht' & Hw).
  { eapply Forall_impl; [exact Hl|]. intros y [Hy Hcy]. split; [done|]. by apply Hc1. }
  exists s'. cbn [forM]. rewrite (bind_ret _ _ _ _ _ E1). split; [done|]. split; [done|]. split; [congruence|].
  intros w Hw32. rewrite Hw, Hw1 by done. cbn [existsb]. destruct (same_page x w); [|done]. by destruct (existsb _ l).
Qed.

(** The current task with another break. *)
Definition rebrk (b : Z) (t : task) (s : mach) : mach :=
  with_tst (set_tasks (<[CurrentTask (m_tst s) := set_brk b t]> (tasks (m_tst s))) (m_tst s)) s.

Lemma set_brk_ok s t b : cur_task s = Some t →
  liftT (upd_task (CurrentTask (m_tst s)) (set_brk b)) s = Ret (tt, rebrk b t s).
Proof. intros E. apply liftT_ok. by apply upd_task_ok. Qed.

Lemma rebrk_ok t k s b : mem_ok t k s → mem_ok (set_brk b t) k (rebrk b t s).
Proof. intros [Hc Hr Hv Hsp]. split; try done. apply lookup_insert_eq. Qed.

Lemma get_cur_ok s t : cur_task s = Some t → liftT (get_task (CurrentTask (m_tst s))) s = Ret (t, s).
Proof. intros E. rewrite (liftT_ok _ s t (m_tst s)) by (by apply get_task_ok). by rewrite with_tst_same. Qed.

(** Every page from that of [i] to that of [lim - PAGE_SIZE] is visited. *)
Lemma page_seq_covers i lim v : 0 ≤ i → i ≤ v ≤ lim →
  ∃ x, x ∈ page_seq i (page_count i (lim + PAGE_SIZE)) ∧ same_page x v = true.
Proof.
  intros Hi Hv. exists (i + PAGE_SIZE * (v / PAGE_SIZE - i / PAGE_SIZE)). split.
  - apply page_seq_elem. exists (v / PAGE_SIZE - i / PAGE_SIZE). split; [|done].
    unfold page_count, PAGE_SIZE in *. zlia.
  - unfold same_page, PAGE_SIZE in *. apply Z.eqb_eq. zlia.
Qed.

Lemma page_seq_bounds i lim x : 0 ≤ i → x ∈ page_seq i (page_count i lim) → i ≤ x < lim.
Proof.
  intros Hi (k & Hk & ->)%page_seq_elem. unfold page_count, PAGE_SIZE in *. zlia.
Qed.

Lemma page_seq_length i n : length (page_seq i n) = n.
Proof. unfold page_seq. rewrite length_fmap, length_seqZ. lia. Qed.

(** ** Properties *)

(** Task 1 runs in the demo address space, with its break at 0x8048000. *)
Definition brk_tst : tst :=
  mkTst (<[1 := set_brk 0x8048000 (set_pid 1 (set_arch (mkArch 0 0 0x1000) (KernelTask 0)))]> ∅)
    1 0 2 ∅ ∅ 0 10 (mkCpu 0 0 0x1000 true) [] [].
Definition demo_mach : mach := mkMach brk_tst demo_vm true (replicate 4096 0) 0 0.
Definition brk_task : task := set_brk 0x8048000 (set_pid 1 (set_arch (mkArch 0 0 0x1000) (KernelTask 0))).

Lemma demo_mach_ok : mem_ok brk_task 8 demo_mach.
Proof.
  split; [done|done|apply (vm_ok_weaken 4 2 8 8); [lia|lia|exact demo_vm_ok]|exact demo_space_ok].
Qed.

(** C33: growing the break.  When the current task moves its break up, every
    address from the old break to the new one, both included, translates
    afterwards, and every address that translated before keeps its translation;
    two frames per page are enough. *)
Theorem task_brk_grows t s b k :
  brk t < b → 0 ≤ brk t → b + 2 * PAGE_SIZE ≤ 2 ^ 32 →
  mem_ok t (2 * page_count (brk t) (b + PAGE_SIZE) + k) s →
  (∀ v, brk t ≤ v < b + PAGE_SIZE → can_map t s v) →
  ∃ s', task_brk (CurrentTask (m_tst s)) b s = Ret (b, s') ∧ mem_ok (set_brk b t) k s' ∧
    (∀ v, brk t ≤ v ≤ b → is_Some (walk t s' v)) ∧
    (∀ w, is_u32 w → is_Some (walk t s w) → walk t s' w = walk t s w).
Proof.
  intros Hb H0 Hlim Hm Hcan. pose proof (mo_cur _ _ _ Hm) as Hc. unfold PAGE_SIZE in Hlim.
  set (s1 := rebrk b t s). pose proof (rebrk_ok _ _ _ b Hm) as Hm1. fold s1 in Hm1.
  set (l := page_seq (brk t) (page_count (brk t) (b + PAGE_SIZE))).
  destruct (brk_map_all (set_brk b t) k l s1) as (s' & E & Hm' & Ht' & Hcov & Hk).
  - unfold l. by rewrite page_seq_length.
  - apply Forall_forall. intros x Hx%page_seq_bounds; [|done]. unfold PAGE_SIZE in Hx. split; [lia|].
    by apply Hcan.
  - exists s'. split; [|split; [done|split; [|done]]].
    + unfold task_brk. rewrite (bind_ret _ _ _ _ _ (get_cur_ok s t Hc)). cbv zeta.
      destruct (Z.eqb_spec b 0); [lia|]. destruct (Z.ltb_spec (brk t) b); [|lia].
      rewrite (bind_ret _ _ s tt s').
      2: { rewrite (bind_ret _ _ _ _ _ (set_brk_ok s t b Hc)). fold s1. unfold PAGE_SIZE.
           rewrite u32_small by lia. rewrite page_loop_forM by (unfold PAGE_SIZE; lia). exact E. }
      pose proof (mo_cur _ _ _ Hm') as Hc'.
      assert (Ecur : CurrentTask (m_tst s') = CurrentTask (m_tst s)) by (by rewrite Ht').
      rewrite <- Ecur. by rewrite (bind_ret _ _ _ _ _ (get_cur_ok s' _ Hc')).
    + intros v Hv. destruct (page_seq_covers (brk t) b v H0 Hv) as (x & Hx & Hsame).
      apply (Hcov x); [done|lia|done].
Qed.

Lemma task_brk_grows_witness :
  ∃ s', task_brk 1 0x8048010 demo_mach = Ret (0x8048010, s') ∧ is_Some (walk brk_task s' 0x8048008).
Proof.
  destruct (task_brk_grows brk_task demo_mach 0x8048010 4) as (s' & E & _ & Hv & _); [done|done|done| | |].
  - change (2 * page_count (brk brk_task) (0x8048010 + PAGE_SIZE) + 4)%nat with 8%nat. exact demo_mach_ok.
  - intros v Hv. left. apply demo_pde. change (brk brk_task) with 0x8048000 in Hv. unfold PAGE_SIZE in Hv. lia.
  - exists s'. split; [exact E|]. clear E. apply Hv. change (brk brk_task) with 0x8048000. lia.
Defined.

(** Shrinking the break frees one page too many and one too few.  Moving the
    break down unmaps exactly the pages from that of the new break up to, but not
    including, that of the old one.  So when the new break is not page aligned and
    the old one lies on a later page, the page with the bytes below the new break,
    still in use, is gone. *)
Theorem task_brk_shrinks t s b k :
  0 < b → PGADDR b + 1 < PGADDR (brk t) → brk t + 2 * PAGE_SIZE ≤ 2 ^ 32 →
  mem_ok t (page_count (PGADDR b + 1) (PGADDR (brk t)) + k) s →
  (∀ v, PGADDR b ≤ v < brk t → can_map t s v) →
  ∃ s', task_brk (CurrentTask (m_tst s)) b s = Ret (b, s') ∧ mem_ok (set_brk b t) k s' ∧
    (∀ w, is_u32 w → walk t s' w = if (PGADDR b <=? w) && (w <? PGADDR (brk t)) then None else walk t s w) ∧
    (b mod PAGE_SIZE ≠ 0 → walk t s' (b - 1) = None).
Proof.
  intros Hb Hlt Hlim Hm Hcan. pose proof (mo_cur _ _ _ Hm) as Hc. unfold PAGE_SIZE in Hlim.
  assert (Hbounds : 0 ≤ PGADDR b ∧ PGADDR b ≤ b ∧ PGADDR (brk t) ≤ brk t ∧ b < brk t ∧
                    PGADDR b mod 4096 = 0 ∧ PGADDR (brk t) mod 4096 = 0 ∧ b < PGADDR b + 4096 ∧
                    b < PGADDR (brk t)).
  { unfold PGADDR, PAGE_SIZE in *. zlia. }
  destruct Hbounds as (B1 & B2 & B3 & B4 & B5 & B6 & B7 & B8).
  set (s1 := rebrk b t s). pose proof (rebrk_ok _ _ _ b Hm) as Hm1. fold s1 in Hm1.
  set (l := page_seq (PGADDR b + 1) (page_count (PGADDR b + 1) (PGADDR (brk t)))).
  destruct (brk_unmap_all (set_brk b t) k l s1) as (s' & E & Hm' & Ht' & Hw).
  - unfold l. by rewrite page_seq_length.
  - apply Forall_forall. intros x Hx%page_seq_bounds; [|lia]. split; [lia|]. apply Hcan. lia.
  - assert (Hex : ∀ w, is_u32 w → existsb (λ x, same_page x w) l = (PGADDR b <=? w) && (w <? PGADDR (brk t))).
    { intros w Hw32. apply eq_true_iff_eq. rewrite existsb_exists, andb_true_iff, Z.leb_le, Z.ltb_lt. split.
      - intros (x & Hx%list_elem_of_In & Hsame). apply page_seq_bounds in Hx; [|lia].
        unfold same_page, PAGE_SIZE in Hsame. apply Z.eqb_eq in Hsame. zlia.
      - intros [Hw1 Hw2].
        assert (Hn : PGADDR b + 1 ≤ PGADDR w + 1 ≤ PGADDR (brk t) - PAGE_SIZE + 1).
        { unfold PGADDR, PAGE_SIZE in *. zlia. }
        exists (PGADDR w + 1). split.
        + apply list_elem_of_In. apply page_seq_elem. exists ((PGADDR w - PGADDR b) / 4096).
          unfold page_count, PGADDR, PAGE_SIZE in *. zlia.
        + unfold same_page, PGADDR, PAGE_SIZE. apply Z.eqb_eq. zlia. }
    exists s'. split; [|split; [done|split]].
    + unfold task_brk. rewrite (bind_ret _ _ _ _ _ (get_cur_ok s t Hc)). cbv zeta.
      destruct (Z.eqb_spec b 0); [lia|]. destruct (Z.ltb_spec (brk t) b); [lia|]. destruct (Z.ltb_spec b (brk t)); [|lia].
      rewrite (bind_ret _ _ s tt s').
      2: { rewrite (bind_ret _ _ _ _ _ (set_brk_ok s t b Hc)). fold s1.
           rewrite u32_small by lia. rewrite page_loop_forM by (unfold PAGE_SIZE; lia). exact E. }
      pose proof (mo_cur _ _ _ Hm') as Hc'.
      assert (Ecur : CurrentTask (m_tst s') = CurrentTask (m_tst s)) by (by rewrite Ht').
      rewrite <- Ecur. by rewrite (bind_ret _ _ _ _ _ (get_cur_ok s' _ Hc')).
    + intros w Hw32. specialize (Hw w Hw32). rewrite (Hex w Hw32) in Hw. exact Hw.
    + intros Hna. specialize (Hw (b - 1) ltac:(lia)). rewrite (Hex (b - 1) ltac:(lia)) in Hw.
      destruct (Z.leb_spec (PGADDR b) (b - 1)) as [_|Hle].
      2: { exfalso. unfold PGADDR, PAGE_SIZE in *. zlia. }
      destruct (Z.ltb_spec (b - 1) (PGADDR (brk t))); [exact Hw|lia].
Qed.

Lemma task_brk_shrinks_witness :
  ∃ s', task_brk 1 0x8046800 demo_mach = Ret (0x8046800, s') ∧ walk brk_task s' 0x80467FF = None.
Proof.
  destruct (task_brk_shrinks brk_task demo_mach 0x8046800 6) as (s' & E & _ & _ & Hw); [done|done|done| | |].
  - change (page_count (PGADDR 0x8046800 + 1) (PGADDR (brk brk_task)) + 6)%nat with 8%nat. exact demo_mach_ok.
  - intros v Hv. left. apply demo_pde. change (brk brk_task) with 0x8048000 in Hv. change (PGADDR 0x8046800) with 0x8046000 in Hv. lia.
  - exists s'. split; [exact E|]. clear E. by apply Hw.
Defined.

(** The early allocator never releases anything.  [early_malloc] pushes the
    end of the block on its stack, and [early_free] compares the top of the stack
    with the address of the block it is given, which is its start: freeing the
    block just allocated changes nothing. *)
Theorem early_free_releases_nothing s t n :
  cur_task s = Some t → MMUReady (m_vm s) = false → EarlyMallocEnabled s = true →
  0 < brk t → 0 < n → brk t + n + 2 * PAGE_SIZE ≤ 2 ^ 32 →
  length (AllocStack s) = 4096%nat → 0 ≤ AllocSP s < 4095 →
  ∃ s', early_malloc n s = Ret (brk t, s') ∧ cur_task s' = Some (set_brk (brk t + n) t) ∧
        early_free (brk t) s' = Ret (tt, s').
Proof.
  intros Hc Hr He Hb Hn Hlim Hlen Hsp. unfold PAGE_SIZE in Hlim.
  set (b := brk t + n). set (s1 := rebrk b t s).
  assert (Hc1 : cur_task s1 = Some (set_brk b t)) by apply lookup_insert_eq.
  assert (Hloop : ∀ l, forM l brk_map s1 = Ret (tt, s1)).
  { assert (Hx : ∀ x, brk_map x s1 = Ret (tt, s1)).
    { intros x. unfold brk_map. rewrite (bind_ret _ _ _ _ _ (ready_ok s1)).
      change (MMUReady (m_vm s1)) with (MMUReady (m_vm s)). by rewrite Hr. }
    induction l as [|x l IH]; [done|]. cbn [forM]. by rewrite (bind_ret _ _ _ _ _ (Hx x)). }
  assert (E0 : task_brk (CurrentTask (m_tst s)) 0 s = Ret (brk t, s)).
  { unfold task_brk. rewrite (bind_ret _ _ _ _ _ (get_cur_ok s t Hc)). cbv zeta.
    change (0 =? 0) with true. rewrite (bind_ret _ _ s tt s) by done. by rewrite (bind_ret _ _ _ _ _ (get_cur_ok s t Hc)). }
  assert (E1 : task_brk (CurrentTask (m_tst s)) (brk t +u n) s = Ret (b, s1)).
  { unfold task_brk. rewrite (bind_ret _ _ _ _ _ (get_cur_ok s t Hc)). cbv zeta. rewrite u32_small by lia.
    destruct (Z.eqb_spec (brk t + n) 0); [lia|]. destruct (Z.ltb_spec (brk t) (brk t + n)); [|lia].
    rewrite (bind_ret _ _ s tt s1).
    2: { rewrite (bind_ret _ _ _ _ _ (set_brk_ok s t _ Hc)). fold b s1. unfold PAGE_SIZE.
         rewrite u32_small by lia. rewrite page_loop_forM by (unfold PAGE_SIZE; lia). apply Hloop. }
    change (CurrentTask (m_tst s)) with (CurrentTask (m_tst s1)).
    by rewrite (bind_ret _ _ _ _ _ (get_cur_ok s1 _ Hc1)). }
  set (s2 := with_curbrk b s1).
  set (s3 := with_stack (insertZ (AllocSP s + 1) b (AllocStack s)) (AllocSP s + 1) s2).
  exists s3. split; [|split; [done|]].
  - unfold early_malloc.
    rewrite (bind_ret _ _ s (CurrentTask (m_tst s)) s) by (rewrite (liftT_ok _ s (CurrentTask (m_tst s)) (m_tst s)) by done; by rewrite with_tst_same).
    rewrite (bind_ret _ _ _ _ _ E0), (bind_ret _ _ _ _ _ E1).
    rewrite (bind_ret _ _ s1 tt s2).
    2: { unfold sync_curbrk. rewrite (bind_ret _ _ s1 (set_brk b t) s1); [done|].
         rewrite (liftT_ok _ s1 (set_brk b t) (m_tst s1)) by (by apply current_ok). by rewrite with_tst_same. }
    rewrite (bind_ret _ _ s2 s2 s2) by done.
    rewrite (bind_ret _ _ s2 (insertZ (AllocSP s + 1) b (AllocStack s)) s2) by (apply aset_ok; cbn; rewrite Hlen; lia).
    rewrite (bind_ret _ _ s2 tt s3) by done. unfold mret, M_ret, mret_M. do 2 f_equal.
    unfold b. rewrite u32_small by lia. lia.
  - unfold early_free. rewrite (bind_ret _ _ s3 s3 s3) by done.
    rewrite (bind_ret _ _ s3 b s3).
    2: { apply aget_Some. cbn. apply lookupZ_insert_eq. rewrite Hlen. lia. }
    destruct (Z.eqb_spec b (brk t)); [unfold b in *; lia|done].
Qed.

Lemma early_free_releases_nothing_witness :
  ∃ s', early_malloc 16 (with_vm (with_ready false demo_vm) demo_mach) = Ret (0x8048000, s') ∧
        early_free 0x8048000 s' = Ret (tt, s').
Proof.
  destruct (early_free_releases_nothing (with_vm (with_ready false demo_vm) demo_mach) brk_task 16)
    as (s' & E & _ & E'); try done.
  exists s'. split; [exact E|exact E'].
Defined.

(** A kernel-side allocation can switch tasks.  [leave_kernel] restores
    CurrentTask from UserTask whenever UserTask was ever set, and nothing resets
    it: a malloc made while the kernel task itself runs leaves the last user task
    as the current one. *)
Theorem wrap_malloc_switches_task real_malloc s n m u s1 :
  EarlyMallocEnabled s = false → CurrentTask (m_tst s) = KernelTask_ptr →
  UserTask (m_tst s) = u → u ≠ NULL →
  real_malloc n s = Ret (m, s1) → UserTask (m_tst s1) = u →
  ∃ s2, __wrap_malloc real_malloc n s = Ret (m, s2) ∧ CurrentTask (m_tst s2) = u.
Proof.
  intros He Hc Hu Hn E Hu1. unfold __wrap_malloc. rewrite (bind_ret _ _ s s s) by done. rewrite He.
  rewrite (bind_ret _ _ s tt s).
  2: { unfold enter_kernel. rewrite (bind_ret _ _ s (m_tst s) s).
       - by rewrite Hc, Z.eqb_refl.
       - rewrite (liftT_ok _ s (m_tst s) (m_tst s)) by done. by rewrite with_tst_same. }
  rewrite (bind_ret _ _ _ _ _ E).
  exists (with_tst (set_CurrentTask u (m_tst s1)) s1). split; [|done].
  rewrite (bind_ret _ _ s1 tt (with_tst (set_CurrentTask u (m_tst s1)) s1)); [done|].
  unfold leave_kernel. rewrite (bind_ret _ _ s1 (m_tst s1) s1).
  - rewrite Hu1. destruct (Z.eqb_spec u NULL); [done|]. cbn [negb]. apply liftT_ok. unfold modify. by rewrite Hu1.
  - rewrite (liftT_ok _ s1 (m_tst s1) (m_tst s1)) by done. by rewrite with_tst_same.
Qed.

Lemma wrap_malloc_switches_task_witness :
  ∃ s2, __wrap_malloc (λ n s, Ret (4096, s)) 8
          (with_early false (with_tst (set_UserTask 7 brk_tst) demo_mach)) = Ret (4096, s2) ∧
        CurrentTask (m_tst s2) = 7.
Proof. by eapply wrap_malloc_switches_task. Defined.
