(* ===== verification/Fork.v ===== *)
(** * fork

    [task_fork] of [arch/x86/proc/task.c], [task_fork_context] of
    [arch/x86/proc/context.S] and [sys_fork] of [kernel/syscall/proc.c].  The
    function returns twice: to the parent with the child, and, when the child is
    entered for the first time at the context saved in [task_fork_context], to the
    child, where the test against CurrentTask makes the result 0. *)
From Stdlib Require Import ZArith Lia.
From stdpp Require Import base gmap list list_numbers strings.
From S2P Require Import Prelude Layout FrameAlloc Mmu MmuClone ListHead TaskState Task Sched SysProc Fdio Machine.
Open Scope Z_scope.
Open Scope u32_scope.

(** ** Operations *)

Definition task_fork_context (p : Z) : M mach unit :=
  s ← getS;
  let c := cpu (m_tst s) in
  liftT (upd_task p (λ t, set_resume InFork (set_arch (mkArch (r_esp c) (r_ebp c) (pgd (arch t))) t))) ;;
  dir ← liftV (pg_clone_dir (r_cr3 c));
  liftT (upd_task p (λ t, set_arch (mkArch (esp (arch t)) (ebp (arch t)) dir) t)).

(** The second half, [task_fork_resumed], also runs in the child. *)
Definition task_fork_resumed (clone : Z) : M mach Z :=
  c ← liftT (gets CurrentTask);
  if c =? clone then mret 0 else mret clone.

Definition task_fork : M mach Z :=
  c ← liftT (gets CurrentTask);
  clone ← liftT (task_clone c);
  liftT (task_insert clone) ;;
  task_fork_context clone ;;
  task_fork_resumed clone.

Definition sys_fork_resumed (clone : Z) : M mach Z :=
  if negb (clone =? 0) then t ← liftT (get_task clone); mret (pid t) else mret 0.

Definition sys_fork : M mach Z :=
  clone ← task_fork;
  sys_fork_resumed clone.

(** ** Properties *)

(** Inserting an element changes no task but for its links. *)
Lemma task_insert_ok s l p t :
  ring s (CurrentTask s :: l) → tasks s !! p = Some t → p ∉ CurrentTask s :: l → p ≠ NULL →
  ∃ s', task_insert p s = Ret (tt, s') ∧ ring s' (CurrentTask s :: p :: l) ∧ links_only s s'.
Proof.
  intros Hr Et Hn Hp.
  destruct (list_insert_after_ok s (CurrentTask s) l p (list_next_of t, list_prev_of t) Hr)
    as (s' & E & Hr' & _); [cbn; unfold tst_links; by rewrite Et|done|done|].
  exists s'. split; [|split; [done|]].
  - unfold task_insert. by rewrite (bind_ret _ _ s (CurrentTask s) s).
  - revert E. unfold list_insert_after.
    assert (K : moves links_only (list_insert_after (S := tst) (CurrentTask s) p)) by (unfold list_insert_after; moves).
    intros E. by eapply K.
Qed.

(** The child's control block in the map does not disturb the ring. *)
Lemma clone_ring u u1 cp l cur t0 :
  tasks u !! cp = Some cur → ring u (cp :: l) → heap u ∉ cp :: l →
  tasks u1 = <[heap u := t0]> (<[cp := set_childcount (s32 (childcount cur + 1)) cur]> (tasks u)) →
  ring u1 (cp :: l).
Proof.
  intros Ec Hr Hn Ht. apply (ring_frame u); [|done]. intros p Hp. cbn. unfold tst_links. rewrite Ht.
  rewrite lookup_insert_ne by (by intros <-). destruct (decide (p = cp)) as [->|Hne].
  - by rewrite lookup_insert_eq, Ec.
  - by rewrite lookup_insert_ne.
Qed.

Lemma fork_context_ok s ch t n k :
  tasks (m_tst s) !! ch = Some t →
  vm_ok (6 + n) (dir_cost (phys (m_vm s)) (r_cr3 (cpu (m_tst s))) + k) (m_vm s) →
  clonable (m_vm s) (r_cr3 (cpu (m_tst s))) →
  ∃ s' t', task_fork_context ch s = Ret (tt, s') ∧ CurrentTask (m_tst s') = CurrentTask (m_tst s) ∧
    (∀ l, ring (m_tst s) l → ring (m_tst s') l) ∧ tasks (m_tst s') = <[ch := t']> (tasks (m_tst s)) ∧
    (cpu (m_tst s') = cpu (m_tst s) ∧ heap (m_tst s') = heap (m_tst s)) ∧
    t' = set_resume InFork (set_arch (mkArch (r_esp (cpu (m_tst s))) (r_ebp (cpu (m_tst s))) (pgd (arch t'))) t) ∧
    fresh_frame (m_vm s) (m_vm s') (pgd (arch t')) ∧ grow (m_vm s) (m_vm s') ∧
    entries_copied table_copied own_table (m_vm s) (m_vm s') (r_cr3 (cpu (m_tst s))) (pgd (arch t')) 1024.
Proof.
  intros Et Hvm Hcl. set (c := cpu (m_tst s)) in *.
  set (f := λ t, set_resume InFork (set_arch (mkArch (r_esp c) (r_ebp c) (pgd (arch t))) t)).
  destruct (pg_clone_dir_ok n k (m_vm s) (r_cr3 c) Hvm Hcl) as (d & v' & E & _ & _ & _ & Hg & Hf & Hec).
  set (g := λ t, set_arch (mkArch (esp (arch t)) (ebp (arch t)) d) t).
  set (u1 := set_tasks (<[ch := f t]> (tasks (m_tst s))) (m_tst s)).
  set (u2 := set_tasks (<[ch := g (f t)]> (tasks (m_tst s))) (m_tst s)).
  exists (with_tst u2 (with_vm v' (with_tst u1 s))), (g (f t)).
  split; [|split; [done|split; [|do 3 (split; [done|]); done]]].
  - unfold task_fork_context. rewrite (bind_ret _ _ s s s) by done. fold c.
    rewrite (bind_ret _ _ _ _ _ (liftT_ok _ s tt u1 (upd_task_ok _ ch f t Et))).
    rewrite (bind_ret _ _ _ _ _ (liftV_ok (pg_clone_dir (r_cr3 c)) (with_tst u1 s) d v' E)).
    apply liftT_ok. by apply upd_task_again.
  - intros l. apply ring_same_links. intros q tq Eq. cbn. destruct (decide (q = ch)) as [->|].
    + rewrite lookup_insert_eq. eexists. split; [done|]. rewrite Et in Eq. by injection Eq as <-.
    + rewrite lookup_insert_ne by done. by exists tq.
Qed.

Lemma fork_child_result ch s2 : CurrentTask (m_tst s2) = ch →
  (c ← task_fork_resumed ch; sys_fork_resumed c) s2 = Ret (0, s2).
Proof.
  intros Hc. rewrite (bind_ret _ _ s2 0 s2); [done|]. unfold task_fork_resumed.
  rewrite (bind_ret _ _ s2 ch s2); [by rewrite Z.eqb_refl|].
  rewrite (liftT_ok _ s2 ch (m_tst s2)) by (unfold gets; congruence). by rewrite with_tst_same.
Qed.

(** Everything [task_fork] does: [t] is the child. *)
Record forked (s : mach) (l : list Z) (cur : task) (s' : mach) (t : task) : Prop := {
  fk_cur : CurrentTask (m_tst s') = CurrentTask (m_tst s);
  fk_cpu : cpu (m_tst s') = cpu (m_tst s);
  fk_heap : heap (m_tst s) < heap (m_tst s');
  fk_ring : ring (m_tst s') (CurrentTask (m_tst s) :: heap (m_tst s) :: l);
  fk_child : tasks (m_tst s') !! heap (m_tst s) = Some t;
  fk_parent : ∃ c, tasks (m_tst s') !! CurrentTask (m_tst s) = Some c ∧ relinked (set_childcount (s32 (childcount cur + 1)) cur) c;
  fk_others p x : p ≠ CurrentTask (m_tst s) → p ≠ heap (m_tst s) → tasks (m_tst s) !! p = Some x → ∃ y, tasks (m_tst s') !! p = Some y ∧ relinked x y;
  fk_back p y : p ≠ CurrentTask (m_tst s) → p ≠ heap (m_tst s) → tasks (m_tst s') !! p = Some y → ∃ x, tasks (m_tst s) !! p = Some x ∧ relinked x y;
  fk_id : pid t = next_pid (m_tst s) ∧ ppid t = pid cur ∧ state t = TaskReady ∧ resume t = InFork;
  fk_signals : sigpend t = sigpend cur ∧ sigact t = sigact cur;
  fk_context : esp (arch t) = r_esp (cpu (m_tst s)) ∧ ebp (arch t) = r_ebp (cpu (m_tst s));
  fk_frame : fresh_frame (m_vm s) (m_vm s') (pgd (arch t));
  fk_grow : grow (m_vm s) (m_vm s');
  fk_space : entries_copied table_copied own_table (m_vm s) (m_vm s') (r_cr3 (cpu (m_tst s))) (pgd (arch t)) 1024
}.

Lemma task_fork_ok s l cur tbl n k :
  ring (m_tst s) (CurrentTask (m_tst s) :: l) → fd_ok (m_tst s) cur tbl →
  (∀ p, p ∈ CurrentTask (m_tst s) :: l → p < heap (m_tst s)) → 0 < heap (m_tst s) →
  fdnext cur ≤ fdcap cur → (∀ d, d ∈ tbl → d ≠ 0 → is_Some (fdescrs (m_tst s) !! d)) →
  vm_ok (6 + n) (dir_cost (phys (m_vm s)) (r_cr3 (cpu (m_tst s))) + k) (m_vm s) →
  clonable (m_vm s) (r_cr3 (cpu (m_tst s))) →
  ∃ s' t, task_fork s = Ret (heap (m_tst s), s') ∧ forked s l cur s' t.
Proof.
  intros Hr Hfd Hheap Hpos Hnx Hall Hvm Hcl.
  set (u := m_tst s) in *. set (cp := CurrentTask u) in *. set (ch := heap u) in *.
  assert (Hcp : cp < ch) by (apply Hheap; left).
  assert (Hch : ch ∉ cp :: l) by (intros Hi; apply Hheap in Hi; lia).
  destruct (task_clone_ok u cur tbl cp Hfd Hcp Hnx Hall) as (u1 & t0 & E1 & (Hc1 & Hcpu1 & Hh1) & Ht1 & Hf & _).
  destruct Hf as (Fpid & Fppid & _ & Fstate & _ & _ & _ & _ & Fact & _ & _ & _ & Fpend & _).
  assert (Hr1 : ring u1 (cp :: l)) by (apply (clone_ring u u1 cp l cur t0); [apply Hfd|done|done|done]).
  assert (Et1 : tasks u1 !! ch = Some t0) by (rewrite Ht1; apply lookup_insert_eq).
  fold cp in Hc1. rewrite <- Hc1 in Hr1, Hch.
  destruct (task_insert_ok u1 l ch t0 Hr1 Et1 Hch) as (u2 & E2 & Hr2 & Hl2); [unfold NULL; lia|].
  destruct (lo_tasks _ _ Hl2 ch t0 Et1) as (t2 & Et2 & Hrl2).
  assert (Hcpu2 : cpu u2 = cpu u) by (by rewrite (lo_cpu _ _ Hl2)).
  assert (Hc2 : CurrentTask u2 = cp) by (by rewrite (lo_cur _ _ Hl2)).
  destruct (fork_context_ok (with_tst u2 s) ch t2 n k) as (s' & t' & E3 & Hc3 & Hr3 & Et3 & [Hcpu3 Hh3] & Ht3 & Hvm3);
    [done|by cbn; rewrite Hcpu2|by cbn; rewrite Hcpu2|].
  cbn [m_tst with_tst m_vm] in *. rewrite Hcpu2 in *. destruct Hvm3 as (Hfresh & Hg & Hec).
  exists s', t'. split.
  - unfold task_fork. rewrite (bind_ret _ _ s cp s) by (rewrite (liftT_ok _ s cp (m_tst s)) by done; by rewrite with_tst_same).
    rewrite (bind_ret _ _ _ _ _ (liftT_ok _ s _ _ E1)).
    rewrite (bind_ret _ _ _ _ _ (liftT_ok _ (with_tst u1 s) _ _ E2)).
    rewrite (bind_ret _ _ _ _ _ E3). unfold task_fork_resumed.
    assert (Egc : liftT (gets CurrentTask) s' = Ret (cp, s')).
    { rewrite (liftT_ok _ s' cp (m_tst s')) by (unfold gets; by rewrite Hc3, Hc2). by rewrite with_tst_same. }
    rewrite (bind_ret _ _ _ _ _ Egc). cbv beta. fold u. fold ch. by rewrite (proj2 (Z.eqb_neq cp ch)) by lia.
  - assert (Hold : ∀ p x, p ≠ ch → tasks u1 !! p = Some x → ∃ y, tasks (m_tst s') !! p = Some y ∧ relinked x y).
    { intros p x Hp Ex. rewrite Et3, lookup_insert_ne by done. by apply Hl2. }
    split; fold u; fold cp; fold ch; try congruence.
    + pose proof (lo_rest _ _ Hl2) as Hrest. unfold tst_rest in Hrest. rewrite Hh3. assert (heap u2 = heap u1) as -> by congruence. lia.
    + apply Hr3. by rewrite <- Hc1.
    + rewrite Et3. apply lookup_insert_eq.
    + apply Hold; [lia|]. rewrite Ht1. fold ch. fold cp. rewrite lookup_insert_ne by lia. apply lookup_insert_eq.
    + intros p x Hp1 Hp2 Ex. apply Hold; [done|]. rewrite Ht1. fold ch. fold cp. by rewrite !lookup_insert_ne by done.
    + intros p y Hp1 Hp2. rewrite Et3, lookup_insert_ne by done. intros Ey. destruct (lo_back _ _ Hl2 p y Ey) as (x & Ex & Hx).
      exists x. split; [|done]. rewrite Ht1 in Ex. fold ch in Ex. fold cp in Ex. by rewrite !lookup_insert_ne in Ex by done.
    + rewrite Ht3. destruct Hrl2 as (a & b & ->). cbn. done.
    + rewrite Ht3. destruct Hrl2 as (a & b & ->). cbn. done.
    + rewrite Ht3. done.
Qed.

(** The demo address space with a user task on the ring. *)
Definition fork_cur : task :=
  set_list_next_of 1 (set_list_prev_of 1 (set_fdtbl 5 (set_fdcap 4 (set_pid 1 (set_arch (mkArch 0 0 0x1000) (KernelTask 0)))))).
Definition fork_tst : tst :=
  mkTst (<[1 := fork_cur]> ∅) 1 0 2 (<[5 := [6; 0; 0; 0]]> ∅) (<[6 := mkFdescr 77 1]> ∅) 0 10
    (mkCpu 0x800 0x900 0x1000 true) [] [].
Definition fork_mach : mach := mkMach fork_tst clone_vm false [] 0 0.

(** C18: fork.  [sys_fork] returns the new pid to the parent.  The child stands on
    the ring right behind its parent, ready, with the parent's pid as parent pid;
    its context is the parent's current one with the clone of the address space
    the processor uses, and continues in [task_fork], where it returns 0.  The
    clone is isolated as [pg_clone_dir] guarantees: every address translates with
    the parent's rights; a private page to a frame that was free before, with the
    same bytes and different from the frames of the other private pages, any other
    page to the parent's frame. *)
Theorem sys_fork_child s l cur tbl n k :
  ring (m_tst s) (CurrentTask (m_tst s) :: l) → fd_ok (m_tst s) cur tbl →
  (∀ p, p ∈ CurrentTask (m_tst s) :: l → p < heap (m_tst s)) → 0 < heap (m_tst s) →
  fdnext cur ≤ fdcap cur → (∀ d, d ∈ tbl → d ≠ 0 → is_Some (fdescrs (m_tst s) !! d)) →
  next_pid (m_tst s) ≠ 0 →
  vm_ok (6 + n) (dir_cost (phys (m_vm s)) (r_cr3 (cpu (m_tst s))) + k) (m_vm s) →
  clonable (m_vm s) (r_cr3 (cpu (m_tst s))) →
  ∃ s' t, sys_fork s = Ret (next_pid (m_tst s), s') ∧
    CurrentTask (m_tst s') = CurrentTask (m_tst s) ∧
    ring (m_tst s') (CurrentTask (m_tst s) :: heap (m_tst s) :: l) ∧
    tasks (m_tst s') !! heap (m_tst s) = Some t ∧
    pid t = next_pid (m_tst s) ∧ ppid t = pid cur ∧ state t = TaskReady ∧ resume t = InFork ∧
    esp (arch t) = r_esp (cpu (m_tst s)) ∧ ebp (arch t) = r_ebp (cpu (m_tst s)) ∧
    fresh_frame (m_vm s) (m_vm s') (pgd (arch t)) ∧ grow (m_vm s) (m_vm s') ∧
    (∀ v, is_u32 v →
      if private (phys (m_vm s)) (r_cr3 (cpu (m_tst s))) v then
        ∃ pa pa' w u, hw_walk (phys (m_vm s)) (r_cr3 (cpu (m_tst s))) v = Some (pa, w, u) ∧
          hw_walk (phys (m_vm s')) (pgd (arch t)) v = Some (pa', w, u) ∧
          used (m_vm s) pa' = false ∧ used (m_vm s') pa' = true ∧
          phys_byte (phys (m_vm s')) pa' = phys_byte (phys (m_vm s)) pa
      else hw_walk (phys (m_vm s')) (pgd (arch t)) v = hw_walk (phys (m_vm s)) (r_cr3 (cpu (m_tst s))) v) ∧
    (∀ v1 v2 pa1 pa2 w1 w2 u1 u2, is_u32 v1 → is_u32 v2 →
      private (phys (m_vm s)) (r_cr3 (cpu (m_tst s))) v1 = true → private (phys (m_vm s)) (r_cr3 (cpu (m_tst s))) v2 = true →
      same_page v1 v2 = false →
      hw_walk (phys (m_vm s')) (pgd (arch t)) v1 = Some (pa1, w1, u1) →
      hw_walk (phys (m_vm s')) (pgd (arch t)) v2 = Some (pa2, w2, u2) → page_of pa1 ≠ page_of pa2) ∧
    ∀ s2, CurrentTask (m_tst s2) = heap (m_tst s) →
      (c ← task_fork_resumed (heap (m_tst s)); sys_fork_resumed c) s2 = Ret (0, s2).
Proof.
  intros Hr Hfd Hheap Hpos Hnx Hall Hpid Hvm Hcl.
  destruct (task_fork_ok s l cur tbl n k Hr Hfd Hheap Hpos Hnx Hall Hvm Hcl) as (s' & t & E & Hf).
  destruct (fk_id _ _ _ _ _ Hf) as (P1 & P2 & P3 & P4). destruct (fk_context _ _ _ _ _ Hf) as (P5 & P6).
  exists s', t. split; [|split; [apply Hf|split; [apply Hf|split; [apply Hf|]]]].
  - unfold sys_fork. rewrite (bind_ret _ _ _ _ _ E). unfold sys_fork_resumed. rewrite (proj2 (Z.eqb_neq _ 0)) by lia. cbn [negb].
    rewrite (bind_ret _ _ s' t s'); [unfold mret, M_ret, mret_M; congruence|].
    rewrite (liftT_ok _ s' t (m_tst s')) by (apply get_task_ok, Hf). by rewrite with_tst_same.
  - do 6 (split; [done|]). split; [apply Hf|]. split; [apply Hf|].
    destruct (cloned_isolated (m_vm s) (m_vm s') _ _ Hcl (fk_grow _ _ _ _ _ Hf) (fk_space _ _ _ _ _ Hf)) as [Hw Ha].
    split; [exact Hw|]. split; [exact Ha|]. by apply fork_child_result.
Qed.

Lemma sys_fork_child_witness :
  ∃ s' t, sys_fork fork_mach = Ret (2, s') ∧ ring (m_tst s') [1; 10] ∧ tasks (m_tst s') !! 10 = Some t ∧
    pid t = 2 ∧ resume t = InFork.
Proof.
  destruct (sys_fork_child fork_mach [] fork_cur [6; 0; 0; 0] 0 0)
    as (s' & t & E & _ & Hr & Et & Hp & _ & _ & Hres & _).
  - split; [done|]. split; apply (bool_decide_unpack _); reflexivity.
  - by split.
  - intros p ->%list_elem_of_singleton. done.
  - done.
  - done.
  - intros d Hd Hn. rewrite !elem_of_cons in Hd.
    destruct Hd as [->|[->|[->|[->|Hd]]]]; try done. by apply not_elem_of_nil in Hd.
  - done.
  - split; [by apply frames_okb_ok|vm_compute; lia|done|vm_compute; lia].
  - exact clone_vm_clonable.
  - exists s', t. exact (conj E (conj Hr (conj Et (conj Hp Hres)))).
Defined.
