(* ===== verification/CStr.v ===== *)
(** * C strings

    What the kernel uses of the C library's string functions: the assembly versions
    of [uClibc/libc/string/i386], instruction by instruction, and [strspn],
    [strpbrk], [strtok_r] and [strtok] in C.  A buffer is a list of unsigned bytes;
    a [char *] into it is an index.  Reading or writing outside the buffer is a
    fault, which also bounds every scan by the length of the buffer. *)
From Stdlib Require Import ZArith Lia.
From stdpp Require Import base list list_numbers.
From S2P Require Import Prelude.
Open Scope Z_scope.
Open Scope u32_scope.

(** ** Operations *)

Definition bufsize (b : list Z) : positive := Pos.of_succ_nat (length b).

(** [repne scasb] for the zero byte, and the length from the counter. *)
Definition strlen {S} (b : list Z) (s : Z) : M S Z :=
  edi ← while (bufsize b)
    (λ edi, c ← aget b edi; if c =? 0 then mret (inr (edi + 1)) else mret (inl (edi + 1))) s;
  mret (edi - s - 1).

(** [lodsb; scasb; jne]: -1 or 1 from the borrow of the unsigned comparison. *)
Definition strcmp {S} (cs ct : list Z) : M S Z :=
  while (bufsize cs)
    (λ i, al ← aget cs i;
          c ← aget ct i;
          if negb (al =? c) then mret (inr (if al <? c then -1 else 1))
          else if negb (al =? 0) then mret (inl (i + 1))
          else mret (inr 0)) 0.

(** [lodsb; stosb; testb]; the destination comes back. *)
Definition strcpy {S} (dest src : list Z) : M S (list Z) :=
  while (bufsize src)
    (λ st : Z * list Z,
       al ← aget src st.1;
       d ← aset st.2 st.1 al;
       if negb (al =? 0) then mret (inl (st.1 + 1, d)) else mret (inr d)) (0, dest).

(** [rep stosb] of [n] bytes [x] from [i] on. *)
Definition rep_stosb {S} (dest : list Z) (i n x : Z) : M S (list Z) :=
  while (bufsize dest)
    (λ st : Z * list Z,
       let (k, d) := st in
       if k =? n then mret (inr d)
       else d ← aset d (i + k) x; mret (inl (k + 1, d))) (0, dest).

(** [subl $1, %ecx; jc; lodsb; stosb; testb; jnz], then the padding. *)
Definition strncpy {S} (dest src : list Z) (count : Z) : M S (list Z) :=
  while (bufsize dest)
    (λ st : Z * list Z,
       let (i, d) := st in
       if i =? count then mret (inr d)
       else
         al ← aget src i;
         d ← aset d i al;
         if negb (al =? 0) then mret (inl (i + 1, d))
         else d ← rep_stosb d (i + 1) (count - (i + 1)) al; mret (inr d)) (0, dest).

Definition strspn {S} (b : list Z) (s : Z) (accept : list Z) : M S Z :=
  while (bufsize b)
    (λ st : Z * Z,
       let (p, count) := st in
       c ← aget b p;
       if c =? 0 then mret (inr count)
       else
         a ← while (bufsize accept)
           (λ a, d ← aget accept a;
                 if d =? 0 then mret (inr a) else if c =? d then mret (inr a) else mret (inl (a + 1))) 0;
         d ← aget accept a;
         if d =? 0 then mret (inr count) else mret (inl (p + 1, count + 1))) (s, 0).

Definition strpbrk {S} (b : list Z) (s1 : Z) (s2 : list Z) : M S (option Z) :=
  while (bufsize b)
    (λ s,
       c ← aget b s;
       if c =? 0 then mret (inr None)
       else
         found ← while (bufsize s2)
           (λ p, d ← aget s2 p;
                 if d =? 0 then mret (inr false) else if d =? c then mret (inr true) else mret (inl (p + 1))) 0;
         if (found : bool) then mret (inr (Some s)) else mret (inl (s + 1))) s1.

(** [strtok]'s buffer and its static [next_start]. *)
Record tokst : Type := mkTokst { tbuf : list Z; next_start : option Z }.

(** [strtok_r] with [save_ptr] pointing to [next_start]. *)
Definition strtok_r (s : option Z) (delim : list Z) : M tokst (option Z) :=
  t ← getS;
  s ← (match s with None => need NullDeref (next_start t) | Some s => mret s end);
  n ← strspn (tbuf t) s delim;
  let s := s + n in
  c ← aget (tbuf t) s;
  if c =? 0 then putS (mkTokst (tbuf t) (Some s)) ;; mret None
  else
    let token := s in
    r ← strpbrk (tbuf t) token delim;
    match r with
    | None =>
        n ← strlen (tbuf t) token;   (* rawmemchr for the zero byte *)
        putS (mkTokst (tbuf t) (Some (token + n))) ;;
        mret (Some token)
    | Some s =>
        b ← aset (tbuf t) s 0;
        putS (mkTokst b (Some (s + 1))) ;;
        mret (Some token)
    end.

Definition strtok (s : option Z) (delim : list Z) : M tokst (option Z) := strtok_r s delim.

(** ** Specification *)

(** The string in a buffer: what stands before the first zero. *)
Fixpoint cstr (b : list Z) : list Z :=
  match b with
  | [] => []
  | c :: b' => if c =? 0 then [] else c :: cstr b'
  end.

(** The bytes from an index on. *)
Definition from (i : Z) (b : list Z) : list Z := drop (Z.to_nat i) b.
Definition terminated (b : list Z) : Prop := 0 ∈ b.

Definition in_set (set : list Z) (c : Z) : bool := existsb (Z.eqb c) set.

(** The non-empty pieces between delimiters. *)
Fixpoint components (d : Z → bool) (x : list Z) : list (list Z) :=
  match x with
  | [] => []
  | c :: x' =>
      if d c then components d x'
      else match x' with
           | c' :: _ =>
               if d c' then [c] :: components d x'
               else match components d x' with
                    | t :: ts => (c :: t) :: ts
                    | [] => [[c]]
                    end
           | [] => [[c]]
           end
  end.

Definition nonzero (x : list Z) : Prop := Forall (λ c, c ≠ 0) x.

(** ** The string in a buffer *)

Lemma cstr_split b : terminated b → ∃ r, b = cstr b ++ 0 :: r.
Proof.
  unfold terminated. induction b as [|c b IH]; [by intros ?%not_elem_of_nil|]. cbn.
  destruct (Z.eqb_spec c 0) as [->|]; [by exists b|].
  intros [Hc|Hb]%elem_of_cons; [lia|]. destruct (IH Hb) as [r Er]. exists r. by rewrite Er at 1.
Qed.

Lemma cstr_nonzero b : nonzero (cstr b).
Proof.
  unfold nonzero. induction b as [|c b IH]; cbn; [constructor|].
  destruct (Z.eqb_spec c 0); by constructor.
Qed.

Lemma cstr_app x r : nonzero x → cstr (x ++ 0 :: r) = x.
Proof.
  induction 1 as [|c x Hc _ IH]; cbn; [done|]. destruct (Z.eqb_spec c 0); [done|]. by rewrite IH.
Qed.

Lemma cstr_length b : terminated b → Z.of_nat (length (cstr b)) < Z.of_nat (length b).
Proof. intros [r Er]%cstr_split. rewrite Er at 2. rewrite length_app. cbn. lia. Qed.

Lemma lookup_from b i k : 0 ≤ i → 0 ≤ k → lookupZ (from i b) k = lookupZ b (i + k).
Proof.
  intros ??. unfold lookupZ, from. zcase; try lia. rewrite lookup_drop. f_equal. lia.
Qed.

(** The bytes of the string and its end, read through an index. *)
Lemma aget_cstr {S} (b : list Z) i n (s : S) :
  0 ≤ i → terminated (from i b) → (n ≤ length (cstr (from i b)))%nat →
  aget b (i + Z.of_nat n) s = Ret (nth n (cstr (from i b)) 0, s).
Proof.
  intros Hi [r Er]%cstr_split Hn. apply aget_Some. rewrite <- lookup_from by lia. rewrite Er at 1.
  destruct (decide (n = length (cstr (from i b)))) as [->|].
  - rewrite lookupZ_app_r, Z.sub_diag by lia. by rewrite nth_overflow by lia.
  - rewrite lookupZ_app_l by lia. unfold lookupZ. rewrite Nat2Z.id. destruct (Z.leb_spec 0 (Z.of_nat n)); [|lia].
    apply lookup_nth. lia.
Qed.

Lemma nth_cstr_nonzero b n : (n < length (cstr b))%nat → nth n (cstr b) 0 ≠ 0.
Proof.
  intros Hn. pose proof (cstr_nonzero b) as H. unfold nonzero in H. rewrite Forall_forall in H. apply H.
  apply list_elem_of_lookup. exists n. by apply lookup_nth.
Qed.

Lemma bufsize_bound b i : terminated (from i b) → (length (cstr (from i b)) < Pos.to_nat (bufsize b))%nat.
Proof.
  intros H%cstr_length. unfold bufsize. rewrite SuccNat2Pos.id_succ.
  unfold from in *. rewrite length_drop in H. lia.
Qed.

Lemma terminated_from_0 b : terminated b → terminated (from 0 b).
Proof. done. Qed.

(** The same for a buffer read from its start. *)
Lemma aget_cstr0 {S} (b : list Z) n (s : S) :
  terminated b → (n ≤ length (cstr b))%nat → aget b (Z.of_nat n) s = Ret (nth n (cstr b) 0, s).
Proof. intros Ht Hn. exact (aget_cstr b 0 n s ltac:(lia) Ht Hn). Qed.
Lemma bufsize_bound0 b : terminated b → (length (cstr b) < Pos.to_nat (bufsize b))%nat.
Proof. exact (bufsize_bound b 0). Qed.

Lemma strlen_ok {S} (b : list Z) i (s : S) : 0 ≤ i → terminated (from i b) →
  strlen b i s = Ret (Z.of_nat (length (cstr (from i b))), s).
Proof.
  intros Hi Ht. set (x := cstr (from i b)). unfold strlen.
  rewrite (bind_ret _ _ s (i + Z.of_nat (length x) + 1) s).
  { unfold mret, M_ret, mret_M. do 2 f_equal. lia. }
  apply (while_scan _ (λ k, i + Z.of_nat k) _ (length x)); [lia| | |by apply bufsize_bound].
  - intros k Hk. rewrite (bind_ret _ _ _ _ _ (aget_cstr b i k s Hi Ht ltac:(subst x; lia))). fold x.
    pose proof (nth_cstr_nonzero _ _ Hk). destruct (Z.eqb_spec (nth k x 0) 0); [done|].
    unfold mret, M_ret, mret_M. do 3 f_equal. lia.
  - rewrite (bind_ret _ _ _ _ _ (aget_cstr b i _ s Hi Ht ltac:(done))). fold x. by rewrite nth_overflow by lia.
Qed.

(** Comparing reads both strings up to the first difference. *)
Fixpoint str_compare (x y : list Z) : Z :=
  match x, y with
  | [], [] => 0
  | [], _ :: _ => -1
  | _ :: _, [] => 1
  | a :: x', c :: y' => if a =? c then str_compare x' y' else if a <? c then -1 else 1
  end.

Lemma str_compare_eq x y : str_compare x y = 0 ↔ x = y.
Proof.
  revert y. induction x as [|a x IH]; intros [|c y]; cbn; try done.
  destruct (Z.eqb_spec a c) as [->|Hne].
  - rewrite IH. split; [by intros ->|by intros [=]].
  - destruct (a <? c); (split; [done|by intros [=]]).
Qed.

Fixpoint common (x y : list Z) : nat :=
  match x, y with
  | a :: x', c :: y' => if a =? c then Datatypes.S (common x' y') else 0
  | _, _ => 0
  end.

Lemma common_le x y : (common x y ≤ length x ∧ common x y ≤ length y)%nat.
Proof.
  revert y. induction x as [|a x IH]; intros [|c y]; cbn; try lia. destruct (a =? c); [|lia]. specialize (IH y). lia.
Qed.
Lemma common_agree x y k : (k < common x y)%nat → nth k x 0 = nth k y 0.
Proof.
  revert y k. induction x as [|a x IH]; intros [|c y] k; cbn; try lia.
  destruct (Z.eqb_spec a c) as [->|]; [|lia]. destruct k; [done|]. intros. apply IH. lia.
Qed.

(** What decides the comparison is the pair of bytes behind the common part. *)
Lemma common_decides x y : nonzero x → nonzero y → Forall (λ c, 0 ≤ c) x → Forall (λ c, 0 ≤ c) y →
  let a := nth (common x y) x 0 in let c := nth (common x y) y 0 in
  str_compare x y = (if a =? c then 0 else if a <? c then -1 else 1) ∧ (a = c → a = 0).
Proof.
  intros Hx. revert y. induction Hx as [|a x Ha _ IH]; intros y Hy Px Py.
  - destruct y as [|c y]; cbn -[Z.eqb Z.ltb]; [done|]. apply Forall_cons in Hy as [Hc _]. apply Forall_cons in Py as [? _]. zcase; lia.
  - apply Forall_cons in Px as [? Px]. destruct y as [|c y]; cbn -[Z.eqb Z.ltb]; [zcase; lia|].
    apply Forall_cons in Hy as [Hc Hy]. apply Forall_cons in Py as [? Py].
    destruct (Z.eqb_spec a c) as [->|Hne]; [exact (IH y Hy Px Py)|]. cbn -[Z.eqb Z.ltb]. zcase; lia.
Qed.

Definition bytes (b : list Z) : Prop := Forall (λ c, 0 ≤ c < 256) b.

Lemma cstr_bytes b : bytes b → Forall (λ c, 0 ≤ c) (cstr b).
Proof.
  induction 1 as [|c b Hc _ IH]; cbn; [constructor|]. destruct (c =? 0); constructor; [lia|done].
Qed.

Lemma strcmp_ok {S} (x y : list Z) (s : S) : terminated x → terminated y → bytes x → bytes y →
  strcmp x y s = Ret (str_compare (cstr x) (cstr y), s).
Proof.
  intros Hx Hy Bx By. change x with (from 0 x) in Hx. change y with (from 0 y) in Hy.
  set (n := common (cstr (from 0 x)) (cstr (from 0 y))).
  destruct (common_le (cstr (from 0 x)) (cstr (from 0 y))) as [Lx Ly]. fold n in Lx, Ly.
  destruct (common_decides (cstr x) (cstr y) (cstr_nonzero x) (cstr_nonzero y) (cstr_bytes x Bx) (cstr_bytes y By)) as [Ec Ez].
  apply (while_scan _ (λ k, Z.of_nat k) _ n); [done| | |pose proof (bufsize_bound x 0 Hx); lia].
  - intros k Hk.
    pose proof (common_agree _ _ k Hk) as Ea. pose proof (nth_cstr_nonzero (from 0 x) k ltac:(lia)).
    rewrite (bind_ret _ _ _ _ _ (aget_cstr x 0 k s ltac:(lia) Hx ltac:(lia))).
    rewrite (bind_ret _ _ _ _ _ (aget_cstr y 0 k s ltac:(lia) Hy ltac:(lia))).
    rewrite <- Ea, Z.eqb_refl. destruct (Z.eqb_spec (nth k (cstr (from 0 x)) 0) 0); [done|]. cbn [negb].
    unfold mret, M_ret, mret_M. do 3 f_equal. lia.
  - rewrite (bind_ret _ _ _ _ _ (aget_cstr x 0 n s ltac:(lia) Hx Lx)).
    rewrite (bind_ret _ _ _ _ _ (aget_cstr y 0 n s ltac:(lia) Hy Ly)).
    change (from 0 x) with x in *. change (from 0 y) with y in *. fold n in Ec, Ez. rewrite Ec.
    destruct (Z.eqb_spec (nth n (cstr x) 0) (nth n (cstr y) 0)) as [E|]; cbn [negb]; [|done].
    rewrite (Ez E). done.
Qed.

Lemma strcpy_ok {S} (dest src : list Z) (s : S) :
  terminated src → (length (cstr src) < length dest)%nat →
  strcpy dest src s = Ret (cstr src ++ 0 :: drop (Datatypes.S (length (cstr src))) dest, s).
Proof.
  intros Ht Hl. set (x := cstr src) in *.
  apply (while_scan _ (λ k, (Z.of_nat k, take k x ++ drop k dest)) _ (length x)); [done| | |exact (bufsize_bound0 src Ht)].
  - intros k Hk. cbn [fst snd]. rewrite (bind_ret _ _ _ _ _ (aget_cstr0 src k s Ht ltac:(subst x; lia))). fold x.
    rewrite (bind_ret _ _ s (take (Datatypes.S k) x ++ drop (Datatypes.S k) dest) s).
    + pose proof (nth_cstr_nonzero src k Hk). fold x in H. destruct (Z.eqb_spec (nth k x 0) 0); [done|]. cbn [negb].
      unfold mret, M_ret, mret_M. do 4 f_equal. lia.
    + rewrite aset_ok by (rewrite length_app, length_take, length_drop; lia). do 2 f_equal.
      destruct (lookup_lt_is_Some_2 dest k ltac:(lia)) as [w Ew]. rewrite (drop_S _ _ _ Ew).
      rewrite insertZ_middle by (rewrite length_take; lia).
      rewrite (take_S_r _ _ (nth k x 0)) by (by apply lookup_nth). by rewrite <- app_assoc.
  - cbn [fst snd]. rewrite (bind_ret _ _ _ _ _ (aget_cstr0 src (length x) s Ht ltac:(done))). fold x. rewrite nth_overflow by lia.
    destruct (lookup_lt_is_Some_2 dest (length x) Hl) as [w Ew]. rewrite (drop_S _ _ _ Ew), firstn_all.
    rewrite (bind_ret _ _ s (x ++ 0 :: drop (Datatypes.S (length x)) dest) s); [done|].
    rewrite aset_ok by (rewrite length_app; cbn; lia). do 2 f_equal. apply insertZ_middle. done.
Qed.

(** A name that is too long for its buffer. *)
Lemma strcpy_overflow {S} (dest src : list Z) (s : S) :
  terminated src → (length dest ≤ length (cstr src))%nat → strcpy dest src s = Fault OutOfBounds.
Proof.
  intros Ht Hl. set (x := cstr src) in *. unfold strcpy.
  assert (Hgo : ∀ k, (k ≤ length dest)%nat → ∃ d, length d = length dest ∧
    run_nat (B := list Z) k (λ st : Z * list Z, al ← aget src st.1; d ← aset st.2 st.1 al;
      if negb (al =? 0) then mret (inl (st.1 + 1, d)) else mret (inr d)) (0, dest) s = Ret (inl (Z.of_nat k, d), s)).
  { induction k as [|k IH]; intros Hk; [by exists dest|]. destruct (IH ltac:(lia)) as (d & Ld & E).
    exists (insertZ (Z.of_nat k) (nth k x 0) d). split; [by rewrite length_insertZ|].
    eapply run_nat_snoc; [exact E|]. cbn [fst snd].
    rewrite (bind_ret _ _ _ _ _ (aget_cstr0 src k s Ht ltac:(subst x; lia))).
    rewrite (bind_ret _ _ _ _ _ (aset_ok d (Z.of_nat k) _ s ltac:(lia))). fold x.
    pose proof (nth_cstr_nonzero src k ltac:(subst x; lia)). fold x in H. destruct (Z.eqb_spec (nth k x 0) 0); [done|].
    cbn [negb]. unfold mret, M_ret, mret_M. do 4 f_equal. lia. }
  destruct (Hgo (length dest) ltac:(lia)) as (d & Ld & E).
  apply (while_steps_fault _ _ (length dest) _ _ _ _ _ E).
  { pose proof (bufsize_bound0 src Ht). subst x. lia. }
  cbn [fst snd]. rewrite (bind_ret _ _ _ _ _ (aget_cstr0 src (length dest) s Ht ltac:(subst x; lia))).
  apply bind_fault. apply aset_oob. lia.
Qed.

(** The bytes of a list replaced from [i] on. *)
Lemma rep_stosb_ok {S} (dest : list Z) i n x (s : S) :
  (i + n ≤ length dest)%nat →
  rep_stosb dest (Z.of_nat i) (Z.of_nat n) x s = Ret (take i dest ++ replicate n x ++ drop (i + n) dest, s).
Proof.
  intros Hn. unfold rep_stosb.
  apply (while_scan _ (λ k, (Z.of_nat k, take i dest ++ replicate k x ++ drop (i + k) dest)) _ n); [|intros k Hk| |unfold bufsize; lia].
  - cbn [replicate app]. by rewrite Nat.add_0_r, take_drop.
  - rewrite (proj2 (Z.eqb_neq _ _)) by lia.
    rewrite (bind_ret _ _ s (take i dest ++ replicate (Datatypes.S k) x ++ drop (i + Datatypes.S k)%nat dest) s).
    + unfold mret, M_ret, mret_M. do 4 f_equal. lia.
    + rewrite aset_ok by (rewrite !length_app, length_take, length_replicate, length_drop; lia). do 2 f_equal.
      destruct (lookup_lt_is_Some_2 dest (i + k) ltac:(lia)) as [w Ew]. rewrite (drop_S _ _ _ Ew), app_assoc.
      rewrite insertZ_middle by (rewrite length_app, length_take, length_replicate; lia).
      rewrite replicate_S_end, <- !app_assoc. cbn [app]. by replace (i + Datatypes.S k)%nat with (Datatypes.S (i + k)) by lia.
  - by rewrite Z.eqb_refl.
Qed.

(** The string, cut off or padded with zeros to [count] bytes. *)
Lemma strncpy_ok {S} (dest src : list Z) count (s : S) :
  terminated src → (count ≤ length dest)%nat →
  strncpy dest src (Z.of_nat count) s =
    Ret (take count (cstr src) ++ replicate (count - length (cstr src)) 0 ++ drop count dest, s).
Proof.
  intros Ht Hc. set (x := cstr src) in *. unfold strncpy.
  apply (while_scan _ (λ k, (Z.of_nat k, take k x ++ drop k dest)) _ (Nat.min count (length x))); [done|intros k Hk| |unfold bufsize; lia].
  - rewrite (proj2 (Z.eqb_neq _ _)) by lia.
    rewrite (bind_ret _ _ _ _ _ (aget_cstr0 src k s Ht ltac:(subst x; lia))). fold x.
    rewrite (bind_ret _ _ s (take (Datatypes.S k) x ++ drop (Datatypes.S k) dest) s).
    + pose proof (nth_cstr_nonzero src k ltac:(subst x; lia)). fold x in H. destruct (Z.eqb_spec (nth k x 0) 0); [done|]. cbn [negb].
      unfold mret, M_ret, mret_M. do 4 f_equal. lia.
    + rewrite aset_ok by (rewrite length_app, length_take, length_drop; lia). do 2 f_equal.
      destruct (lookup_lt_is_Some_2 dest k ltac:(lia)) as [w Ew]. rewrite (drop_S _ _ _ Ew).
      rewrite insertZ_middle by (rewrite length_take; lia).
      rewrite (take_S_r _ _ (nth k x 0)) by (apply lookup_nth; lia). by rewrite <- app_assoc.
  - destruct (Nat.le_gt_cases count (length x)) as [Hle|Hgt].
    + rewrite Nat.min_l by done. rewrite Z.eqb_refl. by replace (count - length x)%nat with 0%nat by lia.
    + rewrite Nat.min_r by lia. rewrite (proj2 (Z.eqb_neq _ _)) by lia.
      rewrite (bind_ret _ _ _ _ _ (aget_cstr0 src (length x) s Ht ltac:(done))). fold x. rewrite nth_overflow by lia.
      destruct (lookup_lt_is_Some_2 dest (length x) ltac:(lia)) as [w Ew]. rewrite (drop_S _ _ _ Ew), firstn_all.
      rewrite (bind_ret _ _ s (x ++ 0 :: drop (Datatypes.S (length x)) dest) s).
      2:{ rewrite aset_ok by (rewrite length_app; cbn; lia). do 2 f_equal. by apply insertZ_middle. }
      cbn [negb Z.eqb]. rewrite take_ge by lia.
      replace (Z.of_nat (length x) + 1) with (Z.of_nat (Datatypes.S (length x))) by lia.
      replace (Z.of_nat count - Z.of_nat (Datatypes.S (length x))) with (Z.of_nat (count - Datatypes.S (length x))) by lia.
      rewrite (bind_ret _ _ _ _ _ (rep_stosb_ok (x ++ 0 :: drop (Datatypes.S (length x)) dest) (Datatypes.S (length x)) (count - Datatypes.S (length x)) 0 s
        ltac:(rewrite length_app; cbn [length]; rewrite length_drop; lia))).
      unfold mret, M_ret, mret_M. do 3 f_equal.
      change (x ++ 0 :: drop (Datatypes.S (length x)) dest) with (x ++ [0] ++ drop (Datatypes.S (length x)) dest).
      rewrite (app_assoc x [0]). rewrite take_app_length' by (rewrite length_app; cbn; lia).
      rewrite <- app_assoc. f_equal. replace (count - length x)%nat with (Datatypes.S (count - Datatypes.S (length x))) by lia.
      cbn [replicate app]. f_equal. f_equal. rewrite drop_app_ge by (rewrite length_app; cbn; lia).
      rewrite drop_drop. f_equal. rewrite length_app. cbn. lia.
Qed.

(** ** Scanning for sets of characters *)

Fixpoint prefix_len (p : Z → bool) (x : list Z) : nat :=
  match x with c :: x' => if p c then Datatypes.S (prefix_len p x') else 0 | [] => 0 end.

Lemma prefix_len_le p x : (prefix_len p x ≤ length x)%nat.
Proof. induction x as [|c x IH]; cbn; [lia|]. destruct (p c); lia. Qed.
Lemma prefix_len_in p x k : (k < prefix_len p x)%nat → p (nth k x 0) = true.
Proof.
  revert k. induction x as [|c x IH]; intros k; cbn; [lia|]. destruct (p c) eqn:E; [|lia].
  destruct k; [done|]. intros. apply IH. lia.
Qed.
Lemma prefix_len_out p x : (prefix_len p x < length x)%nat → p (nth (prefix_len p x) x 0) = false.
Proof. induction x as [|c x IH]; cbn; [lia|]. destruct (p c) eqn:E; [|done]. intros. apply IH. lia. Qed.

(** The inner loop of [strspn]. *)
Lemma accept_ok {S} (accept : list Z) c (s : S) : terminated accept →
  ∃ a d, while (bufsize accept)
      (λ a, d ← aget accept a;
            if d =? 0 then mret (inr a) else if c =? d then mret (inr a) else mret (inl (a + 1))) 0 s = Ret (a, s) ∧
    aget accept a s = Ret (d, s) ∧ (d =? 0) = negb (in_set (cstr accept) c).
Proof.
  intros Ht. set (x := cstr accept).
  set (n := prefix_len (λ d, negb (c =? d)) x). pose proof (prefix_len_le (λ d, negb (c =? d)) x) as Hn. fold n in Hn.
  exists (Z.of_nat n), (nth n x 0).
  pose proof (aget_cstr0 accept n s Ht ltac:(done)) as Eg. fold x in Eg.
  assert (Hin : (nth n x 0 =? 0) = negb (in_set x c)).
  { clear Eg. unfold n. clear Hn n. pose proof (cstr_nonzero accept) as Hz. fold x in Hz. clearbody x.
    induction Hz as [|d x Hd _ IH]; [done|]. cbn. destruct (Z.eqb_spec c d) as [->|]; cbn; [by apply Z.eqb_neq|exact IH]. }
  split; [|done].
  apply (while_scan _ (λ k, Z.of_nat k) _ n); [done| | |pose proof (bufsize_bound0 accept Ht); subst x; lia].
  - intros k Hk. rewrite (bind_ret _ _ _ _ _ (aget_cstr0 accept k s Ht ltac:(subst x; lia))). fold x.
    pose proof (prefix_len_in _ _ _ Hk) as Hp. cbn in Hp. apply negb_true_iff in Hp. rewrite Hp.
    pose proof (nth_cstr_nonzero accept k ltac:(subst x; lia)). fold x in H. destruct (Z.eqb_spec (nth k x 0) 0); [done|].
    unfold mret, M_ret, mret_M. do 3 f_equal. lia.
  - rewrite (bind_ret _ _ _ _ _ Eg). destruct (Z.eqb_spec (nth n x 0) 0) as [|Hz]; [done|].
    assert (Hlt : (n < length x)%nat).
    { destruct (decide (n < length x)%nat); [done|]. by rewrite nth_overflow in Hz by lia. }
    pose proof (prefix_len_out _ _ Hlt) as Hp. cbn in Hp. apply negb_false_iff in Hp. fold n in Hp. by rewrite Hp.
Qed.

(** The inner loop of [strpbrk]. *)
Lemma pbrk_ok {S} (s2 : list Z) c (s : S) : terminated s2 →
  while (bufsize s2)
    (λ p, d ← aget s2 p;
          if d =? 0 then mret (inr false) else if d =? c then mret (inr true) else mret (inl (p + 1))) 0 s
  = Ret (in_set (cstr s2) c, s).
Proof.
  intros Ht. set (x := cstr s2).
  set (n := prefix_len (λ d, negb (d =? c)) x). pose proof (prefix_len_le (λ d, negb (d =? c)) x) as Hn. fold n in Hn.
  pose proof (aget_cstr0 s2 n s Ht ltac:(done)) as Eg. fold x in Eg.
  assert (Hin : (nth n x 0 =? 0) = negb (in_set x c)).
  { clear Eg. unfold n. clear Hn n. pose proof (cstr_nonzero s2) as Hz. fold x in Hz. clearbody x.
    induction Hz as [|d x Hd _ IH]; [done|]. cbn. rewrite (Z.eqb_sym c d).
    destruct (Z.eqb_spec d c) as [->|]; cbn; [by apply Z.eqb_neq|exact IH]. }
  apply (while_scan _ (λ k, Z.of_nat k) _ n); [done| | |pose proof (bufsize_bound0 s2 Ht); subst x; lia].
  - intros k Hk. rewrite (bind_ret _ _ _ _ _ (aget_cstr0 s2 k s Ht ltac:(subst x; lia))). fold x.
    pose proof (prefix_len_in _ _ _ Hk) as Hp. cbn in Hp. apply negb_true_iff in Hp. rewrite Hp.
    pose proof (nth_cstr_nonzero s2 k ltac:(subst x; lia)). fold x in H. destruct (Z.eqb_spec (nth k x 0) 0); [done|].
    unfold mret, M_ret, mret_M. do 3 f_equal. lia.
  - rewrite (bind_ret _ _ _ _ _ Eg). rewrite Hin. destruct (in_set x c) eqn:Ei; cbn [negb]; [|done].
    assert (Hlt : (n < length x)%nat).
    { destruct (decide (n < length x)%nat); [done|]. by rewrite nth_overflow in Hin by lia. }
    pose proof (prefix_len_out _ _ Hlt) as Hp. cbn in Hp. apply negb_false_iff in Hp. fold n in Hp. by rewrite Hp.
Qed.

Lemma strspn_ok {S} (b : list Z) i accept (s : S) : 0 ≤ i → terminated (from i b) → terminated accept →
  strspn b i accept s = Ret (Z.of_nat (prefix_len (in_set (cstr accept)) (cstr (from i b))), s).
Proof.
  intros Hi Ht Ha. set (x := cstr (from i b)). set (p := in_set (cstr accept)).
  pose proof (prefix_len_le p x) as Hn. set (n := prefix_len p x) in *.
  apply (while_scan _ (λ k, (i + Z.of_nat k, Z.of_nat k)) _ n); [by rewrite Z.add_0_r| | |].
  - intros k Hk. rewrite (bind_ret _ _ _ _ _ (aget_cstr b i k s Hi Ht ltac:(subst x; lia))). fold x.
    pose proof (nth_cstr_nonzero (from i b) k ltac:(subst x; lia)). fold x in H. destruct (Z.eqb_spec (nth k x 0) 0); [done|].
    destruct (accept_ok accept (nth k x 0) s Ha) as (a & d & E1 & E2 & Ed).
    rewrite (bind_ret _ _ _ _ _ E1), (bind_ret _ _ _ _ _ E2), Ed.
    pose proof (prefix_len_in p x k Hk) as Hp. unfold p in Hp. rewrite Hp. cbn [negb].
    unfold mret, M_ret, mret_M. do 4 f_equal; lia.
  - rewrite (bind_ret _ _ _ _ _ (aget_cstr b i n s Hi Ht ltac:(done))). fold x.
    destruct (Z.eqb_spec (nth n x 0) 0); [done|].
    assert (Hlt : (n < length x)%nat).
    { destruct (decide (n < length x)%nat) as [|Hge]; [done|]. exfalso. apply n0. by apply nth_overflow; lia. }
    destruct (accept_ok accept (nth n x 0) s Ha) as (a & d & E1 & E2 & Ed).
    rewrite (bind_ret _ _ _ _ _ E1), (bind_ret _ _ _ _ _ E2), Ed.
    assert (Hp : in_set (cstr accept) (nth n x 0) = false) by exact (prefix_len_out p x Hlt). by rewrite Hp.
  - pose proof (bufsize_bound b i Ht). fold x in H. lia.
Qed.

Lemma strpbrk_ok {S} (b : list Z) i set (s : S) : 0 ≤ i → terminated (from i b) → terminated set →
  let x := cstr (from i b) in let n := prefix_len (λ c, negb (in_set (cstr set) c)) x in
  strpbrk b i set s = Ret (if decide (n = length x) then None else Some (i + Z.of_nat n), s).
Proof.
  intros Hi Ht Ha x n. set (p := λ c, negb (in_set (cstr set) c)) in *.
  pose proof (prefix_len_le p x) as Hn. fold n in Hn.
  apply (while_scan _ (λ k, i + Z.of_nat k) _ n); [by rewrite Z.add_0_r| | |].
  - intros k Hk. rewrite (bind_ret _ _ _ _ _ (aget_cstr b i k s Hi Ht ltac:(subst x; lia))). fold x.
    pose proof (nth_cstr_nonzero (from i b) k ltac:(subst x; lia)). fold x in H. destruct (Z.eqb_spec (nth k x 0) 0); [done|].
    rewrite (bind_ret _ _ _ _ _ (pbrk_ok set (nth k x 0) s Ha)).
    pose proof (prefix_len_in p x k Hk) as Hp. unfold p in Hp. apply negb_true_iff in Hp. rewrite Hp.
    unfold mret, M_ret, mret_M. do 3 f_equal; lia.
  - rewrite (bind_ret _ _ _ _ _ (aget_cstr b i n s Hi Ht ltac:(done))). fold x. case_decide as Hd.
    + by rewrite nth_overflow by lia.
    + assert (Hlt : (n < length x)%nat) by lia.
      pose proof (nth_cstr_nonzero (from i b) n ltac:(done)). fold x in H. destruct (Z.eqb_spec (nth n x 0) 0); [done|].
      rewrite (bind_ret _ _ _ _ _ (pbrk_ok set (nth n x 0) s Ha)).
      assert (Hp : in_set (cstr set) (nth n x 0) = true) by (apply negb_false_iff; exact (prefix_len_out p x Hlt)). by rewrite Hp.
  - pose proof (bufsize_bound b i Ht). fold x in H. lia.
Qed.

(** ** Tokens *)

Lemma components_skip d x : components d x = components d (drop (prefix_len d x) x).
Proof. induction x as [|c x IH]; [done|]. cbn. destruct (d c) eqn:E; [exact IH|]. cbn. by rewrite E. Qed.

Lemma components_step d c x : d c = false →
  let m := prefix_len (λ c, negb (d c)) (c :: x) in
  components d (c :: x) = take m (c :: x) :: components d (drop (Datatypes.S m) (c :: x)).
Proof.
  intros Hc m. subst m. revert c Hc. induction x as [|c' x IH]; intros c Hc.
  - cbn. by rewrite Hc.
  - cbn [components]. rewrite Hc. cbn [prefix_len]. rewrite Hc. cbn [negb].
    destruct (d c') eqn:E'; cbn [negb].
    + reflexivity.
    + specialize (IH c' E'). cbn [components prefix_len] in IH. rewrite E' in IH. cbn [negb] in IH.
      rewrite IH. done.
Qed.

Lemma components_nonempty d c x : d c = false → components d (c :: x) ≠ [].
Proof. intros H. by rewrite components_step. Qed.

Lemma components_length d x : (length (components d x) ≤ length x)%nat.
Proof.
  induction x as [|c x IH]; [done|]. cbn [components]. destruct (d c); cbn [length]; [lia|].
  destruct x as [|c' x]; [done|]. destruct (d c'); cbn [length] in *; [lia|].
  destruct (components d (c' :: x)); cbn [length] in *; lia.
Qed.

Lemma from_from i n b : 0 ≤ i → 0 ≤ n → from (i + n) b = from n (from i b).
Proof. intros ??. unfold from. rewrite drop_drop. f_equal. lia. Qed.

Lemma cstr_drop b n : (n ≤ length (cstr b))%nat → cstr (drop n b) = drop n (cstr b).
Proof.
  revert n. induction b as [|c b IH]; intros n; cbn; [by destruct n|].
  destruct (Z.eqb_spec c 0) as [->|]; cbn; intros Hn.
  - destruct n; [done|lia].
  - destruct n as [|n]; cbn; [destruct (Z.eqb_spec c 0); [done|done]|]. apply IH. lia.
Qed.

Lemma terminated_drop b n : terminated b → (n ≤ length (cstr b))%nat → terminated (drop n b).
Proof.
  intros [r Er]%cstr_split Hn. unfold terminated. rewrite Er, drop_app_le by done.
  apply elem_of_app. right. apply list_elem_of_here.
Qed.

Lemma cstr_from i n b : 0 ≤ i → terminated (from i b) → (n ≤ length (cstr (from i b)))%nat →
  cstr (from (i + Z.of_nat n) b) = drop n (cstr (from i b)) ∧ terminated (from (i + Z.of_nat n) b).
Proof.
  intros Hi Ht Hn. rewrite from_from by lia. set (x := from i b) in *. unfold from. rewrite Nat2Z.id.
  split; [by apply cstr_drop|by apply terminated_drop].
Qed.

(** Writing a zero at position [n] of a string cuts it there. *)
Lemma cut_string b i n : 0 ≤ i → terminated (from i b) → (n < length (cstr (from i b)))%nat →
  let b' := insertZ (i + Z.of_nat n) 0 b in
  cstr (from i b') = take n (cstr (from i b)) ∧ terminated (from i b') ∧
  from (i + Z.of_nat n + 1) b' = from (i + Z.of_nat n + 1) b.
Proof.
  intros Hi Ht Hn b'. destruct (cstr_split _ Ht) as [r Er]. set (x := cstr (from i b)) in *.
  assert (Ef : from i b' = take n x ++ 0 :: drop (Datatypes.S n) (x ++ 0 :: r)).
  { unfold b', from, insertZ. rewrite drop_insert_ge by lia. fold (from i b). rewrite Er.
    replace (Z.to_nat (i + Z.of_nat n) - Z.to_nat i)%nat with n by lia.
    rewrite insert_take_drop by (rewrite length_app; cbn; lia). f_equal. by rewrite take_app_le by lia. }
  assert (Hx : nonzero (take n x)).
  { apply Forall_take. apply cstr_nonzero. }
  split; [|split].
  - rewrite Ef. by apply cstr_app.
  - rewrite Ef. unfold terminated. apply elem_of_app. right. apply list_elem_of_here.
  - unfold b', from, insertZ. apply drop_insert_lt. lia.
Qed.

(** One call of [strtok_r]: what it returns and what it leaves for the next call. *)
Lemma strtok_r_ok s delim i t :
  (s = Some i ∨ s = None ∧ next_start t = Some i) → 0 ≤ i →
  terminated (from i (tbuf t)) → terminated delim →
  ∃ r t', strtok_r s delim t = Ret (r, t') ∧ (bytes (tbuf t) → bytes (tbuf t')) ∧
  match components (in_set (cstr delim)) (cstr (from i (tbuf t))) with
  | [] => r = None ∧ ∃ k, next_start t' = Some k ∧ 0 ≤ k ∧ terminated (from k (tbuf t')) ∧ cstr (from k (tbuf t')) = []
  | c :: cs => ∃ j k, r = Some j ∧ next_start t' = Some k ∧ 0 ≤ j ∧ 0 ≤ k ∧
      cstr (from j (tbuf t')) = c ∧ terminated (from j (tbuf t')) ∧
      components (in_set (cstr delim)) (cstr (from k (tbuf t'))) = cs ∧ terminated (from k (tbuf t'))
  end.
Proof.
  intros Hs Hi Ht Hd. set (b := tbuf t) in *. set (x := cstr (from i b)). set (d := in_set (cstr delim)).
  assert (E0 : match s with None => need NullDeref (next_start t) | Some s => mret s end t = Ret (i, t)).
  { destruct Hs as [->|[-> E]]; [done|by rewrite E]. }
  unfold strtok_r. rewrite (bind_ret _ _ t t t), (bind_ret _ _ _ _ _ E0) by done. fold b.
  rewrite (bind_ret _ _ _ _ _ (strspn_ok b i delim t Hi Ht Hd)). fold x d.
  pose proof (prefix_len_le d x) as Hn. set (n := prefix_len d x) in *.
  rewrite (bind_ret _ _ _ _ _ (aget_cstr b i n t Hi Ht Hn)). fold x.
  rewrite (components_skip d x). fold n.
  destruct (cstr_from i n b Hi Ht Hn) as [Ey Hty]. fold x in Ey.
  destruct (decide (n = length x)) as [El|Hne].
  { rewrite nth_overflow by lia. change (0 =? 0) with true. cbv iota.
    eexists None, _. split; [done|]. split; [done|]. rewrite El in *. rewrite drop_all in *.
    split; [done|]. exists (i + Z.of_nat (length x)). by split; [|split; [lia|]]. }
  pose proof (nth_cstr_nonzero (from i b) n ltac:(fold x; lia)) as Hz. fold x in Hz.
  rewrite (proj2 (Z.eqb_neq _ _) Hz).
  pose proof (prefix_len_out d x ltac:(fold n; lia)) as Hdn. fold n in Hdn.
  assert (Eyc : drop n x = nth n x 0 :: drop (Datatypes.S n) x) by (apply drop_S, lookup_nth; lia).
  rewrite (bind_ret _ _ _ _ _ (strpbrk_ok b (i + Z.of_nat n) delim t ltac:(lia) Hty Hd)). rewrite Ey.
  rewrite Eyc, components_step by done. rewrite <- Eyc. fold d.
  set (y := drop n x) in *. set (m := prefix_len (λ c, negb (d c)) y).
  pose proof (prefix_len_le (λ c, negb (d c)) y) as Hm. fold m in Hm. case_decide as Hmy.
  - rewrite (bind_ret _ _ _ _ _ (strlen_ok b (i + Z.of_nat n) t ltac:(lia) Hty)). rewrite Ey. fold y.
    eexists _, _. split; [done|]. split; [done|]. cbn [tbuf next_start].
    exists (i + Z.of_nat n), (i + Z.of_nat n + Z.of_nat (length y)).
    do 2 (split; [done|]). do 2 (split; [lia|]). rewrite Ey, Hmy, firstn_all. split; [done|]. split; [done|].
    destruct (cstr_from (i + Z.of_nat n) (length y) b ltac:(lia) Hty ltac:(by rewrite Ey)) as [Ez Htz].
    rewrite Ez, Ey, drop_all. split; [by rewrite drop_ge by lia|done].
  - assert (Hmlt : (m < length y)%nat) by lia.
    destruct (cut_string b (i + Z.of_nat n) m ltac:(lia) Hty ltac:(by rewrite Ey)) as (C1 & C2 & C3).
    set (q := i + Z.of_nat n + Z.of_nat m) in *.
    assert (Hq : 0 ≤ q < Z.of_nat (length b)).
    { pose proof (cstr_length _ Hty) as L. rewrite Ey in L. unfold from in L. rewrite length_drop in L. lia. }
    rewrite (bind_ret _ _ _ _ _ (aset_ok b q 0 t Hq)).
    eexists _, _. split; [done|]. cbn [tbuf next_start]. split; [intros; by apply Forall_insert|].
    exists (i + Z.of_nat n), (q + 1). do 2 (split; [done|]). do 2 (split; [lia|]).
    rewrite C1, C3, Ey. split; [done|]. split; [done|].
    destruct (cstr_from (i + Z.of_nat n) (Datatypes.S m) b ltac:(lia) Hty ltac:(rewrite Ey; lia)) as [Ez Htz].
    replace (q + 1) with (i + Z.of_nat n + Z.of_nat (Datatypes.S m)) by lia. by rewrite Ez, Ey.
Qed.

(** ** Properties *)

(** Reading the token a call returned, and asking for the next ones. *)
Fixpoint take_tokens (n : nat) (s : option Z) (delim : list Z) : M tokst (list (option (list Z))) :=
  match n with
  | O => mret []
  | Datatypes.S n' =>
      r ← strtok s delim;
      t ← getS;
      rest ← take_tokens n' None delim;
      mret (((λ j, cstr (from j (tbuf t))) <$> r) :: rest)
  end.

(** C34: a first call of [strtok] on a string and further calls with NULL yield, in
    order, the non-empty pieces between delimiters, and NULL from then on. *)
Theorem strtok_components b delim n st :
  terminated b → terminated delim →
  let cs := components (in_set (cstr delim)) (cstr b) in
  ∃ t', take_tokens n (Some 0) delim (mkTokst b st) =
    Ret (take n (Some <$> cs) ++ replicate (n - length cs) None, t').
Proof.
  intros Ht Hd cs.
  enough (∀ n s i t, (s = Some i ∨ s = None ∧ next_start t = Some i) → 0 ≤ i → terminated (from i (tbuf t)) →
    let cs := components (in_set (cstr delim)) (cstr (from i (tbuf t))) in
    ∃ t', take_tokens n s delim t = Ret (take n (Some <$> cs) ++ replicate (n - length cs) None, t')) as K.
  { apply (K n (Some 0) 0 (mkTokst b st)); [by left|done|done]. }
  clear n. induction n as [|n IH]; intros s i t Hs Hi Hti ds; [by exists t|].
  destruct (strtok_r_ok s delim i t Hs Hi Hti Hd) as (r & t1 & E & _ & Hr). fold ds in Hr.
  cbn [take_tokens]. unfold strtok. rewrite (bind_ret _ _ _ _ _ E), (bind_ret _ _ t1 t1 t1) by done.
  destruct ds as [|c ds'].
  - destruct Hr as (-> & k & Ek & Hk & Htk & Ec).
    destruct (IH None k t1) as (t' & E'); [by right|done|done|]. rewrite Ec in E'.
    exists t'. rewrite (bind_ret _ _ _ _ _ E'). cbn. by rewrite take_nil, Nat.sub_0_r.
  - destruct Hr as (j & k & -> & Ek & Hj & Hk & Ec & _ & Eds & Htk).
    destruct (IH None k t1) as (t' & E'); [by right|done|done|]. rewrite Eds in E'.
    exists t'. rewrite (bind_ret _ _ _ _ _ E'). cbn. by rewrite Ec.
Qed.

(** "/a/bc//" *)
Lemma strtok_components_witness :
  ∃ t', take_tokens 3 (Some 0) [47; 0] (mkTokst [47; 97; 47; 98; 99; 47; 47; 0] None)
        = Ret ([Some [97]; Some [98; 99]; None], t').
Proof.
  apply (strtok_components [47; 97; 47; 98; 99; 47; 47; 0] [47; 0] 3 None);
    apply (bool_decide_unpack _); reflexivity.
Defined.
