(* ===== verification/Fs.v ===== *)
(** * The file systems

    [kernel/fs/node.c] with the node tree and path lookup, the in-memory files of
    [kernel/fs/tmpfs.c], the read-only archive of [kernel/fs/cpiofs.c], the device
    directory of [kernel/fs/devfs.c] and [kernel/initrd.c].

    Nodes, devices and the data of tmpfs files are heap objects; a node of any of
    the three file systems is an [fsnode_t] followed by a device pointer.  A C
    function pointer is the name of the function, [CNull], or [CUndef] where the
    code leaves it uninitialised.  Bytes of a file's data are [None] where the code
    never wrote them.  The archive of the initial ramdisk is a list of bytes and a
    header pointer an offset into it. *)
From Stdlib Require Import ZArith Lia.
From stdpp Require Import base gmap list list_numbers strings.
From S2P Require Import Prelude CStr TaskState ListHead.
Open Scope Z_scope.
Open Scope u32_scope.

(** ** Data *)

Definition FS_PATH_DELIM : list Z := [47; 0].
Definition FS_NAME_MAX : Z := 128.
Definition CPIO_MAGIC : Z := 29127.   (* 070707 *)

Inductive VfsType : Type := VfsTypeDir | VfsTypeFile | VfsTypeDev.

Inductive cfun : Type :=
| CNull | CUndef
| p_tmpfs_create_file | p_tmpfs_open_file | p_tmpfs_write_file | p_tmpfs_read_file | p_tmpfs_seek_file | p_tmpfs_close_file
| p_cpiofs_open_file | p_cpiofs_stat_file | p_cpiofs_read_file | p_cpiofs_seek_file | p_cpiofs_close_file
| p_devfs_open_dev
| p_console_open | p_console_read | p_console_write | p_console_close.

Record fsnode : Type := mkNode {
  name : list Z;
  type : option VfsType;
  create : cfun;
  open : cfun;
  stat : cfun;
  parent : Z;
  first_child : Z;
  next_sibling : Z;
  device : Z
}.

Record iodev : Type := mkIodev { io_open : cfun; io_read : cfun; io_write : cfun; io_close : cfun; io_seek : cfun }.

(** Where a file's bytes are: a heap object, a place in the archive, or nowhere. *)
Inductive data_ptr : Type := HeapData (p : Z) | ArchiveData (off : Z) | NoData.

(** [tmpfiledev_t], [cpiofiledev_t], or a bare [iodev_t]. *)
Record filedev : Type := mkFile { dev_io : iodev; fpos : Z; flength : Z; fdata : data_ptr }.

Inductive fsmsg : Type := InvalidMagic (m : Z) | UnableToMountInitrd.

Record fst_ : Type := mkFst {
  nodes : gmap Z fsnode;
  devs : gmap Z filedev;
  bufs : gmap Z (list (option Z));
  FSRootNode : Z;
  fheap : Z;
  toks : tokst;
  archive : list Z;
  fslog : list fsmsg
}.

Definition set_nodes x s := mkFst x (devs s) (bufs s) (FSRootNode s) (fheap s) (toks s) (archive s) (fslog s).
Definition set_devs x s := mkFst (nodes s) x (bufs s) (FSRootNode s) (fheap s) (toks s) (archive s) (fslog s).
Definition set_bufs x s := mkFst (nodes s) (devs s) x (FSRootNode s) (fheap s) (toks s) (archive s) (fslog s).
Definition set_root x s := mkFst (nodes s) (devs s) (bufs s) x (fheap s) (toks s) (archive s) (fslog s).
Definition set_fheap x s := mkFst (nodes s) (devs s) (bufs s) (FSRootNode s) x (toks s) (archive s) (fslog s).
Definition set_toks x s := mkFst (nodes s) (devs s) (bufs s) (FSRootNode s) (fheap s) x (archive s) (fslog s).
Definition set_fslog x s := mkFst (nodes s) (devs s) (bufs s) (FSRootNode s) (fheap s) (toks s) (archive s) x.

#[export] Program Instance fs_has_toks : Has fst_ tokst := {| proj := toks; embed := set_toks |}.
Next Obligation. done. Qed.
Next Obligation. done. Qed.
Next Obligation. by intros []. Qed.

Definition set_name x n := mkNode x (type n) (create n) (open n) (stat n) (parent n) (first_child n) (next_sibling n) (device n).
Definition set_first_child x n := mkNode (name n) (type n) (create n) (open n) (stat n) (parent n) x (next_sibling n) (device n).
Definition set_next_sibling x n := mkNode (name n) (type n) (create n) (open n) (stat n) (parent n) (first_child n) x (device n).
Definition set_device x n := mkNode (name n) (type n) (create n) (open n) (stat n) (parent n) (first_child n) (next_sibling n) x.

(** ** Access *)

Definition get_node (p : Z) : M fst_ fsnode := s ← getS; need (ptr_fault p) (nodes s !! p).
Definition put_node (p : Z) (n : fsnode) : M fst_ unit := modify (λ s, set_nodes (<[p := n]> (nodes s)) s).
Definition upd_node (p : Z) (f : fsnode → fsnode) : M fst_ unit := n ← get_node p; put_node p (f n).
Definition get_dev (p : Z) : M fst_ filedev := s ← getS; need (ptr_fault p) (devs s !! p).
Definition put_dev (p : Z) (d : filedev) : M fst_ unit := modify (λ s, set_devs (<[p := d]> (devs s)) s).
Definition get_buf (p : Z) : M fst_ (list (option Z)) := s ← getS; need (ptr_fault p) (bufs s !! p).
Definition put_buf (p : Z) (b : list (option Z)) : M fst_ unit := modify (λ s, set_bufs (<[p := b]> (bufs s)) s).
Definition free_buf (p : Z) : M fst_ unit := get_buf p ;; modify (λ s, set_bufs (delete p (bufs s)) s).
Definition fs_malloc : M fst_ Z := p ← gets fheap; modify (set_fheap (p + 1)) ;; mret p.
Definition fs_printk (m : fsmsg) : M fst_ unit := modify (λ s, set_fslog (fslog s ++ [m]) s).

(** [memcpy] out of and into an object, from an offset on. *)
Definition copy_out {S A} (b : list A) (off n : Z) : M S (list A) :=
  if n =? 0 then mret []
  else if (0 <=? off) && (off + n <=? Z.of_nat (length b)) then mret (take (Z.to_nat n) (drop (Z.to_nat off) b))
  else crash OutOfBounds.
Definition copy_in {S A} (b : list A) (off : Z) (x : list A) : M S (list A) :=
  if Z.of_nat (length x) =? 0 then mret b
  else if (0 <=? off) && (off + Z.of_nat (length x) <=? Z.of_nat (length b)) then
    mret (take (Z.to_nat off) b ++ x ++ drop (Z.to_nat off + length x) b)
  else crash OutOfBounds.

(** ** kernel/fs/node.c *)

(** [fs_child_iter(parent, &next)], returning the new [next]. *)
Definition fs_child_iter (parent next_dest : Z) : M fst_ Z :=
  if next_dest =? NULL then n ← get_node parent; mret (first_child n)
  else n ← get_node next_dest; mret (next_sibling n).

(** A walk along siblings visits each node once, or never ends. *)
Definition sibling_fuel (s : fst_) : positive := Pos.of_succ_nat (size (nodes s)).

Definition fs_link_child (parent child : Z) : M fst_ unit :=
  p ← get_node parent;
  if first_child p =? NULL then upd_node parent (set_first_child child)
  else
    s ← getS;
    i ← while (sibling_fuel s)
      (λ i,
         if i =? NULL then mret (inr i)
         else
           n ← get_node i;
           c ← get_node child;
           r ← strcmp (name n) (name c);
           if r <? 0 then mret (inl (next_sibling n)) else mret (inr i))
      (first_child p);
    if i =? NULL then
      (* replace the first child *)
      p ← get_node parent;
      let next := first_child p in
      upd_node parent (set_first_child child) ;;
      upd_node child (set_next_sibling next)
    else
      n ← get_node i;
      let next := next_sibling n in
      upd_node i (set_next_sibling child) ;;
      upd_node child (set_next_sibling next).

(** The loop over the children of [cur]: the one named by the token, or NULL. *)
Definition find_token (cur : Z) (tok : option Z) : M fst_ Z :=
  s ← getS;
  while (Pos.succ (sibling_fuel s))
    (λ child,
       child ← fs_child_iter cur child;
       if child =? NULL then mret (inr child)
       else
         t ← need NullDeref tok;
         n ← get_node child;
         r ← strcmp (from t (tbuf (toks s))) (name n);
         if r =? 0 then mret (inr child) else mret (inl child)) NULL.

Definition free_path_buf : M fst_ unit := modify (λ s, set_toks (mkTokst [] (next_start (toks s))) s).

Definition fs_locate (origin : Z) (path : list Z) : M fst_ Z :=
  n ← strlen path 0;
  path_buf ← strcpy (replicate (Z.to_nat (n +u 1)) 0) path;
  modify (λ s, set_toks (mkTokst path_buf (next_start (toks s))) s) ;;
  tok ← zoom (strtok (Some 0) FS_PATH_DELIM);
  while (Pos.succ (bufsize path))
    (λ st : option Z * Z,
       let (tok, cur) := st in
       child ← find_token cur tok;
       if child =? NULL then free_path_buf ;; mret (inr NULL)
       else
         let cur := child in
         tok ← zoom (strtok None FS_PATH_DELIM);
         match tok with
         | Some _ => mret (inl (tok, cur))
         | None => free_path_buf ;; mret (inr cur)
         end) (tok, origin).

(** ** Specification: the tree *)

(** The siblings linked from a pointer on. *)
Inductive chain (m : gmap Z fsnode) : Z → list Z → Prop :=
| chain_nil : chain m NULL []
| chain_cons p n l : p ≠ NULL → m !! p = Some n → chain m (next_sibling n) l → chain m p (p :: l).

Definition node_name (n : fsnode) : list Z := cstr (name n).
Definition named (n : fsnode) : Prop := terminated (name n) ∧ bytes (name n).

(** Every node's children form a finite list, [kids] of it, no node is a child
    twice, and names are terminated strings. *)
Record tree (m : gmap Z fsnode) (kids : Z → list Z) : Prop := {
  tree_chain p n : m !! p = Some n → chain m (first_child n) (kids p);
  tree_named p n : m !! p = Some n → named n;
  tree_disjoint p q x : is_Some (m !! p) → is_Some (m !! q) → x ∈ kids p → x ∈ kids q → p = q
}.

(** The first node with a name, and a path of names followed from a node. *)
Fixpoint find_child (m : gmap Z fsnode) (l : list Z) (c : list Z) : option Z :=
  match l with
  | [] => None
  | p :: l' =>
      match m !! p with
      | Some n => if decide (node_name n = c) then Some p else find_child m l' c
      | None => None
      end
  end.

Fixpoint resolve (m : gmap Z fsnode) (kids : Z → list Z) (n : Z) (cs : list (list Z)) : option Z :=
  match cs with
  | [] => Some n
  | c :: cs' => match find_child m (kids n) c with Some k => resolve m kids k cs' | None => None end
  end.

Definition path_components (path : list Z) : list (list Z) := components (in_set (cstr FS_PATH_DELIM)) (cstr path).

(** Where [fs_link_child] puts a child. *)
Definition below (m : gmap Z fsnode) (c : list Z) (p : Z) : bool :=
  match m !! p with Some n => str_compare (node_name n) c <? 0 | None => false end.
Fixpoint link_order (b : Z → bool) (before l : list Z) (child : Z) : list Z :=
  match l with
  | [] => child :: before
  | p :: l' => if b p then link_order b (before ++ [p]) l' child else before ++ p :: child :: l'
  end.

(** ** The chain of siblings *)

Lemma chain_det m p l l' : chain m p l → chain m p l' → l = l'.
Proof.
  intros H. revert l'. induction H as [|p n l Hp En _ IH]; intros l' H'; inversion H'; subst; try done.
  rewrite En in H0. injection H0 as <-. f_equal. by apply IH.
Qed.

Lemma chain_in m p l x : chain m p l → x ∈ l → ∃ l1 l2, l = l1 ++ x :: l2 ∧ chain m x (x :: l2).
Proof.
  intros H. induction H as [|p n l Hp En Hc IH]; [by intros ?%not_elem_of_nil|].
  intros [->|Hx]%elem_of_cons.
  - exists [], l. split; [done|]. by apply (chain_cons m p n).
  - destruct (IH Hx) as (l1 & l2 & -> & Hc2). exists (p :: l1), l2. done.
Qed.

Lemma chain_NoDup m p l : chain m p l → NoDup l.
Proof.
  induction 1 as [|p n l Hp En Hc IH]; [constructor|]. constructor; [|done]. intros Hin.
  destruct (chain_in _ _ _ _ Hc Hin) as (l1 & l2 & -> & Hc2).
  assert (E : p :: l1 ++ p :: l2 = p :: l2) by (apply (chain_det m p); [by apply (chain_cons m p n)|done]).
  injection E as E. apply (f_equal length) in E. rewrite length_app in E. cbn in E. lia.
Qed.

Lemma chain_is_node m p l x : chain m p l → x ∈ l → is_Some (m !! x) ∧ x ≠ NULL.
Proof.
  induction 1 as [|p n l Hp En Hc IH]; [by intros ?%not_elem_of_nil|].
  intros [->|Hx]%elem_of_cons; [by split; [exists n|]|by apply IH].
Qed.

Lemma chain_length m p l : chain m p l → (length l ≤ size m)%nat.
Proof.
  intros H. rewrite <- (size_list_to_set (C := gset Z) l) by (by eapply chain_NoDup).
  rewrite <- (size_dom (D := gset Z)). apply subseteq_size. intros x Hx%elem_of_list_to_set.
  apply elem_of_dom. by eapply chain_is_node.
Qed.

(** A chain reads only its own nodes' links. *)
Lemma chain_frame m m' p l :
  (∀ x n, x ∈ l → m !! x = Some n → ∃ n', m' !! x = Some n' ∧ next_sibling n' = next_sibling n) →
  chain m p l → chain m' p l.
Proof.
  intros Hf H. induction H as [|p n l Hp En Hc IH]; [constructor|].
  destruct (Hf p n (list_elem_of_here _ _) En) as (n' & En' & Es).
  apply (chain_cons m' p n'); [done|done|]. rewrite Es. apply IH. intros x nx Hx. apply Hf. by right.
Qed.

Lemma chain_nth m p l k n : chain m p l → l !! k = Some n →
  ∃ nd, m !! n = Some nd ∧ n ≠ NULL ∧ next_sibling nd = nth (S k) l NULL.
Proof.
  intros H. revert k. induction H as [|p nd l Hp En Hc IH]; intros k; [done|]. destruct k as [|k]; cbn.
  - intros [= <-]. exists nd. split; [done|]. split; [done|]. by inversion Hc.
  - intros Hk. destruct (IH k Hk) as (nd' & ? & ? & Es). exists nd'. by rewrite Es.
Qed.

Lemma chain_head m p l : chain m p l → p = nth 0 l NULL.
Proof. by inversion 1. Qed.

Lemma get_node_ok s p n : nodes s !! p = Some n → get_node p s = Ret (n, s).
Proof. intros E. unfold get_node. mred. by rewrite E. Qed.
Lemma upd_node_ok s p f n : nodes s !! p = Some n → upd_node p f s = Ret (tt, set_nodes (<[p := f n]> (nodes s)) s).
Proof. intros E. unfold upd_node. by rewrite (bind_ret _ _ _ _ _ (get_node_ok s p n E)). Qed.

(** ** Lookup *)

Lemma find_child_split m l c :
  (∀ p, p ∈ l → is_Some (m !! p)) →
  match find_child m l c with
  | Some k => ∃ l1 l2 n, l = l1 ++ k :: l2 ∧ m !! k = Some n ∧ node_name n = c ∧
      Forall (λ p, ∃ n, m !! p = Some n ∧ node_name n ≠ c) l1
  | None => Forall (λ p, ∃ n, m !! p = Some n ∧ node_name n ≠ c) l
  end.
Proof.
  induction l as [|p l IH]; intros Hl; cbn; [constructor|].
  destruct (Hl p (list_elem_of_here _ _)) as [n En]. rewrite En.
  assert (Hl' : ∀ q, q ∈ l → is_Some (m !! q)) by (intros q Hq; apply Hl; by right).
  case_decide as Hd; [by exists [], l, n|]. specialize (IH Hl').
  destruct (find_child m l c) as [k|].
  - destruct IH as (l1 & l2 & nk & -> & Ek & Ec & Hall). exists (p :: l1), l2, nk. split; [done|].
    split; [done|]. split; [done|]. constructor; [by exists n|done].
  - constructor; [by exists n|done].
Qed.

Definition walk_pos (l : list Z) (k : nat) : Z := match k with O => NULL | S k => nth k l NULL end.

(** One step of the walk over the children. *)
Lemma child_iter_ok s cur n l k :
  nodes s !! cur = Some n → chain (nodes s) (first_child n) l → (k ≤ length l)%nat →
  fs_child_iter cur (walk_pos l k) s = Ret (nth k l NULL, s).
Proof.
  intros En Hc Hk. unfold fs_child_iter. destruct k as [|k]; cbn [walk_pos].
  - rewrite Z.eqb_refl, (bind_ret _ _ _ _ _ (get_node_ok s cur n En)). by rewrite <- (chain_head _ _ _ Hc).
  - destruct (lookup_lt_is_Some_2 l k ltac:(lia)) as [x Ex].
    destruct (chain_nth _ _ _ _ _ Hc Ex) as (nd & End & Hx & Es). rewrite (nth_lookup_Some _ _ _ _ Ex).
    destruct (Z.eqb_spec x NULL); [done|]. rewrite (bind_ret _ _ _ _ _ (get_node_ok s x nd End)). by rewrite Es.
Qed.

Lemma terminated_bytes_from b i : bytes b → bytes (from i b).
Proof. apply Forall_drop. Qed.

Lemma find_token_ok s kids cur j :
  tree (nodes s) kids → is_Some (nodes s !! cur) →
  terminated (from j (tbuf (toks s))) → bytes (tbuf (toks s)) →
  find_token cur (Some j) s = Ret (default NULL (find_child (nodes s) (kids cur) (cstr (from j (tbuf (toks s))))), s).
Proof.
  intros Ht [n En] Hj Hb. set (c := cstr (from j (tbuf (toks s)))). set (l := kids cur).
  pose proof (tree_chain _ _ Ht cur n En) as Hc. fold l in Hc.
  unfold find_token. rewrite (bind_ret _ _ s s s) by done.
  assert (Hfuel : (length l < Pos.to_nat (Pos.succ (sibling_fuel s)))%nat).
  { unfold sibling_fuel. pose proof (chain_length _ _ _ Hc). lia. }
  assert (Hcmp : ∀ k x nd, l !! k = Some x → nodes s !! x = Some nd →
    (t ← need NullDeref (Some j); n ← get_node x; r ← strcmp (from t (tbuf (toks s))) (name n);
     if r =? 0 then mret (inr x) else mret (inl x)) s
    = Ret ((if decide (node_name nd = c) then inr x else inl x) : Z + Z, s)).
  { intros k x nd Hk End. rewrite (bind_ret _ _ s j s), (bind_ret _ _ _ _ _ (get_node_ok s x nd End)) by done.
    destruct (tree_named _ _ Ht x nd End) as [N1 N2].
    rewrite (bind_ret _ _ _ _ _ (strcmp_ok _ _ s Hj N1 (terminated_bytes_from _ j Hb) N2)).
    fold c. pose proof (str_compare_eq c (cstr (name nd))) as Hq. unfold node_name.
    destruct (Z.eqb_spec (str_compare c (cstr (name nd))) 0) as [E|E]; case_decide as D; try done.
    - apply Hq in E. by rewrite E in D.
    - exfalso. apply E. apply Hq. done. }
  assert (Hnodes : ∀ p, p ∈ l → is_Some (nodes s !! p)) by (intros p Hp; by eapply (chain_is_node _ _ _ p Hc)).
  assert (Hgo : ∀ k x nd, l !! k = Some x → nodes s !! x = Some nd → node_name nd ≠ c →
    (child ← fs_child_iter cur (walk_pos l k);
     if child =? NULL then mret (inr child)
     else t ← need NullDeref (Some j); n ← get_node child; r ← strcmp (from t (tbuf (toks s))) (name n);
          if r =? 0 then mret (inr child) else mret (inl child)) s = Ret (inl (walk_pos l (S k)) : Z + Z, s)).
  { intros k x nd Ex End Hd. pose proof (lookup_lt_Some _ _ _ Ex).
    rewrite (bind_ret _ _ _ _ _ (child_iter_ok s cur n l k En Hc ltac:(lia))).
    rewrite (nth_lookup_Some _ _ NULL _ Ex). destruct (chain_nth _ _ _ _ _ Hc Ex) as (nd' & _ & Hx & _).
    destruct (Z.eqb_spec x NULL); [done|]. rewrite (Hcmp k x nd Ex End). case_decide; [done|].
    cbn [walk_pos]. by rewrite (nth_lookup_Some _ _ NULL _ Ex). }
  pose proof (find_child_split (nodes s) l c Hnodes) as Hf. destruct (find_child (nodes s) l c) as [k|].
  - destruct Hf as (l1 & l2 & nd & El & Ek & Ec & Hall). cbn [default].
    assert (Elk : l !! length l1 = Some k) by (rewrite El; by apply list_lookup_middle).
    pose proof (lookup_lt_Some _ _ _ Elk) as Hlen.
    apply (while_scan _ (λ i, walk_pos l i) _ (length l1)); [done| | |lia].
    + intros i Hi. destruct (lookup_lt_is_Some_2 l1 i Hi) as [x Ex].
      apply (Forall_lookup_1 _ _ _ _ Hall) in Ex as Hx. destruct Hx as (nx & Enx & Hne).
      apply (Hgo i x nx); [rewrite El; by apply lookup_app_l_Some|done|done].
    + rewrite (bind_ret _ _ _ _ _ (child_iter_ok s cur n l (length l1) En Hc ltac:(lia))).
      rewrite (nth_lookup_Some _ _ NULL _ Elk). destruct (chain_nth _ _ _ _ _ Hc Elk) as (nd' & _ & Hx & _).
      destruct (Z.eqb_spec k NULL); [done|]. rewrite (Hcmp _ k nd Elk Ek). by case_decide.
  - cbn [default]. apply (while_scan _ (λ i, walk_pos l i) _ (length l)); [done| | |lia].
    + intros i Hi. destruct (lookup_lt_is_Some_2 l i Hi) as [x Ex].
      apply (Forall_lookup_1 _ _ _ _ Hf) in Ex as Hx. destruct Hx as (nx & Enx & Hne). by apply (Hgo i x nx).
    + rewrite (bind_ret _ _ _ _ _ (child_iter_ok s cur n l (length l) En Hc ltac:(lia))). by rewrite nth_overflow by lia.
Qed.

(** The loop of [fs_locate] consumes the components one by one. *)
Lemma locate_loop kids cs c j k cur s (body := λ st : option Z * Z,
       let (tok, cur) := st in
       child ← find_token cur tok;
       if child =? NULL then free_path_buf ;; mret (inr NULL)
       else
         let cur := child in
         tok ← zoom (strtok None FS_PATH_DELIM);
         match tok with
         | Some _ => mret (inl (tok, cur))
         | None => free_path_buf ;; mret (inr cur)
         end) :
  tree (nodes s) kids → is_Some (nodes s !! cur) → bytes (tbuf (toks s)) →
  terminated (from j (tbuf (toks s))) → cstr (from j (tbuf (toks s))) = c →
  next_start (toks s) = Some k → 0 ≤ k → terminated (from k (tbuf (toks s))) →
  components (in_set (cstr FS_PATH_DELIM)) (cstr (from k (tbuf (toks s)))) = cs →
  ∃ n t', (n ≤ S (length cs))%nat ∧
    run_nat n body (Some j, cur) s = Ret (inr (default NULL (resolve (nodes s) kids cur (c :: cs))), set_toks t' s).
Proof.
  intros Ht. revert c j k cur s Ht.
  induction cs as [|c' cs IH]; intros c j k cur s Ht Hcur Hb Hj Ec Ek Hk Htk Ecs;
    pose proof (find_token_ok s kids cur j Ht Hcur Hj Hb) as Ef; rewrite Ec in Ef;
    destruct Hcur as [n En]; pose proof (tree_chain _ _ Ht cur n En) as Hc;
    pose proof (find_child_split (nodes s) (kids cur) c (λ p Hp, proj1 (chain_is_node _ _ _ p Hc Hp))) as Hs;
    cbn [resolve]; destruct (find_child (nodes s) (kids cur) c) as [ch|] eqn:Ech; cbn [default id] in *.
  all: destruct (strtok_r_ok None FS_PATH_DELIM k (toks s)) as (r & t1 & Et & Hb1 & Hr);
    [by right|done|done|apply (bool_decide_unpack _); reflexivity|]; rewrite Ecs in Hr.
  2,4: exists 1%nat, (mkTokst [] (next_start (toks s))); split; [cbn; lia|];
    cbn [run_nat]; rewrite (bind_ret _ _ s (inr NULL) (set_toks (mkTokst [] (next_start (toks s))) s));
    [done|]; unfold body; rewrite (bind_ret _ _ _ _ _ Ef); done.
  all: destruct Hs as (l1 & l2 & nd & El & End & Ecn & _);
    assert (Hch : ch ≠ NULL) by (apply (chain_is_node _ _ _ ch Hc); rewrite El; apply elem_of_app; right; apply list_elem_of_here).
  - destruct Hr as (-> & _). exists 1%nat, (mkTokst [] (next_start t1)). split; [cbn; lia|].
    cbn [run_nat]. rewrite (bind_ret _ _ s (inr ch) (set_toks (mkTokst [] (next_start t1)) s)); [done|].
    unfold body. rewrite (bind_ret _ _ _ _ _ Ef). destruct (Z.eqb_spec ch NULL); [done|].
    by rewrite (bind_ret _ _ _ _ _ (zoom_ret (H := fs_has_toks) (strtok None FS_PATH_DELIM) s _ _ Et)).
  - destruct Hr as (j' & k' & -> & Ek' & Hj' & Hk' & Ec' & Htj & Ecs' & Htk').
    destruct (IH c' j' k' ch (set_toks t1 s)) as (m & t' & Hm & E); cbn [nodes set_toks toks]; try assumption;
      [by exists nd|by apply Hb1|].
    exists (S m), t'. split; [cbn in *; lia|]. cbn [run_nat].
    rewrite (bind_ret _ _ s (inl (Some j', ch)) (set_toks t1 s)).
    + exact E.
    + unfold body. rewrite (bind_ret _ _ _ _ _ Ef). destruct (Z.eqb_spec ch NULL); [done|].
      by rewrite (bind_ret _ _ _ _ _ (zoom_ret (H := fs_has_toks) (strtok None FS_PATH_DELIM) s _ _ Et)).
Qed.

(** What [fs_locate] does before its loop. *)
Lemma locate_start s path (K : option Z → M fst_ Z) :
  terminated path → bytes path → Z.of_nat (length path) < 2 ^ 32 →
  ∃ buf, cstr buf = cstr path ∧ terminated buf ∧ bytes buf ∧
  (n ← strlen path 0;
   path_buf ← strcpy (replicate (Z.to_nat (n +u 1)) 0) path;
   modify (λ s, set_toks (mkTokst path_buf (next_start (toks s))) s) ;;
   tok ← zoom (strtok (Some 0) FS_PATH_DELIM); K tok) s =
  (tok ← zoom (strtok (Some 0) FS_PATH_DELIM); K tok) (set_toks (mkTokst buf (next_start (toks s))) s).
Proof.
  intros Ht Hb Hlen. exists (cstr path ++ [0]). split; [apply cstr_app, cstr_nonzero|].
  split; [apply elem_of_app; right; apply list_elem_of_here|].
  split; [apply Forall_app; split; [|by repeat constructor]|].
  { destruct (cstr_split path Ht) as [r Er]. unfold bytes in Hb. rewrite Er in Hb. by apply Forall_app in Hb as [? _]. }
  rewrite (bind_ret _ _ _ _ _ (strlen_ok path 0 s ltac:(lia) Ht)). change (from 0 path) with path.
  pose proof (cstr_length path Ht) as L. rewrite u32_small by lia.
  rewrite (bind_ret _ _ s (cstr path ++ [0]) s).
  - done.
  - rewrite strcpy_ok; [|done|rewrite length_replicate; lia].
    rewrite drop_replicate. by replace (Z.to_nat (Z.of_nat (length (cstr path)) + 1) - S (length (cstr path)))%nat with 0%nat by lia.
Qed.

Lemma fs_locate_ok s kids origin path :
  tree (nodes s) kids → is_Some (nodes s !! origin) → terminated path → bytes path → Z.of_nat (length path) < 2 ^ 32 →
  path_components path ≠ [] →
  ∃ t', fs_locate origin path s = Ret (default NULL (resolve (nodes s) kids origin (path_components path)), set_toks t' s).
Proof.
  intros Ht Ho Hp Hb Hlen Hne. unfold fs_locate.
  edestruct (locate_start s path) as (buf & Eb & Htb & Hbb & ->); [done|done|done|].
  set (s1 := set_toks (mkTokst buf (next_start (toks s))) s).
  destruct (strtok_r_ok (Some 0) FS_PATH_DELIM 0 (toks s1)) as (r & t1 & Et & Hb1 & Hr);
    [by left|done|done|apply (bool_decide_unpack _); reflexivity|].
  change (from 0 (tbuf (toks s1))) with buf in Hr. rewrite Eb in Hr. fold (path_components path) in Hr.
  destruct (path_components path) as [|c cs] eqn:Ecs; [done|].
  destruct Hr as (j & k & -> & Ek & Hj & Hk & Ec & Htj & Ek2 & Htk).
  rewrite (bind_ret _ _ _ _ _ (zoom_ret (H := fs_has_toks) (strtok (Some 0) FS_PATH_DELIM) s1 _ _ Et)).
  destruct (locate_loop kids cs c j k origin (set_toks t1 s1)) as (n & t' & Hn & E);
    cbn [nodes set_toks toks]; try assumption; [by apply Hb1|].
  exists t'. apply (while_run _ _ n); [exact E|].
  pose proof (components_length (in_set (cstr FS_PATH_DELIM)) (cstr path)) as L1. fold (path_components path) in L1.
  rewrite Ecs in L1. pose proof (bufsize_bound0 path Hp). cbn in L1. lia.
Qed.

(** ** Linking a child *)

(** The siblings with a smaller name stand first on the walk. *)
Lemma link_order_split b before l child :
  link_order b before l child =
  match drop (prefix_len b l) l with
  | [] => child :: before ++ l
  | i :: l2 => before ++ take (prefix_len b l) l ++ i :: child :: l2
  end.
Proof.
  revert before. induction l as [|p l IH]; intros before; cbn; [by rewrite app_nil_r|].
  destruct (b p); cbn; [|done]. rewrite IH. destruct (drop (prefix_len b l) l); by rewrite <- app_assoc.
Qed.

Lemma link_order_perm b l child : link_order b [] l child ≡ₚ child :: l.
Proof.
  rewrite link_order_split. pose proof (take_drop (prefix_len b l) l) as E.
  destruct (drop (prefix_len b l) l) as [|i l2]; [done|]. cbn [app].
  transitivity (child :: take (prefix_len b l) l ++ i :: l2); [|by rewrite E].
  rewrite (Permutation_middle (take (prefix_len b l) l) (i :: l2) child). by rewrite (Permutation_swap i child).
Qed.

(** Relinking: the nodes with some first children and siblings replaced. *)
Definition relink (m m' : gmap Z fsnode) : Prop :=
  ∀ p, match m !! p, m' !! p with
       | Some n, Some n' => n' = set_next_sibling (next_sibling n') (set_first_child (first_child n') n)
       | None, None => True
       | _, _ => False
       end.

Lemma relink_node m m' p n : relink m m' → m !! p = Some n →
  ∃ n', m' !! p = Some n' ∧ n' = set_next_sibling (next_sibling n') (set_first_child (first_child n') n).
Proof. intros H E. specialize (H p). rewrite E in H. destruct (m' !! p) as [n'|]; [by exists n'|done]. Qed.

Lemma relink_refl m : relink m m.
Proof. intros p. destruct (m !! p) as [[]|]; done. Qed.

Lemma relink_trans m1 m2 m3 : relink m1 m2 → relink m2 m3 → relink m1 m3.
Proof.
  intros H1 H2 p. specialize (H1 p). specialize (H2 p).
  destruct (m1 !! p) as [[]|], (m2 !! p) as [[]|], (m3 !! p) as [[]|]; try done.
  cbn in *. by injection H1; injection H2; intros; subst.
Qed.

Lemma relink_insert m p n f : m !! p = Some n → f = set_next_sibling (next_sibling f) (set_first_child (first_child f) n) →
  relink m (<[p := f]> m).
Proof.
  intros E Ef q. destruct (decide (q = p)) as [->|].
  - by rewrite E, lookup_insert_eq.
  - rewrite lookup_insert_ne by done. by destruct (m !! q) as [[]|].
Qed.

(** Splicing a node in behind another one. *)
Lemma chain_splice m m' p l1 i l2 child ni nc :
  chain m p (l1 ++ i :: l2) → child ∉ l1 ++ i :: l2 → child ≠ NULL →
  m !! i = Some ni → m' !! i = Some (set_next_sibling child ni) →
  m' !! child = Some nc → next_sibling nc = next_sibling ni →
  (∀ x n, x ≠ i → x ≠ child → m !! x = Some n → ∃ n', m' !! x = Some n' ∧ next_sibling n' = next_sibling n) →
  chain m' p (l1 ++ i :: child :: l2).
Proof.
  intros Hc Hn Hcn Ei Ei' Ec' Es Hf. revert p Hc Hn. induction l1 as [|x l1 IH]; intros p Hc Hn; cbn in *.
  - inversion Hc as [|? n ? Hp En Hc2]; subst. rewrite Ei in En. injection En as <-.
    apply (chain_cons m' i (set_next_sibling child ni)); [done|done|]. cbn.
    apply (chain_cons m' child nc); [done|done|]. rewrite Es.
    pose proof (chain_NoDup _ _ _ Hc) as ND. apply NoDup_cons in ND as [Ni _].
    apply (chain_frame m); [|done]. intros x n Hx En. apply Hf; [by intros ->|intros ->; apply Hn; by right|done].
  - pose proof (chain_NoDup _ _ _ Hc) as ND. apply NoDup_cons in ND as [Ni _].
    inversion Hc as [|? n ? Hp En Hc2]; subst.
    destruct (Hf x n) as (n' & En' & Es'); [|intros ->; apply Hn; left|done|].
    { intros ->. apply Ni. apply elem_of_app. right. apply list_elem_of_here. }
    apply (chain_cons m' x n'); [done|done|]. rewrite Es'. apply IH; [done|]. intros Hin. apply Hn. by right.
Qed.

(** The walk of [fs_link_child]. *)
Lemma link_walk_ok s p0 l child nc :
  chain (nodes s) p0 l → (∀ x n, x ∈ l → nodes s !! x = Some n → named n) →
  nodes s !! child = Some nc → named nc →
  while (sibling_fuel s)
    (λ i, if i =? NULL then mret (inr i)
          else n ← get_node i; c ← get_node child; r ← strcmp (name n) (name c);
               if r <? 0 then mret (inl (next_sibling n)) else mret (inr i)) p0 s
  = Ret (nth (prefix_len (below (nodes s) (node_name nc)) l) l NULL, s).
Proof.
  intros Hc Hnm Ec Hcn. set (b := below (nodes s) (node_name nc)).
  pose proof (prefix_len_le b l) as Hn. set (n := prefix_len b l) in *.
  assert (Hstep : ∀ k x nd, l !! k = Some x → nodes s !! x = Some nd →
    (if x =? NULL then mret (inr x)
     else n ← get_node x; c ← get_node child; r ← strcmp (name n) (name c);
          if r <? 0 then mret (inl (next_sibling n)) else mret (inr x)) s
    = Ret ((if b x then inl (nth (S k) l NULL) else inr x) : Z + Z, s)).
  { intros k x nd Ex End. destruct (chain_nth _ _ _ _ _ Hc Ex) as (nd' & End' & Hx & Es).
    rewrite End in End'. injection End' as <-. destruct (Z.eqb_spec x NULL); [done|].
    rewrite (bind_ret _ _ _ _ _ (get_node_ok s x nd End)), (bind_ret _ _ _ _ _ (get_node_ok s child nc Ec)).
    destruct (Hnm x nd) as [N1 N2]; [by apply list_elem_of_lookup; exists k|done|]. destruct Hcn as [C1 C2].
    rewrite (bind_ret _ _ _ _ _ (strcmp_ok _ _ s N1 C1 N2 C2)). unfold b, below. rewrite End.
    change (str_compare (cstr (name nd)) (cstr (name nc))) with (str_compare (node_name nd) (node_name nc)).
    destruct (str_compare (node_name nd) (node_name nc) <? 0); [by rewrite Es|done]. }
  assert (Hin : ∀ k x, l !! k = Some x → ∃ nd, nodes s !! x = Some nd).
  { intros k x Ex. destruct (chain_nth _ _ _ _ _ Hc Ex) as (nd & End & _). by exists nd. }
  apply (while_scan _ (λ k, nth k l NULL) _ n).
  - by rewrite (chain_head _ _ _ Hc).
  - intros k Hk. destruct (lookup_lt_is_Some_2 l k ltac:(lia)) as [x Ex]. destruct (Hin k x Ex) as [nd End].
    rewrite (nth_lookup_Some _ _ NULL _ Ex). rewrite (Hstep k x nd Ex End).
    pose proof (prefix_len_in b l k Hk) as Hb. rewrite (nth_lookup_Some _ _ 0 _ Ex) in Hb. by rewrite Hb.
  - destruct (decide (n < length l)%nat) as [Hlt|Hge].
    + destruct (lookup_lt_is_Some_2 l n Hlt) as [x Ex]. destruct (Hin n x Ex) as [nd End].
      rewrite (nth_lookup_Some _ _ NULL _ Ex). rewrite (Hstep n x nd Ex End).
      pose proof (prefix_len_out b l Hlt) as Hb. fold n in Hb. rewrite (nth_lookup_Some _ _ 0 _ Ex) in Hb. by rewrite Hb.
    + by rewrite nth_overflow by lia.
  - unfold sibling_fuel. pose proof (chain_length _ _ _ Hc). lia.
Qed.

Definition kids_at (kids : Z → list Z) (p : Z) (l : list Z) : Z → list Z := λ q, if decide (q = p) then l else kids q.

(** A relinking that changes one node's list of children. *)
Lemma tree_relink m m' kids p n' l' child :
  tree m kids → relink m m' → (∀ q, is_Some (m !! q) → child ∉ kids q) →
  m' !! p = Some n' → chain m' (first_child n') l' → l' ≡ₚ child :: kids p →
  (∀ q nq nq', q ≠ p → m !! q = Some nq → m' !! q = Some nq' → first_child nq' = first_child nq) →
  (∀ q x nx nx', q ≠ p → is_Some (m !! q) → x ∈ kids q → m !! x = Some nx → m' !! x = Some nx' →
     next_sibling nx' = next_sibling nx) →
  tree m' (kids_at kids p l').
Proof.
  intros [T1 T2 T3] Hr Hch En' Hc Hl Hfc Hns.
  assert (Hback : ∀ q nq', m' !! q = Some nq' → ∃ nq, m !! q = Some nq ∧ name nq' = name nq).
  { intros q nq' E. specialize (Hr q). rewrite E in Hr. destruct (m !! q) as [nq|]; [|done].
    exists nq. split; [done|]. rewrite Hr. by destruct nq. }
  assert (Hp : is_Some (m !! p)) by (destruct (Hback p n' En') as (n & En & _); by exists n).
  split.
  - intros q nq' Eq. unfold kids_at. case_decide as Hd; [subst; rewrite En' in Eq; by injection Eq as <-|].
    destruct (Hback q nq' Eq) as (nq & Enq & _). rewrite (Hfc q nq nq' Hd Enq Eq).
    apply (chain_frame m); [|by apply T1]. intros x nx Hx Ex.
    destruct (relink_node m m' x nx Hr Ex) as (nx' & Ex' & _). exists nx'. split; [done|].
    apply (Hns q x nx nx'); try done.
  - intros q nq' Eq. destruct (Hback q nq' Eq) as (nq & Enq & E). unfold named. rewrite E. by apply (T2 q).
  - assert (Hsome : ∀ q, is_Some (m' !! q) → is_Some (m !! q)).
    { intros q [nq Eq]. destruct (Hback q nq Eq) as (n & En & _). by exists n. }
    intros q r x Hq Hr' Hxq Hxr. apply Hsome in Hq, Hr'. unfold kids_at in *.
    destruct (decide (q = p)) as [->|], (decide (r = p)) as [->|]; [done| | |].
    + rewrite Hl in Hxq. apply elem_of_cons in Hxq as [->|Hxq]; [by destruct (Hch r Hr')|by apply (T3 p r x)].
    + rewrite Hl in Hxr. apply elem_of_cons in Hxr as [->|Hxr]; [by destruct (Hch q Hq)|by apply (T3 q p x)].
    + by apply (T3 q r x).
Qed.

(** What a caller guarantees: a node that is no one's child yet. *)
Record linkable (m : gmap Z fsnode) (kids : Z → list Z) (p child : Z) (nc : fsnode) : Prop := {
  lk_tree : tree m kids;
  lk_parent : is_Some (m !! p);
  lk_child : m !! child = Some nc;
  lk_free : ∀ q, is_Some (m !! q) → child ∉ kids q;
  lk_ne : child ≠ p ∧ child ≠ NULL;
  lk_next : ∀ pn, m !! p = Some pn → first_child pn = NULL → next_sibling nc = NULL
}.

Lemma link_first s kids p child nc pn :
  linkable (nodes s) kids p child nc → nodes s !! p = Some pn → first_child pn = NULL →
  ∃ m', fs_link_child p child s = Ret (tt, set_nodes m' s) ∧ relink (nodes s) m' ∧ tree m' (kids_at kids p [child]) ∧ kids p = [].
Proof.
  intros [Ht _ Ec Hfree [Hcp Hcn] Hnx] Ep Ef. pose proof (tree_chain _ _ Ht p pn Ep) as Hc. rewrite Ef in Hc.
  assert (Ek : kids p = []) by (inversion Hc; subst; [done|contradiction]).
  set (m' := <[p := set_first_child child pn]> (nodes s)). exists m'.
  assert (Hrl : relink (nodes s) m') by (by apply (relink_insert _ _ pn)).
  split; [|split; [done|split; [|done]]].
  - unfold fs_link_child. rewrite (bind_ret _ _ _ _ _ (get_node_ok s p pn Ep)), Ef.
    change (NULL =? NULL) with true. cbv iota. by apply upd_node_ok.
  - apply (tree_relink (nodes s) m' kids p (set_first_child child pn) [child] child); try done.
    + apply lookup_insert_eq.
    + cbn. apply (chain_cons m' child nc); [done|unfold m'; by rewrite lookup_insert_ne|]. rewrite (Hnx pn Ep Ef). constructor.
    + by rewrite Ek.
    + intros q nq nq' Hq E E'. unfold m' in E'. rewrite lookup_insert_ne in E' by done. congruence.
    + intros q x nx nx' Hq _ Hx E E'. unfold m' in E'. destruct (decide (x = p)) as [->|].
      * rewrite lookup_insert_eq in E'. injection E' as <-. cbn. congruence.
      * rewrite lookup_insert_ne in E' by done. congruence.
Qed.

Lemma link_head s kids p child nc pn :
  linkable (nodes s) kids p child nc → nodes s !! p = Some pn → first_child pn ≠ NULL →
  drop (prefix_len (below (nodes s) (node_name nc)) (kids p)) (kids p) = [] →
  ∃ m', fs_link_child p child s = Ret (tt, set_nodes m' s) ∧ relink (nodes s) m' ∧ tree m' (kids_at kids p (child :: kids p)).
Proof.
  intros [Ht _ Ec Hfree [Hcp Hcn] Hnx] Ep Ef Hd. pose proof (tree_chain _ _ Ht p pn Ep) as Hc.
  set (m1 := <[p := set_first_child child pn]> (nodes s)).
  set (m' := <[child := set_next_sibling (first_child pn) nc]> m1). exists m'.
  assert (Ec1 : m1 !! child = Some nc) by (unfold m1; by rewrite lookup_insert_ne).
  assert (Hrl : relink (nodes s) m').
  { apply (relink_trans _ m1); [by apply (relink_insert _ _ pn)|]. apply (relink_insert m1 child nc); [done|by destruct nc]. }
  split; [|split; [done|]].
  - unfold fs_link_child. rewrite (bind_ret _ _ _ _ _ (get_node_ok s p pn Ep)).
    destruct (Z.eqb_spec (first_child pn) NULL); [done|]. rewrite (bind_ret _ _ s s s) by done.
    rewrite (bind_ret _ _ _ _ _ (link_walk_ok s _ _ child nc Hc (λ x n _ E, tree_named _ _ Ht x n E) Ec (tree_named _ _ Ht child nc Ec))).
    rewrite nth_overflow.
    2: { apply (f_equal length) in Hd. rewrite length_drop in Hd. cbn in Hd. lia. }
    change (NULL =? NULL) with true. cbv iota. rewrite (bind_ret _ _ _ _ _ (get_node_ok s p pn Ep)).
    rewrite (bind_ret _ _ _ _ _ (upd_node_ok s p (set_first_child child) pn Ep)).
    by rewrite (upd_node_ok _ child _ nc).
  - apply (tree_relink (nodes s) m' kids p (set_first_child child pn) (child :: kids p) child); try done.
    + unfold m', m1. rewrite lookup_insert_ne by done. apply lookup_insert_eq.
    + cbn. apply (chain_cons m' child (set_next_sibling (first_child pn) nc)); [done|apply lookup_insert_eq|]. cbn.
      apply (chain_frame (nodes s)); [|done]. intros x n Hx E.
      assert (x ≠ child) by (intros ->; by apply (Hfree p); [exists pn|]).
      unfold m', m1. rewrite lookup_insert_ne by done. destruct (decide (x = p)) as [->|].
      * rewrite lookup_insert_eq. eexists. split; [done|]. cbn. congruence.
      * rewrite lookup_insert_ne by done. by exists n.
    + intros q nq nq' Hq E E'. unfold m', m1 in E'. destruct (decide (q = child)) as [->|].
      * rewrite lookup_insert_eq in E'. injection E' as <-. cbn. congruence.
      * rewrite !lookup_insert_ne in E' by done. congruence.
    + intros q x nx nx' Hq Hqs Hx E E'. assert (x ≠ child) by (intros ->; by apply (Hfree q)).
      unfold m', m1 in E'. rewrite lookup_insert_ne in E' by done. destruct (decide (x = p)) as [->|].
      * rewrite lookup_insert_eq in E'. injection E' as <-. cbn. congruence.
      * rewrite lookup_insert_ne in E' by done. congruence.
Qed.

Lemma link_behind s kids p child nc pn l1 i l2 :
  linkable (nodes s) kids p child nc → nodes s !! p = Some pn → first_child pn ≠ NULL →
  kids p = l1 ++ i :: l2 → length l1 = prefix_len (below (nodes s) (node_name nc)) (kids p) →
  ∃ m', fs_link_child p child s = Ret (tt, set_nodes m' s) ∧ relink (nodes s) m' ∧
    tree m' (kids_at kids p (l1 ++ i :: child :: l2)).
Proof.
  intros [Ht Hps Ec Hfree [Hcp Hcn] Hnx] Ep Ef El Hl. pose proof (tree_chain _ _ Ht p pn Ep) as Hc.
  assert (Hi : i ∈ kids p) by (rewrite El; apply elem_of_app; right; apply list_elem_of_here).
  destruct (chain_is_node _ _ _ i Hc Hi) as [[ni Ei] Hin].
  assert (Hic : i ≠ child) by (intros ->; by apply (Hfree p)).
  set (m1 := <[i := set_next_sibling child ni]> (nodes s)).
  set (m' := <[child := set_next_sibling (next_sibling ni) nc]> m1). exists m'.
  assert (Ec1 : m1 !! child = Some nc) by (unfold m1; by rewrite lookup_insert_ne).
  assert (Hrl : relink (nodes s) m').
  { apply (relink_trans _ m1); [apply (relink_insert _ _ ni); [done|by destruct ni]|].
    apply (relink_insert m1 child nc); [done|by destruct nc]. }
  assert (Hkeep : ∀ x n, x ≠ i → x ≠ child → nodes s !! x = Some n → m' !! x = Some n).
  { intros x n ?? E. unfold m', m1. by rewrite !lookup_insert_ne. }
  assert (Hfc : ∀ q nq nq', nodes s !! q = Some nq → m' !! q = Some nq' → first_child nq' = first_child nq).
  { intros q nq nq' E E'. unfold m', m1 in E'. destruct (decide (q = child)) as [->|].
    - rewrite lookup_insert_eq in E'. injection E' as <-. cbn. congruence.
    - rewrite lookup_insert_ne in E' by done. destruct (decide (q = i)) as [->|].
      + rewrite lookup_insert_eq in E'. injection E' as <-. cbn. congruence.
      + rewrite lookup_insert_ne in E' by done. congruence. }
  split; [|split; [done|]].
  - unfold fs_link_child. rewrite (bind_ret _ _ _ _ _ (get_node_ok s p pn Ep)).
    destruct (Z.eqb_spec (first_child pn) NULL); [done|]. rewrite (bind_ret _ _ s s s) by done.
    rewrite (bind_ret _ _ _ _ _ (link_walk_ok s _ _ child nc Hc (λ x n _ E, tree_named _ _ Ht x n E) Ec (tree_named _ _ Ht child nc Ec))).
    rewrite <- Hl, El, nth_middle. destruct (Z.eqb_spec i NULL); [done|].
    rewrite (bind_ret _ _ _ _ _ (get_node_ok s i ni Ei)).
    rewrite (bind_ret _ _ _ _ _ (upd_node_ok s i (set_next_sibling child) ni Ei)).
    by rewrite (upd_node_ok _ child _ nc).
  - destruct (relink_node _ _ p pn Hrl Ep) as (pn' & Ep' & _).
    apply (tree_relink (nodes s) m' kids p pn' _ child); try done.
    + rewrite (Hfc p pn pn' Ep Ep'). rewrite El in Hc.
      apply (chain_splice (nodes s) m' _ l1 i l2 child ni (set_next_sibling (next_sibling ni) nc)); try done.
      * rewrite <- El. by apply Hfree.
      * unfold m', m1. rewrite lookup_insert_ne by done. apply lookup_insert_eq.
      * apply lookup_insert_eq.
      * intros x n ?? E. exists n. by split; [apply Hkeep|].
    + rewrite El, (Permutation_middle l1 (i :: l2) child). by rewrite (Permutation_swap child i).
    + intros q nq nq' _. apply Hfc.
    + intros q x nx nx' Hq Hqs Hx E E'.
      assert (x ≠ i) by (intros ->; apply Hq; by apply (tree_disjoint _ _ Ht q p i)).
      assert (x ≠ child) by (intros ->; by apply (Hfree q)).
      rewrite (Hkeep x nx) in E' by done. congruence.
Qed.

Lemma fs_link_child_ok s kids p child nc :
  linkable (nodes s) kids p child nc →
  ∃ m', fs_link_child p child s = Ret (tt, set_nodes m' s) ∧ relink (nodes s) m' ∧
    tree m' (kids_at kids p (link_order (below (nodes s) (node_name nc)) [] (kids p) child)).
Proof.
  intros Hlk. destruct (lk_parent _ _ _ _ _ Hlk) as [pn Ep]. set (b := below (nodes s) (node_name nc)).
  destruct (decide (first_child pn = NULL)) as [Ef|Ef].
  - destruct (link_first s kids p child nc pn Hlk Ep Ef) as (m' & E & Hr & Ht & Ek). exists m'. by rewrite Ek.
  - rewrite link_order_split. cbn [app]. destruct (drop (prefix_len b (kids p)) (kids p)) as [|i l2] eqn:Ed.
    + by apply (link_head s kids p child nc pn).
    + apply (link_behind s kids p child nc pn (take (prefix_len b (kids p)) (kids p)) i l2); try done.
      * rewrite <- Ed. by rewrite take_drop.
      * rewrite length_take. pose proof (prefix_len_le b (kids p)). fold b. lia.
Qed.

(** ** Lookup after linking *)

Lemma find_child_relink m m' l c : relink m m' → find_child m' l c = find_child m l c.
Proof.
  intros Hr. induction l as [|p l IH]; [done|]. cbn. specialize (Hr p).
  destruct (m !! p) as [n|], (m' !! p) as [n'|]; try done. rewrite Hr. rewrite IH. by destruct n.
Qed.

Lemma find_child_app m l1 l2 c : (∀ p, p ∈ l1 → is_Some (m !! p)) →
  find_child m (l1 ++ l2) c = match find_child m l1 c with Some k => Some k | None => find_child m l2 c end.
Proof.
  induction l1 as [|p l1 IH]; intros H; [done|]. cbn.
  destruct (H p (list_elem_of_here _ _)) as [n ->]. case_decide; [done|]. apply IH. intros q Hq. apply H. by right.
Qed.

(** Putting one more node with another name anywhere changes no lookup. *)
Lemma find_child_insert m l1 l2 child nc c :
  (∀ p, p ∈ l1 → is_Some (m !! p)) → m !! child = Some nc →
  find_child m (l1 ++ child :: l2) c =
    if decide (node_name nc = c) then
      match find_child m l1 c with Some k => Some k | None => Some child end
    else find_child m (l1 ++ l2) c.
Proof.
  intros H Ec. rewrite !find_child_app by done. cbn. rewrite Ec. by case_decide.
Qed.

Lemma link_order_insert b l child : ∃ l1 l2, l = l1 ++ l2 ∧ link_order b [] l child = l1 ++ child :: l2.
Proof.
  rewrite link_order_split. pose proof (take_drop (prefix_len b l) l) as E.
  destruct (drop (prefix_len b l) l) as [|i l2]; cbn [app].
  - by exists [], l.
  - exists (take (prefix_len b l) l ++ [i]), l2. rewrite <- !app_assoc. by cbn.
Qed.

(** The root with a directory "a" that has a file "b", and a node "m" to link. *)
Definition str_buf (x : list Z) : list Z := x ++ replicate (Z.to_nat FS_NAME_MAX - length x) 0.
Definition mk_demo (x : list Z) (fc ns : Z) : fsnode :=
  mkNode (str_buf x) (Some VfsTypeDir) CNull CNull CNull NULL fc ns NULL.
Definition demo_nodes : gmap Z fsnode :=
  <[10 := mk_demo [114] 11 NULL]> (<[11 := mk_demo [97] 12 NULL]> (<[12 := mk_demo [98] NULL NULL]> (<[13 := mk_demo [109] NULL NULL]> ∅))).
Definition demo_fs : fst_ := mkFst demo_nodes ∅ ∅ 10 20 (mkTokst [] None) [] [].
Definition demo_kids (p : Z) : list Z := if p =? 10 then [11] else if p =? 11 then [12] else [].

Definition cases4 (p : Z) : p = 10 ∨ p = 11 ∨ p = 12 ∨ p = 13 ∨ (p ≠ 10 ∧ p ≠ 11 ∧ p ≠ 12 ∧ p ≠ 13).
Proof. lia. Qed.

Lemma demo_lookup p n : demo_nodes !! p = Some n →
  (p = 10 ∧ n = mk_demo [114] 11 NULL) ∨ (p = 11 ∧ n = mk_demo [97] 12 NULL) ∨
  (p = 12 ∧ n = mk_demo [98] NULL NULL) ∨ (p = 13 ∧ n = mk_demo [109] NULL NULL).
Proof.
  unfold demo_nodes. rewrite !lookup_insert_Some, lookup_empty. intros H.
  repeat match goal with H : _ ∨ _ |- _ => destruct H | H : _ ∧ _ |- _ => destruct H end; subst; try done; tauto.
Qed.

Lemma demo_tree : tree demo_nodes demo_kids.
Proof.
  split.
  - intros p n Hp. destruct (demo_lookup p n Hp) as [[-> ->]|[[-> ->]|[[-> ->]|[-> ->]]]].
    + apply (chain_cons _ 11 (mk_demo [97] 12 NULL)); [done|reflexivity|constructor].
    + apply (chain_cons _ 12 (mk_demo [98] NULL NULL)); [done|reflexivity|constructor].
    + constructor.
    + constructor.
  - intros p n Hp. split; apply (bool_decide_unpack _);
      destruct (demo_lookup p n Hp) as [[-> ->]|[[-> ->]|[[-> ->]|[-> ->]]]]; reflexivity.
  - intros p q x _ _ Hp Hq. unfold demo_kids in *.
    destruct (Z.eqb_spec p 10), (Z.eqb_spec q 10), (Z.eqb_spec p 11), (Z.eqb_spec q 11); subst; try done;
      repeat match goal with H : x ∈ [_] |- _ => apply list_elem_of_singleton in H | H : x ∈ [] |- _ => by apply not_elem_of_nil in H end;
      congruence.
Qed.

(** ** Properties *)

(** C25: path lookup.  [fs_locate] returns the node that the components of the path
    lead to, following at each directory the first child with that name, and NULL
    when one of them is missing; it changes no node. *)
Theorem fs_locate_resolves s kids origin path :
  tree (nodes s) kids → is_Some (nodes s !! origin) →
  terminated path → bytes path → Z.of_nat (length path) < 2 ^ 32 → path_components path ≠ [] →
  ∃ s', fs_locate origin path s = Ret (default NULL (resolve (nodes s) kids origin (path_components path)), s') ∧
    nodes s' = nodes s ∧ devs s' = devs s ∧ bufs s' = bufs s.
Proof.
  intros Ht Ho Hp Hb Hl Hne. destruct (fs_locate_ok s kids origin path) as (t' & E); try done. by exists (set_toks t' s).
Qed.

(** "/a//b" *)
Lemma fs_locate_resolves_witness :
  ∃ s', fs_locate 10 [47; 97; 47; 47; 98; 0] demo_fs = Ret (12, s') ∧ nodes s' = demo_nodes.
Proof.
  destruct (fs_locate_resolves demo_fs demo_kids 10 [47; 97; 47; 47; 98; 0]) as (s' & E & En & _).
  - exact demo_tree.
  - by eexists.
  - apply (bool_decide_unpack _). reflexivity.
  - apply (bool_decide_unpack _). reflexivity.
  - done.
  - done.
  - exists s'. exact (conj E En).
Defined.

(** A path without a component, such as "/" or "", is no path of the origin:
    [strtok] returns NULL and the comparison with the first child reads it. *)
Theorem fs_locate_root_faults s origin n path :
  nodes s !! origin = Some n → first_child n ≠ NULL → is_Some (nodes s !! first_child n) →
  terminated path → bytes path → Z.of_nat (length path) < 2 ^ 32 → path_components path = [] →
  fs_locate origin path s = Fault NullDeref.
Proof.
  intros En Hfc [c Ec] Hp Hb Hlen Hcs. unfold fs_locate.
  edestruct (locate_start s path) as (buf & Eb & Htb & Hbb & ->); [done|done|done|].
  set (s1 := set_toks (mkTokst buf (next_start (toks s))) s).
  destruct (strtok_r_ok (Some 0) FS_PATH_DELIM 0 (toks s1)) as (r & t1 & Et & _ & Hr);
    [by left|done|done|apply (bool_decide_unpack _); reflexivity|].
  change (from 0 (tbuf (toks s1))) with buf in Hr. rewrite Eb in Hr. fold (path_components path) in Hr.
  rewrite Hcs in Hr. destruct Hr as (-> & _).
  rewrite (bind_ret _ _ _ _ _ (zoom_ret (H := fs_has_toks) (strtok (Some 0) FS_PATH_DELIM) s1 _ _ Et)).
  apply while_fault. apply bind_fault. unfold find_token. rewrite (bind_ret _ _ (set_toks t1 s1) (set_toks t1 s1) (set_toks t1 s1)) by done.
  apply while_fault. rewrite (bind_ret _ _ _ (first_child n) (set_toks t1 s1)).
  - by destruct (Z.eqb_spec (first_child n) NULL).
  - unfold fs_child_iter. rewrite Z.eqb_refl. by rewrite (bind_ret _ _ _ _ _ (get_node_ok (set_toks t1 s1) origin n En)).
Qed.

Lemma fs_locate_root_faults_witness : fs_locate 10 [47; 0] demo_fs = Fault NullDeref.
Proof.
  apply (fs_locate_root_faults demo_fs 10 (mk_demo [114] 11 NULL));
    first [reflexivity | done | by eexists | apply (bool_decide_unpack _); reflexivity].
Defined.

(** C26: linking a child.  The node becomes one more child of the parent and nothing
    else changes in the tree: it stands in front when every sibling's name is
    smaller, and right behind the first sibling whose name is not.  It is then found
    by its name, unless an older sibling has the same, and every other lookup below
    the parent gives what it gave before. *)
Theorem fs_link_child_lookup s kids p child nc :
  linkable (nodes s) kids p child nc →
  let l := kids p in
  let l' := link_order (below (nodes s) (node_name nc)) [] l child in
  ∃ m', fs_link_child p child s = Ret (tt, set_nodes m' s) ∧ tree m' (kids_at kids p l') ∧
    l' ≡ₚ child :: l ∧ relink (nodes s) m' ∧
    (find_child (nodes s) l (node_name nc) = None → find_child m' l' (node_name nc) = Some child) ∧
    (∀ c, c ≠ node_name nc → find_child m' l' c = find_child (nodes s) l c).
Proof.
  intros Hlk l l'. destruct (fs_link_child_ok s kids p child nc Hlk) as (m' & E & Hr & Ht').
  exists m'. split; [done|]. split; [done|]. split; [apply link_order_perm|]. split; [done|].
  destruct (lk_parent _ _ _ _ _ Hlk) as [pn Ep]. pose proof (lk_child _ _ _ _ _ Hlk) as Ec.
  pose proof (tree_chain _ _ (lk_tree _ _ _ _ _ Hlk) p pn Ep) as Hc. fold l in Hc.
  destruct (link_order_insert (below (nodes s) (node_name nc)) l child) as (l1 & l2 & El & El'). fold l' in El'.
  assert (Hin : ∀ q, q ∈ l1 → is_Some (nodes s !! q)).
  { intros q Hq. apply (chain_is_node _ _ _ q Hc). rewrite El. apply elem_of_app. by left. }
  split.
  - intros Hnone. rewrite (find_child_relink _ _ _ _ Hr), El', (find_child_insert _ _ _ _ nc) by done.
    rewrite decide_True by done. rewrite El, find_child_app in Hnone by done.
    destruct (find_child (nodes s) l1 (node_name nc)); done.
  - intros c Hne. rewrite (find_child_relink _ _ _ _ Hr), El', (find_child_insert _ _ _ _ nc) by done.
    rewrite decide_False by done. by rewrite El.
Qed.

Lemma fs_link_child_lookup_witness :
  ∃ m', fs_link_child 10 13 demo_fs = Ret (tt, set_nodes m' demo_fs) ∧
    find_child m' [13; 11] [109] = Some 13 ∧ find_child m' [13; 11] [97] = Some 11.
Proof.
  destruct (fs_link_child_lookup demo_fs demo_kids 10 13 (mk_demo [109] NULL NULL)) as (m' & E & _ & _ & _ & H1 & H2).
  - split; try reflexivity; [exact demo_tree|by eexists| |done].
    intros q _ Hq. unfold demo_kids in Hq. destruct (q =? 10); [|destruct (q =? 11)].
    + by apply list_elem_of_singleton in Hq.
    + by apply list_elem_of_singleton in Hq.
    + by apply not_elem_of_nil in Hq.
  - exists m'. split; [exact E|]. split; [exact (H1 eq_refl)|]. exact (H2 [97] ltac:(done)).
Defined.

(** The siblings do not end up sorted by name, in either direction: a directory
    whose only child is "a" gets "m" and then "z" in front; "b", linked next, goes
    behind the first name that is not smaller, "z". *)
Theorem fs_link_child_not_sorted :
  ∃ s3 n10,
    (fs_link_child 10 13 ;; fs_link_child 10 14 ;; fs_link_child 10 15)
      (set_nodes (<[14 := mk_demo [122] NULL NULL]> (<[15 := mk_demo [98] NULL NULL]> demo_nodes)) demo_fs)
    = Ret (tt, s3) ∧ nodes s3 !! 10 = Some n10 ∧ chain (nodes s3) (first_child n10) [14; 15; 13; 11] ∧
    map (λ p, node_name <$> nodes s3 !! p) [14; 15; 13; 11] = [Some [122]; Some [98]; Some [109]; Some [97]].
Proof.
  eexists _, _. split; [vm_compute; reflexivity|]. split; [vm_compute; reflexivity|].
  split; [|vm_compute; reflexivity].
  repeat (eapply chain_cons; [done|vm_compute; reflexivity|cbn [next_sibling first_child]]). constructor.
Qed.
