(* ===== verification/Tmpfs.v ===== *)
(** * In-memory files and the root of the tree

    [kernel/fs/tmpfs.c], the registration of [kernel/fs/devfs.c] and
    [fs_create_rootfs] of [kernel/fs/node.c].  An abstract file is a list of bytes
    and a position; the operations on the heap object implement it. *)
From Stdlib Require Import ZArith Lia.
From stdpp Require Import base gmap list list_numbers strings.
From S2P Require Import Prelude CStr ListHead Fs.
Open Scope Z_scope.
Open Scope u32_scope.

Definition SEEK_SET : Z := 0.
Definition SEEK_CUR : Z := 1.
Definition SEEK_END : Z := 2.

(** ** kernel/fs/tmpfs.c *)

Definition zero_name : list Z := replicate (Z.to_nat FS_NAME_MAX) 0.
Definition tmpfs_dir_tmpl : fsnode :=
  mkNode zero_name (Some VfsTypeDir) p_tmpfs_create_file CNull CNull NULL NULL NULL NULL.
Definition tmpfs_file_tmpl : fsnode :=
  mkNode zero_name (Some VfsTypeDir) CNull p_tmpfs_open_file CNull NULL NULL NULL NULL.
Definition tmpfiledev_tmpl : iodev :=
  mkIodev CNull p_tmpfs_read_file p_tmpfs_write_file p_tmpfs_close_file p_tmpfs_seek_file.

Definition tmpfs_create (nm : list Z) : M fst_ Z :=
  tmpfs ← fs_malloc;
  put_node tmpfs tmpfs_dir_tmpl ;;
  nm' ← strcpy (name tmpfs_dir_tmpl) nm;
  upd_node tmpfs (set_name nm') ;;
  mret tmpfs.

Definition tmpfs_create_file (parent : Z) (nm : list Z) : M fst_ Z :=
  file ← fs_malloc;
  data ← fs_malloc;
  put_buf data [] ;;
  put_dev file (mkFile tmpfiledev_tmpl 0 0 (HeapData data)) ;;
  node ← fs_malloc;
  put_node node (set_device file tmpfs_file_tmpl) ;;
  nm' ← strcpy (name tmpfs_file_tmpl) nm;
  upd_node node (set_name nm') ;;
  fs_link_child parent node ;;
  mret node.

Definition tmpfs_open_file (node : Z) : M fst_ Z := n ← get_node node; mret (device n).

(** The object behind a data pointer. *)
Definition heap_data (d : filedev) : M fst_ Z :=
  match fdata d with HeapData p => mret p | _ => crash NullDeref end.

(** [realloc]: a new object that keeps what fits of the old contents. *)
Definition fs_realloc (p n : Z) : M fst_ Z :=
  old ← get_buf p;
  q ← fs_malloc;
  modify (λ s, set_bufs (delete p (bufs s)) s) ;;
  put_buf q (take (Z.to_nat n) old ++ replicate (Z.to_nat n - length old) None) ;;
  mret q.

(** [buf] are the bytes behind the caller's pointer. *)
Definition tmpfs_write_file (file : Z) (buf : list Z) (nbyte : Z) : M fst_ Z :=
  f ← get_dev file;
  (if u32 (flength f) <? u32 (fpos f) +u nbyte then
     data ← heap_data f;
     data ← fs_realloc data (u32 (fpos f) +u nbyte);
     put_dev file (mkFile (dev_io f) (fpos f) (s32 (fpos f + nbyte)) (HeapData data))
   else mret tt) ;;
  f ← get_dev file;
  data ← heap_data f;
  b ← get_buf data;
  x ← copy_out buf 0 nbyte;
  b ← copy_in b (fpos f) (Some <$> x);
  put_buf data b ;;
  put_dev file (mkFile (dev_io f) (s32 (fpos f + nbyte)) (flength f) (fdata f)) ;;
  mret (s32 nbyte).

(** The result and the bytes that go to the caller's buffer. *)
Definition tmpfs_read_file (file nbyte : Z) : M fst_ (Z * list (option Z)) :=
  f ← get_dev file;
  let nbyte := if u32 (flength f) <? u32 (fpos f) +u nbyte then u32 (flength f) -u u32 (fpos f) else nbyte in
  data ← heap_data f;
  b ← get_buf data;
  x ← copy_out b (fpos f) nbyte;
  put_dev file (mkFile (dev_io f) (s32 (fpos f + nbyte)) (flength f) (fdata f)) ;;
  mret (s32 nbyte, x).

Definition tmpfs_seek_file (file offset whence : Z) : M fst_ Z :=
  f ← get_dev file;
  let pos :=
    if whence =? SEEK_SET then offset
    else if whence =? SEEK_CUR then s32 (fpos f + offset)
    else if whence =? SEEK_END then s32 (flength f - offset)
    else fpos f in
  put_dev file (mkFile (dev_io f) pos (flength f) (fdata f)) ;;
  mret pos.

Definition tmpfs_close_file (file : Z) : M fst_ unit :=
  f ← get_dev file;
  data ← heap_data f;
  free_buf data.

(** ** kernel/fs/devfs.c and the root *)

(** The static [devfs] node. *)
Definition devfs_ptr : Z := 1.
Definition devfs : fsnode :=
  mkNode ([100; 101; 118] ++ replicate (Z.to_nat FS_NAME_MAX - 3) 0) (Some VfsTypeDir) CNull CNull CNull NULL NULL NULL NULL.
Definition devfs_get : Z := devfs_ptr.

(** [junk] is what the memory of a new node holds; the code sets neither its type
    nor its [stat]. *)
Definition devfs_register_device (junk devname : list Z) (dev : Z) : M fst_ unit :=
  node ← fs_malloc;
  nm ← strcpy junk devname;
  put_node node (mkNode nm None CNull p_devfs_open_dev CUndef NULL NULL NULL dev) ;;
  fs_link_child devfs_ptr node.

(** "root" *)
Definition fs_create_rootfs : M fst_ unit :=
  root ← tmpfs_create [114; 111; 111; 116; 0];
  modify (set_root root) ;;
  s ← getS;
  fs_link_child (FSRootNode s) devfs_get.

(** ** Specification: an abstract file *)

Record afile : Type := mkAfile { a_bytes : list (option Z); a_pos : nat }.

(** Writing at the position pads with indeterminate bytes, overwrites, and extends. *)
Definition a_write (x : list Z) (f : afile) : afile :=
  mkAfile (take (a_pos f) (a_bytes f) ++ replicate (a_pos f - length (a_bytes f)) None ++ (Some <$> x)
           ++ drop (a_pos f + length x) (a_bytes f)) (a_pos f + length x).
(** Reading gives what there is, up to the end. *)
Definition a_read (n : nat) (f : afile) : list (option Z) * afile :=
  let x := take n (drop (a_pos f) (a_bytes f)) in (x, mkAfile (a_bytes f) (a_pos f + length x)).

(** The device object [file] holds the abstract file. *)
Definition holds (s : fst_) (file : Z) (f : afile) : Prop :=
  ∃ d, devs s !! file = Some (mkFile tmpfiledev_tmpl (Z.of_nat (a_pos f)) (Z.of_nat (length (a_bytes f))) (HeapData d)) ∧
    bufs s !! d = Some (a_bytes f) ∧ Z.of_nat (a_pos f) < 2 ^ 31 ∧ Z.of_nat (length (a_bytes f)) < 2 ^ 31.

Lemma get_dev_ok s p f : devs s !! p = Some f → get_dev p s = Ret (f, s).
Proof. intros E. unfold get_dev. mred. by rewrite E. Qed.
Lemma get_buf_ok s p b : bufs s !! p = Some b → get_buf p s = Ret (b, s).
Proof. intros E. unfold get_buf. mred. by rewrite E. Qed.

Lemma copy_out_ok {S A} (b : list A) off n (s : S) :
  (off + n ≤ length b)%nat → copy_out b (Z.of_nat off) (Z.of_nat n) s = Ret (take n (drop off b), s).
Proof.
  intros Hn. unfold copy_out. rewrite !Nat2Z.id. destruct (Z.eqb_spec (Z.of_nat n) 0).
  - by replace n with 0%nat by lia.
  - rewrite (proj2 (Z.leb_le 0 _)), (proj2 (Z.leb_le _ _)) by lia. done.
Qed.

Lemma copy_in_ok {S A} (b x : list A) off (s : S) :
  (off + length x ≤ length b)%nat → copy_in b (Z.of_nat off) x s = Ret (take off b ++ x ++ drop (off + length x) b, s).
Proof.
  intros Hn. unfold copy_in. rewrite !Nat2Z.id. destruct (Z.eqb_spec (Z.of_nat (length x)) 0).
  - destruct x; [|cbn in *; lia]. cbn. by rewrite Nat.add_0_r, take_drop.
  - rewrite (proj2 (Z.leb_le 0 _)), (proj2 (Z.leb_le _ _)) by lia. done.
Qed.

Lemma copy_out_oob {S A} (b : list A) off n (s : S) :
  n ≠ 0 → off < 0 ∨ Z.of_nat (length b) < off + n → copy_out b off n s = Fault OutOfBounds.
Proof.
  intros Hn Hr. unfold copy_out. destruct (Z.eqb_spec n 0); [done|].
  destruct (Z.leb_spec 0 off), (Z.leb_spec (off + n) (Z.of_nat (length b))); try done; lia.
Qed.

(** Files own their data. *)
Record separate (s : fst_) : Prop := {
  sep_heap p : is_Some (bufs s !! p) → p < fheap s;
  sep_own a b fa fb p : devs s !! a = Some fa → devs s !! b = Some fb →
    fdata fa = HeapData p → fdata fb = HeapData p → a = b;
  sep_ptr a fa p : devs s !! a = Some fa → fdata fa = HeapData p → p < fheap s
}.

(** Everything but one file is as it was. *)
Definition others_kept (file : Z) (s s' : fst_) : Prop :=
  ∀ g f, g ≠ file → holds s g f → holds s' g f.

(** What [realloc] and the copy leave of the old contents. *)
Lemma written_extended {A} (old x : list A) (z : A) pos :
  (length old < pos + length x)%nat →
  let b := take (pos + length x) old ++ replicate (pos + length x - length old) z in
  length b = (pos + length x)%nat ∧
  take pos b ++ x ++ drop (pos + length x) b = take pos old ++ replicate (pos - length old) z ++ x ++ drop (pos + length x) old.
Proof.
  intros Hl b. assert (Lb : length b = (pos + length x)%nat).
  { unfold b. rewrite length_app, length_take, length_replicate. lia. }
  split; [done|]. rewrite (drop_ge b) by lia. rewrite (drop_ge old) by lia. rewrite !app_nil_r.
  rewrite app_assoc. f_equal. unfold b. rewrite take_app, take_take, length_take, take_replicate.
  replace (pos `min` (pos + length x))%nat with pos by lia. f_equal. f_equal. lia.
Qed.

Definition put_file (file d : Z) (f : afile) (s : fst_) : fst_ :=
  set_devs (<[file := mkFile tmpfiledev_tmpl (Z.of_nat (a_pos f)) (Z.of_nat (length (a_bytes f))) (HeapData d)]> (devs s)) s.

(** A state that differs in one file, whose data is its own or new. *)
Lemma others_kept_ok s s' file f d q b' fd' :
  separate s → devs s !! file = Some f → fdata f = HeapData d → (q = d ∨ q = fheap s) →
  devs s' = <[file := fd']> (devs s) → fdata fd' = HeapData q →
  bufs s' = <[q := b']> (delete d (bufs s)) → (fheap s' = fheap s ∨ fheap s' = fheap s + 1 ) → (q = d ∨ fheap s' = fheap s + 1) →
  others_kept file s s' ∧ separate s'.
Proof.
  intros [S1 S2 S3] Ef Ed Hq Hdevs Ed' Hbufs Hheap Hqh.
  assert (Hother : ∀ g fg p, g ≠ file → devs s !! g = Some fg → fdata fg = HeapData p → p ≠ d ∧ p ≠ q).
  { intros g fg p Hg Eg Ep. assert (p ≠ d) by (intros ->; apply Hg; by apply (S2 g file fg f d)).
    split; [done|]. pose proof (S3 g fg p Eg Ep). destruct Hq as [->| ->]; [done|lia]. }
  split.
  - intros g fg Hg (p & Eg & Ep & Hr). destruct (Hother g _ p Hg Eg eq_refl) as [Hpd Hpq].
    exists p. rewrite Hdevs, Hbufs, !lookup_insert_ne, lookup_delete_ne by done. done.
  - pose proof (S3 file f d Ef Ed) as Hd. split.
    + intros p [x Ep]. rewrite Hbufs in Ep. destruct (decide (p = q)) as [->|]; [destruct Hq, Hqh, Hheap; subst; lia|].
      rewrite lookup_insert_ne in Ep by done. apply lookup_delete_Some in Ep as [_ Ep].
      assert (p < fheap s) by (apply S1; by exists x). lia.
    + intros a b fa fb p Ea Eb Fa Fb. rewrite Hdevs in Ea, Eb.
      destruct (decide (a = file)) as [->|Ha], (decide (b = file)) as [->|Hb]; try done;
        rewrite ?lookup_insert_eq in Ea; rewrite ?lookup_insert_eq in Eb;
        rewrite ?(lookup_insert_ne _ _ a) in Ea by done; rewrite ?(lookup_insert_ne _ _ b) in Eb by done.
      * injection Ea as <-. exfalso. destruct (Hother b fb p Hb Eb Fb). congruence.
      * injection Eb as <-. exfalso. destruct (Hother a fa p Ha Ea Fa). congruence.
      * by apply (S2 a b fa fb p).
    + intros a fa p Ea Fa. rewrite Hdevs in Ea. destruct (decide (a = file)) as [->|Ha].
      * rewrite lookup_insert_eq in Ea. injection Ea as <-. assert (p = q) by congruence. subst p. destruct Hq, Hqh, Hheap; subst; lia.
      * rewrite lookup_insert_ne in Ea by done. pose proof (S3 a fa p Ea Fa). lia.
Qed.

Lemma heap_data_ok s io p l d : heap_data (mkFile io p l (HeapData d)) s = Ret (d, s).
Proof. done. Qed.

Lemma tmpfs_write_ok s file f x extra :
  holds s file f → separate s → Z.of_nat (a_pos f + length x) < 2 ^ 31 →
  ∃ s', tmpfs_write_file file (x ++ extra) (Z.of_nat (length x)) s = Ret (Z.of_nat (length x), s') ∧
    holds s' file (a_write x f) ∧ others_kept file s s' ∧ separate s' ∧ nodes s' = nodes s.
Proof.
  intros (d & Ef & Eb & Hp & Hl) Hsep Hn. unfold tmpfs_write_file.
  set (fd0 := mkFile tmpfiledev_tmpl (Z.of_nat (a_pos f)) (Z.of_nat (length (a_bytes f))) (HeapData d)) in *.
  rewrite (bind_ret _ _ _ _ _ (get_dev_ok s file fd0 Ef)). cbn [fpos flength dev_io fd0].
  rewrite (u32_small (Z.of_nat (a_pos f))), (u32_small (Z.of_nat (length _))), (u32_small (_ + _)) by lia.
  set (pos := a_pos f) in *. set (old := a_bytes f) in *.
  assert (Ex : copy_out (x ++ extra) 0 (Z.of_nat (length x)) = λ s : fst_, Ret (x, s)).
  { unfold copy_out. destruct (Z.eqb_spec (Z.of_nat (length x)) 0).
    - destruct x; [done|cbn in *; lia].
    - rewrite (proj2 (Z.leb_le (0 + Z.of_nat (length x)) _)) by (rewrite length_app; lia).
      change (0 <=? 0) with true. cbn [andb]. rewrite Nat2Z.id. change (Z.to_nat 0) with 0%nat. rewrite drop_0. by rewrite take_app_length. }
  assert (Lx : length (Some <$> x) = length x) by apply length_fmap.
  set (nb := a_write x f). assert (Lnb : a_pos nb = (pos + length x)%nat) by done.
  destruct (Z.ltb_spec (Z.of_nat (length old)) (Z.of_nat pos + Z.of_nat (length x))) as [Hlt|Hge].
  - destruct (written_extended old (Some <$> x) None pos) as [Lb Eb']; [rewrite Lx; lia|].
    rewrite Lx in Lb, Eb'.
    assert (Lab : length (a_bytes nb) = (pos + length x)%nat).
    { unfold nb, a_write. cbn [a_bytes]. rewrite !length_app, length_take, length_replicate, length_fmap, length_drop. fold pos old. lia. }
    set (b := take (pos + length x) old ++ replicate (pos + length x - length old) None) in *.
    set (q := fheap s). set (s1 := set_bufs (<[q := b]> (delete d (bufs s))) (set_fheap (q + 1) s)).
    set (fd1 := mkFile tmpfiledev_tmpl (Z.of_nat pos) (Z.of_nat pos + Z.of_nat (length x)) (HeapData q)).
    set (s2 := set_devs (<[file := fd1]> (devs s)) s1).
    rewrite (bind_ret _ _ s tt s2).
    2: { rewrite (bind_ret _ _ s d s) by done. rewrite (bind_ret _ _ s q s1).
         - rewrite s32_small by lia. done.
         - unfold fs_realloc. rewrite (bind_ret _ _ _ _ _ (get_buf_ok s d old Eb)).
           rewrite (bind_ret _ _ s q (set_fheap (q + 1) s)), <- Nat2Z.inj_add, Nat2Z.id by done. done. }
    rewrite (bind_ret _ _ _ _ _ (get_dev_ok s2 file fd1 ltac:(apply lookup_insert_eq))).
    rewrite (bind_ret _ _ s2 q s2) by done.
    rewrite (bind_ret _ _ _ _ _ (get_buf_ok s2 q b ltac:(apply lookup_insert_eq))).
    rewrite Ex, (bind_ret _ _ s2 x s2) by done. cbn [fpos fd1].
    rewrite (bind_ret _ _ _ _ _ (copy_in_ok b (Some <$> x) pos s2 ltac:(lia))). rewrite Lx, Eb'.
    eexists. split; [rewrite !s32_small by lia; done|].
    match goal with |- holds ?s' _ _ ∧ _ => destruct (others_kept_ok s s' file fd0 d q (a_bytes nb)
      (mkFile tmpfiledev_tmpl (Z.of_nat pos + Z.of_nat (length x)) (Z.of_nat pos + Z.of_nat (length x)) (HeapData q))) as [Ho Hs'] end;
      try done; [by right| | |by right|by right|].
    + cbn. by rewrite insert_insert_eq.
    + cbn. by rewrite insert_insert_eq.
    + split; [|by split].
      exists q. cbn [devs bufs set_devs set_bufs]. rewrite !lookup_insert_eq. split; [|split; [done|]].
      * fold nb. by rewrite Lnb, Lab, Nat2Z.inj_add.
      * fold nb. lia.
  - rewrite (bind_ret _ _ s tt s) by done.
    rewrite (bind_ret _ _ _ _ _ (get_dev_ok s file fd0 Ef)), (bind_ret _ _ s d s) by done.
    rewrite (bind_ret _ _ _ _ _ (get_buf_ok s d old Eb)). rewrite Ex, (bind_ret _ _ s x s) by done. cbn [fpos fd0].
    rewrite (bind_ret _ _ _ _ _ (copy_in_ok old (Some <$> x) pos s ltac:(lia))). rewrite Lx.
    assert (Eb' : take pos old ++ (Some <$> x) ++ drop (pos + length x) old = a_bytes nb).
    { unfold nb, a_write. cbn. fold old pos. by replace (pos - length old)%nat with 0%nat by lia. }
    assert (Lb' : length (a_bytes nb) = length old).
    { rewrite <- Eb'. rewrite !length_app, length_take, length_fmap, length_drop. lia. }
    rewrite Eb'. eexists. split; [rewrite !s32_small by lia; done|].
    match goal with |- holds ?s' _ _ ∧ _ => destruct (others_kept_ok s s' file fd0 d d (a_bytes nb)
      (mkFile tmpfiledev_tmpl (Z.of_nat pos + Z.of_nat (length x)) (Z.of_nat (length old)) (HeapData d))) as [Ho Hs'] end;
      try done; [by left| |by left|by left|].
    + cbn. by rewrite insert_delete_eq.
    + split; [|by split]. exists d. cbn [devs bufs set_devs set_bufs]. rewrite !lookup_insert_eq. split; [|split; [done|]].
      * fold nb. by rewrite Lnb, Lb', Nat2Z.inj_add.
      * fold nb. lia.
Qed.

(** Moving the position. *)
Lemma reposition_ok s file f d pos' :
  holds s file f → separate s → devs s !! file = Some (mkFile tmpfiledev_tmpl (Z.of_nat (a_pos f)) (Z.of_nat (length (a_bytes f))) (HeapData d)) →
  let s' := set_devs (<[file := mkFile tmpfiledev_tmpl (Z.of_nat pos') (Z.of_nat (length (a_bytes f))) (HeapData d)]> (devs s)) s in
  Z.of_nat pos' < 2 ^ 31 → holds s' file (mkAfile (a_bytes f) pos') ∧ others_kept file s s' ∧ separate s'.
Proof.
  intros (d' & Ef & Eb & Hp & Hl) Hsep Ef'. rewrite Ef in Ef'. injection Ef' as ->. intros s' Hpos.
  split; [|].
  - exists d. cbn. rewrite lookup_insert_eq. done.
  - apply (others_kept_ok s s' file _ d d (a_bytes f) (mkFile tmpfiledev_tmpl (Z.of_nat pos') (Z.of_nat (length (a_bytes f))) (HeapData d)) Hsep Ef);
      try done; [by left| |by left|by left]. cbn. rewrite insert_delete_eq. by rewrite insert_id.
Qed.

Lemma tmpfs_read_ok s file f n :
  holds s file f → separate s → (a_pos f ≤ length (a_bytes f))%nat → Z.of_nat n < 2 ^ 31 →
  let (x, f') := a_read n f in
  ∃ s', tmpfs_read_file file (Z.of_nat n) s = Ret ((Z.of_nat (length x), x), s') ∧
    holds s' file f' ∧ others_kept file s s' ∧ separate s' ∧ nodes s' = nodes s.
Proof.
  intros Hh Hsep Hle Hn. unfold a_read. pose proof Hh as (d & Ef & Eb & Hp & Hl).
  set (fd0 := mkFile tmpfiledev_tmpl (Z.of_nat (a_pos f)) (Z.of_nat (length (a_bytes f))) (HeapData d)) in *.
  set (x := take n (drop (a_pos f) (a_bytes f))). unfold tmpfs_read_file.
  rewrite (bind_ret _ _ _ _ _ (get_dev_ok s file fd0 Ef)). cbn [fpos flength dev_io fd0 fdata].
  rewrite (u32_small (Z.of_nat (a_pos f))), (u32_small (Z.of_nat (length _))), (u32_small (_ + _)) by lia.
  set (n' := Nat.min n (length (a_bytes f) - a_pos f)).
  assert (En : (if Z.of_nat (length (a_bytes f)) <? Z.of_nat (a_pos f) + Z.of_nat n then
      Z.of_nat (length (a_bytes f)) -u Z.of_nat (a_pos f) else Z.of_nat n) = Z.of_nat n').
  { unfold n'. destruct (Z.ltb_spec (Z.of_nat (length (a_bytes f))) (Z.of_nat (a_pos f) + Z.of_nat n)); [rewrite u32_small by lia|]; lia. }
  rewrite En. assert (Ex : x = take n' (drop (a_pos f) (a_bytes f))).
  { unfold x, n'. destruct (decide (n ≤ length (a_bytes f) - a_pos f)%nat); [by rewrite Nat.min_l|].
    rewrite !take_ge; [done|rewrite length_drop; lia|rewrite length_drop; lia]. }
  assert (Lx : length x = n') by (rewrite Ex, length_take, length_drop; lia).
  rewrite (bind_ret _ _ s d s) by done. rewrite (bind_ret _ _ _ _ _ (get_buf_ok s d _ Eb)).
  rewrite (bind_ret _ _ _ _ _ (copy_out_ok (a_bytes f) (a_pos f) n' s ltac:(lia))). rewrite <- Ex.
  rewrite (s32_small (_ + _)), (s32_small (Z.of_nat n')) by lia.
  destruct (reposition_ok s file f d (a_pos f + length x) Hh Hsep Ef ltac:(lia)) as (H1 & H2 & H3).
  eexists. split; [by rewrite Lx|]. rewrite <- Lx, <- Nat2Z.inj_add. done.
Qed.

Lemma tmpfs_seek_ok s file f pos :
  holds s file f → separate s → Z.of_nat pos < 2 ^ 31 →
  ∃ s', tmpfs_seek_file file (Z.of_nat pos) SEEK_SET s = Ret (Z.of_nat pos, s') ∧
    holds s' file (mkAfile (a_bytes f) pos) ∧ others_kept file s s' ∧ separate s' ∧ nodes s' = nodes s.
Proof.
  intros Hh Hsep Hp. pose proof Hh as (d & Ef & _).
  destruct (reposition_ok s file f d pos Hh Hsep Ef Hp) as (H1 & H2 & H3).
  eexists. split; [|split; [exact H1|split; [exact H2|split; [exact H3|done]]]].
  unfold tmpfs_seek_file. by rewrite (bind_ret _ _ _ _ _ (get_dev_ok s file _ Ef)).
Qed.

(** ** Properties *)

Definition demo_file_fs : fst_ :=
  mkFst ∅ (<[30 := mkFile tmpfiledev_tmpl 2 3 (HeapData 31)]> ∅) (<[31 := [Some 1; Some 2; Some 3]]> ∅) 10 40 (mkTokst [] None) [] [].

Lemma demo_file_holds : holds demo_file_fs 30 (mkAfile [Some 1; Some 2; Some 3] 2) ∧ separate demo_file_fs.
Proof.
  split; [by exists 31|]. split; unfold demo_file_fs; cbn [bufs devs fheap].
  - intros p [x Hx]. apply lookup_insert_Some in Hx as [[<- _]|[_ Hx]]; [done|by rewrite lookup_empty in Hx].
  - intros a b fa fb p Ha Hb _ _.
    apply lookup_insert_Some in Ha as [[<- _]|[_ Ha]]; [|by rewrite lookup_empty in Ha].
    apply lookup_insert_Some in Hb as [[<- _]|[_ Hb]]; [done|by rewrite lookup_empty in Hb].
  - intros a fa p Ha E. apply lookup_insert_Some in Ha as [[_ <-]|[_ Ha]]; [by injection E as <-|by rewrite lookup_empty in Ha].
Qed.

(** C5: a tmpfs file implements the abstract file.  A write at the position
    overwrites, extends, and leaves indeterminate bytes in a gap; a read gives the
    bytes from the position up to the end of the file; both move the position by
    what they return and leave every other file as it was. *)
Theorem tmpfs_refines_file s file f x extra n :
  holds s file f → separate s →
  (Z.of_nat (a_pos f + length x) < 2 ^ 31 →
   ∃ s', tmpfs_write_file file (x ++ extra) (Z.of_nat (length x)) s = Ret (Z.of_nat (length x), s') ∧
     holds s' file (a_write x f) ∧ others_kept file s s' ∧ separate s' ∧ nodes s' = nodes s) ∧
  ((a_pos f ≤ length (a_bytes f))%nat → Z.of_nat n < 2 ^ 31 →
   let (y, f') := a_read n f in
   ∃ s', tmpfs_read_file file (Z.of_nat n) s = Ret ((Z.of_nat (length y), y), s') ∧
     holds s' file f' ∧ others_kept file s s' ∧ separate s' ∧ nodes s' = nodes s).
Proof. intros Hh Hsep. split; [by apply tmpfs_write_ok|by apply tmpfs_read_ok]. Qed.

Lemma tmpfs_refines_file_witness :
  ∃ s', tmpfs_write_file 30 [7; 8; 9] 2 demo_file_fs = Ret (2, s') ∧
    holds s' 30 (mkAfile [Some 1; Some 2; Some 7; Some 8] 4).
Proof.
  destruct demo_file_holds as [Hh Hs].
  destruct (proj1 (tmpfs_refines_file demo_file_fs 30 _ [7; 8] [9] 0 Hh Hs) eq_refl) as (s' & E & H & _).
  exists s'. exact (conj E H).
Defined.

(** What is written is read back.  After a write at the position, seeking back
    and reading as many bytes yields exactly them, and the position is again behind
    them. *)
Theorem tmpfs_write_seek_read s file f x :
  holds s file f → separate s → (a_pos f ≤ length (a_bytes f))%nat → Z.of_nat (a_pos f + length x) < 2 ^ 31 →
  ∃ s', (tmpfs_write_file file x (Z.of_nat (length x)) ;;
         tmpfs_seek_file file (Z.of_nat (a_pos f)) SEEK_SET ;;
         tmpfs_read_file file (Z.of_nat (length x))) s = Ret ((Z.of_nat (length x), Some <$> x), s') ∧
    holds s' file (a_write x f) ∧ others_kept file s s'.
Proof.
  intros Hh Hsep Hle Hlen.
  destruct (tmpfs_write_ok s file f x [] Hh Hsep Hlen) as (s1 & E1 & H1 & O1 & Sep1 & _). rewrite app_nil_r in E1.
  destruct (tmpfs_seek_ok s1 file _ (a_pos f) H1 Sep1 ltac:(lia)) as (s2 & E2 & H2 & O2 & Sep2 & _).
  set (b := a_bytes (a_write x f)) in *.
  assert (Eb : b = take (a_pos f) (a_bytes f) ++ (Some <$> x) ++ drop (a_pos f + length x) (a_bytes f)).
  { unfold b, a_write. cbn [a_bytes]. by replace (a_pos f - length (a_bytes f))%nat with 0%nat by lia. }
  assert (Ey : take (length x) (drop (a_pos f) b) = Some <$> x).
  { rewrite Eb, drop_app_length' by (rewrite length_take; lia). by rewrite take_app_length' by (by rewrite length_fmap). }
  pose proof (tmpfs_read_ok s2 file _ (length x) H2 Sep2) as K. unfold a_read in K. cbn [a_pos a_bytes] in K.
  rewrite Ey, length_fmap in K.
  destruct K as (s3 & E3 & H3 & O3 & _); [rewrite Eb, !length_app, length_take, length_fmap; lia|lia|].
  exists s3. rewrite (bind_ret _ _ _ _ _ E1), (bind_ret _ _ _ _ _ E2). split; [done|]. split; [exact H3|].
  intros g fg Hg Hfg. apply O3, O2, O1; done.
Qed.

Lemma tmpfs_write_seek_read_witness :
  ∃ s', (tmpfs_write_file 30 [7; 8] 2 ;; tmpfs_seek_file 30 2 SEEK_SET ;; tmpfs_read_file 30 2) demo_file_fs
    = Ret ((2, [Some 7; Some 8]), s').
Proof.
  destruct demo_file_holds as [Hh Hs].
  destruct (tmpfs_write_seek_read demo_file_fs 30 _ [7; 8] Hh Hs) as (s' & E & _); [cbn; lia|done|].
  exists s'. exact E.
Defined.

(** A read behind the end.  The length that is left is computed as an unsigned
    difference: a position past the end makes it huge, and the copy leaves the
    file's memory, where a read of nothing was meant. *)
Theorem tmpfs_read_past_end s file f n :
  holds s file f → (length (a_bytes f) < a_pos f)%nat → 0 ≤ n < 2 ^ 31 →
  tmpfs_read_file file n s = Fault OutOfBounds.
Proof.
  intros (d & Ef & Eb & Hp & Hl) Hlt Hn. unfold tmpfs_read_file.
  rewrite (bind_ret _ _ _ _ _ (get_dev_ok s file _ Ef)). cbn [fpos flength dev_io fdata].
  rewrite (u32_small (Z.of_nat (a_pos f))), (u32_small (Z.of_nat (length _))), (u32_small (_ + _)) by lia.
  rewrite (proj2 (Z.ltb_lt _ _)) by lia. rewrite (bind_ret _ _ s d s) by done.
  rewrite (bind_ret _ _ _ _ _ (get_buf_ok s d _ Eb)). apply bind_fault. apply copy_out_oob; unfold u32; zlia.
Qed.

Lemma tmpfs_read_past_end_witness :
  tmpfs_read_file 30 1 (put_file 30 31 (mkAfile [Some 1; Some 2; Some 3] 4) demo_file_fs) = Fault OutOfBounds.
Proof.
  apply (tmpfs_read_past_end _ 30 (mkAfile [Some 1; Some 2; Some 3] 4)); [|cbn; lia|lia].
  by exists 31.
Defined.
