(* ===== verification/Cpiofs.v ===== *)
(** * The initial ramdisk

    [kernel/fs/cpiofs.c] and [kernel/initrd.c]: a cpio archive in the old binary
    format, unpacked into one directory, and its read-only files.  The specification
    is an encoder of such archives. *)
From Stdlib Require Import ZArith Lia.
From stdpp Require Import base gmap list list_numbers strings.
From S2P Require Import Prelude CStr ListHead Fs Tmpfs.
Open Scope Z_scope.
Open Scope u32_scope.

(** ** kernel/fs/cpiofs.c *)

Definition cpiofs_dir_tmpl : fsnode := mkNode zero_name (Some VfsTypeDir) CNull CNull CNull NULL NULL NULL NULL.
Definition cpiofs_file_tmpl : fsnode :=
  mkNode zero_name (Some VfsTypeDir) CNull p_cpiofs_open_file p_cpiofs_stat_file NULL NULL NULL NULL.
Definition cpiofiledev_tmpl : iodev := mkIodev CNull p_cpiofs_read_file CNull p_cpiofs_close_file p_cpiofs_seek_file.

(** "TRAILER!!!" *)
Definition trailer_name : list Z := [84; 82; 65; 73; 76; 69; 82; 33; 33; 33].

(** A [cpiohdr_t *]: into the archive, to [CpioEOF], or NULL. *)
Inductive cpio_ptr : Type := HdrAt (off : Z) | HdrEOF | HdrNull.

(** The [k]-th 16-bit word of the packed header: magic 0, namesize 10, filesize 11
    and 12; the header has 26 bytes. *)
Definition hdr_word (off k : Z) : M fst_ Z :=
  s ← getS;
  lo ← aget (archive s) (off + 2 * k);
  hi ← aget (archive s) (off + 2 * k + 1);
  mret (lo + 256 * hi).
Definition cpiohdr_size : Z := 26.

Definition cpiofs_unpack_file (parent off : Z) : M fst_ cpio_ptr :=
  magic ← hdr_word off 0;
  if negb (magic =? CPIO_MAGIC) then fs_printk (InvalidMagic magic) ;; mret HdrNull
  else
    s ← getS;
    let nm := off + cpiohdr_size in
    r ← strcmp (from nm (archive s)) (trailer_name ++ [0]);
    if r =? 0 then mret HdrEOF
    else
      namesize ← hdr_word off 10;
      let data := nm + namesize in
      let data := if negb (namesize mod 2 =? 0) then data + 1 else data in
      file ← fs_malloc;
      hi ← hdr_word off 11;
      lo ← hdr_word off 12;
      let len := s32 (s32 (Z.shiftl hi 16) + lo) in
      put_dev file (mkFile cpiofiledev_tmpl 0 len (ArchiveData data)) ;;
      node ← fs_malloc;
      put_node node (set_device file cpiofs_file_tmpl) ;;
      nm' ← strcpy (name cpiofs_file_tmpl) (from nm (archive s));
      upd_node node (set_name nm') ;;
      fs_link_child parent node ;;
      let padded_len := if negb (Z.rem len 2 =? 0) then s32 (len + 1) else len in
      mret (HdrAt (data + padded_len)).

(** The header pointer alone decides the next iteration but for allocation, so a walk
    that visits more headers than the archive has bytes goes on for ever.  The device
    of the directory's node is never set. *)
Definition cpiofs_mount (nm : list Z) (cpio_hdr : cpio_ptr) : M fst_ Z :=
  cpiofs ← fs_malloc;
  put_node cpiofs cpiofs_dir_tmpl ;;
  nm' ← strcpy (name cpiofs_dir_tmpl) nm;
  upd_node cpiofs (set_name nm') ;;
  s ← getS;
  while (Pos.succ (bufsize (archive s)))
    (λ h,
       match h with
       | HdrEOF => mret (inr cpiofs)
       | HdrNull => crash NullDeref
       | HdrAt off =>
           h ← cpiofs_unpack_file cpiofs off;
           match h with
           | HdrNull => mret (inr NULL)
           | _ => mret (inl h)
           end
       end) cpio_hdr.

Definition cpiofs_open_file (node : Z) : M fst_ Z := n ← get_node node; mret (device n).

Definition archive_data (d : filedev) : M fst_ Z :=
  match fdata d with ArchiveData off => mret off | _ => crash NullDeref end.

Definition cpiofs_read_file (file nbyte : Z) : M fst_ (Z * list Z) :=
  f ← get_dev file;
  let nbyte := if u32 (flength f) <? u32 (fpos f) +u nbyte then u32 (flength f) -u u32 (fpos f) else nbyte in
  off ← archive_data f;
  s ← getS;
  x ← copy_out (archive s) (off + fpos f) nbyte;
  put_dev file (mkFile (dev_io f) (s32 (fpos f + nbyte)) (flength f) (fdata f)) ;;
  mret (s32 nbyte, x).

(** The result and the [st_size] it stores. *)
Definition cpiofs_stat_file (node : Z) : M fst_ (Z * option Z) :=
  dev ← cpiofs_open_file node;
  if dev =? NULL then mret (-1, None)
  else f ← get_dev dev; mret (0, Some (u32 (flength f))).

Definition cpiofs_seek_file (file offset whence : Z) : M fst_ Z :=
  f ← get_dev file;
  let pos :=
    if whence =? SEEK_SET then offset
    else if whence =? SEEK_CUR then s32 (fpos f + offset)
    else if whence =? SEEK_END then s32 (flength f - offset)
    else fpos f in
  put_dev file (mkFile (dev_io f) pos (flength f) (fdata f)) ;;
  mret pos.

Definition cpiofs_close_file (file : Z) : M fst_ unit := mret tt.

(** ** kernel/initrd.c, with the pointer [Initrd] *)

(** "initrd" *)
Definition initrd_mount (Initrd : cpio_ptr) (mountpoint : Z) : M fst_ unit :=
  ird ← cpiofs_mount [105; 110; 105; 116; 114; 100; 0] Initrd;
  if ird =? NULL then fs_printk UnableToMountInitrd
  else fs_link_child mountpoint ird.

(** ** Specification: archives *)

Definition u16le (x : Z) : list Z := [x mod 256; x / 256].

(** [e_mid] stands for the fields between magic and namesize. *)
Record entry : Type := mkEntry { e_name : list Z; e_data : list Z; e_mid : list Z }.

Definition pad (n : Z) : list Z := if n mod 2 =? 0 then [] else [0].
Definition len {A} (x : list A) : Z := Z.of_nat (length x).

Definition encode_header (e : entry) : list Z :=
  u16le CPIO_MAGIC ++ e_mid e ++ u16le (len (e_name e) + 1) ++
  u16le (len (e_data e) / 2 ^ 16) ++ u16le (len (e_data e) mod 2 ^ 16).
Definition encode_entry (e : entry) : list Z :=
  encode_header e ++ e_name e ++ [0] ++ pad (len (e_name e) + 1) ++ e_data e ++ pad (len (e_data e)).
Definition encode_archive (es : list entry) (trailer : entry) : list Z :=
  concat (encode_entry <$> es) ++ encode_entry trailer.

Record entry_ok (e : entry) : Prop := {
  eo_name : nonzero (e_name e) ∧ len (e_name e) < FS_NAME_MAX;
  eo_data : len (e_data e) < 2 ^ 31 - 1;
  eo_mid : length (e_mid e) = 18%nat
}.
Definition is_file (e : entry) : Prop := entry_ok e ∧ e_name e ≠ trailer_name.

Lemma len_app {A} (x y : list A) : len (x ++ y) = len x + len y.
Proof. unfold len. rewrite length_app. lia. Qed.
Lemma len_nonneg {A} (x : list A) : 0 ≤ len x.
Proof. unfold len. lia. Qed.

(** The bytes of an entry inside an archive. *)
Lemma lookup_inside {A} (pre x post : list A) i :
  0 ≤ i < len x → lookupZ (pre ++ x ++ post) (len pre + i) = lookupZ x i.
Proof.
  unfold len. intros Hi. rewrite lookupZ_app_r by lia. rewrite lookupZ_app_l by lia. f_equal. lia.
Qed.

Lemma from_inside {A} (pre x : list A) i : 0 ≤ i → drop (Z.to_nat (len pre + i)) (pre ++ x) = drop (Z.to_nat i) x.
Proof.
  intros Hi. unfold len. rewrite drop_app_ge by lia. f_equal. lia.
Qed.

(** A little-endian word with two bytes before it at an even place. *)
Lemma word_inside s pre x y w post k :
  archive s = pre ++ (x ++ u16le w ++ y) ++ post → len x = 2 * k →
  hdr_word (len pre) k s = Ret (w, s).
Proof.
  intros E Hk. pose proof (len_nonneg y). unfold hdr_word. rewrite (bind_ret _ _ s s s), E by done.
  assert (L : len (x ++ u16le w ++ y) = 2 * k + 2 + len y) by (rewrite !len_app, Hk; unfold len; cbn; lia).
  pose proof (len_nonneg x).
  rewrite (bind_ret _ _ s (w mod 256) s).
  2: { apply aget_Some. rewrite lookup_inside by lia. by apply lookupZ_middle. }
  rewrite (bind_ret _ _ s (w / 256) s).
  2: { apply aget_Some. rewrite <- Z.add_assoc, lookup_inside by lia. change (x ++ u16le w ++ y) with (x ++ [w mod 256] ++ w / 256 :: y). rewrite app_assoc.
       apply lookupZ_middle. rewrite length_app. cbn. unfold len in Hk. lia. }
  unfold mret, M_ret, mret_M. do 2 f_equal. zlia.
Qed.

Definition body_of (e : entry) : list Z := e_name e ++ 0 :: pad (len (e_name e) + 1) ++ e_data e ++ pad (len (e_data e)).
Lemma encode_entry_split e : encode_entry e = encode_header e ++ body_of e.
Proof. done. Qed.

Lemma len_header e : entry_ok e → len (encode_header e) = cpiohdr_size.
Proof. intros He. pose proof (eo_mid e He) as Hm. unfold encode_header, len. rewrite !length_app, Hm. done. Qed.

Lemma len_pad n : len (pad n) = if n mod 2 =? 0 then 0 else 1.
Proof. unfold pad. by destruct (n mod 2 =? 0). Qed.

(** What the header of an entry says. *)
Lemma header_words s pre e post :
  archive s = pre ++ encode_entry e ++ post → entry_ok e →
  hdr_word (len pre) 0 s = Ret (CPIO_MAGIC, s) ∧ hdr_word (len pre) 10 s = Ret (len (e_name e) + 1, s) ∧
  hdr_word (len pre) 11 s = Ret (len (e_data e) / 2 ^ 16, s) ∧ hdr_word (len pre) 12 s = Ret (len (e_data e) mod 2 ^ 16, s).
Proof.
  intros E He. pose proof (eo_mid e He) as Hm. rewrite encode_entry_split in E. unfold encode_header in E.
  set (M := u16le CPIO_MAGIC) in *. set (m := e_mid e) in *. set (N := u16le (len (e_name e) + 1)) in *.
  set (H := u16le (len (e_data e) / 2 ^ 16)) in *. set (L := u16le (len (e_data e) mod 2 ^ 16)) in *.
  set (B := body_of e) in *.
  assert (LM : len (M ++ m) = 20) by (unfold len; rewrite length_app, Hm; done).
  repeat split.
  - apply (word_inside s pre [] (m ++ N ++ H ++ L ++ B) _ post 0); [|done]. rewrite E. fold M N H L. clearbody M N H L B. cbn [app]. by rewrite <- !app_assoc.
  - apply (word_inside s pre (M ++ m) (H ++ L ++ B) _ post 10); [|done]. rewrite E. fold M N H L. clearbody M N H L B. cbn [app]. by rewrite <- !app_assoc.
  - apply (word_inside s pre ((M ++ m) ++ N) (L ++ B) _ post 11); [|rewrite (len_app (M ++ m)), LM; done].
    rewrite E. fold M N H L. clearbody M N H L B. cbn [app]. by rewrite <- !app_assoc.
  - apply (word_inside s pre ((M ++ m) ++ N ++ H) B _ post 12); [|rewrite (len_app (M ++ m)), LM; done].
    rewrite E. fold M N H L. clearbody M N H L B. cbn [app]. by rewrite <- !app_assoc.
Qed.

(** The name and the data behind the header. *)
Lemma entry_body a pre e post :
  a = pre ++ encode_entry e ++ post → entry_ok e →
  let nm := len pre + cpiohdr_size in
  let d := nm + (len (e_name e) + 1) + len (pad (len (e_name e) + 1)) in
  cstr (from nm a) = e_name e ∧ terminated (from nm a) ∧
  take (length (e_data e)) (drop (Z.to_nat d) a) = e_data e ∧
  d + len (e_data e) + len (pad (len (e_data e))) = len pre + len (encode_entry e) ∧
  d + len (e_data e) ≤ len a.
Proof.
  intros -> He nm d. pose proof (len_header e He) as Hh. destruct (eo_name e He) as [Hz _].
  set (P1 := pad (len (e_name e) + 1)) in *. set (P2 := pad (len (e_data e))).
  assert (Eb : encode_entry e = encode_header e ++ e_name e ++ 0 :: P1 ++ e_data e ++ P2) by done.
  set (nme := e_name e) in *. set (dat := e_data e) in *.
  assert (Ef : from nm (pre ++ encode_entry e ++ post) = nme ++ 0 :: (P1 ++ dat ++ P2 ++ post)).
  { unfold from, nm. rewrite from_inside by done. rewrite Eb, <- !app_assoc, <- Hh. unfold len. rewrite Nat2Z.id, drop_app_length.
    cbn [app]. by rewrite <- !app_assoc. }
  pose proof (len_nonneg nme). pose proof (len_nonneg P1). pose proof (len_nonneg pre). pose proof (len_nonneg P2). pose proof (len_nonneg post).
  assert (Hd : len (encode_entry e) = cpiohdr_size + (len nme + 1) + len P1 + len dat + len P2).
  { rewrite Eb, len_app, Hh, len_app. change (0 :: P1 ++ dat ++ P2) with ([0] ++ P1 ++ dat ++ P2). rewrite !len_app. change (len [0]) with 1. lia. }
  rewrite Ef. split; [by apply cstr_app|]. split; [apply elem_of_app; right; apply list_elem_of_here|].
  split; [|split; [unfold d, nm; lia|unfold d, nm; rewrite !len_app, Hd; lia]].
  replace (Z.to_nat d) with (Z.to_nat nm + Z.to_nat (len nme + 1 + len P1))%nat by (unfold d, nm, cpiohdr_size; lia).
  rewrite <- drop_drop. change (drop (Z.to_nat nm) (pre ++ encode_entry e ++ post)) with (from nm (pre ++ encode_entry e ++ post)).
  rewrite Ef. replace (nme ++ 0 :: P1 ++ dat ++ P2 ++ post) with ((nme ++ [0] ++ P1) ++ dat ++ P2 ++ post) by (by rewrite <- !app_assoc).
  rewrite drop_app_length' by (unfold len; rewrite !length_app; cbn; lia). by rewrite take_app_length.
Qed.

(** ** A new node *)

(** Nodes stand below the next object, so that a new one is no one's child and has none. *)
Record fs_wf (s : fst_) (kids : Z → list Z) : Prop := {
  wf_tree : tree (nodes s) kids;
  wf_heap p : is_Some (nodes s !! p) → p < fheap s;
  wf_pos : NULL < fheap s;
  wf_fresh p : nodes s !! p = None → kids p = []
}.

Lemma wf_new s kids : fs_wf s kids → nodes s !! fheap s = None.
Proof.
  intros [_ H _ _]. destruct (nodes s !! fheap s) eqn:E; [|done]. assert (fheap s < fheap s) by (apply H; by eexists). lia.
Qed.

Lemma tree_new m kids q n :
  tree m kids → m !! q = None → named n → first_child n = NULL → tree (<[q := n]> m) (kids_at kids q []).
Proof.
  intros [T1 T2 T3] Hq Hn Hf. split.
  - intros p np Hp. unfold kids_at. case_decide as Hd.
    + subst p. rewrite lookup_insert_eq in Hp. injection Hp as <-. rewrite Hf. constructor.
    + rewrite lookup_insert_ne in Hp by done. apply (chain_frame m); [|by apply T1].
      intros x nx _ Ex. exists nx. split; [|done]. rewrite lookup_insert_ne; [done|]. intros <-. congruence.
  - intros p np Hp. destruct (decide (p = q)) as [->|].
    + rewrite lookup_insert_eq in Hp. by injection Hp as <-.
    + rewrite lookup_insert_ne in Hp by done. by apply (T2 p).
  - intros p r x Hp Hr. unfold kids_at. destruct (decide (p = q)), (decide (r = q)); subst; try done.
    + by intros ?%not_elem_of_nil.
    + by intros _ ?%not_elem_of_nil.
    + rewrite !lookup_insert_ne in Hp by done. rewrite lookup_insert_ne in Hr by done. by apply T3.
Qed.

Lemma new_free m kids q p : tree m kids → m !! q = None → is_Some (m !! p) → q ∉ kids p.
Proof.
  intros Ht Hq [n Ep] Hin. destruct (chain_is_node _ _ _ q (tree_chain _ _ Ht p n Ep) Hin) as [[x Ex] _]. congruence.
Qed.

Lemma tree_ext m kids kids' : (∀ p, kids p = kids' p) → tree m kids → tree m kids'.
Proof.
  intros E [T1 T2 T3]. split; [|done|].
  - intros p n. rewrite <- E. apply T1.
  - intros p q x. rewrite <- !E. apply T3.
Qed.

(** Adding a node with a name and linking it. *)
Lemma add_child_ok s kids p n :
  fs_wf s kids → is_Some (nodes s !! p) → named n → first_child n = NULL → next_sibling n = NULL →
  let q := fheap s in
  let s1 := set_nodes (<[q := n]> (nodes s)) (set_fheap (q + 1) s) in
  ∃ m' kids', fs_link_child p q s1 = Ret (tt, set_nodes m' s1) ∧ fs_wf (set_nodes m' s1) kids' ∧
    kids' p ≡ₚ q :: kids p ∧ (∀ r, r ≠ p → kids' r = kids r) ∧ relink (<[q := n]> (nodes s)) m'.
Proof.
  intros [Ht Hh Hp Hfr] Hpn Hn Hf Hs q s1.
  assert (Hq : nodes s !! q = None).
  { destruct (nodes s !! q) eqn:E; [|done]. assert (q < fheap s) by (apply Hh; by eexists). unfold q in *. lia. }
  assert (Hqp : q ≠ p) by (intros ->; destruct Hpn; congruence).
  assert (Hlk : linkable (nodes s1) (kids_at kids q []) p q n).
  { split.
    - by apply tree_new.
    - cbn. by rewrite lookup_insert_ne.
    - cbn. apply lookup_insert_eq.
    - intros r Hr. unfold kids_at. case_decide; [by intros ?%not_elem_of_nil|].
      cbn in Hr. rewrite lookup_insert_ne in Hr by done. by apply (new_free (nodes s)).
    - split; [done|]. unfold q, NULL in *. lia.
    - done. }
  destruct (fs_link_child_ok s1 _ p q n Hlk) as (m' & E & Hr & Ht').
  exists m', (kids_at (kids_at kids q []) p (link_order (below (nodes s1) (node_name n)) [] (kids_at kids q [] p) q)).
  assert (Hko : ∀ r, r ≠ p → kids_at (kids_at kids q []) p (link_order (below (nodes s1) (node_name n)) [] (kids_at kids q [] p) q) r = kids r).
  { intros r Hrp. unfold kids_at. rewrite (decide_False (P := r = p)) by done. case_decide; [|done]. subst r. by rewrite Hfr. }
  split; [done|]. split; [|split; [|split; [done|done]]].
  - split; [done| | |].
    + intros r [x Ex]. cbn in *. specialize (Hr r). rewrite Ex in Hr. destruct (decide (r = q)) as [->|].
      * unfold q. lia.
      * rewrite lookup_insert_ne in Hr by done. destruct (nodes s !! r) eqn:Er; [|done].
        assert (r < fheap s) by (apply Hh; by eexists). unfold q. lia.
    + cbn. unfold q. lia.
    + cbn [nodes set_nodes]. intros r Er. specialize (Hr r). rewrite Er in Hr. cbn in Hr.
      destruct (decide (r = q)) as [->|]; [by rewrite lookup_insert_eq in Hr|]. rewrite lookup_insert_ne in Hr by done.
      destruct (nodes s !! r) eqn:Es; [done|]. rewrite Hko; [by apply Hfr|]. intros ->. destruct Hpn; congruence.
  - unfold kids_at at 1. rewrite decide_True by done. rewrite link_order_perm. unfold kids_at. by rewrite decide_False by done.
Qed.

(** ** Unpacking one entry *)

(** The node and the file of an entry, [k] objects after the directory's node. *)
Definition entry_node (root : Z) (i : nat) : Z := root + 2 + 2 * Z.of_nat i.
Record entry_at (s : fst_) (q : Z) (e : entry) : Prop := {
  ea_node : ∃ n, nodes s !! q = Some n ∧ node_name n = e_name e ∧ open n = p_cpiofs_open_file ∧
              stat n = p_cpiofs_stat_file ∧ device n = q - 1;
  ea_file : ∃ off, devs s !! (q - 1) = Some (mkFile cpiofiledev_tmpl 0 (len (e_data e)) (ArchiveData off)) ∧
              0 ≤ off ∧ off + len (e_data e) ≤ len (archive s) ∧
              take (length (e_data e)) (drop (Z.to_nat off) (archive s)) = e_data e
}.

Definition file_name_buf (nm : list Z) : list Z := nm ++ 0 :: drop (S (length nm)) zero_name.

Lemma strcpy_name {St} x (s : St) : terminated x → len (cstr x) < FS_NAME_MAX →
  strcpy zero_name x s = Ret (file_name_buf (cstr x), s).
Proof.
  intros Ht Hl. apply strcpy_ok; [done|]. unfold zero_name. rewrite length_replicate. unfold len, FS_NAME_MAX in *. lia.
Qed.

Lemma name_buf_named x f : nonzero x → bytes x → name f = file_name_buf x → named f ∧ node_name f = x.
Proof.
  intros Hz Hb E. unfold named, node_name. rewrite E. unfold file_name_buf. split; [split|by apply cstr_app].
  - apply elem_of_app. right. apply list_elem_of_here.
  - apply Forall_app. split; [done|]. constructor; [lia|]. apply Forall_drop. unfold zero_name. apply Forall_replicate. lia.
Qed.

Lemma cstr_bytes_full b : bytes b → bytes (cstr b).
Proof. induction 1 as [|c b Hc _ IH]; cbn; [constructor|]. destruct (c =? 0); by constructor. Qed.

Lemma mod2_pad n : 0 ≤ n → (if negb (n mod 2 =? 0) then 1 else 0) = len (pad n).
Proof. intros _. rewrite len_pad. by destruct (n mod 2 =? 0). Qed.

(** The header's test, its name and its length, for an entry that is no trailer. *)
Lemma unpack_start s pre e post root (K : Z → Z → Z → M fst_ cpio_ptr) :
  archive s = pre ++ encode_entry e ++ post → entry_ok e → bytes (archive s) → e_name e ≠ trailer_name →
  let nm := len pre + cpiohdr_size in
  let data := nm + (len (e_name e) + 1) + len (pad (len (e_name e) + 1)) in
  cpiofs_unpack_file root (len pre) s =
  (file ← fs_malloc;
   put_dev file (mkFile cpiofiledev_tmpl 0 (len (e_data e)) (ArchiveData data)) ;;
   node ← fs_malloc;
   put_node node (set_device file cpiofs_file_tmpl) ;;
   upd_node node (set_name (file_name_buf (e_name e))) ;;
   fs_link_child root node ;;
   mret (HdrAt (len pre + len (encode_entry e)))) s.
Proof.
  intros E He Hb Hne nm data. destruct (header_words s pre e post E He) as (W0 & W10 & _).
  destruct (entry_body (archive s) pre e post E He) as (En & Ht & _ & Hnext & _).
  destruct (eo_name e He) as [_ Hl]. pose proof (eo_data e He) as Hd. pose proof (len_nonneg (e_data e)) as Hd0.
  pose proof (len_nonneg (e_name e)).
  unfold cpiofs_unpack_file. rewrite (bind_ret _ _ _ _ _ W0). change (CPIO_MAGIC =? CPIO_MAGIC) with true. cbn [negb].
  rewrite (bind_ret _ _ s s s) by done.
  rewrite (bind_ret _ _ _ _ _ (strcmp_ok (from (len pre + cpiohdr_size) (archive s)) (trailer_name ++ [0]) s Ht
    ltac:(apply (bool_decide_unpack _); reflexivity) (terminated_bytes_from _ _ Hb) ltac:(apply (bool_decide_unpack _); reflexivity))).
  rewrite En. change (cstr (trailer_name ++ [0])) with trailer_name.
  destruct (Z.eqb_spec (str_compare (e_name e) trailer_name) 0) as [Ec|_]; [by apply str_compare_eq in Ec|].
  rewrite (bind_ret _ _ _ _ _ W10).
  assert (Edata : (if negb ((len (e_name e) + 1) mod 2 =? 0) then len pre + cpiohdr_size + (len (e_name e) + 1) + 1
                   else len pre + cpiohdr_size + (len (e_name e) + 1)) = data).
  { unfold data, nm. rewrite <- mod2_pad by lia. destruct (negb _); lia. }
  rewrite Edata. set (s1 := set_fheap (fheap s + 1) s).
  rewrite (bind_ret _ _ s (fheap s) s1) by done. rewrite (bind_ret _ (λ _, _) s (fheap s) s1) by done.
  destruct (header_words s1 pre e post E He) as (_ & _ & W11 & W12).
  rewrite (bind_ret _ _ _ _ _ W11), (bind_ret _ _ _ _ _ W12).
  assert (Elen : s32 (s32 (Z.shiftl (len (e_data e) / 2 ^ 16) 16) + len (e_data e) mod 2 ^ 16) = len (e_data e)).
  { rewrite Z.shiftl_mul_pow2 by lia. change (2 ^ 16) with 65536. rewrite (s32_small (_ * _)) by zlia.
    rewrite s32_small by zlia. zlia. }
  rewrite Elen. apply bind_ext; [done|]. intros [] s2. apply bind_ext; [done|]. intros node s3.
  apply bind_ext; [done|]. intros [] s4.
  rewrite (bind_ret _ _ s4 (file_name_buf (e_name e)) s4).
  2: { change (name cpiofs_file_tmpl) with zero_name. rewrite <- En. apply strcpy_name; [done|by rewrite En]. }
  apply bind_ext; [done|]. intros [] s5. apply bind_ext; [done|]. intros [] s6.
  unfold mret, M_ret, mret_M. do 3 f_equal.
  rewrite Z.rem_mod_nonneg by lia. unfold data, nm in *. rewrite <- (mod2_pad (len (e_data e))) in Hnext by lia.
  destruct (negb (len (e_data e) mod 2 =? 0)); [rewrite s32_small by lia|]; lia.
Qed.

(** The rest of the state: the root, the archive, and the devices made before. *)
Record rest_kept (s s' : fst_) : Prop := {
  rk_root : FSRootNode s' = FSRootNode s;
  rk_archive : archive s' = archive s;
  rk_heap : fheap s ≤ fheap s';
  rk_devs p : p < fheap s → devs s' !! p = devs s !! p
}.
Lemma rest_kept_trans s1 s2 s3 : rest_kept s1 s2 → rest_kept s2 s3 → rest_kept s1 s3.
Proof.
  intros [A1 A2 A3 A4] [B1 B2 B3 B4]. split; [congruence|congruence|lia|]. intros p Hp. rewrite B4 by lia. by apply A4.
Qed.

(** Nodes keep everything but their links. *)
Definition nodes_kept (m m' : gmap Z fsnode) : Prop := ∀ p n, m !! p = Some n →
  ∃ n', m' !! p = Some n' ∧ n' = set_next_sibling (next_sibling n') (set_first_child (first_child n') n).

Lemma nodes_kept_new m m' q n : m !! q = None → relink (<[q := n]> m) m' → nodes_kept m m'.
Proof.
  intros Hq Hr p np Ep. apply (relink_node _ _ p np Hr). rewrite lookup_insert_ne; [done|]. intros <-. congruence.
Qed.

Lemma nodes_kept_trans m1 m2 m3 : nodes_kept m1 m2 → nodes_kept m2 m3 → nodes_kept m1 m3.
Proof.
  intros H1 H2 p n E. destruct (H1 p n E) as (n1 & E1 & K1). destruct (H2 p _ E1) as (n2 & E2 & K2).
  exists n2. split; [done|]. destruct n, n1, n2. cbn in *. injection K1. injection K2. intros. by subst.
Qed.

Lemma entry_at_kept s s' q e :
  nodes_kept (nodes s) (nodes s') → devs s' !! (q - 1) = devs s !! (q - 1) → archive s' = archive s →
  entry_at s q e → entry_at s' q e.
Proof.
  intros Hr Hd Ha [(n & En & N1 & N2 & N3 & N4) (off & Ed & O1 & O2 & O3)].
  destruct (Hr q n En) as (n' & En' & E). split.
  - exists n'. split; [done|]. rewrite E. unfold node_name. by destruct n.
  - exists off. by rewrite Hd, Ha.
Qed.

Definition file_node (e : entry) (file : Z) : fsnode := set_name (file_name_buf (e_name e)) (set_device file cpiofs_file_tmpl).

Lemma unpack_ok s kids pre e post root :
  archive s = pre ++ encode_entry e ++ post → is_file e → bytes (archive s) →
  fs_wf s kids → is_Some (nodes s !! root) →
  let q := fheap s + 1 in
  ∃ s' kids', cpiofs_unpack_file root (len pre) s = Ret (HdrAt (len pre + len (encode_entry e)), s') ∧
    fs_wf s' kids' ∧ kids' root ≡ₚ q :: kids root ∧ (∀ p, p ≠ root → kids' p = kids p) ∧
    fheap s' = fheap s + 2 ∧ rest_kept s s' ∧ entry_at s' q e ∧
    (∀ q0 e0, q0 ≤ fheap s → entry_at s q0 e0 → entry_at s' q0 e0) ∧
    nodes_kept (nodes s) (nodes s').
Proof.
  intros E [He Hne] Hb Hwf Hroot q. destruct (eo_name e He) as [Hz Hl].
  destruct (entry_body (archive s) pre e post E He) as (En & _ & Etk & _ & Hin).
  set (off := len pre + cpiohdr_size + (len (e_name e) + 1) + len (pad (len (e_name e) + 1))) in *.
  rewrite (unpack_start s pre e post root (λ _ _ _, mret HdrNull) E He Hb Hne). fold off.
  set (fd := mkFile cpiofiledev_tmpl 0 (len (e_data e)) (ArchiveData off)).
  set (s2 := set_devs (<[fheap s := fd]> (devs s)) (set_fheap (fheap s + 1) s)).
  set (n := file_node e (fheap s)).
  assert (Hbn : bytes (e_name e)) by (rewrite <- En; by apply cstr_bytes_full, terminated_bytes_from).
  destruct (name_buf_named (e_name e) n Hz Hbn eq_refl) as [Hnamed Hname].
  assert (Hwf2 : fs_wf s2 kids).
  { destruct Hwf as [T H P F]. split; [done| |cbn; lia|].
    - intros p Hp. cbn. specialize (H p Hp). lia.
    - intros p Hp. cbn in Hp. by apply F. }
  destruct (add_child_ok s2 kids root n Hwf2 Hroot Hnamed eq_refl eq_refl) as (m' & kids' & El & Hwf' & Hl' & Hko & Hr).
  change (fheap s2) with q in *. set (s3 := set_nodes (<[q := n]> (nodes s2)) (set_fheap (q + 1) s2)) in *.
  assert (Hqn : nodes s !! q = None).
  { destruct (nodes s !! q) eqn:Eq; [|done]. assert (q < fheap s) by (apply (wf_heap _ _ Hwf); by eexists). unfold q in *. lia. }
  assert (Hqr : q ≠ root) by (intros ->; destruct Hroot; congruence).
  exists (set_nodes m' s3), kids'.
  split; [|split; [done|split; [|split; [|split; [cbn; unfold q; lia|split; [|split; [|split]]]]]]].
  - rewrite (bind_ret _ _ s (fheap s) (set_fheap (fheap s + 1) s)) by done.
    rewrite (bind_ret _ _ (set_fheap (fheap s + 1) s) tt s2) by done.
    rewrite (bind_ret _ _ s2 q (set_fheap (q + 1) s2)) by done.
    set (t := set_device (fheap s) cpiofs_file_tmpl).
    rewrite (bind_ret _ _ (set_fheap (q + 1) s2) tt (set_nodes (<[q := t]> (nodes s2)) (set_fheap (q + 1) s2))) by done.
    rewrite (bind_ret _ _ _ tt s3).
    + by rewrite (bind_ret _ _ _ _ _ El).
    + rewrite (upd_node_ok _ q _ t) by apply lookup_insert_eq. cbn [nodes set_nodes]. by rewrite insert_insert_eq.
  - done.
  - done.
  - split; [done|done|cbn; unfold q; lia|]. intros p Hp. cbn. by rewrite lookup_insert_ne by lia.
  - destruct (relink_node _ _ q n Hr ltac:(apply lookup_insert_eq)) as (n' & En' & E'). split.
    + exists n'. split; [done|]. rewrite E'. cbn. unfold node_name in *. cbn. repeat split; try done. unfold q. lia.
    + exists off. unfold q. replace (fheap s + 1 - 1) with (fheap s) by lia. cbn. rewrite lookup_insert_eq.
      split; [done|]. split; [|done]. unfold off, len, cpiohdr_size. lia.
  - intros q0 e0 Hq0. apply entry_at_kept; [by apply (nodes_kept_new _ _ q n)| |done].
    cbn. rewrite lookup_insert_ne by lia. done.
  - by apply (nodes_kept_new _ _ q n).
Qed.

(** ** Mounting *)

Definition is_trailer (e : entry) : Prop := entry_ok e ∧ e_name e = trailer_name.

Lemma unpack_trailer s pre e post root :
  archive s = pre ++ encode_entry e ++ post → is_trailer e → bytes (archive s) →
  cpiofs_unpack_file root (len pre) s = Ret (HdrEOF, s).
Proof.
  intros E [He Hn] Hb. destruct (header_words s pre e post E He) as (W0 & _).
  destruct (entry_body (archive s) pre e post E He) as (En & Ht & _).
  unfold cpiofs_unpack_file. rewrite (bind_ret _ _ _ _ _ W0). change (CPIO_MAGIC =? CPIO_MAGIC) with true. cbn [negb].
  rewrite (bind_ret _ _ s s s) by done.
  rewrite (bind_ret _ _ _ _ _ (strcmp_ok (from (len pre + cpiohdr_size) (archive s)) (trailer_name ++ [0]) s Ht
    ltac:(apply (bool_decide_unpack _); reflexivity) (terminated_bytes_from _ _ Hb) ltac:(apply (bool_decide_unpack _); reflexivity))).
  by rewrite En, Hn.
Qed.

Definition mount_step (root : Z) (h : cpio_ptr) : M fst_ (cpio_ptr + Z) :=
  match h with
  | HdrEOF => mret (inr root)
  | HdrNull => crash NullDeref
  | HdrAt off =>
      h ← cpiofs_unpack_file root off;
      match h with
      | HdrNull => mret (inr NULL)
      | _ => mret (inl h)
      end
  end.

Lemma mount_loop root tr post es : is_trailer tr → Forall is_file es → ∀ pre s kids i0,
  archive s = pre ++ encode_archive es tr ++ post → bytes (archive s) →
  fs_wf s kids → is_Some (nodes s !! root) → fheap s = entry_node root i0 - 1 →
  ∃ s' kids', run_nat (length es + 2) (mount_step root) (HdrAt (len pre)) s = Ret (inr root, s') ∧
    fs_wf s' kids' ∧ kids' root ≡ₚ (entry_node root <$> seq i0 (length es)) ++ kids root ∧
    (∀ p, p ≠ root → kids' p = kids p) ∧ nodes_kept (nodes s) (nodes s') ∧
    (∀ i e, es !! i = Some e → entry_at s' (entry_node root (i0 + i)) e) ∧
    (∀ q0 e0, q0 ≤ fheap s → entry_at s q0 e0 → entry_at s' q0 e0) ∧ rest_kept s s'.
Proof.
  intros Htr Hes. induction Hes as [|e es He _ IH]; intros pre s kids i0 E Hb Hwf Hroot Hheap.
  - exists s, kids. split; [|split; [done|split; [done|split; [done|split; [|split; [done|split; [done|done]]]]]]].
    + cbn [length Nat.add run_nat]. rewrite (bind_ret _ _ s (inl HdrEOF) s).
      * by rewrite (bind_ret _ _ s (inr root) s).
      * unfold mount_step. by rewrite (bind_ret _ _ _ _ _ (unpack_trailer s pre tr post root E Htr Hb)).
    + intros p n Ep. exists n. split; [done|by destruct n].
  - assert (E1 : archive s = pre ++ encode_entry e ++ (encode_archive es tr ++ post)).
    { rewrite E. unfold encode_archive. cbn [fmap list_fmap concat]. by rewrite <- !app_assoc. }
    destruct (unpack_ok s kids pre e _ root E1 He Hb Hwf Hroot)
      as (s1 & kids1 & U & Hwf1 & Hk1 & Hko1 & Hh1 & Ha1 & Hat1 & Hold1 & Hkept1).
    assert (E2 : archive s1 = (pre ++ encode_entry e) ++ encode_archive es tr ++ post) by (rewrite (rk_archive _ _ Ha1), E1; by rewrite <- !app_assoc).
    destruct Hroot as [rn Er]. destruct (Hkept1 root rn Er) as (rn1 & Er1 & _).
    destruct (IH (pre ++ encode_entry e) s1 kids1 (S i0) E2 ltac:(by rewrite (rk_archive _ _ Ha1)) Hwf1 ltac:(by eexists)
      ltac:(unfold entry_node in *; lia)) as (s' & kids' & R & Hwf' & Hk' & Hko' & Hkept' & Hat' & Hold' & Ha').
    assert (Hq : fheap s + 1 = entry_node root i0) by (unfold entry_node in *; lia).
    exists s', kids'. split; [|split; [done|split; [|split; [|split; [|split; [|split]]]]]].
    + cbn [length Nat.add run_nat]. rewrite (bind_ret _ _ s (inl (HdrAt (len (pre ++ encode_entry e)))) s1); [exact R|].
      unfold mount_step. by rewrite (bind_ret _ _ _ _ _ U), len_app.
    + rewrite Hk', Hk1, Hq. cbn [length seq fmap list_fmap]. rewrite <- Permutation_middle. done.
    + intros p Hpr. by rewrite Hko', Hko1.
    + by apply (nodes_kept_trans _ (nodes s1)).
    + intros [|i] x Hx; cbn in Hx.
      * injection Hx as <-. rewrite Nat.add_0_r, <- Hq. apply Hold'; [lia|done].
      * replace (i0 + S i)%nat with (S i0 + i)%nat by lia. by apply Hat'.
    + intros q0 e0 Hq0 H0. apply Hold'; [lia|]. by apply Hold1.
    + by apply (rest_kept_trans _ s1).
Qed.

Lemma encode_length es tr : (length es ≤ length (encode_archive es tr))%nat.
Proof.
  unfold encode_archive. rewrite length_app. induction es as [|e es IH]; [cbn; lia|].
  cbn [fmap list_fmap concat length]. rewrite length_app.
  assert (1 ≤ length (encode_entry e))%nat; [|lia].
  unfold encode_entry, encode_header. rewrite !length_app. change (length (u16le CPIO_MAGIC)) with 2%nat. lia.
Qed.

(** ** Reading an unpacked file *)

Lemma cpiofs_read_eq s file off x pos n :
  devs s !! file = Some (mkFile cpiofiledev_tmpl (Z.of_nat pos) (len x) (ArchiveData off)) →
  0 ≤ off → off + len x ≤ len (archive s) → take (length x) (drop (Z.to_nat off) (archive s)) = x →
  (pos ≤ length x)%nat → len x < 2 ^ 31 → Z.of_nat n < 2 ^ 31 →
  let y := take n (drop pos x) in
  cpiofs_read_file file (Z.of_nat n) s = Ret ((len y, y),
    set_devs (<[file := mkFile cpiofiledev_tmpl (Z.of_nat (pos + length y)) (len x) (ArchiveData off)]> (devs s)) s).
Proof.
  intros Ef Ho Hin Ex Hp Hl Hn y. unfold len in *. set (n' := Nat.min n (length x - pos)).
  assert (Ey : y = take n' (drop pos x)).
  { unfold y, n'. destruct (decide (n ≤ length x - pos)%nat); [by rewrite Nat.min_l|].
    rewrite !take_ge; [done|rewrite length_drop; lia|rewrite length_drop; lia]. }
  assert (Ly : length y = n') by (rewrite Ey, length_take, length_drop; lia).
  unfold cpiofs_read_file. rewrite (bind_ret _ _ _ _ _ (get_dev_ok s file _ Ef)). cbn [fpos flength dev_io fdata].
  rewrite (u32_small (Z.of_nat pos)), (u32_small (Z.of_nat (length _))), (u32_small (_ + _)) by lia.
  assert (En : (if Z.of_nat (length x) <? Z.of_nat pos + Z.of_nat n then Z.of_nat (length x) -u Z.of_nat pos else Z.of_nat n) = Z.of_nat n').
  { destruct (Z.ltb_spec (Z.of_nat (length x)) (Z.of_nat pos + Z.of_nat n)); [rewrite u32_small by lia|]; lia. }
  rewrite En, (bind_ret _ _ s off s), (bind_ret _ _ s s s) by done.
  rewrite (bind_ret _ _ s y s).
  2: { replace (off + Z.of_nat pos) with (Z.of_nat (Z.to_nat off + pos)) by lia. rewrite copy_out_ok by lia.
       do 2 f_equal. rewrite <- drop_drop, Ey. set (b := drop (Z.to_nat off) (archive s)) in *.
       rewrite <- Ex. rewrite !take_drop_commute, take_take. do 2 f_equal. lia. }
  rewrite !s32_small by lia. by rewrite Ly, Nat2Z.inj_add.
Qed.

Lemma cpiofs_read_ok s file off x pos n :
  devs s !! file = Some (mkFile cpiofiledev_tmpl (Z.of_nat pos) (len x) (ArchiveData off)) →
  0 ≤ off → off + len x ≤ len (archive s) → take (length x) (drop (Z.to_nat off) (archive s)) = x →
  (pos ≤ length x)%nat → len x < 2 ^ 31 → Z.of_nat n < 2 ^ 31 →
  let y := take n (drop pos x) in
  ∃ s', cpiofs_read_file file (Z.of_nat n) s = Ret ((len y, y), s') ∧ nodes s' = nodes s ∧
    devs s' = <[file := mkFile cpiofiledev_tmpl (Z.of_nat (pos + length y)) (len x) (ArchiveData off)]> (devs s) ∧
    archive s' = archive s ∧ FSRootNode s' = FSRootNode s.
Proof.
  intros Ef Ho Hin Ex Hp Hl Hn y. eexists. split; [by apply (cpiofs_read_eq s file off x pos n)|]. done.
Qed.

(** ** Lookup in the mounted directory *)

Lemma find_child_unique m l c q n :
  (∀ p, p ∈ l → is_Some (m !! p)) → q ∈ l → m !! q = Some n → node_name n = c →
  (∀ p np, p ∈ l → m !! p = Some np → node_name np = c → p = q) → find_child m l c = Some q.
Proof.
  intros Hl Hq En Ec Hu. pose proof (find_child_split m l c Hl) as Hs. destruct (find_child m l c) as [k|].
  - destruct Hs as (l1 & l2 & nk & -> & Ek & Ekc & _). f_equal. apply (Hu k nk); [|done|done].
    apply elem_of_app. right. apply list_elem_of_here.
  - rewrite Forall_forall in Hs. destruct (Hs q Hq) as (n' & En' & Hne). congruence.
Qed.

Lemma mounted_lookup s kids root es i e :
  fs_wf s kids → is_Some (nodes s !! root) → kids root ≡ₚ entry_node root <$> seq 0 (length es) →
  (∀ i e, es !! i = Some e → entry_at s (entry_node root i) e) → NoDup (e_name <$> es) → es !! i = Some e →
  find_child (nodes s) (kids root) (e_name e) = Some (entry_node root i).
Proof.
  intros Hwf [rn Er] Hk Hat Hnd Hi. pose proof (tree_chain _ _ (wf_tree _ _ Hwf) root rn Er) as Hc.
  destruct (ea_node _ _ _ (Hat i e Hi)) as (n & En & Nn & _).
  apply (find_child_unique _ _ _ _ n); [|rewrite Hk|done|done|].
  - intros p Hp. by eapply (chain_is_node _ _ _ p Hc).
  - apply list_elem_of_fmap. exists i. split; [done|]. apply elem_of_seq. pose proof (lookup_lt_Some _ _ _ Hi). lia.
  - intros p np Hp Ep Ec. rewrite Hk in Hp. apply list_elem_of_fmap in Hp as (j & -> & Hj%elem_of_seq).
    destruct (lookup_lt_is_Some_2 es j ltac:(lia)) as [ej Ej].
    destruct (ea_node _ _ _ (Hat j ej Ej)) as (nj & Enj & Nj & _). rewrite Enj in Ep. injection Ep as <-.
    f_equal. apply (NoDup_lookup _ j i (e_name e) Hnd); rewrite list_lookup_fmap; [rewrite Ej|rewrite Hi]; cbn; congruence.
Qed.

Lemma mount_start s kids nm (K : Z → M fst_ Z) :
  fs_wf s kids → terminated nm → bytes nm → len (cstr nm) < FS_NAME_MAX →
  ∃ s1, fs_wf s1 kids ∧ (∃ n, nodes s1 !! fheap s = Some n ∧ node_name n = cstr nm) ∧ fheap s1 = fheap s + 1 ∧
    rest_kept s s1 ∧ nodes_kept (nodes s) (nodes s1) ∧
    (cpiofs ← fs_malloc; put_node cpiofs cpiofs_dir_tmpl ;; nm' ← strcpy (name cpiofs_dir_tmpl) nm;
     upd_node cpiofs (set_name nm') ;; K cpiofs) s = K (fheap s) s1.
Proof.
  intros [T H P F] Ht Hb Hl. set (r := fheap s). set (n := set_name (file_name_buf (cstr nm)) cpiofs_dir_tmpl).
  set (s0 := set_nodes (<[r := cpiofs_dir_tmpl]> (nodes s)) (set_fheap (r + 1) s)).
  set (s1 := set_nodes (<[r := n]> (nodes s)) (set_fheap (r + 1) s)).
  destruct (name_buf_named (cstr nm) n (cstr_nonzero nm) (cstr_bytes_full nm Hb) eq_refl) as [Hn Hname].
  assert (Hr : nodes s !! r = None).
  { destruct (nodes s !! r) eqn:E; [|done]. assert (r < fheap s) by (apply H; by eexists). unfold r in *. lia. }
  exists s1. split; [|split; [|split; [done|split; [|split]]]].
  - split; [| |cbn; unfold r; lia|cbn; intros p [? _]%lookup_insert_None; by apply F].
    { apply (tree_ext _ (kids_at kids r [])); [|by apply tree_new]. intros p. unfold kids_at. case_decide; [|done]. subst. by rewrite F. }
    intros p [x Ex]. cbn in *. destruct (decide (p = r)) as [->|]; [lia|].
    rewrite lookup_insert_ne in Ex by done. assert (p < fheap s) by (apply H; by eexists). unfold r. lia.
  - cbn. rewrite lookup_insert_eq. by exists n.
  - split; [done|done|cbn; unfold r; lia|done].
  - intros p np Ep. exists np. cbn. split; [|by destruct np]. rewrite lookup_insert_ne; [done|]. intros <-. congruence.
  - rewrite (bind_ret _ _ s r (set_fheap (r + 1) s)) by done.
    rewrite (bind_ret _ _ (set_fheap (r + 1) s) tt s0) by done.
    rewrite (bind_ret _ _ s0 (file_name_buf (cstr nm)) s0).
    2: { change (name cpiofs_dir_tmpl) with zero_name. by apply strcpy_name. }
    rewrite (bind_ret _ _ s0 tt s1); [done|].
    rewrite (upd_node_ok s0 r _ cpiofs_dir_tmpl) by apply lookup_insert_eq. unfold s0. cbn [nodes set_nodes]. by rewrite insert_insert_eq.
Qed.

Lemma cpiofs_mount_ok s kids nm pre es tr post :
  fs_wf s kids → bytes (archive s) → archive s = pre ++ encode_archive es tr ++ post →
  Forall is_file es → is_trailer tr → terminated nm → bytes nm → len (cstr nm) < FS_NAME_MAX →
  let root := fheap s in
  ∃ s' kids', cpiofs_mount nm (HdrAt (len pre)) s = Ret (root, s') ∧ fs_wf s' kids' ∧ (∃ n, nodes s' !! root = Some n ∧ node_name n = cstr nm) ∧
    kids' root ≡ₚ entry_node root <$> seq 0 (length es) ∧ (∀ p, p ≠ root → kids' p = kids p) ∧
    nodes_kept (nodes s) (nodes s') ∧ rest_kept s s' ∧
    (∀ i e, es !! i = Some e → entry_at s' (entry_node root i) e).
Proof.
  intros Hwf Hb E Hes Htr Ht Hbn Hl root. unfold cpiofs_mount.
  edestruct (mount_start s kids nm) as (s1 & Hwf1 & Hr1 & Hh1 & Hrk & Hk1 & ->); [done|done|done|done|]. fold root in Hwf1, Hr1, Hh1 |- *.
  rewrite (bind_ret _ _ s1 s1 s1) by done.
  destruct (mount_loop root tr post es Htr Hes pre s1 kids 0)
    as (s' & kids' & R & Hwf' & Hk' & Hko & Hkept & Hat & _ & Ha'); [by rewrite (rk_archive _ _ Hrk)|by rewrite (rk_archive _ _ Hrk)|done|destruct Hr1 as (n & ? & _); by exists n|unfold entry_node; lia|].
  exists s', kids'. split; [|split; [done|split; [|split; [|split; [done|split; [|split; [|]]]]]]].
  - apply (while_run _ _ (length es + 2)); [exact R|]. pose proof (encode_length es tr) as L.
    unfold bufsize. rewrite (rk_archive _ _ Hrk), E, !length_app. lia.
  - destruct Hr1 as (rn & Er & En). destruct (Hkept root rn Er) as (rn' & Er' & Ek). exists rn'. split; [done|]. rewrite Ek. by destruct rn.
  - rewrite Hk', (wf_fresh _ _ Hwf root (wf_new _ _ Hwf)). by rewrite app_nil_r.
  - by apply (nodes_kept_trans _ (nodes s1)).
  - by apply (rest_kept_trans _ s1).
  - exact Hat.
Qed.

(** ** Properties *)

Definition demo_entry (nm x : list Z) : entry := mkEntry nm x (replicate 18 0).
(** "a" with three bytes and "b" with two. *)
Definition demo_es : list entry := [demo_entry [97] [1; 2; 3]; demo_entry [98] [4; 5]].
Definition demo_cpio : fst_ :=
  mkFst demo_nodes ∅ ∅ 10 20 (mkTokst [] None) (encode_archive demo_es (demo_entry trailer_name [])) [].

Lemma demo_cpio_wf : fs_wf demo_cpio demo_kids.
Proof.
  split; [exact demo_tree| |done|].
  2: { intros p Hp. cbn in Hp. unfold demo_kids. destruct (Z.eqb_spec p 10) as [->|]; [done|]. destruct (Z.eqb_spec p 11) as [->|]; [done|done]. }
  intros p [n Hp]. cbn in Hp. destruct (demo_lookup p n Hp) as [[-> _]|[[-> _]|[[-> _]|[-> _]]]]; done.
Qed.

(** C6: mounting undoes the encoding of an archive.  The directory has one node per
    entry before the trailer and no other; reading the file of an entry gives its
    bytes; when no two entries have the same name, a lookup in the directory finds
    each one; and no other directory gains or loses a child. *)
Theorem cpiofs_mount_round_trip s kids nm pre es tr post :
  fs_wf s kids → bytes (archive s) → archive s = pre ++ encode_archive es tr ++ post →
  Forall is_file es → is_trailer tr → terminated nm → bytes nm → len (cstr nm) < FS_NAME_MAX →
  let root := fheap s in
  ∃ s' kids', cpiofs_mount nm (HdrAt (len pre)) s = Ret (root, s') ∧ fs_wf s' kids' ∧
    kids' root ≡ₚ entry_node root <$> seq 0 (length es) ∧ (∀ p, p ≠ root → kids' p = kids p) ∧
    nodes_kept (nodes s) (nodes s') ∧
    ∀ i e, es !! i = Some e →
      entry_at s' (entry_node root i) e ∧
      (NoDup (e_name <$> es) → find_child (nodes s') (kids' root) (e_name e) = Some (entry_node root i)) ∧
      ∀ n, Z.of_nat n < 2 ^ 31 →
        ∃ s2, cpiofs_read_file (entry_node root i - 1) (Z.of_nat n) s' = Ret ((len (take n (e_data e)), take n (e_data e)), s2).
Proof.
  intros Hwf Hb E Hes Htr Ht Hbn Hl root.
  destruct (cpiofs_mount_ok s kids nm pre es tr post) as (s' & kids' & R & Hwf' & Hr' & Hk' & Hko & Hkept & _ & Hat); try done.
  fold root in R, Hr', Hk', Hko, Hat. exists s', kids'. do 5 (split; [done|]).
  intros i e Hi. pose proof (Hat i e Hi) as He. split; [done|]. split.
  - intros Hnd. destruct Hr' as (rn & Er & _). by apply (mounted_lookup s' kids' root es).
  - intros n Hn. destruct (ea_file _ _ _ He) as (off & Ed & O1 & O2 & O3).
    pose proof (eo_data _ (proj1 (Forall_lookup_1 _ _ _ _ Hes Hi))).
    destruct (cpiofs_read_ok s' (entry_node root i - 1) off (e_data e) 0 n) as (s2 & E2 & _); try done; [lia|lia|].
    exists s2. by rewrite drop_0 in E2.
Qed.

Lemma cpiofs_mount_round_trip_witness :
  ∃ s' kids', cpiofs_mount [105; 0] (HdrAt 0) demo_cpio = Ret (20, s') ∧
    find_child (nodes s') (kids' 20) [98] = Some 24 ∧
    ∃ s2, cpiofs_read_file 23 100 s' = Ret ((2, [4; 5]), s2).
Proof.
  destruct (cpiofs_mount_round_trip demo_cpio demo_kids [105; 0] [] demo_es (demo_entry trailer_name []) [])
    as (s' & kids' & E & _ & _ & _ & _ & H).
  - exact demo_cpio_wf.
  - apply (bool_decide_unpack _). vm_compute. exact I.
  - by rewrite app_nil_r.
  - repeat constructor; apply (bool_decide_unpack _); vm_compute; exact I.
  - repeat constructor; apply (bool_decide_unpack _); vm_compute; exact I.
  - apply (bool_decide_unpack _). reflexivity.
  - apply (bool_decide_unpack _). reflexivity.
  - done.
  - destruct (H 1%nat (demo_entry [98] [4; 5]) eq_refl) as (_ & Hf & Hr).
    destruct (Hr 100%nat) as (s2 & E2); [done|].
    exists s', kids'. split; [exact E|]. split; [|exists s2; exact E2].
    apply Hf. apply (bool_decide_unpack _). vm_compute. exact I.
Defined.
