(* ===== verification/Intr.v ===== *)
(** * Ports, descriptor tables and interrupts

    [arch/x86/io.c], [arch/x86/mem/gdt.c], and of [arch/x86/intr]: [idt.c], [pic.c]
    and [pit.c].  Writes to ports go to a trace; what a read of a port returns is
    the hardware's affair, a function [port_in] of the trace so far.  Descriptors are
    specified by the decoding the processor documents. *)
From Stdlib Require Import ZArith Lia.
From stdpp Require Import base list list_numbers strings.
From S2P Require Import Prelude.
Open Scope Z_scope.
Open Scope u32_scope.

(** ** arch/x86/mem/gdt.c *)

Definition SEG_PRESENT : Z := Z.shiftl 1 7.
Definition SEG_SHL_RING : Z := 5.
Definition SEG_TYPE_CODE : Z := Z.shiftl 3 3.
Definition SEG_TYPE_DATA : Z := Z.shiftl 2 3.
Definition SEG_RW : Z := Z.shiftl 1 1.
Definition GRAN_KBYTE : Z := Z.shiftl 1 3.
Definition GRAN_32BIT : Z := Z.shiftl 1 2.

Record gdtentry : Type := mkGdt {
  limit_low : Z; base_low : Z; base_mid : Z; access : Z; granularity : Z; base_high : Z
}.
Definition nil_gdt : gdtentry := mkGdt 0 0 0 0 0 0.

(** The entry's old granularity is overwritten before it is or-ed into. *)
Definition gdt_encode_entry (base limit acc gran : Z) : gdtentry :=
  let g := Z.land (u8 (Z.shiftr limit 16)) 0x0F in
  {| base_low := u16 (Z.land base 0xFFFF);
     base_mid := Z.land (u8 (Z.shiftr base 16)) 0xFF;
     base_high := Z.land (u8 (Z.shiftr base 24)) 0xFF;
     limit_low := u16 (Z.land limit 0xFFFF);
     granularity := u8 (Z.lor g (Z.shiftl gran 4));
     access := acc |}.

(** The table, and what [lgdt] loads: limit and base. *)
Definition gdt_table : list gdtentry :=
  let gran := Z.lor GRAN_KBYTE GRAN_32BIT in
  let access_base := Z.lor SEG_PRESENT SEG_RW in
  [ gdt_encode_entry 0 0 0 0;
    gdt_encode_entry 0 0xFFFFFFFF (Z.lor access_base SEG_TYPE_CODE) gran;
    gdt_encode_entry 0 0xFFFFFFFF (Z.lor access_base SEG_TYPE_DATA) gran;
    gdt_encode_entry 0 0xFFFFFFFF (Z.lor (Z.lor access_base SEG_TYPE_CODE) (Z.shiftl 3 SEG_SHL_RING)) gran;
    gdt_encode_entry 0 0xFFFFFFFF (Z.lor (Z.lor access_base SEG_TYPE_DATA) (Z.shiftl 3 SEG_SHL_RING)) gran ].

(** ** The state *)

Inductive isrfunc : Type :=
| NoHandler | h_pit_cb | h_sched_preempt | h_kbd_intr | h_pg_fault_handler | h_syscall_interrupt | h_idt_nop_handler.
#[export] Instance isrfunc_eq_dec : EqDecision isrfunc.
Proof. solve_decision. Defined.

(** A gate's bit fields, as the bits that are stored. *)
Record idtdescr : Type := mkIdt {
  offset_low : Z; selector : Z; zero0 : Z; gtype : Z; dpl : Z; present : Z; offset_high : Z
}.
Definition nil_idt : idtdescr := mkIdt 0 0 0 0 0 0 0.

(** [isrargs_t]. *)
Record isrargs : Type := mkIsrargs {
  ds : Z; edi : Z; esi : Z; r_ebp_ : Z; r_esp_ : Z; ebx : Z; edx : Z; ecx : Z; eax : Z;
  int_no : Z; err_code : Z; eip : Z; cs : Z; eflags : Z; useresp : Z; ss : Z
}.

Inductive intr_msg : Type := UnhandledInterrupt (int_no err : Z).

Record intrst : Type := mkIntr {
  trace : list (Z * Z);
  GDT : list gdtentry;
  GDTPtr : option (Z * Z);
  IDT : list idtdescr;
  IDTPtr : option (Z * Z);
  IDTCallbacks : list isrfunc;
  intr_log : list intr_msg
}.

Definition set_trace x s := mkIntr x (GDT s) (GDTPtr s) (IDT s) (IDTPtr s) (IDTCallbacks s) (intr_log s).
Definition set_GDT x p s := mkIntr (trace s) x p (IDT s) (IDTPtr s) (IDTCallbacks s) (intr_log s).
Definition set_IDT x s := mkIntr (trace s) (GDT s) (GDTPtr s) x (IDTPtr s) (IDTCallbacks s) (intr_log s).
Definition set_IDTPtr x s := mkIntr (trace s) (GDT s) (GDTPtr s) (IDT s) x (IDTCallbacks s) (intr_log s).
Definition set_IDTCallbacks x s := mkIntr (trace s) (GDT s) (GDTPtr s) (IDT s) (IDTPtr s) x (intr_log s).
Definition set_intr_log x s := mkIntr (trace s) (GDT s) (GDTPtr s) (IDT s) (IDTPtr s) (IDTCallbacks s) x.

Definition NUM_INTERRUPTS : Z := 256.
Definition INT_PAGE_FAULT : Z := 14.
Definition INT_PIC1_BASE : Z := 32.
Definition INT_PIT : Z := INT_PIC1_BASE + 0.
Definition INT_KBD : Z := INT_PIC1_BASE + 1.
Definition INT_PIC2_BASE : Z := INT_PIC1_BASE + 8.
Definition INT_PIC_END : Z := INT_PIC2_BASE + 8.
Definition INT_SYSCALL : Z := 128.

Definition PIC1 : Z := 0x20.
Definition PIC2 : Z := 0xA0.
Definition PIC1_COMMAND : Z := PIC1.
Definition PIC1_DATA : Z := PIC1 + 1.
Definition PIC2_COMMAND : Z := PIC2.
Definition PIC2_DATA : Z := PIC2 + 1.
Definition ICW1_ICW4 : Z := 0x1.
Definition ICW1_INIT : Z := 0x10.
Definition ICW4_8086 : Z := 0x1.
Definition PIC_EOI : Z := 0x20.

(** ** arch/x86/io.c *)

Definition io_put8 (port value : Z) : M intrst unit := modify (λ s, set_trace (trace s ++ [(port, value)]) s).

Section Hardware.
Context (port_in : list (Z * Z) → Z → Z).

Definition io_get8 (port : Z) : M intrst Z := gets (λ s, u8 (port_in (trace s) port)).

(** ** arch/x86/intr/pic.c *)

Definition pic_remap : M intrst unit :=
  m1 ← io_get8 PIC1_DATA;
  m2 ← io_get8 PIC2_DATA;
  io_put8 PIC1_COMMAND (ICW1_INIT + ICW1_ICW4) ;;
  io_put8 PIC2_COMMAND (ICW1_INIT + ICW1_ICW4) ;;
  io_put8 PIC1_DATA INT_PIC1_BASE ;;
  io_put8 PIC2_DATA INT_PIC2_BASE ;;
  io_put8 PIC1_DATA 0x04 ;;
  io_put8 PIC2_DATA 0x02 ;;
  io_put8 PIC1_DATA ICW4_8086 ;;
  io_put8 PIC2_DATA ICW4_8086 ;;
  io_put8 PIC1_DATA m1 ;;
  io_put8 PIC2_DATA m2.

Definition pic_init : M intrst unit := pic_remap.

Definition pic_eoi (args : isrargs) : M intrst unit :=
  (if INT_PIC2_BASE <? int_no args then io_put8 PIC2_COMMAND PIC_EOI else mret tt) ;;
  io_put8 PIC1_COMMAND PIC_EOI.

Definition pic_mask (irq : Z) : M intrst unit :=
  let (port, irq) := if irq <? 8 then (PIC1_DATA, irq) else (PIC2_DATA, irq - 8) in
  v ← io_get8 port;
  let val := u8 (Z.lor v (u8 (Z.shiftl 1 irq))) in
  io_put8 port val.

Definition pic_unmask (irq : Z) : M intrst unit :=
  let (port, irq) := if irq <? 8 then (PIC1_DATA, irq) else (PIC2_DATA, irq - 8) in
  v ← io_get8 port;
  let val := u8 (Z.land v (Z.lnot (Z.shiftl 1 irq))) in
  io_put8 port val.

(** ** arch/x86/intr/idt.c *)

Definition idt_encode_addrs (d : idtdescr) (offset sel : Z) : idtdescr :=
  {| offset_low := Z.land offset 0xFFFF; selector := Z.land sel 0xFFFF; zero0 := 0; gtype := gtype d; dpl := dpl d;
     present := 1; offset_high := Z.land (Z.shiftr offset 16) 0xFFFF |}.
Definition idt_encode_interrupt (d : idtdescr) : idtdescr :=
  mkIdt (offset_low d) (selector d) (zero0 d) 0xE (dpl d) (present d) (offset_high d).
Definition idt_encode_trap (d : idtdescr) : idtdescr :=
  mkIdt (offset_low d) (selector d) (zero0 d) 0xF (dpl d) (present d) (offset_high d).

Definition idt_load (limit base : Z) : M intrst unit := modify (set_IDTPtr (Some (limit, base))).

(** [isr_roots], [kernel_cs] and [idt_addr] are the table of entry points, the code
    selector and the address the linker gives the table. *)
Definition idt_init (isr_roots : list Z) (kernel_cs idt_addr : Z) : M intrst unit :=
  modify (set_IDT (replicate (Z.to_nat NUM_INTERRUPTS) nil_idt)) ;;
  modify (set_IDTCallbacks (replicate (Z.to_nat NUM_INTERRUPTS) NoHandler)) ;;
  forM (seqZ 0 NUM_INTERRUPTS)
    (λ i,
       s ← getS;
       d ← aget (IDT s) i;
       root ← aget isr_roots i;
       let d := idt_encode_addrs d root (u16 kernel_cs) in
       let d := idt_encode_interrupt d in
       t ← aset (IDT s) i d;
       modify (set_IDT t)) ;;
  idt_load (NUM_INTERRUPTS * 8 - 1) idt_addr ;;
  pic_init.

Definition idt_set_handler (interrupt : Z) (func : isrfunc) : M intrst unit :=
  s ← getS;
  t ← aset (IDTCallbacks s) (u8 interrupt) func;
  modify (set_IDTCallbacks t).

Definition idt_nop_handler (_ : isrargs) : M intrst unit := mret tt.

(** Which handler runs for an interrupt, after the interrupt controller has been told;
    calling it is its caller's next step. *)
Definition idt_handler (regs : isrargs) : M intrst isrfunc :=
  (if (INT_PIC1_BASE <=? int_no regs) && (int_no regs <? INT_PIC_END) then pic_eoi regs else mret tt) ;;
  s ← getS;
  h ← aget (IDTCallbacks s) (int_no regs);
  if decide (h = NoHandler) then
    modify (λ s, set_intr_log (intr_log s ++ [UnhandledInterrupt (int_no regs) (err_code regs)]) s) ;;
    mret NoHandler
  else mret h.

(** ** arch/x86/intr/pit.c *)

Definition pit_freq : Z := 200.
Definition pit_divisor : Z := 1193180 / pit_freq.
Definition pit_cb (_ : isrargs) : M intrst unit := mret tt.

Definition pit_init : M intrst unit :=
  idt_set_handler INT_PIT h_pit_cb ;;
  io_put8 0x43 0x36 ;;
  io_put8 0x40 (Z.land pit_divisor 0xFF) ;;
  io_put8 0x40 (Z.land (Z.shiftr pit_divisor 16) 0xFF).

(** Of [arch/x86/proc/task.c]. *)
Definition task_mask_preempt : M intrst unit := pic_mask (INT_PIT - INT_PIC1_BASE).
Definition task_unmask_preempt : M intrst unit := pic_unmask (INT_PIT - INT_PIC1_BASE).
Definition task_enable_preempt : M intrst unit :=
  task_mask_preempt ;; idt_set_handler INT_PIT h_sched_preempt.
End Hardware.

Definition gdt_init (gdt_addr : Z) : M intrst unit :=
  modify (set_GDT gdt_table (Some (5 * 8 - 1, gdt_addr))).

(** ** Specification: what the processor reads *)

(** The eight bytes of a segment descriptor as a number, and its fields. *)
Definition gdt_raw (e : gdtentry) : Z :=
  limit_low e + 2 ^ 16 * base_low e + 2 ^ 32 * base_mid e + 2 ^ 40 * access e + 2 ^ 48 * granularity e + 2 ^ 56 * base_high e.
Definition bits_of (x lo n : Z) : Z := (x / 2 ^ lo) mod 2 ^ n.
Record segment : Type := mkSegment { seg_base : Z; seg_limit : Z; seg_type : Z; seg_s : Z; seg_dpl : Z; seg_p : Z; seg_flags : Z }.
Definition decode_segment (raw : Z) : segment :=
  {| seg_base := bits_of raw 16 24 + 2 ^ 24 * bits_of raw 56 8;
     seg_limit := bits_of raw 0 16 + 2 ^ 16 * bits_of raw 48 4;
     seg_type := bits_of raw 40 4; seg_s := bits_of raw 44 1; seg_dpl := bits_of raw 45 2; seg_p := bits_of raw 47 1;
     seg_flags := bits_of raw 52 4 |}.

(** The same for a gate of the interrupt table. *)
Definition idt_raw (d : idtdescr) : Z :=
  offset_low d + 2 ^ 16 * selector d + 2 ^ 32 * zero0 d + 2 ^ 40 * gtype d + 2 ^ 45 * dpl d + 2 ^ 47 * present d + 2 ^ 48 * offset_high d.
Record gate : Type := mkGate { gate_offset : Z; gate_selector : Z; gate_type : Z; gate_dpl : Z; gate_p : Z }.
Definition decode_gate (raw : Z) : gate :=
  {| gate_offset := bits_of raw 0 16 + 2 ^ 16 * bits_of raw 48 16; gate_selector := bits_of raw 16 16;
     gate_type := bits_of raw 40 5; gate_dpl := bits_of raw 45 2; gate_p := bits_of raw 47 1 |}.

(** ** Bit fields *)

(** The field of [n] bits at [lo]. *)
Lemma bits_field r x y z lo n :
  r = x + 2 ^ lo * (y + 2 ^ n * z) → 0 ≤ x < 2 ^ lo → 0 ≤ y < 2 ^ n → bits_of r lo n = y.
Proof.
  intros -> Hx Hy. unfold bits_of.
  rewrite (Z.add_comm x), Z.mul_comm, Z.div_add_l, (Z.div_small x), Z.add_0_r by lia.
  rewrite (Z.mul_comm (2 ^ n)), Z.mod_add by lia. by apply Z.mod_small.
Qed.

Lemma mask16 x : Z.land x 0xFFFF = x mod 2 ^ 16.
Proof. exact (Z.land_ones x 16 ltac:(lia)). Qed.
Lemma mask8 x : Z.land x 0xFF = x mod 2 ^ 8.
Proof. exact (Z.land_ones x 8 ltac:(lia)). Qed.
Lemma mask4 x : Z.land x 0x0F = x mod 2 ^ 4.
Proof. exact (Z.land_ones x 4 ltac:(lia)). Qed.

(** Or-ing a nibble above a nibble. *)
Lemma lor_nibbles a g : 0 ≤ a < 16 → Z.lor a (Z.shiftl g 4) = a + 16 * g.
Proof.
  intros Ha. rewrite Z.shiftl_mul_pow2 by lia. change (2 ^ 4) with 16. rewrite (Z.mul_comm g).
  symmetry. rewrite <- Z.lxor_lor.
  - apply Z.add_nocarry_lxor. apply Z.bits_inj'. intros i Hi. rewrite Z.land_spec, Z.bits_0.
    destruct (Z.ltb_spec i 4).
    + replace (16 * g) with (g * 2 ^ 4) by lia. rewrite Z.mul_pow2_bits_low by done. apply andb_false_r.
    + rewrite (testbit_small a 4) by lia. done.
  - apply Z.bits_inj'. intros i Hi. rewrite Z.land_spec, Z.bits_0.
    destruct (Z.ltb_spec i 4).
    + replace (16 * g) with (g * 2 ^ 4) by lia. rewrite Z.mul_pow2_bits_low by done. apply andb_false_r.
    + rewrite (testbit_small a 4) by lia. done.
Qed.

(** ** Descriptors *)

Lemma gdt_fields base limit acc gran :
  is_u32 base → is_u32 limit → 0 ≤ gran < 16 →
  gdt_encode_entry base limit acc gran =
    mkGdt (limit mod 2 ^ 16) (base mod 2 ^ 16) (base / 2 ^ 16 mod 2 ^ 8) acc (limit / 2 ^ 16 mod 2 ^ 4 + 16 * gran) (base / 2 ^ 24).
Proof.
  intros Hb Hl Hg. unfold gdt_encode_entry. rewrite !mask16, !mask8, mask4, !Z.shiftr_div_pow2 by lia.
  rewrite lor_nibbles by (apply Z.mod_pos_bound; lia). unfold u8, u16.
  rewrite !Z.mod_mod by lia. rewrite (Z.mod_small (base / 2 ^ 24)) by zlia.
  rewrite (Z.mod_mod_divide _ (2 ^ 8) (2 ^ 4)) by (by exists 16).
  rewrite (Z.mod_small (_ + 16 * gran)) by (pose proof (Z.mod_pos_bound (limit / 2 ^ 16) (2 ^ 4) ltac:(lia)); lia).
  done.
Qed.

Lemma decode_segment_encode base limit acc gran :
  is_u32 base → is_u32 limit → 0 ≤ acc < 256 → 0 ≤ gran < 16 →
  decode_segment (gdt_raw (gdt_encode_entry base limit acc gran)) =
    mkSegment base (limit mod 2 ^ 20) (acc mod 16) (acc / 16 mod 2) (acc / 32 mod 4) (acc / 128) gran.
Proof.
  intros Hb Hl Ha Hg. rewrite gdt_fields by done. set (l0 := limit mod 2 ^ 16). set (l1 := limit / 2 ^ 16 mod 2 ^ 4).
  set (b0 := base mod 2 ^ 16). set (b1 := base / 2 ^ 16 mod 2 ^ 8). set (b2 := base / 2 ^ 24).
  assert (El : limit mod 2 ^ 20 = l0 + 2 ^ 16 * l1) by (unfold l0, l1; change (2 ^ 20) with 1048576; change (2 ^ 16) with 65536; change (2 ^ 4) with 16; zlia).
  assert (Eb : base = b0 + 2 ^ 16 * b1 + 2 ^ 24 * b2) by (unfold b0, b1, b2; change (2 ^ 24) with 16777216; change (2 ^ 16) with 65536; change (2 ^ 8) with 256; zlia).
  assert (0 ≤ l0 < 2 ^ 16) by (apply Z.mod_pos_bound; lia). assert (0 ≤ l1 < 2 ^ 4) by (apply Z.mod_pos_bound; lia).
  assert (0 ≤ b0 < 2 ^ 16) by (apply Z.mod_pos_bound; lia). assert (0 ≤ b1 < 2 ^ 8) by (apply Z.mod_pos_bound; lia).
  assert (0 ≤ b2 < 2 ^ 8) by (unfold b2; zlia). clearbody l0 l1 b0 b1 b2. rewrite El. rewrite Eb at 1. clear Hb Hl El Eb base limit.
  set (a0 := acc mod 16). set (a1 := acc / 16 mod 2). set (a2 := acc / 32 mod 4). set (a3 := acc / 128).
  assert (Ea : acc = a0 + 16 * a1 + 32 * a2 + 128 * a3) by (unfold a0, a1, a2, a3; zlia).
  assert (0 ≤ a0 < 16 ∧ 0 ≤ a1 < 2 ∧ 0 ≤ a2 < 4 ∧ 0 ≤ a3 < 2) by (unfold a0, a1, a2, a3; zlia). clearbody a0 a1 a2 a3.
  set (R := gdt_raw _). set (g := l1 + 16 * gran) in R.
  assert (ER : R = l0 + 2 ^ 16 * b0 + 2 ^ 32 * b1 + 2 ^ 40 * acc + 2 ^ 48 * g + 2 ^ 56 * b2) by reflexivity.
  clearbody R. unfold decode_segment. unfold g in ER. rewrite Ea in ER. clear Ea Ha g.
  rewrite (bits_field R l0 (b0 + 2 ^ 16 * b1) (a0 + 16 * a1 + 32 * a2 + 128 * a3 + 2 ^ 8 * (l1 + 16 * gran + 2 ^ 8 * b2)) 16 24) by lia.
  rewrite (bits_field R (l0 + 2 ^ 16 * b0 + 2 ^ 32 * b1 + 2 ^ 40 * (a0 + 16 * a1 + 32 * a2 + 128 * a3) + 2 ^ 48 * (l1 + 16 * gran)) b2 0 56 8) by lia.
  rewrite (bits_field R 0 l0 (b0 + 2 ^ 16 * b1 + 2 ^ 24 * (a0 + 16 * a1 + 32 * a2 + 128 * a3) + 2 ^ 32 * (l1 + 16 * gran) + 2 ^ 40 * b2) 0 16) by lia.
  rewrite (bits_field R (l0 + 2 ^ 16 * b0 + 2 ^ 32 * b1 + 2 ^ 40 * (a0 + 16 * a1 + 32 * a2 + 128 * a3)) l1 (gran + 2 ^ 4 * b2) 48 4) by lia.
  rewrite (bits_field R (l0 + 2 ^ 16 * b0 + 2 ^ 32 * b1) a0 (a1 + 2 * a2 + 8 * a3 + 2 ^ 4 * (l1 + 16 * gran + 2 ^ 8 * b2)) 40 4) by lia.
  rewrite (bits_field R (l0 + 2 ^ 16 * b0 + 2 ^ 32 * b1 + 2 ^ 40 * a0) a1 (a2 + 4 * a3 + 2 ^ 3 * (l1 + 16 * gran + 2 ^ 8 * b2)) 44 1) by lia.
  rewrite (bits_field R (l0 + 2 ^ 16 * b0 + 2 ^ 32 * b1 + 2 ^ 40 * (a0 + 16 * a1)) a2 (a3 + 2 * (l1 + 16 * gran + 2 ^ 8 * b2)) 45 2) by lia.
  rewrite (bits_field R (l0 + 2 ^ 16 * b0 + 2 ^ 32 * b1 + 2 ^ 40 * (a0 + 16 * a1 + 32 * a2)) a3 (l1 + 16 * gran + 2 ^ 8 * b2) 47 1) by lia.
  rewrite (bits_field R (l0 + 2 ^ 16 * b0 + 2 ^ 32 * b1 + 2 ^ 40 * (a0 + 16 * a1 + 32 * a2 + 128 * a3) + 2 ^ 48 * l1) gran b2 52 4) by lia.
  f_equal; lia.
Qed.

Lemma decode_gate_encode d offset sel :
  is_u32 offset → 0 ≤ sel < 2 ^ 16 → dpl d = 0 →
  decode_gate (idt_raw (idt_encode_interrupt (idt_encode_addrs d offset sel))) = mkGate offset sel 0xE 0 1.
Proof.
  intros Ho Hs Hd. unfold idt_encode_interrupt, idt_encode_addrs. cbn [offset_low selector zero0 gtype dpl present offset_high].
  rewrite !mask16, Z.shiftr_div_pow2, Hd by lia. rewrite (Z.mod_small (offset / 2 ^ 16)) by zlia. rewrite (Z.mod_small sel) by lia.
  set (o0 := offset mod 2 ^ 16). set (o1 := offset / 2 ^ 16).
  assert (Eo : offset = o0 + 2 ^ 16 * o1) by (unfold o0, o1; change (2 ^ 16) with 65536; zlia).
  assert (0 ≤ o0 < 2 ^ 16) by (apply Z.mod_pos_bound; lia). assert (0 ≤ o1 < 2 ^ 16) by (unfold o1; zlia). clearbody o0 o1.
  set (R := idt_raw _). assert (ER : R = o0 + 2 ^ 16 * sel + 2 ^ 40 * 0xE + 2 ^ 47 * 1 + 2 ^ 48 * o1) by (unfold R, idt_raw; cbn [offset_low selector zero0 gtype dpl present offset_high]; lia).
  clearbody R. unfold decode_gate.
  rewrite (bits_field R 0 o0 (sel + 2 ^ 24 * 0xE + 2 ^ 31 * 1 + 2 ^ 32 * o1) 0 16) by lia.
  rewrite (bits_field R (o0 + 2 ^ 16 * sel + 2 ^ 40 * 0xE + 2 ^ 47 * 1) o1 0 48 16) by lia.
  rewrite (bits_field R o0 sel (2 ^ 8 * 0xE + 2 ^ 15 * 1 + 2 ^ 16 * o1) 16 16) by lia.
  rewrite (bits_field R (o0 + 2 ^ 16 * sel) 0xE (2 ^ 2 * 1 + 2 ^ 3 * o1) 40 5) by lia.
  rewrite (bits_field R (o0 + 2 ^ 16 * sel + 2 ^ 40 * 0xE) 0 (1 + 2 * o1) 45 2) by lia.
  rewrite (bits_field R (o0 + 2 ^ 16 * sel + 2 ^ 40 * 0xE) 1 o1 47 1) by lia.
  f_equal. lia.
Qed.

(** ** Setting up the table *)

Definition remap_trace (m1 m2 : Z) : list (Z * Z) :=
  [(0x20, 0x11); (0xA0, 0x11); (0x21, 32); (0xA1, 40); (0x21, 4); (0xA1, 2); (0x21, 1); (0xA1, 1); (0x21, m1); (0xA1, m2)].

(** A sequence of port writes. *)
Fixpoint io_puts (l : list (Z * Z)) : M intrst unit :=
  match l with [] => mret tt | (p, v) :: l => io_put8 p v ;; io_puts l end.

Lemma io_puts_ok l s : io_puts l s = Ret (tt, set_trace (trace s ++ l) s).
Proof.
  revert s. induction l as [|[p v] l IH]; intros s; cbn [io_puts].
  - rewrite app_nil_r. by destruct s.
  - rewrite (bind_ret _ _ s tt (set_trace (trace s ++ [(p, v)]) s)) by done.
    rewrite IH. cbn [trace set_trace]. by rewrite <- app_assoc.
Qed.

Lemma pic_remap_ok port_in s :
  let m1 := u8 (port_in (trace s) PIC1_DATA) in
  let m2 := u8 (port_in (trace s) PIC2_DATA) in
  pic_remap port_in s = Ret (tt, set_trace (trace s ++ remap_trace m1 m2) s).
Proof.
  intros m1 m2. rewrite <- io_puts_ok. unfold pic_remap.
  rewrite (bind_ret _ _ s m1 s), (bind_ret _ _ s m2 s) by done. unfold remap_trace. cbn [io_puts].
  repeat (rewrite (bind_ret _ _ _ tt _ eq_refl); symmetry; rewrite (bind_ret _ _ _ tt _ eq_refl); symmetry). done.
Qed.

(** The state of the loop of [idt_init] before iteration [i]. *)
Record idt_filled (roots : list Z) (sel : Z) (s0 : intrst) (i : Z) (s : intrst) : Prop := {
  if_len : Z.of_nat (length (IDT s)) = NUM_INTERRUPTS;
  if_done j r : 0 ≤ j < i → lookupZ roots j = Some r →
    ∃ d, lookupZ (IDT s) j = Some d ∧ decode_gate (idt_raw d) = mkGate r sel 0xE 0 1;
  if_rest j : i ≤ j < NUM_INTERRUPTS → lookupZ (IDT s) j = Some nil_idt;
  if_same : set_IDT (IDT s0) s = s0
}.

Lemma idt_fill_step roots sel s0 i s :
  idt_filled roots (u16 sel) s0 i s → 0 ≤ i < NUM_INTERRUPTS → Z.of_nat (length roots) = NUM_INTERRUPTS →
  Forall (λ r, is_u32 r) roots →
  ∃ s', (s ← getS; d ← aget (IDT s) i; root ← aget roots i;
         t ← aset (IDT s) i (idt_encode_interrupt (idt_encode_addrs d root (u16 sel)));
         modify (set_IDT t)) s = Ret (tt, s') ∧ idt_filled roots (u16 sel) s0 (i + 1) s'.
Proof.
  intros [Hl Hd Hr Hs] Hi Hlr Hu. rewrite (bind_ret _ _ s s s) by done.
  destruct (lookupZ_is_Some roots i ltac:(lia)) as [r Er].
  assert (Hru : is_u32 r).
  { unfold lookupZ in Er. destruct (0 <=? i); [|done]. by apply (Forall_lookup_1 _ _ _ _ Hu) in Er. }
  rewrite (bind_ret _ _ _ _ _ (aget_Some _ _ _ s (Hr i ltac:(lia)))), (bind_ret _ _ _ _ _ (aget_Some _ _ _ s Er)).
  rewrite (bind_ret _ _ _ _ _ (aset_ok (IDT s) i _ s ltac:(lia))). eexists. split; [done|].
  split; cbn [IDT set_IDT].
  - by rewrite length_insertZ.
  - intros j r' Hj Ej. destruct (decide (j = i)) as [->|].
    + rewrite lookupZ_insert_eq by lia. eexists. split; [done|]. rewrite Er in Ej. injection Ej as <-.
      apply decode_gate_encode; [done|apply u16_bound|done].
    + rewrite lookupZ_insert_ne by lia. apply Hd; [lia|done].
  - intros j Hj. rewrite lookupZ_insert_ne by lia. apply Hr. lia.
  - exact Hs.
Qed.

(** What [idt_init] leaves. *)
Lemma idt_init_ok port_in isr_roots kernel_cs idt_addr s :
  Z.of_nat (length isr_roots) = NUM_INTERRUPTS → Forall (λ r, is_u32 r) isr_roots →
  ∃ s', idt_init port_in isr_roots kernel_cs idt_addr s = Ret (tt, s') ∧
    (∀ i r, lookupZ isr_roots i = Some r →
       ∃ d, lookupZ (IDT s') i = Some d ∧ decode_gate (idt_raw d) = mkGate r (u16 kernel_cs) 0xE 0 1) ∧
    IDTCallbacks s' = replicate (Z.to_nat NUM_INTERRUPTS) NoHandler ∧ IDTPtr s' = Some (2047, idt_addr) ∧
    trace s' = trace s ++ remap_trace (u8 (port_in (trace s) PIC1_DATA)) (u8 (port_in (trace s) PIC2_DATA)) ∧
    (GDT s', GDTPtr s', intr_log s') = (GDT s, GDTPtr s, intr_log s).
Proof.
  intros Hl Hu.
  set (s1 := set_IDTCallbacks (replicate (Z.to_nat NUM_INTERRUPTS) NoHandler) (set_IDT (replicate (Z.to_nat NUM_INTERRUPTS) nil_idt) s)).
  destruct (forM_count (λ i, s ← getS; d ← aget (IDT s) i; root ← aget isr_roots i;
         t ← aset (IDT s) i (idt_encode_interrupt (idt_encode_addrs d root (u16 kernel_cs))); modify (set_IDT t))
       (idt_filled isr_roots (u16 kernel_cs) s1) NUM_INTERRUPTS s1) as (s2 & E & [_ Hd _ Hs]).
  - done.
  - intros i t Hi Ht. by apply idt_fill_step.
  - split; [done|lia| |done]. intros j Hj. apply lookupZ_replicate. unfold NUM_INTERRUPTS in *. lia.
  - set (s3 := set_IDTPtr (Some (2047, idt_addr)) s2).
    exists (set_trace (trace s3 ++ remap_trace (u8 (port_in (trace s3) PIC1_DATA)) (u8 (port_in (trace s3) PIC2_DATA))) s3).
    assert (Et : trace s3 = trace s) by (unfold s3; rewrite <- (f_equal trace Hs : trace s2 = trace s); done).
    assert (Ec : IDTCallbacks s3 = IDTCallbacks s1) by exact (f_equal IDTCallbacks Hs).
    assert (Eg : (GDT s3, GDTPtr s3, intr_log s3) = (GDT s1, GDTPtr s1, intr_log s1)) by exact (f_equal (λ x, (GDT x, GDTPtr x, intr_log x)) Hs).
    split; [|split; [|split; [exact Ec|split; [done|split; [by rewrite Et|exact Eg]]]]].
    + unfold idt_init. rewrite (bind_ret _ _ s tt (set_IDT (replicate (Z.to_nat NUM_INTERRUPTS) nil_idt) s)) by done.
      rewrite (bind_ret _ _ (set_IDT _ s) tt s1) by done. rewrite (bind_ret _ _ _ _ _ E).
      rewrite (bind_ret _ _ s2 tt s3) by done. apply pic_remap_ok.
    + intros i r Er. pose proof (lookupZ_lt _ _ _ Er). apply Hd; [lia|done].
Qed.

(** [pit_init]: the handler and three bytes. *)
Lemma pit_init_ok s : Z.of_nat (length (IDTCallbacks s)) = NUM_INTERRUPTS →
  pit_init s = Ret (tt, set_trace (((trace s ++ [(0x43, 0x36)]) ++ [(0x40, 77)]) ++ [(0x40, 0)]) (set_IDTCallbacks (insertZ INT_PIT h_pit_cb (IDTCallbacks s)) s)).
Proof.
  intros Hl. unfold pit_init, idt_set_handler. rewrite (bind_ret _ _ s tt (set_IDTCallbacks (insertZ 32 h_pit_cb (IDTCallbacks s)) s)).
  - unfold io_put8. mred. reflexivity.
  - rewrite (bind_ret _ _ s s s) by done. unfold NUM_INTERRUPTS in *.
    by rewrite (bind_ret _ _ _ _ _ (aset_ok (IDTCallbacks s) (u8 INT_PIT) h_pit_cb s ltac:(change (u8 INT_PIT) with 32; lia))).
Qed.

(** ** Properties *)

(** C37: the flat segments.  The processor reads entry 0 as the null descriptor and
    the next four as segments over the whole 4 GiB in 4 KiB granules: code and data
    for ring 0, code and data for ring 3, all present, writable or readable; in
    general a descriptor decodes to the base, the low 20 bits of the limit, the
    access byte and the flags it was made of. *)
Theorem gdt_segments_decode :
  map (decode_segment ∘ gdt_raw) gdt_table =
    [ mkSegment 0 0 0 0 0 0 0;
      mkSegment 0 0xFFFFF 10 1 0 1 12; mkSegment 0 0xFFFFF 2 1 0 1 12;
      mkSegment 0 0xFFFFF 10 1 3 1 12; mkSegment 0 0xFFFFF 2 1 3 1 12 ] ∧
  ∀ base limit acc gran, is_u32 base → is_u32 limit → 0 ≤ acc < 256 → 0 ≤ gran < 16 →
    decode_segment (gdt_raw (gdt_encode_entry base limit acc gran)) =
      mkSegment base (limit mod 2 ^ 20) (acc mod 16) (acc / 16 mod 2) (acc / 32 mod 4) (acc / 128) gran.
Proof. split; [vm_compute; reflexivity|exact decode_segment_encode]. Qed.

Lemma gdt_segments_decode_witness :
  decode_segment (gdt_raw (gdt_encode_entry 0x12345678 0x000ABCDE 0x9A 0xC)) = mkSegment 0x12345678 0xABCDE 10 1 0 1 12.
Proof. apply (proj2 gdt_segments_decode 0x12345678 0x000ABCDE 0x9A 0xC); lia. Defined.

(** C36: after [idt_init] the processor reads, for every interrupt, a present
    interrupt gate of ring 0 to its entry point in the kernel's code segment; no
    handler is registered, [lidt] has the table's address and last byte, and the
    interrupt controllers deliver their lines from 32 and 40 on with the masks they
    had. *)
Theorem idt_init_gates port_in isr_roots kernel_cs idt_addr s :
  Z.of_nat (length isr_roots) = NUM_INTERRUPTS → Forall (λ r, is_u32 r) isr_roots →
  ∃ s', idt_init port_in isr_roots kernel_cs idt_addr s = Ret (tt, s') ∧
    (∀ i r, lookupZ isr_roots i = Some r →
       (∃ d, lookupZ (IDT s') i = Some d ∧ decode_gate (idt_raw d) = mkGate r (u16 kernel_cs) 0xE 0 1) ∧
       lookupZ (IDTCallbacks s') i = Some NoHandler) ∧
    IDTPtr s' = Some (2047, idt_addr) ∧
    trace s' = trace s ++ remap_trace (u8 (port_in (trace s) PIC1_DATA)) (u8 (port_in (trace s) PIC2_DATA)).
Proof.
  intros Hl Hu. destruct (idt_init_ok port_in isr_roots kernel_cs idt_addr s Hl Hu) as (s' & E & Hg & Hc & Hp & Ht & _).
  exists s'. split; [done|]. split; [|done]. intros i r Er. split; [by apply Hg|]. rewrite Hc.
  apply lookupZ_replicate. pose proof (lookupZ_lt _ _ _ Er). unfold NUM_INTERRUPTS in *. lia.
Qed.

Definition demo_intr : intrst := mkIntr [] [] None [] None [] [].
Lemma idt_init_gates_witness :
  ∃ s' d, idt_init (λ _ _, 0xFF) (map (λ i, 0xC0100000 + 16 * i) (seqZ 0 256)) 8 0xC0200000 demo_intr = Ret (tt, s') ∧
    lookupZ (IDT s') 14 = Some d ∧ decode_gate (idt_raw d) = mkGate 0xC01000E0 8 0xE 0 1.
Proof.
  destruct (idt_init_gates (λ _ _, 0xFF) (map (λ i, 0xC0100000 + 16 * i) (seqZ 0 256)) 8 0xC0200000 demo_intr) as (s' & E & H & _).
  - reflexivity.
  - apply (bool_decide_unpack _). vm_compute. exact I.
  - destruct (H 14 0xC01000E0 eq_refl) as [(d & Ed & Eg) _]. exists s', d. exact (conj E (conj Ed Eg)).
Defined.

(** Dispatch.  The handler registered last for an interrupt is the one that
    runs; an interrupt of the controllers is acknowledged before it does, to the
    first controller and, above line 8, to the second; registering a handler changes
    no other. *)
Theorem idt_handler_dispatch s regs h :
  0 ≤ int_no regs < NUM_INTERRUPTS → Z.of_nat (length (IDTCallbacks s)) = NUM_INTERRUPTS → h ≠ NoHandler →
  let eoi := if (32 <=? int_no regs) && (int_no regs <? 48) then
               (if 40 <? int_no regs then [(0xA0, 0x20)] else []) ++ [(0x20, 0x20)] else [] in
  ∃ s1, idt_set_handler (int_no regs) h s = Ret (tt, s1) ∧
    idt_handler regs s1 = Ret (h, set_trace (trace s ++ eoi) s1) ∧
    ∀ j, j ≠ int_no regs → lookupZ (IDTCallbacks s1) j = lookupZ (IDTCallbacks s) j.
Proof.
  intros Hi Hl Hh eoi. set (n := int_no regs) in *. unfold NUM_INTERRUPTS in *.
  set (s1 := set_IDTCallbacks (insertZ n h (IDTCallbacks s)) s). exists s1. split; [|split].
  - unfold idt_set_handler. rewrite (bind_ret _ _ s s s), (u8_small n) by (done || lia).
    by rewrite (bind_ret _ _ _ _ _ (aset_ok (IDTCallbacks s) n h s ltac:(lia))).
  - unfold idt_handler. rewrite (bind_ret _ _ s1 tt (set_trace (trace s ++ eoi) s1)).
    + rewrite (bind_ret _ _ _ _ _ eq_refl). cbn [IDTCallbacks set_trace]. fold n.
      rewrite (bind_ret _ _ _ h _) by (apply aget_Some, lookupZ_insert_eq; lia).
      by rewrite decide_False by done.
    + fold n. unfold eoi. change INT_PIC1_BASE with 32. change INT_PIC_END with 48.
      destruct ((32 <=? n) && (n <? 48)); [|by rewrite app_nil_r].
      unfold pic_eoi. fold n. change INT_PIC2_BASE with 40. destruct (40 <? n); cbn; unfold io_put8; mred; [|done].
      unfold set_trace. cbn. by rewrite <- app_assoc.
  - intros j Hj. apply lookupZ_insert_ne; [lia|done].
Qed.

Definition demo_regs (n : Z) : isrargs := mkIsrargs 0 0 0 0 0 0 0 0 0 n 0 0 0 0 0 0.
Lemma idt_handler_dispatch_witness :
  ∃ s1, idt_set_handler 33 h_kbd_intr (set_IDTCallbacks (replicate 256 NoHandler) demo_intr) = Ret (tt, s1) ∧
    idt_handler (demo_regs 33) s1 = Ret (h_kbd_intr, set_trace [(0x20, 0x20)] s1).
Proof.
  destruct (idt_handler_dispatch (set_IDTCallbacks (replicate 256 NoHandler) demo_intr) (demo_regs 33) h_kbd_intr)
    as (s1 & E1 & E2 & _); [by cbn; unfold NUM_INTERRUPTS; lia|done|done|].
  exists s1. exact (conj E1 E2).
Defined.

(** Line 8, the first of the second controller (interrupt 40), is never
    acknowledged there: [pic_eoi] compares with a strict inequality. *)
Theorem pic_eoi_skips_line_8 regs s :
  int_no regs = INT_PIC2_BASE → pic_eoi regs s = Ret (tt, set_trace (trace s ++ [(PIC1_COMMAND, PIC_EOI)]) s).
Proof. intros E. unfold pic_eoi. rewrite E. done. Qed.

Lemma pic_eoi_skips_line_8_witness : pic_eoi (demo_regs 40) demo_intr = Ret (tt, set_trace [(0x20, 0x20)] demo_intr).
Proof. by apply (pic_eoi_skips_line_8 (demo_regs 40) demo_intr). Defined.

(** The timer's rate.  [pit_init] sends the low byte of the divisor and then its
    third byte in place of the second: the counter gets 77 instead of the 5965 that
    make 200 interrupts per second, and the timer runs at over 15 kHz. *)
Theorem pit_init_divisor s :
  Z.of_nat (length (IDTCallbacks s)) = NUM_INTERRUPTS →
  ∃ s', pit_init s = Ret (tt, s') ∧ trace s' = trace s ++ [(0x43, 0x36); (0x40, 77); (0x40, 0)] ∧
    pit_divisor = 5965 ∧ 1193180 / (77 + 256 * 0) = 15495.
Proof.
  intros Hl. eexists. split; [by apply pit_init_ok|]. cbn [trace set_trace set_IDTCallbacks]. rewrite <- !app_assoc. by split.
Qed.

Lemma pit_init_divisor_witness :
  ∃ s', pit_init (set_IDTCallbacks (replicate 256 NoHandler) demo_intr) = Ret (tt, s') ∧
    trace s' = [(0x43, 0x36); (0x40, 77); (0x40, 0)].
Proof.
  destruct (pit_init_divisor (set_IDTCallbacks (replicate 256 NoHandler) demo_intr)) as (s' & E & T & _); [done|].
  exists s'. exact (conj E T).
Defined.
