(* ===== verification/Console.v ===== *)
(** * The console

    [arch/x86/vga_console.c], [arch/x86/kbd.c] with [keymap.h], and
    [arch/x86/console.c]: the text screen, the keyboard interrupt, the ring buffer
    between it and readers, and the line editing of [console_read].

    The screen is the 32 KiB text window of the adapter, an array of 16-bit cells.
    Scan codes wait in the keyboard controller, whose status port says whether there
    are any.  Interrupts come between the iterations of [console_read]'s polling loop:
    [arrivals] lists, per iteration, the scan codes that arrive before it. *)
From Stdlib Require Import ZArith Lia.
From stdpp Require Import base list list_numbers strings.
From S2P Require Import Prelude.
Open Scope Z_scope.
Open Scope u32_scope.

(** ** State *)

Definition VGA_WINDOW : Z := 16384.

Record vga : Type := mkVga { buffer : list Z; vx : Z; vy : Z; rows : Z; cols : Z; attrib : Z; vports : list (Z * Z) }.

Definition CONS_RBUF_LEN : Z := 256.

Record consst : Type := mkCons {
  screen : vga;
  ConsoleReadBuf : list Z;
  RBufRead : Z;
  RBufWrite : Z;
  kbd_queue : list Z;
  kbd_ready : bool;
  arrivals : list (list Z);
  cons_if : bool
}.

Definition set_screen x s := mkCons x (ConsoleReadBuf s) (RBufRead s) (RBufWrite s) (kbd_queue s) (kbd_ready s) (arrivals s) (cons_if s).
Definition set_rbuf x s := mkCons (screen s) x (RBufRead s) (RBufWrite s) (kbd_queue s) (kbd_ready s) (arrivals s) (cons_if s).
Definition set_rread x s := mkCons (screen s) (ConsoleReadBuf s) x (RBufWrite s) (kbd_queue s) (kbd_ready s) (arrivals s) (cons_if s).
Definition set_rwrite x s := mkCons (screen s) (ConsoleReadBuf s) (RBufRead s) x (kbd_queue s) (kbd_ready s) (arrivals s) (cons_if s).
Definition set_kbdq x s := mkCons (screen s) (ConsoleReadBuf s) (RBufRead s) (RBufWrite s) x (kbd_ready s) (arrivals s) (cons_if s).
Definition set_kbd_ready x s := mkCons (screen s) (ConsoleReadBuf s) (RBufRead s) (RBufWrite s) (kbd_queue s) x (arrivals s) (cons_if s).
Definition set_arrivals x s := mkCons (screen s) (ConsoleReadBuf s) (RBufRead s) (RBufWrite s) (kbd_queue s) (kbd_ready s) x (cons_if s).
Definition set_cons_if x s := mkCons (screen s) (ConsoleReadBuf s) (RBufRead s) (RBufWrite s) (kbd_queue s) (kbd_ready s) (arrivals s) x.

#[export] Program Instance cons_has_vga : Has consst vga := {| proj := screen; embed := set_screen |}.
Next Obligation. done. Qed.
Next Obligation. done. Qed.
Next Obligation. by intros []. Qed.

Definition set_buffer b v := mkVga b (vx v) (vy v) (rows v) (cols v) (attrib v) (vports v).
Definition set_xy x y v := mkVga (buffer v) x y (rows v) (cols v) (attrib v) (vports v).
Definition add_ports l v := mkVga (buffer v) (vx v) (vy v) (rows v) (cols v) (attrib v) (vports v ++ l).

(** ** arch/x86/vga_console.c *)

Definition VGA_TEXT_ADDR (v : vga) (x y : Z) : Z := y * cols v + x.

(** A [char] is signed: the or with a negative one sets the whole attribute byte. *)
Definition s8 (x : Z) : Z := let y := x mod 2 ^ 8 in if y <? 2 ^ 7 then y else y - 2 ^ 8.
Definition vga_cell (attr c : Z) : Z := u16 (Z.lor (Z.shiftl attr 8) c).

Definition BUF_PUTC (c : Z) : M vga unit :=
  v ← getS;
  b ← aset (buffer v) (VGA_TEXT_ADDR v (vx v) (vy v)) (vga_cell (attrib v) c);
  putS (set_buffer b v).

Definition vga_console_set_cursor (x y : Z) : M vga unit :=
  v ← getS;
  let pos := VGA_TEXT_ADDR v x y in
  putS (add_ports [(0x3D4, 0x0F); (0x3D5, Z.land pos 0xFF); (0x3D4, 0x0E); (0x3D5, Z.land (Z.shiftr pos 8) 0xFF)] v).

Definition vga_console_clear : M vga unit :=
  v ← getS;
  forM (seqZ 0 (rows v * cols v * 2))
    (λ i, v ← getS; b ← aset (buffer v) i (Z.lor (u16 (Z.shiftl (attrib v) 8)) 32); putS (set_buffer b v)).

(** [memmove] of as many bytes as the screen has, that is, as many cells. *)
Definition vga_console_scroll : M vga unit :=
  v ← getS;
  let n := Z.to_nat (rows v * cols v) in
  let c := Z.to_nat (cols v) in
  (if Z.of_nat (length (buffer v)) <? rows v * cols v + cols v then crash OutOfBounds else mret tt) ;;
  putS (set_buffer (take n (drop c (buffer v)) ++ drop n (buffer v)) (set_xy (vx v) (vy v - 1) v)).

Definition vga_console_init : M vga unit :=
  v ← getS;
  putS (mkVga (buffer v) 0 0 25 80 0x7 (vports v)) ;;
  vga_console_set_cursor 0xFF 0xFF ;;
  vga_console_clear.

Definition vga_console_putc (c : Z) : M vga unit :=
  v ← getS;
  if c =? 13 then mret tt   (* ignore \r *)
  else
    (if c =? 10 then putS (set_xy 0 (vy v + 1) v)
     else if c =? 8 then putS (set_xy (vx v - 1) (vy v) v) ;; BUF_PUTC 32
     else BUF_PUTC c ;; v ← getS; putS (set_xy (vx v + 1) (vy v) v)) ;;
    v ← getS;
    (if cols v <=? vx v then putS (set_xy 0 (vy v + 1) v) else mret tt) ;;
    v ← getS;
    (if vx v <? 0 then putS (set_xy (cols v - 1) (vy v - 1) v) else mret tt) ;;
    v ← getS;
    (if rows v <=? vy v then vga_console_scroll else mret tt) ;;
    v ← getS;
    vga_console_set_cursor (vx v) (vy v).

(** ** arch/x86/keymap.h and kbd.c *)

Definition Keymap : list Z :=
  [ 0x00; 0x1b; 49; 50; 51; 52; 53; 54; 55; 56; 57; 48; 45; 61; 0x08; 0x09;
    113; 119; 101; 114; 116; 121; 117; 105; 111; 112; 91; 93; 10; 0x00;
    97; 115; 100; 102; 103; 104; 106; 107; 108; 59; 39; 96; 0x00; 92;
    122; 120; 99; 118; 98; 110; 109; 44; 46; 47; 0x00; 42; 0x00; 32 ].

Definition console_rbuf_putc (c : Z) : M consst unit :=
  s ← getS;
  b ← aset (ConsoleReadBuf s) (Z.rem (RBufWrite s) CONS_RBUF_LEN) c;
  putS (set_rwrite (s32 (RBufWrite s + 1)) (set_rbuf b s)).

(** Every iteration takes a scan code from the controller's queue. *)
Definition kbd_intr : M consst unit :=
  s ← getS;
  while (Pos.of_succ_nat (length (kbd_queue s)))
    (λ _ : unit,
       s ← getS;
       match kbd_queue s with
       | [] => mret (inr tt)
       | scode :: q =>
           putS (set_kbdq q s) ;;
           if negb (Z.land scode 0x80 =? 0) then mret (inr tt)   (* keyup *)
           else
             c ← aget Keymap scode;
             console_rbuf_putc c ;;
             mret (inl tt)
       end) tt.

Definition kbd_init : M consst unit := modify (set_kbd_ready true).

(** ** arch/x86/console.c *)

Definition console_open (flags : Z) : M consst Z := mret 0.

Definition vga_putc (c : Z) : M consst unit := zoom (vga_console_putc c).

(** [count] characters of the caller's buffer. *)
Definition console_write (buf : list Z) (count : Z) : M consst Z :=
  forM (seqZ 0 count) (λ i, c ← aget buf i; vga_putc (s8 c)) ;;
  mret (s32 count).

Definition console_rbuf_getc : M consst (option Z) :=
  s ← getS;
  if RBufRead s <? RBufWrite s then
    c ← aget (ConsoleReadBuf s) (Z.rem (RBufRead s) CONS_RBUF_LEN);
    putS (set_rread (s32 (RBufRead s + 1)) s) ;;
    mret (Some c)
  else mret None.

(** The interrupts that come before an iteration; [None] when none will come any
    more, so that the loop only spins. *)
Definition deliver : M consst unit :=
  s ← getS;
  match arrivals s with
  | [] => mret tt
  | codes :: rest =>
      putS (set_arrivals rest (set_kbdq (kbd_queue s ++ codes) s)) ;;
      (match codes with [] => mret tt | _ => if kbd_ready s then kbd_intr else mret tt end)
  end.

(** The loop state is the buffer the caller's pointer leads to, as far as it has been
    written, and [c].  The result is the return value and those bytes.  [count] is not
    used.  An iteration takes a character or lets the next interrupt come, so a run
    longer than [read_fuel] has no more of either and spins for ever. *)
Definition read_fuel (s : consst) : positive :=
  Pos.of_succ_nat (Z.to_nat (RBufWrite s - RBufRead s) + length (kbd_queue s) +
                   length (arrivals s) + length (concat (arrivals s)) + length (concat (arrivals s))).

Definition console_read (count : Z) : M consst (Z * list Z) :=
  modify (set_cons_if true) ;;
  s ← getS;
  while (read_fuel s)
    (λ st : list Z * Z,
       let (cbuf, c) := st in
       deliver ;;
       g ← console_rbuf_getc;
       match g with
       | None => mret (inl (cbuf, c))
       | Some ch =>
           let cbuf := take (Z.to_nat c) cbuf ++ ch :: drop (S (Z.to_nat c)) cbuf in
           if ch =? 8 then
             if 0 <? c then
               vga_putc (s8 ch) ;;
               mret (inl (take (Z.to_nat c) cbuf ++ 0 :: drop (S (Z.to_nat c)) cbuf, c - 1))
             else mret (inl (cbuf, c))
           else
             vga_putc (s8 ch) ;;
             if (ch =? 10) || (ch =? 0) then mret (inr (c + 1, cbuf))
             else mret (inl (cbuf, c + 1))
       end) ([], 0).

Definition console_close : M consst Z := mret 0.

(** ** Specification: a terminal *)

Definition SCREEN : Z := 2000.
Definition WIDTH : Z := 80.
Definition blank : Z := 0x720.

(** The cells of the screen, row by row, and the cursor as one position. *)
Record term : Type := mkTerm { t_cells : list Z; t_pos : Z }.

(** Scrolling when the cursor has left the last row. *)
Definition t_scroll (t : term) : term :=
  if SCREEN <=? t_pos t then
    mkTerm (drop (Z.to_nat WIDTH) (t_cells t) ++ replicate (Z.to_nat WIDTH) blank) (t_pos t - WIDTH)
  else t.

Definition t_put (c : Z) (t : term) : term :=
  if c =? 13 then t
  else if c =? 10 then t_scroll (mkTerm (t_cells t) ((t_pos t / WIDTH + 1) * WIDTH))
  else if c =? 8 then mkTerm (insertZ (t_pos t - 1) (vga_cell 7 32) (t_cells t)) (t_pos t - 1)
  else t_scroll (mkTerm (insertZ (t_pos t) (vga_cell 7 c) (t_cells t)) (t_pos t + 1)).

(** The screen of the adapter shows the terminal; the row behind the screen, which
    scrolling brings in, is blank. *)
Record shows (v : vga) (t : term) : Prop := {
  sh_size : rows v = 25 ∧ cols v = 80 ∧ attrib v = 7 ∧ Z.of_nat (length (buffer v)) = VGA_WINDOW;
  sh_cells : t_cells t = take (Z.to_nat SCREEN) (buffer v);
  sh_pos : t_pos t = vy v * 80 + vx v ∧ 0 ≤ vx v < 80 ∧ 0 ≤ vy v < 25;
  sh_next : take (Z.to_nat WIDTH) (drop (Z.to_nat SCREEN) (buffer v)) = replicate (Z.to_nat WIDTH) blank
}.

Lemma insertZ_take_drop (b : list Z) i x :
  0 ≤ i < SCREEN → Z.of_nat (length b) = VGA_WINDOW →
  take (Z.to_nat SCREEN) (insertZ i x b) = insertZ i x (take (Z.to_nat SCREEN) b) ∧
  drop (Z.to_nat SCREEN) (insertZ i x b) = drop (Z.to_nat SCREEN) b.
Proof.
  intros Hi Hl. unfold insertZ, SCREEN in *. split; [apply take_insert_lt; lia|apply drop_insert_lt; lia].
Qed.

Definition cursor_ports (p : Z) : list (Z * Z) :=
  [(0x3D4, 0x0F); (0x3D5, Z.land p 0xFF); (0x3D4, 0x0E); (0x3D5, Z.land (Z.shiftr p 8) 0xFF)].

(** After the initialisation the screen is blank and the cursor at its start. *)
Definition blank_term : term := mkTerm (replicate (Z.to_nat SCREEN) blank) 0.

Lemma vga_init_ok v : Z.of_nat (length (buffer v)) = VGA_WINDOW →
  ∃ v', vga_console_init v = Ret (tt, v') ∧ shows v' blank_term.
Proof.
  intros Hl. unfold VGA_WINDOW in Hl.
  set (v2 := mkVga (buffer v) 0 0 25 80 0x7 (vports v)).
  set (v3 := add_ports (cursor_ports (VGA_TEXT_ADDR v2 0xFF 0xFF)) v2).
  set (I := λ i s, s = set_buffer (replicate (Z.to_nat i) blank ++ drop (Z.to_nat i) (buffer v)) v3).
  assert (Hlen : ∀ i, 0 ≤ i < 4000 → i < Z.of_nat (length (replicate (Z.to_nat i) blank ++ drop (Z.to_nat i) (buffer v)))).
  { intros i Hi. rewrite length_app, length_replicate, length_drop. lia. }
  destruct (forM_count (λ i, v ← getS; b ← aset (buffer v) i (Z.lor (u16 (Z.shiftl (attrib v) 8)) 32); putS (set_buffer b v))
    I 4000 v3) as (s' & E & HI).
  - lia.
  - intros i s Hi ->. destruct (lookup_lt_is_Some_2 (buffer v) (Z.to_nat i) ltac:(lia)) as [y Ey]. eexists. split.
    + rewrite (bind_ret _ _ _ _ _ eq_refl). cbn [buffer set_buffer]. rewrite (bind_ret _ _ _ _ _ (aset_ok _ i _ _ (conj (proj1 Hi) (Hlen i Hi)))).
      reflexivity.
    + unfold I. cbn. rewrite (drop_S _ y) by done. unfold insertZ.
      rewrite insert_app_r_alt by (rewrite length_replicate; lia). rewrite length_replicate, Nat.sub_diag. cbn [insert list_insert].
      replace (Z.to_nat (i + 1)) with (S (Z.to_nat i)) by lia. rewrite replicate_S_end, <- app_assoc. done.
  - done.
  - exists s'. split; [|unfold I in HI; subst s'; split].
    + unfold vga_console_init. rewrite (bind_ret _ _ v v v), (bind_ret _ _ v tt v2) by done. by rewrite (bind_ret _ _ v2 tt v3).
    + cbn [rows cols attrib buffer v3 v2 set_buffer add_ports]. repeat split. rewrite length_app, length_replicate, length_drop. unfold VGA_WINDOW. lia.
    + cbn [buffer set_buffer t_cells blank_term]. rewrite (take_app_le (replicate _ _)) by (rewrite length_replicate; unfold SCREEN; lia). by rewrite take_replicate.
    + cbn. lia.
    + cbn [buffer set_buffer]. rewrite drop_app_le by (rewrite length_replicate; unfold SCREEN; lia). rewrite drop_replicate.
      rewrite take_app_le by (rewrite length_replicate; unfold SCREEN, WIDTH; lia). by rewrite take_replicate.
Qed.

(** What the end of [vga_console_putc] does from any position just off the screen. *)
Definition finish : M vga unit :=
  v ← getS;
  (if cols v <=? vx v then putS (set_xy 0 (vy v + 1) v) else mret tt) ;;
  v ← getS;
  (if vx v <? 0 then putS (set_xy (cols v - 1) (vy v - 1) v) else mret tt) ;;
  v ← getS;
  (if rows v <=? vy v then vga_console_scroll else mret tt) ;;
  v ← getS;
  vga_console_set_cursor (vx v) (vy v).

Lemma scroll_ok v t :
  rows v = 25 → cols v = 80 → attrib v = 7 → Z.of_nat (length (buffer v)) = VGA_WINDOW →
  t_cells t = take (Z.to_nat SCREEN) (buffer v) → t_pos t = vy v * 80 + vx v → 0 ≤ vx v < 80 → 0 ≤ vy v ≤ 25 →
  take (Z.to_nat WIDTH) (drop (Z.to_nat SCREEN) (buffer v)) = replicate (Z.to_nat WIDTH) blank →
  ∃ v', (v ← getS; if rows v <=? vy v then vga_console_scroll else mret tt) v = Ret (tt, v') ∧ shows v' (t_scroll t) ∧ vports v' = vports v.
Proof.
  intros Hr Hc Ha Hl Ht Hp Hx Hy Hb. rewrite (bind_ret _ _ v v v), Hr by done. unfold t_scroll.
  destruct (Z.leb_spec 25 (vy v)) as [Hge|Hlt].
  - assert (E25 : vy v = 25) by lia. rewrite (proj2 (Z.leb_le SCREEN (t_pos t))) by (unfold SCREEN; lia).
    unfold vga_console_scroll. rewrite (bind_ret _ _ v v v), Hr, Hc by done. unfold VGA_WINDOW in Hl.
    rewrite (proj2 (Z.ltb_ge _ _)) by lia. rewrite (bind_ret _ _ v tt v) by done. eexists. split; [done|]. split; [|done].
    change (Z.to_nat (25 * 80)) with (Z.to_nat SCREEN) in *. change (Z.to_nat 80) with (Z.to_nat WIDTH) in *.
    set (n := Z.to_nat SCREEN) in *. set (w := Z.to_nat WIDTH) in *.
    assert (Hn : n = 2000%nat) by done. assert (Hw : w = 80%nat) by done.
    assert (Ln : length (take n (drop w (buffer v))) = n) by (rewrite length_take, length_drop; lia).
    split; cbn [rows cols attrib buffer vx vy set_buffer set_xy t_cells t_pos].
    + split; [done|split; [done|split; [done|]]]. rewrite length_app, Ln, length_drop. unfold VGA_WINDOW. lia.
    + rewrite take_app_length' by done. rewrite Ht, <- Hb, (take_drop_commute (buffer v) n w).
      rewrite (Nat.add_comm w n), <- (take_take_drop (buffer v) n w), drop_app_le; [done|]. rewrite length_take. lia.
    + unfold WIDTH. lia.
    + rewrite drop_app_length' by done. exact Hb.
  - rewrite (proj2 (Z.leb_gt SCREEN (t_pos t))) by (unfold SCREEN; lia). exists v. split; [done|]. split; [|done].
    split; try done; lia.
Qed.

Lemma finish_ok v t :
  rows v = 25 → cols v = 80 → attrib v = 7 → Z.of_nat (length (buffer v)) = VGA_WINDOW →
  t_cells t = take (Z.to_nat SCREEN) (buffer v) → t_pos t = vy v * 80 + vx v →
  -1 ≤ vx v ≤ 80 → 0 ≤ vy v ≤ 25 → 0 ≤ t_pos t ≤ SCREEN → (vy v = 25 → vx v = 0) →
  take (Z.to_nat WIDTH) (drop (Z.to_nat SCREEN) (buffer v)) = replicate (Z.to_nat WIDTH) blank →
  ∃ v', finish v = Ret (tt, v') ∧ shows v' (t_scroll t) ∧ vports v' = vports v ++ cursor_ports (t_pos (t_scroll t)).
Proof.
  intros Hr Hc Ha Hl Ht Hp Hx Hy Hpos H25 Hb. unfold SCREEN in Hpos.
  set (v1 := if 80 <=? vx v then set_xy 0 (vy v + 1) v else v).
  set (v2 := if vx v1 <? 0 then set_xy 79 (vy v1 - 1) v1 else v1).
  assert (K : rows v2 = 25 ∧ cols v2 = 80 ∧ attrib v2 = 7 ∧ buffer v2 = buffer v ∧ vports v2 = vports v ∧
              t_pos t = vy v2 * 80 + vx v2 ∧ 0 ≤ vx v2 < 80 ∧ 0 ≤ vy v2 ≤ 25).
  { unfold v2, v1. destruct (Z.leb_spec 80 (vx v)).
    - change (vx (set_xy 0 (vy v + 1) v)) with 0. cbn [Z.ltb Z.compare]. cbn. repeat split; try done; lia.
    - destruct (Z.ltb_spec (vx v) 0); cbn; repeat split; try done; lia. }
  destruct K as (Kr & Kc & Ka & Kb & Kp & Kt & Kx & Ky).
  destruct (scroll_ok v2 t) as (v3 & E3 & Hs & Hv3); try done; [by rewrite Kb|by rewrite Kb|by rewrite Kb|].
  exists (add_ports (cursor_ports (t_pos (t_scroll t))) v3). split; [|split].
  - unfold finish. rewrite (bind_ret _ _ v v v), Hc by done.
    rewrite (bind_ret _ _ v tt v1) by (unfold v1; by destruct (80 <=? vx v)).
    assert (Ec1 : cols v1 = 80) by (unfold v1; destruct (80 <=? vx v); done).
    rewrite (bind_ret _ _ v1 v1 v1), Ec1 by done.
    rewrite (bind_ret _ _ v1 tt v2) by (unfold v2; by destruct (vx v1 <? 0)).
    rewrite <- bind_assoc. rewrite (bind_ret _ _ _ _ _ E3). rewrite (bind_ret _ _ v3 v3 v3) by done.
    unfold vga_console_set_cursor. rewrite (bind_ret _ _ v3 v3 v3) by done. unfold VGA_TEXT_ADDR.
    destruct (sh_size _ _ Hs) as (_ & -> & _). destruct (sh_pos _ _ Hs) as (-> & _). done.
  - destruct Hs as [S1 S2 S3 S4]. by split.
  - cbn. by rewrite Hv3, Kp.
Qed.

Lemma buf_putc_ok v c :
  0 ≤ VGA_TEXT_ADDR v (vx v) (vy v) < Z.of_nat (length (buffer v)) →
  BUF_PUTC c v = Ret (tt, set_buffer (insertZ (VGA_TEXT_ADDR v (vx v) (vy v)) (vga_cell (attrib v) c) (buffer v)) v).
Proof.
  intros H. unfold BUF_PUTC. rewrite (bind_ret _ _ v v v) by done. by rewrite (bind_ret _ _ _ _ _ (aset_ok _ _ _ v H)).
Qed.

Lemma putc_split v c m :
  c ≠ 13 →
  (if c =? 10 then putS (set_xy 0 (vy v + 1) v)
   else if c =? 8 then putS (set_xy (vx v - 1) (vy v) v) ;; BUF_PUTC 32
   else BUF_PUTC c ;; v ← getS; putS (set_xy (vx v + 1) (vy v) v)) v = Ret (tt, m) →
  vga_console_putc c v = finish m.
Proof.
  intros Hc E. unfold vga_console_putc. rewrite (bind_ret _ _ v v v) by done.
  destruct (Z.eqb_spec c 13); [done|]. by rewrite (bind_ret _ _ _ _ _ E).
Qed.

(** Printing a character on the screen is printing it on the terminal. *)
Lemma putc_ok v t c :
  shows v t → (c = 8 → 0 < t_pos t) →
  ∃ v', vga_console_putc c v = Ret (tt, v') ∧ shows v' (t_put c t) ∧
    vports v' = vports v ++ (if c =? 13 then [] else cursor_ports (t_pos (t_put c t))).
Proof.
  intros [(Hr & Hc & Ha & Hl) Hcells (Hp & Hx & Hy) Hb] H8. unfold t_put.
  destruct (Z.eqb_spec c 13) as [->|H13].
  { exists v. split; [by unfold vga_console_putc|]. rewrite app_nil_r. by split; [split|]. }
  assert (Ep : VGA_TEXT_ADDR v (vx v) (vy v) = t_pos t) by (unfold VGA_TEXT_ADDR; lia).
  unfold VGA_WINDOW in Hl. destruct (Z.eqb_spec c 10) as [->|H10].
  - set (m := set_xy 0 (vy v + 1) v). rewrite (putc_split v 10 m) by done.
    apply (finish_ok m); try done; cbn [vx vy m set_xy t_pos]; try lia.
    all: rewrite Hp; unfold WIDTH, SCREEN; zlia.
  - destruct (Z.eqb_spec c 8) as [->|Hc8].
    + specialize (H8 eq_refl). set (v1 := set_xy (vx v - 1) (vy v) v).
      assert (Ep1 : VGA_TEXT_ADDR v1 (vx v1) (vy v1) = t_pos t - 1) by (unfold VGA_TEXT_ADDR, v1; cbn; lia).
      set (m := set_buffer (insertZ (t_pos t - 1) (vga_cell 7 32) (buffer v)) v1).
      rewrite (putc_split v 8 m); [|done|].
      2: { cbn [Z.eqb Pos.eqb]. rewrite (bind_ret _ _ v tt v1) by done.
           rewrite buf_putc_ok by (rewrite Ep1; change (buffer v1) with (buffer v); lia). rewrite Ep1.
           change (attrib v1) with (attrib v). by rewrite Ha. }
      destruct (insertZ_take_drop (buffer v) (t_pos t - 1) (vga_cell 7 32)) as [I1 I2]; [unfold SCREEN; lia|done|].
      assert (Et : ∀ x, t_scroll (mkTerm x (t_pos t - 1)) = mkTerm x (t_pos t - 1)).
      { intros x. unfold t_scroll. cbn [t_pos]. by rewrite (proj2 (Z.leb_gt _ _)) by (unfold SCREEN; lia). }
      rewrite <- Et. destruct (finish_ok m (mkTerm (insertZ (t_pos t - 1) (vga_cell 7 32) (t_cells t)) (t_pos t - 1)))
        as (v' & E & Hs & Hv); try done; cbn [vx vy m set_xy set_buffer t_pos buffer t_cells v1]; try (unfold SCREEN; lia).
      * by rewrite length_insertZ.
      * by rewrite I1, <- Hcells.
      * by rewrite I2.
      * exists v'. split; [done|]. split; [done|]. exact Hv.
    + set (m := set_xy (vx v + 1) (vy v) (set_buffer (insertZ (t_pos t) (vga_cell 7 c) (buffer v)) v)).
      rewrite (putc_split v c m); [|done|].
      2: { rewrite (proj2 (Z.eqb_neq c 10) H10), (proj2 (Z.eqb_neq c 8) Hc8).
           rewrite (bind_ret _ _ v tt (set_buffer (insertZ (t_pos t) (vga_cell 7 c) (buffer v)) v)); [done|].
           rewrite buf_putc_ok by (rewrite Ep; lia). by rewrite Ep, Ha. }
      destruct (insertZ_take_drop (buffer v) (t_pos t) (vga_cell 7 c)) as [I1 I2]; [unfold SCREEN; lia|done|].
      apply (finish_ok m); try done; cbn [vx vy m set_xy set_buffer t_pos buffer t_cells]; try (unfold SCREEN; lia).
      * by rewrite length_insertZ.
      * by rewrite I1, <- Hcells.
      * by rewrite I2.
Qed.

(** ** The ring buffer *)

(** The characters between the two counters, oldest first. *)
Record ring_holds (s : consst) (q : list Z) : Prop := {
  rh_len : Z.of_nat (length (ConsoleReadBuf s)) = CONS_RBUF_LEN;
  rh_count : 0 ≤ RBufRead s ∧ RBufWrite s = RBufRead s + Z.of_nat (length q) ∧ Z.of_nat (length q) ≤ CONS_RBUF_LEN;
  rh_cells k c : q !! k = Some c → lookupZ (ConsoleReadBuf s) ((RBufRead s + Z.of_nat k) mod CONS_RBUF_LEN) = Some c
}.

Lemma ring_putc_ok s q c :
  ring_holds s q → Z.of_nat (length q) < CONS_RBUF_LEN → RBufWrite s + 1 < 2 ^ 31 →
  ∃ s', console_rbuf_putc c s = Ret (tt, s') ∧ ring_holds s' (q ++ [c]) ∧ RBufRead s' = RBufRead s ∧ RBufWrite s' = RBufWrite s + 1 ∧
    screen s' = screen s ∧ kbd_queue s' = kbd_queue s ∧ kbd_ready s' = kbd_ready s ∧ arrivals s' = arrivals s.
Proof.
  intros [Hl (Hr & Hw & Hq) Hc] Hlt Hov. unfold console_rbuf_putc. rewrite (bind_ret _ _ s s s) by done.
  unfold CONS_RBUF_LEN in *. rewrite Z.rem_mod_nonneg by lia. pose proof (Z.mod_pos_bound (RBufWrite s) 256 ltac:(lia)).
  rewrite (bind_ret _ _ _ _ _ (aset_ok (ConsoleReadBuf s) (RBufWrite s mod 256) c s ltac:(lia))).
  rewrite s32_small by lia. eexists. split; [done|]. split; [|done].
  split; cbn [ConsoleReadBuf RBufRead RBufWrite set_rwrite set_rbuf].
  - by rewrite length_insertZ.
  - rewrite length_app. cbn. unfold CONS_RBUF_LEN. lia.
  - intros k x Hk. unfold CONS_RBUF_LEN. destruct (decide (k = length q)) as [->|Hne].
    + rewrite list_lookup_middle in Hk by done. injection Hk as <-. rewrite <- Hw. apply lookupZ_insert_eq. lia.
    + assert (k < length q)%nat by (apply lookup_lt_Some in Hk; rewrite length_app in Hk; cbn in Hk; lia).
      rewrite lookup_app_l in Hk by lia. rewrite lookupZ_insert_ne; [by apply Hc|lia|]. rewrite Hw. zlia.
Qed.

Lemma ring_getc_ok s c q :
  ring_holds s (c :: q) → RBufRead s + 1 < 2 ^ 31 →
  ∃ s', console_rbuf_getc s = Ret (Some c, s') ∧ ring_holds s' q ∧ RBufWrite s' = RBufWrite s ∧
    screen s' = screen s ∧ kbd_queue s' = kbd_queue s ∧ kbd_ready s' = kbd_ready s ∧ arrivals s' = arrivals s.
Proof.
  intros [Hl (Hr & Hw & Hq) Hc] Hov. unfold console_rbuf_getc. rewrite (bind_ret _ _ s s s) by done. cbn [length] in *.
  rewrite (proj2 (Z.ltb_lt _ _)) by lia. unfold CONS_RBUF_LEN in *. rewrite Z.rem_mod_nonneg by lia.
  pose proof (Hc 0%nat c eq_refl) as H0. rewrite Z.add_0_r in H0.
  rewrite (bind_ret _ _ _ _ _ (aget_Some _ _ _ s H0)). rewrite s32_small by lia. eexists. split; [done|]. split; [|done].
  split; cbn [ConsoleReadBuf RBufRead RBufWrite set_rread]; [done|unfold CONS_RBUF_LEN; lia|].
  intros k x Hk. unfold CONS_RBUF_LEN. replace (RBufRead s + 1 + Z.of_nat k) with (RBufRead s + Z.of_nat (S k)) by lia. by apply Hc.
Qed.

Lemma ring_getc_empty s : ring_holds s [] → console_rbuf_getc s = Ret (None, s).
Proof.
  intros [_ (_ & Hw & _) _]. unfold console_rbuf_getc. rewrite (bind_ret _ _ s s s) by done.
  by rewrite (proj2 (Z.ltb_ge _ _)) by (cbn in Hw; lia).
Qed.

(** ** The characters to come *)

(** A keyboard interrupt brings one scan code: a key the map has, or a release. *)
Definition one_code (l : list Z) : Prop := l = [] ∨ ∃ k, l = [k] ∧ (0 ≤ k < 58 ∨ 128 ≤ k < 256).
Definition keys (l : list Z) : list Z :=
  match l with [k] => if k <? 128 then [nth (Z.to_nat k) Keymap 0] else [] | _ => [] end.

Record feeds (s : consst) (input : list Z) : Prop := {
  fd_ring : ∃ q, ring_holds s q ∧ input = q ++ concat (keys <$> arrivals s);
  fd_kbd : kbd_queue s = [] ∧ kbd_ready s = true ∧ Forall one_code (arrivals s);
  fd_room : Z.of_nat (length input) ≤ CONS_RBUF_LEN ∧ RBufRead s + Z.of_nat (length input) < 2 ^ 31 - 1
}.

Lemma keyup_test k : 0 ≤ k < 256 → (Z.land k 0x80 =? 0) = (k <? 128).
Proof.
  intros Hk. replace (Z.land k 0x80) with (Z.land k (Z.shiftl 1 7)) by done. rewrite land_shiftl_1_eqb by lia.
  destruct (Z.ltb_spec k 128); [by rewrite (testbit_small k 7) by lia|].
  apply negb_false_iff. rewrite Z.testbit_true by lia. change (2 ^ 7) with 128. replace (k / 128) with 1 by zlia. done.
Qed.

Lemma kbd_intr_ok s q k :
  ring_holds s q → kbd_queue s = [k] → (0 ≤ k < 58 ∨ 128 ≤ k < 256) →
  Z.of_nat (length q) < CONS_RBUF_LEN → RBufWrite s + 1 < 2 ^ 31 →
  ∃ s', kbd_intr s = Ret (tt, s') ∧ ring_holds s' (q ++ keys [k]) ∧ RBufRead s' = RBufRead s ∧
    screen s' = screen s ∧ kbd_queue s' = [] ∧ kbd_ready s' = kbd_ready s ∧ arrivals s' = arrivals s.
Proof.
  intros Hq Ek Hk Hl Hov. set (s0 := set_kbdq [] s). unfold kbd_intr. rewrite (bind_ret _ _ s s s), Ek by done.
  set (body := λ _ : unit, _). destruct (Z.ltb_spec k 128).
  - assert (Hk58 : 0 ≤ k < 58) by lia.
    assert (Ec : lookupZ Keymap k = Some (nth (Z.to_nat k) Keymap 0)).
    { unfold lookupZ. rewrite (proj2 (Z.leb_le 0 k)) by lia. apply lookup_nth. change (length Keymap) with 58%nat. lia. }
    assert (Hq0 : ring_holds s0 q) by (destruct Hq; by split).
    destruct (ring_putc_ok s0 q (nth (Z.to_nat k) Keymap 0) Hq0 Hl Hov) as (s1 & E1 & R1 & Rr & _ & Rs & Rk & Rd & Ra).
    exists s1. split; [|split; [|by rewrite Rr, Rs, Rk, Rd, Ra]].
    + apply (while_steps_leave body _ 1 tt s tt s1); [|done|].
      * cbn [run_nat]. rewrite (bind_ret _ _ s (inl tt) s1); [done|]. unfold body. rewrite (bind_ret _ _ s s s), Ek by done.
        rewrite (bind_ret _ _ s tt s0) by done. rewrite keyup_test by lia. rewrite (proj2 (Z.ltb_lt k 128)) by lia. cbn [negb].
        rewrite (bind_ret _ _ _ _ _ (aget_Some _ _ _ s0 Ec)). by rewrite (bind_ret _ _ _ _ _ E1).
      * unfold body. rewrite (bind_ret _ _ s1 s1 s1), Rk by done. done.
    + cbn [keys]. by rewrite (proj2 (Z.ltb_lt k 128)) by lia.
  - exists s0. split; [|split; [|done]].
    + apply while_leave. unfold body. rewrite (bind_ret _ _ s s s), Ek by done.
      rewrite (bind_ret _ _ s tt s0) by done. rewrite keyup_test by lia. by rewrite (proj2 (Z.ltb_ge k 128)) by lia.
    + cbn [keys]. rewrite (proj2 (Z.ltb_ge k 128)) by lia. rewrite app_nil_r. destruct Hq. by split.
Qed.

(** Interrupts between two iterations change what is in the ring, not what is read. *)
Lemma deliver_ok s input :
  feeds s input →
  ∃ s', deliver s = Ret (tt, s') ∧ feeds s' input ∧ screen s' = screen s ∧
    (arrivals s = [] ∧ s' = s ∨ S (length (arrivals s')) = length (arrivals s)).
Proof.
  intros Hfeed. pose proof Hfeed as [(q & Hq & Hin) (Hk & Hrd & Ha) [Hroom Hov]].
  unfold deliver. rewrite (bind_ret _ _ s s s) by done. destruct (arrivals s) as [|codes rest] eqn:Ear.
  - exists s. split; [done|]. split; [exact Hfeed|]. split; [done|by left].
  - apply Forall_cons in Ha as [Hcode Hrest]. cbn [fmap list_fmap concat] in Hin.
    set (s0 := set_arrivals rest (set_kbdq codes s)).
    rewrite Hk. cbn [app]. rewrite (bind_ret _ _ s tt s0) by done. change (kbd_ready s) with (kbd_ready s0).
    assert (Hq0 : ring_holds s0 q) by (destruct Hq; by split).
    destruct Hcode as [->|(k & -> & Hkk)].
    + exists s0. split; [done|]. split; [|split; [done|by right]]. split; [by exists q|done|done].
    + change (kbd_ready s0) with (kbd_ready s). rewrite Hrd.
      assert (Hlen : length input = (length q + (length (keys [k]) + length (concat (keys <$> rest))))%nat) by (by rewrite Hin, !length_app).
      assert (Hkey : (length (keys [k]) ≤ 1)%nat) by (cbn; destruct (k <? 128); cbn; lia).
      destruct (rh_count _ _ Hq) as (Hc1 & Hc2 & Hc3).
      destruct (decide (length q = 256%nat)) as [E256|N256].
      * (* a full ring has no more to come: the code is a release *)
        assert (Hk0 : keys [k] = []).
        { apply length_zero_iff_nil. unfold CONS_RBUF_LEN in *. lia. }
        assert (Hup : 128 ≤ k < 256) by (destruct Hkk as [Hkk|]; [|done]; cbn in Hk0; rewrite (proj2 (Z.ltb_lt k 128)) in Hk0 by lia; done).
        exists (set_kbdq [] s0). split; [|split; [|split; [done|by right]]].
        -- unfold kbd_intr. rewrite (bind_ret _ _ s0 s0 s0) by done. apply while_leave.
           rewrite (bind_ret _ _ s0 s0 s0) by done. change (kbd_queue s0) with [k]. cbv iota.
           rewrite (bind_ret _ _ s0 tt (set_kbdq [] s0)) by done. rewrite keyup_test by lia. by rewrite (proj2 (Z.ltb_ge k 128)) by lia.
        -- split; [|done|done]. exists q. split; [destruct Hq; by split|]. rewrite Hin, Hk0. done.
      * destruct (kbd_intr_ok s0 q k Hq0 eq_refl Hkk) as (s1 & E1 & R1 & Rr & Rs & Rk & Rd & Ra);
          [unfold CONS_RBUF_LEN in *; lia| |].
        { change (RBufWrite s0) with (RBufWrite s). destruct Hkk as [Hkk|Hkk].
          - assert (length (keys [k]) = 1%nat) by (cbn; by rewrite (proj2 (Z.ltb_lt k 128)) by lia). lia.
          - change (RBufWrite s0) with (RBufWrite s). unfold CONS_RBUF_LEN in *. lia. }
        exists s1. split; [done|]. split; [|split; [by rewrite Rs|right; by rewrite Ra]]. split.
        -- exists (q ++ keys [k]). split; [done|]. rewrite Ra, Hin. by rewrite <- app_assoc.
        -- rewrite Rk, Rd, Ra. done.
        -- rewrite Rr. done.
Qed.

(** ** Line editing *)

(** What a reader gets of the characters typed: the line up to its end, with
    backspace taking the last character back; what is echoed; and what is left. *)
Fixpoint edit (acc input : list Z) : option (list Z * list Z * list Z) :=
  match input with
  | [] => None
  | ch :: r =>
      if ch =? 8 then
        match acc with
        | [] => edit [] r
        | _ => match edit (removelast acc) r with Some (l, e, rest) => Some (l, 8 :: e, rest) | None => None end
        end
      else if (ch =? 10) || (ch =? 0) then Some (acc ++ [ch], [ch], r)
      else match edit (acc ++ [ch]) r with Some (l, e, rest) => Some (l, ch :: e, rest) | None => None end
  end.

Definition t_puts (l : list Z) (t : term) : term := fold_left (λ t c, t_put c t) l t.

Definition typed (l : list Z) : Prop := Forall (λ c, 0 ≤ c < 128 ∧ c ≠ 13) l.

Lemma shows_pos v t : shows v t → 0 ≤ t_pos t < SCREEN.
Proof. intros [_ _ (-> & ? & ?) _]. unfold SCREEN. lia. Qed.

(** The cursor moves on with every character, or stands in the last row. *)
Lemma t_put_pos c t : c ≠ 13 → c ≠ 10 → c ≠ 8 → 0 ≤ t_pos t < SCREEN → Z.min (t_pos t + 1) 1920 ≤ t_pos (t_put c t).
Proof.
  intros H13 H10 H8 Hp. unfold t_put. rewrite (proj2 (Z.eqb_neq _ _) H13), (proj2 (Z.eqb_neq _ _) H10), (proj2 (Z.eqb_neq _ _) H8).
  unfold t_scroll, SCREEN, WIDTH in *. cbn [t_pos]. destruct (Z.leb_spec 2000 (t_pos t + 1)); cbn [t_pos]; lia.
Qed.

Lemma s8_small c : 0 ≤ c < 128 → s8 c = c.
Proof. intros H. unfold s8. rewrite Z.mod_small by lia. by rewrite (proj2 (Z.ltb_lt _ _)) by lia. Qed.

Lemma vga_putc_ok s t c :
  shows (screen s) t → 0 ≤ c < 128 → (c = 8 → 0 < t_pos t) →
  ∃ v', vga_putc (s8 c) s = Ret (tt, set_screen v' s) ∧ shows v' (t_put c t).
Proof.
  intros Hs Hc H8. rewrite s8_small by done. destruct (putc_ok (screen s) t c Hs H8) as (v' & E & Hs' & _).
  exists v'. split; [|done]. exact (zoom_ret (H := cons_has_vga) (vga_console_putc c) s tt v' E).
Qed.

Lemma feeds_screen s input v : feeds s input → feeds (set_screen v s) input.
Proof. intros [(q & [R1 R2 R3] & Hq) Hk Hr]. split; [exists q; split; [by split|done]|done|done]. Qed.

(** Taking the next character, if it is there. *)
Lemma next_ok s input :
  feeds s input →
  ∃ g s', console_rbuf_getc s = Ret (g, s') ∧ screen s' = screen s ∧ arrivals s' = arrivals s ∧
    match g with
    | Some ch => ∃ r, input = ch :: r ∧ feeds s' r
    | None => s' = s ∧ input = concat (keys <$> arrivals s)
    end.
Proof.
  intros [(q & Hq & Hin) (Hk & Hrd & Ha) [Hroom Hov]]. destruct q as [|ch q].
  - exists None, s. split; [by apply ring_getc_empty|]. done.
  - assert (Hl : length input = S (length q + length (concat (keys <$> arrivals s)))) by (rewrite Hin; cbn; by rewrite length_app).
    destruct (ring_getc_ok s ch q Hq) as (s' & E & R & Rw & Rs & Rk & Rd & Ra); [lia|].
    exists (Some ch), s'. split; [done|]. split; [done|]. split; [done|]. exists (q ++ concat (keys <$> arrivals s)).
    split; [done|]. destruct (rh_count _ _ Hq) as (C1 & C2 & C3). destruct (rh_count _ _ R) as (D1 & D2 & D3). cbn [length] in *.
    split; [exists q; by rewrite Ra|by rewrite Rk, Rd, Ra|]. rewrite length_app. unfold CONS_RBUF_LEN in *. lia.
Qed.

Definition outstanding (s : consst) : Z := RBufWrite s - RBufRead s + Z.of_nat (length (concat (keys <$> arrivals s))).
Lemma feeds_outstanding s input : feeds s input → outstanding s = Z.of_nat (length input).
Proof.
  intros [(q & Hq & ->) _ _]. destruct (rh_count _ _ Hq) as (_ & E & _). unfold outstanding. rewrite length_app. lia.
Qed.

(** The loop of [console_read] between two iterations. *)
Record editing (line rest : list Z) (tF : term) (st : list Z * Z) (s : consst) : Prop := {
  ed_state : ∃ acc input echo t, st.2 = Z.of_nat (length acc) ∧ take (length acc) st.1 = acc ∧
    (length acc ≤ length st.1)%nat ∧ feeds s input ∧ typed input ∧
    edit acc input = Some (line, echo, rest) ∧ shows (screen s) t ∧ t_puts echo t = tF ∧
    Z.of_nat (length acc) ≤ t_pos t ∧ Z.of_nat (length acc + length input) ≤ CONS_RBUF_LEN
}.

Definition read_body (st : list Z * Z) : M consst (list Z * Z + Z * list Z) :=
  let (cbuf, c) := st in
  deliver ;;
  g ← console_rbuf_getc;
  match g with
  | None => mret (inl (cbuf, c))
  | Some ch =>
      let cbuf := take (Z.to_nat c) cbuf ++ ch :: drop (S (Z.to_nat c)) cbuf in
      if ch =? 8 then
        if 0 <? c then
          vga_putc (s8 ch) ;;
          mret (inl (take (Z.to_nat c) cbuf ++ 0 :: drop (S (Z.to_nat c)) cbuf, c - 1))
        else mret (inl (cbuf, c))
      else
        vga_putc (s8 ch) ;;
        if (ch =? 10) || (ch =? 0) then mret (inr (c + 1, cbuf))
        else mret (inl (cbuf, c + 1))
  end.

Lemma take_put {A} (l : list A) n x k : (n ≤ length l)%nat → (k ≤ n)%nat →
  take k (take n l ++ x :: drop (S n) l) = take k l.
Proof. intros Hn Hk. rewrite take_app_le by (rewrite length_take; lia). rewrite take_take. f_equal. lia. Qed.

Lemma take_put_S {A} (l : list A) n x : (n ≤ length l)%nat →
  take (S n) (take n l ++ x :: drop (S n) l) = take n l ++ [x].
Proof.
  intros Hn. rewrite take_app_ge by (rewrite length_take; lia). rewrite length_take, Nat.min_l by done.
  replace (S n - n)%nat with 1%nat by lia. done.
Qed.

Lemma length_put {A} (l : list A) n x : (n ≤ length l)%nat → (S n ≤ length (take n l ++ x :: drop (S n) l))%nat.
Proof. intros Hn. rewrite length_app, length_take. cbn [length]. lia. Qed.

Lemma removelast_take {A} (l : list A) : removelast l = take (length l - 1) l.
Proof. rewrite List.removelast_firstn_len. f_equal. lia. Qed.

Lemma vga_putc_same v s : arrivals (set_screen v s) = arrivals s ∧ outstanding (set_screen v s) = outstanding s.
Proof. done. Qed.

Definition read_measure (st : list Z * Z) (s : consst) : Z := Z.of_nat (length (arrivals s)) + outstanding s.

(** A character that is neither an end of line nor a backspace is kept. *)
Lemma read_keep line rest tF acc ch r cbuf s t echo :
  ch ≠ 8 → ch ≠ 10 → ch ≠ 0 → 0 ≤ ch < 128 → ch ≠ 13 →
  take (length acc) cbuf = acc → (length acc ≤ length cbuf)%nat → feeds s r → typed r →
  edit (acc ++ [ch]) r = Some (line, echo, rest) → shows (screen s) t → t_puts (ch :: echo) t = tF →
  Z.of_nat (length acc) ≤ t_pos t → Z.of_nat (length acc + S (length r)) ≤ CONS_RBUF_LEN →
  let cbuf' := take (length acc) cbuf ++ ch :: drop (S (length acc)) cbuf in
  ∃ v', vga_putc (s8 ch) s = Ret (tt, set_screen v' s) ∧
    editing line rest tF (cbuf', Z.of_nat (length acc) + 1) (set_screen v' s).
Proof.
  intros H8 H10 H0 Hr H13 Ha Hl Hf Ht He Hs Hp Hpos Hroom cbuf'.
  destruct (vga_putc_ok s t ch Hs Hr) as (v' & E & Hs'); [done|]. exists v'. split; [done|]. split.
  exists (acc ++ [ch]), r, echo, (t_put ch t). rewrite length_app. cbn [length fst snd].
  pose proof (t_put_pos ch t H13 H10 H8 (shows_pos _ _ Hs)). unfold CONS_RBUF_LEN in *.
  repeat match goal with |- _ ∧ _ => split end; try done; try lia.
  - unfold cbuf'. replace (length acc + 1)%nat with (S (length acc)) by lia. by rewrite take_put_S, Ha.
  - unfold cbuf'. pose proof (length_put cbuf (length acc) ch Hl). lia.
  - by apply feeds_screen.
Qed.

(** A backspace takes the last one back. *)
Lemma read_erase line rest tF acc r cbuf s t echo :
  acc ≠ [] → take (length acc) cbuf = acc → (length acc ≤ length cbuf)%nat → feeds s r → typed r →
  edit (removelast acc) r = Some (line, echo, rest) → shows (screen s) t → t_puts (8 :: echo) t = tF →
  Z.of_nat (length acc) ≤ t_pos t → Z.of_nat (length acc + S (length r)) ≤ CONS_RBUF_LEN →
  let cbuf' := take (length acc) cbuf ++ 8 :: drop (S (length acc)) cbuf in
  let cbuf'' := take (length acc) cbuf' ++ 0 :: drop (S (length acc)) cbuf' in
  ∃ v', vga_putc (s8 8) s = Ret (tt, set_screen v' s) ∧
    editing line rest tF (cbuf'', Z.of_nat (length acc) - 1) (set_screen v' s).
Proof.
  intros Hne Ha Hl Hf Ht He Hs Hp Hpos Hroom cbuf' cbuf''.
  assert (Hla : (0 < length acc)%nat) by (destruct acc; [done|cbn; lia]).
  destruct (vga_putc_ok s t 8 Hs) as (v' & E & Hs'); [done|lia|]. exists v'. split; [done|]. split.
  exists (removelast acc), r, echo, (t_put 8 t). cbn [length fst snd].
  assert (Lr : length (removelast acc) = (length acc - 1)%nat) by (rewrite removelast_take, length_take; lia).
  pose proof (length_put cbuf (length acc) 8 Hl) as L1. fold cbuf' in L1.
  pose proof (length_put cbuf' (length acc) 0 ltac:(lia)) as L2. fold cbuf'' in L2.
  rewrite Lr. unfold CONS_RBUF_LEN in *.
  assert (Hp8 : t_pos (t_put 8 t) = t_pos t - 1) by done.
  repeat match goal with |- _ ∧ _ => split end; try done; try lia.
  - unfold cbuf''. rewrite take_put by lia. unfold cbuf'. rewrite take_put by lia.
    rewrite removelast_take. rewrite <- Ha at 3. rewrite take_take. f_equal. lia.
  - by apply feeds_screen.
Qed.

(** One iteration: the line goes on, or it is complete. *)
Lemma read_step line rest tF st s :
  editing line rest tF st s →
  (∃ st' s', read_body st s = Ret (inl st', s') ∧ editing line rest tF st' s' ∧ 0 ≤ read_measure st' s' < read_measure st s) ∨
  (∃ r s', read_body st s = Ret (inr r, s') ∧
     r.1 = Z.of_nat (length line) ∧ take (length line) r.2 = line ∧ shows (screen s') tF ∧ feeds s' rest).
Proof.
  intros [(acc & input & echo & t & Ec & Hta & Hla & Hf & Hty & He & Hsh & Hp & Hpos & Hroom)].
  destruct st as [cbuf c]. cbn [fst snd] in *. subst c. unfold read_body.
  destruct (deliver_ok s input Hf) as (s1 & E1 & Hf1 & Hs1 & Harr). rewrite (bind_ret _ _ _ _ _ E1).
  destruct (next_ok s1 input Hf1) as (g & s2 & E2 & Hs2 & Ha2 & Hg). rewrite (bind_ret _ _ _ _ _ E2).
  assert (Harr1 : (length (arrivals s1) ≤ length (arrivals s))%nat) by (destruct Harr as [[_ ->]|]; lia).
  pose proof (feeds_outstanding s input Hf) as O0. unfold read_measure. rewrite O0.
  destruct g as [ch|].
  - destruct Hg as (r & -> & Hf2). apply Forall_cons in Hty as [[Hch H13] Hty]. rewrite Nat2Z.id.
    pose proof (feeds_outstanding s2 r Hf2) as O2. cbn [edit length] in *. rewrite <- Ha2 in Harr1.
    assert (Hsh2 : shows (screen s2) t) by (by rewrite Hs2, Hs1).
    destruct (Z.eqb_spec ch 8) as [->|H8].
    + destruct acc as [|a acc].
      * left. cbn [length]. cbn [Z.of_nat Z.ltb Z.compare]. eexists _, s2. split; [done|]. split; [|rewrite O2; lia]. split.
        exists [], r, echo, t. cbn [fst snd length] in *. repeat match goal with |- _ ∧ _ => split end; try done; lia.
      * rewrite (proj2 (Z.ltb_lt 0 _)) by (cbn; lia). left.
        destruct (edit (removelast (a :: acc)) r) as [[[l e] rs]|] eqn:Ee; [|done]. injection He as -> <- ->.
        destruct (read_erase line rest tF (a :: acc) r cbuf s2 t e) as (v' & E & Hed); try done.
        rewrite (bind_ret _ _ _ _ _ E). eexists _, _. split; [done|]. split; [exact Hed|].
        destruct (vga_putc_same v' s2) as [-> ->]. rewrite O2. lia.
    + destruct ((ch =? 10) || (ch =? 0)) eqn:Eend.
      * right. injection He as <- <- <-. destruct (vga_putc_ok s2 t ch Hsh2 Hch) as (v' & E & Hs'); [done|].
        rewrite (bind_ret _ _ _ _ _ E). eexists _, _. split; [done|]. cbn [fst snd]. rewrite length_app. cbn [length].
        split; [lia|]. split; [|split; [by rewrite <- Hp|by apply feeds_screen]].
        replace (length acc + 1)%nat with (S (length acc)) by lia. by rewrite take_put_S, Hta.
      * apply orb_false_iff in Eend as [E10%Z.eqb_neq E0%Z.eqb_neq]. left.
        destruct (edit (acc ++ [ch]) r) as [[[l e] rs]|] eqn:Ee; [|done]. injection He as -> <- ->.
        destruct (read_keep line rest tF acc ch r cbuf s2 t e) as (v' & E & Hed); try done.
        rewrite (bind_ret _ _ _ _ _ E). eexists _, _. split; [done|]. split; [exact Hed|].
        destruct (vga_putc_same v' s2) as [-> ->]. rewrite O2. lia.
  - destruct Hg as (-> & Hin). left. destruct Harr as [[Ha ->]|Hlt].
    + rewrite Ha in Hin. cbn in Hin. subst input. done.
    + eexists _, s1. split; [done|]. pose proof (feeds_outstanding s1 input Hf1) as O1. rewrite O1. split; [|lia]. split.
      exists acc, input, echo, t. cbn [fst snd]. rewrite Hs1. done.
Qed.

(** ** Properties *)

(** C21: the screen is a terminal.  Printing a character shows it at the cursor and
    moves on; a newline goes to the next row, a backspace back one cell and blanks it,
    a carriage return does nothing; when the cursor leaves the last row, the rows
    move up and a blank one comes in; and the adapter's cursor follows.  Nothing
    outside the text window is touched. *)
Theorem vga_console_putc_refines_terminal v t c :
  shows v t → (c = 8 → 0 < t_pos t) →
  ∃ v', vga_console_putc c v = Ret (tt, v') ∧ shows v' (t_put c t) ∧
    vports v' = vports v ++ (if c =? 13 then [] else cursor_ports (t_pos (t_put c t))).
Proof. apply putc_ok. Qed.

Definition demo_vga (x y : Z) : vga := mkVga (replicate (Z.to_nat VGA_WINDOW) blank) x y 25 80 7 [].
Lemma demo_vga_shows x y : 0 ≤ x < 80 → 0 ≤ y < 25 → shows (demo_vga x y) (mkTerm (replicate (Z.to_nat SCREEN) blank) (y * 80 + x)).
Proof.
  intros Hx Hy. split; [|cbn [t_cells buffer demo_vga]; by rewrite take_replicate|done|cbn [buffer demo_vga]; by rewrite drop_replicate, take_replicate].
  split; [done|]. split; [done|]. split; [done|]. cbn [buffer demo_vga]. by rewrite length_replicate.
Qed.

(** The last cell of the screen: the text moves up one row. *)
Lemma vga_console_putc_refines_terminal_witness :
  ∃ v', vga_console_putc 65 (demo_vga 79 24) = Ret (tt, v') ∧
    shows v' (t_put 65 (mkTerm (replicate (Z.to_nat SCREEN) blank) 1999)).
Proof.
  destruct (vga_console_putc_refines_terminal (demo_vga 79 24) (mkTerm (replicate (Z.to_nat SCREEN) blank) 1999) 65)
    as (v' & E & Hs & _); [apply demo_vga_shows; lia|lia|].
  exists v'. exact (conj E Hs).
Defined.

(** C30: reading a line.  With the characters of the ring and of the interrupts to
    come, at most 256 outstanding, [console_read] returns the edited line up to its
    end, and its length; the rest stays to be read; the screen shows what was typed,
    corrections included.  It never looks at [count]: the line goes to the caller's
    buffer whatever its size. *)
Theorem console_read_line s t input line echo rest count :
  feeds s input → typed input → shows (screen s) t → edit [] input = Some (line, echo, rest) →
  ∃ cbuf s', console_read count s = Ret ((Z.of_nat (length line), cbuf), s') ∧
    take (length line) cbuf = line ∧ shows (screen s') (t_puts echo t) ∧ feeds s' rest.
Proof.
  intros Hf Hty Hs He. set (s0 := set_cons_if true s).
  assert (Hf0 : feeds s0 input) by (destruct Hf as [(q & [R1 R2 R3] & Hq) Hk Hr]; split; [exists q; split; [by split|done]|done|done]).
  destruct (while_total (editing line rest (t_puts echo t)) read_measure
    (λ r s', r.1 = Z.of_nat (length line) ∧ take (length line) r.2 = line ∧ shows (screen s') (t_puts echo t) ∧ feeds s' rest)
    read_body (read_fuel s0) ([], 0) s0) as ([n cbuf] & s' & E & H1 & H2 & H3 & H4).
  - intros st s1. apply read_step.
  - split. exists [], input, echo, t. cbn [fst snd length]. pose proof (shows_pos _ _ Hs). destruct Hf0 as [A B [C D]].
    repeat match goal with |- _ ∧ _ => split end; try done; try lia.
  - unfold read_measure, outstanding, read_fuel. destruct Hf0 as [(q & Hq & _) _ _]. destruct (rh_count _ _ Hq) as (? & ? & ?).
    assert (length (concat (keys <$> arrivals s0)) ≤ length (concat (arrivals s0)))%nat; [|lia].
    clear. induction (arrivals s0) as [|l a IH]; [done|]. cbn [fmap list_fmap concat]. rewrite !length_app.
    assert (length (keys l) ≤ length l)%nat; [|lia]. destruct l as [|k [|]]; cbn; try lia. destruct (k <? 128); cbn; lia.
  - exists cbuf, s'. cbn [fst snd] in *. subst n. split; [|done].
    unfold console_read. rewrite (bind_ret _ _ s tt s0) by done. rewrite (bind_ret _ _ s0 s0 s0) by done. exact E.
Qed.

(** Typing a, x, backspace, b, Enter, with key releases between. *)
Definition demo_cons : consst :=
  mkCons (demo_vga 0 0) (replicate 256 0) 0 0 [] true [[0x1e]; [0x9e]; [0x2d]; []; [0x0e]; [0x30]; [0x1c]] false.
Lemma console_read_line_witness :
  ∃ cbuf s', console_read 1 demo_cons = Ret ((3, cbuf), s') ∧ take 3 cbuf = [97; 98; 10].
Proof.
  destruct (console_read_line demo_cons (mkTerm (replicate (Z.to_nat SCREEN) blank) 0) [97; 120; 8; 98; 10]
    [97; 98; 10] [97; 120; 8; 98; 10] [] 1) as (cbuf & s' & E & H & _).
  - split.
    + exists []. split; [|reflexivity]. split; [done|done|]. intros k c Hk. discriminate Hk.
    + split; [done|]. split; [done|]. repeat (apply Forall_cons_2; [first [by left | right; eexists; split; [reflexivity|lia]]|]); apply Forall_nil_2.
    + split; [done|cbn; lia].
  - repeat constructor; lia.
  - apply (demo_vga_shows 0 0); lia.
  - reflexivity.
  - exists cbuf, s'. exact (conj E H).
Defined.

(** Keys the map does not have.  A press of a key whose code is not below 58, a
    function key say, reads behind [Keymap]. *)
Theorem kbd_intr_unmapped_key s k q :
  kbd_queue s = k :: q → 58 ≤ k < 128 → kbd_intr s = Fault OutOfBounds.
Proof.
  intros Eq Hk. unfold kbd_intr. rewrite (bind_ret _ _ s s s) by done. apply while_fault.
  rewrite (bind_ret _ _ s s s), Eq by done. rewrite (bind_ret _ _ s tt (set_kbdq q s)) by done.
  rewrite keyup_test by lia. rewrite (proj2 (Z.ltb_lt k 128)) by lia. cbn [negb]. apply bind_fault. apply aget_oob.
  right. change (Z.of_nat (length Keymap)) with 58. lia.
Qed.

Lemma kbd_intr_unmapped_key_witness : kbd_intr (set_kbdq [0x3b] demo_cons) = Fault OutOfBounds.
Proof. apply (kbd_intr_unmapped_key _ 0x3b []); [done|lia]. Defined.

(** Characters from 128 on do not keep the attribute: as negative [char]s they
    set all bits above. *)
Theorem vga_cell_high_char attr c : 0 ≤ attr < 256 → -128 ≤ c < 0 → vga_cell attr c = 0xFF00 + (c + 256).
Proof.
  intros Ha Hc. unfold vga_cell, u16.
  assert (E : Z.lor (Z.shiftl attr 8) c = c - (0 - (attr * 256)) - Z.land (attr * 256) c).
  { rewrite Z.shiftl_mul_pow2 by lia. change (2 ^ 8) with 256. pose proof (Z.add_lor_land (attr * 256) c). lia. }
  assert (L : Z.land (attr * 256) c = attr * 256).
  { apply Z.bits_inj'. intros i Hi. rewrite Z.land_spec. replace (attr * 256) with (attr * 2 ^ 8) by lia.
    destruct (Z.ltb_spec i 8).
    - by rewrite Z.mul_pow2_bits_low.
    - replace (Z.testbit c i) with true; [apply andb_true_r|]. replace c with (Z.lnot (-c - 1)) by (unfold Z.lnot; lia).
      rewrite Z.lnot_spec by done. by rewrite (testbit_small (-c - 1) 8) by lia. }
  rewrite E, L. zlia.
Qed.

Lemma vga_cell_high_char_witness : vga_cell 7 (s8 0xE9) = 0xFFE9.
Proof. apply (vga_cell_high_char 7 (-23)); lia. Defined.
