(* ===== verification/Word.v ===== *)
(** * Bytes and longwords

    The memory the word-at-a-time routines of [uClibc/libc/string/generic] work on:
    a map from addresses to bytes, where an address without a byte is not mapped and
    must not be touched; little-endian longwords in it; and the arithmetic tricks
    that look for a byte in a longword without looking at its bytes one by one. *)
From Stdlib Require Import ZArith Lia.
From stdpp Require Import base gmap list.
From S2P Require Import Prelude.
Open Scope Z_scope.
Open Scope u32_scope.

(** ** Memory *)

Notation mem := (gmap Z Z).

Definition load8 (a : Z) : M mem Z := m ← getS; need BadAccess (m !! a).
Definition store8 (a x : Z) : M mem unit :=
  load8 a ;; modify (λ m, <[a := x]> m).

(** A longword from its bytes, the lowest first. *)
Definition word (b0 b1 b2 b3 : Z) : Z := b0 + 2 ^ 8 * b1 + 2 ^ 16 * b2 + 2 ^ 24 * b3.
Definition load32 (a : Z) : M mem Z :=
  b0 ← load8 a; b1 ← load8 (a + 1); b2 ← load8 (a + 2); b3 ← load8 (a + 3);
  mret (word b0 b1 b2 b3).
Definition store32 (a w : Z) : M mem unit :=
  store8 a (w mod 2 ^ 8) ;; store8 (a + 1) (w / 2 ^ 8 mod 2 ^ 8) ;;
  store8 (a + 2) (w / 2 ^ 16 mod 2 ^ 8) ;; store8 (a + 3) (w / 2 ^ 24 mod 2 ^ 8).

(** ** Tests for a byte in a longword *)

Definition magic_bits : Z := 0x7efefeff.
Definition himagic : Z := 0x80808080.
Definition lomagic : Z := 0x01010101.

(** The complement of an [unsigned long]. *)
Definition not32 (x : Z) : Z := 2 ^ 32 - 1 - x.

(** "If adding [magic_bits] fails to change any of the hole bits", and the shorter
    test of [strlen] and [strnlen]: true when there may be a zero byte. *)
Definition magic_test (w : Z) : bool :=
  negb (Z.land (Z.lxor (w +u magic_bits) (not32 w)) (not32 magic_bits) =? 0).
Definition himagic_test (w : Z) : bool := negb (Z.land (w -u lomagic) himagic =? 0).

(** "A longword, each of whose bytes is C." *)
Definition charmask (c : Z) : Z := let m := Z.lor c (Z.shiftl c 8) in Z.lor m (u32 (Z.shiftl m 16)).

(** ** The tests never miss *)

Definition is_byte (x : Z) : Prop := 0 ≤ x < 256.

Lemma word_bound b0 b1 b2 b3 : is_byte b0 → is_byte b1 → is_byte b2 → is_byte b3 → is_u32 (word b0 b1 b2 b3).
Proof. unfold is_byte, word. lia. Qed.

Lemma lor_bytes a x : is_byte a → 0 ≤ x → Z.lor a (2 ^ 8 * x) = a + 2 ^ 8 * x.
Proof.
  intros Ha Hx. pose proof (Z.add_lor_land a (2 ^ 8 * x)) as H.
  enough (Z.land a (2 ^ 8 * x) = 0) by lia. apply Z.bits_inj'. intros i Hi. rewrite Z.land_spec, Z.bits_0.
  destruct (Z.ltb_spec i 8).
  - rewrite Z.mul_comm, Z.mul_pow2_bits_low by lia. apply andb_false_r.
  - by rewrite (testbit_small a 8) by (unfold is_byte in Ha; lia).
Qed.

Lemma charmask_word c : is_byte c → charmask c = word c c c c.
Proof.
  intros Hc. unfold charmask. rewrite !Z.shiftl_mul_pow2 by lia. rewrite (Z.mul_comm c).
  rewrite lor_bytes by (unfold is_byte in *; lia). unfold is_byte in Hc.
  rewrite u32_small by lia. rewrite (Z.mul_comm _ (2 ^ 16)).
  pose proof (Z.add_lor_land (c + 2 ^ 8 * c) (2 ^ 16 * (c + 2 ^ 8 * c))) as H.
  enough (Z.land (c + 2 ^ 8 * c) (2 ^ 16 * (c + 2 ^ 8 * c)) = 0) by (unfold word; lia).
  apply Z.bits_inj'. intros i Hi. rewrite Z.land_spec, Z.bits_0. destruct (Z.ltb_spec i 16).
  - rewrite (Z.mul_comm (2 ^ 16)), Z.mul_pow2_bits_low by lia. apply andb_false_r.
  - by rewrite (testbit_small _ 16) by lia.
Qed.

Lemma lxor_step a b x y : is_byte a → is_byte b → Z.lxor (a + 2 ^ 8 * x) (b + 2 ^ 8 * y) = Z.lxor a b + 2 ^ 8 * Z.lxor x y.
Proof.
  intros Ha Hb. assert (L : ∀ c z i, is_byte c → 0 ≤ i →
    Z.testbit (c + 2 ^ 8 * z) i = if i <? 8 then Z.testbit c i else Z.testbit z (i - 8)).
  { intros c z i Hc Hi. rewrite (Z.mul_comm (2 ^ 8)). destruct (Z.ltb_spec i 8).
    - rewrite <- (Z.mod_pow2_bits_low _ 8 i) by lia. rewrite Z.mod_add by lia. by rewrite Z.mod_small by done.
    - replace i with ((i - 8) + 8) at 1 by lia. rewrite <- Z.div_pow2_bits by lia.
      rewrite Z.div_add by lia. by rewrite Z.div_small by done. }
  assert (Hab : is_byte (Z.lxor a b)).
  { assert (H0 : 0 ≤ Z.lxor a b) by (apply Z.lxor_nonneg; unfold is_byte in *; lia). split; [done|].
    apply (bits_bound _ 8); [done..|]. intros i Hi.
    rewrite Z.lxor_spec, !(testbit_small _ 8 i) by (unfold is_byte in *; lia). done. }
  apply Z.bits_inj'. intros i Hi. rewrite Z.lxor_spec, !L by done.
  destruct (i <? 8); by rewrite Z.lxor_spec.
Qed.

Lemma word_nest b0 b1 b2 b3 : word b0 b1 b2 b3 = b0 + 2 ^ 8 * (b1 + 2 ^ 8 * (b2 + 2 ^ 8 * b3)).
Proof. unfold word. lia. Qed.

Lemma word_lxor a0 a1 a2 a3 b0 b1 b2 b3 :
  is_byte a0 → is_byte a1 → is_byte a2 → is_byte b0 → is_byte b1 → is_byte b2 →
  Z.lxor (word a0 a1 a2 a3) (word b0 b1 b2 b3) = word (Z.lxor a0 b0) (Z.lxor a1 b1) (Z.lxor a2 b2) (Z.lxor a3 b3).
Proof. intros. rewrite !word_nest. by rewrite !lxor_step. Qed.

(** Whether a bit of a sum with a number that is zero there changes: whether a carry
    comes in. *)
Lemma carry_bit x m h : 0 ≤ h → Z.testbit m h = false →
  xorb (Z.testbit (x + m) h) (Z.testbit x h) = (2 ^ h <=? x mod 2 ^ h + m mod 2 ^ h).
Proof.
  intros Hh Hm. assert (Hp : 0 < 2 ^ h) by (by apply Z.pow_pos_nonneg).
  assert (E : (x + m) / 2 ^ h = x / 2 ^ h + m / 2 ^ h + (if 2 ^ h <=? x mod 2 ^ h + m mod 2 ^ h then 1 else 0)).
  { pose proof (Z.mod_pos_bound x (2 ^ h) Hp). pose proof (Z.mod_pos_bound m (2 ^ h) Hp).
    pose proof (Z.div_mod x (2 ^ h) ltac:(lia)). pose proof (Z.div_mod m (2 ^ h) ltac:(lia)).
    symmetry. destruct (Z.leb_spec (2 ^ h) (x mod 2 ^ h + m mod 2 ^ h)).
    - apply (Z.div_unique _ _ _ (x mod 2 ^ h + m mod 2 ^ h - 2 ^ h)); [left; lia|lia].
    - apply (Z.div_unique _ _ _ (x mod 2 ^ h + m mod 2 ^ h)); [left; lia|lia]. }
  rewrite !Z.testbit_odd, !Z.shiftr_div_pow2, E in * by done. rewrite !Z.odd_add, Hm.
  by destruct (Z.odd (x / 2 ^ h)), (2 ^ h <=? _).
Qed.

(** The bits of [not32 magic_bits] are the holes. *)
Lemma hole_bit w h :
  is_u32 w → h = 8 ∨ h = 16 ∨ h = 24 ∨ h = 31 → magic_test w = false → 2 ^ h <= w mod 2 ^ h + magic_bits mod 2 ^ h.
Proof.
  intros Hw Hh Ht. unfold magic_test in Ht. apply negb_false_iff, Z.eqb_eq in Ht.
  apply (f_equal (λ x, Z.testbit x h)) in Ht. rewrite Z.land_spec, Z.lxor_spec, Z.bits_0 in Ht.
  assert (E1 : Z.testbit (not32 magic_bits) h = true) by (destruct Hh as [->|[->|[->| ->]]]; reflexivity).
  assert (E2 : Z.testbit magic_bits h = false) by (destruct Hh as [->|[->|[->| ->]]]; reflexivity).
  assert (E3 : Z.testbit (not32 w) h = negb (Z.testbit w h)).
  { unfold not32. replace (2 ^ 32 - 1 - w) with (2 ^ 32 + Z.lnot w) by (unfold Z.lnot; lia).
    rewrite <- (Z.mod_pow2_bits_low _ 32 h) by lia. rewrite Z.add_comm, <- (Z.mul_1_l (2 ^ 32)) at 1.
    rewrite Z.mod_add by lia. rewrite Z.mod_pow2_bits_low by lia. apply Z.lnot_spec. lia. }
  rewrite E1, E3, testbit_u32, andb_true_r in Ht by lia.
  pose proof (carry_bit w magic_bits h ltac:(lia) E2) as C.
  destruct (Z.leb_spec (2 ^ h) (w mod 2 ^ h + magic_bits mod 2 ^ h)); [done|].
  destruct (Z.testbit (w + magic_bits) h), (Z.testbit w h); done.
Qed.

(** A longword that passes has no zero byte. *)
Lemma magic_test_sound b0 b1 b2 b3 :
  is_byte b0 → is_byte b1 → is_byte b2 → is_byte b3 → magic_test (word b0 b1 b2 b3) = false →
  b0 ≠ 0 ∧ b1 ≠ 0 ∧ b2 ≠ 0 ∧ b3 ≠ 0.
Proof.
  intros H0 H1 H2 H3 Ht. pose proof (word_bound b0 b1 b2 b3 H0 H1 H2 H3) as Hw.
  pose proof (hole_bit _ 8 Hw ltac:(auto) Ht) as K0. pose proof (hole_bit _ 16 Hw ltac:(auto) Ht) as K1.
  pose proof (hole_bit _ 24 Hw ltac:(auto) Ht) as K2. pose proof (hole_bit _ 31 Hw ltac:(auto) Ht) as K3.
  unfold is_byte, word, magic_bits in *.
  change (0x7efefeff mod 2 ^ 8) with 0xff in K0. change (0x7efefeff mod 2 ^ 16) with 0xfeff in K1.
  change (0x7efefeff mod 2 ^ 24) with 0xfefeff in K2. change (0x7efefeff mod 2 ^ 31) with 0x7efefeff in K3.
  zlia.
Qed.

Lemma himagic_test_sound b0 b1 b2 b3 :
  is_byte b0 → is_byte b1 → is_byte b2 → is_byte b3 → himagic_test (word b0 b1 b2 b3) = false →
  b0 ≠ 0 ∧ b1 ≠ 0 ∧ b2 ≠ 0 ∧ b3 ≠ 0.
Proof.
  intros H0 H1 H2 H3 Ht. unfold himagic_test in Ht. apply negb_false_iff, Z.eqb_eq in Ht.
  set (d := word b0 b1 b2 b3 -u lomagic) in *. pose proof (u32_bound (word b0 b1 b2 b3 - lomagic) : is_u32 d) as Hd.
  assert (Hbit : ∀ h, h = 7 ∨ h = 15 ∨ h = 23 ∨ h = 31 → d / 2 ^ h mod 2 = 0).
  { intros h Hh. apply (f_equal (λ x, Z.testbit x h)) in Ht. rewrite Z.land_spec, Z.bits_0 in Ht.
    assert (Z.testbit himagic h = true) as E by (destruct Hh as [->|[->|[->| ->]]]; reflexivity).
    rewrite E, andb_true_r in Ht. rewrite Z.testbit_odd, Z.shiftr_div_pow2 in Ht by lia.
    rewrite Zmod_odd, Ht. done. }
  pose proof (Hbit 7 ltac:(auto)) as K0. pose proof (Hbit 15 ltac:(auto)) as K1.
  pose proof (Hbit 23 ltac:(auto)) as K2. pose proof (Hbit 31 ltac:(auto)) as K3. clear Hbit Ht.
  assert (E : word b0 b1 b2 b3 = d + lomagic).
  { pose proof (word_bound b0 b1 b2 b3 H0 H1 H2 H3) as Hw. assert (d < 2 ^ 31) by (clearbody d; zlia).
    unfold d, u32, lomagic in *. clear K0 K1 K2 K3. zlia. }
  clearbody d. unfold is_byte, word, lomagic in *. zlia.
Qed.

(** ** Loops that only read *)

Lemma while_search {S A B} (I : A → Prop) (μ : A → Z) (Q : B → Prop) (body : A → M S (A + B)) fuel a (s : S) :
  (∀ a, I a →
     (∃ a', body a s = Ret (inl a', s) ∧ I a' ∧ 0 ≤ μ a' < μ a) ∨ (∃ b, body a s = Ret (inr b, s) ∧ Q b)) →
  I a → μ a < Z.pos fuel → ∃ b, while fuel body a s = Ret (b, s) ∧ Q b.
Proof.
  intros Hstep HI Hμ.
  destruct (while_total (λ a s', s' = s ∧ I a) (λ a _, μ a) (λ b s', s' = s ∧ Q b) body fuel a s)
    as (b & s' & E & -> & HQ); [|done|done|by exists b].
  intros a1 s1 [-> HI1]. destruct (Hstep a1 HI1) as [(a' & E & HI' & Hm)|(b & E & HQ)]; [left|right]; eauto 10.
Qed.
