(* ===== verification/WordScan.v ===== *)
(** * Scanning a longword at a time

    [strlen], [strchr], [strchrnul], [rawmemchr], [memchr], [memrchr] and [strnlen]
    of [uClibc/libc/string/generic]: byte by byte up to a longword boundary, then
    longword by longword with the tests of Word.v, byte by byte again in a longword
    that may hold what is looked for.  A pointer is an address, NULL is 0; [long] has
    32 bits.  Each is proved equal to the byte-by-byte search, and to touch no
    longword behind the one where the search ends. *)
From Stdlib Require Import ZArith Lia.
From stdpp Require Import base gmap list.
From S2P Require Import Prelude Word.
Open Scope Z_scope.
Open Scope u32_scope.

(** ** The shape of the routines

    [check] looks at one byte and [step] at one longword; [Some b] is a return from
    the function. *)

(** [for (char_ptr = s; (char_ptr & 3) != 0; ++char_ptr) check] *)
Definition until_aligned {B} (check : Z → M mem (option B)) (s : Z) : M mem (B + Z) :=
  while 4
    (λ char_ptr,
       if Z.land char_ptr 3 =? 0 then mret (inr (inr char_ptr))
       else
         r ← check char_ptr;
         match r with Some b => mret (inr (inl b)) | None => mret (inl (char_ptr +u 1)) end) s.

(** [for (;;) step]: there are [2 ^ 30] longwords. *)
Definition LONGWORDS : positive := 1073741824.
Definition longwords {B} (step : Z → M mem (option B)) (longword_ptr : Z) : M mem B :=
  while LONGWORDS
    (λ p, r ← step p; match r with Some b => mret (inr b) | None => mret (inl (p +u 4)) end) longword_ptr.

(** [cp\[0\]], [cp\[1\]], ... one after the other. *)
Fixpoint first_of {B} (check : Z → M mem (option B)) (l : list Z) : M mem (option B) :=
  match l with
  | [] => mret None
  | cp :: l => r ← check cp; match r with Some b => mret (Some b) | None => first_of check l end
  end.

Definition scan {B} (check step : Z → M mem (option B)) (s : Z) : M mem B :=
  r ← until_aligned check s;
  match r with inl b => mret b | inr p => longwords step p end.

(** ** strlen *)

Definition strlen_byte (str char_ptr : Z) : M mem (option Z) :=
  c ← load8 char_ptr;
  mret (if c =? 0 then Some (char_ptr -u str) else None).
Definition strlen_longword (str cp : Z) : M mem (option Z) :=
  longword ← load32 cp;
  if himagic_test longword then first_of (strlen_byte str) [cp; cp + 1; cp + 2; cp + 3] else mret None.
Definition strlen (str : Z) : M mem Z := scan (strlen_byte str) (strlen_longword str) str.

(** ** strchr, strchrnul, rawmemchr *)

Definition strchr_byte (c char_ptr : Z) : M mem (option Z) :=
  x ← load8 char_ptr;
  mret (if x =? c then Some char_ptr else if x =? 0 then Some 0 else None).
Definition strchr_longword (c cp : Z) : M mem (option Z) :=
  longword ← load32 cp;
  if magic_test longword || magic_test (Z.lxor longword (charmask c))
  then first_of (strchr_byte c) [cp; cp + 1; cp + 2; cp + 3] else mret None.
Definition strchr (s c_in : Z) : M mem Z :=
  let c := u8 c_in in scan (strchr_byte c) (strchr_longword c) s.

Definition strchrnul_byte (c char_ptr : Z) : M mem (option Z) :=
  x ← load8 char_ptr;
  mret (if (x =? c) || (x =? 0) then Some char_ptr else None).
Definition strchrnul_longword (c cp : Z) : M mem (option Z) :=
  longword ← load32 cp;
  if magic_test longword || magic_test (Z.lxor longword (charmask c))
  then first_of (strchrnul_byte c) [cp; cp + 1; cp + 2; cp + 3] else mret None.
Definition strchrnul (s c_in : Z) : M mem Z :=
  let c := u8 c_in in scan (strchrnul_byte c) (strchrnul_longword c) s.

Definition is_c (c char_ptr : Z) : M mem (option Z) :=
  x ← load8 char_ptr;
  mret (if x =? c then Some char_ptr else None).
Definition has_c (c cp : Z) : M mem (option Z) :=
  longword ← load32 cp;
  if magic_test (Z.lxor longword (charmask c)) then first_of (is_c c) [cp; cp + 1; cp + 2; cp + 3] else mret None.
Definition rawmemchr (s c_in : Z) : M mem Z :=
  let c := u8 c_in in scan (is_c c) (has_c c) s.

(** ** memchr *)

(** The three loops: each state is the pointer and what is left of [n]. *)
Definition memchr (s c_in n : Z) : M mem Z :=
  let c := u8 c_in in
  r ← while 4
    (λ st : Z * Z,
       let (char_ptr, n) := st in
       if (0 <? n) && negb (Z.land char_ptr 3 =? 0) then
         r ← is_c c char_ptr;
         match r with Some p => mret (inr (inl p)) | None => mret (inl (char_ptr +u 1, n - 1)) end
       else mret (inr (inr (char_ptr, n)))) (s, n);
  match r with
  | inl p => mret p
  | inr st =>
      r ← while LONGWORDS
        (λ st : Z * Z,
           let (longword_ptr, n) := st in
           if 4 <=? n then
             r ← has_c c longword_ptr;
             match r with Some p => mret (inr (inl p)) | None => mret (inl (longword_ptr +u 4, n - 4)) end
           else mret (inr (inr (longword_ptr, n)))) st;
      match r with
      | inl p => mret p
      | inr st =>
          while 4
            (λ st : Z * Z,
               let (char_ptr, n) := st in
               if 0 <? n then
                 r ← is_c c char_ptr;
                 match r with Some p => mret (inr p) | None => mret (inl (char_ptr +u 1, n - 1)) end
               else mret (inr 0)) st
      end
  end.

(** ** memrchr *)

Definition has_c_last (c cp : Z) : M mem (option Z) :=
  longword ← load32 cp;
  if magic_test (Z.lxor longword (charmask c)) then first_of (is_c c) [cp + 3; cp + 2; cp + 1; cp] else mret None.

Definition memrchr (s c_in n : Z) : M mem Z :=
  let c := u8 c_in in
  r ← while 4
    (λ st : Z * Z,
       let (char_ptr, n) := st in
       if (0 <? n) && negb (Z.land char_ptr 3 =? 0) then
         let char_ptr := char_ptr -u 1 in
         r ← is_c c char_ptr;
         match r with Some p => mret (inr (inl p)) | None => mret (inl (char_ptr, n - 1)) end
       else mret (inr (inr (char_ptr, n)))) (s +u n, n);
  match r with
  | inl p => mret p
  | inr st =>
      r ← while LONGWORDS
        (λ st : Z * Z,
           let (longword_ptr, n) := st in
           if 4 <=? n then
             let longword_ptr := longword_ptr -u 4 in
             r ← has_c_last c longword_ptr;
             match r with Some p => mret (inr (inl p)) | None => mret (inl (longword_ptr, n - 4)) end
           else mret (inr (inr (longword_ptr, n)))) st;
      match r with
      | inl p => mret p
      | inr st =>
          while 4
            (λ st : Z * Z,
               let (char_ptr, n) := st in
               if 0 <? n then
                 let char_ptr := char_ptr -u 1 in
                 r ← is_c c char_ptr;
                 match r with Some p => mret (inr p) | None => mret (inl (char_ptr, n - 1)) end
               else mret (inr 0)) st
      end
  end.

(** ** strnlen *)

Definition null_at (char_ptr : Z) : M mem (option Z) :=
  c ← load8 char_ptr;
  mret (if c =? 0 then Some char_ptr else None).

(** The loop state is the longword pointer and [char_ptr]. *)
Definition strnlen (str maxlen : Z) : M mem Z :=
  if maxlen =? 0 then mret 0
  else
    let end_ptr := str +u maxlen in
    let end_ptr := if end_ptr <? str then 2 ^ 32 - 1 else end_ptr in
    let upto char_ptr := (if end_ptr <? char_ptr then end_ptr else char_ptr) -u str in
    r ← until_aligned null_at str;
    match r with
    | inl char_ptr => mret (upto char_ptr)
    | inr p =>
        char_ptr ← while LONGWORDS
          (λ st : Z * Z,
             let (longword_ptr, char_ptr) := st in
             if longword_ptr <? end_ptr then
               longword ← load32 longword_ptr;
               r ← (if himagic_test longword
                    then first_of null_at [longword_ptr; longword_ptr + 1; longword_ptr + 2; longword_ptr + 3]
                    else mret None);
               match r with
               | Some char_ptr => mret (inr char_ptr)
               | None => mret (inl (longword_ptr +u 4, end_ptr))
               end
             else mret (inr char_ptr)) (p, p);
        mret (upto char_ptr)
    end.

(** ** Correctness of the shape *)

Lemma land3 p : Z.land p 3 = p mod 4.
Proof. change 3 with (Z.ones 2). by rewrite Z.land_ones by lia. Qed.

(** The first address from [s] on that is on a longword boundary. *)
Definition align (s : Z) : Z := s + (- s) mod 4.
Lemma align_mod s : align s mod 4 = 0 ∧ s ≤ align s < s + 4.
Proof. unfold align. zlia. Qed.
Lemma below_align s a : s ≤ a < align s → a mod 4 ≠ 0.
Proof. unfold align. zlia. Qed.

Section Scan.
Context {B : Type} (check step : Z → M mem (option B)) (m : mem) (s t : Z) (res : B).
Hypothesis Hst : 0 ≤ s ≤ t.
Hypothesis Ht : t < 2 ^ 32.
Hypothesis check_none : ∀ a, s ≤ a < t → check a m = Ret (None, m).
Hypothesis check_some : check t m = Ret (Some res, m).
Hypothesis step_none : ∀ p, p mod 4 = 0 → s ≤ p → p + 4 ≤ t → step p m = Ret (None, m).
Hypothesis step_some : ∀ p, p mod 4 = 0 → s ≤ p ≤ t → t < p + 4 → step p m = Ret (Some res, m).

Lemma until_aligned_ok :
  until_aligned check s m = if t <? align s then Ret (inl res, m) else Ret (inr (align s), m).
Proof.
  pose proof (align_mod s) as [Ha Hb]. unfold until_aligned.
  assert (Hgo : ∀ k, (k < Z.to_nat (Z.min t (align s) - s))%nat →
    (if Z.land (s + Z.of_nat k) 3 =? 0 then mret (inr (inr (s + Z.of_nat k)))
     else r ← check (s + Z.of_nat k);
          match r with Some b => mret (inr (inl b)) | None => mret (inl (s + Z.of_nat k +u 1)) end) m
    = Ret (@inl Z (B + Z) (s + Z.of_nat (S k)), m)).
  { intros k Hk. rewrite land3, (proj2 (Z.eqb_neq _ 0)) by (apply (below_align s); lia).
    rewrite (bind_ret _ _ m None m) by (apply check_none; lia). rewrite u32_small by lia.
    by replace (s + Z.of_nat (S k)) with (s + Z.of_nat k + 1) by lia. }
  destruct (Z.ltb_spec t (align s)).
  - apply (while_scan _ (λ k, s + Z.of_nat k) _ (Z.to_nat (t - s))); [lia|intros k Hk; apply Hgo; lia| |lia].
    replace (s + Z.of_nat (Z.to_nat (t - s))) with t by lia.
    rewrite land3, (proj2 (Z.eqb_neq _ 0)) by (apply (below_align s); lia). by rewrite (bind_ret _ _ _ _ _ check_some).
  - apply (while_scan _ (λ k, s + Z.of_nat k) _ (Z.to_nat (align s - s))); [lia|intros k Hk; apply Hgo; lia| |lia].
    replace (s + Z.of_nat (Z.to_nat (align s - s))) with (align s) by lia. by rewrite land3, Ha.
Qed.

Lemma longwords_ok p : p mod 4 = 0 → s ≤ p ≤ t → longwords step p m = Ret (res, m).
Proof.
  intros Hp Hpt. unfold longwords. set (n := Z.to_nat ((t - p) / 4)).
  assert (Hn : Z.of_nat n = (t - p) / 4) by (unfold n; zlia).
  apply (while_scan _ (λ k, p + 4 * Z.of_nat k) _ n); [lia| | |].
  - intros k Hk. rewrite (bind_ret _ _ m None m) by (apply step_none; zlia). rewrite u32_small by zlia.
    by replace (p + 4 * Z.of_nat (S k)) with (p + 4 * Z.of_nat k + 4) by lia.
  - by rewrite (bind_ret _ _ m (Some res) m) by (apply step_some; zlia).
  - unfold LONGWORDS. zlia.
Qed.

Lemma scan_ok : scan check step s m = Ret (res, m).
Proof.
  unfold scan. pose proof (align_mod s) as [Ha Hb]. pose proof until_aligned_ok as E.
  destruct (Z.ltb_spec t (align s)); rewrite (bind_ret _ _ _ _ _ E); [done|]. by apply longwords_ok; [|lia].
Qed.
End Scan.

(** Bytes of a valid memory, and addresses that are mapped. *)
Definition mem_ok (m : mem) : Prop := map_Forall (λ _ x, is_byte x) m.
Definition mapped (m : mem) (a b : Z) : Prop := ∀ p, a ≤ p < b → is_Some (m !! p).
(** The end of the longword that holds an address. *)
Definition longword_end (a : Z) : Z := (a / 4 + 1) * 4.

Lemma load8_ok m a x : m !! a = Some x → load8 a m = Ret (x, m).
Proof. intros E. unfold load8. mred. by rewrite E. Qed.

Lemma load32_ok m a x0 x1 x2 x3 :
  m !! a = Some x0 → m !! (a + 1) = Some x1 → m !! (a + 2) = Some x2 → m !! (a + 3) = Some x3 →
  load32 a m = Ret (word x0 x1 x2 x3, m).
Proof.
  intros E0 E1 E2 E3. unfold load32.
  by rewrite (bind_ret _ _ _ _ _ (load8_ok _ _ _ E0)), (bind_ret _ _ _ _ _ (load8_ok _ _ _ E1)),
    (bind_ret _ _ _ _ _ (load8_ok _ _ _ E2)), (bind_ret _ _ _ _ _ (load8_ok _ _ _ E3)).
Qed.

Lemma first_of_none {B} (check : Z → M mem (option B)) l m :
  (∀ a, a ∈ l → check a m = Ret (None, m)) → first_of check l m = Ret (None, m).
Proof.
  induction l as [|a l IH]; intros H; [done|]. cbn [first_of].
  rewrite (bind_ret _ _ _ _ _ (H a ltac:(left))). apply IH. intros b Hb. apply H. by right.
Qed.

Lemma first_of_some {B} (check : Z → M mem (option B)) l1 t l2 m res :
  (∀ a, a ∈ l1 → check a m = Ret (None, m)) → check t m = Ret (Some res, m) →
  first_of check (l1 ++ t :: l2) m = Ret (Some res, m).
Proof.
  intros H Ht. induction l1 as [|a l1 IH]; cbn [first_of app].
  - by rewrite (bind_ret _ _ _ _ _ Ht).
  - rewrite (bind_ret _ _ _ _ _ (H a ltac:(left))). apply IH. intros b Hb. apply H. by right.
Qed.

(** A longword step: a test on the longword that never misses, and the bytes looked
    at one by one when it strikes. *)
Section Step.
Context {B : Type} (check : Z → M mem (option B)) (test : Z → bool) (m : mem).
Definition step_of (order : Z → list Z) (p : Z) : M mem (option B) :=
  longword ← load32 p;
  if test longword then first_of check (order p) else mret None.
Hypothesis Hm : mem_ok m.
(** What [check] says of a byte is decided by the byte and its address. *)
Context (hit : Z → bool).
Hypothesis check_miss : ∀ a x, m !! a = Some x → hit x = false → check a m = Ret (None, m).
Hypothesis test_sound : ∀ x0 x1 x2 x3, is_byte x0 → is_byte x1 → is_byte x2 → is_byte x3 →
  test (word x0 x1 x2 x3) = false → hit x0 = false ∧ hit x1 = false ∧ hit x2 = false ∧ hit x3 = false.

Lemma step_start order p : mapped m p (p + 4) →
  ∃ w, step_of order p m = (if test w then first_of check (order p) m else Ret (None, m)) ∧
    (test w = false → ∀ a, p ≤ a < p + 4 → ∃ x, m !! a = Some x ∧ hit x = false).
Proof.
  intros Hmap.
  destruct (Hmap p ltac:(lia)) as [x0 E0], (Hmap (p + 1) ltac:(lia)) as [x1 E1],
    (Hmap (p + 2) ltac:(lia)) as [x2 E2], (Hmap (p + 3) ltac:(lia)) as [x3 E3].
  exists (word x0 x1 x2 x3). split.
  - unfold step_of. rewrite (bind_ret _ _ _ _ _ (load32_ok _ _ _ _ _ _ E0 E1 E2 E3)). by destruct (test _).
  - intros Ht. destruct (test_sound x0 x1 x2 x3) as (H0 & H1 & H2 & H3); try done; try by eapply Hm.
    intros a Ha. assert (a = p ∨ a = p + 1 ∨ a = p + 2 ∨ a = p + 3) as [->|[->|[->| ->]]] by lia; eauto.
Qed.

Lemma step_miss order p : mapped m p (p + 4) → (∀ a, a ∈ order p → p ≤ a < p + 4) →
  (∀ a x, p ≤ a < p + 4 → m !! a = Some x → hit x = false) → step_of order p m = Ret (None, m).
Proof.
  intros Hmap Hin Hno. destruct (step_start order p Hmap) as (w & -> & _). destruct (test w); [|done].
  apply first_of_none. intros a Ha. specialize (Hin a Ha). destruct (Hmap a Hin) as [x E].
  apply (check_miss a x); [done|]. by apply (Hno a).
Qed.

Lemma step_hit order p t l1 l2 res xt : mapped m p (p + 4) → order p = l1 ++ t :: l2 → p ≤ t < p + 4 →
  m !! t = Some xt → hit xt = true → check t m = Ret (Some res, m) →
  (∀ a, a ∈ l1 → ∃ x, m !! a = Some x ∧ hit x = false) →
  step_of order p m = Ret (Some res, m).
Proof.
  intros Hmap Ho Ht Et Hh Hc Hno. destruct (step_start order p Hmap) as (w & -> & Hw). destruct (test w) eqn:E.
  - rewrite Ho. apply first_of_some; [|done]. intros a Ha. destruct (Hno a Ha) as (x & Ex & Hx). by apply (check_miss a x).
  - destruct (Hw eq_refl t Ht) as (x & Ex & Hx). congruence.
Qed.

(** The forward order. *)
Definition forward (p : Z) : list Z := [p; p + 1; p + 2; p + 3].

Lemma forward_split p t : p ≤ t < p + 4 →
  ∃ l1 l2, forward p = l1 ++ t :: l2 ∧ (∀ a, a ∈ l1 → p ≤ a < t).
Proof.
  intros Ht. assert (t = p ∨ t = p + 1 ∨ t = p + 2 ∨ t = p + 3) as [->|[->|[->| ->]]] by lia.
  - exists [], [p + 1; p + 2; p + 3]. split; [done|]. by intros a ?%not_elem_of_nil.
  - exists [p], [p + 2; p + 3]. split; [done|]. intros a Ha. repeat (apply elem_of_cons in Ha as [->|Ha]; [lia|]). by apply not_elem_of_nil in Ha.
  - exists [p; p + 1], [p + 3]. split; [done|]. intros a Ha. repeat (apply elem_of_cons in Ha as [->|Ha]; [lia|]). by apply not_elem_of_nil in Ha.
  - exists [p; p + 1; p + 2], []. split; [done|]. intros a Ha. repeat (apply elem_of_cons in Ha as [->|Ha]; [lia|]). by apply not_elem_of_nil in Ha.
Qed.

(** The scan finds the first hit. *)
Lemma scan_first s t xt res :
  0 ≤ s ≤ t → t < 2 ^ 32 → mapped m s (longword_end t) →
  (∀ a x, s ≤ a < t → m !! a = Some x → hit x = false) → m !! t = Some xt → hit xt = true → check t m = Ret (Some res, m) →
  scan check (step_of forward) s m = Ret (res, m).
Proof.
  intros Hst Ht Hmap Hno Et Hh Hc. apply (scan_ok _ _ m s t res Hst Ht); [|done|..].
  - intros a Ha. destruct (Hmap a) as [x E]; [unfold longword_end; zlia|]. by apply (check_miss a x); [|apply (Hno a)].
  - intros p Hp Hs Hpt. apply step_miss.
    + intros a Ha. apply Hmap. unfold longword_end. zlia.
    + intros a Ha. unfold forward in Ha. repeat (apply elem_of_cons in Ha as [->|Ha]; [lia|]). by apply not_elem_of_nil in Ha.
    + intros a x Ha. apply Hno. lia.
  - intros p Hp Hs Hpt. destruct (forward_split p t ltac:(lia)) as (l1 & l2 & Eo & Hl).
    apply (step_hit forward p t l1 l2 res xt); try done; [|lia|].
    + intros a Ha. apply Hmap. unfold longword_end. zlia.
    + intros a Ha. specialize (Hl a Ha). destruct (Hmap a) as [x E]; [unfold longword_end; zlia|].
      exists x. split; [done|]. apply (Hno a); [lia|done].
Qed.
End Step.

(** ** Specification: searching byte by byte *)

(** How many elements come before the first [c]. *)
Fixpoint before (c : Z) (l : list Z) : nat :=
  match l with [] => 0 | y :: l => if y =? c then 0 else S (before c l) end.

Definition size_of (l : list Z) : Z := Z.of_nat (length l).
(** The bytes [l] lie at [s]; so does a string. *)
Definition bytes_at (m : mem) (s : Z) (l : list Z) : Prop := ∀ i b, l !! i = Some b → m !! (s + Z.of_nat i) = Some b.
Definition string_at (m : mem) (s : Z) (x : list Z) : Prop :=
  bytes_at m s (x ++ [0]) ∧ Forall (λ b, b ≠ 0) x.

Lemma before_le c l : (before c l ≤ length l)%nat.
Proof. induction l as [|y l IH]; [done|]. cbn. destruct (y =? c); lia. Qed.
Lemma before_not c l i b : (i < before c l)%nat → l !! i = Some b → b ≠ c.
Proof.
  revert i. induction l as [|y l IH]; intros i Hi; [done|]. cbn in Hi. destruct (Z.eqb_spec y c); [lia|].
  destruct i as [|i]; cbn; [congruence|]. intros E. by apply (IH i); [lia|].
Qed.
Lemma before_at c l : (before c l < length l)%nat → l !! before c l = Some c.
Proof.
  induction l as [|y l IH]; cbn; [lia|]. destruct (Z.eqb_spec y c) as [->|]; [done|]. intros H. apply IH. lia.
Qed.
Lemma before_absent c l : before c l = length l → c ∉ l.
Proof.
  intros E H. apply list_elem_of_lookup_1 in H as [i Ei]. pose proof (lookup_lt_Some _ _ _ Ei).
  apply (before_not c l i c); [lia|done|done].
Qed.
(** Byte [a] of the bytes at [s]. *)
Lemma byte_at m s l a x : bytes_at m s l → s ≤ a < s + size_of l → m !! a = Some x → l !! Z.to_nat (a - s) = Some x.
Proof.
  intros H Ha E. unfold size_of in Ha. destruct (lookup_lt_is_Some_2 l (Z.to_nat (a - s)) ltac:(lia)) as [y Ey].
  specialize (H _ _ Ey). replace (s + Z.of_nat (Z.to_nat (a - s))) with a in H by lia. congruence.
Qed.

(** ** Soundness of the tests *)

Definition hits_zero (x : Z) : bool := x =? 0.
Definition hits (c x : Z) : bool := x =? c.
Definition hits_c0 (c x : Z) : bool := (x =? c) || (x =? 0).

Lemma test_zero x0 x1 x2 x3 : is_byte x0 → is_byte x1 → is_byte x2 → is_byte x3 → himagic_test (word x0 x1 x2 x3) = false →
  hits_zero x0 = false ∧ hits_zero x1 = false ∧ hits_zero x2 = false ∧ hits_zero x3 = false.
Proof. intros. unfold hits_zero. rewrite !Z.eqb_neq. by apply himagic_test_sound. Qed.

Lemma lxor_byte x c : is_byte x → is_byte c → is_byte (Z.lxor x c) ∧ (Z.lxor x c ≠ 0 → x ≠ c).
Proof.
  intros Hx Hc. split; [|intros H ->; by rewrite Z.lxor_nilpotent in H].
  assert (H0 : 0 ≤ Z.lxor x c) by (apply Z.lxor_nonneg; unfold is_byte in *; lia). split; [done|].
  apply (bits_bound _ 8); [done..|]. intros i Hi. rewrite Z.lxor_spec, !(testbit_small _ 8 i) by (unfold is_byte in *; lia). done.
Qed.

Lemma test_c c x0 x1 x2 x3 : is_byte c → is_byte x0 → is_byte x1 → is_byte x2 → is_byte x3 →
  magic_test (Z.lxor (word x0 x1 x2 x3) (charmask c)) = false →
  hits c x0 = false ∧ hits c x1 = false ∧ hits c x2 = false ∧ hits c x3 = false.
Proof.
  intros Hc H0 H1 H2 H3. rewrite charmask_word, word_lxor by done. intros Ht.
  destruct (lxor_byte x0 c H0 Hc) as [B0 K0], (lxor_byte x1 c H1 Hc) as [B1 K1], (lxor_byte x2 c H2 Hc) as [B2 K2],
    (lxor_byte x3 c H3 Hc) as [B3 K3].
  destruct (magic_test_sound _ _ _ _ B0 B1 B2 B3 Ht) as (N0 & N1 & N2 & N3). unfold hits. rewrite !Z.eqb_neq. auto.
Qed.

Lemma test_c0 c x0 x1 x2 x3 : is_byte c → is_byte x0 → is_byte x1 → is_byte x2 → is_byte x3 →
  magic_test (word x0 x1 x2 x3) || magic_test (Z.lxor (word x0 x1 x2 x3) (charmask c)) = false →
  hits_c0 c x0 = false ∧ hits_c0 c x1 = false ∧ hits_c0 c x2 = false ∧ hits_c0 c x3 = false.
Proof.
  intros Hc H0 H1 H2 H3 [Hz Ht]%orb_false_iff.
  destruct (test_c c x0 x1 x2 x3 Hc H0 H1 H2 H3 Ht) as (E0 & E1 & E2 & E3). unfold hits, hits_c0 in *.
  rewrite E0, E1, E2, E3. cbn [orb]. rewrite !Z.eqb_neq. by apply magic_test_sound.
Qed.

Lemma u8_byte c : is_byte (u8 c).
Proof. apply u8_bound. Qed.

(** ** strlen, strchr, strchrnul and rawmemchr *)

Lemma strlen_scan_ok m s x :
  mem_ok m → string_at m s x → mapped m s (longword_end (s + size_of x)) → 0 ≤ s → s + size_of x < 2 ^ 32 →
  strlen s m = Ret (size_of x, m).
Proof.
  intros Hm [Hb Hx] Hmap Hs Ht. set (t := s + size_of x).
  assert (Et : m !! t = Some 0) by (apply Hb; by apply list_lookup_middle).
  change (strlen s) with (scan (strlen_byte s) (step_of (strlen_byte s) himagic_test forward) s).
  apply (scan_first (strlen_byte s) himagic_test m Hm hits_zero) with (t := t) (xt := 0); [|exact test_zero|unfold t, size_of in *; lia|done|done| |done|done|].
  - intros a y E Hy. unfold strlen_byte. rewrite (bind_ret _ _ _ _ _ (load8_ok _ _ _ E)). unfold hits_zero in Hy. by rewrite Hy.
  - intros a y Ha Ey. apply (byte_at m s (x ++ [0])) in Ey; [|done|unfold t, size_of in *; rewrite length_app; cbn; lia].
    rewrite lookup_app_l in Ey by (unfold t, size_of in *; lia).
    apply Z.eqb_neq. by apply (Forall_lookup_1 _ _ _ _ Hx Ey).
  - unfold strlen_byte. rewrite (bind_ret _ _ _ _ _ (load8_ok _ _ _ Et)). unfold t, size_of in *.
    rewrite Z.eqb_refl, u32_small by lia. by replace (s + Z.of_nat (length x) - s) with (Z.of_nat (length x)) by lia.
Qed.

(** The place of the first byte that is [c] or ends the string. *)
Lemma c0_place m s x c : string_at m s x →
  let t := s + Z.of_nat (before c x) in
  ∃ xt, m !! t = Some xt ∧ hits_c0 c xt = true ∧ xt = (if (before c x <? length x)%nat then c else 0) ∧
    ∀ a y, s ≤ a < t → m !! a = Some y → hits_c0 c y = false.
Proof.
  intros [Hb Hx] t. pose proof (before_le c x) as Hle.
  assert (Hno : ∀ a y, s ≤ a < t → m !! a = Some y → hits_c0 c y = false).
  { intros a y Ha Ey. apply (byte_at m s (x ++ [0])) in Ey; [|done|unfold t, size_of in *; rewrite length_app; cbn; lia].
    rewrite lookup_app_l in Ey by (unfold t in *; lia).
    apply orb_false_iff. split; apply Z.eqb_neq; [apply (before_not c x (Z.to_nat (a - s))); [unfold t in *; lia|done]|].
    by apply (Forall_lookup_1 _ _ _ _ Hx Ey). }
  destruct (Nat.ltb_spec (before c x) (length x)).
  - exists c. split; [|split; [unfold hits_c0; by rewrite Z.eqb_refl|done]].
    apply Hb. rewrite lookup_app_l by done. by apply before_at.
  - exists 0. split; [|split; [unfold hits_c0; by rewrite orb_true_r|done]].
    apply Hb. replace (before c x) with (length x) by lia. by apply list_lookup_middle.
Qed.

Section StringSearch.
Context (m : mem) (s : Z) (x : list Z) (c_in : Z).
Hypothesis Hm : mem_ok m.
Hypothesis Hx : string_at m s x.
Hypothesis Hs : 0 ≤ s.
Hypothesis Ht : s + size_of x < 2 ^ 32.
Let c := u8 c_in.
Let t := s + Z.of_nat (before c x).
Hypothesis Hmap : mapped m s (longword_end t).

Lemma strchr_ok : strchr s c_in m = Ret (if (before c x <? length x)%nat || (c =? 0) then t else 0, m).
Proof.
  destruct (c0_place m s x c Hx) as (xt & Et & Hh & Ext & Hno). pose proof (before_le c x). unfold size_of in Ht.
  set (test := λ w, magic_test w || magic_test (Z.lxor w (charmask c))).
  change (strchr s c_in) with (scan (strchr_byte c) (step_of (strchr_byte c) test forward) s).
  apply (scan_first (strchr_byte c) test m Hm (hits_c0 c)) with (t := t) (xt := xt); [..|unfold t; lia|unfold t; lia|done|done|done|done|].
  - intros a y E Hy. unfold strchr_byte. rewrite (bind_ret _ _ _ _ _ (load8_ok _ _ _ E)).
    apply orb_false_iff in Hy as [-> ->]. done.
  - intros. apply test_c0; try done. apply u8_byte.
  - unfold strchr_byte. fold t in Et. rewrite (bind_ret _ _ _ _ _ (load8_ok _ _ _ Et)).
    rewrite Ext. destruct (_ <? _)%nat; [by rewrite Z.eqb_refl|]. cbn [orb]. rewrite (Z.eqb_sym 0 c). by destruct (c =? 0).
Qed.

Lemma strchrnul_ok : strchrnul s c_in m = Ret (t, m).
Proof.
  destruct (c0_place m s x c Hx) as (xt & Et & Hh & Ext & Hno). pose proof (before_le c x). unfold size_of in Ht.
  set (test := λ w, magic_test w || magic_test (Z.lxor w (charmask c))).
  change (strchrnul s c_in) with (scan (strchrnul_byte c) (step_of (strchrnul_byte c) test forward) s).
  apply (scan_first (strchrnul_byte c) test m Hm (hits_c0 c)) with (t := t) (xt := xt); [..|unfold t; lia|unfold t; lia|done|done|done|done|].
  - intros a y E Hy. unfold strchrnul_byte. rewrite (bind_ret _ _ _ _ _ (load8_ok _ _ _ E)).
    unfold hits_c0 in Hy. by rewrite Hy.
  - intros. apply test_c0; try done. apply u8_byte.
  - unfold strchrnul_byte. fold t in Et. rewrite (bind_ret _ _ _ _ _ (load8_ok _ _ _ Et)).
    unfold hits_c0 in Hh. by rewrite Hh.
Qed.
End StringSearch.

Lemma is_c_miss c m a y : m !! a = Some y → hits c y = false → is_c c a m = Ret (None, m).
Proof. intros E Hy. unfold is_c. rewrite (bind_ret _ _ _ _ _ (load8_ok _ _ _ E)). unfold hits in Hy. by rewrite Hy. Qed.
Lemma is_c_hit c m a : m !! a = Some c → is_c c a m = Ret (Some a, m).
Proof. intros E. unfold is_c. rewrite (bind_ret _ _ _ _ _ (load8_ok _ _ _ E)). by rewrite Z.eqb_refl. Qed.

Lemma bytes_miss m s l c a y : bytes_at m s l → s ≤ a < s + Z.of_nat (before c l) → m !! a = Some y → hits c y = false.
Proof.
  intros Hb Ha Ey. pose proof (before_le c l). apply (byte_at m s l) in Ey; [|done|unfold size_of; lia].
  apply Z.eqb_neq. apply (before_not c l (Z.to_nat (a - s))); [lia|done].
Qed.

Lemma rawmemchr_ok m s l c_in :
  mem_ok m → bytes_at m s l → 0 ≤ s → s + size_of l ≤ 2 ^ 32 → (before (u8 c_in) l < length l)%nat →
  mapped m s (longword_end (s + Z.of_nat (before (u8 c_in) l))) →
  rawmemchr s c_in m = Ret (s + Z.of_nat (before (u8 c_in) l), m).
Proof.
  intros Hm Hb Hs Ht Hin Hmap. set (c := u8 c_in) in *. unfold size_of in Ht.
  assert (Et : m !! (s + Z.of_nat (before c l)) = Some c) by (by apply Hb, before_at).
  set (test := λ w, magic_test (Z.lxor w (charmask c))).
  change (rawmemchr s c_in) with (scan (is_c c) (step_of (is_c c) test forward) s).
  apply (scan_first (is_c c) test m Hm (hits c)) with (t := s + Z.of_nat (before c l)) (xt := c); [..|lia|lia|done| |done| |].
  - intros a y. apply is_c_miss.
  - intros. apply test_c; try done. apply u8_byte.
  - intros a y. by apply (bytes_miss m s l).
  - apply Z.eqb_refl.
  - by apply is_c_hit.
Qed.

(** ** memchr *)

Lemma first_hit m s l c t l1 l2 : bytes_at m s l → t = s + Z.of_nat (before c l) → (before c l < length l)%nat →
  (∀ a, a ∈ l1 → s ≤ a < t) → first_of (is_c c) (l1 ++ t :: l2) m = Ret (Some t, m).
Proof.
  intros Hb -> Hin Hl. apply first_of_some; [|by apply is_c_hit, Hb, before_at].
  intros a Ha. specialize (Hl a Ha). pose proof (before_le c l).
  destruct (lookup_lt_is_Some_2 l (Z.to_nat (a - s)) ltac:(lia)) as [y Ey].
  assert (Ea : m !! a = Some y) by (specialize (Hb _ _ Ey); by replace (s + Z.of_nat (Z.to_nat (a - s))) with a in Hb by lia).
  apply (is_c_miss c m a y Ea). by apply (bytes_miss m s l c a y).
Qed.

Lemma byte_there m s l a : bytes_at m s l → s ≤ a < s + size_of l → ∃ y, m !! a = Some y.
Proof.
  intros Hb Ha. unfold size_of in Ha. destruct (lookup_lt_is_Some_2 l (Z.to_nat (a - s)) ltac:(lia)) as [y Ey].
  exists y. specialize (Hb _ _ Ey). by replace (s + Z.of_nat (Z.to_nat (a - s))) with a in Hb by lia.
Qed.

Section Memchr.
Context (m : mem) (s : Z) (l : list Z) (c_in : Z).
Hypothesis Hm : mem_ok m.
Hypothesis Hb : bytes_at m s l.
Hypothesis Hs : 0 ≤ s.
Hypothesis Hl : s + size_of l < 2 ^ 32.
Let c := u8 c_in.
Let t := s + Z.of_nat (before c l).

(** What is left to search: the pointer and the count. *)
Record left_over (st : Z * Z) : Prop := {
  lo_place : st.1 + st.2 = s + size_of l;
  lo_range : s ≤ st.1 ≤ t ∧ 0 ≤ st.2
}.
Definition found (p : Z) : Prop := (before c l < length l)%nat ∧ p = t.

Lemma is_c_cases a : s ≤ a ≤ t → a < s + size_of l →
  (is_c c a m = Ret (Some a, m) ∧ found a) ∨ (is_c c a m = Ret (None, m) ∧ a + 1 ≤ t).
Proof.
  intros Ha Hal. pose proof (before_le c l). unfold size_of in *. destruct (Z.eq_dec a t) as [->|].
  - left. assert (before c l < length l)%nat by (unfold t in *; lia). split; [|done]. by apply is_c_hit, Hb, before_at.
  - right. split; [|lia]. destruct (byte_there m s l a Hb) as [y Ey]; [unfold size_of; lia|].
    apply (is_c_miss c m a y Ey). apply (bytes_miss m s l c a y); [done|unfold t in *; lia|done].
Qed.

Lemma has_c_cases a : s ≤ a ≤ t → a + 4 ≤ s + size_of l →
  (∃ p, has_c c a m = Ret (Some p, m) ∧ found p) ∨ (has_c c a m = Ret (None, m) ∧ a + 4 ≤ t).
Proof.
  intros Ha Hal. pose proof (before_le c l).
  assert (Hmap : mapped m a (a + 4)) by (intros p Hp; by apply (byte_there m s l); [|lia]).
  change (has_c c) with (step_of (is_c c) (λ w, magic_test (Z.lxor w (charmask c))) forward).
  assert (Hts : ∀ x0 x1 x2 x3, is_byte x0 → is_byte x1 → is_byte x2 → is_byte x3 →
    magic_test (Z.lxor (word x0 x1 x2 x3) (charmask c)) = false →
    hits c x0 = false ∧ hits c x1 = false ∧ hits c x2 = false ∧ hits c x3 = false)
    by (intros; apply test_c; try done; apply u8_byte).
  destruct (Z.le_gt_cases (a + 4) t).
  - right. split; [|done]. apply (step_miss (is_c c) _ m Hm (hits c)); [intros; by eapply is_c_miss|done|done| |].
    + intros b Hb'. unfold forward in Hb'. repeat (apply elem_of_cons in Hb' as [->|Hb']; [lia|]). by apply not_elem_of_nil in Hb'.
    + intros b y Hb' Ey. apply (bytes_miss m s l c b y); [done|unfold t in *; lia|done].
  - left. exists t. assert (Hin : (before c l < length l)%nat) by (unfold t, size_of in *; lia). split; [|done].
    destruct (forward_split a t ltac:(lia)) as (l1 & l2 & Eo & Hl1).
    apply (step_hit (is_c c) _ m Hm (hits c)) with (t := t) (l1 := l1) (l2 := l2) (xt := c); try done; try lia.
    + intros b y. apply is_c_miss.
    + by apply Hb, before_at.
    + apply Z.eqb_refl.
    + by apply is_c_hit, Hb, before_at.
    + intros b Hb'. specialize (Hl1 b Hb'). destruct (byte_there m s l b Hb) as [y Ey]; [unfold t, size_of in *; lia|].
      exists y. split; [done|]. apply (bytes_miss m s l c b y); [done|unfold t in *; lia|done].
Qed.

Lemma memchr_ok : memchr s c_in (size_of l) m = Ret (if (before c l <? length l)%nat then t else 0, m).
Proof.
  assert (Hres : ∀ p, found p → p = if (before c l <? length l)%nat then t else 0).
  { intros p [Hin ->]. by rewrite (proj2 (Nat.ltb_lt _ _)). }
  pose proof (before_le c l) as Hle. unfold memchr. fold c.
  (* up to a boundary *)
  edestruct (while_search (S := mem) left_over (λ st, if 0 <? st.2 then (- st.1) mod 4 else 0)
    (λ r : Z + Z * Z, match r with inl p => found p | inr st => left_over st ∧ (0 < st.2 → st.1 mod 4 = 0) end))
    as (r1 & E1 & H1); [| | |rewrite (bind_ret _ _ _ _ _ E1); clear E1].
  { intros [a n] [Hp Hr]. cbn [fst snd] in *. rewrite land3. destruct (Z.ltb_spec 0 n); cbn [andb].
    - destruct (Z.eqb_spec (a mod 4) 0); cbn [negb].
      + right. eexists. split; [done|]. split; [by split|done].
      + destruct (is_c_cases a) as [[E Hf]|[E Hlt]]; [lia|lia|rewrite (bind_ret _ _ _ _ _ E)..].
        * right. by exists (inl a).
        * left. eexists. split; [done|]. rewrite u32_small by lia. split; [split; cbn; lia|cbn].
          destruct (Z.ltb_spec 0 (n - 1)); zlia.
    - right. eexists. split; [done|]. split; [by split|]. cbn. lia. }
  { split; cbn; unfold t, size_of; lia. }
  { cbn [fst snd]. destruct (0 <? _); zlia. }
  destruct r1 as [p|[a1 n1]]; [by rewrite (Hres p H1)|]. destruct H1 as [H1 Hal1].
  (* longwords *)
  edestruct (while_search (S := mem) (λ st, left_over st ∧ (0 < st.2 → st.1 mod 4 = 0)) (λ st, st.2 / 4)
    (λ r : Z + Z * Z, match r with inl p => found p | inr st => left_over st ∧ st.2 < 4 end))
    as (r2 & E2 & H2); [| | |rewrite (bind_ret _ _ _ _ _ E2); clear E2].
  { intros [a n] [[Hp Hr] Hmod]. cbn [fst snd] in *. destruct (Z.leb_spec 4 n).
    - destruct (has_c_cases a) as [(p & E & Hf)|[E Hlt]]; [lia|lia|rewrite (bind_ret _ _ _ _ _ E)..].
      + right. by exists (inl p).
      + left. eexists. split; [done|]. specialize (Hmod ltac:(lia)). rewrite u32_small by lia.
        split; [split; [split; cbn; lia|cbn; zlia]|cbn; zlia].
    - right. eexists. split; [done|]. split; [by split|done]. }
  { by split. }
  { destruct H1. cbn [fst snd] in *. unfold LONGWORDS. zlia. }
  destruct r2 as [p|[a2 n2]]; [by rewrite (Hres p H2)|]. destruct H2 as [H2 Hn2]. clear H1 Hal1.
  (* the last bytes *)
  edestruct (while_search (S := mem) left_over (λ st, st.2) (λ r, r = if (before c l <? length l)%nat then t else 0))
    as (r3 & E3 & ->); [| | |rewrite E3; done]; [|exact H2|cbn in *; lia].
  intros [a n] [Hp Hr]. cbn [fst snd] in *. destruct (Z.ltb_spec 0 n).
  - destruct (is_c_cases a) as [[E Hf]|[E Hlt]]; [lia|lia|rewrite (bind_ret _ _ _ _ _ E)..].
    + right. exists a. split; [done|]. by apply Hres.
    + left. eexists. split; [done|]. rewrite u32_small by lia. split; [split; cbn; lia|cbn; lia].
  - right. exists 0. split; [done|]. destruct (Nat.ltb_spec (before c l) (length l)); [|done]. unfold t, size_of in *. lia.
Qed.
End Memchr.

(** ** memrchr: the same backwards *)

Section Memrchr.
Context (m : mem) (s : Z) (l : list Z) (c_in : Z).
Hypothesis Hm : mem_ok m.
Hypothesis Hb : bytes_at m s l.
Hypothesis Hs : 0 ≤ s.
Hypothesis Hl : s + size_of l < 2 ^ 32.
Let c := u8 c_in.
(** Right behind the last [c]. *)
Let u := s + size_of l - Z.of_nat (before c (reverse l)).

Record left_before (st : Z * Z) : Prop := {
  lb_place : st.1 = s + st.2;
  lb_range : u ≤ st.1 ≤ s + size_of l ∧ 0 ≤ st.2
}.
Definition found_last (p : Z) : Prop := (before c (reverse l) < length l)%nat ∧ p = u - 1.

Lemma last_c : (before c (reverse l) < length l)%nat → m !! (u - 1) = Some c.
Proof.
  intros Hin. pose proof (before_at c (reverse l)) as E. rewrite length_reverse in E. specialize (E Hin).
  rewrite reverse_lookup in E by done.
  specialize (Hb _ _ E). replace (u - 1) with (s + Z.of_nat (length l - S (before c (reverse l)))); [done|].
  unfold u, size_of. lia.
Qed.

Lemma after_last a y : u ≤ a < s + size_of l → m !! a = Some y → hits c y = false.
Proof.
  intros Ha Ey. pose proof (before_le c (reverse l)) as Hle. rewrite length_reverse in Hle.
  apply (byte_at m s l) in Ey; [|done|unfold u, size_of in *; lia].
  apply Z.eqb_neq. apply (before_not c (reverse l) (length l - S (Z.to_nat (a - s)))); [unfold u, size_of in *; lia|].
  rewrite reverse_lookup by (unfold u, size_of in *; lia).
  replace (length l - S (length l - S (Z.to_nat (a - s))))%nat with (Z.to_nat (a - s)); [done|]. unfold u, size_of in *. lia.
Qed.

Lemma is_c_last_cases a : u ≤ a → s < a ≤ s + size_of l →
  (is_c c (a - 1) m = Ret (Some (a - 1), m) ∧ found_last (a - 1)) ∨ (is_c c (a - 1) m = Ret (None, m) ∧ u ≤ a - 1).
Proof.
  intros Ha Hal. pose proof (before_le c (reverse l)) as Hle. rewrite length_reverse in Hle. destruct (Z.eq_dec a u) as [->|].
  - left. assert (before c (reverse l) < length l)%nat by (unfold u, size_of in *; lia). split; [|done]. by apply is_c_hit, last_c.
  - right. split; [|lia]. destruct (byte_there m s l (a - 1) Hb) as [y Ey]; [lia|].
    apply (is_c_miss c m _ y Ey). apply (after_last (a - 1)); [lia|done].
Qed.

Lemma rev4 p : reverse (forward p) = [p + 3; p + 2; p + 1; p].
Proof. done. Qed.

Lemma has_c_last_cases a : u ≤ a → s + 4 ≤ a ≤ s + size_of l →
  (∃ p, has_c_last c (a - 4) m = Ret (Some p, m) ∧ found_last p) ∨ (has_c_last c (a - 4) m = Ret (None, m) ∧ u ≤ a - 4).
Proof.
  intros Ha Hal. pose proof (before_le c (reverse l)) as Hle. rewrite length_reverse in Hle.
  set (p := a - 4). assert (Hmap : mapped m p (p + 4)) by (intros q Hq; by apply (byte_there m s l q); [|unfold p in *; lia]).
  set (test := λ w, magic_test (Z.lxor w (charmask c))).
  change (has_c_last c) with (step_of (is_c c) test (λ p, reverse (forward p))).
  assert (Hts : ∀ x0 x1 x2 x3, is_byte x0 → is_byte x1 → is_byte x2 → is_byte x3 → test (word x0 x1 x2 x3) = false →
    hits c x0 = false ∧ hits c x1 = false ∧ hits c x2 = false ∧ hits c x3 = false)
    by (intros; apply test_c; try done; apply u8_byte).
  assert (Hin4 : ∀ b, b ∈ reverse (forward p) → p ≤ b < p + 4).
  { intros b Hb'. rewrite rev4 in Hb'. repeat (apply elem_of_cons in Hb' as [->|Hb']; [lia|]). by apply not_elem_of_nil in Hb'. }
  destruct (Z.le_gt_cases u p) as [Hup|Hup].
  - right. split; [|done]. apply (step_miss (is_c c) test m Hm (hits c)); [intros; by eapply is_c_miss|done|done|done|].
    intros b y Hb' Ey. apply (after_last b y); [unfold p in *; lia|done].
  - left. exists (u - 1). assert (Hin : (before c (reverse l) < length l)%nat) by (unfold p, u, size_of in *; lia). split; [|done].
    destruct (forward_split p (u - 1) ltac:(unfold p in *; lia)) as (l1 & l2 & Eo & Hl1).
    assert (Er : reverse (forward p) = reverse l2 ++ (u - 1) :: reverse l1) by (rewrite Eo, reverse_app, reverse_cons, <- app_assoc; done).
    apply (step_hit (is_c c) test m Hm (hits c)) with (t := u - 1) (l1 := reverse l2) (l2 := reverse l1) (xt := c);
      [intros b y; apply is_c_miss|exact Hts|done|exact Er|unfold p in *; lia|by apply last_c|apply Z.eqb_refl|by apply is_c_hit, last_c|].
    intros b Hb'. assert (Hb4 : p ≤ b < p + 4) by (apply Hin4; rewrite Er; apply elem_of_app; by left).
    assert (Hbu : u ≤ b).
    { rewrite elem_of_reverse in Hb'. apply list_elem_of_lookup_1 in Hb' as [k Ek].
      assert (E2 : forward p !! (length l1 + S k)%nat = Some b) by (rewrite Eo, lookup_app_r by lia; by replace (length l1 + S k - length l1)%nat with (S k) by lia).
      assert (E1 : forward p !! length l1 = Some (u - 1)) by (rewrite Eo; by apply list_lookup_middle).
      clear -E1 E2. destruct (length l1) as [|[|[|[|n]]]], k as [|[|[|k]]]; cbn in *; try done; injection E1; injection E2; lia. }
    destruct (byte_there m s l b Hb) as [y Ey]; [unfold p in *; lia|].
    exists y. split; [done|]. apply (after_last b); [unfold p in *; lia|done].
Qed.

Lemma memrchr_ok : memrchr s c_in (size_of l) m = Ret (if (before c (reverse l) <? length l)%nat then u - 1 else 0, m).
Proof.
  assert (Hres : ∀ p, found_last p → p = if (before c (reverse l) <? length l)%nat then u - 1 else 0).
  { intros p [Hin ->]. by rewrite (proj2 (Nat.ltb_lt _ _)). }
  pose proof (before_le c (reverse l)) as Hle. rewrite length_reverse in Hle. unfold memrchr. fold c. rewrite (u32_small (s + _)) by (unfold size_of in *; lia).
  assert (Hsu : s ≤ u) by (unfold u, size_of; lia).
  edestruct (while_search (S := mem) left_before (λ st, if 0 <? st.2 then st.1 mod 4 else 0)
    (λ r : Z + Z * Z, match r with inl p => found_last p | inr st => left_before st ∧ (0 < st.2 → st.1 mod 4 = 0) end))
    as (r1 & E1 & H1); [| | |rewrite (bind_ret _ _ _ _ _ E1); clear E1].
  { intros [a n] [Hp Hr]. cbn [fst snd] in *. rewrite land3. destruct (Z.ltb_spec 0 n); cbn [andb].
    - destruct (Z.eqb_spec (a mod 4) 0); cbn [negb].
      + right. eexists. split; [done|]. split; [by split|done].
      + cbv zeta. rewrite (u32_small (a - 1)) by lia.
        destruct (is_c_last_cases a) as [[E Hf]|[E Hlt]]; [lia|lia|rewrite (bind_ret _ _ _ _ _ E)..].
        * right. by exists (inl (a - 1)).
        * left. eexists. split; [done|]. split; [split; cbn; lia|cbn]. destruct (Z.ltb_spec 0 (n - 1)); zlia.
    - right. eexists. split; [done|]. split; [by split|]. cbn. lia. }
  { split; cbn; unfold u, size_of in *; lia. }
  { cbn [fst snd]. destruct (0 <? _); zlia. }
  destruct r1 as [p|[a1 n1]]; [by rewrite (Hres p H1)|]. destruct H1 as [H1 Hal1].
  edestruct (while_search (S := mem) (λ st, left_before st ∧ (0 < st.2 → st.1 mod 4 = 0)) (λ st, st.2 / 4)
    (λ r : Z + Z * Z, match r with inl p => found_last p | inr st => left_before st ∧ st.2 < 4 end))
    as (r2 & E2 & H2); [| | |rewrite (bind_ret _ _ _ _ _ E2); clear E2].
  { intros [a n] [[Hp Hr] Hmod]. cbn [fst snd] in *. destruct (Z.leb_spec 4 n).
    - cbv zeta. rewrite (u32_small (a - 4)) by lia.
      destruct (has_c_last_cases a) as [(p & E & Hf)|[E Hlt]]; [lia|lia|rewrite (bind_ret _ _ _ _ _ E)..].
      + right. by exists (inl p).
      + left. eexists. split; [done|]. specialize (Hmod ltac:(lia)).
        split; [split; [split; cbn; lia|cbn; zlia]|cbn; zlia].
    - right. eexists. split; [done|]. split; [by split|done]. }
  { by split. }
  { destruct H1. cbn [fst snd] in *. unfold LONGWORDS. zlia. }
  destruct r2 as [p|[a2 n2]]; [by rewrite (Hres p H2)|]. destruct H2 as [H2 Hn2]. clear H1 Hal1.
  edestruct (while_search (S := mem) left_before (λ st, st.2) (λ r, r = if (before c (reverse l) <? length l)%nat then u - 1 else 0))
    as (r3 & E3 & ->); [| | |rewrite E3; done]; [|exact H2|cbn in *; lia].
  intros [a n] [Hp Hr]. cbn [fst snd] in *. destruct (Z.ltb_spec 0 n).
  - cbv zeta. rewrite (u32_small (a - 1)) by lia.
    destruct (is_c_last_cases a) as [[E Hf]|[E Hlt]]; [lia|lia|rewrite (bind_ret _ _ _ _ _ E)..].
    + right. exists (a - 1). split; [done|]. by apply Hres.
    + left. eexists. split; [done|]. split; [split; cbn; lia|cbn; lia].
  - right. exists 0. split; [done|]. destruct (Nat.ltb_spec (before c (reverse l)) (length l)); [|done]. unfold u, size_of in *. lia.
Qed.
End Memrchr.

(** ** strnlen *)

Lemma before_unique c l n : (∀ i b, (i < n)%nat → l !! i = Some b → b ≠ c) → (n ≤ length l)%nat →
  (n = length l ∨ l !! n = Some c) → before c l = n.
Proof.
  intros Hno Hn Hend. destruct (Nat.lt_trichotomy (before c l) n) as [Hlt|[->|Hgt]]; [|done|].
  - exfalso. by apply (Hno (before c l) c); [|apply before_at; lia|].
  - exfalso. pose proof (before_le c l). destruct Hend as [->|En]; [lia|]. by apply (before_not c l n c).
Qed.

Section Strnlen.
Context (m : mem) (s : Z) (l : list Z).
Hypothesis Hm : mem_ok m.
Hypothesis Hb : bytes_at m s l.
Hypothesis Hs : 0 ≤ s.
(** The last longword of the address space is left out: behind it the pointer wraps. *)
Hypothesis Hl : s + size_of l + 4 ≤ 2 ^ 32.
Hypothesis Hne : l ≠ [].
Let e := s + size_of l.
Hypothesis Hmap : mapped m s (longword_end (e - 1)).

Definition no_zero (p : Z) : Prop := ∀ a y, s ≤ a < p → m !! a = Some y → y ≠ 0.

Lemma size_pos : 0 < size_of l.
Proof. unfold size_of. destruct l; [done|cbn; lia]. Qed.

Lemma upto_ok p : s ≤ p → no_zero (Z.min p e) → e ≤ p ∨ m !! p = Some 0 →
  (if e <? p then e else p) -u s = Z.of_nat (before 0 l).
Proof.
  intros Hp Hno Hend. pose proof size_pos as Hsz. unfold e in *.
  assert (K : ∀ n : nat, (n ≤ length l)%nat → s + Z.of_nat n ≤ p → (n = length l ∨ l !! n = Some 0) → before 0 l = n).
  { intros n Hn Hnp Hz. apply before_unique; [|done|done]. intros i b Hi E.
    apply (Hno (s + Z.of_nat i)); [unfold size_of in *; lia|by apply Hb]. }
  destruct (Z.ltb_spec (s + size_of l) p).
  - rewrite (K (length l)); [|lia|unfold size_of in *; lia|by left]. unfold size_of in *. rewrite u32_small by lia. lia.
  - rewrite (K (Z.to_nat (p - s))); [rewrite u32_small by (unfold size_of in *; lia); lia|unfold size_of in *; lia|lia|].
    destruct Hend as [He|Hz]; [left; unfold size_of in *; lia|].
    destruct (Z.eq_dec p (s + size_of l)); [left; unfold size_of in *; lia|right].
    destruct (lookup_lt_is_Some_2 l (Z.to_nat (p - s))) as [y Ey]; [unfold size_of in *; lia|]. rewrite Ey. f_equal.
    specialize (Hb _ _ Ey). replace (s + Z.of_nat (Z.to_nat (p - s))) with p in Hb by lia. congruence.
Qed.

Lemma null_at_cases p : is_Some (m !! p) → no_zero p →
  (null_at p m = Ret (Some p, m) ∧ m !! p = Some 0) ∨ (null_at p m = Ret (None, m) ∧ no_zero (p + 1)).
Proof.
  intros [y Ey] Hno. unfold null_at. rewrite (bind_ret _ _ _ _ _ (load8_ok _ _ _ Ey)).
  destruct (Z.eqb_spec y 0) as [->|Hy]; [by left|right]. split; [done|]. intros a z Ha Ez.
  destruct (Z.eq_dec a p) as [->|]; [congruence|]. apply (Hno a); [lia|done].
Qed.

Lemma first_null l4 : ∀ p, (∀ i a, l4 !! i = Some a → a = p + Z.of_nat i) → s ≤ p →
  (∀ a, a ∈ l4 → is_Some (m !! a)) → no_zero p →
  (∃ q, first_of null_at l4 m = Ret (Some q, m) ∧ m !! q = Some 0 ∧ p ≤ q ∧ no_zero q) ∨
  (first_of null_at l4 m = Ret (None, m) ∧ no_zero (p + size_of l4)).
Proof.
  induction l4 as [|a l4 IH]; intros p Hl4 Hp Hs4 Hno; [right; split; [done|]; unfold size_of; cbn; by rewrite Z.add_0_r|].
  pose proof (Hl4 0%nat a eq_refl) as Ea. rewrite Z.add_0_r in Ea. subst a. cbn [first_of].
  destruct (null_at_cases p) as [[E Hz]|[E Hno1]]; [apply Hs4; left|done|left|].
  - exists p. rewrite (bind_ret _ _ _ _ _ E). repeat split; try done; lia.
  - rewrite (bind_ret _ _ _ _ _ E).
    destruct (IH (p + 1)) as [(q & Eq & Hz & Hq & Hnq)|[Eq Hnq]]; try done; try lia.
    + intros i a Ei. rewrite (Hl4 (S i) a Ei). lia.
    + intros a Ha. apply Hs4. by right.
    + left. exists q. repeat split; try done; lia.
    + right. split; [done|]. unfold size_of in *. cbn [length]. by replace (p + Z.of_nat (S (length l4))) with (p + 1 + Z.of_nat (length l4)) by lia.
Qed.

Lemma strnlen_longword p : p mod 4 = 0 → s ≤ p < e → no_zero p →
  ∃ w, load32 p m = Ret (w, m) ∧
  let r := if himagic_test w then first_of null_at [p; p + 1; p + 2; p + 3] else mret None in
  (∃ q, r m = Ret (Some q, m) ∧ m !! q = Some 0 ∧ p ≤ q ∧ no_zero q) ∨ (r m = Ret (None, m) ∧ no_zero (p + 4)).
Proof.
  intros Hp Hpe Hno. assert (Hmp : mapped m p (p + 4)) by (intros a Ha; apply Hmap; unfold longword_end; zlia).
  destruct (Hmp p ltac:(lia)) as [x0 E0], (Hmp (p + 1) ltac:(lia)) as [x1 E1],
    (Hmp (p + 2) ltac:(lia)) as [x2 E2], (Hmp (p + 3) ltac:(lia)) as [x3 E3].
  eexists. split; [by apply load32_ok|]. cbv zeta. destruct (himagic_test _) eqn:Et.
  - apply first_null; try done; try lia.
    + intros i a Ei. destruct i as [|[|[|[|i]]]]; cbn in Ei; try done; injection Ei as <-; lia.
    + intros a Ha. apply Hmp. repeat (apply elem_of_cons in Ha as [->|Ha]; [lia|]). by apply not_elem_of_nil in Ha.
  - right. split; [done|]. apply himagic_test_sound in Et as (N0 & N1 & N2 & N3); try by eapply Hm.
    intros a y Ha Ey. destruct (Z.lt_ge_cases a p); [apply (Hno a); [lia|done]|].
    assert (a = p ∨ a = p + 1 ∨ a = p + 2 ∨ a = p + 3) as [->|[->|[->| ->]]] by lia; congruence.
Qed.

Lemma strnlen_ok : strnlen s (size_of l) m = Ret (Z.of_nat (before 0 l), m).
Proof.
  pose proof size_pos as Hsz. unfold strnlen. rewrite (proj2 (Z.eqb_neq (size_of l) 0)) by lia.
  cbv zeta. rewrite (u32_small (s + _)) by lia. fold e. rewrite (proj2 (Z.ltb_ge e s)) by (unfold e; lia).
  unfold until_aligned.
  edestruct (while_search (S := mem) (λ p, s ≤ p ≤ align s ∧ no_zero p) (λ p, align s - p)
    (λ r : Z + Z, match r with inl p => m !! p = Some 0 ∧ s ≤ p ∧ no_zero p | inr p => p mod 4 = 0 ∧ s ≤ p < s + 4 ∧ no_zero p end))
    as (r1 & E1 & H1); [| | |rewrite (bind_ret _ _ _ _ _ E1); clear E1].
  { pose proof (align_mod s) as [Ha Hb4]. intros p [Hp Hno]. rewrite land3. destruct (Z.eqb_spec (p mod 4) 0).
    - right. exists (inr p). split; [done|]. split; [done|]. split; [|done]. split; [lia|].
      assert (p = align s) as -> by (unfold align in *; zlia). lia.
    - assert (p < align s) by (destruct (Z.eq_dec p (align s)) as [->|]; [done|lia]).
      destruct (null_at_cases p) as [[E Hz]|[E Hno1]]; [|done|rewrite (bind_ret _ _ _ _ _ E)..].
      + apply Hmap. unfold align, longword_end, e in *. zlia.
      + right. exists (inl p). split; [done|]. split; [done|]. split; [lia|done].
      + left. exists (p + 1). rewrite u32_small by (unfold align, e in *; zlia). split; [done|]. split; [split; [lia|done]|lia]. }
  { split; [pose proof (align_mod s); lia|]. intros a y Ha. lia. }
  { pose proof (align_mod s); lia. }
  destruct r1 as [p|p]; [destruct H1 as (Hz & Hp & Hno); rewrite upto_ok; [done|done| |by right]; intros a y Ha; apply Hno; lia|].
  destruct H1 as (Hp & Hps & Hno).
  edestruct (while_search (S := mem) (λ st : Z * Z, st.1 mod 4 = 0 ∧ s ≤ st.1 ∧ no_zero st.1 ∧ (st.2 = st.1 ∨ st.2 = e)) (λ st, Z.max 0 ((e - st.1 + 3) / 4))
    (λ q, s ≤ q ∧ (no_zero q ∧ m !! q = Some 0 ∨ (q = e ∨ e ≤ q) ∧ no_zero e)))
    as (q & E2 & Hq & H2); [| | |rewrite (bind_ret _ _ _ _ _ E2); clear E2].
  { intros [lp cp] (Hlp & Hslp & Hnz & Hcp). cbn [fst snd] in *. destruct (Z.ltb_spec lp e) as [Hlt|Hge].
    - destruct (strnlen_longword lp) as (w & Ew & Hr); try done. rewrite (bind_ret _ _ _ _ _ Ew).
      destruct Hr as [(q & Er & Hz & Hlq & Hnq)|[Er Hnq]]; rewrite (bind_ret _ _ _ _ _ Er).
      + right. exists q. split; [done|]. split; [lia|]. by left.
      + left. eexists. split; [done|]. cbn [fst snd]. rewrite (u32_small (lp + 4)) by (unfold e in *; lia).
        split; [|zlia]. split; [zlia|]. split; [lia|]. split; [done|by right].
    - right. exists cp. split; [done|]. assert (no_zero e) by (intros a y Ha; apply Hnz; lia). split; [destruct Hcp; lia|].
      right. split; [|done]. destruct Hcp; lia. }
  { cbn. split; [done|]. split; [lia|]. split; [done|]. by left. }
  { cbn. unfold LONGWORDS. unfold e in *. zlia. }
  rewrite upto_ok; [done|done| |].
  - intros a y Ha. destruct H2 as [[Hnq _]|[_ Hne']]; [apply Hnq|apply Hne']; lia.
  - destruct H2 as [[_ Hz]|[Hqe _]]; [by right|left; lia].
Qed.
End Strnlen.

(** ** Properties *)

Lemma longword_end_mono a b : a ≤ b → longword_end a ≤ longword_end b.
Proof. unfold longword_end. intros. zlia. Qed.

(** C22: strings, a longword at a time.  On a string at any address, aligned or not,
    [strlen], [strchrnul] and [strchr] give what a byte-by-byte search gives: the
    length, the place of the first [c] or of the end, and that place or NULL.  They
    change nothing and touch no address behind the longword with the terminator. *)
Theorem strlen_strchr_equiv m s x c_in :
  mem_ok m → string_at m s x → mapped m s (longword_end (s + size_of x)) → 0 ≤ s → s + size_of x < 2 ^ 32 →
  let i := before (u8 c_in) x in
  strlen s m = Ret (size_of x, m) ∧
  strchrnul s c_in m = Ret (s + Z.of_nat i, m) ∧
  strchr s c_in m = Ret (if (i <? length x)%nat || (u8 c_in =? 0) then s + Z.of_nat i else 0, m).
Proof.
  intros Hm Hx Hmap Hs Ht i. pose proof (before_le (u8 c_in) x).
  assert (Hmap' : mapped m s (longword_end (s + Z.of_nat (before (u8 c_in) x)))).
  { intros a Ha. apply Hmap. pose proof (longword_end_mono (s + Z.of_nat (before (u8 c_in) x)) (s + size_of x)).
    unfold size_of in *. lia. }
  split; [by apply strlen_scan_ok|]. split; [by apply strchrnul_ok with (x := x)|by apply strchr_ok].
Qed.

(** Bytes laid out from an address on. *)
Fixpoint lay (a : Z) (l : list Z) (m : mem) : mem :=
  match l with [] => m | b :: l => <[a := b]> (lay (a + 1) l m) end.

(** "hey, you" at the odd address 1001, with a byte 128 for a misfire behind it. *)
Definition demo_text : list Z := [104; 101; 121; 44; 32; 121; 111; 117].
Definition demo_mem : mem := lay 1001 (demo_text ++ [0; 128; 129]) ∅.

Lemma mem_ok_dec m : bool_decide (map_Forall (λ _ x, 0 ≤ x < 256) m) = true → mem_ok m.
Proof. intros H. by apply bool_decide_eq_true in H. Qed.

Lemma mapped_demo : mapped demo_mem 1001 1012.
Proof.
  intros p Hp. assert (p = 1001 ∨ p = 1002 ∨ p = 1003 ∨ p = 1004 ∨ p = 1005 ∨ p = 1006 ∨ p = 1007 ∨ p = 1008 ∨ p = 1009 ∨ p = 1010 ∨ p = 1011)
    as [->|[->|[->|[->|[->|[->|[->|[->|[->|[->| ->]]]]]]]]]] by lia; vm_compute; by eexists.
Qed.

Lemma bytes_at_lay s l m : bytes_at (lay s l m) s l.
Proof.
  revert s. induction l as [|b l IH]; intros s i x E; [done|]. cbn [lay]. destruct i as [|i]; cbn in E.
  - rewrite Z.add_0_r, lookup_insert_eq. done.
  - rewrite lookup_insert_ne by lia. specialize (IH (s + 1) i x E). by replace (s + Z.of_nat (S i)) with (s + 1 + Z.of_nat i) by lia.
Qed.

Lemma strlen_strchr_equiv_witness :
  strlen 1001 demo_mem = Ret (8, demo_mem) ∧ strchr 1001 (Z.of_nat 117) demo_mem = Ret (1008, demo_mem).
Proof.
  destruct (strlen_strchr_equiv demo_mem 1001 demo_text 117) as (E1 & _ & E2).
  - apply mem_ok_dec. vm_compute. reflexivity.
  - split; [|apply (bool_decide_unpack _); vm_compute; exact I].
    intros i b E. apply (bytes_at_lay 1001 (demo_text ++ [0; 128; 129]) ∅).
    apply (lookup_app_l_Some (demo_text ++ [0]) [128; 129]). exact E.
  - exact mapped_demo.
  - lia.
  - vm_compute. reflexivity.
  - exact (conj E1 E2).
Defined.

(** C35: [memchr] and [memrchr], a longword at a time, find the first and the last
    [c] among [n] bytes, or give NULL, and touch no other byte of memory. *)
Theorem memchr_memrchr_equiv m s l c_in :
  mem_ok m → bytes_at m s l → 0 ≤ s → s + size_of l < 2 ^ 32 →
  let c := u8 c_in in
  memchr s c_in (size_of l) m = Ret (if (before c l <? length l)%nat then s + Z.of_nat (before c l) else 0, m) ∧
  memrchr s c_in (size_of l) m =
    Ret (if (before c (reverse l) <? length l)%nat then s + size_of l - Z.of_nat (before c (reverse l)) - 1 else 0, m).
Proof. intros Hm Hb Hs Hl c. split; [by apply memchr_ok|by apply memrchr_ok]. Qed.

(** The memory has nothing but the eight bytes. *)
Lemma memchr_memrchr_equiv_witness :
  memchr 1001 121 8 (lay 1001 demo_text ∅) = Ret (1003, lay 1001 demo_text ∅) ∧
  memrchr 1001 121 8 (lay 1001 demo_text ∅) = Ret (1006, lay 1001 demo_text ∅).
Proof.
  apply (memchr_memrchr_equiv (lay 1001 demo_text ∅) 1001 demo_text 121).
  - apply mem_ok_dec. vm_compute. reflexivity.
  - apply bytes_at_lay.
  - lia.
  - vm_compute. reflexivity.
Defined.

(** [rawmemchr] finds the first [c] where there is one, and [strnlen] is the
    length of the string, or [maxlen] when no terminator comes before. *)
Theorem rawmemchr_strnlen_equiv m s l c_in :
  mem_ok m → bytes_at m s l → l ≠ [] → 0 ≤ s → s + size_of l + 4 ≤ 2 ^ 32 → mapped m s (longword_end (s + size_of l - 1)) →
  ((before (u8 c_in) l < length l)%nat → rawmemchr s c_in m = Ret (s + Z.of_nat (before (u8 c_in) l), m)) ∧
  strnlen s (size_of l) m = Ret (Z.of_nat (before 0 l), m).
Proof.
  intros Hm Hb Hne Hs Hl Hmap. split; [|by apply strnlen_ok].
  intros Hin. apply rawmemchr_ok with (l := l); try done; [lia|].
  intros a Ha. apply Hmap. pose proof (longword_end_mono (s + Z.of_nat (before (u8 c_in) l)) (s + size_of l - 1)).
  unfold size_of in *. lia.
Qed.

Lemma rawmemchr_strnlen_equiv_witness :
  strnlen 1001 5 demo_mem = Ret (5, demo_mem) ∧ rawmemchr 1001 44 demo_mem = Ret (1004, demo_mem).
Proof.
  destruct (rawmemchr_strnlen_equiv demo_mem 1001 [104; 101; 121; 44; 32] 44) as [E1 E2].
  - apply mem_ok_dec. vm_compute. reflexivity.
  - intros i b E. apply (bytes_at_lay 1001 (demo_text ++ [0; 128; 129])).
    apply (lookup_app_l_Some [104; 101; 121; 44; 32] [121; 111; 117; 0; 128; 129]). exact E.
  - discriminate.
  - lia.
  - vm_compute. discriminate.
  - intros p Hp. change (longword_end _) with 1008 in Hp. apply mapped_demo. lia.
  - split; [exact E2|apply E1; vm_compute; lia].
Defined.
