(* ===== verification/MemCopy.v ===== *)
(** * Copying and filling memory

    [memcpy], [memmove] and [memset] of the C library: the string instructions of
    [uClibc/libc/string/i386], and the word-at-a-time routines of
    [uClibc/libc/string/generic], [_memcpy_fwd.c] included.  The latter copy bytes until the
    destination is aligned, then words in unrolled loops that are entered in their middle
    and in which every word is read one or two steps before it is stored; when the source is
    not aligned like the destination, a word is made of two that were read.  A pointer is
    an address, [long] has 32 bits, and memory is the map of Word.v. *)
From Stdlib Require Import ZArith Lia.
From stdpp Require Import base gmap list.
From S2P Require Import Prelude Word WordScan.
Open Scope Z_scope.
Open Scope u32_scope.

Definition OPSIZ : Z := 4.
Definition OP_T_THRES : Z := 16.
(** More than any count. *)
Definition COUNTS : positive := 4294967297.

(** ** uClibc/libc/string/i386 *)

(** [rep movsl] and [rep movsb]: the step of the direction flag is [d]. *)
Definition rep_movsl (ecx edi esi : Z) : M mem (Z * Z) :=
  while COUNTS
    (λ '(ecx, edi, esi),
       if ecx =? 0 then mret (inr (edi, esi))
       else x ← load32 esi; store32 edi x ;; mret (inl (ecx - 1, edi +u 4, esi +u 4))) (ecx, edi, esi).
Definition rep_movsb (d ecx edi esi : Z) : M mem (Z * Z) :=
  while COUNTS
    (λ '(ecx, edi, esi),
       if ecx =? 0 then mret (inr (edi, esi))
       else x ← load8 esi; store8 edi x ;; mret (inl (ecx - 1, edi +u d, esi +u d))) (ecx, edi, esi).

Definition memcpy_i386 (to_ from n : Z) : M mem Z :=
  r ← rep_movsl (n / 4) to_ from;
  let ecx := Z.land n 3 in
  (if ecx =? 0 then mret tt else rep_movsb 1 ecx r.1 r.2 ;; mret tt) ;;
  mret to_.

Definition memmove_i386 (dest src n : Z) : M mem Z :=
  (if dest =? src then mret tt
   else if dest <? src then rep_movsb 1 n dest src ;; mret tt
   else rep_movsb (-1) n (dest +u n -u 1) (src +u n -u 1) ;; mret tt) ;;
  mret dest.

Definition memset_i386 (s c count : Z) : M mem Z :=
  let al := u8 c in
  edi ← (let ecx := Z.shiftr count 2 in
         if ecx =? 0 then mret s
         else
           let eax := al *u 0x01010101 in
           while COUNTS
             (λ '(ecx, edi),
                if ecx =? 0 then mret (inr edi) else store32 edi eax ;; mret (inl (ecx - 1, edi +u 4))) (ecx, s));
  let reg := Z.land count 3 in
  (if reg =? 0 then mret tt
   else
     while COUNTS
       (λ '(reg, edi),
          store8 edi al ;;
          let reg := reg - 1 in
          if reg =? 0 then mret (inr tt) else mret (inl (reg, edi +u 1))) (reg, edi)) ;;
  mret s.

(** ** uClibc/libc/string/generic/memcopy.h *)

Definition MERGE (w0 sh_1 w1 sh_2 : Z) : Z := Z.lor (Z.shiftr w0 sh_1) (u32 (Z.shiftl w1 sh_2)).

(** The macros leave the pointers behind, or before, the bytes. *)
Definition BYTE_COPY_FWD (dst_bp src_bp nbytes : Z) : M mem (Z * Z) :=
  while COUNTS
    (λ '(nbytes, dst_bp, src_bp),
       if 0 <? nbytes then
         x ← load8 src_bp; store8 dst_bp x ;; mret (inl (nbytes - 1, dst_bp +u 1, src_bp +u 1))
       else mret (inr (dst_bp, src_bp))) (nbytes, dst_bp, src_bp).
Definition BYTE_COPY_BWD (dst_ep src_ep nbytes : Z) : M mem (Z * Z) :=
  while COUNTS
    (λ '(nbytes, dst_ep, src_ep),
       if 0 <? nbytes then
         let src_ep := src_ep -u 1 in
         x ← load8 src_ep;
         let dst_ep := dst_ep -u 1 in
         store8 dst_ep x ;; mret (inl (nbytes - 1, dst_ep, src_ep))
       else mret (inr (dst_ep, src_ep))) (nbytes, dst_ep, src_ep).

(** *** The unrolled loops *)

(** The variables of the four functions. *)
Record regs : Type := mkRegs { srcp : Z; dstp : Z; wlen : Z; a0 : Z; a1 : Z; a2 : Z; a3 : Z }.
Definition set_a0 (x : Z) (r : regs) : regs := mkRegs (srcp r) (dstp r) (wlen r) x (a1 r) (a2 r) (a3 r).
Definition set_a1 (x : Z) (r : regs) : regs := mkRegs (srcp r) (dstp r) (wlen r) (a0 r) x (a2 r) (a3 r).
Definition set_a2 (x : Z) (r : regs) : regs := mkRegs (srcp r) (dstp r) (wlen r) (a0 r) (a1 r) x (a3 r).
Definition set_a3 (x : Z) (r : regs) : regs := mkRegs (srcp r) (dstp r) (wlen r) (a0 r) (a1 r) (a2 r) x.

(** [a = srcp\[i\]; dstp\[i\] = v;] *)
Definition copy_step (set : Z → regs → regs) (i : Z) (v : regs → Z) (r : regs) : M mem regs :=
  a ← load32 (srcp r +u 4 * i);
  store32 (dstp r +u 4 * i) (v r) ;;
  mret (set a r).
Fixpoint run_steps (l : list (regs → M mem regs)) (r : regs) : M mem regs :=
  match l with [] => mret r | f :: l => r ← f r; run_steps l r end.

(** [srcp += k; dstp += k; len -= n;] *)
Definition advance (k n : Z) (r : regs) : regs :=
  mkRegs (srcp r +u k) (dstp r +u k) (wlen r -u n) (a0 r) (a1 r) (a2 r) (a3 r).

(** The loop, entered at the label in place [i] of its body. *)
Definition unrolled (body : list (regs → M mem regs)) (k n : Z) (i : nat) (r : regs) : M mem regs :=
  while COUNTS
    (λ '(i, r),
       r ← run_steps (drop i body) r;
       let r := advance k n r in
       if wlen r =? 0 then mret (inr r) else mret (inl (0%nat, r))) (i, r).

(** ** uClibc/libc/string/generic: memcpy.c, _memcpy_fwd.c, memmove.c, memset.c *)

Module Generic.
Section Generic.
(** What the uninitialised variables hold. *)
Context (junk : Z).

Definition word_at_ptr (p i : Z) : M mem Z := load32 (p +u OPSIZ * i).

(** do8 to do1. *)
Definition fwd_body : list (regs → M mem regs) :=
  [copy_step set_a0 0 a1; copy_step set_a1 1 a0; copy_step set_a0 2 a1; copy_step set_a1 3 a0;
   copy_step set_a0 4 a1; copy_step set_a1 5 a0; copy_step set_a0 6 a1; copy_step set_a1 7 a0].

Definition wordcopy_fwd_aligned (dstp srcp len : Z) : M mem unit :=
  let enter i k_src k_dst k_len a0 a1 :=
    r ← unrolled fwd_body (8 * OPSIZ) 8 i (mkRegs (srcp -u k_src) (dstp -u k_dst) (len +u k_len) a0 a1 junk junk);
    store32 (MemCopy.dstp r) (MemCopy.a1 r) in
  match len mod 8 with
  | 2 => a0 ← word_at_ptr srcp 0; enter 7%nat (6 * OPSIZ) (7 * OPSIZ) 6 a0 junk
  | 3 => a1 ← word_at_ptr srcp 0; enter 6%nat (5 * OPSIZ) (6 * OPSIZ) 5 junk a1
  | 4 => a0 ← word_at_ptr srcp 0; enter 5%nat (4 * OPSIZ) (5 * OPSIZ) 4 a0 junk
  | 5 => a1 ← word_at_ptr srcp 0; enter 4%nat (3 * OPSIZ) (4 * OPSIZ) 3 junk a1
  | 6 => a0 ← word_at_ptr srcp 0; enter 3%nat (2 * OPSIZ) (3 * OPSIZ) 2 a0 junk
  | 7 => a1 ← word_at_ptr srcp 0; enter 2%nat (1 * OPSIZ) (2 * OPSIZ) 1 junk a1
  | 0 =>
      if (OP_T_THRES <=? 3 * OPSIZ) && (len =? 0) then mret tt
      else a0 ← word_at_ptr srcp 0; enter 1%nat (0 * OPSIZ) (1 * OPSIZ) 0 a0 junk
  | _ =>
      a1 ← word_at_ptr srcp 0;
      if (OP_T_THRES <=? 3 * OPSIZ) && (len -u 1 =? 0) then store32 dstp a1
      else enter 0%nat (-1 * OPSIZ) (0 * OPSIZ) (-1) junk a1
  end.

(** do4 to do1. *)
Section Merge.
Context (sh_1 sh_2 : Z).
Definition merged (w0 w1 : regs → Z) (r : regs) : Z := MERGE (w0 r) sh_1 (w1 r) sh_2.
Definition fwd_merge_body : list (regs → M mem regs) :=
  [copy_step set_a0 0 (merged a2 a3); copy_step set_a1 1 (merged a3 a0);
   copy_step set_a2 2 (merged a0 a1); copy_step set_a3 3 (merged a1 a2)].
Definition bwd_merge_body : list (regs → M mem regs) :=
  [copy_step set_a3 3 (merged a0 a1); copy_step set_a2 2 (merged a3 a0);
   copy_step set_a1 1 (merged a2 a3); copy_step set_a0 0 (merged a1 a2)].
End Merge.

Definition wordcopy_fwd_dest_aligned (dstp srcp len : Z) : M mem unit :=
  let sh_1 := 8 * (srcp mod OPSIZ) in
  let sh_2 := 8 * OPSIZ - sh_1 in
  let srcp := Z.land srcp (u32 (- OPSIZ)) in
  let enter i k_src k_dst k_len a0 a1 a2 a3 :=
    r ← unrolled (fwd_merge_body sh_1 sh_2) (4 * OPSIZ) 4 i (mkRegs (srcp -u k_src) (dstp -u k_dst) (len +u k_len) a0 a1 a2 a3);
    store32 (MemCopy.dstp r) (merged sh_1 sh_2 MemCopy.a2 MemCopy.a3 r) in
  match len mod 4 with
  | 2 => a1 ← word_at_ptr srcp 0; a2 ← word_at_ptr srcp 1; enter 3%nat (1 * OPSIZ) (3 * OPSIZ) 2 junk a1 a2 junk
  | 3 => a0 ← word_at_ptr srcp 0; a1 ← word_at_ptr srcp 1; enter 2%nat (0 * OPSIZ) (2 * OPSIZ) 1 a0 a1 junk junk
  | 0 =>
      if (OP_T_THRES <=? 3 * OPSIZ) && (len =? 0) then mret tt
      else a3 ← word_at_ptr srcp 0; a0 ← word_at_ptr srcp 1; enter 1%nat (-1 * OPSIZ) (1 * OPSIZ) 0 a0 junk junk a3
  | _ =>
      a2 ← word_at_ptr srcp 0;
      a3 ← word_at_ptr srcp 1;
      if (OP_T_THRES <=? 3 * OPSIZ) && (len -u 1 =? 0) then store32 dstp (MERGE a2 sh_1 a3 sh_2)
      else enter 0%nat (-2 * OPSIZ) (0 * OPSIZ) (-1) junk junk a2 a3
  end.

(** The number of bytes that were not copied is the first part of the result. *)
Definition WORD_COPY_FWD (dst_bp src_bp nbytes : Z) : M mem (Z * Z * Z) :=
  (if src_bp mod OPSIZ =? 0 then wordcopy_fwd_aligned dst_bp src_bp (nbytes / OPSIZ)
   else wordcopy_fwd_dest_aligned dst_bp src_bp (nbytes / OPSIZ)) ;;
  let k := Z.land nbytes (u32 (- OPSIZ)) in
  mret (nbytes mod OPSIZ, dst_bp +u k, src_bp +u k).

Definition memcpy (dstpp srcpp len : Z) : M mem Z :=
  r ← (if OP_T_THRES <=? len then
         let k := u32 (- dstpp) mod OPSIZ in
         r ← BYTE_COPY_FWD dstpp srcpp k;
         WORD_COPY_FWD r.1 r.2 (len -u k)
       else mret (len, dstpp, srcpp));
  BYTE_COPY_FWD r.1.2 r.2 r.1.1 ;;
  mret dstpp.

(** Backwards: do8 to do1. *)
Definition bwd_body : list (regs → M mem regs) :=
  [copy_step set_a0 7 a1; copy_step set_a1 6 a0; copy_step set_a0 5 a1; copy_step set_a1 4 a0;
   copy_step set_a0 3 a1; copy_step set_a1 2 a0; copy_step set_a0 1 a1; copy_step set_a1 0 a0].

Definition wordcopy_bwd_aligned (dstp srcp len : Z) : M mem unit :=
  let enter i k_src k_dst k_len a0 a1 :=
    r ← unrolled bwd_body (- (8 * OPSIZ)) 8 i (mkRegs (srcp -u k_src) (dstp -u k_dst) (len +u k_len) a0 a1 junk junk);
    store32 (MemCopy.dstp r +u OPSIZ * 7) (MemCopy.a1 r) in
  match len mod 8 with
  | 2 => a0 ← word_at_ptr (srcp -u 2 * OPSIZ) 1; enter 7%nat (2 * OPSIZ) (1 * OPSIZ) 6 a0 0
  | 3 => a1 ← word_at_ptr (srcp -u 3 * OPSIZ) 2; enter 6%nat (3 * OPSIZ) (2 * OPSIZ) 5 0 a1
  | 4 => a0 ← word_at_ptr (srcp -u 4 * OPSIZ) 3; enter 5%nat (4 * OPSIZ) (3 * OPSIZ) 4 a0 0
  | 5 => a1 ← word_at_ptr (srcp -u 5 * OPSIZ) 4; enter 4%nat (5 * OPSIZ) (4 * OPSIZ) 3 0 a1
  | 6 => a0 ← word_at_ptr (srcp -u 6 * OPSIZ) 5; enter 3%nat (6 * OPSIZ) (5 * OPSIZ) 2 a0 0
  | 7 => a1 ← word_at_ptr (srcp -u 7 * OPSIZ) 6; enter 2%nat (7 * OPSIZ) (6 * OPSIZ) 1 0 a1
  | 0 =>
      if (OP_T_THRES <=? 3 * OPSIZ) && (len =? 0) then mret tt
      else a0 ← word_at_ptr (srcp -u 8 * OPSIZ) 7; enter 1%nat (8 * OPSIZ) (7 * OPSIZ) 0 a0 0
  | _ =>
      a1 ← word_at_ptr (srcp -u 9 * OPSIZ) 8;
      if (OP_T_THRES <=? 3 * OPSIZ) && (len -u 1 =? 0) then store32 (dstp -u 8 * OPSIZ +u OPSIZ * 7) a1
      else enter 0%nat (9 * OPSIZ) (8 * OPSIZ) (-1) 0 a1
  end.

Definition wordcopy_bwd_dest_aligned (dstp srcp len : Z) : M mem unit :=
  let sh_1 := 8 * (srcp mod OPSIZ) in
  let sh_2 := 8 * OPSIZ - sh_1 in
  let srcp := Z.land srcp (u32 (- OPSIZ)) +u OPSIZ in
  let enter i k_src k_dst k_len a0 a1 a2 a3 :=
    r ← unrolled (bwd_merge_body sh_1 sh_2) (- (4 * OPSIZ)) 4 i (mkRegs (srcp -u k_src) (dstp -u k_dst) (len +u k_len) a0 a1 a2 a3);
    store32 (MemCopy.dstp r +u OPSIZ * 3) (merged sh_1 sh_2 MemCopy.a0 MemCopy.a1 r) in
  match len mod 4 with
  | 2 => a2 ← word_at_ptr (srcp -u 3 * OPSIZ) 2; a1 ← word_at_ptr (srcp -u 3 * OPSIZ) 1; enter 3%nat (3 * OPSIZ) (1 * OPSIZ) 2 0 a1 a2 0
  | 3 => a3 ← word_at_ptr (srcp -u 4 * OPSIZ) 3; a2 ← word_at_ptr (srcp -u 4 * OPSIZ) 2; enter 2%nat (4 * OPSIZ) (2 * OPSIZ) 1 0 0 a2 a3
  | 0 =>
      if (OP_T_THRES <=? 3 * OPSIZ) && (len =? 0) then mret tt
      else a0 ← word_at_ptr (srcp -u 5 * OPSIZ) 4; a3 ← word_at_ptr (srcp -u 5 * OPSIZ) 3; enter 1%nat (5 * OPSIZ) (3 * OPSIZ) 0 a0 0 0 a3
  | _ =>
      a1 ← word_at_ptr (srcp -u 6 * OPSIZ) 5;
      a0 ← word_at_ptr (srcp -u 6 * OPSIZ) 4;
      if (OP_T_THRES <=? 3 * OPSIZ) && (len -u 1 =? 0) then store32 (dstp -u 4 * OPSIZ +u OPSIZ * 3) (MERGE a0 sh_1 a1 sh_2)
      else enter 0%nat (6 * OPSIZ) (4 * OPSIZ) (-1) a0 a1 0 0
  end.

Definition WORD_COPY_BWD (dst_ep src_ep nbytes : Z) : M mem (Z * Z * Z) :=
  (if src_ep mod OPSIZ =? 0 then wordcopy_bwd_aligned dst_ep src_ep (nbytes / OPSIZ)
   else wordcopy_bwd_dest_aligned dst_ep src_ep (nbytes / OPSIZ)) ;;
  let k := Z.land nbytes (u32 (- OPSIZ)) in
  mret (nbytes mod OPSIZ, dst_ep -u k, src_ep -u k).

(** [__ARCH_HAS_BWD_MEMCPY__] is not defined. *)
Definition memmove (dest src len : Z) : M mem Z :=
  (if len <=? dest -u src then memcpy dest src len ;; mret tt
   else
     let srcp := src +u len in
     let dstp := dest +u len in
     r ← (if OP_T_THRES <=? len then
            let k := dstp mod OPSIZ in
            r ← BYTE_COPY_BWD dstp srcp k;
            WORD_COPY_BWD r.1 r.2 (len -u k)
          else mret (len, dstp, srcp));
     BYTE_COPY_BWD r.1.2 r.2 r.1.1 ;;
     mret tt) ;;
  mret dest.

Definition memset (dstpp c len : Z) : M mem Z :=
  r ← (if 8 <=? len then
         let cccc := u8 c in
         let cccc := Z.lor cccc (u32 (Z.shiftl cccc 8)) in
         let cccc := Z.lor cccc (u32 (Z.shiftl cccc 16)) in
         st ← while COUNTS
           (λ '(dstp, len),
              if negb (dstp mod OPSIZ =? 0) then store8 dstp (u8 c) ;; mret (inl (dstp +u 1, len -u 1))
              else mret (inr (dstp, len))) (dstpp, len);
         let (dstp, len) := (st : Z * Z) in
         dstp ← while COUNTS
           (λ '(xlen, dstp),
              if 0 <? xlen then
                forM (seqZ 0 8) (λ i, store32 (dstp +u OPSIZ * i) cccc) ;;
                mret (inl (xlen - 1, dstp +u 8 * OPSIZ))
              else mret (inr dstp)) (len / (OPSIZ * 8), dstp);
         let len := len mod (OPSIZ * 8) in
         dstp ← while COUNTS
           (λ '(xlen, dstp),
              if 0 <? xlen then store32 dstp cccc ;; mret (inl (xlen - 1, dstp +u OPSIZ))
              else mret (inr dstp)) (len / OPSIZ, dstp);
         mret (dstp, len mod OPSIZ)
       else mret (dstpp, len));
  while COUNTS
    (λ '(dstp, len),
       if 0 <? len then store8 dstp (u8 c) ;; mret (inl (dstp +u 1, len - 1)) else mret (inr tt)) r ;;
  mret dstpp.
End Generic.
End Generic.

(** ** Specification *)

(** The bytes with offsets from [a] to [b] have been copied from [s] to [d]. *)
Definition window (m0 : mem) (d s a b : Z) (m : mem) : Prop :=
  ∀ x, m !! x = if (d + a <=? x) && (x <? d + b) then m0 !! (s + (x - d)) else m0 !! x.
Definition byte_of (m : mem) (x : Z) : Z := default 0 (m !! x).
Definition word_at (m : mem) (x : Z) : Z := word (byte_of m x) (byte_of m (x + 1)) (byte_of m (x + 2)) (byte_of m (x + 3)).

Lemma window_start m0 d s a : window m0 d s a a m0.
Proof. intros x. by rewrite (proj2 (andb_false_iff _ _)) by (rewrite Z.leb_gt, Z.ltb_ge; lia). Qed.

Lemma byte_of_ok m x : mem_ok m → is_byte (byte_of m x).
Proof. intros Hm. unfold byte_of. destruct (m !! x) as [c|] eqn:E; [exact (Hm x c E)|unfold is_byte; cbn; lia]. Qed.
Lemma byte_there_of m x : is_Some (m !! x) → m !! x = Some (byte_of m x).
Proof. intros [c E]. unfold byte_of. by rewrite E. Qed.

Lemma load32_at m x : mapped m x (x + 4) → load32 x m = Ret (word_at m x, m).
Proof. intros Hm. apply load32_ok; apply byte_there_of, Hm; lia. Qed.

Lemma word_bytes_eq b0 b1 b2 b3 : is_byte b0 → is_byte b1 → is_byte b2 → is_byte b3 →
  let w := word b0 b1 b2 b3 in w mod 2 ^ 8 = b0 ∧ w / 2 ^ 8 mod 2 ^ 8 = b1 ∧ w / 2 ^ 16 mod 2 ^ 8 = b2 ∧ w / 2 ^ 24 mod 2 ^ 8 = b3.
Proof. unfold is_byte, word. intros. change (2 ^ 8) with 256. change (2 ^ 16) with 65536. change (2 ^ 24) with 16777216. repeat split; zlia. Qed.

Lemma store8_ok m a x : is_Some (m !! a) → store8 a x m = Ret (tt, <[a := x]> m).
Proof. intros [c E]. unfold store8. by rewrite (bind_ret _ _ _ _ _ (load8_ok m a c E)). Qed.

Lemma store32_ok m a b0 b1 b2 b3 : is_byte b0 → is_byte b1 → is_byte b2 → is_byte b3 → mapped m a (a + 4) →
  store32 a (word b0 b1 b2 b3) m = Ret (tt, <[a + 3 := b3]> (<[a + 2 := b2]> (<[a + 1 := b1]> (<[a := b0]> m)))).
Proof.
  intros H0 H1 H2 H3 Hm. destruct (word_bytes_eq b0 b1 b2 b3 H0 H1 H2 H3) as (E0 & E1 & E2 & E3). unfold store32. rewrite E0, E1, E2, E3.
  rewrite (bind_ret _ _ _ _ _ (store8_ok m a b0 ltac:(apply Hm; lia))). set (m1 := <[a := b0]> m).
  assert (K1 : is_Some (m1 !! (a + 1))) by (unfold m1; rewrite lookup_insert_ne by lia; apply Hm; lia).
  rewrite (bind_ret _ _ _ _ _ (store8_ok m1 _ b1 K1)). set (m2 := <[a + 1 := b1]> m1).
  assert (K2 : is_Some (m2 !! (a + 2))) by (unfold m2, m1; rewrite !lookup_insert_ne by lia; apply Hm; lia).
  rewrite (bind_ret _ _ _ _ _ (store8_ok m2 _ b2 K2)). set (m3 := <[a + 2 := b2]> m2).
  apply store8_ok. unfold m3, m2, m1. rewrite !lookup_insert_ne by lia. apply Hm. lia.
Qed.

Lemma lor_high a k x : 0 ≤ k → 0 ≤ a < 2 ^ k → 0 ≤ x → Z.lor a (x * 2 ^ k) = a + x * 2 ^ k.
Proof.
  intros Hk Ha Hx. pose proof (Z.add_lor_land a (x * 2 ^ k)) as H. enough (Z.land a (x * 2 ^ k) = 0) by lia.
  apply Z.bits_inj'. intros i Hi. rewrite Z.land_spec, Z.bits_0. destruct (Z.ltb_spec i k).
  - rewrite Z.mul_pow2_bits_low by lia. apply andb_false_r.
  - by rewrite (testbit_small a k) by lia.
Qed.

(** The upper bytes of one word and the lower bytes of the next. *)
Lemma merge_words b0 b1 b2 b3 c0 c1 c2 c3 : is_byte b0 → is_byte b1 → is_byte b2 → is_byte b3 → is_byte c0 → is_byte c1 → is_byte c2 → is_byte c3 →
  let w := word b0 b1 b2 b3 in let v := word c0 c1 c2 c3 in
  MERGE w 8 v 24 = word b1 b2 b3 c0 ∧ MERGE w 16 v 16 = word b2 b3 c0 c1 ∧ MERGE w 24 v 8 = word b3 c0 c1 c2.
Proof.
  intros H0 H1 H2 H3 K0 K1 K2 K3 w v. unfold is_byte in *.
  assert (E : ∀ j k lo hi, 0 ≤ j → 0 ≤ k → w / 2 ^ j = lo → 0 ≤ lo < 2 ^ k → u32 (v * 2 ^ k) = hi * 2 ^ k → 0 ≤ hi → MERGE w j v k = lo + hi * 2 ^ k).
  { intros j k lo hi Hj Hk Elo Hlo Ehi Hhi. unfold MERGE. rewrite Z.shiftr_div_pow2, Z.shiftl_mul_pow2 by done. rewrite Elo, Ehi. by apply lor_high. }
  unfold w, v, word, u32 in *. split; [|split].
  - rewrite (E 8 24 (b1 + 2 ^ 8 * b2 + 2 ^ 16 * b3) c0); try lia; zlia.
  - rewrite (E 16 16 (b2 + 2 ^ 8 * b3) (c0 + 2 ^ 8 * c1)); try lia; zlia.
  - rewrite (E 24 8 b3 (c0 + 2 ^ 8 * c1 + 2 ^ 16 * c2)); try lia; zlia.
Qed.

(** ** The unrolled loops *)

(** [dir] is 1 forwards and -1 backwards.  [t] words were stored, the next goes to
    [D + 4 * dir * t], and [lag] more were read, from [S] on; a step in place [i] of the body takes
    index [pos i], stores [val i] and sets [set i].  [stored] is what is known of the memory,
    [good] of a word that was read, and [pending] of the words that were read and
    not stored. *)
Section Engine.
Context (dir D S lag N : Z) (body : list (regs → M mem regs)).
Context (set : nat → Z → regs → regs) (pos : nat → Z) (val : nat → regs → Z).
Context (stored : Z → mem → Prop) (good : Z → Z → Prop) (pending : nat → Z → regs → Prop).
Let K : Z := Z.of_nat (length body).
Hypothesis HK : 0 < K < 2 ^ 32.
Hypothesis Hbody : ∀ i f, body !! i = Some f → f = copy_step (set i) (pos i) (val i).
Hypothesis Hset : ∀ i x r, srcp (set i x r) = srcp r ∧ dstp (set i x r) = dstp r ∧ wlen (set i x r) = wlen r.
Hypothesis Hpos : ∀ i, (i < length body)%nat → pos (Datatypes.S i) = pos i + dir.
Hypothesis Haddr : ∀ t, 0 ≤ t < N - 1 → 0 ≤ S + 4 * dir * (t + lag) < 2 ^ 32 ∧ 0 ≤ D + 4 * dir * t < 2 ^ 32.
Hypothesis Hload : ∀ t m, 0 ≤ t < N - 1 → stored t m → ∃ w, load32 (S + 4 * dir * (t + lag)) m = Ret (w, m) ∧ good (t + lag) w.
Hypothesis Hstore : ∀ i t r m, 0 ≤ t < N - 1 → stored t m → pending i t r → ∃ m', store32 (D + 4 * dir * t) (val i r) m = Ret (tt, m') ∧ stored (t + 1) m'.
Hypothesis Hnext : ∀ i t r w, (i < length body)%nat → pending i t r → good (t + lag) w → pending (Datatypes.S i) (t + 1) (set i w r).
Hypothesis Hagain : ∀ t r k n, pending (length body) t r → pending 0 t (advance k n r).
Hypothesis Hwrap : pos (length body) = pos 0 + dir * K.

Record at_label (i : nat) (t : Z) (r : regs) (m : mem) : Prop := {
  al_src : srcp r = u32 (S + 4 * dir * (t + lag) - 4 * pos i);
  al_dst : dstp r = u32 (D + 4 * dir * t - 4 * pos i);
  al_len : wlen r - Z.of_nat i = N - 1 - t;
  al_t : 0 ≤ t;
  al_stored : stored t m;
  al_pending : pending i t r
}.

Lemma u32_index a p : 0 ≤ a < 2 ^ 32 → u32 (u32 (a - 4 * p) + 4 * p) = a.
Proof. intros Ha. unfold u32. rewrite Zplus_mod_idemp_l. rewrite Z.sub_add. by apply Z.mod_small. Qed.

Lemma step_label i t r m f : at_label i t r m → body !! i = Some f → t < N - 1 →
  ∃ r' m', f r m = Ret (r', m') ∧ at_label (Datatypes.S i) (t + 1) r' m' ∧ wlen r' = wlen r.
Proof.
  intros [A1 A2 A3 A4 A5 A6] Hf Ht. pose proof (lookup_lt_Some _ _ _ Hf) as Hi. rewrite (Hbody i f Hf). unfold copy_step.
  destruct (Haddr t ltac:(lia)) as [H1 H2]. rewrite A1, A2, !u32_index by done.
  destruct (Hload t m ltac:(lia) A5) as (w & Ew & Hg). rewrite (bind_ret _ _ _ _ _ Ew).
  destruct (Hstore i t r m ltac:(lia) A5 A6) as (m' & Es & Hs). rewrite (bind_ret _ _ _ _ _ Es).
  exists (set i w r), m'. destruct (Hset i w r) as (E1 & E2 & E3). split; [done|]. split; [|done].
  split; [rewrite E1, A1, (Hpos i Hi); f_equal; lia|rewrite E2, A2, (Hpos i Hi); f_equal; lia|rewrite E3; lia|lia|done|by apply Hnext].
Qed.

Lemma steps_label k : ∀ i t r m, (i + k = length body)%nat → at_label i t r m → t + Z.of_nat k ≤ N - 1 →
  ∃ r' m', run_steps (drop i body) r m = Ret (r', m') ∧ at_label (length body) (t + Z.of_nat k) r' m' ∧ wlen r' = wlen r.
Proof.
  induction k as [|k IH]; intros i t r m Hi Ha Ht.
  - rewrite drop_ge by lia. exists r, m. replace (t + Z.of_nat 0) with t by lia. by replace (length body) with i by lia.
  - destruct (lookup_lt_is_Some_2 body i) as [f Hf]; [lia|]. rewrite (drop_S _ _ _ Hf). cbn [run_steps].
    destruct (step_label i t r m f Ha Hf ltac:(lia)) as (r1 & m1 & E1 & Ha1 & El1). rewrite (bind_ret _ _ _ _ _ E1).
    destruct (IH (Datatypes.S i) (t + 1) r1 m1 ltac:(lia) Ha1 ltac:(lia)) as (r2 & m2 & E2 & Ha2 & El2). exists r2, m2. split; [done|].
    replace (t + Z.of_nat (Datatypes.S k)) with (t + 1 + Z.of_nat k) by lia. split; [done|congruence].
Qed.

Lemma unrolled_ok i t r m : (i ≤ length body)%nat → at_label i t r m → 0 < wlen r < 2 ^ 32 → wlen r mod K = 0 →
  ∃ r' m', unrolled body (4 * dir * K) K i r m = Ret (r', m') ∧ at_label 0 (N - 1) r' m'.
Proof.
  intros Hi Ha Hl Hm. unfold unrolled.
  apply (while_total (λ '(i, r) m, (i ≤ length body)%nat ∧ (∃ t, at_label i t r m) ∧ 0 < wlen r < 2 ^ 32 ∧ wlen r mod K = 0)
    (λ '(_, r) _, wlen r) (λ r m, at_label 0 (N - 1) r m)); [|by eauto|unfold COUNTS; lia].
  clear - HK Hbody Hset Hpos Haddr Hload Hstore Hnext Hagain Hwrap.
  intros [i r] m (Hi & (t & Ha) & Hl & Hm). assert (Hge : K ≤ wlen r).
  { pose proof (Z.div_mod (wlen r) K ltac:(lia)). pose proof (Z.div_pos (wlen r) K ltac:(lia) ltac:(lia)).
    destruct (Z.eq_dec (wlen r / K) 0); [lia|nia]. }
  pose proof (al_len _ _ _ _ Ha) as Hlen. set (k := (length body - i)%nat).
  destruct (steps_label k i t r m ltac:(unfold k; lia) Ha ltac:(unfold k, K in *; lia)) as (r1 & m1 & E & [B1 B2 B3 B4 B5 B6] & El).
  set (r2 := advance (4 * dir * K) K r1).
  assert (Hw : wlen r2 = wlen r - K) by (unfold r2; cbn; rewrite El; apply u32_small; lia).
  assert (Ha2 : at_label 0 (t + Z.of_nat k) r2 m1).
  { split; [cbn; rewrite B1| cbn; rewrite B2|rewrite Hw; unfold K in *; lia|lia|done|by apply Hagain];
      unfold u32; rewrite Zplus_mod_idemp_l; f_equal; rewrite Hwrap; lia. }
  rewrite (bind_ret _ _ _ _ _ E). cbv zeta. fold r2. destruct (Z.eqb_spec (wlen r2) 0) as [E0|E0].
  - right. exists r2, m1. split; [done|]. pose proof (al_len _ _ _ _ Ha2) as Hl2. by replace (N - 1) with (t + Z.of_nat k) by lia.
  - left. exists (0%nat, r2), m1. split; [done|]. split; [|lia]. split; [lia|]. split; [by eexists|]. split; [lia|].
    rewrite Hw. rewrite Zminus_mod, Hm, Z_mod_same_full. done.
Qed.
End Engine.

Lemma land_opsiz x : is_u32 x → Z.land x (u32 (- OPSIZ)) = x - x mod 4.
Proof.
  intros Hx. change (u32 (- OPSIZ)) with (Z.shiftl (Z.ones 30) 2).
  rewrite (Z.div_mod x 4) at 1 by lia. apply Z.bits_inj'. intros i Hi.
  assert (E : x - x mod 4 = Z.shiftl (x / 4) 2) by (rewrite Z.shiftl_mul_pow2 by lia; change (2 ^ 2) with 4; zlia). rewrite E.
  rewrite <- (Z.div_mod x 4) by lia. rewrite Z.land_spec, !Z.shiftl_spec by done.
  destruct (Z.ltb_spec i 2) as [Hi2|Hi2]; [rewrite !(Z.testbit_neg_r _ (i - 2)) by lia; by rewrite andb_false_r|].
  rewrite Z.testbit_ones_nonneg by lia. change (x / 4) with (x / 2 ^ 2). rewrite Z.div_pow2_bits by lia. replace (i - 2 + 2) with i by lia.
  destruct (Z.ltb_spec (i - 2) 30); [by rewrite andb_true_r|]. rewrite andb_false_r. symmetry. apply (testbit_small x 32); [done|lia].
Qed.

(** ** Copying in one of the two directions *)

Section Copy.
(** [n] bytes from [s] to [d]. *)
Context (m0 : mem) (d s n : Z).
Hypothesis Hok : mem_ok m0.
Hypothesis Hd : 0 ≤ d ∧ d + n ≤ 2 ^ 32.
Hypothesis Hs : 0 ≤ s ∧ s + n ≤ 2 ^ 32.
Hypothesis Hmd : mapped m0 d (d + n).
Hypothesis Hms : mapped m0 s (s + n).
Abbreviation window := (window m0 d s).

Lemma window_some a b m x : 0 ≤ a → b ≤ n → window a b m → is_Some (m !! x) ↔ is_Some (m0 !! x).
Proof.
  intros Ha Hb Hw. rewrite Hw. destruct (Z.leb_spec (d + a) x), (Z.ltb_spec x (d + b)); cbn [andb]; try done.
  split; intros _; [apply Hmd; lia|apply Hms; lia].
Qed.
Lemma window_out a b m x : window a b m → ¬ d + a ≤ x < d + b → m !! x = m0 !! x.
Proof. intros Hw Hx. rewrite Hw. destruct (Z.leb_spec (d + a) x), (Z.ltb_spec x (d + b)); cbn [andb]; try done; lia. Qed.

(** The bytes with offsets from [t] to [t + k] were stored. *)
Definition patched (t k : Z) (m m' : mem) : Prop :=
  ∀ x, m' !! x = if (d + t <=? x) && (x <? d + t + k) then m0 !! (s + (x - d)) else m !! x.

Lemma patch_up a b k m m' : 0 ≤ k → a ≤ b → window a b m → patched b k m m' → window a (b + k) m'.
Proof.
  intros Hk Hab Hw Hp x. rewrite Hp, Hw.
  destruct (Z.leb_spec (d + a) x), (Z.ltb_spec x (d + b)), (Z.leb_spec (d + b) x), (Z.ltb_spec x (d + b + k)), (Z.ltb_spec x (d + (b + k))); cbn [andb]; try done; lia.
Qed.
Lemma patch_down a b k m m' : 0 ≤ k → a + k ≤ b → window (a + k) b m → patched a k m m' → window a b m'.
Proof.
  intros Hk Hab Hw Hp x. rewrite Hp, Hw.
  destruct (Z.leb_spec (d + (a + k)) x), (Z.leb_spec (d + a) x), (Z.ltb_spec x (d + b)), (Z.ltb_spec x (d + a + k)); cbn [andb]; try done; lia.
Qed.

Lemma store8_copies a b t m : 0 ≤ a → b ≤ n → window a b m → 0 ≤ t < n →
  ∃ m', store8 (d + t) (byte_of m0 (s + t)) m = Ret (tt, m') ∧ patched t 1 m m'.
Proof.
  intros Ha Hb Hw Ht. eexists. split; [apply store8_ok, (window_some a b); [done|done|done|apply Hmd; lia]|].
  intros x. destruct (decide (x = d + t)) as [->|Hx].
  - rewrite lookup_insert_eq, (proj2 (Z.leb_le _ _)), (proj2 (Z.ltb_lt _ _)) by lia. cbn [andb].
    replace (s + (d + t - d)) with (s + t) by lia. symmetry. apply byte_there_of, Hms. lia.
  - rewrite lookup_insert_ne by done. destruct (Z.leb_spec (d + t) x), (Z.ltb_spec x (d + t + 1)); cbn [andb]; try done; lia.
Qed.

Lemma store32_copies a b t m : 0 ≤ a → b ≤ n → window a b m → 0 ≤ t → t + 4 ≤ n →
  ∃ m', store32 (d + t) (word_at m0 (s + t)) m = Ret (tt, m') ∧ patched t 4 m m'.
Proof.
  intros Ha Hb Hw Ht0 Ht. eexists. split.
  - apply store32_ok; [by apply byte_of_ok..|]. intros x Hx. apply (window_some a b m); [done|done|done|]. apply Hmd. lia.
  - assert (E : ∀ i, 0 ≤ i < 4 → Some (byte_of m0 (s + t + i)) = m0 !! (s + (d + t + i - d))).
    { intros i Hi. replace (s + (d + t + i - d)) with (s + t + i) by lia. symmetry. apply byte_there_of, Hms. lia. }
    intros x. destruct (Z.leb_spec (d + t) x), (Z.ltb_spec x (d + t + 4)); cbn [andb].
    2,3,4: by rewrite !lookup_insert_ne by lia.
    assert (x = d + t + 0 ∨ x = d + t + 1 ∨ x = d + t + 2 ∨ x = d + t + 3) as [->|[->|[->| ->]]] by lia; rewrite <- E by lia;
      rewrite ?Z.add_0_r; rewrite ?lookup_insert_ne by lia; apply lookup_insert_eq.
Qed.

(** Reading what has not been overwritten. *)
Lemma load8_window a b t m : window a b m → 0 ≤ t < n → ¬ d + a ≤ s + t < d + b → load8 (s + t) m = Ret (byte_of m0 (s + t), m).
Proof. intros Hw Ht Hx. apply load8_ok. rewrite (window_out a b m) by done. apply byte_there_of, Hms. lia. Qed.
Lemma window_byte a b m x : window a b m → is_byte (byte_of m x).
Proof.
  intros Hw. pose proof (byte_of_ok m0 x Hok). pose proof (byte_of_ok m0 (s + (x - d)) Hok). unfold byte_of in *. rewrite (Hw x). by destruct (_ && _).
Qed.

(** A word that was read at [x]: those of its bytes that are between the offsets [u] and
    [v] are the source's. *)
Definition from_source (u v x w : Z) : Prop := ∃ f : Z → Z, (∀ i, is_byte (f i)) ∧ w = word (f 0) (f 1) (f 2) (f 3) ∧
  ∀ i, 0 ≤ i < 4 → s + u ≤ x + i < s + v → f i = byte_of m0 (x + i).

Lemma load32_window u v a b x m : 0 ≤ a → b ≤ n → window a b m → mapped m0 x (x + 4) →
  (∀ y, x ≤ y < x + 4 → s + u ≤ y < s + v → ¬ d + a ≤ y < d + b) → ∃ w, load32 x m = Ret (w, m) ∧ from_source u v x w.
Proof.
  intros Ha Hb Hw Hm Hx. exists (word_at m x). split.
  - apply load32_at. intros y Hy. apply (window_some a b m); [done|done|done|]. by apply Hm.
  - exists (λ i, byte_of m (x + i)). split; [intros i; by apply (window_byte a b)|]. split; [unfold word_at; by rewrite Z.add_0_r|].
    intros i Hi Hu. unfold byte_of. rewrite (window_out a b m); [done|done|]. apply Hx; [lia|done].
Qed.

Lemma from_source_word u v x w : from_source u v x w → s + u ≤ x → x + 4 ≤ s + v → w = word_at m0 x.
Proof.
  intros (f & _ & -> & Hf) Hu Hv. unfold word_at. rewrite <- (Hf 1), <- (Hf 2), <- (Hf 3) by lia. rewrite <- (Z.add_0_r x) at 1. by rewrite <- (Hf 0) by lia.
Qed.

Lemma from_source_merge u v x w0 w1 k : from_source u v x w0 → from_source u v (x + 4) w1 → 0 < k < 4 → s + u ≤ x + k → x + k + 4 ≤ s + v →
  MERGE w0 (8 * k) w1 (32 - 8 * k) = word_at m0 (x + k).
Proof.
  intros (f & Bf & -> & Hf) (g & Bg & -> & Hg) Hk Hu Hv.
  destruct (merge_words (f 0) (f 1) (f 2) (f 3) (g 0) (g 1) (g 2) (g 3)) as (E1 & E2 & E3); try done.
  assert (F : ∀ i, k ≤ i < 4 → f i = byte_of m0 (x + i)) by (intros i Hi; apply Hf; lia).
  assert (G : ∀ i, 0 ≤ i < k → g i = byte_of m0 (x + (4 + i))) by (intros i Hi; rewrite Hg by lia; f_equal; lia).
  unfold word_at. assert (k = 1 ∨ k = 2 ∨ k = 3) as [->|[->| ->]] by lia.
  - change (8 * 1) with 8. change (32 - 8) with 24. rewrite E1, !F, !G by lia. rewrite <- !Z.add_assoc. reflexivity.
  - change (8 * 2) with 16. change (32 - 16) with 16. rewrite E2, !F, !G by lia. rewrite <- !Z.add_assoc. reflexivity.
  - change (8 * 3) with 24. change (32 - 24) with 8. rewrite E3, !F, !G by lia. rewrite <- !Z.add_assoc. reflexivity.
Qed.

Lemma load32_source q t m b a : 0 ≤ a → b ≤ n → window a b m → (s + q) mod 4 = 0 → 0 ≤ q + t → q + t + 4 ≤ n → t mod 4 = 0 →
  (∀ y, s + q + t ≤ y < s + q + t + 4 → ¬ d + a ≤ y < d + b) → load32 (s + q + t) m = Ret (word_at m0 (s + q + t), m).
Proof.
  intros Ha Hb Hw Hal Ht0 Ht1 Ht Hy. destruct (load32_window 0 n a b (s + q + t) m Ha Hb Hw) as (w & E & Hf); [intros y Hy'; apply Hms; lia|by auto|].
  rewrite E. by rewrite (from_source_word 0 n _ w Hf) by lia.
Qed.

(** *** Forwards *)

Section Forward.
Hypothesis Hsafe : d ≤ s ∨ s + n ≤ d.
Context (junk q N : Z) (m : mem).
Hypothesis Hq : 0 ≤ q ∧ q + 4 * N ≤ n.
Hypothesis HN : 2 ≤ N.
Hypothesis Hw : window 0 q m.
Hypothesis Hda : (d + q) mod 4 = 0.

Let set_ (i : nat) : Z → regs → regs := if Nat.even i then set_a0 else set_a1.
Let val_ (i : nat) : regs → Z := if Nat.even i then a1 else a0.
Let stored (t : Z) (m : mem) : Prop := window 0 (q + 4 * t) m.

Lemma stored_next t w m1 : 0 ≤ t < N → stored t m1 → w = word_at m0 (s + q + 4 * t) →
  ∃ m2, store32 (d + q + 4 * t) w m1 = Ret (tt, m2) ∧ stored (t + 1) m2.
Proof.
  intros Ht Hst ->. destruct (store32_copies 0 (q + 4 * t) (q + 4 * t) m1) as (m2 & E & Hp); [lia|lia|exact Hst|lia|lia|].
  exists m2. rewrite <- !Z.add_assoc in *. split; [exact E|]. unfold stored. replace (q + 4 * (t + 1)) with (q + 4 * t + 4) by lia.
  apply (patch_up _ _ _ m1); [lia|lia|exact Hst|exact Hp].
Qed.

Section Aligned.
Hypothesis Hsa : (s + q) mod 4 = 0.
Let good (t w : Z) : Prop := w = word_at m0 (s + q + 4 * t).
Let pending (i : nat) (t : Z) (r : regs) : Prop := val_ i r = word_at m0 (s + q + 4 * t).
Abbreviation here := (at_label 1 (d + q) (s + q) 1 N Z.of_nat stored pending).

Lemma fwd_load t m1 : 0 ≤ t < N → stored t m1 ∨ (1 ≤ t ∧ stored (t - 1) m1) → load32 (s + q + 4 * t) m1 = Ret (word_at m0 (s + q + 4 * t), m1).
Proof.
  intros Ht [Hst|[Ht1 Hst]].
  - apply (load32_source q (4 * t) m1 (q + 4 * t) 0); try done; try lia. zlia.
  - apply (load32_source q (4 * t) m1 (q + 4 * (t - 1)) 0); try done; try lia. zlia.
Qed.

Lemma fwd_loop i r m1 : (i ≤ 8)%nat → here i 0 r m1 → 0 < wlen r < 2 ^ 32 → wlen r mod 8 = 0 →
  ∃ m', (r ← unrolled Generic.fwd_body (8 * OPSIZ) 8 i r; store32 (dstp r) (a1 r)) m1 = Ret (tt, m') ∧ stored N m'.
Proof.
  intros Hi Ha Hl Hm.
  destruct (unrolled_ok 1 (d + q) (s + q) 1 N Generic.fwd_body set_ Z.of_nat val_ stored good pending) with (i := i) (t := 0) (r := r) (m := m1)
    as (r' & m2 & E & [B1 B2 B3 B4 B5 B6]); try done.
  - intros k f Hf. do 8 (destruct k as [|k]; [by injection Hf as <-|]). done.
  - intros k x r0. unfold set_. by destruct (Nat.even k).
  - intros k _. lia.
  - intros t Ht. lia.
  - intros t m2 Ht Hst. eexists. split; [|reflexivity]. rewrite Z.mul_1_r. apply fwd_load; [lia|right]. split; [lia|]. by replace (t + 1 - 1) with t by lia.
  - intros k t r0 m2 Ht Hst Hp. rewrite Z.mul_1_r. by apply stored_next; [lia| |].
  - intros k t r0 w _ Hp Hg. unfold pending, val_, set_, good in *. rewrite Nat.even_succ, <- Nat.negb_even. destruct (Nat.even k); cbn; exact Hg.
  - change (8 * OPSIZ) with (4 * 1 * Z.of_nat (length Generic.fwd_body)). change 8 with (Z.of_nat (length Generic.fwd_body)). rewrite (bind_ret _ _ _ _ _ E).
    rewrite B2. replace (d + q + 4 * 1 * (N - 1) - 4 * Z.of_nat 0) with (d + q + 4 * (N - 1)) by lia. rewrite u32_small by lia.
    destruct (stored_next (N - 1) (a1 r') m2) as (m3 & E3 & H3); [lia|done|exact B6|]. exists m3. split; [done|]. by replace N with (N - 1 + 1) by lia.
Qed.

Lemma wordcopy_fwd_aligned_ok : ∃ m', Generic.wordcopy_fwd_aligned junk (d + q) (s + q) N m = Ret (tt, m') ∧ window 0 (q + 4 * N) m'.
Proof.
  assert (Hst : stored 0 m) by (unfold stored; by rewrite Z.mul_0_r, Z.add_0_r).
  assert (E : Generic.word_at_ptr (s + q) 0 m = Ret (word_at m0 (s + q), m)).
  { unfold Generic.word_at_ptr. rewrite Z.mul_0_r, Z.add_0_r, u32_small by lia. pose proof (fwd_load 0 m ltac:(lia) (or_introl Hst)) as E. by rewrite Z.mul_0_r, Z.add_0_r in E. }
  assert (Hgo : ∀ i a b x y z, (i ≤ 8)%nat → u32 x = u32 (s + q + 4 - 4 * Z.of_nat i) → u32 y = u32 (d + q - 4 * Z.of_nat i) → (if Nat.even i then b else a) = word_at m0 (s + q) →
    z = N - 1 + Z.of_nat i → 0 < z < 2 ^ 32 → z mod 8 = 0 →
    ∃ m', (r ← unrolled Generic.fwd_body (8 * OPSIZ) 8 i (mkRegs (u32 x) (u32 y) (u32 z) a b junk junk); store32 (dstp r) (a1 r)) m = Ret (tt, m') ∧ stored N m').
  { intros i a b x y z Hi Hx Hy Hab Hz Hz0 Hzm. rewrite (u32_small z) by lia. apply fwd_loop; [done| |done|done]. split; cbn.
    - rewrite Hx; f_equal; lia.
    - rewrite Hy; f_equal; lia.
    - lia.
    - lia.
    - done.
    - unfold pending, val_. rewrite Z.mul_0_r, Z.add_0_r. by destruct (Nat.even i). }
  unfold Generic.wordcopy_fwd_aligned. cbv zeta. pose proof (Z.mod_pos_bound N 8 ltac:(lia)) as Hm.
  assert (N mod 8 = 0 ∨ N mod 8 = 1 ∨ N mod 8 = 2 ∨ N mod 8 = 3 ∨ N mod 8 = 4 ∨ N mod 8 = 5 ∨ N mod 8 = 6 ∨ N mod 8 = 7) as Hc by lia.
  destruct Hc as [Hc|[Hc|[Hc|[Hc|[Hc|[Hc|[Hc|Hc]]]]]]]; rewrite Hc; cbn [andb Z.leb]; unfold OPSIZ;
    rewrite ?(bind_ret _ _ _ _ _ E); try (change (OP_T_THRES <=? 3 * 4) with false; cbn [andb]; rewrite ?(bind_ret _ _ _ _ _ E));
    (apply Hgo; [lia|f_equal; lia|f_equal; lia|done|lia|zlia|zlia]).
Qed.
End Aligned.

Section Unaligned.
Hypothesis Hsa : (s + q) mod 4 ≠ 0.
Hypothesis Hml : mapped m0 (s / 4 * 4) (longword_end (s + n - 1)).
Let κ : Z := (s + q) mod 4.
Let F : Z := s + q - κ.
Let first (i : nat) : regs → Z := match i with 0%nat => a2 | 1%nat => a3 | 2%nat => a0 | 3%nat => a1 | _ => a2 end.
Let second (i : nat) : regs → Z := match i with 0%nat => a3 | 1%nat => a0 | 2%nat => a1 | 3%nat => a2 | _ => a3 end.
Let mset (i : nat) : Z → regs → regs := match i with 0%nat => set_a0 | 1%nat => set_a1 | 2%nat => set_a2 | _ => set_a3 end.
Let mval (i : nat) : regs → Z := Generic.merged (8 * κ) (32 - 8 * κ) (first i) (second i).
Let mgood (t w : Z) : Prop := from_source q n (F + 4 * t) w.
Let mpending (i : nat) (t : Z) (r : regs) : Prop := mgood t (first i r) ∧ mgood (t + 1) (second i r).
Abbreviation mhere := (at_label 1 (d + q) F 2 N Z.of_nat stored mpending).

Lemma fwd_merge_load t j m1 : 0 ≤ t ≤ N → stored j m1 → 0 ≤ j → j + 2 ≤ Z.max t 2 → ∃ w, load32 (F + 4 * t) m1 = Ret (w, m1) ∧ mgood t w.
Proof.
  intros Ht Hst Hj Hjt. unfold mgood. apply (load32_window q n 0 (q + 4 * j)); [lia|lia|exact Hst| |].
  - intros y Hy. apply Hml. unfold longword_end, F, κ in *. zlia.
  - intros y Hy Hys. unfold F, κ in *. zlia.
Qed.

Lemma fwd_merge_value i t r : 0 ≤ t < N → mpending i t r → mval i r = word_at m0 (s + q + 4 * t).
Proof.
  intros Ht [H1 H2]. unfold mval, Generic.merged. unfold mgood in *. replace (s + q + 4 * t) with (F + 4 * t + κ) by (unfold F; lia).
  replace (F + 4 * (t + 1)) with (F + 4 * t + 4) in H2 by lia. apply (from_source_merge q n); [done|done|unfold κ; zlia|unfold F; lia|unfold F; lia].
Qed.

Lemma fwd_merge_loop i r m1 : (i ≤ 4)%nat → mhere i 0 r m1 → 0 < wlen r < 2 ^ 32 → wlen r mod 4 = 0 →
  ∃ m', (r ← unrolled (Generic.fwd_merge_body (8 * κ) (32 - 8 * κ)) (4 * OPSIZ) 4 i r; store32 (dstp r) (Generic.merged (8 * κ) (32 - 8 * κ) a2 a3 r)) m1 = Ret (tt, m') ∧ stored N m'.
Proof.
  intros Hi Ha Hl Hm. set (body := Generic.fwd_merge_body (8 * κ) (32 - 8 * κ)).
  destruct (unrolled_ok 1 (d + q) F 2 N body mset Z.of_nat mval stored mgood mpending) with (i := i) (t := 0) (r := r) (m := m1)
    as (r' & m2 & E & [B1 B2 B3 B4 B5 B6]); try done.
  - intros k f Hf. do 4 (destruct k as [|k]; [by injection Hf as <-|]). done.
  - intros k x r0. unfold mset. by do 3 (destruct k as [|k]; [done|]).
  - intros k _. lia.
  - intros t Ht. unfold F, κ. zlia.
  - intros t m2 Ht Hst. rewrite Z.mul_1_r. apply (fwd_merge_load (t + 2) t); [lia|done|lia|lia].
  - intros k t r0 m2 Ht Hst Hp. rewrite Z.mul_1_r. apply stored_next; [lia|done|]. apply fwd_merge_value; [lia|done].
  - intros k t r0 w Hk [H1 H2] Hg. change (length body) with 4%nat in Hk. split; unfold mgood in *; replace (t + 1 + 1) with (t + 2) by lia;
      do 4 (destruct k as [|k]; [done|]); lia.
  - change (4 * OPSIZ) with (4 * 1 * Z.of_nat (length body)). change 4 with (Z.of_nat (length body)) at 2. rewrite (bind_ret _ _ _ _ _ E).
    rewrite B2. replace (d + q + 4 * 1 * (N - 1) - 4 * Z.of_nat 0) with (d + q + 4 * (N - 1)) by lia. rewrite u32_small by lia.
    destruct (stored_next (N - 1) (mval 0 r') m2) as (m3 & E3 & H3); [lia|done|apply fwd_merge_value; [lia|done]|]. exists m3. split; [exact E3|]. by replace N with (N - 1 + 1) by lia.
Qed.

Lemma wordcopy_fwd_dest_aligned_ok : ∃ m', Generic.wordcopy_fwd_dest_aligned junk (d + q) (s + q) N m = Ret (tt, m') ∧ window 0 (q + 4 * N) m'.
Proof.
  assert (Hst : stored 0 m) by (unfold stored; by rewrite Z.mul_0_r, Z.add_0_r). assert (HF : 0 ≤ F ∧ F + 8 ≤ 2 ^ 32) by (unfold F, κ; zlia).
  destruct (fwd_merge_load 0 0 m ltac:(lia) Hst ltac:(lia) ltac:(lia)) as (w0 & E0 & G0).
  destruct (fwd_merge_load 1 0 m ltac:(lia) Hst ltac:(lia) ltac:(lia)) as (w1 & E1 & G1).
  assert (L0 : Generic.word_at_ptr F 0 m = Ret (w0, m)) by (unfold Generic.word_at_ptr; rewrite u32_small by (unfold OPSIZ; lia); exact E0).
  assert (L1 : Generic.word_at_ptr F 1 m = Ret (w1, m)) by (unfold Generic.word_at_ptr; rewrite u32_small by (unfold OPSIZ; lia); exact E1).
  assert (Hgo : ∀ i x0 x1 x2 x3 x y z, (i ≤ 4)%nat → u32 x = u32 (F + 8 - 4 * Z.of_nat i) → u32 y = u32 (d + q - 4 * Z.of_nat i) →
    mgood 0 (first i (mkRegs 0 0 0 x0 x1 x2 x3)) → mgood 1 (second i (mkRegs 0 0 0 x0 x1 x2 x3)) →
    z = N - 1 + Z.of_nat i → 0 < z < 2 ^ 32 → z mod 4 = 0 →
    ∃ m', (r ← unrolled (Generic.fwd_merge_body (8 * κ) (32 - 8 * κ)) (4 * OPSIZ) 4 i (mkRegs (u32 x) (u32 y) (u32 z) x0 x1 x2 x3); store32 (dstp r) (Generic.merged (8 * κ) (32 - 8 * κ) a2 a3 r)) m = Ret (tt, m') ∧ stored N m').
  { intros i x0 x1 x2 x3 x y z Hi Hx Hy H0 H1 Hz Hz0 Hzm. rewrite (u32_small z) by lia. apply fwd_merge_loop; [done| |done|done]. split; cbn.
    - rewrite Hx; f_equal; lia.
    - rewrite Hy; f_equal; lia.
    - lia.
    - lia.
    - done.
    - do 5 (destruct i as [|i]; [by split|]). lia. }
  unfold Generic.wordcopy_fwd_dest_aligned. cbv zeta. rewrite land_opsiz by lia. change ((s + q) mod OPSIZ) with κ. change (8 * OPSIZ) with 32.
  change (s + q - (s + q) mod 4) with F. pose proof (Z.mod_pos_bound N 4 ltac:(lia)) as Hm.
  assert (N mod 4 = 0 ∨ N mod 4 = 1 ∨ N mod 4 = 2 ∨ N mod 4 = 3) as Hc by lia.
  destruct Hc as [Hc|[Hc|[Hc|Hc]]]; rewrite Hc; cbn [andb Z.leb]; try (change (OP_T_THRES <=? 3 * OPSIZ) with false; cbn [andb]);
    rewrite ?(bind_ret _ _ _ _ _ L0); rewrite ?(bind_ret _ _ _ _ _ L1); try (change (OP_T_THRES <=? 3 * OPSIZ) with false; cbn [andb]);
    (apply Hgo; [lia|unfold OPSIZ; f_equal; lia|unfold OPSIZ; f_equal; lia|done|done|lia|zlia|zlia]).
Qed.
End Unaligned.
End Forward.

(** *** Backwards *)

Section Backward.
Hypothesis Hsafe : s ≤ d ∨ d + n ≤ s.
Context (p N : Z) (m : mem).
Hypothesis Hp : 4 * N ≤ p ≤ n.
Hypothesis HN : 2 ≤ N.
Hypothesis Hw : window p n m.
Hypothesis Hda : (d + p) mod 4 = 0.

Let set_ (i : nat) : Z → regs → regs := if Nat.even i then set_a0 else set_a1.
Let val_ (i : nat) : regs → Z := if Nat.even i then a1 else a0.
Let stored (t : Z) (m : mem) : Prop := window (p - 4 * t) n m.

Lemma stored_below t w m1 : 0 ≤ t < N → stored t m1 → w = word_at m0 (s + p - 4 - 4 * t) →
  ∃ m2, store32 (d + p - 4 - 4 * t) w m1 = Ret (tt, m2) ∧ stored (t + 1) m2.
Proof.
  intros Ht Hst ->. destruct (store32_copies (p - 4 * t) n (p - 4 - 4 * t) m1) as (m2 & E & Hpt); [lia|lia|exact Hst|lia|lia|].
  exists m2. replace (d + p - 4 - 4 * t) with (d + (p - 4 - 4 * t)) by lia. replace (s + p - 4 - 4 * t) with (s + (p - 4 - 4 * t)) by lia. split; [exact E|].
  unfold stored. replace (p - 4 * (t + 1)) with (p - 4 - 4 * t) by lia.
  apply (patch_down _ _ 4 m1); [lia|lia| |exact Hpt]. by replace (p - 4 - 4 * t + 4) with (p - 4 * t) by lia.
Qed.

Section Aligned.
Hypothesis Hsa : (s + p) mod 4 = 0.
Let good (t w : Z) : Prop := w = word_at m0 (s + p - 4 - 4 * t).
Let pending (i : nat) (t : Z) (r : regs) : Prop := good t (val_ i r).
Abbreviation here := (at_label (-1) (d + p - 4) (s + p - 4) 1 N (λ i, 7 - Z.of_nat i) stored pending).

Lemma bwd_load t m1 : 0 ≤ t < N → stored t m1 ∨ (1 ≤ t ∧ stored (t - 1) m1) → load32 (s + p - 4 - 4 * t) m1 = Ret (word_at m0 (s + p - 4 - 4 * t), m1).
Proof.
  intros Ht Hst. replace (s + p - 4 - 4 * t) with (s + p + (- 4 - 4 * t)) by lia. destruct Hst as [Hst|[Ht1 Hst]].
  - apply (load32_source p (- 4 - 4 * t) m1 n (p - 4 * t)); try done; try lia. zlia.
  - apply (load32_source p (- 4 - 4 * t) m1 n (p - 4 * (t - 1))); try done; try lia. zlia.
Qed.

Lemma bwd_loop i r m1 : (i ≤ 8)%nat → here i 0 r m1 → 0 < wlen r < 2 ^ 32 → wlen r mod 8 = 0 →
  ∃ m', (r ← unrolled Generic.bwd_body (- (8 * OPSIZ)) 8 i r; store32 (dstp r +u OPSIZ * 7) (a1 r)) m1 = Ret (tt, m') ∧ stored N m'.
Proof.
  intros Hi Ha Hl Hm.
  destruct (unrolled_ok (-1) (d + p - 4) (s + p - 4) 1 N Generic.bwd_body set_ (λ i, 7 - Z.of_nat i) val_ stored good pending) with (i := i) (t := 0) (r := r) (m := m1)
    as (r' & m2 & E & [B1 B2 B3 B4 B5 B6]); try done.
  - intros k f Hf. do 8 (destruct k as [|k]; [by injection Hf as <-|]). done.
  - intros k x r0. unfold set_. by destruct (Nat.even k).
  - intros k _. lia.
  - intros t Ht. lia.
  - intros t m2 Ht Hst. eexists. split; [|reflexivity]. replace (s + p - 4 + 4 * -1 * (t + 1)) with (s + p - 4 - 4 * (t + 1)) by lia. apply bwd_load; [lia|right]. split; [lia|]. by replace (t + 1 - 1) with t by lia.
  - intros k t r0 m2 Ht Hst Hpd. replace (d + p - 4 + 4 * -1 * t) with (d + p - 4 - 4 * t) by lia. by apply stored_below; [lia| |].
  - intros k t r0 w _ Hpd Hg. unfold pending, val_, set_ in *. rewrite Nat.even_succ, <- Nat.negb_even. destruct (Nat.even k); cbn; exact Hg.
  - change (- (8 * OPSIZ)) with (4 * -1 * Z.of_nat (length Generic.bwd_body)). change 8 with (Z.of_nat (length Generic.bwd_body)). rewrite (bind_ret _ _ _ _ _ E).
    rewrite B2. unfold OPSIZ. rewrite u32_index by lia. replace (d + p - 4 + 4 * -1 * (N - 1)) with (d + p - 4 - 4 * (N - 1)) by lia.
    destruct (stored_below (N - 1) (a1 r') m2) as (m3 & E3 & H3); [lia|done|exact B6|]. exists m3. split; [done|]. by replace N with (N - 1 + 1) by lia.
Qed.

Lemma wordcopy_bwd_aligned_ok junk : ∃ m', Generic.wordcopy_bwd_aligned junk (u32 (d + p)) (u32 (s + p)) N m = Ret (tt, m') ∧ window (p - 4 * N) n m'.
Proof.
  assert (Hst : stored 0 m) by (unfold stored; by rewrite Z.mul_0_r, Z.sub_0_r).
  assert (E : ∀ j k, 4 * k = j - 4 → Generic.word_at_ptr (u32 (s + p) -u j) k m = Ret (word_at m0 (s + p - 4), m)).
  { intros j k Hjk. unfold Generic.word_at_ptr, OPSIZ. pose proof (bwd_load 0 m ltac:(lia) (or_introl Hst)) as E. rewrite Z.mul_0_r, Z.sub_0_r in E. rewrite <- E. f_equal.
    unfold u32. rewrite Zminus_mod_idemp_l, Zplus_mod_idemp_l. rewrite Z.mod_small; lia. }
  assert (Hgo : ∀ i a b x y z, (i ≤ 8)%nat → x = 4 * (9 - Z.of_nat i) → y = 4 * (8 - Z.of_nat i) → (if Nat.even i then b else a) = word_at m0 (s + p - 4) →
    z = N - 1 + Z.of_nat i → 0 < z < 2 ^ 32 → z mod 8 = 0 →
    ∃ m', (r ← unrolled Generic.bwd_body (- (8 * OPSIZ)) 8 i (mkRegs (u32 (s + p) -u x) (u32 (d + p) -u y) (u32 z) a b junk junk); store32 (dstp r +u OPSIZ * 7) (a1 r)) m = Ret (tt, m') ∧ stored N m').
  { intros i a b x y z Hi Hx Hy Hab Hz Hz0 Hzm. rewrite (u32_small z) by lia. apply bwd_loop; [done| |done|done]. split; cbn.
    - unfold u32. rewrite Zminus_mod_idemp_l. f_equal. lia.
    - unfold u32. rewrite Zminus_mod_idemp_l. f_equal. lia.
    - lia.
    - lia.
    - done.
    - unfold pending, good, val_. rewrite Z.mul_0_r, Z.sub_0_r. by destruct (Nat.even i). }
  unfold Generic.wordcopy_bwd_aligned. cbv zeta. pose proof (Z.mod_pos_bound N 8 ltac:(lia)) as Hm.
  assert (N mod 8 = 0 ∨ N mod 8 = 1 ∨ N mod 8 = 2 ∨ N mod 8 = 3 ∨ N mod 8 = 4 ∨ N mod 8 = 5 ∨ N mod 8 = 6 ∨ N mod 8 = 7) as Hc by lia.
  destruct Hc as [Hc|[Hc|[Hc|[Hc|[Hc|[Hc|[Hc|Hc]]]]]]]; rewrite Hc; cbn match; try (change (OP_T_THRES <=? 3 * OPSIZ) with false; cbn [andb]);
    (erewrite bind_ret; [|apply E; reflexivity]); try (change (OP_T_THRES <=? 3 * OPSIZ) with false; cbn [andb]);
    (apply Hgo; [lia|unfold OPSIZ; lia|unfold OPSIZ; lia|done|lia|zlia|zlia]).
Qed.
End Aligned.

Section Unaligned.
Hypothesis Hsa : (s + p) mod 4 ≠ 0.
Hypothesis Hml : mapped m0 (s / 4 * 4) (longword_end (s + n - 1)).
Let κ : Z := (s + p) mod 4.
Let F : Z := s + p - κ.
Let first (i : nat) : regs → Z := match i with 0%nat => a1 | 1%nat => a0 | 2%nat => a3 | 3%nat => a2 | _ => a1 end.
Let second (i : nat) : regs → Z := match i with 0%nat => a0 | 1%nat => a3 | 2%nat => a2 | 3%nat => a1 | _ => a0 end.
Let mset (i : nat) : Z → regs → regs := match i with 0%nat => set_a3 | 1%nat => set_a2 | 2%nat => set_a1 | _ => set_a0 end.
Let mval (i : nat) : regs → Z := Generic.merged (8 * κ) (32 - 8 * κ) (second i) (first i).
Let mgood (t w : Z) : Prop := from_source 0 p (F - 4 * t) w.
Let mpending (i : nat) (t : Z) (r : regs) : Prop := mgood t (first i r) ∧ mgood (t + 1) (second i r).
Abbreviation mhere := (at_label (-1) (d + p - 4) F 2 N (λ i, 3 - Z.of_nat i) stored mpending).

Lemma bwd_merge_load t j m1 : 0 ≤ t ≤ N → stored j m1 → 0 ≤ j → j + 2 ≤ Z.max t 2 → ∃ w, load32 (F - 4 * t) m1 = Ret (w, m1) ∧ mgood t w.
Proof.
  intros Ht Hst Hj Hjt. unfold mgood. apply (load32_window 0 p (p - 4 * j) n); [lia|lia|exact Hst| |].
  - intros y Hy. apply Hml. unfold longword_end, F, κ in *. zlia.
  - intros y Hy Hys. unfold F, κ in *. zlia.
Qed.

Lemma bwd_merge_value i t r : 0 ≤ t < N → mpending i t r → mval i r = word_at m0 (s + p - 4 - 4 * t).
Proof.
  intros Ht [H1 H2]. unfold mval, Generic.merged. unfold mgood in *. replace (s + p - 4 - 4 * t) with (F - 4 * (t + 1) + κ) by (unfold F; lia).
  replace (F - 4 * t) with (F - 4 * (t + 1) + 4) in H1 by lia. apply (from_source_merge 0 p); [done|done|unfold κ; zlia|unfold F; lia|unfold F; lia].
Qed.

Lemma bwd_merge_loop i r m1 : (i ≤ 4)%nat → mhere i 0 r m1 → 0 < wlen r < 2 ^ 32 → wlen r mod 4 = 0 →
  ∃ m', (r ← unrolled (Generic.bwd_merge_body (8 * κ) (32 - 8 * κ)) (- (4 * OPSIZ)) 4 i r; store32 (dstp r +u OPSIZ * 3) (Generic.merged (8 * κ) (32 - 8 * κ) a0 a1 r)) m1 = Ret (tt, m') ∧ stored N m'.
Proof.
  intros Hi Ha Hl Hm. set (body := Generic.bwd_merge_body (8 * κ) (32 - 8 * κ)).
  destruct (unrolled_ok (-1) (d + p - 4) F 2 N body mset (λ i, 3 - Z.of_nat i) mval stored mgood mpending) with (i := i) (t := 0) (r := r) (m := m1)
    as (r' & m2 & E & [B1 B2 B3 B4 B5 B6]); try done.
  - intros k f Hf. do 4 (destruct k as [|k]; [by injection Hf as <-|]). done.
  - intros k x r0. unfold mset. by do 3 (destruct k as [|k]; [done|]).
  - intros k _. lia.
  - intros t Ht. unfold F, κ. zlia.
  - intros t m2 Ht Hst. replace (F + 4 * -1 * (t + 2)) with (F - 4 * (t + 2)) by lia. apply (bwd_merge_load (t + 2) t); [lia|done|lia|lia].
  - intros k t r0 m2 Ht Hst Hpd. replace (d + p - 4 + 4 * -1 * t) with (d + p - 4 - 4 * t) by lia. apply stored_below; [lia|done|]. apply bwd_merge_value; [lia|done].
  - intros k t r0 w Hk [H1 H2] Hg. change (length body) with 4%nat in Hk. split; unfold mgood in *; replace (t + 1 + 1) with (t + 2) by lia;
      do 4 (destruct k as [|k]; [done|]); lia.
  - change (- (4 * OPSIZ)) with (4 * -1 * Z.of_nat (length body)). change 4 with (Z.of_nat (length body)) at 2. rewrite (bind_ret _ _ _ _ _ E).
    rewrite B2. unfold OPSIZ. rewrite u32_index by lia. replace (d + p - 4 + 4 * -1 * (N - 1)) with (d + p - 4 - 4 * (N - 1)) by lia.
    destruct (stored_below (N - 1) (mval 0 r') m2) as (m3 & E3 & H3); [lia|done|apply bwd_merge_value; [lia|done]|]. exists m3. split; [exact E3|]. by replace N with (N - 1 + 1) by lia.
Qed.

Lemma wordcopy_bwd_dest_aligned_ok : ∃ m', Generic.wordcopy_bwd_dest_aligned (u32 (d + p)) (u32 (s + p)) N m = Ret (tt, m') ∧ window (p - 4 * N) n m'.
Proof.
  assert (Hst : stored 0 m) by (unfold stored; by rewrite Z.mul_0_r, Z.sub_0_r). assert (HF : 4 ≤ F ∧ F + 4 ≤ 2 ^ 32 ∧ s + p < 2 ^ 32) by (unfold F, κ; zlia).
  destruct (bwd_merge_load 0 0 m ltac:(lia) Hst ltac:(lia) ltac:(lia)) as (w0 & E0 & G0).
  destruct (bwd_merge_load 1 0 m ltac:(lia) Hst ltac:(lia) ltac:(lia)) as (w1 & E1 & G1). rewrite Z.mul_0_r, Z.sub_0_r in E0. rewrite Z.mul_1_r in E1.
  assert (L0 : ∀ j k, 4 * k = j - 4 → Generic.word_at_ptr (u32 (F + OPSIZ) -u j) k m = Ret (w0, m)).
  { intros j k Hjk. unfold Generic.word_at_ptr, OPSIZ. rewrite <- E0. f_equal. unfold u32. rewrite Zminus_mod_idemp_l, Zplus_mod_idemp_l. rewrite Z.mod_small; lia. }
  assert (L1 : ∀ j k, 4 * k = j - 8 → Generic.word_at_ptr (u32 (F + OPSIZ) -u j) k m = Ret (w1, m)).
  { intros j k Hjk. unfold Generic.word_at_ptr, OPSIZ. rewrite <- E1. f_equal. unfold u32. rewrite Zminus_mod_idemp_l, Zplus_mod_idemp_l. rewrite Z.mod_small; lia. }
  assert (Hgo : ∀ i x0 x1 x2 x3 x y z, (i ≤ 4)%nat → x = 4 * (6 - Z.of_nat i) → y = 4 * (4 - Z.of_nat i) →
    mgood 0 (first i (mkRegs 0 0 0 x0 x1 x2 x3)) → mgood 1 (second i (mkRegs 0 0 0 x0 x1 x2 x3)) →
    z = N - 1 + Z.of_nat i → 0 < z < 2 ^ 32 → z mod 4 = 0 →
    ∃ m', (r ← unrolled (Generic.bwd_merge_body (8 * κ) (32 - 8 * κ)) (- (4 * OPSIZ)) 4 i (mkRegs (u32 (F + OPSIZ) -u x) (u32 (d + p) -u y) (u32 z) x0 x1 x2 x3);
      store32 (dstp r +u OPSIZ * 3) (Generic.merged (8 * κ) (32 - 8 * κ) a0 a1 r)) m = Ret (tt, m') ∧ stored N m').
  { intros i x0 x1 x2 x3 x y z Hi Hx Hy H0 H1 Hz Hz0 Hzm. rewrite (u32_small z) by lia. apply bwd_merge_loop; [done| |done|done]. split; cbn.
    - unfold u32, OPSIZ. rewrite Zminus_mod_idemp_l. f_equal. lia.
    - unfold u32. rewrite Zminus_mod_idemp_l. f_equal. lia.
    - lia.
    - lia.
    - done.
    - do 5 (destruct i as [|i]; [by split|]). lia. }
  unfold Generic.wordcopy_bwd_dest_aligned. cbv zeta. rewrite (u32_small (s + p)) by lia. rewrite land_opsiz by lia. change ((s + p) mod OPSIZ) with κ. change (8 * OPSIZ) with 32.
  change (s + p - (s + p) mod 4) with F. pose proof (Z.mod_pos_bound N 4 ltac:(lia)) as Hm.
  assert (N mod 4 = 0 ∨ N mod 4 = 1 ∨ N mod 4 = 2 ∨ N mod 4 = 3) as Hc by lia.
  destruct Hc as [Hc|[Hc|[Hc|Hc]]]; rewrite Hc; cbn match; try (change (OP_T_THRES <=? 3 * OPSIZ) with false; cbn [andb]);
    (erewrite bind_ret; [|apply L0; reflexivity]); (erewrite bind_ret; [|apply L1; reflexivity]); try (change (OP_T_THRES <=? 3 * OPSIZ) with false; cbn [andb]);
    (apply Hgo; [lia|unfold OPSIZ; lia|unfold OPSIZ; lia|done|done|lia|zlia|zlia]).
Qed.
End Unaligned.
End Backward.

(** *** Byte by byte *)

Lemma copy_byte a b t m : 0 ≤ a → b ≤ n → window a b m → 0 ≤ t < n → ¬ d + a ≤ s + t < d + b →
  ∃ m', (∀ B (k : M mem B), (x ← load8 (s + t); store8 (d + t) x ;; k) m = k m') ∧ patched t 1 m m'.
Proof.
  intros Ha Hb Hw Ht Hx. destruct (store8_copies a b t m Ha Hb Hw Ht) as (m' & E & Hp). exists m'. split; [|done]. intros B k.
  rewrite (bind_ret _ _ _ _ _ (load8_window a b t m Hw Ht Hx)). by rewrite (bind_ret _ _ _ _ _ E).
Qed.

Lemma u32_succ x k : u32 (u32 x + k) = u32 (x + k).
Proof. unfold u32. by rewrite Zplus_mod_idemp_l. Qed.

Lemma u32_pred x k : u32 (u32 x - k) = u32 (x - k).
Proof. unfold u32. by rewrite Zminus_mod_idemp_l. Qed.

Section Up.
Hypothesis Hsafe : d ≤ s ∨ s + n ≤ d.

Lemma byte_copy_fwd_ok q k m : 0 ≤ q → 0 ≤ k → q + k ≤ n → window 0 q m →
  ∃ m', BYTE_COPY_FWD (u32 (d + q)) (u32 (s + q)) k m = Ret ((u32 (d + (q + k)), u32 (s + (q + k))), m') ∧ window 0 (q + k) m'.
Proof.
  intros Hq Hk Hqk Hw. unfold BYTE_COPY_FWD.
  edestruct (while_total (λ '(x, y, z) m, ∃ j, 0 ≤ j ≤ k ∧ x = k - j ∧ y = u32 (d + (q + j)) ∧ z = u32 (s + (q + j)) ∧ window 0 (q + j) m)
    (λ '(x, _, _) _, x) (λ r m, r = (u32 (d + (q + k)), u32 (s + (q + k))) ∧ window 0 (q + k) m)) as (r & m' & E & -> & Hw'); [| | |by exists m'].
  - intros [[x y] z] m1 (j & Hj & -> & -> & -> & Hw1). destruct (Z.ltb_spec 0 (k - j)) as [Hl|Hl].
    + left. rewrite !(u32_small (_ + (q + j))) by lia. destruct (copy_byte 0 (q + j) (q + j) m1) as (m2 & E & Hp); [lia|lia|done|lia|lia|].
      rewrite E. exists (k - j - 1, d + (q + j) +u 1, s + (q + j) +u 1), m2. split; [done|]. split; [|lia]. exists (j + 1).
      split; [lia|]. split; [lia|]. split; [f_equal; lia|]. split; [f_equal; lia|]. replace (q + (j + 1)) with (q + j + 1) by lia. apply (patch_up 0 (q + j) 1 m1); [lia|lia|done|done].
    + right. assert (j = k) as -> by lia. by eexists _, m1.
  - exists 0. rewrite Z.add_0_r, Z.sub_0_r. split; [lia|]. done.
  - unfold COUNTS. lia.
Qed.

Lemma rep_movsb_up_ok q k m : 0 ≤ q → 0 ≤ k → q + k ≤ n → window 0 q m →
  ∃ r m', rep_movsb 1 k (u32 (d + q)) (u32 (s + q)) m = Ret (r, m') ∧ window 0 (q + k) m'.
Proof.
  intros Hq Hk Hqk Hw. unfold rep_movsb.
  apply (while_total (λ '(x, y, z) m, ∃ j, 0 ≤ j ≤ k ∧ x = k - j ∧ y = u32 (d + (q + j)) ∧ z = u32 (s + (q + j)) ∧ window 0 (q + j) m)
    (λ '(x, _, _) _, x) (λ r m, window 0 (q + k) m)).
  - intros [[x y] z] m1 (j & Hj & -> & -> & -> & Hw1). destruct (Z.eqb_spec (k - j) 0) as [Hl|Hl].
    + right. assert (j = k) as -> by lia. by eexists _, m1.
    + left. rewrite !(u32_small (_ + (q + j))) by lia. destruct (copy_byte 0 (q + j) (q + j) m1) as (m2 & E & Hp); [lia|lia|done|lia|lia|].
      rewrite E. exists (k - j - 1, d + (q + j) +u 1, s + (q + j) +u 1), m2. split; [done|]. split; [|lia]. exists (j + 1).
      split; [lia|]. split; [lia|]. split; [f_equal; lia|]. split; [f_equal; lia|]. replace (q + (j + 1)) with (q + j + 1) by lia. apply (patch_up 0 (q + j) 1 m1); [lia|lia|done|done].
  - exists 0. rewrite Z.add_0_r, Z.sub_0_r. split; [lia|]. done.
  - unfold COUNTS. lia.
Qed.

Lemma copy_word t m : 0 ≤ t → t + 4 ≤ n → window 0 t m →
  ∃ m', (∀ B (k : M mem B), (x ← load32 (s + t); store32 (d + t) x ;; k) m = k m') ∧ window 0 (t + 4) m'.
Proof.
  intros Ht0 Ht Hw. destruct (load32_window 0 n 0 t (s + t) m) as (w & E & Hf); [lia|lia|done|intros y Hy; apply Hms; lia|intros y Hy _; lia|].
  pose proof (from_source_word 0 n _ w Hf ltac:(lia) ltac:(lia)) as ->. destruct (store32_copies 0 t t m) as (m' & E' & Hp); [lia|lia|done|lia|lia|].
  exists m'. split; [|apply (patch_up 0 t 4 m); [lia|lia|done|done]]. intros B k. rewrite (bind_ret _ _ _ _ _ E). by rewrite (bind_ret _ _ _ _ _ E').
Qed.

Lemma rep_movsl_ok k m : 0 ≤ k → 4 * k ≤ n → window 0 0 m →
  ∃ m', rep_movsl k (u32 d) (u32 s) m = Ret ((u32 (d + 4 * k), u32 (s + 4 * k)), m') ∧ window 0 (4 * k) m'.
Proof.
  intros Hk Hkn Hw. unfold rep_movsl.
  edestruct (while_total (λ '(x, y, z) m, ∃ j, 0 ≤ j ≤ k ∧ x = k - j ∧ y = u32 (d + 4 * j) ∧ z = u32 (s + 4 * j) ∧ window 0 (4 * j) m)
    (λ '(x, _, _) _, x) (λ r m, r = (u32 (d + 4 * k), u32 (s + 4 * k)) ∧ window 0 (4 * k) m)) as (r & m' & E & -> & Hw'); [| | |by exists m'].
  - intros [[x y] z] m1 (j & Hj & -> & -> & -> & Hw1). destruct (Z.eqb_spec (k - j) 0) as [Hl|Hl].
    + right. assert (j = k) as -> by lia. by eexists _, m1.
    + left. rewrite !(u32_small (_ + 4 * j)) by lia. destruct (copy_word (4 * j) m1) as (m2 & E & Hw2); [lia|lia|done|].
      rewrite E. exists (k - j - 1, d + 4 * j +u 4, s + 4 * j +u 4), m2. split; [done|]. split; [|lia]. exists (j + 1).
      split; [lia|]. split; [lia|]. split; [f_equal; lia|]. split; [f_equal; lia|]. by replace (4 * (j + 1)) with (4 * j + 4) by lia.
  - exists 0. rewrite Z.mul_0_r, !Z.add_0_r, Z.sub_0_r. split; [lia|]. done.
  - unfold COUNTS. lia.
Qed.
End Up.

Section Down.
Hypothesis Hsafe : s ≤ d ∨ d + n ≤ s.

Lemma byte_copy_bwd_ok p k m : p ≤ n → 0 ≤ k ≤ p → window p n m →
  ∃ m', BYTE_COPY_BWD (u32 (d + p)) (u32 (s + p)) k m = Ret ((u32 (d + (p - k)), u32 (s + (p - k))), m') ∧ window (p - k) n m'.
Proof.
  intros Hp Hk Hw. unfold BYTE_COPY_BWD.
  edestruct (while_total (λ '(x, y, z) m, ∃ j, 0 ≤ j ≤ k ∧ x = k - j ∧ y = u32 (d + (p - j)) ∧ z = u32 (s + (p - j)) ∧ window (p - j) n m)
    (λ '(x, _, _) _, x) (λ r m, r = (u32 (d + (p - k)), u32 (s + (p - k))) ∧ window (p - k) n m)) as (r & m' & E & -> & Hw'); [| | |by exists m'].
  - intros [[x y] z] m1 (j & Hj & -> & -> & -> & Hw1). destruct (Z.ltb_spec 0 (k - j)) as [Hl|Hl].
    + left. cbv zeta. rewrite !u32_pred. rewrite !(u32_small (_ + (p - j) - 1)) by lia.
      destruct (copy_byte (p - j) n (p - j - 1) m1) as (m2 & E & Hpt); [lia|lia|done|lia|lia|].
      replace (s + (p - j) - 1) with (s + (p - j - 1)) by lia. replace (d + (p - j) - 1) with (d + (p - j - 1)) by lia.
      rewrite E. eexists _, m2. split; [reflexivity|]. split; [|lia]. exists (j + 1).
      split; [lia|]. split; [lia|]. split; [rewrite u32_small by lia; lia|]. split; [rewrite u32_small by lia; lia|].
      replace (p - (j + 1)) with (p - j - 1) by lia. apply (patch_down (p - j - 1) n 1 m1); [lia|lia| |done]. by replace (p - j - 1 + 1) with (p - j) by lia.
    + right. assert (j = k) as -> by lia. by eexists _, m1.
  - exists 0. rewrite !Z.sub_0_r. split; [lia|]. done.
  - unfold COUNTS. lia.
Qed.

Lemma rep_movsb_down_ok m : 0 ≤ n → window n n m → ∃ r m', rep_movsb (-1) n (u32 (d + n - 1)) (u32 (s + n - 1)) m = Ret (r, m') ∧ window 0 n m'.
Proof.
  intros Hn Hw. unfold rep_movsb.
  apply (while_total (λ '(x, y, z) m, 0 ≤ x ≤ n ∧ y = u32 (d + x - 1) ∧ z = u32 (s + x - 1) ∧ window x n m) (λ '(x, _, _) _, x) (λ r m, window 0 n m)).
  - intros [[x y] z] m1 (Hx & -> & -> & Hw1). destruct (Z.eqb_spec x 0) as [->|Hl].
    + right. by eexists _, m1.
    + left. rewrite !(u32_small (_ + x - 1)) by lia. destruct (copy_byte x n (x - 1) m1) as (m2 & E & Hpt); [lia|lia|done|lia|lia|].
      replace (s + x - 1) with (s + (x - 1)) by lia. replace (d + x - 1) with (d + (x - 1)) by lia.
      rewrite E. eexists _, m2. split; [reflexivity|]. split; [|lia]. split; [lia|]. split; [f_equal; lia|]. split; [f_equal; lia|].
      apply (patch_down (x - 1) n 1 m1); [lia|lia| |done]. by replace (x - 1 + 1) with x by lia.
  - split; [lia|]. done.
  - unfold COUNTS. lia.
Qed.
End Down.

(** *** The functions *)

Section Functions.
Context (junk : Z).
Hypothesis Hn : is_u32 n.
Hypothesis Hd32 : is_u32 d.
Hypothesis Hs32 : is_u32 s.
(** A word that holds a byte of the source can be read. *)
Hypothesis Hwords : ∀ x, s ≤ x < s + n → mapped m0 (x / 4 * 4) (longword_end x).

Lemma source_words : 0 < n → mapped m0 (s / 4 * 4) (longword_end (s + n - 1)).
Proof.
  intros Hn0 y Hy. unfold longword_end in *. destruct (Z.lt_ge_cases y s) as [H1|H1]; [|destruct (Z.lt_ge_cases y (s + n)) as [H2|H2]].
  - apply (Hwords s); [lia|]. unfold longword_end. zlia.
  - apply Hms. lia.
  - apply (Hwords (s + n - 1)); [lia|]. unfold longword_end. zlia.
Qed.

Lemma word_copy_fwd_ok q k m : d ≤ s ∨ s + n ≤ d → 0 ≤ q → 8 ≤ k → q + k = n → (d + q) mod 4 = 0 → window 0 q m →
  ∃ m', Generic.WORD_COPY_FWD junk (u32 (d + q)) (u32 (s + q)) k m = Ret ((k mod 4, u32 (d + (n - k mod 4)), u32 (s + (n - k mod 4))), m') ∧ window 0 (n - k mod 4) m'.
Proof.
  intros Hsafe Hq Hk Hqk Hal Hw. unfold Generic.WORD_COPY_FWD. rewrite !(u32_small (_ + q)) by lia. change OPSIZ with 4 at 1 2 3.
  assert (HN : 2 ≤ k / 4) by zlia. assert (Hr : q + 4 * (k / 4) = n - k mod 4) by zlia.
  assert (∃ m', (if (s + q) mod 4 =? 0 then Generic.wordcopy_fwd_aligned junk (d + q) (s + q) (k / 4)
    else Generic.wordcopy_fwd_dest_aligned junk (d + q) (s + q) (k / 4)) m = Ret (tt, m') ∧ window 0 (q + 4 * (k / 4)) m') as (m' & E & Hw').
  { destruct (Z.eqb_spec ((s + q) mod 4) 0) as [H0|H0]; [apply wordcopy_fwd_aligned_ok|apply wordcopy_fwd_dest_aligned_ok]; try done; try lia; try zlia.
    by apply source_words; lia. }
  exists m'. rewrite (bind_ret _ _ _ _ _ E). rewrite land_opsiz by lia. rewrite Hr in Hw'. split; [|done].
  replace (d + q + (k - k mod 4)) with (d + (n - k mod 4)) by lia. by replace (s + q + (k - k mod 4)) with (s + (n - k mod 4)) by lia.
Qed.

Lemma memcpy_ok : d ≤ s ∨ s + n ≤ d → ∃ m', Generic.memcpy junk d s n m0 = Ret (d, m') ∧ window 0 n m'.
Proof.
  intros Hsafe. pose proof (window_start m0 d s 0) as Hw0. unfold Generic.memcpy. assert (Ed : d = u32 (d + 0)) by (rewrite Z.add_0_r; by rewrite u32_small).
  assert (Es : s = u32 (s + 0)) by (rewrite Z.add_0_r; by rewrite u32_small). unfold OP_T_THRES. destruct (Z.leb_spec 16 n) as [Hl|Hl].
  - set (k := u32 (- d) mod OPSIZ). assert (Hk : 0 ≤ k < 4 ∧ (d + k) mod 4 = 0) by (unfold k, OPSIZ, u32; zlia).
    destruct (byte_copy_fwd_ok Hsafe 0 k m0) as (m1 & E1 & Hw1); [lia|lia|lia|done|]. rewrite <- Ed, <- Es, !Z.add_0_l in E1.
    destruct (word_copy_fwd_ok k (n - k) m1) as (m2 & E2 & Hw2); [done|lia|lia|lia|lia|done|].
    destruct (byte_copy_fwd_ok Hsafe (n - (n - k) mod 4) ((n - k) mod 4) m2) as (m3 & E3 & Hw3); [zlia|zlia|lia|done|].
    exists m3. rewrite bind_assoc. rewrite (bind_ret _ _ _ _ _ E1). cbn [fst snd]. rewrite (u32_small (n - k)) by lia. rewrite (bind_ret _ _ _ _ _ E2). cbn [fst snd].
    rewrite (bind_ret _ _ _ _ _ E3). split; [done|]. by replace n with (n - (n - k) mod 4 + (n - k) mod 4) by lia.
  - destruct (byte_copy_fwd_ok Hsafe 0 n m0) as (m1 & E1 & Hw1); [lia|lia|lia|done|]. rewrite <- Ed, <- Es in E1. exists m1. rewrite (bind_ret _ _ m0 (n, d, s) m0) by done.
    cbn [fst snd]. by rewrite (bind_ret _ _ _ _ _ E1).
Qed.

Lemma i386_memcpy_ok : d ≤ s ∨ s + n ≤ d → ∃ m', memcpy_i386 d s n m0 = Ret (d, m') ∧ window 0 n m'.
Proof.
  intros Hsafe. unfold memcpy_i386. destruct (rep_movsl_ok Hsafe (n / 4) m0) as (m1 & E1 & Hw1); [zlia|zlia|apply window_start|].
  rewrite !(u32_small d), !(u32_small s) in E1 by done. rewrite (bind_ret _ _ _ _ _ E1). cbn [fst snd]. rewrite land3. destruct (Z.eqb_spec (n mod 4) 0) as [H0|H0].
  - exists m1. split; [done|]. by replace n with (4 * (n / 4)) by zlia.
  - destruct (rep_movsb_up_ok Hsafe (4 * (n / 4)) (n mod 4) m1) as (r & m2 & E2 & Hw2); [zlia|zlia|zlia|done|]. exists m2.
    rewrite bind_assoc. rewrite (bind_ret _ _ _ _ _ E2). split; [done|]. by replace n with (4 * (n / 4) + n mod 4) by zlia.
Qed.

Lemma word_copy_bwd_ok p : s ≤ d ∨ d + n ≤ s → 8 ≤ p → p ≤ n → (d + p) mod 4 = 0 → ∀ m, window p n m →
  ∃ m', Generic.WORD_COPY_BWD junk (u32 (d + p)) (u32 (s + p)) p m = Ret ((p mod 4, u32 (d + p mod 4), u32 (s + p mod 4)), m') ∧ window (p mod 4) n m'.
Proof.
  intros Hsafe Hp Hpn Hal m Hw. unfold Generic.WORD_COPY_BWD. change OPSIZ with 4.
  assert (HN : 2 ≤ p / 4) by zlia. assert (Hr : p - 4 * (p / 4) = p mod 4) by zlia.
  assert (E0 : u32 (s + p) mod 4 = (s + p) mod 4) by (unfold u32; zlia). rewrite E0.
  assert (∃ m', (if (s + p) mod 4 =? 0 then Generic.wordcopy_bwd_aligned junk (u32 (d + p)) (u32 (s + p)) (p / 4)
    else Generic.wordcopy_bwd_dest_aligned (u32 (d + p)) (u32 (s + p)) (p / 4)) m = Ret (tt, m') ∧ window (p - 4 * (p / 4)) n m') as (m' & E & Hw').
  { destruct (Z.eqb_spec ((s + p) mod 4) 0) as [H0|H0]; [apply wordcopy_bwd_aligned_ok|apply wordcopy_bwd_dest_aligned_ok]; try done; try lia; try zlia.
    by apply source_words; lia. }
  exists m'. rewrite (bind_ret _ _ _ _ _ E). change (u32 (- 4)) with (u32 (- OPSIZ)). rewrite land_opsiz by lia. rewrite Hr in Hw'. split; [|done]. rewrite !u32_pred.
  replace (d + p - (p - p mod 4)) with (d + p mod 4) by lia. by replace (s + p - (p - p mod 4)) with (s + p mod 4) by lia.
Qed.

(** Any overlap. *)
Lemma memmove_ok : ∃ m', Generic.memmove junk d s n m0 = Ret (d, m') ∧ window 0 n m'.
Proof.
  unfold Generic.memmove. destruct (Z.leb_spec n (d -u s)) as [Hf|Hb].
  - destruct memcpy_ok as (m' & E & Hw); [unfold u32 in Hf; zlia|]. exists m'. rewrite bind_assoc. by rewrite (bind_ret _ _ _ _ _ E).
  - assert (Hsafe : s ≤ d ∨ d + n ≤ s) by (unfold u32 in Hb; zlia). pose proof (window_start m0 d s n) as Hw0. cbv zeta. unfold OP_T_THRES. destruct (Z.leb_spec 16 n) as [Hl|Hl].
    + set (k := (d +u n) mod OPSIZ). assert (Hk : 0 ≤ k < 4 ∧ (d + (n - k)) mod 4 = 0) by (unfold k, OPSIZ, u32; zlia).
      destruct (byte_copy_bwd_ok Hsafe n k m0) as (m1 & E1 & Hw1); [lia|lia|done|].
      destruct (word_copy_bwd_ok (n - k) Hsafe ltac:(lia) ltac:(lia) ltac:(lia) m1 Hw1) as (m2 & E2 & Hw2).
      destruct (byte_copy_bwd_ok Hsafe ((n - k) mod 4) ((n - k) mod 4) m2) as (m3 & E3 & Hw3); [zlia|zlia|done|].
      exists m3. rewrite !bind_assoc. rewrite (bind_ret _ _ _ _ _ E1). cbn [fst snd]. rewrite (u32_small (n - k)) by lia. rewrite (bind_ret _ _ _ _ _ E2). cbn [fst snd].
      rewrite bind_assoc. rewrite (bind_ret _ _ _ _ _ E3). split; [done|]. by rewrite Z.sub_diag in Hw3.
    + destruct (byte_copy_bwd_ok Hsafe n n m0) as (m1 & E1 & Hw1); [lia|lia|done|]. exists m1. rewrite !bind_assoc. rewrite (bind_ret _ _ m0 (n, d +u n, s +u n) m0) by done.
      cbn [fst snd]. rewrite bind_assoc. rewrite (bind_ret _ _ _ _ _ E1). split; [done|]. by rewrite Z.sub_diag in Hw1.
Qed.

Lemma i386_memmove_ok : ∃ m', memmove_i386 d s n m0 = Ret (d, m') ∧ window 0 n m'.
Proof.
  unfold memmove_i386. destruct (Z.eqb_spec d s) as [E|Hne]; [|destruct (Z.ltb_spec d s) as [Hlt|Hge]].
  - exists m0. split; [done|]. intros x. rewrite E. replace (s + (x - s)) with x by lia. by destruct (_ && _).
  - destruct (rep_movsb_up_ok ltac:(lia) 0 n m0) as (r & m' & E & Hw); [lia|lia|lia|apply window_start|]. rewrite !Z.add_0_r, !(u32_small d), !(u32_small s) in E by done.
    exists m'. rewrite bind_assoc. by rewrite (bind_ret _ _ _ _ _ E).
  - destruct (rep_movsb_down_ok ltac:(lia) m0 (proj1 Hn) (window_start m0 d s n)) as (r & m' & E & Hw). exists m'. rewrite !u32_pred. rewrite bind_assoc. by rewrite (bind_ret _ _ _ _ _ E).
Qed.
End Functions.
End Copy.

(** ** Filling *)

Section Fill.
Context (m0 : mem) (d c n : Z).
Hypothesis Hd : 0 ≤ d ∧ d + n ≤ 2 ^ 32.
Hypothesis Hmd : mapped m0 d (d + n).
Let x8 : Z := u8 c.
Let x32 : Z := word x8 x8 x8 x8.

(** The first [k] bytes were set. *)
Definition filled (k : Z) (m : mem) : Prop :=
  ∀ x, m !! x = if (d <=? x) && (x <? d + k) then Some (u8 c) else m0 !! x.

Lemma filled_start : filled 0 m0.
Proof. intros x. by rewrite (proj2 (andb_false_iff _ _)) by (rewrite Z.leb_gt, Z.ltb_ge; lia). Qed.
Lemma filled_mapped k m x : filled k m → d ≤ x < d + n → is_Some (m !! x).
Proof. intros Hf Hx. rewrite Hf. destruct (_ && _); [by eexists|by apply Hmd]. Qed.
Lemma x8_byte : is_byte x8.
Proof. apply u8_byte. Qed.

Lemma fill8 k m : 0 ≤ k < n → filled k m → ∃ m', store8 (d + k) x8 m = Ret (tt, m') ∧ filled (k + 1) m'.
Proof.
  intros Hk Hf. eexists. split; [apply store8_ok, (filled_mapped k m); [done|lia]|]. intros x. destruct (decide (x = d + k)) as [->|Hx].
  - rewrite lookup_insert_eq, (proj2 (Z.leb_le _ _)), (proj2 (Z.ltb_lt _ _)) by lia. done.
  - rewrite lookup_insert_ne by done. rewrite Hf. destruct (Z.leb_spec d x), (Z.ltb_spec x (d + k)), (Z.ltb_spec x (d + (k + 1))); cbn [andb]; try done; lia.
Qed.
Lemma fill32 k m : 0 ≤ k → k + 4 ≤ n → filled k m → ∃ m', store32 (d + k) x32 m = Ret (tt, m') ∧ filled (k + 4) m'.
Proof.
  intros Hk0 Hk Hf. eexists. split.
  - apply store32_ok; try apply x8_byte. intros x Hx. apply (filled_mapped k m); [done|lia].
  - intros x. destruct (Z.leb_spec d x), (Z.ltb_spec x (d + (k + 4))); cbn [andb].
    2,3,4: rewrite !lookup_insert_ne, Hf by lia; destruct (Z.leb_spec d x), (Z.ltb_spec x (d + k)); cbn [andb]; try done; lia.
    destruct (Z.lt_ge_cases x (d + k)).
    + rewrite !lookup_insert_ne, Hf by lia. by rewrite (proj2 (Z.leb_le _ _)), (proj2 (Z.ltb_lt _ _)) by lia.
    + assert (x = d + k ∨ x = d + k + 1 ∨ x = d + k + 2 ∨ x = d + k + 3) as [->|[->|[->| ->]]] by lia;
        rewrite ?lookup_insert_ne by lia; apply lookup_insert_eq.
Qed.

(** A loop that sets [w] bytes at a time. *)
Lemma fill_loop {B} w (store : Z → M mem unit) (out : Z → B) (body : Z * Z → M mem (Z * Z + B)) k j m :
  0 < w → 0 ≤ j → 0 ≤ k → j + w * k ≤ n → k < 2 ^ 32 →
  (∀ i m, 0 ≤ i → i + w ≤ n → filled i m → ∃ m', store (d + i) m = Ret (tt, m') ∧ filled (i + w) m') →
  (∀ x p m, 0 < x → body (x, p) m = (store p ;; mret (inl (x - 1, p +u w))) m) →
  (∀ p m, body (0, p) m = Ret (inr (out p), m)) → filled j m →
  ∃ m', while COUNTS body (k, u32 (d + j)) m = Ret (out (u32 (d + (j + w * k))), m') ∧ filled (j + w * k) m'.
Proof.
  intros Hw Hj Hk Hjk Hk32 Hst Hgo Hout Hf.
  edestruct (while_total (λ '(x, p) m, ∃ i, 0 ≤ i ≤ k ∧ x = k - i ∧ p = u32 (d + (j + w * i)) ∧ filled (j + w * i) m)
    (λ '(x, _) _, x) (λ r m, r = out (u32 (d + (j + w * k))) ∧ filled (j + w * k) m)) as (r & m' & E & -> & Hf'); [| | |by exists m'].
  - intros [x p] m1 (i & Hi & -> & -> & Hf1). destruct (Z.eq_dec i k) as [->|Hne].
    + right. rewrite Z.sub_diag, Hout. by eexists _, m1.
    + left. rewrite Hgo by lia. assert (j + w * i + w ≤ j + w * k) by nia. rewrite (u32_small (d + (j + w * i))) by nia.
      destruct (Hst (j + w * i) m1) as (m2 & E & Hf2); [nia|lia|done|]. rewrite (bind_ret _ _ _ _ _ E). eexists _, m2. split; [reflexivity|]. split; [|lia].
      exists (i + 1). split; [lia|]. split; [lia|]. split; [f_equal; lia|]. by replace (j + w * (i + 1)) with (j + w * i + w) by lia.
  - exists 0. rewrite Z.mul_0_r, Z.add_0_r, Z.sub_0_r. split; [lia|]. done.
  - unfold COUNTS. lia.
Qed.

Hypothesis Hn : is_u32 n.
Hypothesis Hd32 : is_u32 d.

Lemma i386_fill_bytes j k m : 0 < k → 0 ≤ j → j + k ≤ n → filled j m →
  ∃ m', while COUNTS (λ '(reg, edi), store8 edi x8 ;; let reg := reg - 1 in if reg =? 0 then mret (inr tt) else mret (inl (reg, edi +u 1))) (k, u32 (d + j)) m = Ret (tt, m') ∧ filled (j + k) m'.
Proof.
  intros Hk Hj Hjk Hf.
  edestruct (while_total (λ '(x, p) m, ∃ i, 0 ≤ i < k ∧ x = k - i ∧ p = u32 (d + (j + i)) ∧ filled (j + i) m) (λ '(x, _) _, x) (λ (_ : unit) m, filled (j + k) m))
    as ([] & m' & E & Hf'); [| | |by exists m'].
  - intros [x p] m1 (i & Hi & -> & -> & Hf1). rewrite (u32_small (d + (j + i))) by lia. destruct (fill8 (j + i) m1) as (m2 & E & Hf2); [lia|done|].
    rewrite (bind_ret _ _ _ _ _ E). cbv zeta. destruct (Z.eqb_spec (k - i - 1) 0).
    + right. exists tt, m2. split; [done|]. by replace (j + k) with (j + i + 1) by lia.
    + left. eexists _, m2. split; [reflexivity|]. split; [|lia]. exists (i + 1). split; [lia|]. split; [lia|]. split; [f_equal; lia|]. by replace (j + (i + 1)) with (j + i + 1) by lia.
  - exists 0. rewrite Z.add_0_r, Z.sub_0_r. split; [lia|]. done.
  - unfold COUNTS. lia.
Qed.

Lemma i386_memset_ok : ∃ m', memset_i386 d c n m0 = Ret (d, m') ∧ filled n m'.
Proof.
  unfold memset_i386. cbv zeta. rewrite Z.shiftr_div_pow2 by lia. change (2 ^ 2) with 4. rewrite land3. fold x8.
  assert (Ex : x8 *u 0x01010101 = x32) by (pose proof x8_byte; unfold is_byte, x32, word in *; rewrite u32_small; lia). rewrite Ex.
  assert (∃ m1, (if n / 4 =? 0 then mret d else while COUNTS (λ '(ecx, edi), if ecx =? 0 then mret (inr edi) else store32 edi x32 ;; mret (inl (ecx - 1, edi +u 4))) (n / 4, d)) m0
    = Ret (u32 (d + 4 * (n / 4)), m1) ∧ filled (4 * (n / 4)) m1) as (m1 & E1 & Hf1).
  { destruct (Z.eqb_spec (n / 4) 0) as [E|E].
    - exists m0. rewrite E, Z.mul_0_r, Z.add_0_r, (u32_small d) by done. split; [done|apply filled_start].
    - destruct (fill_loop 4 (λ p, store32 p x32) (λ p, p) (λ '(ecx, edi), if ecx =? 0 then mret (inr edi) else store32 edi x32 ;; mret (inl (ecx - 1, edi +u 4))) (n / 4) 0 m0)
        as (m1 & E1 & Hf1); [lia|lia|zlia|zlia|zlia|apply fill32| |done|apply filled_start|].
      + intros x p m Hx. by rewrite (proj2 (Z.eqb_neq x 0)) by lia.
      + rewrite Z.add_0_r, (u32_small d) in E1 by done. by exists m1. }
  rewrite (bind_ret _ _ _ _ _ E1). destruct (Z.eqb_spec (n mod 4) 0) as [H0|H0].
  - exists m1. split; [done|]. by replace n with (4 * (n / 4)) by zlia.
  - destruct (i386_fill_bytes (4 * (n / 4)) (n mod 4) m1) as (m2 & E2 & Hf2); [zlia|zlia|zlia|done|]. exists m2. rewrite (bind_ret _ _ _ _ _ E2).
    split; [done|]. by replace n with (4 * (n / 4) + n mod 4) by zlia.
Qed.

(** The loops of the generic one. *)
Lemma align_fill : let k := (- d) mod 4 in k ≤ n →
  ∃ m', while COUNTS (λ '(dstp, len), if negb (dstp mod OPSIZ =? 0) then store8 dstp x8 ;; mret (inl (dstp +u 1, len -u 1)) else mret (inr (dstp, len))) (d, n) m0
    = Ret ((u32 (d + k), n - k), m') ∧ filled k m'.
Proof.
  intros k Hk. assert (Hkb : 0 ≤ k < 4 ∧ (d + k) mod 4 = 0) by (unfold k; zlia).
  edestruct (while_total (λ '(p, l) m, ∃ i, 0 ≤ i ≤ k ∧ p = u32 (d + i) ∧ l = n - i ∧ filled i m) (λ '(_, l) _, l) (λ r m, r = (u32 (d + k), n - k) ∧ filled k m))
    as (r & m' & E & -> & Hf); [| | |by exists m'].
  - intros [p l] m1 (i & Hi & -> & -> & Hf1). destruct (Z.eq_dec i k) as [->|Hne].
    + right. assert (E : u32 (d + k) mod OPSIZ = 0) by (unfold u32, OPSIZ; zlia). rewrite E. by eexists _, m1.
    + left. assert (E : u32 (d + i) mod OPSIZ ≠ 0) by (unfold k, u32, OPSIZ in *; zlia). rewrite (proj2 (Z.eqb_neq _ _) E). cbn [negb].
      rewrite (u32_small (d + i)) by lia. destruct (fill8 i m1) as (m2 & E2 & Hf2); [lia|done|]. rewrite (bind_ret _ _ _ _ _ E2).
      eexists _, m2. split; [reflexivity|]. rewrite (u32_small (n - i - 1)) by lia. split; [|lia]. exists (i + 1). split; [lia|]. split; [f_equal; lia|]. split; [lia|done].
  - exists 0. rewrite Z.add_0_r, Z.sub_0_r, u32_small by done. split; [lia|]. split; [done|]. split; [done|apply filled_start].
  - unfold COUNTS. lia.
Qed.

Lemma tail_fill j m : 0 ≤ j ≤ n → filled j m →
  ∃ m', while COUNTS (λ '(dstp, len), if 0 <? len then store8 dstp x8 ;; mret (inl (dstp +u 1, len - 1)) else mret (inr tt)) (u32 (d + j), n - j) m = Ret (tt, m') ∧ filled n m'.
Proof.
  intros Hj Hf. edestruct (while_total (λ '(p, l) m, ∃ i, j ≤ i ≤ n ∧ p = u32 (d + i) ∧ l = n - i ∧ filled i m) (λ '(_, l) _, l) (λ (_ : unit) m, filled n m))
    as ([] & m' & E & Hf'); [| | |by exists m'].
  - intros [p l] m1 (i & Hi & -> & -> & Hf1). destruct (Z.ltb_spec 0 (n - i)) as [Hl|Hl].
    + left. rewrite (u32_small (d + i)) by lia. destruct (fill8 i m1) as (m2 & E2 & Hf2); [lia|done|]. rewrite (bind_ret _ _ _ _ _ E2).
      eexists _, m2. split; [reflexivity|]. split; [|lia]. exists (i + 1). split; [lia|]. split; [f_equal; lia|]. split; [lia|done].
    + right. assert (i = n) as -> by lia. by exists tt, m1.
  - exists j. split; [lia|]. done.
  - unfold COUNTS. lia.
Qed.

Lemma fill_block k m : 0 ≤ k → k + 32 ≤ n → filled k m →
  ∃ m', forM (seqZ 0 8) (λ i, store32 (d + k +u OPSIZ * i) x32) m = Ret (tt, m') ∧ filled (k + 32) m'.
Proof.
  intros Hk0 Hk Hf. destruct (forM_count (λ i, store32 (d + k +u OPSIZ * i) x32) (λ i m, filled (k + 4 * i) m) 8 m) as (m' & E & Hf'); [lia| |by rewrite Z.mul_0_r, Z.add_0_r|by exists m'].
  intros i m1 Hi Hf1. unfold OPSIZ. rewrite u32_small by lia. destruct (fill32 (k + 4 * i) m1) as (m2 & E & Hf2); [lia|lia|done|].
  exists m2. replace (d + k + 4 * i) with (d + (k + 4 * i)) by lia. split; [done|]. by replace (k + 4 * (i + 1)) with (k + 4 * i + 4) by lia.
Qed.

Lemma memset_cccc : let cccc := u8 c in let cccc := Z.lor cccc (u32 (Z.shiftl cccc 8)) in Z.lor cccc (u32 (Z.shiftl cccc 16)) = x32.
Proof.
  pose proof x8_byte as H. cbv zeta. fold x8. unfold is_byte in H. rewrite (u32_small (Z.shiftl x8 8)) by (rewrite Z.shiftl_mul_pow2; lia). exact (charmask_word x8 H).
Qed.

Lemma memset_ok : ∃ m', Generic.memset d c n m0 = Ret (d, m') ∧ filled n m'.
Proof.
  unfold Generic.memset. rewrite memset_cccc. fold x8. destruct (Z.leb_spec 8 n) as [Hl|Hl].
  - set (k := (- d) mod 4). assert (Hk : 0 ≤ k < 4) by (unfold k; zlia). destruct (align_fill ltac:(fold k; lia)) as (m1 & E1 & Hf1). fold k in E1, Hf1.
    cbv zeta. rewrite bind_assoc. rewrite (bind_ret _ _ _ _ _ E1). rewrite bind_assoc. change (OPSIZ * 8) with 32. change (8 * OPSIZ) with 32.
    set (a := n - k). assert (Ha : 0 ≤ a / 32 ∧ 32 * (a / 32) + a mod 32 = a ∧ 0 ≤ a mod 32 < 32 ∧ a < 2 ^ 32) by (unfold a; zlia).
    match goal with |- context [while COUNTS ?b (a / 32, u32 (d + k))] =>
      destruct (fill_loop 32 (λ p, forM (seqZ 0 8) (λ i, store32 (p +u OPSIZ * i) x32)) (λ p, p) b (a / 32) k m1) as (m2 & E2 & Hf2) end;
      [lia|lia|lia|unfold a in *; lia|zlia|intros i m Hi Hin; apply fill_block; lia| |done|done|].
    { intros x p m Hx. by rewrite (proj2 (Z.ltb_lt 0 x)) by lia. }
    rewrite (bind_ret _ _ _ _ _ E2). rewrite bind_assoc. change OPSIZ with 4.
    set (q := a mod 32). assert (Hq : 4 * (q / 4) + q mod 4 = q ∧ 0 ≤ q / 4 ∧ 0 ≤ q mod 4 < 4 ∧ q / 4 < 32) by (unfold q in *; zlia). set (j := k + 32 * (a / 32)) in *.
    match goal with |- context [while COUNTS ?b (q / 4, u32 (d + j))] =>
      destruct (fill_loop 4 (λ p, store32 p x32) (λ p, p) b (q / 4) j m2) as (m3 & E3 & Hf3) end;
      [lia|unfold j; lia|lia|unfold j, q, a in *; lia|lia|apply fill32| |done|done|].
    { intros x p m Hx. by rewrite (proj2 (Z.ltb_lt 0 x)) by lia. }
    rewrite (bind_ret _ _ _ _ _ E3). rewrite (bind_ret _ _ _ _ _ eq_refl).
    destruct (tail_fill (j + 4 * (q / 4)) m3) as (m4 & E4 & Hf4); [unfold j, q, a in *; lia|done|]. exists m4.
    replace (n - (j + 4 * (q / 4))) with (q mod 4) in E4 by (unfold j, q, a in *; lia). by rewrite (bind_ret _ _ _ _ _ E4).
  - destruct (tail_fill 0 m0) as (m1 & E1 & Hf1); [lia|apply filled_start|]. rewrite Z.add_0_r, Z.sub_0_r, (u32_small d) in E1 by done.
    exists m1. rewrite (bind_ret _ _ m0 (d, n) m0) by done. by rewrite (bind_ret _ _ _ _ _ E1).
Qed.
End Fill.

(** ** Properties *)

Lemma window_unique m0 d s a b m m' : window m0 d s a b m → window m0 d s a b m' → m = m'.
Proof. intros H1 H2. apply map_eq. intros x. by rewrite H1, H2. Qed.
Lemma filled_unique m0 d c k m m' : filled m0 d c k m → filled m0 d c k m' → m = m'.
Proof. intros H1 H2. apply map_eq. intros x. by rewrite H1, H2. Qed.
Lemma words_mapped m s n : (∀ x, s ≤ x < s + n → mapped m (x / 4 * 4) (longword_end x)) → mapped m s (s + n).
Proof. intros H x Hx. apply (H x Hx). unfold longword_end. zlia. Qed.

(** C23: copying memory.  The word-at-a-time [memmove], whose loops read every word one or two steps
    ahead of its store and which reads whole words around the ends of the source, and the
    one with string instructions end in the same memory: the [n] bytes at the destination
    are those the source had, whatever the two have in common, and nothing else has
    changed.  So do both versions of [memcpy] when the destination does not begin inside
    the source. *)
Theorem memmove_equiv junk m d s n :
  mem_ok m → is_u32 d → is_u32 s → is_u32 n → d + n ≤ 2 ^ 32 → s + n ≤ 2 ^ 32 → mapped m d (d + n) →
  (∀ x, s ≤ x < s + n → mapped m (x / 4 * 4) (longword_end x)) →
  ∃ m', Generic.memmove junk d s n m = Ret (d, m') ∧ memmove_i386 d s n m = Ret (d, m') ∧
    (d ≤ s ∨ s + n ≤ d → Generic.memcpy junk d s n m = Ret (d, m') ∧ memcpy_i386 d s n m = Ret (d, m')) ∧
    ∀ x, m' !! x = if (d <=? x) && (x <? d + n) then m !! (s + (x - d)) else m !! x.
Proof.
  intros Hok Hd Hs Hn Hdn Hsn Hmd Hw. pose proof (words_mapped m s n Hw) as Hms.
  assert (Hd' : 0 ≤ d ∧ d + n ≤ 2 ^ 32) by lia. assert (Hs' : 0 ≤ s ∧ s + n ≤ 2 ^ 32) by lia.
  destruct (memmove_ok m d s n Hok Hd' Hs' Hmd Hms junk Hn Hd Hs Hw) as (m' & E & Hwin).
  destruct (i386_memmove_ok m d s n Hd' Hs' Hmd Hms Hn Hd Hs) as (m1 & E1 & W1). rewrite (window_unique _ _ _ _ _ _ _ W1 Hwin) in E1.
  exists m'. split; [done|]. split; [done|]. split.
  - intros Hsafe. destruct (memcpy_ok m d s n Hok Hd' Hs' Hmd Hms junk Hn Hd Hs Hw Hsafe) as (m2 & E2 & W2). rewrite (window_unique _ _ _ _ _ _ _ W2 Hwin) in E2.
    destruct (i386_memcpy_ok m d s n Hok Hd' Hs' Hmd Hms Hn Hd Hs Hsafe) as (m3 & E3 & W3). by rewrite (window_unique _ _ _ _ _ _ _ W3 Hwin) in E3.
  - intros x. rewrite Hwin. by rewrite Z.add_0_r.
Qed.

(** The bytes 0 to 63 at 1000; 40 of them go up by 7, over themselves. *)
Definition demo_bytes : list Z := seqZ 0 64.
Lemma mapped_lay a l m b e : a ≤ b → e ≤ a + Z.of_nat (length l) → mapped (lay a l m) b e.
Proof.
  intros Hb He x Hx. destruct (lookup_lt_is_Some_2 l (Z.to_nat (x - a))) as [y Hy]; [lia|]. exists y.
  replace x with (a + Z.of_nat (Z.to_nat (x - a))) by lia. by apply (bytes_at_lay a l m).
Qed.
Lemma mapped_demo_bytes b e : 1000 ≤ b → e ≤ 1064 → mapped (lay 1000 demo_bytes ∅) b e.
Proof. intros Hb He. apply mapped_lay; [done|]. assert (E : length demo_bytes = 64%nat) by (by vm_compute). rewrite E. lia. Qed.

Lemma memmove_equiv_witness :
  ∃ m', Generic.memmove 0 1010 1003 40 (lay 1000 demo_bytes ∅) = Ret (1010, m') ∧ memmove_i386 1010 1003 40 (lay 1000 demo_bytes ∅) = Ret (1010, m') ∧
    m' !! 1010 = Some 3 ∧ m' !! 1049 = Some 42 ∧ m' !! 1050 = Some 50.
Proof.
  destruct (memmove_equiv 0 (lay 1000 demo_bytes ∅) 1010 1003 40) as (m' & E1 & E2 & _ & H).
  - apply mem_ok_dec. vm_compute. reflexivity.
  - done.
  - done.
  - done.
  - done.
  - done.
  - by apply mapped_demo_bytes.
  - intros x Hx. apply mapped_demo_bytes; [zlia|unfold longword_end; zlia].
  - exists m'. split; [exact E1|]. split; [exact E2|]. clear E1 E2. rewrite !H. split; [|split]; vm_compute; reflexivity.
Defined.

(** Setting memory.  The word-at-a-time [memset] and the one with string instructions
    set the [n] bytes from [d] on to the low byte of [c], and nothing else. *)
Theorem memset_equiv m d c n :
  is_u32 d → is_u32 n → d + n ≤ 2 ^ 32 → mapped m d (d + n) →
  ∃ m', Generic.memset d c n m = Ret (d, m') ∧ memset_i386 d c n m = Ret (d, m') ∧
    ∀ x, m' !! x = if (d <=? x) && (x <? d + n) then Some (u8 c) else m !! x.
Proof.
  intros Hd Hn Hdn Hmd. assert (Hd' : 0 ≤ d ∧ d + n ≤ 2 ^ 32) by lia.
  destruct (memset_ok m d c n Hd' Hmd Hn Hd) as (m' & E & Hf). destruct (i386_memset_ok m d c n Hd' Hmd Hn Hd) as (m1 & E1 & F1).
  rewrite (filled_unique _ _ _ _ _ _ F1 Hf) in E1. by exists m'.
Qed.

Lemma memset_equiv_witness :
  ∃ m', Generic.memset 1001 (-1) 50 (lay 1000 demo_bytes ∅) = Ret (1001, m') ∧ m' !! 1000 = Some 0 ∧ m' !! 1050 = Some 255 ∧ m' !! 1051 = Some 51.
Proof.
  destruct (memset_equiv (lay 1000 demo_bytes ∅) 1001 (-1) 50) as (m' & E1 & _ & H).
  - done.
  - done.
  - done.
  - by apply mapped_demo_bytes.
  - exists m'. split; [exact E1|]. clear E1. rewrite !H. split; [|split]; vm_compute; reflexivity.
Defined.
