(* ===== verification/MemCmp.v ===== *)
(** * Comparing memory

    [memcmp] of [uClibc/libc/string/generic/memcmp.c]: bytes until the second block is
    aligned, then words in unrolled loops that are entered in their middle and in which the
    words of the next comparison are read before the one at hand is made; words of the first
    block are made of two when it is not aligned; bytes at the end.  It is proved equal to
    the comparison byte by byte. *)
From Stdlib Require Import ZArith Lia.
From stdpp Require Import base gmap list.
From S2P Require Import Prelude Word WordScan MemCopy.
Open Scope Z_scope.
Open Scope u32_scope.

(** ** The code *)

(** The bytes of two different words, the lowest first; what is behind the words must not
    be read. *)
Definition memcmp_bytes (a b : Z) : M mem Z :=
  while 5
    (λ i,
       if 4 <=? i then crash OutOfBounds
       else
         let a0 := Z.shiftr a (8 * i) mod 2 ^ 8 in
         let b0 := Z.shiftr b (8 * i) mod 2 ^ 8 in
         if a0 =? b0 then mret (inl (i + 1)) else mret (inr (s32 (a0 -u b0)))) 0.

Record cregs : Type := mkCregs { srcp1 : Z; srcp2 : Z; clen : Z; ca0 : Z; ca1 : Z; ca2 : Z; ca3 : Z; cb0 : Z; cb1 : Z; cb2 : Z; cb3 : Z }.
Definition set_0 (a b : Z) (r : cregs) : cregs := mkCregs (srcp1 r) (srcp2 r) (clen r) a (ca1 r) (ca2 r) (ca3 r) b (cb1 r) (cb2 r) (cb3 r).
Definition set_1 (a b : Z) (r : cregs) : cregs := mkCregs (srcp1 r) (srcp2 r) (clen r) (ca0 r) a (ca2 r) (ca3 r) (cb0 r) b (cb2 r) (cb3 r).
Definition set_2 (a b : Z) (r : cregs) : cregs := mkCregs (srcp1 r) (srcp2 r) (clen r) (ca0 r) (ca1 r) a (ca3 r) (cb0 r) (cb1 r) b (cb3 r).
Definition set_3 (a b : Z) (r : cregs) : cregs := mkCregs (srcp1 r) (srcp2 r) (clen r) (ca0 r) (ca1 r) (ca2 r) a (cb0 r) (cb1 r) (cb2 r) b.

(** [a = srcp1\[i\]; b = srcp2\[i\]; if (x != y) return CMP_LT_OR_GT (x, y);]: a value that is
    returned is [inl]. *)
Definition cmp_step (set : Z → Z → cregs → cregs) (i : Z) (x y : cregs → Z) (r : cregs) : M mem (Z + cregs) :=
  a ← load32 (srcp1 r +u 4 * i);
  b ← load32 (srcp2 r +u 4 * i);
  if x r =? y r then mret (inr (set a b r)) else v ← memcmp_bytes (x r) (y r); mret (inl v).
Fixpoint run_cmp (l : list (cregs → M mem (Z + cregs))) (r : cregs) : M mem (Z + cregs) :=
  match l with
  | [] => mret (inr r)
  | f :: l => x ← f r; match x with inl v => mret (inl v) | inr r => run_cmp l r end
  end.
Definition cmp_advance (r : cregs) : cregs :=
  mkCregs (srcp1 r +u 4 * OPSIZ) (srcp2 r +u 4 * OPSIZ) (clen r -u 4) (ca0 r) (ca1 r) (ca2 r) (ca3 r) (cb0 r) (cb1 r) (cb2 r) (cb3 r).
Definition unrolled_cmp (body : list (cregs → M mem (Z + cregs))) (i : nat) (r : cregs) : M mem (Z + cregs) :=
  while COUNTS
    (λ '(i, r),
       x ← run_cmp (drop i body) r;
       match x with
       | inl v => mret (inr (inl v))
       | inr r => let r := cmp_advance r in if clen r =? 0 then mret (inr (inr r)) else mret (inl (0%nat, r))
       end) (i, r).
(** do0. *)
Definition last_cmp (x y : cregs → Z) (res : Z + cregs) : M mem Z :=
  match res with
  | inl v => mret v
  | inr r => if x r =? y r then mret 0 else memcmp_bytes (x r) (y r)
  end.

Section Memcmp.
(** What the uninitialised variables hold. *)
Context (junk : Z).

Definition common_body : list (cregs → M mem (Z + cregs)) :=
  [cmp_step set_0 0 ca1 cb1; cmp_step set_1 1 ca0 cb0; cmp_step set_0 2 ca1 cb1; cmp_step set_1 3 ca0 cb0].

Definition memcmp_common_alignment (srcp1 srcp2 len : Z) : M mem Z :=
  let enter i k1 k2 k_len a0 a1 b0 b1 :=
    r ← unrolled_cmp common_body i (mkCregs (srcp1 +u k1) (srcp2 +u k2) (len +u k_len) a0 a1 junk junk b0 b1 junk junk);
    last_cmp ca1 cb1 r in
  match len mod 4 with
  | 3 => a1 ← Generic.word_at_ptr srcp1 0; b1 ← Generic.word_at_ptr srcp2 0; enter 2%nat (- OPSIZ) (- OPSIZ) 1 junk a1 junk b1
  | 0 =>
      if (OP_T_THRES <=? 3 * OPSIZ) && (len =? 0) then mret 0
      else a0 ← Generic.word_at_ptr srcp1 0; b0 ← Generic.word_at_ptr srcp2 0; enter 1%nat 0 0 0 a0 junk b0 junk
  | 1 =>
      a1 ← Generic.word_at_ptr srcp1 0;
      b1 ← Generic.word_at_ptr srcp2 0;
      if (OP_T_THRES <=? 3 * OPSIZ) && (len -u 1 =? 0) then if a1 =? b1 then mret 0 else memcmp_bytes a1 b1
      else enter 0%nat OPSIZ OPSIZ (-1) junk a1 junk b1
  | _ => a0 ← Generic.word_at_ptr srcp1 0; b0 ← Generic.word_at_ptr srcp2 0; enter 3%nat (- (2 * OPSIZ)) (- (2 * OPSIZ)) 2 a0 junk b0 junk
  end.

Definition merged_cmp (shl shr : Z) (w0 w1 : cregs → Z) (r : cregs) : Z := MERGE (w0 r) shl (w1 r) shr.
Definition not_common_body (shl shr : Z) : list (cregs → M mem (Z + cregs)) :=
  [cmp_step set_0 0 (merged_cmp shl shr ca2 ca3) cb3; cmp_step set_1 1 (merged_cmp shl shr ca3 ca0) cb0;
   cmp_step set_2 2 (merged_cmp shl shr ca0 ca1) cb1; cmp_step set_3 3 (merged_cmp shl shr ca1 ca2) cb2].

Definition memcmp_not_common_alignment (srcp1 srcp2 len : Z) : M mem Z :=
  let shl := 8 * (srcp1 mod OPSIZ) in
  let shr := 8 * OPSIZ - shl in
  let srcp1 := Z.land srcp1 (u32 (- OPSIZ)) in
  let enter i k1 k2 k_len a0 a1 a2 a3 b0 b1 b2 b3 :=
    r ← unrolled_cmp (not_common_body shl shr) i (mkCregs (srcp1 +u k1) (srcp2 +u k2) (len +u k_len) a0 a1 a2 a3 b0 b1 b2 b3);
    last_cmp (merged_cmp shl shr ca2 ca3) cb3 r in
  match len mod 4 with
  | 3 =>
      a0 ← Generic.word_at_ptr srcp1 0; a1 ← Generic.word_at_ptr srcp1 1; b1 ← Generic.word_at_ptr srcp2 0;
      enter 2%nat 0 (- OPSIZ) 1 a0 a1 junk junk junk b1 junk junk
  | 0 =>
      if (OP_T_THRES <=? 3 * OPSIZ) && (len =? 0) then mret 0
      else
        a3 ← Generic.word_at_ptr srcp1 0; a0 ← Generic.word_at_ptr srcp1 1; b0 ← Generic.word_at_ptr srcp2 0;
        enter 1%nat OPSIZ 0 0 a0 junk junk a3 b0 junk junk junk
  | 1 =>
      a2 ← Generic.word_at_ptr srcp1 0; a3 ← Generic.word_at_ptr srcp1 1; b3 ← Generic.word_at_ptr srcp2 0;
      if (OP_T_THRES <=? 3 * OPSIZ) && (len -u 1 =? 0) then
        let x := MERGE a2 shl a3 shr in if x =? b3 then mret 0 else memcmp_bytes x b3
      else enter 0%nat (2 * OPSIZ) OPSIZ (-1) junk junk a2 a3 junk junk junk b3
  | _ =>
      a1 ← Generic.word_at_ptr srcp1 0; a2 ← Generic.word_at_ptr srcp1 1; b2 ← Generic.word_at_ptr srcp2 0;
      enter 3%nat (- OPSIZ) (- (2 * OPSIZ)) 2 junk a1 a2 junk junk junk b2 junk
  end.

(** Bytes while [more] of the second pointer and the count: [inl] when they differ. *)
Definition byte_cmp (more : Z → Z → bool) (srcp1 srcp2 len : Z) : M mem (Z + Z * Z * Z) :=
  while COUNTS
    (λ '(srcp1, srcp2, len),
       if more srcp2 len then
         a0 ← load8 srcp1;
         b0 ← load8 srcp2;
         let res := a0 -u b0 in
         if negb (res =? 0) then mret (inr (inl (s32 res))) else mret (inl (srcp1 +u 1, srcp2 +u 1, len -u 1))
       else mret (inr (inr (srcp1, srcp2, len)))) (srcp1, srcp2, len).

Definition memcmp (s1 s2 len : Z) : M mem Z :=
  st ← (if OP_T_THRES <=? len then
          st ← byte_cmp (λ srcp2 _, negb (srcp2 mod OPSIZ =? 0)) s1 s2 len;
          match st with
          | inl res => mret (inl res)
          | inr (srcp1, srcp2, len) =>
              v ← (if srcp1 mod OPSIZ =? 0 then memcmp_common_alignment srcp1 srcp2 (len / OPSIZ)
                   else memcmp_not_common_alignment srcp1 srcp2 (len / OPSIZ));
              let res := u32 v in
              if negb (res =? 0) then mret (inl (s32 res))
              else let k := Z.land len (u32 (- OPSIZ)) in mret (inr (srcp1 +u k, srcp2 +u k, len mod OPSIZ))
          end
        else mret (inr (s1, s2, len)));
  match st with
  | inl res => mret res
  | inr (srcp1, srcp2, len) =>
      st ← byte_cmp (λ _ len, negb (len =? 0)) srcp1 srcp2 len;
      mret (match st with inl res => res | inr _ => 0 end)
  end.
End Memcmp.

(** ** The comparison byte by byte *)

Fixpoint cmp_from (m : mem) (x y : Z) (n : nat) : Z :=
  match n with
  | O => 0
  | Datatypes.S n => if byte_of m x =? byte_of m y then cmp_from m (x + 1) (y + 1) n else byte_of m x - byte_of m y
  end.
Definition same_bytes (m : mem) (x y k : Z) : Prop := ∀ j, 0 ≤ j < k → byte_of m (x + j) = byte_of m (y + j).

Lemma cmp_from_skip m k : ∀ x y n, same_bytes m x y (Z.of_nat k) → cmp_from m x y (k + n) = cmp_from m (x + Z.of_nat k) (y + Z.of_nat k) n.
Proof.
  induction k as [|k IH]; intros x y n H; [by rewrite !Z.add_0_r|]. cbn [Nat.add cmp_from].
  pose proof (H 0 ltac:(lia)) as H0. rewrite !Z.add_0_r in H0. rewrite H0, Z.eqb_refl. rewrite IH.
  - f_equal; lia.
  - intros j Hj. rewrite <- !Z.add_assoc. apply H. lia.
Qed.

Lemma cmp_from_differs m x y k n : same_bytes m x y (Z.of_nat k) → byte_of m (x + Z.of_nat k) ≠ byte_of m (y + Z.of_nat k) → (k < n)%nat →
  cmp_from m x y n = byte_of m (x + Z.of_nat k) - byte_of m (y + Z.of_nat k).
Proof.
  intros H Hne Hk. replace n with (k + Datatypes.S (n - k - 1))%nat by lia. rewrite cmp_from_skip by done. cbn [cmp_from]. by rewrite (proj2 (Z.eqb_neq _ _)).
Qed.
Lemma cmp_from_same m x y n : same_bytes m x y (Z.of_nat n) → cmp_from m x y n = 0.
Proof. intros H. replace n with (n + 0)%nat by lia. rewrite cmp_from_skip by done. done. Qed.

(** ** Words *)

Definition word_byte (w i : Z) : Z := Z.shiftr w (8 * i) mod 2 ^ 8.

Lemma memcmp_bytes_at a b k m : (k < 4)%nat → (∀ j, (j < k)%nat → word_byte a (Z.of_nat j) = word_byte b (Z.of_nat j)) →
  word_byte a (Z.of_nat k) ≠ word_byte b (Z.of_nat k) → memcmp_bytes a b m = Ret (word_byte a (Z.of_nat k) - word_byte b (Z.of_nat k), m).
Proof.
  intros Hk He Hne. unfold memcmp_bytes. apply (while_scan _ (λ j, Z.of_nat j) _ k).
  - done.
  - intros j Hj. rewrite (proj2 (Z.leb_gt 4 _)) by lia. cbv zeta. fold (word_byte a (Z.of_nat j)) (word_byte b (Z.of_nat j)). rewrite (He j Hj), Z.eqb_refl.
    by replace (Z.of_nat (Datatypes.S j)) with (Z.of_nat j + 1) by lia.
  - rewrite (proj2 (Z.leb_gt 4 _)) by lia. cbv zeta. fold (word_byte a (Z.of_nat k)) (word_byte b (Z.of_nat k)). rewrite (proj2 (Z.eqb_neq _ _) Hne).
    assert (E : ∀ w i, 0 ≤ word_byte w i < 256) by (intros w i; unfold word_byte; apply Z.mod_pos_bound; lia). pose proof (E a (Z.of_nat k)). pose proof (E b (Z.of_nat k)).
    by rewrite s32_u32, s32_small by lia.
  - lia.
Qed.

Section Words.
Context (m : mem).
Hypothesis Hok : mem_ok m.

Lemma word_byte_at x i : 0 ≤ i < 4 → word_byte (word_at m x) i = byte_of m (x + i).
Proof.
  intros Hi. unfold word_byte. rewrite Z.shiftr_div_pow2 by lia. unfold word_at.
  destruct (word_bytes_eq (byte_of m x) (byte_of m (x + 1)) (byte_of m (x + 2)) (byte_of m (x + 3))) as (E0 & E1 & E2 & E3); try by apply byte_of_ok.
  assert (i = 0 ∨ i = 1 ∨ i = 2 ∨ i = 3) as [->|[->|[->| ->]]] by lia; [|exact E1|exact E2|exact E3]. change (2 ^ (8 * 0)) with 1. by rewrite Z.div_1_r, Z.add_0_r.
Qed.

Lemma word_at_same x y : word_at m x = word_at m y → same_bytes m x y 4.
Proof. intros E j Hj. rewrite <- !word_byte_at by done. by rewrite E. Qed.

(** The first different byte of two different words. *)
Lemma word_at_differs x y : word_at m x ≠ word_at m y → ∃ k, (k < 4)%nat ∧ same_bytes m x y (Z.of_nat k) ∧ byte_of m (x + Z.of_nat k) ≠ byte_of m (y + Z.of_nat k).
Proof.
  intros Hne. assert (S0 : same_bytes m x y (Z.of_nat 0)) by (intros j Hj; lia).
  assert (Hn : ∀ k, same_bytes m x y (Z.of_nat k) → byte_of m (x + Z.of_nat k) = byte_of m (y + Z.of_nat k) → same_bytes m x y (Z.of_nat (Datatypes.S k))).
  { intros k Hs E j Hj. destruct (Z.eq_dec j (Z.of_nat k)) as [->|]; [done|]. apply Hs. lia. }
  destruct (Z.eq_dec (byte_of m (x + Z.of_nat 0)) (byte_of m (y + Z.of_nat 0))) as [E0|]; [|exists 0%nat; split; [lia|done]]. pose proof (Hn 0%nat S0 E0) as S1.
  destruct (Z.eq_dec (byte_of m (x + Z.of_nat 1)) (byte_of m (y + Z.of_nat 1))) as [E1|]; [|exists 1%nat; split; [lia|done]]. pose proof (Hn 1%nat S1 E1) as S2.
  destruct (Z.eq_dec (byte_of m (x + Z.of_nat 2)) (byte_of m (y + Z.of_nat 2))) as [E2|]; [|exists 2%nat; split; [lia|done]]. pose proof (Hn 2%nat S2 E2) as S3.
  exists 3%nat. split; [lia|]. split; [done|]. intros E3. apply Hne. unfold word_at.
  change (Z.of_nat 0) with 0 in E0. change (Z.of_nat 1) with 1 in E1. change (Z.of_nat 2) with 2 in E2. change (Z.of_nat 3) with 3 in E3. rewrite !Z.add_0_r in E0. by rewrite E0, E1, E2, E3.
Qed.

Lemma memcmp_bytes_ok x y n : word_at m x ≠ word_at m y → (4 ≤ n)%nat → memcmp_bytes (word_at m x) (word_at m y) m = Ret (cmp_from m x y n, m) ∧ cmp_from m x y n ≠ 0.
Proof.
  intros Hne Hn. destruct (word_at_differs x y Hne) as (k & Hk & Hs & Hd). rewrite (cmp_from_differs m x y k n Hs Hd) by lia. split; [|lia].
  rewrite (memcmp_bytes_at _ _ k); [by rewrite !word_byte_at by lia|done| |by rewrite !word_byte_at by lia].
  intros j Hj. rewrite !word_byte_at by lia. apply Hs. lia.
Qed.

(** [N] words from [x] and from [y]. *)
Lemma same_words x y t : (∀ i, 0 ≤ i < t → word_at m (x + 4 * i) = word_at m (y + 4 * i)) → same_bytes m x y (4 * t).
Proof.
  intros H j Hj. pose proof (H (j / 4) ltac:(zlia)) as E. pose proof (word_at_same _ _ E (j mod 4) ltac:(zlia)) as E'.
  rewrite <- !Z.add_assoc in E'. by replace (4 * (j / 4) + j mod 4) with j in E' by zlia.
Qed.
End Words.

(** ** The unrolled loops *)

(** As in MemCopy.v: [t] words are equal, the next are [W1 t] and [W2 t], which a step compares
    as [X i] and [Y i]; [lag] more words of the first block were read, and one of the
    second.  [V] is the result. *)
Section Engine.
Context (m : mem) (F G lag N V : Z) (body : list (cregs → M mem (Z + cregs))).
Context (set : nat → Z → Z → cregs → cregs) (X Y : nat → cregs → Z) (W1 W2 : Z → Z) (pending : nat → Z → cregs → Prop).
Let A (t : Z) : Z := word_at m (F + 4 * t).
Let B (t : Z) : Z := word_at m (G + 4 * t).
Hypothesis HK : length body = 4%nat.
Hypothesis Hbody : ∀ i f, body !! i = Some f → f = cmp_step (set i) (Z.of_nat i) (X i) (Y i).
Hypothesis Hset : ∀ i a b r, srcp1 (set i a b r) = srcp1 r ∧ srcp2 (set i a b r) = srcp2 r ∧ clen (set i a b r) = clen r.
Hypothesis Haddr : ∀ t, 0 ≤ t < N - 1 → 0 ≤ F + 4 * (t + lag) < 2 ^ 32 ∧ 0 ≤ G + 4 * (t + 1) < 2 ^ 32.
Hypothesis Hload : ∀ t, 0 ≤ t < N - 1 → load32 (F + 4 * (t + lag)) m = Ret (A (t + lag), m) ∧ load32 (G + 4 * (t + 1)) m = Ret (B (t + 1), m).
Hypothesis Hval : ∀ i t r, 0 ≤ t < N → pending i t r → X i r = W1 t ∧ Y i r = W2 t.
Hypothesis Hnext : ∀ i t r, (i < 4)%nat → pending i t r → pending (Datatypes.S i) (t + 1) (set i (A (t + lag)) (B (t + 1)) r).
Hypothesis Hagain : ∀ t r, pending 4 t r → pending 0 t (cmp_advance r).
Hypothesis Hdiff : ∀ t, 0 ≤ t < N → (∀ j, 0 ≤ j < t → W1 j = W2 j) → W1 t ≠ W2 t → memcmp_bytes (W1 t) (W2 t) m = Ret (V, m).
Hypothesis Hsame : (∀ j, 0 ≤ j < N → W1 j = W2 j) → V = 0.

Record at_cmp (i : nat) (t : Z) (r : cregs) : Prop := {
  ac_1 : srcp1 r = u32 (F + 4 * (t + lag) - 4 * Z.of_nat i);
  ac_2 : srcp2 r = u32 (G + 4 * (t + 1) - 4 * Z.of_nat i);
  ac_len : clen r - Z.of_nat i = N - 1 - t;
  ac_t : 0 ≤ t;
  ac_same : ∀ j, 0 ≤ j < t → W1 j = W2 j;
  ac_pending : pending i t r
}.

Lemma same_more t : 0 ≤ t → (∀ j, 0 ≤ j < t → W1 j = W2 j) → W1 t = W2 t → ∀ j, 0 ≤ j < t + 1 → W1 j = W2 j.
Proof. intros Ht H E j Hj. destruct (Z.eq_dec j t) as [->|]; [done|]. apply H. lia. Qed.

Lemma step_cmp i t r f : at_cmp i t r → body !! i = Some f → t < N - 1 →
  f r m = Ret (inl V, m) ∨ ∃ r', f r m = Ret (inr r', m) ∧ at_cmp (Datatypes.S i) (t + 1) r' ∧ clen r' = clen r.
Proof.
  intros [A1 A2 A3 A4 A5 A6] Hf Ht. assert (Hi : (i < 4)%nat) by (rewrite <- HK; exact (lookup_lt_Some _ _ _ Hf)). rewrite (Hbody i f Hf). unfold cmp_step.
  destruct (Haddr t ltac:(lia)) as [H1 H2]. destruct (Hload t ltac:(lia)) as [L1 L2]. destruct (Hval i t r ltac:(lia) A6) as [E1 E2].
  rewrite A1, A2, !u32_index by done. rewrite (bind_ret _ _ _ _ _ L1), (bind_ret _ _ _ _ _ L2), E1, E2. destruct (Z.eqb_spec (W1 t) (W2 t)) as [E|E].
  - right. exists (set i (A (t + lag)) (B (t + 1)) r). destruct (Hset i (A (t + lag)) (B (t + 1)) r) as (K1 & K2 & K3). split; [done|]. split; [|done].
    split; [rewrite K1, A1; f_equal; lia|rewrite K2, A2; f_equal; lia|rewrite K3; lia|lia|by apply same_more|by apply Hnext].
  - left. by rewrite (bind_ret _ _ _ _ _ (Hdiff t ltac:(lia) A5 E)).
Qed.

Lemma steps_cmp k : ∀ i t r, (i + k = 4)%nat → at_cmp i t r → t + Z.of_nat k ≤ N - 1 →
  run_cmp (drop i body) r m = Ret (inl V, m) ∨ ∃ r', run_cmp (drop i body) r m = Ret (inr r', m) ∧ at_cmp 4 (t + Z.of_nat k) r' ∧ clen r' = clen r.
Proof.
  induction k as [|k IH]; intros i t r Hi Ha Ht.
  - rewrite drop_ge by lia. right. exists r. replace (t + Z.of_nat 0) with t by lia. by replace 4%nat with i by lia.
  - destruct (lookup_lt_is_Some_2 body i) as [f Hf]; [lia|]. rewrite (drop_S _ _ _ Hf). cbn [run_cmp].
    destruct (step_cmp i t r f Ha Hf ltac:(lia)) as [E|(r1 & E1 & Ha1 & El1)]; [left; by rewrite (bind_ret _ _ _ _ _ E)|]. rewrite (bind_ret _ _ _ _ _ E1).
    destruct (IH (Datatypes.S i) (t + 1) r1 ltac:(lia) Ha1 ltac:(lia)) as [E|(r2 & E2 & Ha2 & El2)]; [by left|]. right. exists r2. split; [done|].
    replace (t + Z.of_nat (Datatypes.S k)) with (t + 1 + Z.of_nat k) by lia. split; [done|congruence].
Qed.

Lemma unrolled_cmp_ok i t r : (i ≤ 4)%nat → at_cmp i t r → 0 < clen r < 2 ^ 32 → clen r mod 4 = 0 →
  (res ← unrolled_cmp body i r; last_cmp (X 0) (Y 0) res) m = Ret (V, m).
Proof.
  intros Hi Ha Hl Hm.
  destruct (while_total (λ '(i, r) m', m' = m ∧ (i ≤ 4)%nat ∧ (∃ t, at_cmp i t r) ∧ 0 < clen r < 2 ^ 32 ∧ clen r mod 4 = 0)
    (λ '(_, r) _, clen r) (λ res m', m' = m ∧ (res = inl V ∨ ∃ r, res = inr r ∧ at_cmp 0 (N - 1) r))
    (λ '(i, r), x ← run_cmp (drop i body) r; match x with inl v => mret (inr (inl v)) | inr r => let r := cmp_advance r in if clen r =? 0 then mret (inr (inr r)) else mret (inl (0%nat, r)) end)
    COUNTS (i, r) m) as (res & m' & E & -> & Hres); [|split; [done|]; split; [done|]; split; [by exists t|done]|unfold COUNTS; lia|].
  - clear i t r Hi Ha Hl Hm. intros [i r] m' (-> & Hi & (t & Ha) & Hl & Hm). pose proof (ac_len _ _ _ Ha) as Hlen. set (k := (4 - i)%nat).
    destruct (steps_cmp k i t r ltac:(unfold k; lia) Ha ltac:(unfold k; zlia)) as [E|(r1 & E & [B1 B2 B3 B4 B5 B6] & El)].
    { right. exists (inl V), m. rewrite (bind_ret _ _ _ _ _ E). split; [done|]. split; [done|by left]. }
    set (r2 := cmp_advance r1). assert (Hw : clen r2 = clen r - 4) by (unfold r2; cbn; rewrite El; apply u32_small; zlia).
    assert (Ha2 : at_cmp 0 (t + Z.of_nat k) r2).
    { split; [cbn; rewrite B1|cbn; rewrite B2|rewrite Hw; unfold k in *; lia|lia|done|by apply Hagain]; unfold u32, OPSIZ; rewrite Zplus_mod_idemp_l; f_equal; lia. }
    rewrite (bind_ret _ _ _ _ _ E). cbv zeta. fold r2. destruct (Z.eqb_spec (clen r2) 0) as [E0|E0].
    + right. exists (inr r2), m. split; [done|]. split; [done|]. right. exists r2. split; [done|]. pose proof (ac_len _ _ _ Ha2) as Hl2. by replace (N - 1) with (t + Z.of_nat k) by lia.
    + left. exists (0%nat, r2), m. split; [done|]. split; [|zlia]. split; [done|]. split; [lia|]. split; [by eexists|]. rewrite Hw. zlia.
  - unfold unrolled_cmp. rewrite (bind_ret _ _ _ _ _ E). destruct Hres as [->|(r' & -> & [_ _ _ C4 C5 C6])]; [done|]. cbn [last_cmp].
    destruct (Hval 0%nat (N - 1) r' ltac:(lia) C6) as [-> ->]. destruct (Z.eqb_spec (W1 (N - 1)) (W2 (N - 1))) as [Eq|Ne].
    + rewrite Hsame; [done|]. replace N with (N - 1 + 1) by lia. by apply same_more.
    + by apply Hdiff; [lia| |].
Qed.
End Engine.

(** A word made of two. *)
Lemma merge_at m x k : mem_ok m → 0 < k < 4 → MERGE (word_at m x) (8 * k) (word_at m (x + 4)) (32 - 8 * k) = word_at m (x + k).
Proof.
  intros Hm Hk. pose proof (λ z, byte_of_ok m z Hm) as Hb.
  destruct (merge_words _ _ _ _ _ _ _ _ (Hb x) (Hb (x + 1)) (Hb (x + 2)) (Hb (x + 3)) (Hb (x + 4)) (Hb (x + 4 + 1)) (Hb (x + 4 + 2)) (Hb (x + 4 + 3))) as (E1 & E2 & E3).
  unfold word_at in *. rewrite <- !Z.add_assoc in *.
  assert (k = 1 ∨ k = 2 ∨ k = 3) as [->|[->| ->]] by lia; [exact E1|exact E2|exact E3].
Qed.

Section Blocks.
Context (m : mem) (x y N junk : Z).
Hypothesis Hok : mem_ok m.
Hypothesis HN : 2 ≤ N.
Hypothesis Hx : 0 ≤ x ∧ x + 4 * N ≤ 2 ^ 32.
Hypothesis Hy : 0 ≤ y ∧ y + 4 * N ≤ 2 ^ 32.
Hypothesis Hmx : mapped m x (x + 4 * N).
Hypothesis Hmy : mapped m y (y + 4 * N).
Let V : Z := cmp_from m x y (Z.to_nat (4 * N)).
Let W1 (t : Z) : Z := word_at m (x + 4 * t).
Let W2 (t : Z) : Z := word_at m (y + 4 * t).

Lemma block_same t : (∀ j, 0 ≤ j < t → W1 j = W2 j) → same_bytes m x y (4 * t).
Proof. intros H. by apply same_words. Qed.
Lemma block_differs t : 0 ≤ t < N → (∀ j, 0 ≤ j < t → W1 j = W2 j) → W1 t ≠ W2 t → memcmp_bytes (W1 t) (W2 t) m = Ret (V, m).
Proof.
  intros Ht Hs Hd. unfold V. replace (Z.to_nat (4 * N)) with (Z.to_nat (4 * t) + Z.to_nat (4 * (N - t)))%nat by lia.
  rewrite cmp_from_skip by (rewrite Z2Nat.id by lia; by apply block_same). rewrite Z2Nat.id by lia.
  by apply (memcmp_bytes_ok m Hok (x + 4 * t) (y + 4 * t)); [|lia].
Qed.
Lemma block_equal : (∀ j, 0 ≤ j < N → W1 j = W2 j) → V = 0.
Proof. intros H. apply cmp_from_same. rewrite Z2Nat.id by lia. by apply block_same. Qed.

Lemma word_of_ok p i : 0 ≤ p + 4 * i < 2 ^ 32 → mapped m (p + 4 * i) (p + 4 * i + 4) → Generic.word_at_ptr p i m = Ret (word_at m (p + 4 * i), m).
Proof. intros Hp Hm. unfold Generic.word_at_ptr, OPSIZ. rewrite u32_small by done. by apply load32_at. Qed.
Lemma load_y t : 0 ≤ t < N → load32 (y + 4 * t) m = Ret (word_at m (y + 4 * t), m).
Proof. intros Ht. apply load32_at. intros z Hz. apply Hmy. lia. Qed.

(** *** Both aligned *)

Let xs (i : nat) : cregs → Z := if Nat.even i then ca1 else ca0.
Let ys (i : nat) : cregs → Z := if Nat.even i then cb1 else cb0.
Let cset (i : nat) : Z → Z → cregs → cregs := if Nat.even i then set_0 else set_1.
Let cpending (i : nat) (t : Z) (r : cregs) : Prop := xs i r = W1 t ∧ ys i r = W2 t.

Lemma load_x t : 0 ≤ t < N → load32 (x + 4 * t) m = Ret (word_at m (x + 4 * t), m).
Proof. intros Ht. apply load32_at. intros z Hz. apply Hmx. lia. Qed.

Lemma common_loop i r : (i ≤ 4)%nat → at_cmp x y 1 N W1 W2 cpending i 0 r → 0 < clen r < 2 ^ 32 → clen r mod 4 = 0 →
  (res ← unrolled_cmp common_body i r; last_cmp ca1 cb1 res) m = Ret (V, m).
Proof.
  intros Hi Ha Hl Hm. apply (unrolled_cmp_ok m x y 1 N V common_body cset xs ys W1 W2 cpending) with (t := 0); try done.
  - intros k f Hf. do 4 (destruct k as [|k]; [by injection Hf as <-|]). done.
  - intros k a b r0. unfold cset. by destruct (Nat.even k).
  - intros t Ht. lia.
  - intros t Ht. split; [apply load_x; lia|apply load_y; lia].
  - intros k t r0 _ [H1 H2]. unfold cpending, xs, ys, cset in *. rewrite Nat.even_succ, <- Nat.negb_even. by destruct (Nat.even k).
  - exact block_differs.
  - exact block_equal.
Qed.

Lemma memcmp_common_ok : memcmp_common_alignment junk x y N m = Ret (V, m).
Proof.
  assert (E1 : Generic.word_at_ptr x 0 m = Ret (W1 0, m)) by (apply (word_of_ok x 0); [lia|intros z Hz; apply Hmx; lia]).
  assert (E2 : Generic.word_at_ptr y 0 m = Ret (W2 0, m)) by (apply (word_of_ok y 0); [lia|intros z Hz; apply Hmy; lia]).
  assert (Hgo : ∀ i a0 a1 b0 b1 k1 k2 z, (i ≤ 4)%nat → k1 = 4 - 4 * Z.of_nat i → k2 = 4 - 4 * Z.of_nat i →
    (if Nat.even i then a1 else a0) = W1 0 → (if Nat.even i then b1 else b0) = W2 0 → z = N - 1 + Z.of_nat i → 0 < z < 2 ^ 32 → z mod 4 = 0 →
    (r ← unrolled_cmp common_body i (mkCregs (x +u k1) (y +u k2) (u32 z) a0 a1 junk junk b0 b1 junk junk); last_cmp ca1 cb1 r) m = Ret (V, m)).
  { intros i a0 a1 b0 b1 k1 k2 z Hi H1 H2 Hva Hvb Hz Hz0 Hzm. rewrite (u32_small z) by lia. apply common_loop; [done| |done|done]. split; cbn.
    - f_equal. lia.
    - f_equal. lia.
    - lia.
    - lia.
    - intros j Hj. lia.
    - unfold cpending, xs, ys. by destruct (Nat.even i). }
  unfold memcmp_common_alignment. cbv zeta. pose proof (Z.mod_pos_bound N 4 ltac:(lia)).
  assert (N mod 4 = 0 ∨ N mod 4 = 1 ∨ N mod 4 = 2 ∨ N mod 4 = 3) as [Hc|[Hc|[Hc|Hc]]] by lia; rewrite Hc; cbn match;
    try (change (OP_T_THRES <=? 3 * OPSIZ) with false; cbn [andb]); rewrite (bind_ret _ _ _ _ _ E1), (bind_ret _ _ _ _ _ E2);
    try (change (OP_T_THRES <=? 3 * OPSIZ) with false; cbn [andb]); (apply Hgo; [lia|unfold OPSIZ; lia|unfold OPSIZ; lia|done|done|lia|zlia|zlia]).
Qed.

(** *** The first not aligned *)

Hypothesis Hwords : ∀ z, x ≤ z < x + 4 * N → mapped m (z / 4 * 4) (longword_end z).
Hypothesis Hax : x mod 4 ≠ 0.
Let κ : Z := x mod 4.
Let F : Z := x - κ.
Let fst_ (i : nat) : cregs → Z := match i with 0%nat => ca2 | 1%nat => ca3 | 2%nat => ca0 | 3%nat => ca1 | _ => ca2 end.
Let snd_ (i : nat) : cregs → Z := match i with 0%nat => ca3 | 1%nat => ca0 | 2%nat => ca1 | 3%nat => ca2 | _ => ca3 end.
Let yval (i : nat) : cregs → Z := match i with 0%nat => cb3 | 1%nat => cb0 | 2%nat => cb1 | 3%nat => cb2 | _ => cb3 end.
Let xval (i : nat) : cregs → Z := merged_cmp (8 * κ) (32 - 8 * κ) (fst_ i) (snd_ i).
Let nset (i : nat) : Z → Z → cregs → cregs := match i with 0%nat => set_0 | 1%nat => set_1 | 2%nat => set_2 | _ => set_3 end.
Let npending (i : nat) (t : Z) (r : cregs) : Prop := fst_ i r = word_at m (F + 4 * t) ∧ snd_ i r = word_at m (F + 4 * (t + 1)) ∧ yval i r = W2 t.

Lemma mapped_F t : 0 ≤ t ≤ N → mapped m (F + 4 * t) (F + 4 * t + 4).
Proof.
  intros Ht z Hz. destruct (Z.eq_dec t 0) as [->|Hn].
  - apply (Hwords x); [lia|]. unfold longword_end, F, κ in *. zlia.
  - apply (Hwords (x + 4 * t - 1)); [lia|]. unfold longword_end, F, κ in *. zlia.
Qed.
Lemma F_bounds t : 0 ≤ t ≤ N → 0 ≤ F + 4 * t ∧ F + 4 * t + 4 ≤ 2 ^ 32.
Proof. intros Ht. unfold F, κ. zlia. Qed.

Lemma not_common_loop i r : (i ≤ 4)%nat → at_cmp F y 2 N W1 W2 npending i 0 r → 0 < clen r < 2 ^ 32 → clen r mod 4 = 0 →
  (res ← unrolled_cmp (not_common_body (8 * κ) (32 - 8 * κ)) i r; last_cmp (merged_cmp (8 * κ) (32 - 8 * κ) ca2 ca3) cb3 res) m = Ret (V, m).
Proof.
  intros Hi Ha Hl Hm. apply (unrolled_cmp_ok m F y 2 N V (not_common_body (8 * κ) (32 - 8 * κ)) nset xval yval W1 W2 npending) with (t := 0); try done.
  - intros k f Hf. do 4 (destruct k as [|k]; [by injection Hf as <-|]). done.
  - intros k a b r0. unfold nset. by do 3 (destruct k as [|k]; [done|]).
  - intros t Ht. pose proof (F_bounds (t + 2) ltac:(lia)). lia.
  - intros t Ht. split; [apply load32_at, mapped_F; lia|apply load_y; lia].
  - intros k t r0 Ht (H1 & H2 & H3). split; [|done]. unfold xval, merged_cmp. rewrite H1, H2. replace (F + 4 * (t + 1)) with (F + 4 * t + 4) by lia.
    rewrite merge_at by (done || unfold κ; zlia). unfold W1, F. f_equal. lia.
  - intros k t r0 Hk (H1 & H2 & H3). unfold npending. replace (t + 1 + 1) with (t + 2) by lia. do 4 (destruct k as [|k]; [done|]). lia.
  - exact block_differs.
  - exact block_equal.
Qed.

Lemma memcmp_not_common_ok : memcmp_not_common_alignment junk x y N m = Ret (V, m).
Proof.
  assert (E0 : Generic.word_at_ptr F 0 m = Ret (word_at m (F + 4 * 0), m)) by (apply word_of_ok; [pose proof (F_bounds 0 ltac:(lia)); lia|apply mapped_F; lia]).
  assert (E1 : Generic.word_at_ptr F 1 m = Ret (word_at m (F + 4 * 1), m)) by (apply word_of_ok; [pose proof (F_bounds 1 ltac:(lia)); lia|apply mapped_F; lia]).
  assert (E2 : Generic.word_at_ptr y 0 m = Ret (W2 0, m)) by (apply (word_of_ok y 0); [lia|intros z Hz; apply Hmy; lia]).
  assert (Hgo : ∀ i a0 a1 a2 a3 b0 b1 b2 b3 k1 k2 z, (i ≤ 4)%nat → k1 = 8 - 4 * Z.of_nat i → k2 = 4 - 4 * Z.of_nat i →
    npending i 0 (mkCregs 0 0 0 a0 a1 a2 a3 b0 b1 b2 b3) → z = N - 1 + Z.of_nat i → 0 < z < 2 ^ 32 → z mod 4 = 0 →
    (r ← unrolled_cmp (not_common_body (8 * κ) (32 - 8 * κ)) i (mkCregs (F +u k1) (y +u k2) (u32 z) a0 a1 a2 a3 b0 b1 b2 b3);
     last_cmp (merged_cmp (8 * κ) (32 - 8 * κ) ca2 ca3) cb3 r) m = Ret (V, m)).
  { intros i a0 a1 a2 a3 b0 b1 b2 b3 k1 k2 z Hi H1 H2 Hp Hz Hz0 Hzm. rewrite (u32_small z) by lia. apply not_common_loop; [done| |done|done]. split; cbn.
    - f_equal. lia.
    - f_equal. lia.
    - lia.
    - lia.
    - intros j Hj. lia.
    - unfold npending in *. do 5 (destruct i as [|i]; [exact Hp|]). lia. }
  unfold memcmp_not_common_alignment. cbv zeta. rewrite land_opsiz by lia. change (x mod OPSIZ) with κ. change (8 * OPSIZ) with 32. change (x - x mod 4) with F.
  pose proof (Z.mod_pos_bound N 4 ltac:(lia)).
  assert (N mod 4 = 0 ∨ N mod 4 = 1 ∨ N mod 4 = 2 ∨ N mod 4 = 3) as [Hc|[Hc|[Hc|Hc]]] by lia; rewrite Hc; cbn match;
    try (change (OP_T_THRES <=? 3 * OPSIZ) with false; cbn [andb]);
    rewrite (bind_ret _ _ _ _ _ E0), (bind_ret _ _ _ _ _ E1), (bind_ret _ _ _ _ _ E2); try (change (OP_T_THRES <=? 3 * OPSIZ) with false; cbn [andb]);
    (apply Hgo; [lia|unfold OPSIZ; lia|unfold OPSIZ; lia|done|lia|zlia|zlia]).
Qed.
End Blocks.

(** ** The bytes before and behind the words *)

Lemma byte_of_differ m x y n t : mem_ok m → same_bytes m x y t → byte_of m (x + t) ≠ byte_of m (y + t) → 0 ≤ t < n →
  cmp_from m x y (Z.to_nat n) = byte_of m (x + t) - byte_of m (y + t) ∧ -256 < cmp_from m x y (Z.to_nat n) < 256.
Proof.
  intros Hok Hs Hd Ht. rewrite (cmp_from_differs m x y (Z.to_nat t)) by (rewrite ?Z2Nat.id by lia; done || lia). rewrite Z2Nat.id by lia.
  split; [done|]. pose proof (byte_of_ok m (x + t) Hok). pose proof (byte_of_ok m (y + t) Hok). unfold is_byte in *. lia.
Qed.

Section Bytes.
Context (m : mem) (x y n : Z).
Hypothesis Hok : mem_ok m.
Hypothesis Hx : 0 ≤ x ∧ x + n ≤ 2 ^ 32.
Hypothesis Hy : 0 ≤ y ∧ y + n ≤ 2 ^ 32.
Hypothesis Hn : 0 ≤ n < 2 ^ 32.
Hypothesis Hmx : mapped m x (x + n).
Hypothesis Hmy : mapped m y (y + n).

Lemma byte_cmp_ok more T : 0 ≤ T ≤ n → (∀ t, 0 ≤ t < T → more (y + t) (n - t) = true) → more (u32 (y + T)) (n - T) = false →
  byte_cmp more (u32 x) (u32 y) n m = Ret (inl (cmp_from m x y (Z.to_nat n)), m) ∧ cmp_from m x y (Z.to_nat n) ≠ 0 ∨
  byte_cmp more (u32 x) (u32 y) n m = Ret (inr (u32 (x + T), u32 (y + T), n - T), m) ∧ same_bytes m x y T.
Proof.
  intros HT Hmore Hend. unfold byte_cmp.
  match goal with |- context [while COUNTS ?b _] =>
    destruct (while_total (λ '(p, q, l) m', m' = m ∧ ∃ t, 0 ≤ t ≤ T ∧ p = u32 (x + t) ∧ q = u32 (y + t) ∧ l = n - t ∧ same_bytes m x y t)
      (λ '(_, _, l) _, l) (λ r m', m' = m ∧ ((r = inl (cmp_from m x y (Z.to_nat n)) ∧ cmp_from m x y (Z.to_nat n) ≠ 0) ∨ (r = inr (u32 (x + T), u32 (y + T), n - T) ∧ same_bytes m x y T)))
      b COUNTS (u32 x, u32 y, n) m) as (r & m' & E & -> & Hr) end.
  - intros [[p q] l] m' (-> & t & Ht & -> & -> & -> & Hs). destruct (Z.eq_dec t T) as [->|Hne].
    { rewrite Hend. right. eexists _, m. split; [done|]. split; [done|by right]. }
    rewrite (u32_small (x + t)), (u32_small (y + t)) by lia. rewrite Hmore by lia.
    destruct (Hmx (x + t)) as [a Ea]; [lia|]. destruct (Hmy (y + t)) as [b Eb]; [lia|].
    rewrite (bind_ret _ _ _ _ _ (load8_ok _ _ _ Ea)), (bind_ret _ _ _ _ _ (load8_ok _ _ _ Eb)). cbv zeta.
    assert (Ha : byte_of m (x + t) = a) by (unfold byte_of; by rewrite Ea). assert (Hb : byte_of m (y + t) = b) by (unfold byte_of; by rewrite Eb).
    pose proof (byte_of_ok m (x + t) Hok) as Ba. pose proof (byte_of_ok m (y + t) Hok) as Bb. unfold is_byte in *. destruct (Z.eq_dec a b) as [->|Hab].
    + left. rewrite Z.sub_diag. eexists (_, _, _), m. split; [done|]. rewrite (u32_small (n - t - 1)) by lia. split; [|lia]. split; [done|].
      exists (t + 1). split; [lia|]. split; [f_equal; lia|]. split; [f_equal; lia|]. split; [lia|].
      intros j Hj. destruct (Z.eq_dec j t) as [->|]; [congruence|apply Hs; lia].
    + right. destruct (byte_of_differ m x y n t Hok Hs ltac:(congruence) ltac:(lia)) as [Hv Hsm]. exists (inl (cmp_from m x y (Z.to_nat n))), m.
      split; [|split; [done|left; split; [done|lia]]]. rewrite (proj2 (Z.eqb_neq _ _)) by (unfold u32; zlia). cbn [negb]. rewrite s32_u32, s32_small by lia.
      by rewrite Hv, Ha, Hb.
  - split; [done|]. exists 0. rewrite !Z.add_0_r, Z.sub_0_r. split; [lia|]. do 3 (split; [done|]). intros j Hj. lia.
  - unfold COUNTS. lia.
  - rewrite E. destruct Hr as [[-> Hv]|[-> Hs]]; [by left|by right].
Qed.

(** The bytes that are left. *)
Lemma rest_cmp_ok : (st ← byte_cmp (λ _ len, negb (len =? 0)) (u32 x) (u32 y) n; mret (match st with inl res => res | inr _ => 0 end)) m = Ret (cmp_from m x y (Z.to_nat n), m).
Proof.
  destruct (byte_cmp_ok (λ _ len, negb (len =? 0)) n) as [[E _]|[E Hs]]; [lia| | |by rewrite (bind_ret _ _ _ _ _ E)|].
  - intros t Ht. by rewrite (proj2 (Z.eqb_neq _ _)) by lia.
  - by rewrite Z.sub_diag.
  - rewrite (bind_ret _ _ _ _ _ E). rewrite cmp_from_same; [done|]. by rewrite Z2Nat.id by lia.
Qed.
End Bytes.

(** ** The whole *)

Lemma cmp_from_more m b : ∀ a x y, cmp_from m x y a ≠ 0 → cmp_from m x y (a + b) = cmp_from m x y a.
Proof. induction a as [|a IH]; intros x y H; [done|]. cbn [Nat.add cmp_from] in *. destruct (Z.eqb_spec (byte_of m x) (byte_of m y)); [by apply IH|done]. Qed.
Lemma cmp_from_zero m n : ∀ x y, cmp_from m x y n = 0 ↔ same_bytes m x y (Z.of_nat n).
Proof.
  induction n as [|n IH]; intros x y; [split; [intros _ j Hj; lia|done]|]. split; [|apply cmp_from_same]. cbn [cmp_from]. destruct (Z.eqb_spec (byte_of m x) (byte_of m y)) as [E|E]; [|lia].
  intros H j Hj. destruct (Z.eq_dec j 0) as [->|]; [by rewrite !Z.add_0_r|]. pose proof (proj1 (IH _ _) H (j - 1) ltac:(lia)) as E'.
  rewrite <- !Z.add_assoc in E'. by replace (1 + (j - 1)) with j in E' by lia.
Qed.
Lemma cmp_from_small m n : mem_ok m → ∀ x y, -256 < cmp_from m x y n < 256.
Proof.
  intros Hok. induction n as [|n IH]; intros x y; cbn [cmp_from]; [lia|]. destruct (_ =? _); [apply IH|].
  pose proof (byte_of_ok m x Hok). pose proof (byte_of_ok m y Hok). unfold is_byte in *. lia.
Qed.

Section Whole.
Context (junk : Z) (m : mem) (s1 s2 n : Z).
Hypothesis Hok : mem_ok m.
Hypothesis H1 : 0 ≤ s1 ∧ s1 + n ≤ 2 ^ 32.
Hypothesis H2 : 0 ≤ s2 ∧ s2 + n ≤ 2 ^ 32.
Hypothesis Hm2 : mapped m s2 (s2 + n).
Hypothesis Hw : ∀ x, s1 ≤ x < s1 + n → mapped m (x / 4 * 4) (longword_end x).

(** Where the second block is aligned, after [k] equal bytes: the words, then the rest. *)
Lemma words_cmp_ok k : 0 ≤ k → 8 ≤ n - k → (s2 + k) mod 4 = 0 →
  (if (s1 + k) mod OPSIZ =? 0 then memcmp_common_alignment junk (s1 + k) (s2 + k) ((n - k) / OPSIZ)
   else memcmp_not_common_alignment junk (s1 + k) (s2 + k) ((n - k) / OPSIZ)) m = Ret (cmp_from m (s1 + k) (s2 + k) (Z.to_nat (4 * ((n - k) / 4))), m).
Proof.
  intros Hk Hl Ha. change OPSIZ with 4. set (N := (n - k) / 4). assert (HN : 2 ≤ N ∧ 4 * N ≤ n - k) by (unfold N; zlia).
  assert (B1 : 0 ≤ s1 + k ∧ s1 + k + 4 * N ≤ 2 ^ 32) by lia. assert (B2 : 0 ≤ s2 + k ∧ s2 + k + 4 * N ≤ 2 ^ 32) by lia.
  assert (M2 : mapped m (s2 + k) (s2 + k + 4 * N)) by (intros z Hz; apply Hm2; lia).
  assert (Hwk : ∀ z, s1 + k ≤ z < s1 + k + 4 * N → mapped m (z / 4 * 4) (longword_end z)) by (intros z Hz; apply Hw; lia).
  assert (M1 : mapped m (s1 + k) (s1 + k + 4 * N)) by (by apply words_mapped).
  destruct (Z.eqb_spec ((s1 + k) mod 4) 0) as [E|E]; [apply memcmp_common_ok|apply memcmp_not_common_ok]; (done || lia).
Qed.

Lemma memcmp_ok : is_u32 n → is_u32 s1 → is_u32 s2 → memcmp junk s1 s2 n m = Ret (cmp_from m s1 s2 (Z.to_nat n), m).
Proof.
  intros Hn Hs1 Hs2. pose proof (words_mapped m s1 n Hw) as Hm1. unfold memcmp. change OP_T_THRES with 16.
  assert (Hr : ∀ x y l, s1 ≤ x → s2 ≤ y → 0 ≤ l → x + l = s1 + n → y + l = s2 + n →
    (st ← byte_cmp (λ _ len, negb (len =? 0)) (u32 x) (u32 y) l; mret (match st with inl res => res | inr _ => 0 end)) m = Ret (cmp_from m x y (Z.to_nat l), m)).
  { intros x y l Hx Hy Hl Ex Ey. apply rest_cmp_ok; [done|lia|lia|lia|intros z Hz; apply Hm1; lia|intros z Hz; apply Hm2; lia]. }
  destruct (Z.leb_spec 16 n) as [Hl|Hl].
  2:{ rewrite (bind_ret _ _ m (inr (s1, s2, n)) m) by done. rewrite <- (Hr s1 s2 n) by lia. by rewrite !u32_small by lia. }
  set (k := (- s2) mod 4). assert (Hk : 0 ≤ k < 4 ∧ (s2 + k) mod 4 = 0) by (unfold k; zlia). destruct Hk as [Hk Hak]. rewrite bind_assoc.
  destruct (byte_cmp_ok m s1 s2 n Hok H1 H2 Hn Hm1 Hm2 (λ srcp2 _, negb (srcp2 mod OPSIZ =? 0)) k) as [[E Hv]|[E Hs]]; [lia| | | |].
  { intros t Ht. change OPSIZ with 4. by rewrite (proj2 (Z.eqb_neq _ _)) by (unfold k in *; zlia). }
  { rewrite u32_small by lia. change OPSIZ with 4. by rewrite Hak. }
  { rewrite (u32_small s1), (u32_small s2) in E by lia. rewrite (bind_ret _ _ _ _ _ E). by rewrite (bind_ret _ _ _ _ _ eq_refl). }
  rewrite !u32_small in E by lia. rewrite (bind_ret _ _ _ _ _ E). rewrite bind_assoc.
  rewrite (bind_ret _ _ _ _ _ (words_cmp_ok k ltac:(lia) ltac:(lia) Hak)). cbv zeta.
  set (L := Z.to_nat (4 * ((n - k) / 4))). set (R := (n - k) mod 4). assert (HL : Z.of_nat L = n - k - R ∧ 0 ≤ R < 4) by (unfold L, R; zlia).
  replace (Z.to_nat n) with (Z.to_nat k + (L + Z.to_nat R))%nat by lia. rewrite (cmp_from_skip m (Z.to_nat k)) by (rewrite Z2Nat.id by lia; done). rewrite Z2Nat.id by lia.
  pose proof (cmp_from_small m L Hok (s1 + k) (s2 + k)) as Hsm. destruct (Z.eq_dec (cmp_from m (s1 + k) (s2 + k) L) 0) as [E0|E0].
  - rewrite E0. change (u32 0 =? 0) with true. cbn [negb]. rewrite (bind_ret _ _ _ _ _ eq_refl). rewrite land_opsiz by lia. change OPSIZ with 4. fold R.
    rewrite cmp_from_skip by (by apply cmp_from_zero). rewrite (Hr (s1 + k + (n - k - R)) (s2 + k + (n - k - R)) R) by lia. by destruct HL as [-> _].
  - rewrite (proj2 (Z.eqb_neq (u32 _) 0)) by (unfold u32; zlia). cbn [negb]. rewrite (bind_ret _ _ _ _ _ eq_refl). rewrite s32_u32, s32_small by lia. by rewrite cmp_from_more.
Qed.
End Whole.

(** ** Properties *)

(** C24: comparing memory.  The word-at-a-time [memcmp], whatever the alignment of the two
    blocks and whatever its uninitialised variables hold, returns what the comparison byte
    by byte returns: the difference of the first two bytes that differ, and 0 just when
    the blocks are equal; it terminates and leaves memory as it is. *)
Theorem memcmp_equiv junk m s1 s2 n :
  mem_ok m → is_u32 s1 → is_u32 s2 → is_u32 n → s1 + n ≤ 2 ^ 32 → s2 + n ≤ 2 ^ 32 → mapped m s2 (s2 + n) →
  (∀ x, s1 ≤ x < s1 + n → mapped m (x / 4 * 4) (longword_end x)) →
  ∃ v, memcmp junk s1 s2 n m = Ret (v, m) ∧ v = cmp_from m s1 s2 (Z.to_nat n) ∧
    (v = 0 ↔ ∀ j, 0 ≤ j < n → m !! (s1 + j) = m !! (s2 + j)) ∧
    ∀ j a b, 0 ≤ j < n → (∀ i, 0 ≤ i < j → m !! (s1 + i) = m !! (s2 + i)) → m !! (s1 + j) = Some a → m !! (s2 + j) = Some b → a ≠ b → v = a - b.
Proof.
  intros Hok H1 H2 Hn B1 B2 M2 Hw. pose proof (words_mapped m s1 n Hw) as M1. eexists. split; [apply memcmp_ok; (done || lia)|]. split; [done|]. split.
  - rewrite cmp_from_zero. rewrite Z2Nat.id by lia. split; intros H j Hj; pose proof (H j Hj) as E.
    + rewrite (byte_there_of m (s1 + j)) by (apply M1; lia). rewrite (byte_there_of m (s2 + j)) by (apply M2; lia). by rewrite E.
    + unfold byte_of. by rewrite E.
  - intros j a b Hj Hs Ea Eb Hab. assert (Ha : byte_of m (s1 + j) = a) by (unfold byte_of; by rewrite Ea). assert (Hb : byte_of m (s2 + j) = b) by (unfold byte_of; by rewrite Eb).
    destruct (byte_of_differ m s1 s2 n j Hok) as [E _]; [|congruence|lia|congruence]. intros i Hi. unfold byte_of. by rewrite (Hs i Hi).
Qed.

(** Two blocks of 24 bytes, at 1001 and at 1034, that differ in their last byte. *)
Definition demo_blocks : list Z := seqZ 0 34 ++ seqZ 1 23 ++ [99] ++ seqZ 58 6.
Lemma mapped_demo_blocks b e : 1000 ≤ b → e ≤ 1064 → mapped (lay 1000 demo_blocks ∅) b e.
Proof. intros Hb He. apply mapped_lay; [done|]. assert (E : length demo_blocks = 64%nat) by (by vm_compute). rewrite E. lia. Qed.

Lemma memcmp_equiv_witness :
  memcmp 0 1001 1034 24 (lay 1000 demo_blocks ∅) = Ret (24 - 99, lay 1000 demo_blocks ∅) ∧
  memcmp 0 1001 1034 23 (lay 1000 demo_blocks ∅) = Ret (0, lay 1000 demo_blocks ∅).
Proof.
  assert (H : ∀ n, 0 ≤ n ≤ 24 → memcmp 0 1001 1034 n (lay 1000 demo_blocks ∅) = Ret (cmp_from (lay 1000 demo_blocks ∅) 1001 1034 (Z.to_nat n), lay 1000 demo_blocks ∅)).
  - intros n Hn. destruct (memcmp_equiv 0 (lay 1000 demo_blocks ∅) 1001 1034 n) as (v & E & Ev & _).
    + apply mem_ok_dec. vm_compute. reflexivity.
    + lia.
    + lia.
    + lia.
    + lia.
    + lia.
    + apply mapped_demo_blocks; lia.
    + intros x Hx. apply mapped_demo_blocks; [zlia|unfold longword_end; zlia].
    + rewrite Ev in E. exact E.
  - split; (rewrite H by lia; f_equal; f_equal; vm_compute; reflexivity).
Defined.
