(* ===== verification/Sep.v ===== *)
(** * Assertions on parts of a memory

    Separation logic for the code that works on the byte memory of Word.v: assertions are Iris's
    [uPred] over maps from addresses to exclusive bytes, so that they speak of the bytes they own
    and Iris's proof mode applies; [wp c Q] says that [c] returns, in any larger memory, with [Q] of
    its part and the rest as it was.  Bytes ([pt]), words ([wordp]) and runs of bytes ([blk]). *)
From Stdlib Require Import ZArith Lia.
From stdpp Require Import base gmap list.
From iris.algebra Require Import gmap excl.
From iris.base_logic Require Import upred bi.
From iris.proofmode Require Import proofmode.
From S2P Require Import Prelude Word.
Open Scope Z_scope.

Abbreviation heapUR := (gmapUR Z (exclR ZO)).
Abbreviation hprop := (uPredI heapUR).
Definition of_mem (m : mem) : gmap Z (exclR ZO) := fmap (M := gmap Z) (A := Z) (λ v : Z, Excl (A := Z) v) m.

Definition excl_of (o : option Z) : option (exclR ZO) := match o with Some v => Some (Excl v) | None => None end.
Lemma lookup_of_mem m a : of_mem m !! a = excl_of (m !! a).
Proof. unfold of_mem. rewrite lookup_fmap. by destruct (lookup (A := Z) a m). Qed.
Lemma of_mem_valid m : ✓ of_mem m.
Proof. intros a. rewrite lookup_of_mem. by destruct (lookup (A := Z) a m). Qed.
Lemma of_mem_union m1 m2 : m1 ##ₘ m2 → of_mem (m1 ∪ m2) = of_mem m1 ⋅ of_mem m2.
Proof.
  intros Hd. apply map_eq. intros a. rewrite lookup_op !lookup_of_mem lookup_union.
  destruct (lookup (A := Z) a m1) eqn:E1, (lookup (A := Z) a m2) eqn:E2; [by destruct (proj1 (map_disjoint_spec m1 m2) Hd a _ _ E1 E2)|done..].
Qed.
Definition un_excl (e : exclR ZO) : option Z := match e with Excl v => Some v | ExclInvalid => None end.
Lemma of_mem_inv (x : gmap Z (exclR ZO)) : ✓ x → ∃ m, x = of_mem m.
Proof.
  intros Hv. exists (omap (M := gmap Z) (A := exclR ZO) (B := Z) un_excl x). apply map_eq. intros a. rewrite lookup_of_mem.
  assert (E : omap (M := gmap Z) (A := exclR ZO) (B := Z) un_excl x !! a = (x !! a) ≫= un_excl) by apply lookup_omap. rewrite E.
  specialize (Hv a). destruct (x !! a) as [[v|]|]; done.
Qed.
Lemma of_mem_inj m1 m2 : of_mem m1 = of_mem m2 → m1 = m2.
Proof.
  intros E. apply map_eq. intros a. pose proof (f_equal (lookup a) E) as Ea. rewrite !lookup_of_mem in Ea.
  destruct (lookup (A := Z) a m1), (lookup (A := Z) a m2); by simplify_eq/=.
Qed.
Lemma of_mem_op_inv m (x1 x2 : gmap Z (exclR ZO)) : of_mem m = x1 ⋅ x2 → ∃ m1 m2, x1 = of_mem m1 ∧ x2 = of_mem m2 ∧ m1 ##ₘ m2 ∧ m = m1 ∪ m2.
Proof.
  intros E. pose proof (of_mem_valid m) as Hv. rewrite E in Hv.
  destruct (of_mem_inv x1) as [m1 ->]; [by eapply cmra_valid_op_l|]. destruct (of_mem_inv x2) as [m2 ->]; [by eapply cmra_valid_op_r|].
  assert (Hd : m1 ##ₘ m2).
  { apply map_disjoint_spec. intros a v1 v2 E1 E2. specialize (Hv a). by rewrite lookup_op !lookup_of_mem E1 E2 in Hv. }
  exists m1, m2. do 3 (split; [done|]). apply of_mem_inj. by rewrite of_mem_union.
Qed.
Lemma of_mem_dist n m (x : gmap Z (exclR ZO)) : of_mem m ≡{n}≡ x → x = of_mem m.
Proof.
  intros E. symmetry. apply leibniz_equiv. by apply (discrete_iff n (of_mem m) x).
Qed.
(** Parts of a memory. *)
Lemma of_mem_includedN n (x : gmap Z (exclR ZO)) m : x ≼{n} of_mem m → ∃ m1 m2, x = of_mem m1 ∧ m1 ##ₘ m2 ∧ m = m1 ∪ m2.
Proof.
  intros [z E]. apply of_mem_dist in E. symmetry in E. destruct (of_mem_op_inv _ _ _ E) as (m1 & m2 & -> & -> & Hd & ->). by exists m1, m2.
Qed.

(** [P] holds of a memory. *)
Definition holds (P : hprop) (m : mem) : Prop := uPred_holds P 0 (of_mem m).

(** [c] runs, in any memory that has this one as a part, leaves the rest alone and ends
    with [Q]. *)
Program Definition wp {A} (c : M mem A) (Q : A → hprop) : hprop :=
  {| uPred_holds n x := ∀ m mf, x = of_mem m → m ##ₘ mf → ∃ v m', c (m ∪ mf) = Ret (v, m' ∪ mf) ∧ m' ##ₘ mf ∧ uPred_holds (Q v) 0 (of_mem m') |}.
Next Obligation.
  intros A c Q n1 n2 x1 x2 H Hx _ m mf -> Hd. destruct (of_mem_includedN _ _ _ Hx) as (m1 & m2 & -> & Hd' & ->).
  apply map_disjoint_union_l in Hd as [Hd1 Hd2].
  destruct (H m1 (m2 ∪ mf) eq_refl) as (v & m' & E & Hm & HQ); [by apply map_disjoint_union_r|]. apply map_disjoint_union_r in Hm as [Hm1 Hm2].
  exists v, (m' ∪ m2). rewrite -!map_union_assoc in E |- *. split; [done|]. split; [by apply map_disjoint_union_l|]. rewrite of_mem_union //.
  eapply uPred_mono; [exact HQ|apply cmra_includedN_l|done].
Qed.

Lemma holds_entails P Q m : (P ⊢ Q) → holds P m → holds Q m.
Proof. intros [H] HP. apply H; [apply cmra_valid_validN, of_mem_valid|exact HP]. Qed.
Lemma holds_sep P Q m : holds (P ∗ Q) m ↔ ∃ m1 m2, m1 ##ₘ m2 ∧ m = m1 ∪ m2 ∧ holds P m1 ∧ holds Q m2.
Proof.
  unfold holds. uPred.unseal. split.
  - intros (x1 & x2 & E & H1 & H2). apply of_mem_dist in E. symmetry in E. destruct (of_mem_op_inv _ _ _ E) as (m1 & m2 & -> & -> & Hd & ->).
    by exists m1, m2.
  - intros (m1 & m2 & Hd & -> & H1 & H2). exists (of_mem m1), (of_mem m2). by rewrite of_mem_union.
Qed.
Lemma holds_pure φ m : holds ⌜φ⌝ m ↔ φ.
Proof. unfold holds. uPred.unseal. done. Qed.
Lemma holds_exist {A} (Φ : A → hprop) m : holds (∃ x, Φ x) m ↔ ∃ x, holds (Φ x) m.
Proof. unfold holds. uPred.unseal. done. Qed.

(** What a triple says of the run in a whole memory. *)
Lemma wp_adequate {A} (P : hprop) (c : M mem A) Q m : (P ⊢ wp c Q) → holds P m → ∃ v m', c m = Ret (v, m') ∧ holds (Q v) m'.
Proof.
  intros H HP. pose proof (holds_entails _ _ _ H HP) as Hw. destruct (Hw m ∅ eq_refl) as (v & m' & E & _ & HQ); [apply map_disjoint_empty_r|].
  rewrite !map_union_empty in E. by exists v, m'.
Qed.

Section Rules.
Context {A : Type}.
Implicit Types (c : M mem A) (Q R : A → hprop).

Lemma wp_ret (v : A) Q : Q v ⊢ wp (mret v) Q.
Proof. constructor. intros n x Hv HQ m mf -> Hd. exists v, m. split; [done|]. split; [done|]. eapply uPred_mono; [exact HQ|done|lia]. Qed.
Lemma wp_bind {B} (c : M mem B) (k : B → M mem A) Q : wp c (λ v, wp (k v) Q) ⊢ wp (c ≫= k) Q.
Proof.
  constructor. intros n x Hv H m mf -> Hd. destruct (H m mf eq_refl Hd) as (v & m' & E & Hd' & Hk).
  destruct (Hk m' mf eq_refl Hd') as (w & m'' & E' & Hd'' & HQ).
  exists w, m''. split; [|done]. by rewrite (bind_ret _ _ _ _ _ E).
Qed.
Lemma wp_frame_wand c Q R : wp c Q ⊢ (∀ v, Q v -∗ R v) -∗ wp c R.
Proof.
  apply bi.wand_intro_r. constructor. intros n x Hv H m mf -> Hd.
  assert (Hs : uPred_holds (wp c Q ∗ ∀ v, Q v -∗ R v) 0 (of_mem m)) by (eapply uPred_mono; [exact H|done|lia]).
  apply holds_sep in Hs as (m1 & m2 & Hd12 & -> & H1 & H2).
  apply map_disjoint_union_l in Hd as [Hd1 Hd2].
  destruct (H1 m1 (m2 ∪ mf) eq_refl) as (v & m' & E & Hd' & HQ); [by apply map_disjoint_union_r|]. apply map_disjoint_union_r in Hd' as [Hd3 Hd4].
  exists v, (m' ∪ m2). rewrite -!map_union_assoc. split; [done|]. split; [by apply map_disjoint_union_l|].
  assert (Hqr : holds (Q v ∗ (Q v -∗ R v)) (m' ∪ m2)).
  { apply holds_sep. exists m', m2. do 3 (split; [done|]). eapply holds_entails; [|exact H2]. iIntros "H". iApply "H". }
  eapply holds_entails; [|exact Hqr]. iIntros "[H1 H2]". by iApply "H2".
Qed.
End Rules.

(** ** Bytes *)

Definition pt (a b : Z) : hprop := uPred_ownM ({[ a := Excl b ]} : gmap Z (exclR ZO)).

Lemma of_mem_singleton a b : of_mem {[ a := b ]} = {[ a := Excl b ]}.
Proof. apply map_fmap_singleton. Qed.
Lemma holds_pt a b m : holds (pt a b) m ↔ m !! a = Some b.
Proof.
  unfold holds, pt. uPred.unseal. split.
  - intros Hi. destruct (of_mem_includedN _ _ _ Hi) as (m1 & m2 & E & Hd & ->). rewrite <- of_mem_singleton in E. apply of_mem_inj in E as <-.
    by apply lookup_union_Some_l, lookup_singleton_eq.
  - intros E. exists (of_mem (delete a m)). rewrite <- of_mem_singleton, <- of_mem_union by apply map_disjoint_singleton_l_2, lookup_delete_eq.
    by rewrite <- insert_union_singleton_l, insert_delete_eq, insert_id.
Qed.
Lemma holds_pt_at a b (m : mem) : m !! a = Some b → ∃ m' : mem, m = {[ a := b ]} ∪ m' ∧ ({[ a := b ]} : mem) ##ₘ m'.
Proof.
  intros E. exists (delete a m). split; [by rewrite <- insert_union_singleton_l, insert_delete_eq, insert_id|].
  by apply map_disjoint_singleton_l_2, lookup_delete_eq.
Qed.

Lemma pt_exclusive a b c : pt a b ⊢ pt a c -∗ False.
Proof.
  apply bi.wand_intro_r. unfold pt. rewrite -uPred.ownM_op uPred.ownM_valid. iIntros "%Hv". exfalso.
  specialize (Hv a). rewrite lookup_op !lookup_singleton_eq in Hv. done.
Qed.

Lemma wp_load8 a b Q : pt a b ⊢ (pt a b -∗ Q b) -∗ wp (load8 a) Q.
Proof.
  apply bi.wand_intro_r. constructor. intros n x Hv H m mf -> Hd.
  assert (Hs : holds (pt a b ∗ (pt a b -∗ Q b)) m) by (eapply uPred_mono; [exact H|done|lia]).
  assert (E : m !! a = Some b) by (apply holds_pt; eapply holds_entails; [|exact Hs]; iIntros "[$ _]").
  exists b, m. split; [|split; [done|eapply holds_entails; [|exact Hs]; iIntros "[H1 H2]"; by iApply "H2"]].
  unfold load8. mred. by rewrite (lookup_union_Some_l _ _ _ _ E).
Qed.

Lemma wp_store8 a b c Q : pt a b ⊢ (pt a c -∗ Q tt) -∗ wp (store8 a c) Q.
Proof.
  apply bi.wand_intro_r. constructor. intros n x Hv H m mf -> Hd.
  assert (Hs : holds (pt a b ∗ (pt a c -∗ Q tt)) m) by (eapply uPred_mono; [exact H|done|lia]).
  apply holds_sep in Hs as (m1 & m2 & Hd12 & -> & H1 & H2). apply holds_pt in H1. destruct (holds_pt_at _ _ _ H1) as (m3 & -> & Hd3).
  exists tt, (<[a := c]> ({[a := b]} ∪ m3 ∪ m2)). split; [|split].
  - unfold store8, load8. mred. assert (E : ({[a := b]} ∪ m3 ∪ m2 ∪ mf) !! a = Some b) by (do 3 apply lookup_union_Some_l; apply lookup_singleton_eq).
    rewrite E. mred. by rewrite !insert_union_l.
  - apply map_disjoint_insert_l_2; [|done]. eapply (map_disjoint_Some_l _ _ a b Hd).
    by apply lookup_union_Some_l, lookup_union_Some_l, lookup_singleton_eq.
  - assert (Hp : holds (pt a c ∗ (pt a c -∗ Q tt)) (<[a := c]> ({[a := b]} ∪ m3 ∪ m2))).
    { apply holds_sep. exists ({[a := c]} ∪ m3), m2. repeat split.
      - apply map_disjoint_union_l. apply map_disjoint_union_l in Hd12 as [Hl Hr]. split; [|done]. apply map_disjoint_singleton_l_2.
        by eapply map_disjoint_singleton_l in Hl.
      - by rewrite <- map_union_assoc, insert_union_l, insert_singleton_eq, map_union_assoc.
      - apply holds_pt. by apply lookup_union_Some_l, lookup_singleton_eq.
      - done. }
    eapply holds_entails; [|exact Hp]. iIntros "[H1 H2]". by iApply "H2".
Qed.

(** ** Words *)

Definition wordp (a v : Z) : hprop :=
  ∃ b0 b1 b2 b3, ⌜is_byte b0 ∧ is_byte b1 ∧ is_byte b2 ∧ is_byte b3 ∧ v = word b0 b1 b2 b3⌝ ∗ pt a b0 ∗ pt (a + 1) b1 ∗ pt (a + 2) b2 ∗ pt (a + 3) b3.

Lemma wordp_u32 a v : wordp a v ⊢ ⌜is_u32 v⌝.
Proof. iIntros "(%b0 & %b1 & %b2 & %b3 & (%H0 & %H1 & %H2 & %H3 & ->) & _)". iPureIntro. by apply word_bound. Qed.
Lemma wordp_exclusive a v w : wordp a v ⊢ wordp a w -∗ False.
Proof.
  iIntros "(%b0 & %b1 & %b2 & %b3 & _ & H & _) (%c0 & %c1 & %c2 & %c3 & _ & H' & _)". iApply (pt_exclusive with "H H'").
Qed.
Lemma wp_load32 a b v Q : a = b → wordp b v ⊢ (wordp b v -∗ Q v) -∗ wp (load32 a) Q.
Proof.
  intros ->. iIntros "(%b0 & %b1 & %b2 & %b3 & (%H0 & %H1 & %H2 & %H3 & ->) & P0 & P1 & P2 & P3) H". unfold load32.
  iApply wp_bind. iApply (wp_load8 with "P0"). iIntros "P0". iApply wp_bind. iApply (wp_load8 with "P1"). iIntros "P1".
  iApply wp_bind. iApply (wp_load8 with "P2"). iIntros "P2". iApply wp_bind. iApply (wp_load8 with "P3"). iIntros "P3".
  iApply wp_ret. iApply "H". iExists b0, b1, b2, b3. by iFrame.
Qed.
Lemma word_split w : is_u32 w → w = word (w mod 2 ^ 8) (w / 2 ^ 8 mod 2 ^ 8) (w / 2 ^ 16 mod 2 ^ 8) (w / 2 ^ 24 mod 2 ^ 8).
Proof. intros H. unfold word. change (2 ^ 16) with (2 ^ 8 * 2 ^ 8). change (2 ^ 24) with (2 ^ 8 * 2 ^ 8 * 2 ^ 8). zlia. Qed.
Lemma wp_store32 a b v w Q : a = b → is_u32 w → wordp b v ⊢ (wordp b w -∗ Q tt) -∗ wp (store32 a w) Q.
Proof.
  intros -> Hw. iIntros "(%b0 & %b1 & %b2 & %b3 & _ & P0 & P1 & P2 & P3) H". unfold store32.
  iApply wp_bind. iApply (wp_store8 with "P0"). iIntros "P0". iApply wp_bind. iApply (wp_store8 with "P1"). iIntros "P1".
  iApply wp_bind. iApply (wp_store8 with "P2"). iIntros "P2". iApply (wp_store8 with "P3"). iIntros "P3".
  iApply "H". iExists _, _, _, _. iFrame. iPureIntro. unfold is_byte. repeat split; try (apply Z.mod_pos_bound; lia). by apply word_split.
Qed.

(** ** Blocks of bytes *)

Definition blk (a n : Z) : hprop := [∗ list] x ∈ seqZ a n, ∃ b, ⌜is_byte b⌝ ∗ pt x b.

Lemma blk_nil a n : n ≤ 0 → ⊢ blk a n.
Proof. intros H. unfold blk. rewrite seqZ_nil //. Qed.
Lemma blk_split a n k : 0 ≤ n → 0 ≤ k → blk a (n + k) ⊣⊢ blk a n ∗ blk (a + n) k.
Proof. intros Hn Hk. unfold blk. rewrite seqZ_app // big_sepL_app //. Qed.
Lemma blk_cut a n k : 0 ≤ k ≤ n → blk a n ⊣⊢ blk a k ∗ blk (a + k) (n - k).
Proof. intros H. rewrite -blk_split; [|lia..]. by replace (k + (n - k)) with n by lia. Qed.
Lemma blk_byte a : blk a 1 ⊣⊢ ∃ b, ⌜is_byte b⌝ ∗ pt a b.
Proof. unfold blk. rewrite seqZ_cons // seqZ_nil // big_sepL_singleton //. Qed.
Lemma blk_word a : blk a 4 ⊣⊢ ∃ v, wordp a v.
Proof.
  rewrite (blk_cut a 4 1) // (blk_cut (a + 1) _ 1) // (blk_cut (a + 1 + 1) _ 1) // -!Z.add_assoc. change (4 - 1 - 1 - 1) with 1. rewrite !blk_byte.
  iSplit.
  - iIntros "((%b0 & %H0 & P0) & (%b1 & %H1 & P1) & (%b2 & %H2 & P2) & (%b3 & %H3 & P3))". iExists (word b0 b1 b2 b3), b0, b1, b2, b3. by iFrame.
  - iIntros "(%v & %b0 & %b1 & %b2 & %b3 & (%H0 & %H1 & %H2 & %H3 & %) & P0 & P1 & P2 & P3)". iFrame. done.
Qed.
(** The first word of a block. *)
Lemma blk_first a n : 4 ≤ n → blk a n ⊣⊢ (∃ v, wordp a v) ∗ blk (a + 4) (n - 4).
Proof. intros H. rewrite (blk_cut a n 4); [|lia]. by rewrite blk_word. Qed.
Lemma blk_last a n : 4 ≤ n → blk a n ⊣⊢ blk a (n - 4) ∗ ∃ v, wordp (a + n - 4) v.
Proof. intros H. rewrite (blk_cut a n (n - 4)); [|lia]. replace (n - (n - 4)) with 4 by lia. rewrite blk_word.
by replace (a + (n - 4)) with (a + n - 4) by lia. Qed.

(** ** Loops *)

(** An invariant with a number that a step makes smaller. *)
Lemma wp_run_nat {A B} (I : A → nat → hprop) (Q : B → hprop) (body : A → M mem (A + B)) :
  (∀ a n, I a n ⊢ wp (body a) (λ r, match r with inl a' => ∃ n', ⌜(n' < n)%nat⌝ ∗ I a' n' | inr b => Q b end)) →
  ∀ k n a, (n < k)%nat → I a n ⊢ wp (run_nat k body a) (λ r, match r with inl _ => False | inr b => Q b end).
Proof.
  intros Hstep. induction k as [|k IH]; intros n a Hn; [lia|]. cbn [run_nat]. iIntros "HI". iApply wp_bind.
  iApply (wp_frame_wand with "[HI]"); [by iApply Hstep|].
  iIntros ([a'|b]) "H"; [|by iApply wp_ret]. iDestruct "H" as (n' Hn') "H". iApply (IH n' with "H"). lia.
Qed.
Lemma wp_loop {A B} (I : A → nat → hprop) (Q : B → hprop) (body : A → M mem (A + B)) fuel n a :
  (∀ a n, I a n ⊢ wp (body a) (λ r, match r with inl a' => ∃ n', ⌜(n' < n)%nat⌝ ∗ I a' n' | inr b => Q b end)) → Z.of_nat n < Z.pos fuel → I a n ⊢
    wp (while fuel body a) Q.
Proof.
  intros Hstep Hn. etrans; [apply (wp_run_nat I Q body Hstep (Datatypes.S n) n a); lia|]. constructor. intros k x Hv H m mf -> Hd.
  destruct (H m mf eq_refl Hd) as (r & m' & E & Hd' & HQ). destruct r as [a'|b]; [by exfalso; apply (holds_pure False m')|].
  exists b, m'. split; [|done]. apply (while_run _ _ _ _ _ _ _ E). lia.
Qed.
