(* ===== verification/Malloc.v ===== *)
(** * The allocator of the C library

    [malloc] and [free] of [uClibc/libc/stdlib/malloc-standard] ([malloc.h], [malloc.c],
    [free.c]), the allocator the library is configured with: chunks with boundary tags in the
    memory the system gives, bins of free chunks in [malloc_state].  Memory is the map of
    bytes of Word.v; the state is at the address [av] in it. *)
From Stdlib Require Import ZArith Lia.
From stdpp Require Import base gmap list strings.
From S2P Require Import Prelude Word.
Open Scope Z_scope.
Open Scope u32_scope.

(** ** malloc.h *)

Definition SIZE_SZ : Z := 4.
Definition MALLOC_ALIGNMENT : Z := 2 * SIZE_SZ.
Definition MALLOC_ALIGN_MASK : Z := MALLOC_ALIGNMENT - 1.
Definition MIN_CHUNK_SIZE : Z := 16.
Definition MINSIZE : Z := Z.land (MIN_CHUNK_SIZE + MALLOC_ALIGN_MASK) (not32 MALLOC_ALIGN_MASK).
Definition MORECORE_FAILURE : Z := u32 (-1).
Definition MMAP_AS_MORECORE_SIZE : Z := 1024 * 1024.
Definition DEFAULT_MXFAST : Z := 64.
Definition DEFAULT_TRIM_THRESHOLD : Z := 256 * 1024.
Definition DEFAULT_TOP_PAD : Z := 0.
Definition DEFAULT_MMAP_THRESHOLD : Z := 256 * 1024.
Definition DEFAULT_MMAP_MAX : Z := 65536.
Definition NBINS : Z := 96.
Definition NSMALLBINS : Z := 32.
Definition SMALLBIN_WIDTH : Z := 8.
Definition MIN_LARGE_SIZE : Z := 256.
Definition FIRST_SORTED_BIN_SIZE : Z := MIN_LARGE_SIZE.
Definition BINMAPSHIFT : Z := 5.
Definition BINMAPSIZE : Z := NBINS / 2 ^ BINMAPSHIFT.
Definition MAX_FAST_SIZE : Z := 80.
Definition FASTBIN_CONSOLIDATION_THRESHOLD : Z := Z.shiftr DEFAULT_TRIM_THRESHOLD 1.
Definition PREV_INUSE : Z := 1.
Definition IS_MMAPPED : Z := 2.
Definition SIZE_BITS : Z := Z.lor PREV_INUSE IS_MMAPPED.
Definition ANYCHUNKS_BIT : Z := 1.
Definition FASTCHUNKS_BIT : Z := 2.
Definition MORECORE_CONTIGUOUS_BIT : Z := 1.
Definition ENOMEM : Z := 12.
(** More than there are chunks. *)
Definition CHUNKS : positive := 4294967297.

Definition REQUEST_OUT_OF_RANGE (req : Z) : bool := u32 (-2 * MINSIZE) <=? req.
Definition request2size (req : Z) : Z :=
  if req +u SIZE_SZ +u MALLOC_ALIGN_MASK <? MINSIZE then MINSIZE
  else Z.land (req +u SIZE_SZ +u MALLOC_ALIGN_MASK) (not32 MALLOC_ALIGN_MASK).
Definition chunk2mem (p : Z) : Z := p +u 2 * SIZE_SZ.
Definition mem2chunk (p : Z) : Z := p -u 2 * SIZE_SZ.

(** struct malloc_chunk. *)
Definition get_prev_size (p : Z) : M mem Z := load32 p.
Definition get_size (p : Z) : M mem Z := load32 (p +u SIZE_SZ).
Definition get_fd (p : Z) : M mem Z := load32 (p +u 2 * SIZE_SZ).
Definition get_bk (p : Z) : M mem Z := load32 (p +u 3 * SIZE_SZ).
Definition set_prev_size (p x : Z) : M mem unit := store32 p x.
Definition set_head (p s : Z) : M mem unit := store32 (p +u SIZE_SZ) s.
Definition set_fd (p x : Z) : M mem unit := store32 (p +u 2 * SIZE_SZ) x.
Definition set_bk (p x : Z) : M mem unit := store32 (p +u 3 * SIZE_SZ) x.

Definition chunk_at_offset (p s : Z) : Z := p +u s.
Definition set_foot (p s : Z) : M mem unit := set_prev_size (chunk_at_offset p s) s.
Definition chunksize (p : Z) : M mem Z := s ← get_size p; mret (Z.land s (not32 SIZE_BITS)).
Definition prev_inuse (p : Z) : M mem bool := s ← get_size p; mret (negb (Z.land s PREV_INUSE =? 0)).
Definition chunk_is_mmapped (p : Z) : M mem bool := s ← get_size p; mret (negb (Z.land s IS_MMAPPED =? 0)).
Definition inuse_bit_at_offset (p s : Z) : M mem bool := prev_inuse (chunk_at_offset p s).
Definition set_inuse_bit_at_offset (p s : Z) : M mem unit :=
  x ← get_size (chunk_at_offset p s); set_head (chunk_at_offset p s) (Z.lor x PREV_INUSE).

(** Take a chunk off a bin list. *)
Definition unlink (P : Z) : M mem unit :=
  FD ← get_fd P;
  BK ← get_bk P;
  x ← get_bk FD;
  if negb (x =? P) then panic "abort"%string
  else
    y ← get_fd BK;
    if negb (y =? P) then panic "abort"%string else set_bk FD BK ;; set_fd BK FD.

Definition in_smallbin_range (sz : Z) : bool := sz <? MIN_LARGE_SIZE.
Definition smallbin_index (sz : Z) : Z := Z.shiftr sz 3.
(** [bsrl] gives the highest set bit. *)
Definition __malloc_largebin_index (sz : Z) : Z :=
  let x := Z.shiftr sz SMALLBIN_WIDTH in
  if 0x10000 <=? x then NBINS - 1
  else let m := Z.log2 x in NSMALLBINS + Z.shiftl m 2 + Z.land (Z.shiftr sz (m + 6)) 3.
Definition bin_index (sz : Z) : Z := if in_smallbin_range sz then smallbin_index sz else __malloc_largebin_index sz.
Definition idx2block (i : Z) : Z := Z.shiftr i BINMAPSHIFT.
Definition idx2bit (i : Z) : Z := Z.shiftl 1 (Z.land i (2 ^ BINMAPSHIFT - 1)).
Definition fastbin_index (sz : Z) : Z := Z.shiftr sz 3 -u 2.
Definition NFASTBINS : Z := fastbin_index (request2size MAX_FAST_SIZE) + 1.

(** ** struct malloc_state *)

Section Malloc.
(** The addresses of [__malloc_state] and of [errno], the page size, and the system. *)
Context (av errno_at malloc_getpagesize : Z) (MORECORE MMAP : Z → M mem Z) (MUNMAP : Z → Z → M mem unit).

Definition max_fast : Z := av.
Definition fastbins (i : Z) : Z := av +u (4 + SIZE_SZ * i).
Definition top : Z := av +u 44.
Definition last_remainder : Z := av +u 48.
Definition bins (i : Z) : Z := av +u (52 + SIZE_SZ * i).
Definition binmap (i : Z) : Z := av +u (820 + SIZE_SZ * i).
Definition trim_threshold : Z := av +u 836.
Definition top_pad : Z := av +u 840.
Definition mmap_threshold : Z := av +u 844.
Definition n_mmaps : Z := av +u 848.
Definition n_mmaps_max : Z := av +u 852.
Definition max_n_mmaps : Z := av +u 856.
Definition pagesize : Z := av +u 860.
Definition morecore_properties : Z := av +u 864.
Definition mmapped_mem : Z := av +u 868.
Definition sbrked_mem : Z := av +u 872.
Definition max_sbrked_mem : Z := av +u 876.
Definition max_mmapped_mem : Z := av +u 880.
Definition max_total_mem : Z := av +u 884.

Definition bin_at (i : Z) : Z := bins (Z.shiftl i 1) -u 2 * SIZE_SZ.
Definition next_bin (b : Z) : Z := b +u 2 * SIZE_SZ.
Definition unsorted_chunks : Z := bin_at 1.
Definition initial_top : Z := unsorted_chunks.
Definition mark_bin (i : Z) : M mem unit :=
  x ← load32 (binmap (idx2block i)); store32 (binmap (idx2block i)) (Z.lor x (idx2bit i)).

Definition have_anychunks : M mem bool := x ← load32 max_fast; mret (negb (Z.land x ANYCHUNKS_BIT =? 0)).
Definition set_anychunks : M mem unit := x ← load32 max_fast; store32 max_fast (Z.lor x ANYCHUNKS_BIT).
Definition have_fastchunks : M mem bool := x ← load32 max_fast; mret (negb (Z.land x FASTCHUNKS_BIT =? 0)).
Definition set_fastchunks : M mem unit := x ← load32 max_fast; store32 max_fast (Z.lor x (Z.lor FASTCHUNKS_BIT ANYCHUNKS_BIT)).
Definition clear_fastchunks : M mem unit := x ← load32 max_fast; store32 max_fast (Z.land x (not32 FASTCHUNKS_BIT)).
Definition set_max_fast (s : Z) : M mem unit :=
  x ← load32 max_fast;
  store32 max_fast (Z.lor (if s =? 0 then SMALLBIN_WIDTH else request2size s) (Z.land x (Z.lor FASTCHUNKS_BIT ANYCHUNKS_BIT))).
Definition contiguous : M mem bool := x ← load32 morecore_properties; mret (negb (Z.land x MORECORE_CONTIGUOUS_BIT =? 0)).
Definition set_contiguous : M mem unit :=
  x ← load32 morecore_properties; store32 morecore_properties (Z.lor x MORECORE_CONTIGUOUS_BIT).
Definition set_noncontiguous : M mem unit :=
  x ← load32 morecore_properties; store32 morecore_properties (Z.land x (not32 MORECORE_CONTIGUOUS_BIT)).

Definition add_to (field x : Z) : M mem unit := y ← load32 field; store32 field (y +u x).
Definition raise_to (field x : Z) : M mem unit := y ← load32 field; whenM (y <? x) (store32 field x).

(** ** free.c *)

Definition __malloc_trim (pad : Z) : M mem Z :=
  pagesz ← load32 pagesize;
  t ← load32 top;
  top_size ← chunksize t;
  let extra := s32 (((top_size -u pad -u MINSIZE +u (pagesz -u 1)) / pagesz -u 1) *u pagesz) in
  if 0 <? extra then
    current_brk ← MORECORE 0;
    if current_brk =? t +u top_size then
      MORECORE (- extra) ;;
      new_brk ← MORECORE 0;
      if negb (new_brk =? MORECORE_FAILURE) then
        let released := s32 (current_brk -u new_brk) in
        if negb (released =? 0) then
          add_to sbrked_mem (- released) ;;
          set_head t (Z.lor (top_size -u released) PREV_INUSE) ;;
          mret 1
        else mret 0
      else mret 0
    else mret 0
  else mret 0.

Definition malloc_init_state : M mem unit :=
  forM (seqZ 1 (NBINS - 1)) (λ i, set_bk (bin_at i) (bin_at i) ;; set_fd (bin_at i) (bin_at i)) ;;
  store32 top_pad DEFAULT_TOP_PAD ;;
  store32 n_mmaps_max DEFAULT_MMAP_MAX ;;
  store32 mmap_threshold DEFAULT_MMAP_THRESHOLD ;;
  store32 trim_threshold DEFAULT_TRIM_THRESHOLD ;;
  set_contiguous ;;
  set_max_fast DEFAULT_MXFAST ;;
  store32 top initial_top ;;
  store32 pagesize malloc_getpagesize.

(** "consolidate backward" and "consolidate forward": the chunk and its size after it. *)
Definition consolidate_backward (p size : Z) : M mem (Z * Z) :=
  used ← prev_inuse p;
  if (used : bool) then mret (p, size)
  else
    prevsize ← get_prev_size p;
    let p := chunk_at_offset p (- prevsize) in
    unlink p ;;
    mret (p, size +u prevsize).
Definition consolidate_forward (nextchunk nextsize size : Z) : M mem Z :=
  nextinuse ← inuse_bit_at_offset nextchunk nextsize;
  set_head nextchunk nextsize ;;
  if (nextinuse : bool) then mret size else unlink nextchunk ;; mret (size +u nextsize).

Definition consolidate_chunk (p : Z) : M mem unit :=
  s ← get_size p;
  let size := Z.land s (not32 PREV_INUSE) in
  let nextchunk := chunk_at_offset p size in
  nextsize ← chunksize nextchunk;
  r ← consolidate_backward p size;
  let (p, size) := (r : Z * Z) in
  t ← load32 top;
  if negb (nextchunk =? t) then
    size ← consolidate_forward nextchunk nextsize size;
    first_unsorted ← get_fd unsorted_chunks;
    set_fd unsorted_chunks p ;;
    set_bk first_unsorted p ;;
    set_head p (Z.lor size PREV_INUSE) ;;
    set_bk p unsorted_chunks ;;
    set_fd p first_unsorted ;;
    set_foot p size
  else
    set_head p (Z.lor (size +u nextsize) PREV_INUSE) ;;
    store32 top p.

Definition __malloc_consolidate : M mem unit :=
  mf ← load32 max_fast;
  if negb (mf =? 0) then
    clear_fastchunks ;;
    mf ← load32 max_fast;
    let maxfb := fastbins (fastbin_index mf) in
    while CHUNKS
      (λ fb,
         p ← load32 fb;
         (if negb (p =? 0) then
            store32 fb 0 ;;
            while CHUNKS
              (λ p,
                 nextp ← get_fd p;
                 consolidate_chunk p ;;
                 if negb (nextp =? 0) then mret (inl nextp) else mret (inr tt)) p
          else mret tt) ;;
         if negb (fb =? maxfb) then mret (inl (fb +u SIZE_SZ)) else mret (inr tt)) (fastbins 0)
  else malloc_init_state.

(** "Consolidate other non-mmapped chunks as they arrive": the size of the free chunk, or of top. *)
Definition free_chunk (p size : Z) : M mem Z :=
  let nextchunk := chunk_at_offset p size in
  nextsize ← chunksize nextchunk;
  r ← consolidate_backward p size;
  let (p, size) := (r : Z * Z) in
  t ← load32 top;
  if negb (nextchunk =? t) then
    size ← consolidate_forward nextchunk nextsize size;
    let bck := unsorted_chunks in
    fwd ← get_fd bck;
    set_bk p bck ;;
    set_fd p fwd ;;
    set_fd bck p ;;
    set_bk fwd p ;;
    set_head p (Z.lor size PREV_INUSE) ;;
    set_foot p size ;;
    mret size
  else
    let size := size +u nextsize in
    set_head p (Z.lor size PREV_INUSE) ;;
    store32 top p ;;
    mret size.

Definition free (mem_ : Z) : M mem unit :=
  if mem_ =? 0 then mret tt
  else
    let p := mem2chunk mem_ in
    size ← chunksize p;
    mf ← load32 max_fast;
    if size <=? mf then
      set_fastchunks ;;
      let fb := fastbins (fastbin_index size) in
      h ← load32 fb;
      set_fd p h ;;
      store32 fb p
    else
      mmapped ← chunk_is_mmapped p;
      if negb (mmapped : bool) then
        set_anychunks ;;
        size ← free_chunk p size;
        if FASTBIN_CONSOLIDATION_THRESHOLD <=? size then
          fast ← have_fastchunks;
          whenM fast __malloc_consolidate ;;
          t ← load32 top;
          ts ← chunksize t;
          tt_ ← load32 trim_threshold;
          if tt_ <=? ts then pad ← load32 top_pad; __malloc_trim pad ;; mret tt else mret tt
        else mret tt
      else
        offset ← get_prev_size p;
        add_to n_mmaps (-1) ;;
        add_to mmapped_mem (- (size +u offset)) ;;
        MUNMAP (p -u offset) (size +u offset).

(** ** malloc.c *)

(** The stages of a function that returns from its middle. *)
Definition or_else {A} (m : M mem (option A)) (k : M mem A) : M mem A :=
  r ← m; match r with Some x => mret x | None => k end.

(** "First-fit" of a chunk of size [size] for [nb] bytes, when it is taken off its list: the rest
    becomes the first chunk of the unsorted ones. *)
Definition split_chunk (victim size nb : Z) : M mem Z :=
  let remainder_size := size -u nb in
  let remainder := chunk_at_offset victim nb in
  set_fd unsorted_chunks remainder ;;
  set_bk unsorted_chunks remainder ;;
  set_fd remainder unsorted_chunks ;;
  set_bk remainder unsorted_chunks ;;
  set_head victim (Z.lor nb PREV_INUSE) ;;
  set_head remainder (Z.lor remainder_size PREV_INUSE) ;;
  set_foot remainder remainder_size ;;
  mret remainder.

(** A direct mapping for a large request. *)
Definition mmap_chunk (nb pagemask : Z) : M mem (option Z) :=
  mt ← load32 mmap_threshold;
  nm ← load32 n_mmaps;
  nmax ← load32 n_mmaps_max;
  if (mt <=? nb) && (s32 nm <? s32 nmax) then
    let size := Z.land (nb +u SIZE_SZ +u MALLOC_ALIGN_MASK +u pagemask) (not32 pagemask) in
    if nb <? size then
      mm ← MMAP size;
      if negb (mm =? MORECORE_FAILURE) then
        let front_misalign := Z.land (chunk2mem mm) MALLOC_ALIGN_MASK in
        p ← (if 0 <? front_misalign then
               let correction := MALLOC_ALIGNMENT - front_misalign in
               let p := mm +u correction in
               set_prev_size p correction ;;
               set_head p (Z.lor (size -u correction) IS_MMAPPED) ;;
               mret p
             else
               set_prev_size mm 0 ;;
               set_head mm (Z.lor size IS_MMAPPED) ;;
               mret mm);
        add_to n_mmaps 1 ;;
        n ← load32 n_mmaps;
        mx ← load32 max_n_mmaps;
        whenM (s32 mx <? s32 n) (store32 max_n_mmaps n) ;;
        add_to mmapped_mem size ;;
        sum ← load32 mmapped_mem;
        raise_to max_mmapped_mem sum ;;
        sb ← load32 sbrked_mem;
        raise_to max_total_mem (sum +u sb) ;;
        mret (Some (chunk2mem p))
      else mret None
    else mret None
  else mret None.

(** More memory for top from the system: where it begins and ends, and its size; an end that was
    not asked for is [MORECORE_FAILURE]. *)
Definition extend_memory (nb old_size pagemask : Z) : M mem (Z * Z * Z) :=
  pad ← load32 top_pad;
  cont ← contiguous;
  let size := nb +u pad +u MINSIZE in
  let size := if (cont : bool) then size -u old_size else size in
  let size := Z.land (size +u pagemask) (not32 pagemask) in
  fst_brk ← (if 0 <? s32 size then MORECORE (s32 size) else mret MORECORE_FAILURE);
  if fst_brk =? MORECORE_FAILURE then
    let size := if (cont : bool) then Z.land (size +u old_size +u pagemask) (not32 pagemask) else size in
    let size := if size <? MMAP_AS_MORECORE_SIZE then MMAP_AS_MORECORE_SIZE else size in
    if nb <? size then
      fst_brk ← MMAP size;
      if negb (fst_brk =? MORECORE_FAILURE) then set_noncontiguous ;; mret (fst_brk, fst_brk +u size, size)
      else mret (fst_brk, MORECORE_FAILURE, size)
    else mret (fst_brk, MORECORE_FAILURE, size)
  else mret (fst_brk, MORECORE_FAILURE, size).

(** The end of the new memory and how much was added to align it: for memory that continues the
    program's break, and else. *)
Definition align_brk (fst_brk snd_brk size old_size old_end pagemask : Z) : M mem (Z * Z * Z) :=
  cont ← contiguous;
  whenM (cont && negb (old_size =? 0) && (fst_brk <? old_end)) set_noncontiguous ;;
  cont ← contiguous;
  if (cont : bool) then
    whenM (negb (old_size =? 0)) (add_to sbrked_mem (fst_brk - old_end)) ;;
    let front_misalign := Z.land (chunk2mem fst_brk) MALLOC_ALIGN_MASK in
    let correction := if 0 <? front_misalign then MALLOC_ALIGNMENT - front_misalign else 0 in
    let aligned_brk := fst_brk +u correction in
    let correction := correction +u old_size in
    let end_misalign := fst_brk +u size +u correction in
    let correction := correction +u (Z.land (end_misalign +u pagemask) (not32 pagemask) -u end_misalign) in
    snd_brk ← MORECORE (s32 correction);
    if snd_brk =? MORECORE_FAILURE then
      snd_brk ← MORECORE 0;
      mret (aligned_brk, snd_brk, 0)
    else if snd_brk <? fst_brk then
      set_noncontiguous ;;
      mret (aligned_brk, fst_brk +u size, 0)
    else mret (aligned_brk, snd_brk, correction)
  else
    snd_brk ← (if snd_brk =? MORECORE_FAILURE then
                 snd_brk ← MORECORE 0;
                 add_to sbrked_mem (snd_brk - fst_brk - size) ;;
                 mret snd_brk
               else mret snd_brk);
    mret (fst_brk, snd_brk, 0).

(** The fenceposts at the end of a top that is not extended. *)
Definition fence_top (old_top old_size : Z) : M mem unit :=
  let old_size := Z.land (old_size -u 3 * SIZE_SZ) (not32 MALLOC_ALIGN_MASK) in
  set_head old_top (Z.lor old_size PREV_INUSE) ;;
  set_head (chunk_at_offset old_top old_size) (Z.lor SIZE_SZ PREV_INUSE) ;;
  set_head (chunk_at_offset old_top (old_size +u SIZE_SZ)) (Z.lor SIZE_SZ PREV_INUSE) ;;
  whenM (MINSIZE <=? old_size)
    (tt_ ← load32 trim_threshold;
     store32 trim_threshold (u32 (-1)) ;;
     free (chunk2mem old_top) ;;
     store32 trim_threshold tt_).

Definition split_top (nb : Z) : M mem (option Z) :=
  victim ← load32 top;
  size ← chunksize victim;
  if nb +u MINSIZE <=? size then
    let remainder_size := size -u nb in
    let remainder := chunk_at_offset victim nb in
    store32 top remainder ;;
    set_head victim (Z.lor nb PREV_INUSE) ;;
    set_head remainder (Z.lor remainder_size PREV_INUSE) ;;
    mret (Some (chunk2mem victim))
  else mret None.

(** [malloc_again] is the call of malloc it contains. *)
Definition __malloc_alloc (malloc_again : Z → M mem Z) (nb : Z) : M mem Z :=
  fast ← have_fastchunks;
  if (fast : bool) then
    __malloc_consolidate ;;
    malloc_again (nb -u MALLOC_ALIGN_MASK)
  else
    pgsz ← load32 pagesize;
    let pagemask := pgsz -u 1 in
    or_else (mmap_chunk nb pagemask)
      (old_top ← load32 top;
       old_size ← chunksize old_top;
       let old_end := chunk_at_offset old_top old_size in
       r ← extend_memory nb old_size pagemask;
       let '(fst_brk, snd_brk, size) := r in
       if negb (fst_brk =? MORECORE_FAILURE) then
         add_to sbrked_mem size ;;
         (if (fst_brk =? old_end) && (snd_brk =? MORECORE_FAILURE) then
            set_head old_top (Z.lor (size +u old_size) PREV_INUSE)
          else
            r ← align_brk fst_brk snd_brk size old_size old_end pagemask;
            let '(aligned_brk, snd_brk, correction) := r in
            whenM (negb (snd_brk =? MORECORE_FAILURE))
              (store32 top aligned_brk ;;
               set_head aligned_brk (Z.lor (snd_brk -u aligned_brk +u correction) PREV_INUSE) ;;
               add_to sbrked_mem correction ;;
               whenM (negb (old_size =? 0)) (fence_top old_top old_size))) ;;
         sum ← load32 sbrked_mem;
         raise_to max_sbrked_mem sum ;;
         mm ← load32 mmapped_mem;
         raise_to max_total_mem (sum +u mm) ;;
         or_else (split_top nb) (store32 errno_at ENOMEM ;; mret 0)
       else
         store32 errno_at ENOMEM ;; mret 0).

(** The stages of [malloc].  The fastbin and the small bin of the size. *)
Definition take_fast (nb : Z) : M mem (option Z) :=
  mf ← load32 max_fast;
  if nb <=? mf then
    let fb := fastbins (fastbin_index nb) in
    victim ← load32 fb;
    if negb (victim =? 0) then
      fd ← get_fd victim;
      store32 fb fd ;;
      mret (Some (chunk2mem victim))
    else mret None
  else mret None.
Definition take_small (nb : Z) : M mem (option Z) :=
  if in_smallbin_range nb then
    let bin := bin_at (smallbin_index nb) in
    victim ← get_bk bin;
    if negb (victim =? bin) then
      bck ← get_bk victim;
      set_inuse_bit_at_offset victim nb ;;
      set_bk bin bck ;;
      set_fd bck bin ;;
      mret (Some (chunk2mem victim))
    else mret None
  else
    fast ← have_fastchunks;
    whenM fast __malloc_consolidate ;;
    mret None.

(** "Place chunk in bin." *)
Definition bin_place (size victim_index : Z) : M mem (Z * Z) :=
  let bck := bin_at victim_index in
  fwd ← get_fd bck;
  if in_smallbin_range size then mret (bck, fwd)
  else if negb (fwd =? bck) then
    last ← get_bk bck;
    ls ← get_size last;
    if size <? ls then mret (last, bck)
    else if FIRST_SORTED_BIN_SIZE <=? size then
      let size := Z.lor size PREV_INUSE in
      fwd ← while CHUNKS
        (λ fwd,
           fs ← get_size fwd;
           if size <? fs then n ← get_fd fwd; mret (inl n) else mret (inr fwd)) fwd;
      bck ← get_bk fwd;
      mret (bck, fwd)
    else mret (bck, fwd)
  else mret (bck, fwd).
Definition bin_chunk (victim size : Z) : M mem unit :=
  let victim_index := if in_smallbin_range size then smallbin_index size else __malloc_largebin_index size in
  r ← bin_place size victim_index;
  let (bck, fwd) := (r : Z * Z) in
  mark_bin victim_index ;;
  set_bk victim bck ;;
  set_fd victim fwd ;;
  set_bk fwd victim ;;
  set_fd bck victim.

(** "Process recently freed or remaindered chunks." *)
Definition take_unsorted (nb : Z) : M mem (option Z) :=
  while CHUNKS
    (λ _ : unit,
       victim ← get_bk unsorted_chunks;
       if victim =? unsorted_chunks then mret (inr None)
       else
         bck ← get_bk victim;
         size ← chunksize victim;
         lr ← load32 last_remainder;
         if in_smallbin_range nb && (bck =? unsorted_chunks) && (victim =? lr) && (nb +u MINSIZE <? size) then
           remainder ← split_chunk victim size nb;
           store32 last_remainder remainder ;;
           mret (inr (Some (chunk2mem victim)))
         else
           set_bk unsorted_chunks bck ;;
           set_fd bck unsorted_chunks ;;
           if size =? nb then
             set_inuse_bit_at_offset victim size ;;
             mret (inr (Some (chunk2mem victim)))
           else bin_chunk victim size ;; mret (inl tt)) tt.

(** "If a large request, scan through the chunks of current bin". *)
Definition take_large (nb : Z) : M mem (option Z) :=
  if negb (in_smallbin_range nb) then
    let bin := bin_at (__malloc_largebin_index nb) in
    victim ← get_bk bin;
    while CHUNKS
      (λ victim,
         if victim =? bin then mret (inr None)
         else
           size ← chunksize victim;
           if nb <=? size then
             unlink victim ;;
             (if size -u nb <? MINSIZE then set_inuse_bit_at_offset victim size
              else split_chunk victim size nb ;; mret tt) ;;
             mret (inr (Some (chunk2mem victim)))
           else v ← get_bk victim; mret (inl v)) victim
  else mret None.

(** The next block of the bin map with a bit; none when the map ends. *)
Definition next_block (block : Z) : M mem (option (Z * Z)) :=
  while CHUNKS
    (λ block,
       let block := block + 1 in
       if BINMAPSIZE <=? block then mret (inr None)
       else
         map ← load32 (binmap block);
         if map =? 0 then mret (inl block) else mret (inr (Some (block, map)))) block.
(** "Search for a chunk by scanning bins, starting with next largest bin." *)
Definition take_larger (nb idx : Z) : M mem (option Z) :=
  let idx := idx + 1 in
  map ← load32 (binmap (idx2block idx));
  while CHUNKS
    (λ '(bin, block, map, bit),
       st ← (if (map <? bit) || (bit =? 0) then
               r ← next_block block;
               match r with
               | None => mret None
               | Some (block, map) => mret (Some (bin_at (Z.shiftl block BINMAPSHIFT), block, map, 1))
               end
             else mret (Some (bin, block, map, bit)));
       match st with
       | None => mret (inr None)
       | Some (bin, block, map, bit) =>
           r ← while CHUNKS
             (λ '(bin, bit), if Z.land bit map =? 0 then mret (inl (next_bin bin, u32 (Z.shiftl bit 1))) else mret (inr (bin, bit))) (bin, bit);
           let (bin, bit) := (r : Z * Z) in
           victim ← get_bk bin;
           if victim =? bin then
             let map := Z.land map (not32 bit) in
             store32 (binmap block) map ;;
             mret (inl (next_bin bin, block, map, u32 (Z.shiftl bit 1)))
           else
             size ← chunksize victim;
             bck ← get_bk victim;
             set_bk bin bck ;;
             set_fd bck bin ;;
             (if size -u nb <? MINSIZE then set_inuse_bit_at_offset victim size
              else
                remainder ← split_chunk victim size nb;
                whenM (in_smallbin_range nb) (store32 last_remainder remainder)) ;;
             mret (inr (Some (chunk2mem victim)))
       end) (bin_at idx, idx2block idx, map, idx2bit idx).

Fixpoint malloc_depth (depth : nat) (bytes : Z) : M mem Z :=
  match depth with
  | O => diverge
  | Datatypes.S depth =>
      if bytes =? 0 then store32 errno_at ENOMEM ;; mret 0
      else if REQUEST_OUT_OF_RANGE bytes then store32 errno_at ENOMEM ;; mret 0
      else
        let nb := request2size bytes in
        let use_top := or_else (split_top nb) (__malloc_alloc (malloc_depth depth) nb) in
        any ← have_anychunks;
        if negb (any : bool) then
          mf ← load32 max_fast;
          whenM (mf =? 0) __malloc_consolidate ;;
          use_top
        else
          let idx := bin_index nb in
          or_else (take_fast nb) (or_else (take_small nb) (or_else (take_unsorted nb) (or_else (take_large nb) (or_else (take_larger nb idx) use_top))))
  end.
(** A call of malloc in malloc finds no chunks in the fastbins, and makes no further one. *)
Definition malloc (bytes : Z) : M mem Z := malloc_depth 2 bytes.
End Malloc.
