(* ===== verification/MallocHeap.v ===== *)
(** * The heap of the allocator *)
From Stdlib Require Import ZArith Lia.
From stdpp Require Import base gmap list functions.
From iris.base_logic Require Import upred bi.
From iris.proofmode Require Import proofmode.
From S2P Require Import Prelude Word Sep Malloc.
Open Scope Z_scope.
Open Scope u32_scope.

(** ** Bits of sizes *)

Lemma not32_u32 x : 0 ≤ x < 2 ^ 32 → not32 x = u32 (- x - 1).
Proof. intros H. unfold not32, u32. replace (- x - 1) with (2 ^ 32 - 1 - x + (-1) * 2 ^ 32) by lia. rewrite Z_mod_plus_full Z.mod_small; lia. Qed.
(** [x & ~(2^k - 1)]. *)
Lemma land_not_ones k x : 0 ≤ k ≤ 32 → is_u32 x → Z.land x (not32 (2 ^ k - 1)) = x - x mod 2 ^ k.
Proof.
  intros Hk Hx. pose proof (Z.mod_pos_bound x (2 ^ k) ltac:(lia)) as Hm. pose proof (Z.div_mod x (2 ^ k) ltac:(lia)) as Hd.
  replace (x - x mod 2 ^ k) with (Z.shiftl (Z.shiftr x k) k) by (rewrite Z.shiftl_mul_pow2 ?Z.shiftr_div_pow2; lia).
  assert (E : not32 (2 ^ k - 1) = Z.shiftl (Z.ones (32 - k)) k).
  { unfold not32. rewrite Z.shiftl_mul_pow2 ?Z.ones_equiv; [|lia]. rewrite Z.mul_pred_l -Z.pow_add_r; [|lia..]. replace (32 - k + k) with 32 by lia. lia. }
  rewrite E. apply Z.bits_inj'. intros i Hi. rewrite Z.land_spec. rewrite (Z.shiftl_spec (Z.ones _) _ _ Hi) (Z.shiftl_spec (Z.shiftr x k) _ _ Hi).
  destruct (Z.ltb_spec i k) as [Hik|Hik]; [rewrite !(Z.testbit_neg_r _ (i - k)); try lia; apply andb_false_r|].
  rewrite Z.shiftr_spec; [|lia]. replace (i - k + k) with i by lia.
  destruct (Z.ltb_spec i 32) as [H32|H32]; [rewrite Z.ones_spec_low; [by rewrite andb_true_r|lia]|].
  destruct (Z.eq_dec x 0) as [->|Hn]; [by rewrite Z.bits_0|]. rewrite (Z.bits_above_log2 x i); [done|lia|]. apply Z.log2_lt_pow2; [lia|].
  apply Z.lt_le_trans with (2 ^ 32); [lia|]. apply Z.pow_le_mono_r; lia.
Qed.
Lemma land_ones_mod k x : 0 ≤ k → Z.land x (2 ^ k - 1) = x mod 2 ^ k.
Proof. intros Hk. rewrite -Z.land_ones; [|done]. f_equal. rewrite Z.ones_equiv. lia. Qed.

Lemma land_size_bits s b : 0 ≤ s → s mod 4 = 0 → 0 ≤ b < 4 → s + b < 2 ^ 32 → Z.land (s + b) (not32 SIZE_BITS) = s.
Proof. intros H0 Hs Hb Hu. change SIZE_BITS with (2 ^ 2 - 1). rewrite land_not_ones; [|lia..]. change (2 ^ 2) with 4. zlia. Qed.
Lemma land_prev s b : 0 ≤ s → s mod 4 = 0 → s + Z.b2z b < 2 ^ 32 → Z.land (s + Z.b2z b) (not32 PREV_INUSE) = s.
Proof. intros H0 Hs Hu. change PREV_INUSE with (2 ^ 1 - 1). rewrite land_not_ones; [|destruct b; cbn in *; lia..]. change (2 ^ 1) with 2.
destruct b; cbn [Z.b2z] in *; zlia. Qed.
Lemma prev_bit s b : s mod 4 = 0 → negb (Z.land (s + Z.b2z b) PREV_INUSE =? 0) = b.
Proof. intros Hs. change PREV_INUSE with (2 ^ 1 - 1). rewrite land_ones_mod //. change (2 ^ 1) with 2.
destruct b; cbn [Z.b2z]; destruct (Z.eqb_spec ((s + 1) mod 2) 0), (Z.eqb_spec ((s + 0) mod 2) 0); (done || zlia). Qed.
Lemma lor_prev s b : s mod 4 = 0 → Z.lor (s + Z.b2z b) PREV_INUSE = s + 1.
Proof.
  intros Hs. pose proof (Z.add_lor_land (s + Z.b2z b) PREV_INUSE) as E. change PREV_INUSE with (2 ^ 1 - 1) in E at 2. rewrite land_ones_mod // in E.
  change (2 ^ 1) with 2 in E. change PREV_INUSE with 1 in *. destruct b; cbn [Z.b2z] in *; zlia.
Qed.
Lemma lor_prev_0 s : s mod 4 = 0 → Z.lor s PREV_INUSE = s + 1.
Proof. intros Hs. rewrite -(lor_prev s false) //. cbn [Z.b2z]. by rewrite Z.add_0_r. Qed.

(** ** Fields *)

Section Fields.
Implicit Types Q : Z → hprop.
Lemma wp_get_prev_size p v Q : wordp p v ⊢ (wordp p v -∗ Q v) -∗ wp (get_prev_size p) Q.
Proof. by apply wp_load32. Qed.
Lemma wp_get_size p v Q : is_u32 (p + 4) → wordp (p + 4) v ⊢ (wordp (p + 4) v -∗ Q v) -∗ wp (get_size p) Q.
Proof. intros H. apply wp_load32. by apply u32_small. Qed.
Lemma wp_get_fd p v Q : is_u32 (p + 8) → wordp (p + 8) v ⊢ (wordp (p + 8) v -∗ Q v) -∗ wp (get_fd p) Q.
Proof. intros H. apply wp_load32. by apply u32_small. Qed.
Lemma wp_get_bk p v Q : is_u32 (p + 12) → wordp (p + 12) v ⊢ (wordp (p + 12) v -∗ Q v) -∗ wp (get_bk p) Q.
Proof. intros H. apply wp_load32. by apply u32_small. Qed.
Lemma wp_chunksize p s b Q : is_u32 (p + 4) → 0 ≤ s → s mod 4 = 0 → 0 ≤ b < 4 → wordp (p + 4) (s + b) ⊢
  (wordp (p + 4) (s + b) -∗ Q s) -∗ wp (chunksize p) Q.
Proof.
  intros H H0 Hs Hb. iIntros "W H". iDestruct (wordp_u32 with "W") as %Hu. unfold chunksize. iApply wp_bind. iApply (wp_get_size with "W"); [done|].
  iIntros "W".
  iApply wp_ret. rewrite land_size_bits //; [|lia]. by iApply "H".
Qed.
Lemma wp_headsize p s (b : bool) Q : is_u32 (p + 4) → 0 ≤ s → s mod 4 = 0 → wordp (p + 4) (s + Z.b2z b) ⊢
  (wordp (p + 4) (s + Z.b2z b) -∗ Q s) -∗ wp (chunksize p) Q.
Proof. intros H H0 Hs. apply wp_chunksize; [done..|]. destruct b; cbn [Z.b2z]; lia. Qed.
Lemma wp_prev_inuse p s b (Q : bool → hprop) : is_u32 (p + 4) → s mod 4 = 0 → wordp (p + 4) (s + Z.b2z b) ⊢
  (wordp (p + 4) (s + Z.b2z b) -∗ Q b) -∗ wp (prev_inuse p) Q.
Proof.
  intros H Hs. iIntros "W H". unfold prev_inuse. iApply wp_bind. iApply (wp_get_size with "W"); [done|]. iIntros "W". iApply wp_ret.
  rewrite prev_bit //. by iApply "H".
Qed.
End Fields.

Section Stores.
Implicit Types Q : unit → hprop.
Lemma wp_set_prev_size p v w Q : is_u32 w → wordp p v ⊢ (wordp p w -∗ Q tt) -∗ wp (set_prev_size p w) Q.
Proof. by apply wp_store32. Qed.
Lemma wp_set_head p v w Q : is_u32 (p + 4) → is_u32 w → wordp (p + 4) v ⊢ (wordp (p + 4) w -∗ Q tt) -∗ wp (set_head p w) Q.
Proof. intros H. apply wp_store32. by apply u32_small. Qed.
Lemma wp_set_fd p v w Q : is_u32 (p + 8) → is_u32 w → wordp (p + 8) v ⊢ (wordp (p + 8) w -∗ Q tt) -∗ wp (set_fd p w) Q.
Proof. intros H. apply wp_store32. by apply u32_small. Qed.
Lemma wp_set_bk p v w Q : is_u32 (p + 12) → is_u32 w → wordp (p + 12) v ⊢ (wordp (p + 12) w -∗ Q tt) -∗ wp (set_bk p w) Q.
Proof. intros H. apply wp_store32. by apply u32_small. Qed.
Lemma wp_set_foot p s v Q : is_u32 (p + s) → is_u32 s → wordp (p + s) v ⊢ (wordp (p + s) s -∗ Q tt) -∗ wp (set_foot p s) Q.
Proof. intros H. unfold set_foot, chunk_at_offset. rewrite u32_small //. apply wp_set_prev_size. Qed.
Lemma wp_set_inuse p s z b Q : is_u32 (p + s) → is_u32 (p + s + 4) → z mod 4 = 0 → wordp (p + s + 4) (z + Z.b2z b) ⊢
  (wordp (p + s + 4) (z + 1) -∗ Q tt) -∗ wp (set_inuse_bit_at_offset p s) Q.
Proof.
  intros H H4 Hz. iIntros "W H". iDestruct (wordp_u32 with "W") as %Hu. unfold set_inuse_bit_at_offset, chunk_at_offset. rewrite u32_small //.
  iApply wp_bind. iApply (wp_get_size with "W"); [done|]. iIntros "W".
  rewrite lor_prev //. iApply (wp_set_head with "W"); [done| |done]. destruct b; cbn [Z.b2z] in *; zlia.
Qed.
End Stores.

(** One step of a run: the operation's rule takes the word [H] and gives it back. *)
Tactic Notation "wget" open_constr(lem) "with" constr(H) := iApply wp_bind; iApply (lem with H); [lia..|iIntros H; cbv beta].
Tactic Notation "wlast" open_constr(lem) "with" constr(H) := iApply (lem with H); [lia..|iIntros H; cbv beta].

(** ** Bin lists *)

(** A place in memory with the links of a chunk. *)
Definition node_ok (x : Z) : Prop := 0 < x ∧ x + 16 ≤ 2 ^ 32.
(** [y] follows [x]. *)
Definition edge (x y : Z) : hprop := ⌜node_ok x ∧ node_ok y⌝ ∗ wordp (x + 8) y ∗ wordp (y + 12) x.
Fixpoint path (x : Z) (l : list Z) (y : Z) : hprop :=
  match l with [] => edge x y | z :: l => edge x z ∗ path z l y end.
Definition ring (b : Z) (l : list Z) : hprop := path b l b.

Lemma path_app x l1 z l2 y : path x (l1 ++ z :: l2) y ⊣⊢ path x l1 z ∗ path z l2 y.
Proof. revert x. induction l1 as [|w l1 IH]; intros x; [done|]. cbn [path app]. rewrite IH. by rewrite bi.sep_assoc. Qed.
Lemma path_snoc x l z y : path x (l ++ [z]) y ⊣⊢ path x l z ∗ edge z y.
Proof. apply path_app. Qed.

(** [p], with [x] before and [y] behind it, is taken off. *)
Lemma wp_unlink_edges x p y Q : edge x p ∗ edge p y ⊢ (edge x y -∗ (∃ v, wordp (p + 8) v) -∗ (∃ v, wordp (p + 12) v) -∗ Q tt) -∗ wp (unlink p) Q.
Proof.
  iIntros "[([%Hx %Hp] & Wx & Wp') ([_ %Hy] & Wp & Wy)] H". unfold node_ok in *. unfold unlink.
  wget wp_get_fd with "Wp". wget wp_get_bk with "Wp'". wget wp_get_bk with "Wy". rewrite Z.eqb_refl. cbn [negb].
  wget wp_get_fd with "Wx". rewrite Z.eqb_refl. cbn [negb]. wget wp_set_bk with "Wy". wlast wp_set_fd with "Wx".
  iApply ("H" with "[Wx Wy] [Wp] [Wp']"); [iFrame; iPureIntro; unfold node_ok; lia|by iExists _..].
Qed.

Lemma path_ends x l y : path x l y ⊢ ⌜node_ok x ∧ node_ok y⌝.
Proof. revert x. induction l as [|z l IH]; intros x; cbn [path]; [by iIntros "[% _]"|]. iIntros "[([% _] & _) H]". iDestruct (IH with "H") as %[_ ?].
done. Qed.

(** The last of [l], and [x] when there is none. *)
Fixpoint end_of (x : Z) (l : list Z) : Z := match l with [] => x | z :: l => end_of z l end.
Lemma end_of_snoc l z : ∀ x, end_of x (l ++ [z]) = z.
Proof. induction l as [|w l IH]; intros x; [done|apply IH]. Qed.

(** The two edges at a place of the list, and the edge between two places. *)
Lemma path_around p l2 y l1 : ∀ x, path x (l1 ++ p :: l2) y ⊢ edge (end_of x l1) p ∗ edge p (hd y l2) ∗
  (edge (end_of x l1) (hd y l2) -∗ path x (l1 ++ l2) y).
Proof.
  induction l1 as [|u l1 IH]; intros x; cbn [path app end_of].
  - iIntros "[$ H]". destruct l2 as [|z l2]; cbn [path hd]; [iFrame; iIntros "$"|iDestruct "H" as "[$ H]"; iIntros "H'"; iFrame].
  - iIntros "[$ H]". iApply (IH with "H").
Qed.
Lemma path_gap l2 y l1 : ∀ x, path x (l1 ++ l2) y ⊢ edge (end_of x l1) (hd y l2) ∗ ∀ p, edge (end_of x l1) p -∗ edge p (hd y l2) -∗
  path x (l1 ++ p :: l2) y.
Proof.
  induction l1 as [|u l1 IH]; intros x; cbn [path app end_of].
  - destruct l2 as [|z l2]; cbn [path hd]; [iIntros "$"|iIntros "[$ H]"]; iIntros (p) "H1 H2"; iFrame.
  - iIntros "[$ H]". iApply (IH with "H").
Qed.
Lemma path_access l2 y l1 x : path x (l1 ++ l2) y ⊢ edge (end_of x l1) (hd y l2) ∗ (edge (end_of x l1) (hd y l2) -∗ path x (l1 ++ l2) y).
Proof.
  revert x. induction l1 as [|u l1 IH]; intros x; cbn [path app end_of].
  - destruct l2 as [|z l2]; cbn [path hd]; [iIntros "$"|iIntros "[$ H]"]; iIntros "$"; done.
  - iIntros "[$ H]". iApply (IH with "H").
Qed.

Lemma wp_unlink b l1 p l2 Q : ring b (l1 ++ p :: l2) ⊢ (ring b (l1 ++ l2) -∗ (∃ v, wordp (p + 8) v) -∗ (∃ v, wordp (p + 12) v) -∗ Q tt) -∗
  wp (unlink p) Q.
Proof.
  iIntros "R H". iDestruct (path_around with "R") as "(E1 & E2 & R)". iApply (wp_unlink_edges with "[$E1 $E2]"). iIntros "E F B".
  iApply ("H" with "[E R] F B"). by iApply "R".
Qed.

(** [p->bk = x; p->fd = y; x->fd = p; y->bk = p;], in any order. *)
Lemma edge_insert x p y : node_ok p → edge x y ⊢ wordp (x + 8) y ∗ wordp (y + 12) x ∗
  (wordp (x + 8) p -∗ wordp (y + 12) p -∗ wordp (p + 8) y -∗ wordp (p + 12) x -∗ edge x p ∗ edge p y).
Proof. iIntros (Hp) "([%Hx %Hy] & $ & $) W1 W2 W3 W4". iFrame. iPureIntro. done. Qed.

(** ** Families of lists *)

Section Family.
Context (Φ : Z → list Z → hprop) (a n : Z).
Definition family (B : Z → list Z) : hprop := [∗ list] i ∈ seqZ a n, Φ i (B i).
Lemma family_take B i : a ≤ i < a + n → family B ⊢ Φ i (B i) ∗ ∀ l, Φ i l -∗ family (<[i := l]> B).
Proof.
  intros Hi. unfold family. assert (Hl : seqZ a n !! Z.to_nat (i - a) = Some i) by (apply lookup_seqZ; lia).
  rewrite (big_sepL_delete _ _ _ _ Hl). iIntros "[$ H]" (l) "Hl". rewrite (big_sepL_delete (λ _ j, Φ j (<[i:=l]> B j)) _ _ _ Hl). cbv beta.
  rewrite fn_lookup_insert. iFrame.
  iApply (big_sepL_impl with "H"). iIntros "!>" (k j Hk) "H". destruct (decide (k = Z.to_nat (i - a))) as [->|Hn]; [done|].
  rewrite fn_lookup_insert_ne; [done|].
  intros <-. apply lookup_seqZ in Hk. lia.
Qed.
Lemma family_access B i : a ≤ i < a + n → family B ⊢ Φ i (B i) ∗ (Φ i (B i) -∗ family B).
Proof.
  intros Hi. unfold family. assert (Hl : seqZ a n !! Z.to_nat (i - a) = Some i) by (apply lookup_seqZ; lia).
  iIntros "H". by iApply (big_sepL_lookup_acc (λ _ j, Φ j (B j)) with "H").
Qed.
Lemma family_ext B B' : (∀ i, a ≤ i < a + n → B i = B' i) → family B ⊢ family B'.
Proof.
  intros H. unfold family. iIntros "H". iApply (big_sepL_impl with "H"). iIntros "!>" (k j Hk) "H". rewrite (H j); [done|]. apply lookup_seqZ in Hk.
  lia.
Qed.
End Family.

(** ** Chunks *)

(** A chunk in use; one in the fastbin [i]; one in the bin [i]; the bytes before a fence that are
    too few for a chunk; and the two fenceposts at the end of a region, behind which the chunks
    go on at [next]. *)
Inductive status := Used | Fast (i : Z) | Free (i : Z) | Dead | Fence (next : Z).
#[global] Instance status_eq_dec : EqDecision status.
Proof. solve_decision. Defined.
Record chunk := Chunk { caddr : Z; csize : Z; cst : status }.
Definition next_of (c : chunk) : Z := match cst c with Fence z => z | _ => caddr c + csize c end.
Definition in_use (c : chunk) : bool := match cst c with Free _ => false | _ => true end.
Definition chunk_ok (c : chunk) : Prop :=
  0 < caddr c ∧ caddr c mod 8 = 0 ∧ caddr c + csize c + 16 ≤ 2 ^ 32 ∧
  match cst c with
  | Used => 16 ≤ csize c ∧ csize c mod 8 = 0
  | Fast i => 16 ≤ csize c ∧ csize c mod 8 = 0 ∧ 0 ≤ i < 8 ∧ csize c = 8 * (i + 2)
  | Free i => 16 ≤ csize c ∧ csize c mod 8 = 0 ∧ 1 ≤ i < NBINS ∧ (i = 1 ∨ i = bin_index (csize c))
  | Dead => csize c = 8
  | Fence z => csize c = 4
  end.
(** What the allocator owns of a chunk behind its size word; the links of a free one belong to
    its bin. *)
Definition body (c : chunk) : hprop :=
  match cst c with
  | Used => emp
  | Fast _ => blk (caddr c + 12) (csize c - 8)
  | Free _ => blk (caddr c + 16) (csize c - 16) ∗ wordp (caddr c + csize c) (csize c)
  | Dead => emp
  | Fence _ => wordp (caddr c + 8) (SIZE_SZ + 1)
  end.
Definition chunkp (pu : bool) (c : chunk) : hprop :=
  ⌜chunk_ok c ∧ (pu = true ∨ in_use c = true)⌝ ∗ wordp (caddr c + 4) (csize c + Z.b2z pu) ∗ body c.

(** The chunks from [a] to [b], in the order of their addresses; [pu] and [pu'] say whether the
    one before the first and the last are in use. *)
Fixpoint tile (a : Z) (pu : bool) (cs : list chunk) (b : Z) (pu' : bool) : hprop :=
  match cs with
  | [] => ⌜a = b ∧ pu = pu'⌝
  | c :: cs => ⌜caddr c = a⌝ ∗ chunkp pu c ∗ tile (next_of c) (in_use c) cs b pu'
  end.
(** The top chunk. *)
Definition topp (t ts : Z) : hprop :=
  ⌜0 < t ∧ t mod 8 = 0 ∧ MINSIZE ≤ ts ∧ ts mod 8 = 0 ∧ t + ts < 2 ^ 32⌝ ∗ wordp (t + 4) (ts + 1) ∗ blk (t + 8) (ts - 8).
Definition rest (a : Z) (pu : bool) (cs : list chunk) (t ts : Z) : hprop := tile a pu cs t true ∗ topp t ts.

Lemma tile_app a pu cs1 cs2 b pu' : tile a pu (cs1 ++ cs2) b pu' ⊣⊢ ∃ z zu, tile a pu cs1 z zu ∗ tile z zu cs2 b pu'.
Proof.
  revert a pu. induction cs1 as [|c cs1 IH]; intros a pu; cbn [tile app].
  - iSplit; [iIntros "H"; iExists a, pu; by iFrame|]. by iIntros "(%z & %zu & [-> ->] & $)".
  - rewrite IH. iSplit.
    + iIntros "($ & $ & %z & %zu & H)". iExists z, zu. iFrame.
    + iIntros "(%z & %zu & ($ & $ & H1) & H2)". iExists z, zu. iFrame.
Qed.
Lemma rest_app a pu cs1 cs2 t ts : rest a pu (cs1 ++ cs2) t ts ⊣⊢ ∃ z zu, tile a pu cs1 z zu ∗ rest z zu cs2 t ts.
Proof.
  unfold rest. rewrite tile_app. iSplit; [iIntros "[(%z & %zu & H1 & H2) H]"|iIntros "(%z & %zu & H1 & H2 & H)"]; iFrame; iExists z, zu; iFrame.
Qed.
Lemma rest_cons a pu c cs t ts : rest a pu (c :: cs) t ts ⊣⊢ ⌜caddr c = a⌝ ∗ chunkp pu c ∗ rest (next_of c) (in_use c) cs t ts.
Proof. unfold rest. cbn [tile]. rewrite -!bi.sep_assoc. done. Qed.

(** The status of the last chunk. *)
Lemma tile_snoc a pu cs b pu' : tile a pu cs b pu' ⊢ ⌜(cs = [] ∧ a = b ∧ pu = pu') ∨ ∃ cs' c, cs = cs' ++ [c] ∧ next_of c = b ∧ in_use c = pu'⌝.
Proof.
  destruct cs as [|c cs _] using rev_ind; cbn [tile]; [iIntros "%"; by iLeft|]. rewrite tile_app. iIntros "(%z & %zu & _ & _ & _ & [%H1 %H2])".
  iPureIntro. right. by exists cs, c.
Qed.

(** The size word where the rest begins. *)
Definition head_in_use (cs : list chunk) : Prop := match cs with [] => False | c :: _ => in_use c = true end.
Definition head_size (cs : list chunk) (ts : Z) : Z := match cs with [] => ts | c :: _ => csize c end.
Lemma rest_size a pu cs t ts : rest a pu cs t ts ⊢
  ⌜0 < a ∧ a mod 8 = 0 ∧ a + 8 ≤ 2 ^ 32 ∧ 0 < head_size cs ts < 2 ^ 32 ∧ head_size cs ts mod 4 = 0 ∧ a + head_size cs ts < 2 ^ 32 ∧ (head_in_use cs → a + head_size cs ts + 16 ≤ 2 ^ 32)⌝ ∗ wordp (a + 4) (head_size cs ts + Z.b2z pu) ∗
  ∀ pu', ⌜pu' = pu ∨ pu' = true ∨ head_in_use cs⌝ -∗ wordp (a + 4) (head_size cs ts + Z.b2z pu') -∗ rest a pu' cs t ts.
Proof.
  destruct cs as [|c cs]; cbn [head_size head_in_use].
  - unfold rest, topp. cbn [tile]. change MINSIZE with 16. iIntros "((-> & ->) & %H & $ & H)". iSplit; [iPureIntro; zlia|].
    iIntros (pu' [->|[->|[]]]) "W"; iFrame; done.
  - rewrite rest_cons. iIntros "(<- & ([%Hok %Hu] & $ & Hb) & H)". iSplit; [iPureIntro; destruct Hok as (?&?&?&?); destruct (cst c); zlia|].
    iIntros (pu') "%Hu' W". rewrite rest_cons. iFrame. iPureIntro. split; [done|]. split; [done|]. destruct Hu' as [->|[->|?]]; auto.
Qed.

(** The bit that says whether the first chunk of the rest is in use. *)
Lemma rest_inuse a pu e cs t ts : rest a pu (e :: cs) t ts ⊢
  ∃ s, ⌜s mod 4 = 0 ∧ a + csize e + 8 ≤ 2 ^ 32⌝ ∗ wordp (a + csize e + 4) (s + Z.b2z (in_use e)) ∗ (wordp (a + csize e + 4) (s + Z.b2z (in_use e)) -∗ rest a pu (e :: cs) t ts).
Proof.
  iIntros "H". iDestruct (rest_cons with "H") as "(<- & Hc & H)". destruct (decide (next_of e = caddr e + csize e)) as [En|En].
  - rewrite En. iDestruct (rest_size with "H") as "(%Hp & W & H)". iExists _. iFrame "W". iSplit; [iPureIntro; lia|]. iIntros "W".
    iApply rest_cons. rewrite En. iFrame. iSplit; [done|]. iApply ("H" with "[] W"). iPureIntro. by left.
  - destruct e as [ea es []]; cbn [next_of caddr csize cst in_use] in *; [done..|]. iDestruct "Hc" as "([%Hok %Hu] & Hw & Hb)". unfold body.
    cbn [caddr csize cst] in *.
    assert (Hs : es = 4) by apply Hok. subst es. iExists 4. replace (ea + 4 + 4) with (ea + 8) by lia. iFrame "Hb".
    iSplit; [iPureIntro; split; [done|]; destruct Hok as (_ & _ & Hok & _); cbn [caddr csize cst] in Hok; lia|].
    iIntros "Hb". iApply rest_cons. cbn [next_of caddr csize cst in_use]. iFrame. done.
Qed.

(** ** What a heap holds *)

Definition members (s : status) (cs : list chunk) : list Z := caddr <$> filter (λ c, cst c = s) cs.
(** The blocks that are in use: where the memory begins and its bytes. *)
Definition live (cs : list chunk) : list (Z * Z) := (λ c, (caddr c + 8, csize c - 4)) <$> filter (λ c, cst c = Used) cs.

Lemma members_app s cs1 cs2 : members s (cs1 ++ cs2) = members s cs1 ++ members s cs2.
Proof. unfold members. by rewrite filter_app fmap_app. Qed.
Lemma members_cons s c cs : members s (c :: cs) = (if decide (cst c = s) then [caddr c] else []) ++ members s cs.
Proof. unfold members. rewrite filter_cons. by destruct (decide (cst c = s)). Qed.
Lemma live_app cs1 cs2 : live (cs1 ++ cs2) = live cs1 ++ live cs2.
Proof. unfold live. by rewrite filter_app fmap_app. Qed.
Lemma live_cons c cs : live (c :: cs) = (if decide (cst c = Used) then [(caddr c + 8, csize c - 4)] else []) ++ live cs.
Proof. unfold live. rewrite filter_cons. by destruct (decide (cst c = Used)). Qed.

(** The two have the same blocks in use and in the fastbins. *)
Definition same_used (cs cs' : list chunk) : Prop := live cs ≡ₚ live cs' ∧ ∀ i, members (Fast i) cs ≡ₚ members (Fast i) cs'.
#[global] Instance same_used_equiv : Equivalence same_used.
Proof.
  split.
  - by intros cs.
  - intros cs1 cs2 [H1 H2]. split; [done|]. intros i. by symmetry.
  - intros cs1 cs2 cs3 [H1 H2] [H3 H4]. split; [by etrans|]. intros i. etrans; [apply H2|apply H4].
Qed.
#[global] Instance same_used_app : Proper (same_used ==> same_used ==> same_used) (app (A := chunk)).
Proof. intros cs1 cs2 [H1 H2] cs3 cs4 [H3 H4]. split; [by rewrite !live_app H1 H3|]. intros i. by rewrite !members_app H2 H4. Qed.
#[global] Instance same_used_cons c : Proper (same_used ==> same_used) (cons c).
Proof. intros cs1 cs2 [H1 H2]. split; [by rewrite !live_cons H1|]. intros i. by rewrite !members_cons H2. Qed.
Lemma same_used_free c cs : in_use c = false → same_used (c :: cs) cs.
Proof. by destruct c as [a s []]. Qed.

(** The bins hold the free chunks of [cs], and others. *)
Definition binned (B : Z → list Z) (cs : list chunk) (ms : Z → list Z) : Prop := ∀ i, 1 ≤ i < NBINS → B i ≡ₚ members (Free i) cs ++ ms i.

Lemma binned_mono B cs cs' ms ms' : binned B cs ms → (∀ i, 1 ≤ i < NBINS → members (Free i) cs ++ ms i ≡ₚ members (Free i) cs' ++ ms' i) →
  binned B cs' ms'.
Proof. intros H E i Hi. by rewrite (H i Hi) E. Qed.

(** A free chunk is in its bin. *)
Lemma binned_in B cs1 c cs2 ms i : binned B (cs1 ++ c :: cs2) ms → cst c = Free i → 1 ≤ i < NBINS → ∃ l1 l2, B i = l1 ++ caddr c :: l2.
Proof.
  intros H Hc Hi. apply list_elem_of_split. rewrite (H i Hi) members_app members_cons. rewrite decide_True //. apply elem_of_app. left.
  apply elem_of_app. right. by apply list_elem_of_here.
Qed.
(** Without it. *)
Lemma binned_remove B cs1 c cs2 ms i l1 l2 : binned B (cs1 ++ c :: cs2) ms → cst c = Free i → B i = l1 ++ caddr c :: l2 →
  binned (<[i := l1 ++ l2]> B) (cs1 ++ cs2) ms.
Proof.
  intros H Hc E j Hj. specialize (H j Hj). rewrite members_app members_cons in H. rewrite members_app. destruct (decide (j = i)) as [->|Hn].
  - rewrite fn_lookup_insert. rewrite decide_True // E in H. apply (Permutation_cons_inv (a := caddr c)). rewrite Permutation_middle H. cbn [app].
    by rewrite -Permutation_middle.
  - rewrite fn_lookup_insert_ne //. rewrite decide_False // in H. rewrite Hc. congruence.
Qed.
(** With one more, anywhere. *)
Lemma binned_insert B cs1 c cs2 ms i l1 l2 : binned B (cs1 ++ cs2) ms → cst c = Free i → B i = l1 ++ l2 →
  binned (<[i := l1 ++ caddr c :: l2]> B) (cs1 ++ c :: cs2) ms.
Proof.
  intros H Hc E j Hj. specialize (H j Hj). rewrite members_app in H. rewrite members_app members_cons. destruct (decide (j = i)) as [->|Hn].
  - rewrite fn_lookup_insert decide_True //. rewrite E in H. rewrite -Permutation_middle H. cbn [app]. by rewrite -Permutation_middle.
  - rewrite fn_lookup_insert_ne //. rewrite decide_False //. rewrite Hc. congruence.
Qed.
(** One that is not free does not matter. *)
Lemma binned_in_use B cs1 c cs2 ms : in_use c = true → binned B (cs1 ++ c :: cs2) ms ↔ binned B (cs1 ++ cs2) ms.
Proof.
  intros Hc. unfold binned. apply forall_proper. intros i. rewrite !members_app members_cons decide_False; [done|]. intros E. unfold in_use in Hc.
  by rewrite E in Hc.
Qed.
Section Heap.
Context (av : Z).
Hypothesis Hav : 0 < av ∧ av + 888 ≤ 2 ^ 32.

Lemma bin_at_eq i : 1 ≤ i < NBINS → bin_at av i = av + 44 + 8 * i.
Proof. intros Hi. change NBINS with 96 in *. unfold bin_at, bins, SIZE_SZ. rewrite Z.shiftl_mul_pow2 // !u32_small; lia. Qed.
Lemma bin_at_ok i : 1 ≤ i < NBINS → node_ok (bin_at av i).
Proof. intros Hi. rewrite bin_at_eq //. change NBINS with 96 in *. unfold node_ok. lia. Qed.

Definition binsp (B : Z → list Z) : hprop := family (λ i, ring (bin_at av i)) 1 (NBINS - 1) B.
End Heap.
