(* ===== verification/MallocFree.v ===== *)
(** * Freeing *)
From Stdlib Require Import ZArith Lia.
From stdpp Require Import base gmap list functions.
From iris.base_logic Require Import upred bi.
From iris.proofmode Require Import proofmode.
From S2P Require Import Prelude Word Sep Malloc MallocHeap.
Open Scope Z_scope.
Open Scope u32_scope.

Lemma gather_used a s v : 4 ≤ s → wordp (a + 4) v ∗ blk (a + 8) (s - 4) ⊢ blk (a + 4) s.
Proof. intros Hs. rewrite (blk_first (a + 4) s) //. replace (a + 4 + 4) with (a + 8) by lia. iIntros "[W $]". by iExists _. Qed.
Lemma gather_free a s v w : 16 ≤ s → wordp (a + 4) v ∗ (∃ v, wordp (a + 8) v) ∗ (∃ v, wordp (a + 12) v) ∗ blk (a + 16) (s - 16) ∗ wordp (a + s) w ⊢
  blk (a + 4) s.
Proof.
  intros Hs. rewrite (blk_first (a + 4) s) ?(blk_first (a + 4 + 4) (s - 4)) ?(blk_first (a + 4 + 4 + 4) (s - 4 - 4)) ?(blk_last (a + 4 + 4 + 4 + 4) (s - 4 - 4 - 4)); [|lia..].
  replace (a + 4 + 4 + 4 + 4 + (s - 4 - 4 - 4) - 4) with (a + s) by lia. replace (s - 4 - 4 - 4 - 4) with (s - 16) by lia.
  replace (a + 4 + 4 + 4 + 4) with (a + 16) by lia. replace (a + 4 + 4 + 4) with (a + 12) by lia. replace (a + 4 + 4) with (a + 8) by lia.
  iIntros "(W1 & $ & $ & $ & W2)". iSplitL "W1"; by iExists _.
Qed.

Section Free.
Context (av page : Z).
Hypothesis Hav : 0 < av ∧ av + 888 ≤ 2 ^ 32.

Lemma take_bin B i : 1 ≤ i < NBINS → binsp av B ⊢ ring (bin_at av i) (B i) ∗ ∀ l, ring (bin_at av i) l -∗ binsp av (<[i := l]> B).
Proof. intros Hi. change NBINS with 96 in *. apply (family_take (λ i, ring (bin_at av i)) 1 (96 - 1) B i). lia. Qed.

Lemma wp_consolidate_backward base cs1 p pu s size B ms (Q : Z * Z → hprop) : s mod 4 = 0 → 16 ≤ size → size mod 8 = 0 → 0 < p → p mod 8 = 0 →
  p + size + 8 ≤ 2 ^ 32 → binned B cs1 ms →
  tile base true cs1 p pu ∗ wordp (p + 4) (s + Z.b2z pu) ∗ blk (p + 8) (size - 4) ∗ binsp av B ⊢
  (∀ (p' size' : Z) cs1' B', ⌜(p' + size' = p + size)%Z ∧ size ≤ size' ∧ 0 < p' ∧ p' mod 8 = 0 ∧ size' mod 8 = 0 ∧ same_used cs1 cs1' ∧ binned B' cs1' ms⌝ -∗
     tile base true cs1' p' true -∗ blk (p' + 4) size' -∗ binsp av B' -∗ Q (p', size')) -∗
  wp (consolidate_backward p size) Q.
Proof.
  intros Hs H16 H8 Hp Hp8 Hps Hb. iIntros "(T & W & D & B) H". unfold consolidate_backward. wget wp_prev_inuse with "W". destruct pu.
  { iApply wp_ret. iApply ("H" $! p size cs1 B with "[] T [W D] B"); [iPureIntro; do 5 (split; [lia|]); done|]. iApply gather_used; [lia|]. iFrame. }
  iDestruct (tile_snoc with "T") as %[(_ & _ & Hc)|(cs & d & -> & Hn & Hd)]; [done|].
  iDestruct (tile_app with "T") as (z zu) "[T (<- & ([%Hok %Hu] & Wd & Bd) & _)]".
  destruct d as [a sd [| | j | |]]; try done. unfold next_of in Hn. cbn [caddr csize cst] in *.
  destruct Hok as (Ha & Ha8 & Has & H16d & H8d & Hj & _). cbn [caddr csize cst] in *. destruct Hu as [->|]; [|done].
  unfold body. cbn [caddr csize cst]. iDestruct "Bd" as "[Bd Wf]". rewrite Hn. wget wp_get_prev_size with "Wf".
  unfold chunk_at_offset. assert (E : p +u - sd = a) by (rewrite u32_small; lia). rewrite E.
  destruct (binned_in B cs (Chunk a sd (Free j)) [] ms j Hb eq_refl Hj) as (l1 & l2 & El). cbn [caddr] in El.
  iDestruct (take_bin B j Hj with "B") as "[R B]". rewrite El.
  iApply wp_bind. iApply (wp_unlink with "R"). iIntros "R F K". iApply wp_ret. rewrite u32_small; [|lia].
  iApply ("H" $! a (size + sd) cs _ with "[] T [W D Wd Bd Wf F K] [R B]"); [| |by iApply "B"].
  - iPureIntro. do 2 (split; [lia|]). split; [done|]. split; [done|]. split; [zlia|]. split.
    + rewrite -{2}(app_nil_r cs). f_equiv. by apply same_used_free.
    + rewrite -(app_nil_r cs). by apply (binned_remove B cs (Chunk a sd (Free j)) [] ms).
  - replace (size + sd) with (sd + size) by lia. rewrite blk_split; [|lia..].
    iSplitL "Wd F K Bd Wf"; [iApply (gather_free a sd _ sd); [lia|rewrite Hn; iFrame]|].
    replace (a + 4 + sd) with (p + 4) by lia. iApply gather_used; [lia|]. iFrame.
Qed.

Lemma wp_consolidate_forward b e cs2 t ts size B ms (Q : Z → hprop) : 0 ≤ size → size ≤ b → binned B (e :: cs2) ms →
  rest b true (e :: cs2) t ts ∗ binsp av B ⊢
  (∀ (k : Z) cs2' B', ⌜0 ≤ k ∧ k mod 8 = 0 ∧ b + k + 16 ≤ 2 ^ 32 ∧ same_used (e :: cs2) cs2' ∧ binned B' cs2' ms⌝ -∗ blk (b + 4) k -∗
    rest (b + k) false cs2' t ts -∗ binsp av B' -∗ Q (size + k)) -∗
  wp (consolidate_forward b (csize e) size) Q.
Proof.
  intros Hs Hsb Hb. iIntros "(R & B) H". unfold consolidate_forward, inuse_bit_at_offset, chunk_at_offset.
  iDestruct (rest_size with "R") as "(%Hr & W & R)". cbn [head_size head_in_use] in *.
  iDestruct ("R" with "[] W") as "R"; [iPureIntro; by left|]. iDestruct (rest_inuse with "R") as (z) "([%Hz %Hz8] & W & R)".
  rewrite (u32_small (b + csize e)); [|lia].
  wget wp_prev_inuse with "W". iDestruct ("R" with "W") as "R". destruct (in_use e) eqn:Eu.
  - iDestruct (rest_size with "R") as "(_ & W & R)". cbn [head_size head_in_use]. wget wp_set_head with "W". iApply wp_ret.
    iSpecialize ("H" $! 0 (e :: cs2) B). rewrite !Z.add_0_r. iApply ("H" with "[] [] [W R] B").
    + iPureIntro. do 2 (split; [done|]). split; [|done]. destruct Hr as (_ & _ & _ & ? & _ & _ & Hr). specialize (Hr eq_refl). lia.
    + by iApply blk_nil.
    + iApply ("R" $! false with "[] [W]"); [iPureIntro; by right; right|]. cbn [Z.b2z]. by rewrite Z.add_0_r.
  - iDestruct (rest_cons with "R") as "(<- & ([%Hok %Hu] & Wd & Bd) & R)". destruct e as [a se [| | j | |]]; try done. unfold next_of, body.
    cbn [caddr csize cst in_use] in *. iDestruct "Bd" as "[Bd Wf]".
    destruct Hok as (Ha & Ha8 & Has & H16d & H8d & Hj & _). cbn [caddr csize cst] in *. wget wp_set_head with "Wd".
    destruct (binned_in B [] (Chunk a se (Free j)) cs2 ms j Hb eq_refl Hj) as (l1 & l2 & El). cbn [caddr] in El.
    iDestruct (take_bin B j Hj with "B") as "[K B]". rewrite El.
    iApply wp_bind. iApply (wp_unlink with "K"). iIntros "K F1 F2". iApply wp_ret. rewrite u32_small; [|lia].
    iApply ("H" $! se cs2 with "[] [Wd Bd Wf F1 F2] R [K B]"); [|iApply (gather_free a se _ se); [lia|iFrame]|by iApply "B"].
    iPureIntro. do 3 (split; [lia|]). split; [by apply same_used_free|]. by apply (binned_remove B [] (Chunk a se (Free j)) cs2 ms).
Qed.

(** ** The new free chunk *)

Lemma scatter_free a s : 16 ≤ s → blk (a + 4) s ⊢ (∃ v, wordp (a + 4) v) ∗ (∃ v, wordp (a + 8) v) ∗ (∃ v, wordp (a + 12) v) ∗ blk (a + 16) (s - 16) ∗
  ∃ w, wordp (a + s) w.
Proof.
  intros Hs. rewrite (blk_first (a + 4) s) ?(blk_first (a + 4 + 4) (s - 4)) ?(blk_first (a + 4 + 4 + 4) (s - 4 - 4)) ?(blk_last (a + 4 + 4 + 4 + 4) (s - 4 - 4 - 4)); [|lia..].
  replace (a + 4 + 4 + 4 + 4 + (s - 4 - 4 - 4) - 4) with (a + s) by lia. replace (s - 4 - 4 - 4 - 4) with (s - 16) by lia.
  replace (a + 4 + 4 + 4 + 4) with (a + 16) by lia. replace (a + 4 + 4 + 4) with (a + 12) by lia. replace (a + 4 + 4) with (a + 8) by lia.
  iIntros "($ & $ & $ & $ & $)".
Qed.

(** At the front of the unsorted chunks: what is written, and what it makes. *)
Lemma unsorted_front p size B : 0 < p → p mod 8 = 0 → 16 ≤ size → size mod 8 = 0 → p + size + 16 ≤ 2 ^ 32 → binsp av B ∗ blk (p + 4) size ⊢
  ∃ first, ⌜node_ok first⌝ ∗ wordp (unsorted_chunks av + 8) first ∗ wordp (first + 12) (unsorted_chunks av) ∗
    (∃ v, wordp (p + 4) v) ∗ (∃ v, wordp (p + 8) v) ∗ (∃ v, wordp (p + 12) v) ∗ (∃ v, wordp (p + size) v) ∗
    (wordp (unsorted_chunks av + 8) p -∗ wordp (first + 12) p -∗ wordp (p + 4) (size + 1) -∗ wordp (p + 8) first -∗ wordp (p + 12) (unsorted_chunks av) -∗ wordp (p + size) size -∗
     binsp av (<[1 := p :: B 1]> B) ∗ chunkp true (Chunk p size (Free 1))).
Proof.
  intros Hp Hp8 H16 H8 Hps. iIntros "[B D]". iDestruct (take_bin B 1 with "B") as "[R B]"; [done|].
  iDestruct (path_gap (B 1) _ [] with "R") as "[E R]". cbn [end_of app].
  set (first := hd (bin_at av 1) (B 1)). iDestruct "E" as "([%H1 %H2] & W1 & W2)".
  iDestruct (scatter_free with "D") as "(D1 & D2 & D3 & D4 & D5)"; [done|]. iExists first. fold unsorted_chunks. iFrame "W1 W2 D1 D2 D3 D5".
  iSplit; [done|].
  iIntros "W1 W2 W3 W4 W5 W6". assert (Hpn : node_ok p) by (unfold node_ok; lia). iSplitR "D4 W3 W6".
  - iApply "B". iApply ("R" with "[W1 W5] [W2 W4]"); by iFrame.
  - unfold chunkp, body. cbn [caddr csize cst Z.b2z]. iFrame. iPureIntro. split; [|by left]. unfold chunk_ok. cbn [caddr csize cst].
    change NBINS with 96. do 3 (split; [lia|]). do 3 (split; [lia|]). by left.
Qed.

(** In front of the top chunk. *)
Lemma top_front p size t ts : 0 < p → p mod 8 = 0 → 4 ≤ size → size mod 8 = 0 → p + size = t → blk (p + 4) size ∗ topp t ts ⊢
  ⌜p + size + ts < 2 ^ 32⌝ ∗ (∃ v, wordp (p + 4) v) ∗ (wordp (p + 4) (size + ts + 1) -∗ topp p (size + ts)).
Proof.
  intros Hp Hp8 H4 H8 <-. change MINSIZE with 16. iIntros "(D & (%Ht & %Ht8 & %H16 & %Hts & %Hlt) & W & T)". change MINSIZE with 16 in H16.
  iSplit; [done|].
  rewrite (blk_first (p + 4) size) //. iDestruct "D" as "[$ D]". iIntros "W1". iSplit; [iPureIntro; change MINSIZE with 16; zlia|]. iFrame "W1".
  replace (p + 4 + 4) with (p + 8) by lia. replace (size + ts - 8) with (size - 4 + (4 + (ts - 8))) by lia. rewrite blk_split; [|lia..]. iFrame "D".
  rewrite blk_split; [|lia..].
  replace (p + 8 + (size - 4)) with (p + size + 4) by lia. rewrite blk_word. iSplitL "W"; [by iExists _|].
  by replace (p + size + 4 + 4) with (p + size + 8) by lia.
Qed.

(** ** A heap: chunks, top and bins *)

Definition core (cs : list chunk) (t ts : Z) (B : Z → list Z) : hprop :=
  ∃ base, rest base true cs t ts ∗ wordp (top av) t ∗ binsp av B ∗ ⌜binned B cs (λ _, [])⌝.

Lemma top_eq : top av = av + 44.
Proof. unfold top. by rewrite u32_small; [|lia]. Qed.

(** A chunk in use, taken out of the heap. *)
Lemma core_take cs1 c cs2 t ts B : core (cs1 ++ c :: cs2) t ts B ⊢ ∃ base pu,
  tile base true cs1 (caddr c) pu ∗ chunkp pu c ∗ rest (next_of c) (in_use c) cs2 t ts ∗ wordp (top av) t ∗ binsp av B ∗
    ⌜binned B (cs1 ++ c :: cs2) (λ _, [])⌝.
Proof.
  iIntros "(%base & R & $ & $ & $)". iDestruct (rest_app with "R") as (z pu) "[T R]". iDestruct (rest_cons with "R") as "(<- & $ & $)". iExists base.
  iFrame.
Qed.
Lemma core_join base cs1 p pu cs2 t ts B : tile base true cs1 p pu ∗ rest p pu cs2 t ts ∗ wordp (top av) t ∗ binsp av B ∗
  ⌜binned B (cs1 ++ cs2) (λ _, [])⌝ ⊢ core (cs1 ++ cs2) t ts B.
Proof. iIntros "(T & R & $ & $ & $)". iExists base. rewrite rest_app. iExists p, pu. iFrame. Qed.

(** Splitting what the bins hold at a chunk that is in use. *)
Lemma binned_split B cs1 c cs2 : in_use c = true → binned B (cs1 ++ c :: cs2) (λ _, []) → binned B cs1 (λ i, members (Free i) cs2).
Proof. intros Hc H. rewrite binned_in_use // in H. eapply binned_mono; [exact H|]. intros i _. by rewrite members_app app_nil_r. Qed.
Lemma binned_swap B cs1 cs2 : binned B cs1 (λ i, members (Free i) cs2) → binned B cs2 (λ i, members (Free i) cs1).
Proof. intros H. eapply binned_mono; [exact H|]. intros i _. apply Permutation_app_comm. Qed.
Lemma binned_join B cs1 cs2 : binned B cs2 (λ i, members (Free i) cs1) → binned B (cs1 ++ cs2) (λ _, []).
Proof. intros H. eapply binned_mono; [exact H|]. intros i _. rewrite members_app app_nil_r. apply Permutation_app_comm. Qed.

(** The next chunk is top just when there is none before it. *)
Lemma rest_is_top a pu cs t ts : rest a pu cs t ts ⊢ ⌜a = t ↔ cs = []⌝.
Proof.
  destruct cs as [|c cs]; [unfold rest; cbn [tile]; iIntros "[[-> _] _]"; done|]. rewrite rest_cons. unfold rest.
  iIntros "(<- & (_ & W & _) & _ & (_ & W' & _))".
  destruct (decide (caddr c = t)) as [->|Hn]; [iDestruct (wordp_exclusive with "W W'") as "[]"|]. by iPureIntro.
Qed.

Lemma wp_consolidate_chunk cs1 c cs2 t ts B (Q : unit → hprop) : cst c = Used → core (cs1 ++ c :: cs2) t ts B ∗ blk (caddr c + 8) (csize c - 4) ⊢
  (∀ cs' t' ts' B', ⌜same_used (cs1 ++ cs2) cs' ∧ (t' + ts' = t + ts)%Z⌝ -∗ core cs' t' ts' B' -∗ Q tt) -∗ wp (consolidate_chunk av (caddr c)) Q.
Proof.
  intros Hc. iIntros "[C D] H". iDestruct (core_take with "C") as (base pu) "(T & ([%Hok %Hpu] & W & _) & R & Wt & B & %Hb)". destruct c as [p s st].
  cbn [caddr csize cst] in *. subst st.
  destruct Hok as (Hp & Hp8 & Hps & H16 & H8). cbn [caddr csize cst next_of in_use] in *. unfold consolidate_chunk. wget wp_get_size with "W".
  rewrite land_prev; [|lia|zlia|destruct pu; cbn [Z.b2z]; lia].
  unfold chunk_at_offset. rewrite (u32_small (p + s)); [|lia]. iDestruct (rest_size with "R") as "(%Hr & Wn & R)". wget wp_headsize with "Wn".
  iDestruct ("R" $! true with "[] Wn") as "R"; [iPureIntro; by left|]. iApply wp_bind.
  iApply (wp_consolidate_backward base cs1 p pu s s B with "[$T $W $D $B]"); [zlia|done|done|done|done|lia|by apply (binned_split B cs1 (Chunk p s Used))|].
  iIntros (p' s' cs1' B1) "(%E & %Hss & %Hp' & %Hp8' & %Hs8' & %Hsu & %Hb1) T D B".
  wget wp_load32 with "Wt". iDestruct (rest_is_top with "R") as %Ht. destruct (Z.eqb_spec (p + s) t) as [Et|Et]; cbn [negb].
  - assert (cs2 = []) as -> by by apply Ht. cbn [head_size] in *. iDestruct "R" as "[_ R]".
    iDestruct (top_front p' s' t ts with "[$D $R]") as "(%Hlt & (%v & W) & R)"; [done|done|lia|done|lia|].
    rewrite (u32_small (s' + ts)); [|lia]. rewrite lor_prev_0; [|zlia]. wget wp_set_head with "W". iApply (wp_store32 with "Wt"); [done|lia|].
    iIntros "Wt".
    iApply ("H" $! (cs1' ++ []) p' (s' + ts) with "[]"); [iPureIntro; split; [by f_equiv|lia]|]. iApply (core_join base cs1' p' true []).
    iFrame "T Wt B". iSplitL "R W"; [|iPureIntro; by apply binned_join, binned_swap].
    unfold rest. cbn [tile]. iSplit; [done|]. by iApply "R".
  - destruct cs2 as [|e cs2]; [by destruct Et; apply Ht|]. cbn [head_size] in *. iApply wp_bind.
    iApply (wp_consolidate_forward (p + s) e cs2 t ts s' with "[$R $B]"); [lia|lia|by apply binned_swap|].
    iIntros (k cs2' B2) "(%Hk & %Hk8 & %Hkb & %Hsu2 & %Hb2) D2 R B".
    iDestruct (unsorted_front p' (s' + k) with "[$B D D2]") as (first Hf) "(U1 & U2 & (%v1 & W1) & (%v2 & W2) & (%v3 & W3) & (%v4 & W4) & B)"; [done|done|lia|zlia|lia| |].
    { rewrite (blk_split _ s' k); [|lia..]. iFrame "D". by replace (p' + 4 + s') with (p + s + 4) by lia. }
    pose proof (bin_at_ok av Hav 1 ltac:(done)) as Hun. fold (unsorted_chunks av) in Hun. unfold node_ok in *.
    wget wp_get_fd with "U1". wget wp_set_fd with "U1". wget wp_set_bk with "U2". rewrite lor_prev_0; [|zlia]. wget wp_set_head with "W1".
    wget wp_set_bk with "W3". wget wp_set_fd with "W2".
    wlast wp_set_foot with "W4". iDestruct ("B" with "U1 U2 W1 W2 W3 W4") as "[B W]".
    iApply ("H" $! (cs1' ++ Chunk p' (s' + k) (Free 1) :: cs2') t ts); [iPureIntro;
      split; [rewrite Hsu Hsu2; f_equiv; symmetry; by apply same_used_free|done]|].
    iApply (core_join base cs1' p' true). iFrame "T Wt B". iSplitL; [iApply rest_cons; iFrame "W"; unfold next_of, in_use; cbn [caddr csize cst];
      replace (p' + (s' + k)) with (p + s + k) by lia; by iFrame|].
    iPureIntro. apply (binned_insert B2 cs1' (Chunk p' (s' + k) (Free 1)) cs2' _ 1 [] (B2 1)); [by apply binned_join|done|done].
Qed.

Lemma wp_free_chunk cs1 c cs2 t ts B (Q : Z → hprop) : cst c = Used → core (cs1 ++ c :: cs2) t ts B ∗ blk (caddr c + 8) (csize c - 4) ⊢
  (∀ v cs' t' ts' B', ⌜same_used (cs1 ++ cs2) cs' ∧ (t' + ts' = t + ts)%Z⌝ -∗ core cs' t' ts' B' -∗ Q v) -∗ wp (free_chunk av (caddr c) (csize c)) Q.
Proof.
  intros Hc. iIntros "[C D] H". iDestruct (core_take with "C") as (base pu) "(T & ([%Hok %Hpu] & W & _) & R & Wt & B & %Hb)". destruct c as [p s st].
  cbn [caddr csize cst] in *. subst st.
  destruct Hok as (Hp & Hp8 & Hps & H16 & H8). cbn [caddr csize cst next_of in_use] in *. unfold free_chunk, chunk_at_offset.
  rewrite (u32_small (p + s)); [|lia]. iDestruct (rest_size with "R") as "(%Hr & Wn & R)". wget wp_headsize with "Wn".
  iDestruct ("R" $! true with "[] Wn") as "R"; [iPureIntro; by left|]. iApply wp_bind.
  iApply (wp_consolidate_backward base cs1 p pu s s B with "[$T $W $D $B]"); [zlia|done|done|done|done|lia|by apply (binned_split B cs1 (Chunk p s Used))|].
  iIntros (p' s' cs1' B1) "(%E & %Hss & %Hp' & %Hp8' & %Hs8' & %Hsu & %Hb1) T D B".
  wget wp_load32 with "Wt". iDestruct (rest_is_top with "R") as %Ht. destruct (Z.eqb_spec (p + s) t) as [Et|Et]; cbn [negb].
  - assert (cs2 = []) as -> by by apply Ht. cbn [head_size] in *. iDestruct "R" as "[_ R]".
    iDestruct (top_front p' s' t ts with "[$D $R]") as "(%Hlt & (%v & W) & R)"; [done|done|lia|done|lia|].
    rewrite (u32_small (s' + ts)); [|lia]. rewrite lor_prev_0; [|zlia]. wget wp_set_head with "W". iApply wp_bind.
    iApply (wp_store32 with "Wt"); [done|lia|]. iIntros "Wt". iApply wp_ret.
    iApply ("H" $! _ (cs1' ++ []) p' (s' + ts) with "[]"); [iPureIntro; split; [by f_equiv|lia]|]. iApply (core_join base cs1' p' true []).
    iFrame "T Wt B". iSplitL "R W"; [|iPureIntro; by apply binned_join, binned_swap].
    unfold rest. cbn [tile]. iSplit; [done|]. by iApply "R".
  - destruct cs2 as [|e cs2]; [by destruct Et; apply Ht|]. cbn [head_size] in *. iApply wp_bind.
    iApply (wp_consolidate_forward (p + s) e cs2 t ts s' with "[$R $B]"); [lia|lia|by apply binned_swap|].
    iIntros (k cs2' B2) "(%Hk & %Hk8 & %Hkb & %Hsu2 & %Hb2) D2 R B".
    iDestruct (unsorted_front p' (s' + k) with "[$B D D2]") as (first Hf) "(U1 & U2 & (%v1 & W1) & (%v2 & W2) & (%v3 & W3) & (%v4 & W4) & B)"; [done|done|lia|zlia|lia| |].
    { rewrite (blk_split _ s' k); [|lia..]. iFrame "D". by replace (p' + 4 + s') with (p + s + 4) by lia. }
    pose proof (bin_at_ok av Hav 1 ltac:(done)) as Hun. fold (unsorted_chunks av) in Hun. unfold node_ok in *.
    wget wp_get_fd with "U1". wget wp_set_bk with "W3". wget wp_set_fd with "W2". wget wp_set_fd with "U1". wget wp_set_bk with "U2".
    rewrite lor_prev_0; [|zlia]. wget wp_set_head with "W1".
    wget wp_set_foot with "W4". iApply wp_ret. iDestruct ("B" with "U1 U2 W1 W2 W3 W4") as "[B W]".
    iApply ("H" $! _ (cs1' ++ Chunk p' (s' + k) (Free 1) :: cs2') t ts); [iPureIntro;
      split; [rewrite Hsu Hsu2; f_equiv; symmetry; by apply same_used_free|done]|].
    iApply (core_join base cs1' p' true). iFrame "T Wt B". iSplitL; [iApply rest_cons; iFrame "W"; unfold next_of, in_use; cbn [caddr csize cst];
      replace (p' + (s' + k)) with (p + s + k) by lia; by iFrame|].
    iPureIntro. apply (binned_insert B2 cs1' (Chunk p' (s' + k) (Free 1)) cs2' _ 1 [] (B2 1)); [by apply binned_join|done|done].
Qed.

(** ** The fastbins *)

Fixpoint chain (h : Z) (l : list Z) : hprop :=
  match l with [] => ⌜h = 0⌝ | x :: l => ⌜h = x ∧ node_ok x⌝ ∗ ∃ h', wordp (x + 8) h' ∗ chain h' l end.
Definition fastp (F : Z → list Z) : hprop := family (λ i l, ∃ h, wordp (fastbins av i) h ∗ chain h l)%I 0 NFASTBINS F.
Definition fast_ok (F : Z → list Z) (cs : list chunk) : Prop := ∀ i, 0 ≤ i < NFASTBINS → F i ≡ₚ members (Fast i) cs.

Lemma fastbins_eq i : 0 ≤ i < NFASTBINS → fastbins av i = av + 4 + 4 * i.
Proof. intros Hi. change NFASTBINS with 10 in Hi. unfold fastbins, SIZE_SZ. rewrite u32_small; lia. Qed.
Lemma chain_u32 h l : chain h l ⊢ ⌜is_u32 h ∧ (h = 0 ↔ l = [])⌝.
Proof. destruct l as [|x l]; cbn [chain]; [iIntros "->"; iPureIntro; split; [lia|done]|]. unfold node_ok. iIntros "([%E %Hx] & _)". iPureIntro.
split; [lia|]. split; [intros; lia|done]. Qed.
Lemma take_fastbin F i : 0 ≤ i < NFASTBINS → fastp F ⊢ (∃ h, wordp (fastbins av i) h ∗ chain h (F i)) ∗
  ∀ l, (∃ h, wordp (fastbins av i) h ∗ chain h l) -∗ fastp (<[i := l]> F).
Proof. intros Hi. change NFASTBINS with 10 in *. apply (family_take (λ i l, ∃ h, wordp (fastbins av i) h ∗ chain h l)%I 0 10 F i). lia. Qed.

(** A chunk of a fastbin and a chunk in use differ in who owns the memory. *)
Lemma core_fast_used cs1 c cs2 i t ts B : cst c = Fast i → core (cs1 ++ c :: cs2) t ts B ∗ (∃ v, wordp (caddr c + 8) v) ⊢
  core (cs1 ++ Chunk (caddr c) (csize c) Used :: cs2) t ts B ∗ blk (caddr c + 8) (csize c - 4).
Proof.
  intros Hc. iIntros "[C W]". iDestruct (core_take with "C") as (base pu) "(T & ([%Hok %Hpu] & Wh & Bd) & R & Wt & B & %Hb)". destruct c as [p s st].
  cbn [caddr csize cst] in *. subst st.
  destruct Hok as (Hp & Hp8 & Hps & H16 & H8 & Hi & Hsi). unfold body. cbn [caddr csize cst next_of in_use] in *.
  iSplitR "Bd W"; [|rewrite (blk_first (p + 8)); [|lia]; iFrame "W"; replace (p + 8 + 4) with (p + 12) by lia;
    by replace (s - 4 - 4) with (s - 8) by lia].
  iApply (core_join base cs1 p pu). iFrame "T Wt B". iSplitL; [iApply rest_cons; unfold next_of, in_use, chunkp, body; cbn [caddr csize cst]; iFrame;
    iPureIntro; split; [done|split; [|by right]]; by do 3 (split; [done|])|].
  iPureIntro. rewrite binned_in_use //. by rewrite binned_in_use in Hb.
Qed.
(** And back, with the memory. *)
Lemma core_used_fast cs1 c cs2 i t ts B : cst c = Used → 0 ≤ i < 8 → csize c = 8 * (i + 2) →
  core (cs1 ++ c :: cs2) t ts B ∗ blk (caddr c + 8) (csize c - 4) ⊢ core (cs1 ++ Chunk (caddr c) (csize c) (Fast i) :: cs2) t ts B ∗ ∃ v, wordp (caddr c + 8) v.
Proof.
  intros Hc Hi Hsi. iIntros "[C W]". iDestruct (core_take with "C") as (base pu) "(T & ([%Hok %Hpu] & Wh & Bd) & R & Wt & B & %Hb)".
  destruct c as [p s st]. cbn [caddr csize cst] in *. subst st.
  destruct Hok as (Hp & Hp8 & Hps & H16 & H8). unfold body. cbn [caddr csize cst next_of in_use] in *.
  rewrite (blk_first (p + 8)); [|lia]. iDestruct "W" as "[$ W]". replace (p + 8 + 4) with (p + 12) by lia. replace (s - 4 - 4) with (s - 8) by lia.
  iApply (core_join base cs1 p pu). iFrame "T Wt B". iSplitL; [iApply rest_cons; unfold next_of, in_use, chunkp, body; cbn [caddr csize cst]; iFrame;
    iPureIntro; split; [done|split; [|by right]]; by do 3 (split; [done|])|].
  iPureIntro. rewrite binned_in_use //. by rewrite binned_in_use in Hb.
Qed.

(** A chunk by its address. *)
Lemma members_split s cs p : p ∈ members s cs → ∃ cs1 c cs2, cs = cs1 ++ c :: cs2 ∧ cst c = s ∧ caddr c = p.
Proof.
  unfold members. rewrite list_elem_of_fmap. intros (c & -> & Hc). apply list_elem_of_filter in Hc as [Hs Hc].
  apply list_elem_of_split in Hc as (cs1 & cs2 & ->). by exists cs1, c, cs2.
Qed.
Lemma live_split cs p n : (p, n) ∈ live cs → ∃ cs1 c cs2, cs = cs1 ++ c :: cs2 ∧ cst c = Used ∧ p = caddr c + 8 ∧ n = csize c - 4.
Proof.
  unfold live. rewrite list_elem_of_fmap. intros (c & [= -> ->] & Hc). apply list_elem_of_filter in Hc as [Hs Hc].
  apply list_elem_of_split in Hc as (cs1 & cs2 & ->). by exists cs1, c, cs2.
Qed.
Lemma core_chunk_ok cs1 c cs2 t ts B : core (cs1 ++ c :: cs2) t ts B ⊢ ⌜chunk_ok c⌝.
Proof. iIntros "C". iDestruct (core_take with "C") as (base pu) "(_ & ([% _] & _) & _)". done. Qed.

(** The chunks have different addresses, so there are not too many. *)
Lemma tile_at a pu cs b pu' c : c ∈ cs → tile a pu cs b pu' ⊢ ∃ v, wordp (caddr c + 4) v.
Proof.
  intros (cs1 & cs2 & ->)%list_elem_of_split. rewrite tile_app. cbn [tile]. iIntros "(%z & %zu & _ & _ & (_ & W & _) & _)". by iExists _.
Qed.
Lemma tile_nodup a pu cs b pu' : tile a pu cs b pu' ⊢ ⌜NoDup (caddr <$> cs) ∧ ∀ x, x ∈ caddr <$> cs → 0 ≤ x < 2 ^ 32⌝.
Proof.
  revert a pu. induction cs as [|c cs IH]; intros a pu; cbn [tile fmap list_fmap]; [iIntros "_"; iPureIntro; split; [constructor|]; intros x Hx;
    by apply elem_of_nil in Hx|].
  iIntros "(_ & ([%Hok _] & W & _) & T)". destruct (decide (caddr c ∈ caddr <$> cs)) as [Hin|Hn].
  - apply list_elem_of_fmap in Hin as (d & E & Hd). iDestruct (tile_at _ _ _ _ _ _ Hd with "T") as (v) "W'". rewrite E.
    iDestruct (wordp_exclusive with "W W'") as "[]".
  - iDestruct (IH with "T") as %[IH1 IH2]. iPureIntro. split; [by constructor|]. intros x [->|Hx]%elem_of_cons; [|by apply IH2].
    destruct Hok as (?&?&?&Hok). assert (0 <= csize c) by (destruct (cst c); lia). lia.
Qed.
Lemma nodup_range (l : list Z) : NoDup l → (∀ x, x ∈ l → 0 ≤ x < 2 ^ 32) → Z.of_nat (length l) ≤ 2 ^ 32.
Proof.
  intros Hn Hr. pose proof (NoDup_submseteq l (seqZ 0 (2 ^ 32)) Hn) as Hs.
  assert (Hl : (length l <= length (seqZ 0 (2 ^ 32)))%nat) by (apply submseteq_length, Hs; intros x Hx; apply elem_of_seqZ; specialize (Hr x Hx);
    lia).
  rewrite length_seqZ in Hl. lia.
Qed.
Lemma core_length cs t ts B : core cs t ts B ⊢ ⌜∀ s, Z.of_nat (length (members s cs)) ≤ 2 ^ 32⌝.
Proof.
  iIntros "(%base & [T _] & _)". iDestruct (tile_nodup with "T") as %[Hn Hr]. iPureIntro. intros s.
  assert (Hs : members s cs `sublist_of` (caddr <$> cs)) by (unfold members; apply fmap_sublist, sublist_filter).
  apply nodup_range; [by eapply (sublist_NoDup _ _ Hn)|]. intros x Hx. apply Hr. by eapply elem_of_sublist.
Qed.

Lemma live_skip cs1 c cs2 : cst c ≠ Used → live (cs1 ++ c :: cs2) = live (cs1 ++ cs2).
Proof. intros H. by rewrite !live_app live_cons decide_False. Qed.
Lemma live_hit cs1 c cs2 : cst c = Used → live (cs1 ++ c :: cs2) ≡ₚ (caddr c + 8, csize c - 4) :: live (cs1 ++ cs2).
Proof. intros H. rewrite !live_app live_cons decide_True //. cbn [app]. by rewrite -Permutation_middle. Qed.
Lemma members_skip s cs1 c cs2 : cst c ≠ s → members s (cs1 ++ c :: cs2) = members s (cs1 ++ cs2).
Proof. intros H. by rewrite !members_app members_cons decide_False. Qed.
Lemma members_hit s cs1 c cs2 : cst c = s → members s (cs1 ++ c :: cs2) ≡ₚ caddr c :: members s (cs1 ++ cs2).
Proof. intros H. rewrite !members_app members_cons decide_True //. cbn [app]. by rewrite -Permutation_middle. Qed.

(** ** The chunks of the fastbins are freed *)

Definition drained (i : Z) (cs cs' : list chunk) : Prop := live cs' ≡ₚ live cs ∧ ∀ j, j ≠ i → members (Fast j) cs' ≡ₚ members (Fast j) cs.

Lemma wp_drain i cs t ts B p l (Q : unit → hprop) : l ≠ [] → members (Fast i) cs ≡ₚ l → core cs t ts B ∗ chain p l ⊢
  (∀ cs' t' ts' B', ⌜drained i cs cs' ∧ members (Fast i) cs' = [] ∧ (t' + ts' = t + ts)%Z⌝ -∗ core cs' t' ts' B' -∗ Q tt) -∗
  wp (while CHUNKS (λ p, nextp ← get_fd p; consolidate_chunk av p ;; if negb (nextp =? 0) then mret (inl nextp) else mret (inr tt)) p) Q.
Proof.
  intros Hl Hm. iIntros "[C L] H". iDestruct (core_length with "C") as %Hlen. specialize (Hlen (Fast i)).
  set (I := λ p n, (∃ l cs' t' ts' B, ⌜n = length l ∧ l ≠ [] ∧ members (Fast i) cs' ≡ₚ l ∧ drained i cs cs' ∧ (t' + ts' = t + ts)%Z⌝ ∗ core cs' t' ts' B ∗ chain p l)%I).
  iApply (wp_frame_wand with "[C L]"); [iApply (wp_loop I (λ _, ∃ cs' t' ts' B', ⌜drained i cs cs' ∧ members (Fast i) cs' = [] ∧ (t' + ts' = t + ts)%Z⌝ ∗ core cs' t' ts' B')%I _ _ (length l) p)|].
  - clear -Hav. intros p n. unfold I. iIntros "(%l & %cs' & %t1 & %ts1 & %B & (-> & %Hl & %Hm & (%Hd1 & %Hd2) & %Hts) & C & L)".
    destruct l as [|x l]; [done|]. cbn [chain]. iDestruct "L" as "([-> %Hx] & %h & W & L)". unfold node_ok in Hx.
    wget wp_get_fd with "W". destruct (members_split (Fast i) cs' x) as (cs1 & c & cs2 & -> & Hc & <-); [rewrite Hm; by left|].
    iDestruct (core_fast_used _ _ _ i with "[$C W]") as "[C D]"; [done|by iExists _|]. iApply wp_bind.
    iApply (wp_consolidate_chunk cs1 (Chunk (caddr c) (csize c) Used) with "[$C $D]"); [done|].
    iIntros (cs'' t' ts' B' [[Hs1 Hs2] Hts']) "C". iDestruct (chain_u32 with "L") as %[_ Hh]. rewrite (members_hit (Fast i)) // in Hm.
    apply Permutation_cons_inv in Hm.
    assert (Hd : drained i cs cs'').
    { split; [rewrite -Hs1 -Hd1 live_skip // Hc //|]. intros j Hj. rewrite -Hs2 -Hd2 // members_skip // Hc. congruence. }
    destruct (Z.eqb_spec h 0) as [E|E]; cbn [negb]; iApply wp_ret.
    + iExists cs'', t', ts', B'. iFrame. iPureIntro. split; [done|]. split; [|lia]. apply Permutation_nil_r. rewrite -Hs2 Hm. by rewrite (proj1 Hh E).
    + iExists (length l). iSplit; [iPureIntro; cbn; lia|]. iExists l, cs'', t', ts', B'. iFrame. iPureIntro. split; [done|]. split; [tauto|].
      split; [by rewrite -Hs2 Hm|]. split; [done|lia].
  - rewrite -Hm. change (Z.pos CHUNKS) with 4294967297. lia.
  - unfold I. iExists l, cs, t, ts, B. iFrame. done.
  - iIntros ([]) "(%cs' & %t' & %ts' & %B' & % & C)". by iApply ("H" with "[] C").
Qed.

(** ** The heap, for those who use it *)

(** [L] says which blocks are in use, [z] where top ends. *)
Definition heap (z : Z) (L : list (Z * Z)) : hprop := ∃ cs t ts B F, core cs t ts B ∗ fastp F ∗ ⌜live cs ≡ₚ L ∧ fast_ok F cs ∧ (t + ts = z)%Z⌝.
(** [max_fast] with its two flags. *)
Definition mfv (any fast : bool) : Z := 72 + Z.b2z any + 2 * Z.b2z fast.

Lemma mfv_u32 a f : is_u32 (mfv a f).
Proof. unfold mfv. destruct a, f; cbn [Z.b2z]; lia. Qed.

Lemma wp_consolidate a f z L (Q : unit → hprop) : wordp (max_fast av) (mfv a f) ∗ heap z L ⊢
  (wordp (max_fast av) (mfv a false) -∗ heap z L -∗ Q tt) -∗ wp (__malloc_consolidate av page) Q.
Proof.
  iIntros "[W Hp] H". unfold __malloc_consolidate. wget wp_load32 with "W". assert (E : negb (mfv a f =? 0) = true) by by destruct a, f. rewrite E.
  iApply wp_bind. unfold clear_fastchunks. wget wp_load32 with "W".
  assert (E1 : Z.land (mfv a f) (not32 FASTCHUNKS_BIT) = mfv a false) by by destruct a, f. rewrite E1.
  iApply (wp_store32 with "W"); [done|apply mfv_u32|]. iIntros "W". wget wp_load32 with "W".
  assert (E2 : fastbin_index (mfv a false) = 7) by by destruct a. rewrite E2.
  set (I := λ fb n, (∃ i, ⌜fb = fastbins av i ∧ 0 ≤ i < 8 ∧ n = Z.to_nat (7 - i)⌝ ∗ heap z L)%I).
  iApply (wp_frame_wand with "[Hp]"); [iApply (wp_loop I (λ _, heap z L) _ _ 7%nat (fastbins av 0))|iIntros ([]) "Hp"; iApply ("H" with "W Hp")].
  - clear a f E E1 E2. intros fb n. unfold I. iIntros "(%i & (-> & %Hi & ->) & %cs & %t & %ts & %B & %F & C & Fp & %HL & %HF & %Hz)".
    iDestruct (take_fastbin F i with "Fp") as "[(%h & W & K) Fp]"; [change NFASTBINS with 10; lia|].
    wget wp_load32 with "W". iDestruct (chain_u32 with "K") as %[_ Hh].
    iAssert (wp (if negb (h =? 0) then store32 (fastbins av i) 0 ;; while CHUNKS (λ p, nextp ← get_fd p;
      consolidate_chunk av p ;; if negb (nextp =? 0) then mret (inl nextp) else mret (inr tt)) h else mret tt) (λ _, heap z L))
      with "[C W K Fp]" as "X".
    + destruct (Z.eqb_spec h 0) as [E|E]; cbn [negb].
      * iApply wp_ret. iDestruct ("Fp" $! (F i) with "[W K]") as "Fp"; [iExists h; iFrame|]. iExists cs, t, ts, B, _. iFrame. iPureIntro.
        split; [done|]. split; [|done]. intros j Hj.
        destruct (decide (j = i)) as [->|Hn]; [rewrite fn_lookup_insert|rewrite fn_lookup_insert_ne //]; by apply HF.
      * iApply wp_bind. iApply (wp_store32 with "W"); [done|done|]. iIntros "W".
        iApply (wp_drain i with "[$C $K]"); [tauto|symmetry; apply HF; change NFASTBINS with 10; lia|].
        iIntros (cs' t' ts' B' ([Hd1 Hd2] & Hm & Hts)) "C". iDestruct ("Fp" $! [] with "[W]") as "Fp"; [iExists 0; by iFrame|].
        iExists cs', t', ts', B', _. iFrame. iPureIntro. split; [by rewrite Hd1|]. split; [|lia]. intros j Hj.
        destruct (decide (j = i)) as [->|Hn]; [rewrite fn_lookup_insert; by rewrite Hm|rewrite fn_lookup_insert_ne //]. rewrite Hd2 //. by apply HF.
    + iApply wp_bind. iApply (wp_frame_wand with "X"). iIntros (u) "Hp". rewrite !fastbins_eq; [|change NFASTBINS with 10; lia..].
      destruct (Z.eqb_spec (av + 4 + 4 * i) (av + 4 + 4 * 7)) as [E|E]; cbn [negb]; iApply wp_ret; [done|].
      iExists (Z.to_nat (7 - (i + 1))). iSplit; [iPureIntro; lia|]. iExists (i + 1). iFrame. iPureIntro. split; [|lia]. unfold SIZE_SZ.
      rewrite fastbins_eq; [|change NFASTBINS with 10; lia]. rewrite u32_small; lia.
  - done.
  - unfold I. iExists 0. by iFrame.
Qed.

Lemma wp_when_consolidate a f z L (Q : unit → hprop) : wordp (max_fast av) (mfv a f) ∗ heap z L ⊢
  (wordp (max_fast av) (mfv a false) -∗ heap z L -∗ Q tt) -∗ wp (whenM f (__malloc_consolidate av page)) Q.
Proof. destruct f; cbn [whenM]; [apply wp_consolidate|]. iIntros "[W Hp] H". iApply wp_ret. iApply ("H" with "W Hp"). Qed.
Lemma wp_have_fast a f (Q : bool → hprop) : wordp (max_fast av) (mfv a f) ⊢ (wordp (max_fast av) (mfv a f) -∗ Q f) -∗ wp (have_fastchunks av) Q.
Proof.
  iIntros "W H". unfold have_fastchunks. wget wp_load32 with "W". iApply wp_ret.
  assert (E : negb (Z.land (mfv a f) FASTCHUNKS_BIT =? 0) = f) by by destruct a, f. rewrite E. by iApply "H".
Qed.
End Free.
