(* ===== verification/MallocSys.v ===== *)
(** * What the allocator needs of the system, and giving memory back *)
From Stdlib Require Import ZArith Lia.
From stdpp Require Import base gmap list functions.
From iris.base_logic Require Import upred bi.
From iris.proofmode Require Import proofmode.
From S2P Require Import Prelude Word Sep Malloc MallocHeap MallocFree.
Open Scope Z_scope.
Open Scope u32_scope.

(** ** The system *)

(** [sbrk], [mmap] and [munmap] as they are documented: [brk_at w e] is what the system keeps when
    the program's break is [e]; [w] says whether it once had no memory to give. *)
Class System (page : Z) (MORECORE MMAP : Z → M mem Z) (MUNMAP : Z → Z → M mem unit) := {
  brk_at : bool → Z → hprop;
  page_ok : ∃ k, 7 ≤ k ≤ 20 ∧ page = 2 ^ k;
  brk_range w e : brk_at w e ⊢ ⌜0 < e < 2 ^ 32⌝;
  morecore_here w e (Q : Z → hprop) : brk_at w e ⊢ (brk_at w e -∗ Q e) -∗ wp (MORECORE 0) Q;
  morecore_more w e n (Q : Z → hprop) : 0 < n → brk_at w e ⊢ ((brk_at w (e + n) -∗ blk e n -∗ Q e) ∧ (brk_at true e -∗ Q MORECORE_FAILURE)) -∗ wp (MORECORE n) Q;
  morecore_less w e n (Q : Z → hprop) : 0 < n → blk (e - n) n ∗ brk_at w e ⊢ (∀ r, (brk_at w (e - n) -∗ Q r) ∧ (blk (e - n) n -∗ brk_at w e -∗ Q r)) -∗ wp (MORECORE (- n)) Q;
  mmap_region w e n (Q : Z → hprop) : 0 < n → brk_at w e ⊢ ((∀ r, ⌜0 < r ∧ r mod page = 0 ∧ r + n < 2 ^ 32⌝ -∗ brk_at w e -∗ blk r n -∗ Q r) ∧ (brk_at true e -∗ Q MORECORE_FAILURE)) -∗ wp (MMAP n) Q;
  munmap_region a n (Q : unit → hprop) : 0 < n → blk a n ⊢ Q tt -∗ wp (MUNMAP a n) Q
}.
(** No less is known to be refused. *)
Abbreviation later w w' := (w = true → w' = true).

(** A word whose value does not matter. *)
Definition cell (a : Z) : hprop := ∃ v, wordp a v.
Lemma wp_load_cell a (Q : Z → hprop) : cell a ⊢ (∀ v, ⌜is_u32 v⌝ -∗ cell a -∗ Q v) -∗ wp (load32 a) Q.
Proof. iIntros "(%v & W) H". iDestruct (wordp_u32 with "W") as %Hv. iApply (wp_load32 with "W"); [done|]. iIntros "W". iApply ("H" with "[//]").
by iExists v. Qed.
Lemma wp_store_cell a x (Q : unit → hprop) : is_u32 x → cell a ⊢ (cell a -∗ Q tt) -∗ wp (store32 a x) Q.
Proof. intros Hx. iIntros "(%v & W) H". iApply (wp_store32 with "W"); [done|done|]. iIntros "W". iApply "H". by iExists x. Qed.
Lemma wp_add_to a x (Q : unit → hprop) : cell a ⊢ (cell a -∗ Q tt) -∗ wp (add_to a x) Q.
Proof. iIntros "W H". unfold add_to. iApply wp_bind. iApply (wp_load_cell with "W"). iIntros (v Hv) "W". iApply (wp_store_cell with "W H").
apply u32_bound. Qed.
Lemma wp_raise_to a x (Q : unit → hprop) : is_u32 x → cell a ⊢ (cell a -∗ Q tt) -∗ wp (raise_to a x) Q.
Proof.
  intros Hx. iIntros "W H". unfold raise_to. iApply wp_bind. iApply (wp_load_cell with "W"). iIntros (v Hv) "W".
  destruct (v <? x); cbn [whenM]; [by iApply (wp_store_cell with "W H")|]. iApply wp_ret. by iApply "H".
Qed.

Lemma s32_range x : - 2 ^ 31 ≤ s32 x < 2 ^ 31.
Proof. unfold s32. cbv zeta. destruct (Z.ltb_spec (x mod 2 ^ 32) (2 ^ 31)); zlia. Qed.

Section Sys.
Context (av page : Z) (MORECORE MMAP : Z → M mem Z) (MUNMAP : Z → Z → M mem unit) `{!System page MORECORE MMAP MUNMAP}.
Hypothesis Hav : 0 < av ∧ av + 888 ≤ 2 ^ 32.

(** The tunable parameters and the statistics. *)
Definition tune : hprop :=
  cell (trim_threshold av) ∗ wordp (top_pad av) 0 ∗ cell (mmap_threshold av) ∗ cell (n_mmaps av) ∗ cell (n_mmaps_max av) ∗ cell (max_n_mmaps av) ∗
  wordp (pagesize av) page ∗ cell (mmapped_mem av) ∗ cell (sbrked_mem av) ∗ cell (max_sbrked_mem av) ∗ cell (max_mmapped_mem av) ∗
    cell (max_total_mem av).
(** Whether the memory from the system is thought to be contiguous: then top ends at the break.
    It is not after the system once refused memory. *)
Definition contp (w c : bool) : hprop := (∃ v, wordp (morecore_properties av) v ∗ ⌜negb (Z.land v MORECORE_CONTIGUOUS_BIT =? 0) = c⌝) ∗
  ⌜c = true ∨ w = true⌝.
(** With [w] it has refused; without, it may have. *)
Definition brkp (w : bool) (z : Z) : hprop := ∃ w' e c, ⌜later w w'⌝ ∗ brk_at w' e ∗ contp w' c ∗ ⌜e mod 8 = 0 ∧ (c = true → e = z)⌝.
Lemma brkp_later w w' z : later w w' → brkp w' z ⊢ brkp w z.
Proof. intros Hw. iIntros "(%w2 & %e & %c & %Hw2 & K)". iExists w2, e, c. iFrame. iPureIntro. auto. Qed.

Lemma page_facts : page mod 8 = 0 ∧ 128 ≤ page ≤ 2 ^ 20.
Proof.
  destruct page_ok as (k & Hk & ->). split; [|split].
  - replace k with (3 + (k - 3)) by lia. rewrite Z.pow_add_r; [|lia..]. change (2 ^ 3) with 8. rewrite Z.mul_comm. apply Z_mod_mult.
  - change 128 with (2 ^ 7). apply Z.pow_le_mono_r; lia.
  - apply Z.pow_le_mono_r; lia.
Qed.

(** What is given back: whole pages, and less than top has. *)
Lemma trim_extra ts : 16 ≤ ts < 2 ^ 32 →
  let extra := s32 (((ts -u 0 -u MINSIZE +u (page -u 1)) / page -u 1) *u page) in 0 < extra → extra mod 8 = 0 ∧ extra < ts - 16.
Proof.
  intros Hts. destruct page_facts as [H8 Hp]. change MINSIZE with 16. cbv zeta. rewrite (u32_small (ts - 0)); [|lia].
  rewrite (u32_small (ts - 0 - 16)); [|lia]. rewrite (u32_small (page - 1)); [|lia].
  set (y := u32 (ts - 0 - 16 + (page - 1))). assert (Hy : 0 ≤ y ≤ ts - 16 + (page - 1)) by (unfold y, u32; zlia). set (q := y / page).
  assert (Hq : page * q ≤ y ∧ 0 ≤ q) by (split; [apply Z.mul_div_le; lia|apply Z.div_pos; lia]).
  destruct (Z.eq_dec q 0) as [->|Hn].
  - assert (E : u32 (u32 (0 - 1) * page) = 2 ^ 32 - page) by (change (u32 (0 - 1)) with (2 ^ 32 - 1); unfold u32;
      rewrite -(Z_mod_plus_full _ (- (page - 1)) (2 ^ 32)); rewrite Z.mod_small; lia). rewrite E. intros Hpos. exfalso. revert Hpos. unfold s32.
      rewrite Z.mod_small; [|lia].
    destruct (Z.ltb_spec (2 ^ 32 - page) (2 ^ 31)); lia.
  - assert (Hlt : 0 ≤ (q - 1) * page < ts - 16) by nia. assert (Hqy : q ≤ y) by nia. rewrite (u32_small (q - 1)); [|unfold y, u32 in *; zlia].
    rewrite (u32_small ((q - 1) * page)); [|lia].
    assert (Hm : ((q - 1) * page) mod 8 = 0) by (apply Z.mod_divide; [lia|]; apply Z.divide_mul_r, Z.mod_divide; lia). unfold s32.
    rewrite Z.mod_small; [|lia]. cbv zeta.
    destruct (Z.ltb_spec ((q - 1) * page) (2 ^ 31)); lia.
Qed.

Lemma wp_trim w z L (Q : Z → hprop) : heap av z L ∗ tune ∗ brkp w z ⊢ (∀ r z', heap av z' L -∗ tune -∗ brkp w z' -∗ Q r) -∗
  wp (__malloc_trim av MORECORE 0) Q.
Proof.
  iIntros "((%cs & %t & %ts & %B & %F & C & Fp & %HL & %HF & %Hz) & T & (%w' & %e & %cn & %Hw & K & Cn & %He & %Hc)) H". subst z.
  unfold __malloc_trim. iDestruct "T" as "(T1 & T2 & T3 & T4 & T5 & T6 & T7 & T8 & T9 & T10)". wget wp_load32 with "T7".
  iDestruct "C" as (base) "([R (%Ht & Wh & D)] & Wt & Bp)". change MINSIZE with 16 in Ht. wget wp_load32 with "Wt". iApply wp_bind.
  iApply (wp_headsize t ts true with "Wh"); [lia|lia|zlia|]. iIntros "Wh". cbn [Z.b2z].
  iAssert (∀ ts' e' r, ⌜16 ≤ ts' ≤ ts ∧ ts' mod 8 = 0 ∧ e' mod 8 = 0 ∧ (cn = true → e' = t + ts')%Z⌝ -∗ wordp (t + 4) (ts' + 1) -∗ blk (t + 8) (ts' - 8) -∗ brk_at w' e' -∗ cell (sbrked_mem av) -∗ Q r)%I with "[Fp R Wt Bp Cn T1 T2 T3 T4 T5 T6 T7 T8 T10 H]" as "Hend".
  { iIntros (ts' e' r) "%Hts' Wh D K T9". iApply ("H" $! r (t + ts') with "[- K Cn T1 T2 T3 T4 T5 T6 T7 T8 T9 T10] [- K Cn] [K Cn]"); [|iFrame "T1 T2 T3 T4 T5 T6 T7 T8 T9 T10"|iExists w', e', cn; iFrame "K Cn"; iPureIntro; tauto].
    iExists cs, t, ts', B, F. iFrame "Fp". iSplit; [|done]. iExists base. iFrame. unfold topp. iFrame. iPureIntro. change MINSIZE with 16. lia. }
  pose proof (trim_extra ts ltac:(lia)) as Hx. cbv zeta in Hx. set (extra := s32 _) in *.
  destruct (Z.ltb_spec 0 extra) as [Hpos|_]; [|iApply wp_ret; iApply ("Hend" with "[] Wh D K T9"); iPureIntro;
    split; [lia|split; [zlia|split; [zlia|intros; (lia || tauto)]]]].
  destruct (Hx Hpos) as [Hx8 Hxlt]. clear Hx. iDestruct (brk_range with "K") as %Her. iApply wp_bind. iApply (morecore_here with "K"). iIntros "K".
  rewrite (u32_small (t + ts)); [|lia].
  destruct (Z.eqb_spec e (t + ts)) as [->|_]; [|iApply wp_ret; iApply ("Hend" with "[] Wh D K T9"); iPureIntro;
    split; [lia|split; [zlia|split; [zlia|intros; (lia || tauto)]]]].
  iDestruct (blk_cut (t + 8) (ts - 8) (ts - extra - 8) with "D") as "[D1 D2]"; [lia|].
  replace (t + 8 + (ts - extra - 8)) with (t + ts - extra) by lia. replace (ts - 8 - (ts - extra - 8)) with extra by lia.
  iApply wp_bind. iApply (morecore_less w' (t + ts) extra with "[$D2 $K]"); [done|]. iIntros (r). iSplit.
  - iIntros "K". iDestruct (brk_range with "K") as %Her'. iApply wp_bind. iApply (morecore_here with "K"). iIntros "K".
    assert (Hnf : negb (t + ts - extra =? MORECORE_FAILURE) = true) by (change MORECORE_FAILURE with 4294967295;
      destruct (Z.eqb_spec (t + ts - extra) 4294967295); [zlia|done]). rewrite Hnf.
    assert (Hrel : s32 (t + ts -u (t + ts - extra)) = extra) by (rewrite s32_u32; replace (t + ts - (t + ts - extra)) with extra by lia;
      rewrite s32_small; [done|apply s32_range]). rewrite Hrel.
    rewrite (proj2 (Z.eqb_neq extra 0)); [|lia]. cbn [negb]. iApply wp_bind. iApply (wp_add_to with "T9"). iIntros "T9".
    rewrite (u32_small (ts - extra)); [|lia]. rewrite lor_prev_0; [|zlia].
    wget wp_set_head with "Wh". iApply wp_ret. iApply ("Hend" with "[] Wh [D1] K T9"); [iPureIntro;
      split; [lia|split; [zlia|split; [zlia|intros; (lia || tauto)]]]|]. by replace (ts - extra - 8) with (ts - extra - 8) by lia.
  - iIntros "D2 K". iApply wp_bind. iApply (morecore_here with "K"). iIntros "K".
    assert (Hnf : negb (t + ts =? MORECORE_FAILURE) = true) by (change MORECORE_FAILURE with 4294967295;
      destruct (Z.eqb_spec (t + ts) 4294967295); [zlia|done]). rewrite Hnf. rewrite Z.sub_diag. change (s32 (u32 0)) with 0. cbn [negb Z.eqb].
    iApply wp_ret. iApply ("Hend" with "[] Wh [D1 D2] K T9"); [iPureIntro; split; [lia|split; [zlia|split; [zlia|intros; (lia || tauto)]]]|].
    rewrite (blk_cut (t + 8) (ts - 8) (ts - extra - 8)); [|lia]. iFrame "D1".
    replace (t + 8 + (ts - extra - 8)) with (t + ts - extra) by lia. by replace (ts - 8 - (ts - extra - 8)) with extra by lia.
Qed.


(** ** free *)

Lemma mfv_any a f : Z.lor (mfv a f) ANYCHUNKS_BIT = mfv true f.
Proof. by destruct a, f. Qed.
Lemma mfv_fast a f : Z.lor (mfv a f) (Z.lor FASTCHUNKS_BIT ANYCHUNKS_BIT) = mfv true true.
Proof. by destruct a, f. Qed.
Lemma not_mmapped s b : s mod 4 = 0 → negb (Z.land (s + Z.b2z b) IS_MMAPPED =? 0) = false.
Proof.
  intros Hs. replace (Z.land (s + Z.b2z b) IS_MMAPPED) with 0; [done|]. apply Z.bits_inj'. intros i Hi. rewrite Z.bits_0 Z.land_spec.
  change IS_MMAPPED with (2 ^ 1). rewrite (Z.pow2_bits_eqb 1) //.
  destruct (Z.eqb_spec 1 i) as [<-|]; [|by rewrite andb_false_r]. rewrite andb_true_r Z.testbit_eqb //. change (2 ^ 1) with 2.
  destruct (Z.eqb_spec ((s + Z.b2z b) / 2 mod 2) 1); [destruct b; cbn [Z.b2z] in *; zlia|done].
Qed.
Lemma wp_mmapped p s b (Q : bool → hprop) : is_u32 (p + 4) → s mod 4 = 0 → wordp (p + 4) (s + Z.b2z b) ⊢
  (wordp (p + 4) (s + Z.b2z b) -∗ Q false) -∗ wp (chunk_is_mmapped p) Q.
Proof. intros H Hs. iIntros "W H". unfold chunk_is_mmapped. wget wp_get_size with "W". iApply wp_ret. rewrite not_mmapped //. by iApply "H". Qed.

(** The chunk goes into its fastbin. *)
Lemma heap_push_fast z cs1 c cs2 t ts B F L : t + ts = z → cst c = Used → csize c ≤ 72 → live (cs1 ++ cs2) ≡ₚ L → fast_ok F (cs1 ++ c :: cs2) →
  let i := csize c / 8 - 2 in
  core av (cs1 ++ c :: cs2) t ts B ∗ fastp av F ∗ blk (caddr c + 8) (csize c - 4) ⊢ ⌜0 ≤ i < 8⌝ ∗ ∃ h v, ⌜is_u32 h⌝ ∗ wordp (fastbins av i) h ∗ wordp (caddr c + 8) v ∗ (wordp (fastbins av i) (caddr c) -∗ wordp (caddr c + 8) h -∗ heap av z L).
Proof.
  intros Hz Hc Hs HL HF i. iIntros "(C & Fp & D)". iDestruct (core_chunk_ok with "C") as %Hok. pose proof Hok as (Hp & Hp8 & Hps & Hok').
  rewrite Hc in Hok'. assert (Hi : 0 ≤ i < 8) by (unfold i; zlia).
  iSplit; [done|]. iDestruct (core_used_fast av cs1 c cs2 i with "[$C $D]") as "[C (%v & W)]"; [done|done|unfold i; zlia|].
  iDestruct (take_fastbin av F i with "Fp") as "[(%h & Wh & K) Fp]"; [change NFASTBINS with 10; lia|].
  iDestruct (chain_u32 with "K") as %[Hh _]. iExists h, v. iFrame "Wh W". iSplit; [done|]. iIntros "Wh W".
  iDestruct ("Fp" $! (caddr c :: F i) with "[Wh W K]") as "Fp".
  { iExists (caddr c). iFrame "Wh". cbn [chain]. iSplit; [iPureIntro; unfold node_ok; lia|]. iExists h. iFrame. }
  iExists _, t, ts, B, _. iFrame. iPureIntro. split; [rewrite live_skip //|]. split; [|done]. intros j Hj. destruct (decide (j = i)) as [->|Hn].
  - rewrite fn_lookup_insert members_hit //. cbn [caddr]. rewrite (HF i Hj) members_skip // Hc //.
  - rewrite fn_lookup_insert_ne // members_skip /=; [|congruence]. rewrite (HF j Hj) members_skip // Hc //.
Qed.

(** After a large free. *)
Definition free_large (v : Z) : M mem unit :=
  if FASTBIN_CONSOLIDATION_THRESHOLD <=? v then
    fast ← have_fastchunks av;
    whenM fast (__malloc_consolidate av page) ;;
    t ← load32 (top av);
    ts ← chunksize t;
    tt_ ← load32 (trim_threshold av);
    if tt_ <=? ts then pad ← load32 (top_pad av); __malloc_trim av MORECORE pad ;; mret tt else mret tt
  else mret tt.
Lemma wp_free_large w a f z L v (Q : unit → hprop) : heap av z L ∗ wordp (max_fast av) (mfv a f) ∗ tune ∗ brkp w z ⊢
  (∀ f' z', heap av z' L -∗ wordp (max_fast av) (mfv a f') -∗ tune -∗ brkp w z' -∗ Q tt) -∗ wp (free_large v) Q.
Proof.
  iIntros "(Hp & M & T & K) H". unfold free_large. destruct (_ <=? v); [|iApply wp_ret; iApply ("H" with "Hp M T K")]. wget wp_have_fast with "M".
  iApply wp_bind.
  iApply (wp_when_consolidate av page Hav with "[$M $Hp]").
  iIntros "M (%cs & %t & %ts & %B & %F & (%base & [R (%Ht & Wh & D)] & Wt & Bp) & Fp & %HL & %HF & %Hz)". change MINSIZE with 16 in Ht.
  wget wp_load32 with "Wt".
  iApply wp_bind. iApply (wp_headsize t ts true with "Wh"); [lia|lia|zlia|]. iIntros "Wh". cbn [Z.b2z]. iDestruct "T" as "(T1 & T2 & T)".
  iApply wp_bind. iApply (wp_load_cell with "T1"). iIntros (v1 Hv1) "T1".
  iAssert (heap av z L) with "[R Wh D Wt Bp Fp]" as "Hp".
  { iExists cs, t, ts, B, F. iFrame "Fp". iSplit; [|done]. iExists base. iFrame. unfold topp. iFrame. iPureIntro. by change MINSIZE with 16. }
  destruct (v1 <=? ts); [|iApply wp_ret; iApply ("H" with "Hp M [$T1 $T2 $T] K")]. wget wp_load32 with "T2". iApply wp_bind.
  iApply (wp_trim w z L with "[$Hp $T1 $T2 $T $K]"). iIntros (r z') "Hp T K". iApply wp_ret. iApply ("H" with "Hp M T K").
Qed.

Lemma wp_free w p n z L a f (Q : unit → hprop) : heap av z ((p, n) :: L) ∗ blk p n ∗ wordp (max_fast av) (mfv a f) ∗ tune ∗ brkp w z ⊢
  (∀ f' z', heap av z' L -∗ wordp (max_fast av) (mfv true f') -∗ tune -∗ brkp w z' -∗ Q tt) -∗ wp (free av page MORECORE MUNMAP p) Q.
Proof.
  iIntros "((%cs & %t & %ts & %B & %F & C & Fp & %HL & %HF & %Hz) & D & M & T & K) H".
  destruct (live_split cs p n) as (cs1 & c & cs2 & -> & Hc & -> & ->); [rewrite HL; by left|].
  iDestruct (core_chunk_ok with "C") as %(Hp & Hp8 & Hps & Hok). rewrite Hc in Hok. rewrite (live_hit cs1 c cs2 Hc) in HL.
  apply Permutation_cons_inv in HL.
  unfold free. rewrite (proj2 (Z.eqb_neq (caddr c + 8) 0)); [|lia]. unfold mem2chunk, SIZE_SZ. rewrite (u32_small (caddr c + 8 - 2 * 4)); [|lia].
  replace (caddr c + 8 - 2 * 4) with (caddr c) by lia.
  iDestruct (core_take with "C") as (base pu) "(Tl & ([%Hok' %Hpu] & W & Bd) & R & Wt & B & %Hb)". iApply wp_bind.
  iApply (wp_headsize (caddr c) (csize c) pu with "W"); [lia|lia|zlia|]. iIntros "W".
  wget wp_load32 with "M". pose proof (mfv_u32 a f) as Hmf. destruct (Z.leb_spec (csize c) (mfv a f)) as [Hs|Hs].
  - assert (Hs72 : csize c ≤ 72) by (unfold mfv in Hs; destruct a, f; cbn [Z.b2z] in Hs; zlia). iApply wp_bind. unfold set_fastchunks.
    wget wp_load32 with "M". rewrite mfv_fast. iApply (wp_store32 with "M"); [done|apply mfv_u32|]. iIntros "M".
    iAssert (core av (cs1 ++ c :: cs2) t ts B) with "[Tl W Bd R Wt B]" as "C"; [iApply (core_join av base cs1 (caddr c) pu); iFrame "Tl Wt B";
      iSplit; [iApply rest_cons; iFrame; iPureIntro; done|done]|].
    iDestruct (heap_push_fast z cs1 c cs2 with "[$C $Fp $D]") as "(%Hi & %h & %v & %Hh & Wf & Wc & Hp)"; [done|done|done|done|done|].
    assert (E : fastbin_index (csize c) = csize c / 8 - 2) by (unfold fastbin_index; rewrite Z.shiftr_div_pow2 // u32_small; change (2 ^ 3) with 8;
      lia). rewrite E.
    wget wp_load32 with "Wf". wget wp_set_fd with "Wc". iApply (wp_store32 with "Wf"); [done|lia|]. iIntros "Wf". iApply ("H" with "[-M T K] M T K").
    iApply ("Hp" with "Wf Wc").
  - iApply wp_bind. iApply (wp_mmapped (caddr c) (csize c) pu with "W"); [lia|zlia|]. iIntros "W". cbn [negb]. iApply wp_bind. unfold set_anychunks.
    wget wp_load32 with "M". rewrite mfv_any. iApply (wp_store32 with "M"); [done|apply mfv_u32|]. iIntros "M".
    iAssert (core av (cs1 ++ c :: cs2) t ts B) with "[Tl W Bd R Wt B]" as "C"; [iApply (core_join av base cs1 (caddr c) pu); iFrame "Tl Wt B";
      iSplit; [iApply rest_cons; iFrame; iPureIntro; done|done]|].
    iApply wp_bind. iApply (wp_free_chunk av Hav cs1 c cs2 with "[$C $D]"); [done|]. iIntros (v cs' t' ts' B' [[Hs1 Hs2] Hts]) "C".
    fold (free_large v). iApply (wp_free_large w true f z L with "[C Fp M T K]"); [|iApply "H"].
    iSplitL "C Fp"; [|iSplitL "M"; [done|iSplitL "T"; done]].
    iExists cs', t', ts', B', F. iFrame. iPureIntro. split; [by rewrite -Hs1|]. split; [|lia]. intros i Hi.
    rewrite (HF i Hi) -Hs2 members_skip // Hc //.
Qed.
End Sys.
