(* ===== verification/MallocTake.v ===== *)
(** * Allocating from the bins *)
From Stdlib Require Import ZArith Lia.
From stdpp Require Import base gmap list functions.
From iris.base_logic Require Import upred bi.
From iris.proofmode Require Import proofmode.
From S2P Require Import Prelude Word Sep Malloc MallocHeap MallocFree MallocSys.
Open Scope Z_scope.
Open Scope u32_scope.

(** ** The index of a bin *)

Lemma largebin_range s : 256 ≤ s < 2 ^ 32 → 32 ≤ __malloc_largebin_index s < NBINS.
Proof.
  intros Hs. change NBINS with 96. unfold __malloc_largebin_index, SMALLBIN_WIDTH, NSMALLBINS. change NBINS with 96.
  rewrite Z.shiftr_div_pow2; [|done]. change (2 ^ 8) with 256. cbv zeta.
  destruct (Z.leb_spec 0x10000 (s / 256)) as [H|H]; [lia|]. pose proof (Z.log2_nonneg (s / 256)) as H0.
  assert (H1 : Z.log2 (s / 256) < 16) by (apply Z.log2_lt_pow2; zlia).
  rewrite Z.shiftl_mul_pow2; [|done]. change (2 ^ 2) with 4. change (Z.land ?x 3) with (Z.land x (2 ^ 2 - 1)). rewrite land_ones_mod; [|done].
  change (2 ^ 2) with 4. zlia.
Qed.
Lemma bin_index_small s : s < 256 → bin_index s = s / 8.
Proof. intros Hs. unfold bin_index, in_smallbin_range, smallbin_index. change MIN_LARGE_SIZE with 256. rewrite (proj2 (Z.ltb_lt s 256) Hs).
by rewrite Z.shiftr_div_pow2. Qed.
Lemma bin_index_large s : 256 ≤ s → bin_index s = __malloc_largebin_index s.
Proof. intros Hs. unfold bin_index, in_smallbin_range. change MIN_LARGE_SIZE with 256. by rewrite (proj2 (Z.ltb_ge s 256) Hs). Qed.
Lemma bin_index_range s : 16 ≤ s < 2 ^ 32 → 2 ≤ bin_index s < NBINS.
Proof.
  intros Hs. destruct (Z.lt_ge_cases s 256) as [H|H]; [rewrite bin_index_small //; change NBINS with 96; zlia|]. rewrite bin_index_large //.
  pose proof (largebin_range s). lia.
Qed.
(** A larger chunk is not in a lower bin. *)
Lemma largebin_mono a b : 256 ≤ a ≤ b → b < 2 ^ 32 → __malloc_largebin_index a ≤ __malloc_largebin_index b.
Proof.
  intros Hab Hb. pose proof (largebin_range a ltac:(lia)) as Ra. unfold __malloc_largebin_index at 2. unfold SMALLBIN_WIDTH.
  rewrite (Z.shiftr_div_pow2 b); [|done]. change (2 ^ 8) with 256. cbv zeta.
  destruct (Z.leb_spec 0x10000 (b / 256)) as [Hx|Hx]; [lia|]. clear Ra. unfold __malloc_largebin_index, SMALLBIN_WIDTH.
  rewrite (Z.shiftr_div_pow2 a); [|done]. change (2 ^ 8) with 256. cbv zeta.
  destruct (Z.leb_spec 0x10000 (a / 256)) as [Hy|Hy]; [zlia|]. set (ma := Z.log2 (a / 256)). set (mb := Z.log2 (b / 256)).
  assert (Hm : 0 ≤ ma ≤ mb) by (split; [apply Z.log2_nonneg|apply Z.log2_le_mono; zlia]).
  rewrite !Z.shiftl_mul_pow2; [|done..]. change (2 ^ 2) with 4. change 3 with (2 ^ 2 - 1). rewrite !land_ones_mod; [|done..]. change (2 ^ 2) with 4.
  pose proof (Z.mod_pos_bound (Z.shiftr a (ma + 6)) 4 ltac:(lia)) as B1. pose proof (Z.mod_pos_bound (Z.shiftr b (mb + 6)) 4 ltac:(lia)) as B2.
  destruct (Z.eq_dec ma mb) as [E|E]; [|lia].
  assert (Hq : ∀ x, 256 ≤ x → Z.log2 (x / 256) = ma → 4 ≤ Z.shiftr x (ma + 6) < 8).
  { intros x Hx' El. pose proof (Z.log2_spec (x / 256) ltac:(zlia)) as Hl. rewrite El in Hl. rewrite Z.shiftr_div_pow2; [|lia]. rewrite Z.pow_succ_r in Hl; [|lia].
    assert (E4 : 2 ^ (ma + 6) * 4 = 2 ^ ma * 256) by (rewrite Z.pow_add_r; [|lia..]; change (2 ^ 6) with 64; lia).
    pose proof (Z.pow_pos_nonneg 2 ma ltac:(lia) ltac:(lia)) as Hp.
    split; [apply Z.div_le_lower_bound; [lia|zlia]|apply Z.div_lt_upper_bound; [lia|zlia]]. }
  pose proof (Hq a ltac:(lia) eq_refl) as Qa. pose proof (Hq b ltac:(lia) (eq_sym E)) as Qb. rewrite -E in B2 |- *.
  assert (Hd : Z.shiftr a (ma + 6) ≤ Z.shiftr b (ma + 6)) by (rewrite !Z.shiftr_div_pow2; [apply Z.div_le_mono; lia|lia..]). zlia.
Qed.
Lemma bin_index_mono a b : 16 ≤ a ≤ b → b < 2 ^ 32 → bin_index a ≤ bin_index b.
Proof.
  intros Hab Hb. destruct (Z.lt_ge_cases b 256) as [H|H]; [rewrite !bin_index_small; [zlia|lia..]|]. rewrite (bin_index_large b) //.
  pose proof (largebin_range b ltac:(lia)).
  destruct (Z.lt_ge_cases a 256) as [H'|H']; [rewrite bin_index_small //; zlia|]. rewrite bin_index_large //. apply largebin_mono; lia.
Qed.

Section Take.
Context (av page : Z).
Hypothesis Hav : 0 < av ∧ av + 888 ≤ 2 ^ 32.

(** ** A free chunk that is taken off its bin *)

Definition size_ok (p s : Z) : Prop := 0 < p ∧ p mod 8 = 0 ∧ p + s + 16 ≤ 2 ^ 32 ∧ 16 ≤ s ∧ s mod 8 = 0.
Lemma size_ok_used p s : size_ok p s → chunk_ok (Chunk p s Used).
Proof. intros H. exact H. Qed.
Lemma size_ok_free p s i : size_ok p s → 1 ≤ i < NBINS → i = 1 ∨ i = bin_index s → chunk_ok (Chunk p s (Free i)).
Proof. intros (Hp & Hp8 & Hps & H16 & H8) Hi Hi'. exact (conj Hp (conj Hp8 (conj Hps (conj H16 (conj H8 (conj Hi Hi')))))). Qed.
(** The chunk of [s] bytes at [p] with the others around it: all but its links and the bins;
    [used] is what the chunk behind it says. *)
Definition half (used : bool) (cs1 : list chunk) (p s : Z) (cs2 : list chunk) (t ts : Z) : hprop :=
  ∃ base, tile base true cs1 p true ∗ wordp (p + 4) (s + 1) ∗ blk (p + 16) (s - 16) ∗ wordp (p + s) s ∗ rest (p + s) used cs2 t ts ∗ wordp (top av) t ∗ ⌜size_ok p s⌝.
Definition links (p : Z) : hprop := cell (p + 8) ∗ cell (p + 12).

Lemma core_detach cs t ts B i l1 p l2 : 1 ≤ i < NBINS → B i = l1 ++ p :: l2 → core av cs t ts B ⊢ ∃ cs1 s cs2,
  ⌜cs = cs1 ++ Chunk p s (Free i) :: cs2 ∧ (i = 1 ∨ i = bin_index s) ∧ binned (<[i := l1 ++ l2]> B) (cs1 ++ cs2) (λ _, [])⌝ ∗
  half false cs1 p s cs2 t ts ∗ ring (bin_at av i) (B i) ∗ ∀ l, ring (bin_at av i) l -∗ binsp av (<[i := l]> B).
Proof.
  intros Hi El. iIntros "C". iAssert ⌜binned B cs (λ _, [])⌝%I as %Hb; [by iDestruct "C" as (base) "(_ & _ & _ & $)"|].
  destruct (members_split (Free i) cs p) as (cs1 & c & cs2 & -> & Hc & <-).
  { pose proof (Hb i Hi) as Hp. rewrite app_nil_r in Hp. rewrite -Hp El. apply elem_of_app. right. by left. }
  iDestruct (core_take with "C") as (base pu) "(T & ([%Hok %Hpu] & W & Bd) & R & Wt & B & _)". iDestruct (take_bin av B i Hi with "B") as "[Rg B]".
  iExists cs1, (csize c), cs2. destruct c as [p s st]. unfold body, next_of, in_use in *. cbn [caddr csize cst] in *. subst st.
  destruct Hok as (Hp & Hp8 & Hps & H16 & H8 & _ & Hix). cbn [caddr csize cst] in *.
  iSplit; [iPureIntro; split; [done|]; split; [done|]; by apply (binned_remove B cs1 (Chunk p s (Free i)) cs2)|]. iFrame "Rg B".
  iDestruct "Bd" as "[D Wf]". iExists base. destruct Hpu as [->|]; [|done]. iFrame. done.
Qed.

(** It is made a chunk in use. *)
Lemma half_used cs1 p s cs2 t ts B : binned B (cs1 ++ cs2) (λ _, []) → half true cs1 p s cs2 t ts ∗ links p ∗ binsp av B ⊢
  core av (cs1 ++ Chunk p s Used :: cs2) t ts B ∗ blk (p + 8) (s - 4).
Proof.
  intros Hb. iIntros "((%base & T & W & D & Wf & R & Wt & %Hs) & [L1 L2] & B)". pose proof Hs as (Hp & Hp8 & Hps & H16 & H8). iSplitR "D L1 L2 Wf".
  - iApply (core_join av base cs1 p true). iFrame "T Wt B". iSplit; [|iPureIntro; by apply binned_in_use]. iApply rest_cons.
    unfold chunkp, body, next_of, in_use. cbn [caddr csize cst Z.b2z].
    iSplit; [done|]. iFrame "W R". iPureIntro. split; [by apply size_ok_used|by left].
  - rewrite (blk_first (p + 8) (s - 4)) ?(blk_first (p + 8 + 4) (s - 4 - 4)) ?(blk_last (p + 8 + 4 + 4) (s - 4 - 4 - 4)); [|lia..].
    replace (p + 8 + 4 + 4) with (p + 16) by lia. replace (p + 8 + 4) with (p + 12) by lia.
    replace (s - 4 - 4 - 4 - 4) with (s - 16) by lia. replace (p + 16 + (s - 4 - 4 - 4) - 4) with (p + s) by lia. iFrame.
Qed.
Lemma wp_half_inuse cs1 p s cs2 t ts (Q : unit → hprop) : half false cs1 p s cs2 t ts ⊢
  (half true cs1 p s cs2 t ts -∗ Q tt) -∗ wp (set_inuse_bit_at_offset p s) Q.
Proof.
  iIntros "(%base & T & W & D & Wf & R & Wt & %Hs) H". destruct Hs as (Hp & Hp8 & Hps & H16 & H8). iDestruct (rest_size with "R") as "(%Hr & Wn & R)".
  iApply (wp_set_inuse p s _ false with "Wn"); [lia|lia|lia|]. iIntros "Wn". iApply "H". iExists base. iFrame. iSplit; [|done].
  iApply ("R" $! true with "[] Wn"). iPureIntro. by right; left.
Qed.
Lemma wp_half_size u cs1 p s cs2 t ts (Q : Z → hprop) : half u cs1 p s cs2 t ts ⊢ (half u cs1 p s cs2 t ts -∗ Q s) -∗ wp (chunksize p) Q.
Proof.
  iIntros "(%base & T & W & D & Wf & R & Wt & %Hs) H". pose proof Hs as (Hp & Hp8 & Hps & H16 & H8).
  iApply (wp_headsize p s true with "W"); [lia|lia|zlia|]. iIntros "W". iApply "H". iExists base. by iFrame.
Qed.
Lemma half_ok u cs1 p s cs2 t ts : half u cs1 p s cs2 t ts ⊢ ⌜size_ok p s⌝.
Proof. by iIntros "(%base & _ & _ & _ & _ & _ & _ & $)". Qed.

(** It is made a chunk in use of [nb] bytes and a free one, the first and only unsorted one. *)
Lemma wp_split cs1 p s cs2 t ts nb B (Q : Z → hprop) : 16 ≤ nb → nb mod 8 = 0 → nb + 16 ≤ s → binned B (cs1 ++ cs2) (λ _, []) → B 1 = [] →
  half false cs1 p s cs2 t ts ∗ links p ∗ cell (unsorted_chunks av + 8) ∗ cell (unsorted_chunks av + 12) ∗ (∀ l, ring (unsorted_chunks av) l -∗ binsp av (<[1 := l]> B)) ⊢
  (∀ B', core av (cs1 ++ Chunk p nb Used :: Chunk (p + nb) (s - nb) (Free 1) :: cs2) t ts B' -∗ blk (p + 8) (nb - 4) -∗ Q (p + nb)) -∗
    wp (split_chunk av p s nb) Q.
Proof.
  intros Hn16 Hn8 Hns Hb HB. iIntros "((%base & T & W & D & Wf & R & Wt & %Hs) & [L1 L2] & [%v1 U1] & [%v2 U2] & B) H".
  destruct Hs as (Hp & Hp8 & Hps & H16 & H8). unfold split_chunk, chunk_at_offset.
  rewrite (u32_small (s - nb)); [|lia]. rewrite (u32_small (p + nb)); [|lia]. pose proof (bin_at_ok av Hav 1 ltac:(done)) as Hun.
  fold (unsorted_chunks av) in Hun. pose proof Hun as Hun'. unfold node_ok in Hun'.
  iAssert (blk (p + 8) (s - 8)) with "[L1 L2 D]" as "D".
  { rewrite (blk_first (p + 8) (s - 8)) ?(blk_first (p + 8 + 4) (s - 8 - 4)); [|lia..]. replace (p + 8 + 4 + 4) with (p + 16) by lia. replace (p + 8 + 4) with (p + 12) by lia. replace (s - 8 - 4 - 4) with (s - 16) by lia. iFrame. }
  rewrite (blk_cut (p + 8) (s - 8) (nb - 4)); [|lia]. iDestruct "D" as "[D1 D2]". replace (p + 8 + (nb - 4)) with (p + nb + 4) by lia.
  replace (s - 8 - (nb - 4)) with (s - nb - 4) by lia.
  rewrite (blk_first (p + nb + 4) (s - nb - 4)) ?(blk_first (p + nb + 4 + 4) (s - nb - 4 - 4)) ?(blk_first (p + nb + 4 + 4 + 4) (s - nb - 4 - 4 - 4)); [|lia..].
  replace (p + nb + 4 + 4 + 4 + 4) with (p + nb + 16) by lia. replace (p + nb + 4 + 4 + 4) with (p + nb + 12) by lia.
  replace (p + nb + 4 + 4) with (p + nb + 8) by lia.
  replace (s - nb - 4 - 4 - 4 - 4) with (s - nb - 16) by lia. iDestruct "D2" as "([%w1 W1] & [%w2 W2] & [%w3 W3] & D2)".
  replace (p + s) with (p + nb + (s - nb)) by lia.
  wget wp_set_fd with "U1". wget wp_set_bk with "U2". wget wp_set_fd with "W2". wget wp_set_bk with "W3". rewrite !lor_prev_0; [|zlia..].
  wget wp_set_head with "W". wget wp_set_head with "W1". wget wp_set_foot with "Wf".
  iApply wp_ret. iApply ("H" $! (<[1 := [p + nb]]> B) with "[- D1] D1"). iApply (core_join av base cs1 p true). iFrame "T Wt".
  iSplitR "B U1 U2 W2 W3"; [|iSplitL].
  - iApply rest_cons. iSplit; [done|]. unfold next_of, in_use, chunkp, body. cbn [caddr csize cst Z.b2z]. iFrame "W".
    iSplit; [iPureIntro; split; [|by left]; apply size_ok_used; unfold size_ok; lia|].
    iApply rest_cons. unfold next_of, in_use, chunkp, body. cbn [caddr csize cst Z.b2z]. iSplit; [done|]. iFrame. iPureIntro. split; [|by left].
    apply size_ok_free; [unfold size_ok; zlia|done|by left].
  - iApply "B". cbn [ring path]. unfold ring. cbn [path]. unfold edge. assert (node_ok (p + nb)) by (unfold node_ok; lia). by iFrame.
  - iPureIntro. apply binned_in_use; [done|]. by apply (binned_insert B cs1 (Chunk (p + nb) (s - nb) (Free 1)) cs2 _ 1 [] []).
Qed.

(** ** What a stage gives *)

(** [cs'] has one block more. *)
Definition gains (cs cs' : list chunk) (m n : Z) : Prop := live cs' ≡ₚ (m, n) :: live cs ∧ ∀ i, members (Fast i) cs' ≡ₚ members (Fast i) cs.
Lemma gains_whole cs1 p s i cs2 : gains (cs1 ++ Chunk p s (Free i) :: cs2) (cs1 ++ Chunk p s Used :: cs2) (p + 8) (s - 4).
Proof. split; [by rewrite live_hit // live_skip|]. intros j. by rewrite !members_skip. Qed.
Lemma gains_split cs1 p s i nb cs2 : gains (cs1 ++ Chunk p s (Free i) :: cs2) (cs1 ++ Chunk p nb Used :: Chunk (p + nb) (s - nb) (Free 1) :: cs2) (p + 8) (nb - 4).
Proof.
  split; [rewrite live_hit // live_skip //|intros j; by rewrite !members_skip]. by rewrite live_skip.
Qed.

(** A block for a chunk of [nb] bytes, or none. *)
Definition block_ok (nb m n : Z) : Prop := nb - 4 ≤ n ∧ 0 < m ∧ m mod 8 = 0.
Definition given (z : Z) (cs : list chunk) (nb m : Z) : hprop := ∃ n cs' t ts B, ⌜block_ok nb m n ∧ gains cs cs' m n ∧ (t + ts = z)%Z⌝ ∗
  core av cs' t ts B ∗ blk m n.
Lemma given_whole cs1 p s i cs2 t ts B nb : nb ≤ s → size_ok p s → core av (cs1 ++ Chunk p s Used :: cs2) t ts B ∗ blk (p + 8) (s - 4) ⊢
  given (t + ts) (cs1 ++ Chunk p s (Free i) :: cs2) nb (p + 8).
Proof. intros Hn (Hp & Hp8 & Hps & _). iIntros "[C D]". iExists _, _, t, ts, B. iFrame "C D". iPureIntro.
split; [unfold block_ok; zlia|split; [apply gains_whole|done]]. Qed.
Lemma given_split cs1 p s i cs2 t ts B nb : size_ok p s → core av (cs1 ++ Chunk p nb Used :: Chunk (p + nb) (s - nb) (Free 1) :: cs2) t ts B ∗
  blk (p + 8) (nb - 4) ⊢ given (t + ts) (cs1 ++ Chunk p s (Free i) :: cs2) nb (p + 8).
Proof. intros (Hp & Hp8 & Hps & _). iIntros "[C D]". iExists _, _, t, ts, B. iFrame "C D". iPureIntro.
split; [unfold block_ok; zlia|split; [apply gains_split|done]]. Qed.

(** The places of the bin map, the last remainder, and a word that is never used. *)
Definition lookp : hprop := cell (last_remainder av) ∗ ([∗ list] i ∈ seqZ 0 3, cell (binmap av i)) ∗ wordp (binmap av 3) 0 ∗ wordp (av + 56) 0.

Lemma ring_ne b l1 p l2 : ring b (l1 ++ p :: l2) ⊢ ⌜p ≠ b⌝.
Proof.
  unfold ring. rewrite path_app. iIntros "[H1 H2]". destruct (decide (p = b)) as [->|Hn]; [|by iPureIntro].
  iDestruct (path_access [] b l1 b with "[H1]") as "[(_ & _ & W1) _]"; [by rewrite app_nil_r|].
  iDestruct (path_access [] b l2 b with "[H2]") as "[(_ & _ & W2) _]"; [by rewrite app_nil_r|].
  iDestruct (wordp_exclusive with "W1 W2") as "[]".
Qed.
Lemma end_of_cases b l : (l = [] ∧ end_of b l = b) ∨ ∃ l' p, l = l' ++ [p] ∧ end_of b l = p.
Proof. destruct l as [|p l _] using rev_ind; [by left|]. right. exists l, p. split; [done|apply end_of_snoc]. Qed.
(** The last chunk of a bin. *)
Lemma wp_ring_last b l (Q : Z → hprop) : is_u32 (b + 12) → ring b l ⊢ (ring b l -∗ Q (end_of b l)) -∗ wp (get_bk b) Q.
Proof.
  intros Hb. iIntros "R H". unfold ring. iDestruct (path_access [] b l b with "[R]") as "[(%Hn & W1 & W2) R]"; [by rewrite app_nil_r|]. cbn [hd].
  iApply (wp_get_bk with "W2"); [done|]. iIntros "W2". iApply "H".
  rewrite app_nil_r. iApply "R". by iFrame.
Qed.
Lemma wp_bin_last cs t ts B i (Q : Z → hprop) : 1 ≤ i < NBINS → core av cs t ts B ⊢
  (core av cs t ts B -∗ Q (end_of (bin_at av i) (B i))) -∗ wp (get_bk (bin_at av i)) Q.
Proof.
  intros Hi. iIntros "(%base & R & Wt & B & Hb) H".
  iDestruct (family_access (λ i, ring (bin_at av i)) 1 (NBINS - 1) B i with "B") as "[Rg B]"; [lia|].
  pose proof (bin_at_ok av Hav i Hi) as [Hn1 Hn2]. iApply (wp_ring_last with "Rg"); [lia|]. iIntros "Rg". iApply "H". iExists base. iFrame.
  by iApply "B".
Qed.
Lemma core_ring_ne cs t ts B i l1 p l2 : 1 ≤ i < NBINS → B i = l1 ++ p :: l2 → core av cs t ts B ⊢ ⌜p ≠ bin_at av i⌝.
Proof.
  intros Hi E. iIntros "(%base & R & Wt & B & Hb)".
  iDestruct (family_access (λ i, ring (bin_at av i)) 1 (NBINS - 1) B i with "B") as "[Rg _]"; [lia|]. rewrite E. by iApply ring_ne.
Qed.

(** Its last chunk is taken off: [bin->bk = bck; bck->fd = bin;]. *)
Lemma wp_pop {A} b l p (k : M mem A) Q : ring b (l ++ [p]) ⊢ wordp (p + 12) (end_of b l) ∗
  (wordp (p + 12) (end_of b l) -∗ (ring b l -∗ links p -∗ wp k Q) -∗ wp (set_bk b (end_of b l) ;; set_fd (end_of b l) b ;; k) Q).
Proof.
  iIntros "R". iDestruct (path_around p [] b l b with "R") as "(([%Hx %Hp] & W1 & $) & ([_ %Hb] & W3 & W4) & R)". cbn [hd] in *. unfold node_ok in *.
  iIntros "W2 H". wget wp_set_bk with "W4". wget wp_set_fd with "W1".
  iApply ("H" with "[R W1 W4]"); [|iSplitL "W3"; by iExists _]. unfold ring. rewrite app_nil_r. iApply "R". iFrame. iPureIntro. unfold node_ok. lia.
Qed.

(** As seen from outside. *)
Definition got (z : Z) (L : list (Z * Z)) (nb m : Z) : hprop := ∃ n, ⌜block_ok nb m n⌝ ∗ heap av z ((m, n) :: L) ∗ blk m n.
Definition result (none : hprop) (z : Z) (L : list (Z * Z)) (nb : Z) (r : option Z) : hprop := match r with None => none | Some m => got z L nb m end.
Lemma given_got z cs nb m F L : live cs ≡ₚ L → fast_ok F cs → given z cs nb m ∗ fastp av F ⊢ got z L nb m.
Proof.
  intros HL HF. iIntros "[(%n & %cs' & %t & %ts & %B & (%Hok & (%Hg1 & %Hg2) & %Hz) & C & D) Fp]". iExists n. iFrame "D". iSplit; [done|].
  iExists cs', t, ts, B, F. iFrame. iPureIntro. split; [by rewrite Hg1 HL|]. split; [|done].
  intros i Hi. by rewrite (HF i Hi) Hg2.
Qed.

Lemma wp_take_fast a f z L nb (Q : option Z → hprop) : 16 ≤ nb → nb mod 8 = 0 → wordp (max_fast av) (mfv a f) ∗ heap av z L ⊢
  (∀ r, wordp (max_fast av) (mfv a f) -∗ result (heap av z L) z L nb r -∗ Q r) -∗ wp (take_fast av nb) Q.
Proof.
  intros H16 H8. iIntros "(M & Hp) H". unfold take_fast. wget wp_load32 with "M".
  destruct (Z.leb_spec nb (mfv a f)) as [Hn|_]; [|iApply wp_ret; iApply ("H" with "M"); iFrame].
  iDestruct "Hp" as (cs t ts B F) "(C & Fp & %HL & %HF & %Hz)".
  assert (Hn72 : nb ≤ 72) by (unfold mfv in Hn; destruct a, f; cbn [Z.b2z] in Hn; zlia). set (i := nb / 8 - 2).
  assert (Hi : 0 ≤ i < 8) by (unfold i; zlia).
  assert (E : fastbin_index nb = i) by (unfold fastbin_index; rewrite Z.shiftr_div_pow2 // u32_small; change (2 ^ 3) with 8; unfold i; lia).
  rewrite E.
  iDestruct (take_fastbin av F i with "Fp") as "[(%h & W & K) Fp]"; [change NFASTBINS with 10; lia|]. wget wp_load32 with "W".
  destruct (F i) as [|x l] eqn:El; cbn [chain].
  - iDestruct "K" as %->. cbn [negb Z.eqb]. iApply wp_ret. iApply ("H" with "M"). iExists cs, t, ts, B, F. iFrame "C". iSplit; [|done].
    iDestruct ("Fp" $! [] with "[W]") as "Fp"; [iExists 0; by iFrame|]. iApply (family_ext with "Fp"). intros j Hj.
    destruct (decide (j = i)) as [->|Hne]; [by rewrite fn_lookup_insert El|by rewrite fn_lookup_insert_ne].
  - iDestruct "K" as "([-> %Hx] & %h' & Wx & K)". unfold node_ok in Hx. rewrite (proj2 (Z.eqb_neq x 0)); [|lia]. cbn [negb]. wget wp_get_fd with "Wx".
    iDestruct (chain_u32 with "K") as %[Hh _].
    wget wp_store32 with "W". iApply wp_ret.
    destruct (members_split (Fast i) cs x) as (cs1 & c & cs2 & -> & Hc & <-); [rewrite -(HF i); [rewrite El; by left|change NFASTBINS with 10; lia]|].
    iDestruct (core_chunk_ok with "C") as %(Hp & Hp8 & Hps & Hok). rewrite Hc in Hok.
    iDestruct (core_fast_used av _ _ _ i with "[$C Wx]") as "[C D]"; [done|by iExists _|].
    unfold chunk2mem, SIZE_SZ.
    rewrite u32_small; [|lia]. iApply ("H" with "M"). iExists (csize c - 4). change (2 * 4) with 8. iFrame "D".
    iSplit; [iPureIntro; unfold block_ok, i in *; zlia|].
    iExists _, t, ts, B, _. iFrame "C". iSplitL; [iApply ("Fp" $! l with "[W K]"); iExists h'; iFrame|]. iPureIntro.
    split; [rewrite live_hit // -HL live_skip // Hc //|]. split; [|done]. intros j Hj. rewrite members_skip //.
    pose proof (HF j Hj) as HFj. destruct (decide (j = i)) as [->|Hne]; [rewrite fn_lookup_insert|rewrite fn_lookup_insert_ne //;
      rewrite HFj members_skip //; congruence]. rewrite El (members_hit (Fast i)) // in HFj. by apply Permutation_cons_inv in HFj.
Qed.

Lemma wp_take_small a f z L nb (Q : option Z → hprop) : 16 ≤ nb < 2 ^ 32 → nb mod 8 = 0 → wordp (max_fast av) (mfv a f) ∗ heap av z L ⊢
  (∀ r f', ⌜f = false → f' = false⌝ -∗ wordp (max_fast av) (mfv a f') -∗ result (heap av z L) z L nb r -∗ Q r) -∗ wp (take_small av page nb) Q.
Proof.
  intros H16 H8. iIntros "(M & Hp) H". unfold take_small. destruct (in_smallbin_range nb) eqn:Es.
  - unfold in_smallbin_range in Es. change MIN_LARGE_SIZE with 256 in Es. apply Z.ltb_lt in Es. pose proof (bin_index_small nb Es) as Ei.
    assert (E : smallbin_index nb = nb / 8) by (unfold smallbin_index; by rewrite Z.shiftr_div_pow2). rewrite E.
    set (i := nb / 8) in *. assert (Hi : 1 ≤ i < NBINS) by (change NBINS with 96; unfold i; zlia).
    iDestruct "Hp" as (cs t ts B F) "(C & Fp & %HL & %HF & <-)". iApply wp_bind. iApply (wp_bin_last with "C"); [done|]. iIntros "C".
    destruct (end_of_cases (bin_at av i) (B i)) as [[El ->]|(l & p & El & ->)].
    + rewrite Z.eqb_refl. cbn [negb]. iApply wp_ret. iApply ("H" $! None f with "[//] M"). iExists cs, t, ts, B, F. by iFrame.
    + iDestruct (core_ring_ne _ _ _ _ i l p [] Hi El with "C") as %Hne. rewrite (proj2 (Z.eqb_neq p _) Hne). cbn [negb].
      iDestruct (core_detach _ _ _ _ i l p [] Hi El with "C") as (cs1 s cs2) "((-> & %His & %Hb) & Hf & R & B)".
      rewrite app_nil_r in Hb. iDestruct (half_ok with "Hf") as %Hs. pose proof Hs as (Hp & Hp8 & Hps & Hs16 & Hs8). assert (s = nb) as ->.
      { destruct His as [Hi1|His]; [unfold i in Hi1; zlia|]. destruct (Z.lt_ge_cases s 256) as [Hlt|Hge]; [rewrite bin_index_small // in His;
          unfold i in His; zlia|]. rewrite bin_index_large // in His. pose proof (largebin_range s ltac:(lia)). unfold i in His. zlia. }
      rewrite El. iDestruct (wp_pop with "R") as "[W R]". wget wp_get_bk with "W". iApply wp_bind. iApply (wp_half_inuse with "Hf"). iIntros "Hf".
      iApply ("R" with "W"). iIntros "R K". iApply wp_ret. unfold chunk2mem, SIZE_SZ. rewrite u32_small; [|lia].
      iApply ("H" $! (Some _) f with "[//] M"). change (2 * 4) with 8. iApply (given_got (t + ts) with "[- $Fp]"); [done|done|].
      iApply (given_whole _ _ _ _ _ t ts (<[i := l]> B)); [lia|done|]. iApply half_used; [done|]. iFrame. by iApply "B".
  - iApply wp_bind. unfold have_fastchunks. iApply (wp_have_fast with "M"). iIntros "M". iApply wp_bind.
    iApply (wp_when_consolidate av page Hav with "[$M $Hp]"). iIntros "M Hp". iApply wp_ret. iApply ("H" $! None false with "[//] M Hp").
Qed.

(** ** Chunks are put into their bins *)

(** The size of a free chunk, somewhere. *)
Lemma tile_free a pu cs b pu' d : d ∈ cs → in_use d = false → tile a pu cs b pu' ⊢
  ⌜chunk_ok d⌝ ∗ wordp (caddr d + 4) (csize d + 1) ∗ (wordp (caddr d + 4) (csize d + 1) -∗ tile a pu cs b pu').
Proof.
  intros (cs1 & cs2 & ->)%list_elem_of_split Hd. rewrite tile_app. cbn [tile]. iIntros "(%z & %zu & T & %E & ([%Hok %Hu] & W & Bd) & T2)".
  destruct Hu as [->|Hu]; [|congruence]. cbn [Z.b2z]. iFrame "W". iSplit; [done|].
  iIntros "W". iExists z, true. iFrame. iPureIntro. split; [done|]. split; [done|by left].
Qed.
Lemma rest_free a pu cs t ts d : d ∈ cs → in_use d = false → rest a pu cs t ts ⊢
  ⌜chunk_ok d⌝ ∗ wordp (caddr d + 4) (csize d + 1) ∗ (wordp (caddr d + 4) (csize d + 1) -∗ rest a pu cs t ts).
Proof. intros Hd Hu. iIntros "[T $]". by iApply tile_free. Qed.
Lemma half_free u cs1 p s cs2 t ts d : d ∈ cs1 ++ cs2 → in_use d = false → half u cs1 p s cs2 t ts ⊢
  ⌜chunk_ok d⌝ ∗ wordp (caddr d + 4) (csize d + 1) ∗ (wordp (caddr d + 4) (csize d + 1) -∗ half u cs1 p s cs2 t ts).
Proof.
  intros [Hd|Hd]%elem_of_app Hu; iIntros "(%base & T & W & D & Wf & R & Wt & Hs)".
  - iDestruct (tile_free _ _ _ _ _ d with "T") as "($ & $ & T)"; [done|done|]. iIntros "Wd". iExists base. iFrame. by iApply "T".
  - iDestruct (rest_free _ _ _ _ _ d with "R") as "($ & $ & R)"; [done|done|]. iIntros "Wd". iExists base. iFrame. by iApply "R".
Qed.
Lemma core_free cs t ts B d : d ∈ cs → in_use d = false → core av cs t ts B ⊢
  ⌜chunk_ok d⌝ ∗ wordp (caddr d + 4) (csize d + 1) ∗ (wordp (caddr d + 4) (csize d + 1) -∗ core av cs t ts B).
Proof. intros Hd Hu. iIntros "(%base & R & Wt & B & Hb)". iDestruct (rest_free _ _ _ _ _ d with "R") as "($ & $ & R)"; [done|done|]. iIntros "Wd".
iExists base. iFrame. by iApply "R". Qed.
(** A chunk of a bin. *)
Lemma bin_member B cs i q : binned B cs (λ _, []) → 1 ≤ i < NBINS → q ∈ B i → ∃ d, d ∈ cs ∧ cst d = Free i ∧ caddr d = q ∧ in_use d = false.
Proof.
  intros Hb Hi Hq. rewrite (Hb i Hi) app_nil_r in Hq. destruct (members_split _ _ _ Hq) as (cs1 & c & cs2 & -> & Hc & <-). exists c.
  split; [apply elem_of_app; right; by left|]. split; [done|]. split; [done|]. unfold in_use. by rewrite Hc.
Qed.
(** A place in a list where a chunk is put. *)
Definition place (b : Z) (l : list Z) (bck fwd : Z) : Prop := ∃ l1 l2, l = l1 ++ l2 ∧ bck = end_of b l1 ∧ fwd = hd b l2.

Lemma wp_ring_fd b l1 q l2 (Q : Z → hprop) : is_u32 (q + 8) → ring b (l1 ++ q :: l2) ⊢ (ring b (l1 ++ q :: l2) -∗ Q (hd b l2)) -∗ wp (get_fd q) Q.
Proof.
  intros Hq. iIntros "R H". unfold ring. rewrite (cons_middle q) app_assoc.
  iDestruct (path_access l2 b (l1 ++ [q]) b with "R") as "[(%Hn & W1 & W2) R]". rewrite end_of_snoc in Hn |- *. iApply (wp_get_fd with "W1"); [done|].
  iIntros "W1". iApply "H".
  iApply "R". by iFrame.
Qed.
Lemma wp_ring_bk b l1 l2 (Q : Z → hprop) : is_u32 (hd b l2 + 12) → ring b (l1 ++ l2) ⊢
  (ring b (l1 ++ l2) -∗ Q (end_of b l1)) -∗ wp (get_bk (hd b l2)) Q.
Proof.
  intros Hq. iIntros "R H". unfold ring. iDestruct (path_access l2 b l1 b with "R") as "[(%Hn & W1 & W2) R]". iApply (wp_get_bk with "W2"); [done|].
  iIntros "W2". iApply "H". iApply "R". by iFrame.
Qed.
Lemma wp_ring_first b l (Q : Z → hprop) : is_u32 (b + 8) → ring b l ⊢ (ring b l -∗ Q (hd b l)) -∗ wp (get_fd b) Q.
Proof. intros Hb. iIntros "R H". unfold ring. iDestruct (path_access l b [] b with "R") as "[(%Hn & W1 & W2) R]". cbn [end_of app].
iApply (wp_get_fd with "W1"); [done|]. iIntros "W1". iApply "H". iApply "R". by iFrame. Qed.

(** The chunks of a bin are not too many. *)
Lemma path_at x l y z : z ∈ l → path x l y ⊢ ∃ v, wordp (z + 12) v.
Proof.
  revert x. induction l as [|w l IH]; intros x Hz; [by apply elem_of_nil in Hz|]. cbn [path].
  apply elem_of_cons in Hz as [->|Hz]; iIntros "[(_ & _ & W) H]"; [by iExists _|by iApply IH].
Qed.
Lemma path_nodup x l y : path x l y ⊢ ⌜NoDup l ∧ ∀ z, z ∈ l → node_ok z⌝.
Proof.
  revert x. induction l as [|w l IH]; intros x; cbn [path]; [iIntros "_"; iPureIntro; split; [constructor|]; intros z Hz;
    by apply elem_of_nil in Hz|].
  iIntros "[([_ %Hw] & _ & W) H]". destruct (decide (w ∈ l)) as [Hin|Hn]; [iDestruct (path_at _ _ _ _ Hin with "H") as (v) "W'";
    iDestruct (wordp_exclusive with "W W'") as "[]"|].
  iDestruct (IH with "H") as %[IH1 IH2]. iPureIntro. split; [by constructor|]. by intros z [->|Hz]%elem_of_cons; [|apply IH2].
Qed.
Lemma ring_length b l : ring b l ⊢ ⌜Z.of_nat (length l) ≤ 2 ^ 32 ∧ ∀ z, z ∈ l → node_ok z⌝.
Proof.
  unfold ring. rewrite path_nodup. iIntros ([Hn Hr]). iPureIntro. split; [|done]. apply nodup_range; [done|]. intros z Hz. destruct (Hr z Hz). lia.
Qed.

(** The place of a chunk in a sorted bin: the search ends at the last chunk, which is not larger. *)
Lemma wp_sorted b B i u cs1 p s cs2 t ts lst (Q : Z * Z → hprop) : binned B (cs1 ++ cs2) (λ _, []) → 1 ≤ i < NBINS →
  lst ∈ cs1 ++ cs2 → in_use lst = false → (∃ l, B i = l ++ [caddr lst]) → csize lst + 1 ≤ s → s mod 8 = 0 →
  half u cs1 p s cs2 t ts ∗ ring b (B i) ⊢ (∀ bck fwd, ⌜place b (B i) bck fwd⌝ -∗ half u cs1 p s cs2 t ts -∗ ring b (B i) -∗ Q (bck, fwd)) -∗
  wp (fwd ← while CHUNKS (λ fwd, fs ← get_size fwd; if Z.lor s PREV_INUSE <? fs then n ← get_fd fwd; mret (inl n) else mret (inr fwd)) (hd b (B i));
    bck ← get_bk fwd; mret (bck, fwd)) Q.
Proof.
  intros Hb Hi Hl Hlu [ll Ell] Hls Hs8. iIntros "[Hf R] H". rewrite lor_prev_0; [|zlia].
  set (I := λ q n, (∃ l1 l2, ⌜B i = l1 ++ q :: l2 ∧ n = length l2⌝ ∗ half u cs1 p s cs2 t ts ∗ ring b (B i))%I).
  iDestruct (ring_length with "R") as %[Hlen Hnode]. iApply wp_bind.
  iApply (wp_frame_wand with "[Hf R]"); [iApply (wp_loop I (λ fwd, ∃ l1 l2, ⌜B i = l1 ++ fwd :: l2⌝ ∗ half u cs1 p s cs2 t ts ∗ ring b (B i))%I _ _ (length (tl (B i))) (hd b (B i)))|].
  - clear Q. intros q n. unfold I. iIntros "(%l1 & %l2 & (%E & ->) & Hf & R)".
    assert (Hq : node_ok q) by (apply Hnode; rewrite E; apply elem_of_app; right; by left). unfold node_ok in Hq.
    assert (∃ d, d ∈ cs1 ++ cs2 ∧ in_use d = false ∧ caddr d = q ∧ (l2 = [] → csize d + 1 ≤ s)) as (d & Hd & Hdu & <- & Hdl).
    { destruct l2 as [|q' l2].
      - exists lst. rewrite Ell in E. apply app_inj_tail in E as [_ E]. done.
      - destruct (bin_member B (cs1 ++ cs2) i q Hb Hi) as (d & Hd & _ & Hq' & Hdu); [rewrite E; apply elem_of_app; right; by left|]. by exists d. }
    iDestruct (half_free _ _ _ _ _ _ _ d Hd Hdu with "Hf") as "(%Hok & W & Hf)". wget wp_get_size with "W". iDestruct ("Hf" with "W") as "Hf".
    destruct (Z.ltb_spec (s + 1) (csize d + 1)) as [Hlt|Hge].
    + destruct l2 as [|q' l2]; [specialize (Hdl eq_refl); lia|]. rewrite E. iApply wp_bind. iApply (wp_ring_fd with "R"); [lia|]. iIntros "R".
      iApply wp_ret. iExists (length l2). iSplit; [iPureIntro; cbn; lia|]. iExists (l1 ++ [caddr d]), l2. cbn [hd]. iFrame. iPureIntro.
      split; [|done]. by rewrite -app_assoc.
    + iApply wp_ret. iExists l1, l2. by iFrame.
  - assert (length (tl (B i)) ≤ length (B i))%nat by (destruct (B i); cbn; lia). change (Z.pos CHUNKS) with 4294967297. lia.
  - destruct (B i) as [|q l] eqn:E; [by destruct ll|]. iExists [], l. by iFrame.
  - iIntros (q) "(%l1 & %l2 & %E & Hf & R)". assert (Hq : node_ok q) by (apply Hnode; rewrite E; apply elem_of_app; right; by left).
    unfold node_ok in Hq. rewrite E. iApply wp_bind. iApply (wp_ring_bk b l1 (q :: l2) with "R"); [cbn [hd]; lia|].
    iIntros "R". iApply wp_ret. iApply ("H" with "[] Hf R"). iPureIntro. by exists l1, (q :: l2).
Qed.

(** Where a chunk goes in its bin. *)
Lemma wp_bin_place B i u cs1 p s cs2 t ts (Q : Z * Z → hprop) : binned B (cs1 ++ cs2) (λ _, []) → 1 ≤ i < NBINS →
  half u cs1 p s cs2 t ts ∗ ring (bin_at av i) (B i) ⊢ (∀ bck fwd, ⌜place (bin_at av i) (B i) bck fwd⌝ -∗ half u cs1 p s cs2 t ts -∗ ring (bin_at av i) (B i) -∗ Q (bck, fwd)) -∗ wp (bin_place av s i) Q.
Proof.
  intros Hb Hi. iIntros "[Hf R] H". unfold bin_place. pose proof (bin_at_ok av Hav i Hi) as [Hn1 Hn2].
  iDestruct (half_ok with "Hf") as %(_ & _ & _ & _ & Hs8). iApply wp_bind. iApply (wp_ring_first with "R"); [lia|]. iIntros "R".
  assert (Hfront : place (bin_at av i) (B i) (bin_at av i) (hd (bin_at av i) (B i))) by by exists [], (B i).
  destruct (in_smallbin_range s); [iApply wp_ret; by iApply ("H" with "[] Hf R")|].
  destruct (end_of_cases (bin_at av i) (B i)) as [[El _]|(l & q & El & Eq)].
  - rewrite El. cbn [hd]. rewrite Z.eqb_refl. cbn [negb]. iApply wp_ret. iApply ("H" with "[] Hf R"). iPureIntro. by exists [], [].
  - destruct (Z.eqb_spec (hd (bin_at av i) (B i)) (bin_at av i)) as [_|_]; cbn [negb]; [iApply wp_ret; by iApply ("H" with "[] Hf R")|].
    iApply wp_bind. iApply (wp_ring_last with "R"); [lia|]. iIntros "R". rewrite Eq.
    destruct (bin_member B (cs1 ++ cs2) i q Hb Hi) as (d & Hd & _ & <- & Hdu); [rewrite El; apply elem_of_app; right; by left|].
    iDestruct (half_free _ _ _ _ _ _ _ d Hd Hdu with "Hf") as "(%Hok & W & Hf)". destruct Hok as (Ha & _ & Hae & Hok).
    assert (16 ≤ csize d) by (unfold in_use in Hdu; destruct (cst d); (done || lia)). wget wp_get_size with "W". iDestruct ("Hf" with "W") as "Hf".
    destruct (Z.ltb_spec s (csize d + 1)) as [Hlt|Hge]; [iApply wp_ret; iApply ("H" with "[] Hf R"); iPureIntro; exists (B i), [];
      by rewrite app_nil_r Eq|].
    destruct (_ <=? s); [|iApply wp_ret; by iApply ("H" with "[] Hf R")]. cbv zeta.
    iApply (wp_sorted _ B i u cs1 p s cs2 t ts d with "[$Hf $R]"); [done|done|done|done|by exists l|lia|done|done].
Qed.

Lemma idx2block_eq i : idx2block i = i / 32.
Proof. unfold idx2block. by rewrite Z.shiftr_div_pow2. Qed.
Lemma idx2bit_eq i : idx2bit i = 2 ^ (i mod 32).
Proof. unfold idx2bit. change BINMAPSHIFT with 5. rewrite land_ones_mod // Z.shiftl_mul_pow2; [|apply Z.mod_pos_bound; lia]. change (2 ^ 5) with 32.
lia. Qed.
Lemma pow_u32 k : 0 ≤ k < 32 → is_u32 (2 ^ k).
Proof. intros Hk. split; [lia|]. apply Z.pow_lt_mono_r; lia. Qed.
Lemma wp_binmap k (Q : Z → hprop) : 0 ≤ k < 3 → lookp ⊢ (∀ v, ⌜is_u32 v⌝ -∗ lookp -∗ Q v) -∗ wp (load32 (binmap av k)) Q.
Proof.
  intros Hk. iIntros "(L1 & L2 & L3) H". iDestruct (big_sepL_lookup_acc _ _ (Z.to_nat k) k with "L2") as "[W L2]"; [apply lookup_seqZ; lia|].
  iApply (wp_load_cell with "W"). iIntros (v Hv) "W". iApply ("H" with "[//]"). iFrame. by iApply "L2".
Qed.
Lemma wp_set_binmap k x (Q : unit → hprop) : 0 ≤ k < 3 → is_u32 x → lookp ⊢ (lookp -∗ Q tt) -∗ wp (store32 (binmap av k) x) Q.
Proof.
  intros Hk Hx. iIntros "(L1 & L2 & L3) H". iDestruct (big_sepL_lookup_acc _ _ (Z.to_nat k) k with "L2") as "[W L2]"; [apply lookup_seqZ; lia|].
  iApply (wp_store_cell with "W"); [done|]. iIntros "W". iApply "H". iFrame. by iApply "L2".
Qed.
Lemma wp_mark_bin i (Q : unit → hprop) : 1 ≤ i < NBINS → lookp ⊢ (lookp -∗ Q tt) -∗ wp (mark_bin av i) Q.
Proof.
  intros Hi. change NBINS with 96 in Hi. iIntros "L H". unfold mark_bin. assert (Hk : 0 ≤ idx2block i < 3) by (rewrite idx2block_eq; zlia).
  iApply wp_bind. iApply (wp_binmap with "L"); [done|]. iIntros (v Hv) "L". iApply (wp_set_binmap with "L H"); [done|].
  apply lor_bound; [done|done|]. rewrite idx2bit_eq. apply pow_u32, Z.mod_pos_bound. lia.
Qed.

(** The four writes that put a chunk between two. *)
Lemma ring_place b l bck fwd p : node_ok p → place b l bck fwd → ring b l ⊢ ⌜node_ok bck ∧ node_ok fwd⌝ ∗ wordp (bck + 8) fwd ∗ wordp (fwd + 12) bck ∗
  ∃ l1 l2, ⌜l = l1 ++ l2⌝ ∗ (wordp (bck + 8) p -∗ wordp (fwd + 12) p -∗ wordp (p + 8) fwd -∗ wordp (p + 12) bck -∗ ring b (l1 ++ p :: l2)).
Proof.
  intros Hp (l1 & l2 & -> & -> & ->). iIntros "R". iDestruct (path_gap with "R") as "[([%H1 %H2] & $ & $) R]". iSplit; [done|]. iExists l1, l2.
  iSplit; [done|]. iIntros "W1 W2 W3 W4". iApply ("R" with "[W1 W4] [W3 W2]"); by iFrame.
Qed.
Lemma wp_bin_chunk B cs1 p s cs2 t ts (Q : unit → hprop) : binned B (cs1 ++ cs2) (λ _, []) →
  half false cs1 p s cs2 t ts ∗ links p ∗ binsp av B ∗ lookp ⊢
  (∀ B', ⌜B' 1 = B 1⌝ -∗ core av (cs1 ++ Chunk p s (Free (bin_index s)) :: cs2) t ts B' -∗ lookp -∗ Q tt) -∗ wp (bin_chunk av p s) Q.
Proof.
  intros Hb. iIntros "(Hf & [[%v1 L1] [%v2 L2]] & B & Lk) H". unfold bin_chunk. fold (bin_index s). iDestruct (half_ok with "Hf") as %Hs.
  pose proof Hs as (Hp & Hp8 & Hps & H16 & H8). set (i := bin_index s). pose proof (bin_index_range s ltac:(lia)) as Hi2. fold i in Hi2.
  assert (Hi : 1 ≤ i < NBINS) by lia.
  iDestruct (take_bin av B i Hi with "B") as "[R B]". iApply wp_bind. iApply (wp_bin_place B i with "[$Hf $R]"); [done|done|].
  iIntros (bck fwd Hpl) "Hf R". iApply wp_bind. iApply (wp_mark_bin with "Lk"); [done|]. iIntros "Lk".
  assert (Hpn : node_ok p) by (unfold node_ok; lia).
  iDestruct (ring_place _ _ _ _ p Hpn Hpl with "R") as "([%Hn1 %Hn2] & W1 & W2 & %l1 & %l2 & %El & R)". unfold node_ok in Hn1, Hn2.
  wget wp_set_bk with "L2". wget wp_set_fd with "L1". wget wp_set_bk with "W2". wlast wp_set_fd with "W1".
  iApply ("H" $! (<[i := l1 ++ p :: l2]> B) with "[] [- Lk] Lk"); [iPureIntro; rewrite fn_lookup_insert_ne //; lia|].
  iDestruct "Hf" as (base) "(T & W & D & Wf & Rs & Wt & _)". iApply (core_join av base cs1 p true). iFrame "T Wt".
  iSplitL "W D Wf Rs"; [|iSplitL; [iApply "B"; by iApply ("R" with "W1 W2 L1 L2")|iPureIntro;
    by apply (binned_insert B cs1 (Chunk p s (Free i)) cs2 _ i l1 l2)]].
  iApply rest_cons. unfold next_of, in_use, chunkp, body. cbn [caddr csize cst Z.b2z]. iSplit; [done|]. iFrame. iPureIntro. split; [|by left].
  apply size_ok_free; [done|done|by right].
Qed.

(** ** The unsorted chunks *)

(** A heap without unsorted chunks. *)
Definition heap0 (z : Z) (L : list (Z * Z)) : hprop := ∃ cs t ts B F, core av cs t ts B ∗ fastp av F ∗
  ⌜live cs ≡ₚ L ∧ fast_ok F cs ∧ (t + ts = z)%Z ∧ B 1 = []⌝.
Lemma heap0_heap z L : heap0 z L ⊢ heap av z L.
Proof. iIntros "(%cs & %t & %ts & %B & %F & C & Fp & % & % & % & _)". iExists cs, t, ts, B, F. by iFrame. Qed.
Lemma core_unsorted_length cs t ts B : core av cs t ts B ⊢ ⌜Z.of_nat (length (B 1)) ≤ 2 ^ 32⌝.
Proof. iIntros "(%base & _ & _ & B & _)". iDestruct (take_bin av B 1 with "B") as "[R _]"; [done|]. by iDestruct (ring_length with "R") as %[? _].
Qed.

(** The remainder of the last split is split again. *)
Lemma wp_split_last cs1 p s cs2 t ts nb B (Q : Z → hprop) : 16 ≤ nb → nb mod 8 = 0 → nb + 16 ≤ s → binned (<[1 := []]> B) (cs1 ++ cs2) (λ _, []) →
  half false cs1 p s cs2 t ts ∗ ring (unsorted_chunks av) [p] ∗ (∀ l, ring (unsorted_chunks av) l -∗ binsp av (<[1 := l]> B)) ⊢
  (given (t + ts) (cs1 ++ Chunk p s (Free 1) :: cs2) nb (p + 8) -∗ Q (p + nb)) -∗ wp (split_chunk av p s nb) Q.
Proof.
  intros H16 H8 Hns Hb. iIntros "(Hf & R & B) H". iDestruct (half_ok with "Hf") as %Hs. unfold ring. cbn [path].
  iDestruct "R" as "((_ & W1 & W2) & _ & W3 & W4)".
  iApply (wp_split cs1 p s cs2 t ts nb (<[1 := []]> B) with "[$Hf W1 W2 W3 W4 B]"); [done|done|done|done|by rewrite fn_lookup_insert| |].
  - iSplitL "W2 W3"; [iSplitL "W3"; by iExists _|]. iSplitL "W1"; [by iExists _|]. iSplitL "W4"; [by iExists _|]. iIntros (l) "R".
    iDestruct ("B" with "R") as "B". iApply (family_ext with "B"). intros i _.
    destruct (decide (i = 1)) as [->|Hn]; [by rewrite !fn_lookup_insert|by rewrite !fn_lookup_insert_ne].
  - iIntros (B') "C D". iApply "H". iApply given_split; [done|]. iFrame.
Qed.

Definition unsorted_step (nb : Z) : M mem (() + option Z) :=
  victim ← get_bk (unsorted_chunks av);
  if victim =? unsorted_chunks av then mret (inr None)
  else
    bck ← get_bk victim;
    size ← chunksize victim;
    lr ← load32 (last_remainder av);
    if in_smallbin_range nb && (bck =? unsorted_chunks av) && (victim =? lr) && (nb +u MINSIZE <? size) then
      remainder ← split_chunk av victim size nb;
      store32 (last_remainder av) remainder ;;
      mret (inr (Some (chunk2mem victim)))
    else
      set_bk (unsorted_chunks av) bck ;;
      set_fd bck (unsorted_chunks av) ;;
      if size =? nb then
        set_inuse_bit_at_offset victim size ;;
        mret (inr (Some (chunk2mem victim)))
      else bin_chunk av victim size ;; mret (inl tt).

Lemma wp_unsorted_step z cs t ts B F L nb (Q : () + option Z → hprop) : t + ts = z → 16 ≤ nb → nb + 16 < 2 ^ 32 → nb mod 8 = 0 → live cs ≡ₚ L →
  fast_ok F cs →
  core av cs t ts B ∗ fastp av F ∗ lookp ⊢
  ((⌜B 1 = []⌝ -∗ core av cs t ts B -∗ fastp av F -∗ lookp -∗ Q (inr None)) ∧
   (∀ m, got z L nb m -∗ lookp -∗ Q (inr (Some m))) ∧
   (∀ cs' (B' : Z → list Z), ⌜live cs' ≡ₚ L ∧ fast_ok F cs' ∧ (length (B' 1) < length (B 1))%nat⌝ -∗ core av cs' t ts B' -∗ fastp av F -∗ lookp -∗ Q (inl tt))) -∗
  wp (unsorted_step nb) Q.
Proof.
  intros <- H16 Hnb H8 HL HF. iIntros "(C & Fp & Lk) H". unfold unsorted_step. assert (Hi : 1 ≤ 1 < NBINS) by done. fold (bin_at av 1).
  pose proof (bin_at_ok av Hav 1 Hi) as [Hu1 Hu2]. iApply wp_bind. iApply (wp_bin_last _ _ _ _ 1 _ Hi with "C"). iIntros "C".
  fold (unsorted_chunks av). destruct (end_of_cases (unsorted_chunks av) (B 1)) as [[El ->]|(l & p & El & ->)]; [rewrite Z.eqb_refl; iApply wp_ret;
    iDestruct "H" as "[H _]"; by iApply ("H" with "[] C Fp Lk")|].
  iDestruct (core_ring_ne _ _ _ _ 1 l p [] Hi El with "C") as %Hne. rewrite (proj2 (Z.eqb_neq p _) Hne).
  iDestruct (core_detach _ _ _ _ 1 l p [] Hi El with "C") as (cs1 s cs2) "((-> & _ & %Hb) & Hf & R & B)".
  rewrite app_nil_r in Hb. iDestruct (half_ok with "Hf") as %Hs. pose proof Hs as (Hp & Hp8 & Hps & Hs16 & Hs8). rewrite El.
  fold (unsorted_chunks av) in *. iApply wp_bind. iApply (wp_ring_bk _ l [p] with "R"); [cbn [hd]; lia|]. iIntros "R".
  iApply wp_bind. iApply (wp_half_size with "Hf"). iIntros "Hf". iDestruct "Lk" as "[Lr Lk]". iApply wp_bind. iApply (wp_load_cell with "Lr").
  iIntros (lr _) "Lr".
  assert (Em : chunk2mem p = p + 8) by (unfold chunk2mem, SIZE_SZ; rewrite u32_small; lia). rewrite Em. destruct (_ && _) eqn:Ec.
  - apply andb_true_iff in Ec as [Ec Es]. apply andb_true_iff in Ec as [Ec _]. apply andb_true_iff in Ec as [_ Ec]. apply Z.eqb_eq in Ec.
    apply Z.ltb_lt in Es. rewrite u32_small in Es; [|change MINSIZE with 16; lia]. change MINSIZE with 16 in Es.
    iAssert ⌜l = []⌝%I as %->. { destruct (end_of_cases (unsorted_chunks av) l) as [[-> _]|(l' & q & -> & Eq)]; [done|]. rewrite -app_assoc. cbn [app]. iDestruct (ring_ne with "R") as %Hq. by rewrite Eq in Ec. }
    iApply wp_bind. iApply (wp_split_last _ _ _ _ _ _ nb with "[$Hf $R $B]"); [done|done|lia|done|]. iIntros "G". iApply wp_bind.
    iApply (wp_store_cell with "Lr"); [lia|]. iIntros "Lr". iApply wp_ret.
    iDestruct "H" as "[_ [H _]]". iApply ("H" with "[G Fp] [$Lr $Lk]"). iApply (given_got (t + ts) with "[$G $Fp]"); done.
  - iDestruct (wp_pop with "R") as "[W R]". iApply ("R" with "W"). iIntros "R K". iDestruct ("B" with "R") as "B".
    destruct (Z.eqb_spec s nb) as [->|Hsn].
    + iApply wp_bind. iApply (wp_half_inuse with "Hf"). iIntros "Hf". iApply wp_ret. iDestruct "H" as "[_ [H _]]".
      iApply ("H" with "[- Lr Lk] [$Lr $Lk]"). iApply (given_got (t + ts) with "[- $Fp]"); [done|done|]. iApply given_whole; [lia|done|].
      iApply half_used; [done|]. iFrame.
    + iApply wp_bind. iApply (wp_bin_chunk with "[$Hf $K $B $Lr $Lk]"); [done|]. iIntros (B') "%HB C Lk". iApply wp_ret. iDestruct "H" as "[_ [_ H]]".
      iApply ("H" with "[] C Fp Lk"). iPureIntro. rewrite HB fn_lookup_insert length_app. cbn [length].
      split; [by rewrite -HL !live_skip|]. split; [|lia]. intros j Hj. by rewrite (HF j Hj) !members_skip.
Qed.
Lemma wp_take_unsorted z L nb (Q : option Z → hprop) : 16 ≤ nb → nb + 16 < 2 ^ 32 → nb mod 8 = 0 → heap av z L ∗ lookp ⊢
  (∀ r, result (heap0 z L) z L nb r -∗ lookp -∗ Q r) -∗ wp (take_unsorted av nb) Q.
Proof.
  intros H16 Hnb H8. iIntros "((%cs & %t & %ts & %B & %F & C & Fp & %HL & %HF & %Hz) & Lk) H". iDestruct (core_unsorted_length with "C") as %Hlen.
  set (I := λ (_ : ()) n, (∃ cs t ts B F, ⌜live cs ≡ₚ L ∧ fast_ok F cs ∧ (t + ts = z)%Z ∧ n = length (B 1)⌝ ∗ core av cs t ts B ∗ fastp av F ∗ lookp)%I).
  iApply (wp_frame_wand with "[- H]"); [iApply (wp_loop I (λ r, result (heap0 z L) z L nb r ∗ lookp)%I _ _ (length (B 1)) tt)|].
  - clear -Hav H16 Hnb H8. intros [] n. iIntros "(%cs & %t & %ts & %B & %F & (%HL & %HF & %Hz & ->) & C & Fp & Lk)".
    iApply (wp_unsorted_step z cs t ts B F L nb with "[$C $Fp $Lk]"); [done|done|done|done|done|done|]. iSplit; [|iSplit].
    + iIntros "%E C Fp Lk". iFrame "Lk". iExists cs, t, ts, B, F. by iFrame.
    + iIntros (m) "$ $".
    + iIntros (cs' B') "(%HL' & %HF' & %Hl) C Fp Lk". iExists _. iSplit; [done|]. iExists cs', t, ts, B', F. by iFrame.
  - change (Z.pos CHUNKS) with 4294967297. lia.
  - iExists cs, t, ts, B, F. by iFrame.
  - iIntros (r) "[Hr Lk]". iApply ("H" with "Hr Lk").
Qed.

(** ** The chunks of a larger bin *)

(** A chunk that is put back as it was. *)
Lemma half_core cs1 p s cs2 t ts B i : 1 ≤ i < NBINS → i = 1 ∨ i = bin_index s → binned B (cs1 ++ Chunk p s (Free i) :: cs2) (λ _, []) →
  half false cs1 p s cs2 t ts ∗ ring (bin_at av i) (B i) ∗ (∀ l, ring (bin_at av i) l -∗ binsp av (<[i := l]> B)) ⊢ core av (cs1 ++ Chunk p s (Free i) :: cs2) t ts B.
Proof.
  intros Hi Hi' Hb. iIntros "((%base & T & W & D & Wf & R & Wt & %Hs) & Rg & B)". iApply (core_join av base cs1 p true). iFrame "T Wt".
  iSplitR "Rg B".
  - iApply rest_cons. unfold next_of, in_use, chunkp, body. cbn [caddr csize cst Z.b2z]. iSplit; [done|]. iFrame. iPureIntro.
    split; [by apply size_ok_free|by left].
  - iSplit; [|done]. iDestruct ("B" with "Rg") as "B". iApply (family_ext with "B"). intros j _.
    destruct (decide (j = i)) as [->|Hn]; [by rewrite fn_lookup_insert|by rewrite fn_lookup_insert_ne].
Qed.
(** What is left when [nb] bytes are taken is too small for a chunk, and when it is one. *)
Lemma wp_exhaust cs1 p s i cs2 t ts B nb (Q : unit → hprop) : nb ≤ s → binned B (cs1 ++ cs2) (λ _, []) →
  half false cs1 p s cs2 t ts ∗ links p ∗ binsp av B ⊢
  (given (t + ts) (cs1 ++ Chunk p s (Free i) :: cs2) nb (p + 8) -∗ Q tt) -∗ wp (set_inuse_bit_at_offset p s) Q.
Proof.
  intros Hn Hb. iIntros "(Hf & K & B) H". iDestruct (half_ok with "Hf") as %Hs. iApply (wp_half_inuse with "Hf"). iIntros "Hf". iApply "H".
  iApply given_whole; [done|done|]. iApply half_used; [done|]. iFrame.
Qed.
Lemma wp_split_rest cs1 p s i cs2 t ts B nb (Q : Z → hprop) : 16 ≤ nb → nb mod 8 = 0 → nb + 16 ≤ s → binned B (cs1 ++ cs2) (λ _, []) → B 1 = [] →
  half false cs1 p s cs2 t ts ∗ links p ∗ binsp av B ⊢
  (given (t + ts) (cs1 ++ Chunk p s (Free i) :: cs2) nb (p + 8) -∗ Q (p + nb)) -∗ wp (split_chunk av p s nb) Q.
Proof.
  intros H16 H8 Hns Hb HB. iIntros "(Hf & K & B) H". iDestruct (half_ok with "Hf") as %Hs. iDestruct (take_bin av B 1 with "B") as "[R B]"; [done|].
  rewrite HB. unfold ring. cbn [path]. iDestruct "R" as "(_ & W1 & W2)". fold (unsorted_chunks av).
  iApply (wp_split cs1 p s cs2 t ts nb B with "[$Hf $K W1 W2 $B]"); [done|done|done|done|done|iSplitL "W1"; by iExists _|]. iIntros (B') "C D".
  iApply "H". iApply given_split; [done|]. iFrame.
Qed.

Lemma wp_take_large z L nb (Q : option Z → hprop) : 16 ≤ nb < 2 ^ 32 → nb mod 8 = 0 → heap0 z L ⊢
  (∀ r, result (heap0 z L) z L nb r -∗ Q r) -∗ wp (take_large av nb) Q.
Proof.
  intros H16 H8. iIntros "Hp H". unfold take_large. destruct (in_smallbin_range nb) eqn:Es; cbn [negb]; [iApply wp_ret; by iApply ("H" $! None)|].
  unfold in_smallbin_range in Es. change MIN_LARGE_SIZE with 256 in Es. apply Z.ltb_ge in Es.
  pose proof (largebin_range nb ltac:(lia)) as Hi32. set (i := __malloc_largebin_index nb) in *. assert (Hi : 1 ≤ i < NBINS) by lia.
  pose proof (bin_at_ok av Hav i Hi) as [Hn1 Hn2]. iDestruct "Hp" as (cs t ts B F) "(C & Fp & %HL & %HF & <- & %HB)".
  iApply wp_bind. iApply (wp_bin_last with "C"); [done|]. iIntros "C". iAssert ⌜Z.of_nat (length (B i)) ≤ 2 ^ 32⌝%I as %Hlen.
  { iDestruct "C" as (base) "(_ & _ & B & _)". iDestruct (take_bin av B i Hi with "B") as "[R _]". by iDestruct (ring_length with "R") as %[? _]. }
  iAssert ⌜binned B cs (λ _, [])⌝%I as %Hb; [by iDestruct "C" as (base) "(_ & _ & _ & $)"|].
  set (I := λ v n, (∃ l1 l2, ⌜B i = l1 ++ l2 ∧ v = end_of (bin_at av i) l1 ∧ n = length l1⌝ ∗ core av cs t ts B)%I).
  iApply (wp_frame_wand with "[C]"); [iApply (wp_loop I (λ r, match r with None => core av cs t ts B | Some m => given (t + ts) cs nb m end)%I _ _ (length (B i)) (end_of (bin_at av i) (B i)))|].
  - clear Q Hlen. intros v n. iIntros "(%l1 & %l2 & (%El & -> & ->) & C)".
    destruct (end_of_cases (bin_at av i) l1) as [[-> ->]|(l & p & -> & ->)]; [rewrite Z.eqb_refl; by iApply wp_ret|]. rewrite -app_assoc in El.
    cbn [app] in El.
    iDestruct (core_ring_ne _ _ _ _ i l p l2 Hi El with "C") as %Hne. rewrite (proj2 (Z.eqb_neq p _) Hne).
    iDestruct (core_detach _ _ _ _ i l p l2 Hi El with "C") as (cs1 s cs2) "((-> & %His & %Hb') & Hf & R & B)". iDestruct (half_ok with "Hf") as %Hs.
    pose proof Hs as (Hp & Hp8 & Hps & Hs16 & Hs8).
    iApply wp_bind. iApply (wp_half_size with "Hf"). iIntros "Hf". rewrite El.
    assert (Em : chunk2mem p = p + 8) by (unfold chunk2mem, SIZE_SZ; rewrite u32_small; lia). rewrite Em. destruct (Z.leb_spec nb s) as [Hns|Hns].
    + iApply wp_bind. iApply (wp_unlink with "R"). iIntros "R K1 K2". iDestruct ("B" with "R") as "B". rewrite (u32_small (s - nb)); [|lia].
      change MINSIZE with 16. iApply wp_bind. destruct (Z.ltb_spec (s - nb) 16) as [Hx|Hx].
      * iApply (wp_exhaust _ _ _ i _ _ _ _ nb with "[$Hf $K1 $K2 $B]"); [lia|done|]. iIntros "G". by iApply wp_ret.
      * iApply wp_bind. iApply (wp_split_rest _ _ _ i _ _ _ _ nb with "[$Hf $K1 $K2 $B]"); [lia|done|lia|done|rewrite fn_lookup_insert_ne //; lia|].
        iIntros "G". iApply wp_ret. by iApply wp_ret.
    + iApply wp_bind. iApply (wp_ring_bk _ l (p :: l2) with "R"); [cbn [hd]; lia|]. iIntros "R". iApply wp_ret. iExists (length l).
      iSplit; [iPureIntro; rewrite length_app; cbn; lia|]. iExists l, (p :: l2). iSplit; [done|].
      iApply half_core; [done|done|done|]. rewrite El. iFrame.
  - change (Z.pos CHUNKS) with 4294967297. lia.
  - iExists (B i), []. iFrame. by rewrite app_nil_r.
  - iIntros ([m|]) "X"; iApply "H"; [by iApply (given_got (t + ts) with "[$X $Fp]")|]. iExists cs, t, ts, B, F. by iFrame.
Qed.
End Take.
