(* ===== verification/MallocBest.v ===== *)
(** * Allocating from larger bins and from top *)
From Stdlib Require Import ZArith Lia.
From stdpp Require Import base gmap list functions.
From iris.base_logic Require Import upred bi.
From iris.proofmode Require Import proofmode.
From S2P Require Import Prelude Word Sep Malloc MallocHeap MallocFree MallocSys MallocTake.
Open Scope Z_scope.
Open Scope u32_scope.

Lemma land_bit k m : 0 ≤ k → (Z.land (2 ^ k) m =? 0) = negb (Z.testbit m k).
Proof.
  intros Hk. destruct (Z.testbit m k) eqn:E; cbn [negb].
  - apply Z.eqb_neq. intros E0. apply (f_equal (λ x, Z.testbit x k)) in E0. rewrite Z.land_spec Z.pow2_bits_true // Z.bits_0 E in E0. done.
  - apply Z.eqb_eq, Z.bits_inj'. intros i Hi. rewrite Z.bits_0 Z.land_spec Z.pow2_bits_eqb //.
    destruct (Z.eqb_spec k i) as [<-|]; [by rewrite E|done].
Qed.

Section Best.
Context (av page : Z).
Hypothesis Hav : 0 < av ∧ av + 888 ≤ 2 ^ 32.

Lemma bin_place_eq i : 1 ≤ i ≤ NBINS → bin_at av i = av + 44 + 8 * i.
Proof. intros Hi. change NBINS with 96 in Hi. unfold bin_at, bins, SIZE_SZ. rewrite Z.shiftl_mul_pow2 // !u32_small; lia. Qed.
Lemma next_bin_eq i : 1 ≤ i < NBINS → next_bin (av + 44 + 8 * i) = av + 44 + 8 * (i + 1).
Proof. intros Hi. change NBINS with 96 in Hi. unfold next_bin, SIZE_SZ. rewrite u32_small; lia. Qed.
Lemma u32_next_bit k : 0 ≤ k < 32 → u32 (Z.shiftl (2 ^ k) 1) = if k + 1 =? 32 then 0 else 2 ^ (k + 1).
Proof.
  intros Hk. rewrite Z.shiftl_mul_pow2 // -Z.pow_add_r; [|lia..]. destruct (Z.eqb_spec (k + 1) 32) as [->|Hn]; [done|]. apply u32_small.
  apply pow_u32. lia.
Qed.

Lemma wp_next_block block (Q : option (Z * Z) → hprop) : 0 ≤ block ≤ 3 → lookp av ⊢
  (∀ r, ⌜match r with None => True | Some (b', m) => block < b' < 3 ∧ 0 < m < 2 ^ 32 end⌝ -∗ lookp av -∗ Q r) -∗ wp (next_block av block) Q.
Proof.
  intros Hbl. iIntros "Lk H". unfold next_block. change BINMAPSIZE with 3.
  set (I := λ b n, (⌜block ≤ b ≤ 3 ∧ n = Z.to_nat (3 - b)⌝ ∗ lookp av)%I).
  iApply (wp_frame_wand with "[Lk]"); [iApply (wp_loop I (λ r, ⌜match r with None => True | Some (b', m) => block < b' < 3 ∧ 0 < m < 2 ^ 32 end⌝ ∗ lookp av)%I _ _ (Z.to_nat (3 - block)) block)|].
  - clear Q. intros b n. iIntros "((%Hb & ->) & Lk)". cbv zeta. destruct (Z.leb_spec 3 (b + 1)) as [H3|H3]; [iApply wp_ret; by iFrame|].
    iApply wp_bind. iApply (wp_binmap with "Lk"); [lia|]. iIntros (v Hv) "Lk".
    destruct (Z.eqb_spec v 0) as [->|Hv0]; iApply wp_ret.
    + iExists (Z.to_nat (3 - (b + 1))). iSplit; [iPureIntro; lia|]. iFrame. iPureIntro. lia.
    + iFrame. iPureIntro. lia.
  - change (Z.pos CHUNKS) with 4294967297. lia.
  - iFrame. iPureIntro. lia.
  - iIntros (r) "[%Hr Lk]". by iApply ("H" with "[] Lk").
Qed.

(** The bit that is set at [k] or above it. *)
Lemma wp_scan j0 k map (Q : Z * Z → hprop) : 0 ≤ j0 ∧ j0 + 32 ≤ NBINS ∧ 1 ≤ j0 + k → 0 ≤ k → 2 ^ k ≤ map < 2 ^ 32 →
  (∀ k', ⌜k ≤ k' < 32⌝ -∗ Q (av + 44 + 8 * (j0 + k'), 2 ^ k')) ⊢
  wp (while CHUNKS (λ '(bin, bit), if Z.land bit map =? 0 then mret (inl (next_bin bin, u32 (Z.shiftl bit 1))) else mret (inr (bin, bit))) (av + 44 + 8 * (j0 + k), 2 ^ k)) Q.
Proof.
  intros Hj Hk Hm. iIntros "H". assert (Hm0 : 0 < map) by lia. assert (Hl : 0 ≤ Z.log2 map < 32) by (split; [apply Z.log2_nonneg|apply Z.log2_lt_pow2;
    lia]). assert (Hkl : k ≤ Z.log2 map) by (apply Z.log2_le_pow2; lia).
  set (I := λ (st : Z * Z) n, (∃ k', ⌜st = (av + 44 + 8 * (j0 + k'), 2 ^ k')%Z ∧ k ≤ k' ≤ Z.log2 map ∧ n = Z.to_nat (Z.log2 map - k')⌝ : hprop)%I).
  iApply (wp_frame_wand with "[]"); [iApply (wp_loop I (λ st, ∃ k', ⌜st = (av + 44 + 8 * (j0 + k'), 2 ^ k')%Z ∧ k ≤ k' < 32⌝)%I _ _ (Z.to_nat (Z.log2 map - k)) (av + 44 + 8 * (j0 + k), 2 ^ k))|].
  - clear Q. intros st n. iIntros "(%k' & (-> & %Hk' & ->))". rewrite land_bit; [|lia]. destruct (Z.testbit map k') eqn:E; cbn [negb]; iApply wp_ret.
    + iExists k'. iPureIntro. split; [done|lia].
    + assert (k' ≠ Z.log2 map) by (intros ->; rewrite Z.bit_log2 // in E). iExists (Z.to_nat (Z.log2 map - (k' + 1))). iSplit; [iPureIntro; lia|].
      iExists (k' + 1). iPureIntro. split; [|lia].
      rewrite next_bin_eq; [|lia]. rewrite u32_next_bit; [|lia]. rewrite (proj2 (Z.eqb_neq (k' + 1) 32)); [|lia]. f_equal. lia.
  - change (Z.pos CHUNKS) with 4294967297. lia.
  - iExists k. iPureIntro. split; [done|]. split; [lia|done].
  - iIntros (st) "(%k' & -> & %Hk')". by iApply "H".
Qed.

(** One bin is looked at. *)
Definition larger_bin (nb block map bin bit : Z) : M mem (Z * Z * Z * Z + option Z) :=
  victim ← get_bk bin;
  if victim =? bin then
    let map := Z.land map (not32 bit) in
    store32 (binmap av block) map ;;
    mret (inl (next_bin bin, block, map, u32 (Z.shiftl bit 1)))
  else
    size ← chunksize victim;
    bck ← get_bk victim;
    set_bk bin bck ;;
    set_fd bck bin ;;
    (if size -u nb <? MINSIZE then set_inuse_bit_at_offset victim size
     else
       remainder ← split_chunk av victim size nb;
       whenM (in_smallbin_range nb) (store32 (last_remainder av) remainder)) ;;
    mret (inr (Some (chunk2mem victim))).
Lemma wp_larger_bin z L nb block map i bit (Q : Z * Z * Z * Z + option Z → hprop) : 16 ≤ nb < 2 ^ 32 → nb mod 8 = 0 → bin_index nb < i < NBINS →
  0 ≤ block < 3 → is_u32 map → 0 < bit < 2 ^ 32 →
  heap0 av z L ∗ lookp av ⊢
  ((heap0 av z L -∗ lookp av -∗ Q (inl (next_bin (av + 44 + 8 * i), block, Z.land map (not32 bit), u32 (Z.shiftl bit 1)))) ∧
   (∀ m, got av z L nb m -∗ lookp av -∗ Q (inr (Some m)))) -∗ wp (larger_bin nb block map (av + 44 + 8 * i) bit) Q.
Proof.
  intros H16 H8 Hi Hbl Hmap Hbit. iIntros "[(%cs & %t & %ts & %B & %F & C & Fp & %HL & %HF & <- & %HB) Lk] H".
  pose proof (bin_index_range nb H16) as Hbi. assert (Hi' : 1 ≤ i < NBINS) by lia. rewrite -bin_place_eq; [|lia].
  pose proof (bin_at_ok av Hav i Hi') as [Hn1 Hn2].
  unfold larger_bin. iApply wp_bind. iApply (wp_bin_last _ Hav with "C"); [done|]. iIntros "C".
  destruct (end_of_cases (bin_at av i) (B i)) as [[El ->]|(l & p & El & ->)].
  - rewrite Z.eqb_refl. iApply wp_bind. iApply (wp_set_binmap with "Lk"); [done|apply land_bound_l; lia|]. iIntros "Lk". iApply wp_ret.
    iDestruct "H" as "[H _]". iApply ("H" with "[C Fp] Lk"). iExists cs, t, ts, B, F. by iFrame.
  - iDestruct (core_ring_ne _ _ _ _ _ i l p [] Hi' El with "C") as %Hne. rewrite (proj2 (Z.eqb_neq p _) Hne).
    iDestruct (core_detach _ _ _ _ _ i l p [] Hi' El with "C") as (cs1 s cs2) "((-> & %His & %Hb) & Hf & R & B)".
    rewrite app_nil_r in Hb. iDestruct (half_ok with "Hf") as %Hs. pose proof Hs as (Hp & Hp8 & Hps & Hs16 & Hs8). destruct His as [->|His]; [lia|].
    assert (Hns : nb ≤ s). { destruct (Z.le_gt_cases nb s) as [|Hgt]; [done|]. pose proof (bin_index_mono s nb ltac:(lia) ltac:(lia)). lia. }
    iApply wp_bind. iApply (wp_half_size with "Hf"). iIntros "Hf". rewrite El. iDestruct (wp_pop with "R") as "[W R]". wget wp_get_bk with "W".
    iApply ("R" with "W"). iIntros "R K". iDestruct ("B" with "R") as "B".
    assert (Em : chunk2mem p = p + 8) by (unfold chunk2mem, SIZE_SZ; rewrite u32_small; lia). rewrite Em. rewrite (u32_small (s - nb)); [|lia].
    change MINSIZE with 16. iApply wp_bind. iDestruct "H" as "[_ H]". destruct (Z.ltb_spec (s - nb) 16) as [Hx|Hx].
    + iApply (wp_exhaust _ _ _ _ i _ _ _ _ nb with "[$Hf $K $B]"); [lia|done|]. iIntros "G". iApply wp_ret. iApply ("H" with "[G Fp] Lk").
      by iApply (given_got with "[$G $Fp]").
    + iApply wp_bind. iApply (wp_split_rest _ Hav _ _ _ i _ _ _ _ nb with "[$Hf $K $B]"); [lia|done|lia|done|rewrite fn_lookup_insert_ne //; lia|].
      iIntros "G". iAssert (got av (t + ts) L nb (p + 8)) with "[G Fp]" as "G"; [by iApply (given_got with "[$G $Fp]")|].
      destruct (in_smallbin_range nb); cbn [whenM]; [|iApply wp_ret; iApply wp_ret; iApply ("H" with "G Lk")]. iDestruct "Lk" as "[Lr Lk]".
      iApply (wp_store_cell with "Lr"); [lia|]. iIntros "Lr". iApply wp_ret. iApply ("H" with "G [$Lr $Lk]").
Qed.

(** Where the search is: at the bin [j] of the block, above [idx]. *)
Definition at_bin (idx bin block map bit j : Z) : Prop :=
  ∃ k, j = 32 * block + k ∧ bin = av + 44 + 8 * j ∧ 0 ≤ block ≤ 3 ∧ 0 ≤ k ≤ 32 ∧ bit = (if k =? 32 then 0 else 2 ^ k) ∧ is_u32 map ∧ (block = 3 → map = 0) ∧ 0 ≤ idx < j.
Definition look (bin block map bit : Z) : M mem (option (Z * Z * Z * Z)) :=
  if (map <? bit) || (bit =? 0) then
    r ← next_block av block;
    match r with
    | None => mret None
    | Some (block, map) => mret (Some (bin_at av (Z.shiftl block BINMAPSHIFT), block, map, 1))
    end
  else mret (Some (bin, block, map, bit)).
Lemma wp_look idx bin block map bit j (Q : option (Z * Z * Z * Z) → hprop) : at_bin idx bin block map bit j → lookp av ⊢
  (lookp av -∗ (Q None ∧ ∀ block' map' k, ⌜0 ≤ block' < 3 ∧ 0 ≤ k ∧ 1 ≤ 32 * block' + k ∧ 2 ^ k ≤ map' < 2 ^ 32 ∧ j ≤ 32 * block' + k⌝ -∗
    Q (Some (av + 44 + 8 * (32 * block' + k), block', map', 2 ^ k)))) -∗ wp (look bin block map bit) Q.
Proof.
  intros (k & Hj & -> & Hbl & Hk & Hbit & Hmap & H3 & Hidx). iIntros "Lk H". unfold look. destruct (_ || _) eqn:Ec.
  - iApply wp_bind. iApply (wp_next_block with "Lk"); [done|]. iIntros (r Hr) "Lk". iDestruct ("H" with "Lk") as "H".
    destruct r as [[b' m]|]; iApply wp_ret; [|by iDestruct "H" as "[$ _]"]. iDestruct "H" as "[_ H]".
    unfold BINMAPSHIFT. rewrite Z.shiftl_mul_pow2 // bin_place_eq; [|change NBINS with 96; lia]. iSpecialize ("H" $! b' m 0). rewrite Z.add_0_r.
    change (2 ^ 5) with 32. rewrite (Z.mul_comm b' 32). iApply "H". iPureIntro. change (2 ^ 0) with 1. lia.
  - apply orb_false_iff in Ec as [Em E0]. apply Z.ltb_ge in Em. apply Z.eqb_neq in E0. destruct (Z.eqb_spec k 32) as [|Hk32]; [done|]. subst bit.
    iApply wp_ret. iDestruct ("H" with "Lk") as "[_ H]". rewrite Hj. iApply "H". iPureIntro.
    assert (block ≠ 3) by (intros E; specialize (H3 E); lia). lia.
Qed.

Lemma wp_binmap_any k (Q : Z → hprop) : 0 ≤ k ≤ 3 → lookp av ⊢ (∀ v, ⌜is_u32 v ∧ (k = 3 → v = 0)⌝ -∗ lookp av -∗ Q v) -∗ wp (load32 (binmap av k)) Q.
Proof.
  intros Hk. iIntros "L H". destruct (Z.eq_dec k 3) as [->|Hn].
  - iDestruct "L" as "(L1 & L2 & W & L4)". wlast wp_load32 with "W". iApply ("H" with "[] [$L1 $L2 $W $L4]"). iPureIntro. split; [lia|done].
  - iApply (wp_binmap with "L"); [lia|]. iIntros (v Hv) "L". iApply ("H" with "[] L"). iPureIntro. split; [done|lia].
Qed.
Lemma wp_take_larger z L nb (Q : option Z → hprop) : 16 ≤ nb < 2 ^ 32 → nb mod 8 = 0 → heap0 av z L ∗ lookp av ⊢
  (∀ r, result av (heap0 av z L) z L nb r -∗ lookp av -∗ Q r) -∗ wp (take_larger av nb (bin_index nb)) Q.
Proof.
  intros H16 H8. iIntros "[Hp Lk] H". unfold take_larger. cbv zeta. pose proof (bin_index_range nb H16) as Hbi. set (idx := bin_index nb) in *.
  change NBINS with 96 in Hbi. rewrite idx2block_eq idx2bit_eq. iApply wp_bind. iApply (wp_binmap_any with "Lk"); [zlia|].
  iIntros (map [Hmap H3]) "Lk".
  rewrite bin_place_eq; [|change NBINS with 96; lia].
  set (I := λ (st : Z * Z * Z * Z) n, (∃ bin block map bit j, ⌜st = (bin, block, map, bit) ∧ at_bin idx bin block map bit j ∧ n = Z.to_nat (128 - j)⌝ ∗ heap0 av z L ∗ lookp av)%I).
  iApply (wp_frame_wand with "[Hp Lk]"); [iApply (wp_loop I (λ r, result av (heap0 av z L) z L nb r ∗ lookp av)%I _ _ (Z.to_nat (128 - (idx + 1))) _)|].
  - clear Hmap H3 map Q. intros st n. iIntros "(%bin & %block & %map & %bit & %j & (-> & %Hat & ->) & Hp & Lk)". iApply wp_bind.
    iApply (wp_look with "Lk"); [exact Hat|]. iIntros "Lk". iSplit; [iApply wp_ret; by iFrame|].
    iIntros (block' map' k) "%Hs". assert (Hk : 0 ≤ k < 32) by (split; [lia|]; apply (Z.pow_lt_mono_r_iff 2); lia). iApply wp_bind.
    iApply (wp_scan (32 * block') k map'); [change NBINS with 96; lia|lia|lia|]. iIntros (k') "%Hk'".
    assert (Hji : idx < 32 * block' + k') by (destruct Hat as (? & ? & ? & ? & ? & ? & ? & ? & ?); lia). pose proof (pow_u32 k' ltac:(lia)) as Hp2.
    iApply (wp_larger_bin z L nb block' map' (32 * block' + k') (2 ^ k') with "[$Hp $Lk]"); [done|done|fold idx; change NBINS with 96;
      lia|lia|lia|lia|]. iSplit.
    + iIntros "Hp Lk". iExists (Z.to_nat (128 - (32 * block' + k' + 1))). destruct Hat as (k0 & Hj & _ & Hb3 & Hk0 & _ & _ & _ & Hidx).
      iSplit; [iPureIntro; lia|]. rewrite next_bin_eq; [|change NBINS with 96; lia]. rewrite u32_next_bit; [|lia].
      iExists _, _, _, _, (32 * block' + k' + 1). iFrame. iPureIntro. split; [done|]. split; [|done]. exists (k' + 1). split; [lia|]. split; [done|].
      split; [lia|]. split; [lia|]. split; [done|]. split; [apply land_bound_l; lia|]. lia.
    + iIntros (m) "$ $".
  - change (Z.pos CHUNKS) with 4294967297. lia.
  - iFrame. iExists _, _, _, _, (idx + 1). iPureIntro. split; [done|]. split; [|done]. exists ((idx + 1) mod 32). split; [zlia|]. split; [done|].
    split; [zlia|]. split; [zlia|]. split; [|split; [done|split; [done|lia]]].
    pose proof (Z.mod_pos_bound (idx + 1) 32 ltac:(lia)) as Hmb. by rewrite (proj2 (Z.eqb_neq _ 32)); [|lia].
  - iIntros (r) "[Hr Lk]". iApply ("H" with "Hr Lk").
Qed.

(** ** Top *)

End Best.
