(* ===== verification/MallocMore.v ===== *)
(** * Memory from the system *)
From Stdlib Require Import ZArith Lia.
From stdpp Require Import base gmap list functions.
From iris.base_logic Require Import upred bi.
From iris.proofmode Require Import proofmode.
From S2P Require Import Prelude Word Sep Malloc MallocHeap MallocFree MallocSys MallocTake MallocBest.
Open Scope Z_scope.
Open Scope u32_scope.

Section More.
Context (av errno_at page : Z) (MORECORE MMAP : Z → M mem Z) (MUNMAP : Z → Z → M mem unit) `{!System page MORECORE MMAP MUNMAP}.
Hypothesis Hav : 0 < av ∧ av + 888 ≤ 2 ^ 32.

Lemma round_page x : is_u32 x → Z.land x (not32 (page -u 1)) = x - x mod page.
Proof.
  intros Hx. destruct (page_ok (MORECORE := MORECORE) (MMAP := MMAP) (MUNMAP := MUNMAP)) as (k & Hk & ->). assert (0 < 2 ^ k) by lia.
  assert (2 ^ k < 2 ^ 32) by (apply Z.pow_lt_mono_r; lia). rewrite (u32_small (2 ^ k - 1)); [|lia]. apply land_not_ones; [lia|done].
Qed.
(** Up to whole pages. *)
Lemma round_up x : 0 ≤ x → x + 2 ^ 20 ≤ 2 ^ 32 → let y := Z.land (x +u (page -u 1)) (not32 (page -u 1)) in x ≤ y < x + page ∧ y mod page = 0.
Proof.
  intros H0 Hx. destruct (page_facts page MORECORE MMAP MUNMAP) as [H8 Hp]. cbv zeta. rewrite round_page; [|apply u32_bound].
  rewrite (u32_small (page - 1)); [|lia]. rewrite u32_small; [|lia].
  pose proof (Z.mod_pos_bound (x + (page - 1)) page ltac:(lia)) as Hm. split; [lia|]. pose proof (Z.div_mod (x + (page - 1)) page ltac:(lia)) as Hd.
  apply Z.mod_divide; [lia|]. exists ((x + (page - 1)) / page). lia.
Qed.
Lemma page_8 x : x mod page = 0 → x mod 8 = 0.
Proof. intros Hx. destruct (page_facts page MORECORE MMAP MUNMAP) as [H8 Hp]. apply Z.mod_divide in Hx as [q ->]; [|lia]. apply Z.mod_divide; [lia|].
apply Z.divide_mul_r, Z.mod_divide; lia. Qed.

(** ** Direct mappings *)

(** A block of its own pages. *)
Definition mapped (p n : Z) : hprop := ⌜8 < p ∧ p mod 8 = 0 ∧ n mod 8 = 0 ∧ 120 ≤ n ∧ p + n < 2 ^ 32⌝ ∗ wordp (p - 8) 0 ∗
  wordp (p - 4) (n + 8 + IS_MMAPPED).
Lemma lor_mmapped s : s mod 4 = 0 → Z.lor s IS_MMAPPED = s + IS_MMAPPED.
Proof.
  intros Hs. pose proof (Z.add_lor_land s IS_MMAPPED) as E. assert (E0 : Z.land s IS_MMAPPED = 0).
  { rewrite Z.land_comm. apply Z.eqb_eq. change IS_MMAPPED with (2 ^ 1). rewrite land_bit //. rewrite Z.testbit_eqb //. change (2 ^ 1) with 2. destruct (Z.eqb_spec (s / 2 mod 2) 1); [zlia|done]. }
  lia.
Qed.
Lemma align_mask x : x mod 8 = 0 → Z.land (x +u 8) MALLOC_ALIGN_MASK = 0.
Proof. intros Hx. change MALLOC_ALIGN_MASK with (2 ^ 3 - 1). rewrite land_ones_mod //. change (2 ^ 3) with 8. unfold u32. zlia. Qed.

Local Notation Tune := (tune av page).
Local Notation Contp := (contp av).
Local Notation Brkp := (brkp av page MORECORE MMAP MUNMAP).

(** The statistics of a direct mapping. *)
Lemma wp_mmap_stats size (k : M mem (option Z)) Q : is_u32 size → Tune ⊢ (Tune -∗ wp k Q) -∗
  wp (add_to (n_mmaps av) 1 ;; n ← load32 (n_mmaps av); mx ← load32 (max_n_mmaps av);
    whenM (s32 mx <? s32 n) (store32 (max_n_mmaps av) n) ;; add_to (mmapped_mem av) size ;;
      sum ← load32 (mmapped_mem av); raise_to (max_mmapped_mem av) sum ;; sb ← load32 (sbrked_mem av);
        raise_to (max_total_mem av) (sum +u sb) ;; k) Q.
Proof.
  intros Hs. iIntros "(T1 & T2 & T3 & T4 & T5 & T6 & T7 & T8 & T9 & T10 & T11 & T12) H". iApply wp_bind. iApply (wp_add_to with "T4"). iIntros "T4".
  iApply wp_bind. iApply (wp_load_cell with "T4"). iIntros (n Hn) "T4".
  iApply wp_bind. iApply (wp_load_cell with "T6"). iIntros (mx _) "T6". iApply wp_bind.
  iAssert (wp (whenM (s32 mx <? s32 n) (store32 (max_n_mmaps av) n)) (λ _, cell (max_n_mmaps av))) with "[T6]" as "W".
  { destruct (s32 mx <? s32 n); cbn [whenM]; [iApply (wp_store_cell with "T6"); [done|]; by iIntros "$"|by iApply wp_ret]. }
  iApply (wp_frame_wand with "W"). iIntros (_) "T6". iApply wp_bind. iApply (wp_add_to with "T8"). iIntros "T8". iApply wp_bind.
  iApply (wp_load_cell with "T8"). iIntros (sum Hsum) "T8". iApply wp_bind. iApply (wp_raise_to with "T11"); [done|]. iIntros "T11".
  iApply wp_bind. iApply (wp_load_cell with "T9"). iIntros (sb _) "T9". iApply wp_bind. iApply (wp_raise_to with "T12"); [apply u32_bound|].
  iIntros "T12". iApply "H". iFrame "T1 T2 T3 T4 T5 T6 T7 T8 T9 T10 T11 T12".
Qed.

(** The size of a mapping: no larger than it must be, and the sum did not wrap when it is larger. *)
Lemma mmap_size nb : 16 ≤ nb < 2 ^ 32 → let size := Z.land (nb +u SIZE_SZ +u MALLOC_ALIGN_MASK +u (page -u 1)) (not32 (page -u 1)) in nb < size →
  nb + 4 ≤ size - 7 ∧ size mod page = 0 ∧ 128 ≤ size < 2 ^ 32.
Proof.
  intros Hnb size Hlt. destruct (page_facts page MORECORE MMAP MUNMAP) as [H8 Hp]. unfold size in *.
  rewrite round_page in Hlt |- *; [|apply u32_bound]. change SIZE_SZ with 4 in *. change MALLOC_ALIGN_MASK with 7 in *.
  rewrite (u32_small (page - 1)) in Hlt |- *; [|lia].
  set (x := u32 (u32 (u32 (nb + 4) + 7) + (page - 1))) in *. assert (Hx : 0 ≤ x < 2 ^ 32) by apply u32_bound.
  pose proof (Z.mod_pos_bound x page ltac:(lia)) as Hm. assert (Ex : x = nb + 4 + 7 + (page - 1) ∨ x ≤ nb) by (unfold x, u32; zlia).
  destruct Ex as [Ex|]; [|lia].
  assert (Hmod : (x - x mod page) mod page = 0) by (rewrite Zminus_mod_idemp_r Z.sub_diag; apply Z.mod_0_l; lia). split; [lia|]. split; [done|].
  assert (x - x mod page ≠ 0) by lia. apply Z.mod_divide in Hmod as [q Hq]; [|lia]. set (y := x - x mod page) in *. assert (0 < y) by lia.
  clear Ex Hlt. assert (1 ≤ q) by nia. split; [nia|lia].
Qed.
Lemma wp_mmap_chunk w e nb (Q : option Z → hprop) : 16 ≤ nb < 2 ^ 32 → nb mod 8 = 0 → Tune ∗ brk_at w e ⊢
  ((∀ m n, ⌜block_ok nb m n⌝ -∗ mapped m n -∗ blk m n -∗ Tune -∗ brk_at w e -∗ Q (Some m)) ∧ (∀ w', ⌜later w w'⌝ -∗ Tune -∗ brk_at w' e -∗ Q None)) -∗
    wp (mmap_chunk av MMAP nb (page -u 1)) Q.
Proof.
  intros H16 H8. iIntros "((T1 & T2 & T3 & T4 & T5 & T) & K) H". unfold mmap_chunk.
  iApply wp_bind. iApply (wp_load_cell with "T3"). iIntros (mt _) "T3". iApply wp_bind. iApply (wp_load_cell with "T4"). iIntros (nm _) "T4".
  iApply wp_bind. iApply (wp_load_cell with "T5"). iIntros (nx _) "T5".
  iAssert Tune with "[T1 T2 T3 T4 T5 T]" as "T"; [iFrame "T1 T2 T3 T4 T5 T"|].
  destruct (_ && _); [|iApply wp_ret; iDestruct "H" as "[_ H]"; iApply ("H" $! w with "[//] T K")].
  pose proof (mmap_size nb H16) as Hsz. cbv zeta in Hsz |- *. set (size := Z.land _ _) in *.
  destruct (Z.ltb_spec nb size) as [Hlt|_]; [|iApply wp_ret; iDestruct "H" as "[_ H]"; iApply ("H" $! w with "[//] T K")].
  destruct (Hsz Hlt) as (Hn & Hsp & Hs). clear Hsz. pose proof (page_8 size Hsp) as Hs8. iApply wp_bind. iApply (mmap_region w e with "K"); [lia|].
  iSplit; [|iIntros "K"; iApply wp_ret; iDestruct "H" as "[_ H]"; iApply ("H" $! true with "[//] T K")].
  iIntros (r) "(%Hr0 & %Hrp & %Hrs) K D". change MORECORE_FAILURE with (2 ^ 32 - 1). rewrite (proj2 (Z.eqb_neq r _)); [|lia]. cbn [negb].
  pose proof (page_8 r Hrp) as Hr8. unfold chunk2mem. change (2 * SIZE_SZ) with 8. rewrite align_mask //. cbn [Z.ltb Z.compare].
  rewrite (blk_first r size) ?(blk_first (r + 4) (size - 4)); [|lia..]. iDestruct "D" as "([%v1 W1] & [%v2 W2] & D)". iApply wp_bind. iApply wp_bind.
  iApply (wp_set_prev_size with "W1"); [lia|]. iIntros "W1". iApply wp_bind.
  rewrite lor_mmapped; [|zlia]. change IS_MMAPPED with 2. iApply (wp_set_head with "W2"); [lia|zlia|]. iIntros "W2". iApply wp_ret.
  iApply (wp_mmap_stats with "T"); [lia|]. iIntros "T". iApply wp_ret. rewrite u32_small; [|lia].
  iDestruct "H" as "[H _]". iApply ("H" $! (r + 8) (size - 8) with "[] [W1 W2] [D] T K").
  - iPureIntro. unfold block_ok. zlia.
  - unfold mapped. change IS_MMAPPED with 2. replace (r + 8 - 8) with r by lia. replace (r + 8 - 4) with (r + 4) by lia.
    replace (size - 8 + 8 + 2) with (size + 2) by lia. iFrame. iPureIntro. zlia.
  - replace (r + 4 + 4) with (r + 8) by lia. by replace (size - 4 - 4) with (size - 8) by lia.
Qed.

(** ** More for top *)

Lemma wp_contiguous w c (Q : bool → hprop) : Contp w c ⊢ (Contp w c -∗ Q c) -∗ wp (contiguous av) Q.
Proof. iIntros "[(%v & W & <-) R] H". unfold contiguous. wget wp_load32 with "W". iApply wp_ret. iApply "H". iFrame "R". iExists v. by iFrame. Qed.
Lemma wp_set_noncontiguous w c (Q : unit → hprop) : Contp w c ⊢ (Contp true false -∗ Q tt) -∗ wp (set_noncontiguous av) Q.
Proof.
  iIntros "[(%v & W & _) _] H". unfold set_noncontiguous. iDestruct (wordp_u32 with "W") as %Hv. wget wp_load32 with "W".
  iApply (wp_store32 with "W"); [done|apply land_bound_l; lia|]. iIntros "W". iApply "H". iSplitL "W"; [|by iRight].
  iExists _. iFrame "W". iPureIntro. change MORECORE_CONTIGUOUS_BIT with (2 ^ 0). rewrite Z.land_comm land_bit // Z.land_spec.
  change (not32 (2 ^ 0)) with 4294967294. by rewrite andb_false_r.
Qed.

Definition fits (nb : Z) : Prop := 16 ≤ nb ∧ nb mod 8 = 0 ∧ nb + 2 ^ 21 < 2 ^ 31.
Lemma wp_extend w nb old c e (Q : Z * Z * Z → hprop) : fits nb → 0 ≤ old < nb + 16 → Tune ∗ brk_at w e ∗ Contp w c ⊢
  ((∀ size, ⌜0 < size < 2 ^ 31 ∧ size mod page = 0 ∧ nb + 16 ≤ (if c then old else 0) + size⌝ -∗ Tune -∗ brk_at w (e + size) -∗ Contp w c -∗
    blk e size -∗ Q (e, MORECORE_FAILURE, size)) ∧
   (∀ r size, ⌜0 < size ∧ size mod page = 0 ∧ 0 < r ∧ r mod page = 0 ∧ r + size < 2 ^ 32⌝ -∗ Tune -∗ brk_at true e -∗ Contp true false -∗ blk r size -∗ Q (r, r + size, size)) ∧
   (∀ size, Tune -∗ brk_at true e -∗ Contp true c -∗ Q (MORECORE_FAILURE, MORECORE_FAILURE, size))) -∗ wp (extend_memory av MORECORE MMAP nb old (page -u 1)) Q.
Proof.
  intros (H16 & H8 & Hnb) Hold. destruct (page_facts page MORECORE MMAP MUNMAP) as [_ Hp]. iIntros "((T1 & T2 & T) & K & Cn) H". unfold extend_memory.
  wget wp_load32 with "T2". iAssert Tune with "[T1 T2 T]" as "T"; [iFrame "T1 T2 T"|].
  iApply wp_bind. iApply (wp_contiguous with "Cn"). iIntros "Cn". change MINSIZE with 16. rewrite (u32_small (nb + 0)); [|lia].
  rewrite (u32_small (nb + 0 + 16)); [|lia]. cbv zeta.
  set (need := if c then (nb + 0 + 16) -u old else nb + 0 + 16). assert (Hneed : need = nb + 16 - (if c then old else 0)) by (unfold need;
    destruct c; [rewrite u32_small; lia|lia]). assert (0 < need ≤ nb + 16) by (destruct c; lia).
  pose proof (round_up need ltac:(lia) ltac:(lia)) as [Hs1 Hs2]. set (size := Z.land _ _) in *. rewrite (s32_small size); [|lia].
  rewrite (proj2 (Z.ltb_lt 0 size)); [|lia].
  iApply wp_bind. iApply (morecore_more w e size with "K"); [lia|]. iSplit.
  - iIntros "K D". iDestruct (brk_range with "K") as %He. assert (Hef : e ≠ MORECORE_FAILURE) by (change MORECORE_FAILURE with (2 ^ 32 - 1); lia).
    rewrite (proj2 (Z.eqb_neq e _) Hef). iApply wp_ret. iDestruct "H" as "[H _]". iApply ("H" with "[] T K Cn D"). iPureIntro. destruct c; lia.
  - iIntros "K". rewrite Z.eqb_refl.
    set (size2 := if c then Z.land (size +u old +u (page -u 1)) (not32 (page -u 1)) else size).
    assert (Hs3 : 0 < size2 ∧ nb < size2 ∧ size2 mod page = 0).
    { unfold size2. destruct c; [|lia]. rewrite (u32_small (size + old)); [|lia]. pose proof (round_up (size + old) ltac:(lia) ltac:(lia)) as Hr. cbv zeta in Hr. lia. }
    set (size3 := if size2 <? MMAP_AS_MORECORE_SIZE then MMAP_AS_MORECORE_SIZE else size2).
    assert (Hs4 : 0 < size3 ∧ nb < size3 ∧ size3 mod page = 0).
    { unfold size3. change MMAP_AS_MORECORE_SIZE with (2 ^ 20). destruct (Z.ltb_spec size2 (2 ^ 20)); [|done]. split; [lia|]. split; [lia|]. destruct (page_ok (MORECORE := MORECORE) (MMAP := MMAP) (MUNMAP := MUNMAP)) as (k & Hk & ->).
      apply Z.mod_divide; [lia|]. exists (2 ^ (20 - k)). rewrite -Z.pow_add_r; [|lia..]. f_equal. lia. }
    rewrite (proj2 (Z.ltb_lt nb size3)); [|lia]. iApply wp_bind. iApply (mmap_region true e with "K"); [lia|]. iSplit.
    + iIntros (r) "(%Hr0 & %Hrp & %Hrs) K D". assert (Hrf : r ≠ MORECORE_FAILURE) by (change MORECORE_FAILURE with (2 ^ 32 - 1); lia).
      rewrite (proj2 (Z.eqb_neq r _) Hrf). cbn [negb]. iApply wp_bind. iApply (wp_set_noncontiguous w c with "Cn"). iIntros "Cn". iApply wp_ret.
      rewrite u32_small; [|lia].
      iDestruct "H" as "[_ [H _]]". iApply ("H" with "[] T K Cn D"). iPureIntro. lia.
    + iIntros "K". rewrite Z.eqb_refl. cbn [negb]. iApply wp_ret. iDestruct "H" as "[_ [_ H]]". iApply ("H" with "T K [Cn]").
      iDestruct "Cn" as "[$ _]". by iRight.
Qed.

(** From [n] to the end of its page, also when that is the end of memory. *)
Lemma page_fill n : 0 ≤ n < 2 ^ 32 → n mod 8 = 0 →
  let fill := u32 (Z.land (n +u (page -u 1)) (not32 (page -u 1)) - n) in 0 ≤ fill < page ∧ fill mod 8 = 0.
Proof.
  intros Hn Hn8. destruct (page_facts page MORECORE MMAP MUNMAP) as [H8 Hp]. cbv zeta. rewrite round_page; [|apply u32_bound].
  rewrite (u32_small (page - 1)); [|lia]. set (y := u32 (n + (page - 1))). pose proof (Z.mod_pos_bound y page ltac:(lia)) as Hm.
  assert (Hmod : (y - y mod page) mod 8 = 0) by (apply page_8; rewrite Zminus_mod_idemp_r Z.sub_diag; apply Z.mod_0_l; lia).
  destruct (Z.lt_ge_cases (n + (page - 1)) (2 ^ 32)) as [Hlt|Hge].
  - assert (Ey : y = n + (page - 1)) by (apply u32_small; lia). rewrite u32_small; [|lia]. split; [lia|zlia].
  - assert (Ey : y = n + (page - 1) - 2 ^ 32) by (unfold y, u32; zlia). rewrite (Z.mod_small y page); [|lia]. rewrite Z.sub_diag.
    assert (E : u32 (0 - n) = 2 ^ 32 - n) by (unfold u32; zlia). rewrite E. split; [lia|zlia].
Qed.
(** The end of the new memory: what it takes to end at a page is asked for too. *)
Lemma wp_align w fst snd size old old_end c e (Q : Z * Z * Z → hprop) : 0 < fst → fst mod 8 = 0 → 0 < size → size mod 8 = 0 → fst + size < 2 ^ 32 →
  (c = true ∧ old = 0 ∧ snd = MORECORE_FAILURE ∧ e = fst + size ∨ c = false ∧ (snd = MORECORE_FAILURE ∧ e = fst + size ∨ snd = fst + size)) →
  Tune ∗ brk_at w e ∗ Contp w c ∗ blk fst size ⊢
  (∀ w' corr e', ⌜later w w'⌝ -∗ ⌜0 ≤ corr ∧ corr mod 8 = 0 ∧ fst + size + corr < 2 ^ 32 ∧ (c = true → e' = fst + size + corr)%Z ∧ (c = false → e' = e)⌝ -∗ Tune -∗ brk_at w' e' -∗ Contp w' c -∗ blk fst (size + corr) -∗ Q (fst, fst + size, corr)) -∗
  wp (align_brk av MORECORE fst snd size old old_end (page -u 1)) Q.
Proof.
  intros Hf0 Hf8 Hs0 Hs8 Hfs Hc. destruct (page_facts page MORECORE MMAP MUNMAP) as [Hp8 Hp]. iIntros "(T & K & Cn & D) H". unfold align_brk.
  iApply wp_bind. iApply (wp_contiguous with "Cn"). iIntros "Cn".
  assert (E : c && negb (old =? 0) && (fst <? old_end) = false) by (destruct Hc as [(-> & -> & _)|(-> & _)]; done). rewrite E. cbn [whenM].
  iApply wp_bind. iApply wp_ret. iApply wp_bind. iApply (wp_contiguous with "Cn"). iIntros "Cn".
  assert (Hef : fst + size ≠ MORECORE_FAILURE) by (change MORECORE_FAILURE with (2 ^ 32 - 1); zlia).
  destruct Hc as [(-> & -> & -> & ->)|(-> & Hc)].
  - cbn [Z.eqb negb whenM]. iApply wp_bind. iApply wp_ret. unfold chunk2mem. change (2 * SIZE_SZ) with 8. rewrite align_mask //.
    cbn [Z.ltb Z.compare]. cbv zeta. change (0 +u 0) with 0. rewrite (u32_small (fst + 0)); [|lia]. rewrite (u32_small (fst + size)); [|lia].
    rewrite !Z.add_0_r.
    rewrite (u32_small (fst + size)); [|lia]. rewrite !Z.add_0_l. pose proof (page_fill (fst + size) ltac:(lia) ltac:(zlia)) as Hfill.
    cbv zeta in Hfill. set (fill := (_ -u (fst + size))) in *. rewrite (u32_small fill); [|lia].
    rewrite (s32_small fill); [|lia].
    iAssert (∀ w' corr (e' : Z), ⌜later w w'⌝ -∗ ⌜(corr = 0 ∧ e' = fst + size ∨ corr = fill ∧ e' = fst + size + fill ∧ e' < 2 ^ 32)%Z⌝ -∗ Tune -∗ brk_at w' e' -∗ Contp w' true -∗ blk fst (size + corr) -∗ Q (fst, fst + size, corr))%I with "[H]" as "H".
    { iIntros (w' corr e') "%Hw %He' T K Cn D". iApply ("H" $! w' with "[//] [] T K Cn D"). iPureIntro. destruct He' as [[-> ->]|(-> & -> & ?)];
        (split; [lia|]; split; [(done || lia)|]; split; [lia|]; split; [lia|done]). }
    assert (Hlt : (fst + size <? fst) = false) by (apply Z.ltb_ge; lia). iApply wp_bind. destruct (Z.eq_dec fill 0) as [->|Hf].
    + iApply (morecore_here with "K"). iIntros "K". rewrite (proj2 (Z.eqb_neq (fst + size) _) Hef) Hlt. iApply wp_ret.
      iApply ("H" $! w with "[//] [] T K Cn [D]"); [iPureIntro; by left|by rewrite Z.add_0_r].
    + iApply (morecore_more w (fst + size) fill with "K"); [lia|]. iSplit.
      * iIntros "K D2". iDestruct (brk_range with "K") as %He. rewrite (proj2 (Z.eqb_neq (fst + size) _) Hef) Hlt. iApply wp_ret.
        iApply ("H" $! w with "[//] [] T K Cn [D D2]"); [iPureIntro; right; lia|]. rewrite (blk_split fst size fill); [|lia..]. iFrame.
      * iIntros "K". rewrite Z.eqb_refl. iApply wp_bind. iApply (morecore_here with "K"). iIntros "K". iApply wp_ret.
        iApply ("H" $! true with "[//] [] T K [Cn] [D]"); [iPureIntro; by left|iDestruct "Cn" as "[$ _]"; by iLeft|by rewrite Z.add_0_r].
  - iApply wp_bind. iAssert (∀ corr : Z, Tune -∗ brk_at w e -∗ Contp w false -∗ blk fst size -∗ Q (fst, fst + size, 0))%I with "[H]" as "H".
    { iIntros (corr) "T K Cn D". iApply ("H" $! w 0 e with "[//] [] T K Cn [D]"); [iPureIntro; split; [lia|]; split; [done|];
        split; [lia|done]|by rewrite Z.add_0_r]. }
    destruct Hc as [[-> ->]| ->].
    + rewrite Z.eqb_refl. iApply wp_bind. iApply (morecore_here with "K"). iIntros "K". iApply wp_bind.
      iDestruct "T" as "(T1 & T2 & T3 & T4 & T5 & T6 & T7 & T8 & T9 & T)". iApply (wp_add_to with "T9"). iIntros "T9". iApply wp_ret. iApply wp_ret.
      iApply ("H" $! 0 with "[T1 T2 T3 T4 T5 T6 T7 T8 T9 T] K Cn D"). iFrame "T1 T2 T3 T4 T5 T6 T7 T8 T9 T".
    + rewrite (proj2 (Z.eqb_neq (fst + size) _) Hef). iApply wp_ret. iApply wp_ret. iApply ("H" $! 0 with "T K Cn D").
Qed.

(** ** The top chunk *)

Lemma wp_split_top cs t ts B nb (Q : option Z → hprop) : 16 ≤ nb → nb mod 8 = 0 → nb + 16 < 2 ^ 32 → core av cs t ts B ⊢
  ((⌜nb + 16 ≤ ts⌝ -∗ ∀ m, given av (t + ts) cs nb m -∗ Q (Some m)) ∧ (⌜ts < nb + 16⌝ -∗ core av cs t ts B -∗ Q None)) -∗ wp (split_top av nb) Q.
Proof.
  intros H16 H8 Hnb. iIntros "(%base & [T (%Ht & W & D)] & Wt & B & %Hb) H". change MINSIZE with 16 in Ht. unfold split_top. wget wp_load32 with "Wt".
  iApply wp_bind. iApply (wp_headsize t ts true with "W"); [lia|lia|zlia|]. iIntros "W". cbn [Z.b2z].
  change MINSIZE with 16. rewrite (u32_small (nb + 16)); [|lia]. destruct (Z.leb_spec (nb + 16) ts) as [Hle|Hgt].
  - unfold chunk_at_offset, chunk2mem. change (2 * SIZE_SZ) with 8. rewrite (u32_small (ts - nb)); [|lia]. rewrite (u32_small (t + nb)); [|lia].
    rewrite !lor_prev_0; [|zlia..]. wget wp_store32 with "Wt". wget wp_set_head with "W".
    rewrite (blk_cut (t + 8) (ts - 8) (nb - 4)); [|lia]. iDestruct "D" as "[D1 D2]". replace (t + 8 + (nb - 4)) with (t + nb + 4) by lia.
    rewrite (blk_first (t + nb + 4) (ts - 8 - (nb - 4))); [|lia]. iDestruct "D2" as "[[%v W2] D2]". wget wp_set_head with "W2". iApply wp_ret.
    rewrite (u32_small (t + 8)); [|lia].
    iDestruct "H" as "[H _]". iApply ("H" with "[//]"). iExists (nb - 4), (cs ++ [Chunk t nb Used]), (t + nb), (ts - nb), B. iFrame "D1".
    iSplit; [iPureIntro; split; [unfold block_ok; zlia|split; [|lia]]|].
    + split; [rewrite live_hit // app_nil_r //|intros i; rewrite members_skip // app_nil_r //].
    + iApply (core_join av base cs t true). iFrame "T Wt B". iSplit; [|iPureIntro; apply binned_in_use; [done|by rewrite app_nil_r]].
      iApply rest_cons. unfold next_of, in_use, chunkp, body. cbn [caddr csize cst Z.b2z]. iSplit; [done|]. iFrame "W".
      iSplit; [iPureIntro; split; [apply size_ok_used; unfold size_ok; lia|by left]|].
      unfold rest. cbn [tile]. iSplit; [done|]. change MINSIZE with 16. iFrame "W2". iSplit; [iPureIntro; change MINSIZE with 16; zlia|].
      replace (t + nb + 4 + 4) with (t + nb + 8) by lia. by replace (ts - 8 - (nb - 4) - 4) with (ts - nb - 8) by lia.
  - iApply wp_ret. iDestruct "H" as "[_ H]". iApply ("H" with "[//]"). iExists base. unfold rest, topp. change MINSIZE with 16. by iFrame.
Qed.

(** The chunks at the end of a region that top leaves. *)
Lemma fence_core base cs t X na nas B : forallb in_use X = true → binned B cs (λ _, []) →
  tile base true cs t true ∗ tile t true X na true ∗ topp na nas ∗ wordp (top av) na ∗ binsp av B ⊢ core av (cs ++ X) na nas B.
Proof.
  intros HX Hb. iIntros "(T & X & P & Wt & B)". iApply (core_join av base cs t true). iFrame. iPureIntro. eapply binned_mono; [exact Hb|]. intros i _.
  rewrite members_app. assert (E : members (Free i) X = []); [|by rewrite E !app_nil_r].
  clear -HX. induction X as [|c X IH]; [done|]. cbn [forallb] in HX. apply andb_true_iff in HX as [Hc HX].
  rewrite members_cons decide_False; [by apply IH|]. intros E. unfold in_use in Hc. by rewrite E in Hc.
Qed.
Lemma fence_chunk a na : 0 < a → a mod 8 = 0 → a + 20 ≤ 2 ^ 32 → wordp (a + 4) 5 ∗ wordp (a + 8) 5 ⊢ tile a true [Chunk a 4 (Fence na)] na true.
Proof.
  intros Ha Ha8 Hae. iIntros "[W1 W2]". cbn [tile]. unfold chunkp, body, next_of, in_use. cbn [caddr csize cst Z.b2z]. change (4 + 1) with 5.
  change (SIZE_SZ + 1) with 5. iFrame "W1 W2". iPureIntro. split; [done|]. split; [|done]. split; [|by left].
  unfold chunk_ok. cbn [caddr csize cst]. split; [done|]. split; [done|]. split; [lia|done].
Qed.
(** The words that are written, and what is left between them. *)
Lemma wp_fence_words {A} t os (k : M mem A) Q : 0 < t → t mod 8 = 0 → 0 ≤ os → os mod 8 = 0 → t + os + 20 ≤ 2 ^ 32 →
  (∃ v, wordp (t + 4) v) ∗ blk (t + 8) (os + 8) ⊢
  ((if decide (os = 0) then emp else wordp (t + 4) (os + 1) ∗ blk (t + 8) (os - 4)) -∗ wordp (t + os + 4) 5 -∗ wordp (t + os + 8) 5 -∗ wp k Q) -∗
  wp (set_head t (Z.lor os PREV_INUSE) ;; set_head (chunk_at_offset t os) (Z.lor SIZE_SZ PREV_INUSE) ;; set_head (chunk_at_offset t (os +u SIZE_SZ)) (Z.lor SIZE_SZ PREV_INUSE) ;; k) Q.
Proof.
  intros Ht Ht8 Hos Hos8 Hte. iIntros "[[%v W] D] H". rewrite (lor_prev_0 os); [|zlia]. change (Z.lor SIZE_SZ PREV_INUSE) with 5.
  unfold chunk_at_offset, SIZE_SZ. rewrite (u32_small (os + 4)); [|lia]. rewrite (u32_small (t + os)); [|lia].
  rewrite (u32_small (t + (os + 4))); [|lia].
  wget wp_set_head with "W". replace (t + (os + 4)) with (t + os + 4) by lia. destruct (decide (os = 0)) as [->|Hn].
  - replace (t + 0) with t by lia. wget wp_set_head with "W". rewrite (blk_first (t + 8) (0 + 8)); [|lia]. iDestruct "D" as "[[%v2 W2] _]".
    iApply wp_bind. iApply (wp_set_head (t + 4) v2 with "[W2]"); [lia|lia|by replace (t + 4 + 4) with (t + 8) by lia|]. iIntros "W2".
    replace (t + 4 + 4) with (t + 8) by lia. iApply ("H" with "[//] W W2").
  - assert (8 ≤ os) by zlia. rewrite (blk_cut (t + 8) (os + 8) (os - 4)); [|lia]. iDestruct "D" as "[D1 D2]".
    replace (t + 8 + (os - 4)) with (t + os + 4) by lia.
    rewrite (blk_first (t + os + 4) (os + 8 - (os - 4))) ?(blk_first (t + os + 4 + 4) (os + 8 - (os - 4) - 4)); [|lia..].
    iDestruct "D2" as "([%v2 W2] & [%v3 W3] & _)". wget wp_set_head with "W2". wget wp_set_head with "W3".
    replace (t + os + 4 + 4) with (t + os + 8) by lia. iApply ("H" with "[$W $D1] W2 W3").
Qed.

Lemma wp_fence_top w a f base cs t ts na nas B F L (Q : unit → hprop) : 0 < t → t mod 8 = 0 → 16 ≤ ts → ts mod 8 = 0 → t + ts < 2 ^ 32 →
  binned B cs (λ _, []) → live cs ≡ₚ L → fast_ok F cs →
  tile base true cs t true ∗ wordp (t + 4) (ts + 1) ∗ blk (t + 8) (ts - 8) ∗ topp na nas ∗ wordp (top av) na ∗ binsp av B ∗ fastp av F ∗
    wordp (max_fast av) (mfv a f) ∗ Tune ∗ Brkp w (na + nas) ⊢
  (∀ a' f' z', wordp (max_fast av) (mfv a' f') -∗ heap av z' L -∗ Tune -∗ Brkp w z' -∗ Q tt) -∗ wp (fence_top av page MORECORE MUNMAP t ts) Q.
Proof.
  intros Ht Ht8 H16 Hts8 Hlt Hb HL HF. iIntros "(T & W & D & P & Wt & B & Fp & M & Tn & K) H". unfold fence_top. change (3 * SIZE_SZ) with 12.
  rewrite (u32_small (ts - 12)); [|lia]. change MALLOC_ALIGN_MASK with (2 ^ 3 - 1). rewrite land_not_ones; [|lia|lia]. change (2 ^ 3) with 8.
  cbv zeta.
  replace (ts - 12 - (ts - 12) mod 8) with (ts - 16) by zlia.
  iApply (wp_fence_words t (ts - 16) with "[W D]"); [done|done|lia|zlia|zlia|by replace (ts - 16 + 8) with (ts - 8) by lia;
    iSplitL "W"; [by iExists _|]|]. iIntros "X W1 W2".
  iDestruct (fence_chunk (t + (ts - 16)) na with "[$W1 $W2]") as "Fn"; [lia|zlia|zlia|].
  iAssert (∀ X, ⌜forallb in_use X = true ∧ (∀ i, members (Fast i) X = [])⌝ -∗ tile t true X na true -∗ heap av (na + nas) (live X ++ L))%I with "[T P Wt B Fp]" as "Hp".
  { iIntros (X) "[%HX %HXf] X". iExists (cs ++ X), na, nas, B, F. iFrame "Fp". iSplitL; [|iPureIntro;
      split; [by rewrite live_app HL Permutation_app_comm|split; [|done]]]; [iApply (fence_core base cs t X na nas B); [done|done|]; iFrame|].
    intros i Hi. by rewrite (HF i Hi) members_app HXf app_nil_r. }
  change MINSIZE with 16. destruct (decide (ts - 16 = 0)) as [E0|Hn0].
  - rewrite E0 Z.add_0_r. cbn [Z.leb Z.compare whenM]. iApply wp_ret. iDestruct ("Hp" with "[] Fn") as "Hp"; [done|]. iApply ("H" with "M Hp Tn K").
  - iDestruct "X" as "[W D]". set (st := if decide (ts - 16 = 8) then Dead else Used).
    assert (Hst : st = if 16 <=? ts - 16 then Used else Dead) by (unfold st; destruct (decide (ts - 16 = 8)) as [E|E], (Z.leb_spec 16 (ts - 16));
      (done || zlia)).
    iDestruct ("Hp" $! [Chunk t (ts - 16) st; Chunk (t + (ts - 16)) 4 (Fence na)] with "[] [Fn W]") as "Hp".
    { iPureIntro. rewrite Hst. by destruct (16 <=? ts - 16). }
    { cbn [tile]. iSplit; [done|]. assert (En : next_of (Chunk t (ts - 16) st) = t + (ts - 16)) by (rewrite Hst;
        by destruct (16 <=? ts - 16)). assert (Eu : in_use (Chunk t (ts - 16) st) = true) by (rewrite Hst; by destruct (16 <=? ts - 16)).
        rewrite En Eu. iFrame "Fn".
      unfold chunkp, body. cbn [caddr csize cst Z.b2z]. iFrame "W". rewrite Hst.
      destruct (Z.leb_spec 16 (ts - 16)); (iSplit; [iPureIntro; split; [|by left]|done]); unfold chunk_ok; cbn [caddr csize cst];
        (split; [done|]; split; [done|]; split; [lia|]; zlia). }
    rewrite Hst. destruct (Z.leb_spec 16 (ts - 16)) as [H16'|_]; cbn [whenM].
    + iDestruct "Tn" as "[T1 Tn]". iApply wp_bind. iApply (wp_load_cell with "T1"). iIntros (v Hv) "T1". iApply wp_bind.
      iApply (wp_store_cell with "T1"); [done|]. iIntros "T1". unfold chunk2mem. change (2 * SIZE_SZ) with 8. rewrite (u32_small (t + 8)); [|lia].
      iApply wp_bind.
      iApply (wp_free av page MORECORE MMAP MUNMAP Hav w (t + 8) (ts - 16 - 4) _ L with "[Hp D M T1 Tn K]"); [|iIntros (f' z') "Hp M [T1 Tn] K";
        iApply (wp_store_cell with "T1"); [done|]; iIntros "T1"; iApply ("H" with "M Hp [$T1 $Tn] K")].
      iSplitL "Hp"; [done|]. iSplitL "D"; [done|]. iSplitL "M"; [done|]. iSplitL "T1 Tn"; [iFrame "T1 Tn"|done].
    + iApply wp_ret. iApply ("H" with "M Hp Tn K").
Qed.

(** ** More memory *)

(** A heap whose top is large enough, unless the system refused. *)
Definition grown (w : bool) (L : list (Z * Z)) (nb : Z) : hprop := ∃ w' a f cs t ts B F, ⌜later w w'⌝ ∗ wordp (max_fast av) (mfv a f) ∗
  core av cs t ts B ∗ fastp av F ∗ ⌜live cs ≡ₚ L ∧ fast_ok F cs⌝ ∗ Tune ∗ Brkp w' (t + ts) ∗ ⌜w' = true ∨ nb + 16 ≤ ts⌝.

(** The new top, in the memory of [extend_memory]. *)
Definition new_top (old_top old_size fst snd size : Z) : M mem unit :=
  r ← align_brk av MORECORE fst snd size old_size (chunk_at_offset old_top old_size) (page -u 1);
  let '(aligned_brk, snd_brk, correction) := r in
  whenM (negb (snd_brk =? MORECORE_FAILURE))
    (store32 (top av) aligned_brk ;;
     set_head aligned_brk (Z.lor (snd_brk -u aligned_brk +u correction) PREV_INUSE) ;;
     add_to (sbrked_mem av) correction ;;
     whenM (negb (old_size =? 0)) (fence_top av page MORECORE MUNMAP old_top old_size)).
Lemma wp_new_top w old_top old_size fst snd size c e (Q : unit → hprop) : 0 < fst → fst mod 8 = 0 → 128 ≤ size → size mod 8 = 0 →
  fst + size < 2 ^ 32 → e mod 8 = 0 →
  (c = true ∧ old_size = 0 ∧ snd = MORECORE_FAILURE ∧ e = fst + size ∨ c = false ∧ (snd = MORECORE_FAILURE ∧ e = fst + size ∨ snd = fst + size)) →
  Tune ∗ brk_at w e ∗ Contp w c ∗ blk fst size ∗ (∃ v, wordp (top av) v) ⊢
  (∀ w' nas, ⌜later w w' ∧ size ≤ nas ∧ (c = true ∨ w' = true)⌝ -∗ Tune -∗ Brkp w' (fst + nas) -∗ topp fst nas -∗ wordp (top av) fst -∗
    wp (whenM (negb (old_size =? 0)) (fence_top av page MORECORE MUNMAP old_top old_size)) Q) -∗
  wp (new_top old_top old_size fst snd size) Q.
Proof.
  intros Hf0 Hf8 Hs Hs8 Hfs He8 Hc. iIntros "(T & K & Cn & D & [%v Wt]) H". unfold new_top. iApply wp_bind.
  iApply (wp_align w fst snd size old_size _ c e with "[$T $K $Cn $D]"); [done|done|lia|done|done|done|].
  iIntros (w' corr e') "%Hw (%H0 & %H8 & %Hlt & %Hct & %Hcf) T K Cn D".
  assert (Hef : fst + size ≠ MORECORE_FAILURE) by (change MORECORE_FAILURE with (2 ^ 32 - 1); zlia). rewrite (proj2 (Z.eqb_neq (fst + size) _) Hef).
  cbn [negb whenM].
  wget wp_store32 with "Wt". replace (fst + size - fst) with size by lia. rewrite (u32_small size); [|lia]. rewrite (u32_small (size + corr)); [|lia].
  rewrite lor_prev_0; [|zlia].
  rewrite (blk_first fst (size + corr)) ?(blk_first (fst + 4) (size + corr - 4)); [|lia..]. iDestruct "D" as "(_ & [%v2 W] & D)".
  wget wp_set_head with "W". iDestruct "T" as "(T1 & T2 & T3 & T4 & T5 & T6 & T7 & T8 & T9 & T)". iApply wp_bind. iApply (wp_add_to with "T9").
  iIntros "T9".
  iAssert ⌜c = true ∨ w' = true⌝%I as %Rf; [iDestruct "Cn" as "[_ $]"|].
  iApply ("H" $! w' (size + corr) with "[] [T1 T2 T3 T4 T5 T6 T7 T8 T9 T] [K Cn] [W D] Wt"); [iPureIntro; split; [done|];
    split; [lia|done]|iFrame "T1 T2 T3 T4 T5 T6 T7 T8 T9 T"| |].
  - iExists w', e', c. iFrame "K Cn". iPureIntro. split; [done|]. split; [|intros Ec; specialize (Hct Ec); lia].
    destruct c; [specialize (Hct eq_refl); zlia|specialize (Hcf eq_refl); by subst].
  - unfold topp. change MINSIZE with 16. iFrame "W". iSplit; [iPureIntro; zlia|]. replace (fst + 4 + 4) with (fst + 8) by lia.
    by replace (size + corr - 4 - 4) with (size + corr - 8) by lia.
Qed.

Definition grow_top (old_top old_size fst snd size : Z) : M mem unit :=
  if (fst =? chunk_at_offset old_top old_size) && (snd =? MORECORE_FAILURE) then set_head old_top (Z.lor (size +u old_size) PREV_INUSE)
  else new_top old_top old_size fst snd size.

(** Top is extended, or it is left, with a fence at its end. *)
Lemma wp_grow_heap w a f cs t ts B F L nb fst snd size c e (Q : unit → hprop) : live cs ≡ₚ L → fast_ok F cs → 0 < fst → fst mod 8 = 0 → 128 ≤ size →
  size mod 8 = 0 → fst + size < 2 ^ 32 → e mod 8 = 0 →
  (snd = MORECORE_FAILURE ∧ e = fst + size ∧ (c = true → fst = t + ts) ∧ nb + 16 ≤ ts + size ∨ snd = fst + size ∧ c = false) →
  wordp (max_fast av) (mfv a f) ∗ core av cs t ts B ∗ fastp av F ∗ Tune ∗ brk_at w e ∗ Contp w c ∗ blk fst size ⊢
    (grown w L nb -∗ Q tt) -∗ wp (grow_top t ts fst snd size) Q.
Proof.
  intros HL HF Hf0 Hf8 Hs Hs8 Hfs He8 Hc. iIntros "(M & (%base & [T (%Ht & W & D)] & Wt & B & %Hb) & Fp & Tn & K & Cn & D2) H".
  change MINSIZE with 16 in Ht. unfold grow_top, chunk_at_offset. rewrite (u32_small (t + ts)); [|lia].
  assert (Hef : fst + size ≠ MORECORE_FAILURE) by (change MORECORE_FAILURE with (2 ^ 32 - 1); zlia). destruct (_ && _) eqn:E.
  - apply andb_true_iff in E as [Ef Es]. apply Z.eqb_eq in Ef, Es. destruct Hc as [(_ & -> & _ & Hnb)|[-> _]]; [|done]. subst fst.
    rewrite (u32_small (size + ts)); [|lia]. rewrite lor_prev_0; [|zlia]. wlast wp_set_head with "W".
    iApply "H". iExists w, a, f, cs, t, (size + ts), B, F. iSplit; [done|]. iFrame "M Fp".
    iSplitL "T W D D2 Wt B"; [iExists base; iFrame "T Wt B"; iSplit; [|done]|iSplit; [done|]; iFrame "Tn"; iSplitL; [|iPureIntro; lia]].
    + unfold topp. change MINSIZE with 16. iFrame "W". iSplit; [iPureIntro; zlia|]. replace (size + ts - 8) with (ts - 8 + size) by lia.
      rewrite blk_split; [|lia..]. iFrame "D". by replace (t + 8 + (ts - 8)) with (t + ts) by lia.
    + iExists w, _, c. iFrame "K Cn". iPureIntro. split; [done|]. split; [done|]. intros _. lia.
  - assert (Hc' : c = false ∧ (snd = MORECORE_FAILURE ∧ e = fst + size ∨ snd = fst + size)).
    { destruct Hc as [(-> & -> & Hcf & _)|[-> ->]]; [|by split; [|right]]. split; [|by left]. destruct c; [|done]. rewrite (Hcf eq_refl) !Z.eqb_refl in E. done. }
    iApply (wp_new_top w t ts fst snd size c e with "[$Tn $K $Cn $D2 Wt]"); [done|done|done|done|done|done|by right|by iExists _|].
    iIntros (w' nas) "(%Hw & %Hnas & %Rf) Tn K P Wt". destruct Hc' as [-> _]. destruct Rf as [|Rf]; [done|].
    rewrite (proj2 (Z.eqb_neq ts 0)); [|lia]. cbn [negb whenM].
    iApply (wp_fence_top w' a f base cs t ts fst nas B F L with "[$M $T $W $D $P $Wt $B $Fp $Tn $K]"); [lia|lia|lia|lia|lia|done|done|done|].
    iIntros (a' f' z') "M (%cs' & %t' & %ts' & %B' & %F' & C & Fp & %HL' & %HF' & %Hz) Tn K". iApply "H". iExists w', a', f', cs', t', ts', B', F'.
    subst z'. iFrame "M C Fp Tn K". iPureIntro. split; [done|]. split; [done|by left].
Qed.

(** The first memory. *)
Definition bare : hprop := wordp (max_fast av) (mfv false false) ∗ wordp (top av) (unsorted_chunks av) ∗ wordp (av + 56) 0 ∗ binsp av (λ _, []) ∗
  fastp av (λ _, []).
Lemma wp_grow_bare w nb fst snd size c e (Q : unit → hprop) : 0 < fst → fst mod 8 = 0 → 128 ≤ size → size mod 8 = 0 → fst + size < 2 ^ 32 →
  e mod 8 = 0 → 
  (snd = MORECORE_FAILURE ∧ e = fst + size ∧ nb + 16 ≤ size ∨ snd = fst + size ∧ c = false) →
  bare ∗ Tune ∗ brk_at w e ∗ Contp w c ∗ blk fst size ⊢ (wordp (av + 56) 0 -∗ grown w [] nb -∗ Q tt) -∗
    wp (grow_top (unsorted_chunks av) 0 fst snd size) Q.
Proof.
  intros Hf0 Hf8 Hs Hs8 Hfs He8 Hc. iIntros "((M & Wt & W0 & B & Fp) & Tn & K & Cn & D) H". unfold grow_top, chunk_at_offset.
  assert (Hu : unsorted_chunks av = av + 52) by (unfold unsorted_chunks; rewrite (bin_at_eq av Hav 1); [lia|done]).
  rewrite Hu Z.add_0_r (u32_small (av + 52)); [|lia].
  assert (Hef : fst + size ≠ MORECORE_FAILURE) by (change MORECORE_FAILURE with (2 ^ 32 - 1); zlia).
  destruct (Z.eqb_spec fst (av + 52)) as [->|Hne]; cbn [andb].
  { rewrite (blk_first (av + 52) size) ?(blk_first (av + 52 + 4) (size - 4)); [|lia..]. iDestruct "D" as "(_ & [%v W] & _)". replace (av + 52 + 4) with (av + 56) by lia. iDestruct (wordp_exclusive with "W W0") as "[]". }
  iApply (wp_new_top w (av + 52) 0 fst snd size c e with "[$Tn $K $Cn $D Wt]"); [done|done|done|done|done|done| |by iExists _|].
  { destruct Hc as [(-> & -> & _)|[-> ->]]; [destruct c; [by left|right; split; [done|by left]]|right; split; [done|by right]]. }
  iIntros (w' nas) "(%Hw & %Hnas & %Rf) Tn K P Wt". cbn [Z.eqb negb whenM]. iApply wp_ret. iApply ("H" with "W0").
  iExists w', false, false, [], fst, nas, (λ _, []), (λ _, []). iFrame "M Fp Tn K". iSplit; [done|]. iSplitL "P Wt B".
  - iExists fst. iFrame. unfold rest. cbn [tile]. iFrame. iPureIntro. split; [done|]. by intros i _.
  - iPureIntro. split; [split; [done|]; intros i _; done|]. destruct c; [|left; by destruct Rf]. right.
    destruct Hc as [(_ & _ & ?)|[_ ?]]; [lia|done].
Qed.
End More.
