(* ===== verification/MallocRun.v ===== *)
(** * malloc and free *)
From Stdlib Require Import ZArith Lia.
From stdpp Require Import base gmap list functions.
From iris.base_logic Require Import upred bi.
From iris.proofmode Require Import proofmode.
From S2P Require Import Prelude Word Sep Malloc MallocHeap MallocFree MallocSys MallocTake MallocBest MallocMore.
Open Scope Z_scope.
Open Scope u32_scope.

#[local] Typeclasses Opaque u32 Z.add Z.sub Z.mul Z.modulo wordp blk fastp binsp max_fast top mfv.
Section Run.
Context (av errno_at page : Z) (MORECORE MMAP : Z → M mem Z) (MUNMAP : Z → Z → M mem unit) `{!System page MORECORE MMAP MUNMAP}.
Hypothesis Hav : 0 < av ∧ av + 888 ≤ 2 ^ 32.
Local Notation Tune := (tune av page).
Local Notation Contp := (contp av).
Local Notation Brkp := (brkp av page MORECORE MMAP MUNMAP).
Local Notation Grown := (grown av page MORECORE MMAP MUNMAP).

(** ** The allocator's state *)

(** The bin map and the rest of what only the search looks at. *)
Definition maps : hprop := cell (last_remainder av) ∗ ([∗ list] i ∈ seqZ 0 3, cell (binmap av i)) ∗ wordp (binmap av 3) 0.
Lemma lookp_maps : lookp av ⊣⊢ maps ∗ wordp (av + 56) 0.
Proof. unfold lookp, maps. rewrite -!bi.sep_assoc. done. Qed.

Definition running_at (w a f : bool) (L : list (Z * Z)) : hprop := ∃ z, wordp (max_fast av) (mfv a f) ∗ heap av z L ∗ Tune ∗ Brkp w z ∗ lookp av.
Definition running (w : bool) (L : list (Z * Z)) : hprop := ∃ a f, running_at w a f L.
(** After [malloc_init_state], before there is memory. *)
Definition ready (w : bool) : hprop := bare av ∗ Tune ∗ (∃ w' e c, ⌜later w w'⌝ ∗ brk_at w' e ∗ Contp w' c ∗ ⌜e mod 8 = 0⌝) ∗ maps.
(** With the blocks [L]. *)
Definition settled (w : bool) (L : list (Z * Z)) : hprop := running w L ∨ ⌜L = []⌝ ∗ ready w.
(** What a call of [malloc] leaves: it fails only when the system refused. *)
Definition outcome (w : bool) (L : list (Z * Z)) (nb r : Z) : hprop := cell errno_at ∗
  ((⌜r = 0⌝ ∗ settled true L) ∨
   ∃ n, ⌜block_ok nb r n⌝ ∗ blk r n ∗ (running w ((r, n) :: L) ∨ mapped r n ∗ settled w L)).

Lemma running_later w w' L : later w w' → running w' L ⊢ running w L.
Proof. intros Hw. iIntros "(%a & %f & %z & M & Hp & T & K & Lk)". iExists a, f, z. iFrame "M Hp T Lk". by iApply (brkp_later with "K"). Qed.
Lemma settled_later w w' L : later w w' → settled w' L ⊢ settled w L.
Proof.
  intros Hw. iIntros "[S|(HL & B & T & (%w2 & %e & %c & %Hw2 & K) & Mp)]"; [iLeft; by iApply (running_later with "S")|]. iRight. iFrame "HL B T Mp".
  iExists w2, e, c. iFrame. iPureIntro. auto.
Qed.
Lemma outcome_later w w' L nb r : later w w' → outcome w' L nb r ⊢ outcome w L nb r.
Proof.
  intros Hw. iIntros "[E [S|(%n & Hn & D & [S|[Mp S]])]]"; (iSplitL "E"; [done|]); [by iLeft|iRight; iExists n; iSplitL "Hn"; [done|];
    iSplitL "D"; [done|]..].
  - iLeft. by iApply (running_later with "S").
  - iRight. iSplitL "Mp"; [done|]. by iApply (settled_later with "S").
Qed.

Lemma wp_fail w L nb (Q : Z → hprop) : cell errno_at ∗ settled true L ⊢ (∀ r, outcome w L nb r -∗ Q r) -∗ wp (store32 errno_at ENOMEM ;; mret 0) Q.
Proof. iIntros "(E & S) H". iApply wp_bind. iApply (wp_store_cell with "E"); [done|]. iIntros "E". iApply wp_ret. iApply "H". iFrame "E". iLeft.
by iFrame. Qed.

(** From a top that has grown. *)
Lemma wp_serve_top w L nb (Q : Z → hprop) : fits nb → Grown w L nb ∗ lookp av ∗ cell errno_at ⊢
  (∀ r, outcome w L nb r -∗ Q r) -∗ wp (or_else (split_top av nb) (store32 errno_at ENOMEM ;; mret 0)) Q.
Proof.
  intros (H16 & H8 & Hnb). iIntros "((%w' & %a & %f & %cs & %t & %ts & %B & %F & %Hw & M & C & Fp & (%HL & %HF) & T & K & %Rf) & Lk & E) H".
  unfold or_else. iApply wp_bind. iApply (wp_split_top av cs t ts B nb with "C"); [done|done|lia|]. iSplit.
  - iIntros "_ %m G". iApply wp_ret. iApply "H". iFrame "E". iRight.
    iDestruct (given_got _ (t + ts) _ _ _ F L with "[$G $Fp]") as (n) "(Hok & Hp & D)"; [done|done|]. iExists n. iFrame "Hok D". iLeft.
    iApply (running_later w w'); [done|]. iExists a, f, (t + ts). iFrame "M Hp T K Lk".
  - iIntros "%Hlt C". destruct Rf as [->|]; [|lia]. iApply (wp_fail w L nb with "[- H] H"). iFrame "E". iLeft. iExists a, f, (t + ts).
    iFrame "M T K Lk". iExists cs, t, ts, B, F. by iFrame.
Qed.

(** Before top grows. *)
Definition entry (old_top old_size : Z) (L : list (Z * Z)) (nb e : Z) (c : bool) : hprop := ⌜0 ≤ old_size < nb + 16⌝ ∗ maps ∗
  ((∃ a f cs B F, wordp (max_fast av) (mfv a f) ∗ core av cs old_top old_size B ∗ fastp av F ∗ ⌜live cs ≡ₚ L ∧ fast_ok F cs⌝ ∗ ⌜c = true → (e = old_top + old_size)%Z⌝ ∗ wordp (av + 56) 0) ∨
   (⌜L = [] ∧ old_top = unsorted_chunks av ∧ old_size = 0⌝ ∗ bare av)).
Lemma entry_settled w old_top old_size L nb e c : e mod 8 = 0 → entry old_top old_size L nb e c ∗ Tune ∗ brk_at w e ∗ Contp w c ⊢ settled w L.
Proof.
  intros He. iIntros "((_ & Mp & [(%a & %f & %cs & %B & %F & M & C & Fp & (%HL & %HF) & %Hc & W)|((-> & -> & ->) & Bp)]) & T & K & Cn)".
  - iLeft. iExists a, f, _. iFrame "M T". rewrite lookp_maps. iFrame "Mp W". iSplitL "C Fp"; [iExists cs, old_top, old_size, B, F; by iFrame|].
    iExists w, e, c. by iFrame.
  - iRight. iSplit; [done|]. iFrame "Bp T Mp". iExists w, e, c. by iFrame.
Qed.
Lemma wp_entry_top old_top old_size L nb e c (k : Z → Z → M mem Z) Q : entry old_top old_size L nb e c ⊢
  (entry old_top old_size L nb e c -∗ wp (k old_top old_size) Q) -∗ wp (t ← load32 (top av); s ← chunksize t; k t s) Q.
Proof.
  iIntros "(%Hsz & Mp & [(%a & %f & %cs & %B & %F & M & (%base & [T (%Ht & W & D)] & Wt & B & %Hb) & Fp & HL & Hc & W0)|((-> & -> & ->) & (M & Wt & W0 & B & Fp))]) H"; wget wp_load32 with "Wt".
  - change MINSIZE with 16 in Ht. iApply wp_bind. iApply (wp_headsize old_top old_size true with "W"); [lia|lia|zlia|]. iIntros "W". iApply "H".
    iSplit; [done|]. iFrame "Mp". iLeft. iExists a, f, cs, B, F. iFrame "M Fp HL Hc W0". iExists base. iFrame "T Wt B". iSplit; [|done].
    unfold topp. change MINSIZE with 16. by iFrame.
  - assert (Hu : unsorted_chunks av = av + 52) by (unfold unsorted_chunks; rewrite (bin_at_eq av Hav 1); [lia|done]). rewrite Hu. iApply wp_bind.
    iApply (wp_headsize (av + 52) 0 false with "[W0]"); [lia|lia|done|by replace (av + 52 + 4) with (av + 56) by lia|]. iIntros "W0". iApply "H".
    iSplit; [done|]. iFrame "Mp". iRight.
    rewrite -Hu. iSplit; [done|]. iFrame. rewrite Hu. by replace (av + 52 + 4) with (av + 56) by lia.
Qed.
Lemma wp_entry_grow w old_top old_size L nb fst snd size (c : bool) e0 e (Q : unit → hprop) : 0 < fst → fst mod 8 = 0 → 128 ≤ size → size mod 8 = 0 →
  fst + size < 2 ^ 32 → e mod 8 = 0 →
  (snd = MORECORE_FAILURE ∧ e = fst + size ∧ fst = e0 ∧ nb + 16 ≤ (if c then old_size else 0) + size ∨ snd = fst + size ∧ c = false) →
  entry old_top old_size L nb e0 c ∗ Tune ∗ brk_at w e ∗ Contp w c ∗ blk fst size ⊢
    (Grown w L nb -∗ lookp av -∗ Q tt) -∗ wp (grow_top av page MORECORE MUNMAP old_top old_size fst snd size) Q.
Proof.
  intros Hf0 Hf8 Hs Hs8 Hfs He8 Hc. iIntros "((%Hsz & Mp & [(%a & %f & %cs & %B & %F & M & C & Fp & (%HL & %HF) & %Hce & W0)|((-> & -> & ->) & Bp)]) & T & K & Cn & D) H".
  - iApply (wp_grow_heap av page MORECORE MMAP MUNMAP Hav w a f cs old_top old_size B F L nb fst snd size c e with "[$M $C $Fp $T $K $Cn $D]"); [done..| |].
    + destruct Hc as [(-> & -> & -> & Hn)|[-> ->]]; [left|by right]. split; [done|]. split; [done|]. split; [done|]. destruct c; lia.
    + iIntros "G". iApply ("H" with "G"). rewrite lookp_maps. iFrame.
  - iApply (wp_grow_bare av page MORECORE MMAP MUNMAP Hav w nb fst snd size c e with "[$Bp $T $K $Cn $D]"); [done..| |].
    + destruct Hc as [(-> & -> & -> & Hn)|[-> ->]]; [left|by right]. split; [done|]. split; [done|]. destruct c; lia.
    + iIntros "W0 G". iApply ("H" with "G"). rewrite lookp_maps. iFrame.
Qed.

(** The statistics after top has grown. *)
Lemma wp_grown_stats {A} w L nb (k : M mem A) Q : Grown w L nb ⊢ (Grown w L nb -∗ wp k Q) -∗
  wp (sum ← load32 (sbrked_mem av); raise_to (max_sbrked_mem av) sum ;; mm ← load32 (mmapped_mem av); raise_to (max_total_mem av) (sum +u mm) ;; k) Q.
Proof.
  iIntros "(%w' & %a & %f & %cs & %t & %ts & %B & %F & Hw & M & C & Fp & HL & (T1 & T2 & T3 & T4 & T5 & T6 & T7 & T8 & T9 & T10 & T11 & T12) & K & Rf) H".
  iApply wp_bind. iApply (wp_load_cell with "T9"). iIntros (sum Hs) "T9". iApply wp_bind. iApply (wp_raise_to with "T10"); [done|]. iIntros "T10".
  iApply wp_bind. iApply (wp_load_cell with "T8"). iIntros (mm _) "T8". iApply wp_bind. iApply (wp_raise_to with "T12"); [apply u32_bound|].
  iIntros "T12". iApply "H". iExists w', a, f, cs, t, ts, B, F. iFrame "Hw M C Fp HL K Rf". iFrame "T1 T2 T3 T4 T5 T6 T7 T8 T9 T10 T11 T12".
Qed.

(** The part of [__malloc_alloc] that asks the system for memory for top. *)
Definition system_alloc (nb old_top old_size : Z) : M mem Z :=
  let old_end := chunk_at_offset old_top old_size in
  r ← extend_memory av MORECORE MMAP nb old_size (page -u 1);
  let '(fst_brk, snd_brk, size) := r in
  if negb (fst_brk =? MORECORE_FAILURE) then
    add_to (sbrked_mem av) size ;;
    grow_top av page MORECORE MUNMAP old_top old_size fst_brk snd_brk size ;;
    sum ← load32 (sbrked_mem av);
    raise_to (max_sbrked_mem av) sum ;;
    mm ← load32 (mmapped_mem av);
    raise_to (max_total_mem av) (sum +u mm) ;;
    or_else (split_top av nb) (store32 errno_at ENOMEM ;; mret 0)
  else store32 errno_at ENOMEM ;; mret 0.
Lemma wp_sbrked size (k : M mem Z) Q : Tune ⊢ (Tune -∗ wp k Q) -∗ wp (add_to (sbrked_mem av) size ;; k) Q.
Proof. iIntros "(T1 & T2 & T3 & T4 & T5 & T6 & T7 & T8 & T9 & T) H". iApply wp_bind. iApply (wp_add_to with "T9"). iIntros "T9". iApply "H".
iFrame "T1 T2 T3 T4 T5 T6 T7 T8 T9 T". Qed.
Lemma wp_system_alloc w old_top old_size L nb e c (Q : Z → hprop) : fits nb → e mod 8 = 0 →
  entry old_top old_size L nb e c ∗ Tune ∗ brk_at w e ∗ Contp w c ∗ cell errno_at ⊢
    (∀ r, outcome w L nb r -∗ Q r) -∗ wp (system_alloc nb old_top old_size) Q.
Proof.
  intros Hnb He. destruct (page_facts page MORECORE MMAP MUNMAP) as [_ Hp]. assert (Hps : ∀ s, 0 < s → s mod page = 0 → 128 ≤ s ∧ s mod 8 = 0).
  { intros s H0 Hs. split; [|by apply (page_8 page MORECORE MMAP MUNMAP)]. apply Z.mod_divide in Hs as [q ->]; [|lia]. assert (1 ≤ q) by nia. nia. }
  iIntros "(S & T & K & Cn & E) H". iAssert ⌜0 ≤ old_size < nb + 16⌝%I as %Hsz; [by iDestruct "S" as "[$ _]"|]. unfold system_alloc. cbv zeta.
  iDestruct (brk_range with "K") as %Her. iApply wp_bind.
  iApply (wp_extend av page MORECORE MMAP MUNMAP w nb old_size c e with "[$T $K $Cn]"); [done|done|].
  iAssert (∀ w L nb, Grown w L nb -∗ lookp av -∗ cell errno_at -∗ ⌜fits nb⌝ -∗ (∀ r, outcome w L nb r -∗ Q r) -∗ wp (sum ← load32 (sbrked_mem av);
    raise_to (max_sbrked_mem av) sum ;; mm ← load32 (mmapped_mem av);
      raise_to (max_total_mem av) (sum +u mm) ;; or_else (split_top av nb) (store32 errno_at ENOMEM ;; mret 0)) Q)%I as "Hend".
  { clear. iIntros (w L nb) "G Lk E %Hnb H". iApply (wp_grown_stats with "G"). iIntros "G". by iApply (wp_serve_top with "[$G $Lk $E]"). }
  iSplit; [|iSplit].
  - iIntros (size) "(%H0 & %Hsp & %Hn) T K Cn D". destruct (Hps size ltac:(lia) Hsp) as [H128 H8]. iDestruct (brk_range with "K") as %He'.
    assert (Hef : e ≠ MORECORE_FAILURE) by (change MORECORE_FAILURE with (2 ^ 32 - 1); lia). rewrite (proj2 (Z.eqb_neq e _) Hef). cbn [negb].
    iApply (wp_sbrked with "T"). iIntros "T". iApply wp_bind.
    iApply (wp_entry_grow w old_top old_size L nb e MORECORE_FAILURE size c e (e + size) with "[$S $T $K $Cn $D]"); [lia|done|done|done|lia|zlia|left;
      done|]. iIntros "G Lk". iApply ("Hend" with "G Lk E [//] H").
  - iIntros (r size) "(%H0 & %Hsp & %Hr0 & %Hrp & %Hrs) T K Cn D". destruct (Hps size ltac:(lia) Hsp) as [H128 H8].
    pose proof (page_8 page MORECORE MMAP MUNMAP r Hrp) as Hr8. assert (Hef : r ≠ MORECORE_FAILURE) by (change MORECORE_FAILURE with (2 ^ 32 - 1);
      lia). rewrite (proj2 (Z.eqb_neq r _) Hef). cbn [negb].
    iApply (wp_sbrked with "T"). iIntros "T". iApply wp_bind.
    iApply (wp_entry_grow true old_top old_size L nb r (r + size) size false e e with "[S $T $K $Cn $D]"); [lia|done|done|done|lia|done|by right| |].
    + iDestruct "S" as "($ & $ & [(%a & %f & %cs & %B & %F & M & C & Fp & HL & _ & W)|S])"; [iLeft; iExists a, f, cs, B, F; by iFrame|by iRight].
    + iIntros "G Lk". iApply ("Hend" with "G Lk E [//]"). iIntros (x) "O". iApply "H". by iApply (outcome_later with "O").
  - iIntros (size) "T K Cn". rewrite Z.eqb_refl. cbn [negb]. iApply (wp_fail w L nb with "[- H] H"). iSplitL "E"; [done|].
    iApply (entry_settled true old_top old_size L nb e c He with "[$S $T $K $Cn]").
Qed.

(** ** More memory for a request *)

(** Top is too small for the request. *)
Definition short (w f : bool) (L : list (Z * Z)) (nb : Z) : hprop :=
  (∃ a cs t ts B F, wordp (max_fast av) (mfv a f) ∗ core av cs t ts B ∗ fastp av F ∗ ⌜live cs ≡ₚ L ∧ fast_ok F cs ∧ ts < nb + 16⌝ ∗ Tune ∗ Brkp w (t + ts) ∗ lookp av) ∨ (⌜L = [] ∧ f = false⌝ ∗ ready w).
Definition again_ok (w : bool) (again : Z → M mem Z) (L : list (Z * Z)) (nb : Z) : Prop :=
  ∀ a (Q : Z → hprop), running_at w a false L ∗ cell errno_at ⊢ (∀ r, outcome w L nb r -∗ Q r) -∗ wp (again (nb -u MALLOC_ALIGN_MASK)) Q.

Lemma short_entry w f L nb : 16 ≤ nb → short w f L nb ⊢ ∃ t ts w' e c, ⌜later w w' ∧ e mod 8 = 0⌝ ∗ entry t ts L nb e c ∗ Tune ∗ brk_at w' e ∗
  Contp w' c.
Proof.
  intros H16. iIntros "[(%a & %cs & %t & %ts & %B & %F & M & C & Fp & (%HL & %HF & %Hts) & T & (%w' & %e & %c & %Hw & K & Cn & %He & %Hc) & Lk)|([-> _] & Bp & T & (%w' & %e & %c & %Hw & K & Cn & %He) & Mp)]".
  - iExists t, ts, w', e, c. iSplit; [done|]. iFrame "T K Cn". rewrite lookp_maps. iDestruct "Lk" as "[Mp W]". iAssert ⌜16 ≤ ts⌝%I as %H.
    { iDestruct "C" as (base) "([_ [%H _]] & _)". change MINSIZE with 16 in H. iPureIntro. lia. }
    iSplit; [iPureIntro; lia|]. iFrame "Mp". iLeft. iExists a, f, cs, B, F. by iFrame.
  - iExists (unsorted_chunks av), 0, w', e, c. iSplit; [done|]. iFrame "T K Cn". iSplit; [iPureIntro; lia|]. iFrame "Mp". iRight. by iFrame.
Qed.

Lemma wp_alloc w again f L nb (Q : Z → hprop) : fits nb → (f = true → again_ok w again L nb) → short w f L nb ∗ cell errno_at ⊢
  (∀ r, outcome w L nb r -∗ Q r) -∗ wp (__malloc_alloc av errno_at page MORECORE MMAP MUNMAP again nb) Q.
Proof.
  intros Hnb Hag. pose proof Hnb as (H16 & H8 & Hlt). iIntros "[S E] H". unfold __malloc_alloc.
  iAssert (wp (have_fastchunks av) (λ b, ⌜b = f⌝ ∗ short w f L nb))%I with "[S]" as "W".
  { iDestruct "S" as "[(%a & %cs & %t & %ts & %B & %F & M & S)|([-> ->] & (M & S) & S')]"; iApply (wp_have_fast with "M"); iIntros "M";
      (iSplit; [done|]); [iLeft; iExists a, cs, t, ts, B, F|iRight; iSplit; [done|]]; by iFrame. }
  iApply wp_bind. iApply (wp_frame_wand with "W"). iIntros (b) "[-> S]". destruct f.
  - iDestruct "S" as "[(%a & %cs & %t & %ts & %B & %F & M & C & Fp & (%HL & %HF & _) & T & K & Lk)|([_ %Hx] & _)]"; [|done]. iApply wp_bind.
    iApply (wp_consolidate av page Hav a true (t + ts) L with "[$M C Fp]"); [iExists cs, t, ts, B, F; by iFrame|].
    iIntros "M Hp". iApply (Hag eq_refl a with "[M Hp T K Lk E] H"). iFrame "E". iExists (t + ts). iFrame "M Hp T K Lk".
  - iDestruct (short_entry with "S") as (t ts w' e c [Hw He]) "(S & T & K & Cn)"; [done|]. iDestruct "T" as "(T1 & T2 & T3 & T4 & T5 & T6 & T7 & T)".
    iApply wp_bind. iApply (wp_load32 with "T7"); [done|]. iIntros "T7". unfold or_else at 1. iApply wp_bind.
    iApply (wp_mmap_chunk av page MORECORE MMAP MUNMAP w' e nb with "[T1 T2 T3 T4 T5 T6 T7 T K]"); [lia|done|iFrame "K T1 T2 T3 T4 T5 T6 T7 T"|].
    iSplit.
    + iIntros (m n) "%Hok Mp D T K". iApply wp_ret. iApply "H". iFrame "E". iRight. iExists n. iSplit; [done|]. iFrame "D". iRight. iFrame "Mp".
      iApply (settled_later w w'); [done|]. iApply (entry_settled w' t ts L nb e c He with "[$S $T $K $Cn]").
    + iIntros (w2 Hw2) "T K". iApply (wp_entry_top t ts L nb e c (λ t s, system_alloc nb t s) with "S"). iIntros "S".
      iApply (wp_system_alloc w2 t ts L nb e c with "[$S $T $K Cn $E]"); [done|done|iDestruct "Cn" as "[$ %Hc]"; iPureIntro; tauto|].
      iIntros (r) "O". iApply "H". iApply (outcome_later w w2 with "O"). auto.
Qed.

(** ** malloc *)

Lemma wp_or_else {A} (m : M mem (option A)) (k : M mem A) (Q : A → hprop) : wp m (λ r, match r with Some x => Q x | None => wp k Q end) ⊢
  wp (or_else m k) Q.
Proof. iIntros "W". unfold or_else. iApply wp_bind. iApply (wp_frame_wand with "W"). iIntros ([x|]) "W"; [by iApply wp_ret|done]. Qed.

Lemma got_outcome w a f z L nb m : got av z L nb m ∗ wordp (max_fast av) (mfv a f) ∗ Tune ∗ Brkp w z ∗ lookp av ∗ cell errno_at ⊢ outcome w L nb m.
Proof. iIntros "((%n & Hok & Hp & D) & M & T & K & Lk & E)". iFrame "E". iRight. iExists n. iFrame "Hok D". iLeft. iExists a, f, z.
iFrame "M Hp T K Lk". Qed.

Lemma wp_use_top w again a f L nb (Q : Z → hprop) : fits nb → (f = true → again_ok w again L nb) → running_at w a f L ∗ cell errno_at ⊢
  (∀ r, outcome w L nb r -∗ Q r) -∗ wp (or_else (split_top av nb) (__malloc_alloc av errno_at page MORECORE MMAP MUNMAP again nb)) Q.
Proof.
  intros Hnb Hag. pose proof Hnb as (H16 & H8 & Hlt). iIntros "[(%z & M & (%cs & %t & %ts & %B & %F & C & Fp & %HL & %HF & <-) & T & K & Lk) E] H".
  iApply wp_or_else. iApply (wp_split_top av cs t ts B nb with "C"); [done|done|lia|]. iSplit.
  - iIntros "_ %m G". iApply "H". iApply (got_outcome w a f (t + ts)). iFrame "M T K Lk E". by iApply (given_got with "[$G $Fp]").
  - iIntros "%Hts C". iApply (wp_alloc w again f L nb with "[- H] H"); [done|done|]. iFrame "E". iLeft. iExists a, cs, t, ts, B, F. by iFrame.
Qed.
Lemma wp_use_top_ready w again nb (Q : Z → hprop) : fits nb → ready w ∗ cell errno_at ⊢
  (∀ r, outcome w [] nb r -∗ Q r) -∗ wp (or_else (split_top av nb) (__malloc_alloc av errno_at page MORECORE MMAP MUNMAP again nb)) Q.
Proof.
  intros Hnb. pose proof Hnb as (H16 & H8 & Hlt). iIntros "[((M & Wt & W0 & B & Fp) & S) E] H". iApply wp_or_else. unfold split_top.
  wget wp_load32 with "Wt". assert (Hu : unsorted_chunks av = av + 52) by (unfold unsorted_chunks; rewrite (bin_at_eq av Hav 1); [lia|done]).
  rewrite Hu.
  iApply wp_bind. iApply (wp_headsize (av + 52) 0 false with "[W0]"); [lia|lia|done|by replace (av + 52 + 4) with (av + 56) by lia|]. iIntros "W0".
  change MINSIZE with 16. rewrite (u32_small (nb + 16)); [|lia]. rewrite (proj2 (Z.leb_gt (nb + 16) 0)); [|lia]. iApply wp_ret.
  iApply (wp_alloc w again false [] nb with "[- H] H"); [done|done|]. iFrame "E". iRight. iSplit; [done|]. iFrame "S". unfold bare. rewrite Hu.
  iFrame. by replace (av + 52 + 4) with (av + 56) by lia.
Qed.

(** The search, from the fastbins to top. *)
Definition search (again : Z → M mem Z) (nb : Z) : M mem Z :=
  let use_top := or_else (split_top av nb) (__malloc_alloc av errno_at page MORECORE MMAP MUNMAP again nb) in
  any ← have_anychunks av;
  if negb (any : bool) then
    mf ← load32 (max_fast av);
    whenM (mf =? 0) (__malloc_consolidate av page) ;;
    use_top
  else
    let idx := bin_index nb in
    or_else (take_fast av nb) (or_else (take_small av page nb) (or_else (take_unsorted av nb) (or_else (take_large av nb) (or_else (take_larger av nb idx) use_top)))).
Lemma wp_search w again a f L nb (Q : Z → hprop) : fits nb → (f = true → again_ok w again L nb) → running_at w a f L ∗ cell errno_at ⊢
  (∀ r, outcome w L nb r -∗ Q r) -∗ wp (search again nb) Q.
Proof.
  intros Hnb Hag. pose proof Hnb as (H16 & H8 & Hlt). iIntros "[(%z & M & Hp & T & K & Lk) E] H". unfold search, have_anychunks. iApply wp_bind.
  wget wp_load32 with "M". iApply wp_ret. assert (Ea : negb (negb (Z.land (mfv a f) ANYCHUNKS_BIT =? 0)) = negb a) by by destruct a, f. rewrite Ea.
  destruct a; cbn [negb].
  - iApply wp_or_else. iApply (wp_take_fast av true f z L nb with "[$M $Hp]"); [lia|done|]. iIntros (r) "M Hr".
    destruct r as [m|]; cbn [result]; [iApply "H"; iApply (got_outcome w true f z); iFrame "Hr M T K Lk E"|].
    iApply wp_or_else. iApply (wp_take_small av page Hav true f z L nb with "[$M $Hr]"); [lia|done|]. iIntros (r f') "%Hf M Hr".
    destruct r as [m|]; cbn [result]; [iApply "H"; iApply (got_outcome w true f' z); iFrame "Hr M T K Lk E"|].
    iApply wp_or_else. iApply (wp_take_unsorted av Hav z L nb with "[$Hr $Lk]"); [lia|lia|done|]. iIntros (r) "Hr Lk".
    destruct r as [m|]; cbn [result]; [iApply "H"; iApply (got_outcome w true f' z); iFrame "Hr M T K Lk E"|].
    iApply wp_or_else. iApply (wp_take_large av Hav z L nb with "Hr"); [lia|done|]. iIntros (r) "Hr".
    destruct r as [m|]; cbn [result]; [iApply "H"; iApply (got_outcome w true f' z); iFrame "Hr M T K Lk E"|].
    iApply wp_or_else. iApply (wp_take_larger av Hav z L nb with "[$Hr $Lk]"); [lia|done|]. iIntros (r) "Hr Lk".
    destruct r as [m|]; cbn [result]; [iApply "H"; iApply (got_outcome w true f' z); iFrame "Hr M T K Lk E"|].
    iApply (wp_use_top w again true f' L nb with "[- H] H"); [done|intros ->; apply Hag; destruct f; [done|by specialize (Hf eq_refl)]|]. iFrame "E".
    iExists z. iFrame "M T K Lk". by iApply heap0_heap.
  - wget wp_load32 with "M". assert (E0 : (mfv false f =? 0) = false) by by destruct f. rewrite E0. cbn [whenM]. iApply wp_bind. iApply wp_ret.
    iApply (wp_use_top w again false f L nb with "[- H] H"); [done|done|]. iFrame "E". iExists z. iFrame "M Hp T K Lk".
Qed.
End Run.
