(* ===== verification/Arena.v ===== *)
(** * malloc and free as their callers see them *)
From Stdlib Require Import ZArith Lia.
From stdpp Require Import base gmap list functions.
From iris.base_logic Require Import upred bi.
From iris.proofmode Require Import proofmode.
From S2P Require Import Prelude Word Sep Malloc MallocHeap MallocFree MallocSys MallocTake MallocBest MallocMore MallocRun.
Open Scope Z_scope.
Open Scope u32_scope.

#[local] Typeclasses Opaque u32 Z.add Z.sub Z.mul Z.modulo wordp blk fastp binsp max_fast top mfv.
Section Arena.
Context (av errno_at page : Z) (MORECORE MMAP : Z → M mem Z) (MUNMAP : Z → Z → M mem unit) `{!System page MORECORE MMAP MUNMAP}.
Hypothesis Hav : 0 < av ∧ av + 888 ≤ 2 ^ 32.
Local Notation Tune := (tune av page).
Local Notation Contp := (contp av).
Local Notation Running := (running av page MORECORE MMAP MUNMAP).
Local Notation Ready := (ready av page MORECORE MMAP MUNMAP).
Local Notation Outcome := (outcome av errno_at page MORECORE MMAP MUNMAP).

(** ** Before the first call *)

(** The fields of [malloc_state], all zero. *)
Definition fresh_tune : hprop :=
  cell (trim_threshold av) ∗ cell (top_pad av) ∗ cell (mmap_threshold av) ∗ cell (n_mmaps av) ∗ cell (n_mmaps_max av) ∗ cell (max_n_mmaps av) ∗
  cell (pagesize av) ∗ cell (mmapped_mem av) ∗ cell (sbrked_mem av) ∗ cell (max_sbrked_mem av) ∗ cell (max_mmapped_mem av) ∗ cell (max_total_mem av).
Definition bin_words (i : Z) : hprop := cell (bin_at av i + 8) ∗ cell (bin_at av i + 12).
Definition blank (w : bool) : hprop := wordp (max_fast av) 0 ∗ cell (top av) ∗ wordp (av + 56) 0 ∗ fastp av (λ _, []) ∗
  ([∗ list] i ∈ seqZ 1 (NBINS - 1), bin_words i) ∗
  fresh_tune ∗ cell (morecore_properties av) ∗ (∃ w' e, ⌜later w w'⌝ ∗ brk_at w' e ∗ ⌜e mod 8 = 0⌝) ∗ maps av.

Lemma wp_forM {A} (f : A → M mem unit) (Φ Ψ : A → hprop) l (Q : unit → hprop) : (∀ x, x ∈ l → Φ x ⊢ wp (f x) (λ _, Ψ x)) → ([∗ list] x ∈ l, Φ x) ⊢
  (([∗ list] x ∈ l, Ψ x) -∗ Q tt) -∗ wp (forM l f) Q.
Proof.
  revert Q. induction l as [|x l IH]; intros Q Hf; cbn [forM big_opL]; [iIntros "_ H"; iApply wp_ret; by iApply "H"|]. iIntros "[Hx Hl] H".
  iApply wp_bind. iApply (wp_frame_wand with "[Hx]"); [iApply (Hf with "Hx"); by left|].
  iIntros ([]) "Hx". iApply (IH with "Hl"); [intros y Hy; apply Hf; by right|]. iIntros "Hl". iApply "H". iFrame.
Qed.
Lemma wp_init_bin i : 1 ≤ i < NBINS → bin_words i ⊢
  wp (set_bk (bin_at av i) (bin_at av i) ;; set_fd (bin_at av i) (bin_at av i)) (λ _, ring (bin_at av i) []).
Proof.
  intros Hi. pose proof (bin_at_ok av Hav i Hi) as Hn. pose proof Hn as Hn'. unfold node_ok in Hn'. iIntros "[[%v W1] [%w W2]]".
  wget wp_set_bk with "W2". wlast wp_set_fd with "W1". unfold ring. cbn [path]. unfold edge. by iFrame.
Qed.

Lemma wp_init w (Q : unit → hprop) : blank w ⊢ (Ready w -∗ Q tt) -∗ wp (malloc_init_state av page) Q.
Proof.
  destruct (page_facts page MORECORE MMAP MUNMAP) as [_ Hp].
  iIntros "(M & Wt & W0 & Fp & Bw & (T1 & [%v2 T2] & T3 & T4 & T5 & T6 & [%v7 T7] & T) & [%vm Mp] & (%w' & %e & %Hw & K & %He) & Maps) H".
  unfold malloc_init_state.
  iApply wp_bind. iApply (wp_forM _ bin_words (λ i, ring (bin_at av i) []) with "Bw"); [intros i Hi; apply elem_of_seqZ in Hi; apply wp_init_bin;
    lia|]. iIntros "B".
  iApply wp_bind. iApply (wp_store32 with "T2"); [done|done|]. iIntros "T2". iApply wp_bind. iApply (wp_store_cell with "T5"); [done|]. iIntros "T5".
  iApply wp_bind. iApply (wp_store_cell with "T3"); [done|]. iIntros "T3". iApply wp_bind. iApply (wp_store_cell with "T1"); [done|]. iIntros "T1".
  iApply wp_bind. unfold set_contiguous. iDestruct (wordp_u32 with "Mp") as %Hvm. wget wp_load32 with "Mp".
  iApply (wp_store32 with "Mp"); [done|apply lor_bound; [done|done|done]|]. iIntros "Mp". iApply wp_bind. unfold set_max_fast.
  wget wp_load32 with "M".
  iApply (wp_store32 with "M"); [done|done|]. iIntros "M". iDestruct "Wt" as "[%vt Wt]". iApply wp_bind.
  pose proof (bin_at_ok av Hav 1 ltac:(done)) as Hun. unfold node_ok in Hun.
  iApply (wp_store32 with "Wt"); [done|unfold initial_top, unsorted_chunks; lia|]. iIntros "Wt". wlast wp_store32 with "T7".
  iApply "H". iSplitL "M Wt W0 Fp B"; [|iSplitL "T1 T2 T3 T4 T5 T6 T7 T"; [|iSplitL "K Mp"; [|done]]].
  - unfold bare. iSplitL "M"; [done|]. iSplitL "Wt"; [done|]. iSplitL "W0"; [done|]. iSplitL "B"; done.
  - unfold tune. iFrame "T1 T2 T3 T4 T5 T6 T7 T".
  - iExists w', e, true. iSplit; [done|]. iFrame "K". iSplit; [|done]. iSplitL; [|by iLeft]. iExists _. iFrame "Mp". iPureIntro.
    change MORECORE_CONTIGUOUS_BIT with (2 ^ 0) at 2. rewrite Z.land_comm land_bit // Z.lor_spec.
    change (Z.testbit MORECORE_CONTIGUOUS_BIT 0) with true. by rewrite orb_true_r.
Qed.

(** ** malloc *)

(** The blocks [L] are in the heap. *)
Definition allocator (w : bool) (L : list (Z * Z)) : hprop := Running w L ∨ ⌜L = []⌝ ∗ Ready w ∨ ⌜L = []⌝ ∗ blank w.
Lemma allocator_served w L : settled av page MORECORE MMAP MUNMAP w L ⊢ allocator w L.
Proof. iIntros "[H|H]"; [by iLeft|by iRight; iLeft]. Qed.

Lemma request_fits bytes : 0 < bytes → bytes + 2 ^ 22 < 2 ^ 31 → let nb := request2size bytes in fits nb ∧ bytes + 4 ≤ nb.
Proof.
  intros H0 Hb. unfold request2size. change MALLOC_ALIGN_MASK with 7. change MINSIZE with 16. change SIZE_SZ with 4.
  rewrite (u32_small (bytes + 4)); [|lia]. rewrite (u32_small (bytes + 4 + 7)); [|lia]. cbv zeta.
  assert (E : Z.land (bytes + 4 + 7) (not32 7) = bytes + 4 + 7 - (bytes + 4 + 7) mod 8) by (apply (land_not_ones 3); lia). rewrite E. unfold fits.
  destruct (Z.ltb_spec (bytes + 4 + 7) 16); [split; [split; [lia|split; [done|lia]]|zlia]|]. split; [split; [zlia|split; [zlia|zlia]]|zlia].
Qed.
(** The call of [malloc] in [malloc] asks for the same size. *)
Lemma request_again nb : fits nb → nb -u MALLOC_ALIGN_MASK ≠ 0 ∧ REQUEST_OUT_OF_RANGE (nb -u MALLOC_ALIGN_MASK) = false ∧ request2size (nb -u MALLOC_ALIGN_MASK) = nb.
Proof.
  intros (H16 & H8 & Hnb). change MALLOC_ALIGN_MASK with 7. rewrite (u32_small (nb - 7)); [|lia]. split; [lia|].
  split; [apply Z.leb_gt; change (u32 (-2 * MINSIZE)) with (2 ^ 32 - 32); lia|].
  unfold request2size. change MALLOC_ALIGN_MASK with 7. change MINSIZE with 16. change SIZE_SZ with 4. rewrite (u32_small (nb - 7 + 4)); [|lia].
  rewrite (u32_small (nb - 7 + 4 + 7)); [|lia]. rewrite (proj2 (Z.ltb_ge _ 16)); [|lia].
  assert (E : Z.land (nb - 7 + 4 + 7) (not32 7) = nb - 7 + 4 + 7 - (nb - 7 + 4 + 7) mod 8) by (apply (land_not_ones 3); lia). rewrite E. zlia.
Qed.

Local Notation Search := (search av errno_at page MORECORE MMAP MUNMAP).
Local Notation Malloc_depth := (malloc_depth av errno_at page MORECORE MMAP MUNMAP).
Lemma malloc_depth_eq d bytes : bytes ≠ 0 → REQUEST_OUT_OF_RANGE bytes = false →
  Malloc_depth (Datatypes.S d) bytes = Search (Malloc_depth d) (request2size bytes).
Proof. intros H0 Hr. cbn [malloc_depth]. rewrite (proj2 (Z.eqb_neq bytes 0) H0) Hr. done. Qed.
Lemma malloc_again_ok w L nb : fits nb → again_ok av errno_at page MORECORE MMAP MUNMAP w (Malloc_depth 1) L nb.
Proof.
  intros Hnb a Q. destruct (request_again nb Hnb) as (H0 & Hr & Hn). rewrite malloc_depth_eq // Hn. by apply wp_search.
Qed.

Lemma wp_search_allocator w L nb (Q : Z → hprop) : fits nb → allocator w L ∗ cell errno_at ⊢
  (∀ r, Outcome w L nb r -∗ Q r) -∗ wp (Search (Malloc_depth 1) nb) Q.
Proof.
  intros Hnb. iIntros "[[(%a & %f & S)|[[-> S]|[-> S]]] E] H".
  - iApply (wp_search av errno_at page MORECORE MMAP MUNMAP Hav w _ a f L nb with "[$S $E] H"); [done|]. intros _. by apply malloc_again_ok.
  - unfold search, have_anychunks. iDestruct "S" as "[[M B] S]". iApply wp_bind. wget wp_load32 with "M". iApply wp_ret. cbn [negb].
    change (negb (negb (Z.land (mfv false false) ANYCHUNKS_BIT =? 0))) with true. cbn iota. wget wp_load32 with "M".
    change (mfv false false =? 0) with false. cbn [whenM]. iApply wp_bind. iApply wp_ret.
    iApply (wp_use_top_ready av errno_at page MORECORE MMAP MUNMAP Hav w with "[M B S E] H"); [done|].
    iSplitR "E"; [iSplitL "M B"; [iSplitL "M"; done|done]|done].
  - unfold search, have_anychunks. iDestruct "S" as "[M S]". iApply wp_bind. wget wp_load32 with "M". iApply wp_ret.
    change (negb (negb (Z.land 0 ANYCHUNKS_BIT =? 0))) with true. cbn iota. wget wp_load32 with "M". cbn [Z.eqb whenM]. iApply wp_bind.
    unfold __malloc_consolidate. wget wp_load32 with "M". cbn [Z.eqb negb].
    iApply (wp_init with "[M S]"); [iSplitL "M"; done|]. iIntros "S".
    iApply (wp_use_top_ready av errno_at page MORECORE MMAP MUNMAP Hav w with "[$S $E] H"). done.
Qed.

(** ** free *)

Local Notation Mapped := mapped.
Lemma allocator_words w L : allocator w L ⊢ ∃ v, ⌜0 ≤ v < 120⌝ ∗ wordp (max_fast av) v ∗ cell (n_mmaps av) ∗ cell (mmapped_mem av) ∗
  (wordp (max_fast av) v -∗ cell (n_mmaps av) -∗ cell (mmapped_mem av) -∗ allocator w L).
Proof.
  iIntros "[(%a & %f & %z & M & Hp & (T1 & T2 & T3 & T4 & T5 & T6 & T7 & T8 & T) & K & Lk)|[(-> & (M & B) & (T1 & T2 & T3 & T4 & T5 & T6 & T7 & T8 & T) & S)|(-> & M & S1 & S2 & S3 & S4 & (T1 & T2 & T3 & T4 & T5 & T6 & T7 & T8 & T) & S)]]".
  - iExists _. iFrame "M T4 T8". iSplit; [iPureIntro; unfold mfv; destruct a, f; cbn [Z.b2z]; lia|]. iIntros "M T4 T8". iLeft. iExists a, f, z.
    iFrame "M Hp K Lk". iFrame "T1 T2 T3 T4 T5 T6 T7 T8 T".
  - iExists _. iFrame "M T4 T8". iSplit; [done|]. iIntros "M T4 T8". iRight. iLeft. iSplit; [done|]. iSplitL "M B"; [iSplitL "M"; done|].
    iSplitR "S"; [|done]. iFrame "T1 T2 T3 T4 T5 T6 T7 T8 T".
  - iExists _. iFrame "M T4 T8". iSplit; [done|]. iIntros "M T4 T8". iRight. iRight. iSplit; [done|]. iSplitL "M"; [done|]. iSplitL "S1"; [done|].
    iSplitL "S2"; [done|]. iSplitL "S3"; [done|]. iSplitL "S4"; [done|]. iSplitR "S"; [|done]. iFrame "T1 T2 T3 T4 T5 T6 T7 T8 T".
Qed.
Lemma is_mmapped s : s mod 4 = 0 → negb (Z.land (s + IS_MMAPPED) IS_MMAPPED =? 0) = true.
Proof.
  intros Hs. rewrite Z.land_comm. change IS_MMAPPED with (2 ^ 1) at 1. rewrite land_bit // negb_involutive Z.testbit_eqb //. change IS_MMAPPED with 2.
  change (2 ^ 1) with 2. apply Z.eqb_eq. zlia.
Qed.
Local Notation Free_ := (free av page MORECORE MUNMAP).
Lemma wp_free_mapped w p n L (Q : unit → hprop) : allocator w L ∗ Mapped p n ∗ blk p n ⊢ (allocator w L -∗ Q tt) -∗ wp (Free_ p) Q.
Proof.
  iIntros "(S & (%Hp & W1 & W2) & D) H". destruct Hp as (Hp & Hp8 & Hn8 & Hn & Hpn). unfold free. rewrite (proj2 (Z.eqb_neq p 0)); [|lia].
  unfold mem2chunk. change (2 * SIZE_SZ) with 8. rewrite (u32_small (p - 8)); [|lia].
  replace (p - 4) with (p - 8 + 4) by lia. iApply wp_bind. iApply (wp_chunksize (p - 8) (n + 8) IS_MMAPPED with "W2"); [lia|lia|zlia|done|].
  iIntros "W2". iDestruct (allocator_words with "S") as (v) "(%Hv & M & T4 & T8 & S)". wget wp_load32 with "M".
  rewrite (proj2 (Z.leb_gt (n + 8) v)); [|lia].
  iApply wp_bind. unfold chunk_is_mmapped. iApply wp_bind. iApply (wp_get_size with "W2"); [lia|]. iIntros "W2". iApply wp_ret.
  rewrite is_mmapped; [|zlia]. cbn [negb]. wget wp_get_prev_size with "W1". iApply wp_bind. iApply (wp_add_to with "T4"). iIntros "T4".
  iApply wp_bind. iApply (wp_add_to with "T8"). iIntros "T8".
  rewrite Z.sub_0_r (u32_small (p - 8)); [|lia]. rewrite Z.add_0_r (u32_small (n + 8)); [|lia].
  iApply (munmap_region with "[W1 W2 D]"); [lia| |by iApply ("H" with "[S M T4 T8]"); iApply ("S" with "M T4 T8")].
  rewrite (blk_first (p - 8) (n + 8)) ?(blk_first (p - 8 + 4) (n + 8 - 4)); [|lia..]. replace (p - 8 + 4 + 4) with p by lia.
  replace (n + 8 - 4 - 4) with n by lia. iFrame "D". iSplitL "W1"; by iExists _.
Qed.

Lemma heap_perm z L L' : L ≡ₚ L' → heap av z L ⊢ heap av z L'.
Proof. intros HL. iIntros "(%cs & %t & %ts & %B & %F & C & Fp & %H1 & %H2 & %H3)". iExists cs, t, ts, B, F. iFrame. iPureIntro.
split; [by rewrite -HL|done]. Qed.
Lemma allocator_perm w L L' : L ≡ₚ L' → allocator w L ⊢ allocator w L'.
Proof.
  intros HL. iIntros "[(%a & %f & %z & M & Hp & S)|[(-> & S)|(-> & S)]]".
  - iLeft. iExists a, f, z. iSplitL "M"; [done|]. iSplitL "Hp"; [by iApply heap_perm|done].
  - apply Permutation_nil_l in HL as <-. iRight. iLeft. by iSplit.
  - apply Permutation_nil_l in HL as <-. iRight. iRight. by iSplit.
Qed.
Lemma wp_free_heap w p n L (Q : unit → hprop) : allocator w ((p, n) :: L) ∗ blk p n ⊢ (allocator w L -∗ Q tt) -∗ wp (Free_ p) Q.
Proof.
  iIntros "[[(%a & %f & %z & M & Hp & T & K & Lk)|[[%Hx _]|[%Hx _]]] D] H"; [|done|done].
  iApply (wp_free av page MORECORE MMAP MUNMAP Hav w p n z L a f with "[Hp D M T K]"); [iSplitL "Hp"; [done|]; iSplitL "D"; [done|];
    iSplitL "M"; [done|]; iSplitL "T"; done|].
  iIntros (f' z') "Hp M T K". iApply "H". iLeft. iExists true, f', z'. iSplitL "M"; [done|]. iSplitL "Hp"; [done|]. iSplitL "T"; [done|].
  iSplitL "K"; done.
Qed.

(** ** The blocks a program has *)

(** Those in the heap and those with pages of their own. *)
Definition arena (w : bool) (Λ : list (Z * Z)) : hprop := ∃ L N, ⌜Λ ≡ₚ L ++ N⌝ ∗ allocator w L ∗ ([∗ list] x ∈ N, Mapped x.1 x.2) ∗ cell errno_at.

Lemma wp_free_ok w p n Λ (Q : unit → hprop) : arena w ((p, n) :: Λ) ∗ blk p n ⊢ (arena w Λ -∗ Q tt) -∗ wp (Free_ p) Q.
Proof.
  iIntros "[(%L & %N & %HΛ & S & Nm & E) D] H". assert (Hin : (p, n) ∈ L ++ N) by (rewrite -HΛ; by left).
  apply elem_of_app in Hin as [Hin|Hin]; apply list_elem_of_split in Hin as (l1 & l2 & ->).
  - iApply (wp_free_heap w p n (l1 ++ l2) with "[$D S]"); [iApply (allocator_perm with "S"); by rewrite -Permutation_middle|]. iIntros "S".
    iApply "H". iExists (l1 ++ l2), N. iSplit; [|by iSplitL "S"; [done|iSplitL "Nm"]]. iPureIntro.
    rewrite -Permutation_middle in HΛ. by apply Permutation_cons_inv in HΛ.
  - rewrite big_sepL_app big_sepL_cons. iDestruct "Nm" as "(N1 & Np & N2)". cbn [fst snd]. iApply (wp_free_mapped w p n L with "[$S $Np $D]").
    iIntros "S". iApply "H". iExists L, (l1 ++ l2). rewrite big_sepL_app. iSplit; [|by iSplitL "S"; [done|iSplitL "N1 N2"; [iSplitL "N1"|]]].
    iPureIntro.
    rewrite app_assoc -Permutation_middle -app_assoc in HΛ. by apply Permutation_cons_inv in HΛ.
Qed.

Definition refused_size (bytes : Z) : Prop := bytes = 0 ∨ REQUEST_OUT_OF_RANGE bytes = true.
Local Notation Malloc_ := (malloc av errno_at page MORECORE MMAP MUNMAP).
Lemma wp_malloc_ok w bytes Λ (Q : Z → hprop) : 0 ≤ bytes → bytes + 2 ^ 22 < 2 ^ 31 ∨ REQUEST_OUT_OF_RANGE bytes = true → arena w Λ ⊢
  (∀ r, (⌜r = 0⌝ ∗ (arena true Λ ∨ ⌜refused_size bytes⌝ ∗ arena w Λ) ∨ ∃ n, ⌜bytes ≤ n ∧ 0 < n ∧ 0 < r ∧ r mod 8 = 0⌝ ∗ arena w ((r, n) :: Λ) ∗ blk r n) -∗ Q r) -∗ wp (Malloc_ bytes) Q.
Proof.
  intros Hb0 Hb. iIntros "(%L & %N & %HΛ & S & Nm & E) H". unfold malloc. destruct (decide (refused_size bytes)) as [Hr|Hr].
  - assert (Em : Malloc_depth 2 bytes = (store32 errno_at ENOMEM ;; mret 0)) by (cbn [malloc_depth]; destruct Hr as [->|Hr]; [done|];
      destruct (bytes =? 0); [done|by rewrite Hr]). rewrite Em. iApply wp_bind. iApply (wp_store_cell with "E"); [done|]. iIntros "E". iApply wp_ret.
      iApply "H". iLeft. iSplit; [done|]. iRight. iSplit; [done|].
    iExists L, N. iSplit; [done|]. iSplitL "S"; [done|]. by iSplitL "Nm".
  - assert (H0 : bytes ≠ 0) by (intros ->; apply Hr; by left).
    assert (Ho : REQUEST_OUT_OF_RANGE bytes = false) by (destruct (REQUEST_OUT_OF_RANGE bytes) eqn:Eo; [destruct Hr; by right|done]).
    destruct Hb as [Hb|]; [|congruence].
    destruct (request_fits bytes ltac:(lia) Hb) as [Hnb Hle]. rewrite malloc_depth_eq //. iApply (wp_search_allocator w L with "[$S $E]"); [done|].
    iIntros (r) "[E [(-> & S)|(%n & %Hok & D & S)]]"; iApply "H".
    + iLeft. iSplit; [done|]. iLeft. iExists L, N. iSplit; [done|]. iSplitL "S"; [by iApply allocator_served|]. by iSplitL "Nm".
    + iRight. destruct Hok as (Hn & Hr0 & Hr8). iExists n. iSplit; [iPureIntro; lia|]. iSplitR "D"; [|done]. iDestruct "S" as "[S|[Mp S]]".
      * iExists ((r, n) :: L), N. iSplit; [iPureIntro; by rewrite HΛ|]. iSplitL "S"; [by iLeft|]. by iSplitL "Nm".
      * iExists L, ((r, n) :: N). iSplit; [iPureIntro; by rewrite -Permutation_middle HΛ|]. iSplitL "S"; [by iApply allocator_served|].
        rewrite big_sepL_cons. iSplitR "E"; [|done]. by iSplitL "Mp".
Qed.
End Arena.
