(* ===== verification/Blocks.v ===== *)
(** * The allocator refines a store of disjoint blocks *)
From Stdlib Require Import ZArith Lia.
From stdpp Require Import base gmap list functions.
From iris.base_logic Require Import upred bi.
From iris.proofmode Require Import proofmode.
From S2P Require Import Prelude Word Sep Malloc MallocHeap MallocFree MallocSys MallocTake MallocBest MallocMore MallocRun Arena.
Open Scope Z_scope.
Open Scope u32_scope.

(** ** The abstract store *)

(** The blocks by their addresses, with their bytes. *)
Abbreviation blocks := (gmap Z (list Z)).
Definition extent (l : list Z) : Z := Z.of_nat (length l).
(** What a program does with them. *)
Inductive request := MallocCall (bytes : Z) | FreeCall (p : Z) | StoreByte (p i b : Z) | LoadByte (p i : Z).
Definition legal (st : blocks) (q : request) : Prop :=
  match q with
  | MallocCall bytes => 0 ≤ bytes ∧ (bytes + 2 ^ 22 < 2 ^ 31 ∨ REQUEST_OUT_OF_RANGE bytes = true)
  | FreeCall p => p = 0 ∨ is_Some (st !! p)
  | StoreByte p i b => is_byte b ∧ ∃ l, st !! p = Some l ∧ 0 ≤ i < extent l
  | LoadByte p i => ∃ l, st !! p = Some l ∧ 0 ≤ i < extent l
  end.
(** The request, its result and the store after it. No block is a failure, and only for a request
    that cannot be served or when the system refused memory, then or before ([w]). *)
Inductive answers (w : bool) (st : blocks) : request → Z → blocks → Prop :=
  | answers_none bytes : w = true ∨ refused_size bytes → answers w st (MallocCall bytes) 0 st
  | answers_block bytes r l : bytes ≤ extent l → 0 < r → r mod 8 = 0 → (∀ p l', st !! p = Some l' → p + extent l' ≤ r ∨ r + extent l ≤ p) →
      answers w st (MallocCall bytes) r (<[r := l]> st)
  | answers_free p l : st !! p = Some l → answers w st (FreeCall p) 0 (delete p st)
  | answers_free_null : answers w st (FreeCall 0) 0 st
  | answers_store p i b l : st !! p = Some l → 0 ≤ i < extent l → answers w st (StoreByte p i b) 0 (<[p := <[Z.to_nat i := b]> l]> st)
  | answers_load p i b l : st !! p = Some l → 0 ≤ i → l !! Z.to_nat i = Some b → answers w st (LoadByte p i) b st.
Inductive history_of : bool → blocks → list (request * Z) → Prop :=
  | history_nil : history_of false ∅ []
  | history_snoc w w' st st' h q r : history_of w st h → later w w' → answers w' st q r st' → history_of w' st' (h ++ [(q, r)]).

(** ** Bytes of blocks *)

Definition bytesp (p : Z) (l : list Z) : hprop := [∗ list] k ↦ b ∈ l, ⌜is_byte b⌝ ∗ pt (p + Z.of_nat k) b.
Lemma bytesp_cons p b l : bytesp p (b :: l) ⊣⊢ (⌜is_byte b⌝ ∗ pt p b) ∗ bytesp (p + 1) l.
Proof.
  unfold bytesp. rewrite big_sepL_cons. cbn [Z.of_nat]. rewrite Z.add_0_r. do 2 f_equiv. intros k x.
  by replace (p + Z.of_nat (S k)) with (p + 1 + Z.of_nat k) by lia.
Qed.
Lemma blk_cons a n : 0 < n → blk a n ⊣⊢ blk a 1 ∗ blk (a + 1) (n - 1).
Proof. intros Hn. apply blk_cut. lia. Qed.
Lemma blk_bytes n a : blk a (Z.of_nat n) ⊣⊢ ∃ l, ⌜length l = n⌝ ∗ bytesp a l.
Proof.
  revert a. induction n as [|n IH]; intros a.
  - iSplit; [iIntros "_"; iExists []; by rewrite /bytesp /=|iIntros "_"; by iApply blk_nil].
  - rewrite blk_cons; [|lia]. replace (Z.of_nat (S n) - 1) with (Z.of_nat n) by lia. rewrite IH blk_byte. iSplit.
    + iIntros "[(%b & %Hb & P) (%l & %Hl & L)]". iExists (b :: l). rewrite bytesp_cons. iFrame. iPureIntro. cbn. split; [by f_equal|done].
    + iIntros "(%l & %Hl & L)". destruct l as [|b l]; [done|]. rewrite bytesp_cons. iDestruct "L" as "[[%Hb P] L]".
      iSplitL "P"; [iExists b; by iFrame|]. iExists l. iFrame. iPureIntro. by injection Hl.
Qed.
Lemma blk_bytes_Z n a : 0 ≤ n → blk a n ⊣⊢ ∃ l, ⌜extent l = n⌝ ∗ bytesp a l.
Proof. intros Hn. rewrite -{1}(Z2Nat.id n Hn) blk_bytes. f_equiv. intros l. f_equiv. f_equiv. unfold extent. lia. Qed.
Lemma bytesp_at p l i b : l !! i = Some b → bytesp p l ⊢ (⌜is_byte b⌝ ∗ pt (p + Z.of_nat i) b) ∗ ∀ c, ⌜is_byte c⌝ -∗ pt (p + Z.of_nat i) c -∗
  bytesp p (<[i := c]> l).
Proof.
  intros Hi. unfold bytesp. rewrite (big_sepL_insert_acc _ _ _ _ Hi). iIntros "[$ H]" (c) "Hc P". iApply "H". iFrame.
Qed.
(** Blocks do not overlap. *)
Lemma bytesp_apart p l q k : l ≠ [] → k ≠ [] → bytesp p l ∗ bytesp q k ⊢ ⌜p + extent l ≤ q ∨ q + extent k ≤ p⌝.
Proof.
  intros Hl Hk. iIntros "[L K]". assert (0 < extent l) by (destruct l; [done|unfold extent; cbn; lia]).
  assert (0 < extent k) by (destruct k; [done|unfold extent; cbn; lia]). unfold extent in *.
  destruct (decide (p + Z.of_nat (length l) ≤ q ∨ q + Z.of_nat (length k) ≤ p)) as [|Hn]; [done|].
  assert (∃ i j, (i < length l)%nat ∧ (j < length k)%nat ∧ p + Z.of_nat i = q + Z.of_nat j) as (i & j & Hi & Hj & E).
  { destruct (Z.le_ge_cases p q); [exists (Z.to_nat (q - p)), 0%nat|exists 0%nat, (Z.to_nat (p - q))]; lia. }
  destruct (lookup_lt_is_Some_2 l i Hi) as [b Eb]. destruct (lookup_lt_is_Some_2 k j Hj) as [c Ec].
  iDestruct (bytesp_at _ _ _ _ Eb with "L") as "[[_ P] _]". iDestruct (bytesp_at _ _ _ _ Ec with "K") as "[[_ P'] _]". rewrite E.
  iDestruct (pt_exclusive with "P P'") as "[]".
Qed.

Section Refinement.
Context (av errno_at page : Z) (MORECORE MMAP : Z → M mem Z) (MUNMAP : Z → Z → M mem unit) `{!System page MORECORE MMAP MUNMAP}.
Hypothesis Hav : 0 < av ∧ av + 888 ≤ 2 ^ 32.
Local Notation Arena := (arena av errno_at page MORECORE MMAP MUNMAP).

Definition serve (q : request) : M mem Z :=
  match q with
  | MallocCall bytes => malloc av errno_at page MORECORE MMAP MUNMAP bytes
  | FreeCall p => free av page MORECORE MUNMAP p ;; mret 0
  | StoreByte p i b => store8 (p + i) b ;; mret 0
  | LoadByte p i => load8 (p + i)
  end.
(** A program is what it asks for next, after the requests and the results so far. *)
Fixpoint play (next : list (request * Z) → request) (n : nat) (h : list (request * Z)) : M mem (list (request * Z)) :=
  match n with O => mret h | Datatypes.S n => r ← serve (next h); play next n (h ++ [(next h, r)]) end.

(** ** The refinement *)

(** The memory holds the blocks of the store, and the allocator has the rest. *)
Definition ranges (st : blocks) : list (Z * Z) := (λ x, (x.1, extent x.2)) <$> map_to_list st.
Definition holding (w : bool) (st : blocks) : hprop := (∃ Λ, ⌜Λ ≡ₚ ranges st ∧ map_Forall (λ _ l, l ≠ []) st⌝ ∗ Arena w Λ) ∗
  [∗ map] p ↦ l ∈ st, bytesp p l.

Lemma ranges_insert st p l : st !! p = None → ranges (<[p := l]> st) ≡ₚ (p, extent l) :: ranges st.
Proof. intros Hp. unfold ranges. by rewrite map_to_list_insert. Qed.
Lemma ranges_delete st p l : st !! p = Some l → ranges st ≡ₚ (p, extent l) :: ranges (delete p st).
Proof. intros Hp. rewrite -{1}(insert_delete_id st p l Hp). apply ranges_insert, lookup_delete_eq. Qed.
Lemma ranges_store st p l l' : st !! p = Some l → extent l' = extent l → ranges (<[p := l']> st) ≡ₚ ranges st.
Proof. intros Hp He. rewrite -insert_delete_eq ranges_insert ?lookup_delete_eq // He. symmetry. by apply ranges_delete. Qed.

Lemma blocks_apart st r l : l ≠ [] → map_Forall (λ _ l, l ≠ []) st → bytesp r l ∗ ([∗ map] p ↦ l ∈ st, bytesp p l) ⊢ ⌜∀ p l', st !! p = Some l' →
  p + extent l' ≤ r ∨ r + extent l ≤ p⌝.
Proof.
  intros Hl Hst. iIntros "[L S]" (p l' Hp). iDestruct (big_sepM_lookup _ _ _ _ Hp with "S") as "L'".
  iDestruct (bytesp_apart p l' r l with "[$L' $L]") as %H; [by apply (Hst p)|done|]. done.
Qed.

Lemma serve_malloc w st bytes : legal st (MallocCall bytes) → holding w st ⊢
  wp (serve (MallocCall bytes)) (λ r, ∃ w' st', ⌜later w w' ∧ answers w' st (MallocCall bytes) r st'⌝ ∗ holding w' st').
Proof.
  intros [H0 Hb]. iIntros "[(%Λ & (%HΛ & %Hne) & A) S]". cbn [serve].
  iApply (wp_malloc_ok av errno_at page MORECORE MMAP MUNMAP Hav w bytes Λ with "A"); [done|done|].
  iIntros (r) "[[-> [A|[%Hr A]]]|(%n & (%Hn & %Hn0 & %Hr0 & %Hr8) & A & D)]".
  - iExists true, st. iSplit; [iPureIntro; split; [done|]; constructor; by left|]. iSplitR "S"; [|done]. iExists Λ. by iSplit.
  - iExists w, st. iSplit; [iPureIntro; split; [done|]; constructor; by right|]. iSplitR "S"; [|done]. iExists Λ. by iSplit.
  - rewrite blk_bytes_Z; [|lia]. iDestruct "D" as (l Hl) "D". assert (Hlne : l ≠ []) by (intros ->; unfold extent in Hl; cbn in Hl; lia).
    iDestruct (blocks_apart st r l with "[$D $S]") as %Hap; [done|done|].
    assert (Hfr : st !! r = None). { destruct (st !! r) as [l'|] eqn:E; [|done]. specialize (Hap r l' E). specialize (Hne r l' E). destruct l' as [|x l']; [done|]. unfold extent in *. cbn in Hap. destruct l; [done|]. cbn in Hap. lia. }
    iExists w, (<[r := l]> st). iSplit; [iPureIntro; split; [done|]; apply answers_block; (done || lia)|]. iSplitL "A".
    + iExists ((r, n) :: Λ). iFrame "A". iPureIntro. split; [by rewrite ranges_insert // Hl HΛ|]. by apply map_Forall_insert_2.
    + rewrite big_sepM_insert //. iFrame.
Qed.
Lemma serve_free w st p : legal st (FreeCall p) → holding w st ⊢
  wp (serve (FreeCall p)) (λ r, ∃ w' st', ⌜later w w' ∧ answers w' st (FreeCall p) r st'⌝ ∗ holding w' st').
Proof.
  intros Hp. iIntros "[(%Λ & (%HΛ & %Hne) & A) S]". cbn [serve]. iApply wp_bind. destruct (decide (p = 0)) as [->|Hp0].
  - unfold free. cbn [Z.eqb]. iApply wp_ret. iApply wp_ret. iExists w, st. iSplit; [iPureIntro; split; [done|constructor]|]. iSplitR "S"; [|done].
    iExists Λ. by iSplit.
  - destruct Hp as [|[l Hp]]; [done|]. rewrite (big_sepM_delete _ st p l Hp). iDestruct "S" as "[L S]".
    iApply (wp_free_ok av errno_at page MORECORE MMAP MUNMAP Hav w p (extent l) (ranges (delete p st)) with "[A L]").
    + iSplitL "A"; [|iApply blk_bytes_Z; [unfold extent; lia|]; iExists l; by iFrame]. iDestruct "A" as (L N) "(%HLN & A)". iExists L, N. iFrame "A".
      iPureIntro. by rewrite -HLN HΛ (ranges_delete st p l).
    + iIntros "A". iApply wp_ret. iExists w, (delete p st). iSplit; [iPureIntro; split; [done|by apply (answers_free _ _ _ l)]|].
      iSplitR "S"; [|done]. iExists _. iFrame "A". iPureIntro. split; [done|]. by apply map_Forall_delete.
Qed.
Lemma serve_store w st p i b : legal st (StoreByte p i b) → holding w st ⊢
  wp (serve (StoreByte p i b)) (λ r, ∃ w' st', ⌜later w w' ∧ answers w' st (StoreByte p i b) r st'⌝ ∗ holding w' st').
Proof.
  intros (Hb & l & Hp & Hi). iIntros "[(%Λ & (%HΛ & %Hne) & A) S]". cbn [serve].
  destruct (lookup_lt_is_Some_2 l (Z.to_nat i)) as [c Ec]; [unfold extent in Hi; lia|].
  rewrite (big_sepM_delete _ st p l Hp). iDestruct "S" as "[L S]". iDestruct (bytesp_at _ _ _ _ Ec with "L") as "[[_ P] L]".
  replace (p + Z.of_nat (Z.to_nat i)) with (p + i) by lia. iApply wp_bind. iApply (wp_store8 with "P"). iIntros "P". iApply wp_ret.
  iExists w, _. iSplit; [iPureIntro; split; [done|by apply answers_store]|]. iDestruct ("L" with "[//] P") as "L". iSplitL "A".
  - iExists Λ. iFrame "A". iPureIntro. split; [rewrite (ranges_store st p l) //; unfold extent; by rewrite length_insert|].
    apply map_Forall_insert_2; [|done]. intros E. apply (f_equal length) in E. rewrite length_insert in E. specialize (Hne p l Hp). by destruct l.
  - rewrite -insert_delete_eq big_sepM_insert ?lookup_delete_eq //. iFrame.
Qed.
Lemma serve_load w st p i : legal st (LoadByte p i) → holding w st ⊢
  wp (serve (LoadByte p i)) (λ r, ∃ w' st', ⌜later w w' ∧ answers w' st (LoadByte p i) r st'⌝ ∗ holding w' st').
Proof.
  intros (l & Hp & Hi). iIntros "[A S]". cbn [serve]. destruct (lookup_lt_is_Some_2 l (Z.to_nat i)) as [c Ec]; [unfold extent in Hi; lia|].
  iDestruct (big_sepM_lookup_acc _ _ _ _ Hp with "S") as "[L S]". iDestruct (bytesp_at _ _ _ _ Ec with "L") as "[[%Hc P] L]".
  replace (p + Z.of_nat (Z.to_nat i)) with (p + i) by lia. iApply (wp_load8 with "P"). iIntros "P".
  iExists w, st. iSplit; [iPureIntro; split; [done|apply (answers_load _ _ _ _ _ l); [done|lia|done]]|]. iFrame "A". iApply "S".
  iSpecialize ("L" $! c with "[//] P"). by rewrite list_insert_id.
Qed.
Lemma serve_ok w st q : legal st q → holding w st ⊢ wp (serve q) (λ r, ∃ w' st', ⌜later w w' ∧ answers w' st q r st'⌝ ∗ holding w' st').
Proof. destruct q; [apply serve_malloc|apply serve_free|apply serve_store|apply serve_load]. Qed.

Lemma play_ok next : (∀ w st h, history_of w st h → legal st (next h)) → ∀ n w st h, history_of w st h → holding w st ⊢
  wp (play next n h) (λ h', ∃ w' st', ⌜history_of w' st' h' ∧ length h' = (n + length h)%nat⌝ ∗ holding w' st').
Proof.
  intros Hlegal. induction n as [|n IH]; intros w st h Hh; cbn [play].
  - iIntros "H". iApply wp_ret. iExists w, st. by iFrame.
  - iIntros "H". iApply wp_bind. iApply (wp_frame_wand with "[H]"); [iApply (serve_ok with "H"); by apply (Hlegal w)|].
    iIntros (r) "(%w' & %st' & [%Hw %Ha] & H)". iApply (wp_frame_wand with "[H]"); [iApply (IH with "H");
      exact (history_snoc w w' st st' h (next h) r Hh Hw Ha)|].
    iIntros (h') "(%w2 & %st2 & [%Hh' %Hl] & H)". iExists w2, st2. iFrame. iPureIntro. split; [done|]. rewrite Hl length_app /=. lia.
Qed.

(** ** The first state *)

(** Zeroed [malloc_state], [errno], and the program's break. *)
Definition zeros (a n : Z) : hprop := [∗ list] x ∈ seqZ a n, pt x 0.
Definition initial : hprop := zeros av 888 ∗ cell errno_at ∗ ∃ e, brk_at false e ∗ ⌜e mod 8 = 0⌝.

(** The words [i] to [i + n] of [malloc_state]. *)
Definition zero_words (i n : Z) : hprop := [∗ list] j ∈ seqZ i n, wordp (av + 4 * j) 0.
Lemma zero_word a : zeros a 4 ⊢ wordp a 0.
Proof.
  unfold zeros. change (seqZ a 4) with ((λ i, Z.of_nat i + a) <$> seq 0 4). cbn [seq fmap list_fmap big_opL]. change (Z.of_nat 0) with 0.
  change (Z.of_nat 1) with 1. change (Z.of_nat 2) with 2. change (Z.of_nat 3) with 3.
  rewrite !(Z.add_comm _ a) Z.add_0_r. iIntros "(P0 & P1 & P2 & P3 & _)". iExists 0, 0, 0, 0. iSplit; [done|]. iSplitL "P0"; [done|].
  iSplitL "P1"; [done|]. by iSplitL "P2".
Qed.
Lemma zeros_words n i : zeros (av + 4 * i) (4 * Z.of_nat n) ⊢ zero_words i (Z.of_nat n).
Proof.
  revert i. induction n as [|n IH]; intros i; [rewrite /zero_words seqZ_nil // ; by iIntros "_"|].
  replace (4 * Z.of_nat (S n)) with (4 + 4 * Z.of_nat n) by lia. unfold zeros at 1. rewrite seqZ_app; [|lia..]. rewrite big_sepL_app.
  iIntros "[H1 H2]".
  unfold zero_words. rewrite (seqZ_cons i (Z.of_nat (S n))); [|lia]. cbn [big_opL]. iSplitL "H1"; [by iApply zero_word|].
  replace (Z.pred (Z.of_nat (S n))) with (Z.of_nat n) by lia. iApply (IH (Z.succ i)). by replace (av + 4 * Z.succ i) with (av + 4 * i + 4) by lia.
Qed.
Lemma zero_words_split i n k : 0 ≤ n → 0 ≤ k → zero_words i (n + k) ⊣⊢ zero_words i n ∗ zero_words (i + n) k.
Proof. intros Hn Hk. unfold zero_words. rewrite seqZ_app; [|lia..]. by rewrite big_sepL_app. Qed.
Lemma zero_words_first i n : 0 < n → zero_words i n ⊣⊢ wordp (av + 4 * i) 0 ∗ zero_words (i + 1) (n - 1).
Proof. intros Hn. unfold zero_words. rewrite (seqZ_cons i n); [|lia]. by replace (n - 1) with (Z.pred n) by lia. Qed.
Lemma zero_bins n i : 1 ≤ i → i + Z.of_nat n ≤ NBINS → zero_words (13 + 2 * i) (2 * Z.of_nat n) ⊢ [∗ list] j ∈ seqZ i (Z.of_nat n), bin_words av j.
Proof.
  revert i. induction n as [|n IH]; intros i Hi Hn; [rewrite (seqZ_nil i) // ; by iIntros "_"|]. rewrite (seqZ_cons i (Z.of_nat (S n))); [|lia].
  cbn [big_opL]. rewrite zero_words_first ?(zero_words_first (13 + 2 * i + 1) (2 * Z.of_nat (S n) - 1)); [|lia..]. iIntros "(W1 & W2 & H)".
  iSplitL "W1 W2".
  - unfold bin_words. rewrite (bin_at_eq av Hav i); [|lia].
    iSplitL "W1"; iExists 0; [by replace (av + 44 + 8 * i + 8) with (av + 4 * (13 + 2 * i)) by lia|by replace (av + 44 + 8 * i + 12) with (av + 4 * (13 + 2 * i + 1)) by lia].
  - replace (Z.pred (Z.of_nat (S n))) with (Z.of_nat n) by lia. iApply (IH (Z.succ i)); [lia|lia|].
    replace (13 + 2 * Z.succ i) with (13 + 2 * i + 1 + 1) by lia. by replace (2 * Z.of_nat n) with (2 * Z.of_nat (S n) - 1 - 1) by lia.
Qed.
Lemma zero_fastbins n i : 0 ≤ i → i + Z.of_nat n ≤ NFASTBINS → zero_words (1 + i) (Z.of_nat n) ⊢
  [∗ list] j ∈ seqZ i (Z.of_nat n), ∃ h, wordp (fastbins av j) h ∗ chain h [].
Proof.
  revert i. induction n as [|n IH]; intros i Hi Hn; [rewrite (seqZ_nil i) // ; by iIntros "_"|]. rewrite (seqZ_cons i (Z.of_nat (S n))); [|lia].
  cbn [big_opL]. rewrite zero_words_first; [|lia]. iIntros "(W & H)". iSplitL "W".
  - iExists 0. rewrite (fastbins_eq av Hav i); [|lia]. replace (av + 4 + 4 * i) with (av + 4 * (1 + i)) by lia. by iFrame.
  - replace (Z.pred (Z.of_nat (S n))) with (Z.of_nat n) by lia. iApply (IH (Z.succ i)); [lia|lia|]. replace (1 + Z.succ i) with (1 + i + 1) by lia.
    by replace (Z.of_nat n) with (Z.of_nat (S n) - 1) by lia.
Qed.
Lemma field_word k w f : f = av +u w → w = 4 * k → 0 ≤ k < 222 → wordp (av + 4 * k) 0 ⊢ wordp f 0.
Proof. intros -> -> Hk. by rewrite (u32_small (av + 4 * k)); [|lia]. Qed.
Lemma field_cell k w f : f = av +u w → w = 4 * k → 0 ≤ k < 222 → wordp (av + 4 * k) 0 ⊢ cell f.
Proof. intros Hf Hw Hk. rewrite (field_word k w f) //. iIntros "W". by iExists 0. Qed.
Lemma one_word i : zero_words i 1 ⊢ wordp (av + 4 * i) 0.
Proof. rewrite zero_words_first; [|lia]. by iIntros "[$ _]". Qed.
Lemma one_cell i : zero_words i 1 ⊢ cell (av + 4 * i).
Proof. rewrite one_word. iIntros "W". by iExists 0. Qed.
Lemma zero_cells n i : zero_words i (Z.of_nat n) ⊢ [∗ list] j ∈ seqZ i (Z.of_nat n), cell (av + 4 * j).
Proof. unfold zero_words. f_equiv. intros k x. iIntros "W". by iExists 0. Qed.
Lemma cell_at k : 0 ≤ k < 222 → cell (av + 4 * k) ⊢ cell (av +u 4 * k).
Proof. intros Hk. by rewrite (u32_small (av + 4 * k)); [|lia]. Qed.
Lemma field_at k v : 0 ≤ k < 222 → wordp (av + 4 * k) v ⊢ wordp (av +u 4 * k) v.
Proof. intros Hk. by rewrite (u32_small (av + 4 * k)); [|lia]. Qed.
Lemma zero_tune : zero_words 209 13 ⊢ fresh_tune av ∗ cell (morecore_properties av).
Proof.
  rewrite (zero_cells 13 209). change (seqZ 209 13%nat) with [209; 210; 211; 212; 213; 214; 215; 216; 217; 218; 219; 220; 221]. cbn [big_opL].
  iIntros "(H1 & H2 & H3 & H4 & H5 & H6 & H7 & H8 & H9 & H10 & H11 & H12 & H13 & _)". unfold fresh_tune. iSplitR "H8"; [|by iApply (cell_at 216)].
  iSplitL "H1"; [by iApply (cell_at 209)|]. iSplitL "H2"; [by iApply (cell_at 210)|]. iSplitL "H3"; [by iApply (cell_at 211)|].
  iSplitL "H4"; [by iApply (cell_at 212)|].
  iSplitL "H5"; [by iApply (cell_at 213)|]. iSplitL "H6"; [by iApply (cell_at 214)|]. iSplitL "H7"; [by iApply (cell_at 215)|].
  iSplitL "H9"; [by iApply (cell_at 217)|].
  iSplitL "H10"; [by iApply (cell_at 218)|]. iSplitL "H11"; [by iApply (cell_at 219)|].
  iSplitL "H12"; [by iApply (cell_at 220)|by iApply (cell_at 221)].
Qed.
Lemma zero_maps : zero_words 12 1 ∗ zero_words 205 3 ∗ zero_words 208 1 ⊢ maps av.
Proof.
  rewrite one_cell (zero_cells 3 205) one_word. change (seqZ 205 3%nat) with [205; 206; 207]. cbn [big_opL]. iIntros "(H & (H1 & H2 & H3 & _) & H4)".
  unfold maps. iSplitL "H"; [by iApply (cell_at 12)|].
  unfold binmap. change (820 + SIZE_SZ * 3) with (4 * 208). iSplitR "H4"; [|by iApply (field_at 208)]. change (seqZ 0 3) with [0; 1; 2].
  cbn [big_opL].
  change (820 + SIZE_SZ * 0) with (4 * 205). change (820 + SIZE_SZ * 1) with (4 * 206). change (820 + SIZE_SZ * 2) with (4 * 207).
  iSplitL "H1"; [by iApply (cell_at 205)|]. iSplitL "H2"; [by iApply (cell_at 206)|]. iSplitL; [by iApply (cell_at 207)|done].
Qed.

Lemma initial_blank : initial ⊢ blank av page MORECORE MMAP MUNMAP false ∗ cell errno_at.
Proof.
  iIntros "(Z & $ & (%e & K & %He))". iDestruct (zeros_words 222 0 with "[Z]") as "W"; [by replace (av + 4 * 0) with av by lia|].
  change (Z.of_nat 222) with (1 + (10 + (1 + (1 + (2 + (2 * Z.of_nat 95 + (3 + (1 + 13)))))))).
  rewrite !zero_words_split; [|lia..]. iDestruct "W" as "(W0 & Wf & Wt & Wl & Wb & Wbins & Wm & Wm3 & W)". iDestruct (one_word with "W0") as "W0".
  rewrite (zero_words_first (0 + 1 + 10 + 1 + 1)); [|lia]. iDestruct "Wb" as "[_ Wb]". iDestruct (one_word with "Wb") as "Wb".
  iDestruct (zero_fastbins 10 0 with "Wf") as "Wf"; [done|done|]. iDestruct (zero_bins 95 1 with "Wbins") as "Wbins"; [done|done|].
  iDestruct (zero_tune with "W") as "[T P]".
  unfold blank, max_fast. iSplitL "W0"; [by replace (av + 4 * 0) with av by lia|]. iSplitL "Wt"; [by iApply (cell_at 11); [done|iApply one_cell]|].
  iSplitL "Wb"; [by replace (av + 56) with (av + 4 * (0 + 1 + 10 + 1 + 1 + 1)) by lia|].
  iSplitL "Wf"; [done|]. iSplitL "Wbins"; [done|]. iSplitL "T"; [done|]. iSplitL "P"; [done|]. iSplitL "K"; [by iExists false, e; iFrame|].
  iApply zero_maps. iSplitL "Wl"; [done|]. iSplitL "Wm"; done.
Qed.
Lemma initial_holding : initial ⊢ holding false ∅.
Proof.
  iIntros "H". iDestruct (initial_blank with "H") as "[B E]". unfold holding. iSplit; [|by rewrite big_sepM_empty]. iExists [].
  iSplit; [iPureIntro; split; [by rewrite /ranges map_to_list_empty|done]|]. iExists [], []. iSplit; [done|]. iSplitL "B"; [|by iSplit].
  iRight. iRight. by iSplit.
Qed.

(** ** From the first call on *)

Lemma holding_byte w st p l k b : st !! p = Some l → l !! k = Some b → holding w st ⊢ pt (p + Z.of_nat k) b.
Proof. intros Hp Hb. iIntros "[_ S]". iDestruct (big_sepM_lookup _ _ _ _ Hp with "S") as "L".
iDestruct (bytesp_at _ _ _ _ Hb with "L") as "[[_ $] _]". Qed.
(** What the system says. *)
Lemma holding_brk w st : holding w st ⊢ ∃ w' e, ⌜later w w'⌝ ∗ brk_at w' e.
Proof.
  iIntros "[(%Λ & _ & (%L & %N & _ & S & _)) _]".
  iDestruct "S" as "[(%a & %f & %z & _ & _ & _ & (%w' & %e & %c & Hw & K & _) & _)|[(_ & _ & _ & (%w' & %e & %c & Hw & K & _) & _)|(_ & _ & _ & _ & _ & _ & _ & _ & (%w' & %e & Hw & K & _) & _)]]"; iExists w', e; iFrame.
Qed.
End Refinement.

(** ** Programs that keep track of their blocks *)

(** The blocks a program was given, with the sizes it asked for. *)
Definition track (sz : gmap Z Z) (x : request * Z) : gmap Z Z :=
  match x.1 with
  | MallocCall bytes => if x.2 =? 0 then sz else <[x.2 := bytes]> sz
  | FreeCall p => delete p sz
  | _ => sz
  end.
Definition sizes (h : list (request * Z)) : gmap Z Z := foldl track ∅ h.
Definition within (sz : gmap Z Z) (p i : Z) : bool := match sz !! p with Some n => (0 <=? i) && (i <? n) | None => false end.
Definition allowed (sz : gmap Z Z) (q : request) : bool :=
  match q with
  | MallocCall bytes => (0 <=? bytes) && ((bytes + 2 ^ 22 <? 2 ^ 31) || REQUEST_OUT_OF_RANGE bytes)
  | FreeCall p => (p =? 0) || bool_decide (is_Some (sz !! p))
  | StoreByte p i b => (0 <=? b) && (b <? 2 ^ 8) && within sz p i
  | LoadByte p i => within sz p i
  end.
(** What is not allowed is left out. *)
Definition careful (next : list (request * Z) → request) (h : list (request * Z)) : request := if allowed (sizes h) (next h) then next h else MallocCall 0.

Definition tracked (st : blocks) (sz : gmap Z Z) : Prop := ∀ p n, sz !! p = Some n → ∃ l, st !! p = Some l ∧ n ≤ extent l.
Lemma track_ok w st q r st' sz : answers w st q r st' → tracked st sz → tracked st' (track sz (q, r)).
Proof.
  intros Ha Hs p n. destruct Ha as [bytes _|bytes r l Hl Hr _ _|p' l Hp'| |p' i b l Hp' Hi|p' i b l Hp' Hi Hb]; cbn [track fst snd]; auto.
  - rewrite (proj2 (Z.eqb_neq r 0)); [|lia]. destruct (decide (p = r)) as [->|Hn]; [rewrite lookup_insert_eq; intros [= <-]; exists l;
      by rewrite lookup_insert_eq|]. rewrite !lookup_insert_ne //. apply Hs.
  - intros E. apply lookup_delete_Some in E as [Hn E]. rewrite lookup_delete_ne //. by apply Hs.
  - intros E. apply lookup_delete_Some in E as [Hn E]. by apply Hs.
  - intros E. destruct (Hs p n E) as (k & Ek & Hk). destruct (decide (p = p')) as [->|Hn]; [|exists k; by rewrite lookup_insert_ne].
    rewrite Hp' in Ek. injection Ek as <-. exists (<[Z.to_nat i := b]> l). rewrite lookup_insert_eq /extent length_insert. by split.
Qed.
Lemma history_tracked w st h : history_of w st h → tracked st (sizes h).
Proof.
  induction 1 as [|w w' st st' h q r H IH Hw Ha]; [intros p n E; by rewrite lookup_empty in E|]. unfold sizes. rewrite foldl_snoc.
  by apply (track_ok w' st q r st').
Qed.
Lemma within_ok st sz p i : tracked st sz → within sz p i = true → ∃ l, st !! p = Some l ∧ 0 ≤ i < extent l.
Proof. intros Hs. unfold within. destruct (sz !! p) as [n|] eqn:E; [|done]. destruct (Hs p n E) as (l & Hp & Hn). intros Hi. exists l. split; [done|].
lia. Qed.
Lemma careful_legal next w st h : history_of w st h → legal st (careful next h).
Proof.
  intros Hh. apply history_tracked in Hh. unfold careful. destruct (allowed (sizes h) (next h)) eqn:Ha; [|split; [done|by left]].
  destruct (next h) as [bytes|p|p i b|p i]; cbn [allowed legal] in *.
  - apply andb_true_iff in Ha as [H0 Ha]. apply orb_true_iff in Ha. split; [lia|]. destruct Ha as [Ha|Ha]; [left; lia|by right].
  - apply orb_true_iff in Ha as [Ha|Ha]; [left; lia|right]. apply bool_decide_eq_true in Ha as [n Hn]. destruct (Hh p n Hn) as (l & Hl & _).
    by exists l.
  - apply andb_true_iff in Ha as [Hb Ha]. split; [unfold is_byte; lia|]. by apply (within_ok st (sizes h)).
  - by apply (within_ok st (sizes h)).
Qed.

(** ** A system with a region of memory *)

Section Region.
(** The words for how far the break is into the region and for whether memory was refused; the region. *)
Context (moved denied LO LIMIT : Z).
Hypothesis HLO : 0 < LO ∧ LIMIT < 2 ^ 32.
Definition region_sbrk (n : Z) : M mem Z :=
  d ← load32 moved;
  if n <=? 0 then (if 0 <=? d + n then store32 moved (d + n) ;; mret (LO + d) else mret MORECORE_FAILURE)
  else if LO + d + n <=? LIMIT then store32 moved (d + n) ;; mret (LO + d)
  else store32 denied 1 ;; mret MORECORE_FAILURE.
Definition region_mmap (n : Z) : M mem Z := store32 denied 1 ;; mret MORECORE_FAILURE.
Definition region_munmap (a n : Z) : M mem unit := mret tt.
Definition region_at (w : bool) (e : Z) : hprop := ⌜LO ≤ e ≤ LIMIT⌝ ∗ wordp moved (e - LO) ∗ wordp denied (Z.b2z w) ∗ blk e (LIMIT - e).

Lemma region_refuse w e (Q : Z → hprop) : region_at w e ⊢ (region_at true e -∗ Q MORECORE_FAILURE) -∗
  wp (store32 denied 1 ;; mret MORECORE_FAILURE) Q.
Proof. iIntros "(%He & Wm & Wd & D) H". wget wp_store32 with "Wd". iApply wp_ret. iApply "H". by iFrame. Qed.
Lemma region_move w e n (Q : Z → hprop) : LO ≤ e + n ≤ LIMIT → ⌜LO ≤ e ≤ LIMIT⌝ ∗ wordp moved (e - LO) ∗ wordp denied (Z.b2z w) ∗
  blk (e + n) (LIMIT - (e + n)) ⊢
  (region_at w (e + n) -∗ Q e) -∗ wp (store32 moved (e - LO + n) ;; mret (LO + (e - LO))) Q.
Proof.
  intros Hn. iIntros "(%He & Wm & Wd & D) H". wget wp_store32 with "Wm". iApply wp_ret. replace (LO + (e - LO)) with e by lia. iApply "H".
  iSplit; [done|]. replace (e - LO + n) with (e + n - LO) by lia. iFrame.
Qed.
#[local] Instance region_system : System 4096 region_sbrk region_mmap region_munmap.
Proof.
  refine {| brk_at := region_at |}.
  - by exists 12.
  - intros w e. iIntros "[%He _]". iPureIntro. lia.
  - intros w e Q. iIntros "(%He & Wm & Wd & D) H". unfold region_sbrk. wget wp_load32 with "Wm". cbn [Z.leb Z.compare].
    rewrite (proj2 (Z.leb_le 0 (e - LO + 0))); [|lia]. iApply (region_move w e 0 with "[Wm Wd D]"); [lia| |by rewrite Z.add_0_r]. rewrite Z.add_0_r.
    by iFrame.
  - intros w e n Q Hn. iIntros "(%He & Wm & Wd & D) H". unfold region_sbrk. wget wp_load32 with "Wm". rewrite (proj2 (Z.leb_gt n 0)); [|lia].
    destruct (Z.leb_spec (LO + (e - LO) + n) LIMIT) as [Hle|_].
    + iDestruct "H" as "[H _]". rewrite (blk_cut e (LIMIT - e) n); [|lia]. iDestruct "D" as "[D1 D2]".
      iApply (region_move w e n with "[Wm Wd D2]"); [lia| |iIntros "K"; iApply ("H" with "K D1")].
      replace (LIMIT - (e + n)) with (LIMIT - e - n) by lia. by iFrame.
    + iDestruct "H" as "[_ H]". iApply (region_refuse w e with "[Wm Wd D] H"). by iFrame.
  - intros w e n Q Hn. iIntros "[D0 (%He & Wm & Wd & D)] H". unfold region_sbrk. wget wp_load32 with "Wm". rewrite (proj2 (Z.leb_le (- n) 0)); [|lia].
    destruct (Z.leb_spec 0 (e - LO + - n)) as [Hle|_].
    + iDestruct ("H" $! e) as "[H _]". iApply (region_move w e (- n) with "[Wm Wd D0 D]"); [lia| |done]. iSplit; [done|]. iFrame.
      rewrite (blk_cut (e + - n) (LIMIT - (e + - n)) n); [|lia]. replace (e + - n + n) with e by lia.
      replace (LIMIT - (e + - n) - n) with (LIMIT - e) by lia. iFrame.
    + iApply wp_ret. iDestruct ("H" $! MORECORE_FAILURE) as "[_ H]". iApply ("H" with "D0"). by iFrame.
  - intros w e n Q Hn. iIntros "K [_ H]". iApply (region_refuse w e with "K H").
  - intros a n Q Hn. iIntros "_ H". by iApply wp_ret.
Defined.
End Region.

(** ** A first memory of zeros *)

Fixpoint zero_memory (a : Z) (n : nat) : mem := match n with O => ∅ | Datatypes.S n => <[a := 0]> (zero_memory (a + 1) n) end.
Lemma zero_memory_before n a b : b < a → zero_memory a n !! b = None.
Proof. revert a. induction n as [|n IH]; intros a Hb; cbn [zero_memory]; [done|]. rewrite lookup_insert_ne; [|lia]. apply IH. lia. Qed.
Lemma holds_zeros n a : holds (zeros a (Z.of_nat n)) (zero_memory a n).
Proof.
  revert a. induction n as [|n IH]; intros a; cbn [zero_memory].
  - apply (holds_entails ⌜True⌝); [iIntros "_"; by rewrite /zeros|by apply holds_pure].
  - rewrite insert_union_singleton_l. eapply holds_entails; [|apply holds_sep; exists {[a := 0]}, (zero_memory (a + 1) n);
      split; [|split; [done|split; [by apply (holds_pt a 0), lookup_singleton_eq|apply (IH (a + 1))]]]].
    + unfold zeros. rewrite (seqZ_cons a (Z.of_nat (S n))); [|lia]. cbn [big_opL]. replace (Z.pred (Z.of_nat (S n))) with (Z.of_nat n) by lia.
      by iIntros "[$ $]".
    + apply map_disjoint_singleton_l_2, zero_memory_before. lia.
Qed.
Lemma zeros_cut a n k : 0 ≤ k ≤ n → zeros a n ⊢ zeros a k ∗ zeros (a + k) (n - k).
Proof. intros Hk. unfold zeros. replace n with (k + (n - k)) at 1 by lia. rewrite seqZ_app; [|lia..]. by rewrite big_sepL_app. Qed.
Lemma zeros_blk a n : zeros a n ⊢ blk a n.
Proof. unfold zeros, blk. f_equiv. intros k x. iIntros "P". iExists 0. by iFrame. Qed.

(** [malloc_state] at 16, [errno] behind it, the words of the system, and a region from 4096 to 20480. *)
Definition demo_memory : mem := zero_memory 16 (Z.to_nat 20464).
Local Notation demo_system := (region_system 908 912 4096 20480 (conj eq_refl eq_refl)).
Lemma demo_initial : holds (initial 16 904 4096 _ _ _ (System0 := demo_system)) demo_memory.
Proof.
  unfold demo_memory. eapply holds_entails; [|apply holds_zeros]. rewrite Z2Nat.id; [|done].
  rewrite (zeros_cut 16 20464 888); [|done]. rewrite (zeros_cut 904 (20464 - 888) 4); [|done]. rewrite (zeros_cut 908 _ 4); [|done].
  rewrite (zeros_cut 912 _ 4); [|done]. rewrite (zeros_cut 916 _ 3180); [|done].
  iIntros "(S & E & M & D & _ & R)". iSplitL "S"; [done|]. iSplitL "E"; [iExists 0; by iApply zero_word|]. iExists 4096. iSplit; [|done].
  iSplit; [done|]. iSplitL "M"; [by iApply zero_word|]. iSplitL "D"; [by iApply zero_word|]. by iApply zeros_blk.
Qed.
(** Two blocks, one written to and one returned; then one that is larger. *)
Definition demo (h : list (request * Z)) : request :=
  match h with
  | [] => MallocCall 10
  | [(_, p)] => StoreByte p 9 7
  | [_; _] => MallocCall 600
  | [_; _; (_, q)] => FreeCall q
  | [_; _; _; _] => MallocCall 3000
  | (_, p) :: _ => LoadByte p 9
  end.
(** It runs, without a refusal. *)
Lemma demo_runs : match play 16 904 4096 (region_sbrk 908 912 4096 20480) (region_mmap 912) region_munmap (careful demo) 6 [] demo_memory with
  | Ret (h, m) => h = [(MallocCall 10, 4104); (StoreByte 4104 9 7, 0); (MallocCall 600, 4120); (FreeCall 4120, 0); (MallocCall 3000, 4120);
    (LoadByte 4104 9, 7)] ∧ m !! 912 = Some 0
  | _ => False end.
Proof. vm_compute. split; reflexivity. Qed.

(** ** The property *)

Section Property.
Context (av errno_at page : Z) (MORECORE MMAP : Z → M mem Z) (MUNMAP : Z → Z → M mem unit) `{!System page MORECORE MMAP MUNMAP}.
Hypothesis Hav : 0 < av ∧ av + 888 ≤ 2 ^ 32.
Local Notation Initial := (initial av errno_at page MORECORE MMAP MUNMAP).
Local Notation Play := (play av errno_at page MORECORE MMAP MUNMAP).
Local Notation Holding := (holding av errno_at page MORECORE MMAP MUNMAP).

End Property.

