(* ===== verification/SysFile.v ===== *)
(** * File system calls

    [kernel/syscall/fdio.c], [devfs_open_dev] of [kernel/fs/devfs.c] and
    [console_register] of [arch/x86/console.c]: the code that joins the descriptor
    tables, the node tree and the devices.  A call through a function pointer of a
    node or a device looks the function up by name; NULL, an uninitialised pointer, or
    a function of another type is a [BadCall].

    Bytes a call reads through a user pointer are an argument, bytes it writes are a
    result.  A [fd_t] parameter takes the low 16 bits of the register. *)
From Stdlib Require Import ZArith Lia.
From stdpp Require Import base gmap list list_numbers strings.
From S2P Require Import Prelude ListHead CStr TaskState Task Fdio Fs Tmpfs Cpiofs Console.
Open Scope Z_scope.
Open Scope u32_scope.

(** ** State *)

Record kfiles : Type := mkKf { kf_tst : tst; kf_fs : fst_; kf_cons : consst }.
Definition with_kt t s := mkKf t (kf_fs s) (kf_cons s).
Definition with_kf f s := mkKf (kf_tst s) f (kf_cons s).
Definition with_kc c s := mkKf (kf_tst s) (kf_fs s) c.

#[export] Program Instance kf_has_tst : Has kfiles tst := {| proj := kf_tst; embed := with_kt |}.
Next Obligation. done. Qed.
Next Obligation. done. Qed.
Next Obligation. by intros []. Qed.
#[export] Program Instance kf_has_fs : Has kfiles fst_ := {| proj := kf_fs; embed := with_kf |}.
Next Obligation. done. Qed.
Next Obligation. done. Qed.
Next Obligation. by intros []. Qed.
#[export] Program Instance kf_has_cons : Has kfiles consst := {| proj := kf_cons; embed := with_kc |}.
Next Obligation. done. Qed.
Next Obligation. done. Qed.
Next Obligation. by intros []. Qed.

Definition onT {A} (m : M tst A) : M kfiles A := zoom m.
Definition onF {A} (m : M fst_ A) : M kfiles A := zoom m.
Definition onC {A} (m : M consst A) : M kfiles A := zoom m.

Definition ENOENT : Z := 2.
Definition EACCES : Z := 13.
Definition O_CREAT : Z := 64.
Definition TIOCGPGRP : Z := 0x540F.
Definition F_DUPFD : Z := 0.

(** ** Calls through the pointers of a device *)

Definition dev_open (f : cfun) (dev flags : Z) : M kfiles Z :=
  match f with
  | p_console_open => onC (console_open flags)
  | _ => crash BadCall
  end.

Definition dev_write (f : cfun) (dev : Z) (buf : list Z) (nbyte : Z) : M kfiles Z :=
  match f with
  | p_tmpfs_write_file => onF (tmpfs_write_file dev buf nbyte)
  | p_console_write => onC (console_write buf nbyte)
  | _ => crash BadCall
  end.

(** The result and the bytes stored in the buffer; [None] is an indeterminate byte. *)
Definition dev_read (f : cfun) (dev nbyte : Z) : M kfiles (Z * list (option Z)) :=
  match f with
  | p_tmpfs_read_file => onF (tmpfs_read_file dev nbyte)
  | p_cpiofs_read_file => r ← onF (cpiofs_read_file dev nbyte); mret (r.1, Some <$> r.2)
  | p_console_read => r ← onC (console_read nbyte); mret (r.1, Some <$> r.2)
  | _ => crash BadCall
  end.

Definition dev_seek (f : cfun) (dev offset whence : Z) : M kfiles Z :=
  match f with
  | p_tmpfs_seek_file => onF (tmpfs_seek_file dev offset whence)
  | p_cpiofs_seek_file => onF (cpiofs_seek_file dev offset whence)
  | _ => crash BadCall
  end.

(** The file systems' close functions return nothing; a caller that takes an [int]
    from them gets whatever the register holds, [eax]. *)
Definition dev_close (eax : Z) (f : cfun) (dev : Z) : M kfiles Z :=
  match f with
  | p_tmpfs_close_file => onF (tmpfs_close_file dev) ;; mret eax
  | p_cpiofs_close_file => onF (cpiofs_close_file dev) ;; mret eax
  | p_console_close => onC console_close
  | _ => crash BadCall
  end.

(** ** kernel/fs/devfs.c *)

Definition devfs_open_dev (node flags : Z) : M kfiles Z :=
  n ← onF (get_node node);
  d ← onF (get_dev (device n));
  dev_open (io_open (dev_io d)) (device n) flags ;;
  n ← onF (get_node node);
  mret (device n).

(** Calls through the pointers of a node. *)
Definition node_open (f : cfun) (node flags : Z) : M kfiles Z :=
  match f with
  | p_tmpfs_open_file => onF (tmpfs_open_file node)
  | p_cpiofs_open_file => onF (cpiofs_open_file node)
  | p_devfs_open_dev => devfs_open_dev node flags
  | _ => crash BadCall
  end.

Definition node_stat (f : cfun) (node : Z) : M kfiles (Z * option Z) :=
  match f with
  | p_cpiofs_stat_file => onF (cpiofs_stat_file node)
  | _ => crash BadCall
  end.

(** ** kernel/syscall/fdio.c *)

Definition sys_open (pathname : list Z) (flags mode : Z) : M kfiles Z :=
  root ← onF (gets FSRootNode);
  fsn ← onF (fs_locate root pathname);
  if fsn =? NULL then
    (if negb (Z.land flags O_CREAT =? 0) then onT (set_errno_to EACCES) else onT (set_errno_to ENOENT)) ;;
    mret (-1)
  else
    n ← onF (get_node fsn);
    dev ← node_open (open n) fsn 0;
    if dev =? NULL then panic "Couldn't open fs node"
    else onT (fd_open dev).

(** The device behind a descriptor, or EBADF. *)
Definition with_fd {A} (fd : Z) (bad : A) (k : Z → filedev → M kfiles A) : M kfiles A :=
  descr ← onT (fd_lookup (u16 fd));
  if descr =? NULL then onT (set_errno_to EBADF) ;; mret bad
  else
    x ← onT (get_fdescr descr);
    d ← onF (get_dev (dev x));
    k (dev x) d.

Definition sys_write (fd : Z) (buf : list Z) (nbyte : Z) : M kfiles Z :=
  with_fd fd (-1) (λ dev d, dev_write (io_write (dev_io d)) dev buf nbyte).

Definition sys_read (fd nbyte : Z) : M kfiles (Z * list (option Z)) :=
  with_fd fd (-1, []) (λ dev d, dev_read (io_read (dev_io d)) dev nbyte).

Definition sys_lseek (fd offset whence : Z) : M kfiles Z :=
  with_fd fd (-1) (λ dev d, dev_seek (io_seek (dev_io d)) dev offset whence).

Definition sys_close (eax fd : Z) : M kfiles Z :=
  with_fd fd (-1) (λ dev d,
    dev_ret ← dev_close eax (io_close (dev_io d)) dev;
    fd_ret ← onT (fd_close (u16 fd));
    mret (if (dev_ret =? -1) || (fd_ret =? -1) then -1 else 0)).

(** The result and the word stored at [arg]. *)
Definition sys_ioctl (fd cmd : Z) : M kfiles (Z * option Z) :=
  if cmd =? TIOCGPGRP then
    cur ← onT current;
    mret (0, Some (pgid cur))
  else mret (0, None).

Definition sys_fcntl (fd cmd arg : Z) : M kfiles Z :=
  if cmd =? F_DUPFD then onT (fd_dupfd (u16 fd) (u16 arg)) else mret 0.

(** The result and the [st_size] of the cleared and filled structure. *)
Definition sys_newstat (path : list Z) : M kfiles (Z * option Z) :=
  root ← onF (gets FSRootNode);
  fsn ← onF (fs_locate root path);
  if fsn =? NULL then onT (set_errno_to ENOENT) ;; mret (-1, None)
  else
    n ← onF (get_node fsn);
    r ← node_stat (stat n) fsn;
    mret (r.1, Some (default 0 r.2)).

(** [cwd] is the string in the task's buffer, without its terminator. *)
Definition sys_getcwd (buf : list Z) (size : Z) : M kfiles (Z * list Z) :=
  cur ← onT current;
  buf ← strncpy buf (cwd cur ++ [0]) size;
  n ← strlen buf 0;
  mret (n, buf).

(** ** arch/x86/console.c *)

(** The static [ConsoleDev]. *)
Definition ConsoleDev_ptr : Z := 2.
Definition ConsoleDev : filedev :=
  mkFile (mkIodev p_console_open p_console_read p_console_write p_console_close CNull) 0 0 NoData.

(** [junk] and [refs] are what fresh memory holds.  Nothing keeps the descriptor. *)
Definition console_register (junk : list Z) (refs : Z) : M kfiles bool :=
  onC (zoom vga_console_init) ;;
  onC kbd_init ;;
  consfd ← onT new_ptr;
  onT (put_fdescr consfd (mkFdescr ConsoleDev_ptr refs)) ;;
  onF (devfs_register_device junk [116; 116; 121; 0] ConsoleDev_ptr) ;;
  mret true.

(** ** Specification *)

Lemma onT_ok {A} (m : M tst A) s a t : m (kf_tst s) = Ret (a, t) → onT m s = Ret (a, with_kt t s).
Proof. apply (zoom_ret (H := kf_has_tst)). Qed.
Lemma onF_ok {A} (m : M fst_ A) s a t : m (kf_fs s) = Ret (a, t) → onF m s = Ret (a, with_kf t s).
Proof. apply (zoom_ret (H := kf_has_fs)). Qed.
Lemma onC_ok {A} (m : M consst A) s a t : m (kf_cons s) = Ret (a, t) → onC m s = Ret (a, with_kc t s).
Proof. apply (zoom_ret (H := kf_has_cons)). Qed.
Lemma with_kt_same s : with_kt (kf_tst s) s = s.
Proof. by destruct s. Qed.
Lemma with_kf_same s : with_kf (kf_fs s) s = s.
Proof. by destruct s. Qed.

(** The current task's table: well-formed, with distinct new objects to come. *)
Record fds_ok (s : kfiles) (cur : task) (tbl : list Z) : Prop := {
  fk_ok : fd_ok (kf_tst s) cur tbl;
  fk_new : fdescrs (kf_tst s) !! heap (kf_tst s) = None ∧ heap (kf_tst s) ≠ NULL
}.
(** Descriptor [fd] of a table leads to a device. *)
Definition leads_to (s : kfiles) (tbl : list Z) (fd dev : Z) : Prop :=
  ∃ d r, lookupZ tbl fd = Some d ∧ d ≠ NULL ∧ fdescrs (kf_tst s) !! d = Some (mkFdescr dev r).
(** The descriptor [fd_open] chooses. *)
Definition lowest_free (cur : task) (tbl : list Z) (fd : Z) : Prop :=
  fdnext cur ≤ fd ∧ lookupZ tbl fd = Some 0 ∧ ∀ i, fdnext cur ≤ i < fd → ∃ d, lookupZ tbl i = Some d ∧ d ≠ 0.

Lemma with_fd_ok {A} fd (bad : A) k s cur tbl dev d :
  fd_ok (kf_tst s) cur tbl → leads_to s tbl fd dev → fdcap cur < 2 ^ 16 → devs (kf_fs s) !! dev = Some d →
  with_fd fd bad k s = k dev d s.
Proof.
  intros Hok (p & r & Hp & Hn & Ed) Hcap Edev. pose proof (lookupZ_lt _ _ _ Hp). unfold with_fd, fd_lookup.
  rewrite u16_small by (destruct Hok; lia).
  rewrite (bind_ret _ _ s p s) by (by rewrite (onT_ok _ _ _ _ (fdtbl_get_ok _ _ _ _ _ Hok Hp)), with_kt_same).
  rewrite (proj2 (Z.eqb_neq p NULL)) by done.
  rewrite (bind_ret _ _ s (mkFdescr dev r) s).
  2: { rewrite (onT_ok _ s (mkFdescr dev r) (kf_tst s)); [by rewrite with_kt_same|]. unfold get_fdescr. mred. by rewrite Ed. }
  cbn [TaskState.dev]. rewrite (bind_ret _ _ s d s); [done|].
  by rewrite (onF_ok _ _ _ _ (get_dev_ok _ _ _ Edev)), with_kf_same.
Qed.

(** Opening a path that leads to a node whose [open] gives a device. *)
Lemma sys_open_ok s kids cur tbl path q n dev fd :
  tree (nodes (kf_fs s)) kids → is_Some (nodes (kf_fs s) !! FSRootNode (kf_fs s)) →
  terminated path → bytes path → Z.of_nat (length path) < 2 ^ 32 → path_components path ≠ [] →
  resolve (nodes (kf_fs s)) kids (FSRootNode (kf_fs s)) (path_components path) = Some q → q ≠ NULL →
  nodes (kf_fs s) !! q = Some n → dev ≠ NULL →
  (∀ t, let s1 := with_kf (set_toks t (kf_fs s)) s in node_open (open n) q 0 s1 = Ret (dev, s1)) →
  fds_ok s cur tbl → lowest_free cur tbl fd →
  ∃ t, (∀ flags mode, sys_open path flags mode s =
      Ret (fd, mkKf (opened_state fd dev cur tbl (kf_tst s)) (set_toks t (kf_fs s)) (kf_cons s))) ∧
    fd_ok (opened_state fd dev cur tbl (kf_tst s)) (set_fdnext fd cur) (insertZ fd (heap (kf_tst s)) tbl).
Proof.
  intros Ht Hroot Hp Hb Hl Hne Hr Hq En Hdev Hopen [Hok _] (Hfd & Hz & Hall).
  destruct (fs_locate_ok (kf_fs s) kids (FSRootNode (kf_fs s)) path Ht Hroot Hp Hb Hl Hne) as [t Et]. rewrite Hr in Et.
  change (default NULL (Some q)) with q in Et. exists t. set (s1 := with_kf (set_toks t (kf_fs s)) s).
  destruct (fd_open_ok (kf_tst s) cur tbl fd dev Hok Hfd Hz Hall) as [Eo Hok']. split; [|done]. intros flags mode.
  unfold sys_open. rewrite (bind_ret _ _ s (FSRootNode (kf_fs s)) s).
  2: { rewrite (onF_ok _ s (FSRootNode (kf_fs s)) (kf_fs s)) by done. by rewrite with_kf_same. }
  rewrite (bind_ret _ _ _ _ _ (onF_ok _ _ _ _ Et)). fold s1. rewrite (proj2 (Z.eqb_neq q NULL)) by done.
  rewrite (bind_ret _ _ s1 n s1).
  2: { rewrite (onF_ok _ s1 n (kf_fs s1)); [by rewrite with_kf_same|]. unfold get_node. mred. cbn. by rewrite En. }
  rewrite (bind_ret _ _ _ _ _ (Hopen t)). fold s1. rewrite (proj2 (Z.eqb_neq dev NULL)) by done.
  by rewrite (onT_ok _ s1 _ _ Eo).
Qed.

(** An initrd file behind a descriptor, its bytes and the position in them. *)
Record file_at (s : kfiles) (dev : Z) (x : list Z) (pos : nat) : Prop := {
  fa_dev : ∃ off, devs (kf_fs s) !! dev = Some (mkFile cpiofiledev_tmpl (Z.of_nat pos) (len x) (ArchiveData off)) ∧
    0 ≤ off ∧ off + len x ≤ len (archive (kf_fs s)) ∧ take (length x) (drop (Z.to_nat off) (archive (kf_fs s))) = x;
  fa_pos : (pos ≤ length x)%nat ∧ len x < 2 ^ 31
}.

Lemma sys_read_file s cur tbl fd dev x pos n :
  fd_ok (kf_tst s) cur tbl → leads_to s tbl fd dev → file_at s dev x pos → Z.of_nat n < 2 ^ 31 →
  let y := take n (drop pos x) in
  ∃ s', sys_read fd (Z.of_nat n) s = Ret ((len y, Some <$> y), s') ∧ kf_tst s' = kf_tst s ∧ kf_cons s' = kf_cons s ∧
    nodes (kf_fs s') = nodes (kf_fs s) ∧ FSRootNode (kf_fs s') = FSRootNode (kf_fs s) ∧ file_at s' dev x (pos + length y).
Proof.
  intros Hok Hlead [(off & Ed & O1 & O2 & O3) [Hp Hl]] Hn y.
  destruct (cpiofs_read_ok (kf_fs s) dev off x pos n Ed O1 O2 O3 Hp Hl Hn) as (f' & E & Hnodes & Hdevs & Ha & Hroot). fold y in E, Hdevs.
  assert (Hy : (length y ≤ length x - pos)%nat) by (unfold y; rewrite length_take, length_drop; lia).
  exists (with_kf f' s). split; [|split; [done|split; [done|split; [done|split; [done|]]]]].
  - unfold sys_read. rewrite (with_fd_ok _ _ _ s cur tbl dev _ Hok Hlead (proj2 (fo_max _ _ _ Hok)) Ed). cbn.
    by rewrite (bind_ret _ _ _ _ _ (onF_ok _ _ _ _ E)).
  - split; [|lia]. exists off. cbn. rewrite Hdevs, lookup_insert_eq, Ha. done.
Qed.

(** Reading with a list of counts; and what it should give. *)
Fixpoint read_all (fd : Z) (counts : list nat) : M kfiles (list (Z * list (option Z))) :=
  match counts with
  | [] => mret []
  | n :: counts => r ← sys_read fd (Z.of_nat n); rs ← read_all fd counts; mret (r :: rs)
  end.
Fixpoint pieces (counts : list nat) (x : list Z) : list (list Z) :=
  match counts with [] => [] | n :: counts => take n x :: pieces counts (drop n x) end.

Lemma read_all_ok s cur tbl fd dev x pos counts :
  fd_ok (kf_tst s) cur tbl → leads_to s tbl fd dev → file_at s dev x pos → Forall (λ n, Z.of_nat n < 2 ^ 31) counts →
  ∃ s', read_all fd counts s = Ret ((λ y, (len y, Some <$> y)) <$> pieces counts (drop pos x), s') ∧ kf_tst s' = kf_tst s ∧
    nodes (kf_fs s') = nodes (kf_fs s) ∧ FSRootNode (kf_fs s') = FSRootNode (kf_fs s) ∧
    file_at s' dev x (Nat.min (length x) (pos + sum_list counts)).
Proof.
  intros Hok Hlead Hf Hc. revert s pos Hok Hlead Hf. induction Hc as [|n counts Hn Hc IH]; intros s pos Hok Hlead Hf.
  - exists s. split; [done|]. split; [done|]. split; [done|]. split; [done|]. cbn. rewrite Nat.add_0_r, Nat.min_r; [done|].
    by destruct (fa_pos _ _ _ _ Hf).
  - destruct (sys_read_file s cur tbl fd dev x pos n Hok Hlead Hf Hn) as (s1 & E1 & Et & Ec & Hn1 & Hr1 & Hf1).
    set (y := take n (drop pos x)) in *.
    destruct (IH s1 (pos + length y)%nat) as (s2 & E2 & Et2 & Hn2 & Hr2 & Hf2); [by rewrite Et| |done|].
    { destruct Hlead as (d & r & ? & ? & ?). exists d, r. by rewrite Et. }
    exists s2. split; [|split; [congruence|split; [congruence|split; [congruence|]]]].
    + cbn [read_all]. rewrite (bind_ret _ _ _ _ _ E1), (bind_ret _ _ _ _ _ E2). cbn [pieces].
      do 3 f_equal. unfold y. destruct (fa_pos _ _ _ _ Hf). rewrite length_take, length_drop.
      destruct (Nat.le_gt_cases n (length x - pos)).
      * rewrite Nat.min_l by done. by rewrite drop_drop.
      * rewrite Nat.min_r by lia. rewrite (drop_ge x (pos + (length x - pos))) by lia. by rewrite (drop_ge (drop pos x)) by (rewrite length_drop; lia).
    + destruct (fa_pos _ _ _ _ Hf). replace (Nat.min (length x) (pos + sum_list (n :: counts))) with (Nat.min (length x) (pos + length y + sum_list counts)); [done|].
      unfold y. rewrite length_take, length_drop. cbn. lia.
Qed.

(** Writing to the console prints the characters one after the other. *)
Lemma console_write_ok s t buf extra :
  shows (screen s) t → Forall (λ c, s8 c ≠ 8) buf → len buf < 2 ^ 31 →
  ∃ v, console_write (buf ++ extra) (len buf) s = Ret (len buf, set_screen v s) ∧ shows v (t_puts (s8 <$> buf) t).
Proof.
  intros Hs Hb Hl.
  destruct (forM_count (λ i, c ← aget (buf ++ extra) i; vga_putc (s8 c))
    (λ i s', ∃ v, s' = set_screen v s ∧ shows v (t_puts (s8 <$> take (Z.to_nat i) buf) t)) (len buf) s) as (s' & E & v & -> & Hv).
  - apply len_nonneg.
  - intros i s1 Hi (v & -> & Hv). unfold len in Hi.
    destruct (lookup_lt_is_Some_2 buf (Z.to_nat i) ltac:(lia)) as [c Ec].
    assert (Ea : lookupZ (buf ++ extra) i = Some c).
    { rewrite lookupZ_app_l by lia. unfold lookupZ. by rewrite (proj2 (Z.leb_le 0 i)) by lia. }
    rewrite (bind_ret _ _ _ _ _ (aget_Some _ _ _ (set_screen v s) Ea)).
    destruct (putc_ok v _ (s8 c) Hv) as (v' & E & Hs' & _).
    { intros H8. exfalso. by apply (Forall_lookup_1 _ _ _ _ Hb Ec). }
    exists (set_screen v' s). split; [exact (zoom_ret (H := cons_has_vga) (vga_console_putc (s8 c)) (set_screen v s) tt v' E)|].
    exists v'. split; [done|]. replace (Z.to_nat (i + 1)) with (S (Z.to_nat i)) by lia.
    rewrite (take_S_r _ _ c Ec), fmap_app. unfold t_puts. rewrite fold_left_app. exact Hs'.
  - exists (screen s). split; [by destruct s|done].
  - exists v. split; [|unfold len in Hv; rewrite Nat2Z.id, firstn_all in Hv; done].
    unfold console_write. rewrite (bind_ret _ _ _ _ _ E). rewrite s32_small; [done|]. pose proof (len_nonneg buf). lia.
Qed.

Lemma tty_write_ok s cur tbl fd dv t buf extra :
  fd_ok (kf_tst s) cur tbl → leads_to s tbl fd dv → devs (kf_fs s) !! dv = Some ConsoleDev →
  shows (screen (kf_cons s)) t → Forall (λ c, s8 c ≠ 8) buf → len buf < 2 ^ 31 →
  ∃ v, sys_write fd (buf ++ extra) (len buf) s = Ret (len buf, with_kc (set_screen v (kf_cons s)) s) ∧
    shows v (t_puts (s8 <$> buf) t).
Proof.
  intros Hok Hlead Ed Hs Hb Hl.
  destruct (console_write_ok (kf_cons s) t buf extra Hs Hb Hl) as (v & E & Hv). exists v. split; [|done].
  unfold sys_write. rewrite (with_fd_ok _ _ _ s cur tbl dv _ Hok Hlead (proj2 (fo_max _ _ _ Hok)) Ed). by apply onC_ok.
Qed.

(** ** Properties *)

(** C7: opening and reading a file of the initial ramdisk.  A path that leads to the
    file is opened at the lowest free descriptor; reading with any counts gives the
    next pieces of the file's bytes, then nothing; and the descriptor stays good. *)
Theorem sys_open_read_pieces s kids cur tbl path flags mode q n dev x pos fd counts :
  tree (nodes (kf_fs s)) kids → is_Some (nodes (kf_fs s) !! FSRootNode (kf_fs s)) →
  terminated path → bytes path → Z.of_nat (length path) < 2 ^ 32 → path_components path ≠ [] →
  resolve (nodes (kf_fs s)) kids (FSRootNode (kf_fs s)) (path_components path) = Some q → q ≠ NULL →
  nodes (kf_fs s) !! q = Some n → open n = p_cpiofs_open_file → device n = dev → dev ≠ NULL →
  file_at s dev x pos → fds_ok s cur tbl → lowest_free cur tbl fd → Forall (λ n, Z.of_nat n < 2 ^ 31) counts →
  ∃ s1 s2, sys_open path flags mode s = Ret (fd, s1) ∧
    read_all fd counts s1 = Ret ((λ y, (len y, Some <$> y)) <$> pieces counts (drop pos x), s2) ∧
    file_at s2 dev x (Nat.min (length x) (pos + sum_list counts)) ∧
    ∃ tbl', fd_ok (kf_tst s2) (set_fdnext fd cur) tbl' ∧ leads_to s2 tbl' fd dev ∧
      ∀ i, i ≠ fd → 0 ≤ i → lookupZ tbl' i = lookupZ tbl i.
Proof.
  intros Ht Hroot Hp Hb Hl Hne Hr Hq En Ho Hd Hdev Hf Hfds Hfree Hc.
  destruct (sys_open_ok s kids cur tbl path q n dev fd) as (t & E & Hok'); try done.
  { intros t s1. rewrite Ho. cbn. rewrite (onF_ok _ s1 dev (kf_fs s1)); [by rewrite with_kf_same|].
    unfold cpiofs_open_file, get_node. mred. cbn. rewrite En. cbn. by rewrite Hd. }
  set (s1 := mkKf (opened_state fd dev cur tbl (kf_tst s)) (set_toks t (kf_fs s)) (kf_cons s)) in *.
  set (tbl' := insertZ fd (heap (kf_tst s)) tbl) in *. destruct Hfree as (Hfd & Hz & Hall). pose proof (lookupZ_lt _ _ _ Hz) as Hlt.
  assert (Hlead : leads_to s1 tbl' fd dev).
  { exists (heap (kf_tst s)), 1. split; [by apply lookupZ_insert_eq|]. split; [apply Hfds|]. cbn. by rewrite lookup_insert_eq. }
  destruct (read_all_ok s1 (set_fdnext fd cur) tbl' fd dev x pos counts) as (s2 & E2 & Et & _ & _ & Hf2); try done.
  { destruct Hf as [(off & Ed & O) Hpos]. split; [|done]. by exists off. }
  exists s1, s2. split; [done|]. split; [done|]. split; [done|]. exists tbl'. rewrite Et. split; [done|]. split.
  - destruct Hlead as (d & r & ? & ? & ?). exists d, r. by rewrite Et.
  - intros i Hi Hi0. apply lookupZ_insert_ne; lia.
Qed.

(** A tree with a directory "a" and in it the file "b" of the ramdisk. *)
Definition demo_file_node : fsnode := mkNode (str_buf [98]) (Some VfsTypeFile) CNull p_cpiofs_open_file p_cpiofs_stat_file 11 NULL NULL 30.
Definition demo_tree_fs : fst_ :=
  mkFst (<[12 := demo_file_node]> demo_nodes) {[ 30 := mkFile cpiofiledev_tmpl 0 4 (ArchiveData 2) ]} ∅ 10 40
    (mkTokst [] None) [9; 9; 1; 2; 3; 4; 9] [].
Definition demo_kf : kfiles := mkKf demo_fd demo_tree_fs demo_cons.

(** Replacing a node by one with the same name and links keeps the tree. *)
Lemma tree_replace m kids p n n' :
  tree m kids → m !! p = Some n → name n' = name n → first_child n' = first_child n → next_sibling n' = next_sibling n →
  tree (<[p := n']> m) kids.
Proof.
  intros [H1 H2 H3] Ep En Ef Es.
  assert (Hc : ∀ q l, chain m q l → chain (<[p := n']> m) q l).
  { induction 1 as [|q x l Hq Eq _ IH]; [constructor|]. destruct (decide (q = p)) as [->|Hne].
    - apply (chain_cons _ p n'); [done|by rewrite lookup_insert_eq|]. rewrite Es. by simplify_eq.
    - apply (chain_cons _ q x); [done|by rewrite lookup_insert_ne|done]. }
  split.
  - intros q x. rewrite lookup_insert_Some. intros [[<- <-]|[_ Eq]]; [rewrite Ef|]; by eauto.
  - intros q x. rewrite lookup_insert_Some. intros [[<- <-]|[_ Eq]]; [|by eauto]. unfold named. rewrite En. by eapply H2.
  - intros q r x. rewrite !lookup_insert_is_Some'. intros Hq Hr. apply H3; [destruct Hq as [->|]|destruct Hr as [->|]]; by eauto.
Qed.
Lemma demo_tree_file : tree (<[12 := demo_file_node]> demo_nodes) demo_kids.
Proof. by apply (tree_replace _ _ 12 (mk_demo [98] NULL NULL)); [exact demo_tree|..]. Qed.
Lemma sys_open_read_pieces_witness :
  ∃ s1 s2, sys_open [47; 97; 47; 98; 0] 0 0 demo_kf = Ret (1, s1) ∧
    read_all 1 [3; 5; 2]%nat s1 = Ret ([(3, Some <$> [1; 2; 3]); (1, Some <$> [4]); (0, [])], s2).
Proof.
  destruct (sys_open_read_pieces demo_kf demo_kids demo_cur [6; 0; 0; 0] [47; 97; 47; 98; 0] 0 0 12 demo_file_node 30 [1; 2; 3; 4] 0 1 [3; 5; 2]%nat)
    as (s1 & s2 & E1 & E2 & _).
  - exact demo_tree_file.
  - by eexists.
  - apply (bool_decide_unpack _). reflexivity.
  - apply (bool_decide_unpack _). reflexivity.
  - done.
  - by vm_compute.
  - by vm_compute.
  - done.
  - done.
  - done.
  - done.
  - done.
  - split; [|split; [cbn; lia|done]]. exists 2. by vm_compute.
  - split; [exact demo_fd_ok|]. by vm_compute.
  - split; [done|]. split; [done|]. intros i Hi. change (fdnext demo_cur) with 0 in Hi. assert (i = 0) as -> by lia. exists 6. done.
  - repeat constructor; lia.
  - exists s1, s2. split; [exact E1|exact E2].
Defined.

(** A number at which the table has no descriptor, and one behind the table. *)
Lemma with_fd_null {A} (bad : A) k s cur tbl fd :
  fd_ok (kf_tst s) cur tbl → lookupZ tbl fd = Some NULL → with_fd fd bad k s = Ret (bad, with_kt (set_errno EBADF (kf_tst s)) s).
Proof.
  intros Hok Hp. pose proof (lookupZ_lt _ _ _ Hp). unfold with_fd, fd_lookup. rewrite u16_small by (destruct Hok; lia).
  by rewrite (bind_ret _ _ s NULL s) by (by rewrite (onT_ok _ _ _ _ (fdtbl_get_ok _ _ _ _ _ Hok Hp)), with_kt_same).
Qed.
Lemma with_fd_behind {A} (bad : A) k s cur tbl fd :
  fd_ok (kf_tst s) cur tbl → fdcap cur ≤ u16 fd → with_fd fd bad k s = Fault OutOfBounds.
Proof.
  intros Hok Hfd. unfold with_fd. apply bind_fault. unfold onT, zoom, fd_lookup. cbn. by rewrite (fdtbl_get_oob _ _ _ _ Hok Hfd).
Qed.

(** C38: the calls on a descriptor number that is not open.  For a number in the
    table whose entry is NULL, write, read, lseek and close return -1 and set errno
    to EBADF, and nothing else changes.  A number that is not below the table's
    capacity is not refused: the calls read behind the table. *)
Theorem sys_calls_bad_fd s cur tbl fd :
  fd_ok (kf_tst s) cur tbl →
  (lookupZ tbl fd = Some NULL →
   let s' := with_kt (set_errno EBADF (kf_tst s)) s in
   (∀ buf n, sys_write fd buf n s = Ret (-1, s')) ∧ (∀ n, sys_read fd n s = Ret ((-1, []), s')) ∧
   (∀ off w, sys_lseek fd off w s = Ret (-1, s')) ∧ (∀ eax, sys_close eax fd s = Ret (-1, s'))) ∧
  (fdcap cur ≤ u16 fd →
   (∀ buf n, sys_write fd buf n s = Fault OutOfBounds) ∧ (∀ n, sys_read fd n s = Fault OutOfBounds) ∧
   (∀ off w, sys_lseek fd off w s = Fault OutOfBounds) ∧ (∀ eax, sys_close eax fd s = Fault OutOfBounds)).
Proof.
  intros Hok. split; intros Hfd; repeat split; intros; (by apply (with_fd_null _ _ s cur tbl)) || by apply (with_fd_behind _ _ s cur tbl).
Qed.

Lemma sys_calls_bad_fd_witness :
  sys_read 2 5 demo_kf = Ret ((-1, []), with_kt (set_errno 9 demo_fd) demo_kf) ∧ sys_read 4 5 demo_kf = Fault OutOfBounds.
Proof.
  split.
  - by apply (sys_calls_bad_fd demo_kf demo_cur [6; 0; 0; 0] 2 demo_fd_ok).
  - by apply (sys_calls_bad_fd demo_kf demo_cur [6; 0; 0; 0] 4 demo_fd_ok).
Defined.

(** Writing to the console.  A write through a descriptor of the tty device puts
    the characters on the terminal, in order, and returns their number; it touches
    only the screen. *)
Theorem sys_write_tty_puts s cur tbl fd dv t buf extra :
  fd_ok (kf_tst s) cur tbl → leads_to s tbl fd dv → devs (kf_fs s) !! dv = Some ConsoleDev →
  shows (screen (kf_cons s)) t → Forall (λ c, s8 c ≠ 8) buf → len buf < 2 ^ 31 →
  ∃ v, sys_write fd (buf ++ extra) (len buf) s = Ret (len buf, with_kc (set_screen v (kf_cons s)) s) ∧
    shows v (t_puts (s8 <$> buf) t).
Proof.
  apply tty_write_ok.
Qed.

(** Descriptor 0 of the demonstration is the console. *)
Definition demo_tty : kfiles := with_kf (set_devs (<[77 := ConsoleDev]> ∅) demo_tree_fs) demo_kf.
Lemma sys_write_tty_puts_witness :
  ∃ v, sys_write 0 [104; 105; 10; 99] 3 demo_tty = Ret (3, with_kc (set_screen v demo_cons) demo_tty) ∧
    shows v (t_puts [104; 105; 10] (mkTerm (replicate (Z.to_nat SCREEN) blank) 0)).
Proof.
  apply (sys_write_tty_puts demo_tty demo_cur [6; 0; 0; 0] 0 77 (mkTerm (replicate (Z.to_nat SCREEN) blank) 0) [104; 105; 10] [99]).
  - exact demo_fd_ok.
  - by exists 6, 1.
  - reflexivity.
  - split; [done|reflexivity|done|reflexivity].
  - apply (bool_decide_unpack _). reflexivity.
  - done.
Defined.

(** Closing one descriptor of a tmpfs file frees the file's bytes: another
    descriptor of the same file then reads freed memory. *)
Theorem sys_close_frees_shared_file s cur tbl fd fd' dv f p b eax n d d' r r' :
  fd_ok (kf_tst s) cur tbl → fd ≠ fd' → d ≠ d' → d ≠ NULL → d' ≠ NULL →
  lookupZ tbl fd = Some d → fdescrs (kf_tst s) !! d = Some (mkFdescr dv r) →
  lookupZ tbl fd' = Some d' → fdescrs (kf_tst s) !! d' = Some (mkFdescr dv r') →
  devs (kf_fs s) !! dv = Some f → io_close (dev_io f) = p_tmpfs_close_file → io_read (dev_io f) = p_tmpfs_read_file →
  fdata f = HeapData p → bufs (kf_fs s) !! p = Some b → p ≠ NULL → eax ≠ -1 →
  ∃ s', sys_close eax fd s = Ret (0, s') ∧ sys_read fd' n s' = Fault UseAfterFree.
Proof.
  intros Hok Hne Hdd Hd0 Hd0' Hd Ed Hd' Ed' Ef Hc Hr Hdata Hb Hp He.
  set (fs' := set_bufs (delete p (bufs (kf_fs s))) (kf_fs s)). set (s1 := with_kf fs' s).
  assert (Hl : leads_to s tbl fd dv) by (by exists d, r).
  destruct (fd_close_ok (kf_tst s1) cur tbl fd d dv r Hok Hd Hd0 Ed) as [Ecl Hok2].
  set (m := if s32 (r - 1) =? 0 then _ else _) in *. set (t2 := with_entry _ _ _) in *.
  assert (Hlt : 0 ≤ fd < 2 ^ 16) by (pose proof (lookupZ_lt _ _ _ Hd); destruct Hok; lia).
  exists (with_kt t2 s1). split.
  - unfold sys_close. rewrite (with_fd_ok _ _ _ s cur tbl dv _ Hok Hl (proj2 (fo_max _ _ _ Hok)) Ef). rewrite Hc. cbn [dev_close].
    rewrite (bind_ret _ _ s eax s1).
    2: { rewrite (bind_ret _ _ s tt s1); [done|]. apply onF_ok.
         unfold tmpfs_close_file, get_dev, heap_data, free_buf, get_buf. mred. rewrite Ef. cbn. rewrite Hdata. cbn. by rewrite Hb. }
    rewrite u16_small by lia.
    rewrite (bind_ret _ _ _ _ _ (onT_ok _ s1 _ _ Ecl)). by rewrite (proj2 (Z.eqb_neq eax (-1))).
  - unfold sys_read. rewrite (with_fd_ok _ _ _ (with_kt t2 s1) cur _ dv f Hok2).
    + rewrite Hr. cbn [dev_read]. apply (zoom_fault (H := kf_has_fs)). cbn.
      unfold tmpfs_read_file, get_dev, heap_data, get_buf. mred. cbn. rewrite Ef. cbn. rewrite Hdata. cbn. rewrite lookup_delete_eq.
      unfold need, crash, ptr_fault. by rewrite (proj2 (Z.eqb_neq p NULL)).
    + exists d', r'. split; [by rewrite lookupZ_insert_ne by lia|]. split; [done|]. cbn. unfold m.
      destruct (s32 (r - 1) =? 0); [by rewrite lookup_delete_ne|by rewrite lookup_insert_ne].
    + destruct Hok; lia.
    + exact Ef.
Qed.

(** Operations some devices and nodes lack are called through a NULL pointer. *)
Theorem sys_missing_operations s cur tbl fd dv :
  fd_ok (kf_tst s) cur tbl → leads_to s tbl fd dv →
  (devs (kf_fs s) !! dv = Some ConsoleDev → ∀ off w, sys_lseek fd off w s = Fault BadCall) ∧
  (∀ p l x, devs (kf_fs s) !! dv = Some (mkFile cpiofiledev_tmpl p l x) → ∀ buf n, sys_write fd buf n s = Fault BadCall).
Proof.
  intros Hok Hl. split.
  - intros Ed off w. unfold sys_lseek. by rewrite (with_fd_ok _ _ _ s cur tbl dv _ Hok Hl (proj2 (fo_max _ _ _ Hok)) Ed).
  - intros p l x Ed buf n. unfold sys_write. by rewrite (with_fd_ok _ _ _ s cur tbl dv _ Hok Hl (proj2 (fo_max _ _ _ Hok)) Ed).
Qed.
