(* ===== verification/UserMem.v ===== *)
(** * The memory of a program

    Addresses of an address space seen as a program sees them: which are its own
    (mapped to frames that were free, no two pages to one frame, none of them a page
    table) and what bytes they hold.  Shared by [mmap] and the program loader.

    [uwrite8] is a store of the running program or of the kernel to an address of the
    current address space.  An address that does not translate is a fault: the code
    that stores has just mapped the page. *)
From Stdlib Require Import ZArith Lia.
From stdpp Require Import base gmap list list_numbers strings.
From S2P Require Import Prelude Layout FrameAlloc Mmu.
Open Scope Z_scope.
Open Scope u32_scope.

(** ** Stores *)

(** A word with its byte [j] replaced. *)
Definition set_byte (w j b : Z) : Z := Z.lor (Z.land w (Z.lnot (Z.shiftl 0xFF (8 * j)))) (Z.shiftl b (8 * j)).
Definition put_byte (m : gmap Z Z) (p b : Z) : gmap Z Z :=
  let w := p - p mod 4 in <[w := set_byte (rd m w) (p mod 4) b]> m.

Definition uwrite8 (ct : mmu_task) (v b : Z) : M vm unit :=
  s ← getS;
  match hw_walk (phys s) (mt_pgd ct) v with
  | Some (p, _, _) => putS (with_phys (put_byte (phys s) p b) s)
  | None => crash BadAccess
  end.

(** [memcpy] from a list of bytes, from [off] on, and [memset]. *)
Definition umemcpy (ct : mmu_task) (dest : Z) (src : list Z) (off n : Z) : M vm unit :=
  forM (seqZ 0 n) (λ i, b ← aget src (off + i); uwrite8 ct (dest +u i) b).
Definition umemset (ct : mmu_task) (dest c n : Z) : M vm unit :=
  forM (seqZ 0 n) (λ i, uwrite8 ct (dest +u i) c).

(** ** Specification *)

(** The byte at an address. *)
Definition user_byte (ct : mmu_task) (v : vm) (x : Z) : option Z :=
  (λ r, phys_byte (phys v) r.1.1) <$> hw_walk (phys v) (mt_pgd ct) x.

(** The addresses of [U] are mapped writable, to data frames that were free in [fr],
    and two pages never share a frame. *)
Record private (ct : mmu_task) (fr : frames) (U : Z → Prop) (v : vm) : Prop := {
  pv_map x : U x → is_u32 x ∧ ∃ a, data_frame v (mt_pgd ct) a ∧ frame_used fr a = false ∧
    hw_walk (phys v) (mt_pgd ct) x = Some (a + x mod 2 ^ 12, true, user_task ct);
  pv_inj x y a u b w c d : U x → U y → hw_walk (phys v) (mt_pgd ct) x = Some (a, u, c) →
    hw_walk (phys v) (mt_pgd ct) y = Some (b, w, d) → same_frame a b = true → same_page x y = true
}.

(** The frames that were marked stay marked; frame 0 is never free. *)
Definition more_used (f g : frames) : Prop :=
  frame_used f 0 = true ∧ ∀ b, 0 ≤ b → frame_used f b = true → frame_used g b = true.

Lemma more_used_refl f : frame_used f 0 = true → more_used f f.
Proof. by split. Qed.

Lemma same_frame_offset a b x y :
  a mod PAGE_SIZE = 0 → b mod PAGE_SIZE = 0 → same_frame (a + x mod 2 ^ 12) (b + y mod 2 ^ 12) = (a =? b).
Proof.
  unfold same_frame, ADDR_PAGE, PAGE_SIZE. intros. apply eq_true_iff_eq. rewrite !Z.eqb_eq. zlia.
Qed.

Lemma private_ext ct fr (U V : Z → Prop) v : (∀ x, V x → U x) → private ct fr U v → private ct fr V v.
Proof. intros H [H1 H2]. split; [by intros x ?%H; apply H1|]. intros x y a u b w c d ?%H ?%H. by apply H2. Qed.

Lemma private_none ct fr v : private ct fr (λ _, False) v.
Proof. by split. Qed.

(** *** Allocating *)

(** Allocating a page that no address of [U] lies on. *)
Lemma pg_alloc_private ct fr U k s v :
  vm_ok 2 (S (S k)) s → space_ok s (mt_pgd ct) → is_u32 v → table_for ct (phys s) (mt_pgd ct) v →
  more_used fr (vm_frames s) → private ct fr U s → (∀ x, U x → same_page v x = false) →
  ∃ s', pg_alloc ct v s = Ret (tt, s') ∧ vm_ok 2 k s' ∧ space_ok s' (mt_pgd ct) ∧ MMUReady s' = MMUReady s ∧
    more_used fr (vm_frames s') ∧ private ct fr (λ x, U x ∨ (is_u32 x ∧ same_page v x = true)) s' ∧
    (∀ w, is_u32 w → table_for ct (phys s) (mt_pgd ct) w → table_for ct (phys s') (mt_pgd ct) w) ∧
    (∀ w, is_u32 w → same_page v w = false → hw_walk (phys s') (mt_pgd ct) w = hw_walk (phys s) (mt_pgd ct) w) ∧
    (∀ x, U x → user_byte ct s' x = user_byte ct s x).
Proof.
  intros Hs Hsp Hv Htf [Hz Hmono] [Hmap Hinj] Hout.
  destruct (pg_alloc_full ct 0 k s v Hs Hsp Hv Htf)
    as (a & s' & E & Ha & Hal & Hfree & Hused & Hr & Hs' & Hsp' & Hm & Ht & Hw & Hda & Hdf).
  assert (Hold : ∀ x, U x → is_u32 x ∧ hw_walk (phys s') (mt_pgd ct) x = hw_walk (phys s) (mt_pgd ct) x).
  { intros x Hx. destruct (Hmap x Hx) as [Hx32 _]. split; [done|]. by rewrite Hw, Hout. }
  assert (Hnew : ∀ x, is_u32 x → same_page v x = true → hw_walk (phys s') (mt_pgd ct) x = Some (a + x mod 2 ^ 12, true, user_task ct)).
  { intros x Hx32 Hx. by rewrite Hw, Hx. }
  assert (Hne : ∀ x y b u c, U x → is_u32 y → hw_walk (phys s) (mt_pgd ct) x = Some (b, u, c) → same_frame b (a + y mod 2 ^ 12) = false).
  { intros x y b u c Hx _ Eb. destruct (Hmap x Hx) as (_ & p & [Hp Hpu _ _] & _ & Ep). rewrite Ep in Eb. injection Eb as <- <- <-.
    rewrite same_frame_offset by (done || apply Hp). apply Z.eqb_neq. intros ->. congruence. }
  exists s'. split; [done|]. do 3 (split; [done|]). split; [|split; [|split; [done|split]]].
  - split; [done|]. intros b Hb Hu. apply Hm; [done|]. by apply Hmono.
  - split.
    + intros x [Hx|[Hx32 Hx]].
      * destruct (Hmap x Hx) as (Hx32 & p & Hp & Hpf & Ep). split; [done|]. exists p. split; [by apply Hdf|]. split; [done|].
        by rewrite (proj2 (Hold x Hx)).
      * split; [done|]. exists a. split; [done|]. split; [|by apply Hnew].
        destruct (frame_used fr a) eqn:Ea; [|done]. rewrite Hmono in Hfree; [done|lia|done].
    + intros x y p u q w c d Hx Hy Ex Ey Hpq. destruct Hx as [Hx|[Hx32 Hx]], Hy as [Hy|[Hy32 Hy]].
      * rewrite (proj2 (Hold _ Hx)) in Ex. rewrite (proj2 (Hold _ Hy)) in Ey. by apply (Hinj x y p u q w c d).
      * rewrite (proj2 (Hold _ Hx)) in Ex. rewrite Hnew in Ey by done. injection Ey as <- <- <-.
        by rewrite (Hne x y _ _ _ Hx Hy32 Ex) in Hpq.
      * rewrite (proj2 (Hold _ Hy)) in Ey. rewrite Hnew in Ex by done. injection Ex as <- <- <-.
        assert (same_frame q (a + x mod 2 ^ 12) = true) as Hq by (unfold same_frame in *; by rewrite Z.eqb_sym).
        by rewrite (Hne y x _ _ _ Hy Hx32 Ey) in Hq.
      * unfold same_page in *. apply Z.eqb_eq in Hx, Hy. apply Z.eqb_eq. congruence.
  - intros w Hw32 Hsw. by rewrite Hw, Hsw.
  - intros x Hx. unfold user_byte. rewrite (proj2 (Hold x Hx)). destruct (Hmap x Hx) as (Hx32 & p & Hp & Hpf & Ep).
    rewrite Ep. cbn. f_equal. unfold phys_byte. pose proof (df_aligned _ _ _ Hp) as [Hp0 Hpa]. unfold PAGE_SIZE in Hpa.
    rewrite (proj2 (Hdf p Hp)); [done|by intros ->; congruence|]. unfold page_of, PAGE_SIZE. zlia.
Qed.

(** A list of pages, none twice. *)
Lemma pg_alloc_all ct fr k l U s :
  vm_ok 2 (2 * length l + k) s → space_ok s (mt_pgd ct) →
  Forall (λ x, is_u32 x ∧ table_for ct (phys s) (mt_pgd ct) x) l → NoDup ((λ x, x / PAGE_SIZE) <$> l) →
  more_used fr (vm_frames s) → private ct fr U s → (∀ v x, v ∈ l → U x → same_page v x = false) →
  ∃ s', forM l (pg_alloc ct) s = Ret (tt, s') ∧ vm_ok 2 k s' ∧ space_ok s' (mt_pgd ct) ∧ MMUReady s' = MMUReady s ∧
    more_used fr (vm_frames s') ∧ private ct fr (λ x, U x ∨ (is_u32 x ∧ ∃ v, v ∈ l ∧ same_page v x = true)) s' ∧
    (∀ w, is_u32 w → table_for ct (phys s) (mt_pgd ct) w → table_for ct (phys s') (mt_pgd ct) w) ∧
    (∀ w, is_u32 w → (∀ v, v ∈ l → same_page v w = false) → hw_walk (phys s') (mt_pgd ct) w = hw_walk (phys s) (mt_pgd ct) w) ∧
    (∀ x, U x → user_byte ct s' x = user_byte ct s x).
Proof.
  revert U s. induction l as [|v l IH]; intros U s Hs Hsp Hl Hnd Hmono Hpv Hout.
  - exists s. repeat (split; [done|]). split; [|done].
    eapply private_ext; [|exact Hpv]. intros x [Hx|(_ & v & Hv & _)]; [done|]. by apply not_elem_of_nil in Hv.
  - apply Forall_cons in Hl as [[Hv Hcv] Hl]. cbn in Hnd. apply NoDup_cons in Hnd as [Hni Hnd].
    destruct (pg_alloc_private ct fr U (2 * length l + k) s v) as (s1 & E1 & Hs1 & Hsp1 & Hr1 & Hm1 & Hpv1 & Ht1 & Hw1 & Hb1); try done.
    { by replace (S (S (2 * length l + k))) with (2 * length (v :: l) + k)%nat by (cbn; lia). }
    { intros x Hx. apply Hout; [by left|done]. }
    destruct (IH (λ x, U x ∨ (is_u32 x ∧ same_page v x = true)) s1 Hs1 Hsp1) as (s' & E & Hs' & Hsp' & Hr' & Hm' & Hpv' & Ht' & Hw' & Hb'); try done.
    { eapply Forall_impl; [exact Hl|]. intros y [Hy Hcy]. split; [done|]. by apply Ht1. }
    { intros y x Hy [Hx|[_ Hx]]; [apply Hout; [by right|done]|]. apply Z.eqb_neq. intros Exy. apply Hni. apply Z.eqb_eq in Hx.
      apply list_elem_of_fmap. exists y. split; [congruence|done]. }
    exists s'. cbn [forM]. rewrite (bind_ret _ _ _ _ _ E1). split; [done|]. do 2 (split; [done|]). split; [congruence|].
    split; [done|]. split; [|split; [|split]].
    + eapply private_ext; [|exact Hpv']. intros x [Hx|(Hx32 & y & [->|Hy]%elem_of_cons & Hs2)]; [by left; left|left; by right|].
      right. split; [done|]. by exists y.
    + intros w Hw32 Hx. apply Ht'; [done|]. by apply Ht1.
    + intros w Hw32 Hx. rewrite Hw', Hw1; [done|done|apply Hx; by left|done|]. intros y Hy. apply Hx. by right.
    + intros x Hx. rewrite Hb' by (by left). by apply Hb1.
Qed.

Lemma page_seq_nodup i n : NoDup ((λ x, x / PAGE_SIZE) <$> page_seq i n).
Proof.
  unfold page_seq. rewrite <- list_fmap_compose. apply NoDup_fmap_2_strong; [|apply NoDup_seqZ].
  intros x y _ _. cbn. unfold PAGE_SIZE. intros. zlia.
Qed.

(** [pg_alloc_range] allocates the page of [start] and those up to the byte before
    [end_ + PAGE_SIZE]. *)
Definition range_pages (start end_ : Z) : list Z := page_seq start (page_count start (end_ + PAGE_SIZE)).

Lemma pg_alloc_range_private ct fr U k s start end_ rw :
  0 ≤ start → end_ + 2 * PAGE_SIZE ≤ 2 ^ 32 → start ≤ end_ →
  vm_ok 2 (2 * length (range_pages start end_) + k) s → space_ok s (mt_pgd ct) →
  (∀ v, PGADDR start ≤ v < end_ + PAGE_SIZE → table_for ct (phys s) (mt_pgd ct) v) →
  more_used fr (vm_frames s) → private ct fr U s → (∀ x, U x → x < PGADDR start) →
  ∃ s', pg_alloc_range ct start end_ rw s = Ret (tt, s') ∧ vm_ok 2 k s' ∧ space_ok s' (mt_pgd ct) ∧ MMUReady s' = MMUReady s ∧
    more_used fr (vm_frames s') ∧ private ct fr (λ x, U x ∨ start ≤ x ≤ end_) s' ∧
    (∀ w, is_u32 w → table_for ct (phys s) (mt_pgd ct) w → table_for ct (phys s') (mt_pgd ct) w) ∧
    (∀ w, is_u32 w → w < PGADDR start → hw_walk (phys s') (mt_pgd ct) w = hw_walk (phys s) (mt_pgd ct) w) ∧
    (∀ x, U x → user_byte ct s' x = user_byte ct s x).
Proof.
  intros H0 Hlim Hle Hv Hsp Hcan Hmono Hpv HU. unfold PAGE_SIZE in Hlim.
  assert (Hin : ∀ x, x ∈ range_pages start end_ → start ≤ x < end_ + PAGE_SIZE).
  { intros x (j & Hj & ->)%page_seq_elem. unfold page_count, PAGE_SIZE in *. zlia. }
  destruct (pg_alloc_all ct fr k (range_pages start end_) U s Hv Hsp)
    as (v' & E & Hv' & Hsp' & Hr' & Hm' & Hpv' & Ht' & Hw' & Hb'); [| |done|done| |].
  { apply Forall_forall. intros x Hx%Hin. unfold PAGE_SIZE in Hx. split; [lia|]. apply Hcan. unfold PGADDR, PAGE_SIZE in *. zlia. }
  { apply page_seq_nodup. }
  { intros v x Hx%Hin Ux%HU. apply Z.eqb_neq. unfold PGADDR, PAGE_SIZE in *. intros ?. zlia. }
  exists v'. split; [|do 4 (split; [done|]); split; [|split; [done|split; [|done]]]].
  - unfold pg_alloc_range. rewrite u32_small by (unfold PAGE_SIZE; lia). rewrite page_loop_forM by (unfold PAGE_SIZE; lia). exact E.
  - eapply private_ext; [|exact Hpv']. intros x [Hx|Hx]; [by left|]. right. split; [lia|].
    exists (start + PAGE_SIZE * (x / PAGE_SIZE - start / PAGE_SIZE)). split.
    + apply page_seq_elem. exists (x / PAGE_SIZE - start / PAGE_SIZE). split; [|done].
      unfold page_count, PAGE_SIZE in *. zlia.
    + unfold same_page, PAGE_SIZE in *. apply Z.eqb_eq. zlia.
  - intros w Hw32 Hlt. apply Hw'; [done|]. intros x Hx%Hin. apply Z.eqb_neq.
    unfold PGADDR, PAGE_SIZE in *. intros ?. zlia.
Qed.

(** *** Storing *)

Lemma byte_of_word w j i : 0 ≤ j → 0 ≤ i → Z.testbit (Z.land (Z.shiftr w (8 * j)) 0xFF) i = (i <? 8) && Z.testbit w (i + 8 * j).
Proof.
  intros Hj Hi. rewrite Z.land_spec, Z.shiftr_spec by done. change 0xFF with (Z.ones 8).
  destruct (Z.ltb_spec i 8); [rewrite Z.ones_spec_low by lia; by rewrite andb_true_r|].
  rewrite Z.ones_spec_high by lia. by rewrite andb_false_r.
Qed.

Lemma set_byte_spec w j b k : 0 ≤ j < 4 → 0 ≤ k < 4 → 0 ≤ b < 256 →
  Z.land (Z.shiftr (set_byte w j b) (8 * k)) 0xFF = if k =? j then b else Z.land (Z.shiftr w (8 * k)) 0xFF.
Proof.
  intros Hj Hk Hb. apply Z.bits_inj'. intros i Hi. rewrite byte_of_word by lia. unfold set_byte.
  rewrite Z.lor_spec, Z.land_spec, Z.lnot_spec by lia. rewrite !Z.shiftl_spec by lia. change 0xFF with (Z.ones 8).
  destruct (Z.eqb_spec k j) as [->|Hne].
  - replace (i + 8 * j - 8 * j) with i by lia. destruct (Z.ltb_spec i 8).
    + rewrite Z.ones_spec_low by lia. cbn. by rewrite andb_false_r.
    + cbn. symmetry. apply (testbit_small b 8); lia.
  - change (Z.ones 8) with 0xFF at 2. rewrite byte_of_word by lia. destruct (Z.ltb_spec i 8); [|done]. cbn [andb].
    assert (H1 : Z.testbit (Z.ones 8) (i + 8 * k - 8 * j) = false).
    { destruct (Z.lt_ge_cases (i + 8 * k - 8 * j) 0); [by apply Z.testbit_neg_r|]. apply Z.ones_spec_high. lia. }
    assert (H2 : Z.testbit b (i + 8 * k - 8 * j) = false).
    { destruct (Z.lt_ge_cases (i + 8 * k - 8 * j) 0); [by apply Z.testbit_neg_r|]. apply (testbit_small b 8); lia. }
    rewrite H1, H2. cbn. by rewrite andb_true_r, orb_false_r.
Qed.

Lemma phys_byte_put m p q b : 0 ≤ b < 256 → phys_byte (put_byte m p b) q = if q =? p then b else phys_byte m q.
Proof.
  intros Hb. unfold phys_byte, put_byte. cbv zeta. destruct (decide (p - p mod 4 = q - q mod 4)) as [E|Hne].
  - rewrite <- E, rd_insert_eq, set_byte_spec by (done || zlia).
    assert (Hqp : (q mod 4 =? p mod 4) = (q =? p)) by (apply eq_true_iff_eq; rewrite !Z.eqb_eq; zlia). by rewrite Hqp.
  - rewrite rd_insert_ne by done. destruct (Z.eqb_spec q p); [congruence|done].
Qed.

Lemma rd_put_other m p b q : page_of q ≠ page_of p → q mod 4 = 0 → rd (put_byte m p b) q = rd m q.
Proof.
  intros Hne Hq. unfold put_byte. cbv zeta. apply rd_insert_ne. intros E. apply Hne. unfold page_of, PAGE_SIZE in *. zlia.
Qed.

(** The same tables: a state that differs in the content of data frames only. *)
Record same_space (ct : mmu_task) (s s' : vm) : Prop := {
  ss_frames : vm_frames s' = vm_frames s;
  ss_tmp : TmpPageTbl s' = TmpPageTbl s;
  ss_ready : MMUReady s' = MMUReady s;
  ss_pde w : is_u32 w → pde_of (phys s') (mt_pgd ct) w = pde_of (phys s) (mt_pgd ct) w;
  ss_walk w : is_u32 w → hw_walk (phys s') (mt_pgd ct) w = hw_walk (phys s) (mt_pgd ct) w
}.
Lemma same_space_refl ct s : same_space ct s s.
Proof. by split. Qed.
Lemma same_space_trans ct s1 s2 s3 : same_space ct s1 s2 → same_space ct s2 s3 → same_space ct s1 s3.
Proof. intros [] []. split; try congruence; intros w Hw; [rewrite <- ss_pde0 by done|rewrite <- ss_walk0 by done]; auto. Qed.

Lemma same_space_vm_ok ct n k s s' : same_space ct s s' → vm_ok n k s → vm_ok n k s'.
Proof. intros [Ef Et _ _ _] []. split; by rewrite ?Ef, ?Et. Qed.
Lemma same_space_table_for ct s s' w : same_space ct s s' → is_u32 w → table_for ct (phys s) (mt_pgd ct) w → table_for ct (phys s') (mt_pgd ct) w.
Proof. intros H Hw. unfold table_for. by rewrite (ss_pde _ _ _ H). Qed.
Lemma same_space_ok ct s s' : same_space ct s s' → space_ok s (mt_pgd ct) → space_ok s' (mt_pgd ct).
Proof.
  intros [Ef _ _ Hp _] [H1 H2 H3 H4 H5 H6]. split; [done|done|by rewrite Ef|..].
  - intros v Hv. rewrite Hp by done. by apply H4.
  - intros v Hv. unfold table_of. rewrite Ef, !Hp by done. by apply H5.
  - intros v w Hv Hw. unfold table_of. rewrite !Hp by done. by apply H6.
Qed.
Lemma same_space_private ct fr U s s' : same_space ct s s' → private ct fr U s → private ct fr U s'.
Proof.
  intros [Ef _ _ Hp Hw] [H1 H2]. split.
  - intros x Hx. destruct (H1 x Hx) as (Hx32 & a & [A B C D] & Hf & E). split; [done|]. exists a. rewrite Hw by done. split; [|done].
    split; [done|by rewrite Ef|done|]. intros w Hw32. unfold table_of. rewrite Hp by done. by apply D.
  - intros x y a u b w c d Hx Hy. destruct (H1 x Hx) as [Hx32 _]. destruct (H1 y Hy) as [Hy32 _]. rewrite !Hw by done. by apply H2.
Qed.

(** A store to a data frame changes no translation. *)
Lemma put_same_space ct s a p b :
  space_ok s (mt_pgd ct) → data_frame s (mt_pgd ct) a → page_of p = a → same_space ct s (with_phys (put_byte (phys s) p b) s).
Proof.
  intros Hsp [A B C D] Hp.
  assert (Epde : ∀ w, is_u32 w → pde_of (put_byte (phys s) p b) (mt_pgd ct) w = pde_of (phys s) (mt_pgd ct) w).
  { intros w Hw. unfold pde_of. pose proof (ADDR_PDE_bound w Hw). pose proof (sp_align _ _ Hsp) as Hal. unfold PAGE_SIZE in Hal.
    apply rd_put_other; [|zlia]. rewrite Hp. rewrite page_of_word by (done || apply Hsp). congruence. }
  split; try done. intros w Hw. cbn [phys with_phys].
  rewrite !hw_walk_entries; [| |by apply Hsp| |]; try done.
  2: { rewrite Epde by done. by apply Hsp. }
  rewrite Epde by done. f_equal. unfold entry_of, table_of. rewrite Epde by done. destruct (Z.eqb_spec (pde_of (phys s) (mt_pgd ct) w) 0) as [|Hd]; [done|].
  fold (table_of (phys s) (mt_pgd ct) w). destruct (space_table_aligned _ _ _ Hsp Hw) as [Hta _]. unfold PAGE_SIZE in Hta.
  apply rd_put_other; [|zlia]. rewrite Hp. rewrite page_of_word by (done || apply ADDR_PTE_bound || auto with ak). by apply D.
Qed.

Lemma uwrite8_ok ct fr U s x b :
  space_ok s (mt_pgd ct) → private ct fr U s → U x → 0 ≤ b < 256 →
  ∃ s', uwrite8 ct x b s = Ret (tt, s') ∧ same_space ct s s' ∧
    ∀ y, U y → user_byte ct s' y = if y =? x then Some b else user_byte ct s y.
Proof.
  intros Hsp [Hmap Hinj] Hx Hb. destruct (Hmap x Hx) as (Hx32 & a & Hda & _ & Ew). set (p := a + x mod 2 ^ 12) in *.
  pose proof (df_aligned _ _ _ Hda) as [Ha0 Hal]. unfold PAGE_SIZE in Hal.
  assert (Hp : page_of p = a) by (unfold page_of, p, PAGE_SIZE; zlia).
  pose proof (put_same_space ct s a p b Hsp Hda Hp) as Hss. exists (with_phys (put_byte (phys s) p b) s).
  split; [unfold uwrite8; mred; by rewrite Ew|]. split; [done|]. intros y Hy. destruct (Hmap y Hy) as (Hy32 & c & Hdc & _ & Ey).
  unfold user_byte. rewrite (ss_walk _ _ _ Hss y Hy32), Ey. cbn [phys with_phys fmap option_fmap option_map fst].
  rewrite phys_byte_put by done. pose proof (df_aligned _ _ _ Hdc) as [_ Hcl]. unfold PAGE_SIZE in Hcl.
  destruct (Z.eqb_spec y x) as [->|Hne].
  - rewrite Ew in Ey. injection Ey as Eac. unfold p. by rewrite (proj2 (Z.eqb_eq _ _)) by lia.
  - destruct (Z.eqb_spec (c + y mod 2 ^ 12) p) as [E|]; [|done]. exfalso. apply Hne.
    assert (a = c) as <- by (unfold p in E; zlia).
    assert (Hs : same_page x y = true).
    { eapply (Hinj x y); [done|done|exact Ew|exact Ey|]. unfold p. rewrite same_frame_offset by (unfold PAGE_SIZE; done). apply Z.eqb_refl. }
    unfold same_page, PAGE_SIZE in Hs. apply Z.eqb_eq in Hs. unfold p in E. zlia.
Qed.

(** Filling a range with given bytes. *)
Lemma ufill_ok ct fr U s base n (f : Z → Z) (step : Z → M vm unit) :
  space_ok s (mt_pgd ct) → private ct fr U s → 0 ≤ base → 0 ≤ n → base + n ≤ 2 ^ 32 → (∀ i, 0 ≤ i < n → U (base + i)) →
  (∀ i, 0 ≤ i < n → 0 ≤ f i < 256) → (∀ i s, 0 ≤ i < n → step i s = uwrite8 ct (base +u i) (f i) s) →
  ∃ s', forM (seqZ 0 n) step s = Ret (tt, s') ∧ same_space ct s s' ∧
    ∀ y, U y → user_byte ct s' y = if (base <=? y) && (y <? base + n) then Some (f (y - base)) else user_byte ct s y.
Proof.
  intros Hsp Hpv H0 Hn Hlim HU Hf Hstep.
  destruct (forM_count step (λ i s', same_space ct s s' ∧
    ∀ y, U y → user_byte ct s' y = if (base <=? y) && (y <? base + i) then Some (f (y - base)) else user_byte ct s y) n s)
    as (s' & E & H); [done| | |by exists s'].
  - intros i s1 Hi [Hss Hby].
    destruct (uwrite8_ok ct fr U s1 (base + i) (f i)) as (s2 & E2 & Hss2 & Hb2);
      [by apply (same_space_ok ct s)|by apply (same_space_private ct fr U s)|by apply HU|by apply Hf|].
    exists s2. rewrite Hstep by done. rewrite u32_small by lia. split; [done|]. split; [by apply (same_space_trans ct s s1)|].
    intros y Hy. rewrite Hb2, Hby by done. destruct (Z.eqb_spec y (base + i)) as [->|Hne].
    + rewrite (proj2 (Z.leb_le base (base + i))), (proj2 (Z.ltb_lt (base + i) (base + (i + 1)))) by lia. cbn. do 2 f_equal. lia.
    + assert (Eb : (y <? base + i) = (y <? base + (i + 1))) by (apply eq_true_iff_eq; rewrite !Z.ltb_lt; lia). by rewrite Eb.
  - split; [apply same_space_refl|]. intros y Hy. rewrite Z.add_0_r.
    destruct (Z.leb_spec base y), (Z.ltb_spec y base); try done. lia.
Qed.

Lemma umemcpy_ok ct fr U s dest src off n :
  space_ok s (mt_pgd ct) → private ct fr U s → 0 ≤ dest → 0 ≤ n → dest + n ≤ 2 ^ 32 → (∀ i, 0 ≤ i < n → U (dest + i)) →
  Forall (λ c, 0 ≤ c < 256) src → 0 ≤ off → off + n ≤ Z.of_nat (length src) →
  ∃ s', umemcpy ct dest src off n s = Ret (tt, s') ∧ same_space ct s s' ∧
    ∀ y, U y → user_byte ct s' y =
      if (dest <=? y) && (y <? dest + n) then Some (default 0 (lookupZ src (off + (y - dest)))) else user_byte ct s y.
Proof.
  intros Hsp Hpv H0 Hn Hlim HU Hb Ho Hl. apply (ufill_ok ct fr U s dest n (λ i, default 0 (lookupZ src (off + i)))); try done.
  - intros i Hi. destruct (lookupZ_is_Some src (off + i)) as [c Ec]; [lia|]. rewrite Ec. cbn.
    unfold lookupZ in Ec. destruct (0 <=? off + i); [|done]. by apply (Forall_lookup_1 _ _ _ _ Hb Ec).
  - intros i s1 Hi. destruct (lookupZ_is_Some src (off + i)) as [c Ec]; [lia|].
    rewrite (bind_ret _ _ _ _ _ (aget_Some _ _ _ _ Ec)). by rewrite Ec.
Qed.

Lemma umemset_ok ct fr U s dest c n :
  space_ok s (mt_pgd ct) → private ct fr U s → 0 ≤ dest → 0 ≤ n → dest + n ≤ 2 ^ 32 → (∀ i, 0 ≤ i < n → U (dest + i)) → 0 ≤ c < 256 →
  ∃ s', umemset ct dest c n s = Ret (tt, s') ∧ same_space ct s s' ∧
    ∀ y, U y → user_byte ct s' y = if (dest <=? y) && (y <? dest + n) then Some c else user_byte ct s y.
Proof. intros Hsp Hpv H0 Hn Hlim HU Hc. by apply (ufill_ok ct fr U s dest n (λ _, c)). Qed.

(** *** Memory that others keep *)

(** The addresses of [K] are mapped to data frames that were in use in [fr]: the kernel's
    own memory, what other tasks share with it, or what the program had before. *)
Definition lasting (ct : mmu_task) (fr : frames) (K : Z → Prop) (v : vm) : Prop :=
  ∀ x, K x → is_u32 x ∧ ∃ p u w, hw_walk (phys v) (mt_pgd ct) x = Some (p, u, w) ∧
    data_frame v (mt_pgd ct) (page_of p) ∧ page_of p ≠ 0 ∧ frame_used fr (page_of p) = true.
Lemma lasting_more ct fr fr' K v : more_used fr fr' → lasting ct fr K v → lasting ct fr' K v.
Proof.
  intros [_ Hm] Hl x Hx. destruct (Hl x Hx) as (Hx32 & p & u & w & E & Hd & H0 & Hf). split; [done|]. exists p, u, w.
  split; [done|]. split; [done|]. split; [done|]. apply Hm; [apply Hd|done].
Qed.
(** From [v] to [v'] the bytes there stay. *)
Record lasts (ct : mmu_task) (fr : frames) (K : Z → Prop) (v v' : vm) : Prop := {
  la_lasting : lasting ct fr K v';
  la_byte x : K x → user_byte ct v' x = user_byte ct v x
}.
Lemma lasts_refl ct fr K v : lasting ct fr K v → lasts ct fr K v v.
Proof. by split. Qed.
Lemma lasts_trans ct fr K v1 v2 v3 : lasts ct fr K v1 v2 → lasts ct fr K v2 v3 → lasts ct fr K v1 v3.
Proof. intros [A1 A2] [B1 B2]. split; [done|]. intros x Hx. by rewrite B2, A2. Qed.

(** The words of the frames and the translations are the same. *)
Lemma lasts_of ct fr K v v' : lasting ct fr K v →
  (∀ x, K x → hw_walk (phys v') (mt_pgd ct) x = hw_walk (phys v) (mt_pgd ct) x) →
  (∀ p, data_frame v (mt_pgd ct) p → p ≠ 0 → frame_used fr p = true → data_frame v' (mt_pgd ct) p ∧ ∀ q, page_of q = p → phys_byte (phys v') q = phys_byte (phys v) q) →
  lasts ct fr K v v'.
Proof.
  intros Hl Hw Hd. split.
  - intros x Hx. destruct (Hl x Hx) as (Hx32 & p & u & w & E & H1 & H2 & H3). split; [done|]. exists p, u, w. rewrite Hw by done.
    split; [done|]. split; [by apply Hd|done].
  - intros x Hx. destruct (Hl x Hx) as (Hx32 & p & u & w & E & H1 & H2 & H3). unfold user_byte. rewrite Hw, E by done. cbn. f_equal. by apply (Hd (page_of p)).
Qed.

Lemma phys_byte_same m m' q : (∀ b, page_of b = page_of q → rd m' b = rd m b) → phys_byte m' q = phys_byte m q.
Proof. intros H. unfold phys_byte. rewrite H; [done|]. unfold page_of, PAGE_SIZE. zlia. Qed.

Lemma pg_alloc_lasts ct fr K k s s' v :
  vm_ok 2 (S (S k)) s → space_ok s (mt_pgd ct) → is_u32 v → table_for ct (phys s) (mt_pgd ct) v → pg_alloc ct v s = Ret (tt, s') →
  lasting ct fr K s → (∀ x, K x → same_page v x = false) → lasts ct fr K s s'.
Proof.
  intros Hs Hsp Hv Htf E Hl Hout. destruct (pg_alloc_full ct 0 k s v Hs Hsp Hv Htf) as (a & s1 & E1 & _ & _ & _ & _ & _ & _ & _ & _ & _ & Hw & _ & Hdf).
  rewrite E in E1. injection E1 as <-. apply lasts_of; [done| |].
  - intros x Hx. destruct (Hl x Hx) as [Hx32 _]. by rewrite Hw, Hout.
  - intros p Hp H0 _. destruct (Hdf p Hp) as [Hp' Hb]. split; [done|]. intros q Hq. apply phys_byte_same. intros b Hbq. apply (Hb H0). congruence.
Qed.

Lemma pg_alloc_all_lasts ct fr K k l s s' :
  vm_ok 2 (2 * length l + k) s → space_ok s (mt_pgd ct) → Forall (λ x, is_u32 x ∧ table_for ct (phys s) (mt_pgd ct) x) l →
  forM l (pg_alloc ct) s = Ret (tt, s') → lasting ct fr K s → (∀ v x, v ∈ l → K x → same_page v x = false) → lasts ct fr K s s'.
Proof.
  revert s. induction l as [|v l IH]; intros s Hs Hsp Hl E Hla Hout.
  - injection E as <-. by apply lasts_refl.
  - apply Forall_cons in Hl as [[Hv Hcv] Hl]. assert (Hs0 : vm_ok 2 (S (S (2 * length l + k))) s) by (by replace (S (S (2 * length l + k))) with (2 * length (v :: l) + k)%nat by (cbn; lia)).
    destruct (pg_alloc_full ct 0 (2 * length l + k) s v Hs0 Hsp Hv Hcv) as (a & s1 & E1 & _ & _ & _ & _ & _ & Hs1 & Hsp1 & _ & Ht1 & _).
    cbn [forM] in E. rewrite (bind_ret _ _ _ _ _ E1) in E.
    assert (H1 : lasts ct fr K s s1) by (apply (pg_alloc_lasts ct fr K (2 * length l + k) s s1 v); try done; intros x Hx; apply Hout; [left|done]).
    apply (lasts_trans _ _ _ _ s1); [done|]. apply IH; try done.
    + eapply Forall_impl; [exact Hl|]. intros y [Hy Hcy]. split; [done|]. by apply Ht1.
    + apply H1.
    + intros y x Hy Hx. apply Hout; [by right|done].
Qed.

Lemma pg_alloc_range_lasts ct fr K k s s' start end_ rw :
  0 ≤ start → end_ + 2 * PAGE_SIZE ≤ 2 ^ 32 → start ≤ end_ →
  vm_ok 2 (2 * length (range_pages start end_) + k) s → space_ok s (mt_pgd ct) →
  (∀ v, PGADDR start ≤ v < end_ + PAGE_SIZE → table_for ct (phys s) (mt_pgd ct) v) →
  pg_alloc_range ct start end_ rw s = Ret (tt, s') → lasting ct fr K s →
  (∀ x, K x → x < PGADDR start ∨ end_ + 2 * PAGE_SIZE ≤ x) → lasts ct fr K s s'.
Proof.
  intros H0 Hlim Hle Hv Hsp Hcan E Hl HK. unfold PAGE_SIZE in Hlim. unfold pg_alloc_range in E. rewrite u32_small in E by (unfold PAGE_SIZE; lia).
  rewrite page_loop_forM in E by (unfold PAGE_SIZE; lia). fold (range_pages start end_) in E.
  assert (Hin : ∀ x, x ∈ range_pages start end_ → start ≤ x < end_ + PAGE_SIZE).
  { intros x (j & Hj & ->)%page_seq_elem. unfold page_count, PAGE_SIZE in *. zlia. }
  apply (pg_alloc_all_lasts ct fr K k (range_pages start end_)); try done.
  - apply Forall_forall. intros x Hx%Hin. unfold PAGE_SIZE in Hx. split; [lia|]. apply Hcan. unfold PGADDR, PAGE_SIZE in *. zlia.
  - intros v x Hx%Hin Hk. destruct (HK x Hk) as [H|H]; apply Z.eqb_neq; unfold PGADDR, PAGE_SIZE in *; intros ?; zlia.
Qed.

Lemma uwrite8_lasts ct fr U K s s' x b :
  space_ok s (mt_pgd ct) → private ct fr U s → U x → uwrite8 ct x b s = Ret (tt, s') → 0 ≤ b < 256 →
  lasting ct fr K s → lasts ct fr K s s'.
Proof.
  intros Hsp Hpv Hx E Hb Hl. destruct (pv_map _ _ _ _ Hpv x Hx) as (Hx32 & a & Hda & Hfa & Ew).
  pose proof (df_aligned _ _ _ Hda) as [Ha0 Hal]. set (p := a + x mod 2 ^ 12) in *.
  assert (Hp : page_of p = a) by (unfold page_of, p, PAGE_SIZE in *; zlia).
  assert (Es : s' = with_phys (put_byte (phys s) p b) s).
  { unfold uwrite8 in E. rewrite (bind_ret _ _ s s s) in E by done. rewrite Ew in E. by injection E as <-. }
  pose proof (put_same_space ct s a p b Hsp Hda Hp) as Hss. rewrite <- Es in Hss. apply lasts_of; [done| |].
  - intros y Hy. apply (ss_walk _ _ _ Hss). by apply Hl.
  - intros q [Q1 Q2 Q3 Q4] Hq0 Hqf. split.
    + split; [done|by rewrite (ss_frames _ _ _ Hss)|done|]. intros w Hw. unfold table_of. rewrite (ss_pde _ _ _ Hss) by done. by apply Q4.
    + intros r Hr. rewrite Es. cbn [phys with_phys]. rewrite phys_byte_put by done. rewrite (proj2 (Z.eqb_neq r p)); [done|]. intros ->. congruence.
Qed.

Lemma ufill_lasts ct fr U K s s' base n (f : Z → Z) (step : Z → M vm unit) :
  space_ok s (mt_pgd ct) → private ct fr U s → 0 ≤ base → 0 ≤ n → base + n ≤ 2 ^ 32 → (∀ i, 0 ≤ i < n → U (base + i)) →
  (∀ i, 0 ≤ i < n → 0 ≤ f i < 256) → (∀ i s, 0 ≤ i < n → step i s = uwrite8 ct (base +u i) (f i) s) →
  forM (seqZ 0 n) step s = Ret (tt, s') → lasting ct fr K s → lasts ct fr K s s'.
Proof.
  intros Hsp Hpv H0 Hn Hlim HU Hf Hstep E Hl.
  destruct (forM_count step (λ i s', same_space ct s s' ∧ lasts ct fr K s s') n s) as (s2 & E2 & H); [done| | |].
  - intros i s1 Hi [Hss Hla].
    destruct (uwrite8_ok ct fr U s1 (base + i) (f i)) as (s2 & E2 & Hss2 & _);
      [by apply (same_space_ok ct s)|by apply (same_space_private ct fr U s)|by apply HU|by apply Hf|].
    exists s2. rewrite Hstep by done. rewrite u32_small by lia. split; [done|]. split; [by apply (same_space_trans ct s s1)|].
    apply (lasts_trans _ _ _ _ s1); [done|]. apply (uwrite8_lasts ct fr U K s1 s2 (base + i) (f i)); try done;
      [by apply (same_space_ok ct s)|by apply (same_space_private ct fr U s)|by apply HU|by apply Hf|apply Hla].
  - split; [apply same_space_refl|by apply lasts_refl].
  - rewrite E in E2. injection E2 as <-. apply H.
Qed.

Lemma umemcpy_lasts ct fr U K s s' dest src off n :
  space_ok s (mt_pgd ct) → private ct fr U s → 0 ≤ dest → 0 ≤ n → dest + n ≤ 2 ^ 32 → (∀ i, 0 ≤ i < n → U (dest + i)) →
  Forall (λ c, 0 ≤ c < 256) src → 0 ≤ off → off + n ≤ Z.of_nat (length src) →
  umemcpy ct dest src off n s = Ret (tt, s') → lasting ct fr K s → lasts ct fr K s s'.
Proof.
  intros Hsp Hpv H0 Hn Hlim HU Hb Ho Hl. apply (ufill_lasts ct fr U K s s' dest n (λ i, default 0 (lookupZ src (off + i)))); try done.
  - intros i Hi. destruct (lookupZ_is_Some src (off + i)) as [c Ec]; [lia|]. rewrite Ec. cbn.
    unfold lookupZ in Ec. destruct (0 <=? off + i); [|done]. by apply (Forall_lookup_1 _ _ _ _ Hb Ec).
  - intros i s1 Hi. destruct (lookupZ_is_Some src (off + i)) as [c Ec]; [lia|].
    rewrite (bind_ret _ _ _ _ _ (aget_Some _ _ _ _ Ec)). by rewrite Ec.
Qed.

Lemma umemset_lasts ct fr U K s s' dest c n :
  space_ok s (mt_pgd ct) → private ct fr U s → 0 ≤ dest → 0 ≤ n → dest + n ≤ 2 ^ 32 → (∀ i, 0 ≤ i < n → U (dest + i)) → 0 ≤ c < 256 →
  umemset ct dest c n s = Ret (tt, s') → lasting ct fr K s → lasts ct fr K s s'.
Proof. intros Hsp Hpv H0 Hn Hlim HU Hc. by apply (ufill_lasts ct fr U K s s' dest n (λ _, c)). Qed.

(** ** What the kernel reads through a user pointer *)

(** The bytes from an address on, at most [n], as far as they are accessible. *)
Fixpoint user_view (ct : mmu_task) (v : vm) (src : Z) (n : nat) : list Z :=
  match n with
  | O => []
  | S n => match user_byte ct v src with Some b => b :: user_view ct v (src +u 1) n | None => [] end
  end.
Definition uview (ct : mmu_task) (src n : Z) : M vm (list Z) := gets (λ v, user_view ct v src (Z.to_nat n)).

(** The string at an address, with its terminator unless the memory ends before it. *)
Definition ustring (ct : mmu_task) (src : Z) : M vm (list Z) :=
  while 4294967297
    (λ st : Z * list Z,
       let (p, x) := st in
       v ← getS;
       match user_byte ct v p with
       | Some b => if b =? 0 then mret (inr (x ++ [0])) else mret (inl (p +u 1, x ++ [b]))
       | None => mret (inr x)
       end) (src, []).

(** The memory at [src] holds the bytes [x]. *)
Definition holds_at (ct : mmu_task) (v : vm) (src : Z) (x : list Z) : Prop :=
  0 ≤ src ∧ src + Z.of_nat (length x) ≤ 2 ^ 32 ∧ ∀ i b, x !! i = Some b → user_byte ct v (src + Z.of_nat i) = Some b.

Lemma holds_at_cons ct v src b x : holds_at ct v src (b :: x) → user_byte ct v src = Some b ∧ src + 1 + Z.of_nat (length x) ≤ 2 ^ 32 ∧
  (x ≠ [] → holds_at ct v (src +u 1) x).
Proof.
  intros (H0 & H1 & H2). cbn [length] in H1. split; [rewrite <- (H2 0%nat b eq_refl); f_equal; lia|]. split; [lia|]. intros Hx.
  assert (0 < Z.of_nat (length x)) by (destruct x; [done|cbn; lia]).
  rewrite u32_small by lia. split; [lia|]. split; [lia|]. intros i c Hc. rewrite <- (H2 (S i) c Hc). f_equal. lia.
Qed.

Lemma user_view_ok ct v src x : holds_at ct v src x → user_view ct v src (length x) = x.
Proof.
  revert src. induction x as [|b x IH]; intros src Hx; [done|]. apply holds_at_cons in Hx as (Eb & _ & Hx). cbn. rewrite Eb. f_equal.
  destruct x as [|c x]; [done|]. by apply IH, Hx.
Qed.

Lemma ustring_ok ct v src x :
  holds_at ct v src (x ++ [0]) → Forall (λ b, b ≠ 0) x → ustring ct src v = Ret (x ++ [0], v).
Proof.
  intros Hx Hz. unfold ustring. apply (while_run _ _ (S (length x))).
  2: { destruct Hx as (H0 & H1 & _). rewrite length_app in H1. cbn [length] in H1. lia. }
  match goal with |- run_nat _ ?f _ _ = _ =>
    cut (∀ acc, run_nat (S (length x)) f (src, acc) v = Ret (inr (acc ++ x ++ [0]), v)); [by intros H; apply (H [])|] end.
  revert src Hx. induction Hz as [|b x Hb _ IH]; intros src Hx acc.
  - apply holds_at_cons in Hx as (Eb & _). cbn [run_nat length app]. rewrite (bind_ret _ _ v (inr (acc ++ [0])) v); [done|].
    cbv beta iota. rewrite (bind_ret _ _ v v v), Eb by done. done.
  - cbn [app] in Hx. apply holds_at_cons in Hx as (Eb & _ & Hx). specialize (Hx ltac:(by destruct x)). cbn [run_nat length].
    rewrite (bind_ret _ _ v (inl (src +u 1, acc ++ [b])) v).
    + specialize (IH _ Hx (acc ++ [b])). rewrite <- app_assoc in IH. exact IH.
    + cbv beta iota. rewrite (bind_ret _ _ v v v), Eb by done. by rewrite (proj2 (Z.eqb_neq b 0)).
Qed.

(** A store of bytes, read back. *)
Lemma umemcpy_holds ct fr U v p x :
  space_ok v (mt_pgd ct) → private ct fr U v → 0 ≤ p → p + Z.of_nat (length x) ≤ 2 ^ 32 → (∀ i, 0 ≤ i < Z.of_nat (length x) → U (p + i)) → Forall (λ c, 0 ≤ c < 256) x →
  ∃ v', umemcpy ct p x 0 (Z.of_nat (length x)) v = Ret (tt, v') ∧ same_space ct v v' ∧ holds_at ct v' p x ∧
    ∀ y, U y → ¬ p ≤ y < p + Z.of_nat (length x) → user_byte ct v' y = user_byte ct v y.
Proof.
  intros Hsp Hpv H0 Hl HU Hb. destruct (umemcpy_ok ct fr U v p x 0 (Z.of_nat (length x))) as (v' & E & Hss & Hby); first [done|lia|idtac].
  exists v'. split; [done|]. split; [done|]. split.
  - split; [done|]. split; [exact Hl|]. intros i b Hi. pose proof (lookup_lt_Some _ _ _ Hi). rewrite Hby by (apply HU; lia).
    rewrite (proj2 (Z.leb_le _ _)), (proj2 (Z.ltb_lt _ _)) by lia. cbn [andb].
    replace (0 + (p + Z.of_nat i - p)) with (Z.of_nat i) by lia. unfold lookupZ. rewrite (proj2 (Z.leb_le 0 _)) by lia. by rewrite Nat2Z.id, Hi.
  - intros y Hy Hout. rewrite Hby by done. destruct (Z.leb_spec p y), (Z.ltb_spec y (p + Z.of_nat (length x))); try done. lia.
Qed.
