(* ===== verification/SysMem.v ===== *)
(** * Memory system calls

    [kernel/syscall/mem.c]: [brk], and [mmap], which serves anonymous mappings from
    an address that only grows.  What a mapping promises is stated on the page walk
    of the processor: all regions ever returned stay mapped, to frames of their own. *)
From Stdlib Require Import ZArith Lia.
From stdpp Require Import base gmap list list_numbers strings.
From S2P Require Import Prelude Layout FrameAlloc Mmu ListHead TaskState Task Machine Brk UserMem.
Open Scope Z_scope.
Open Scope u32_scope.

(** ** kernel/syscall/mem.c *)

Definition MAP_ANONYMOUS : Z := 0x20.

Record mmap_args : Type := mkMmapArgs {
  ma_addr : Z; ma_length : Z; ma_prot : Z; ma_flags : Z; ma_fd : Z; ma_offset : Z
}.

Definition sys_brk (brk_ : Z) : M mach Z :=
  c ← liftT (gets CurrentTask);
  task_brk c brk_.

Definition sys_mmap_pgoff (addr length prot flags fd offset : Z) : M mach Z :=
  if negb (Z.land flags MAP_ANONYMOUS =? 0) then
    t ← liftT current;
    let mem := mmapbrk t in
    on_vm (λ ct, pg_alloc_range ct mem (mem +u length +u PAGE_SIZE) true) ;;
    c ← liftT (gets CurrentTask);
    liftT (upd_task c (set_mmapbrk (mem +u length +u PAGE_SIZE))) ;;
    mret mem
  else panic "sys_mmap: not implemented".

(** The structure is read through the user's pointer. *)
Definition sys_mmap (args : mmap_args) : M mach Z :=
  sys_mmap_pgoff (ma_addr args) (ma_length args) (ma_prot args) (ma_flags args) (ma_fd args) (ma_offset args).

(** ** Specification *)

(** The pages one anonymous mapping of [length] bytes at [mem] allocates. *)
Definition mmap_pages (mem length : Z) : list Z := range_pages mem (mem + length + PAGE_SIZE).

(** The task with another end of its mappings. *)
Definition remapped (b : Z) (t : task) (s : mach) : mach :=
  with_tst (set_tasks (<[CurrentTask (m_tst s) := set_mmapbrk b t]> (tasks (m_tst s))) (m_tst s)) s.
Lemma remapped_ok t k s b : mem_ok t k s → mem_ok (set_mmapbrk b t) k (remapped b t s).
Proof. intros [Hc Hr Hv Hsp]. split; try done. apply lookup_insert_eq. Qed.
Lemma mmu_view_mmapbrk b t : mmu_view (set_mmapbrk b t) = mmu_view t.
Proof. done. Qed.

(** One anonymous mapping. *)
Lemma sys_mmap_ok t s k fr U addr length prot flags fd offset :
  let mem := mmapbrk t in let next := mem + length + PAGE_SIZE in
  Z.land flags MAP_ANONYMOUS ≠ 0 → 0 ≤ mem → 0 ≤ length → mem + length + 3 * PAGE_SIZE ≤ 2 ^ 32 →
  mem_ok t (2 * List.length (mmap_pages mem length) + k) s →
  (∀ v, PGADDR mem ≤ v < mem + length + 2 * PAGE_SIZE → can_map t s v) →
  more_used fr (vm_frames (m_vm s)) → private (mmu_view t) fr U (m_vm s) → (∀ x, U x → x < PGADDR mem) →
  ∃ v', let s' := remapped next t (with_vm v' s) in
    sys_mmap_pgoff addr length prot flags fd offset s = Ret (mem, s') ∧ mem_ok (set_mmapbrk next t) k s' ∧
    more_used fr (vm_frames v') ∧
    private (mmu_view t) fr (λ x, U x ∨ mem ≤ x < mem + length) v' ∧
    (∀ w, is_u32 w → can_map t s w → can_map (set_mmapbrk next t) s' w) ∧
    (∀ w, is_u32 w → w < PGADDR mem → walk t s' w = walk t s w) ∧
    ∀ K, lasting (mmu_view t) fr K (m_vm s) → (∀ x, K x → x < PGADDR mem ∨ next + 2 * PAGE_SIZE ≤ x) → lasts (mmu_view t) fr K (m_vm s) v'.
Proof.
  intros mem next Hf H0 Hl Hlim [Hc Hr Hv Hsp] Hcan Hmono Hpv HU. unfold PAGE_SIZE in Hlim.
  assert (Enext : mem +u length +u PAGE_SIZE = next).
  { unfold next, PAGE_SIZE. rewrite (u32_small (mem + length)) by lia. apply u32_small. lia. }
  destruct (pg_alloc_range_private (mmu_view t) fr U k (m_vm s) mem next true)
    as (v' & E & Hv' & Hsp' & Hr' & Hm' & Hpv' & Ht' & Hw' & _); try done.
  { unfold next, PAGE_SIZE. lia. }
  { unfold next, PAGE_SIZE. lia. }
  { intros v Hx. apply Hcan. unfold next, PAGE_SIZE in *. lia. }
  set (s1 := with_vm v' s). rewrite Hr in Hr'.
  assert (Hm1 : mem_ok t k s1) by (by split).
  exists v'. cbv zeta. fold s1. split; [|split; [by apply remapped_ok|split; [done|split; [|split; [|split]]]]].
  - unfold sys_mmap_pgoff. rewrite (proj2 (Z.eqb_neq _ _) Hf). cbn [negb].
    rewrite (bind_ret _ _ s t s) by (by rewrite (liftT_ok _ _ _ _ (current_ok _ _ Hc)), with_tst_same). fold mem.
    rewrite (bind_ret _ _ s tt s1).
    2: { rewrite Enext. by apply (on_vm_ok _ _ t _ _ Hc). }
    rewrite (bind_ret _ _ s1 (CurrentTask (m_tst s)) s1) by (by rewrite (liftT_ok _ s1 _ (m_tst s1) eq_refl), with_tst_same).
    rewrite (bind_ret _ _ s1 tt (remapped next t s1)); [done|].
    rewrite Enext. apply liftT_ok. by apply upd_task_ok.
  - eapply private_ext; [|exact Hpv']. intros x [Hx|Hx]; [by left|]. right. unfold next, PAGE_SIZE. lia.
  - intros w Hw32 Hx. by apply (Ht' w Hw32).
  - intros w Hw32 Hlt. by apply Hw'.
  - intros K HK Hout. eapply (pg_alloc_range_lasts _ _ _ k); [exact H0| | |exact Hv|exact Hsp| |exact E|exact HK|exact Hout].
    + unfold next, PAGE_SIZE. lia.
    + unfold next, PAGE_SIZE. lia.
    + intros v Hx. apply Hcan. unfold next, PAGE_SIZE in *. lia.
Qed.

(** A sequence of anonymous mappings, the addresses it should return, and the frames
    it may take. *)
Fixpoint mmap_all (lengths : list Z) : M mach (list Z) :=
  match lengths with
  | [] => mret []
  | n :: lengths => a ← sys_mmap_pgoff 0 n 3 MAP_ANONYMOUS (-1) 0; l ← mmap_all lengths; mret (a :: l)
  end.
Fixpoint mmap_addrs (mem : Z) (lengths : list Z) : list Z :=
  match lengths with [] => [] | n :: lengths => mem :: mmap_addrs (mem + n + PAGE_SIZE) lengths end.
Fixpoint mmap_frames (mem : Z) (lengths : list Z) : nat :=
  match lengths with [] => 0 | n :: lengths => 2 * length (mmap_pages mem n) + mmap_frames (mem + n + PAGE_SIZE) lengths end.
Fixpoint mmap_end (mem : Z) (lengths : list Z) : Z :=
  match lengths with [] => mem | n :: lengths => mmap_end (mem + n + PAGE_SIZE) lengths end.
(** The addresses of the regions. *)
Fixpoint in_regions (mem : Z) (lengths : list Z) (x : Z) : Prop :=
  match lengths with [] => False | n :: lengths => mem ≤ x < mem + n ∨ in_regions (mem + n + PAGE_SIZE) lengths x end.

Lemma mmap_end_ge mem lengths : Forall (λ n, 0 ≤ n) lengths → mem ≤ mmap_end mem lengths.
Proof. intros H. revert mem. induction H as [|n l Hn H IH]; intros mem; cbn; [done|]. specialize (IH (mem + n + PAGE_SIZE)). unfold PAGE_SIZE in *. lia. Qed.

Lemma mmap_all_ok lengths t s k fr U :
  Forall (λ n, 0 ≤ n) lengths → 0 ≤ mmapbrk t → mmap_end (mmapbrk t) lengths + 3 * PAGE_SIZE ≤ 2 ^ 32 →
  mem_ok t (mmap_frames (mmapbrk t) lengths + k) s →
  (∀ v, PGADDR (mmapbrk t) ≤ v < mmap_end (mmapbrk t) lengths + 2 * PAGE_SIZE → can_map t s v) →
  more_used fr (vm_frames (m_vm s)) → private (mmu_view t) fr U (m_vm s) → (∀ x, U x → x < PGADDR (mmapbrk t)) →
  ∃ s', mmap_all lengths s = Ret (mmap_addrs (mmapbrk t) lengths, s') ∧
    mem_ok (set_mmapbrk (mmap_end (mmapbrk t) lengths) t) k s' ∧
    private (mmu_view t) fr (λ x, U x ∨ in_regions (mmapbrk t) lengths x) (m_vm s') ∧
    (∀ w, is_u32 w → w < PGADDR (mmapbrk t) → walk t s' w = walk t s w).
Proof.
  intros Hl. revert t s U. induction Hl as [|n l Hn Hl IH]; intros t s U H0 Hlim Hm Hcan Hmono Hpv HU.
  - exists s. split; [done|]. split; [by destruct t|]. split; [|done]. eapply private_ext; [|exact Hpv]. by intros x [?|[]].
  - cbn [mmap_end mmap_frames mmap_addrs in_regions] in *. set (mem := mmapbrk t) in *. set (next := mem + n + PAGE_SIZE) in *.
    pose proof (mmap_end_ge next l Hl) as Hge. unfold next, PAGE_SIZE in Hge, Hlim. 
    destruct (sys_mmap_ok t s (mmap_frames next l + k) fr U 0 n 3 MAP_ANONYMOUS (-1) 0) as (v1 & E1 & Hm1 & Hmo1 & Hpv1 & Hc1 & Hw1 & _); try done.
    { unfold PAGE_SIZE. fold mem. lia. }
    { fold mem. by rewrite Nat.add_assoc. }
    { fold mem. intros v Hv. apply Hcan. unfold next, PAGE_SIZE in *. lia. }
    fold mem in E1, Hm1, Hpv1, Hc1, Hw1. fold next in E1, Hm1, Hc1, Hw1. set (s1 := remapped next t (with_vm v1 s)) in *.
    destruct (IH (set_mmapbrk next t) s1 (λ x, U x ∨ mem ≤ x < mem + n)) as (s' & E & Hm' & Hpv' & Hw'); try done.
    { change (mmapbrk (set_mmapbrk next t)) with next. unfold next, PAGE_SIZE. lia. }
    { intros v Hv. change (mmapbrk (set_mmapbrk next t)) with next in Hv. unfold PGADDR in Hv. unfold PAGE_SIZE in *. apply Hc1; [unfold next in *; zlia|]. apply Hcan. unfold next, PGADDR, PAGE_SIZE in *. zlia. }
    { change (mmapbrk (set_mmapbrk next t)) with next. intros x [Hx%HU|Hx]; unfold next, PGADDR, PAGE_SIZE in *; zlia. }
    change (mmapbrk (set_mmapbrk next t)) with next in *.
    exists s'. cbn [mmap_all]. rewrite (bind_ret _ _ _ _ _ E1), (bind_ret _ _ _ _ _ E). split; [done|]. split; [done|]. split.
    + eapply private_ext; [|exact Hpv']. intros x [?|[?|?]]; [by left; left|by left; right|by right].
    + intros w Hw Hlt. rewrite <- Hw1 by done. apply Hw'; [done|]. unfold next, PGADDR, PAGE_SIZE in *. zlia.
Qed.

(** ** Properties *)

(** C20: anonymous mappings are the task's own.  A sequence of [mmap] calls returns
    addresses of regions that follow each other; after the last call every byte of
    every region translates, writable, to memory that was free before the first and is
    no page table, and two bytes share a frame only when they are on one page; addresses
    below the first region translate as before.  Two frames per page are enough. *)
Theorem mmap_regions_private lengths t s k :
  Forall (λ n, 0 ≤ n) lengths → 0 ≤ mmapbrk t → mmap_end (mmapbrk t) lengths + 3 * PAGE_SIZE ≤ 2 ^ 32 →
  mem_ok t (mmap_frames (mmapbrk t) lengths + k) s → frame_used (vm_frames (m_vm s)) 0 = true →
  (∀ v, PGADDR (mmapbrk t) ≤ v < mmap_end (mmapbrk t) lengths + 2 * PAGE_SIZE → can_map t s v) →
  ∃ s', mmap_all lengths s = Ret (mmap_addrs (mmapbrk t) lengths, s') ∧
    private (mmu_view t) (vm_frames (m_vm s)) (in_regions (mmapbrk t) lengths) (m_vm s') ∧
    (∀ w, is_u32 w → w < PGADDR (mmapbrk t) → walk t s' w = walk t s w) ∧
    mem_ok (set_mmapbrk (mmap_end (mmapbrk t) lengths) t) k s'.
Proof.
  intros Hl H0 Hlim Hm Hz Hcan.
  destruct (mmap_all_ok lengths t s k (vm_frames (m_vm s)) (λ _, False) Hl H0 Hlim Hm Hcan) as (s' & E & Hm' & Hpv & Hw);
    [by apply more_used_refl|apply private_none|done|].
  exists s'. split; [done|]. split; [|done]. eapply private_ext; [|exact Hpv]. intros x Hx. by right.
Qed.

Definition mmap_task : task := set_mmapbrk 0x40000000 brk_task.
Definition mmap_mach : mach := remapped 0x40000000 brk_task demo_mach.
Lemma mmap_regions_private_witness :
  ∃ s', mmap_all [16; 4096] mmap_mach = Ret ([0x40000000; 0x40001010], s') ∧
    private (mmu_view mmap_task) (vm_frames demo_vm) (in_regions 0x40000000 [16; 4096]) (m_vm s').
Proof.
  destruct (mmap_regions_private [16; 4096] mmap_task mmap_mach 0) as (s' & E & Hp & _).
  - repeat constructor; lia.
  - done.
  - done.
  - replace (Nat.add (mmap_frames (mmapbrk mmap_task) [16; 4096]) 0) with 12%nat by reflexivity.
    apply (remapped_ok brk_task 12 demo_mach). split; [done|done|split; [by apply frames_okb_ok|vm_compute; lia|done|vm_compute; lia]|exact demo_space_ok].
  - reflexivity.
  - intros v Hv. left. apply demo_pde. clear - Hv. change (mmap_end (mmapbrk mmap_task) [16; 4096]) with 0x40003010 in Hv.
    change (PGADDR (mmapbrk mmap_task)) with 0x40000000 in Hv. unfold PAGE_SIZE in Hv. lia.
  - exists s'. split; [exact E|exact Hp].
Defined.
