(* ===== verification/Syscall.v ===== *)
(** * The system call table

    [kernel/syscall/syscall.c] and [arch/x86/syscall.c], and the registrations of
    [kernel/syscall/*.c].  A function pointer in the table is the name of the
    function; [arity] is the number of parameters of its C definition.  What the
    functions do is [run]: the dispatcher is verified for any behaviour of them.  A function
    that enters another task does not return to its caller now: its result is then what
    goes on instead. *)
From Stdlib Require Import ZArith Lia.
From stdpp Require Import base list list_numbers strings.
From S2P Require Import Prelude Intr.
Open Scope Z_scope.
Open Scope u32_scope.

(** ** State *)

Definition NUM_SYSCALLS : Z := 0xFF.

Definition SYS_EXIT : Z := 0x01.
Definition SYS_FORK : Z := 0x02.
Definition SYS_READ : Z := 0x03.
Definition SYS_WRITE : Z := 0x04.
Definition SYS_OPEN : Z := 0x05.
Definition SYS_CLOSE : Z := 0x06.
Definition SYS_EXECVE : Z := 0x0b.
Definition SYS_LSEEK : Z := 0x13.
Definition SYS_GETPID : Z := 0x14.
Definition SYS_BRK : Z := 0x2d.
Definition SYS_SIGNAL : Z := 0x30.
Definition SYS_IOCTL : Z := 0x36.
Definition SYS_FCNTL : Z := 0x37.
Definition SYS_GETPPID : Z := 0x40.
Definition SYS_MMAP : Z := 0x5a.
Definition SYS_NEWSTAT : Z := 0x6a.
Definition SYS_WAIT4 : Z := 0x72.
Definition SYS_UNAME : Z := 0x7a.
Definition SYS_SCHED_YIELD : Z := 0x9e.
Definition SYS_RT_SIGACTION : Z := 0xae.
Definition SYS_RT_SIGSUSPEND : Z := 0xb3.
Definition SYS_GETCWD : Z := 0xb7.
Definition SYS_MMAP_PGOFF : Z := 0xc0.
Definition SYS_GETUID : Z := 0xc7.
Definition SYS_GETGID : Z := 0xc8.
Definition SYS_GETEUID : Z := 0xc9.
Definition SYS_GETEGID : Z := 0xca.
Definition SYS_GETPGID : Z := 0x84.
Definition SYS_GETPGRP : Z := 0x41.
Definition SYS_SETPGID : Z := 0x39.

Inductive sysfn : Type :=
| f_exit | f_execve | f_getppid | f_getpid | f_fork | f_sched_yield | f_getpgid | f_getpgrp | f_setpgid
| f_wait4 | f_signal | f_rt_sigaction | f_rt_sigsuspend
| f_open | f_close | f_lseek | f_ioctl | f_fcntl | f_getcwd | f_read | f_write | f_newstat
| f_brk | f_mmap | f_mmap_pgoff | f_fake_getid | f_uname.
#[export] Instance sysfn_eq_dec : EqDecision sysfn.
Proof. solve_decision. Defined.

Definition arity (f : sysfn) : nat :=
  match f with
  | f_getppid | f_getpid | f_fork | f_sched_yield | f_getpgrp | f_fake_getid => 0
  | f_exit | f_getpgid | f_close | f_brk | f_mmap | f_uname => 1
  | f_setpgid | f_signal | f_rt_sigsuspend | f_getcwd | f_newstat => 2
  | f_execve | f_rt_sigaction | f_open | f_lseek | f_ioctl | f_fcntl | f_read | f_write => 3
  | f_wait4 => 4
  | f_mmap_pgoff => 6
  end%nat.

Inductive sysmsg : Type := UnhandledSyscall (n : Z) | InvalidArgc (n : Z).

Record sctbl : Type := mkSctbl {
  syscall_argc : list Z;
  syscall_funcs : list (option sysfn);
  sclog : list sysmsg
}.
Definition empty_sctbl : sctbl :=
  mkSctbl (replicate (Z.to_nat NUM_SYSCALLS) 0) (replicate (Z.to_nat NUM_SYSCALLS) None) [].
Definition set_argc x s := mkSctbl x (syscall_funcs s) (sclog s).
Definition set_funcs x s := mkSctbl (syscall_argc s) x (sclog s).
Definition set_sclog x s := mkSctbl (syscall_argc s) (syscall_funcs s) x.

(** ** kernel/syscall/syscall.c *)

Definition syscall_register (syscall : Z) (fn : sysfn) (argc : Z) : M sctbl unit :=
  s ← getS;
  l ← aset (syscall_funcs s) syscall (Some fn);
  modify (set_funcs l) ;;
  s ← getS;
  l ← aset (syscall_argc s) syscall argc;
  modify (set_argc l).

(** The registrations, file by file. *)
Definition proc_init : M sctbl unit :=
  syscall_register SYS_EXIT f_exit 1 ;;
  syscall_register SYS_EXECVE f_execve 3 ;;
  syscall_register SYS_GETPPID f_getppid 0 ;;
  syscall_register SYS_GETPID f_getpid 0 ;;
  syscall_register SYS_FORK f_fork 0 ;;
  syscall_register SYS_SCHED_YIELD f_sched_yield 0 ;;
  syscall_register SYS_GETPGID f_getpgid 1 ;;
  syscall_register SYS_GETPGRP f_getpgrp 0 ;;
  syscall_register SYS_SETPGID f_setpgid 2.

Definition signal_register : M sctbl unit :=
  syscall_register SYS_WAIT4 f_wait4 4 ;;
  syscall_register SYS_SIGNAL f_signal 2 ;;
  syscall_register SYS_RT_SIGACTION f_rt_sigaction 3 ;;
  syscall_register SYS_RT_SIGSUSPEND f_rt_sigsuspend 2.

Definition fdio_register : M sctbl unit :=
  syscall_register SYS_OPEN f_open 3 ;;
  syscall_register SYS_CLOSE f_close 1 ;;
  syscall_register SYS_LSEEK f_lseek 3 ;;
  syscall_register SYS_IOCTL f_ioctl 3 ;;
  syscall_register SYS_FCNTL f_fcntl 3 ;;
  syscall_register SYS_GETCWD f_getcwd 2 ;;
  syscall_register SYS_READ f_read 3 ;;
  syscall_register SYS_WRITE f_write 3 ;;
  syscall_register SYS_NEWSTAT f_newstat 2.

Definition mem_register : M sctbl unit :=
  syscall_register SYS_BRK f_brk 1 ;;
  syscall_register SYS_MMAP f_mmap 1 ;;
  syscall_register SYS_MMAP_PGOFF f_mmap_pgoff 6.

Definition user_syscall_init : M sctbl unit :=
  syscall_register SYS_GETUID f_fake_getid 0 ;;
  syscall_register SYS_GETGID f_fake_getid 0 ;;
  syscall_register SYS_GETEUID f_fake_getid 0 ;;
  syscall_register SYS_GETEGID f_fake_getid 0.

Definition uname_syscall_init : M sctbl unit :=
  syscall_register SYS_UNAME f_uname 1.

(** ** kernel/syscall/user.c and uname.c *)

Definition sys_fake_getid {S} : M S Z := mret 1000.

(** The six strings that are stored, with their terminators. *)
Definition sys_uname {S} : M S (Z * list string) :=
  mret (0, ["ak"; "localhost"; "0.0"; "1"; "qemu"; "localdomain"]%string).

(** ** arch/x86/syscall.c *)

Definition set_eax (x : Z) (r : isrargs) : isrargs :=
  mkIsrargs (ds r) (edi r) (esi r) (r_ebp_ r) (r_esp_ r) (ebx r) (edx r) (ecx r) x
    (int_no r) (err_code r) (eip r) (cs r) (eflags r) (useresp r) (ss r).

Section Dispatch.
Context {S B : Type} {HS : Has S sctbl} (run : sysfn → list Z → M S (Z + B)).

Definition sc_printf (m : sysmsg) : M S unit := zoom (modify (λ s, set_sclog (sclog s ++ [m]) s)).

(** The handler changes the saved registers, which go back to the caller. *)
Definition store_result (regs : isrargs) (ret : Z + B) : isrargs + B :=
  match ret with inl x => inl (set_eax x regs) | inr b => inr b end.
Definition syscall_interrupt (regs : isrargs) : M S (isrargs + B) :=
  let syscall := s32 (eax regs) in
  s ← zoom getS;
  fn ← aget (syscall_funcs s) syscall;
  argc ← aget (syscall_argc s) syscall;
  match fn with
  | None => sc_printf (UnhandledSyscall syscall) ;; mret (inl regs)
  | Some fn =>
      let a0 := ebx regs in let a1 := ecx regs in let a2 := edx regs in
      let a3 := esi regs in let a4 := edi regs in let a5 := r_ebp_ regs in
      ret ← match argc with
            | 0 => run fn []
            | 1 => run fn [a0]
            | 2 => run fn [a0; a1]
            | 3 => run fn [a0; a1; a2]
            | 4 => run fn [a0; a1; a2; a3]
            | 5 => run fn [a0; a1; a2; a3; a4]
            | 6 => run fn [a0; a1; a2; a3; a4; a5]
            | _ => sc_printf (InvalidArgc argc) ;; mret (inl 0)
            end;
      mret (store_result regs ret)
  end.
End Dispatch.

Definition syscall_arch_init : M intrst unit := idt_set_handler INT_SYSCALL h_syscall_interrupt.

(** ** Specification *)

(** The calls the kernel offers: number and function. *)
Definition syscall_abi : list (Z * sysfn) :=
  [(1, f_exit); (2, f_fork); (3, f_read); (4, f_write); (5, f_open); (6, f_close); (11, f_execve); (19, f_lseek);
   (20, f_getpid); (45, f_brk); (48, f_signal); (54, f_ioctl); (55, f_fcntl); (57, f_setpgid); (64, f_getppid);
   (65, f_getpgrp); (90, f_mmap); (106, f_newstat); (114, f_wait4); (122, f_uname); (132, f_getpgid);
   (158, f_sched_yield); (174, f_rt_sigaction); (179, f_rt_sigsuspend); (183, f_getcwd); (192, f_mmap_pgoff);
   (199, f_fake_getid); (200, f_fake_getid); (201, f_fake_getid); (202, f_fake_getid)].

(** Every registration, in the order of [kmain]. *)
Definition register_all : M sctbl unit :=
  mem_register ;; proc_init ;; signal_register ;; fdio_register ;; uname_syscall_init ;; user_syscall_init.

Definition full_sctbl : sctbl := Eval vm_compute in
  match register_all empty_sctbl with Ret (_, s) => s | _ => empty_sctbl end.

Lemma register_all_ok : register_all empty_sctbl = Ret (tt, full_sctbl).
Proof. by vm_compute. Qed.

Fixpoint assocZ {A} (n : Z) (l : list (Z * A)) : option A :=
  match l with [] => None | (m, x) :: l => if m =? n then Some x else assocZ n l end.
Definition abi_fn (n : Z) : option sysfn := assocZ n syscall_abi.

(** The argument registers, in the order of the calling convention. *)
Definition arg_regs (r : isrargs) : list Z := [ebx r; ecx r; edx r; esi r; edi r; r_ebp_ r].

Lemma full_sctbl_entry n : 0 ≤ n < NUM_SYSCALLS →
  lookupZ (syscall_funcs full_sctbl) n = Some (abi_fn n) ∧
  lookupZ (syscall_argc full_sctbl) n = Some (match abi_fn n with Some f => Z.of_nat (arity f) | None => 0 end).
Proof.
  intros Hn.
  assert (K : Forall (λ n, lookupZ (syscall_funcs full_sctbl) n = Some (abi_fn n) ∧
    lookupZ (syscall_argc full_sctbl) n = Some (match abi_fn n with Some f => Z.of_nat (arity f) | None => 0 end))
    (seqZ 0 NUM_SYSCALLS)) by (apply (bool_decide_unpack _); by vm_compute).
  apply (proj1 (Forall_forall _ _) K). apply elem_of_seqZ. lia.
Qed.

Lemma full_sctbl_out n : 0 ≤ n < NUM_SYSCALLS ∨ lookupZ (syscall_funcs full_sctbl) n = None.
Proof.
  destruct (decide (0 ≤ n < NUM_SYSCALLS)) as [|Hn]; [by left|]. right. unfold lookupZ.
  destruct (Z.leb_spec 0 n); [|done]. apply lookup_ge_None_2.
  change (length (syscall_funcs full_sctbl)) with (Z.to_nat NUM_SYSCALLS). lia.
Qed.

Lemma syscall_dispatch_ok {S B} {HS : Has S sctbl} (run : sysfn → list Z → M S (Z + B)) (s : S) t regs :
  register_all empty_sctbl = Ret (tt, t) →
  syscall_funcs (proj s) = syscall_funcs t → syscall_argc (proj s) = syscall_argc t → is_u32 (eax regs) →
  syscall_interrupt run regs s =
    if NUM_SYSCALLS <=? eax regs then Fault OutOfBounds
    else match abi_fn (eax regs) with
         | Some f => (ret ← run f (take (arity f) (arg_regs regs)); mret (store_result regs ret)) s
         | None => Ret (inl regs, embed (set_sclog (sclog (proj s) ++ [UnhandledSyscall (eax regs)]) (proj s)) s)
         end.
Proof.
  intros Et Ef Ea He. rewrite register_all_ok in Et. injection Et as <-. unfold syscall_interrupt. cbv zeta.
  assert (E0 : zoom getS s = Ret (proj s, s)).
  { rewrite (zoom_ret (T := sctbl) getS s (proj s) (proj s)) by done. by rewrite embed_proj. }
  rewrite (bind_ret _ _ _ _ _ E0), Ef, Ea. set (n := s32 (eax regs)).
  assert (Hn : (eax regs < NUM_SYSCALLS ∧ n = eax regs) ∨ (NUM_SYSCALLS ≤ eax regs ∧ ¬ 0 ≤ n < NUM_SYSCALLS)).
  { unfold n, s32, NUM_SYSCALLS. rewrite Z.mod_small by lia. destruct (Z.ltb_spec (eax regs) (2 ^ 31)); lia. }
  destruct Hn as [[Hlt ->]|[Hge Hn]].
  - rewrite (proj2 (Z.leb_gt _ _) Hlt). destruct (full_sctbl_entry (eax regs)) as [E1 E2]; [lia|].
    rewrite (bind_ret _ _ _ _ _ (aget_Some _ _ _ _ E1)), (bind_ret _ _ _ _ _ (aget_Some _ _ _ _ E2)).
    destruct (abi_fn (eax regs)) as [f|].
    + cbv zeta. apply bind_ext; [clear E1 E2; by destruct f|done].
    + unfold sc_printf. erewrite (bind_ret _ _ s); [|apply zoom_ret; done]. done.
  - rewrite (proj2 (Z.leb_le _ _) Hge). destruct (full_sctbl_out n) as [|E1]; [done|].
    apply bind_fault. unfold aget. by rewrite E1.
Qed.

(** ** Properties *)

(** C19: system calls reach their functions.  Once the subsystems have registered,
    the interrupt with a number of the kernel's interface in [eax] calls the
    interface's function with as many argument registers as it has parameters and
    returns its result in [eax], the other registers as they were (or goes on as the
    function says, when it enters another task); a free number
    below 255 only prints a message and leaves [eax]; a number from 255 on is used
    as an index without a check. *)
Theorem syscall_dispatch {S B} {HS : Has S sctbl} (run : sysfn → list Z → M S (Z + B)) (s : S) t regs :
  register_all empty_sctbl = Ret (tt, t) →
  syscall_funcs (proj s) = syscall_funcs t → syscall_argc (proj s) = syscall_argc t → is_u32 (eax regs) →
  syscall_interrupt run regs s =
    if NUM_SYSCALLS <=? eax regs then Fault OutOfBounds
    else match abi_fn (eax regs) with
         | Some f => (ret ← run f (take (arity f) (arg_regs regs)); mret (store_result regs ret)) s
         | None => Ret (inl regs, embed (set_sclog (sclog (proj s) ++ [UnhandledSyscall (eax regs)]) (proj s)) s)
         end.
Proof. apply syscall_dispatch_ok. Qed.

(** A state that is only the table, and functions that add up their arguments. *)
#[export] Program Instance sctbl_has : Has sctbl sctbl := {| proj := id; embed := λ t _, t |}.
Next Obligation. done. Qed.
Next Obligation. done. Qed.
Next Obligation. done. Qed.
Definition demo_regs (n : Z) : isrargs := mkIsrargs 0 50 40 60 0 10 30 20 n INT_SYSCALL 0 0 0 0 0 0.
Lemma syscall_dispatch_witness :
  syscall_interrupt (B := unit) (HS := sctbl_has) (λ _ l, mret (inl (foldr Z.add 0 l))) (demo_regs 3) full_sctbl =
    Ret (inl (set_eax 60 (demo_regs 3)), full_sctbl).
Proof.
  rewrite (syscall_dispatch (HS := sctbl_has) (λ _ l, mret (inl (foldr Z.add 0 l))) full_sctbl full_sctbl (demo_regs 3));
    [reflexivity|exact register_all_ok|reflexivity|reflexivity|done].
Defined.
