(* ===== verification/Elf.v ===== *)
(** * Reading ELF files

    [kernel/proc/elf/read_elf.c].  The file is the list of its bytes; a pointer into
    it is an offset, and what lies outside the file is a fault.  The headers are not
    copied: [header], [shdr], [phdr] and [symtab] are offsets, a field is read where
    it is used, at its place in the structures of [elf.h].  [kassert] panics. *)
From Stdlib Require Import ZArith Lia.
From stdpp Require Import base list list_numbers strings.
From S2P Require Import Prelude CStr.
Open Scope Z_scope.
Open Scope u32_scope.

(** ** Data *)

Definition ELF_INVALID_SYMBOL : Z := 6.
Definition ELF_UNMAPPED : Z := 7.

Record elf : Type := mkElf {
  elf_data : list Z;
  elf_length : Z;
  header : Z;
  shdr : Z;
  phdr : Z;
  symtab : Z;
  num_segments : Z;
  num_sections : Z;
  num_symbols : Z;
  sec_strtab : Z;
  sec_shstrtab : Z
}.
Definition set_elf_data x n e := mkElf x n (header e) (shdr e) (phdr e) (symtab e) (num_segments e) (num_sections e) (num_symbols e) (sec_strtab e) (sec_shstrtab e).
Definition set_header x e := mkElf (elf_data e) (elf_length e) x (shdr e) (phdr e) (symtab e) (num_segments e) (num_sections e) (num_symbols e) (sec_strtab e) (sec_shstrtab e).
Definition set_shdr x n i e := mkElf (elf_data e) (elf_length e) (header e) x (phdr e) (symtab e) (num_segments e) n (num_symbols e) (sec_strtab e) i.
Definition set_strtab x e := mkElf (elf_data e) (elf_length e) (header e) (shdr e) (phdr e) (symtab e) (num_segments e) (num_sections e) (num_symbols e) x (sec_shstrtab e).
Definition set_symtab x n e := mkElf (elf_data e) (elf_length e) (header e) (shdr e) (phdr e) x (num_segments e) (num_sections e) n (sec_strtab e) (sec_shstrtab e).
Definition set_phdr x n e := mkElf (elf_data e) (elf_length e) (header e) (shdr e) x (symtab e) n (num_sections e) (num_symbols e) (sec_strtab e) (sec_shstrtab e).

Definition kassert {S} (condition : bool) : M S unit := if condition then mret tt else panic "assert failed".

(** Loads from the file, little-endian. *)
Definition ld8 {S} (e : elf) (p : Z) : M S Z := aget (elf_data e) p.
Definition ld16 {S} (e : elf) (p : Z) : M S Z := a ← ld8 e p; b ← ld8 e (p + 1); mret (a + 256 * b).
Definition ld32 {S} (e : elf) (p : Z) : M S Z := a ← ld16 e p; b ← ld16 e (p + 2); mret (a + 65536 * b).

(** The fields. *)
Definition e_ident {S} (i : Z) (e : elf) : M S Z := ld8 e (header e + i).
Definition e_type {S} (e : elf) : M S Z := ld16 e (header e + 16).
Definition e_entry {S} (e : elf) : M S Z := ld32 e (header e + 24).
Definition e_phoff {S} (e : elf) : M S Z := ld32 e (header e + 28).
Definition e_shoff {S} (e : elf) : M S Z := ld32 e (header e + 32).
Definition e_phnum {S} (e : elf) : M S Z := ld16 e (header e + 44).
Definition e_shnum {S} (e : elf) : M S Z := ld16 e (header e + 48).
Definition e_shstrndx {S} (e : elf) : M S Z := ld16 e (header e + 50).
Definition SHDR_SIZE : Z := 40.
Definition sh_name {S} (e : elf) (i : Z) : M S Z := ld32 e (shdr e + SHDR_SIZE * i).
Definition sh_addr {S} (e : elf) (i : Z) : M S Z := ld32 e (shdr e + SHDR_SIZE * i + 12).
Definition sh_offset {S} (e : elf) (i : Z) : M S Z := ld32 e (shdr e + SHDR_SIZE * i + 16).
Definition sh_size {S} (e : elf) (i : Z) : M S Z := ld32 e (shdr e + SHDR_SIZE * i + 20).
Definition PHDR_SIZE : Z := 32.
Definition p_type {S} (e : elf) (i : Z) : M S Z := ld32 e (phdr e + PHDR_SIZE * i).
Definition p_offset {S} (e : elf) (i : Z) : M S Z := ld32 e (phdr e + PHDR_SIZE * i + 4).
Definition p_vaddr {S} (e : elf) (i : Z) : M S Z := ld32 e (phdr e + PHDR_SIZE * i + 8).
Definition p_filesz {S} (e : elf) (i : Z) : M S Z := ld32 e (phdr e + PHDR_SIZE * i + 16).
Definition p_memsz {S} (e : elf) (i : Z) : M S Z := ld32 e (phdr e + PHDR_SIZE * i + 20).
Definition p_flags {S} (e : elf) (i : Z) : M S Z := ld32 e (phdr e + PHDR_SIZE * i + 24).
Definition SYM_SIZE : Z := 16.
Definition st_name {S} (e : elf) (i : Z) : M S Z := ld32 e (symtab e + SYM_SIZE * i).
Definition st_value {S} (e : elf) (i : Z) : M S Z := ld32 e (symtab e + SYM_SIZE * i + 4).
Definition st_info {S} (e : elf) (i : Z) : M S Z := ld8 e (symtab e + SYM_SIZE * i + 12).

(** The string a pointer into the file leads to. *)
Definition cptr {S} (e : elf) (p : Z) : M S (list Z) :=
  if 0 <=? p then mret (from p (elf_data e)) else crash OutOfBounds.

(** ** kernel/proc/elf/read_elf.c *)

(** Results through a pointer are returned beside the result; [None] leaves the
    caller's variable as it was. *)
Definition elf_get_section_data {S} (e : elf) (section : Z) : M S (Z * Z) :=
  kassert (section <? num_sections e) ;;
  file_ofs ← sh_offset e section;
  mret (0, file_ofs).

Definition elf_get_strtab_entry {S} (e : elf) (strtab ofs : Z) (out : list Z) : M S (Z * list Z) :=
  r ← elf_get_section_data e strtab;
  kassert (r.1 =? 0) ;;
  src ← cptr e (r.2 + ofs);
  out ← strcpy out src;
  mret (0, out).

Definition elf_get_section_name {S} (e : elf) (section : Z) (out : list Z) : M S (Z * list Z) :=
  kassert (section <? num_sections e) ;;
  n ← sh_name e section;
  let strtab_ofs := s32 n in
  r ← elf_get_strtab_entry e (sec_shstrtab e) strtab_ofs out;
  kassert (r.1 =? 0) ;;
  mret (0, r.2).

(** [junk] is what the 32 bytes of [sec_name] hold at first. *)
Definition elf_get_section_by_name {S} (junk : list Z) (e : elf) (name : list Z) : M S (Z * option Z) :=
  r ← for_loop (B := unit) 1 (num_sections e) (junk, None)
    (λ i (st : list Z * option Z),
       r ← elf_get_section_name e i st.1;
       kassert (r.1 =? 0) ;;
       c ← strcmp r.2 name;
       mret (inl (r.2, if c =? 0 then Some i else st.2)));
  match r with
  | inl st => mret (0, st.2)
  | inr _ => mret (0, None)
  end.

Definition elf_get_symbol_name {S} (e : elf) (symbol : Z) (out : list Z) : M S (Z * list Z) :=
  kassert (symbol <? num_symbols e) ;;
  n ← st_name e symbol;
  let strtab_ofs := s32 n in
  r ← elf_get_strtab_entry e (sec_strtab e) strtab_ofs out;
  kassert (r.1 =? 0) ;;
  mret (0, r.2).

Definition elf_get_symbol_by_name {S} (junk : list Z) (e : elf) (name : list Z) : M S (Z * option Z) :=
  r ← for_loop 0 (num_symbols e) junk
    (λ i sym_name,
       r ← elf_get_symbol_name e i sym_name;
       c ← strcmp r.2 name;
       mret (if c =? 0 then inr i else inl r.2));
  match r with
  | inl _ => mret (ELF_INVALID_SYMBOL, None)
  | inr i => mret (0, Some i)
  end.

(** The sums are 64 bits wide only after the 32-bit addition. *)
Definition elf_map_vaddr {S} (e : elf) (vaddr : Z) : M S (Z * option Z) :=
  r ← for_loop 1 (num_segments e) tt
    (λ i _,
       base_addr ← p_vaddr e i;
       m ← p_memsz e i;
       let lim_addr := base_addr +u m in
       if (base_addr <? vaddr) && (vaddr <? lim_addr) then
         let offset_addr := vaddr -u base_addr in
         o ← p_offset e i;
         mret (inr (o +u offset_addr))
       else mret (inl tt));
  match r with
  | inl _ => mret (ELF_UNMAPPED, None)
  | inr faddr => mret (0, Some faddr)
  end.

Definition elf_map_vaddr_section {S} (e : elf) (vaddr : Z) : M S (Z * option Z) :=
  r ← for_loop 1 (num_sections e) tt
    (λ i _,
       base_addr ← sh_addr e i;
       m ← sh_size e i;
       let lim_addr := base_addr +u m in
       if (base_addr <? vaddr) && (vaddr <? lim_addr) then mret (inr i)
       else mret (inl tt));
  match r with
  | inl _ => mret (ELF_UNMAPPED, None)
  | inr i => mret (0, Some i)
  end.

Definition elf_get_symbol_faddr {S} (e : elf) (symidx : Z) : M S (Z * option Z) :=
  vaddr ← st_value e symidx;
  r ← elf_map_vaddr e vaddr;
  kassert (r.1 =? 0) ;;
  mret (0, r.2).

Definition elf_get_symbol_vaddr {S} (e : elf) (symidx : Z) : M S (Z * Z) :=
  v ← st_value e symidx;
  mret (0, v).

Definition elf_get_symbol_section {S} (e : elf) (symidx : Z) : M S (Z * option Z) :=
  vaddr ← st_value e symidx;
  r ← elf_map_vaddr_section e vaddr;
  kassert (r.1 =? 0) ;;
  mret (0, r.2).

Definition elf_get_section_faddr {S} (e : elf) (section : Z) : M S (Z * Z) :=
  kassert (section <? num_sections e) ;;
  a ← sh_offset e section;
  mret (0, a).

Definition elf_get_section_len {S} (e : elf) (section : Z) : M S (Z * Z) :=
  kassert (section <? num_sections e) ;;
  n ← sh_size e section;
  mret (0, n).

Definition elf_read_header {S} (e : elf) : M S (Z * elf) :=
  let e := set_header 0 e in
  a ← e_ident 0 e; kassert (a =? 0x7f) ;;
  a ← e_ident 1 e; kassert (a =? 69) ;;
  a ← e_ident 2 e; kassert (a =? 76) ;;
  a ← e_ident 3 e; kassert (a =? 70) ;;
  a ← e_ident 4 e; kassert (a =? 1) ;;
  a ← e_type e; kassert (a =? 2) ;;
  mret (0, e).

(** ".strtab" and ".symtab". *)
Definition s_strtab : list Z := [46; 115; 116; 114; 116; 97; 98; 0].
Definition s_symtab : list Z := [46; 115; 121; 109; 116; 97; 98; 0].

Definition elf_read_shdr {S} (junk : list Z) (e : elf) : M S (Z * elf) :=
  off ← e_shoff e;
  n ← e_shnum e;
  ndx ← e_shstrndx e;
  let e := set_shdr off n ndx e in
  r ← elf_get_section_by_name junk e s_strtab;
  kassert (r.1 =? 0) ;;
  mret (0, match r.2 with Some i => set_strtab i e | None => e end).

Definition elf_read_phdr {S} (e : elf) : M S (Z * elf) :=
  off ← e_phoff e;
  n ← e_phnum e;
  mret (0, set_phdr off n e).

(** [sec] is what the uninitialised [symtab_sec] holds. *)
Definition elf_read_symtab {S} (junk : list Z) (sec : Z) (e : elf) : M S (Z * elf) :=
  r ← elf_get_section_by_name junk e s_symtab;
  kassert (r.1 =? 0) ;;
  let symtab_sec := default sec r.2 in
  off ← sh_offset e symtab_sec;
  n ← sh_size e symtab_sec;
  mret (0, set_symtab off (s32 (n / SYM_SIZE)) e).

(** What the program says of a file. *)
Inductive elf_line : Type :=
| SectionLine (i : Z) (name : list Z) (off : Z)
| SectionError (i : Z)
| SegmentLine (i vaddr end_ : Z)
| SymbolLine (i : Z) (type name : list Z) (vaddr faddr : Z)
| SymbolError (i : Z).

Definition elf_print_sections {S} (junk : list Z) (e : elf) : M S (list elf_line) :=
  r ← for_loop (B := unit) 1 (num_sections e) (junk, [])
    (λ i (st : list Z * list elf_line),
       r ← elf_get_section_name e i st.1;
       if r.1 =? 0 then
         off ← sh_offset e i;
         mret (inl (r.2, st.2 ++ [SectionLine i (cstr r.2) off]))
       else mret (inl (r.2, st.2 ++ [SectionError i])));
  match r with inl st => mret st.2 | inr _ => mret [] end.

Definition elf_print_segments {S} (e : elf) : M S (list elf_line) :=
  r ← for_loop (B := unit) 0 (num_segments e) []
    (λ i l,
       v ← p_vaddr e i;
       m ← p_memsz e i;
       mret (inl (l ++ [SegmentLine i v (v +u m)])));
  match r with inl l => mret l | inr _ => mret [] end.

(** The name of a symbol's type; any other keeps the buffer's old text. *)
Definition sym_type_name (ty : Z) (old : list Z) : list Z :=
  match ty with
  | 0 => [110; 111; 32; 116; 121; 112; 101]
  | 1 => [111; 98; 106; 101; 99; 116]
  | 2 => [102; 117; 110; 99; 116; 105; 111; 110]
  | 3 => [115; 101; 99; 116; 105; 111; 110]
  | 4 => [102; 105; 108; 101]
  | _ => old
  end.

Definition elf_print_symbols {S} (junk junk_type : list Z) (e : elf) : M S (list elf_line) :=
  r ← for_loop (B := unit) 1 (num_symbols e) (junk, junk_type, [])
    (λ i (st : list Z * list Z * list elf_line),
       let '(sym_name, sym_type, l) := st in
       r ← elf_get_symbol_name e i sym_name;
       let ret := r.1 in
       c ← strcmp r.2 [0];
       sym_name ← (if c =? 0 then strcpy r.2 [110; 111; 32; 110; 97; 109; 101; 0] else mret r.2);
       info ← st_info e i;
       let sym_type := sym_type_name (Z.land info 0xf) sym_type in
       vaddr ← st_value e i;
       f ← elf_map_vaddr e vaddr;
       mret (inl (sym_name, sym_type,
         l ++ [if ret =? 0 then SymbolLine i sym_type (cstr sym_name) vaddr (default 0 f.2) else SymbolError i])));
  match r with inl st => mret st.2 | inr _ => mret [] end.

(** The C library's file functions.  [fl_fread] gives its result and what the destination
    holds then; the third argument of [fl_fseek] is [whence], 0 for
    SEEK_SET. *)
Record filelib (S : Type) : Type := mkFilelib {
  fl_stat : list Z → M S (Z * Z); fl_mmap : Z → M S Z; fl_fopen : list Z → M S Z; fl_fseek : Z → Z → Z → M S Z;
  fl_fread : Z → Z → M S (Z * list Z); fl_fclose : Z → M S unit
}.
#[global] Arguments mkFilelib {S}.
#[global] Arguments fl_stat {S}.
#[global] Arguments fl_mmap {S}.
#[global] Arguments fl_fopen {S}.
#[global] Arguments fl_fseek {S}.
#[global] Arguments fl_fread {S}.
#[global] Arguments fl_fclose {S}.

Section Reading.
Context {S : Type} (lib : filelib S) (free_ : list Z → M S unit).

Definition elf_read (junk : list Z) (sec : Z) (elf_file : list Z) (e : elf) : M S (Z * elf) :=
  st ← fl_stat lib elf_file;
  kassert (st.1 =? 0) ;;
  fl_mmap lib (u32 st.2) ;;
  let elf_len := u32 st.2 in
  elf_fd ← fl_fopen lib elf_file;
  kassert (negb (elf_fd =? 0)) ;;
  fl_fseek lib elf_fd 0 0 ;;
  r ← fl_fread lib elf_fd elf_len;
  let e := set_elf_data r.2 elf_len e in
  kassert (s32 r.1 =? s32 elf_len) ;;
  fl_fclose lib elf_fd ;;
  h ← elf_read_header e;
  kassert (h.1 =? 0) ;;
  s ← elf_read_shdr junk h.2;
  kassert (s.1 =? 0) ;;
  y ← elf_read_symtab junk sec s.2;
  kassert (y.1 =? 0) ;;
  p ← elf_read_phdr y.2;
  kassert (p.1 =? 0) ;;
  mret (1, p.2).

Definition elf_free (e : elf) : M S unit := free_ (elf_data e).
End Reading.

(** ** Specification *)

Definition byte_at (d : list Z) (p : Z) : Z := default 0 (lookupZ d p).
Definition w16 (d : list Z) (p : Z) : Z := byte_at d p + 256 * byte_at d (p + 1).
Definition w32 (d : list Z) (p : Z) : Z := w16 d p + 65536 * w16 d (p + 2).

Definition dlen (e : elf) : Z := Z.of_nat (length (elf_data e)).

Lemma ld8_ok {S} e p (s : S) : 0 ≤ p < dlen e → ld8 e p s = Ret (byte_at (elf_data e) p, s).
Proof.
  intros Hp. destruct (lookupZ_is_Some (elf_data e) p Hp) as [c Ec].
  unfold ld8, byte_at. rewrite Ec. by apply aget_Some.
Qed.
Lemma ld16_ok {S} e p (s : S) : 0 ≤ p → p + 2 ≤ dlen e → ld16 e p s = Ret (w16 (elf_data e) p, s).
Proof.
  intros Hp Hl. unfold ld16. rewrite (bind_ret _ _ _ _ _ (ld8_ok e p s ltac:(lia))).
  by rewrite (bind_ret _ _ _ _ _ (ld8_ok e (p + 1) s ltac:(lia))).
Qed.
Lemma ld32_ok {S} e p (s : S) : 0 ≤ p → p + 4 ≤ dlen e → ld32 e p s = Ret (w32 (elf_data e) p, s).
Proof.
  intros Hp Hl. unfold ld32. rewrite (bind_ret _ _ _ _ _ (ld16_ok e p s ltac:(lia) ltac:(lia))).
  by rewrite (bind_ret _ _ _ _ _ (ld16_ok e (p + 2) s ltac:(lia) ltac:(lia))).
Qed.

Lemma byte_at_bound d p : bytes d → 0 ≤ byte_at d p < 256.
Proof.
  intros Hb. unfold byte_at. destruct (lookupZ d p) as [c|] eqn:E; cbn; [|lia].
  unfold lookupZ in E. destruct (0 <=? p); [|done]. by apply (Forall_lookup_1 _ _ _ _ Hb E).
Qed.
Lemma w16_bound d p : bytes d → 0 ≤ w16 d p < 65536.
Proof. intros Hb. unfold w16. pose proof (byte_at_bound d p Hb). pose proof (byte_at_bound d (p + 1) Hb). lia. Qed.
Lemma w32_bound d p : bytes d → is_u32 (w32 d p).
Proof. intros Hb. unfold w32. pose proof (w16_bound d p Hb). pose proof (w16_bound d (p + 2) Hb). lia. Qed.

Lemma kassert_ok {S} (s : S) : kassert true s = Ret (tt, s).
Proof. done. Qed.

(** The string [ofs] bytes into section [sec], and that it is one: inside the file,
    terminated, and short enough for the callers' buffers. *)
Definition str_ptr (e : elf) (sec ofs : Z) : Z := w32 (elf_data e) (shdr e + SHDR_SIZE * sec + 16) + ofs.
Definition str_of (e : elf) (sec ofs : Z) : list Z := cstr (from (str_ptr e sec ofs) (elf_data e)).
Record str_ok (e : elf) (sec ofs : Z) : Prop := {
  so_pos : 0 ≤ str_ptr e sec ofs;
  so_term : terminated (from (str_ptr e sec ofs) (elf_data e));
  so_short : (length (str_of e sec ofs) < 32)%nat
}.
Definition section_in (e : elf) (i : Z) : Prop := 0 ≤ i < num_sections e.
(** The section table lies in the file, which is made of bytes. *)
Record sections_ok (e : elf) : Prop := {
  se_bytes : bytes (elf_data e);
  se_pos : 0 ≤ shdr e;
  se_in : shdr e + SHDR_SIZE * num_sections e ≤ dlen e;
  se_count : num_sections e < 65536
}.

(** A name buffer, and what it holds. *)
Definition name_buf (out : list Z) : Prop := length out = 32%nat ∧ bytes out.
Definition holds (out x : list Z) : Prop := name_buf out ∧ terminated out ∧ cstr out = x.

Lemma section_data_ok {S} e sec (s : S) : sections_ok e → section_in e sec →
  elf_get_section_data e sec s = Ret ((0, w32 (elf_data e) (shdr e + SHDR_SIZE * sec + 16)), s).
Proof.
  intros [Hb Hp Hi Hc] Hs. unfold section_in, SHDR_SIZE in *. unfold elf_get_section_data.
  rewrite (proj2 (Z.ltb_lt _ _)) by lia. rewrite (bind_ret _ _ _ _ _ (kassert_ok s)).
  by rewrite (bind_ret _ _ _ _ _ (ld32_ok e (shdr e + 40 * sec + 16) s ltac:(lia) ltac:(lia))).
Qed.

Lemma strtab_entry_ok {S} e sec ofs out (s : S) :
  sections_ok e → section_in e sec → str_ok e sec ofs → name_buf out →
  ∃ out', elf_get_strtab_entry e sec ofs out s = Ret ((0, out'), s) ∧ holds out' (str_of e sec ofs).
Proof.
  intros He Hs [H1 H2 H3] [Hl Hb]. unfold elf_get_strtab_entry. rewrite (bind_ret _ _ _ _ _ (section_data_ok e sec s He Hs)).
  cbn [fst snd]. change (0 =? 0) with true. rewrite (bind_ret _ _ _ _ _ (kassert_ok s)). fold (str_ptr e sec ofs).
  set (p := str_ptr e sec ofs) in *. unfold cptr. rewrite (proj2 (Z.leb_le 0 p)) by done.
  rewrite (bind_ret _ _ s (from p (elf_data e)) s) by done. set (x := str_of e sec ofs) in *.
  exists (x ++ 0 :: drop (Datatypes.S (length x)) out). split.
  { by rewrite (bind_ret _ _ _ _ _ (strcpy_ok out (from p (elf_data e)) s H2 ltac:(rewrite Hl; exact H3))). }
  assert (Hx : Forall (λ c, 0 ≤ c < 256) x).
  { destruct (cstr_split _ H2) as [r Er]. pose proof (Forall_drop _ (Z.to_nat p) _ (se_bytes _ He)) as Hd.
    unfold from in Er. rewrite Er in Hd. by apply Forall_app in Hd as [Hd _]. }
  split; [split|split].
  - rewrite length_app. cbn [length]. rewrite length_drop. lia.
  - unfold bytes. rewrite Forall_app, Forall_cons. split; [done|]. split; [lia|]. by apply Forall_drop.
  - apply elem_of_app. right. apply list_elem_of_here.
  - apply cstr_app, cstr_nonzero.
Qed.

Lemma section_name_ok {S} e i out (s : S) :
  sections_ok e → section_in e i → section_in e (sec_shstrtab e) →
  let ofs := s32 (w32 (elf_data e) (shdr e + SHDR_SIZE * i)) in
  str_ok e (sec_shstrtab e) ofs → name_buf out →
  ∃ out', elf_get_section_name e i out s = Ret ((0, out'), s) ∧ holds out' (str_of e (sec_shstrtab e) ofs).
Proof.
  intros He Hi Hs ofs Hok Hout. destruct (strtab_entry_ok e (sec_shstrtab e) ofs out s He Hs Hok Hout) as (out' & E & H).
  exists out'. split; [|done]. unfold elf_get_section_name. destruct He as [Hb Hp Hn Hc]. unfold section_in, SHDR_SIZE in *.
  rewrite (proj2 (Z.ltb_lt i _)) by lia. rewrite (bind_ret _ _ _ _ _ (kassert_ok s)).
  rewrite (bind_ret _ _ _ _ _ (ld32_ok e (shdr e + 40 * i) s ltac:(lia) ltac:(lia))).
  cbv zeta. rewrite (bind_ret _ _ _ _ _ E). cbn [fst snd]. change (0 =? 0) with true. by rewrite (bind_ret _ _ _ _ _ (kassert_ok s)).
Qed.

(** The name of a section, and the last section with a name. *)
Definition sec_name (e : elf) (i : Z) : list Z := str_of e (sec_shstrtab e) (s32 (w32 (elf_data e) (shdr e + SHDR_SIZE * i))).
Definition last_named (e : elf) (x : list Z) (n : Z) : option Z := last (filter (λ i, sec_name e i = x) (seqZ 1 (n - 1))).
Definition names_ok (e : elf) : Prop :=
  section_in e (sec_shstrtab e) ∧
  ∀ i, 1 ≤ i < num_sections e → str_ok e (sec_shstrtab e) (s32 (w32 (elf_data e) (shdr e + SHDR_SIZE * i))).

Lemma last_named_step e x i : 1 ≤ i → last_named e x (i + 1) = if decide (sec_name e i = x) then Some i else last_named e x i.
Proof.
  intros Hi. unfold last_named. replace (i + 1 - 1) with ((i - 1) + 1) by lia. rewrite seqZ_app by lia.
  rewrite filter_app. replace (1 + (i - 1)) with i by lia. change (seqZ i 1) with [i].
  rewrite filter_cons, filter_nil. destruct (decide (sec_name e i = x)); [apply last_snoc|by rewrite app_nil_r].
Qed.

Lemma str_compare_zero x y : (str_compare x y =? 0) = bool_decide (x = y).
Proof. apply eq_true_iff_eq. rewrite Z.eqb_eq, bool_decide_eq_true. apply str_compare_eq. Qed.

Lemma section_by_name_ok {S} junk e name (s : S) :
  sections_ok e → names_ok e → name_buf junk → terminated name → bytes name →
  elf_get_section_by_name junk e name s = Ret ((0, last_named e (cstr name) (num_sections e)), s).
Proof.
  intros He [Hs Hn] Hj Ht Hb. pose proof (se_count _ He) as Hc. unfold section_in in Hs.
  destruct (for_loop_total (B := unit)
    (λ i (st : list Z * option Z) s', s' = s ∧ name_buf st.1 ∧ st.2 = last_named e (cstr name) i) (λ _ _, False)
    (λ i (st : list Z * option Z),
       r ← elf_get_section_name e i st.1;
       kassert (r.1 =? 0) ;;
       c ← strcmp r.2 name;
       mret (inl (r.2, if c =? 0 then Some i else st.2))) 1 (num_sections e) (junk, None) s) as (r & s' & E & H).
  - lia.
  - lia.
  - intros i [out o] s1 Hi (-> & Hout & Ho). cbn [fst snd] in *. left.
    destruct (section_name_ok e i out s He ltac:(unfold section_in; lia) Hs (Hn i ltac:(lia)) Hout) as (out' & E & Hb' & Hto & Hx).
    rewrite (bind_ret _ _ _ _ _ E). cbn [fst snd]. change (0 =? 0) with true. rewrite (bind_ret _ _ _ _ _ (kassert_ok s)).
    rewrite (bind_ret _ _ _ _ _ (strcmp_ok out' name s Hto Ht (proj2 Hb') Hb)).
    eexists _, s. split; [done|]. cbn [fst snd]. split; [done|]. split; [done|]. fold (sec_name e i) in Hx.
    rewrite last_named_step by lia. rewrite str_compare_zero, Hx, Ho. by case_bool_decide; destruct (decide _).
  - done.
  - unfold elf_get_section_by_name. rewrite (bind_ret _ _ _ _ _ E). destruct r as [[out o]|[]]; [|done].
    by destruct H as (-> & _ & ->).
Qed.

(** What [elf_read] makes of a file: the section table the header names, the string
    table ".strtab", the symbol table, and the segments. *)
Definition with_sections (d : list Z) (e : elf) : elf :=
  set_shdr (w32 d 32) (w16 d 48) (w16 d 50) (set_header 0 (set_elf_data d (Z.of_nat (length d)) e)).
Definition with_strtab (e : elf) : elf :=
  match last_named e (cstr s_strtab) (num_sections e) with Some i => set_strtab i e | None => e end.
Definition with_symbols (y : Z) (e : elf) : elf :=
  set_symtab (w32 (elf_data e) (shdr e + SHDR_SIZE * y + 16)) (w32 (elf_data e) (shdr e + SHDR_SIZE * y + 20) / SYM_SIZE) e.
Definition parsed (d : list Z) (y : Z) (e : elf) : elf :=
  set_phdr (w32 d 28) (w16 d 44) (with_symbols y (with_strtab (with_sections d e))).

(** A 32-bit executable whose section names are in order, with a symbol table [y]. *)
Record elf_ok (d : list Z) (e : elf) (y : Z) : Prop := {
  ek_size : 52 ≤ Z.of_nat (length d) < 2 ^ 31;
  ek_magic : take 5 d = [0x7f; 69; 76; 70; 1];
  ek_exec : w16 d 16 = 2;
  ek_sections : sections_ok (with_sections d e);
  ek_names : names_ok (with_sections d e);
  ek_symtab : last_named (with_sections d e) (cstr s_symtab) (w16 d 48) = Some y
}.

Lemma with_strtab_same e : ∃ i, with_strtab e = set_strtab i e.
Proof.
  unfold with_strtab. destruct (last_named _ _ _) as [i|]; [by exists i|]. exists (sec_strtab e). by destruct e.
Qed.

Lemma read_header_ok {S} d e n (s : S) :
  take 5 d = [0x7f; 69; 76; 70; 1] → w16 d 16 = 2 → 52 ≤ Z.of_nat (length d) →
  elf_read_header (set_elf_data d n e) s = Ret ((0, set_header 0 (set_elf_data d n e)), s).
Proof.
  intros Hm Ht Hl. set (e' := set_header 0 (set_elf_data d n e)). unfold elf_read_header. fold e'. cbv zeta.
  assert (Hi : ∀ i x, (i < 5)%nat → [0x7f; 69; 76; 70; 1] !! i = Some x → e_ident (Z.of_nat i) e' s = Ret (x, s)).
  { intros i x Hi Ex. unfold e_ident. rewrite ld8_ok by (unfold dlen, e'; cbn; lia). do 2 f_equal.
    change (header e' + Z.of_nat i) with (Z.of_nat i). unfold byte_at, lookupZ. rewrite (proj2 (Z.leb_le 0 _)) by lia.
    rewrite Nat2Z.id. change (elf_data e') with d. rewrite <- Hm in Ex. rewrite lookup_take_lt in Ex by lia. by rewrite Ex. }
  rewrite (bind_ret _ _ _ _ _ (Hi 0%nat 0x7f ltac:(lia) eq_refl)), (bind_ret _ _ s tt s) by done.
  rewrite (bind_ret _ _ _ _ _ (Hi 1%nat 69 ltac:(lia) eq_refl)), (bind_ret _ _ s tt s) by done.
  rewrite (bind_ret _ _ _ _ _ (Hi 2%nat 76 ltac:(lia) eq_refl)), (bind_ret _ _ s tt s) by done.
  rewrite (bind_ret _ _ _ _ _ (Hi 3%nat 70 ltac:(lia) eq_refl)), (bind_ret _ _ s tt s) by done.
  rewrite (bind_ret _ _ _ _ _ (Hi 4%nat 1 ltac:(lia) eq_refl)), (bind_ret _ _ s tt s) by done.
  rewrite (bind_ret _ _ s 2 s); [done|]. unfold e_type. rewrite ld16_ok by (unfold dlen, e'; cbn; lia).
  change (w16 (elf_data e') (header e' + 16)) with (w16 d 16). by rewrite Ht.
Qed.

Lemma bytes_dec_ok (l : list Z) : forallb (λ c, (0 <=? c) && (c <? 256)) l = true → bytes l.
Proof.
  rewrite forallb_forall. intros H. apply Forall_forall. intros c Hc%list_elem_of_In. specialize (H c Hc).
  apply andb_true_iff in H as [?%Z.leb_le ?%Z.ltb_lt]. lia.
Qed.

Lemma read_shdr_ok {S} d e y junk (s : S) :
  elf_ok d e y → name_buf junk →
  elf_read_shdr junk (set_header 0 (set_elf_data d (Z.of_nat (length d)) e)) s = Ret ((0, with_strtab (with_sections d e)), s).
Proof.
  intros [Hsz _ _ Hse Hn _] Hj. set (e' := set_header 0 (set_elf_data d (Z.of_nat (length d)) e)). unfold elf_read_shdr.
  assert (Hd : dlen e' = Z.of_nat (length d)) by done.
  rewrite (bind_ret _ _ _ _ _ (ld32_ok e' (header e' + 32) s ltac:(cbn; lia) ltac:(rewrite Hd; cbn; lia))).
  rewrite (bind_ret _ _ _ _ _ (ld16_ok e' (header e' + 48) s ltac:(cbn; lia) ltac:(rewrite Hd; cbn; lia))).
  rewrite (bind_ret _ _ _ _ _ (ld16_ok e' (header e' + 50) s ltac:(cbn; lia) ltac:(rewrite Hd; cbn; lia))).
  change (set_shdr _ _ _ e') with (with_sections d e). cbv zeta.
  rewrite (bind_ret _ _ _ _ _ (section_by_name_ok junk (with_sections d e) s_strtab s Hse Hn Hj
    ltac:(by apply (bool_decide_unpack _)) ltac:(by apply bytes_dec_ok))).
  cbn [fst snd]. change (0 =? 0) with true. by rewrite (bind_ret _ _ _ _ _ (kassert_ok s)).
Qed.

Lemma read_symtab_ok {S} d e y junk sec (s : S) :
  elf_ok d e y → name_buf junk →
  elf_read_symtab junk sec (with_strtab (with_sections d e)) s = Ret ((0, with_symbols y (with_strtab (with_sections d e))), s).
Proof.
  intros [Hsz _ _ Hse Hn Hy] Hj. destruct (with_strtab_same (with_sections d e)) as [i Ei]. rewrite Ei.
  set (e' := set_strtab i (with_sections d e)). unfold elf_read_symtab.
  assert (Hse' : sections_ok e') by (destruct Hse; by split).
  assert (Hn' : names_ok e').
  { destruct Hn as [H1 H2]. split; [exact H1|]. intros j Hj'. destruct (H2 j Hj') as [A B C]. by split. }
  rewrite (bind_ret _ _ _ _ _ (section_by_name_ok junk e' s_symtab s Hse' Hn' Hj
    ltac:(by apply (bool_decide_unpack _)) ltac:(by apply bytes_dec_ok))).
  change (last_named e' (cstr s_symtab) (num_sections e')) with (last_named (with_sections d e) (cstr s_symtab) (w16 d 48)). rewrite Hy.
  cbn [fst snd default]. change (0 =? 0) with true. rewrite (bind_ret _ _ _ _ _ (kassert_ok s)). cbv zeta.
  assert (Hyr : 1 ≤ y < num_sections e').
  { unfold last_named in Hy. apply last_Some_elem_of in Hy. apply list_elem_of_filter in Hy as [_ Hy]. apply elem_of_seqZ in Hy.
    change (num_sections e') with (w16 d 48). lia. }
  destruct Hse' as [Hb Hp Hi Hc]. unfold SHDR_SIZE in *.
  rewrite (bind_ret _ _ _ _ _ (ld32_ok e' (shdr e' + 40 * y + 16) s ltac:(lia) ltac:(lia))).
  rewrite (bind_ret _ _ _ _ _ (ld32_ok e' (shdr e' + 40 * y + 20) s ltac:(lia) ltac:(lia))).
  rewrite s32_small; [done|]. pose proof (w32_bound (elf_data e') (shdr e' + 40 * y + 20) Hb). unfold SYM_SIZE. zlia.
Qed.

Lemma read_phdr_ok {S} d e y (s : S) : elf_ok d e y →
  elf_read_phdr (with_symbols y (with_strtab (with_sections d e))) s = Ret ((0, parsed d y e), s).
Proof.
  intros [Hsz _ _ _ _ _]. unfold parsed. destruct (with_strtab_same (with_sections d e)) as [i Ei]. rewrite Ei.
  set (e' := with_symbols y (set_strtab i (with_sections d e))). unfold elf_read_phdr.
  assert (Hd : dlen e' = Z.of_nat (length d)) by done.
  rewrite (bind_ret _ _ _ _ _ (ld32_ok e' (header e' + 28) s ltac:(cbn; lia) ltac:(rewrite Hd; cbn; lia))).
  by rewrite (bind_ret _ _ _ _ _ (ld16_ok e' (header e' + 44) s ltac:(cbn; lia) ltac:(rewrite Hd; cbn; lia))).
Qed.

(** Symbols whose names are in order, and segments inside the file. *)
Definition sym_ofs (e : elf) (i : Z) : Z := s32 (w32 (elf_data e) (symtab e + SYM_SIZE * i)).
Definition sym_name (e : elf) (i : Z) : list Z := str_of e (sec_strtab e) (sym_ofs e i).
Record symbols_ok (e : elf) : Prop := {
  sy_sections : sections_ok e;
  sy_strtab : section_in e (sec_strtab e);
  sy_in : 0 ≤ symtab e ∧ symtab e + SYM_SIZE * num_symbols e ≤ dlen e;
  sy_count : 0 ≤ num_symbols e < 2 ^ 31;
  sy_names i : 0 ≤ i < num_symbols e → str_ok e (sec_strtab e) (sym_ofs e i)
}.
Definition segments_ok (e : elf) : Prop :=
  bytes (elf_data e) ∧ 0 ≤ phdr e ∧ phdr e + PHDR_SIZE * num_segments e ≤ dlen e ∧ num_segments e < 65536.
Definition seg_word (e : elf) (i k : Z) : Z := w32 (elf_data e) (phdr e + PHDR_SIZE * i + k).
Definition seg_off e i := seg_word e i 4.
Definition seg_vaddr e i := seg_word e i 8.
Definition seg_memsz e i := seg_word e i 20.

Lemma seg_load {S} e i k (s : S) : segments_ok e → 0 ≤ i < num_segments e → 0 ≤ k ≤ 28 →
  ld32 e (phdr e + PHDR_SIZE * i + k) s = Ret (seg_word e i k, s).
Proof. intros (Hb & Hp & Hl & Hn) Hi Hk. unfold seg_word, PHDR_SIZE in *. apply ld32_ok; lia. Qed.

Lemma symbol_name_ok {S} e i out (s : S) : symbols_ok e → 0 ≤ i < num_symbols e → name_buf out →
  ∃ out', elf_get_symbol_name e i out s = Ret ((0, out'), s) ∧ holds out' (sym_name e i).
Proof.
  intros [He Hs Hin Hc Hn] Hi Hout. destruct (strtab_entry_ok e (sec_strtab e) (sym_ofs e i) out s He Hs (Hn i Hi) Hout) as (out' & E & H).
  exists out'. split; [|done]. unfold elf_get_symbol_name. rewrite (proj2 (Z.ltb_lt i _)) by lia. rewrite (bind_ret _ _ _ _ _ (kassert_ok s)).
  unfold SYM_SIZE in *. rewrite (bind_ret _ _ _ _ _ (ld32_ok e (symtab e + 16 * i) s ltac:(lia) ltac:(lia))). cbv zeta.
  unfold sym_ofs, SYM_SIZE in E. rewrite (bind_ret _ _ _ _ _ E). cbn [fst snd]. change (0 =? 0) with true. by rewrite (bind_ret _ _ _ _ _ (kassert_ok s)).
Qed.

(** The library delivers the bytes of a file. *)
Definition delivers {S} (lib : filelib S) (file d : list Z) (s s' : S) : Prop :=
  ∃ a fd p s1 s2 s3 s4 s5, fl_stat lib file s = Ret ((0, Z.of_nat (length d)), s1) ∧ fl_mmap lib (Z.of_nat (length d)) s1 = Ret (a, s2) ∧
    fl_fopen lib file s2 = Ret (fd, s3) ∧ fd ≠ 0 ∧ fl_fseek lib fd 0 0 s3 = Ret (p, s4) ∧
    fl_fread lib fd (Z.of_nat (length d)) s4 = Ret ((Z.of_nat (length d), d), s5) ∧ fl_fclose lib fd s5 = Ret (tt, s').

Lemma elf_read_ok {S} (lib : filelib S) junk sec file e d y s s' :
  delivers lib file d s s' → elf_ok d e y → name_buf junk → elf_read lib junk sec file e s = Ret ((1, parsed d y e), s').
Proof.
  intros (a & fd & p & s1 & s2 & s3 & s4 & s5 & E1 & E2 & E3 & Hfd & Es & E4 & E5) Hok Hj. pose proof (ek_size _ _ _ Hok) as Hsz. unfold elf_read.
  rewrite (bind_ret _ _ _ _ _ E1). cbn [fst snd]. rewrite (bind_ret _ _ _ _ _ (kassert_ok s1)).
  rewrite u32_small by lia. rewrite (bind_ret _ _ _ _ _ E2). cbv zeta. rewrite (bind_ret _ _ _ _ _ E3).
  rewrite (proj2 (Z.eqb_neq fd 0)) by done. rewrite (bind_ret _ _ _ _ _ (kassert_ok s3)), (bind_ret _ _ _ _ _ Es), (bind_ret _ _ _ _ _ E4).
  cbn [fst snd]. rewrite Z.eqb_refl, (bind_ret _ _ _ _ _ (kassert_ok s5)), (bind_ret _ _ _ _ _ E5).
  rewrite (bind_ret _ _ _ _ _ (read_header_ok d e _ s' (ek_magic _ _ _ Hok) (ek_exec _ _ _ Hok) (proj1 Hsz))).
  cbn [fst snd]. rewrite (bind_ret _ _ _ _ _ (kassert_ok s')), (bind_ret _ _ _ _ _ (read_shdr_ok d e y junk s' Hok Hj)).
  cbn [fst snd]. rewrite (bind_ret _ _ _ _ _ (kassert_ok s')), (bind_ret _ _ _ _ _ (read_symtab_ok d e y junk sec s' Hok Hj)).
  cbn [fst snd]. rewrite (bind_ret _ _ _ _ _ (kassert_ok s')), (bind_ret _ _ _ _ _ (read_phdr_ok d e y s' Hok)).
  cbn [fst snd]. by rewrite (bind_ret _ _ _ _ _ (kassert_ok s')).
Qed.

(** ** Properties *)

(** C31: reading an executable.  When the C library delivers the bytes of a 32-bit
    executable whose section names are in order, [elf_read] returns 1 with the
    section table, the segments, the string table and the symbol table that the
    bytes describe; of several sections with one name the last is taken. *)
Theorem elf_read_parses {S} (lib : filelib S) junk sec file e d y s s' :
  delivers lib file d s s' → elf_ok d e y → name_buf junk → elf_read lib junk sec file e s = Ret ((1, parsed d y e), s').
Proof. apply elf_read_ok. Qed.

(** An executable with one segment and the sections "", ".shstrtab", ".symtab" and
    ".strtab", with the symbols "" and "main". *)
Definition le16 (x : Z) : list Z := [x mod 256; x / 256 mod 256].
Definition le32 (x : Z) : list Z := le16 (x mod 65536) ++ le16 (x / 65536).
Definition zstr (s : list Z) : list Z := s ++ [0].
Definition demo_shdr (name off size : Z) : list Z := le32 name ++ le32 0 ++ le32 0 ++ le32 0 ++ le32 off ++ le32 size ++ replicate 16 0.
Definition demo_elf : list Z :=
  [0x7f; 69; 76; 70; 1; 1; 1] ++ replicate 9 0 ++ le16 2 ++ le16 3 ++ le32 1 ++ le32 0x08048000 ++ le32 52 ++ le32 84 ++ le32 0 ++
    le16 52 ++ le16 32 ++ le16 1 ++ le16 40 ++ le16 4 ++ le16 1 ++
  le32 1 ++ le32 0 ++ le32 0x08048000 ++ le32 0 ++ le32 52 ++ le32 60 ++ le32 5 ++ le32 4096 ++
  demo_shdr 0 0 0 ++ demo_shdr 1 244 27 ++ demo_shdr 11 271 32 ++ demo_shdr 19 303 6 ++
  zstr [] ++ zstr [46; 115; 104; 115; 116; 114; 116; 97; 98] ++ s_symtab ++ s_strtab ++
  replicate 16 0 ++ le32 1 ++ le32 0x08048010 ++ le32 0 ++ [2; 0; 0; 0] ++
  zstr [] ++ zstr [109; 97; 105; 110].
Definition blank_elf : elf := mkElf [] 0 0 0 0 0 0 0 0 0 0.

Lemma demo_elf_ok : elf_ok demo_elf blank_elf 2.
Proof.
  split.
  - by vm_compute.
  - reflexivity.
  - reflexivity.
  - split; [by apply bytes_dec_ok|by vm_compute..].
  - split; [by vm_compute|]. intros i Hi. assert (i = 1 ∨ i = 2 ∨ i = 3) as [->|[->| ->]] by (change (num_sections (with_sections demo_elf blank_elf)) with 4 in Hi; lia);
      (split; [by vm_compute|apply (bool_decide_unpack _); by vm_compute|vm_compute; lia]).
  - by vm_compute.
Qed.

Definition demo_filelib {S} : filelib S :=
  mkFilelib (λ _, mret (0, Z.of_nat (length demo_elf))) (λ _, mret 0) (λ _, mret 1) (λ _ _ _, mret 0) (λ _ n, mret (n, demo_elf)) (λ _, mret tt).
Lemma elf_read_parses_witness :
  ∃ e, elf_read (S := unit) demo_filelib (replicate 32 0) 77 [] blank_elf tt = Ret ((1, e), tt) ∧ num_segments e = 1 ∧ num_symbols e = 2 ∧ sec_strtab e = 3.
Proof.
  exists (parsed demo_elf 2 blank_elf). split; [|by vm_compute].
  refine (elf_read_parses demo_filelib (replicate 32 0) 77 [] blank_elf demo_elf 2 tt tt _ demo_elf_ok _).
  - exists 0, 1, 0, tt, tt, tt, tt, tt. by repeat split.
  - split; [done|by apply bytes_dec_ok].
Defined.

(** Looking a symbol up.  [elf_get_symbol_by_name] returns the first symbol with
    the name, and ELF_INVALID_SYMBOL when no symbol has it; the string table of the
    symbols is the one of [sec_strtab]. *)
Theorem elf_symbol_by_name_first {S} junk e x (s : S) :
  symbols_ok e → name_buf junk → terminated x → bytes x →
  ∃ r, elf_get_symbol_by_name junk e x s = Ret (r, s) ∧
    ((∃ i, r = (0, Some i) ∧ 0 ≤ i < num_symbols e ∧ sym_name e i = cstr x ∧ ∀ j, 0 ≤ j < i → sym_name e j ≠ cstr x) ∨
     (r = (ELF_INVALID_SYMBOL, None) ∧ ∀ j, 0 ≤ j < num_symbols e → sym_name e j ≠ cstr x)).
Proof.
  intros He Hj Ht Hb. pose proof (sy_count _ He) as Hc.
  destruct (for_loop_total (λ i out s', s' = s ∧ name_buf out ∧ ∀ j, 0 ≤ j < i → sym_name e j ≠ cstr x)
    (λ i s', s' = s ∧ 0 ≤ i < num_symbols e ∧ sym_name e i = cstr x ∧ ∀ j, 0 ≤ j < i → sym_name e j ≠ cstr x)
    (λ i sym_name,
       r ← elf_get_symbol_name e i sym_name;
       c ← strcmp r.2 x;
       mret (if c =? 0 then inr i else inl r.2)) 0 (num_symbols e) junk s) as (r & s' & E & H).
  - lia.
  - lia.
  - intros i out s1 Hi (-> & Hout & Hno). destruct (symbol_name_ok e i out s He Hi Hout) as (out' & E & Hb' & Hto & Hx).
    rewrite (bind_ret _ _ _ _ _ E), (bind_ret _ _ _ _ _ (strcmp_ok out' x s Hto Ht (proj2 Hb') Hb)), str_compare_zero, Hx.
    destruct (decide (sym_name e i = cstr x)) as [Heq|Hne].
    + right. exists i, s. rewrite bool_decide_true by done. done.
    + left. exists out', s. rewrite bool_decide_false by done. split; [done|]. split; [done|]. split; [done|].
      intros j Hj'. destruct (decide (j = i)) as [->|Hji]; [done|]. apply Hno. lia.
  - split; [done|]. split; [done|]. lia.
  - unfold elf_get_symbol_by_name. rewrite (bind_ret _ _ _ _ _ E). destruct r as [out|i].
    + destruct H as (-> & _ & Hno). eexists. split; [done|]. by right.
    + destruct H as (-> & Hi & Hx & Hno). eexists. split; [done|]. left. by exists i.
Qed.

Definition demo_parsed : elf := Eval vm_compute in parsed demo_elf 2 blank_elf.
Lemma demo_symbols_ok : symbols_ok demo_parsed.
Proof.
  split.
  - split; [by apply bytes_dec_ok|by vm_compute..].
  - by vm_compute.
  - by vm_compute.
  - by vm_compute.
  - intros i Hi. assert (i = 0 ∨ i = 1) as [->| ->] by (change (num_symbols demo_parsed) with 2 in Hi; lia);
      (split; [by vm_compute|apply (bool_decide_unpack _); by vm_compute|vm_compute; lia]).
Qed.

Lemma elf_symbol_by_name_first_witness :
  ∃ i, elf_get_symbol_by_name (S := unit) (replicate 32 7) demo_parsed (zstr [109; 97; 105; 110]) tt = Ret ((0, Some i), tt).
Proof.
  destruct (elf_symbol_by_name_first (replicate 32 7) demo_parsed (zstr [109; 97; 105; 110]) tt) as (r & E & [(i & -> & _)|[_ H]]).
  - exact demo_symbols_ok.
  - split; [done|by apply bytes_dec_ok].
  - apply (bool_decide_unpack _). reflexivity.
  - by apply bytes_dec_ok.
  - exists i. exact E.
  - exfalso. apply (H 1); [change (num_symbols demo_parsed) with 2; lia|]. by vm_compute.
Defined.

(** A file offset for an address.  Only addresses strictly inside a segment other
    than the first are found: the search starts at segment 1, and the first byte of
    a segment does not count. *)
Theorem elf_map_vaddr_first {S} e vaddr (s : S) :
  segments_ok e → 0 ≤ num_segments e →
  let inside i := seg_vaddr e i < vaddr < seg_vaddr e i +u seg_memsz e i in
  ∃ r, elf_map_vaddr e vaddr s = Ret (r, s) ∧
    ((∃ i, r = (0, Some (seg_off e i +u (vaddr -u seg_vaddr e i))) ∧ 1 ≤ i < num_segments e ∧ inside i ∧ ∀ j, 1 ≤ j < i → ¬ inside j) ∨
     (r = (ELF_UNMAPPED, None) ∧ ∀ j, 1 ≤ j < num_segments e → ¬ inside j)).
Proof.
  intros He H0 inside. pose proof He as (_ & _ & _ & Hc). destruct (decide (num_segments e < 1)) as [Hz|Hz].
  { exists (ELF_UNMAPPED, None). split; [|by right; split; [|lia]]. unfold elf_map_vaddr, for_loop.
    rewrite (bind_ret _ _ s (inl tt) s); [done|]. apply while_leave. by rewrite (proj2 (Z.ltb_ge _ _)) by lia. }
  destruct (for_loop_total (λ i (_ : unit) s', s' = s ∧ ∀ j, 1 ≤ j < i → ¬ inside j)
    (λ f s', s' = s ∧ ∃ i, f = seg_off e i +u (vaddr -u seg_vaddr e i) ∧ 1 ≤ i < num_segments e ∧ inside i ∧ ∀ j, 1 ≤ j < i → ¬ inside j)
    (λ i _,
       base_addr ← p_vaddr e i;
       m ← p_memsz e i;
       let lim_addr := base_addr +u m in
       if (base_addr <? vaddr) && (vaddr <? lim_addr) then
         let offset_addr := vaddr -u base_addr in
         o ← p_offset e i;
         mret (inr (o +u offset_addr))
       else mret (inl tt)) 1 (num_segments e) tt s) as (r & s' & E & H).
  - lia.
  - lia.
  - intros i [] s1 Hi (-> & Hno). unfold p_vaddr, p_memsz, p_offset.
    rewrite (bind_ret _ _ _ _ _ (seg_load e i 8 s He ltac:(lia) ltac:(lia))), (bind_ret _ _ _ _ _ (seg_load e i 20 s He ltac:(lia) ltac:(lia))).
    fold (seg_vaddr e i) (seg_memsz e i). cbv zeta. destruct (_ && _) eqn:Ein.
    + right. rewrite (bind_ret _ _ _ _ _ (seg_load e i 4 s He ltac:(lia) ltac:(lia))). fold (seg_off e i).
      eexists _, s. split; [done|]. split; [done|]. exists i. apply andb_true_iff in Ein as [?%Z.ltb_lt ?%Z.ltb_lt]. done.
    + left. exists tt, s. split; [done|]. split; [done|]. intros j Hj. destruct (decide (j = i)) as [->|Hji]; [|apply Hno; lia].
      intros [H1%Z.ltb_lt H2%Z.ltb_lt]. by rewrite H1, H2 in Ein.
  - split; [done|]. lia.
  - unfold elf_map_vaddr. rewrite (bind_ret _ _ _ _ _ E). destruct r as [[]|f].
    + destruct H as (-> & Hno). eexists. split; [done|]. by right.
    + destruct H as (-> & i & -> & H). eexists. split; [done|]. left. by exists i.
Qed.

(** A file that cannot be read, or is no 32-bit executable, stops the kernel: the
    assertions panic, and the error returns of [elf_read]'s callers are dead code. *)
Theorem elf_read_panics {S} (lib : filelib S) junk sec file e r n s0 s1 :
  fl_stat lib file s0 = Ret ((r, n), s1) → r ≠ 0 →
  elf_read lib junk sec file e s0 = Panic "assert failed".
Proof. intros E Hr. unfold elf_read. rewrite (bind_ret _ _ _ _ _ E). cbn [fst snd]. by rewrite (proj2 (Z.eqb_neq r 0)). Qed.
