(* ===== verification/Exec.v ===== *)
(** * Starting a program

    [kernel/proc/elf/exec.c], [arch_exec] of [arch/x86/proc/exec.c] and [sys_execve].
    The file's bytes lie outside the memory the segments are loaded to.  [malloc] is a
    parameter: it gives a block of memory as its whole words.  [arch_exec] ends with a
    jump; its result is what the processor finds there. *)
From Stdlib Require Import ZArith Lia.
From stdpp Require Import base gmap list list_numbers strings.
From S2P Require Import Prelude Layout FrameAlloc Mmu ListHead CStr TaskState Task Machine Brk UserMem Elf.
Open Scope Z_scope.
Open Scope u32_scope.

(** ** kernel/proc/elf/exec.c *)

Definition PT_LOAD : Z := 1.
Definition PF_W : Z := 2.
Definition PF_R : Z := 4.

Inductive load_line : Type := LoadedSegment (i base lim : Z) | ProcessBrk (brk : Z).

(** The body of the loop; its state is [brk] and what has been printed. *)
Definition load_segment (e : elf) (i : Z) (st : Z * list load_line) : M mach (Z * list load_line + unit) :=
  let (brk, l) := st in
  ty ← p_type e i;
  if negb (ty =? PT_LOAD) then mret (inl (brk, l))
  else
    base_addr ← p_vaddr e i;
    m ← p_memsz e i;
    let lim_addr := base_addr +u m in
    fl ← p_flags e i;
    let rw := negb (Z.land fl (Z.lor PF_R PF_W) =? 0) in
    on_vm (λ ct, pg_alloc_range ct base_addr lim_addr rw) ;;
    off ← p_offset e i;
    fsz ← p_filesz e i;
    on_vm (λ ct, umemcpy ct base_addr (elf_data e) off fsz) ;;
    on_vm (λ ct, umemset ct (base_addr +u fsz) 0 (m -u fsz)) ;;
    mret (inl (if brk <? lim_addr then lim_addr else brk, l ++ [LoadedSegment i base_addr lim_addr])).

Definition elf_load (e : elf) : M mach (list load_line) :=
  r ← for_loop 0 (num_segments e) (0, []) (load_segment e);
  match r with
  | inl (brk, l) =>
      c ← liftT (gets CurrentTask);
      liftT (upd_task c (set_brk brk)) ;;
      mret (l ++ [ProcessBrk brk])
  | inr _ => mret []
  end.

(** ** arch/x86/proc/exec.c *)

(** [arr] is the words from the pointer on. *)
Definition arg_count {T} (arr : list Z) : M T Z :=
  while (bufsize arr) (λ n, p ← aget arr n; if p =? NULL then mret (inr n) else mret (inl (n + 1))) 0.

(** The state a program starts in: the instruction pointer, the words from the stack
    pointer up, two registers, and whether interrupts are enabled. *)
Record entry_state : Type := mkEntry { en_eip : Z; en_stack : list Z; en_eax : Z; en_edx : Z; en_if : bool }.

(** The elements of [arr] from the last of [n] to the first, stored from [sp] on. *)
Definition store_down {T} (arr : list Z) (n : Z) (stack : list Z) (sp : Z) : M T (list Z * Z) :=
  r ← for_loop (B := unit) 0 n (stack, sp)
    (λ k (st : list Z * Z),
       let (stack, sp) := st in
       p ← aget arr (n - 1 - k);
       stack ← aset stack sp p;
       mret (inl (stack, sp + 1)));
  match r with inl st => mret st | inr _ => mret (stack, sp) end.

(** [sp_loop]: pushes the words of [stack] in order until the count is down to zero. *)
Definition push_all {T} (stack : list Z) (sp : Z) (old : list Z) : M T (list Z) :=
  while 4294967297
    (λ st : Z * Z * list Z,
       let '(edx, ecx, stk) := st in
       w ← aget stack edx;
       let stk := w :: stk in
       let ecx := ecx -u 1 in
       if ecx =? 0 then mret (inr stk) else mret (inl (edx + 1, ecx, stk))) (0, sp, old).

Section Exec.
Context (malloc_ : Z → M mach (list Z)).

(** [old] is the kernel's stack below the words that are pushed. *)
Definition arch_exec (start : Z) (argv envp old : list Z) : M mach entry_state :=
  on_vm (λ ct, pg_alloc ct 0) ;;
  envc ← arg_count envp;
  argc ← arg_count argv;
  stack ← malloc_ (u32 (envc + argc + 4));
  let sp := 0 in
  stack ← aset stack sp NULL;
  let sp := sp + 1 in
  st ← store_down envp envc stack sp;
  stack ← aset st.1 st.2 NULL;
  let sp := st.2 + 1 in
  st ← store_down argv argc stack sp;
  stack ← aset st.1 st.2 argc;
  let sp := st.2 + 1 in
  stk ← push_all stack sp old;
  mret (mkEntry start stk 0 0 true).

Definition elf_start (e : elf) (argv envp old : list Z) : M mach entry_state :=
  fn ← e_entry e;
  arch_exec fn argv envp old.

Section Execve.
Context (lib : filelib mach).

(** ** kernel/syscall/proc.c *)

(** [junk], [sec] and [bin] are what the stack holds; [inl] is a return. *)
Definition sys_execve (junk : list Z) (sec : Z) (bin : elf) (filename argv envp old : list Z) : M mach (Z + entry_state) :=
  r ← elf_read lib junk sec filename bin;
  if r.1 =? 0 then mret (inl (-1))
  else
    elf_load r.2 ;;
    en ← elf_start r.2 argv envp old;
    mret (inr en).
End Execve.
End Exec.

(** ** Specification *)

(** *** The stack *)

Lemma arg_count_ok {T} (l r : list Z) (s : T) : Forall (λ p, p ≠ NULL) l → arg_count (l ++ NULL :: r) s = Ret (Z.of_nat (length l), s).
Proof.
  intros Hl. apply (while_scan _ (λ k, Z.of_nat k) _ (length l)); [done| | |].
  - intros k Hk. destruct (lookup_lt_is_Some_2 l k Hk) as [p Ep].
    assert (E : lookupZ (l ++ NULL :: r) (Z.of_nat k) = Some p).
    { rewrite lookupZ_app_l by lia. unfold lookupZ. rewrite (proj2 (Z.leb_le 0 _)) by lia. by rewrite Nat2Z.id. }
    rewrite (bind_ret _ _ _ _ _ (aget_Some _ _ _ _ E)). rewrite (proj2 (Z.eqb_neq p NULL)).
    + unfold mret, M_ret, mret_M. do 3 f_equal. lia.
    + by apply (Forall_lookup_1 _ _ _ _ Hl Ep).
  - by rewrite (bind_ret _ _ _ _ _ (aget_Some _ _ _ _ (lookupZ_middle l r NULL _ eq_refl))).
  - unfold bufsize. rewrite SuccNat2Pos.id_succ, length_app. cbn. lia.
Qed.

(** A block whose first words are [l]. *)
Definition filled (l blk : list Z) : list Z := l ++ drop (length l) blk.
Lemma filled_length l blk : (length l ≤ length blk)%nat → length (filled l blk) = length blk.
Proof. intros H. unfold filled. rewrite length_app, length_drop. lia. Qed.

Lemma filled_store {T} l blk x (s : T) : (length l < length blk)%nat →
  aset (filled l blk) (Z.of_nat (length l)) x s = Ret (filled (l ++ [x]) blk, s).
Proof.
  intros Hl. rewrite aset_ok by (rewrite filled_length; lia). do 2 f_equal. unfold filled.
  destruct (lookup_lt_is_Some_2 blk (length l) Hl) as [y Ey].
  rewrite (drop_S blk y (length l) Ey). rewrite insertZ_middle by done. rewrite length_app, <- app_assoc. cbn.
  by rewrite Nat.add_comm.
Qed.

Lemma filled_full {T} l blk x (s : T) : length l = length blk → aset (filled l blk) (Z.of_nat (length l)) x s = Fault OutOfBounds.
Proof. intros Hl. apply aset_oob. right. rewrite filled_length; lia. Qed.

Lemma store_down_ok {T} arr r l blk (s : T) :
  (length l + length arr ≤ length blk)%nat → Z.of_nat (length arr) < 2 ^ 32 →
  store_down (arr ++ r) (Z.of_nat (length arr)) (filled l blk) (Z.of_nat (length l)) s =
    Ret ((filled (l ++ reverse arr) blk, Z.of_nat (length (l ++ reverse arr))), s).
Proof.
  intros Hl H32. set (n := Z.of_nat (length arr)).
  destruct (for_loop_total (B := unit)
    (λ k (st : list Z * Z) s', s' = s ∧ let m := l ++ take (Z.to_nat k) (reverse arr) in st = (filled m blk, Z.of_nat (length m))) (λ _ _, False)
    (λ k (st : list Z * Z), let (stack, sp) := st in
       p ← aget (arr ++ r) (n - 1 - k); stack ← aset stack sp p; mret (inl (stack, sp + 1)))
    0 n (filled l blk, Z.of_nat (length l)) s) as (res & s' & E & H).
  - lia.
  - lia.
  - intros k st s1 Hk [-> ->]. left. set (m := l ++ take (Z.to_nat k) (reverse arr)).
    assert (Hm : length m = (length l + Z.to_nat k)%nat) by (unfold m; rewrite length_app, length_take, length_reverse; lia).
    destruct (lookup_lt_is_Some_2 arr (length arr - S (Z.to_nat k)) ltac:(lia)) as [p Ep].
    assert (E : lookupZ (arr ++ r) (n - 1 - k) = Some p).
    { rewrite lookupZ_app_l by lia. unfold lookupZ. rewrite (proj2 (Z.leb_le 0 _)) by lia.
      by replace (Z.to_nat (n - 1 - k)) with (length arr - S (Z.to_nat k))%nat by lia. }
    rewrite (bind_ret _ _ _ _ _ (aget_Some _ _ _ _ E)). rewrite (bind_ret _ _ _ _ _ (filled_store m blk p s ltac:(lia))).
    eexists _, s. split; [done|]. split; [done|].
    assert (Er : take (Z.to_nat (k + 1)) (reverse arr) = take (Z.to_nat k) (reverse arr) ++ [p]).
    { replace (Z.to_nat (k + 1)) with (S (Z.to_nat k)) by lia. apply take_S_r. rewrite reverse_lookup by lia. done. }
    cbv zeta. rewrite Er, app_assoc. fold m. f_equal. rewrite length_app. cbn. lia.
  - split; [done|]. cbv zeta. by rewrite app_nil_r.
  - unfold store_down. rewrite (bind_ret _ _ _ _ _ E). destruct res as [st|]; [|done]. destruct H as [-> ->].
    unfold n. by rewrite Nat2Z.id, (take_ge (reverse arr)) by (rewrite length_reverse; lia).
Qed.

Lemma push_all_ok {T} l blk old (s : T) :
  l ≠ [] → (length l ≤ length blk)%nat → Z.of_nat (length l) < 2 ^ 32 →
  push_all (filled l blk) (Z.of_nat (length l)) old s = Ret (reverse l ++ old, s).
Proof.
  intros Hne Hl H32. unfold push_all. set (n := length l).
  assert (Hn : (0 < n)%nat) by (unfold n; destruct l; [done|cbn; lia]).
  assert (Hget : ∀ k w, l !! k = Some w → aget (filled l blk) (Z.of_nat k) s = Ret (w, s)).
  { intros k w Ew. apply aget_Some. unfold filled. pose proof (lookup_lt_Some _ _ _ Ew).
    rewrite lookupZ_app_l by lia. unfold lookupZ. rewrite (proj2 (Z.leb_le 0 _)) by lia. by rewrite Nat2Z.id. }
  apply (while_scan _ (λ k, (Z.of_nat k, Z.of_nat (n - k), reverse (take k l) ++ old)) _ (n - 1)).
  - by rewrite Nat.sub_0_r.
  - intros k Hk. destruct (lookup_lt_is_Some_2 l k) as [w Ew]; [lia|]. rewrite (bind_ret _ _ _ _ _ (Hget k w Ew)).
    rewrite u32_small by lia. rewrite (proj2 (Z.eqb_neq _ 0)) by lia. unfold mret, M_ret, mret_M.
    rewrite (take_S_r _ _ _ Ew), reverse_snoc. cbn [app]. do 5 f_equal; lia.
  - destruct (lookup_lt_is_Some_2 l (n - 1)) as [w Ew]; [lia|]. rewrite (bind_ret _ _ _ _ _ (Hget _ w Ew)).
    rewrite u32_small by lia. rewrite (proj2 (Z.eqb_eq _ 0)) by lia.
    replace (reverse l) with (w :: reverse (take (n - 1) l)); [done|].
    rewrite <- reverse_snoc, <- (take_S_r _ _ _ Ew). by rewrite take_ge by lia.
  - lia.
Qed.

(** The words from the stack pointer up, as the System V ABI asks for. *)
Definition abi_stack (argv envp : list Z) : list Z :=
  Z.of_nat (length argv) :: argv ++ [NULL] ++ envp ++ [NULL].

Section ArchExec.
Context (malloc_ : Z → M mach (list Z)) (t : task) (k : nat) (argv envp ra re : list Z) (blk : list Z).
Hypothesis Hargv : Forall (λ p, p ≠ NULL) argv.
Hypothesis Henvp : Forall (λ p, p ≠ NULL) envp.
Hypothesis H32 : Z.of_nat (length argv + length envp) + 4 < 2 ^ 32.

(** What is stored, in order. *)
Definition stored : list Z := [NULL] ++ reverse envp ++ [NULL] ++ reverse argv ++ [Z.of_nat (length argv)].

Lemma reverse_stored : reverse stored = abi_stack argv envp.
Proof. unfold stored, abi_stack. rewrite !reverse_app, !reverse_involutive, <- !app_assoc. done. Qed.

(** [arch_exec] up to the block. *)
Lemma arch_exec_start start old s s1 s2 :
  on_vm (λ ct, pg_alloc ct 0) s = Ret (tt, s1) →
  malloc_ (Z.of_nat (length envp) + Z.of_nat (length argv) + 4) s1 = Ret (blk, s2) →
  arch_exec malloc_ start (argv ++ NULL :: ra) (envp ++ NULL :: re) old s =
    (stack ← aset blk 0 NULL;
     st ← store_down (envp ++ NULL :: re) (Z.of_nat (length envp)) stack 1;
     stack ← aset st.1 st.2 NULL;
     st ← store_down (argv ++ NULL :: ra) (Z.of_nat (length argv)) stack (st.2 + 1);
     stack ← aset st.1 st.2 (Z.of_nat (length argv));
     stk ← push_all stack (st.2 + 1) old;
     mret (mkEntry start stk 0 0 true)) s2.
Proof.
  intros E1 E2. unfold arch_exec. rewrite (bind_ret _ _ _ _ _ E1).
  rewrite (bind_ret _ _ _ _ _ (arg_count_ok envp re s1 Henvp)), (bind_ret _ _ _ _ _ (arg_count_ok argv ra s1 Hargv)).
  rewrite u32_small by lia. by rewrite (bind_ret _ _ _ _ _ E2).
Qed.

Lemma arch_exec_ok start old s s1 s2 :
  on_vm (λ ct, pg_alloc ct 0) s = Ret (tt, s1) →
  malloc_ (Z.of_nat (length envp) + Z.of_nat (length argv) + 4) s1 = Ret (blk, s2) →
  (length envp + length argv + 3 ≤ length blk)%nat →
  arch_exec malloc_ start (argv ++ NULL :: ra) (envp ++ NULL :: re) old s =
    Ret (mkEntry start (abi_stack argv envp ++ old) 0 0 true, s2).
Proof.
  intros E1 E2 Hl. rewrite (arch_exec_start _ _ _ _ _ E1 E2).
  assert (L1 : length (reverse envp) = length envp) by apply length_reverse.
  assert (L2 : length (reverse argv) = length argv) by apply length_reverse.
  rewrite (bind_ret _ _ _ _ _ (filled_store [] blk NULL s2 ltac:(cbn [length]; lia))).
  rewrite (bind_ret _ _ _ _ _ (store_down_ok envp (NULL :: re) [NULL] blk s2 ltac:(cbn [length]; lia) ltac:(lia))).
  set (l1 := [NULL] ++ reverse envp). assert (Ll1 : length l1 = S (length envp)) by (unfold l1; cbn; lia).
  cbn [fst snd]. rewrite (bind_ret _ _ _ _ _ (filled_store l1 blk NULL s2 ltac:(lia))).
  replace (Z.of_nat (length l1) + 1) with (Z.of_nat (length (l1 ++ [NULL]))) by (rewrite length_app; cbn [length]; lia).
  rewrite (bind_ret _ _ _ _ _ (store_down_ok argv (NULL :: ra) (l1 ++ [NULL]) blk s2 ltac:(rewrite length_app; cbn [length]; lia) ltac:(lia))).
  set (l2 := (l1 ++ [NULL]) ++ reverse argv).
  assert (Ll2 : length l2 = (length envp + length argv + 2)%nat) by (unfold l2; rewrite !length_app; cbn [length]; lia).
  cbn [fst snd]. rewrite (bind_ret _ _ _ _ _ (filled_store l2 blk _ s2 ltac:(lia))).
  set (l3 := l2 ++ [Z.of_nat (length argv)]).
  replace (Z.of_nat (length l2) + 1) with (Z.of_nat (length l3)) by (unfold l3; rewrite length_app; cbn [length]; lia).
  assert (Ll3 : length l3 = (length envp + length argv + 3)%nat) by (unfold l3; rewrite length_app; cbn [length]; lia).
  rewrite (bind_ret _ _ _ _ _ (push_all_ok l3 blk old s2 ltac:(intros E; rewrite E in Ll3; cbn in Ll3; lia) ltac:(lia) ltac:(lia))).
  rewrite <- reverse_stored. unfold mret, M_ret, mret_M. do 4 f_equal.
  unfold l3, l2, l1, stored. by rewrite <- !app_assoc.
Qed.
End ArchExec.

(** *** Loading *)

Definition loads (e : elf) (i : Z) : Prop := seg_word e i 0 = PT_LOAD.
#[export] Instance loads_dec e i : Decision (loads e i).
Proof. unfold loads. apply _. Defined.
Definition seg_filesz (e : elf) (i : Z) : Z := seg_word e i 16.
Definition seg_lim (e : elf) (i : Z) : Z := seg_vaddr e i + seg_memsz e i.
(** Byte [o] of a loaded segment. *)
Definition seg_byte (e : elf) (i o : Z) : Z := if o <? seg_filesz e i then byte_at (elf_data e) (seg_off e i + o) else 0.
(** The addresses of the first [n] segments. *)
Definition in_image (e : elf) (n x : Z) : Prop := ∃ i, 0 ≤ i < n ∧ loads e i ∧ seg_vaddr e i ≤ x < seg_lim e i.

(** Frames for the first [n] segments, and the highest end among them. *)
Fixpoint load_frames (e : elf) (n : nat) : nat :=
  match n with
  | O => 0
  | S m => load_frames e m + (if decide (loads e (Z.of_nat m)) then 2 * length (range_pages (seg_vaddr e (Z.of_nat m)) (seg_lim e (Z.of_nat m))) else 0)
  end.
Fixpoint load_brk (e : elf) (n : nat) : Z :=
  match n with
  | O => 0
  | S m => if decide (loads e (Z.of_nat m)) then Z.max (load_brk e m) (seg_lim e (Z.of_nat m)) else load_brk e m
  end.

(** The loadable segments are in the file, fit into the address space, and follow
    each other on different pages. *)
Record loadable (t : task) (s : mach) (e : elf) : Prop := {
  ld_segments : segments_ok e ∧ 0 ≤ num_segments e;
  ld_file i : 0 ≤ i < num_segments e → loads e i → seg_filesz e i ≤ seg_memsz e i ∧ seg_off e i + seg_filesz e i ≤ dlen e;
  ld_space i : 0 ≤ i < num_segments e → loads e i → seg_lim e i + 2 * PAGE_SIZE ≤ 2 ^ 32 ∧
    ∀ v, PGADDR (seg_vaddr e i) ≤ v < seg_lim e i + PAGE_SIZE → can_map t s v;
  ld_order i j : 0 ≤ i < j → j < num_segments e → loads e i → loads e j → seg_lim e i ≤ PGADDR (seg_vaddr e j)
}.

Lemma mem_ok_weaken t k k' s : mem_ok t k' s → (k ≤ k')%nat → mem_ok t k s.
Proof. intros [Hc Hr Hv Hsp] Hk. split; try done. by apply (vm_ok_weaken 2 _ k'). Qed.
Lemma mem_ok_vm t k s v : mem_ok t k s → MMUReady v = MMUReady (m_vm s) → vm_ok 2 k v → space_ok v (pgd (arch t)) → mem_ok t k (with_vm v s).
Proof. intros [Hc Hr _ _] E Hv Hsp. split; [done| |done|done]. cbn. congruence. Qed.

Lemma load_segment_ok t fr U k s e i brk l :
  segments_ok e → 0 ≤ i < num_segments e → loads e i →
  seg_filesz e i ≤ seg_memsz e i → seg_off e i + seg_filesz e i ≤ dlen e → seg_lim e i + 2 * PAGE_SIZE ≤ 2 ^ 32 →
  (∀ v, PGADDR (seg_vaddr e i) ≤ v < seg_lim e i + PAGE_SIZE → can_map t s v) →
  mem_ok t (2 * length (range_pages (seg_vaddr e i) (seg_lim e i)) + k) s →
  more_used fr (vm_frames (m_vm s)) → private (mmu_view t) fr U (m_vm s) → (∀ x, U x → x < PGADDR (seg_vaddr e i)) →
  ∃ s', load_segment e i (brk, l) s = Ret (inl (Z.max brk (seg_lim e i), l ++ [LoadedSegment i (seg_vaddr e i) (seg_lim e i)]), s') ∧
    mem_ok t k s' ∧ m_tst s' = m_tst s ∧ more_used fr (vm_frames (m_vm s')) ∧
    private (mmu_view t) fr (λ x, U x ∨ seg_vaddr e i ≤ x < seg_lim e i) (m_vm s') ∧
    (∀ w, is_u32 w → can_map t s w → can_map t s' w) ∧
    (∀ x, U x → user_byte (mmu_view t) (m_vm s') x = user_byte (mmu_view t) (m_vm s) x) ∧
    (∀ o, 0 ≤ o < seg_memsz e i → user_byte (mmu_view t) (m_vm s') (seg_vaddr e i + o) = Some (seg_byte e i o)) ∧
    (∀ K, lasting (mmu_view t) fr K (m_vm s) → (∀ x, K x → x < PGADDR (seg_vaddr e i) ∨ seg_lim e i + 2 * PAGE_SIZE ≤ x) →
       lasts (mmu_view t) fr K (m_vm s) (m_vm s')).
Proof.
  intros He Hi Hld Hfm Hof Hlim Hcan Hm Hmono Hpv HU. pose proof He as (Hb & _). pose proof Hm as [Hc Hr Hv Hsp].
  set (base := seg_vaddr e i) in *. set (m := seg_memsz e i) in *. set (lim := seg_lim e i) in *.
  set (off := seg_off e i) in *. set (fsz := seg_filesz e i) in *.
  assert (Elim : lim = base + m) by done.
  assert (B1 : is_u32 base) by apply (w32_bound _ _ Hb). assert (B2 : is_u32 m) by apply (w32_bound _ _ Hb).
  assert (B3 : is_u32 off) by apply (w32_bound _ _ Hb). assert (B4 : is_u32 fsz) by apply (w32_bound _ _ Hb).
  assert (Hpg : PGADDR base ≤ base) by (unfold PGADDR, PAGE_SIZE; zlia).
  set (W := λ x, U x ∨ base ≤ x ≤ lim).
  destruct (pg_alloc_range_private (mmu_view t) fr U k (m_vm s) base lim (negb (Z.land (seg_word e i 24) (Z.lor PF_R PF_W) =? 0)))
    as (v1 & E1 & Hv1 & Hsp1 & Hr1 & Hm1 & Hp1 & Ht1 & _ & Hb1); try done; [lia|lia|].
  fold W in Hp1. set (s1 := with_vm v1 s).
  assert (HW : ∀ o, 0 ≤ o ≤ m → W (base + o)) by (intros o Ho; right; lia).
  destruct (umemcpy_ok (mmu_view t) fr W v1 base (elf_data e) off fsz) as (v2 & E2 & Hss2 & Hb2); try done; [lia|lia|unfold PAGE_SIZE in Hlim; lia| |lia|].
  { intros o Ho. apply HW. lia. }
  pose proof (same_space_ok _ _ _ Hss2 Hsp1) as Hsp2. pose proof (same_space_private _ _ _ _ _ Hss2 Hp1) as Hp2.
  destruct (umemset_ok (mmu_view t) fr W v2 (base + fsz) 0 (m - fsz)) as (v3 & E3 & Hss3 & Hb3); try done; [lia|lia|unfold PAGE_SIZE in Hlim; lia| |].
  { intros o Ho. rewrite <- Z.add_assoc. apply HW. lia. }
  pose proof (same_space_trans _ _ _ _ Hss2 Hss3) as Hss. set (s3 := with_vm v3 s).
  exists s3. split; [|split; [|split; [done|split; [|split; [|split; [|split; [|split]]]]]]].
  - unfold load_segment, p_type. rewrite <- (Z.add_0_r (phdr e + _)). rewrite (bind_ret _ _ _ _ _ (seg_load e i 0 s He Hi ltac:(lia))), Hld.
    change (negb (PT_LOAD =? PT_LOAD)) with false. cbv iota. unfold p_vaddr, p_memsz, p_flags, p_offset, p_filesz.
    rewrite (bind_ret _ _ _ _ _ (seg_load e i 8 s He Hi ltac:(lia))), (bind_ret _ _ _ _ _ (seg_load e i 20 s He Hi ltac:(lia))).
    fold (seg_vaddr e i) (seg_memsz e i). fold base m. cbv zeta. rewrite (u32_small (base + m)) by (unfold PAGE_SIZE in Hlim; lia). rewrite <- Elim.
    rewrite (bind_ret _ _ _ _ _ (seg_load e i 24 s He Hi ltac:(lia))).
    rewrite (bind_ret _ _ s tt s1) by (by apply (on_vm_ok _ _ t)).
    rewrite (bind_ret _ _ _ _ _ (seg_load e i 4 s1 He Hi ltac:(lia))), (bind_ret _ _ _ _ _ (seg_load e i 16 s1 He Hi ltac:(lia))).
    fold (seg_off e i) (seg_filesz e i). fold off fsz.
    rewrite (bind_ret _ _ s1 tt (with_vm v2 s)) by exact (on_vm_ok (λ ct, umemcpy ct base (elf_data e) off fsz) s1 t tt v2 Hc E2).
    rewrite (u32_small (base + fsz)), (u32_small (m - fsz)) by (unfold PAGE_SIZE in Hlim; lia).
    rewrite (bind_ret _ _ _ tt s3) by exact (on_vm_ok (λ ct, umemset ct (base + fsz) 0 (m - fsz)) (with_vm v2 s) t tt v3 Hc E3).
    unfold mret, M_ret, mret_M. do 4 f_equal. destruct (Z.ltb_spec brk lim); lia.
  - apply (mem_ok_vm t k s v3); [by apply (mem_ok_weaken t _ _ s Hm); lia| | |].
    + rewrite (ss_ready _ _ _ Hss). exact Hr1.
    + by apply (same_space_vm_ok _ _ _ _ _ Hss).
    + by apply (same_space_ok _ _ _ Hss).
  - cbn. by rewrite (ss_frames _ _ _ Hss).
  - eapply private_ext; [|exact (same_space_private _ _ _ _ _ Hss Hp1)]. intros x [Hx|Hx]; [by left|right; lia].
  - intros w Hw Hx. apply (same_space_table_for _ _ _ _ Hss Hw). by apply Ht1.
  - intros x Hx. pose proof (HU x Hx). cbn. rewrite Hb3, Hb2, Hb1 by (done || by left).
    rewrite (proj2 (Z.leb_gt (base + fsz) x)), (proj2 (Z.leb_gt base x)) by lia. done.
  - intros o Ho. cbn. rewrite Hb3, Hb2 by (apply HW; lia). unfold seg_byte. fold fsz off.
    rewrite (proj2 (Z.ltb_lt (base + o) (base + fsz + (m - fsz)))) by lia. rewrite andb_true_r.
    destruct (Z.ltb_spec o fsz) as [Hlt|Hge].
    + rewrite (proj2 (Z.leb_gt (base + fsz) (base + o))), (proj2 (Z.leb_le base (base + o))), (proj2 (Z.ltb_lt (base + o) (base + fsz))) by lia.
      cbn. unfold byte_at. do 3 f_equal. lia.
    + by rewrite (proj2 (Z.leb_le (base + fsz) (base + o))) by lia.
  - intros K HK Hout. cbn. pose proof (pg_alloc_range_lasts (mmu_view t) fr K k (m_vm s) v1 base lim _ ltac:(lia) ltac:(lia) ltac:(lia) Hv Hsp Hcan E1 HK Hout) as L1.
    assert (L2 : lasts (mmu_view t) fr K v1 v2).
    { apply (umemcpy_lasts (mmu_view t) fr W K v1 v2 base (elf_data e) off fsz); try done; [lia|lia|unfold PAGE_SIZE in Hlim; lia| |lia|apply L1].
      intros o Ho. apply HW. lia. }
    apply (lasts_trans _ _ _ _ v1); [done|]. apply (lasts_trans _ _ _ _ v2); [done|].
    apply (umemset_lasts (mmu_view t) fr W K v2 v3 (base + fsz) 0 (m - fsz)); try done; [lia|lia|unfold PAGE_SIZE in Hlim; lia| |apply L2].
    intros o Ho. rewrite <- Z.add_assoc. apply HW. lia.
Qed.

Lemma load_segment_skip e i brk l s :
  segments_ok e → 0 ≤ i < num_segments e → ¬ loads e i → load_segment e i (brk, l) s = Ret (inl (brk, l), s).
Proof.
  intros He Hi Hn. unfold load_segment, p_type. rewrite <- (Z.add_0_r (phdr e + _)). rewrite (bind_ret _ _ _ _ _ (seg_load e i 0 s He Hi ltac:(lia))).
  by rewrite (proj2 (Z.eqb_neq _ _) Hn).
Qed.

(** No address of [K] is on a page that is loaded. *)
Definition off_image (e : elf) (K : Z → Prop) : Prop := ∀ x i, K x → 0 ≤ i < num_segments e → loads e i →
  x < PGADDR (seg_vaddr e i) ∨ seg_lim e i + 2 * PAGE_SIZE ≤ x.

(** After [i] segments. *)
Record loaded_upto (t : task) (fr : frames) (s : mach) (e : elf) (k : nat) (i : Z) (brk : Z) (s' : mach) : Prop := {
  lu_mem : mem_ok t k s';
  lu_tst : m_tst s' = m_tst s;
  lu_more : more_used fr (vm_frames (m_vm s'));
  lu_private : private (mmu_view t) fr (in_image e i) (m_vm s');
  lu_can w : is_u32 w → can_map t s w → can_map t s' w;
  lu_brk : brk = load_brk e (Z.to_nat i);
  lu_bytes j o : 0 ≤ j < i → loads e j → 0 ≤ o < seg_memsz e j →
    user_byte (mmu_view t) (m_vm s') (seg_vaddr e j + o) = Some (seg_byte e j o);
  lu_lasts K : lasting (mmu_view t) fr K (m_vm s) → off_image e K → lasts (mmu_view t) fr K (m_vm s) (m_vm s')
}.

Lemma load_frames_step e n i : 0 ≤ i < n →
  (load_frames e (Z.to_nat i) + (if decide (loads e i) then 2 * length (range_pages (seg_vaddr e i) (seg_lim e i)) else 0) ≤ load_frames e (Z.to_nat n))%nat.
Proof.
  intros Hi. replace (Z.to_nat n) with (S (Z.to_nat i) + (Z.to_nat n - S (Z.to_nat i)))%nat by lia.
  assert (Hmon : ∀ a b, (load_frames e a ≤ load_frames e (a + b))%nat).
  { intros a b. induction b as [|b IH]; [by rewrite Nat.add_0_r|]. rewrite Nat.add_succ_r. cbn. lia. }
  etransitivity; [|apply Hmon]. cbn [load_frames]. by rewrite Z2Nat.id by lia.
Qed.

Lemma load_brk_step e i : 0 ≤ i → load_brk e (Z.to_nat (i + 1)) = if decide (loads e i) then Z.max (load_brk e (Z.to_nat i)) (seg_lim e i) else load_brk e (Z.to_nat i).
Proof. intros Hi. replace (Z.to_nat (i + 1)) with (S (Z.to_nat i)) by lia. cbn [load_brk]. by rewrite Z2Nat.id by lia. Qed.

Lemma load_step_ok t fr s e k i brk l s1 :
  loadable t s e → 0 ≤ i < num_segments e →
  let total := load_frames e (Z.to_nat (num_segments e)) in
  loaded_upto t fr s e (total - load_frames e (Z.to_nat i) + k) i brk s1 →
  ∃ brk' l' s2, load_segment e i (brk, l) s1 = Ret (inl (brk', l'), s2) ∧
    loaded_upto t fr s e (total - load_frames e (Z.to_nat (i + 1)) + k) (i + 1) brk' s2.
Proof.
  intros [[He _] Hfile Hspace Hord] Hi total [Hm Ht Hmo Hpv Hcan Hbrk Hby Hla].
  pose proof (load_frames_step e (num_segments e) i Hi) as Hfr. fold total in Hfr.
  assert (Estep : load_frames e (Z.to_nat (i + 1)) = (load_frames e (Z.to_nat i) +
    (if decide (loads e i) then 2 * length (range_pages (seg_vaddr e i) (seg_lim e i)) else 0))%nat).
  { replace (Z.to_nat (i + 1)) with (S (Z.to_nat i)) by lia. cbn [load_frames]. by rewrite Z2Nat.id by lia. }
  rewrite Estep. destruct (decide (loads e i)) as [Hld|Hld].
  - destruct (Hfile i Hi Hld) as [Hfm Hof]. destruct (Hspace i Hi Hld) as [Hlim Hcm].
    assert (Hsz : 0 ≤ seg_memsz e i ∧ 0 ≤ seg_vaddr e i) by (destruct He as (Hb & _); split; apply (w32_bound _ _ Hb)).
    destruct (load_segment_ok t fr (in_image e i) (total - (load_frames e (Z.to_nat i) + 2 * length (range_pages (seg_vaddr e i) (seg_lim e i))) + k) s1 e i brk l)
      as (s2 & E & Hm2 & Ht2 & Hmo2 & Hpv2 & Hcan2 & Hold & Hnew & Hla2); try done.
    { intros v Hv. apply Hcan; [unfold PGADDR, PAGE_SIZE in *; zlia|by apply Hcm]. }
    { eapply mem_ok_weaken; [exact Hm|]. lia. }
    { intros x (j & Hj & Hlj & Hx). pose proof (Hord j i ltac:(lia) ltac:(lia) Hlj Hld). lia. }
    eexists _, _, s2. split; [exact E|]. split; [done|congruence|done| | | | |].
    + eapply private_ext; [|exact Hpv2]. intros x (j & Hj & Hlj & Hx). destruct (decide (j = i)) as [->|Hji]; [by right|left].
      exists j. split; [lia|done].
    + intros w Hw Hx. apply Hcan2; [done|]. by apply Hcan.
    + rewrite load_brk_step by lia. rewrite decide_True by done. by rewrite <- Hbrk.
    + intros j o Hj Hlj Ho. destruct (decide (j = i)) as [->|Hji]; [by apply Hnew|].
      rewrite Hold; [apply Hby; [lia|done|done]|]. exists j. split; [lia|]. split; [done|]. unfold seg_lim. lia.
    + intros K HK Hout. pose proof (Hla K HK Hout) as L1. apply (lasts_trans _ _ _ _ (m_vm s1)); [done|]. apply Hla2; [apply L1|].
      intros x Hx. by apply (Hout x i).
  - exists brk, l, s1. rewrite load_segment_skip by done. split; [done|]. rewrite Nat.add_0_r. split; try done.
    + eapply private_ext; [|exact Hpv]. intros x (j & Hj & Hlj & Hx). exists j. split; [|done].
      destruct (decide (j = i)) as [->|]; [done|lia].
    + by rewrite load_brk_step, decide_False by (done || lia).
    + intros j o Hj Hlj. apply Hby; [|done]. destruct (decide (j = i)) as [->|]; [done|lia].
Qed.

(** The whole program. *)
Lemma elf_load_ok t s e k :
  loadable t s e → mem_ok t (load_frames e (Z.to_nat (num_segments e)) + k) s → frame_used (vm_frames (m_vm s)) 0 = true →
  ∃ l s', let t' := set_brk (load_brk e (Z.to_nat (num_segments e))) t in
    elf_load e s = Ret (l, s') ∧ mem_ok t' k s' ∧
    private (mmu_view t') (vm_frames (m_vm s)) (in_image e (num_segments e)) (m_vm s') ∧
    (∀ K, lasting (mmu_view t) (vm_frames (m_vm s)) K (m_vm s) → off_image e K →
       lasts (mmu_view t) (vm_frames (m_vm s)) K (m_vm s) (m_vm s')) ∧
    m_tst s' = m_tst (rebrk (load_brk e (Z.to_nat (num_segments e))) t s) ∧
    (∀ w, is_u32 w → can_map t s w → can_map t' s' w) ∧ more_used (vm_frames (m_vm s)) (vm_frames (m_vm s')) ∧
    ∀ i o, 0 ≤ i < num_segments e → loads e i → 0 ≤ o < seg_memsz e i →
      user_byte (mmu_view t') (m_vm s') (seg_vaddr e i + o) = Some (seg_byte e i o).
Proof.
  intros Hl Hm Hz. pose proof (ld_segments _ _ _ Hl) as [He H0]. pose proof He as (_ & _ & _ & Hc).
  set (n := num_segments e) in *. set (total := load_frames e (Z.to_nat n)) in *. set (fr := vm_frames (m_vm s)).
  destruct (for_loop_total (λ i (st : Z * list load_line) s', loaded_upto t fr s e (total - load_frames e (Z.to_nat i) + k) i st.1 s')
    (λ _ _, False) (load_segment e) 0 n (0, []) s) as (r & s1 & E & H).
  - lia.
  - lia.
  - intros i [brk l] s1 Hi Hlu. left. destruct (load_step_ok t fr s e k i brk l s1 Hl Hi Hlu) as (brk' & l' & s2 & E & H).
    by exists (brk', l'), s2.
  - split; [|done| | |done|done| |].
    + eapply mem_ok_weaken; [exact Hm|]. cbn. lia.
    + by apply more_used_refl.
    + eapply private_ext; [|apply private_none]. intros x (j & Hj & _). lia.
    + intros j o Hj. lia.
    + intros K HK _. by apply lasts_refl.
  - destruct r as [[brk l]|]; [|done]. cbn [fst] in H. destruct H as [Hm1 Ht1 Hmo Hpv Hcan -> Hby Hla].
    replace (total - load_frames e (Z.to_nat n) + k)%nat with k in Hm1 by (unfold total; lia).
    pose proof (mo_cur _ _ _ Hm1) as Hc1.
    exists (l ++ [ProcessBrk (load_brk e (Z.to_nat n))]), (rebrk (load_brk e (Z.to_nat n)) t s1). cbv zeta. split; [|split; [|split; [|split; [|split; [|split; [|split]]]]]].
    + unfold elf_load. fold n. rewrite (bind_ret _ _ _ _ _ E).
      rewrite (bind_ret _ _ s1 (CurrentTask (m_tst s1)) s1) by (by rewrite (liftT_ok _ s1 _ (m_tst s1) eq_refl), with_tst_same).
      by rewrite (bind_ret _ _ _ _ _ (set_brk_ok s1 t _ Hc1)).
    + by apply rebrk_ok.
    + exact Hpv.
    + intros K HK Hout. exact (Hla K HK Hout).
    + unfold rebrk. cbn. by rewrite Ht1.
    + exact Hcan.
    + exact Hmo.
    + intros i o Hi Hli Ho. exact (Hby i o Hi Hli Ho).
Qed.

(** ** Properties *)

(** C4: loading a program.  When the loadable segments lie in the file and follow each
    other on different pages, [elf_load] gives the task memory of its own at their
    addresses, with the bytes of the file followed by zeros, and sets its break to
    the end of the last one; two frames per page are enough. *)
Theorem elf_load_image t s e k :
  loadable t s e → mem_ok t (load_frames e (Z.to_nat (num_segments e)) + k) s → frame_used (vm_frames (m_vm s)) 0 = true →
  ∃ l s', let t' := set_brk (load_brk e (Z.to_nat (num_segments e))) t in
    elf_load e s = Ret (l, s') ∧ mem_ok t' k s' ∧
    private (mmu_view t') (vm_frames (m_vm s)) (in_image e (num_segments e)) (m_vm s') ∧
    ∀ i o, 0 ≤ i < num_segments e → loads e i → 0 ≤ o < seg_memsz e i →
      user_byte (mmu_view t') (m_vm s') (seg_vaddr e i + o) = Some (seg_byte e i o).
Proof.
  intros Hl Hm Hz. destruct (elf_load_ok t s e k Hl Hm Hz) as (l & s' & E & H1 & H2 & _ & _ & _ & _ & H3). by exists l, s'.
Qed.

Lemma demo_loadable : loadable brk_task demo_mach demo_parsed.
Proof.
  assert (H0 : ∀ i, 0 ≤ i < num_segments demo_parsed → i = 0) by (intros i; change (num_segments demo_parsed) with 1; lia).
  split.
  - split; [split; [by apply bytes_dec_ok|by vm_compute]|by vm_compute].
  - intros i ->%H0 _. by vm_compute.
  - intros i ->%H0 _. split; [by vm_compute|]. intros v Hv. left. apply demo_pde.
    change (PGADDR (seg_vaddr demo_parsed 0)) with 0x08048000 in Hv. change (seg_lim demo_parsed 0) with 0x0804803C in Hv. unfold PAGE_SIZE in Hv. lia.
  - intros i j Hi Hj. pose proof (H0 j ltac:(lia)). lia.
Qed.

Lemma elf_load_image_witness :
  ∃ l s', elf_load demo_parsed demo_mach = Ret (l, s') ∧
    user_byte (mmu_view brk_task) (m_vm s') 0x08048001 = Some 69 ∧ user_byte (mmu_view brk_task) (m_vm s') 0x0804803b = Some 0.
Proof.
  destruct (elf_load_image brk_task demo_mach demo_parsed 4 demo_loadable) as (l & s' & E & _ & _ & Hb).
  - replace (Nat.add (load_frames demo_parsed (Z.to_nat (num_segments demo_parsed))) 4) with 8%nat by reflexivity. exact demo_mach_ok.
  - reflexivity.
  - exists l, s'. split; [exact E|]. clear E. split.
    + apply (Hb 0 1); [change (num_segments demo_parsed) with 1; lia|reflexivity|change (seg_memsz demo_parsed 0) with 60; lia].
    + apply (Hb 0 59); [change (num_segments demo_parsed) with 1; lia|reflexivity|change (seg_memsz demo_parsed 0) with 60; lia].
Defined.

(** The stack a program starts on.  With a block from [malloc] that has room for
    them, [elf_start] jumps to the entry point with interrupts enabled and, from the
    stack pointer up, the argument count, the arguments, NULL, the environment and
    NULL, in their order; [eax] and [edx] are 0. *)
Theorem elf_start_stack malloc_ t k e argv envp ra re old s :
  Forall (λ p, p ≠ NULL) argv → Forall (λ p, p ≠ NULL) envp → Z.of_nat (length argv + length envp) + 4 < 2 ^ 32 →
  mem_ok t (S (S k)) s → can_map t s 0 → 0 ≤ header e → header e + 28 ≤ dlen e →
  (∀ s1, ∃ blk s2, malloc_ (Z.of_nat (length envp) + Z.of_nat (length argv) + 4) s1 = Ret (blk, s2) ∧
     (length envp + length argv + 3 ≤ length blk)%nat) →
  ∃ s', elf_start malloc_ e (argv ++ NULL :: ra) (envp ++ NULL :: re) old s =
    Ret (mkEntry (w32 (elf_data e) (header e + 24)) (abi_stack argv envp ++ old) 0 0 true, s').
Proof.
  intros Ha He H32 [Hc Hr Hv Hsp] Hcan Hh Hd Hmal.
  destruct (pg_alloc_walk (mmu_view t) 0 k (m_vm s) 0 Hv Hsp ltac:(lia) Hcan) as (a & v' & E & _).
  set (s1 := with_vm v' s). destruct (Hmal s1) as (blk & s2 & Em & Hl). exists s2. unfold elf_start.
  rewrite (bind_ret _ _ _ _ _ (ld32_ok e (header e + 24) s ltac:(lia) ltac:(lia))).
  apply (arch_exec_ok malloc_ argv envp ra re blk Ha He H32 _ old s s1 s2); [|done|done].
  by apply (on_vm_ok _ _ t).
Qed.

Definition demo_malloc : Z → M mach (list Z) := λ _, mret (replicate 5 0).
Lemma elf_start_stack_witness :
  ∃ s', elf_start demo_malloc demo_parsed [0x1000; 0] [0x2000; 0] [77] demo_mach =
    Ret (mkEntry 0x08048000 [1; 0x1000; 0; 0x2000; 0; 77] 0 0 true, s').
Proof.
  destruct (elf_start_stack demo_malloc brk_task 6 demo_parsed [0x1000] [0x2000] [] [] [77] demo_mach) as (s' & E).
  - by repeat constructor.
  - by repeat constructor.
  - done.
  - exact demo_mach_ok.
  - left. by apply demo_pde.
  - by vm_compute.
  - by vm_compute.
  - intros s1. exists (replicate 5 0), s1. split; [reflexivity|cbn; lia].
  - exists s'. exact E.
Defined.

(** [malloc] is asked for one byte per word: with one argument and one variable, as in
    [kmain], a block of the size asked for is overrun. *)
Theorem arch_exec_overruns malloc_ argv0 envp0 start old s s1 s2 blk :
  argv0 ≠ NULL → envp0 ≠ NULL → on_vm (λ ct, pg_alloc ct 0) s = Ret (tt, s1) →
  malloc_ 6 s1 = Ret (blk, s2) → 4 * Z.of_nat (length blk) ≤ 6 →
  arch_exec malloc_ start [argv0; NULL] [envp0; NULL] old s = Fault OutOfBounds.
Proof.
  intros Ha He E1 E2 Hl.
  change [argv0; NULL] with ([argv0] ++ [NULL]). change [envp0; NULL] with ([envp0] ++ [NULL]).
  rewrite (arch_exec_start malloc_ [argv0] [envp0] [] [] blk ltac:(by repeat constructor) ltac:(by repeat constructor) ltac:(done) start old s s1 s2 E1 E2).
  destruct blk as [|w [|w' blk]]; [done| |cbn in Hl; lia].
  reflexivity.
Qed.
