(* ===== verification/Boot.v ===== *)
(** * Starting the kernel

    [pg_init] of [arch/x86/mem/mmu.c], [arch/x86/boot/multibootimpl.c] and [init.c],
    [arch/hwinfo.c] and [kernel/module.c].  The boot information is the list of its
    bytes, an address in it an offset; addresses the linker chooses are parameters. *)
From Stdlib Require Import ZArith Lia.
From stdpp Require Import base gmap list list_numbers strings.
From S2P Require Import Prelude Layout FrameAlloc Mmu ListHead TaskState Task Machine Brk Intr Elf.
Open Scope Z_scope.
Open Scope u32_scope.

(** ** State *)

(** [mem_max] is the field of [HardwareInfo]. *)
Record boot : Type := mkBoot {
  b_mach : mach;
  b_intr : intrst;
  b_esp : Z;
  b_ebp : Z;
  mem_max : Z;
  InitrdStart : Z;
  InitrdEnd : Z;
  Initrd : Z
}.
Definition set_b_mach x s := mkBoot x (b_intr s) (b_esp s) (b_ebp s) (mem_max s) (InitrdStart s) (InitrdEnd s) (Initrd s).
Definition set_b_intr x s := mkBoot (b_mach s) x (b_esp s) (b_ebp s) (mem_max s) (InitrdStart s) (InitrdEnd s) (Initrd s).
Definition set_b_sp x y s := mkBoot (b_mach s) (b_intr s) x y (mem_max s) (InitrdStart s) (InitrdEnd s) (Initrd s).
Definition set_mem_max x s := mkBoot (b_mach s) (b_intr s) (b_esp s) (b_ebp s) x (InitrdStart s) (InitrdEnd s) (Initrd s).
Definition set_initrd x y z s := mkBoot (b_mach s) (b_intr s) (b_esp s) (b_ebp s) (mem_max s) x y z.

#[export] Program Instance boot_has_mach : Has boot mach := {| proj := b_mach; embed := set_b_mach |}.
Next Obligation. done. Qed.
Next Obligation. done. Qed.
Next Obligation. by intros []. Qed.
#[export] Program Instance boot_has_intr : Has boot intrst := {| proj := b_intr; embed := set_b_intr |}.
Next Obligation. done. Qed.
Next Obligation. done. Qed.
Next Obligation. by intros []. Qed.
(** The frame allocator of the machine. *)
Definition b_frames (s : boot) : frames := vm_frames (m_vm (b_mach s)).
Definition set_b_frames (f : frames) (s : boot) : boot := set_b_mach (with_vm (with_frames f (m_vm (b_mach s))) (b_mach s)) s.
#[export] Program Instance boot_has_frames : Has boot frames := {| proj := b_frames; embed := set_b_frames |}.
Next Obligation. done. Qed.
Next Obligation. done. Qed.
Next Obligation. by intros [[? []] ? ? ? ? ? ? ?]. Qed.

Definition onMach {A} (m : M mach A) : M boot A := zoom (H := boot_has_mach) m.
Definition onIntr {A} (m : M intrst A) : M boot A := zoom (H := boot_has_intr) m.
Definition onFrames {A} (m : M frames A) : M boot A := zoom (H := boot_has_frames) m.

(** ** arch/x86/mem/mmu.c *)

Definition PAGE_STACK_END_ENTRY : Z := PAGE_ENTRY 0 PAGE_STACK_END.

Section PgInit.
(** The arrays [KernelPageDir], [TmpPageTbl] and [KernelStackTbl], and the symbols
    of the stack. *)
Context (KernelPageDir_ TmpPageTbl_ KernelStackTbl_ stack_top stack_bottom : Z).

Definition rebase_sp (x : Z) : Z := KSTACK +u (x -u KBSSTOPHYS stack_bottom).

(** A store into one of the static arrays. *)
Definition array_set (arr i x : Z) : M boot unit :=
  onMach (liftV (modify (λ v, with_phys (<[KBSSTOPHYS arr + 4 * i := x]> (phys v)) v))).

(** The flush of the translation buffer is not modelled. *)
Definition pg_init : M boot unit :=
  onIntr (idt_set_handler INT_PAGE_FAULT h_pg_fault_handler) ;;
  array_set KernelPageDir_ (ADDR_PDE KTMPMEM) (PAGE_ENTRY (KBSSTOPHYS TmpPageTbl_) (Z.lor KERNEL_FLAGS PAGE_LINK)) ;;
  onMach (liftT (upd_task KernelTask_ptr (λ t, set_arch (mkArch (esp (arch t)) (ebp (arch t)) (KBSSTOPHYS KernelPageDir_)) t))) ;;
  array_set KernelStackTbl_ 1022 (PAGE_ENTRY 0 PAGE_STACK_END) ;;
  array_set KernelStackTbl_ 1023 (PAGE_ENTRY (KBSSTOPHYS stack_top) BASE_FLAGS) ;;
  array_set KernelPageDir_ (ADDR_PDE (KSTACK - 1)) (PAGE_ENTRY (KBSSTOPHYS KernelStackTbl_) BASE_FLAGS) ;;
  s ← getS;
  let sp := rebase_sp (b_esp s) in
  let bp := rebase_sp (b_ebp s) in
  modify (set_b_sp sp bp) ;;
  onMach (liftV (modify (with_ready true))).
End PgInit.

(** ** arch/x86/boot/multibootimpl.c *)

Definition MULTIBOOT2_BOOTLOADER_MAGIC : Z := 0x36d76289.
Definition MULTIBOOT_TAG_TYPE_END : Z := 0.
Definition MULTIBOOT_TAG_TYPE_MODULE : Z := 3.
Definition MULTIBOOT_TAG_TYPE_BASIC_MEMINFO : Z := 4.
Definition MULTIBOOT_TAG_TYPE_MMAP : Z := 6.
Definition MULTIBOOT_MEMORY_AVAILABLE : Z := 1.

Definition multiboot_validate {T} (magic : Z) : M T bool :=
  if negb (magic =? MULTIBOOT2_BOOTLOADER_MAGIC) then panic "bad multiboot magic"
  else mret true.

(** A word of the boot information. *)
Definition mb32 {T} (d : list Z) (p : Z) : M T Z :=
  if (0 <=? p) && (p + 4 <=? Z.of_nat (length d)) then mret (w32 d p) else crash OutOfBounds.

Definition vmmap (start end_ : Z) : M boot unit :=
  onMach (on_vm (λ ct, pg_map_sequence ct (KBSSTOPHYS start) start (end_ -u start +u PAGE_SIZE))) ;;
  onMach (c ← liftT (gets CurrentTask); task_brk c end_) ;;
  onMach sync_curbrk.

(** [(tag->size + 7) & ~7] *)
Definition tag_align (size : Z) : Z := Z.land (size +u 7) (u32 (Z.lnot 7)).

Section Multiboot.
(** [__real_malloc], which the early allocator does not call. *)
Context (real_malloc : Z → M mach Z).

(** [frame_alloc_init] with its call of [malloc]: one word for 32 frames. *)
Definition boot_alloc_init (mem_max : Z) : M boot unit :=
  onMach (__wrap_malloc real_malloc (BIT_IDX (ADDR_PAGE mem_max) *u 4)) ;;
  onFrames (frame_alloc_init mem_max).

(** The loop over the tags for the memory size, from offset [tag] on. *)
Definition scan_meminfo (d : list Z) (tag : Z) : M boot unit :=
  while (Pos.of_succ_nat (length d))
    (λ tag,
       ty ← mb32 d tag;
       if ty =? MULTIBOOT_TAG_TYPE_END then mret (inr tt)
       else if negb (ty =? MULTIBOOT_TAG_TYPE_BASIC_MEMINFO) then
         size ← mb32 d (tag + 4);
         mret (inl (tag + tag_align size))
       else
         mem_upper ← mb32 d (tag + 12);
         modify (set_mem_max ((mem_upper +u 1024) *u 1024)) ;;
         s ← getS;
         boot_alloc_init (mem_max s) ;;
         mret (inr tt)) tag.

(** The loop over the entries of a memory map, [addr] and [len] cut to 32 bits. *)
Definition mmap_entries (d : list Z) (tag : Z) : M boot unit :=
  size ← mb32 d (tag + 4);
  while 4294967297
    (λ st : Z * Z,
       let (i, entry) := st in
       if i <? s32 size then
         ty ← mb32 d (entry + 16);
         (if ty =? MULTIBOOT_MEMORY_AVAILABLE then
            addr ← mb32 d entry;
            len ← mb32 d (entry + 8);
            onFrames (frame_clear_range addr (addr +u len))
          else mret tt) ;;
         es ← mb32 d (tag + 8);
         mret (inl (s32 (i + es), entry + es))
       else mret (inr tt)) (0, tag + 16).

Definition module_tag (d : list Z) (tag : Z) : M boot unit :=
  start ← mb32 d (tag + 8);
  end_ ← mb32 d (tag + 12);
  modify (λ s, set_initrd start end_ (Initrd s) s) ;;
  s ← getS;
  onFrames (frame_set_range (InitrdStart s) (InitrdEnd s)) ;;
  modify (set_initrd start end_ (PHYSTOKBSS start)).

Definition scan_tags (d : list Z) (tag : Z) : M boot unit :=
  while (Pos.of_succ_nat (length d))
    (λ tag,
       ty ← mb32 d tag;
       if ty =? MULTIBOOT_TAG_TYPE_END then mret (inr tt)
       else
         (if ty =? MULTIBOOT_TAG_TYPE_MMAP then mmap_entries d tag else mret tt) ;;
         (if ty =? MULTIBOOT_TAG_TYPE_MODULE then module_tag d tag else mret tt) ;;
         size ← mb32 d (tag + 4);
         mret (inl (tag + tag_align size))) tag.

Definition multiboot_mmap (d : list Z) (mb_info_phys : Z) : M boot unit :=
  let mb_info := PHYSTOKBSS mb_info_phys in
  vmmap KTEXT (mb_info +u 4) ;;
  mb_size ← mb32 d 0;
  vmmap KTEXT (mb_info +u mb_size) ;;
  scan_meminfo d 8 ;;
  scan_tags d 8.
End Multiboot.

(** ** arch/x86/boot/init.c *)

Section ArchInit.
Context (real_malloc : Z → M mach Z) (port_in : list (Z * Z) → Z → Z) (isr_roots : list Z) (kernel_cs idt_addr gdt_addr : Z)
  (KernelPageDir_ TmpPageTbl_ KernelStackTbl_ stack_top stack_bottom : Z).

Definition arch_init (d : list Z) (mb_info : Z) : M boot unit :=
  onIntr (gdt_init gdt_addr) ;;
  onIntr (idt_init port_in isr_roots kernel_cs idt_addr) ;;
  pg_init KernelPageDir_ TmpPageTbl_ KernelStackTbl_ stack_top stack_bottom ;;
  onIntr pit_init ;;
  multiboot_mmap real_malloc d mb_info ;;
  t ← onMach (liftT current);
  onFrames (frame_set_range 0 (KBSSTOPHYS (brk t))) ;;
  onMach (on_vm (λ ct, pg_unmap_low_kernel ct)).
End ArchInit.

(** ** kernel/module.c *)

(** The functions between the linker's symbols, in order of their sections. *)
Definition run_modules {T} (fns : list (M T bool)) : M T bool :=
  (fix go (l : list (M T bool)) (success : bool) : M T bool :=
     match l with
     | [] => mret success
     | fn :: l => r ← fn; go l (if negb r then false else success)
     end) fns true.
Definition modules_init {T} (modinit : list (M T bool)) : M T bool := run_modules modinit.
Definition modules_exit {T} (modexit : list (M T bool)) : M T bool := run_modules modexit.

(** ** Specification: the tags *)

(** The tags from an offset to the end tag, by their offsets. *)
Inductive tags_at (d : list Z) : Z → list Z → Prop :=
| tags_end off : 0 ≤ off → off + 4 ≤ Z.of_nat (length d) → w32 d off = MULTIBOOT_TAG_TYPE_END → tags_at d off []
| tags_next off l : 0 ≤ off → off + 8 ≤ Z.of_nat (length d) → w32 d off ≠ MULTIBOOT_TAG_TYPE_END → 0 < tag_align (w32 d (off + 4)) →
    tags_at d (off + tag_align (w32 d (off + 4))) l → tags_at d off (off :: l).

Lemma mb32_ok {T} d p (s : T) : 0 ≤ p → p + 4 ≤ Z.of_nat (length d) → mb32 d p s = Ret (w32 d p, s).
Proof. intros H1 H2. unfold mb32. by rewrite (proj2 (Z.leb_le 0 p)), (proj2 (Z.leb_le (p + 4) _)). Qed.

(** One tag of the second loop. *)
Definition tag_step (d : list Z) (tag : Z) : M boot unit :=
  (if w32 d tag =? MULTIBOOT_TAG_TYPE_MMAP then mmap_entries d tag else mret tt) ;;
  (if w32 d tag =? MULTIBOOT_TAG_TYPE_MODULE then module_tag d tag else mret tt).

Lemma tags_at_length d off l : tags_at d off l → Z.of_nat (length l) + off + 4 ≤ Z.of_nat (length d).
Proof. induction 1; cbn [length]; lia. Qed.

Lemma scan_tags_steps d off l s : tags_at d off l → scan_tags d off s = forM l (tag_step d) s.
Proof.
  intros Ht. pose proof (tags_at_length d off l Ht) as Hlen. unfold scan_tags, while.
  set (body := λ tag : Z, _).
  assert (Hrun : ∀ n s, (length l < n)%nat → run_nat n body off s = (forM l (tag_step d) ;; mret (inr tt)) s).
  { clear Hlen. induction Ht as [off H0 Hl Hz|off l H0 Hl Hz Hs Ht IH]; intros n s1 Hn; (destruct n as [|n]; [cbn in Hn; lia|]); cbn [run_nat].
    - rewrite (bind_ret _ _ s1 (inr tt) s1); [done|]. unfold body. cbv beta. rewrite (bind_ret _ _ _ _ _ (mb32_ok d off s1 ltac:(lia) ltac:(lia))).
      by rewrite (proj2 (Z.eqb_eq _ _) Hz).
    - assert (Eb : ∀ s2, body off s2 = (tag_step d off ;; mret (inl (off + tag_align (w32 d (off + 4))))) s2).
      { intros s2. unfold body. cbv beta. rewrite (bind_ret _ _ _ _ _ (mb32_ok d off s2 ltac:(lia) ltac:(lia))).
        rewrite (proj2 (Z.eqb_neq _ _) Hz). unfold tag_step. rewrite bind_assoc. apply bind_ext; [done|]. intros [] s3.
        apply bind_ext; [done|]. intros [] s4. by rewrite (bind_ret _ _ _ _ _ (mb32_ok d (off + 4) s4 ltac:(lia) ltac:(lia))). }
      etransitivity; [apply bind_ext; [apply Eb|intros r s2; reflexivity]|]. cbn [forM]. rewrite !bind_assoc. apply bind_ext; [done|].
      intros [] s2. apply IH. cbn in Hn. lia. }
  erewrite (bind_ext _ (run_nat (Pos.to_nat (Pos.of_succ_nat (length d))) body off)); [|apply run_pos_nat|intros a s1; reflexivity].
  rewrite SuccNat2Pos.id_succ. unfold mbind, M_bind, mbind_M. rewrite Hrun by (destruct Ht; cbn in *; lia).
  unfold mbind, M_bind, mbind_M. by destruct (forM l (tag_step d) s) as [[[] ?]| | |].
Qed.

(** What the tags do to the frames, in order: a range is reserved or released. *)
Definition effect : Type := bool * Z * Z.
Definition upd_used (b : Z) (u : bool) (e : effect) : bool :=
  let '(reserve, a, z) := e in if (reserve : bool) then in_range a z b || u else negb (in_range a z b) && u.
Definition upd_initrd (i : Z) (e : effect) : Z := let '(reserve, a, z) := e in if (reserve : bool) then PHYSTOKBSS a else i.

Definition entry_effects (d : list Z) (p : Z) : list effect :=
  if w32 d (p + 16) =? MULTIBOOT_MEMORY_AVAILABLE then [(false, w32 d p, w32 d p +u w32 d (p + 8))] else [].
(** The entries the loop visits: it counts the header of the tag as if it were part
    of them. *)
Definition entry_count (size es : Z) : Z := (size + es - 1) / es.
Definition mmap_effects (d : list Z) (tag n : Z) : list effect :=
  mjoin ((λ j, entry_effects d (tag + 16 + w32 d (tag + 8) * j)) <$> seqZ 0 n).
Definition tag_effects (d : list Z) (tag : Z) : list effect :=
  (if w32 d tag =? MULTIBOOT_TAG_TYPE_MMAP then mmap_effects d tag (entry_count (w32 d (tag + 4)) (w32 d (tag + 8))) else []) ++
  (if w32 d tag =? MULTIBOOT_TAG_TYPE_MODULE then [(true, w32 d (tag + 8), w32 d (tag + 12))] else []).

(** A range the allocator can work on, and a tag inside the information. *)
Definition good_effect (f : frames) (e : effect) : Prop :=
  let '(_, a, z) := e in is_u32 a ∧ a mod PAGE_SIZE = 0 ∧ 0 ≤ z ≤ 2 ^ 32 - 2 * PAGE_SIZE ∧ frame_in f (z + PAGE_SIZE).
Record good_tag (d : list Z) (f : frames) (tag : Z) : Prop := {
  gt_in : 0 ≤ tag ∧ tag + 16 ≤ Z.of_nat (length d);
  gt_mmap : w32 d tag = MULTIBOOT_TAG_TYPE_MMAP → let size := w32 d (tag + 4) in let es := w32 d (tag + 8) in
    0 < es ∧ 0 ≤ size ∧ size + es < 2 ^ 31 ∧ tag + 16 + es * entry_count size es + 24 ≤ Z.of_nat (length d) + es;
  gt_effects : Forall (good_effect f) (tag_effects d tag)
}.

Record applied (s : boot) (l : list effect) (s' : boot) : Prop := {
  ap_ok : frames_ok (b_frames s');
  ap_in b : frame_in (b_frames s') b ↔ frame_in (b_frames s) b;
  ap_used b : 0 ≤ b → frame_used (b_frames s') b = fold_left (upd_used b) l (frame_used (b_frames s) b);
  ap_initrd : Initrd s' = fold_left upd_initrd l (Initrd s);
  ap_same : ∃ f a z i, s' = set_initrd a z i (set_b_frames f s)
}.

Lemma applied_nil s : frames_ok (b_frames s) → applied s [] s.
Proof. split; try done. exists (b_frames s), (InitrdStart s), (InitrdEnd s), (Initrd s). by destruct s as [[? []]]. Qed.
Lemma applied_app s l l' s1 s2 : applied s l s1 → applied s1 l' s2 → applied s (l ++ l') s2.
Proof.
  intros [A1 A2 A3 A4 (f1 & a1 & z1 & i1 & A5)] [B1 B2 B3 B4 (f2 & a2 & z2 & i2 & B5)]. split; [done|intros b; by rewrite B2| | |].
  - intros b Hb. by rewrite B3, A3, fold_left_app.
  - by rewrite B4, A4, fold_left_app.
  - exists f2, a2, z2, i2. by subst.
Qed.
Lemma good_effect_applied s l s' e : applied s l s' → good_effect (b_frames s) e → good_effect (b_frames s') e.
Proof. intros [_ H _ _ _]. destruct e as [[k a] z]. cbn. rewrite H. done. Qed.

Lemma clear_ok s a z : frames_ok (b_frames s) → good_effect (b_frames s) (false, a, z) →
  ∃ s', onFrames (frame_clear_range a z) s = Ret (tt, s') ∧ applied s [(false, a, z)] s'.
Proof.
  intros Hok (H1 & H2 & H3 & H4). destruct (frame_clear_range_spec (b_frames s) a z Hok H1 H2 H3 H4) as (f & E & Hf & Hin & Hu).
  exists (set_b_frames f s). split; [exact (zoom_ret (H := boot_has_frames) _ s tt f E)|]. split; try done.
  exists f, (InitrdStart s), (InitrdEnd s), (Initrd s). by destruct s.
Qed.
Lemma reserve_ok s a z : frames_ok (b_frames s) → good_effect (b_frames s) (true, a, z) →
  ∃ f, onFrames (frame_set_range a z) s = Ret (tt, set_b_frames f s) ∧ frames_ok f ∧ (∀ b, frame_in f b ↔ frame_in (b_frames s) b) ∧
    ∀ b, 0 ≤ b → frame_used f b = in_range a z b || frame_used (b_frames s) b.
Proof.
  intros Hok (H1 & H2 & H3 & H4). destruct (frame_set_range_spec (b_frames s) a z Hok H1 H2 H3 H4) as (f & E & Hf & Hin & Hu).
  exists f. split; [exact (zoom_ret (H := boot_has_frames) _ s tt f E)|]. done.
Qed.

Lemma module_tag_ok d s tag : frames_ok (b_frames s) → 0 ≤ tag → tag + 16 ≤ Z.of_nat (length d) →
  good_effect (b_frames s) (true, w32 d (tag + 8), w32 d (tag + 12)) →
  ∃ s', module_tag d tag s = Ret (tt, s') ∧ applied s [(true, w32 d (tag + 8), w32 d (tag + 12))] s'.
Proof.
  intros Hok H0 Hl Hg. unfold module_tag. rewrite (bind_ret _ _ _ _ _ (mb32_ok d (tag + 8) s ltac:(lia) ltac:(lia))).
  rewrite (bind_ret _ _ _ _ _ (mb32_ok d (tag + 12) s ltac:(lia) ltac:(lia))).
  set (s1 := set_initrd (w32 d (tag + 8)) (w32 d (tag + 12)) (Initrd s) s). rewrite (bind_ret _ _ s tt s1) by done.
  rewrite (bind_ret _ _ s1 s1 s1) by done.
  destruct (reserve_ok s1 (w32 d (tag + 8)) (w32 d (tag + 12)) Hok Hg) as (f & E & Hf & Hin & Hu).
  change (InitrdStart s1) with (w32 d (tag + 8)). change (InitrdEnd s1) with (w32 d (tag + 12)).
  rewrite (bind_ret _ _ _ _ _ E). eexists. split; [done|]. split; try done. by eexists f, _, _, _.
Qed.

Lemma mmap_effects_step d tag n : 0 ≤ n → mmap_effects d tag (n + 1) = mmap_effects d tag n ++ entry_effects d (tag + 16 + w32 d (tag + 8) * n).
Proof.
  intros Hn. unfold mmap_effects. rewrite seqZ_app by lia. change (seqZ (0 + n) 1) with [0 + n].
  rewrite fmap_app, join_app. cbn [fmap list_fmap mjoin list_join]. by rewrite app_nil_r.
Qed.

Lemma entry_count_spec size es i : 0 < es → 0 ≤ size → 0 ≤ i → (es * i <? size) = (i <? entry_count size es).
Proof.
  intros He Hs Hi. unfold entry_count. apply eq_true_iff_eq. rewrite !Z.ltb_lt. split; intros H.
  - apply Z.lt_le_trans with (i + 1); [lia|]. apply Z.div_le_lower_bound; nia.
  - assert ((size + es - 1) / es * es ≤ size + es - 1) by (rewrite Z.mul_comm; by apply Z.mul_div_le). nia.
Qed.

Lemma entry_effects_ok d s p : frames_ok (b_frames s) → 0 ≤ p → p + 24 ≤ Z.of_nat (length d) →
  Forall (good_effect (b_frames s)) (entry_effects d p) →
  ∃ s', (if w32 d (p + 16) =? MULTIBOOT_MEMORY_AVAILABLE then
            addr ← mb32 d p; len ← mb32 d (p + 8); onFrames (frame_clear_range addr (addr +u len))
          else mret tt) s = Ret (tt, s') ∧ applied s (entry_effects d p) s'.
Proof.
  intros Hok H0 Hl Hg. unfold entry_effects in *. destruct (w32 d (p + 16) =? MULTIBOOT_MEMORY_AVAILABLE).
  - apply (proj1 (Forall_singleton _ _)) in Hg. rewrite (bind_ret _ _ _ _ _ (mb32_ok d p s ltac:(lia) ltac:(lia))).
    rewrite (bind_ret _ _ _ _ _ (mb32_ok d (p + 8) s ltac:(lia) ltac:(lia))). by apply clear_ok.
  - exists s. split; [done|]. by apply applied_nil.
Qed.

Lemma mmap_entries_ok d s tag : frames_ok (b_frames s) → good_tag d (b_frames s) tag → w32 d tag = MULTIBOOT_TAG_TYPE_MMAP →
  let l := mmap_effects d tag (entry_count (w32 d (tag + 4)) (w32 d (tag + 8))) in
  ∃ s', mmap_entries d tag s = Ret (tt, s') ∧ applied s l s'.
Proof.
  intros Hok [[H0 Hin] Hm Hg] Hty l. destruct (Hm Hty) as (He & Hs & Hlim & Hlast). set (size := w32 d (tag + 4)) in *. set (es := w32 d (tag + 8)) in *.
  set (n := entry_count size es) in *.
  assert (Hgl : Forall (good_effect (b_frames s)) l).
  { unfold tag_effects in Hg. rewrite (proj2 (Z.eqb_eq _ _) Hty) in Hg. by apply Forall_app in Hg as [Hg _]. }
  unfold mmap_entries. rewrite (bind_ret _ _ _ _ _ (mb32_ok d (tag + 4) s ltac:(lia) ltac:(lia))). fold size.
  assert (Hn0 : 0 ≤ n) by (apply Z.div_pos; lia).
  destruct (while_total (λ (st : Z * Z) s', ∃ i, 0 ≤ i ≤ n ∧ st = (es * i, tag + 16 + es * i) ∧ applied s (mmap_effects d tag i) s')
    (λ st _, Z.max 0 (size + es - st.1)) (λ (_ : unit) s', applied s l s')
    (λ st : Z * Z,
       let (i, entry) := st in
       if i <? s32 size then
         ty ← mb32 d (entry + 16);
         (if ty =? MULTIBOOT_MEMORY_AVAILABLE then
            addr ← mb32 d entry;
            len ← mb32 d (entry + 8);
            onFrames (frame_clear_range addr (addr +u len))
          else mret tt) ;;
         es ← mb32 d (tag + 8);
         mret (inl (s32 (i + es), entry + es))
       else mret (inr tt)) 4294967297 (0, tag + 16) s) as ([] & s' & E & H); [| | |by exists s'].
  - intros st s1 (i & Hi & -> & Hap). rewrite (s32_small size) by lia. rewrite entry_count_spec by lia. fold n.
    destruct (Z.ltb_spec i n) as [Hlt|Hge].
    + left. assert (Hsz : es * i < size) by (apply Z.ltb_lt; rewrite entry_count_spec by lia; fold n; by apply Z.ltb_lt).
      assert (Hp : tag + 16 + es * i + 24 ≤ Z.of_nat (length d)) by nia.
      rewrite (bind_ret _ _ _ _ _ (mb32_ok d (tag + 16 + es * i + 16) s1 ltac:(nia) ltac:(lia))).
      destruct (entry_effects_ok d s1 (tag + 16 + es * i)) as (s2 & E2 & Hap2); [apply Hap|nia|done| |].
      { eapply Forall_impl; [|intros e He'; by apply (good_effect_applied _ _ _ _ Hap)].
        assert (Hsub : l = mmap_effects d tag (i + 1) ++ mjoin ((λ j, entry_effects d (tag + 16 + es * j)) <$> seqZ (i + 1) (n - (i + 1)))).
        { unfold l, mmap_effects. fold size es n. replace (seqZ 0 n) with (seqZ 0 (i + 1) ++ seqZ (i + 1) (n - (i + 1))); [by rewrite fmap_app, join_app|].
          replace (seqZ 0 n) with (seqZ 0 ((i + 1) + (n - (i + 1)))) by (f_equal; lia). rewrite (seqZ_app 0 (i + 1) (n - (i + 1))) by lia. by replace (0 + (i + 1)) with (i + 1) by lia. }
        rewrite Hsub in Hgl. apply Forall_app in Hgl as [Hgl _]. rewrite mmap_effects_step in Hgl by lia. by apply Forall_app in Hgl as [_ Hgl]. }
      rewrite (bind_ret _ _ _ _ _ E2). rewrite (bind_ret _ _ _ _ _ (mb32_ok d (tag + 8) s2 ltac:(lia) ltac:(lia))). fold es.
      eexists _, s2. split; [done|]. rewrite (s32_small (es * i + es)) by lia. split; [|cbn [fst]; lia].
      exists (i + 1). split; [lia|]. split; [f_equal; lia|]. rewrite mmap_effects_step by lia. by apply (applied_app _ _ _ s1).
    + right. exists tt, s1. split; [done|]. unfold l. fold size es n. by replace n with i by lia.
  - exists 0. split; [lia|]. split; [f_equal; lia|]. by apply applied_nil.
  - cbn. lia.
Qed.

Lemma good_tag_applied d s l s' tag : applied s l s' → good_tag d (b_frames s) tag → good_tag d (b_frames s') tag.
Proof.
  intros Hap [H1 H2 H3]. split; [done|done|]. eapply Forall_impl; [exact H3|]. intros e. by apply (good_effect_applied _ _ _ _ Hap).
Qed.

Lemma tag_step_ok d s tag : frames_ok (b_frames s) → good_tag d (b_frames s) tag →
  ∃ s', tag_step d tag s = Ret (tt, s') ∧ applied s (tag_effects d tag) s'.
Proof.
  intros Hok Hg. unfold tag_step, tag_effects.
  assert (H1 : ∃ s1, (if w32 d tag =? MULTIBOOT_TAG_TYPE_MMAP then mmap_entries d tag else mret tt) s = Ret (tt, s1) ∧
    applied s (if w32 d tag =? MULTIBOOT_TAG_TYPE_MMAP then mmap_effects d tag (entry_count (w32 d (tag + 4)) (w32 d (tag + 8))) else []) s1).
  { destruct (Z.eqb_spec (w32 d tag) MULTIBOOT_TAG_TYPE_MMAP) as [Hty|]; [by apply mmap_entries_ok|]. exists s. split; [done|]. by apply applied_nil. }
  destruct H1 as (s1 & E1 & Hap1). rewrite (bind_ret _ _ _ _ _ E1).
  destruct (Z.eqb_spec (w32 d tag) MULTIBOOT_TAG_TYPE_MODULE) as [Hty|].
  - pose proof (gt_in _ _ _ Hg) as [H0 Hin].
    destruct (module_tag_ok d s1 tag) as (s2 & E2 & Hap2); [apply Hap1|lia|lia| |].
    { apply (good_effect_applied _ _ _ _ Hap1). pose proof (gt_effects _ _ _ Hg) as Hge. unfold tag_effects in Hge.
      rewrite (proj2 (Z.eqb_eq _ _) Hty) in Hge. apply Forall_app in Hge as [_ Hge]. by apply (proj1 (Forall_singleton _ _)) in Hge. }
    exists s2. split; [done|]. by apply (applied_app _ _ _ s1).
  - exists s1. split; [done|]. by rewrite app_nil_r.
Qed.

Lemma scan_tags_ok d s l :
  tags_at d 8 l → frames_ok (b_frames s) → Forall (good_tag d (b_frames s)) l →
  ∃ s', scan_tags d 8 s = Ret (tt, s') ∧ applied s (mjoin (tag_effects d <$> l)) s'.
Proof.
  intros Ht Hok Hg. rewrite (scan_tags_steps d 8 l s Ht).
  apply (forM_total (tag_step d) (λ l1 s', applied s (mjoin (tag_effects d <$> l1)) s') l s).
  - intros l1 tag l2 s1 -> Hap. apply Forall_app in Hg as [_ Hg]. apply Forall_cons in Hg as [Hg _].
    destruct (tag_step_ok d s1 tag (ap_ok _ _ _ Hap) (good_tag_applied _ _ _ _ _ Hap Hg)) as (s2 & E & Hap2).
    exists s2. split; [done|]. rewrite fmap_app, join_app. cbn [fmap list_fmap mjoin list_join]. rewrite app_nil_r. by apply (applied_app _ _ _ s1).
  - by apply applied_nil.
Qed.

(** ** Properties *)

(** C32: the memory map.  For boot information that is a list of tags, the second
    loop visits every tag once; afterwards a frame is marked exactly as the ranges
    of the tags say, taken in their order: an available range releases its frames, a
    module reserves its own, the last one deciding; and the initrd is the last
    module. *)
Theorem multiboot_tags_frames d s l :
  tags_at d 8 l → frames_ok (b_frames s) → Forall (good_tag d (b_frames s)) l →
  ∃ s', scan_tags d 8 s = Ret (tt, s') ∧ frames_ok (b_frames s') ∧
    (∀ b, 0 ≤ b → frame_used (b_frames s') b = fold_left (upd_used b) (mjoin (tag_effects d <$> l)) (frame_used (b_frames s) b)) ∧
    Initrd s' = fold_left upd_initrd (mjoin (tag_effects d <$> l)) (Initrd s).
Proof. intros Ht Hok Hg. destruct (scan_tags_ok d s l Ht Hok Hg) as (s' & E & [H1 _ H2 H3 _]). by exists s'. Qed.

(** A memory map with one available range, then a module, and the other way round. *)
Definition demo_map : list Z := le32 6 ++ le32 40 ++ le32 24 ++ le32 0 ++ le32 0x1000 ++ le32 0 ++ le32 0x1000 ++ le32 0 ++ le32 1 ++ le32 0.
Definition demo_mod : list Z := le32 3 ++ le32 16 ++ le32 0x2000 ++ le32 0x3000.
Definition demo_info : list Z := le32 72 ++ le32 0 ++ demo_map ++ demo_mod ++ le32 0 ++ le32 8.
Definition demo_info' : list Z := le32 88 ++ le32 0 ++ demo_mod ++ demo_map ++ le32 0 ++ le32 8 ++ replicate 16 0.
Definition demo_boot : boot := mkBoot demo_mach (mkIntr [] [] None [] None [] []) 0 0 0 0 0 0.

Fixpoint tagsb (d : list Z) (off : Z) (l : list Z) : bool :=
  match l with
  | [] => (0 <=? off) && (off + 4 <=? Z.of_nat (length d)) && (w32 d off =? 0)
  | x :: l => (x =? off) && (0 <=? off) && (off + 8 <=? Z.of_nat (length d)) && negb (w32 d off =? 0) &&
      (0 <? tag_align (w32 d (off + 4))) && tagsb d (off + tag_align (w32 d (off + 4))) l
  end.
Lemma tagsb_ok d off l : tagsb d off l = true → tags_at d off l.
Proof.
  revert off. induction l as [|x l IH]; intros off; cbn [tagsb]; rewrite !andb_true_iff, ?negb_true_iff.
  - intros [[?%Z.leb_le ?%Z.leb_le] ?%Z.eqb_eq]. by apply tags_end.
  - intros [[[[[->%Z.eqb_eq ?%Z.leb_le] ?%Z.leb_le] ?%Z.eqb_neq] ?%Z.ltb_lt] ?%IH]. by apply tags_next.
Qed.

Lemma demo_good d f tag : bool_decide (0 ≤ tag ∧ tag + 16 ≤ Z.of_nat (length d)) = true →
  bool_decide (w32 d tag ≠ MULTIBOOT_TAG_TYPE_MMAP ∨ (0 < w32 d (tag + 8) ∧ 0 ≤ w32 d (tag + 4) ∧ w32 d (tag + 4) + w32 d (tag + 8) < 2 ^ 31 ∧
    tag + 16 + w32 d (tag + 8) * entry_count (w32 d (tag + 4)) (w32 d (tag + 8)) + 24 ≤ Z.of_nat (length d) + w32 d (tag + 8))) = true →
  forallb (λ e : effect, let '(_, a, z) := e in bool_decide (is_u32 a ∧ a mod PAGE_SIZE = 0 ∧ 0 ≤ z ≤ 2 ^ 32 - 2 * PAGE_SIZE ∧
    0 ≤ z + PAGE_SIZE ∧ BIT_IDX (ADDR_PAGE (z + PAGE_SIZE)) < Z.of_nat (length (FrameBitmap f)))) (tag_effects d tag) = true →
  good_tag d f tag.
Proof.
  intros H1%bool_decide_eq_true H2%bool_decide_eq_true H3. split; [done|by destruct H2|].
  rewrite forallb_forall in H3. apply Forall_forall. intros [[k a] z] Hin%list_elem_of_In. specialize (H3 _ Hin). cbn in H3.
  by apply bool_decide_eq_true in H3.
Qed.

Lemma multiboot_tags_frames_witness :
  ∃ s', scan_tags demo_info 8 demo_boot = Ret (tt, s') ∧ frame_used (b_frames s') 0x1000 = false ∧
    frame_used (b_frames s') 0x2000 = true ∧ Initrd s' = 0xC0002000.
Proof.
  destruct (multiboot_tags_frames demo_info demo_boot [8; 48]) as (s' & E & _ & Hu & Hi).
  - by apply tagsb_ok.
  - by apply frames_okb_ok.
  - apply Forall_cons; split; [by apply demo_good|]. apply Forall_singleton. by apply demo_good.
  - exists s'. split; [exact E|]. clear E. rewrite !Hu, Hi by lia. by vm_compute.
Defined.

(** With the module's tag before the map, the map releases the frames of the initrd. *)
Theorem initrd_released_by_later_map :
  ∃ s', scan_tags demo_info' 8 demo_boot = Ret (tt, s') ∧ Initrd s' = 0xC0002000 ∧ frame_used (b_frames s') 0x2000 = false.
Proof.
  destruct (scan_tags_ok demo_info' demo_boot [8; 24]) as (s' & E & [_ _ Hu Hi _]).
  - by apply tagsb_ok.
  - by apply frames_okb_ok.
  - apply Forall_cons; split; [by apply demo_good|]. apply Forall_singleton. by apply demo_good.
  - exists s'. split; [exact E|]. clear E. rewrite Hu, Hi by lia. by vm_compute.
Qed.

(** A map of [n] entries makes the loop look at [n + 1]. *)
Theorem mmap_reads_one_entry_more n : 0 ≤ n → entry_count (16 + 24 * n) 24 = n + 1.
Proof. intros Hn. unfold entry_count. zlia. Qed.

(** What the static arrays hold before [pg_init]: the low 4m twice in the directory. *)
Record boot_dir (m : gmap Z Z) (kd ks : Z) : Prop := {
  bd_kd : 0 ≤ kd ∧ kd + PAGE_SIZE ≤ 2 ^ 22 ∧ kd mod PAGE_SIZE = 0;
  bd_ks : 0 ≤ ks ∧ ks + PAGE_SIZE ≤ 2 ^ 22 ∧ ks mod PAGE_SIZE = 0 ∧ ks ≠ kd;
  bd_dir k : 0 ≤ k < 1024 → rd m (kd + 4 * k) = if (k =? 0) || (k =? 768) then KERNEL_LOW_4M else 0;
  bd_stk k : 0 ≤ k < 1024 → rd m (ks + 4 * k) = 0
}.

(** The memory [pg_init] leaves. *)
Definition init_phys (kd ks st tmp : Z) (m : gmap Z Z) : gmap Z Z :=
  <[kd + 4 * 767 := PAGE_ENTRY ks BASE_FLAGS]>
  (<[ks + 4 * 1023 := PAGE_ENTRY st BASE_FLAGS]> (<[ks + 4 * 1022 := PAGE_ENTRY 0 PAGE_STACK_END]>
  (<[kd + 4 * 1023 := PAGE_ENTRY tmp (Z.lor KERNEL_FLAGS PAGE_LINK)]> m))).

(** The directory and the table of the stack as [pg_init] means them: the low 4m at
    [KZERO] and, while [low], at 0; the page below [KSTACK]; the window. *)
Definition dir_entry (low : bool) (ks tmp k : Z) : Z :=
  if k =? 768 then KERNEL_LOW_4M else if k =? 767 then PAGE_ENTRY ks BASE_FLAGS
  else if k =? 1023 then PAGE_ENTRY tmp (Z.lor KERNEL_FLAGS PAGE_LINK)
  else if (k =? 0) && low then KERNEL_LOW_4M else 0.
Definition stack_entry (st k : Z) : Z :=
  if k =? 1023 then PAGE_ENTRY st BASE_FLAGS else if k =? 1022 then PAGE_ENTRY 0 PAGE_STACK_END else 0.
Record kernel_dir (low : bool) (m : gmap Z Z) (kd ks st tmp : Z) : Prop := {
  dk_dir k : 0 ≤ k < 1024 → rd m (kd + 4 * k) = dir_entry low ks tmp k;
  dk_stack k : 0 ≤ k < 1024 → rd m (ks + 4 * k) = stack_entry st k
}.

(** A page of the first 4m. *)
Definition low_page (a : Z) : Prop := 0 ≤ a ∧ a + PAGE_SIZE ≤ 2 ^ 22 ∧ a mod PAGE_SIZE = 0.

Lemma init_kernel_dir m kd ks st tmp : boot_dir m kd ks → kernel_dir true (init_phys kd ks st tmp m) kd ks st tmp.
Proof.
  intros [(A1 & A2 & A3) (B1 & B2 & B3 & B4) Hd Hs]. unfold PAGE_SIZE in *. split; intros k Hk; unfold init_phys.
  - unfold dir_entry. destruct (Z.eqb_spec k 767) as [->|]; [by rewrite rd_insert_eq|]. rewrite !(rd_insert_ne _ (kd + 4 * 767)), !(rd_insert_ne _ (ks + _)) by zlia.
    destruct (Z.eqb_spec k 1023) as [->|]; [by rewrite rd_insert_eq|]. rewrite rd_insert_ne by zlia. rewrite Hd by done.
    destruct (Z.eqb_spec k 0), (Z.eqb_spec k 768); done || lia.
  - unfold stack_entry. rewrite (rd_insert_ne _ (kd + _)) by zlia. destruct (Z.eqb_spec k 1023) as [->|]; [by rewrite rd_insert_eq|].
    rewrite rd_insert_ne by zlia. destruct (Z.eqb_spec k 1022) as [->|]; [by rewrite rd_insert_eq|]. rewrite !rd_insert_ne by zlia. by apply Hs.
Qed.

Lemma entry_parts a f : 0 ≤ a → a mod 4096 = 0 → 0 ≤ f < 4096 → PAGE_ENTRY a f / 2 ^ 12 * 2 ^ 12 = a.
Proof. intros Ha Hal Hf. rewrite PAGE_ENTRY_eq by done. zlia. Qed.

Section KernelWalks.
Context (low : bool) (m : gmap Z Z) (kd ks st tmp : Z) (Hm : kernel_dir low m kd ks st tmp).
Hypothesis Hks : low_page ks.
Hypothesis Hst : low_page st.

Lemma walk_zero v : 0 ≤ v < 2 ^ 22 → hw_walk m kd v = if low then Some (v, true, false) else None.
Proof.
  intros Hv. unfold hw_walk. replace (v / 2 ^ 22) with 0 by zlia. rewrite (dk_dir _ _ _ _ _ _ Hm) by done.
  replace (v mod 2 ^ 22) with v by zlia. by destruct low.
Qed.

Lemma walk_kzero x : 0 ≤ x < 2 ^ 22 → hw_walk m kd (KZERO + x) = Some (x, true, false).
Proof.
  intros Hx. unfold hw_walk. replace ((KZERO + x) / 2 ^ 22) with 768 by (unfold KZERO; zlia). rewrite (dk_dir _ _ _ _ _ _ Hm) by done.
  replace ((KZERO + x) mod 2 ^ 22) with x by (unfold KZERO; zlia). done.
Qed.

Lemma walk_stack_page v : KSTACK - PAGE_SIZE ≤ v < KSTACK → hw_walk m kd v = Some (st + (v - (KSTACK - PAGE_SIZE)), true, false).
Proof.
  intros Hv. destruct Hks as (B1 & B2 & B3), Hst as (C1 & C2 & C3). unfold KSTACK, KZERO, PAGE_SIZE in *. unfold hw_walk.
  replace (v / 2 ^ 22) with 767 by zlia. rewrite (dk_dir _ _ _ _ _ _ Hm) by done. change (dir_entry low ks tmp 767) with (PAGE_ENTRY ks BASE_FLAGS). cbv zeta.
  rewrite !entry_bit by (unfold PAGE_SIZE; done || lia). change (Z.testbit BASE_FLAGS 0) with true. change (Z.testbit BASE_FLAGS 7) with false. cbn [negb].
  rewrite entry_parts by (done || lia). replace (v / 2 ^ 12 mod 2 ^ 10) with 1023 by zlia. rewrite (dk_stack _ _ _ _ _ _ Hm) by done.
  change (stack_entry st 1023) with (PAGE_ENTRY st BASE_FLAGS).
  rewrite !entry_bit by (unfold PAGE_SIZE; done || lia). change (Z.testbit BASE_FLAGS 0) with true. cbn [negb].
  rewrite entry_parts by (done || lia). change (Z.testbit BASE_FLAGS 1) with true. change (Z.testbit BASE_FLAGS 2) with false. cbn [andb].
  do 3 f_equal. zlia.
Qed.

Lemma walk_guard v : KSTACK - 2 * PAGE_SIZE ≤ v < KSTACK - PAGE_SIZE → hw_walk m kd v = None.
Proof.
  intros Hv. destruct Hks as (B1 & B2 & B3). unfold KSTACK, KZERO, PAGE_SIZE in *. unfold hw_walk.
  replace (v / 2 ^ 22) with 767 by zlia. rewrite (dk_dir _ _ _ _ _ _ Hm) by done. change (dir_entry low ks tmp 767) with (PAGE_ENTRY ks BASE_FLAGS). cbv zeta.
  rewrite !entry_bit by (unfold PAGE_SIZE; done || lia). change (Z.testbit BASE_FLAGS 0) with true. change (Z.testbit BASE_FLAGS 7) with false. cbn [negb].
  rewrite entry_parts by (done || lia). replace (v / 2 ^ 12 mod 2 ^ 10) with 1022 by zlia. by rewrite (dk_stack _ _ _ _ _ _ Hm).
Qed.
End KernelWalks.

(** The state [pg_init] leaves. *)
Section Inited.
Context (kpd tpt kst stop sbot : Z) (s : boot) (t : task).
Let kd := KBSSTOPHYS kpd.
Let ks := KBSSTOPHYS kst.
Let st := KBSSTOPHYS stop.

Definition inited_task : task := set_arch (mkArch (esp (arch t)) (ebp (arch t)) kd) t.
Definition pg_inited : boot :=
  mkBoot (with_vm (with_ready true (with_phys (init_phys kd ks st (KBSSTOPHYS tpt) (phys (m_vm (b_mach s)))) (m_vm (b_mach s))))
      (with_tst (set_tasks (<[KernelTask_ptr := inited_task]> (tasks (m_tst (b_mach s)))) (m_tst (b_mach s))) (b_mach s)))
    (set_IDTCallbacks (insertZ INT_PAGE_FAULT h_pg_fault_handler (IDTCallbacks (b_intr s))) (b_intr s))
    (rebase_sp sbot (b_esp s)) (rebase_sp sbot (b_ebp s)) (mem_max s) (InitrdStart s) (InitrdEnd s) (Initrd s).

Lemma pg_init_eq : tasks (m_tst (b_mach s)) !! KernelTask_ptr = Some t → length (IDTCallbacks (b_intr s)) = 256%nat →
  pg_init kpd tpt kst stop sbot s = Ret (tt, pg_inited).
Proof.
  intros Ht Hidt. set (cb := insertZ INT_PAGE_FAULT h_pg_fault_handler (IDTCallbacks (b_intr s))).
  unfold pg_init. rewrite (bind_ret _ _ s tt (set_b_intr (set_IDTCallbacks cb (b_intr s)) s)).
  - unfold array_set, onMach, liftV, liftT, upd_task, get_task. unfold zoom. mred. cbn. rewrite Ht. reflexivity.
  - apply (zoom_ret (H := boot_has_intr) _ s tt (set_IDTCallbacks cb (b_intr s))). change (proj s) with (b_intr s). unfold idt_set_handler.
    rewrite (bind_ret _ _ (b_intr s) (b_intr s) (b_intr s)) by done.
    by rewrite (bind_ret _ _ _ _ _ (aset_ok (IDTCallbacks (b_intr s)) (u8 INT_PAGE_FAULT) h_pg_fault_handler (b_intr s) ltac:(by rewrite Hidt))).
Qed.
End Inited.

(** The kernel's address space.  After [pg_init] the first 4m of memory are
    mapped at 0 and at KZERO, the boot stack's page lies directly below KSTACK with a
    page below it that does not translate, the stack pointer leads to the same
    memory as before, and the page fault handler is installed. *)
Theorem pg_init_space kpd tpt kst stop sbot s t :
  let kd := KBSSTOPHYS kpd in let ks := KBSSTOPHYS kst in let st := KBSSTOPHYS stop in
  boot_dir (phys (m_vm (b_mach s))) kd ks → low_page st → KBSSTOPHYS sbot = st + PAGE_SIZE →
  tasks (m_tst (b_mach s)) !! KernelTask_ptr = Some t → length (IDTCallbacks (b_intr s)) = 256%nat → st ≤ b_esp s < st + PAGE_SIZE →
  ∃ s', pg_init kpd tpt kst stop sbot s = Ret (tt, s') ∧
    let v := m_vm (b_mach s') in
    MMUReady v = true ∧ lookupZ (IDTCallbacks (b_intr s')) INT_PAGE_FAULT = Some h_pg_fault_handler ∧
    (∃ t', tasks (m_tst (b_mach s')) !! KernelTask_ptr = Some t' ∧ pgd (arch t') = kd) ∧
    (∀ x, 0 ≤ x < 2 ^ 22 → hw_walk (phys v) kd x = Some (x, true, false) ∧ hw_walk (phys v) kd (KZERO + x) = Some (x, true, false)) ∧
    (∀ x, 0 ≤ x < PAGE_SIZE → hw_walk (phys v) kd (KSTACK - PAGE_SIZE + x) = Some (st + x, true, false) ∧
       hw_walk (phys v) kd (KSTACK - 2 * PAGE_SIZE + x) = None) ∧
    hw_walk (phys v) kd (b_esp s') = Some (b_esp s, true, false).
Proof.
  intros kd ks st Hm Hst Hbot Ht Hidt Hesp. set (m := phys (m_vm (b_mach s))) in *.
  exists (pg_inited kpd tpt kst stop sbot s t). split; [by apply pg_init_eq|]. cbv zeta. split; [done|].
  set (tmp := KBSSTOPHYS tpt). change (phys (m_vm (b_mach (pg_inited kpd tpt kst stop sbot s t)))) with (init_phys kd ks st tmp m).
  assert (Hks : low_page ks) by (destruct (bd_ks _ _ _ Hm) as (? & ? & ? & _); by split).
  pose proof (init_kernel_dir m kd ks st tmp Hm) as Hd.
  split; [|split; [by exists (inited_task kpd t); split; [apply lookup_insert_eq|]|split; [|split]]].
  - apply lookupZ_insert_eq. rewrite Hidt. done.
  - intros x Hx. split; [by apply (walk_zero _ _ _ _ _ _ Hd)|by apply (walk_kzero _ _ _ _ _ _ Hd)].
  - intros x Hx. unfold PAGE_SIZE in *. split.
    + rewrite (walk_stack_page _ _ _ _ _ _ Hd Hks Hst) by (unfold PAGE_SIZE; lia). do 3 f_equal. unfold PAGE_SIZE. lia.
    + apply (walk_guard _ _ _ _ _ _ Hd Hks). unfold PAGE_SIZE. lia.
  - change (b_esp (pg_inited kpd tpt kst stop sbot s t)) with (rebase_sp sbot (b_esp s)).
    assert (Eesp : rebase_sp sbot (b_esp s) = KSTACK - PAGE_SIZE + (b_esp s - st)).
    { unfold rebase_sp. rewrite Hbot. unfold KSTACK, KZERO, PAGE_SIZE, u32 in *. zlia. }
    rewrite Eesp, (walk_stack_page _ _ _ _ _ _ Hd Hks Hst) by (unfold PAGE_SIZE in *; lia). do 3 f_equal. lia.
Qed.

Definition demo_dir : gmap Z Z := <[0x110000 := KERNEL_LOW_4M]> (<[0x110C00 := KERNEL_LOW_4M]> ∅).
Lemma demo_boot_dir : boot_dir demo_dir 0x110000 0x111000.
Proof.
  assert (H : ∀ a, rd demo_dir a = if (a =? 0x110000) || (a =? 0x110C00) then KERNEL_LOW_4M else 0).
  { intros a. unfold demo_dir. destruct (Z.eqb_spec a 0x110000) as [->|]; [by rewrite rd_insert_eq|]. rewrite rd_insert_ne by done.
    destruct (Z.eqb_spec a 0x110C00) as [->|]; [by rewrite rd_insert_eq|]. by rewrite rd_insert_ne. }
  split; [done|done|intros k Hk; rewrite H..].
  - destruct (Z.eqb_spec k 0), (Z.eqb_spec k 768), (Z.eqb_spec (0x110000 + 4 * k) 0x110000), (Z.eqb_spec (0x110000 + 4 * k) 0x110C00); done || lia.
  - destruct (Z.eqb_spec (0x111000 + 4 * k) 0x110000), (Z.eqb_spec (0x111000 + 4 * k) 0x110C00); done || lia.
Qed.
Definition demo_start : boot :=
  mkBoot (with_vm (with_phys demo_dir demo_vm) demo_mach) (mkIntr [] [] None [] None (replicate 256 NoHandler) []) 0x113FF0 0 0 0 0 0.
Lemma pg_init_space_witness :
  ∃ s', pg_init 0xC0110000 0xC0112000 0xC0111000 0xC0113000 0xC0114000 demo_start = Ret (tt, s') ∧
    hw_walk (phys (m_vm (b_mach s'))) 0x110000 (b_esp s') = Some (0x113FF0, true, false).
Proof.
  destruct (pg_init_space 0xC0110000 0xC0112000 0xC0111000 0xC0113000 0xC0114000 demo_start brk_task) as (s' & E & _ & _ & _ & _ & _ & H).
  - exact demo_boot_dir.
  - done.
  - done.
  - reflexivity.
  - reflexivity.
  - done.
  - exists s'. split; [exact E|exact H].
Defined.

(** Modules: every function runs once, in order, whatever the others return; the
    result says whether all of them succeeded. *)
Lemma run_modules_ok {T} (fns : list (M T bool)) (rs : list bool) (states : list T) s :
  length rs = length fns → length states = length fns →
  (∀ i f r s1, fns !! i = Some f → rs !! i = Some r → (s :: states) !! i = Some s1 → ∃ s2, states !! i = Some s2 ∧ f s1 = Ret (r, s2)) →
  run_modules fns s = Ret (forallb id rs, default s (last states)).
Proof.
  unfold run_modules. replace (forallb id rs) with (true && forallb id rs) by done. generalize true as b.
  revert rs states s. induction fns as [|f fns IH]; intros rs states s b Hr Hs Hrun.
  - destruct rs, states; try done. cbn. by rewrite andb_true_r.
  - destruct rs as [|r rs]; [done|]. destruct states as [|s2 states]; [done|].
    destruct (Hrun 0%nat f r s eq_refl eq_refl eq_refl) as (s2' & [= <-] & E). rewrite (bind_ret _ _ _ _ _ E).
    rewrite (IH rs states s2 _ ltac:(by injection Hr) ltac:(by injection Hs)).
    + rewrite last_cons. f_equal. f_equal; [by destruct r, b|]. by destruct (last states).
    + intros i g r' s1 Hg Hr' Hs1. exact (Hrun (S i) g r' s1 Hg Hr' Hs1).
Qed.
