(* ===== verification/ArchInit.v ===== *)
(** * The address space the kernel starts in

    What [arch_init] of [arch/x86/boot/init.c] leaves for [kmain]: the kernel's page
    directory, the frames that are free and the break.

    The kernel maps its image and the boot information with [pg_map_sequence] and
    [task_brk] although the directory has a 4m page for both: the entries are written into
    the table at the entry's address, which is physical page 0, and the processor does not
    read them.  The theorems are for a kernel, its boot information and its bitmap of
    frames within the first 4m. *)
From Stdlib Require Import ZArith Lia.
From stdpp Require Import base gmap list list_numbers strings.
From S2P Require Import Prelude Layout FrameAlloc Mmu MmuClone ListHead TaskState Task Machine Brk Intr Elf Boot.
Open Scope Z_scope.
Open Scope u32_scope.

Definition FOUR_M : Z := 2 ^ 22.

(** ** Pages under the 4m page *)

(** The directory at [kd] maps the first 4m at [KZERO], and the window is free. *)
Record low_vm (kd : Z) (v : vm) : Prop := {
  lv_win : win_ok 2 v;
  lv_ready : MMUReady v = true;
  lv_kd : is_u32 kd ∧ kd mod PAGE_SIZE = 0 ∧ PAGE_SIZE ≤ kd;
  lv_pde : rd (phys v) (kd + 4 * 768) = KERNEL_LOW_4M
}.

(** Memory from page 1 on is as it was. *)
Definition page0_changed (m m' : gmap Z Z) : Prop := ∀ b, PAGE_SIZE ≤ b → rd m' b = rd m b.
Lemma page0_trans m1 m2 m3 : page0_changed m1 m2 → page0_changed m2 m3 → page0_changed m1 m3.
Proof. intros H1 H2 b Hb. by rewrite H2, H1. Qed.

Definition in_low (x : Z) : Prop := KZERO ≤ x < KZERO + FOUR_M.

Lemma low_phys kd v m : low_vm kd v → page0_changed (phys v) m → low_vm kd (with_phys m v).
Proof. intros [[H1 H2] H3 H4 H5] Hm. split; [by split|done|done|]. cbn. rewrite Hm; [done|]. unfold PAGE_SIZE in *. lia. Qed.

Lemma low_pde kd v x : low_vm kd v → in_low x → pde_of (phys v) kd x = KERNEL_LOW_4M.
Proof.
  intros Hv Hx. unfold in_low, KZERO, FOUR_M in Hx. unfold pde_of. replace (ADDR_PDE x) with 768; [apply Hv|]. rewrite ADDR_PDE_eq. zlia.
Qed.

Lemma low_u32 x : in_low x → is_u32 x.
Proof. unfold in_low, KZERO, FOUR_M. lia. Qed.
Lemma low_PGADDR x : in_low x → in_low (PGADDR x).
Proof. unfold in_low, KZERO, FOUR_M, PGADDR, PAGE_SIZE. zlia. Qed.

(** An entry for such a page is written to physical page 0. *)
Lemma write_low ct kd v x e : low_vm kd v → in_low x →
  ∃ m, pg_write_entry ct kd x e v = Ret (tt, with_phys m v) ∧ page0_changed (phys v) m.
Proof.
  intros Hv Hx. pose proof (low_pde _ _ _ Hv Hx) as Ed. destruct (lv_kd _ _ Hv) as (K1 & K2 & _).
  exists (<[table_of (phys v) kd x + 4 * ADDR_PTE x := e]> (phys v)). split.
  - apply (pg_write_entry_there ct 0); try done; [apply Hv|by apply low_u32|by rewrite Ed|by rewrite Ed].
  - intros b Hb. apply rd_insert_ne. unfold table_of. rewrite Ed. replace (PTE_ADDR KERNEL_LOW_4M) with 0 by reflexivity.
    pose proof (ADDR_PTE_bound x). unfold PAGE_SIZE in Hb. lia.
Qed.

Lemma map_low ct kd v pa x : mt_pgd ct = kd → low_vm kd v → in_low x →
  ∃ m, pg_map ct pa x v = Ret (tt, with_phys m v) ∧ page0_changed (phys v) m.
Proof. intros <- Hv Hx. unfold pg_map, pg_map_ext. apply write_low; [done|by apply low_PGADDR]. Qed.

Lemma map_sequence_low ct kd v start n : mt_pgd ct = kd → low_vm kd v → KZERO ≤ start → start + n ≤ KZERO + FOUR_M →
  ∃ m, pg_map_sequence ct (KBSSTOPHYS start) start n v = Ret (tt, with_phys m v) ∧ page0_changed (phys v) m.
Proof.
  intros Hct Hv Hs Hn. unfold pg_map_sequence. rewrite page_loop_forM by (unfold KZERO, FOUR_M, PAGE_SIZE in *; lia).
  destruct (forM_total (λ i, pg_map ct (KBSSTOPHYS start +u i) (start +u i)) (λ _ v', ∃ m, v' = with_phys m v ∧ page0_changed (phys v) m)
    (page_seq 0 (page_count 0 n)) v) as (v' & E & m & -> & Hm); [| |by exists m].
  - intros l1 i l2 v1 El (m & -> & Hm). assert (Hi : i ∈ page_seq 0 (page_count 0 n)) by (rewrite El; apply elem_of_app; right; left).
    apply page_seq_bounds in Hi; [|done].
    destruct (map_low ct kd (with_phys m v) (KBSSTOPHYS start +u i) (start +u i) Hct) as (m' & E & Hm'); [by apply low_phys| |].
    { unfold KZERO, FOUR_M in *. rewrite u32_small by lia. unfold in_low, KZERO, FOUR_M. lia. }
    exists (with_phys m' v). split; [exact E|]. exists m'. split; [done|]. by apply (page0_trans _ m).
  - exists (phys v). split; [by destruct v|done].
Qed.

Lemma allocated_low ct kd v x : mt_pgd ct = kd → low_vm kd v → in_low x → pg_is_allocated ct x v = Ret (true, v).
Proof.
  intros <- Hv Hx. destruct (lv_kd _ _ Hv) as (K1 & K2 & _). unfold pg_is_allocated.
  rewrite (win_read 1 v (mt_pgd ct) (ADDR_PDE x)); [|apply Hv|done|done|by apply ADDR_PDE_bound, low_u32].
  fold (pde_of (phys v) (mt_pgd ct) x). rewrite (low_pde _ _ _ Hv Hx). reflexivity.
Qed.

Lemma unmap_low_kernel ct kd v : mt_pgd ct = kd → low_vm kd v → rd (phys v) kd ≠ 0 →
  pg_unmap_low_kernel ct v = Ret (tt, with_phys (<[kd := 0]> (phys v)) v).
Proof.
  intros <- Hv Hd. destruct (lv_kd _ _ Hv) as (K1 & K2 & _). pose proof (lv_win _ _ Hv) as Hw. set (kd := mt_pgd ct) in *.
  unfold pg_unmap_low_kernel, pg_unmap_ext. fold kd. rewrite (bind_ret _ _ _ _ _ (win_map 1 kd v Hw)).
  pose proof (win_mapped 1 kd v Hw K1 K2) as Hm. cbv zeta.
  pose proof (vload_ok _ _ kd (ADDR_PDE 0) Hm ltac:(done)) as El. pose proof (vstore_ok _ _ kd (ADDR_PDE 0) NilPgEnt Hm ltac:(done)) as Es.
  rewrite (bind_ret _ _ _ _ _ El). change (4 * ADDR_PDE 0) with 0 in *. rewrite !Z.add_0_r in *. unfold NilPgEnt in *.
  change (phys (show kd v)) with (phys v) in *. rewrite (proj2 (Z.eqb_neq _ _) Hd). rewrite (bind_ret _ _ _ _ _ Es).
  rewrite pg_tmp_unmap_ok; [|unfold show; cbn; rewrite length_insertZ; apply Hw|apply Hm].
  do 2 f_equal. exact (win_hide kd v (vm_frames v) _ 1 Hw).
Qed.

(** ** The break *)

(** The memory calls of the start: the current task's break moves and page 0 changes. *)
Record low_mach (kd : Z) (t : task) (s : mach) : Prop := {
  lm_cur : cur_task s = Some t;
  lm_pgd : pgd (arch t) = kd;
  lm_vm : low_vm kd (m_vm s)
}.

Lemma rebrk_same t s : cur_task s = Some t → rebrk (brk t) t s = s.
Proof.
  intros Hc. unfold rebrk. replace (set_brk (brk t) t) with t by (by destruct t). rewrite insert_id by done.
  by destruct s as [[]].
Qed.
Lemma rebrk_low kd t b s : low_mach kd t s → low_mach kd (set_brk b t) (rebrk b t s).
Proof. intros [H1 H2 H3]. split; [apply lookup_insert_eq|done|done]. Qed.

Lemma brk_low kd t s b : low_mach kd t s → KZERO ≤ brk t ≤ b → b + PAGE_SIZE ≤ KZERO + FOUR_M →
  task_brk (CurrentTask (m_tst s)) b s = Ret (b, rebrk b t s).
Proof.
  intros [Hc Hp Hv] Hb Hlim. unfold task_brk. rewrite (bind_ret _ _ _ _ _ (get_cur_ok s t Hc)). cbv zeta.
  set (s1 := rebrk b t s). assert (Hc1 : cur_task s1 = Some (set_brk b t)) by apply lookup_insert_eq.
  assert (Hend : (t0 ← liftT (get_task (CurrentTask (m_tst s))); mret (brk t0)) s1 = Ret (b, s1)).
  { change (CurrentTask (m_tst s)) with (CurrentTask (m_tst s1)). by rewrite (bind_ret _ _ _ _ _ (get_cur_ok s1 _ Hc1)). }
  rewrite (proj2 (Z.eqb_neq b 0)) by (unfold KZERO in *; lia). destruct (Z.ltb_spec (brk t) b) as [Hlt|Hge].
  2: { assert (brk t = b) as Eb by lia. rewrite (proj2 (Z.ltb_ge b (brk t))) by lia. rewrite (bind_ret _ _ s tt s1); [done|].
       unfold s1. rewrite <- Eb. by rewrite rebrk_same. }
  rewrite (bind_ret _ _ s tt s1); [done|]. rewrite (bind_ret _ _ _ _ _ (set_brk_ok s t b Hc)). fold s1.
  unfold KZERO, FOUR_M in *. rewrite u32_small by (unfold PAGE_SIZE in *; lia). rewrite page_loop_forM by (unfold PAGE_SIZE in *; lia).
  destruct (forM_total brk_map (λ _ s', s' = s1) (page_seq (brk t) (page_count (brk t) (b + PAGE_SIZE))) s1) as (s' & E & ->); [|done|exact E].
  intros l1 x l2 s2 El ->. exists s1. split; [|done].
  assert (Hx : x ∈ page_seq (brk t) (page_count (brk t) (b + PAGE_SIZE))) by (rewrite El; apply elem_of_app; right; left).
  apply page_seq_bounds in Hx; [|lia]. unfold brk_map. rewrite (bind_ret _ _ _ _ _ (ready_ok s1)).
  change (m_vm s1) with (m_vm s). rewrite (lv_ready _ _ Hv).
  assert (Ea : on_vm (λ ct, pg_is_allocated ct x) s1 = Ret (true, s1)).
  { rewrite (on_vm_ok _ s1 (set_brk b t) true (m_vm s1) Hc1); [by rewrite with_vm_same|].
    apply (allocated_low _ kd); [exact Hp|exact Hv|unfold in_low, KZERO, FOUR_M; lia]. }
  by rewrite (bind_ret _ _ _ _ _ Ea).
Qed.

(** ** The state of the start *)

(** The break has moved to [b]; what has not changed but for that and page 0. *)
Record moved (kd : Z) (t : task) (b : Z) (s s' : boot) : Prop := {
  mv_low : low_mach kd (set_brk b t) (b_mach s');
  mv_tst : m_tst (b_mach s') = set_tasks (<[CurrentTask (m_tst (b_mach s)) := set_brk b t]> (tasks (m_tst (b_mach s)))) (m_tst (b_mach s));
  mv_mem : page0_changed (phys (m_vm (b_mach s))) (phys (m_vm (b_mach s')));
  mv_vm : m_vm (b_mach s') = with_phys (phys (m_vm (b_mach s'))) (m_vm (b_mach s));
  mv_early : EarlyMallocEnabled (b_mach s') = EarlyMallocEnabled (b_mach s);
  mv_rest : s' = set_b_mach (b_mach s') s
}.

Lemma moved_trans kd t b1 b2 s1 s2 s3 : moved kd t b1 s1 s2 → moved kd (set_brk b1 t) b2 s2 s3 → moved kd t b2 s1 s3.
Proof.
  intros [A1 A2 A3 A4 A5 A6] [B1 B2 B3 B4 B5 B6]. split.
  - exact B1.
  - rewrite B2, A2. cbn [tasks CurrentTask set_tasks]. by rewrite insert_insert_eq.
  - by apply (page0_trans _ (phys (m_vm (b_mach s2)))).
  - rewrite B4 at 1. by rewrite A4.
  - congruence.
  - rewrite B6 at 1. by rewrite A6.
Qed.

Lemma onMach_ok {A} (m : M mach A) s a x : m (b_mach s) = Ret (a, x) → onMach m s = Ret (a, set_b_mach x s).
Proof. apply (zoom_ret (H := boot_has_mach)). Qed.

Lemma liftT_cur_ok s : liftT (gets CurrentTask) s = Ret (CurrentTask (m_tst s), s).
Proof. rewrite (liftT_ok _ s (CurrentTask (m_tst s)) (m_tst s)) by done. by rewrite with_tst_same. Qed.

Lemma sync_curbrk_ok s t : cur_task s = Some t → sync_curbrk s = Ret (tt, with_curbrk (brk t) s).
Proof.
  intros Hc. unfold sync_curbrk. rewrite (bind_ret _ _ s t s); [done|].
  rewrite (liftT_ok _ s t (m_tst s)) by (by apply current_ok). by rewrite with_tst_same.
Qed.

Lemma vmmap_low kd t s start b : low_mach kd t (b_mach s) → KZERO ≤ start → start ≤ brk t ≤ b → b + PAGE_SIZE ≤ KZERO + FOUR_M →
  ∃ s', vmmap start b s = Ret (tt, s') ∧ moved kd t b s s' ∧
    AllocStack (b_mach s') = AllocStack (b_mach s) ∧ AllocSP (b_mach s') = AllocSP (b_mach s).
Proof.
  intros Hl H0 Hb Hlim. pose proof Hl as [Hc Hp Hv]. unfold vmmap.
  assert (Elen : b -u start +u PAGE_SIZE = b - start + PAGE_SIZE) by (unfold KZERO, FOUR_M, PAGE_SIZE in *; rewrite (u32_small (b - start)) by lia; by rewrite u32_small by lia).
  rewrite Elen. destruct (map_sequence_low (mmu_view t) kd (m_vm (b_mach s)) start (b - start + PAGE_SIZE) Hp Hv) as (m & E & Hm); [lia|lia|].
  set (x1 := with_vm (with_phys m (m_vm (b_mach s))) (b_mach s)).
  rewrite (bind_ret _ _ _ _ _ (onMach_ok _ s tt x1 (on_vm_ok (λ ct, pg_map_sequence ct (KBSSTOPHYS start) start (b - start + PAGE_SIZE)) (b_mach s) t tt _ Hc E))).
  assert (Hl1 : low_mach kd t x1) by (split; [done|done|by apply low_phys]).
  set (x2 := rebrk b t x1). pose proof (rebrk_low kd t b x1 Hl1) as Hl2. fold x2 in Hl2.
  rewrite (bind_ret _ _ _ b (set_b_mach x2 s)).
  2: { apply (onMach_ok _ (set_b_mach x1 s)). cbn [b_mach set_b_mach]. rewrite (bind_ret _ _ _ _ _ (liftT_cur_ok x1)).
       apply (brk_low kd t x1 b Hl1); lia. }
  exists (set_b_mach (with_curbrk b x2) s). split; [|split; [|done]].
  - apply (onMach_ok _ (set_b_mach x2 s)). exact (sync_curbrk_ok x2 _ (lm_cur _ _ _ Hl2)).
  - split; try done. by destruct Hl2; split.
Qed.

Lemma early_malloc_low kd t s n : low_mach kd t s → KZERO ≤ brk t → 0 ≤ n → brk t + n + PAGE_SIZE ≤ KZERO + FOUR_M →
  length (AllocStack s) = 4096%nat → 0 ≤ AllocSP s < 4095 →
  early_malloc n s = Ret (brk t, with_stack (insertZ (AllocSP s + 1) (brk t + n) (AllocStack s)) (AllocSP s + 1) (with_curbrk (brk t + n) (rebrk (brk t + n) t s))).
Proof.
  intros Hl H0 Hn Hlim Hlen Hsp. pose proof Hl as [Hc Hp Hv]. unfold early_malloc. rewrite (bind_ret _ _ _ _ _ (liftT_cur_ok s)).
  assert (E0 : task_brk (CurrentTask (m_tst s)) 0 s = Ret (brk t, s)).
  { unfold task_brk. rewrite (bind_ret _ _ _ _ _ (get_cur_ok s t Hc)). cbv zeta.
    change (0 =? 0) with true. rewrite (bind_ret _ _ s tt s) by done. by rewrite (bind_ret _ _ _ _ _ (get_cur_ok s t Hc)). }
  rewrite (bind_ret _ _ _ _ _ E0). assert (Eb : brk t +u n = brk t + n) by (unfold KZERO, FOUR_M, PAGE_SIZE in *; by rewrite u32_small by lia). rewrite Eb.
  rewrite (bind_ret _ _ _ _ _ (brk_low kd t s (brk t + n) Hl ltac:(lia) ltac:(lia))). set (s1 := rebrk (brk t + n) t s).
  rewrite (bind_ret _ _ s1 tt (with_curbrk (brk t + n) s1)) by exact (sync_curbrk_ok s1 _ (lm_cur _ _ _ (rebrk_low kd t (brk t + n) s Hl))).
  set (s2 := with_curbrk _ s1). rewrite (bind_ret _ _ s2 s2 s2) by done.
  rewrite (bind_ret _ _ s2 (insertZ (AllocSP s + 1) (brk t + n) (AllocStack s)) s2) by (apply aset_ok; cbn; rewrite Hlen; lia).
  rewrite (bind_ret _ _ s2 tt (with_stack (insertZ (AllocSP s + 1) (brk t + n) (AllocStack s)) (AllocSP s + 1) s2)) by done.
  unfold mret, M_ret, mret_M. do 2 f_equal. unfold KZERO, FOUR_M, PAGE_SIZE in *. rewrite u32_small by lia. lia.
Qed.

(** The bitmap of frames for [mem] bytes of memory. *)
Definition bitmap_words (mem : Z) : Z := BIT_IDX (ADDR_PAGE mem).
Definition fresh_frames (mem : Z) (f : frames) : frames :=
  mkFrames true (replicate (Z.to_nat (bitmap_words mem)) 0xFFFFFFFF) (ADDR_PAGE mem) (PreallocFrames f) (PreallocCount f).

Lemma fresh_frames_ok mem f : is_u32 mem → frames_ok (fresh_frames mem f).
Proof.
  intros Hm. assert (0 ≤ bitmap_words mem) by (unfold bitmap_words, BIT_IDX, ADDR_PAGE, BITS_PER_ENTRY, PAGE_SIZE; zlia). split; cbn [fresh_frames FrameAllocInitialized FrameCount FrameBitmap].
  - done.
  - unfold ADDR_PAGE, PAGE_SIZE. zlia.
  - rewrite length_replicate. fold (bitmap_words mem). lia.
  - apply Forall_replicate. lia.
Qed.
Lemma fresh_frames_used mem f x : 0 ≤ x → frame_used (fresh_frames mem f) x = true.
Proof.
  intros Hx. unfold frame_used. cbn [FrameBitmap fresh_frames]. unfold lookupZ. destruct (0 <=? _); [|done].
  destruct (replicate _ _ !! _) as [w|] eqn:E; [|done]. apply lookup_replicate in E as [-> _].
  change 0xFFFFFFFF with (Z.ones 32). apply Z.ones_spec_low. apply BIT_OFFSET_bound.
Qed.

Lemma boot_alloc_init_low real_malloc kd t s mem : low_mach kd t (b_mach s) → KZERO ≤ brk t → is_u32 mem →
  brk t + 4 * bitmap_words mem + PAGE_SIZE ≤ KZERO + FOUR_M → EarlyMallocEnabled (b_mach s) = true →
  length (AllocStack (b_mach s)) = 4096%nat → 0 ≤ AllocSP (b_mach s) < 4095 →
  ∃ s', boot_alloc_init real_malloc mem s = Ret (tt, set_b_frames (fresh_frames mem (b_frames s)) s') ∧ moved kd t (brk t + 4 * bitmap_words mem) s s'.
Proof.
  intros Hl H0 Hm Hlim He Hlen Hsp. assert (Hn : 0 ≤ bitmap_words mem ≤ 2 ^ 15) by (unfold bitmap_words, BIT_IDX, ADDR_PAGE, BITS_PER_ENTRY, PAGE_SIZE; zlia).
  unfold boot_alloc_init. fold (bitmap_words mem). assert (En : bitmap_words mem *u 4 = 4 * bitmap_words mem) by (by rewrite u32_small by lia; lia). rewrite En.
  pose proof (early_malloc_low kd t (b_mach s) (4 * bitmap_words mem) Hl H0 ltac:(lia) ltac:(lia) Hlen Hsp) as E.
  match type of E with _ = Ret (_, ?X) => set (x := X) in E end. exists (set_b_mach x s). split.
  - rewrite (bind_ret _ _ s (brk t) (set_b_mach x s)).
    + exact (zoom_ret (H := boot_has_frames) _ (set_b_mach x s) tt _ eq_refl).
    + apply onMach_ok. unfold __wrap_malloc. rewrite (bind_ret _ _ (b_mach s) (b_mach s) (b_mach s)) by done. by rewrite He.
  - split; [by destruct (rebrk_low kd t (brk t + 4 * bitmap_words mem) (b_mach s) Hl); split|done|by intros b _| |done|done].
    cbn. by destruct (m_vm (b_mach s)).
Qed.

(** ** The boot information *)

Lemma tags_at_tag d off l k x : tags_at d off l → l !! k = Some x →
  0 ≤ x ∧ x + 8 ≤ Z.of_nat (length d) ∧ w32 d x ≠ MULTIBOOT_TAG_TYPE_END ∧ ∀ y, l !! S k = Some y → x + tag_align (w32 d (x + 4)) = y.
Proof.
  intros Ht. revert k. induction Ht as [|off l H0 Hl Hn Hs Ht IH]; intros k Ek; [done|]. destruct k as [|k]; [|by apply (IH k)].
  injection Ek as <-. split; [done|]. split; [done|]. split; [done|]. cbn. intros y Ey. inversion Ht; subst; [done|]. by injection Ey.
Qed.

Lemma scan_meminfo_ok real_malloc d l1 tag l2 s s' : tags_at d 8 (l1 ++ tag :: l2) →
  Forall (λ x, w32 d x ≠ MULTIBOOT_TAG_TYPE_BASIC_MEMINFO) l1 → w32 d tag = MULTIBOOT_TAG_TYPE_BASIC_MEMINFO → tag + 16 ≤ Z.of_nat (length d) →
  let mem := (w32 d (tag + 12) +u 1024) *u 1024 in
  boot_alloc_init real_malloc mem (set_mem_max mem s) = Ret (tt, s') → scan_meminfo real_malloc d 8 s = Ret (tt, s').
Proof.
  intros Ht Hn Hty Hl mem Eb. pose proof (tags_at_length _ _ _ Ht) as Hlen. rewrite length_app in Hlen. cbn [length] in Hlen.
  set (l := l1 ++ tag :: l2) in *. assert (Htag : l !! length l1 = Some tag) by by apply list_lookup_middle.
  unfold scan_meminfo. set (body := λ tag : Z, _). set (f := λ k, default 0 (l !! k)).
  destruct (tags_at_tag d 8 l _ tag Ht Htag) as (T0 & _ & Tn & _).
  assert (Hgo : ∀ k, (k < length l1)%nat → body (f k) s = Ret (inl (f (S k)), s)).
  { intros k Hk. destruct (lookup_lt_is_Some_2 l1 k Hk) as [x Ex]. assert (Elx : l !! k = Some x) by (by apply lookup_app_l_Some).
    destruct (tags_at_tag d 8 l k x Ht Elx) as (X0 & X1 & X2 & X3). destruct (lookup_lt_is_Some_2 l (S k)) as [y Ey].
    { unfold l. rewrite length_app. cbn. lia. }
    unfold f. rewrite Elx, Ey. cbn [default id from_option]. unfold body. cbv beta. rewrite (bind_ret _ _ _ _ _ (mb32_ok d x s ltac:(lia) ltac:(lia))).
    rewrite (proj2 (Z.eqb_neq _ _) X2), (proj2 (Z.eqb_neq _ _) (Forall_lookup_1 _ _ _ _ Hn Ex)). cbn [negb].
    rewrite (bind_ret _ _ _ _ _ (mb32_ok d (x + 4) s ltac:(lia) ltac:(lia))). cbv beta. rewrite (X3 y Ey). reflexivity. }
  assert (Hlast : body (f (length l1)) s = (boot_alloc_init real_malloc mem ;; mret (inr tt)) (set_mem_max mem s)).
  { unfold f. rewrite Htag. cbn [default id from_option]. unfold body. cbv beta. rewrite (bind_ret _ _ _ _ _ (mb32_ok d tag s ltac:(lia) ltac:(lia))).
    rewrite Hty. change (MULTIBOOT_TAG_TYPE_BASIC_MEMINFO =? MULTIBOOT_TAG_TYPE_END) with false. rewrite Z.eqb_refl. cbn [negb].
    rewrite (bind_ret _ _ _ _ _ (mb32_ok d (tag + 12) s ltac:(lia) ltac:(lia))). fold mem.
    rewrite (bind_ret _ _ s tt (set_mem_max mem s)) by done. by rewrite (bind_ret _ _ (set_mem_max mem s) (set_mem_max mem s) (set_mem_max mem s)). }
  assert (E0 : f 0%nat = 8) by (unfold f; inversion Ht as [? ? ? ? E|? ? ? ? ? ? ? E]; [by destruct l1|done]).
  apply (while_scan body f _ (length l1) 8 s tt s' E0 Hgo); [|rewrite SuccNat2Pos.id_succ; lia].
  rewrite Hlast. by rewrite (bind_ret _ _ _ _ _ Eb).
Qed.

(** The boot information [d], at the physical address [mbi] behind the kernel, with the tags
    [l] and [mem] bytes of memory. *)
Record info_ok (d : list Z) (mbi : Z) (t : task) (f : frames) (l : list Z) (mem : Z) : Prop := {
  in_tags : tags_at d 8 l;
  in_mem : ∃ l1 tag l2, l = l1 ++ tag :: l2 ∧ Forall (λ x, w32 d x ≠ MULTIBOOT_TAG_TYPE_BASIC_MEMINFO) l1 ∧
    w32 d tag = MULTIBOOT_TAG_TYPE_BASIC_MEMINFO ∧ tag + 16 ≤ Z.of_nat (length d) ∧ mem = (w32 d (tag + 12) +u 1024) *u 1024;
  in_size : 2 ^ 23 ≤ mem;
  in_good : Forall (good_tag d (fresh_frames mem f)) l;
  in_place : KTEXT ≤ brk t ≤ KZERO + mbi + 4 ∧ 0 ≤ mbi ∧ 4 ≤ w32 d 0 ∧
    KZERO + mbi + w32 d 0 + 4 * bitmap_words mem + 2 * PAGE_SIZE ≤ KZERO + FOUR_M
}.
Definition start_brk (d : list Z) (mbi mem : Z) : Z := KZERO + mbi + w32 d 0 + 4 * bitmap_words mem.

(** What [multiboot_mmap] leaves. *)
Record mmapped (kd : Z) (t : task) (d : list Z) (mbi : Z) (l : list Z) (mem : Z) (s s' : boot) : Prop := {
  mm_low : low_mach kd (set_brk (start_brk d mbi mem) t) (b_mach s');
  mm_tst : m_tst (b_mach s') = set_tasks (<[CurrentTask (m_tst (b_mach s)) := set_brk (start_brk d mbi mem) t]> (tasks (m_tst (b_mach s)))) (m_tst (b_mach s));
  mm_mem : page0_changed (phys (m_vm (b_mach s))) (phys (m_vm (b_mach s')));
  mm_tmp : TmpPageTbl (m_vm (b_mach s')) = TmpPageTbl (m_vm (b_mach s));
  mm_intr : b_intr s' = b_intr s ∧ b_esp s' = b_esp s ∧ b_ebp s' = b_ebp s;
  mm_frames : frames_ok (b_frames s');
  mm_in x : frame_in (b_frames s') x ↔ frame_in (fresh_frames mem (b_frames s)) x;
  mm_used x : 0 ≤ x → frame_used (b_frames s') x = fold_left (upd_used x) (mjoin (tag_effects d <$> l)) true;
  mm_initrd : Initrd s' = fold_left upd_initrd (mjoin (tag_effects d <$> l)) (Initrd s) ∧ mem_max s' = mem
}.

Lemma tags_at_head d off l : tags_at d off l → off + 4 ≤ Z.of_nat (length d).
Proof. intros Ht. destruct Ht; lia. Qed.

Lemma multiboot_mmap_ok real_malloc kd t d mbi l mem s :
  low_mach kd t (b_mach s) → info_ok d mbi t (b_frames s) l mem → EarlyMallocEnabled (b_mach s) = true →
  length (AllocStack (b_mach s)) = 4096%nat → AllocSP (b_mach s) = 0 →
  ∃ s', multiboot_mmap real_malloc d mbi s = Ret (tt, s') ∧ mmapped kd t d mbi l mem s s'.
Proof.
  intros Hl [Ht (l1 & tag & l2 & El & Hn & Hty & Htl & Emem) Hsz Hgood (Hb & Hmbi & Hs & Hend)] He Hlen Hsp.
  assert (Hm32 : is_u32 mem) by (rewrite Emem; apply u32_bound).
  assert (Hbw : 0 ≤ bitmap_words mem) by (unfold bitmap_words, BIT_IDX, ADDR_PAGE, BITS_PER_ENTRY, PAGE_SIZE; zlia).
  unfold KTEXT, KZERO, FOUR_M, PAGE_SIZE in Hb, Hend. unfold multiboot_mmap.
  assert (Ei : PHYSTOKBSS mbi = KZERO + mbi) by (unfold PHYSTOKBSS; rewrite u32_small by (unfold KZERO; lia); lia). rewrite Ei. cbv zeta.
  rewrite (u32_small (KZERO + mbi + 4)) by (unfold KZERO; lia).
  destruct (vmmap_low kd t s KTEXT (KZERO + mbi + 4) Hl) as (s1 & E1 & M1 & St1 & Sp1); [done|unfold KTEXT, KZERO; lia|unfold KZERO, FOUR_M, PAGE_SIZE; lia|].
  rewrite (bind_ret _ _ _ _ _ E1). pose proof (tags_at_head _ _ _ Ht). rewrite (bind_ret _ _ _ _ _ (mb32_ok d 0 s1 ltac:(lia) ltac:(lia))).
  destruct (vmmap_low kd (set_brk (KZERO + mbi + 4) t) s1 KTEXT (KZERO + mbi + w32 d 0) (mv_low _ _ _ _ _ M1)) as (s2 & E2 & M2 & St2 & Sp2);
    [done|cbn; unfold KTEXT, KZERO; lia|unfold KZERO, FOUR_M, PAGE_SIZE; lia|].
  rewrite (u32_small (KZERO + mbi + w32 d 0)) by (unfold KZERO; lia). rewrite (bind_ret _ _ _ _ _ E2). pose proof (moved_trans _ _ _ _ _ _ _ M1 M2) as M12.
  set (s2' := set_mem_max mem s2). set (t2 := set_brk (KZERO + mbi + w32 d 0) t).
  destruct (boot_alloc_init_low real_malloc kd t2 s2' mem) as (s3 & E3 & M3); try done.
  { apply M12. } { cbn. unfold KZERO. lia. } { cbn. unfold KZERO, FOUR_M, PAGE_SIZE. lia. }
  { cbn. by rewrite (mv_early _ _ _ _ _ M12). } { cbn. by rewrite St2, St1. } { cbn. rewrite Sp2, Sp1. lia. }
  assert (E3' : scan_meminfo real_malloc d 8 s2 = Ret (tt, set_b_frames (fresh_frames mem (b_frames s2')) s3)).
  { eapply (scan_meminfo_ok real_malloc d l1 tag l2); [by rewrite <- El|done|done|done|]. by rewrite <- Emem. }
  rewrite (bind_ret _ _ _ _ _ E3').
  assert (Ef' : fresh_frames mem (b_frames s2') = fresh_frames mem (b_frames s)) by (unfold b_frames; cbn; by rewrite (mv_vm _ _ _ _ _ M12)).
  rewrite Ef'. set (s4 := set_b_frames _ s3).
  assert (Ef4 : b_frames s4 = fresh_frames mem (b_frames s)) by done.
  destruct (scan_tags_ok d s4 l Ht) as (s5 & E5 & [A1 A2 A3 A4 (fr & a & z & i & A5)]); [by apply fresh_frames_ok|done|].
  exists s5. split; [exact E5|]. cbn [brk t2 set_brk] in M3. destruct M3 as [B1 B2 B3 B4 _ B6]. destruct M12 as [C1 C2 C3 C4 _ C6].
  fold (start_brk d mbi mem) in *. split.
  - rewrite A5. cbn. destruct B1 as [D1 D2 [[D3 D3'] D4 D5 D6]]. split; [exact D1|exact D2|]. split; [by split|done..].
  - rewrite A5. cbn. rewrite B2. cbn. rewrite C2. cbn. by rewrite insert_insert_eq.
  - rewrite A5. cbn. apply (page0_trans _ (phys (m_vm (b_mach s2)))); [exact C3|exact B3].
  - rewrite A5. cbn. rewrite B4. cbn. by rewrite C4.
  - rewrite A5. cbn. rewrite B6. cbn. rewrite C6. done.
  - done.
  - intros x. by rewrite A2.
  - intros x Hx. rewrite A3 by done. by rewrite Ef4, fresh_frames_used.
  - split.
    + rewrite A4. f_equal. cbn. rewrite B6. cbn. by rewrite C6.
    + rewrite A5. cbn. by rewrite B6.
Qed.

(** ** The kernel's directory *)

(** The static arrays and the stack's first page: different pages of the image, which ends at
    [kend]. *)
Record statics (kd ks st tmp kend : Z) : Prop := {
  sa_pages : ∀ x, x ∈ [kd; ks; st; tmp] → 2 ^ 20 ≤ x ∧ x + PAGE_SIZE ≤ kend ∧ x mod PAGE_SIZE = 0;
  sa_nodup : NoDup [kd; ks; st; tmp];
  sa_end : kend ≤ FOUR_M
}.

Section KernelDir.
Context (v : vm) (kd ks st tmp kend : Z).
Hypothesis Hm : kernel_dir false (phys v) kd ks st tmp.
Hypothesis Hs : statics kd ks st tmp kend.
Hypothesis Hu : ∀ x, 0 ≤ x < kend → frame_used (vm_frames v) x = true.

Lemma static_page x : x ∈ [kd; ks; st; tmp] → is_u32 x ∧ x mod PAGE_SIZE = 0 ∧ low_page x ∧ 2 ^ 20 ≤ x ∧ frame_used (vm_frames v) x = true.
Proof.
  intros Hx. destruct (sa_pages _ _ _ _ _ Hs x Hx) as (H1 & H2 & H3). pose proof (sa_end _ _ _ _ _ Hs). unfold low_page, FOUR_M, PAGE_SIZE in *.
  split; [lia|]. split; [done|]. split; [lia|]. split; [done|]. apply Hu. lia.
Qed.
Lemma kd_in : kd ∈ [kd; ks; st; tmp]. Proof. left. Qed.
Lemma ks_in : ks ∈ [kd; ks; st; tmp]. Proof. right; left. Qed.
Lemma st_in : st ∈ [kd; ks; st; tmp]. Proof. right; right; left. Qed.
Lemma tmp_in : tmp ∈ [kd; ks; st; tmp]. Proof. right; right; right; left. Qed.

(** The four kinds of entries. *)
Lemma dir_entry_cases (P : Z → Z → Prop) : P 768 KERNEL_LOW_4M → P 767 (PAGE_ENTRY ks BASE_FLAGS) → P 1023 (PAGE_ENTRY tmp (Z.lor KERNEL_FLAGS PAGE_LINK)) →
  (∀ k, k ≠ 767 → k ≠ 768 → k ≠ 1023 → P k 0) → ∀ k, P k (dir_entry false ks tmp k).
Proof.
  intros H1 H2 H3 H4 k. unfold dir_entry. destruct (Z.eqb_spec k 768) as [->|]; [done|]. destruct (Z.eqb_spec k 767) as [->|]; [done|].
  destruct (Z.eqb_spec k 1023) as [->|]; [done|]. rewrite andb_false_r. by apply H4.
Qed.

Lemma kernel_table k : dir_entry false ks tmp k ≠ 0 →
  is_u32 (dir_entry false ks tmp k) ∧ PTE_ADDR (dir_entry false ks tmp k) ≠ kd ∧ frame_used (vm_frames v) (PTE_ADDR (dir_entry false ks tmp k)) = true ∧
  (k = 768 ∧ PTE_ADDR (dir_entry false ks tmp k) = 0 ∨ k = 767 ∧ PTE_ADDR (dir_entry false ks tmp k) = ks ∨
   k = 1023 ∧ PTE_ADDR (dir_entry false ks tmp k) = tmp).
Proof.
  destruct (static_page kd kd_in) as (_ & _ & _ & D4 & _). destruct (static_page ks ks_in) as (K1 & K2 & _ & _ & K5).
  destruct (static_page tmp tmp_in) as (T1 & T2 & _ & _ & T5). pose proof (sa_nodup _ _ _ _ _ Hs) as Hn.
  assert (Hd : kd ≠ ks ∧ kd ≠ tmp).
  { apply NoDup_cons in Hn as [Hn _]. rewrite !elem_of_cons in Hn. split; intros ->; apply Hn; tauto. }
  pattern k, (dir_entry false ks tmp k). apply dir_entry_cases; [intros _|intros _|intros _|by intros].
  - replace (PTE_ADDR KERNEL_LOW_4M) with 0 by reflexivity. split; [done|]. split; [lia|]. split; [|by left]. apply Hu.
    destruct (sa_pages _ _ _ _ _ Hs kd kd_in). unfold PAGE_SIZE in *. lia.
  - rewrite PTE_ADDR_entry by done. split; [apply lor_bound; [lia|done|done]|]. split; [destruct Hd; congruence|]. split; [done|by right; left].
  - rewrite PTE_ADDR_entry by done. split; [apply lor_bound; [lia|done|done]|]. split; [destruct Hd; congruence|]. split; [done|by right; right].
Qed.

Lemma kernel_pde w : is_u32 w → pde_of (phys v) kd w = dir_entry false ks tmp (ADDR_PDE w).
Proof. intros Hw. unfold pde_of. apply (dk_dir _ _ _ _ _ _ Hm). by apply ADDR_PDE_bound. Qed.

Lemma kernel_space_ok : space_ok v kd.
Proof.
  destruct (static_page kd kd_in) as (D1 & D2 & _ & _ & D5). split; [done|done|done|..].
  - intros w Hw. rewrite kernel_pde by done. destruct (decide (dir_entry false ks tmp (ADDR_PDE w) = 0)) as [->|Hn]; [done|]. by apply kernel_table.
  - intros w Hw. unfold table_of. rewrite kernel_pde by done. intros Hn. destruct (kernel_table _ Hn) as (_ & H1 & H2 & _). done.
  - intros x w Hx Hw. unfold table_of. rewrite !kernel_pde by done. intros Nx Nw E.
    destruct (kernel_table _ Nx) as (_ & _ & _ & Cx), (kernel_table _ Nw) as (_ & _ & _ & Cw). rewrite E in Cx.
    destruct (static_page ks ks_in) as (_ & _ & _ & K4 & _), (static_page tmp tmp_in) as (_ & _ & _ & T4 & _).
    assert (Hkt : ks ≠ tmp).
    { pose proof (sa_nodup _ _ _ _ _ Hs) as Hnd. apply NoDup_cons in Hnd as [_ Hnd]. apply NoDup_cons in Hnd as [Hnd _]. rewrite !elem_of_cons in Hnd. intros ->. tauto. }
    destruct Cx as [[Ex Cx]|[[Ex Cx]|[Ex Cx]]], Cw as [[Ew Cw]|[[Ew Cw]|[Ew Cw]]]; lia.
Qed.

Lemma stack_entry_ok j : is_u32 (stack_entry st j) ∧ (copied (stack_entry st j) = true → j = 1023 ∧ frame_used (vm_frames v) (PTE_ADDR (stack_entry st j)) = true).
Proof.
  destruct (static_page st st_in) as (S1 & S2 & _ & _ & S5). unfold stack_entry.
  destruct (Z.eqb_spec j 1023) as [->|]; [|by destruct (j =? 1022)]. split; [apply lor_bound; [lia|done|done]|]. intros _. by rewrite PTE_ADDR_entry.
Qed.

Lemma entry_copied a f : a mod PAGE_SIZE = 0 → copied (PAGE_ENTRY a f) = Z.testbit f 0 && negb (Z.testbit f 9).
Proof. intros Ha. unfold copied. by rewrite !entry_bit. Qed.

Lemma kernel_clonable : clonable v kd.
Proof.
  destruct (static_page kd kd_in) as (D1 & D2 & _ & _ & D5). destruct (static_page ks ks_in) as (K1 & K2 & _ & _ & K5).
  destruct (static_page tmp tmp_in) as (T1 & T2 & _ & _ & T5). split; [done|done|done|..].
  - intros i Hi. rewrite (dk_dir _ _ _ _ _ _ Hm) by done. pattern i, (dir_entry false ks tmp i). apply dir_entry_cases.
    + by split.
    + split; [apply lor_bound; [lia|done|done]|]. split; [by rewrite entry_bit|]. intros _. rewrite PTE_ADDR_entry by done. split; [done|].
      intros j Hj. rewrite (dk_stack _ _ _ _ _ _ Hm) by done. destruct (stack_entry_ok j) as [H1 H2]. split; [done|]. intros Hc. by apply H2.
    + split; [apply lor_bound; [lia|done|done]|]. rewrite entry_copied by done. by split.
    + intros k _ _ _. by split.
  - intros i Hi. cbv zeta. rewrite (dk_dir _ _ _ _ _ _ Hm) by done. intros H0 _. apply kernel_table. intros E. by rewrite E in H0.
Qed.

(** A clone takes a directory, the stack's table and its page. *)
Lemma kernel_dir_cost : dir_cost (phys v) kd = 3%nat.
Proof.
  destruct (static_page ks ks_in) as (K1 & K2 & _ & _ & K5). destruct (static_page st st_in) as (S1 & S2 & _ & _ & S5). destruct (static_page tmp tmp_in) as (T1 & T2 & _).
  unfold dir_cost. rewrite (sum_from_ext _ (λ i, if i =? 767 then 2%nat else 0%nat)); [by vm_compute|done|]. intros i Hi. rewrite (dk_dir _ _ _ _ _ _ Hm) by done.
  pattern i, (dir_entry false ks tmp i). apply dir_entry_cases; [done| | |].
  - unfold table_cost. rewrite entry_copied by done. cbn match. rewrite PTE_ADDR_entry by done. change (767 =? 767) with true. f_equal.
    rewrite (sum_from_ext _ (λ j, if j =? 1023 then 1%nat else 0%nat)); [by vm_compute|done|]. intros j Hj. rewrite (dk_stack _ _ _ _ _ _ Hm) by done.
    unfold page_cost, stack_entry. destruct (j =? 1023); [by rewrite entry_copied|]. by destruct (j =? 1022).
  - unfold table_cost. by rewrite entry_copied.
  - intros k Hk _ _. by rewrite (proj2 (Z.eqb_neq k 767)).
Qed.
End KernelDir.

(** ** The whole of [arch_init] *)

(** What the boot loader and the linker leave: the arrays of the image, the stack of the
    first call, the kernel task and the statics of the early allocator. *)
Record loaded (kpd tpt kst stop sbot : Z) (s : boot) (t : task) : Prop := {
  bl_cur : CurrentTask (m_tst (b_mach s)) = KernelTask_ptr ∧ tasks (m_tst (b_mach s)) !! KernelTask_ptr = Some t;
  bl_statics : statics (KBSSTOPHYS kpd) (KBSSTOPHYS kst) (KBSSTOPHYS stop) (KBSSTOPHYS tpt) (KBSSTOPHYS (brk t));
  bl_dir : boot_dir (phys (m_vm (b_mach s))) (KBSSTOPHYS kpd) (KBSSTOPHYS kst);
  bl_stack : KBSSTOPHYS sbot = KBSSTOPHYS stop + PAGE_SIZE ∧ KBSSTOPHYS stop ≤ b_esp s < KBSSTOPHYS stop + PAGE_SIZE;
  bl_window : TmpPageTbl (m_vm (b_mach s)) = replicate 1024 0;
  bl_malloc : EarlyMallocEnabled (b_mach s) = true ∧ length (AllocStack (b_mach s)) = 4096%nat ∧ AllocSP (b_mach s) = 0
}.

(** What [arch_init] leaves for [kmain]. *)
Record arch_ready (kpd tpt kst stop sbot : Z) (t : task) (d : list Z) (mbi : Z) (l : list Z) (mem : Z) (s s' : boot) : Prop := {
  ar_dir : kernel_dir false (phys (m_vm (b_mach s'))) (KBSSTOPHYS kpd) (KBSSTOPHYS kst) (KBSSTOPHYS stop) (KBSSTOPHYS tpt);
  ar_frames : frames_ok (b_frames s');
  ar_used x : 0 ≤ x → frame_used (b_frames s') x =
    in_range 0 (KBSSTOPHYS (start_brk d mbi mem)) x || fold_left (upd_used x) (mjoin (tag_effects d <$> l)) true;
  ar_win : win_ok 1024 (m_vm (b_mach s')) ∧ MMUReady (m_vm (b_mach s')) = true;
  ar_tst : m_tst (b_mach s') = set_tasks (<[KernelTask_ptr := set_brk (start_brk d mbi mem) (inited_task kpd t)]> (tasks (m_tst (b_mach s)))) (m_tst (b_mach s));
  ar_idt : IDTCallbacks (b_intr s') = insertZ INT_PIT h_pit_cb (insertZ INT_PAGE_FAULT h_pg_fault_handler (replicate (Z.to_nat NUM_INTERRUPTS) NoHandler));
  ar_initrd : Initrd s' = fold_left upd_initrd (mjoin (tag_effects d <$> l)) (Initrd s) ∧ mem_max s' = mem;
  ar_esp : b_esp s' = rebase_sp sbot (b_esp s)
}.

Section ArchInitOk.
Context (real_malloc : Z → M mach Z) (port_in : list (Z * Z) → Z → Z) (isr_roots : list Z) (kernel_cs idt_addr gdt_addr : Z).
Context (kpd tpt kst stop sbot : Z).
Hypothesis Hroots : Z.of_nat (length isr_roots) = NUM_INTERRUPTS ∧ Forall (λ r, is_u32 r) isr_roots.
Let kd := KBSSTOPHYS kpd.
Let ks := KBSSTOPHYS kst.
Let st := KBSSTOPHYS stop.
Let tmp := KBSSTOPHYS tpt.

Lemma onIntr_ok {A} (m : M intrst A) s a i : m (b_intr s) = Ret (a, i) → onIntr m s = Ret (a, set_b_intr i s).
Proof. apply (zoom_ret (H := boot_has_intr)). Qed.

(** Up to the timer: the descriptor tables, the directory and the stack. *)
Lemma first_steps s t : loaded kpd tpt kst stop sbot s t →
  ∃ i, (∀ B (K : M boot B), (onIntr (gdt_init gdt_addr) ;; onIntr (idt_init port_in isr_roots kernel_cs idt_addr) ;;
      pg_init kpd tpt kst stop sbot ;; onIntr pit_init ;; K) s = K (set_b_intr i (pg_inited kpd tpt kst stop sbot s t))) ∧
    IDTCallbacks i = insertZ INT_PIT h_pit_cb (insertZ INT_PAGE_FAULT h_pg_fault_handler (replicate (Z.to_nat NUM_INTERRUPTS) NoHandler)).
Proof.
  intros Hl. destruct Hroots as [Hr1 Hr2]. set (i1 := set_GDT gdt_table (Some (5 * 8 - 1, gdt_addr)) (b_intr s)).
  destruct (idt_init_ok port_in isr_roots kernel_cs idt_addr i1 Hr1 Hr2) as (i2 & E2 & _ & Hc2 & _).
  set (s2 := set_b_intr i2 s). assert (Hlen : length (IDTCallbacks i2) = 256%nat) by (by rewrite Hc2, length_replicate).
  set (s3 := pg_inited kpd tpt kst stop sbot s2 t).
  assert (E3 : pg_init kpd tpt kst stop sbot s2 = Ret (tt, s3)) by (apply pg_init_eq; [apply (bl_cur _ _ _ _ _ _ _ Hl)|exact Hlen]).
  set (i3 := set_IDTCallbacks (insertZ INT_PAGE_FAULT h_pg_fault_handler (IDTCallbacks i2)) i2).
  assert (E4 : pit_init i3 = Ret (tt, _)) by (apply pit_init_ok; cbn; by rewrite length_insertZ, Hlen).
  match type of E4 with _ = Ret (tt, ?X) => set (i4 := X) in E4 end. exists i4. split.
  - intros B K. rewrite (bind_ret _ _ s tt (set_b_intr i1 s)) by done.
    rewrite (bind_ret _ _ _ _ _ (onIntr_ok _ (set_b_intr i1 s) tt i2 E2)). change (set_b_intr i2 (set_b_intr i1 s)) with s2.
    rewrite (bind_ret _ _ _ _ _ E3). by rewrite (bind_ret _ _ _ _ _ (onIntr_ok pit_init s3 tt i4 E4)).
  - cbn. by rewrite Hc2.
Qed.

Lemma inited_low s t i : loaded kpd tpt kst stop sbot s t → low_mach kd (inited_task kpd t) (b_mach (set_b_intr i (pg_inited kpd tpt kst stop sbot s t))).
Proof.
  intros [[Hc Ht] Hs Hd _ Hw _]. split; [|done|].
  - unfold cur_task. cbn. rewrite Hc. apply lookup_insert_eq.
  - destruct (sa_pages _ _ _ _ _ Hs kd ltac:(left)) as (K1 & K2 & K3). pose proof (sa_end _ _ _ _ _ Hs). unfold FOUR_M, PAGE_SIZE in *. split; cbn.
    + split; cbn [TmpPageTbl with_ready with_phys]; rewrite Hw; [done|]. apply Nat.leb_le. by vm_compute.
    + done.
    + unfold PAGE_SIZE. repeat split; (done || lia).
    + by rewrite (dk_dir _ _ _ _ _ _ (init_kernel_dir _ _ _ st tmp Hd)).
Qed.

(** The low mapping goes, the rest of the directory stays. *)
Lemma drop_low m m' kend : kernel_dir true m kd ks st tmp → statics kd ks st tmp kend → page0_changed m m' → kernel_dir false (<[kd := 0]> m') kd ks st tmp.
Proof.
  intros [Hd Hk] Hs Hm. destruct (sa_pages _ _ _ _ _ Hs kd ltac:(left)) as (K1 & _ & K3). destruct (sa_pages _ _ _ _ _ Hs ks ltac:(right; left)) as (S1 & _ & S3).
  assert (Hne : kd ≠ ks) by (pose proof (sa_nodup _ _ _ _ _ Hs) as Hn; apply NoDup_cons in Hn as [Hn _]; intros E; apply Hn; rewrite E; left).
  unfold PAGE_SIZE in *. split; intros k Hk0.
  - destruct (decide (k = 0)) as [->|Hk1]; [by rewrite Z.mul_0_r, Z.add_0_r, rd_insert_eq|]. rewrite rd_insert_ne, Hm by (unfold PAGE_SIZE; lia).
    rewrite Hd by done. unfold dir_entry. by rewrite (proj2 (Z.eqb_neq k 0)).
  - rewrite rd_insert_ne by zlia. rewrite Hm by (unfold PAGE_SIZE; lia). by apply Hk.
Qed.

Lemma arch_init_ok s t d mbi l mem :
  loaded kpd tpt kst stop sbot s t → info_ok d mbi t (b_frames s) l mem →
  ∃ s', arch_init real_malloc port_in isr_roots kernel_cs idt_addr gdt_addr kpd tpt kst stop sbot d mbi s = Ret (tt, s') ∧
    arch_ready kpd tpt kst stop sbot t d mbi l mem s s'.
Proof.
  intros Hl Hi. pose proof Hl as [[Hc Ht] Hs Hd _ Hw (Hm1 & Hm2 & Hm3)]. destruct (first_steps s t Hl) as (i & E1 & Hcb).
  unfold arch_init. rewrite E1. clear E1. pose proof (inited_low s t i Hl) as Hlow. set (t1 := inited_task kpd t) in *.
  set (s1 := set_b_intr i (pg_inited kpd tpt kst stop sbot s t)) in *. set (b := start_brk d mbi mem).
  assert (Hi1 : info_ok d mbi t1 (b_frames s1) l mem) by (destruct Hi; by split).
  destruct (multiboot_mmap_ok real_malloc kd t1 d mbi l mem s1 Hlow Hi1 Hm1 Hm2 Hm3) as (s2 & E2 & [B1 B2 B3 B4 (B5 & B6 & _) B7 B8 B9 [B10 B11]]).
  rewrite (bind_ret _ _ _ _ _ E2). clear E2. fold b in B1, B2.
  assert (Ecur : onMach (liftT current) s2 = Ret (set_brk b t1, s2)).
  { rewrite (onMach_ok _ s2 (set_brk b t1) (b_mach s2)); [by destruct s2|].
    rewrite (liftT_ok _ _ (set_brk b t1) (m_tst (b_mach s2))) by (apply current_ok, B1). by rewrite with_tst_same. }
  rewrite (bind_ret _ _ _ _ _ Ecur). cbn [brk set_brk].
  destruct Hi as [_ _ Hsz _ (I1 & I2 & I3 & I4)]. unfold KTEXT, KZERO, FOUR_M, PAGE_SIZE in I1, I4.
  assert (Hbw : 64 ≤ bitmap_words mem) by (unfold bitmap_words, BIT_IDX, ADDR_PAGE, BITS_PER_ENTRY, PAGE_SIZE; zlia).
  assert (Eb : KBSSTOPHYS b = mbi + w32 d 0 + 4 * bitmap_words mem) by (unfold KBSSTOPHYS, b, start_brk; rewrite u32_small by (unfold KZERO; lia); lia).
  destruct (reserve_ok s2 0 (KBSSTOPHYS b)) as (f & E3 & Hf & _ & Hu); [done| |].
  { rewrite Eb. cbn. split; [done|]. split; [done|]. unfold PAGE_SIZE. split; [lia|]. apply B8. split; [lia|].
    cbn. rewrite length_replicate. unfold BIT_IDX, ADDR_PAGE, BITS_PER_ENTRY, PAGE_SIZE. zlia. }
  rewrite (bind_ret _ _ _ _ _ E3). clear E3. set (s3 := set_b_frames f s2).
  assert (Hlow3 : low_vm kd (m_vm (b_mach s3))) by (destruct B1 as [_ _ [[? ?] ? ? ?]]; by split).
  pose proof (init_kernel_dir _ _ _ st tmp Hd) as Hkd.
  assert (Hrd : rd (phys (m_vm (b_mach s3))) kd ≠ 0).
  { pose proof (lv_kd _ _ Hlow3) as (_ & _ & K3). change (rd (phys (m_vm (b_mach s2))) kd ≠ 0). rewrite B3 by done.
    pose proof (dk_dir _ _ _ _ _ _ Hkd 0 ltac:(lia)) as E. rewrite Z.mul_0_r, Z.add_0_r in E.
    change (rd (init_phys kd ks st tmp (phys (m_vm (b_mach s)))) kd = KERNEL_LOW_4M) in E.
    change (phys (m_vm (b_mach s1))) with (init_phys kd ks st tmp (phys (m_vm (b_mach s)))). by rewrite E. }
  assert (Etmp : TmpPageTbl (m_vm (b_mach s2)) = replicate 1024 0) by (rewrite B4; exact Hw).
  assert (E4 := unmap_low_kernel (mmu_view (set_brk b t1)) kd (m_vm (b_mach s3)) (lm_pgd _ _ _ B1) Hlow3 Hrd).
  eexists. split; [apply onMach_ok; exact (on_vm_ok (λ ct, pg_unmap_low_kernel ct) (b_mach s3) _ tt _ (lm_cur _ _ _ B1) E4)|].
  split; cbn.
  - exact (drop_low _ _ _ Hkd Hs B3).
  - exact Hf.
  - intros x Hx. change (b_frames _) with f. rewrite Hu by done. by rewrite B9.
  - split; [|apply B1]. split; change (TmpPageTbl _) with (TmpPageTbl (m_vm (b_mach s2))); rewrite Etmp; [done|]. apply Nat.leb_le. by vm_compute.
  - rewrite B2. cbn. rewrite Hc. by rewrite insert_insert_eq.
  - by rewrite B5.
  - by rewrite B10, B11.
  - by rewrite B6.
Qed.
End ArchInitOk.

(** Every frame below the break is taken. *)
Lemma ready_used kpd tpt kst stop sbot t d mbi l mem f s s' x : arch_ready kpd tpt kst stop sbot t d mbi l mem s s' → info_ok d mbi t f l mem →
  statics (KBSSTOPHYS kpd) (KBSSTOPHYS kst) (KBSSTOPHYS stop) (KBSSTOPHYS tpt) (KBSSTOPHYS (brk t)) →
  0 ≤ x < KBSSTOPHYS (brk t) → frame_used (b_frames s') x = true.
Proof.
  intros Ha [_ _ Hsz _ (I1 & I2 & I3 & I4)] Hs Hx. unfold KTEXT, KZERO, FOUR_M, PAGE_SIZE in I1, I4. rewrite (ar_used _ _ _ _ _ _ _ _ _ _ _ _ Ha) by lia.
  assert (Hbw : 64 ≤ bitmap_words mem) by (unfold bitmap_words, BIT_IDX, ADDR_PAGE, BITS_PER_ENTRY, PAGE_SIZE; zlia).
  assert (Eb : KBSSTOPHYS (start_brk d mbi mem) = mbi + w32 d 0 + 4 * bitmap_words mem)
    by (unfold KBSSTOPHYS, start_brk; rewrite u32_small by (unfold KZERO; lia); lia).
  assert (Ek : KBSSTOPHYS (brk t) = brk t - KZERO) by (unfold KBSSTOPHYS; rewrite u32_small by (unfold KZERO; lia); lia).
  replace (in_range _ _ x) with true; [done|]. symmetry. unfold in_range. rewrite Eb. rewrite Ek in Hx. unfold KZERO in Hx.
  apply andb_true_iff. split; [apply Z.leb_le|apply Z.ltb_lt]; unfold ADDR_PAGE, PAGE_SIZE; zlia.
Qed.

(** ** Properties *)

(** C9: starting the kernel.  With the kernel, its arrays, the boot information and the
    bitmap of frames in the first 4m, [arch_init] returns.  Then the kernel's address space has
    the first 4m of memory at KZERO and no longer at 0, the boot stack's page directly below KSTACK
    above a page that does not translate, and the stack pointer leads to the same memory as
    before; a frame is free exactly when the tags say so and it is not below the break, so no
    page of the kernel's tables is; every table of the space is a frame of its own, the window
    is free, and a clone of the space for fork takes three frames. *)
Theorem arch_init_starts real_malloc port_in isr_roots kernel_cs idt_addr gdt_addr kpd tpt kst stop sbot s t d mbi l mem :
  let kd := KBSSTOPHYS kpd in
  Z.of_nat (length isr_roots) = NUM_INTERRUPTS ∧ Forall (λ r, is_u32 r) isr_roots →
  loaded kpd tpt kst stop sbot s t → info_ok d mbi t (b_frames s) l mem →
  ∃ s', arch_init real_malloc port_in isr_roots kernel_cs idt_addr gdt_addr kpd tpt kst stop sbot d mbi s = Ret (tt, s') ∧
    let v := m_vm (b_mach s') in
    (∀ x, 0 ≤ x < FOUR_M → hw_walk (phys v) kd x = None ∧ hw_walk (phys v) kd (KZERO + x) = Some (x, true, false)) ∧
    (∀ x, KSTACK - 2 * PAGE_SIZE ≤ x < KSTACK - PAGE_SIZE → hw_walk (phys v) kd x = None) ∧
    hw_walk (phys v) kd (b_esp s') = Some (b_esp s, true, false) ∧
    (∀ x, 0 ≤ x → frame_used (vm_frames v) x =
       in_range 0 (KBSSTOPHYS (start_brk d mbi mem)) x || fold_left (upd_used x) (mjoin (tag_effects d <$> l)) true) ∧
    vm_ok 1024 (free_frames (vm_frames v)) v ∧ space_ok v kd ∧ clonable v kd ∧ dir_cost (phys v) kd = 3%nat ∧
    Initrd s' = fold_left upd_initrd (mjoin (tag_effects d <$> l)) (Initrd s) ∧
    ∃ t', cur_task (b_mach s') = Some t' ∧ pgd (arch t') = kd ∧ brk t' = start_brk d mbi mem.
Proof.
  intros kd Hr Hl Hi. destruct (arch_init_ok real_malloc port_in isr_roots kernel_cs idt_addr gdt_addr kpd tpt kst stop sbot Hr s t d mbi l mem Hl Hi) as (s' & E & Ha).
  exists s'. split; [done|]. cbv zeta. pose proof (bl_statics _ _ _ _ _ _ _ Hl) as Hs. pose proof (ar_dir _ _ _ _ _ _ _ _ _ _ _ _ Ha) as Hd.
  assert (Hu : ∀ x, 0 ≤ x < KBSSTOPHYS (brk t) → frame_used (b_frames s') x = true) by (intros x Hx; exact (ready_used _ _ _ _ _ _ _ _ _ _ _ _ _ _ Ha Hi Hs Hx)).
  assert (Hks : low_page (KBSSTOPHYS kst)) by (apply (static_page _ _ _ _ _ _ Hs Hu); right; left).
  assert (Hst : low_page (KBSSTOPHYS stop)) by (apply (static_page _ _ _ _ _ _ Hs Hu); right; right; left).
  split; [|split; [|split; [|split; [exact (ar_used _ _ _ _ _ _ _ _ _ _ _ _ Ha)|split; [|split; [|split; [|split; [|split; [apply Ha|]]]]]]]]].
  - intros x Hx. split; [by apply (walk_zero _ _ _ _ _ _ Hd)|by apply (walk_kzero _ _ _ _ _ _ Hd)].
  - intros x Hx. by apply (walk_guard _ _ _ _ _ _ Hd Hks).
  - rewrite (ar_esp _ _ _ _ _ _ _ _ _ _ _ _ Ha). destruct (bl_stack _ _ _ _ _ _ _ Hl) as [Hb He]. pose proof Hst as (T1 & T2 & T3).
    assert (Eesp : rebase_sp sbot (b_esp s) = KSTACK - PAGE_SIZE + (b_esp s - KBSSTOPHYS stop)).
    { unfold rebase_sp. rewrite Hb. unfold KSTACK, KZERO, PAGE_SIZE, u32 in *. zlia. }
    rewrite Eesp, (walk_stack_page _ _ _ _ _ _ Hd Hks Hst) by (unfold PAGE_SIZE in *; lia). do 3 f_equal. lia.
  - destruct (ar_win _ _ _ _ _ _ _ _ _ _ _ _ Ha) as [[W1 W2] _]. split; [apply Ha|done|done|done].
  - exact (kernel_space_ok _ _ _ _ _ _ Hd Hs Hu).
  - exact (kernel_clonable _ _ _ _ _ _ Hd Hs Hu).
  - exact (kernel_dir_cost _ _ _ _ _ _ Hd Hs Hu).
  - eexists. unfold cur_task. rewrite (ar_tst _ _ _ _ _ _ _ _ _ _ _ _ Ha). cbn. rewrite (proj1 (bl_cur _ _ _ _ _ _ _ Hl)), lookup_insert_eq. done.
Qed.

(** A kernel of 80k at 1m, its boot information behind it, and 8m of memory, of which 2m
    are available. *)
Definition small_info : list Z :=
  le32 88 ++ le32 0 ++ (le32 4 ++ le32 16 ++ le32 640 ++ le32 7168) ++
  (le32 6 ++ le32 40 ++ le32 24 ++ le32 0 ++ le32 0x400000 ++ le32 0 ++ le32 0x200000 ++ le32 0 ++ le32 1 ++ le32 0) ++
  le32 0 ++ le32 8 ++ replicate 16 0.
Definition small_task : task := KernelTask 0xC0114000.
Definition small_start : boot :=
  mkBoot (mkMach (mkTst {[KernelTask_ptr := small_task]} KernelTask_ptr 0 1 ∅ ∅ 0 10 (mkCpu 0 0 0 false) [] [])
      (mkVm (mkFrames false [] 0 0xC0118000 0) demo_dir (replicate 1024 0) false) true (replicate 4096 0) 0 0)
    demo_intr 0x113FF0 0 0 0 0 0.

Lemma small_loaded : loaded 0xC0110000 0xC0112000 0xC0111000 0xC0113000 0xC0114000 small_start small_task.
Proof.
  split; [done| |exact demo_boot_dir|done|done|done].
  split; [|apply (bool_decide_unpack _); by vm_compute|done].
  intros x Hx. rewrite !elem_of_cons in Hx. destruct Hx as [->|[->|[->|[->|Hx%not_elem_of_nil]]]]; done.
Qed.
Lemma small_info_ok : info_ok small_info 0x114000 small_task (b_frames small_start) [8; 24] 0x800000.
Proof.
  split; [by apply tagsb_ok| |done| |].
  - exists [], 8, [24]. by repeat split.
  - apply Forall_cons; split; [by apply demo_good|]. apply Forall_singleton. by apply demo_good.
  - by vm_compute.
Qed.

Lemma arch_init_starts_witness :
  ∃ s', arch_init (λ _, mret 0) (λ _ _, 0xFF) (replicate 256 0xC0100000) 8 0xC0118000 0xC0119000
      0xC0110000 0xC0112000 0xC0111000 0xC0113000 0xC0114000 small_info 0x114000 small_start = Ret (tt, s') ∧
    hw_walk (phys (m_vm (b_mach s'))) 0x110000 (b_esp s') = Some (0x113FF0, true, false) ∧ frame_used (b_frames s') 0x401000 = false.
Proof.
  destruct (arch_init_starts (λ _, mret 0) (λ _ _, 0xFF) (replicate 256 0xC0100000) 8 0xC0118000 0xC0119000
    0xC0110000 0xC0112000 0xC0111000 0xC0113000 0xC0114000 small_start small_task small_info 0x114000 [8; 24] 0x800000) as (s' & E & _ & _ & Hw & Hu & _).
  - split; [done|]. by apply Forall_replicate.
  - exact small_loaded.
  - exact small_info_ok.
  - exists s'. split; [exact E|]. clear E. split; [exact Hw|]. change (b_frames s') with (vm_frames (m_vm (b_mach s'))). rewrite Hu by done. by vm_compute.
Defined.

(** Mapping a page under the 4m page changes no translation: the entry goes to the word of
    physical page 0 that the address selects. *)
Theorem pg_map_under_4m_page ct kd v pa x : mt_pgd ct = kd → low_vm kd v → in_low x →
  ∃ m, pg_map ct pa x v = Ret (tt, with_phys m v) ∧ rd m (4 * ADDR_PTE x) = PAGE_ENTRY pa (base_flags ct) ∧
    hw_walk m kd x = hw_walk (phys v) kd x.
Proof.
  intros <- Hv Hx. pose proof (low_pde _ _ _ Hv (low_PGADDR _ Hx)) as Ed. pose proof (low_pde _ _ _ Hv Hx) as Ed'. destruct (lv_kd _ _ Hv) as (K1 & K2 & K3).
  exists (<[table_of (phys v) (mt_pgd ct) (PGADDR x) + 4 * ADDR_PTE (PGADDR x) := PAGE_ENTRY pa (base_flags ct)]> (phys v)). split; [|split].
  - unfold pg_map, pg_map_ext. apply (pg_write_entry_there ct 0); try done; [apply Hv|by apply low_u32, low_PGADDR|by rewrite Ed|by rewrite Ed].
  - unfold table_of. rewrite Ed. replace (PTE_ADDR KERNEL_LOW_4M) with 0 by reflexivity.
    replace (ADDR_PTE (PGADDR x)) with (ADDR_PTE x) by (rewrite !ADDR_PTE_eq; unfold PGADDR, PAGE_SIZE; zlia). by rewrite rd_insert_eq.
  - unfold table_of. rewrite Ed. replace (PTE_ADDR KERNEL_LOW_4M) with 0 by reflexivity. pose proof (ADDR_PTE_bound (PGADDR x)) as Hb. unfold PAGE_SIZE in K3.
    set (m := <[_ := _]> _). assert (Ep : pde_of m (mt_pgd ct) x = KERNEL_LOW_4M).
    { rewrite <- Ed'. unfold pde_of, m. apply rd_insert_ne. pose proof (ADDR_PDE_bound x (low_u32 _ Hx)). lia. }
    rewrite !hw_walk_entries; [|by apply low_u32|by rewrite Ed'|by apply low_u32|by rewrite Ep]. rewrite Ep, Ed'. done.
Qed.
