(* ===== verification/Kmain.v ===== *)
(** * From the boot to the first program

    [kmain] of [kernel/kmain.c], with the [_init] functions it calls and
    [console_init] of [kernel/tty/console.c], on the state of all components.

    [kmain] uses the C library: [libc] holds the functions it calls.  [Stdio] is what
    the theorems need of them, stated with the system calls of this development:
    a stream of [fopen] is a descriptor of [sys_open], [fread] gives the next bytes of
    the file, a line that is printed is one [sys_write] to descriptor 1.  The memory of
    the streams themselves is not part of the state. *)
From Stdlib Require Import ZArith Lia.
From stdpp Require Import base gmap list list_numbers strings.
From S2P Require Import Prelude Mmu ListHead TaskState Task Sched Fdio Machine Brk CStr Fs Tmpfs Cpiofs Intr Console SysFile Syscall Boot.
Open Scope Z_scope.
Open Scope u32_scope.

(** ** The state of the kernel *)

Record kernel : Type := mkKernel { k_mach : mach; k_intr : intrst; k_sc : sctbl; k_fs : fst_; k_cons : consst }.

Definition k_tst (k : kernel) : tst := m_tst (k_mach k).
Definition files_of (k : kernel) : kfiles := mkKf (k_tst k) (k_fs k) (k_cons k).
Definition with_files (f : kfiles) (k : kernel) : kernel :=
  mkKernel (with_tst (kf_tst f) (k_mach k)) (k_intr k) (k_sc k) (kf_fs f) (kf_cons f).

#[export] Program Instance kernel_has_mach : Has kernel mach :=
  {| proj := k_mach; embed m k := mkKernel m (k_intr k) (k_sc k) (k_fs k) (k_cons k) |}.
Next Obligation. done. Qed.
Next Obligation. done. Qed.
Next Obligation. by intros []. Qed.
#[export] Program Instance kernel_has_intr : Has kernel intrst :=
  {| proj := k_intr; embed i k := mkKernel (k_mach k) i (k_sc k) (k_fs k) (k_cons k) |}.
Next Obligation. done. Qed.
Next Obligation. done. Qed.
Next Obligation. by intros []. Qed.
#[export] Program Instance kernel_has_sctbl : Has kernel sctbl :=
  {| proj := k_sc; embed t k := mkKernel (k_mach k) (k_intr k) t (k_fs k) (k_cons k) |}.
Next Obligation. done. Qed.
Next Obligation. done. Qed.
Next Obligation. by intros []. Qed.
#[export] Program Instance kernel_has_files : Has kernel kfiles := {| proj := files_of; embed := with_files |}.
Next Obligation. by intros []. Qed.
Next Obligation. done. Qed.
Next Obligation. by intros [[] ? ? ? ?]. Qed.

Definition onMem {A} (m : M mach A) : M kernel A := zoom (H := kernel_has_mach) m.
Definition onInt {A} (m : M intrst A) : M kernel A := zoom (H := kernel_has_intr) m.
Definition onSc {A} (m : M sctbl A) : M kernel A := zoom (H := kernel_has_sctbl) m.
Definition onFiles {A} (m : M kfiles A) : M kernel A := zoom (H := kernel_has_files) m.
Definition onTask {A} (m : M tst A) : M kernel A := onFiles (onT m).
Definition onFs {A} (m : M fst_ A) : M kernel A := onFiles (onF m).

(** A string literal. *)
Definition text (x : string) : list Z := (λ a, Z.of_N (Ascii.N_of_ascii a)) <$> String.list_ascii_of_string x.
Definition literal (x : string) : list Z := text x ++ [0].

(** ** The initialisation functions *)

(** kernel/syscall/mem.c, signal.c and fdio.c *)
Definition mem_syscall_init : M kernel unit := onSc mem_register ;; onMem early_malloc_disable.
Definition signal_init : M kernel unit :=
  onSc signal_register ;;
  onTask (upd_current (set_sigact (replicate (Z.to_nat NSIG) nil_sigaction))).
Definition fdio_init : M kernel unit := onSc fdio_register ;; onTask fdio_tbl_init ;; mret tt.

(** The C library, as far as [kmain] calls it: a stream is a number, NULL for none;
    [fread] returns the bytes it stores; [fwrite] goes to stdout. *)
Record libc : Type := mkLibc {
  fopen : list Z → list Z → M kernel Z;
  printf : list Z → M kernel unit;
  fread : Z → Z → M kernel (list Z);
  fclose : Z → M kernel unit;
  fwrite : list Z → M kernel unit;
  fork : M kernel Z;
  execve : list Z → list (list Z) → list (list Z) → M kernel Z
}.

Section Kmain.
Context (lib : libc) (port_in : list (Z * Z) → Z → Z).

(** kernel/proc/sched.c *)
Definition kernel_sched_init : M kernel unit := onTask sched_init ;; onInt (task_enable_preempt port_in).

(** The module of arch/x86/console.c, the only one; the keyboard's handler is set by
    its [kbd_init]. *)
Definition console_module (junk : list Z) (refs : Z) : M kernel bool :=
  onInt (idt_set_handler INT_KBD h_kbd_intr) ;;
  onFiles (console_register junk refs).

(** kernel/tty/console.c *)
Definition CONSOLE_DEV : list Z := literal "/dev/tty".
Definition console_init : M kernel unit :=
  fd ← fopen lib CONSOLE_DEV (literal "w");
  (if fd =? NULL then panic "Unable to open" else mret tt) ;;
  fopen lib CONSOLE_DEV (literal "w") ;;
  fopen lib CONSOLE_DEV (literal "w") ;;
  mret tt.

(** kernel/kmain.c, up to the file it prints. *)
Definition complete_line : string := "module init complete
".
Definition kmain_init (junk : list Z) (refs : Z) (Initrd : cpio_ptr) : M kernel unit :=
  onInt syscall_arch_init ;;
  mem_syscall_init ;;
  onSc proc_init ;;
  signal_init ;;
  fdio_init ;;
  kernel_sched_init ;;
  onFs fs_create_rootfs ;;
  root ← onFs (gets FSRootNode);
  onFs (initrd_mount Initrd root) ;;
  onSc uname_syscall_init ;;
  onSc user_syscall_init ;;
  ok ← modules_init [console_module junk refs];
  if negb ok then panic "modules_init failed"
  else
    console_init ;;
    printf lib (text complete_line ++ [0]) ;;
    onInt (task_unmask_preempt port_in) ;;
    onTask intr_enable.

Definition hello_path : list Z := literal "/initrd/hello_world.txt".
Definition print_hello : M kernel unit :=
  fd ← fopen lib hello_path (literal "r");
  buf ← fread lib fd 256;
  fclose lib fd ;;
  fwrite lib buf.

(** The parent of the fork spins for ever. *)
Definition kmain (junk : list Z) (refs : Z) (Initrd : cpio_ptr) : M kernel unit :=
  kmain_init junk refs Initrd ;;
  print_hello ;;
  p ← fork lib;
  if negb (p =? 0) then diverge
  else execve lib (literal "/initrd/dash") [literal "/initrd/dash"] [literal "foo=bar"] ;; mret tt.
End Kmain.

(** ** The C library's contract *)

(** The bytes of a line and how it is printed. *)
Definition is_line (x : list Z) : Prop := (∃ y, x = y ++ [10]) ∧ (length x ≤ 256)%nat.

Class Stdio (lib : libc) := {
  fd_of : Z → Z;
  fopen_opens path mode k fd k' :
    (∀ flags m, onFiles (sys_open path flags m) k = Ret (fd, k')) → fd ≠ -1 →
    ∃ f, fopen lib path mode k = Ret (f, k') ∧ f ≠ NULL ∧ fd_of f = fd;
  printf_writes x k k' :
    is_line x → Forall (λ c, c ≠ 0 ∧ c ≠ 37) x → onFiles (sys_write 1 x (len x)) k = Ret (len x, k') → printf lib (x ++ [0]) k = Ret (tt, k');
  fread_reads f n k cur tbl dv x pos :
    fd_ok (k_tst k) cur tbl → leads_to (files_of k) tbl (fd_of f) dv → file_at (files_of k) dv x pos → Z.of_nat n ≤ 256 →
    ∃ d pos', devs (k_fs k) !! dv = Some d ∧ fread lib f (Z.of_nat n) k =
      Ret (take n (drop pos x), mkKernel (k_mach k) (k_intr k) (k_sc k)
        (set_devs (<[dv := mkFile (dev_io d) pos' (flength d) (fdata d)]> (devs (k_fs k))) (k_fs k)) (k_cons k));
  fclose_closes f k k' :
    (∀ eax, ∃ r, onFiles (sys_close eax (fd_of f)) k = Ret (r, k')) → fclose lib f k = Ret (tt, k');
  fwrite_writes x k k' :
    is_line x → onFiles (sys_write 1 x (len x)) k = Ret (len x, k') → fwrite lib x k = Ret (tt, k')
}.

(** ** The descriptors *)

(** The first descriptors lead to the given devices and the others are free. *)
Record fds_prefix (t : tst) (ds : list Z) (cur : task) (tbl : list Z) : Prop := {
  fp_ok : fd_ok t cur tbl;
  fp_cap : fdcap cur = 16 ∧ fdnext cur ≤ len ds;
  fp_dev i d : lookupZ ds i = Some d → ∃ p r, lookupZ tbl i = Some p ∧ p ≠ NULL ∧ fdescrs t !! p = Some (mkFdescr d r);
  fp_free i : len ds ≤ i < 16 → lookupZ tbl i = Some 0;
  fp_once i j p : lookupZ tbl i = Some p → lookupZ tbl j = Some p → p ≠ NULL → i = j;
  fp_heap : NULL < heap t ∧ ∀ p, is_Some (fdescrs t !! p) → p < heap t
}.

Lemma prefix_lowest t ds cur tbl : fds_prefix t ds cur tbl → len ds < 16 → lowest_free cur tbl (len ds).
Proof.
  intros [Hok [Hc Hn] Hd Hf _ _] Hl. split; [done|]. split; [apply Hf; lia|].
  intros i Hi. destruct Hok as [_ _ _ Hm _].
  destruct (lookupZ_is_Some ds i) as [d Ed]; [unfold len in *; lia|]. destruct (Hd i d Ed) as (p & r & ? & ? & _). by exists p.
Qed.

Lemma prefix_new t ds cur tbl f c : fds_prefix t ds cur tbl → fds_ok (mkKf t f c) cur tbl.
Proof.
  intros [Hok _ _ _ _ [H0 Hh]]. split; [done|]. cbn. split; [|unfold NULL in *; lia].
  destruct (fdescrs t !! heap t) eqn:E; [|done]. assert (heap t < heap t) by (apply Hh; by eexists). lia.
Qed.

Lemma prefix_leads t ds cur tbl f c i d : fds_prefix t ds cur tbl → lookupZ ds i = Some d → leads_to (mkKf t f c) tbl i d.
Proof. intros Hp Hi. destruct (fp_dev _ _ _ _ Hp i d Hi) as (p & r & ? & ? & ?). by exists p, r. Qed.

Lemma lookupZ_snoc {A} (l : list A) (x : A) i y : lookupZ (l ++ [x]) i = Some y → lookupZ l i = Some y ∨ (i = len l ∧ y = x).
Proof.
  unfold lookupZ, len. destruct (Z.leb_spec 0 i); [|done]. intros [E|[Hl E]]%lookup_app_Some; [by left|]. right.
  apply list_lookup_singleton_Some in E as [Hi <-]. split; [lia|done].
Qed.

Lemma lookupZ_len {A} (l : list A) x : lookupZ (l ++ [x]) (len l) = Some x.
Proof. unfold lookupZ, len. rewrite (proj2 (Z.leb_le 0 _)) by lia. rewrite Nat2Z.id. by apply list_lookup_middle. Qed.

Lemma prefix_open t ds cur tbl d : fds_prefix t ds cur tbl → len ds < 16 →
  fds_prefix (opened_state (len ds) d cur tbl t) (ds ++ [d]) (set_fdnext (len ds) cur) (insertZ (len ds) (heap t) tbl).
Proof.
  intros Hp Hl. destruct (prefix_lowest _ _ _ _ Hp Hl) as (L1 & L2 & L3). pose proof Hp as [Hok [Hc Hn] Hd Hf H1 [H0 Hh]].
  pose proof (lookupZ_lt _ _ _ L2) as Hlt. pose proof (len_nonneg ds).
  split.
  - by apply fd_open_ok.
  - split; [done|]. rewrite len_app. change (len [d]) with 1. cbn [fdnext set_fdnext]. lia.
  - intros i x Hx. apply lookupZ_snoc in Hx as [Hx|[-> ->]].
    + destruct (Hd i x Hx) as (p & r & Hp1 & Hp2 & Hp3). exists p, r.
      pose proof (lookupZ_lt _ _ _ Hx). unfold len in *. rewrite lookupZ_insert_ne by lia. split; [done|]. split; [done|]. cbn.
      rewrite lookup_insert_ne; [done|]. intros <-. assert (heap t < heap t) by (apply Hh; by eexists). lia.
    + exists (heap t), 1. rewrite lookupZ_insert_eq by lia. split; [done|]. split; [unfold NULL in *; lia|]. cbn. by rewrite lookup_insert_eq.
  - intros i Hi. rewrite len_app in Hi. change (len [d]) with 1 in Hi. rewrite lookupZ_insert_ne by lia. apply Hf. lia.
  - assert (Hold : ∀ j q, lookupZ tbl j = Some q → q ≠ NULL → q < heap t).
    { intros j q Ej Hq. pose proof (lookupZ_lt _ _ _ Ej). destruct (Z.lt_ge_cases j (len ds)).
      - destruct (lookupZ_is_Some ds j) as [e Ee]; [unfold len in *; lia|]. destruct (Hd j e Ee) as (q' & r & Eq & _ & Er).
        rewrite Ej in Eq. injection Eq as <-. apply Hh. by eexists.
      - rewrite (Hf j) in Ej by (destruct Hok; lia). by injection Ej as <-. }
    intros i j q Ei Ej Hq. destruct (decide (i = len ds)) as [->|], (decide (j = len ds)) as [->|]; [done| | |].
    + rewrite lookupZ_insert_eq in Ei by lia. injection Ei as <-. pose proof (lookupZ_lt _ _ _ Ej). rewrite lookupZ_insert_ne in Ej by lia.
      specialize (Hold j _ Ej Hq). lia.
    + rewrite lookupZ_insert_eq in Ej by lia. injection Ej as <-. pose proof (lookupZ_lt _ _ _ Ei). rewrite lookupZ_insert_ne in Ei by lia.
      specialize (Hold i _ Ei Hq). lia.
    + pose proof (lookupZ_lt _ _ _ Ei). pose proof (lookupZ_lt _ _ _ Ej). rewrite lookupZ_insert_ne in Ei by lia. rewrite lookupZ_insert_ne in Ej by lia.
      by apply (H1 i j q).
  - cbn. split; [lia|]. intros p [x Ex]. apply lookup_insert_Some in Ex as [[<- _]|[_ Ex]]; [lia|].
    assert (p < heap t) by (apply Hh; by eexists). lia.
Qed.

(** Closing the last one. *)
Lemma prefix_close t ds d cur tbl : fds_prefix t (ds ++ [d]) cur tbl → fdnext cur ≤ len ds →
  ∃ t' tbl', fd_close (len ds) t = Ret (0, t') ∧ fds_prefix t' ds cur tbl'.
Proof.
  intros [Hok [Hc _] Hd Hf H1 [H0 Hh]] Hn. pose proof (len_nonneg ds).
  destruct (Hd (len ds) d) as (p & r & Ep & Hp & Er); [by apply lookupZ_len|]. pose proof (lookupZ_lt _ _ _ Ep).
  destruct (fd_close_ok t cur tbl (len ds) p d r Hok Ep Hp Er) as [E Hok']. eexists _, _. split; [exact E|].
  assert (Hkeep : ∀ q, q ≠ p → (if s32 (r - 1) =? 0 then delete p (fdescrs t) else <[p := mkFdescr d (s32 (r - 1))]> (fdescrs t)) !! q = fdescrs t !! q).
  { intros q Hq. destruct (s32 (r - 1) =? 0); [by apply lookup_delete_ne|by apply lookup_insert_ne]. }
  split; [exact Hok'|done| | | |].
  - intros i x Hx. pose proof (lookupZ_lt _ _ _ Hx). unfold len in *.
    destruct (Hd i x) as (q & r' & Eq & Hq & Er'); [rewrite lookupZ_app_l by lia; done|]. exists q, r'.
    rewrite lookupZ_insert_ne by lia. split; [done|]. split; [done|]. cbn [fdescrs with_entry set_fdtbls set_fdescrs].
    rewrite Hkeep; [done|]. intros ->. assert (i = Z.of_nat (length ds)) by (by apply (H1 i _ p)). lia.
  - intros i Hr. destruct (decide (i = len ds)) as [->|]; [apply lookupZ_insert_eq; lia|].
    rewrite lookupZ_insert_ne by lia. apply Hf. rewrite len_app. change (len [d]) with 1. lia.
  - intros i j q Ei Ej Hq. pose proof (lookupZ_lt _ _ _ Ei). pose proof (lookupZ_lt _ _ _ Ej).
    destruct (decide (i = len ds)) as [->|]; [rewrite lookupZ_insert_eq in Ei by lia; by injection Ei as <-|].
    destruct (decide (j = len ds)) as [->|]; [rewrite lookupZ_insert_eq in Ej by lia; by injection Ej as <-|].
    rewrite lookupZ_insert_ne in Ei by lia. rewrite lookupZ_insert_ne in Ej by lia. by apply (H1 i j q).
  - split; [done|]. intros q. cbn [fdescrs with_entry set_fdtbls set_fdescrs heap]. intros [x Ex].
    destruct (decide (q = p)) as [->|Hqp]; [apply Hh; by eexists|]. rewrite Hkeep in Ex by done. apply Hh. by eexists.
Qed.

(** ** Steps on a component *)

Lemma onTask_ok {A} (m : M tst A) k a t : m (k_tst k) = Ret (a, t) →
  onTask m k = Ret (a, mkKernel (with_tst t (k_mach k)) (k_intr k) (k_sc k) (k_fs k) (k_cons k)).
Proof. intros E. exact (zoom_ret (H := kernel_has_files) (onT m) k a _ (onT_ok _ (files_of k) _ _ E)). Qed.
Lemma onFs_ok {A} (m : M fst_ A) k a f : m (k_fs k) = Ret (a, f) →
  onFs m k = Ret (a, mkKernel (k_mach k) (k_intr k) (k_sc k) f (k_cons k)).
Proof.
  intros E. pose proof (zoom_ret (H := kernel_has_files) (onF m) k a _ (onF_ok _ (files_of k) _ _ E)) as E'.
  unfold onFs, onFiles. rewrite E'. by destruct k as [[] ? ? ? ?].
Qed.
Lemma onMem_ok {A} (m : M mach A) k a x : m (k_mach k) = Ret (a, x) →
  onMem m k = Ret (a, mkKernel x (k_intr k) (k_sc k) (k_fs k) (k_cons k)).
Proof. apply (zoom_ret (H := kernel_has_mach)). Qed.
Lemma onInt_ok {A} (m : M intrst A) k a x : m (k_intr k) = Ret (a, x) →
  onInt m k = Ret (a, mkKernel (k_mach k) x (k_sc k) (k_fs k) (k_cons k)).
Proof. apply (zoom_ret (H := kernel_has_intr)). Qed.
Lemma onSc_ok {A} (m : M sctbl A) k a x : m (k_sc k) = Ret (a, x) →
  onSc m k = Ret (a, mkKernel (k_mach k) (k_intr k) x (k_fs k) (k_cons k)).
Proof. apply (zoom_ret (H := kernel_has_sctbl)). Qed.

(** ** Interrupts *)

Lemma set_handler_ok n h i : 0 ≤ n < 256 → length (IDTCallbacks i) = 256%nat →
  idt_set_handler n h i = Ret (tt, set_IDTCallbacks (insertZ n h (IDTCallbacks i)) i).
Proof.
  intros Hn Hl. unfold idt_set_handler. rewrite (bind_ret _ _ i i i), u8_small by (done || lia).
  by rewrite (bind_ret _ _ _ _ _ (aset_ok (IDTCallbacks i) n h i ltac:(lia))).
Qed.

Lemma int_syscall_small : 0 ≤ INT_SYSCALL < 256.
Proof. unfold INT_SYSCALL. lia. Qed.

Lemma mask_preempt_ok port_in i : ∃ tr, task_mask_preempt port_in i = Ret (tt, set_trace tr i).
Proof. unfold task_mask_preempt, pic_mask. destruct (_ <? _); eexists; rewrite (bind_ret _ _ i _ i eq_refl); reflexivity. Qed.
Lemma unmask_preempt_ok port_in i : ∃ tr, task_unmask_preempt port_in i = Ret (tt, set_trace tr i).
Proof. unfold task_unmask_preempt, pic_unmask. destruct (_ <? _); eexists; rewrite (bind_ret _ _ i _ i eq_refl); reflexivity. Qed.

Lemma enable_preempt_ok port_in i : length (IDTCallbacks i) = 256%nat →
  ∃ tr, task_enable_preempt port_in i = Ret (tt, set_IDTCallbacks (insertZ INT_PIT h_sched_preempt (IDTCallbacks i)) (set_trace tr i)).
Proof.
  intros Hl. destruct (mask_preempt_ok port_in i) as [tr E]. exists tr. unfold task_enable_preempt.
  rewrite (bind_ret _ _ _ _ _ E). by rewrite set_handler_ok.
Qed.

(** ** Tasks *)

(** The kernel task, with the fields the initialisation sets. *)
Definition started (tblp : Z) (cur : task) : task :=
  set_list_prev_of KernelTask_ptr (set_list_next_of KernelTask_ptr
    (set_fdtbl tblp (set_fdcap 16 (set_fdnext 0 (set_sigact (replicate (Z.to_nat NSIG) nil_sigaction) cur))))).

Lemma fdio_tbl_init_ok t cur : tasks t !! CurrentTask t = Some cur →
  fdio_tbl_init t = Ret (true, set_fdtbls (<[heap t := replicate 16 0]> (fdtbls t)) (set_heap (heap t + 1)
    (set_tasks (<[CurrentTask t := set_fdtbl (heap t) (set_fdcap 16 (set_fdnext 0 cur))]> (tasks t)) t))).
Proof.
  intros Hc. unfold fdio_tbl_init. rewrite (bind_ret _ _ _ _ _ (upd_current_ok t _ cur Hc)).
  set (t1 := set_tasks _ t). rewrite (bind_ret _ _ _ _ _ (upd_current_ok t1 (set_fdcap 16) (set_fdnext 0 cur) (lookup_insert_eq _ _ _))).
  set (t2 := set_tasks _ t1). rewrite (bind_ret _ _ _ _ _ (new_ptr_ok t2)). set (t3 := set_heap _ t2).
  rewrite (bind_ret _ _ _ _ _ (upd_current_ok t3 (set_fdtbl (heap t2)) (set_fdcap 16 (set_fdnext 0 cur)) (lookup_insert_eq _ _ _))).
  rewrite (bind_ret _ _ _ tt _ eq_refl). unfold t3, t2, t1. cbn. by rewrite !insert_insert_eq.
Qed.

Lemma sched_init_ok t cur : tasks t !! KernelTask_ptr = Some cur →
  sched_init t = Ret (tt, set_tasks (<[KernelTask_ptr := set_list_prev_of KernelTask_ptr (set_list_next_of KernelTask_ptr cur)]> (tasks t)) t).
Proof.
  intros Hc. unfold sched_init. set (u := set_list_prev_of (list_prev_of cur) (set_list_next_of KernelTask_ptr cur)).
  assert (E1 : set_next KernelTask_ptr KernelTask_ptr t = Ret (tt, set_tasks (<[KernelTask_ptr := u]> (tasks t)) t)).
  { rewrite (set_next_ok t _ _ (list_next_of cur) (list_prev_of cur)) by (cbn; unfold tst_links; by rewrite Hc).
    unfold put_links. cbn. unfold tst_set_links. by rewrite Hc. }
  rewrite (bind_ret _ _ _ _ _ E1). set (t1 := set_tasks _ t).
  assert (Hc1 : tasks t1 !! KernelTask_ptr = Some u) by apply lookup_insert_eq.
  rewrite (set_prev_ok t1 _ _ (list_next_of u) (list_prev_of u)) by (cbn [links tst_list]; unfold tst_links; by rewrite Hc1).
  unfold put_links. cbn [set_links tst_list]. unfold tst_set_links. rewrite Hc1. unfold t1. cbn [tasks set_tasks].
  rewrite insert_insert_eq. unfold u. by destruct cur.
Qed.

(** ** The first part of [kmain]: the components that need no file system *)

Definition sc_after (m : M sctbl unit) (s : sctbl) : sctbl := match m s with Ret (_, s') => s' | _ => s end.
Definition sc1 : sctbl := sc_after mem_register empty_sctbl.
Definition sc2 : sctbl := sc_after proc_init sc1.
Definition sc3 : sctbl := sc_after signal_register sc2.
Definition sc4 : sctbl := sc_after fdio_register sc3.

Lemma registrations_ok :
  mem_register empty_sctbl = Ret (tt, sc1) ∧ proc_init sc1 = Ret (tt, sc2) ∧ signal_register sc2 = Ret (tt, sc3) ∧
  fdio_register sc3 = Ret (tt, sc4) ∧ uname_syscall_init sc4 = Ret (tt, sc_after uname_syscall_init sc4) ∧
  user_syscall_init (sc_after uname_syscall_init sc4) = Ret (tt, full_sctbl).
Proof. repeat split; vm_compute; reflexivity. Qed.

(** What the processor's loader and [arch_init] leave for [kmain]. *)
Record bootable (k : kernel) (cur : task) : Prop := {
  bo_task : CurrentTask (k_tst k) = KernelTask_ptr ∧ tasks (k_tst k) !! KernelTask_ptr = Some cur;
  bo_heap : NULL < heap (k_tst k) ∧ ∀ p, is_Some (fdescrs (k_tst k) !! p) → p < heap (k_tst k);
  bo_sc : k_sc k = empty_sctbl;
  bo_idt : length (IDTCallbacks (k_intr k)) = 256%nat
}.

Definition started_tst (cur : task) (t : tst) : tst :=
  set_fdtbls (<[heap t := replicate 16 0]> (fdtbls t)) (set_heap (heap t + 1)
    (set_tasks (<[KernelTask_ptr := started (heap t) cur]> (tasks t)) t)).

Lemma started_prefix cur t : CurrentTask t = KernelTask_ptr → NULL < heap t ∧ (∀ p, is_Some (fdescrs t !! p) → p < heap t) →
  fds_prefix (started_tst cur t) [] (started (heap t) cur) (replicate 16 0).
Proof.
  intros Hc [H0 Hh].
  assert (Hz : ∀ i p, lookupZ (replicate 16 0) i = Some p → p = 0).
  { intros i p E. unfold lookupZ in E. destruct (0 <=? i); [|done]. by apply lookup_replicate in E as [-> _]. }
  split.
  - split; cbn; [rewrite Hc; apply lookup_insert_eq|apply lookup_insert_eq|done|lia|lia].
  - done.
  - intros i d E. unfold lookupZ in E. by destruct (0 <=? i).
  - intros i Hi. change (len []) with 0 in Hi. unfold lookupZ. rewrite (proj2 (Z.leb_le 0 i)) by lia. apply lookup_replicate. split; [done|lia].
  - intros i j p Ei _ Hp. by apply Hz in Ei.
  - cbn. split; [lia|]. intros p Hp. specialize (Hh p Hp). lia.
Qed.

Lemma tasks_started cur t : CurrentTask t = KernelTask_ptr → tasks t !! KernelTask_ptr = Some cur →
  ∃ t1 t2, upd_current (set_sigact (replicate (Z.to_nat NSIG) nil_sigaction)) t = Ret (tt, t1) ∧
    fdio_tbl_init t1 = Ret (true, t2) ∧ sched_init t2 = Ret (tt, started_tst cur t).
Proof.
  intros Hc Ht. eexists _, _. split; [apply upd_current_ok; by rewrite Hc|]. rewrite Hc.
  set (t1 := set_tasks _ t). assert (Hc1 : CurrentTask t1 = KernelTask_ptr) by done. split.
  - apply (fdio_tbl_init_ok t1 (set_sigact (replicate (Z.to_nat NSIG) nil_sigaction) cur)). rewrite Hc1. apply lookup_insert_eq.
  - cbn [CurrentTask set_tasks]. rewrite Hc. erewrite sched_init_ok by apply lookup_insert_eq. unfold t1, started_tst, started. cbn. by rewrite !insert_insert_eq.
Qed.

Lemma start_components port_in k cur : bootable k cur →
  ∃ tr, ∀ B (K : M kernel B),
    (onInt syscall_arch_init ;; mem_syscall_init ;; onSc proc_init ;; signal_init ;; fdio_init ;; kernel_sched_init port_in ;; K) k =
    K (mkKernel (with_tst (started_tst cur (k_tst k)) (with_early false (k_mach k)))
         (set_IDTCallbacks (insertZ INT_PIT h_sched_preempt (insertZ INT_SYSCALL h_syscall_interrupt (IDTCallbacks (k_intr k)))) (set_trace tr (k_intr k)))
         sc4 (k_fs k) (k_cons k)).
Proof.
  intros [[Hc Ht] _ Hs Hi]. destruct registrations_ok as (R1 & R2 & R3 & R4 & _ & _).
  set (i1 := set_IDTCallbacks (insertZ INT_SYSCALL h_syscall_interrupt (IDTCallbacks (k_intr k))) (k_intr k)).
  destruct (enable_preempt_ok port_in i1) as [tr E6]; [cbn; by rewrite length_insertZ|].
  destruct (tasks_started cur (k_tst k) Hc Ht) as (t1 & t2 & E3 & E4 & E5).
  assert (E0 : syscall_arch_init (k_intr k) = Ret (tt, i1)) by exact (set_handler_ok INT_SYSCALL h_syscall_interrupt (k_intr k) int_syscall_small Hi).
  exists tr. intros B K. destruct k as [m i sc f c]. cbn [k_sc k_intr k_tst k_mach k_fs k_cons] in *. subst sc.
  rewrite (bind_ret _ _ _ _ _ (onInt_ok syscall_arch_init (mkKernel m i empty_sctbl f c) tt i1 E0)). cbn [k_mach k_sc k_fs k_cons].
  rewrite (bind_ret mem_syscall_init _ _ tt (mkKernel (with_early false m) i1 sc1 f c)).
  2: { unfold mem_syscall_init. rewrite (bind_ret _ _ _ _ _ (onSc_ok mem_register (mkKernel m i1 empty_sctbl f c) tt sc1 R1)). by apply onMem_ok. }
  rewrite (bind_ret _ _ _ _ _ (onSc_ok proc_init (mkKernel (with_early false m) i1 sc1 f c) tt sc2 R2)). cbn [k_mach k_intr k_fs k_cons].
  rewrite (bind_ret signal_init _ _ tt (mkKernel (with_tst t1 (with_early false m)) i1 sc3 f c)).
  2: { unfold signal_init. rewrite (bind_ret _ _ _ _ _ (onSc_ok signal_register (mkKernel (with_early false m) i1 sc2 f c) tt sc3 R3)). by apply onTask_ok. }
  rewrite (bind_ret fdio_init _ _ tt (mkKernel (with_tst t2 (with_early false m)) i1 sc4 f c)).
  2: { unfold fdio_init. rewrite (bind_ret _ _ _ _ _ (onSc_ok fdio_register (mkKernel (with_tst t1 (with_early false m)) i1 sc3 f c) tt sc4 R4)).
       by rewrite (bind_ret _ _ _ _ _ (onTask_ok fdio_tbl_init (mkKernel (with_tst t1 (with_early false m)) i1 sc4 f c) true t2 E4)). }
  erewrite (bind_ret (kernel_sched_init port_in)); [reflexivity|]. unfold kernel_sched_init.
  rewrite (bind_ret _ _ _ _ _ (onTask_ok sched_init (mkKernel (with_tst t2 (with_early false m)) i1 sc4 f c) tt _ E5)).
  exact (onInt_ok (task_enable_preempt port_in) (mkKernel (with_tst (started_tst cur (m_tst m)) (with_early false m)) i1 sc4 f c) tt _ E6).
Qed.

(** ** The file systems *)

(** Linking an allocated node that is no one's child yet. *)
Lemma link_wf s kids p c nc :
  fs_wf s kids → is_Some (nodes s !! p) → nodes s !! c = Some nc → (∀ q, c ∉ kids q) → c ≠ p → c ≠ NULL →
  (kids p = [] → next_sibling nc = NULL) →
  ∃ m' kids', fs_link_child p c s = Ret (tt, set_nodes m' s) ∧ fs_wf (set_nodes m' s) kids' ∧
    kids' p ≡ₚ c :: kids p ∧ (∀ q, q ≠ p → kids' q = kids q) ∧ nodes_kept (nodes s) m'.
Proof.
  intros Hwf Hp Hc Hfree Hcp Hc0 Hnext. pose proof Hwf as [Ht Hh H0 Hfr].
  destruct (fs_link_child_ok s kids p c nc) as (m' & E & Hr & Ht').
  { split; [done|done|done|by intros q _|done|]. intros pn Ep Ef. apply Hnext.
    pose proof (tree_chain _ _ Ht p pn Ep) as Hch. rewrite Ef in Hch. by inversion Hch. }
  exists m', (kids_at kids p (link_order (below (nodes s) (node_name nc)) [] (kids p) c)).
  assert (Hdom : ∀ q, nodes s !! q = None ↔ m' !! q = None).
  { intros q. specialize (Hr q). by destruct (nodes s !! q), (m' !! q). }
  split; [done|]. split; [|split; [|split]].
  - split; [done| |done|].
    + intros q [n Eq]. apply Hh. destruct (nodes s !! q) eqn:E'; [done|]. apply Hdom in E'. cbn in Eq. congruence.
    + intros q Eq. cbn in Eq. apply Hdom in Eq. unfold kids_at. case_decide as Hd; [|by apply Hfr]. subst q. destruct Hp; congruence.
  - unfold kids_at. rewrite decide_True by done. apply link_order_perm.
  - intros q Hq. unfold kids_at. by rewrite decide_False.
  - intros q n En. by apply (relink_node _ _ q n Hr).
Qed.

(** The static objects only: the node of /dev and the console device. *)
Record fs_start (s : fst_) : Prop := {
  fs_nodes : nodes s = {[devfs_ptr := devfs]};
  fs_devs : devs s !! ConsoleDev_ptr = Some ConsoleDev;
  fs_heap : ConsoleDev_ptr < fheap s
}.

Definition root_node : fsnode := set_name (file_name_buf (cstr (literal "root"))) tmpfs_dir_tmpl.

Lemma rootfs_ok s : fs_start s →
  ∃ s' kids, fs_create_rootfs s = Ret (tt, s') ∧ fs_wf s' kids ∧ FSRootNode s' = fheap s ∧ fheap s' = fheap s + 1 ∧
    kids (fheap s) = [devfs_ptr] ∧ (∀ p, p ≠ fheap s → kids p = []) ∧ archive s' = archive s ∧ devs s' = devs s ∧
    nodes_kept (<[fheap s := root_node]> {[devfs_ptr := devfs]}) (nodes s').
Proof.
  intros [Hn _ Hh]. set (h := fheap s). assert (Hh1 : h ≠ devfs_ptr) by (unfold h, devfs_ptr, ConsoleDev_ptr in *; lia).
  set (s1 := set_root h (set_nodes (<[h := root_node]> {[devfs_ptr := devfs]}) (set_fheap (h + 1) s))).
  assert (Hwf : fs_wf s1 (λ _, [])).
  { split; [| |cbn; unfold h, ConsoleDev_ptr, NULL in *; lia|done].
    - apply (tree_ext _ (kids_at (λ _, []) h [])); [intros p; unfold kids_at; by case_decide|]. apply tree_new.
      + apply (tree_ext _ (kids_at (λ _, []) devfs_ptr [])); [intros p; unfold kids_at; by case_decide|]. rewrite <- insert_empty. apply tree_new.
        * split; intros ?; [intros ? E|intros ? E|intros ? ? [? E]]; by rewrite lookup_empty in E.
        * apply lookup_empty.
        * split; apply (bool_decide_unpack _); by vm_compute.
        * done.
      + by rewrite lookup_singleton_ne.
      + split; apply (bool_decide_unpack _); by vm_compute.
      + done.
    - intros p [n Ep]. cbn in *. apply lookup_insert_Some in Ep as [[<- _]|[_ Ep]]; [lia|].
      apply lookup_singleton_Some in Ep as [<- _]. unfold h, devfs_ptr, ConsoleDev_ptr in *. lia. }
  destruct (link_wf s1 _ h devfs_ptr devfs Hwf) as (m' & kids & E & Hwf' & Hk & Hko & Hkept).
  - unfold s1. cbn [nodes set_root set_nodes]. rewrite lookup_insert_eq. by eexists.
  - unfold s1. cbn [nodes set_root set_nodes]. rewrite lookup_insert_ne by done. apply lookup_singleton_eq.
  - intros q. apply not_elem_of_nil.
  - done.
  - done.
  - done.
  - exists (set_nodes m' s1), kids. split; [|split; [done|split; [done|split; [done|split; [|split; [done|split; [done|split; [done|done]]]]]]]].
    + unfold fs_create_rootfs, tmpfs_create.
      assert (Ec : (tmpfs ← fs_malloc; put_node tmpfs tmpfs_dir_tmpl ;; nm' ← strcpy (name tmpfs_dir_tmpl) [114; 111; 111; 116; 0];
        upd_node tmpfs (set_name nm') ;; mret tmpfs) s = Ret (h, set_nodes (<[h := root_node]> {[devfs_ptr := devfs]}) (set_fheap (h + 1) s))).
      { rewrite (bind_ret _ _ s h (set_fheap (h + 1) s)) by done.
        set (s0 := set_nodes (<[h := tmpfs_dir_tmpl]> (nodes s)) (set_fheap (h + 1) s)).
        rewrite (bind_ret _ _ _ tt s0) by done.
        rewrite (bind_ret _ _ s0 (file_name_buf (cstr (literal "root"))) s0) by (by vm_compute).
        rewrite (bind_ret _ _ s0 tt (set_nodes (<[h := root_node]> {[devfs_ptr := devfs]}) (set_fheap (h + 1) s))); [done|].
        rewrite (upd_node_ok s0 h _ tmpfs_dir_tmpl) by apply lookup_insert_eq. unfold s0. cbn [nodes set_nodes]. by rewrite insert_insert_eq, Hn. }
      rewrite (bind_ret _ _ _ _ _ Ec). rewrite (bind_ret _ _ _ tt s1), (bind_ret _ _ s1 s1 s1) by done. exact E.
    + by apply Permutation_singleton_r.
Qed.

Lemma nodes_kept_name m m' p n : nodes_kept m m' → m !! p = Some n →
  ∃ n', m' !! p = Some n' ∧ node_name n' = node_name n ∧ open n' = open n ∧ device n' = device n.
Proof. intros H E. destruct (H p n E) as (n' & E' & K). exists n'. split; [done|]. rewrite K. by destruct n. Qed.

(** Mounting the initial ramdisk in a directory that has a child. *)
Lemma initrd_mount_ok s kids mp pre es tr post :
  fs_wf s kids → is_Some (nodes s !! mp) → kids mp ≠ [] → bytes (archive s) → archive s = pre ++ encode_archive es tr ++ post →
  Forall is_file es → is_trailer tr →
  let ird := fheap s in
  ∃ s' kids', initrd_mount (HdrAt (len pre)) mp s = Ret (tt, s') ∧ fs_wf s' kids' ∧
    kids' mp ≡ₚ ird :: kids mp ∧ kids' ird ≡ₚ entry_node ird <$> seq 0 (length es) ∧
    (∀ p, p ≠ mp → p ≠ ird → kids' p = kids p) ∧ nodes_kept (nodes s) (nodes s') ∧ rest_kept s s' ∧
    (∃ n, nodes s' !! ird = Some n ∧ node_name n = cstr (literal "initrd")) ∧
    (∀ i e, es !! i = Some e → entry_at s' (entry_node ird i) e).
Proof.
  intros Hwf Hmp Hk0 Hb E Hes Htr ird. pose proof (wf_new _ _ Hwf) as Hnew. pose proof (wf_pos _ _ Hwf) as Hpos. fold ird in Hnew, Hpos.
  destruct (cpiofs_mount_ok s kids [105; 110; 105; 116; 114; 100; 0] pre es tr post Hwf Hb E Hes Htr)
    as (s1 & kids1 & E1 & Hwf1 & (n & En & Nn) & Hki & Hko & Hkept & Hrest & Hat);
    [apply (bool_decide_unpack _); by vm_compute|apply (bool_decide_unpack _); by vm_compute|done|].
  fold ird in E1, En, Hki, Hko, Hat. assert (Hne : ird ≠ mp) by (intros <-; destruct Hmp; congruence).
  destruct Hmp as [nm Em]. destruct (Hkept mp nm Em) as (nm' & Em' & _).
  destruct (link_wf s1 kids1 mp ird n Hwf1) as (m' & kids' & E2 & Hwf2 & Hk2 & Hko2 & Hkept2); try done.
  - intros q Hq. destruct (decide (q = ird)) as [->|Hqi].
    + rewrite Hki in Hq. apply list_elem_of_fmap in Hq as (i & Hi & _). unfold entry_node in Hi. lia.
    + rewrite Hko in Hq by done. destruct (nodes s !! q) eqn:Eq.
      * apply (new_free (nodes s) kids ird q); [apply Hwf|done|by eexists|done].
      * rewrite (wf_fresh _ _ Hwf q Eq) in Hq. by apply not_elem_of_nil in Hq.
  - unfold NULL in *. lia.
  - by rewrite Hko.
  - exists (set_nodes m' s1), kids'. split; [|split; [done|split; [|split; [|split; [|split; [|split; [|split]]]]]]].
    + unfold initrd_mount. rewrite (bind_ret _ _ _ _ _ E1). rewrite (proj2 (Z.eqb_neq ird NULL)) by (unfold NULL in *; lia). exact E2.
    + rewrite Hk2. by rewrite Hko.
    + by rewrite Hko2.
    + intros p Hp1 Hp2. rewrite Hko2, Hko by done. done.
    + by apply (nodes_kept_trans _ (nodes s1)).
    + destruct Hrest. by split.
    + destruct (nodes_kept_name _ m' ird n Hkept2 En) as (n' & En' & Nn' & _). exists n'. split; [done|]. by rewrite Nn', Nn.
    + intros i e Hi. by apply (entry_at_kept s1), Hat.
Qed.

(** Registering the console. *)
Lemma register_device_ok s kids junk x dv :
  fs_wf s kids → is_Some (nodes s !! devfs_ptr) → terminated x → bytes x → bytes junk → (length (cstr x) < length junk)%nat →
  let tty := fheap s in
  ∃ s' kids', devfs_register_device junk x dv s = Ret (tt, s') ∧ fs_wf s' kids' ∧
    kids' devfs_ptr ≡ₚ tty :: kids devfs_ptr ∧ (∀ p, p ≠ devfs_ptr → kids' p = kids p) ∧
    nodes_kept (nodes s) (nodes s') ∧ rest_kept s s' ∧
    (∃ n, nodes s' !! tty = Some n ∧ node_name n = cstr x ∧ open n = p_devfs_open_dev ∧ device n = dv).
Proof.
  intros Hwf Hd Hx Hbx Hb Hl tty. pose proof (wf_new _ _ Hwf) as Hnew.
  set (nm := cstr x ++ 0 :: drop (S (length (cstr x))) junk).
  set (n := mkNode nm None CNull p_devfs_open_dev CUndef NULL NULL NULL dv).
  assert (Hn : named n).
  { split; cbn; unfold nm; [apply elem_of_app; right; apply list_elem_of_here|].
    apply Forall_app. split; [by apply cstr_bytes_full|]. constructor; [lia|]. by apply Forall_drop. }
  destruct (add_child_ok s kids devfs_ptr n Hwf Hd Hn eq_refl eq_refl) as (m' & kids' & E & Hwf' & Hk & Hko & Hr). fold tty in E, Hwf', Hk, Hr.
  set (s1 := set_nodes (<[tty := n]> (nodes s)) (set_fheap (tty + 1) s)) in *.
  exists (set_nodes m' s1), kids'. split; [|split; [done|split; [done|split; [done|split; [|split]]]]].
  - unfold devfs_register_device. rewrite (bind_ret _ _ s tty (set_fheap (tty + 1) s)) by done.
    rewrite (bind_ret _ _ _ _ _ (strcpy_ok junk x _ Hx Hl)). fold nm. by rewrite (bind_ret _ _ _ tt s1).
  - by apply (nodes_kept_new _ _ tty n).
  - split; [done|done|cbn; lia|done].
  - destruct (relink_node _ _ tty n Hr (lookup_insert_eq _ _ _)) as (n' & En' & K). exists n'.
    split; [done|]. rewrite K. split; [|done]. unfold node_name. cbn. unfold nm. apply cstr_app. apply cstr_nonzero.
Qed.

(** The tree [kmain] builds: /dev/tty and /initrd with the files of the archive. *)
Record mounted (s : fst_) (ird tty : Z) (es : list entry) (kids : Z → list Z) : Prop := {
  mt_wf : fs_wf s kids;
  mt_root : is_Some (nodes s !! FSRootNode s);
  mt_kids : kids (FSRootNode s) ≡ₚ [ird; devfs_ptr] ∧ kids devfs_ptr ≡ₚ [tty] ∧ kids ird ≡ₚ entry_node ird <$> seq 0 (length es);
  mt_dev : ∃ n, nodes s !! devfs_ptr = Some n ∧ node_name n = cstr (literal "dev");
  mt_ird : ∃ n, nodes s !! ird = Some n ∧ node_name n = cstr (literal "initrd");
  mt_tty : ∃ n, nodes s !! tty = Some n ∧ node_name n = cstr (literal "tty") ∧ open n = p_devfs_open_dev ∧ device n = ConsoleDev_ptr;
  mt_files i e : es !! i = Some e → entry_at s (entry_node ird i) e;
  mt_console : devs s !! ConsoleDev_ptr = Some ConsoleDev;
  mt_ptrs : NULL < ird ∧ NULL < tty
}.

Lemma mounted_toks t s ird tty es kids : mounted s ird tty es kids → mounted (set_toks t s) ird tty es kids.
Proof. intros [[] ? ? ? ? ? Hf ? ?]. split; try done. intros i e Hi. destruct (Hf i e Hi). by split. Qed.

Lemma mounted_tty s ird tty es kids : mounted s ird tty es kids →
  resolve (nodes s) kids (FSRootNode s) [cstr (literal "dev"); cstr (literal "tty")] = Some tty.
Proof.
  intros Hm. destruct (mt_dev _ _ _ _ _ Hm) as (nd & Ed & Nd). destruct (mt_ird _ _ _ _ _ Hm) as (ni & Ei & Ni).
  destruct (mt_tty _ _ _ _ _ Hm) as (nt & Et & Nt & _). destruct (mt_kids _ _ _ _ _ Hm) as (K1 & K2 & _). cbn [resolve].
  rewrite (find_child_unique _ _ _ devfs_ptr nd); [|intros p Hp|rewrite K1; apply elem_of_cons; right; apply list_elem_of_here|done|done|].
  - rewrite (find_child_unique _ _ _ tty nt); [done|intros p Hp|rewrite K2; apply list_elem_of_here|done|done|].
    + rewrite K2 in Hp. apply list_elem_of_singleton in Hp as ->. by eexists.
    + intros p np Hp. rewrite K2 in Hp. by apply list_elem_of_singleton in Hp as ->.
  - rewrite K1 in Hp. apply elem_of_cons in Hp as [->|Hp]; [by eexists|]. apply list_elem_of_singleton in Hp as ->. by eexists.
  - intros p np Hp Ep En. rewrite K1 in Hp. apply elem_of_cons in Hp as [->|Hp]; [|by apply list_elem_of_singleton in Hp as ->].
    rewrite Ei in Ep. injection Ep as <-. rewrite Ni in En. by vm_compute in En.
Qed.

Lemma mounted_file s ird tty es kids i e : mounted s ird tty es kids → NoDup (e_name <$> es) → es !! i = Some e →
  resolve (nodes s) kids (FSRootNode s) [cstr (literal "initrd"); e_name e] = Some (entry_node ird i).
Proof.
  intros Hm Hnd Hi. destruct (mt_dev _ _ _ _ _ Hm) as (nd & Ed & Nd). destruct (mt_ird _ _ _ _ _ Hm) as (ni & Ei & Ni).
  destruct (mt_kids _ _ _ _ _ Hm) as (K1 & _ & K3). cbn [resolve].
  rewrite (find_child_unique _ _ _ ird ni); [|intros p Hp|rewrite K1; apply list_elem_of_here|done|done|].
  - rewrite (mounted_lookup s kids ird es i e (mt_wf _ _ _ _ _ Hm) (ex_intro _ ni Ei) K3 (mt_files _ _ _ _ _ Hm) Hnd Hi). done.
  - rewrite K1 in Hp. apply elem_of_cons in Hp as [->|Hp]; [by eexists|]. apply list_elem_of_singleton in Hp as ->. by eexists.
  - intros p np Hp Ep En. rewrite K1 in Hp. apply elem_of_cons in Hp as [->|Hp]; [done|]. apply list_elem_of_singleton in Hp as ->.
    rewrite Ed in Ep. injection Ep as <-. rewrite Nd in En. by vm_compute in En.
Qed.

(** What the boot loader leaves: the archive, whose entries have different names. *)
Record ramdisk (s : fst_) (es : list entry) (tr : entry) (post : list Z) : Prop := {
  rd_start : fs_start s;
  rd_bytes : bytes (archive s);
  rd_archive : archive s = encode_archive es tr ++ post;
  rd_files : Forall is_file es ∧ is_trailer tr ∧ NoDup (e_name <$> es)
}.

Lemma mount_all s es tr post junk :
  ramdisk s es tr post → bytes junk → (3 < length junk)%nat →
  ∃ s1 s2 s3 ird tty kids, fs_create_rootfs s = Ret (tt, s1) ∧ initrd_mount (HdrAt 0) (FSRootNode s1) s1 = Ret (tt, s2) ∧
    devfs_register_device junk [116; 116; 121; 0] ConsoleDev_ptr s2 = Ret (tt, s3) ∧ mounted s3 ird tty es kids.
Proof.
  intros [Hs Hb Ha (Hes & Htr & Hnd)] Hj Hjl. pose proof (fs_heap _ Hs) as Hh. pose proof (fs_devs _ Hs) as Hdv.
  destruct (rootfs_ok s Hs) as (s1 & k1 & E1 & Hwf1 & Hr1 & Hh1 & Hk1 & Hko1 & Ha1 & Hd1 & Hn1).
  destruct (Hn1 (fheap s) root_node) as (nr & Er & _); [apply lookup_insert_eq|].
  assert (Hdr : devfs_ptr ≠ fheap s) by (unfold devfs_ptr, ConsoleDev_ptr in *; lia).
  destruct (nodes_kept_name _ _ devfs_ptr devfs Hn1) as (nd & Ed & Nd & _); [rewrite lookup_insert_ne by done; apply lookup_singleton_eq|].
  destruct (initrd_mount_ok s1 k1 (FSRootNode s1) [] es tr post Hwf1) as (s2 & k2 & E2 & Hwf2 & Hk2 & Hki2 & Hko2 & Hn2 & Hrest2 & (ni & Ei & Ni) & Hat2);
    [rewrite Hr1; by eexists|by rewrite Hr1, Hk1|by rewrite Ha1|by rewrite Ha1|done|done|].
  set (ird := fheap s1) in *. destruct (nodes_kept_name _ _ devfs_ptr nd Hn2 Ed) as (nd2 & Ed2 & Nd2 & _).
  destruct (register_device_ok s2 k2 junk [116; 116; 121; 0] ConsoleDev_ptr Hwf2) as (s3 & k3 & E3 & Hwf3 & Hk3 & Hko3 & Hn3 & Hrest3 & Htty);
    [by eexists|apply (bool_decide_unpack _); by vm_compute|apply (bool_decide_unpack _); by vm_compute|done|exact Hjl|].
  set (tty := fheap s2) in *. exists s1, s2, s3, ird, tty, k3. split; [done|]. split; [done|]. split; [done|].
  pose proof (rest_kept_trans _ _ _ Hrest2 Hrest3) as Hrest. destruct (Hn2 _ nr ltac:(rewrite <- Hr1 in Er; exact Er)) as (nr2 & Er2 & _).
  destruct (Hn3 _ nr2 Er2) as (nr3 & Er3 & _). rewrite Hr1 in Er3.
  assert (Hird : ird = fheap s + 1) by done. pose proof (rk_heap _ _ Hrest2).
  split.
  - done.
  - rewrite (rk_root _ _ Hrest), Hr1. by eexists.
  - rewrite (rk_root _ _ Hrest), Hr1. rewrite (Hko3 (fheap s)) by done. rewrite (Hko3 ird) by (unfold devfs_ptr, ConsoleDev_ptr in *; lia).
    rewrite Hr1 in Hk2. split; [by rewrite Hk2, Hk1|]. split; [|done]. rewrite Hk3, Hko2; [by rewrite Hko1|by rewrite Hr1|].
    unfold devfs_ptr, ConsoleDev_ptr in *; lia.
  - destruct (nodes_kept_name _ _ devfs_ptr nd2 Hn3 Ed2) as (n & En & Nn & _). exists n. split; [done|]. rewrite Nn, Nd2, Nd. by vm_compute.
  - destruct (nodes_kept_name _ _ ird ni Hn3 Ei) as (n & En & Nn & _). exists n. split; [done|]. by rewrite Nn.
  - exact Htty.
  - intros i e Hi. pose proof (Hat2 i e Hi) as He. destruct (ea_node _ _ _ He) as (n & En & _).
    assert (entry_node ird i < fheap s2) by (apply (wf_heap _ _ Hwf2); by eexists).
    apply (entry_at_kept s2); [done|apply (rk_devs _ _ Hrest3); lia|apply Hrest3|done].
  - rewrite (rk_devs _ _ Hrest), Hd1; [done|]. unfold ConsoleDev_ptr in *; lia.
  - unfold NULL, ConsoleDev_ptr in *. lia.
Qed.

(** ** Opening files *)

(** What the memory code sees of the current task. *)
Definition cur_view (t : tst) : option mmu_task := mmu_view <$> tasks t !! CurrentTask t.

(** Only the descriptors and the tokenizer change. *)
Record only_files (k k' : kernel) : Prop := {
  of_mach : ∃ t, k_mach k' = with_tst t (k_mach k);
  of_intr : k_intr k' = k_intr k;
  of_sc : k_sc k' = k_sc k;
  of_cons : k_cons k' = k_cons k;
  of_view : cur_view (k_tst k') = cur_view (k_tst k)
}.
Lemma only_files_trans k1 k2 k3 : only_files k1 k2 → only_files k2 k3 → only_files k1 k3.
Proof.
  intros [[t1 A1] A2 A3 A4 A5] [[t2 B1] B2 B3 B4 B5]. split; [|congruence..]. exists t2. by rewrite B1, A1.
Qed.

(** Opening a path. *)
Lemma open_path_ok k ird tty es kids ds cur tbl path q n dv :
  mounted (k_fs k) ird tty es kids → fds_prefix (k_tst k) ds cur tbl → len ds < 16 →
  terminated path → bytes path → Z.of_nat (length path) < 2 ^ 32 → path_components path ≠ [] →
  resolve (nodes (k_fs k)) kids (FSRootNode (k_fs k)) (path_components path) = Some q → q ≠ NULL →
  nodes (k_fs k) !! q = Some n → dv ≠ NULL →
  (∀ t, let s1 := with_kf (set_toks t (k_fs k)) (files_of k) in node_open (open n) q 0 s1 = Ret (dv, s1)) →
  ∃ k' cur' tbl', (∀ flags m, onFiles (sys_open path flags m) k = Ret (len ds, k')) ∧ only_files k k' ∧
    mounted (k_fs k') ird tty es kids ∧ (∃ t, k_fs k' = set_toks t (k_fs k)) ∧
    fds_prefix (k_tst k') (ds ++ [dv]) cur' tbl' ∧ fdnext cur' = len ds.
Proof.
  intros Hm Hp Hl Ht Hb Hlen Hc Hr Hq En Hdv Hopen.
  destruct (sys_open_ok (files_of k) kids cur tbl path q n dv (len ds)) as (t & E & _); try done.
  - apply Hm.
  - apply Hm.
  - by apply (prefix_new _ ds).
  - by apply (prefix_lowest (k_tst k)).
  - exists (with_files (mkKf (opened_state (len ds) dv cur tbl (k_tst k)) (set_toks t (k_fs k)) (k_cons k)) k),
      (set_fdnext (len ds) cur), (insertZ (len ds) (heap (k_tst k)) tbl).
    split; [|split; [|split; [|split; [by exists t|split; [by apply prefix_open|done]]]]].
    + intros flags m. apply (zoom_ret (H := kernel_has_files)). exact (E flags m).
    + split; try done; [by eexists|]. unfold cur_view. cbn. rewrite lookup_insert_eq, (fo_cur _ _ _ (fp_ok _ _ _ _ Hp)). done.
    + by apply mounted_toks.
Qed.

Lemma tty_path_ok : terminated CONSOLE_DEV ∧ bytes CONSOLE_DEV ∧ path_components CONSOLE_DEV = [cstr (literal "dev"); cstr (literal "tty")].
Proof. split; [|split]; [apply (bool_decide_unpack _); by vm_compute..|by vm_compute]. Qed.

Lemma open_console_ok k ird tty es kids ds cur tbl :
  mounted (k_fs k) ird tty es kids → fds_prefix (k_tst k) ds cur tbl → len ds < 16 →
  ∃ k' cur' tbl', (∀ flags m, onFiles (sys_open CONSOLE_DEV flags m) k = Ret (len ds, k')) ∧ only_files k k' ∧
    mounted (k_fs k') ird tty es kids ∧ fds_prefix (k_tst k') (ds ++ [ConsoleDev_ptr]) cur' tbl'.
Proof.
  intros Hm Hp Hl. destruct (mt_tty _ _ _ _ _ Hm) as (n & En & _ & Eo & Ed). destruct tty_path_ok as (T1 & T2 & T3).
  destruct (open_path_ok k ird tty es kids ds cur tbl CONSOLE_DEV tty n ConsoleDev_ptr) as (k' & cur' & tbl' & E & Ho & Hm' & _ & Hp' & _); try done.
  - rewrite T3. by apply (mounted_tty _ ird tty es).
  - destruct (mt_ptrs _ _ _ _ _ Hm). unfold NULL in *. lia.
  - intros t s1. rewrite Eo. cbn [node_open]. unfold devfs_open_dev.
    rewrite (bind_ret _ _ s1 n s1) by (by rewrite (onF_ok _ s1 n (kf_fs s1)); [rewrite with_kf_same|unfold get_node; mred; cbn; rewrite En]).
    rewrite Ed. pose proof (mt_console _ _ _ _ _ Hm) as Hc.
    rewrite (bind_ret _ _ s1 ConsoleDev s1) by (by rewrite (onF_ok _ s1 ConsoleDev (kf_fs s1)); [rewrite with_kf_same|unfold get_dev; mred; cbn; rewrite Hc]).
    rewrite (bind_ret _ _ s1 0 s1) by done.
    rewrite (bind_ret _ _ s1 n s1) by (by rewrite (onF_ok _ s1 n (kf_fs s1)); [rewrite with_kf_same|unfold get_node; mred; cbn; rewrite En]).
    by rewrite Ed.
  - by exists k', cur', tbl'.
Qed.

(** A file of the ramdisk. *)
Lemma open_ramdisk_ok k ird tty es kids ds cur tbl path i e :
  mounted (k_fs k) ird tty es kids → fds_prefix (k_tst k) ds cur tbl → len ds < 16 → NoDup (e_name <$> es) →
  es !! i = Some e → is_file e → terminated path → bytes path → Z.of_nat (length path) < 2 ^ 32 →
  path_components path = [cstr (literal "initrd"); e_name e] →
  let dv := entry_node ird i - 1 in
  ∃ k' cur' tbl', (∀ flags m, onFiles (sys_open path flags m) k = Ret (len ds, k')) ∧ only_files k k' ∧
    (∃ t, k_fs k' = set_toks t (k_fs k)) ∧ fds_prefix (k_tst k') (ds ++ [dv]) cur' tbl' ∧ fdnext cur' = len ds ∧
    dv ≠ ConsoleDev_ptr ∧ file_at (files_of k') dv (e_data e) 0.
Proof.
  intros Hm Hp Hl Hnd Hi [He _] T1 T2 T3 T4 dv. pose proof (eo_data _ He) as Hdl.
  destruct (mt_files _ _ _ _ _ Hm i e Hi) as [(n & Eq & _ & Ho & _ & Hd) (off & Ed & O1 & O2 & O3)].
  assert (Hq : ird < dv) by (unfold dv, entry_node; lia). destruct (mt_ptrs _ _ _ _ _ Hm) as [Hird _].
  destruct (open_path_ok k ird tty es kids ds cur tbl path (entry_node ird i) n dv Hm Hp Hl T1 T2 T3)
    as (k1 & c1 & l1 & E1 & Ho1 & _ & [tk Hf1] & Hp1 & Hn1); try done.
  - by rewrite T4.
  - rewrite T4. by apply (mounted_file _ ird tty es kids i e).
  - unfold dv, NULL in *. lia.
  - unfold NULL in *. lia.
  - intros tk s1. rewrite Ho. cbn [node_open]. rewrite (onF_ok _ s1 dv (kf_fs s1)); [by rewrite with_kf_same|].
    unfold cpiofs_open_file, get_node. mred. cbn. rewrite Eq. cbn. by rewrite Hd.
  - exists k1, c1, l1. split; [done|]. split; [done|]. split; [by exists tk|]. split; [done|]. split; [done|]. split.
    + intros E. unfold dv in E. rewrite E in Ed. rewrite (mt_console _ _ _ _ _ Hm) in Ed. by injection Ed.
    + split; [|split; [lia|lia]]. exists off. change (kf_fs (files_of k1)) with (k_fs k1). by rewrite Hf1.
Qed.

Section Library.
Context {lib : libc} {Hlib : Stdio lib}.

Lemma open_tty_ok k ird tty es kids ds cur tbl mode :
  mounted (k_fs k) ird tty es kids → fds_prefix (k_tst k) ds cur tbl → len ds < 16 →
  ∃ f k' cur' tbl', fopen lib CONSOLE_DEV mode k = Ret (f, k') ∧ f ≠ NULL ∧ only_files k k' ∧
    mounted (k_fs k') ird tty es kids ∧ fds_prefix (k_tst k') (ds ++ [ConsoleDev_ptr]) cur' tbl'.
Proof.
  intros Hm Hp Hl. destruct (open_console_ok k ird tty es kids ds cur tbl Hm Hp Hl) as (k' & cur' & tbl' & E & H).
  pose proof (len_nonneg ds). destruct (fopen_opens CONSOLE_DEV mode k (len ds) k' E ltac:(lia)) as (f & Ef & Hf & _).
  by exists f, k', cur', tbl'.
Qed.

Lemma console_init_ok k ird tty es kids cur tbl :
  mounted (k_fs k) ird tty es kids → fds_prefix (k_tst k) [] cur tbl →
  ∃ k' cur' tbl', console_init lib k = Ret (tt, k') ∧ only_files k k' ∧
    mounted (k_fs k') ird tty es kids ∧ fds_prefix (k_tst k') [ConsoleDev_ptr; ConsoleDev_ptr; ConsoleDev_ptr] cur' tbl'.
Proof.
  intros Hm0 Hp0.
  destruct (open_tty_ok k ird tty es kids [] cur tbl (literal "w") Hm0 Hp0 ltac:(done)) as (f1 & k1 & c1 & t1 & E1 & F1 & O1 & Hm1 & Hp1).
  destruct (open_tty_ok k1 ird tty es kids _ c1 t1 (literal "w") Hm1 Hp1 ltac:(done)) as (f2 & k2 & c2 & t2 & E2 & F2 & O2 & Hm2 & Hp2).
  destruct (open_tty_ok k2 ird tty es kids _ c2 t2 (literal "w") Hm2 Hp2 ltac:(done)) as (f3 & k3 & c3 & t3 & E3 & F3 & O3 & Hm3 & Hp3).
  exists k3, c3, t3. split; [|split; [|done]].
  - unfold console_init. rewrite (bind_ret _ _ _ _ _ E1). rewrite (proj2 (Z.eqb_neq f1 NULL)) by done.
    rewrite (bind_ret _ _ k1 tt k1) by done. rewrite (bind_ret _ _ _ _ _ E2). by rewrite (bind_ret _ _ _ _ _ E3).
  - eapply only_files_trans; [done|]. by eapply only_files_trans.
Qed.

(** A write to standard output. *)
Lemma tty_print_ok k ds cur tbl t x :
  devs (k_fs k) !! ConsoleDev_ptr = Some ConsoleDev → fds_prefix (k_tst k) (ConsoleDev_ptr :: ConsoleDev_ptr :: ds) cur tbl →
  shows (screen (k_cons k)) t → Forall (λ c, s8 c ≠ 8) x → len x < 2 ^ 31 →
  ∃ v, onFiles (sys_write 1 x (len x)) k =
      Ret (len x, mkKernel (k_mach k) (k_intr k) (k_sc k) (k_fs k) (set_screen v (k_cons k))) ∧ shows v (t_puts (s8 <$> x) t).
Proof.
  intros Hm Hp Hs Hx Hl.
  destruct (tty_write_ok (files_of k) cur tbl 1 ConsoleDev_ptr t x [] (fp_ok _ _ _ _ Hp) (prefix_leads _ _ _ _ _ _ 1 ConsoleDev_ptr Hp eq_refl)
    Hm Hs Hx Hl) as (v & E & Hv). rewrite app_nil_r in E. exists v. split; [|done].
  unfold onFiles. rewrite (zoom_ret (H := kernel_has_files) _ k _ _ E). by destruct k as [[] ? ? ? ?].
Qed.
End Library.

(** Reading a file of the ramdisk moves its position only. *)
Lemma read_file_eq k cur tbl fd dv x pos n :
  fd_ok (k_tst k) cur tbl → leads_to (files_of k) tbl fd dv → file_at (files_of k) dv x pos → Z.of_nat n < 2 ^ 31 →
  let y := take n (drop pos x) in
  ∃ d pos', devs (k_fs k) !! dv = Some d ∧ onFiles (sys_read fd (Z.of_nat n)) k =
    Ret ((len y, Some <$> y), mkKernel (k_mach k) (k_intr k) (k_sc k)
      (set_devs (<[dv := mkFile (dev_io d) pos' (flength d) (fdata d)]> (devs (k_fs k))) (k_fs k)) (k_cons k)) ∧ (length y ≤ length x)%nat.
Proof.
  intros Hok Hl [(off & Ed & O1 & O2 & O3) [Hp Hx]] Hn y. eexists _, _. split; [exact Ed|]. split.
  2: { unfold y. rewrite length_take, length_drop. lia. }
  pose proof (cpiofs_read_eq (k_fs k) dv off x pos n Ed O1 O2 O3 Hp Hx Hn) as Er. cbn zeta in Er. fold y in Er.
  unfold onFiles. erewrite (zoom_ret (H := kernel_has_files) _ k).
  2: { unfold sys_read. change (proj k) with (files_of k).
       rewrite (with_fd_ok _ _ _ (files_of k) cur tbl dv _ Hok Hl (proj2 (fo_max _ _ _ Hok)) Ed). cbn [dev_read dev_io io_read cpiofiledev_tmpl].
       rewrite (bind_ret _ _ _ _ _ (onF_ok _ (files_of k) _ _ Er)). reflexivity. }
  cbn. do 3 f_equal. by destruct k as [[] ? ? ? ?].
Qed.

(** ** The console's module *)

Lemma prefix_alloc t ds cur tbl x : fds_prefix t ds cur tbl →
  fds_prefix (set_fdescrs (<[heap t := x]> (fdescrs t)) (set_heap (heap t + 1) t)) ds cur tbl.
Proof.
  intros [[H1 H2 H3 H4 H5] Hc Hd Hf Ho [H0 Hh]]. split; try done.
  - split; try done. cbn. lia.
  - intros i d Hi. destruct (Hd i d Hi) as (p & r & ? & ? & Ep). exists p, r. split; [done|]. split; [done|]. cbn.
    rewrite lookup_insert_ne; [done|]. intros <-. assert (heap t < heap t) by (apply Hh; by eexists). lia.
  - cbn. split; [lia|]. intros p [y Ey]. apply lookup_insert_Some in Ey as [[<- _]|[_ Ey]]; [lia|].
    assert (p < heap t) by (apply Hh; by eexists). lia.
Qed.

Lemma console_module_ok k junk refs f3 :
  length (IDTCallbacks (k_intr k)) = 256%nat → Z.of_nat (length (buffer (screen (k_cons k)))) = VGA_WINDOW →
  devfs_register_device junk [116; 116; 121; 0] ConsoleDev_ptr (k_fs k) = Ret (tt, f3) →
  ∃ v, modules_init [console_module junk refs] k =
    Ret (true, mkKernel (with_tst (set_fdescrs (<[heap (k_tst k) := mkFdescr ConsoleDev_ptr refs]> (fdescrs (k_tst k))) (set_heap (heap (k_tst k) + 1) (k_tst k))) (k_mach k))
      (set_IDTCallbacks (insertZ INT_KBD h_kbd_intr (IDTCallbacks (k_intr k))) (k_intr k)) (k_sc k) f3 (set_kbd_ready true (set_screen v (k_cons k)))) ∧
    shows v blank_term.
Proof.
  intros Hi Hb Ef. destruct (vga_init_ok (screen (k_cons k)) Hb) as (v & Ev & Hv). exists v. split; [|done].
  set (i' := set_IDTCallbacks _ _). set (c' := set_kbd_ready true _). set (t' := set_fdescrs _ _).
  assert (Ei : idt_set_handler INT_KBD h_kbd_intr (k_intr k) = Ret (tt, i')) by (apply set_handler_ok; [unfold INT_KBD, INT_PIC1_BASE; lia|done]).
  assert (Er : console_register junk refs (files_of k) = Ret (true, mkKf t' f3 c')).
  { unfold console_register. set (s0 := files_of k). set (c1 := set_screen v (k_cons k)).
    rewrite (bind_ret _ _ s0 tt (with_kc c1 s0)).
    2: { apply onC_ok. exact (zoom_ret (H := cons_has_vga) vga_console_init (k_cons k) tt v Ev). }
    rewrite (bind_ret _ _ _ tt (with_kc c' s0)) by done. set (s1 := with_kc c' s0).
    rewrite (bind_ret _ _ s1 (heap (k_tst k)) (with_kt (set_heap (heap (k_tst k) + 1) (k_tst k)) s1)) by (apply onT_ok, new_ptr_ok).
    rewrite (bind_ret _ _ _ tt (with_kt t' s1)) by done. by rewrite (bind_ret _ _ _ _ _ (onF_ok _ (with_kt t' s1) tt f3 Ef)). }
  assert (Ec : console_module junk refs k = Ret (true, mkKernel (with_tst t' (k_mach k)) i' (k_sc k) f3 c')).
  { unfold console_module. rewrite (bind_ret _ _ _ _ _ (onInt_ok _ k tt i' Ei)).
    exact (zoom_ret (H := kernel_has_files) (console_register junk refs) (mkKernel (k_mach k) i' (k_sc k) (k_fs k) (k_cons k)) true _ Er). }
  unfold modules_init, run_modules. by rewrite (bind_ret _ _ _ _ _ Ec).
Qed.

(** ** The whole of [kmain] up to the fork *)

Definition tty3 : list Z := [ConsoleDev_ptr; ConsoleDev_ptr; ConsoleDev_ptr].

(** The kernel is up: calls, interrupts, the tree and the three standard descriptors. *)
Record running (k : kernel) (ird tty : Z) (es : list entry) (kids : Z → list Z) (shown : term) : Prop := {
  rn_tree : mounted (k_fs k) ird tty es kids;
  rn_fds : ∃ cur tbl, fds_prefix (k_tst k) tty3 cur tbl;
  rn_calls : k_sc k = full_sctbl;
  rn_handlers : lookupZ (IDTCallbacks (k_intr k)) INT_SYSCALL = Some h_syscall_interrupt ∧
    lookupZ (IDTCallbacks (k_intr k)) INT_PIT = Some h_sched_preempt ∧ lookupZ (IDTCallbacks (k_intr k)) INT_KBD = Some h_kbd_intr;
  rn_intr : intr (cpu (k_tst k)) = true;
  rn_malloc : EarlyMallocEnabled (k_mach k) = false;
  rn_screen : shows (screen (k_cons k)) shown
}.

Lemma handlers_ok (l : list isrfunc) : length l = 256%nat →
  let l' := insertZ INT_KBD h_kbd_intr (insertZ INT_PIT h_sched_preempt (insertZ INT_SYSCALL h_syscall_interrupt l)) in
  lookupZ l' INT_SYSCALL = Some h_syscall_interrupt ∧ lookupZ l' INT_PIT = Some h_sched_preempt ∧ lookupZ l' INT_KBD = Some h_kbd_intr.
Proof.
  intros Hl l'. unfold l', INT_KBD, INT_PIT, INT_PIC1_BASE, INT_SYSCALL. split; [|split].
  - rewrite !lookupZ_insert_ne by lia. apply lookupZ_insert_eq. lia.
  - rewrite lookupZ_insert_ne by lia. apply lookupZ_insert_eq. rewrite length_insertZ. lia.
  - apply lookupZ_insert_eq. rewrite !length_insertZ. lia.
Qed.

Lemma prefix_cpu t ds cur tbl r : fds_prefix t ds cur tbl → fds_prefix (set_cpu r t) ds cur tbl.
Proof. intros [[] ? ? ? ? ?]. by split. Qed.

Lemma complete_line_ok : is_line (text complete_line) ∧ Forall (λ c, c ≠ 0 ∧ c ≠ 37) (text complete_line) ∧
  Forall (λ c, s8 c ≠ 8) (text complete_line) ∧ len (text complete_line) < 2 ^ 31.
Proof.
  split; [split; [by exists (text "module init complete")|apply (bool_decide_unpack _); by vm_compute]|].
  split; [|split; [|by vm_compute]]; apply (bool_decide_unpack _); by vm_compute.
Qed.

Definition ready_term : term := t_puts (s8 <$> text complete_line) blank_term.

Lemma kmain_init_ok lib {Hlib : Stdio lib} port_in k cur es tr post junk refs :
  bootable k cur → ramdisk (k_fs k) es tr post → bytes junk → (3 < length junk)%nat →
  Z.of_nat (length (buffer (screen (k_cons k)))) = VGA_WINDOW →
  ∃ k' ird tty kids, kmain_init lib port_in junk refs (HdrAt 0) k = Ret (tt, k') ∧ running k' ird tty es kids ready_term ∧
    m_vm (k_mach k') = m_vm (k_mach k) ∧ cur_view (k_tst k') = Some (mmu_view cur).
Proof.
  intros Hbo Hrd Hj Hjl Hvga.
  destruct (mount_all (k_fs k) es tr post junk Hrd Hj Hjl) as (f1 & f2 & f3 & ird & tty & kids & F1 & F2 & F3 & Hm).
  destruct (start_components port_in k cur Hbo) as [tr0 Est]. unfold kmain_init. rewrite Est. clear Est.
  set (t0 := started_tst cur (k_tst k)). set (m0 := with_tst t0 (with_early false (k_mach k))). set (i0 := set_IDTCallbacks _ _).
  destruct registrations_ok as (_ & _ & _ & _ & R5 & R6). destruct Hbo as [[Hct Hct2] Hheap Hsc Hidt].
  assert (Hp0 : fds_prefix t0 [] (started (heap (k_tst k)) cur) (replicate 16 0)) by (by apply started_prefix).
  rewrite (bind_ret _ _ _ _ _ (onFs_ok fs_create_rootfs (mkKernel m0 i0 sc4 (k_fs k) (k_cons k)) tt f1 F1)). cbn [k_mach k_intr k_sc k_cons].
  set (k1 := mkKernel m0 i0 sc4 f1 (k_cons k)).
  rewrite (bind_ret (onFs (gets FSRootNode)) _ k1 (FSRootNode f1) k1) by (by rewrite (onFs_ok _ k1 (FSRootNode f1) f1)).
  rewrite (bind_ret _ _ _ _ _ (onFs_ok _ k1 tt f2 F2)). cbn [k_mach k_intr k_sc k_cons k1].
  rewrite (bind_ret _ _ _ _ _ (onSc_ok uname_syscall_init (mkKernel m0 i0 sc4 f2 (k_cons k)) tt _ R5)). cbn [k_mach k_intr k_fs k_cons].
  rewrite (bind_ret _ _ _ _ _ (onSc_ok user_syscall_init (mkKernel m0 i0 _ f2 (k_cons k)) tt _ R6)). cbn [k_mach k_intr k_fs k_cons].
  set (k2 := mkKernel m0 i0 full_sctbl f2 (k_cons k)).
  assert (Hi0 : length (IDTCallbacks (k_intr k2)) = 256%nat) by (cbn; by rewrite !length_insertZ).
  destruct (console_module_ok k2 junk refs f3 Hi0 Hvga F3) as (v & E3 & Hv).
  rewrite (bind_ret _ _ _ _ _ E3). cbn [negb]. clear E3.
  set (t3 := set_fdescrs _ _). set (i3 := set_IDTCallbacks _ (k_intr k2)). set (c3 := set_kbd_ready _ _). set (k3 := mkKernel _ i3 _ f3 c3).
  assert (Hp3 : fds_prefix (k_tst k3) [] (started (heap (k_tst k)) cur) (replicate 16 0)) by exact (prefix_alloc _ _ _ _ _ Hp0).
  destruct (console_init_ok k3 ird tty es kids _ _ Hm Hp3) as (k4 & c4 & l4 & E4 & [[t4 Hm4] Hi4 Hs4 Hc4 Hv4] & Hm4' & Hp4).
  rewrite (bind_ret _ _ _ _ _ E4). clear E4. destruct complete_line_ok as (L1 & L2 & L3 & L4).
  destruct (tty_print_ok k4 _ c4 l4 blank_term (text complete_line) (mt_console _ _ _ _ _ Hm4') Hp4) as (v5 & E5 & Hv5); [by rewrite Hc4|done|done|].
  rewrite (bind_ret _ _ _ _ _ (printf_writes _ _ _ L1 L2 E5)). clear E5.
  destruct (unmask_preempt_ok port_in (k_intr k4)) as [tr6 E6].
  rewrite (bind_ret _ _ _ _ _ (onInt_ok (task_unmask_preempt port_in) (mkKernel (k_mach k4) (k_intr k4) (k_sc k4) (k_fs k4) (set_screen v5 (k_cons k4))) tt _ E6)).
  cbn [k_mach k_sc k_fs k_cons]. set (k6 := mkKernel (k_mach k4) _ (k_sc k4) (k_fs k4) _).
  exists (mkKernel (with_tst (set_cpu (mkCpu (r_esp (cpu (k_tst k6))) (r_ebp (cpu (k_tst k6))) (r_cr3 (cpu (k_tst k6))) true) (k_tst k6)) (k_mach k6)) (k_intr k6) (k_sc k6) (k_fs k6) (k_cons k6)), ird, tty, kids.
  split; [by apply onTask_ok|]. split; [|split; [cbn; by rewrite Hm4|]].
  2: { transitivity (cur_view (k_tst k4)); [done|]. rewrite Hv4. unfold cur_view. cbn. by rewrite Hct, lookup_insert_eq. }
  split; cbn [k_fs k_tst k_mach k_sc k_intr k_cons k6].
  - done.
  - exists c4, l4. by apply prefix_cpu.
  - by rewrite Hs4.
  - cbn. rewrite Hi4. by apply handlers_ok.
  - done.
  - cbn. by rewrite Hm4.
  - done.
Qed.

Definition hello_name : list Z := text "hello_world.txt".
Lemma hello_path_ok : terminated hello_path ∧ bytes hello_path ∧ path_components hello_path = [cstr (literal "initrd"); hello_name].
Proof. split; [|split]; [apply (bool_decide_unpack _); by vm_compute..|by vm_compute]. Qed.

(** A text that [fwrite] shows at once. *)
Definition shown_text (x : list Z) : Prop := is_line x ∧ Forall (λ c, s8 c ≠ 8) x.

Lemma print_hello_ok lib {Hlib : Stdio lib} k ird tty es kids t i e :
  running k ird tty es kids t → NoDup (e_name <$> es) → es !! i = Some e → is_file e → e_name e = hello_name →
  shown_text (take 256 (e_data e)) →
  ∃ k', print_hello lib k = Ret (tt, k') ∧ (∃ cur tbl, fds_prefix (k_tst k') tty3 cur tbl) ∧
    nodes (k_fs k') = nodes (k_fs k) ∧ FSRootNode (k_fs k') = FSRootNode (k_fs k) ∧ k_sc k' = k_sc k ∧ k_intr k' = k_intr k ∧
    shows (screen (k_cons k')) (t_puts (s8 <$> take 256 (e_data e)) t).
Proof.
  intros [Hm (cur & tbl & Hp) _ _ _ _ Hs] Hnd Hi He En [Hx Hx8]. destruct hello_path_ok as (P1 & P2 & P3).
  destruct (open_ramdisk_ok k ird tty es kids tty3 cur tbl hello_path i e Hm Hp ltac:(done) Hnd Hi He P1 P2 ltac:(done) ltac:(by rewrite P3, En))
    as (k1 & c1 & l1 & E0 & [[t1 Hm1] Hi1 Hs1 Hc1 _] & [tk Hf1] & Hp1 & Hn1 & Hne & Hfa).
  set (q := entry_node ird i) in *. destruct (fopen_opens hello_path (literal "r") k 3 k1 E0 ltac:(done)) as (f & E1 & _ & Hfd).
  assert (Hdk1 : devs (k_fs k1) = devs (k_fs k)) by (by rewrite Hf1). destruct (fa_dev _ _ _ _ Hfa) as (off & Ed & _).
  change (kf_fs (files_of k1)) with (k_fs k1) in Ed. rewrite Hdk1 in Ed.
  destruct (fread_reads f 256 k1 c1 l1 (q - 1) (e_data e) 0) as (d & pos' & Ed' & E2); [apply Hp1| |exact Hfa|done|].
  { rewrite Hfd. exact (prefix_leads _ _ _ _ (k_fs k1) (k_cons k1) 3 (q - 1) Hp1 eq_refl). }
  rewrite drop_0 in E2. rewrite Hdk1, Ed in Ed'. injection Ed' as <-. cbn [dev_io flength fdata] in E2.
  unfold print_hello. rewrite (bind_ret _ _ _ _ _ E1), (bind_ret _ _ _ _ _ E2). clear E1 E2.
  set (d' := mkFile cpiofiledev_tmpl pos' _ _) in *. set (k2 := mkKernel _ _ _ (set_devs _ _) _).
  destruct (prefix_close (k_tst k1) tty3 (q - 1) c1 l1 Hp1) as (t3 & l3 & E3 & Hp3); [rewrite Hn1; lia|].
  set (k3 := with_files (with_kt t3 (files_of k2)) k2).
  assert (E3' : ∀ eax, ∃ r, onFiles (sys_close eax (fd_of f)) k2 = Ret (r, k3)).
  { intros eax. rewrite Hfd. assert (Hd2 : devs (kf_fs (files_of k2)) !! (q - 1) = Some d') by (cbn; apply lookup_insert_eq).
    eexists. apply (zoom_ret (H := kernel_has_files)). unfold sys_close. change (proj k2) with (files_of k2).
    rewrite (with_fd_ok _ _ _ (files_of k2) c1 l1 (q - 1) d' (fp_ok _ _ _ _ Hp1)); [|exact (prefix_leads _ _ _ _ _ _ 3 (q - 1) Hp1 eq_refl)| |done].
    - change (io_close (dev_io d')) with p_cpiofs_close_file. cbn [dev_close].
      rewrite (bind_ret _ _ (files_of k2) eax (files_of k2)) by (by destruct k2).
      rewrite (bind_ret _ _ _ _ _ (onT_ok _ (files_of k2) 0 t3 E3)). reflexivity.
    - destruct (fp_cap _ _ _ _ Hp1). lia. }
  rewrite (bind_ret _ _ _ _ _ (fclose_closes f k2 k3 E3')). clear E3 E3'.
  destruct (tty_print_ok k3 [ConsoleDev_ptr] c1 l3 t (take 256 (e_data e))) as (v & E4 & Hv).
  - cbn. rewrite lookup_insert_ne by done. rewrite Hdk1. apply (mt_console _ _ _ _ _ Hm).
  - exact Hp3.
  - cbn. by rewrite Hc1.
  - done.
  - destruct Hx as [_ Hx]. unfold len. lia.
  - exists (mkKernel (k_mach k3) (k_intr k3) (k_sc k3) (k_fs k3) (set_screen v (k_cons k3))). split; [by apply fwrite_writes|].
    split; [by exists c1, l3|]. cbn. rewrite Hf1. done.
Qed.

(** ** A library that makes the system calls directly *)

Definition direct_fopen (path mode : list Z) : M kernel Z :=
  fd ← onFiles (sys_open path 0 0);
  mret (if fd =? -1 then NULL else fd + 1).
Definition direct_puts (x : list Z) : M kernel unit := onFiles (sys_write 1 x (len x)) ;; mret tt.
Definition direct_fread (f n : Z) : M kernel (list Z) := r ← onFiles (sys_read (f - 1) n); mret (omap id r.2).
Definition direct_fclose (f : Z) : M kernel unit := onFiles (sys_close 0 (f - 1)) ;; mret tt.

(** The fork returns as in the child; there is no program to execute. *)
Definition direct_libc : libc :=
  mkLibc direct_fopen (λ x, direct_puts (removelast x)) direct_fread direct_fclose direct_puts (mret 0) (λ _ _ _, mret (-1)).

Lemma omap_some {A} (x : list A) : omap id (Some <$> x) = x.
Proof. induction x as [|a x IH]; [done|]. cbn. by rewrite IH. Qed.

Lemma direct_fread_ok f n k cur tbl dv x pos :
  fd_ok (k_tst k) cur tbl → leads_to (files_of k) tbl (f - 1) dv → file_at (files_of k) dv x pos → Z.of_nat n ≤ 256 →
  ∃ d pos', devs (k_fs k) !! dv = Some d ∧ direct_fread f (Z.of_nat n) k =
    Ret (take n (drop pos x), mkKernel (k_mach k) (k_intr k) (k_sc k)
      (set_devs (<[dv := mkFile (dev_io d) pos' (flength d) (fdata d)]> (devs (k_fs k))) (k_fs k)) (k_cons k)).
Proof.
  intros Hok Hl Hf Hn. destruct (read_file_eq k cur tbl (f - 1) dv x pos n Hok Hl Hf ltac:(lia)) as (d & pos' & Ed & E & _).
  exists d, pos'. split; [exact Ed|]. unfold direct_fread. rewrite (bind_ret _ _ _ _ _ E). cbn [fst snd]. by rewrite omap_some.
Qed.

#[export] Program Instance direct_stdio : Stdio direct_libc := {| fd_of f := f - 1 |}.
Next Obligation.
  intros path mode k fd k' E Hfd. exists (fd + 1). cbn. unfold direct_fopen. rewrite (bind_ret _ _ _ _ _ (E 0 0)).
  rewrite (proj2 (Z.eqb_neq fd (-1))) by done. split; [done|]. unfold NULL. lia.
Qed.
Next Obligation. intros x k k' _ _ E. cbn. unfold direct_puts. rewrite removelast_last. by rewrite (bind_ret _ _ _ _ _ E). Qed.
Next Obligation. intros f n k cur tbl dv x pos. apply direct_fread_ok. Qed.
Next Obligation. intros f k k' E. cbn. unfold direct_fclose. destruct (E 0) as [r Er]. by rewrite (bind_ret _ _ _ _ _ Er). Qed.
Next Obligation. intros x k k' _ E. cbn. unfold direct_puts. by rewrite (bind_ret _ _ _ _ _ E). Qed.

(** ** Properties *)

(** C8: starting the kernel.  From the state the loader and [arch_init] leave, with an
    archive of distinctly named files behind [Initrd], [kmain] registers every system
    call, sets the handlers, builds the tree with /dev/tty and the files of /initrd,
    opens the terminal as descriptors 0 to 2, and prints its line; then it prints
    the first 256 bytes of /initrd/hello_world.txt, leaving the tree and the three
    descriptors as they were, and goes on with the fork. *)
Theorem kmain_boots lib {Hlib : Stdio lib} port_in k cur es tr post junk refs i e :
  bootable k cur → ramdisk (k_fs k) es tr post → bytes junk → (3 < length junk)%nat →
  Z.of_nat (length (buffer (screen (k_cons k)))) = VGA_WINDOW →
  es !! i = Some e → e_name e = hello_name → shown_text (take 256 (e_data e)) →
  ∃ k1 k2 ird tty kids, kmain_init lib port_in junk refs (HdrAt 0) k = Ret (tt, k1) ∧ running k1 ird tty es kids ready_term ∧
    kmain lib port_in junk refs (HdrAt 0) k =
      (p ← fork lib; if negb (p =? 0) then diverge
       else execve lib (literal "/initrd/dash") [literal "/initrd/dash"] [literal "foo=bar"] ;; mret tt) k2 ∧
    nodes (k_fs k2) = nodes (k_fs k1) ∧ FSRootNode (k_fs k2) = FSRootNode (k_fs k1) ∧ k_sc k2 = full_sctbl ∧ k_intr k2 = k_intr k1 ∧
    (∃ cur' tbl, fds_prefix (k_tst k2) tty3 cur' tbl) ∧
    shows (screen (k_cons k2)) (t_puts (s8 <$> take 256 (e_data e)) ready_term).
Proof.
  intros Hbo Hrd Hj Hjl Hvga Hi He Hx. destruct (rd_files _ _ _ _ Hrd) as (Hes & _ & Hnd).
  destruct (kmain_init_ok lib port_in k cur es tr post junk refs Hbo Hrd Hj Hjl Hvga) as (k1 & ird & tty & kids & E1 & Hr & _).
  destruct (print_hello_ok lib k1 ird tty es kids ready_term i e Hr Hnd Hi (Forall_lookup_1 _ _ _ _ Hes Hi) He Hx)
    as (k2 & E2 & Hp & Hn & Hro & Hsc & Hin & Hsh).
  exists k1, k2, ird, tty, kids. split; [done|]. split; [done|]. split.
  - unfold kmain. by rewrite (bind_ret _ _ _ _ _ E1), (bind_ret _ _ _ _ _ E2).
  - rewrite Hsc, (rn_calls _ _ _ _ _ _ Hr). done.
Qed.

(** initrd/hello_world.txt *)
Definition hello_text : list Z := text " ____ ____ 
||A |||K ||
||__|||__||
|/__\|/__\|

Hello, ak. 
".
Definition hi_entry : entry := demo_entry hello_name hello_text.
Definition demo_boot_fs : fst_ :=
  mkFst {[devfs_ptr := devfs]} {[ConsoleDev_ptr := ConsoleDev]} ∅ NULL 3 (mkTokst [] None)
    (encode_archive [demo_entry [97] [1; 2; 3]; hi_entry] (demo_entry trailer_name [])) [].
Definition demo_kernel : kernel :=
  mkKernel (mkMach (mkTst {[KernelTask_ptr := KernelTask 0xC0300000]} KernelTask_ptr 0 1 ∅ ∅ 0 10 (mkCpu 0 0 0 false) [] []) Mmu.demo_vm true [] 0 0)
    (set_IDTCallbacks (replicate 256 NoHandler) demo_intr) empty_sctbl demo_boot_fs demo_cons.
Lemma kmain_boots_witness :
  ∃ k2, kmain direct_libc (λ _ _, 0xFF) [0; 0; 0; 0] 7 (HdrAt 0) demo_kernel = Ret (tt, k2) ∧
    shows (screen (k_cons k2)) (t_puts hello_text ready_term).
Proof.
  destruct (kmain_boots direct_libc (λ _ _, 0xFF) demo_kernel (KernelTask 0xC0300000) [demo_entry [97] [1; 2; 3]; hi_entry]
    (demo_entry trailer_name []) [] [0; 0; 0; 0] 7 1 hi_entry) as (k1 & k2 & ird & tty & kids & _ & _ & E & _ & _ & _ & _ & _ & H).
  - split; [done| |done|done]. split; [done|]. intros p [x Ex]. cbn in Ex. by rewrite lookup_empty in Ex.
  - split; [done| |by rewrite app_nil_r|].
    + apply (bool_decide_unpack _). vm_compute. exact I.
    + split; [|split]; [repeat constructor; apply (bool_decide_unpack _); vm_compute; exact I..|apply (bool_decide_unpack _); vm_compute; exact I].
  - apply (bool_decide_unpack _). vm_compute. exact I.
  - cbn. lia.
  - done.
  - done.
  - done.
  - split; [split; [exists (removelast hello_text); by vm_compute|apply (bool_decide_unpack _); by vm_compute]|]. apply (bool_decide_unpack _). vm_compute. exact I.
  - exists k2. exact (conj E H).
Defined.
