(* ===== verification/UserCall.v ===== *)
(** * System calls as programs make them

    The functions of the system call table that return to their caller, run with the
    words of the argument registers on the state of all components: pointers among them
    are followed through the page tables of the current task.  [Traps] adds the calls that
    enter another task or a program, and the interrupt.

    The kernel reads a user's bytes as it needs them and writes them as it produces them;
    here they are read before and written after, which comes to the same as nothing else
    runs in between and the kernel's own objects are not in the user's memory.  A result
    becomes an unsigned word. *)
From Stdlib Require Import ZArith Lia.
From stdpp Require Import base gmap list list_numbers strings.
From S2P Require Import Prelude Layout FrameAlloc Mmu ListHead TaskState Task Fdio SysProc Machine Brk CStr Fs Cpiofs Intr Console SysFile UserMem SysMem Syscall Kmain.
Open Scope Z_scope.
Open Scope u32_scope.

(** ** Following pointers *)

Definition onUser {A} (f : mmu_task → M vm A) : M kernel A := onMem (on_vm f).
Definition user_bytes (p n : Z) : M kernel (list Z) := onUser (λ ct, uview ct p n).
Definition user_string (p : Z) : M kernel (list Z) := onUser (λ ct, ustring ct p).
Definition user_store (p : Z) (x : list Z) : M kernel unit := onUser (λ ct, umemcpy ct p x 0 (len x)).

(** A little-endian word. *)
Definition word_bytes (x : Z) : list Z := (λ i, Z.land (Z.shiftr (u32 x) (8 * i)) 0xFF) <$> [0; 1; 2; 3].
Definition bytes_word (x : list Z) : Z := foldr (λ b w, b + 256 * w) 0 x.
Definition user_word (p : Z) : M kernel Z :=
  x ← user_bytes p 4;
  if len x =? 4 then mret (bytes_word x) else crash BadAccess.

(** ** The table's functions *)

Section Calls.
(** [junk] is the value of bytes that were never written, [eax_] what a function
    without a result leaves in the register of its result. *)
Context (junk eax_ : Z).

Definition result (m : M kernel Z) : M kernel Z := x ← m; mret (u32 x).

Definition call_read (fd buf nbyte : Z) : M kernel Z :=
  r ← onFiles (sys_read fd nbyte);
  user_store buf (default junk <$> r.2) ;;
  mret (u32 r.1).

Definition call_write (fd buf nbyte : Z) : M kernel Z :=
  x ← user_bytes buf nbyte;
  result (onFiles (sys_write fd x nbyte)).

Definition call_open (pathname flags mode : Z) : M kernel Z :=
  x ← user_string pathname;
  result (onFiles (sys_open x flags mode)).

Definition call_ioctl (fd cmd arg : Z) : M kernel Z :=
  r ← onFiles (sys_ioctl fd cmd);
  (match r.2 with Some w => user_store arg (word_bytes w) | None => mret tt end) ;;
  mret (u32 r.1).

Definition call_getcwd (buf size : Z) : M kernel Z :=
  x ← user_bytes buf size;
  r ← onFiles (sys_getcwd x size);
  user_store buf r.2 ;;
  mret (u32 r.1).

(** [struct kernel_stat] has 64 bytes, [st_size] at 20. *)
Definition stat_bytes (size : Z) : list Z := replicate 20 0 ++ word_bytes size ++ replicate 40 0.
Definition call_newstat (path stat_ : Z) : M kernel Z :=
  x ← user_string path;
  r ← onFiles (sys_newstat x);
  (match r.2 with Some n => user_store stat_ (stat_bytes n) | None => mret tt end) ;;
  mret (u32 r.1).

(** The fields of [struct utsname] have 65 bytes. *)
Fixpoint store_fields (p : Z) (l : list string) : M kernel unit :=
  match l with
  | [] => mret tt
  | x :: l => user_store p (literal x) ;; store_fields (p +u 65) l
  end.
Definition call_uname (buf : Z) : M kernel Z :=
  r ← sys_uname;
  store_fields buf r.2 ;;
  mret (u32 r.1).

Definition call_mmap (args : Z) : M kernel Z :=
  a ← user_word args; b ← user_word (args +u 4); c ← user_word (args +u 8);
  d ← user_word (args +u 12); e ← user_word (args +u 16); f ← user_word (args +u 20);
  result (onMem (sys_mmap (mkMmapArgs a b c d e f))).

(** [struct sigaction]: handler, flags, restorer and the two words of the mask. *)
Definition sigaction_bytes (a : sigaction) : list Z :=
  word_bytes (sa_handler a) ++ word_bytes (sa_flags a) ++ word_bytes (sa_restorer a) ++
  word_bytes (sa_mask a) ++ word_bytes (Z.shiftr (sa_mask a) 32).
Definition user_sigaction (p : Z) : M kernel sigaction :=
  h ← user_word p; f ← user_word (p +u 4); r ← user_word (p +u 8); m ← user_word (p +u 12); n ← user_word (p +u 16);
  mret (mkSigaction h f r (m + 2 ^ 32 * n)).
(** [*oldact] is stored before [*act] is read: they may overlap. *)
Definition call_rt_sigaction (signum act oldact : Z) : M kernel Z :=
  (if oldact =? NULL then mret tt
   else
     cur ← onTask current;
     old ← aget (sigact cur) (s32 signum);
     user_store oldact (sigaction_bytes old)) ;;
  a ← user_sigaction act;
  r ← onTask (sys_rt_sigaction (s32 signum) (Some a) false);
  mret (u32 r.2).

(** Calls that enter another task do not get here. *)
Definition run_call (f : sysfn) (args : list Z) : M kernel Z :=
  match f, args with
  | f_open, [pathname; flags; mode] => call_open pathname flags mode
  | f_close, [fd] => result (onFiles (sys_close eax_ fd))
  | f_lseek, [fd; offset; whence] => result (onFiles (sys_lseek fd (s32 offset) (s32 whence)))
  | f_ioctl, [fd; cmd; arg] => call_ioctl fd cmd arg
  | f_fcntl, [fd; cmd; arg] => result (onFiles (sys_fcntl fd cmd arg))
  | f_getcwd, [buf; size] => call_getcwd buf size
  | f_read, [fd; buf; nbyte] => call_read fd buf nbyte
  | f_write, [fd; buf; nbyte] => call_write fd buf nbyte
  | f_newstat, [path; stat_] => call_newstat path stat_
  | f_uname, [buf] => call_uname buf
  | f_brk, [b] => result (onMem (sys_brk b))
  | f_mmap, [args] => call_mmap args
  | f_mmap_pgoff, [addr; length; prot; flags; fd; offset] => result (onMem (sys_mmap_pgoff addr length prot flags fd offset))
  | f_getpid, [] => result (onTask sys_getpid)
  | f_getppid, [] => result (onTask sys_getppid)
  | f_getpgid, [p] => result (onTask (sys_getpgid (s32 p)))
  | f_getpgrp, [] => result (onTask sys_getpgrp)
  | f_setpgid, [p; g] => result (onTask (sys_setpgid (s32 p) (s32 g)))
  | f_signal, [signum; handler] => result (onTask (sys_signal (s32 signum) handler))
  | f_rt_sigaction, [signum; act; oldact] => call_rt_sigaction signum act oldact
  | f_fake_getid, [] => sys_fake_getid
  | _, _ => crash BadCall
  end.
End Calls.

(** ** Steps *)

Lemma onUser_ok {A} (f : mmu_task → M vm A) k ct a v :
  cur_view (k_tst k) = Some ct → f ct (m_vm (k_mach k)) = Ret (a, v) →
  onUser f k = Ret (a, mkKernel (with_vm v (k_mach k)) (k_intr k) (k_sc k) (k_fs k) (k_cons k)).
Proof.
  unfold cur_view. intros Hv E. apply fmap_Some in Hv as (t & Et & ->). unfold onUser. apply onMem_ok.
  by apply (on_vm_ok f (k_mach k) t).
Qed.

Lemma onUser_reads {A} (f : mmu_task → M vm A) k ct a :
  cur_view (k_tst k) = Some ct → f ct (m_vm (k_mach k)) = Ret (a, m_vm (k_mach k)) → onUser f k = Ret (a, k).
Proof. intros Hv E. rewrite (onUser_ok f k ct a _ Hv E), with_vm_same. by destruct k. Qed.

Lemma u32_result (m : M kernel Z) k x k' : m k = Ret (x, k') → is_u32 x → result m k = Ret (x, k').
Proof. intros E Hx. unfold result. rewrite (bind_ret _ _ _ _ _ E). by rewrite u32_small. Qed.

Section Steps.
Context (junk : Z).

Lemma call_open_ok k ct p path flags mode fd k' :
  cur_view (k_tst k) = Some ct → holds_at ct (m_vm (k_mach k)) p (path ++ [0]) → Forall (λ c, c ≠ 0) path →
  (∀ flags m, onFiles (sys_open (path ++ [0]) flags m) k = Ret (fd, k')) → is_u32 fd →
  call_open p flags mode k = Ret (fd, k').
Proof.
  intros Hv Hp Hz E Hfd. unfold call_open, user_string.
  rewrite (bind_ret _ _ _ _ _ (onUser_reads _ k ct (path ++ [0]) Hv (ustring_ok _ _ _ _ Hp Hz))). by apply u32_result.
Qed.

Lemma call_read_ok k ct fr U fd buf n x k1 :
  cur_view (k_tst k) = Some ct → k_mach k1 = k_mach k → space_ok (m_vm (k_mach k)) (mt_pgd ct) → private ct fr U (m_vm (k_mach k)) →
  0 ≤ buf → buf + len x ≤ 2 ^ 32 → (∀ i, 0 ≤ i < len x → U (buf + i)) → bytes x → len x < 2 ^ 32 →
  onFiles (sys_read fd n) k = Ret ((len x, Some <$> x), k1) →
  ∃ v, call_read junk fd buf n k =
      Ret (len x, mkKernel (with_vm v (k_mach k1)) (k_intr k1) (k_sc k1) (k_fs k1) (k_cons k1)) ∧
    same_space ct (m_vm (k_mach k)) v ∧ holds_at ct v buf x ∧
    ∀ y, U y → ¬ buf ≤ y < buf + len x → user_byte ct v y = user_byte ct (m_vm (k_mach k)) y.
Proof.
  intros Hv Hm Hsp Hpv H0 Hlim HU Hb Hl E. pose proof (len_nonneg x).
  destruct (umemcpy_holds ct fr U (m_vm (k_mach k)) buf x) as (v & Ev & Hss & Hx & Ho); try done.
  exists v. split; [|done]. unfold call_read. rewrite (bind_ret _ _ _ _ _ E). cbn [fst snd].
  assert (Ed : default junk <$> (Some <$> x) = x) by (rewrite <- list_fmap_compose; apply list_fmap_id). rewrite Ed.
  rewrite (bind_ret _ _ k1 tt (mkKernel (with_vm v (k_mach k1)) (k_intr k1) (k_sc k1) (k_fs k1) (k_cons k1))).
  - by rewrite u32_small by lia.
  - unfold user_store. apply (onUser_ok _ k1 ct); [|by rewrite Hm]. unfold k_tst in *. by rewrite Hm.
Qed.

Lemma call_write_ok k ct fd buf x k' :
  cur_view (k_tst k) = Some ct → holds_at ct (m_vm (k_mach k)) buf x → len x < 2 ^ 32 →
  onFiles (sys_write fd x (len x)) k = Ret (len x, k') → call_write fd buf (len x) k = Ret (len x, k').
Proof.
  intros Hv Hx Hl E. unfold call_write, user_bytes. rewrite (bind_ret _ _ k x k).
  - apply u32_result; [done|]. pose proof (len_nonneg x). lia.
  - apply (onUser_reads _ k ct x Hv). unfold uview, gets. unfold len. rewrite Nat2Z.id. by rewrite user_view_ok.
Qed.
End Steps.
