(* ===== verification/Traps.v ===== *)
(** * Interrupts on the whole kernel

    What happens from an interrupt to the [iret] that ends it, possibly in another task:
    the stubs of [isr_root.S], [idt_handler], every handler that is registered, and the
    system calls, those that enter another task or a program included.

    A task that is not running stands in the kernel, on its own stack: [frame] says at
    which of the few places that enter another task it stands, and what the interrupt it
    handles goes back to.  The stack itself is not modelled; [w_frames] has the frame of each
    task that was left.  When a task is entered its frame says how it goes on:
    [resume_frame].  A fork's child starts from a copy of its parent's stack, which is in
    the memory that is cloned: its frame has the registers of its parent. *)
From Stdlib Require Import ZArith Lia.
From stdpp Require Import base gmap list list_numbers strings.
From S2P Require Import Prelude Layout FrameAlloc Mmu MmuClone ListHead TaskState Task Sched SysProc Fdio Machine Fork Brk CStr Fs Cpiofs Intr Console SysFile UserMem SysMem Syscall Elf Exec Kmain UserCall.
Open Scope Z_scope.
Open Scope u32_scope.

(** ** State *)

(** What an interrupt interrupts and what [iret] goes back to: a program or the kernel's
    own code with its registers; a program at its entry point; the loop at the end of
    [sys_exit]. *)
Inductive ctx : Type :=
| Running (r : isrargs)
| Started (en : entry_state)
| Exited.

(** Where a task left the processor: in the handler of the timer; in a system call, whose
    function and arguments are given; in [task_fork], with its variable [clone]. *)
Inductive kpoint : Type :=
| AtTick
| AtCall (f : sysfn) (args : list Z)
| AtFork (clone : Z).
Record frame : Type := mkFrame { fr_at : kpoint; fr_ctx : ctx }.

(** [w_cr2] is the processor's register of the address of a page fault. *)
Record world : Type := mkWorld { w_k : kernel; w_frames : gmap Z frame; w_cr2 : Z }.
Definition set_frames (f : gmap Z frame) (w : world) : world := mkWorld (w_k w) f (w_cr2 w).

#[export] Program Instance world_has_kernel : Has world kernel :=
  {| proj := w_k; embed k w := mkWorld k (w_frames w) (w_cr2 w) |}.
Next Obligation. done. Qed.
Next Obligation. done. Qed.
Next Obligation. by intros []. Qed.
#[export] Program Instance world_has_sctbl : Has world sctbl :=
  {| proj w := k_sc (w_k w);
     embed t w := mkWorld (mkKernel (k_mach (w_k w)) (k_intr (w_k w)) t (k_fs (w_k w)) (k_cons (w_k w))) (w_frames w) (w_cr2 w) |}.
Next Obligation. done. Qed.
Next Obligation. done. Qed.
Next Obligation. by intros [[]]. Qed.

Definition onK {A} (m : M kernel A) : M world A := zoom (H := world_has_kernel) m.
Definition onTst {A} (m : M tst A) : M world A := onK (onTask m).
Definition w_tst (w : world) : tst := k_tst (w_k w).

(** ** Leaving and entering tasks *)

Section Traps.
(** [junk] and [eax_] as in [UserCall]; [libexec] is what [sys_execve] needs of the C
    library, the uninitialised parts of its stack included; [spin_regs] are the registers of
    the loop of [sys_exit]. *)
Context (junk eax_ : Z) (spin_regs : isrargs).
Record libexec : Type := mkLibexec {
  lx_files : filelib kernel; lx_malloc : Z → M mach (list Z);
  lx_junk : list Z; lx_sec : Z; lx_bin : elf; lx_stack : list Z
}.
Context (lx : libexec).

(** The end of a call that had entered another task: [task_fork] and [sys_fork] are in
    [Fork], the others in [SysProc]. *)
Definition finish_call (f : sysfn) (args : list Z) : M kernel Z :=
  match f, args with
  | f_wait4, [_; status; _; _] =>
      r ← onTask sys_wait4_resumed;
      user_store status (word_bytes r.1) ;;
      mret (u32 r.2)
  | f_sched_yield, [] => result (onTask sys_sched_yield_resumed)
  | f_rt_sigsuspend, [_; _] => result (onTask sys_rt_sigsuspend_resumed)
  | _, _ => crash BadCall
  end.

(** The result goes to the saved registers. *)
Definition with_result (c : ctx) (x : Z) : ctx := match c with Running r => Running (set_eax x r) | c => c end.

(** How the task that was entered goes on, up to the [iret]. *)
Definition resume_frame (r : resume_point) : M world ctx :=
  c ← onTst (gets CurrentTask);
  w ← getS;
  fr ← need BadAccess (w_frames w !! c);
  match r, fr_at fr with
  | InEnter, AtTick => mret (fr_ctx fr)
  | InEnter, AtCall f args => x ← onK (finish_call f args); mret (with_result (fr_ctx fr) x)
  | InFork, AtFork clone =>
      x ← onK (onMem (c ← task_fork_resumed clone; sys_fork_resumed c));
      mret (with_result (fr_ctx fr) (u32 x))
  | _, _ => crash BadAccess
  end.

Definition save_frame (fr : frame) : M world unit :=
  c ← onTst (gets CurrentTask);
  modify (λ w, set_frames (<[c := fr]> (w_frames w)) w).

(** A call that may enter another task: [inl] when it returns at once. *)
Definition leave_call (f : sysfn) (args : list Z) (c : ctx) (m : M tst (Z + resume_point)) : M world (Z + ctx) :=
  save_frame (mkFrame (AtCall f args) c) ;;
  r ← onTst m;
  match r with
  | inl x => mret (inl (u32 x))
  | inr r => c ← resume_frame r; mret (inr c)
  end.
Definition leaves (m : M tst resume_point) : M tst (Z + resume_point) := r ← m; mret (inr r).

(** ** The calls *)

Definition call_fork (c : ctx) : M world Z :=
  clone ← onK (onMem task_fork);
  modify (λ w, set_frames (<[clone := mkFrame (AtFork clone) c]> (w_frames w)) w) ;;
  x ← onK (onMem (sys_fork_resumed clone));
  mret (u32 x).

(** The words of an array of pointers, its NULL included; [n] bounds their number. *)
Fixpoint user_words (n : nat) (p : Z) : M kernel (list Z) :=
  match n with
  | O => diverge
  | S n => x ← user_word p; if x =? NULL then mret [x] else l ← user_words n (p +u 4); mret (x :: l)
  end.
Definition MAX_WORDS : nat := Z.to_nat (2 ^ 30).

(** [arch_exec] reads the arrays when the new program is loaded; it has allocated page 0
    by then, which is taken not to hold them. *)
Definition call_execve (filename argv envp : Z) : M kernel (Z + ctx) :=
  path ← user_string filename;
  r ← elf_read (lx_files lx) (lx_junk lx) (lx_sec lx) path (lx_bin lx);
  if r.1 =? 0 then mret (inl (u32 (-1)))
  else
    onMem (elf_load r.2) ;;
    a ← user_words MAX_WORDS argv;
    e ← user_words MAX_WORDS envp;
    en ← onMem (elf_start (lx_malloc lx) r.2 a e (lx_stack lx));
    mret (inr (Started en)).

(** Every function of the table. *)
Definition run_trap (c : ctx) (f : sysfn) (args : list Z) : M world (Z + ctx) :=
  match f, args with
  | f_fork, [] => x ← call_fork c; mret (inl x)
  | f_exit, [status] => onTst (sys_exit (s32 status)) ;; mret (inr Exited)
  | f_execve, [filename; argv; envp] => onK (call_execve filename argv envp)
  | f_wait4, [p; _; options; _] => leave_call f args c (sys_wait4 (s32 p) (s32 options))
  | f_sched_yield, [] => leave_call f args c (leaves sys_sched_yield)
  | f_rt_sigsuspend, [_; _] => leave_call f args c (leaves sys_rt_sigsuspend)
  | _, _ => x ← onK (run_call junk eax_ f args); mret (inl x)
  end.

(** ** The handlers *)

(** [UserTask] is followed for an address of the kernel. *)
Definition page_fault (cr2 : Z) : M kernel unit :=
  u ← onTask (gets UserTask);
  ut ← (if (u =? NULL) || negb (pg_is_kernel cr2) then mret None else t ← onTask (get_task u); mret (Some (mmu_view t)));
  k ← onTask (get_task KernelTask_ptr);
  onMem (on_vm (λ ct, pg_fault_handler ct ut (pgd (arch k)) cr2)).

Definition set_int (n err : Z) (r : isrargs) : isrargs :=
  mkIsrargs (ds r) (edi r) (esi r) (r_ebp_ r) (r_esp_ r) (ebx r) (edx r) (ecx r) (eax r) n err (eip r) (cs r) (eflags r) (useresp r) (ss r).

(** [popal] restores what the handler left in the saved registers; the number and the
    error code are dropped. *)
Definition restored (c : ctx) (regs : isrargs) : isrargs :=
  match c with Running r => set_int (int_no r) (err_code r) regs | _ => regs end.

Definition handle (h : isrfunc) (regs : isrargs) (c : ctx) : M world ctx :=
  match h with
  | NoHandler | h_pit_cb | h_idt_nop_handler => mret c
  | h_sched_preempt => save_frame (mkFrame AtTick c) ;; r ← onTst kern_sched_yield; resume_frame r
  | h_kbd_intr => onK (onFiles (onC kbd_intr)) ;; mret c
  | h_pg_fault_handler => w ← getS; onK (page_fault (w_cr2 w)) ;; mret c
  | h_syscall_interrupt =>
      r ← syscall_interrupt (run_trap c) regs;
      mret (match r with inl regs => Running (restored c regs) | inr c => c end)
  end.

(** ** The interrupt *)

(** The flag of [eflags] that enables interrupts is restored by [iret]. *)
Definition IF_BIT : Z := 9.
Definition iret (c : ctx) : M world ctx :=
  onTst (match c with
         | Running r => set_intr (Z.testbit (eflags r) IF_BIT)
         | Started en => set_intr (en_if en)
         | Exited => set_intr true
         end) ;;
  mret c.

(** The gates of the table disable interrupts.  [regs] is what the stub saved. *)
Definition isr (c : ctx) (regs : isrargs) : M world ctx :=
  onTst intr_disable ;;
  h ← onK (onInt (idt_handler regs));
  c ← handle h regs c;
  iret c.

(** A program executes [int 0x80]; the timer interrupts [c]. *)
Definition trap (r : isrargs) : M world ctx := isr (Running r) (set_int INT_SYSCALL 0 r).
Definition tick (c : ctx) : M world ctx :=
  isr c (set_int INT_PIT 0 (match c with Running r => r | _ => spin_regs end)).
End Traps.

(** ** Steps *)

Definition with_wtst (t : tst) (w : world) : world :=
  mkWorld (mkKernel (with_tst t (k_mach (w_k w))) (k_intr (w_k w)) (k_sc (w_k w)) (k_fs (w_k w)) (k_cons (w_k w))) (w_frames w) (w_cr2 w).
Definition with_kernel (k : kernel) (w : world) : world := mkWorld k (w_frames w) (w_cr2 w).
(** The interrupt flag. *)
Definition tst_if (b : bool) (t : tst) : tst := set_cpu (mkCpu (r_esp (cpu t)) (r_ebp (cpu t)) (r_cr3 (cpu t)) b) t.
Definition kernel_if (b : bool) (k : kernel) : kernel :=
  mkKernel (with_tst (tst_if b (k_tst k)) (k_mach k)) (k_intr k) (k_sc k) (k_fs k) (k_cons k).
Definition world_if (b : bool) (w : world) : world := with_kernel (kernel_if b (w_k w)) w.

Lemma onK_ok {A} (m : M kernel A) w a k : m (w_k w) = Ret (a, k) → onK m w = Ret (a, with_kernel k w).
Proof. apply (zoom_ret (H := world_has_kernel)). Qed.
Lemma onTst_ok {A} (m : M tst A) w a t : m (w_tst w) = Ret (a, t) → onTst m w = Ret (a, with_wtst t w).
Proof. intros E. exact (onK_ok _ w _ _ (onTask_ok m (w_k w) a t E)). Qed.
Lemma onTst_gets {A} (f : tst → A) w : onTst (gets f) w = Ret (f (w_tst w), w).
Proof. rewrite (onTst_ok (gets f) w (f (w_tst w)) (w_tst w)) by done. by destruct w as [[[] ? ? ? ?] ? ?]. Qed.

(** The processor's way into a handler. *)
Definition entry_state_of (r : isrargs) (w : world) : world :=
  let i := k_intr (w_k w) in
  let tr := if (INT_PIC1_BASE <=? int_no r) && (int_no r <? INT_PIC_END) then
              (if INT_PIC2_BASE <? int_no r then [(PIC2_COMMAND, PIC_EOI)] else []) ++ [(PIC1_COMMAND, PIC_EOI)] else [] in
  let k := kernel_if false (w_k w) in
  with_kernel (mkKernel (k_mach k) (set_trace (trace i ++ tr) i) (k_sc k) (k_fs k) (k_cons k)) w.

Section Steps.
Context (junk eax_ : Z) (spin_regs : isrargs) (lx : libexec).
Abbreviation run_trap := (run_trap junk eax_ lx).
Abbreviation isr := (isr junk eax_ lx).
Abbreviation trap := (trap junk eax_ lx).
Abbreviation tick := (tick junk eax_ spin_regs lx).

Lemma isr_ok c r w h : lookupZ (IDTCallbacks (k_intr (w_k w))) (int_no r) = Some h → h ≠ NoHandler →
  isr c r w = (c ← handle junk eax_ lx h r c; iret c) (entry_state_of r w).
Proof.
  intros Hh Hn. unfold Traps.isr. rewrite (bind_ret _ _ w tt (world_if false w)) by done.
  rewrite (bind_ret _ _ _ h (entry_state_of r w)); [done|].
  unfold entry_state_of. set (k := kernel_if false (w_k w)). set (i := k_intr (w_k w)).
  set (tr := if (INT_PIC1_BASE <=? int_no r) && (int_no r <? INT_PIC_END) then _ else []).
  apply (onK_ok _ (world_if false w)). cbn [w_k world_if with_kernel]. fold k. apply (onInt_ok _ k). change (k_intr k) with i.
  unfold idt_handler. rewrite (bind_ret _ _ i tt (set_trace (trace i ++ tr) i)).
  - rewrite (bind_ret _ _ _ _ _ eq_refl). rewrite (bind_ret _ _ _ _ _ (aget_Some _ _ _ _ Hh)). by rewrite decide_False.
  - unfold tr. destruct (_ && _); [|rewrite app_nil_r; by destruct i]. unfold pic_eoi.
    destruct (INT_PIC2_BASE <? int_no r); [|done].
    rewrite (bind_ret _ _ i _ _ eq_refl). unfold io_put8, modify. cbn. by rewrite <- app_assoc.
Qed.

(** The table is the one the kernel registered. *)
Definition same_calls (t u : sctbl) : Prop := syscall_funcs t = syscall_funcs u ∧ syscall_argc t = syscall_argc u.

(** A system call, and what goes on after it. *)
Lemma trap_eq r f w :
  lookupZ (IDTCallbacks (k_intr (w_k w))) INT_SYSCALL = Some h_syscall_interrupt → same_calls (k_sc (w_k w)) full_sctbl →
  0 ≤ eax r < NUM_SYSCALLS → abi_fn (eax r) = Some f →
  trap r w = (res ← run_trap (Running r) f (take (arity f) (arg_regs r));
    iret (match res with inl x => Running (set_eax x r) | inr c => c end)) (world_if false w).
Proof.
  intros Hh [Hs1 Hs2] He Hf. unfold Traps.trap. rewrite (isr_ok (Running r) (set_int INT_SYSCALL 0 r) w h_syscall_interrupt Hh) by done.
  assert (Ee : entry_state_of (set_int INT_SYSCALL 0 r) w = world_if false w).
  { unfold entry_state_of. cbn [int_no set_int]. change (_ && _) with false. cbn match. rewrite app_nil_r.
    destruct w as [[? [] ? ? ?] ? ?]. done. }
  rewrite Ee. unfold handle. rewrite bind_assoc.
  etransitivity; [apply bind_ext; [|intros a u; reflexivity]|].
  - rewrite (syscall_dispatch_ok _ (world_if false w) full_sctbl _ register_all_ok); [|done|done|cbn; unfold NUM_SYSCALLS in *; lia].
    cbn [eax set_int]. rewrite (proj2 (Z.leb_gt _ _)) by lia. rewrite Hf. change (arg_regs (set_int INT_SYSCALL 0 r)) with (arg_regs r). reflexivity.
  - rewrite bind_assoc. apply bind_ext; [done|]. intros res u. by destruct res.
Qed.

Lemma trap_ok r f w res w' :
  lookupZ (IDTCallbacks (k_intr (w_k w))) INT_SYSCALL = Some h_syscall_interrupt → k_sc (w_k w) = full_sctbl →
  0 ≤ eax r < NUM_SYSCALLS → abi_fn (eax r) = Some f →
  run_trap (Running r) f (take (arity f) (arg_regs r)) (world_if false w) = Ret (res, w') →
  trap r w = iret (match res with inl x => Running (set_eax x r) | inr c => c end) w'.
Proof. intros Hh Hs He Hf E. rewrite (trap_eq r f w Hh) by (done || by rewrite Hs). by rewrite (bind_ret _ _ _ _ _ E). Qed.

(** The calls that always return to their caller. *)
Definition plain (f : sysfn) : bool :=
  match f with f_fork | f_exit | f_execve | f_wait4 | f_sched_yield | f_rt_sigsuspend => false | _ => true end.

Lemma trap_plain r f w x k :
  lookupZ (IDTCallbacks (k_intr (w_k w))) INT_SYSCALL = Some h_syscall_interrupt → k_sc (w_k w) = full_sctbl →
  0 ≤ eax r < NUM_SYSCALLS → abi_fn (eax r) = Some f → plain f = true →
  run_call junk eax_ f (take (arity f) (arg_regs r)) (kernel_if false (w_k w)) = Ret (x, k) →
  trap r w = Ret (Running (set_eax x r), with_kernel (kernel_if (Z.testbit (eflags r) IF_BIT) k) w).
Proof.
  intros Hh Hs He Hf Hp E. rewrite (trap_ok r f w (inl x) (with_kernel k w) Hh Hs He Hf); [done|].
  assert (Er : run_trap (Running r) f = λ args, x ← onK (run_call junk eax_ f args); mret (inl x)) by (by destruct f).
  rewrite Er. rewrite (bind_ret _ _ _ _ _ (onK_ok _ (world_if false w) x k E)). done.
Qed.

(** ** Ticks *)

Definition left_at (fr : frame) (w : world) : world := set_frames (<[CurrentTask (w_tst w) := fr]> (w_frames w)) w.

(** The tasks, the frames and the interrupt controller apart, the kernel is as it was. *)
Record switched (w w' : world) : Prop := {
  sw_callbacks : IDTCallbacks (k_intr (w_k w')) = IDTCallbacks (k_intr (w_k w));
  sw_calls : k_sc (w_k w') = k_sc (w_k w);
  sw_files : k_fs (w_k w') = k_fs (w_k w) ∧ k_cons (w_k w') = k_cons (w_k w);
  sw_vm : m_vm (k_mach (w_k w')) = m_vm (k_mach (w_k w))
}.
Lemma switched_refl w : switched w w.
Proof. by split. Qed.
Lemma switched_trans w1 w2 w3 : switched w1 w2 → switched w2 w3 → switched w1 w3.
Proof. intros [A1 A2 [A3 A4] A5] [B1 B2 [B3 B4] B5]. split; [congruence|congruence|split; congruence|congruence]. Qed.
Lemma switched_tst t w : switched w (with_wtst t w).
Proof. by split. Qed.
Lemma switched_left fr w : switched w (left_at fr w).
Proof. by split. Qed.
Lemma switched_entry r w : switched w (entry_state_of r w).
Proof. by split. Qed.
Lemma switched_if b w : switched w (world_if b w).
Proof. by split. Qed.

Definition timer_on (w : world) : Prop := lookupZ (IDTCallbacks (k_intr (w_k w))) INT_PIT = Some h_sched_preempt.

(** The state in which the task the timer lets in goes on. *)
Definition after_tick (c : ctx) (t : tst) (w : world) : world :=
  with_wtst t (left_at (mkFrame AtTick c) (entry_state_of (set_int INT_PIT 0 spin_regs) w)).

Lemma switched_tick c t w : switched w (after_tick c t w).
Proof. by split. Qed.

Lemma tick_ok c w r t : timer_on w → kern_sched_yield (w_tst w) = Ret (r, t) →
  tick c w = (c' ← resume_frame r; iret c') (after_tick c t w).
Proof.
  intros Hh E. unfold Traps.tick. set (regs := set_int INT_PIT 0 _).
  rewrite (isr_ok c regs w h_sched_preempt Hh) by done.
  assert (Ee : entry_state_of regs w = entry_state_of (set_int INT_PIT 0 spin_regs) w) by done. rewrite Ee.
  set (w0 := entry_state_of _ w). unfold handle, save_frame. rewrite !bind_assoc.
  rewrite (bind_ret _ _ _ _ _ (onTst_gets CurrentTask w0)). rewrite ?bind_assoc.
  rewrite (bind_ret _ _ w0 tt (left_at (mkFrame AtTick c) w0)) by done. rewrite ?bind_assoc.
  rewrite (bind_ret _ _ _ _ _ (onTst_ok kern_sched_yield (left_at (mkFrame AtTick c) w0) r t E)). done.
Qed.

(** A task the timer interrupted, and what it was doing. *)
Definition preempted (w : world) (p : Z) (c : ctx) : Prop :=
  w_frames w !! p = Some (mkFrame AtTick c) ∧ ∃ t, tasks (w_tst w) !! p = Some t ∧ resume t = InEnter.

Definition iret_flag (c : ctx) : bool :=
  match c with Running r => Z.testbit (eflags r) IF_BIT | Started en => en_if en | Exited => true end.
Lemma iret_ok c w : iret c w = Ret (c, world_if (iret_flag c) w).
Proof. by destruct c. Qed.

Lemma resume_point_of s y r s' t : yielded s y r s' → tasks s !! y = Some t → y ≠ CurrentTask s → r = resume t.
Proof.
  intros Hy Et Hn. destruct (yd_task _ _ _ _ Hy t Et) as (-> & _). unfold at_switch. rewrite decide_False by done.
  by destruct (woken_fields t) as (_ & _ & -> & _).
Qed.

Lemma resume_frame_at r w fr : w_frames w !! CurrentTask (w_tst w) = Some fr →
  resume_frame r w = match r, fr_at fr with
    | InEnter, AtTick => mret (fr_ctx fr)
    | InEnter, AtCall f args => x ← onK (finish_call f args); mret (with_result (fr_ctx fr) x)
    | InFork, AtFork clone => x ← onK (onMem (c ← task_fork_resumed clone; sys_fork_resumed c)); mret (with_result (fr_ctx fr) (u32 x))
    | _, _ => crash BadAccess
    end w.
Proof.
  intros E. unfold resume_frame. rewrite (bind_ret _ _ _ _ _ (onTst_gets CurrentTask w)).
  rewrite (bind_ret _ _ w w w) by done. rewrite E. by rewrite (bind_ret _ _ w fr w).
Qed.

Lemma resume_preempted w fr : w_frames w !! CurrentTask (w_tst w) = Some fr → fr_at fr = AtTick → resume_frame InEnter w = Ret (fr_ctx fr, w).
Proof. intros E Ea. rewrite (resume_frame_at _ _ _ E), Ea. done. Qed.

Fixpoint ticks (n : nat) (c : ctx) : M world ctx :=
  match n with O => mret c | S n => c ← tick c; ticks n c end.

(** What a task keeps while others run. *)
Definition same_process (t t' : task) : Prop := proc_data t' = proc_data t ∧ mmu_view t' = mmu_view t.
Lemma same_process_trans t1 t2 t3 : same_process t1 t2 → same_process t2 t3 → same_process t1 t3.
Proof. intros [A1 A2] [B1 B2]. split; congruence. Qed.
Lemma relinked_process t t' : relinked t t' → same_process t t'.
Proof. intros (n & q & ->). by split. Qed.
Lemma entered_process t : same_process t (entered t).
Proof.
  destruct (entered_fields t) as (_ & A & B & _). split; [done|]. unfold mmu_view. rewrite B. f_equal.
  unfold proc_data in A. congruence.
Qed.
Lemma woken_process t : same_process t (woken t).
Proof. unfold woken. destruct (wakeable t); by split. Qed.

Lemma yielded_process s y r s' t : yielded s y r s' → tasks s !! y = Some t → y ≠ CurrentTask s →
  ∃ t', tasks s' !! y = Some t' ∧ same_process t t'.
Proof.
  intros Hy Et Hn. destruct (yd_task _ _ _ _ Hy t Et) as (_ & (t' & Et' & Hr) & _). unfold at_switch in Hr. rewrite decide_False in Hr by done.
  exists t'. split; [done|]. eapply same_process_trans; [apply woken_process|]. eapply same_process_trans; [apply entered_process|]. by apply relinked_process.
Qed.

(** Ticks lead to a task that waits in a call, past tasks that were preempted: there the
    call is finished. *)
Lemma ticks_reach z f args c0 i : ∀ w c l tz,
  timer_on w → ring (w_tst w) (CurrentTask (w_tst w) :: l) → signals_ok (w_tst w) →
  l !! i = Some z → task_runnable (w_tst w) z = true → w_frames w !! z = Some (mkFrame (AtCall f args) c0) →
  tasks (w_tst w) !! z = Some tz → resume tz = InEnter →
  (∀ k q, (k < i)%nat → l !! k = Some q → task_runnable (w_tst w) q = true → ∃ c', preempted w q c') →
  ∃ n w' tz' l', (1 ≤ n ≤ S i)%nat ∧ ticks n c w = (x ← onK (finish_call f args); iret (with_result c0 x)) w' ∧
    switched w w' ∧ CurrentTask (w_tst w') = z ∧ ring (w_tst w') (z :: l') ∧
    tasks (w_tst w') !! z = Some tz' ∧ same_process tz tz'.
Proof.
  induction i as [i IH] using lt_wf_ind. intros w c l tz Hh Hr Hsig Hi Hz Hf Etz Hres Hothers.
  set (s := w_tst w) in *.
  assert (Hi' : (l ++ [CurrentTask s]) !! i = Some z) by (by apply lookup_app_l_Some).
  assert (Hzc : z ≠ CurrentTask s).
  { intros ->. apply ring_NoDup, NoDup_cons in Hr as [Hn _]. apply Hn. by eapply list_elem_of_lookup_2. }
  destruct (picks_exists s _ i z Hi' Hz) as (pre & y & post & Hp & Hlen). pose proof Hp as (Ho & Hpre & Hy).
  destruct (kern_sched_yield_full s l pre y post Hr Hp Hsig) as (r & s' & E & Hyd & Hs' & Hr').
  pose proof (tick_ok c w r s' Hh E) as Et. set (w1 := after_tick c s' w) in *.
  assert (Hc1 : CurrentTask (w_tst w1) = y) by apply Hyd.
  destruct (decide (z = y)) as [->|Hne].
  { assert (Er : r = InEnter) by (by rewrite (resume_point_of _ _ _ _ _ Hyd Etz Hzc)). subst r.
    destruct (yielded_process _ _ _ _ _ Hyd Etz Hzc) as (tz' & Etz' & Hsame).
    exists 1%nat, w1, tz', (post ++ List.filter (λ p, negb (task_quit s p)) pre). split; [lia|].
    split; [|split; [apply switched_tick|done]].
    cbn [ticks]. assert (Ef : w_frames w1 !! CurrentTask (w_tst w1) = Some (mkFrame (AtCall f args) c0)).
    { rewrite Hc1. cbn. rewrite lookup_insert_ne by done. exact Hf. }
    assert (Et' : tick c w = (x ← onK (finish_call f args); iret (with_result c0 x)) w1).
    { rewrite Et. etransitivity; [apply bind_ext; [apply (resume_frame_at InEnter w1 _ Ef)|intros a u; reflexivity]|].
      cbn [fr_at fr_ctx]. rewrite bind_assoc. apply bind_ext; [done|]. intros x u. done. }
    unfold mbind at 1, M_bind, mbind_M. rewrite Et'.
    by destruct ((x ← onK (finish_call f args); iret (with_result c0 x)) w1) as [[? ?]| | |]. }
  assert (Hpost : (S (length pre) ≤ i)%nat ∧ post !! (i - S (length pre))%nat = Some z).
  { rewrite Ho in Hi'. rewrite lookup_app_r in Hi' by done. destruct (i - length pre)%nat as [|j] eqn:Ej; [by injection Hi' as ->|].
    cbn in Hi'. split; [lia|]. by replace (i - S (length pre))%nat with j by lia. }
  destruct Hpost as [Hle Hpost]. pose proof (lookup_lt_Some _ _ _ Hi) as Hil.
  assert (Hyl : l !! length pre = Some y).
  { assert (Hx : (l ++ [CurrentTask s]) !! length pre = Some y) by (rewrite Ho; by apply list_lookup_middle). by rewrite lookup_app_l in Hx by lia. }
  assert (Hyc : y ≠ CurrentTask s).
  { intros ->. apply ring_NoDup, NoDup_cons in Hr as [Hn _]. apply Hn. by eapply list_elem_of_lookup_2. }
  destruct (Hothers (length pre) y ltac:(lia) Hyl Hy) as (cy & Hfy & ty & Ety & Hresy).
  assert (Er : r = InEnter) by (by rewrite (resume_point_of _ _ _ _ _ Hyd Ety Hyc)). subst r.
  assert (Et1 : tick c w = Ret (cy, world_if (iret_flag cy) w1)).
  { rewrite Et. rewrite (bind_ret _ _ w1 cy w1); [apply iret_ok|]. apply (resume_preempted w1 (mkFrame AtTick cy)); [|done].
    rewrite Hc1. cbn. by rewrite lookup_insert_ne. }
  set (w2 := world_if (iret_flag cy) w1) in *.
  assert (Ht2 : ∀ p, tasks (w_tst w2) !! p = tasks s' !! p) by done.
  assert (Hkeep : ∀ q tq, q ≠ y → q ≠ CurrentTask s → tasks s !! q = Some tq → ∃ tq', tasks (w_tst w2) !! q = Some tq' ∧ relinked tq tq').
  { intros q tq H1 H2 H3. rewrite Ht2. by apply (yd_others _ _ _ _ Hyd). }
  assert (Hrk : ∀ q, q ≠ y → q ≠ CurrentTask s → is_Some (tasks s !! q) → task_runnable (w_tst w2) q = task_runnable s q).
  { intros q H1 H2 [tq H3]. destruct (Hkeep q tq H1 H2 H3) as (tq' & E1 & R1). unfold task_runnable. rewrite E1, H3. apply (relinked_runnable _ _ R1). }
  destruct (Hkeep z tz Hne Hzc Etz) as (tz2 & Etz2 & Rz2).
  destruct (IH (i - S (length pre))%nat ltac:(lia) w2 cy (post ++ List.filter (λ p, negb (task_quit s p)) pre) tz2)
    as (n & w' & tz' & l' & Hn & En & Hsw & Hc' & Hr2 & Etz' & Hsame).
  - done.
  - change (CurrentTask (w_tst w2)) with (CurrentTask s'). rewrite (yd_cur _ _ _ _ Hyd). apply (ring_frame s'); [done|exact Hr'].
  - exact Hs'.
  - by apply lookup_app_l_Some.
  - by rewrite Hrk.
  - cbn. by rewrite lookup_insert_ne by done.
  - done.
  - destruct Rz2 as (a & b & ->). exact Hres.
  - intros k q Hk Hq Hrun. pose proof (lookup_lt_Some _ _ _ Hpost) as Hjl. rewrite lookup_app_l in Hq by lia.
    assert (Hql : l !! (S (length pre) + k)%nat = Some q).
    { assert (Hx : (l ++ [CurrentTask s]) !! (S (length pre) + k)%nat = Some q).
      { rewrite Ho, lookup_app_r by lia. by replace (S (length pre) + k - length pre)%nat with (S k) by lia. }
      by rewrite lookup_app_l in Hx by lia. }
    pose proof (ring_NoDup _ _ Hr) as Hnd. apply NoDup_cons in Hnd as [Hnc Hnd].
    assert (Hqy : q ≠ y) by (intros ->; pose proof (NoDup_lookup _ _ _ _ Hnd Hql Hyl); lia).
    assert (Hqc : q ≠ CurrentTask s) by (intros ->; apply Hnc; by eapply list_elem_of_lookup_2).
    destruct (ring_task s _ q Hr) as [tq Etq]; [right; by eapply list_elem_of_lookup_2|].
    destruct (Hothers (S (length pre) + k)%nat q ltac:(lia) Hql) as (cq & Hfq & tq' & Etq' & Hrq); [by rewrite <- Hrk by (done || by eexists)|].
    exists cq. split; [cbn; by rewrite lookup_insert_ne by done|]. destruct (Hkeep q tq' Hqy Hqc Etq') as (x & Ex & (a & b & ->)). by eexists.
  - exists (S n), w', tz', l'. split; [lia|]. split; [|split; [|split; [done|split; [done|split; [done|]]]]].
    + cbn [ticks]. by rewrite (bind_ret _ _ _ _ _ Et1).
    + eapply switched_trans; [|exact Hsw]. eapply switched_trans; [apply switched_tick|apply switched_if].
    + eapply same_process_trans; [by apply relinked_process|done].
Qed.
End Steps.
