(* ===== verification/Programs.v ===== *)
(** * Programs on the kernel

    What a program achieves with its system calls, from the interrupt to the [iret] and through
    every layer between: a file brought to the screen, and a child made, awaited and
    collected. *)
From Stdlib Require Import ZArith Lia.
From stdpp Require Import base gmap list list_numbers strings.
From S2P Require Import Prelude Layout FrameAlloc Mmu MmuClone ListHead TaskState Task Sched SysProc Fdio Machine Fork Brk CStr Fs Cpiofs Intr Console SysFile UserMem SysMem Syscall Elf Exec Kmain UserCall Traps.
Open Scope Z_scope.
Open Scope u32_scope.

(** ** The interrupt flag *)

Lemma kernel_if_view b k : cur_view (k_tst (kernel_if b k)) = cur_view (k_tst k).
Proof. done. Qed.
Lemma kernel_if_prefix b k ds cur tbl : fds_prefix (k_tst k) ds cur tbl → fds_prefix (k_tst (kernel_if b k)) ds cur tbl.
Proof. apply (prefix_cpu (k_tst k)). Qed.

(** ** Memory across a fork *)

Section Grow.
Context (s s' : vm) (ct : mmu_task).
Hypothesis Hsp : space_ok s (mt_pgd ct).
Hypothesis Hg : grow s s'.

Lemma grow_pde w : is_u32 w → pde_of (phys s') (mt_pgd ct) w = pde_of (phys s) (mt_pgd ct) w.
Proof.
  intros Hw. apply (gr_mem _ _ Hg). rewrite page_of_word by (done || apply Hsp || by apply ADDR_PDE_bound). apply (sp_pgd_used _ _ Hsp).
Qed.

Lemma grow_entry w : is_u32 w → entry_of (phys s') (mt_pgd ct) w = entry_of (phys s) (mt_pgd ct) w.
Proof.
  intros Hw. unfold entry_of, table_of. rewrite grow_pde by done. destruct (Z.eqb_spec (pde_of (phys s) (mt_pgd ct) w) 0) as [|Hn]; [done|].
  fold (table_of (phys s) (mt_pgd ct) w). destruct (space_table_aligned _ _ _ Hsp Hw) as [Ha _].
  apply (gr_mem _ _ Hg). rewrite page_of_word by (done || apply ADDR_PTE_bound). by apply (sp_table _ _ Hsp).
Qed.

Lemma grow_walk w : is_u32 w → hw_walk (phys s') (mt_pgd ct) w = hw_walk (phys s) (mt_pgd ct) w.
Proof.
  intros Hw. rewrite !hw_walk_entries; [|done|by apply Hsp|done|rewrite grow_pde by done; by apply Hsp]. by rewrite grow_pde, grow_entry.
Qed.

Lemma grow_space : space_ok s' (mt_pgd ct).
Proof.
  destruct Hsp as [H1 H2 H3 H4 H5 H6]. split; [done|done|by apply (gr_used _ _ Hg)|..].
  - intros v Hv. rewrite grow_pde by done. by apply H4.
  - intros v Hv. unfold table_of. rewrite grow_pde by done. intros Hn. destruct (H5 v Hv Hn) as [H7 H8]. split; [done|by apply (gr_used _ _ Hg)].
  - intros v w Hv Hw. unfold table_of. rewrite !grow_pde by done. by apply H6.
Qed.

Lemma grow_phys_byte a x : a mod PAGE_SIZE = 0 → used s a = true → phys_byte (phys s') (a + x mod 2 ^ 12) = phys_byte (phys s) (a + x mod 2 ^ 12).
Proof.
  intros Ha Hu. unfold phys_byte. rewrite (gr_mem _ _ Hg); [done|]. unfold PAGE_SIZE in Ha.
  assert (E : page_of (a + x mod 2 ^ 12 - (a + x mod 2 ^ 12) mod 4) = a) by (unfold page_of, PAGE_SIZE; zlia). by rewrite E.
Qed.

Context (fr : frames) (U : Z → Prop).
Hypothesis Hpv : private ct fr U s.

Lemma grow_private : private ct fr U s'.
Proof.
  destruct Hpv as [H1 H2]. split.
  - intros x Hx. destruct (H1 x Hx) as (Hx32 & a & [A B C D] & Hf & E). split; [done|]. exists a. rewrite grow_walk by done. split; [|done].
    split; [done|by apply (gr_used _ _ Hg)|done|]. intros w Hw. unfold table_of. rewrite grow_pde by done. by apply D.
  - intros x y a u b w c d Hx Hy. destruct (H1 x Hx) as [Hx32 _]. destruct (H1 y Hy) as [Hy32 _]. rewrite !grow_walk by done. by apply H2.
Qed.

Lemma grow_byte x : U x → user_byte ct s' x = user_byte ct s x.
Proof.
  intros Hx. destruct (pv_map _ _ _ _ Hpv x Hx) as (Hx32 & a & [[_ A] B _ _] & _ & E). unfold user_byte. rewrite grow_walk, E by done. cbn.
  by rewrite grow_phys_byte.
Qed.

(** The child finds what the parent had. *)
Lemma clone_byte cd x : clonable s (mt_pgd ct) → entries_copied table_copied own_table s s' (mt_pgd ct) (mt_pgd cd) 1024 →
  U x → user_byte cd s' x = user_byte ct s x.
Proof.
  intros Hcl Hec Hx. destruct (pv_map _ _ _ _ Hpv x Hx) as (Hx32 & a & [[_ A] B _ _] & _ & E). unfold user_byte. rewrite E. cbn.
  destruct (MmuClone.private (phys s) (mt_pgd ct) x) eqn:Ep.
  - destruct (walk_private s s' _ _ Hcl Hec x Hx32 Ep) as (e & b & _ & (_ & Hb & _) & Hc & He & w & u & Ew & Ew').
    rewrite E in Ew. injection Ew as Ea _ _. rewrite Ew'. cbn. pose proof (PTE_ADDR_aligned e He) as Hpal. f_equal. unfold PAGE_SIZE in A, Hb, Hpal.
    assert (a = PTE_ADDR e) as -> by lia. unfold phys_byte. change (2 ^ 12) with 4096.
    replace ((b + x mod 4096) mod 4) with (x mod 4) by zlia. replace ((PTE_ADDR e + x mod 4096) mod 4) with (x mod 4) by zlia.
    replace (b + x mod 4096 - x mod 4) with (b + 4 * (x mod 4096 / 4)) by zlia.
    replace (PTE_ADDR e + x mod 4096 - x mod 4) with (PTE_ADDR e + 4 * (x mod 4096 / 4)) by zlia. by rewrite Hc by zlia.
  - rewrite (walk_shared s s' _ _ Hcl Hg Hec x Hx32 Ep), E. cbn. by rewrite grow_phys_byte.
Qed.
End Grow.

(** ** Printing a file *)

(** C10: a program that prints a file.  On the running kernel a program opens a file of
    /initrd by a path in its memory, reads [n] bytes into its buffer and writes what it
    got to descriptor 1, with three [int 0x80].  The interrupts go back to the program with the
    descriptor 3 and the number of bytes in [eax] and the other registers as they were; after
    the read the buffer holds the beginning of the file and the rest of the program's memory
    is as it was; and after the write the terminal shows it. *)
Theorem program_prints_file junk eax_ lx w ird tty es kids t i e ct fr U p path buf n r1 r2 r3 :
  let y := take n (e_data e) in let k := w_k w in let vm_of w := m_vm (k_mach (w_k w)) in
  running k ird tty es kids t → NoDup (e_name <$> es) → es !! i = Some e → is_file e → bytes (e_data e) →
  cur_view (k_tst k) = Some ct → space_ok (vm_of w) (mt_pgd ct) → private ct fr U (vm_of w) →
  holds_at ct (vm_of w) p (path ++ [0]) → Forall (λ c, c ≠ 0) path → bytes path →
  path_components (path ++ [0]) = [cstr (literal "initrd"); e_name e] → len path < 2 ^ 31 →
  0 ≤ buf → buf + Z.of_nat n ≤ 2 ^ 32 → (∀ i, 0 ≤ i < Z.of_nat n → U (buf + i)) → Z.of_nat n < 2 ^ 31 → Forall (λ c, s8 c ≠ 8) y →
  (eax r1 = SYS_OPEN ∧ ebx r1 = p) → (eax r2 = SYS_READ ∧ ebx r2 = 3 ∧ ecx r2 = buf ∧ edx r2 = Z.of_nat n) →
  (eax r3 = SYS_WRITE ∧ ebx r3 = 1 ∧ ecx r3 = buf ∧ edx r3 = len y) →
  ∃ w1 w2 w3, trap junk eax_ lx r1 w = Ret (Running (set_eax 3 r1), w1) ∧
    trap junk eax_ lx r2 w1 = Ret (Running (set_eax (len y) r2), w2) ∧
    trap junk eax_ lx r3 w2 = Ret (Running (set_eax (len y) r3), w3) ∧ holds_at ct (vm_of w2) buf y ∧
    (∀ x, U x → ¬ buf ≤ x < buf + len y → user_byte ct (vm_of w2) x = user_byte ct (vm_of w) x) ∧
    shows (screen (k_cons (w_k w3))) (t_puts (s8 <$> y) t).
Proof.
  intros y k vm_of Hr Hnd Hi He Hbe Hv Hsp Hpv Hp Hz Hbp Hc Hlp H0 Hlim HU Hn Hy8 [A1 B1] (A2 & B2 & C2 & D2) (A3 & B3 & C3 & D3).
  destruct (rn_fds _ _ _ _ _ _ Hr) as (cur & tbl & Hfds). pose proof (rn_calls _ _ _ _ _ _ Hr) as Hs.
  destruct (rn_handlers _ _ _ _ _ _ Hr) as [Hh _].
  assert (Hly : len y ≤ Z.of_nat n) by (unfold len, y; rewrite length_take; lia). pose proof (len_nonneg y).
  destruct (open_ramdisk_ok (kernel_if false k) ird tty es kids tty3 cur tbl (path ++ [0]) i e (rn_tree _ _ _ _ _ _ Hr)
    (kernel_if_prefix _ _ _ _ _ Hfds) ltac:(done) Hnd Hi He)
    as (k1 & c1 & l1 & E1 & [[t1 Hm1] Hi1 Hs1 Hc1 Hv1] & [tk Hf1] & Hp1 & _ & Hne & Hfa); try done.
  { apply elem_of_app. right. apply list_elem_of_here. }
  { apply Forall_app. split; [done|]. repeat constructor; lia. }
  { rewrite length_app. unfold len in Hlp. cbn. lia. }
  assert (Hvm1 : m_vm (k_mach k1) = vm_of w) by (by rewrite Hm1). rewrite kernel_if_view, Hv in Hv1.
  pose proof Hsp as Hsp1. rewrite <- Hvm1 in Hsp1. pose proof Hpv as Hpv1. rewrite <- Hvm1 in Hpv1.
  set (b1 := Z.testbit (eflags r1) IF_BIT). set (k1' := kernel_if false (kernel_if b1 k1)).
  assert (Hfa1 : file_at (files_of k1') (entry_node ird i - 1) (e_data e) 0) by (destruct Hfa; by split).
  assert (Hp1' : fds_prefix (k_tst k1') (tty3 ++ [entry_node ird i - 1]) c1 l1) by exact (kernel_if_prefix false (kernel_if b1 k1) _ _ _ (kernel_if_prefix b1 k1 _ _ _ Hp1)).
  destruct (read_file_eq k1' c1 l1 3 _ (e_data e) 0 n (fp_ok _ _ _ _ Hp1')
      (prefix_leads (k_tst k1') _ _ _ _ _ 3 _ Hp1' eq_refl) Hfa1 Hn)
    as (d & pos' & _ & E2 & _). rewrite drop_0 in E2. fold y in E2.
  match type of E2 with _ = Ret (_, ?K) =>
  destruct (call_read_ok junk k1' ct fr U 3 buf (Z.of_nat n) y K Hv1 eq_refl Hsp1 Hpv1 H0 ltac:(lia))
      as (v & E2' & Hss & Hbuf & Hout); [intros j Hj; apply HU; lia|by apply Forall_take|lia|exact E2|] end. cbn [k_mach k_intr k_sc k_fs k_cons] in E2'.
  set (k2 := mkKernel (with_vm v (k_mach k1')) _ _ _ _) in E2'.
  set (b2 := Z.testbit (eflags r2) IF_BIT). set (k2' := kernel_if false (kernel_if b2 k2)).
  destruct (tty_print_ok k2' [ConsoleDev_ptr; entry_node ird i - 1] c1 l1 t y) as (u & E3 & Hw);
    [cbn; rewrite lookup_insert_ne, Hf1 by done; apply (rn_tree _ _ _ _ _ _ Hr)| |cbn; rewrite Hc1; apply Hr|done|lia|].
  { exact (kernel_if_prefix false (kernel_if b2 k2) _ _ _ (kernel_if_prefix b2 k2 _ _ _ Hp1')). }
  set (k3 := mkKernel (k_mach k2') _ _ _ _) in E3.
  exists (with_kernel (kernel_if b1 k1) w), (with_kernel (kernel_if b2 k2) w), (with_kernel (kernel_if (Z.testbit (eflags r3) IF_BIT) k3) w).
  assert (Hh1 : lookupZ (IDTCallbacks (k_intr k1)) INT_SYSCALL = Some h_syscall_interrupt) by (by rewrite Hi1).
  assert (Hs1' : k_sc k1 = full_sctbl) by (by rewrite Hs1).
  split; [|split; [|split; [|split; [exact Hbuf|split; [|exact Hw]]]]].
  - apply (trap_plain _ _ _ _ f_open); [done|done|by rewrite A1|by rewrite A1|done|]. cbn [arg_regs arity take run_call]. rewrite B1.
    by apply (call_open_ok (kernel_if false k) ct p path).
  - apply (trap_plain _ _ _ _ f_read (with_kernel (kernel_if b1 k1) w)); [done|done|by rewrite A2|by rewrite A2|done|].
    cbn [arg_regs arity take run_call]. rewrite B2, C2, D2. exact E2'.
  - apply (trap_plain _ _ _ _ f_write (with_kernel (kernel_if b2 k2) w)); [done|done|by rewrite A3|by rewrite A3|done|].
    cbn [arg_regs arity take run_call]. rewrite B3, C3, D3.
    by apply (call_write_ok k2' ct 1 buf y k3 Hv1 Hbuf ltac:(lia)).
  - intros x Hx Hxo. rewrite <- Hvm1. by apply Hout.
Qed.

(** ** A child, awaited *)

(** A program is about to fork: [l] is the ring behind its task, [cur] its control block
    and [tbl] its descriptors. *)
Record parent_ready (w : world) (l : list Z) (cur : task) (tbl : list Z) : Prop := {
  pr_syscalls : lookupZ (IDTCallbacks (k_intr (w_k w))) INT_SYSCALL = Some h_syscall_interrupt;
  pr_timer : timer_on w;
  pr_calls : k_sc (w_k w) = full_sctbl;
  pr_ring : ring (w_tst w) (CurrentTask (w_tst w) :: l);
  pr_pids : pids_distinct (w_tst w) (CurrentTask (w_tst w) :: l);
  pr_next : 0 < next_pid (w_tst w) < 2 ^ 31 ∧ ∀ p t, p ∈ CurrentTask (w_tst w) :: l → tasks (w_tst w) !! p = Some t → pid t ≠ next_pid (w_tst w);
  pr_signals : signals_ok (w_tst w);
  pr_cur : sigpend cur = 0 ∧ SIGCHLD < Z.of_nat (length (sigact cur));
  pr_fds : fd_ok (w_tst w) cur tbl ∧ fdnext cur ≤ fdcap cur ∧ ∀ d, d ∈ tbl → d ≠ 0 → is_Some (fdescrs (w_tst w) !! d);
  pr_heap : 0 < heap (w_tst w) ∧ ∀ p, p ∈ CurrentTask (w_tst w) :: l → p < heap (w_tst w);
  pr_others q : q ∈ l → task_runnable (w_tst w) q = true → ∃ c, preempted w q c
}.

(** The memory it takes. *)
Record can_clone (w : world) (cur : task) : Prop := {
  cc_cr3 : r_cr3 (cpu (w_tst w)) = pgd (arch cur);
  cc_vm : ∃ n, vm_ok (6 + n) (dir_cost (phys (m_vm (k_mach (w_k w)))) (pgd (arch cur))) (m_vm (k_mach (w_k w)));
  cc_dir : clonable (m_vm (k_mach (w_k w))) (pgd (arch cur))
}.

(** The world after the fork. *)
Definition forked_world (r : isrargs) (m : mach) (w : world) : world :=
  let ch := heap (w_tst w) in
  mkWorld (mkKernel m (k_intr (w_k w)) (k_sc (w_k w)) (k_fs (w_k w)) (k_cons (w_k w)))
    (<[ch := mkFrame (AtFork ch) (Running r)]> (w_frames w)) (w_cr2 w).

Section Family.
Context (junk eax_ : Z) (spin_regs : isrargs) (lx : libexec).
Abbreviation trap := (trap junk eax_ lx).
Abbreviation ticks := (ticks junk eax_ spin_regs lx).

(** What the tasks must be for that. *)
Record can_fork (w : world) (l : list Z) (cur : task) (tbl : list Z) : Prop := {
  cf_ring : ring (w_tst w) (CurrentTask (w_tst w) :: l);
  cf_fds : fd_ok (w_tst w) cur tbl ∧ fdnext cur ≤ fdcap cur ∧ ∀ d, d ∈ tbl → d ≠ 0 → is_Some (fdescrs (w_tst w) !! d);
  cf_heap : 0 < heap (w_tst w) ∧ ∀ p, p ∈ CurrentTask (w_tst w) :: l → p < heap (w_tst w);
  cf_memory : can_clone w cur
}.
Lemma parent_can_fork w l cur tbl : parent_ready w l cur tbl → can_clone w cur → can_fork w l cur tbl.
Proof. intros [] ?. by split. Qed.

Lemma call_fork_ok r w l cur tbl :
  can_fork w l cur tbl →
  ∃ m t, forked (k_mach (kernel_if false (w_k w))) l cur m t ∧
    call_fork (Running r) (world_if false w) = Ret (u32 (next_pid (w_tst w)), forked_world r m w).
Proof.
  intros [Hr (Hfd & Hnx & Hall) [H0 Hh] [Hcr3 [n Hvm] Hcl]]. set (m0 := k_mach (kernel_if false (w_k w))).
  destruct (task_fork_ok m0 l cur tbl n 0) as (m & t & E & Hf); try done.
  - by apply (ring_frame (w_tst w)).
  - by destruct Hfd; split.
  - change (r_cr3 (cpu (m_tst m0))) with (r_cr3 (cpu (w_tst w))). by rewrite Hcr3, Nat.add_0_r.
  - change (r_cr3 (cpu (m_tst m0))) with (r_cr3 (cpu (w_tst w))). by rewrite Hcr3.
  - exists m, t. split; [done|]. unfold call_fork.
    rewrite (bind_ret _ _ _ _ _ (onK_ok _ (world_if false w) _ _ (onMem_ok task_fork (kernel_if false (w_k w)) _ m E))).
    match goal with |- (_ ≫= _) ?X = _ => rewrite (bind_ret _ _ X tt (forked_world r m w)) by done end.
    assert (Er : sys_fork_resumed (heap (m_tst m0)) m = Ret (pid t, m)).
    { unfold sys_fork_resumed. change (heap (m_tst m0)) with (heap (w_tst w)). rewrite (proj2 (Z.eqb_neq _ 0)) by lia. cbn [negb].
      change (heap (w_tst w)) with (heap (m_tst m0)). rewrite (bind_ret _ _ m t m); [done|]. rewrite (liftT_ok _ m t (m_tst m)) by (apply get_task_ok, Hf). by rewrite with_tst_same. }
    rewrite (bind_ret _ _ _ _ _ (onK_ok _ (forked_world r m w) _ _ (onMem_ok _ _ _ _ Er))).
    destruct (fk_id _ _ _ _ _ Hf) as (-> & _). done.
Qed.

Lemma trap_fork r w l cur tbl :
  parent_ready w l cur tbl → can_clone w cur → eax r = SYS_FORK →
  ∃ m t, forked (k_mach (kernel_if false (w_k w))) l cur m t ∧
    trap r w = Ret (Running (set_eax (next_pid (w_tst w)) r), world_if (Z.testbit (eflags r) IF_BIT) (forked_world r m w)).
Proof.
  intros Hp Hcc He. destruct (call_fork_ok r w l cur tbl (parent_can_fork _ _ _ _ Hp Hcc)) as (m & t & Hf & E). exists m, t. split; [done|].
  destruct (pr_next _ _ _ _ Hp) as [Hnp _]. rewrite u32_small in E by lia.
  rewrite (trap_ok _ _ _ r f_fork w (inl (next_pid (w_tst w))) (forked_world r m w) (pr_syscalls _ _ _ _ Hp) (pr_calls _ _ _ _ Hp));
    [apply iret_ok|by rewrite He|by rewrite He|].
  cbn [arity take arg_regs Traps.run_trap]. by rewrite (bind_ret _ _ _ _ _ E).
Qed.
(** The parent waits, and its child runs for the first time. *)
Definition waiting (c : task) : task := set_state TaskSigWait (set_sigwait SIGCHLD c).

Lemma sys_wait4_eq p s c : tasks s !! CurrentTask s = Some c →
  sys_wait4 p 0 s = (r ← kern_sched_yield; mret (inr r)) (set_tasks (<[CurrentTask s := waiting c]> (tasks s)) s).
Proof.
  intros Ec. unfold sys_wait4. rewrite (bind_ret _ _ _ _ _ (current_ok s c Ec)). change (_ && _) with false. cbn match.
  rewrite (bind_ret _ _ _ _ _ (upd_current_ok s (set_sigwait SIGCHLD) c Ec)).
  set (s1 := set_tasks _ s). rewrite (bind_ret _ _ s1 (CurrentTask s) s1) by done. unfold task_sigwait. rewrite bind_assoc.
  assert (E1 : tasks s1 !! CurrentTask s = Some (set_sigwait SIGCHLD c)) by apply lookup_insert_eq.
  rewrite (bind_ret _ _ _ _ _ (upd_task_ok s1 (CurrentTask s) (set_state TaskSigWait) _ E1)).
  unfold s1. cbn [tasks set_tasks]. rewrite insert_insert_eq. done.
Qed.

Lemma trap_wait w l c ch t r1 r2 :
  lookupZ (IDTCallbacks (k_intr (w_k w))) INT_SYSCALL = Some h_syscall_interrupt → k_sc (w_k w) = full_sctbl →
  let cp := CurrentTask (w_tst w) in
  ring (w_tst w) (cp :: ch :: l) → signals_ok (w_tst w) → tasks (w_tst w) !! cp = Some c →
  tasks (w_tst w) !! ch = Some t → state t = TaskReady → resume t = InFork →
  w_frames w !! ch = Some (mkFrame (AtFork ch) (Running r1)) → eax r2 = SYS_WAIT4 → edx r2 = 0 →
  let s2 := set_tasks (<[cp := waiting c]> (tasks (w_tst w))) (w_tst w) in
  let w' := left_at (mkFrame (AtCall f_wait4 [ebx r2; ecx r2; edx r2; esi r2]) (Running r2)) (world_if false w) in
  ∃ s3, yielded s2 ch InFork s3 ∧ signals_ok s3 ∧ ring s3 (ch :: l ++ [cp]) ∧
    trap r2 w = Ret (Running (set_eax 0 r1), world_if (Z.testbit (eflags r1) IF_BIT) (with_wtst s3 w')).
Proof.
  intros Hh Hs cp Hr Hsig Ec Et Hst Hres Hf He Hd s2 w'.
  assert (Hcp : ch ≠ cp) by (intros ->; apply ring_NoDup, NoDup_cons in Hr as [Hn _]; apply Hn; left).
  assert (Hr2 : ring s2 (cp :: ch :: l)).
  { revert Hr. apply ring_same_links. intros p x Ex. cbn. destruct (decide (p = cp)) as [->|]; [|rewrite lookup_insert_ne by done; by exists x].
    rewrite lookup_insert_eq. eexists. split; [done|]. rewrite Ec in Ex. by injection Ex as <-. }
  assert (Hs2 : signals_ok s2).
  { intros p x. cbn. destruct (decide (p = cp)) as [->|]; [|rewrite lookup_insert_ne by done; apply Hsig].
    rewrite lookup_insert_eq. intros [= <-]. exact (Hsig cp c Ec). }
  assert (Et2 : tasks s2 !! ch = Some t) by (cbn; by rewrite lookup_insert_ne).
  destruct (kern_sched_yield_full s2 (ch :: l) [] ch (l ++ [cp])) as (r & s3 & E & Hy & Hs3 & Hr3); [done| |done|].
  { split; [done|]. split; [intros p Hp; by apply not_elem_of_nil in Hp|]. unfold task_runnable. rewrite Et2. unfold runnable.
    by rewrite Hst, bool_decide_eq_true_2, orb_true_r. }
  assert (r = InFork) as -> by (by rewrite (resume_point_of _ _ _ _ _ Hy Et2 Hcp)).
  rewrite app_nil_r in Hr3. exists s3. split; [done|]. split; [done|]. split; [done|].
  set (w1 := with_wtst s3 w').
  rewrite (trap_ok _ _ _ r2 f_wait4 w (inr (Running (set_eax 0 r1))) w1 Hh Hs); [apply iret_ok|by rewrite He|by rewrite He|].
  cbn [arity take arg_regs run_trap]. rewrite Hd. unfold leave_call, save_frame. rewrite !bind_assoc.
  rewrite (bind_ret _ _ _ _ _ (onTst_gets CurrentTask (world_if false w))). rewrite (bind_ret _ _ _ tt w') by (unfold w'; by rewrite Hd).
  assert (E2 : sys_wait4 (s32 (ebx r2)) (s32 0) (w_tst w') = Ret (inr InFork, s3)).
  { change (s32 0) with 0. rewrite (sys_wait4_eq _ (w_tst w') c Ec). rewrite (bind_ret _ _ _ InFork s3); [done|exact E]. }
  rewrite (bind_ret _ _ _ _ _ (onTst_ok _ w' _ _ E2)). fold w1.
  rewrite (bind_ret _ _ w1 (Running (set_eax 0 r1)) w1); [done|].
  assert (Hc1 : CurrentTask (w_tst w1) = ch) by apply Hy.
  rewrite (resume_frame_at _ w1 (mkFrame (AtFork ch) (Running r1))).
  2: { rewrite Hc1. cbn. rewrite lookup_insert_ne; [done|]. by intros <-. }
  cbn [fr_at fr_ctx].
  pose proof (fork_child_result ch (k_mach (w_k w1)) Hc1) as Ef.
  rewrite (bind_ret _ _ _ _ _ (onK_ok _ w1 _ _ (onMem_ok _ (w_k w1) _ _ Ef))). destruct w1 as [[? ? ? ? ?] ? ?]. done.
Qed.
Lemma forked_signals m l cur m' t :
  forked m l cur m' t → signals_ok (m_tst m) → tasks (m_tst m) !! CurrentTask (m_tst m) = Some cur → signals_ok (m_tst m').
Proof.
  intros Hf Hs Ec p x Ex. pose proof (Hs _ _ Ec) as Hcur. destruct (fk_signals _ _ _ _ _ Hf) as (Tpend & Tact).
  destruct (decide (p = heap (m_tst m))) as [->|Hpc].
  - rewrite (fk_child _ _ _ _ _ Hf) in Ex. injection Ex as <-. unfold sig_ok. by rewrite Tpend, Tact.
  - destruct (decide (p = CurrentTask (m_tst m))) as [->|Hpp].
    + destruct (fk_parent _ _ _ _ _ Hf) as (c & Ec1 & Hrc). rewrite Ec1 in Ex. injection Ex as <-. exact (relinked_sig _ _ Hrc Hcur).
    + destruct (fk_back _ _ _ _ _ Hf p x Hpp Hpc Ex) as (y & Ey & Hy). exact (relinked_sig _ _ Hy (Hs p y Ey)).
Qed.

(** The child exits. *)
Lemma trap_exit w l p tc tp r :
  lookupZ (IDTCallbacks (k_intr (w_k w))) INT_SYSCALL = Some h_syscall_interrupt → k_sc (w_k w) = full_sctbl →
  let ch := CurrentTask (w_tst w) in let status := s32 (ebx r) in
  ring (w_tst w) (ch :: l) → pids_distinct (w_tst w) (ch :: l) → signals_ok (w_tst w) → tasks (w_tst w) !! ch = Some tc → p ∈ l →
  tasks (w_tst w) !! p = Some tp → ppid tc = pid tp → SIGCHLD < Z.of_nat (length (sigact tc)) → SIGCHLD < Z.of_nat (length (sigact tp)) →
  eax r = SYS_EXIT →
  ∃ s, CurrentTask s = ch ∧ tasks s = <[p := bereaved tc status tp]> (<[ch := exited status tc]> (tasks (w_tst w))) ∧
    ring s (ch :: l) ∧ signals_ok s ∧ trap r w = Ret (Exited, world_if true (with_wtst s w)).
Proof.
  intros Hh Hs ch status Hr Hd Hsig Ec Hp Ep Hpp Hl1 Hl2 He.
  destruct (sys_exit_ok (tst_if false (w_tst w)) l p tc tp status) as (s & E & Hc & Ht & _); try done.
  { by apply (ring_frame (w_tst w)). }
  exists s. split; [done|]. split; [done|]. split; [|split].
  - revert Hr. apply ring_same_links. intros q x Ex. rewrite Ht. cbn [tasks tst_if set_cpu]. destruct (decide (q = p)) as [->|Hqp].
    + rewrite lookup_insert_eq. eexists. split; [done|]. rewrite Ep in Ex. by injection Ex as <-.
    + rewrite lookup_insert_ne by done. cbn [CurrentTask set_cpu tst_if]. fold ch. destruct (decide (q = ch)) as [->|Hqc].
      * rewrite lookup_insert_eq. eexists. split; [done|]. rewrite Ec in Ex. by injection Ex as <-.
      * rewrite lookup_insert_ne by done. by exists x.
  - intros q x. rewrite Ht. cbn [tasks CurrentTask tst_if set_cpu]. fold ch. destruct (decide (q = p)) as [->|Hqp].
    + rewrite lookup_insert_eq. intros [= <-]. split; [done|exact Hl2].
    + rewrite lookup_insert_ne by done. destruct (decide (q = ch)) as [->|Hqc].
      * rewrite lookup_insert_eq. intros [= <-]. split; [done|]. change (SIGTERM < Z.of_nat (length (sigact tc))). unfold SIGCHLD, SIGTERM in *. lia.
      * rewrite lookup_insert_ne by done. apply Hsig.
  - rewrite (trap_ok _ _ _ r f_exit w (inr Exited) (with_wtst s w) Hh Hs); [done|by rewrite He|by rewrite He|].
    cbn [arity take arg_regs run_trap]. fold status. by rewrite (bind_ret _ _ _ _ _ (onTst_ok _ (world_if false w) tt s E)).
Qed.

(** *** Who is who *)

Lemma pids_same s s' l : (∀ p, p ∈ l → pid <$> tasks s' !! p = pid <$> tasks s !! p) → pids_distinct s l → pids_distinct s' l.
Proof.
  intros H Hd p q tp tq Hp Hq Ep Eq Epq. pose proof (H p Hp) as H1. pose proof (H q Hq) as H2. rewrite Ep in H1. rewrite Eq in H2.
  destruct (tasks s !! p) as [up|] eqn:Fp; [|done]. destruct (tasks s !! q) as [uq|] eqn:Fq; [|done].
  cbn in H1, H2. apply (Hd p q up uq Hp Hq Fp Fq). congruence.
Qed.

Lemma relinked_pid t t' : relinked t t' → pid t' = pid t.
Proof. by intros (n & q & ->). Qed.

Lemma yielded_pids s y r s' p : yielded s y r s' → is_Some (tasks s !! y) → pid <$> tasks s' !! p = pid <$> tasks s !! p.
Proof.
  intros Hy [ty Ety]. destruct (tasks s !! p) as [t|] eqn:Et; [|by rewrite (yd_none _ _ _ _ Hy p Et)].
  destruct (decide (p = y)) as [->|Hpy].
  - destruct (yd_task _ _ _ _ Hy t Et) as (_ & (t' & -> & Hr) & _). cbn. rewrite (relinked_pid _ _ Hr).
    destruct (entered_fields (at_switch s y (woken t))) as (_ & Hd & _). unfold proc_data in Hd.
    f_equal. transitivity (pid (at_switch s y (woken t))); [congruence|]. unfold at_switch, woken. destruct (decide _), (wakeable t); done.
  - destruct (decide (p = CurrentTask s)) as [->|Hpc].
    + destruct (yd_left _ _ _ _ Hy t) as (t' & -> & Hr); [done|done|]. cbn. by rewrite (relinked_pid _ _ Hr).
    + destruct (yd_others _ _ _ _ Hy p t Hpy Hpc Et) as (t' & -> & Hr). cbn. by rewrite (relinked_pid _ _ Hr).
Qed.

Lemma forked_pids m l cur m' t :
  forked m l cur m' t → tasks (m_tst m) !! CurrentTask (m_tst m) = Some cur →
  pids_distinct (m_tst m) (CurrentTask (m_tst m) :: l) → heap (m_tst m) ∉ CurrentTask (m_tst m) :: l →
  (∀ p x, p ∈ CurrentTask (m_tst m) :: l → tasks (m_tst m) !! p = Some x → pid x ≠ next_pid (m_tst m)) →
  ring (m_tst m) (CurrentTask (m_tst m) :: l) →
  pids_distinct (m_tst m') (CurrentTask (m_tst m) :: heap (m_tst m) :: l).
Proof.
  intros Hf Ec Hd Hch Hn Hr. destruct (fk_id _ _ _ _ _ Hf) as (Ht & _).
  assert (K : ∀ p y, p ∈ CurrentTask (m_tst m) :: heap (m_tst m) :: l → tasks (m_tst m') !! p = Some y →
    (p = heap (m_tst m) ∧ pid y = next_pid (m_tst m)) ∨ (p ∈ CurrentTask (m_tst m) :: l ∧ ∃ x, tasks (m_tst m) !! p = Some x ∧ pid y = pid x)).
  { intros p y Hp Ey. destruct (decide (p = heap (m_tst m))) as [->|Hpc].
    - left. rewrite (fk_child _ _ _ _ _ Hf) in Ey. injection Ey as <-. by rewrite Ht.
    - right. assert (Hp' : p ∈ CurrentTask (m_tst m) :: l) by (rewrite !elem_of_cons in *; tauto). split; [done|].
      destruct (decide (p = CurrentTask (m_tst m))) as [->|Hpp].
      + destruct (fk_parent _ _ _ _ _ Hf) as (c & Ec' & Hrc). rewrite Ec' in Ey. injection Ey as <-. exists cur. split; [done|].
        by rewrite (relinked_pid _ _ Hrc).
      + destruct (fk_back _ _ _ _ _ Hf p y Hpp Hpc Ey) as (x & Ex & Hx). exists x. split; [done|by rewrite (relinked_pid _ _ Hx)]. }
  intros p q tp tq Hp Hq Ep Eq E.
  destruct (K p tp Hp Ep) as [[-> Kp]|(Hp' & xp & Exp & Kp)], (K q tq Hq Eq) as [[-> Kq]|(Hq' & xq & Exq & Kq)]; [done|..].
  - exfalso. apply (Hn q xq Hq' Exq). congruence.
  - exfalso. apply (Hn p xp Hp' Exp). congruence.
  - apply (Hd p q xp xq); congruence || done.
Qed.
Lemma word_bytes_ok x : len (word_bytes x) = 4 ∧ bytes (word_bytes x).
Proof.
  split; [done|]. unfold word_bytes, bytes. apply Forall_fmap, Forall_true. intros i. cbn. change 255 with (Z.ones 8).
  rewrite Z.land_ones by lia. change (2 ^ 8) with 256. apply Z.mod_pos_bound. lia.
Qed.

(** [sys_wait4] when its task runs again. *)
Lemma finish_wait w ct t fr U a st b c :
  tasks (w_tst w) !! CurrentTask (w_tst w) = Some t → mmu_view t = ct → space_ok (m_vm (k_mach (w_k w))) (mt_pgd ct) →
  private ct fr U (m_vm (k_mach (w_k w))) → 0 ≤ st → st + 4 ≤ 2 ^ 32 → (∀ i, 0 ≤ i < 4 → U (st + i)) →
  ∃ v, onK (finish_call f_wait4 [a; st; b; c]) w =
      Ret (u32 (sigchldpid t), with_kernel (mkKernel (with_vm v (k_mach (w_k w))) (k_intr (w_k w)) (k_sc (w_k w)) (k_fs (w_k w)) (k_cons (w_k w))) w) ∧
    holds_at ct v st (word_bytes (sigchldexit t)) ∧
    ∀ y, U y → ¬ st ≤ y < st + 4 → user_byte ct v y = user_byte ct (m_vm (k_mach (w_k w))) y.
Proof.
  intros Et Hct Hsp Hpv H0 Hl HU. destruct (word_bytes_ok (sigchldexit t)) as [Hlen Hb].
  destruct (umemcpy_holds ct fr U (m_vm (k_mach (w_k w))) st (word_bytes (sigchldexit t))) as (v & E & _ & Hh & Ho); try done.
  exists v. split; [|done]. apply onK_ok. cbn [finish_call].
  assert (Ew : sys_wait4_resumed (w_tst w) = Ret ((sigchldexit t, sigchldpid t), w_tst w)).
  { unfold sys_wait4_resumed. by rewrite (bind_ret _ _ _ _ _ (current_ok _ t Et)). }
  rewrite (bind_ret _ _ (w_k w) (sigchldexit t, sigchldpid t) (w_k w)).
  2: { rewrite (onTask_ok _ _ _ _ Ew). by destruct w as [[[] ? ? ? ?] ? ?]. }
  cbn [fst snd]. assert (Eu : user_store st (word_bytes (sigchldexit t)) (w_k w) =
    Ret (tt, mkKernel (with_vm v (k_mach (w_k w))) (k_intr (w_k w)) (k_sc (w_k w)) (k_fs (w_k w)) (k_cons (w_k w)))).
  { unfold user_store. apply (onUser_ok _ _ ct); [|exact E]. unfold cur_view. change (k_tst (w_k w)) with (w_tst w). by rewrite Et, <- Hct. }
  by rewrite (bind_ret _ _ _ _ _ Eu).
Qed.
Lemma preempted_kept w w' q x x' :
  tasks (w_tst w) !! q = Some x → tasks (w_tst w') !! q = Some x' → relinked x x' → w_frames w' !! q = w_frames w !! q →
  (task_runnable (w_tst w) q = true → ∃ c, preempted w q c) → task_runnable (w_tst w') q = true → ∃ c, preempted w' q c.
Proof.
  intros Ex Ex' Rx Hfr Hp Hrun. destruct (relinked_runnable _ _ Rx) as (Er & _).
  destruct Hp as (c & Hc & y & Ey & Hy); [unfold task_runnable in *; rewrite Ex; by rewrite Ex', Er in Hrun|].
  exists c. split; [congruence|]. exists x'. split; [done|]. rewrite Ex in Ey. injection Ey as <-. by destruct Rx as (a & b & ->).
Qed.

(** From the fork to the moment the child has exited. *)
Lemma fork_wait_exit w l cur tbl r1 r2 r3 :
  parent_ready w l cur tbl → can_clone w cur →
  eax r1 = SYS_FORK → (eax r2 = SYS_WAIT4 ∧ edx r2 = 0) → eax r3 = SYS_EXIT →
  let s := w_tst w in let cp := CurrentTask s in let ch := heap s in
  ∃ m t w1 w2 w3 tz, forked (k_mach (kernel_if false (w_k w))) l cur m t ∧
    trap r1 w = Ret (Running (set_eax (next_pid s) r1), w1) ∧
    trap r2 w1 = Ret (Running (set_eax 0 r1), w2) ∧ CurrentTask (w_tst w2) = ch ∧ cur_view (w_tst w2) = Some (mmu_view t) ∧
    trap r3 w2 = Ret (Exited, w3) ∧ CurrentTask (w_tst w3) = ch ∧ m_vm (k_mach (w_k w2)) = m_vm m ∧ m_vm (k_mach (w_k w3)) = m_vm m ∧
    timer_on w3 ∧ ring (w_tst w3) (ch :: l ++ [cp]) ∧ signals_ok (w_tst w3) ∧
    w_frames w3 !! cp = Some (mkFrame (AtCall f_wait4 [ebx r2; ecx r2; edx r2; esi r2]) (Running r2)) ∧
    tasks (w_tst w3) !! cp = Some tz ∧ resume tz = InEnter ∧ task_runnable (w_tst w3) cp = true ∧ mmu_view tz = mmu_view cur ∧
    sigchldpid tz = next_pid s ∧ sigchldexit tz = s32 (ebx r3) ∧
    ∀ q, q ∈ l → task_runnable (w_tst w3) q = true → ∃ c, preempted w3 q c.
Proof.
  intros Hp Hcc He1 [He2 Hd2] He3 s cp ch.
  destruct (trap_fork r1 w l cur tbl Hp Hcc He1) as (m & t & Hf & E1).
  set (w1 := world_if (Z.testbit (eflags r1) IF_BIT) (forked_world r1 m w)) in *.
  destruct (pr_heap _ _ _ _ Hp) as [H0 Hheap]. destruct (pr_next _ _ _ _ Hp) as [Hnp Hnew]. destruct (pr_cur _ _ _ _ Hp) as [Hpend Hact].
  destruct (pr_fds _ _ _ _ Hp) as ([Ecur _ _ _ _] & _ & _). pose proof (pr_ring _ _ _ _ Hp) as Hr0.
  assert (Hcp : cp < ch) by (apply Hheap; left).
  assert (Hchl : ch ∉ cp :: l) by (intros Hi; apply Hheap in Hi; fold s ch in Hi; lia).
  assert (Hcur1 : CurrentTask (w_tst w1) = cp) by apply (fk_cur _ _ _ _ _ Hf).
  assert (Hr1 : ring (m_tst m) (cp :: ch :: l)) by exact (fk_ring _ _ _ _ _ Hf).
  assert (Et1 : tasks (m_tst m) !! ch = Some t) by exact (fk_child _ _ _ _ _ Hf).
  destruct (fk_parent _ _ _ _ _ Hf) as (c & Ec1 & Hrc). change (tasks (m_tst m) !! cp = Some c) in Ec1. destruct (fk_id _ _ _ _ _ Hf) as (Tpid & Tppid & Tst & Tres).
  destruct (fk_signals _ _ _ _ _ Hf) as (_ & Tact).
  assert (Hc : sigpend c = 0 ∧ sigact c = sigact cur ∧ pid c = pid cur ∧ mmu_view c = mmu_view cur) by (destruct Hrc as (a & b & ->); done).
  destruct Hc as (Cpend & Cact & Cpid & Cview).
  assert (Hsig1 : signals_ok (w_tst w1)) by exact (forked_signals _ l cur m t Hf (pr_signals _ _ _ _ Hp) Ecur).
  assert (Hpids1 : pids_distinct (m_tst m) (cp :: ch :: l)).
  { apply (forked_pids _ l cur m t Hf); [exact Ecur|exact (pr_pids _ _ _ _ Hp)|exact Hchl|exact Hnew|by apply (ring_frame s)]. }
  assert (Hch1 : ch ≠ cp) by lia.
  pose proof (trap_wait w1 l c ch t r1 r2 (pr_syscalls _ _ _ _ Hp) (pr_calls _ _ _ _ Hp)) as Hw. cbv zeta in Hw. rewrite Hcur1 in Hw.
  destruct Hw as (s3 & Hy3 & Hs3 & Hr3 & E2);
    [by apply (ring_frame (m_tst m))|done|exact Ec1|exact Et1|done|done|apply lookup_insert_eq|done|done|].
  set (s2 := set_tasks (<[cp := waiting c]> (tasks (w_tst w1))) (w_tst w1)) in *.
  set (w2 := world_if (Z.testbit (eflags r1) IF_BIT) (with_wtst s3 _)) in *.
  assert (Et2 : tasks s2 !! ch = Some t) by (cbn; by rewrite lookup_insert_ne).
  assert (Hcs2 : CurrentTask s2 = cp) by exact Hcur1.
  destruct (yielded_process _ _ _ _ t Hy3 Et2) as (tc & Etc & Tdata & Tview); [by rewrite Hcs2|].
  destruct (yd_left _ _ _ _ Hy3 (waiting c)) as (tp & Etp & Htp); [by rewrite Hcs2|rewrite Hcs2; apply lookup_insert_eq|]. rewrite Hcs2 in Etp.
  assert (Hcur2 : CurrentTask (w_tst w2) = ch) by apply (yd_cur _ _ _ _ Hy3).
  assert (Hpids2 : pids_distinct (w_tst w2) (ch :: l ++ [cp])).
  { apply (pids_same s2).
    - intros p _. apply (yielded_pids _ _ _ _ p Hy3). by exists t.
    - intros p q x y Hpi Hqi. assert (K : ∀ p, p ∈ ch :: l ++ [cp] → p ∈ cp :: ch :: l).
      { intros z. rewrite !elem_of_cons, elem_of_app, list_elem_of_singleton. tauto. }
      assert (Hps : pids_distinct s2 (cp :: ch :: l)).
      { apply (pids_same (m_tst m)); [|done]. intros z _. cbn. destruct (decide (z = cp)) as [->|]; [|by rewrite lookup_insert_ne].
        by rewrite lookup_insert_eq, Ec1. }
      apply Hps; auto. }
  assert (Htp' : pid tp = pid cur ∧ sigact tp = sigact cur ∧ mmu_view tp = mmu_view cur ∧ state tp = TaskSigWait ∧ sigwait tp = SIGCHLD ∧ resume tp = InEnter).
  { destruct Htp as (a & b & ->). cbn. rewrite <- Cview, Cact, Cpid. done. }
  destruct Htp' as (Ppid & Pact & Pview & Pst & Pwait & Pres).
  assert (Htc' : ppid tc = pid cur ∧ pid tc = next_pid s ∧ sigact tc = sigact cur).
  { unfold proc_data in Tdata. rewrite <- Tact, <- Tppid. change (next_pid s) with (next_pid (m_tst (k_mach (kernel_if false (w_k w))))). rewrite <- Tpid. split; [|split]; congruence. }
  destruct Htc' as (Cppid & Cpid' & Cact').
  pose proof (trap_exit w2 (l ++ [cp]) cp tc tp r3 (pr_syscalls _ _ _ _ Hp) (pr_calls _ _ _ _ Hp)) as Hx. cbv zeta in Hx. rewrite Hcur2 in Hx.
  destruct Hx as (s4 & Hc4 & Ht4 & Hr4 & Hs4 & E3);
    [by apply (ring_frame s3)|done|done|done|apply elem_of_app; right; left|done|congruence|by rewrite Cact'|by rewrite Pact|done|].
  exists m, t, w1, w2, (world_if true (with_wtst s4 w2)), (bereaved tc (s32 (ebx r3)) tp).
  assert (Hfr3 : w_frames (with_wtst s4 w2) = <[cp := mkFrame (AtCall f_wait4 [ebx r2; ecx r2; edx r2; esi r2]) (Running r2)]> (w_frames w1))
    by (rewrite <- Hcur1; done).
  assert (Ez : tasks s4 !! cp = Some (bereaved tc (s32 (ebx r3)) tp)) by (rewrite Ht4; apply lookup_insert_eq).
  split; [done|]. split; [done|]. split; [done|]. split; [done|].
  split; [unfold cur_view; rewrite Hcur2; change (tasks (w_tst w2)) with (tasks s3); rewrite Etc; cbn; by rewrite Tview|].
  split; [done|]. split; [done|]. split; [done|]. split; [done|]. split; [apply Hp|]. split; [by apply (ring_frame s4)|]. split; [done|].
  split; [cbn [w_frames world_if with_kernel]; rewrite Hfr3; apply lookup_insert_eq|]. split; [done|]. split; [done|]. split; [|split; [done|split; [done|split; [done|]]]].
  - unfold task_runnable. change (tasks (w_tst _)) with (tasks s4). rewrite Ez. unfold runnable, wakeable. cbn. by rewrite Pst, Pwait.
  - intros q Hq Hrun.
    assert (Hqp : q ≠ cp) by (intros ->; apply ring_NoDup, NoDup_cons in Hr0 as [? _]; done).
    assert (Hqc : q ≠ ch) by (intros ->; apply Hchl; by right).
    destruct (ring_task _ _ q Hr0) as [x Ex]; [by right|].
    destruct (fk_others _ _ _ _ _ Hf q x Hqp Hqc Ex) as (x1 & Ex1 & Rx1).
    destruct (yd_others _ _ _ _ Hy3 q x1) as (x3 & Ex3 & Rx3); [done|by rewrite Hcs2|cbn; by rewrite lookup_insert_ne|].
    apply (preempted_kept w _ q x x3); [done|cbn [w_tst w_k world_if with_kernel]|by eapply relinked_trans| |by apply Hp|done].
    + rewrite <- Ex3. change (tasks s4 !! q = tasks s3 !! q). by rewrite Ht4, !lookup_insert_ne by done.
    + cbn [w_frames world_if with_kernel]. rewrite Hfr3, lookup_insert_ne by done. cbn. by rewrite lookup_insert_ne by done.
Qed.
End Family.

(** C11: fork, exit and wait.  A program forks, waits, and its child exits, all by [int 0x80],
    on a ring with other tasks of which those that can run were interrupted by the timer.
    The fork returns the next pid; the wait enters the child, to which the fork returns 0
    with its parent's registers and which reads the bytes its parent had; when it has
    exited, at most as many ticks of the timer as there are tasks lead back to the
    parent, whose wait returns the child's pid and has stored the status; nothing else
    of the parent's memory has changed. *)
Theorem fork_wait_collects junk eax_ spin_regs lx w l cur tbl fr U st r1 r2 r3 :
  let s := w_tst w in let ct := mmu_view cur in let vm_of w := m_vm (k_mach (w_k w)) in
  parent_ready w l cur tbl → can_clone w cur →
  space_ok (vm_of w) (mt_pgd ct) → private ct fr U (vm_of w) → 0 ≤ st → st + 4 ≤ 2 ^ 32 → (∀ i, 0 ≤ i < 4 → U (st + i)) →
  eax r1 = SYS_FORK → (eax r2 = SYS_WAIT4 ∧ ecx r2 = st ∧ edx r2 = 0) → eax r3 = SYS_EXIT →
  ∃ w1 w2 w3 w4 cd n, trap junk eax_ lx r1 w = Ret (Running (set_eax (next_pid s) r1), w1) ∧
    trap junk eax_ lx r2 w1 = Ret (Running (set_eax 0 r1), w2) ∧
    CurrentTask (w_tst w2) = heap s ∧ cur_view (w_tst w2) = Some cd ∧ (∀ x, U x → user_byte cd (vm_of w2) x = user_byte ct (vm_of w) x) ∧
    trap junk eax_ lx r3 w2 = Ret (Exited, w3) ∧
    (1 ≤ n ≤ S (length l))%nat ∧ ticks junk eax_ spin_regs lx n Exited w3 = Ret (Running (set_eax (next_pid s) r2), w4) ∧
    CurrentTask (w_tst w4) = CurrentTask s ∧ holds_at ct (vm_of w4) st (word_bytes (ebx r3)) ∧
    (∀ x, U x → ¬ st ≤ x < st + 4 → user_byte ct (vm_of w4) x = user_byte ct (vm_of w) x).
Proof.
  intros s ct vm_of Hp Hcc Hsp Hpv H0 Hl HU He1 (He2 & Hc2 & Hd2) He3.
  destruct (fork_wait_exit junk eax_ lx w l cur tbl r1 r2 r3 Hp Hcc He1 (conj He2 Hd2) He3)
    as (m & t & w1 & w2 & w3 & tz & Hf & E1 & E2 & Hcur2 & Hv2 & E3 & Hcur3 & Hm2 & Hm3 & Ht3 & Hr3 & Hs3 & Hf3 & Etz & Hrz & Hrun & Hvz & Hzp & Hzx & Hoth).
  pose proof (fk_grow _ _ _ _ _ Hf) as Hg. pose proof (fk_space _ _ _ _ _ Hf) as Hec. change (m_vm (k_mach (kernel_if false (w_k w)))) with (vm_of w) in Hg, Hec.
  change (r_cr3 (cpu (m_tst (k_mach (kernel_if false (w_k w)))))) with (r_cr3 (cpu (w_tst w))) in Hec. rewrite (cc_cr3 _ _ Hcc) in Hec.
  destruct (ticks_reach junk eax_ spin_regs lx (CurrentTask s) f_wait4 [ebx r2; ecx r2; edx r2; esi r2] (Running r2) (length l) w3 Exited (l ++ [CurrentTask s]) tz)
    as (n & w' & tz' & l' & Hn & En & Hsw & Hc' & _ & Etz' & [Hdata Hview]); [done|by rewrite Hcur3|done|by apply list_lookup_middle|done|done|done|done| |].
  { intros k q Hk Hq Hrq. rewrite lookup_app_l in Hq by done. apply Hoth; [by eapply list_elem_of_lookup_2|done]. }
  pose proof (sw_vm _ _ Hsw) as Hm'. rewrite Hm3 in Hm'.
  destruct (finish_wait w' ct tz' fr U (ebx r2) st (edx r2) (esi r2)) as (v & E4 & Hh4 & Ho4); try done.
  { by rewrite Hc'. } { unfold ct. congruence. } { rewrite Hm'. by apply (grow_space (vm_of w)). } { rewrite Hm'. by apply (grow_private (vm_of w)). }
  set (w4 := with_kernel _ w') in E4.
  exists w1, w2, w3, (world_if (Z.testbit (eflags r2) IF_BIT) w4), (mmu_view t), n. do 4 (split; [done|]).
  split; [|split; [done|split; [done|split; [|split; [exact Hc'|split]]]]].
  - intros x Hx. unfold vm_of at 1. rewrite Hm2. apply (clone_byte (vm_of w) (m_vm m) ct Hg fr U Hpv (mmu_view t)); [exact (cc_dir _ _ Hcc)|done|done].
  - rewrite En, Hc2. rewrite (bind_ret _ _ _ _ _ E4). rewrite iret_ok. unfold proc_data in Hdata.
    change (next_pid (w_tst w)) with (next_pid s) in Hzp. assert (Hzp' : sigchldpid tz' = next_pid s) by congruence. rewrite Hzp'. cbn [with_result iret_flag].
    destruct (pr_next _ _ _ _ Hp) as [Hnp _]. fold s in Hnp. rewrite u32_small by lia. done.
  - unfold proc_data in Hdata. assert (Hzx' : sigchldexit tz' = s32 (ebx r3)) by congruence. rewrite Hzx' in Hh4.
    assert (Ew : word_bytes (s32 (ebx r3)) = word_bytes (ebx r3)) by (unfold word_bytes; by rewrite u32_s32). rewrite <- Ew. exact Hh4.
  - intros x Hx Hxo. change (vm_of _) with v at 1. rewrite Ho4 by done. rewrite Hm'. by apply (grow_byte (vm_of w) (m_vm m) ct Hsp Hg fr U Hpv).
Qed.


(** The kernel [kmain] starts from, with a program's directory and two of its pages, the
    path at their beginning. *)
Definition prog_task : task := set_arch (mkArch 0 0 0x1000) (set_pid 1 (KernelTask 0xC0300000)).
Definition prog_path : list Z := text "/initrd/hello_world.txt".
Definition prog_es : list entry := [demo_entry [97] [1; 2; 3]; hi_entry].
Definition prog_kernel (v : vm) : kernel :=
  mkKernel (mkMach (mkTst {[KernelTask_ptr := prog_task]} KernelTask_ptr 0 1 ∅ ∅ 0 10 (mkCpu 0 0 0 false) [] []) v true [] 0 0)
    (set_IDTCallbacks (replicate 256 NoHandler) demo_intr) empty_sctbl demo_boot_fs demo_cons.
Definition prog_mem (x : Z) : Prop := 0x8048000 ≤ x ≤ 0x8048100.

Lemma prog_pages : ∃ v, space_ok v 0x1000 ∧ private Mmu.demo_task (vm_frames Mmu.demo_vm) prog_mem v ∧ holds_at Mmu.demo_task v 0x8048000 (prog_path ++ [0]).
Proof.
  destruct (pg_alloc_range_private Mmu.demo_task (vm_frames Mmu.demo_vm) (λ _, False) 0 Mmu.demo_vm 0x8048000 0x8048100 true)
    as (v & _ & _ & Hsp & _ & _ & Hpv & _); try done.
  - split; [by apply frames_okb_ok|vm_compute; lia|done|vm_compute; lia].
  - exact demo_space_ok.
  - intros v Hv. left. apply demo_pde. change (PGADDR 0x8048000) with 0x8048000 in Hv. unfold PAGE_SIZE in Hv. lia.
  - assert (Hpv' : private Mmu.demo_task (vm_frames Mmu.demo_vm) prog_mem v).
    { eapply private_ext; [|exact Hpv]. intros x Hx. right. unfold prog_mem in Hx. lia. }
    destruct (umemcpy_holds Mmu.demo_task (vm_frames Mmu.demo_vm) prog_mem v 0x8048000 (prog_path ++ [0])) as (v' & _ & Hss & Hb & _); try done.
    + intros i Hi. change (Z.of_nat (length _)) with 24 in Hi. unfold prog_mem. lia.
    + apply (bool_decide_unpack _). by vm_compute.
    + exists v'. split; [exact (same_space_ok Mmu.demo_task v v' Hss Hsp)|]. split; [exact (same_space_private _ _ _ v v' Hss Hpv')|done].
Qed.

Lemma prog_running : ∃ k ird tty kids, running k ird tty prog_es kids ready_term ∧ cur_view (k_tst k) = Some Mmu.demo_task ∧
  space_ok (m_vm (k_mach k)) 0x1000 ∧ private Mmu.demo_task (vm_frames Mmu.demo_vm) prog_mem (m_vm (k_mach k)) ∧
  holds_at Mmu.demo_task (m_vm (k_mach k)) 0x8048000 (prog_path ++ [0]).
Proof.
  destruct prog_pages as (v & H1 & H2 & H3).
  destruct (kmain_init_ok direct_libc (λ _ _, 0xFF) (prog_kernel v) prog_task prog_es (demo_entry trailer_name []) [] [0; 0; 0; 0] 7)
    as (k & ird & tty & kids & _ & Hr & Hm & Hv).
  - split; [done| |done|done]. split; [done|]. intros p [x Ex]. cbn in Ex. by rewrite lookup_empty in Ex.
  - split; [done| |by rewrite app_nil_r|].
    + apply (bool_decide_unpack _). vm_compute. exact I.
    + split; [|split]; [repeat constructor; apply (bool_decide_unpack _); vm_compute; exact I..|apply (bool_decide_unpack _); vm_compute; exact I].
  - apply (bool_decide_unpack _). vm_compute. exact I.
  - cbn. lia.
  - done.
  - exists k, ird, tty, kids. rewrite Hm. done.
Qed.

Definition call_regs (n a b c : Z) : isrargs := mkIsrargs 0 0 0 0 0 a c b n 0 0 0 0 0x202 0 0.
Definition demo_libexec : libexec :=
  mkLibexec demo_filelib (λ _, mret []) [] 0 demo_parsed [].
Lemma program_prints_file_witness :
  ∃ w w1 w2 w3, trap 0 0 demo_libexec (call_regs 5 0x8048000 0 0) w = Ret (Running (set_eax 3 (call_regs 5 0x8048000 0 0)), w1) ∧
    trap 0 0 demo_libexec (call_regs 3 3 0x8048080 100) w1 = Ret (Running (set_eax 61 (call_regs 3 3 0x8048080 100)), w2) ∧
    trap 0 0 demo_libexec (call_regs 4 1 0x8048080 61) w2 = Ret (Running (set_eax 61 (call_regs 4 1 0x8048080 61)), w3) ∧
    shows (screen (k_cons (w_k w3))) (t_puts (s8 <$> hello_text) ready_term).
Proof.
  destruct prog_running as (k & ird & tty & kids & Hr & Hv & Hsp & Hpv & Hp).
  destruct (program_prints_file 0 0 demo_libexec (mkWorld k ∅ 0) ird tty prog_es kids ready_term 1 hi_entry Mmu.demo_task (vm_frames Mmu.demo_vm) prog_mem
    0x8048000 prog_path 0x8048080 100 (call_regs 5 0x8048000 0 0) (call_regs 3 3 0x8048080 100) (call_regs 4 1 0x8048080 61))
    as (w1 & w2 & w3 & E1 & E2 & E3 & _ & _ & Hs).
  - exact Hr.
  - apply (bool_decide_unpack _). vm_compute. exact I.
  - done.
  - repeat constructor; apply (bool_decide_unpack _); vm_compute; exact I.
  - apply (bool_decide_unpack _). vm_compute. exact I.
  - exact Hv.
  - exact Hsp.
  - exact Hpv.
  - exact Hp.
  - apply (bool_decide_unpack _). vm_compute. exact I.
  - apply (bool_decide_unpack _). vm_compute. exact I.
  - by vm_compute.
  - done.
  - done.
  - done.
  - intros i Hi. unfold prog_mem. lia.
  - done.
  - apply (bool_decide_unpack _). vm_compute. exact I.
  - done.
  - done.
  - done.
  - exists (mkWorld k ∅ 0), w1, w2, w3. exact (conj E1 (conj E2 (conj E3 Hs))).
Defined.

(** A program with one page of its own, alone on the ring. *)
Definition family_kernel : kernel :=
  mkKernel fork_mach (set_IDTCallbacks (insertZ INT_PIT h_sched_preempt (insertZ INT_SYSCALL h_syscall_interrupt (replicate 256 NoHandler))) demo_intr)
    full_sctbl demo_boot_fs demo_cons.
Definition family_world : world := mkWorld family_kernel ∅ 0.
Definition family_page (x : Z) : Prop := 0x8048000 ≤ x < 0x8049000.
Definition free_bitmap : frames := mkFrames true [0; 0] 64 0xC0300000 0.

Lemma family_pde v : is_u32 v → pde_of (phys clone_vm) 0x1000 v = if ADDR_PDE v =? 32 then 0x2007 else 0.
Proof.
  intros Hv. unfold pde_of. rewrite clone_vm_rd. pose proof (ADDR_PDE_bound v Hv).
  destruct (Z.eqb_spec (ADDR_PDE v) 32) as [->|Hn]; [done|]. by zcase; try lia.
Qed.

Lemma family_space : space_ok clone_vm 0x1000.
Proof.
  split; [done|done|done|..].
  - intros v Hv. rewrite family_pde by done. by destruct (_ =? 32).
  - intros v Hv. unfold table_of. rewrite family_pde by done. by destruct (_ =? 32).
  - intros v w Hv Hw. rewrite !family_pde by done. destruct (Z.eqb_spec (ADDR_PDE v) 32) as [->|], (Z.eqb_spec (ADDR_PDE w) 32) as [->|]; done.
Qed.

Lemma family_walk x : family_page x → hw_walk (phys clone_vm) 0x1000 x = Some (0x3000 + x mod 2 ^ 12, true, true).
Proof.
  intros Hx. unfold family_page in Hx. assert (Hx32 : is_u32 x) by lia.
  assert (Hd : ADDR_PDE x = 32) by (rewrite ADDR_PDE_eq; zlia). assert (Ht : ADDR_PTE x = 72) by (rewrite ADDR_PTE_eq; zlia).
  rewrite hw_walk_entries by (done || rewrite family_pde, Hd by done; done). unfold entry_of, table_of. rewrite family_pde, Hd by done. cbn match.
  rewrite Ht, clone_vm_rd. done.
Qed.

Lemma family_private : private (mkMmuTask 1 0x1000) free_bitmap family_page clone_vm.
Proof.
  split.
  - intros x Hx. split; [unfold family_page in Hx; lia|]. exists 0x3000. split; [|split; [done|by apply family_walk]].
    split; [done|done|done|]. intros w Hw. unfold table_of. rewrite family_pde by done. by destruct (_ =? 32).
  - intros x y a u b w c d Hx Hy _ _ _. unfold family_page in *. unfold same_page, PAGE_SIZE. apply Z.eqb_eq. zlia.
Qed.

Lemma family_ready : parent_ready family_world [] fork_cur [6; 0; 0; 0].
Proof.
  assert (Hone : ∀ p t, tasks fork_tst !! p = Some t → p = 1 ∧ t = fork_cur).
  { intros p t E. cbn in E. apply lookup_insert_Some in E as [[<- <-]|[_ E]]; [done|]. by rewrite lookup_empty in E. }
  split; try done.
  - split; [done|]. split; apply (bool_decide_unpack _); reflexivity.
  - intros p q tp tq Hp Hq _ _ _. apply list_elem_of_singleton in Hp, Hq. congruence.
  - split; [done|]. intros p t _ E. by apply Hone in E as [_ ->].
  - intros p t E. by apply Hone in E as [_ ->].
  - split; [by split|]. split; [done|]. intros d Hd Hn. rewrite !elem_of_cons in Hd.
    destruct Hd as [->|[->|[->|[->|Hd]]]]; try done. by apply not_elem_of_nil in Hd.
  - split; [done|]. by intros p ->%list_elem_of_singleton.
  - intros q Hq. by apply not_elem_of_nil in Hq.
Qed.

Lemma family_clones : can_clone family_world fork_cur.
Proof.
  split; [done| |exact clone_vm_clonable]. exists 0%nat. split; [by apply frames_okb_ok|vm_compute; lia|done|vm_compute; lia].
Qed.

(** The status goes to 0x8048010. *)
Definition wait_regs : isrargs := mkIsrargs 0 0 0 0 0 0xFFFFFFFF 0 0x8048010 114 0 0 0 0 0x202 0 0.
Lemma fork_wait_collects_witness :
  ∃ w1 w2 w3 w4 n, trap 0 0 demo_libexec (call_regs 2 0 0 0) family_world = Ret (Running (set_eax 2 (call_regs 2 0 0 0)), w1) ∧
    trap 0 0 demo_libexec wait_regs w1 = Ret (Running (set_eax 0 (call_regs 2 0 0 0)), w2) ∧ CurrentTask (w_tst w2) = 10 ∧
    trap 0 0 demo_libexec (call_regs 1 7 0 0) w2 = Ret (Exited, w3) ∧
    ticks 0 0 (call_regs 0 0 0 0) demo_libexec n Exited w3 = Ret (Running (set_eax 2 wait_regs), w4) ∧
    holds_at (mkMmuTask 1 0x1000) (m_vm (k_mach (w_k w4))) 0x8048010 [7; 0; 0; 0].
Proof.
  destruct (fork_wait_collects 0 0 (call_regs 0 0 0 0) demo_libexec family_world [] fork_cur [6; 0; 0; 0] free_bitmap family_page 0x8048010
    (call_regs 2 0 0 0) wait_regs (call_regs 1 7 0 0)) as (w1 & w2 & w3 & w4 & cd & n & E1 & E2 & Hc2 & _ & _ & E3 & _ & E4 & _ & Hh & _).
  - exact family_ready.
  - exact family_clones.
  - exact family_space.
  - exact family_private.
  - done.
  - done.
  - intros i Hi. unfold family_page. lia.
  - done.
  - done.
  - done.
  - exists w1, w2, w3, w4, n. exact (conj E1 (conj E2 (conj Hc2 (conj E3 (conj E4 Hh))))).
Defined.
