(* ===== verification/Execve.v ===== *)
(** * Starting a program by number

    [execve] by [int 0x80] on the whole state: the path and the arrays in the program's memory,
    the file of the ramdisk through the calls of the C library, its segments, and the stack
    of the program that starts. *)
From Stdlib Require Import ZArith Lia.
From stdpp Require Import base gmap list list_numbers strings.
From S2P Require Import Prelude Layout FrameAlloc Mmu MmuClone ListHead TaskState Task Sched SysProc Fdio Machine Fork Brk CStr Fs Tmpfs Cpiofs Intr Console SysFile UserMem SysMem Syscall Elf Exec Kmain UserCall Traps Programs.
Open Scope Z_scope.
Open Scope u32_scope.

(** ** What the C library does *)

(** Its file functions, on a file of the ramdisk, make the calls of this kernel: [stat] and
    [mmap] pass their results on, a stream has a descriptor, and reading a stream from its
    beginning gives the bytes of the file wherever that leaves the descriptor. *)
Class ExecFiles (lib : filelib kernel) := {
  ef_fd : Z → Z;
  ef_stat path k n k' : onFiles (sys_newstat path) k = Ret ((0, Some n), k') → fl_stat lib path k = Ret ((0, n), k');
  ef_mmap n k a k' : onMem (sys_mmap_pgoff 0 n 0 MAP_ANONYMOUS 0 0) k = Ret (a, k') → fl_mmap lib n k = Ret (a, k');
  ef_open path k fd k' : (∀ flags m, onFiles (sys_open path flags m) k = Ret (fd, k')) → fd ≠ -1 →
    ∃ f, fl_fopen lib path k = Ret (f, k') ∧ f ≠ 0 ∧ ef_fd f = fd;
  ef_read f k cur tbl dv x :
    fd_ok (k_tst k) cur tbl → leads_to (files_of k) tbl (ef_fd f) dv → file_at (files_of k) dv x 0 → len x < 2 ^ 31 →
    ∃ p k1 d pos, fl_fseek lib f 0 0 k = Ret (p, k1) ∧ devs (k_fs k) !! dv = Some d ∧ fl_fread lib f (len x) k1 =
      Ret ((len x, x), mkKernel (k_mach k) (k_intr k) (k_sc k)
        (set_devs (<[dv := mkFile (dev_io d) pos (flength d) (fdata d)]> (devs (k_fs k))) (k_fs k)) (k_cons k));
  ef_close f k k' : (∀ eax, ∃ r, onFiles (sys_close eax (ef_fd f)) k = Ret (r, k')) → fl_fclose lib f k = Ret (tt, k')
}.

(** ** Words in a program's memory *)

Lemma bytes_word_ok x : is_u32 x → bytes_word (word_bytes x) = x.
Proof.
  intros Hx. unfold word_bytes. rewrite (u32_small x) by done. cbn [fmap list_fmap bytes_word foldr]. change 0xFF with (Z.ones 8).
  rewrite !Z.land_ones, !Z.shiftr_div_pow2 by lia. change (2 ^ (8 * 0)) with 1. change (2 ^ (8 * 1)) with 256.
  change (2 ^ (8 * 2)) with 65536. change (2 ^ (8 * 3)) with 16777216. change (2 ^ 8) with 256. zlia.
Qed.

Definition words_at (ct : mmu_task) (v : vm) (p : Z) (l : list Z) : Prop := holds_at ct v p (mjoin (word_bytes <$> l)).
(** The addresses of [n] words. *)
Definition words_range (p : Z) (n : nat) (x : Z) : Prop := p ≤ x < p + 4 * Z.of_nat n.

Lemma words_cons x l : mjoin (word_bytes <$> x :: l) = word_bytes x ++ mjoin (word_bytes <$> l).
Proof. done. Qed.
Lemma words_length l : length (mjoin (word_bytes <$> l)) = (4 * length l)%nat.
Proof. induction l as [|x l IH]; [done|]. rewrite words_cons, length_app, IH. cbn. lia. Qed.

Lemma holds_at_app ct v p x y : holds_at ct v p (x ++ y) → holds_at ct v p x ∧ (y ≠ [] → holds_at ct v (p +u len x) y).
Proof.
  intros (H0 & Hl & Hx). rewrite length_app in Hl. split.
  - split; [done|]. split; [lia|]. intros i b Hi. apply Hx. by apply lookup_app_l_Some.
  - intros Hy. assert (0 < length y)%nat by (destruct y; [done|cbn; lia]). unfold len. rewrite u32_small by lia. split; [lia|]. split; [lia|].
    intros i b Hi. rewrite <- (Hx (length x + i)%nat b) by (rewrite lookup_app_r by lia; rewrite <- Hi; f_equal; lia). f_equal. lia.
Qed.

Lemma holds_at_same ct v v' p x : holds_at ct v p x → (∀ a, p ≤ a < p + len x → user_byte ct v' a = user_byte ct v a) → holds_at ct v' p x.
Proof.
  intros (H0 & Hl & Hx) Hs. split; [done|]. split; [done|]. intros i b Hi. rewrite Hs by (pose proof (lookup_lt_Some _ _ _ Hi); unfold len; lia). by apply Hx.
Qed.
Lemma words_at_same ct v v' p l : words_at ct v p l → (∀ a, words_range p (length l) a → user_byte ct v' a = user_byte ct v a) → words_at ct v' p l.
Proof.
  intros Hw Hs. apply (holds_at_same ct v); [done|]. intros a Ha. apply Hs. unfold len in Ha. rewrite words_length in Ha. unfold words_range. lia.
Qed.

Section Words.
Context (k : kernel) (ct : mmu_task).
Hypothesis Hv : cur_view (k_tst k) = Some ct.
Let v : vm := m_vm (k_mach k).

Lemma user_word_ok p x : holds_at ct v p (word_bytes x) → is_u32 x → user_word p k = Ret (x, k).
Proof.
  intros Hp Hx. unfold user_word, user_bytes. rewrite (bind_ret _ _ k (word_bytes x) k).
  - change (len (word_bytes x) =? 4) with true. cbv iota. by rewrite bytes_word_ok.
  - apply (onUser_reads _ k ct _ Hv). unfold uview, gets. change (Z.to_nat 4) with (length (word_bytes x)). by rewrite user_view_ok.
Qed.

Lemma user_words_ok l : ∀ p n, Forall (λ x, x ≠ NULL ∧ is_u32 x) l → words_at ct v p (l ++ [NULL]) → (length l < n)%nat →
  user_words n p k = Ret (l ++ [NULL], k).
Proof.
  induction l as [|x l IH]; intros p n Hl Hw Hn; (destruct n as [|n]; [cbn in Hn; lia|]); unfold words_at in Hw;
    cbn [app] in Hw; rewrite words_cons in Hw; apply holds_at_app in Hw as [Hx Hw]; cbn [user_words].
  - by rewrite (bind_ret _ _ _ _ _ (user_word_ok p NULL Hx ltac:(done))).
  - apply Forall_cons in Hl as [[Hx0 Hx32] Hl]. rewrite (bind_ret _ _ _ _ _ (user_word_ok p x Hx Hx32)).
    rewrite (proj2 (Z.eqb_neq x NULL)) by done. change (len (word_bytes x)) with 4 in Hw.
    rewrite (bind_ret _ _ _ _ _ (IH (p +u 4) n Hl (Hw ltac:(by destruct l)) ltac:(cbn in Hn; lia))). done.
Qed.

(** The arrays of [execve]. *)
Lemma user_array_ok p l : Forall (λ x, x ≠ NULL ∧ is_u32 x) l → words_at ct v p (l ++ [NULL]) → user_words MAX_WORDS p k = Ret (l ++ [NULL], k).
Proof.
  intros Hl Hw. apply user_words_ok; [done|done|]. destruct Hw as (H0 & H1 & _). rewrite words_length, length_app in H1. cbn [length] in H1. unfold MAX_WORDS. lia.
Qed.
End Words.

(** ** Reading a program *)

Lemma stat_ramdisk_ok k ird tty es kids path i e :
  mounted (k_fs k) ird tty es kids → NoDup (e_name <$> es) → es !! i = Some e → is_file e →
  terminated path → bytes path → Z.of_nat (length path) < 2 ^ 32 → path_components path = [cstr (literal "initrd"); e_name e] →
  ∃ t, onFiles (sys_newstat path) k =
    Ret ((0, Some (len (e_data e))), mkKernel (k_mach k) (k_intr k) (k_sc k) (set_toks t (k_fs k)) (k_cons k)).
Proof.
  intros Hm Hnd Hi [He _] Ht Hb Hl Hc. pose proof (eo_data _ He) as Hdl. pose proof (len_nonneg (e_data e)). set (s := k_fs k) in *.
  destruct (mt_files _ _ _ _ _ Hm i e Hi) as [(n & Eq & _ & _ & Es & Hd) (off & Ed & _)].
  destruct (fs_locate_ok s kids (FSRootNode s) path ltac:(apply Hm) (mt_root _ _ _ _ _ Hm) Ht Hb Hl ltac:(by rewrite Hc)) as [tk Et].
  rewrite Hc, (mounted_file s ird tty es kids i e Hm Hnd Hi) in Et. cbn [default id from_option] in Et. set (q := entry_node ird i) in *.
  assert (Hq : 1 < q) by (unfold q, entry_node; pose proof (proj1 (mt_ptrs _ _ _ _ _ Hm)); unfold NULL in *; lia).
  exists tk. set (f := files_of k). set (f1 := with_kf (set_toks tk s) f).
  assert (Er : sys_newstat path f = Ret ((0, Some (len (e_data e))), f1)).
  { unfold sys_newstat. rewrite (bind_ret _ _ f (FSRootNode s) f) by (by rewrite (onF_ok _ f (FSRootNode s) s) by done).
    rewrite (bind_ret _ _ _ _ _ (onF_ok _ f q (set_toks tk s) Et)). rewrite (proj2 (Z.eqb_neq q NULL)) by (unfold NULL; lia). fold f1.
    rewrite (bind_ret _ _ f1 n f1).
    2: { rewrite (onF_ok _ f1 n (kf_fs f1)); [by rewrite with_kf_same|]. unfold get_node. mred. cbn. by rewrite Eq. }
    rewrite Es. rewrite (bind_ret _ _ f1 (0, Some (len (e_data e))) f1); [done|]. cbn [node_stat].
    rewrite (onF_ok _ f1 (0, Some (len (e_data e))) (kf_fs f1)); [by rewrite with_kf_same|].
    unfold cpiofs_stat_file. rewrite (bind_ret _ _ (kf_fs f1) (q - 1) (kf_fs f1)).
    2: { unfold cpiofs_open_file, get_node. mred. cbn. rewrite Eq. cbn. by rewrite Hd. }
    rewrite (proj2 (Z.eqb_neq (q - 1) NULL)) by (unfold NULL; lia). unfold get_dev. mred. cbn. rewrite Ed. cbn. rewrite u32_small; [done|lia]. }
  unfold onFiles. rewrite (zoom_ret (H := kernel_has_files) _ k _ _ Er). unfold f1, f. by destruct k as [[] ? ? ? ?].
Qed.

(** The task with another end of its mappings keeps its descriptors. *)
Lemma prefix_mmapbrk s ds t tbl b :
  fds_prefix s ds t tbl → fds_prefix (set_tasks (<[CurrentTask s := set_mmapbrk b t]> (tasks s)) s) ds (set_mmapbrk b t) tbl.
Proof.
  intros [[A1 A2 A3 A4 A5] B C D E F]. split; try done. split; try done. apply lookup_insert_eq.
Qed.

(** Closing the file of the ramdisk that was opened last. *)
Lemma close_ramdisk_ok k ds dv cur tbl d fd :
  fds_prefix (k_tst k) (ds ++ [dv]) cur tbl → fdnext cur ≤ len ds → devs (k_fs k) !! dv = Some d → io_close (dev_io d) = p_cpiofs_close_file →
  fd = len ds →
  ∃ t' tbl', let k' := mkKernel (with_tst t' (k_mach k)) (k_intr k) (k_sc k) (k_fs k) (k_cons k) in
    (∀ eax, ∃ r, onFiles (sys_close eax fd) k = Ret (r, k')) ∧ fds_prefix t' ds cur tbl' ∧
    tasks t' = tasks (k_tst k) ∧ CurrentTask t' = CurrentTask (k_tst k).
Proof.
  intros Hp Hn Ed Hio ->. destruct (prefix_close (k_tst k) ds dv cur tbl Hp Hn) as (t' & tbl' & E & Hp').
  pose proof (fp_ok _ _ _ _ Hp) as Hok. pose proof (len_nonneg ds).
  destruct (fp_dev _ _ _ _ Hp (len ds) dv) as (p & r & Ep & Hpn & Er); [by apply lookupZ_len|]. pose proof (lookupZ_lt _ _ _ Ep).
  destruct (fd_close_ok (k_tst k) cur tbl (len ds) p dv r Hok Ep Hpn Er) as [E' _]. rewrite E in E'. injection E' as Et.
  exists t', tbl'. split; [|split; [done|by rewrite Et]]. intros eax. destruct (fp_cap _ _ _ _ Hp) as [Hcap _]. pose proof (fo_cap _ _ _ Hok).
  eexists. unfold onFiles. erewrite (zoom_ret (H := kernel_has_files) _ k _ (with_kt t' (files_of k))); [done|].
  unfold sys_close. change (proj k) with (files_of k).
  rewrite (with_fd_ok _ _ _ (files_of k) cur tbl dv d Hok (prefix_leads _ _ _ _ _ _ (len ds) dv Hp (lookupZ_len ds dv))); [| |done].
  - rewrite Hio. cbn [dev_close]. rewrite (bind_ret _ _ (files_of k) eax (files_of k)) by (by destruct k).
    rewrite u16_small by lia. rewrite (bind_ret _ _ _ _ _ (onT_ok _ (files_of k) 0 t' E)). reflexivity.
  - apply Hok.
Qed.

(** A path in /initrd, without its terminator. *)
Record path_to (path nm : list Z) : Prop := {
  pt_nonzero : Forall (λ c, c ≠ 0) path;
  pt_bytes : bytes path;
  pt_parts : path_components (path ++ [0]) = [cstr (literal "initrd"); nm];
  pt_len : len path < 2 ^ 31
}.

(** There is room for [n] bytes behind the program's mappings. *)
Record room_for (t : task) (s : mach) (n : Z) : Prop := {
  rf_low : 0 ≤ mmapbrk t;
  rf_high : mmapbrk t + n + 3 * PAGE_SIZE ≤ 2 ^ 32;
  rf_map x : PGADDR (mmapbrk t) ≤ x < mmapbrk t + n + 2 * PAGE_SIZE → can_map t s x
}.

(** The state after the file was read. *)
Record file_read (k : kernel) (t : task) (ds : list Z) (n : Z) (kk : nat) (k' : kernel) (t' : task) : Prop := {
  fr_view : mmu_view t' = mmu_view t;
  fr_mem : mem_ok t' kk (k_mach k');
  fr_more : more_used (vm_frames (m_vm (k_mach k))) (vm_frames (m_vm (k_mach k')));
  fr_can w : is_u32 w → can_map t (k_mach k) w → can_map t' (k_mach k') w;
  fr_lasts K : lasting (mmu_view t) (vm_frames (m_vm (k_mach k))) K (m_vm (k_mach k)) →
    (∀ x, K x → x < PGADDR (mmapbrk t) ∨ mmapbrk t + n + 3 * PAGE_SIZE ≤ x) →
    lasts (mmu_view t) (vm_frames (m_vm (k_mach k))) K (m_vm (k_mach k)) (m_vm (k_mach k'));
  fr_rest : k_intr k' = k_intr k ∧ k_sc k' = k_sc k ∧ k_cons k' = k_cons k;
  fr_fds : ∃ tbl, fds_prefix (k_tst k') ds t' tbl
}.

Lemma mem_ok_task t t' kk s s' : mem_ok t kk s → m_vm s' = m_vm s → cur_task s' = Some t' → mmu_view t' = mmu_view t → mem_ok t' kk s'.
Proof.
  intros [_ Hr Hv Hsp] Ev Hc Hview. assert (Ep : pgd (arch t') = pgd (arch t)) by exact (f_equal mt_pgd Hview).
  split; [done|by rewrite Ev..|by rewrite Ev, Ep].
Qed.
Lemma can_map_task t t' s s' x : m_vm s' = m_vm s → mmu_view t' = mmu_view t → can_map t s x → can_map t' s' x.
Proof. intros Ev Hview. assert (Ep : pgd (arch t') = pgd (arch t)) by exact (f_equal mt_pgd Hview). unfold can_map. by rewrite Ev, Hview, Ep. Qed.

Lemma ramdisk_delivers lib {Hlib : ExecFiles lib} k ird tty es kids ds t tbl path i e kk :
  mounted (k_fs k) ird tty es kids → fds_prefix (k_tst k) ds t tbl → len ds < 16 →
  NoDup (e_name <$> es) → es !! i = Some e → is_file e → path_to path (e_name e) → room_for t (k_mach k) (len (e_data e)) →
  mem_ok t (2 * length (mmap_pages (mmapbrk t) (len (e_data e))) + kk) (k_mach k) → frame_used (vm_frames (m_vm (k_mach k))) 0 = true →
  ∃ k' t', delivers lib (path ++ [0]) (e_data e) k k' ∧ file_read k t ds (len (e_data e)) kk k' t'.
Proof.
  intros Hm Hp Hds Hnd Hi He [P1 P2 P3 P4] [R1 R2 R3] Hmem Hz. set (d := e_data e) in *.
  pose proof (eo_data _ (proj1 He)) as Hdl. fold d in Hdl. pose proof (len_nonneg d). pose proof (len_nonneg ds).
  assert (Pt : terminated (path ++ [0])) by (apply elem_of_app; right; apply list_elem_of_here).
  assert (Pb : bytes (path ++ [0])) by (apply Forall_app; split; [done|]; repeat constructor; lia).
  assert (Pl : Z.of_nat (length (path ++ [0])) < 2 ^ 32) by (rewrite length_app; unfold len in P4; cbn; lia).
  destruct (stat_ramdisk_ok k ird tty es kids (path ++ [0]) i e Hm Hnd Hi He Pt Pb Pl P3) as [tk Es]. fold d in Es.
  set (k1 := mkKernel (k_mach k) (k_intr k) (k_sc k) (set_toks tk (k_fs k)) (k_cons k)) in *.
  destruct (sys_mmap_ok t (k_mach k) kk (vm_frames (m_vm (k_mach k))) (λ _, False) 0 (len d) 0 MAP_ANONYMOUS 0 0)
    as (v & Em & Hmm & Hmo & _ & Hcan & _ & Hla); try done.
  cbv zeta in *. set (next := mmapbrk t + len d + PAGE_SIZE) in *. set (s2 := remapped next t (with_vm v (k_mach k))) in *.
  set (k2 := mkKernel s2 (k_intr k) (k_sc k) (k_fs k1) (k_cons k)).
  assert (Em2 : onMem (sys_mmap_pgoff 0 (len d) 0 MAP_ANONYMOUS 0 0) k1 = Ret (mmapbrk t, k2)) by exact (onMem_ok _ k1 _ _ Em).
  pose proof (prefix_mmapbrk (k_tst k) ds t tbl next Hp) as Hp2. change (fds_prefix (k_tst k2) ds (set_mmapbrk next t) tbl) in Hp2.
  assert (Hm2 : mounted (k_fs k2) ird tty es kids) by exact (mounted_toks tk _ _ _ _ _ Hm).
  destruct (open_ramdisk_ok k2 ird tty es kids ds _ tbl (path ++ [0]) i e Hm2 Hp2 Hds Hnd Hi He Pt Pb Pl P3)
    as (k3 & c3 & l3 & E3 & [[T3 Hm3] Hi3 Hs3 Hc3 Hv3] & [tk3 Hf3] & Hp3 & Hn3 & Hne & Hfa). set (dv := entry_node ird i - 1) in *.
  destruct (ef_open (path ++ [0]) k2 (len ds) k3 E3 ltac:(lia)) as (f & Ef & Hf0 & Hfd).
  destruct (ef_read f k3 c3 l3 dv d) as (p & k4 & x & pos & Ek & Ex & Er); [apply Hp3| |exact Hfa|lia|].
  { rewrite Hfd. exact (prefix_leads _ _ _ _ (k_fs k3) (k_cons k3) (len ds) dv Hp3 (lookupZ_len ds dv)). }
  set (k5 := mkKernel _ _ _ (set_devs _ _) _) in Er.
  destruct (close_ramdisk_ok k5 ds dv c3 l3 (mkFile (dev_io x) pos (flength x) (fdata x)) (ef_fd f) Hp3) as (T6 & l6 & Ec & Hp6 & Et6 & Hcur6);
    [lia|cbn; apply lookup_insert_eq| |done|].
  { destruct Hfa as [(off & Ed & _) _]. assert (Ex' : Some x = Some _) by exact (eq_trans (eq_sym Ex) Ed). by injection Ex' as ->. }
  cbv zeta in Ec. set (k6 := mkKernel (with_tst T6 (k_mach k5)) _ _ _ _) in Ec.
  assert (Hvm : m_vm (k_mach k6) = v) by (cbn; by rewrite Hm3).
  assert (Hview : mmu_view c3 = mmu_view t).
  { unfold cur_view in Hv3. rewrite (fo_cur _ _ _ (fp_ok _ _ _ _ Hp3)), (fo_cur _ _ _ (fp_ok _ _ _ _ Hp2)) in Hv3. exact (Some_inj _ _ Hv3). }
  assert (Hc6 : cur_task (k_mach k6) = Some c3) by exact (fo_cur _ _ _ (fp_ok _ _ _ _ Hp6)).
  exists k6, c3. split.
  - exists (mmapbrk t), f, p, k1, k2, k3, k4, k5. split; [exact (ef_stat _ _ _ _ Es)|]. split; [exact (ef_mmap _ _ _ _ Em2)|].
    split; [exact Ef|]. split; [exact Hf0|]. split; [exact Ek|]. split; [exact Er|]. exact (ef_close _ _ _ Ec).
  - split; [done| | | | | |by exists l6].
    + by apply (mem_ok_task (set_mmapbrk next t) _ kk s2).
    + by rewrite Hvm.
    + intros w Hw Hx. apply (can_map_task (set_mmapbrk next t) _ s2); [done|done|]. by apply Hcan.
    + intros K HK Hout. rewrite Hvm. apply Hla; [done|]. intros y Hy. destruct (Hout y Hy); [by left|right]. unfold next. lia.
    + cbn. by rewrite Hi3, Hs3, Hc3.
Qed.

(** ** Starting it *)

Lemma loadable_mono t t' s s' b : (∀ x, is_u32 x → can_map t s x → can_map t' s' x) → loadable t s b → loadable t' s' b.
Proof.
  intros Hc [H1 H2 H3 H4]. split; try done. intros i Hi Hl. destruct (H3 i Hi Hl) as [A B]. split; [done|]. intros v Hv. apply Hc; [|by apply B].
  destruct H1 as [(Hb & _) _]. pose proof (w32_bound (elf_data b) (phdr b + 32 * i + 8) Hb). unfold PGADDR, PAGE_SIZE in *.
  change (seg_vaddr b i) with (w32 (elf_data b) (phdr b + 32 * i + 8)) in *. zlia.
Qed.

Lemma parsed_fields d y e : elf_data (parsed d y e) = d ∧ header (parsed d y e) = 0.
Proof. unfold parsed. destruct (with_strtab_same (with_sections d e)) as [i ->]. by split. Qed.

(** [malloc] gives a block with room for [n] words, one more than which it is asked for in
    bytes, and keeps the tasks and the bytes at [U]. *)
Definition malloc_serves (malloc_ : Z → M mach (list Z)) (n : nat) (U : Z → Prop) : Prop :=
  ∀ s, ∃ blk s', malloc_ (Z.of_nat n + 1) s = Ret (blk, s') ∧ (n ≤ length blk)%nat ∧
    tasks (m_tst s') = tasks (m_tst s) ∧ CurrentTask (m_tst s') = CurrentTask (m_tst s) ∧
    ∀ ct x, U x → user_byte ct (m_vm s') x = user_byte ct (m_vm s) x.

Lemma start_ok malloc_ t s fr (U : Z → Prop) kk b args env old :
  mem_ok t (S (S kk)) s → can_map t s 0 → more_used fr (vm_frames (m_vm s)) → private (mmu_view t) fr U (m_vm s) →
  (∀ x, U x → PAGE_SIZE ≤ x) → 0 ≤ header b → header b + 28 ≤ dlen b →
  Forall (λ x, x ≠ NULL) args → Forall (λ x, x ≠ NULL) env → Z.of_nat (length args + length env) + 4 < 2 ^ 32 →
  malloc_serves malloc_ (length args + length env + 3) U →
  ∃ s', elf_start malloc_ b (args ++ [NULL]) (env ++ [NULL]) old s =
      Ret (mkEntry (w32 (elf_data b) (header b + 24)) (abi_stack args env ++ old) 0 0 true, s') ∧
    tasks (m_tst s') = tasks (m_tst s) ∧ CurrentTask (m_tst s') = CurrentTask (m_tst s) ∧
    ∀ x, U x → user_byte (mmu_view t) (m_vm s') x = user_byte (mmu_view t) (m_vm s) x.
Proof.
  intros [Hc Hr Hv Hsp] Hcan Hmo Hpv HU H0 Hd Ha He Hl Hmal.
  destruct (pg_alloc_private (mmu_view t) fr U kk (m_vm s) 0) as (v & E & _ & _ & _ & _ & _ & _ & _ & Hb); try done.
  { intros x Hx%HU. unfold same_page, PAGE_SIZE in *. apply Z.eqb_neq. zlia. }
  set (s1 := with_vm v s). destruct (Hmal s1) as (blk & s' & Em & Hblk & Ht & Hcur & Hby).
  exists s'. split; [|split; [by rewrite Ht|split; [by rewrite Hcur|]]].
  - unfold elf_start. rewrite (bind_ret _ _ _ _ _ (ld32_ok b (header b + 24) s ltac:(lia) ltac:(lia))).
    apply (arch_exec_ok malloc_ args env [] [] blk Ha He Hl _ old s s1 s'); [by apply (on_vm_ok _ _ t)| |lia].
    rewrite <- Em. f_equal. lia.
  - intros x Hx. by rewrite Hby, Hb.
Qed.

(** ** The call *)

(** The file [e] is an executable with a symbol table [y] that the task can load: it has
    frames for the copy of the file, for the segments, two per page, and for page 0, and the
    segments lie above page 0 and below the copy of the file. *)
Record launchable (lx : libexec) (t : task) (s : mach) (e : entry) (y : Z) (b : elf) (kk : nat) : Prop := {
  ln_elf : elf_ok (e_data e) (lx_bin lx) y ∧ name_buf (lx_junk lx) ∧ b = parsed (e_data e) y (lx_bin lx);
  ln_load : loadable t s b;
  ln_room : room_for t s (len (e_data e));
  ln_image x : in_image b (num_segments b) x → PAGE_SIZE ≤ x < PGADDR (mmapbrk t);
  ln_zero : can_map t s 0;
  ln_mem : mem_ok t (2 * length (mmap_pages (mmapbrk t) (len (e_data e))) + (load_frames b (Z.to_nat (num_segments b)) + S (S kk))) s;
  ln_frame : frame_used (vm_frames (m_vm s)) 0 = true
}.

(** The arrays of arguments and variables at [pa] and [pe], in memory that the loading
    leaves alone. *)
Record arrays (t : task) (s : mach) (b : elf) (n pa pe : Z) (args env : list Z) : Prop := {
  ay_args : Forall (λ x, x ≠ NULL ∧ is_u32 x) args ∧ words_at (mmu_view t) (m_vm s) pa (args ++ [NULL]);
  ay_env : Forall (λ x, x ≠ NULL ∧ is_u32 x) env ∧ words_at (mmu_view t) (m_vm s) pe (env ++ [NULL]);
  ay_lasting : let K x := words_range pa (S (length args)) x ∨ words_range pe (S (length env)) x in
    lasting (mmu_view t) (vm_frames (m_vm s)) K (m_vm s) ∧ off_image b K ∧
    ∀ x, K x → x < PGADDR (mmapbrk t) ∨ mmapbrk t + n + 3 * PAGE_SIZE ≤ x
}.

Lemma launchable_if lx t k e y b kk f : launchable lx t (k_mach k) e y b kk → launchable lx t (k_mach (kernel_if f k)) e y b kk.
Proof. intros [A [B1 B2 B3 B4] [C1 C2 C3] D E [F1 F2 F3 F4] G]. by split. Qed.
Lemma arrays_if t k b n pa pe args env f : arrays t (k_mach k) b n pa pe args env → arrays t (k_mach (kernel_if f k)) b n pa pe args env.
Proof. intros [A B C]. by split. Qed.

(** After the segments were loaded. *)
Record image_ready (t : task) (b : elf) (pa pe : Z) (args env : list Z) (kk : nat) (fr : frames) (s : mach) (t' : task) : Prop := {
  ir_mem : mem_ok t' kk s;
  ir_view : mmu_view t' = mmu_view t;
  ir_brk : brk t' = load_brk b (Z.to_nat (num_segments b));
  ir_zero : can_map t' s 0;
  ir_more : more_used fr (vm_frames (m_vm s));
  ir_private : private (mmu_view t) fr (in_image b (num_segments b)) (m_vm s);
  ir_bytes j o : 0 ≤ j < num_segments b → loads b j → 0 ≤ o < seg_memsz b j →
    user_byte (mmu_view t) (m_vm s) (seg_vaddr b j + o) = Some (seg_byte b j o);
  ir_args : words_at (mmu_view t) (m_vm s) pa (args ++ [NULL]);
  ir_env : words_at (mmu_view t) (m_vm s) pe (env ++ [NULL])
}.

Lemma load_read_ok lx k k5 t t5 e y b ds pa pe args env kk :
  file_read k t ds (len (e_data e)) (load_frames b (Z.to_nat (num_segments b)) + S (S kk)) k5 t5 →
  launchable lx t (k_mach k) e y b kk → arrays t (k_mach k) b (len (e_data e)) pa pe args env →
  ∃ l s t6, elf_load b (k_mach k5) = Ret (l, s) ∧ image_ready t b pa pe args env (S (S kk)) (vm_frames (m_vm (k_mach k5))) s t6.
Proof.
  intros [Hv5 Hm5 Hmo5 Hcan5 Hla5 _ _] [_ Hld _ _ Hz0 _ Hfz] [[_ Ha] [_ He] (HK & Hoff & Hfar)]. cbv zeta in *.
  set (K := λ x, words_range pa (S (length args)) x ∨ words_range pe (S (length env)) x) in *. set (ct := mmu_view t) in *.
  pose proof (Hla5 K HK Hfar) as L5. assert (Hz5 : frame_used (vm_frames (m_vm (k_mach k5))) 0 = true) by (by apply Hmo5).
  destruct (elf_load_ok t5 (k_mach k5) b (S (S kk)) (loadable_mono _ _ _ _ _ Hcan5 Hld) Hm5 Hz5) as (l & s & E & Hm & Hpv & Hla & _ & Hcan & Hmo & Hby).
  cbv zeta in *. set (t6 := set_brk _ t5) in *. change (mmu_view t6) with (mmu_view t5) in Hpv, Hby. rewrite Hv5 in Hpv, Hby, Hla.
  assert (L6 : lasts ct (vm_frames (m_vm (k_mach k5))) K (m_vm (k_mach k5)) (m_vm s)).
  { apply Hla; [|exact Hoff]. apply (lasting_more _ _ _ _ _ Hmo5). apply L5. }
  assert (Hw : ∀ q l0, (∀ x, words_range q (S (length l0)) x → K x) → words_at ct (m_vm (k_mach k)) q (l0 ++ [NULL]) → words_at ct (m_vm s) q (l0 ++ [NULL])).
  { intros q l0 Hq Hx. apply (words_at_same ct (m_vm (k_mach k))); [done|]. rewrite length_app, Nat.add_comm. intros a Hr%Hq.
    rewrite (la_byte _ _ _ _ _ L6 a Hr). exact (la_byte _ _ _ _ _ L5 a Hr). }
  exists l, s, t6. split; [exact E|]. split; try done.
  - apply Hcan; [done|]. by apply Hcan5.
  - apply (Hw pa args); [by left|exact Ha].
  - apply (Hw pe env); [by right|exact He].
Qed.

Lemma start_ready lx t b pa pe args env kk fr s t6 e y :
  image_ready t b pa pe args env (S (S kk)) fr s t6 →
  elf_ok (e_data e) (lx_bin lx) y → b = parsed (e_data e) y (lx_bin lx) → (∀ x, in_image b (num_segments b) x → PAGE_SIZE ≤ x) →
  Forall (λ x, x ≠ NULL ∧ is_u32 x) args → Forall (λ x, x ≠ NULL ∧ is_u32 x) env →
  malloc_serves (lx_malloc lx) (length args + length env + 3) (in_image b (num_segments b)) →
  ∃ s', elf_start (lx_malloc lx) b (args ++ [NULL]) (env ++ [NULL]) (lx_stack lx) s =
      Ret (mkEntry (w32 (e_data e) 24) (abi_stack args env ++ lx_stack lx) 0 0 true, s') ∧ cur_task s' = Some t6 ∧
    ∀ x, in_image b (num_segments b) x → user_byte (mmu_view t) (m_vm s') x = user_byte (mmu_view t) (m_vm s) x.
Proof.
  intros [Hm Hv _ Hz Hmo Hpv _ Ha He] Hok Eb Himg Hfa Hfe Hmal.
  destruct (parsed_fields (e_data e) y (lx_bin lx)) as [Edt Ehd]. rewrite <- Eb in Edt, Ehd.
  destruct (start_ok (lx_malloc lx) t6 s fr (in_image b (num_segments b)) kk b args env (lx_stack lx) Hm Hz Hmo) as (s' & E & Ht & Hcu & Hb); try done.
  - by rewrite Hv.
  - by rewrite Ehd.
  - unfold dlen. rewrite Ehd, Edt. pose proof (ek_size _ _ _ Hok). lia.
  - eapply Forall_impl; [exact Hfa|]. by intros x [].
  - eapply Forall_impl; [exact Hfe|]. by intros x [].
  - destruct Ha as (A0 & A1 & _). destruct He as (B0 & B1 & _). rewrite words_length, length_app in A1, B1. cbn [length] in A1, B1. lia.
  - exists s'. rewrite Hv in Hb. rewrite Ehd, Edt in E. split; [exact E|]. split; [|exact Hb].
    unfold cur_task. rewrite Ht, Hcu. apply (mo_cur _ _ _ Hm).
Qed.

Lemma call_execve_ok lx {Hlib : ExecFiles (lx_files lx)} k ird tty es kids t tbl i e y b p pa pe path args env kk :
  let n := num_segments b in let ct := mmu_view t in let vm_of k := m_vm (k_mach k) in
  mounted (k_fs k) ird tty es kids → fds_prefix (k_tst k) tty3 t tbl → NoDup (e_name <$> es) → es !! i = Some e → is_file e →
  path_to path (e_name e) → holds_at ct (vm_of k) p (path ++ [0]) →
  launchable lx t (k_mach k) e y b kk → arrays t (k_mach k) b (len (e_data e)) pa pe args env →
  malloc_serves (lx_malloc lx) (length args + length env + 3) (in_image b n) →
  ∃ k' t', call_execve lx p pa pe k =
      Ret (inr (Started (mkEntry (w32 (e_data e) 24) (abi_stack args env ++ lx_stack lx) 0 0 true)), k') ∧
    (∀ j o, 0 ≤ j < n → loads b j → 0 ≤ o < seg_memsz b j → user_byte ct (vm_of k') (seg_vaddr b j + o) = Some (seg_byte b j o)) ∧
    cur_task (k_mach k') = Some t' ∧ mmu_view t' = ct ∧ brk t' = load_brk b (Z.to_nat n) ∧
    k_cons k' = k_cons k ∧ k_intr k' = k_intr k ∧ k_sc k' = k_sc k.
Proof.
  intros n ct vm_of Hm Hp Hnd Hi He Hpath Hh Hln Hay Hmal. pose proof Hln as [(Hok & Hj & Eb) _ Hroom Himg _ Hmem Hfz].
  pose proof Hay as [[Ha1 _] [He1 _] _].
  destruct (ramdisk_delivers (lx_files lx) k ird tty es kids tty3 t tbl path i e _ Hm Hp ltac:(done) Hnd Hi He Hpath Hroom Hmem Hfz)
    as (k5 & t5 & Hdel & Hfr). pose proof (fr_rest _ _ _ _ _ _ _ Hfr) as (Hi5 & Hs5 & Hc5).
  pose proof (elf_read_ok _ (lx_junk lx) (lx_sec lx) (path ++ [0]) (lx_bin lx) (e_data e) y k k5 Hdel Hok Hj) as Er. rewrite <- Eb in Er.
  destruct (load_read_ok lx k k5 t t5 e y b tty3 pa pe args env kk Hfr Hln Hay) as (l & s6 & t6 & E6 & Hir).
  destruct (start_ready lx t b pa pe args env kk _ s6 t6 e y Hir Hok Eb ltac:(intros x Hx; by apply Himg) Ha1 He1 Hmal) as (s7 & E7 & Hc7 & Hb7).
  destruct Hir as [Hm6 Hv6 Hbr6 _ _ _ Hby6 Hwa Hwe]. set (k6 := mkKernel s6 (k_intr k5) (k_sc k5) (k_fs k5) (k_cons k5)).
  assert (Hcv : cur_view (k_tst k6) = Some ct).
  { unfold cur_view. pose proof (mo_cur _ _ _ Hm6) as Hc6. unfold cur_task in Hc6. change (k_tst k6) with (m_tst s6). rewrite Hc6. cbn. by f_equal. }
  exists (mkKernel s7 (k_intr k5) (k_sc k5) (k_fs k5) (k_cons k5)), t6. split; [|split; [|done]].
  - unfold call_execve, user_string.
    rewrite (bind_ret _ _ _ _ _ (onUser_reads _ k ct (path ++ [0]) ltac:(unfold cur_view; by rewrite (fo_cur _ _ _ (fp_ok _ _ _ _ Hp))) (ustring_ok _ _ _ _ Hh (pt_nonzero _ _ Hpath)))).
    rewrite (bind_ret _ _ _ _ _ Er). cbn [fst snd]. change (1 =? 0) with false. cbv iota.
    rewrite (bind_ret _ _ _ _ _ (onMem_ok _ k5 _ _ E6)). fold k6.
    rewrite (bind_ret _ _ _ _ _ (user_array_ok k6 ct Hcv pa args Ha1 Hwa)), (bind_ret _ _ _ _ _ (user_array_ok k6 ct Hcv pe env He1 Hwe)).
    by rewrite (bind_ret _ _ _ _ _ (onMem_ok _ k6 _ _ E7)).
  - intros j o Hjn Hl Ho. rewrite <- Hby6 by done. apply Hb7. exists j. split; [done|]. split; [done|]. unfold seg_lim. lia.
Qed.

(** ** A library that makes the system calls directly *)

Definition direct_filelib : filelib kernel :=
  mkFilelib (λ path, r ← onFiles (sys_newstat path); mret (r.1, default 0 r.2))
    (λ n, onMem (sys_mmap_pgoff 0 n 0 MAP_ANONYMOUS 0 0))
    (λ path, fd ← onFiles (sys_open path 0 0); mret (if fd =? -1 then 0 else fd + 1))
    (λ f offset whence, onFiles (sys_lseek (f - 1) offset whence))
    (λ f n, r ← onFiles (sys_read (f - 1) n); mret (r.1, omap id (r.2)))
    (λ f, onFiles (sys_close 0 (f - 1)) ;; mret tt).

(** Going back to the beginning of a file of the ramdisk that is there. *)
Lemma rewind_file k cur tbl fd dv x :
  fd_ok (k_tst k) cur tbl → leads_to (files_of k) tbl fd dv → file_at (files_of k) dv x 0 → onFiles (sys_lseek fd 0 0) k = Ret (0, k).
Proof.
  intros Hok Hl [(off & Ed & _) _]. change (kf_fs (files_of k)) with (k_fs k) in Ed. set (d := mkFile cpiofiledev_tmpl _ _ _) in Ed.
  assert (E : sys_lseek fd 0 0 (files_of k) = Ret (0, files_of k)).
  { unfold sys_lseek. rewrite (with_fd_ok _ _ _ (files_of k) cur tbl dv d Hok Hl (proj2 (fo_max _ _ _ Hok)) Ed). cbn [dev_seek io_seek dev_io cpiofiledev_tmpl d].
    rewrite (onF_ok _ (files_of k) 0 (k_fs k)); [by destruct k as [[] ? ? ? ?]|]. unfold cpiofs_seek_file, get_dev, put_dev. mred. cbn. rewrite Ed. cbn.
    unfold mret, M_ret, mret_M. do 2 f_equal. destruct (k_fs k). cbn in *. f_equal. by rewrite insert_id. }
  unfold onFiles. rewrite (zoom_ret (H := kernel_has_files) _ k _ _ E). by destruct k as [[] ? ? ? ?].
Qed.

#[export] Program Instance direct_exec_files : ExecFiles direct_filelib := {| ef_fd f := f - 1 |}.
Next Obligation. intros path k n k' E. cbn. by rewrite (bind_ret _ _ _ _ _ E). Qed.
Next Obligation. done. Qed.
Next Obligation.
  intros path k fd k' E Hfd. exists (fd + 1). cbn. rewrite (bind_ret _ _ _ _ _ (E 0 0)). rewrite (proj2 (Z.eqb_neq fd (-1))) by done. split; [done|]. lia.
Qed.
Next Obligation.
  intros f k cur tbl dv x Hok Hl Hf Hn. unfold len in *.
  destruct (read_file_eq k cur tbl (f - 1) dv x 0 (length x) Hok Hl Hf Hn) as (d & pos & Ed & E & _). rewrite drop_0, take_ge in E by done.
  exists 0, k, d, pos. split; [exact (rewind_file k cur tbl (f - 1) dv x Hok Hl Hf)|]. split; [exact Ed|]. cbn.
  rewrite (bind_ret _ _ _ _ _ E). cbn [fst snd]. by rewrite omap_some.
Qed.
Next Obligation. intros f k k' E. cbn. destruct (E 0) as [r Er]. by rewrite (bind_ret _ _ _ _ _ Er). Qed.

(** ** A program and what it executes *)

(** What the program owns stays while more is allocated. *)
Lemma private_lasting ct fr U v : frame_used fr 0 = true → private ct fr U v → lasting ct (vm_frames v) U v.
Proof.
  intros Hz [Hm _] x Hx. destruct (Hm x Hx) as (Hx32 & a & Hd & Hf & E). split; [done|]. exists (a + x mod 2 ^ 12), true, (user_task ct).
  assert (Ep : page_of (a + x mod 2 ^ 12) = a) by (pose proof (df_aligned _ _ _ Hd); unfold page_of, PAGE_SIZE in *; zlia).
  rewrite Ep. split; [done|]. split; [done|]. split; [congruence|apply Hd].
Qed.

(** The path /initrd/p, and arrays with the path as the argument and without variables. *)
Definition exec_base : Z := 0x20000000.
Definition exec_path : list Z := text "/initrd/p".
Definition exec_data : list Z := exec_path ++ [0] ++ mjoin (word_bytes <$> [exec_base] ++ [NULL]) ++ mjoin (word_bytes <$> [] ++ [NULL]).
Definition exec_mem (x : Z) : Prop := exec_base ≤ x ≤ exec_base + 22.

Record exec_pages (v : vm) : Prop := {
  ep_vm : vm_ok 2 25 v;
  ep_ready : MMUReady v = true;
  ep_space : space_ok v 0x1000;
  ep_private : private Mmu.demo_task (vm_frames Mmu.demo_vm) exec_mem v;
  ep_data : holds_at Mmu.demo_task v exec_base exec_data;
  ep_map w : is_u32 w → table_for Mmu.demo_task (phys v) 0x1000 w;
  ep_zero : frame_used (vm_frames v) 0 = true
}.

Lemma exec_pages_ok : ∃ v, exec_pages v.
Proof.
  destruct (pg_alloc_range_private Mmu.demo_task (vm_frames Mmu.demo_vm) (λ _, False) 25 Mmu.demo_vm exec_base (exec_base + 22) true)
    as (v & _ & Hv & Hsp & Hr & [_ Hmo] & Hpv & Ht & _); try done.
  - split; [by apply frames_okb_ok|apply Nat.leb_le; by vm_compute|done|vm_compute; lia].
  - exact demo_space_ok.
  - intros w Hw. left. apply demo_pde. change (PGADDR exec_base) with 0x20000000 in Hw. unfold exec_base, PAGE_SIZE in Hw. lia.
  - assert (Hpv' : private Mmu.demo_task (vm_frames Mmu.demo_vm) exec_mem v).
    { eapply private_ext; [|exact Hpv]. intros x Hx. right. unfold exec_mem in Hx. lia. }
    destruct (umemcpy_holds Mmu.demo_task (vm_frames Mmu.demo_vm) exec_mem v exec_base exec_data) as (v' & _ & Hss & Hb & _); try done.
    + intros j Hj. change (Z.of_nat (length exec_data)) with 22 in Hj. unfold exec_mem. lia.
    + apply (bool_decide_unpack _). by vm_compute.
    + exists v'. split.
      * by apply (same_space_vm_ok Mmu.demo_task _ _ v).
      * by rewrite (ss_ready _ _ _ Hss), Hr.
      * exact (same_space_ok Mmu.demo_task v v' Hss Hsp).
      * exact (same_space_private _ _ _ v v' Hss Hpv').
      * done.
      * intros w Hw. apply (same_space_table_for _ _ _ _ Hss Hw). apply Ht; [done|]. left. by apply demo_pde.
      * rewrite (ss_frames _ _ _ Hss). by apply Hmo.
Qed.

Definition exec_task : task := set_fdnext 2 (set_mmapbrk 0x40000000 (started 9 prog_task)).
Definition exec_tst : tst :=
  mkTst {[KernelTask_ptr := exec_task]} KernelTask_ptr 0 1 {[9 := [4; 5; 6] ++ replicate 13 0]}
    {[4 := mkFdescr ConsoleDev_ptr 1; 5 := mkFdescr ConsoleDev_ptr 1; 6 := mkFdescr ConsoleDev_ptr 1]} 0 10 (mkCpu 0 0 0 true) [] [].
Definition exec_es : list entry := [demo_entry [112] demo_elf].
Definition exec_fs : fst_ :=
  mkFst {[devfs_ptr := devfs]} {[ConsoleDev_ptr := ConsoleDev]} ∅ NULL 3 (mkTokst [] None) (encode_archive exec_es (demo_entry trailer_name [])) [].
Definition exec_lx : libexec := mkLibexec direct_filelib (λ _, mret (replicate 4 0)) (replicate 32 0) 77 blank_elf [].

Lemma exec_tbl_free i : 3 ≤ i < 16 → lookupZ ([4; 5; 6] ++ replicate 13 0) i = Some 0.
Proof.
  intros Hi. rewrite lookupZ_app_r by (change (Z.of_nat (length [4; 5; 6])) with 3; lia). change (Z.of_nat (length [4; 5; 6])) with 3.
  unfold lookupZ. rewrite (proj2 (Z.leb_le 0 _)) by lia. apply lookup_replicate. split; [done|lia].
Qed.

Lemma exec_fds : fds_prefix exec_tst tty3 exec_task ([4; 5; 6] ++ replicate 13 0).
Proof.
  split.
  - by split.
  - done.
  - intros i d Hd. unfold tty3 in Hd. pose proof (lookupZ_lt _ _ _ Hd) as Hi. change (Z.of_nat (length _)) with 3 in Hi.
    assert (i = 0 ∨ i = 1 ∨ i = 2) as [->|[->| ->]] by lia; injection Hd as <-; [exists 4, 1|exists 5, 1|exists 6, 1]; done.
  - intros i Hi. by apply exec_tbl_free.
  - intros i j p Hi Hj Hp. pose proof (lookupZ_lt _ _ _ Hi) as Li. pose proof (lookupZ_lt _ _ _ Hj) as Lj. change (Z.of_nat (length _)) with 16 in Li, Lj.
    assert (Hlow : ∀ x, lookupZ ([4; 5; 6] ++ replicate 13 0) x = Some p → 0 ≤ x < 16 → x = p - 4).
    { intros x Hx Lx. destruct (decide (3 ≤ x)) as [H3|H3]; [rewrite exec_tbl_free in Hx by lia; by injection Hx as <-|].
      assert (x = 0 ∨ x = 1 ∨ x = 2) as [->|[->| ->]] by lia; by injection Hx as <-. }
    by rewrite (Hlow i), (Hlow j).
  - split; [done|]. intros p [x Hx]. unfold exec_tst in Hx. cbn [fdescrs] in Hx. rewrite !lookup_insert_Some, lookup_singleton_Some in Hx.
    change (heap exec_tst) with 10. destruct Hx as [[<- _]|[_ [[<- _]|[_ [<- _]]]]]; lia.
Qed.

Lemma exec_ramdisk : ramdisk exec_fs exec_es (demo_entry trailer_name []) [].
Proof.
  split; [done| |by rewrite app_nil_r|].
  - apply (bool_decide_unpack _). vm_compute. exact I.
  - split; [|split]; [repeat constructor; apply (bool_decide_unpack _); vm_compute; exact I..|apply (bool_decide_unpack _); vm_compute; exact I].
Qed.

Definition exec_kernel (v : vm) (f : fst_) (c : consst) : kernel :=
  mkKernel (mkMach exec_tst v false [] 0 0)
    (set_IDTCallbacks (insertZ INT_KBD h_kbd_intr (insertZ INT_PIT h_sched_preempt (insertZ INT_SYSCALL h_syscall_interrupt (replicate 256 NoHandler)))) demo_intr)
    full_sctbl f c.

Lemma exec_running v : ∃ f c ird tty kids, running (exec_kernel v f c) ird tty exec_es kids ready_term.
Proof.
  destruct prog_running as (k & ird0 & tty0 & kids0 & Hr & _).
  destruct (mount_all exec_fs exec_es (demo_entry trailer_name []) [] [0; 0; 0; 0] exec_ramdisk) as (_ & _ & f & ird & tty & kids & _ & _ & _ & Hm).
  - apply (bool_decide_unpack _). vm_compute. exact I.
  - cbn. lia.
  - exists f, (k_cons k), ird, tty, kids. split; [done| |done| |done|done|apply Hr].
    + exists exec_task, ([4; 5; 6] ++ replicate 13 0). exact exec_fds.
    + apply handlers_ok. done.
Qed.

Lemma demo_parsed_loadable t s : (∀ x, is_u32 x → can_map t s x) → loadable t s demo_parsed.
Proof. intros Hc. apply (loadable_mono brk_task t demo_mach s); [|exact demo_loadable]. intros x Hx _. by apply Hc. Qed.

Lemma demo_parsed_image x : in_image demo_parsed (num_segments demo_parsed) x → 0x08048000 ≤ x < 0x0804803C.
Proof.
  intros (j & Hj & _ & Hx). change (num_segments demo_parsed) with 1 in Hj. assert (j = 0) as -> by lia.
  change (seg_vaddr demo_parsed 0) with 0x08048000 in Hx. change (seg_lim demo_parsed 0) with 0x0804803C in Hx. done.
Qed.

Section Demo.
Context (v : vm) (f : fst_) (c : consst).
Hypothesis Hv : exec_pages v.
Let k : kernel := exec_kernel v f c.

Lemma exec_launchable : launchable exec_lx exec_task (k_mach k) (demo_entry [112] demo_elf) 2 demo_parsed 13.
Proof.
  split.
  - split; [exact demo_elf_ok|]. split; [split; [done|by apply bytes_dec_ok]|]. by vm_compute.
  - apply demo_parsed_loadable. apply (ep_map _ Hv).
  - split; [done|done|]. intros x Hx. apply (ep_map _ Hv). change (PGADDR (mmapbrk exec_task)) with 0x40000000 in Hx.
    change (mmapbrk exec_task) with 0x40000000 in Hx. change (len (e_data (demo_entry [112] demo_elf))) with 309 in Hx. unfold PAGE_SIZE in Hx. lia.
  - intros x Hx%demo_parsed_image. change (PGADDR (mmapbrk exec_task)) with 0x40000000. unfold PAGE_SIZE. lia.
  - by apply (ep_map _ Hv).
  - split; [done|apply (ep_ready _ Hv)| |apply (ep_space _ Hv)].
    apply (vm_ok_weaken 2 _ 25); [done|apply Nat.leb_le; by vm_compute|apply (ep_vm _ Hv)].
  - apply (ep_zero _ Hv).
Qed.

Lemma exec_data_parts : holds_at Mmu.demo_task v exec_base (exec_path ++ [0]) ∧
  words_at Mmu.demo_task v (exec_base + 10) [exec_base; 0] ∧ words_at Mmu.demo_task v (exec_base + 18) [0].
Proof.
  pose proof (ep_data _ Hv) as H. unfold exec_data in H. rewrite app_assoc in H. apply holds_at_app in H as [H1 H].
  specialize (H ltac:(done)). apply holds_at_app in H as [H2 H]. specialize (H ltac:(done)). done.
Qed.

Lemma exec_arrays : arrays exec_task (k_mach k) demo_parsed 309 (exec_base + 10) (exec_base + 18) [exec_base] [].
Proof.
  destruct exec_data_parts as (_ & H2 & H3).
  assert (Hr : ∀ x, words_range (exec_base + 10) 2 x ∨ words_range (exec_base + 18) 1 x → exec_mem x ∧ 0x20000000 ≤ x < 0x20000020).
  { unfold words_range, exec_mem, exec_base. lia. }
  split.
  - split; [by repeat constructor|exact H2].
  - split; [done|exact H3].
  - split; [|split].
    + intros x Hx%Hr. apply (private_lasting Mmu.demo_task (vm_frames Mmu.demo_vm) exec_mem v); [done|apply (ep_private _ Hv)|apply Hx].
    + intros x j Hx%Hr Hj _. change (num_segments demo_parsed) with 1 in Hj. assert (j = 0) as -> by lia. right.
      change (seg_lim demo_parsed 0) with 0x0804803C. unfold PAGE_SIZE. lia.
    + intros x Hx%Hr. left. change (PGADDR (mmapbrk exec_task)) with 0x40000000. lia.
Qed.
End Demo.

(** ** Properties *)

(** C12: [execve].  A running program calls [execve] by [int 0x80] with the path of an
    executable of /initrd and arrays of arguments and variables in its memory.  With frames for it
    and a block of memory for the stack, the interrupt goes on at the entry point of the
    file, with interrupts enabled and on a stack that holds the argument count, the arguments, NULL,
    the variables and NULL; every segment is in the program's memory as the file
    describes it, the rest of it zero; the program's break is their end; and nothing was
    printed. *)
Theorem execve_starts_program junk eax_ lx {Hlib : ExecFiles (lx_files lx)} w ird tty es kids shown t tbl i e y b p pa pe path args env kk r :
  let n := num_segments b in let k := w_k w in let vm_of w := m_vm (k_mach (w_k w)) in
  running k ird tty es kids shown → fds_prefix (k_tst k) tty3 t tbl → NoDup (e_name <$> es) → es !! i = Some e → is_file e →
  path_to path (e_name e) → holds_at (mmu_view t) (vm_of w) p (path ++ [0]) →
  launchable lx t (k_mach k) e y b kk → arrays t (k_mach k) b (len (e_data e)) pa pe args env →
  malloc_serves (lx_malloc lx) (length args + length env + 3) (in_image b n) →
  (eax r = SYS_EXECVE ∧ ebx r = p ∧ ecx r = pa ∧ edx r = pe) →
  ∃ w' t', trap junk eax_ lx r w =
      Ret (Started (mkEntry (w32 (e_data e) 24) (abi_stack args env ++ lx_stack lx) 0 0 true), w') ∧
    (∀ j o, 0 ≤ j < n → loads b j → 0 ≤ o < seg_memsz b j →
       user_byte (mmu_view t) (vm_of w') (seg_vaddr b j + o) = Some (seg_byte b j o)) ∧
    cur_task (k_mach (w_k w')) = Some t' ∧ mmu_view t' = mmu_view t ∧ brk t' = load_brk b (Z.to_nat n) ∧
    intr (cpu (w_tst w')) = true ∧ w_frames w' = w_frames w ∧ k_cons (w_k w') = k_cons k.
Proof.
  intros n k vm_of Hr Hp Hnd Hi He Hpath Hh Hl Ha Hmal (A & B & C & D). destruct (rn_handlers _ _ _ _ _ _ Hr) as [Hh80 _].
  destruct (call_execve_ok lx (kernel_if false k) ird tty es kids t tbl i e y b p pa pe path args env kk (rn_tree _ _ _ _ _ _ Hr)
    (kernel_if_prefix false k _ _ _ Hp) Hnd Hi He Hpath Hh (launchable_if _ _ _ _ _ _ _ _ Hl) (arrays_if _ _ _ _ _ _ _ _ false Ha) Hmal)
    as (k' & t' & E & Hby & Hc & Hv & Hb & Hk1 & Hk2 & Hk3).
  exists (world_if true (with_kernel k' w)), t'. split; [|by repeat split].
  rewrite (trap_ok junk eax_ lx r f_execve w (inr (Started (mkEntry (w32 (e_data e) 24) (abi_stack args env ++ lx_stack lx) 0 0 true))) (with_kernel k' w) Hh80).
  - by rewrite iret_ok.
  - apply Hr.
  - by rewrite A.
  - by rewrite A.
  - cbn [arity arg_regs take run_trap]. rewrite B, C, D. exact (onK_ok _ (world_if false w) _ _ E).
Qed.


Lemma execve_starts_program_witness :
  ∃ w w', trap 0 0 exec_lx (call_regs SYS_EXECVE exec_base (exec_base + 10) (exec_base + 18)) w =
      Ret (Started (mkEntry 0x08048000 [1; exec_base; 0; 0] 0 0 true), w') ∧
    user_byte Mmu.demo_task (m_vm (k_mach (w_k w'))) 0x08048001 = Some 69 ∧ user_byte Mmu.demo_task (m_vm (k_mach (w_k w'))) 0x0804803b = Some 0.
Proof.
  destruct exec_pages_ok as [v Hv]. destruct (exec_running v) as (f & c & ird & tty & kids & Hr).
  destruct (execve_starts_program 0 0 exec_lx (mkWorld (exec_kernel v f c) ∅ 0) ird tty exec_es kids ready_term exec_task ([4; 5; 6] ++ replicate 13 0)
    0 (demo_entry [112] demo_elf) 2 demo_parsed exec_base (exec_base + 10) (exec_base + 18) exec_path [exec_base] [] 13
    (call_regs SYS_EXECVE exec_base (exec_base + 10) (exec_base + 18))) as (w' & t' & E & Hb & _).
  - exact Hr.
  - exact exec_fds.
  - by repeat constructor; apply not_elem_of_nil.
  - done.
  - exact (Forall_inv (proj1 (rd_files _ _ _ _ exec_ramdisk))).
  - split; [by repeat constructor|apply (bool_decide_unpack _); vm_compute; exact I|by vm_compute|done].
  - exact (proj1 (exec_data_parts v Hv)).
  - exact (exec_launchable v f c Hv).
  - exact (exec_arrays v f c Hv).
  - intros s. exists (replicate 4 0), s. split; [done|]. split; [apply Nat.leb_le; by vm_compute|done].
  - by split.
  - exists (mkWorld (exec_kernel v f c) ∅ 0), w'. split; [exact E|]. clear E. split.
    + apply (Hb 0 1); [change (num_segments demo_parsed) with 1; lia|reflexivity|change (seg_memsz demo_parsed 0) with 60; lia].
    + apply (Hb 0 59); [change (num_segments demo_parsed) with 1; lia|reflexivity|change (seg_memsz demo_parsed 0) with 60; lia].
Defined.
