(* ===== verification/Calm.v ===== *)
(** * Calm operations

    Which operations of the kernel leave the scheduler's data alone: no task comes or goes, the
    current one stays, and every task keeps its links, the place where it goes on and a
    pending signal in range.  All system calls that return to their caller are calm, and so
    are loading a program and exiting. *)
From Stdlib Require Import ZArith Lia.
From stdpp Require Import base gmap list list_numbers strings relations.
From S2P Require Import Prelude Layout FrameAlloc Mmu MmuClone ListHead TaskState Task Sched SysProc Fdio Machine Fork Brk CStr Fs Tmpfs Cpiofs Intr Console SysFile UserMem SysMem Syscall Elf Exec Kmain UserCall Traps.
Open Scope Z_scope.
Open Scope u32_scope.

(** ** Operations that leave the scheduler's data alone *)

(** Every signal has an entry, and the pending one is in range. *)
Definition sig_full (t : task) : Prop := Z.of_nat (length (sigact t)) = NSIG ∧ 0 ≤ sigpend t < NSIG.

(** A task keeps its links and the place where it goes on. *)
Record calm_task (x y : task) : Prop := {
  ct_links : list_next_of y = list_next_of x ∧ list_prev_of y = list_prev_of x;
  ct_resume : resume y = resume x;
  ct_signals : sig_full x → sig_full y
}.
Lemma calm_task_refl x : calm_task x x.
Proof. by split. Qed.
Lemma calm_task_trans x y z : calm_task x y → calm_task y z → calm_task x z.
Proof. intros [[A1 A2] A3 A4] [[B1 B2] B3 B4]. split; [split; congruence|congruence|tauto]. Qed.

(** No task comes or goes, the current one stays, and numbers of objects are not used
    again. *)
Record calm (s s' : tst) : Prop := {
  cm_cur : CurrentTask s' = CurrentTask s;
  cm_heap : heap s ≤ heap s';
  cm_tasks p : option_relation calm_task (λ _, False) (λ _, False) (tasks s !! p) (tasks s' !! p)
}.
#[export] Instance calm_preorder : PreOrder calm.
Proof.
  split.
  - intros s. split; [done|lia|]. intros p. destruct (tasks s !! p); [apply calm_task_refl|done].
  - intros s1 s2 s3 [A1 A2 A3] [B1 B2 B3]. split; [congruence|lia|]. intros p. pose proof (A3 p) as A. pose proof (B3 p) as B.
    destruct (tasks s1 !! p), (tasks s2 !! p), (tasks s3 !! p); try done. by eapply calm_task_trans.
Qed.

Lemma calm_same s s' : CurrentTask s' = CurrentTask s → heap s ≤ heap s' → tasks s' = tasks s → calm s s'.
Proof. intros H1 H2 H3. split; [done|done|]. intros p. rewrite H3. destruct (tasks s !! p); [apply calm_task_refl|done]. Qed.

Lemma calm_insert s p t t' : tasks s !! p = Some t → calm_task t t' → calm s (set_tasks (<[p := t']> (tasks s)) s).
Proof.
  intros Et Ht. split; [done|cbn; lia|]. intros q. cbn. destruct (decide (q = p)) as [->|Hq].
  - rewrite Et, lookup_insert_eq. done.
  - rewrite lookup_insert_ne by done. destruct (tasks s !! q); [apply calm_task_refl|done].
Qed.

(** The ring through the tasks. *)
Lemma calm_ring s s' l : calm s s' → ring s l → ring s' l.
Proof.
  intros [_ _ Ht]. apply ring_same_links. intros p t Et. pose proof (Ht p) as H. rewrite Et in H.
  destruct (tasks s' !! p) as [t'|]; [|done]. exists t'. split; [done|]. exact (ct_links _ _ H).
Qed.
Lemma calm_lookup s s' p t : calm s s' → tasks s' !! p = Some t → ∃ u, tasks s !! p = Some u ∧ calm_task u t.
Proof. intros [_ _ Ht] Et. pose proof (Ht p) as H. rewrite Et in H. destruct (tasks s !! p) as [u|]; [by exists u|done]. Qed.

(** *** On tasks *)

Lemma calm_get_task p : moves calm (get_task p).
Proof. unfold get_task. moves. Qed.
Lemma calm_upd_task p f : (∀ t, calm_task t (f t)) → moves calm (upd_task p f).
Proof.
  intros Hf s a s'. unfold upd_task. intros (t & s1 & E1 & E2)%bind_inv. unfold get_task in E1. apply bind_inv in E1 as (s2 & s3 & [= -> <-] & E1).
  destruct (tasks s2 !! p) as [t0|] eqn:Et; [|done]. injection E1 as -> <-. injection E2 as _ <-. by eapply calm_insert.
Qed.
#[export] Hint Resolve calm_get_task : moves.
Lemma calm_upd_current f : (∀ t, calm_task t (f t)) → moves calm (upd_current f).
Proof. intros Hf. unfold upd_current. moves. by apply calm_upd_task. Qed.
Lemma calm_current : moves calm current.
Proof. unfold current. moves. Qed.
Lemma calm_modify f : (∀ s, CurrentTask (f s) = CurrentTask s ∧ heap s ≤ heap (f s) ∧ tasks (f s) = tasks s) → moves calm (modify f).
Proof. intros Hf. apply moves_modify. intros s. destruct (Hf s) as (H1 & H2 & H3). by apply calm_same. Qed.
#[export] Hint Resolve calm_current : moves.
#[export] Hint Extern 3 (moves calm (upd_task _ _)) => (apply calm_upd_task; by split) : moves.
#[export] Hint Extern 3 (moves calm (upd_current _)) => (apply calm_upd_current; by split) : moves.
#[export] Hint Extern 3 (moves calm (modify _)) => (apply calm_modify; intros ?; (split; [|split]; [done|cbn; lia|done])) : moves.

Lemma calm_fd_table p : moves calm (fd_table p).
Proof. unfold fd_table. moves. Qed.
#[export] Hint Resolve calm_fd_table : moves.
Lemma calm_fdtbl_get fd : moves calm (fdtbl_get fd).
Proof. unfold fdtbl_get. moves. Qed.
Lemma calm_fdtbl_set fd d : moves calm (fdtbl_set fd d).
Proof. unfold fdtbl_set, put_fd_table. moves. Qed.
Lemma calm_new_ptr : moves calm new_ptr.
Proof. intros s a s' [= _ <-]. by apply calm_same; [|cbn; lia|]. Qed.
Lemma calm_errno e : moves calm (set_errno_to e).
Proof. unfold set_errno_to. moves. Qed.
Lemma calm_printk m : moves calm (printk m).
Proof. unfold printk. moves. Qed.
Lemma calm_get_fdescr d : moves calm (get_fdescr d).
Proof. unfold get_fdescr. moves. Qed.
Lemma calm_put_fdescr d x : moves calm (put_fdescr d x).
Proof. unfold put_fdescr. moves. Qed.
Lemma calm_free_fdescr d : moves calm (free_fdescr d).
Proof. unfold free_fdescr. moves. Qed.
#[export] Hint Resolve calm_fdtbl_get calm_fdtbl_set calm_new_ptr calm_errno calm_printk calm_get_fdescr calm_put_fdescr calm_free_fdescr : moves.
Lemma calm_fd_open device : moves calm (fd_open device).
Proof. unfold fd_open, fd_alloc, put_fd_table. moves. Qed.
Lemma calm_fd_lookup fd : moves calm (fd_lookup fd).
Proof. unfold fd_lookup. moves. Qed.
Lemma calm_fd_dupfd a b : moves calm (fd_dupfd a b).
Proof. unfold fd_dupfd. moves. Qed.
Lemma calm_fd_close fd : moves calm (fd_close fd).
Proof. unfold fd_close. moves. Qed.
#[export] Hint Resolve calm_fd_open calm_fd_lookup calm_fd_dupfd calm_fd_close : moves.

Lemma calm_task_get p : moves calm (task_get p).
Proof. unfold task_get, get_next, get_links. moves. Qed.
#[export] Hint Resolve calm_task_get : moves.

(** The pending signal and the actions, in range. *)
Lemma calm_raise p signum : 0 ≤ signum < NSIG → moves calm (task_signal_raise p signum).
Proof. intros Hs. apply calm_upd_task. intros t. split; [done|done|]. intros [H _]. by split. Qed.
Lemma calm_exit status : moves calm (sys_exit status).
Proof.
  unfold sys_exit, task_exit, intr_enable, set_intr. moves; by apply calm_raise.
Qed.
Lemma aset_length {S A} (l : list A) i x (s : S) l' s' : aset l i x s = Ret (l', s') → length l' = length l ∧ s' = s.
Proof. unfold aset. destruct (_ && _); [|done]. intros [= <- <-]. split; [apply length_insert|done]. Qed.
Lemma get_task_inv p s t s' : get_task p s = Ret (t, s') → tasks s !! p = Some t ∧ s' = s.
Proof. unfold get_task. intros (s1 & s2 & [= <- <-] & E)%bind_inv. destruct (tasks s !! p); [|done]. by injection E as -> <-. Qed.
Lemma aget_inv {S A} (l : list A) i (s : S) x s' : aget l i s = Ret (x, s') → lookupZ l i = Some x ∧ s' = s.
Proof. unfold aget. destruct (lookupZ l i); [|done]. by intros [= -> <-]. Qed.

Lemma calm_sigact p t l s : tasks s !! p = Some t → length l = length (sigact t) → calm s (set_tasks (<[p := set_sigact l t]> (tasks s)) s).
Proof. intros Et Hl. eapply calm_insert; [done|]. split; [done|done|]. intros [H1 H2]. split; [cbn; by rewrite Hl|done]. Qed.

Lemma calm_signal signum handler : moves calm (sys_signal signum handler).
Proof.
  intros s a s' (c & s1 & [= <- <-] & E)%bind_inv. unfold task_signal in E. apply bind_inv in E as (t & s2 & [Et ->]%get_task_inv & E).
  apply bind_inv in E as (old & s3 & [_ ->]%aget_inv & E). apply bind_inv in E as (l & s4 & [Hl ->]%aset_length & E).
  apply bind_inv in E as ([] & s5 & [= <-] & [= _ <-]). by apply calm_sigact.
Qed.
Lemma calm_sigaction signum act old : moves calm (sys_rt_sigaction signum act old).
Proof.
  intros s a s' (t & s1 & E1 & E)%bind_inv. unfold current in E1. apply bind_inv in E1 as (c & s2 & [= <- <-] & [Et ->]%get_task_inv).
  apply bind_inv in E as (o & s3 & Eo & E).
  assert (s3 = s) as ->. { destruct old; [|by injection Eo]. apply bind_inv in Eo as (? & ? & [_ ->]%aget_inv & [= _ <-]). done. }
  apply bind_inv in E as (x & s4 & Ex & E). assert (s4 = s) as ->. { destruct act; [by injection Ex|done]. }
  apply bind_inv in E as (l & s5 & [Hl ->]%aset_length & E). apply bind_inv in E as ([] & s6 & Eu & [= _ <-]).
  rewrite (upd_current_ok s _ t Et) in Eu. injection Eu as <-. by apply calm_sigact.
Qed.
#[export] Hint Resolve calm_signal calm_sigaction calm_exit : moves.

Lemma calm_getpid : moves calm sys_getpid.
Proof. unfold sys_getpid. moves. Qed.
Lemma calm_getppid : moves calm sys_getppid.
Proof. unfold sys_getppid. moves. Qed.
Lemma calm_getpgid p : moves calm (sys_getpgid p).
Proof. unfold sys_getpgid. moves. Qed.
Lemma calm_getpgrp : moves calm sys_getpgrp.
Proof. apply calm_getpgid. Qed.
Lemma calm_setpgid p g : moves calm (sys_setpgid p g).
Proof. unfold sys_setpgid. moves. Qed.
#[export] Hint Resolve calm_getpid calm_getppid calm_getpgid calm_getpgrp calm_setpgid : moves.

(** *** On the files *)

Definition calm_files (s s' : kfiles) : Prop := calm (kf_tst s) (kf_tst s').
#[export] Instance calm_files_preorder : PreOrder calm_files.
Proof. split; [intros s; exact (reflexivity (kf_tst s))|]. intros s1 s2 s3 H1 H2. exact (transitivity (R := calm) H1 H2). Qed.
Lemma calm_onT {A} (m : M tst A) : moves calm m → moves calm_files (onT m).
Proof. by apply (moves_zoom (H := kf_has_tst)). Qed.
Lemma calm_onF {A} (m : M fst_ A) : moves calm_files (onF m).
Proof. apply (moves_zoom_any (H := kf_has_fs)). intros s t. exact (reflexivity (kf_tst s)). Qed.
Lemma calm_onC {A} (m : M consst A) : moves calm_files (onC m).
Proof. apply (moves_zoom_any (H := kf_has_cons)). intros s t. exact (reflexivity (kf_tst s)). Qed.
#[export] Hint Resolve calm_onF calm_onC : moves.
#[export] Hint Extern 2 (moves calm_files (onT _)) => (apply calm_onT; moves) : moves.

Lemma calm_devfs_open node flags : moves calm_files (devfs_open_dev node flags).
Proof. unfold devfs_open_dev, dev_open. moves. Qed.
#[export] Hint Resolve calm_devfs_open : moves.
Lemma calm_open path flags mode : moves calm_files (sys_open path flags mode).
Proof. unfold sys_open, node_open. moves. Qed.
Lemma calm_with_fd {A} fd bad (k : Z → filedev → M kfiles A) : (∀ dev d, moves calm_files (k dev d)) → moves calm_files (with_fd fd bad k).
Proof. intros Hk. unfold with_fd. moves. Qed.
Lemma calm_write fd buf n : moves calm_files (sys_write fd buf n).
Proof. apply calm_with_fd. intros dev d. unfold dev_write. moves. Qed.
Lemma calm_read fd n : moves calm_files (sys_read fd n).
Proof. apply calm_with_fd. intros dev d. unfold dev_read. moves. Qed.
Lemma calm_lseek fd o wh : moves calm_files (sys_lseek fd o wh).
Proof. apply calm_with_fd. intros dev d. unfold dev_seek. moves. Qed.
Lemma calm_close eax fd : moves calm_files (sys_close eax fd).
Proof. apply calm_with_fd. intros dev d. unfold dev_close. moves. Qed.
Lemma calm_ioctl fd cmd : moves calm_files (sys_ioctl fd cmd).
Proof. unfold sys_ioctl. moves. Qed.
Lemma calm_fcntl fd cmd arg : moves calm_files (sys_fcntl fd cmd arg).
Proof. unfold sys_fcntl. moves. Qed.
Lemma calm_newstat path : moves calm_files (sys_newstat path).
Proof. unfold sys_newstat, node_stat. moves. Qed.
Lemma calm_getcwd buf size : moves calm_files (sys_getcwd buf size).
Proof. unfold sys_getcwd, strncpy, rep_stosb, strlen. moves. Qed.
#[export] Hint Resolve calm_open calm_write calm_read calm_lseek calm_close calm_ioctl calm_fcntl calm_newstat calm_getcwd : moves.

(** *** On the memory *)

Definition calm_mach (s s' : mach) : Prop := calm (m_tst s) (m_tst s').
#[export] Instance calm_mach_preorder : PreOrder calm_mach.
Proof. split; [intros s; exact (reflexivity (m_tst s))|]. intros s1 s2 s3 H1 H2. exact (transitivity (R := calm) H1 H2). Qed.
Lemma calm_liftT {A} (m : M tst A) : moves calm m → moves calm_mach (liftT m).
Proof. by apply (moves_zoom (H := mach_has_tst)). Qed.
Lemma calm_liftV {A} (m : M vm A) : moves calm_mach (liftV m).
Proof. apply (moves_zoom_any (H := mach_has_vm)). intros s t. exact (reflexivity (m_tst s)). Qed.
#[export] Hint Resolve calm_liftV : moves.
#[export] Hint Extern 2 (moves calm_mach (liftT _)) => (apply calm_liftT; moves) : moves.
Lemma calm_on_vm {A} (f : mmu_task → M vm A) : moves calm_mach (on_vm f).
Proof. unfold on_vm. moves. Qed.
#[export] Hint Resolve calm_on_vm : moves.

Lemma calm_brk b : moves calm_mach (sys_brk b).
Proof. unfold sys_brk, task_brk, brk_map, brk_unmap, page_loop. moves. Qed.
Lemma calm_mmap addr length prot flags fd offset : moves calm_mach (sys_mmap_pgoff addr length prot flags fd offset).
Proof. unfold sys_mmap_pgoff. moves. Qed.
#[export] Hint Resolve calm_brk calm_mmap : moves.

(** *** On the kernel *)

(** The table of calls and the handlers stay, too. *)
Record calm_kernel (k k' : kernel) : Prop := {
  ck_tst : calm (k_tst k) (k_tst k');
  ck_sc : k_sc k' = k_sc k;
  ck_intr : k_intr k' = k_intr k
}.
#[export] Instance calm_kernel_preorder : PreOrder calm_kernel.
Proof.
  split; [intros k; by split|]. intros k1 k2 k3 [A1 A2 A3] [B1 B2 B3]. split; [by transitivity (k_tst k2)|congruence..].
Qed.
Lemma calm_onFiles {A} (m : M kfiles A) : moves calm_files m → moves calm_kernel (onFiles m).
Proof. apply (moves_zoom (H := kernel_has_files)). intros k t Ht. by split. Qed.
Lemma calm_onMem {A} (m : M mach A) : moves calm_mach m → moves calm_kernel (onMem m).
Proof. apply (moves_zoom (H := kernel_has_mach)). intros k t Ht. by split. Qed.
#[export] Hint Extern 2 (moves calm_kernel (onFiles _)) => (apply calm_onFiles; moves) : moves.
#[export] Hint Extern 2 (moves calm_kernel (onMem _)) => (apply calm_onMem; moves) : moves.
Lemma calm_onTask {A} (m : M tst A) : moves calm m → moves calm_kernel (onTask m).
Proof. intros Hm. unfold onTask. apply calm_onFiles. by apply calm_onT. Qed.
#[export] Hint Extern 2 (moves calm_kernel (onTask _)) => (apply calm_onTask; moves) : moves.
Lemma calm_onUser {A} (f : mmu_task → M vm A) : moves calm_kernel (onUser f).
Proof. unfold onUser. moves. Qed.
#[export] Hint Resolve calm_onUser : moves.
Lemma calm_user_word p : moves calm_kernel (user_word p).
Proof. unfold user_word, user_bytes. moves. Qed.
#[export] Hint Resolve calm_user_word : moves.
Lemma calm_user_bytes p n : moves calm_kernel (user_bytes p n).
Proof. unfold user_bytes. moves. Qed.
Lemma calm_user_string p : moves calm_kernel (user_string p).
Proof. unfold user_string. moves. Qed.
Lemma calm_user_store p x : moves calm_kernel (user_store p x).
Proof. unfold user_store. moves. Qed.
#[export] Hint Resolve calm_user_bytes calm_user_string calm_user_store : moves.
Lemma calm_store_fields l : ∀ p, moves calm_kernel (store_fields p l).
Proof. induction l as [|x l IH]; intros p; cbn [store_fields]; moves. Qed.
#[export] Hint Resolve calm_store_fields : moves.

(** Every call that returns to its caller. *)
Lemma run_call_calm junk eax_ f args : moves calm_kernel (run_call junk eax_ f args).
Proof.
  destruct f, args as [|a [|b [|c [|d [|e [|g [|h args]]]]]]]; cbn [run_call];
    unfold call_read, call_write, call_open, call_ioctl, call_getcwd, call_newstat, call_uname, call_mmap, call_rt_sigaction,
      user_sigaction, sys_uname, sys_fake_getid, sys_mmap, result; moves.
Qed.

(** *** Loading a program *)

Section Parse.
Context {S : Type} (R : S → S → Prop) `{HR : !PreOrder R}.
Lemma moves_ld32 e p : moves R (ld32 e p).
Proof. unfold ld32, ld16, ld8. moves. Qed.
Lemma moves_ld16 e p : moves R (ld16 e p).
Proof. unfold ld16, ld8. moves. Qed.
Lemma moves_kassert b : moves R (kassert b).
Proof. unfold kassert. moves. Qed.
Hint Resolve moves_ld32 moves_ld16 moves_kassert : moves.
Lemma moves_section_name e i out : moves R (elf_get_section_name e i out).
Proof. unfold elf_get_section_name, elf_get_strtab_entry, elf_get_section_data, sh_name, sh_offset, cptr, strcpy. moves. Qed.
Hint Resolve moves_section_name : moves.
Lemma moves_section_by_name junk e name : moves R (elf_get_section_by_name junk e name).
Proof. unfold elf_get_section_by_name, strcmp. moves. Qed.
Hint Resolve moves_section_by_name : moves.
Lemma moves_read_header e : moves R (elf_read_header e).
Proof. unfold elf_read_header, e_ident, e_type, ld8. moves. Qed.
Lemma moves_read_shdr junk e : moves R (elf_read_shdr junk e).
Proof. unfold elf_read_shdr, e_shoff, e_shnum, e_shstrndx. moves. Qed.
Lemma moves_read_phdr e : moves R (elf_read_phdr e).
Proof. unfold elf_read_phdr, e_phoff, e_phnum. moves. Qed.
Lemma moves_read_symtab junk sec e : moves R (elf_read_symtab junk sec e).
Proof. unfold elf_read_symtab, elf_get_section_faddr, elf_get_section_len, elf_get_section_data, sh_offset, sh_size. moves. Qed.
End Parse.

(** Library functions that leave the tasks as they are. *)
Record calm_lib (lib : filelib kernel) : Prop := {
  cl_stat p : moves calm_kernel (fl_stat lib p);
  cl_mmap n : moves calm_kernel (fl_mmap lib n);
  cl_fopen p : moves calm_kernel (fl_fopen lib p);
  cl_fseek f o wh : moves calm_kernel (fl_fseek lib f o wh);
  cl_fread f n : moves calm_kernel (fl_fread lib f n);
  cl_fclose f : moves calm_kernel (fl_fclose lib f)
}.

Lemma calm_elf_read lib junk sec path e : calm_lib lib → moves calm_kernel (elf_read lib junk sec path e).
Proof.
  intros []. unfold elf_read. moves; first [by auto|apply moves_kassert, _|apply moves_read_header, _|apply moves_read_shdr, _|apply moves_read_phdr, _|apply moves_read_symtab, _].
Qed.
Lemma calm_elf_load e : moves calm_mach (elf_load e).
Proof. unfold elf_load, load_segment, p_type, p_vaddr, p_memsz, p_flags, p_offset, p_filesz. moves; apply moves_ld32, _. Qed.
Lemma calm_elf_start malloc_ e a n old : (∀ k, moves calm_mach (malloc_ k)) → moves calm_mach (elf_start malloc_ e a n old).
Proof. intros Hm. unfold elf_start, arch_exec, arg_count, store_down, push_all, e_entry. moves; first [apply Hm|apply moves_ld32, _]. Qed.
#[export] Hint Resolve calm_elf_load : moves.

Lemma calm_user_words n : ∀ p, moves calm_kernel (user_words n p).
Proof. induction n as [|n IH]; intros p; cbn [user_words]; moves. Qed.
#[export] Hint Resolve calm_user_words : moves.

Lemma calm_execve lx p a e : calm_lib (lx_files lx) → (∀ k, moves calm_mach (lx_malloc lx k)) → moves calm_kernel (call_execve lx p a e).
Proof.
  intros Hl Hm. unfold call_execve. moves; [by apply calm_elf_read|]. apply calm_onMem. by apply calm_elf_start.
Qed.
