(* ===== verification/Runs.v ===== *)
(** * Runs of the kernel

    Any sequence of ticks of the timer and system calls, of any number and from any task:
    what every state of such a run has in common.  The ring holds together, a task that is not running
    left a frame that fits the place where it goes on, no signal is out of range; so a
    tick of the timer finds a task and brings it back to its program. *)
From Stdlib Require Import ZArith Lia.
From stdpp Require Import base gmap list list_numbers strings relations.
From S2P Require Import Prelude Layout FrameAlloc Mmu MmuClone ListHead TaskState Task Sched SysProc Fdio Machine Fork Brk CStr Fs Tmpfs Cpiofs Intr Console SysFile UserMem SysMem Syscall Elf Exec Boot Kmain UserCall Traps Programs Calm.
Open Scope Z_scope.
Open Scope u32_scope.

(** ** What holds between two steps *)

(** The calls that enter another task, with their arguments. *)
Definition waits (f : sysfn) (args : list Z) : bool :=
  match f, args with
  | f_wait4, [_; _; _; _] | f_sched_yield, [] | f_rt_sigsuspend, [_; _] => true
  | _, _ => false
  end.

(** The frame fits the place where its task [z] goes on. *)
Definition fits (z : Z) (r : resume_point) (fr : frame) : Prop :=
  match r, fr_at fr with
  | InEnter, AtTick => True
  | InEnter, AtCall f args => waits f args = true
  | InFork, AtFork ch => ch = z
  | _, _ => False
  end.
Definition standing (w : world) (z : Z) : Prop :=
  ∃ t fr, tasks (w_tst w) !! z = Some t ∧ w_frames w !! z = Some fr ∧ fits z (resume t) fr.

Record kernel_inv (w : world) : Prop := {
  ki_timer : timer_on w;
  ki_syscalls : lookupZ (IDTCallbacks (k_intr (w_k w))) INT_SYSCALL = Some h_syscall_interrupt;
  ki_calls : same_calls (k_sc (w_k w)) full_sctbl;
  ki_signals p t : tasks (w_tst w) !! p = Some t → sig_full t;
  ki_heap : NULL < heap (w_tst w) ∧ ∀ p, is_Some (tasks (w_tst w) !! p) → p < heap (w_tst w);
  ki_ring : ∃ l, ring (w_tst w) (CurrentTask (w_tst w) :: l) ∧ ∀ z, z ∈ l → standing w z
}.

Lemma sig_full_ok t : sig_full t → sig_ok t.
Proof. intros [H1 H2]. unfold sig_ok. by rewrite H1. Qed.
Lemma inv_signals w : kernel_inv w → signals_ok (w_tst w).
Proof. intros Hk p t Et. by eapply sig_full_ok, ki_signals. Qed.

(** *** Calm steps *)

(** From [w] to [w'] the kernel was calm; no frame was touched. *)
Record calm_world (w w' : world) : Prop := {
  cw_tst : calm (w_tst w) (w_tst w');
  cw_calls : same_calls (k_sc (w_k w')) (k_sc (w_k w));
  cw_handlers : IDTCallbacks (k_intr (w_k w')) = IDTCallbacks (k_intr (w_k w));
  cw_frames : w_frames w' = w_frames w
}.
#[export] Instance calm_world_preorder : PreOrder calm_world.
Proof.
  split; [intros w; by split|]. intros w1 w2 w3 [A1 [A2 A2'] A3 A4] [B1 [B2 B2'] B3 B4].
  split; [by transitivity (w_tst w2)|split; congruence|congruence..].
Qed.
Lemma calm_onK {A} (m : M kernel A) : moves calm_kernel m → moves calm_world (onK m).
Proof.
  apply (moves_zoom (H := world_has_kernel)). intros w k [H1 H2 H3]. cbn in *. split; [done|cbn; by rewrite H2|cbn; by rewrite H3|done].
Qed.
#[export] Hint Extern 2 (moves calm_world (onK _)) => (apply calm_onK; moves) : moves.
Lemma calm_onTst {A} (m : M tst A) : moves calm m → moves calm_world (onTst m).
Proof. intros Hm. apply calm_onK. by apply calm_onTask. Qed.
#[export] Hint Extern 2 (moves calm_world (onTst _)) => (apply calm_onTst; moves) : moves.

Lemma standing_calm w w' z : calm_world w w' → standing w z → standing w' z.
Proof.
  intros [[_ _ Ht] _ _ Hf] (t & fr & Et & Ef & Hfit). pose proof (Ht z) as H. rewrite Et in H. destruct (tasks (w_tst w') !! z) as [t'|] eqn:Et'; [|done].
  exists t', fr. split; [done|]. split; [by rewrite Hf|]. by rewrite (ct_resume _ _ H).
Qed.
Lemma inv_calm w w' : calm_world w w' → kernel_inv w → kernel_inv w'.
Proof.
  intros Hc [H1 H2 [H3 H3'] H4 [H5 H5'] (l & Hr & Hl)]. pose proof Hc as [Ht [Hs Hs'] Hh Hf]. split.
  - unfold timer_on. by rewrite Hh.
  - by rewrite Hh.
  - split; congruence.
  - intros p t Et. destruct (calm_lookup _ _ _ _ Ht Et) as (u & Eu & Hu). apply Hu. by eapply H4.
  - pose proof (cm_heap _ _ Ht). split; [lia|]. intros p [t Et]. destruct (calm_lookup _ _ _ _ Ht Et) as (u & Eu & _).
    pose proof (H5' p ltac:(by exists u)). lia.
  - exists l. rewrite (cm_cur _ _ Ht). split; [by apply (calm_ring _ _ _ Ht)|]. intros z Hz. by apply (standing_calm w), Hl.
Qed.

Lemma calm_iret c : moves calm_world (iret c).
Proof. unfold iret, set_intr. moves. Qed.
#[export] Hint Resolve calm_iret : moves.
Lemma calm_world_if b w : calm_world w (world_if b w).
Proof. split; [by apply calm_same; [|apply Z.le_refl|]|done..]. Qed.

(** *** Entering another task *)

(** What goes on is the task's own: its frame fits where it is entered. *)
Definition entered_ok (r : resume_point) (w : world) : Prop :=
  ∃ fr, w_frames w !! CurrentTask (w_tst w) = Some fr ∧ fits (CurrentTask (w_tst w)) r fr.

Lemma yield_cases s l : ring s (CurrentTask s :: l) → signals_ok s →
  (∃ pre y post r s', picks s (l ++ [CurrentTask s]) pre y post ∧ kern_sched_yield s = Ret (r, s') ∧ yielded s y r s' ∧ signals_ok s' ∧
     ring s' (y :: post ++ List.filter (λ p, negb (task_quit s p)) pre)) ∨
  (kern_sched_yield s = Diverge ∧ ∀ p, p ∈ CurrentTask s :: l → task_runnable s p = false).
Proof.
  intros Hr Hsig. destruct (decide (Exists (λ p, task_runnable s p = true) (l ++ [CurrentTask s]))) as [Hx|Hx].
  - left. apply Exists_exists in Hx as (p & Hp & Hrun). apply list_elem_of_lookup_1 in Hp as [i Hi].
    destruct (picks_exists _ _ _ _ Hi Hrun) as (pre & y & post & H & _). destruct (kern_sched_yield_full s l pre y post Hr H Hsig) as (r & s' & E).
    by exists pre, y, post, r, s'.
  - right. assert (Hall : ∀ p, p ∈ CurrentTask s :: l → task_runnable s p = false).
    { intros p Hp%in_order. destruct (task_runnable s p) eqn:E; [|done]. exfalso. apply Hx, Exists_exists. by exists p. }
    split; [by apply (sched_yield_idle s l)|done].
Qed.

(** What a yield keeps of every task. *)
Lemma yielded_back s y r s' p t' : is_Some (tasks s !! y) → yielded s y r s' → tasks s' !! p = Some t' →
  ∃ t, tasks s !! p = Some t ∧ (sigact t' = sigact t ∧ (sigpend t' = sigpend t ∨ sigpend t' = 0)) ∧
    (p ≠ y → resume t' = if decide (p = CurrentTask s) then InEnter else resume t).
Proof.
  intros [ty Ety] Hy E'. destruct (tasks s !! p) as [t|] eqn:Et; [|by rewrite (yd_none _ _ _ _ Hy p Et) in E'].
  exists t. split; [done|]. destruct (decide (p = y)) as [->|Hpy].
  - destruct (yd_task _ _ _ _ Hy t Et) as (_ & (x & Ex & (a & b & Hx)) & _). rewrite Ex in E'. injection E' as <-. subst x. split; [|done].
    destruct (at_switch_data s y (woken t)) as (_ & _ & Hp & Ha). destruct (woken_fields t) as (Hp' & Ha' & _). set (u := at_switch s y (woken t)) in *.
    destruct (entered_fields u) as (_ & _ & _ & _ & He & _). cbn. split; [congruence|]. unfold entered. destruct (resume u); [|left; congruence].
    unfold signalled. destruct (sigpend u =? 0); [left; congruence|by right].
  - destruct (decide (p = CurrentTask s)) as [->|Hpc].
    + destruct (yd_left _ _ _ _ Hy t) as (x & Ex & (a & b & Hx)); [done|done|]. rewrite Ex in E'. injection E' as <-. subst x. by repeat split; left.
    + destruct (yd_others _ _ _ _ Hy p t Hpy Hpc Et) as (x & Ex & (a & b & Hx)). rewrite Ex in E'. injection E' as <-. subst x. by repeat split; left.
Qed.

Section Yield.
Context (w : world) (fr : frame) (l : list Z).
Let s : tst := w_tst w.
Hypothesis Hk : kernel_inv w.
Hypothesis Hr : ring s (CurrentTask s :: l).
Hypothesis Hl : ∀ z, z ∈ l → standing w z.
Hypothesis Hfr : fits (CurrentTask s) InEnter fr.
Context (pre : list Z) (y : Z) (post : list Z) (r : resume_point) (s' : tst).
Hypothesis Hp : picks s (l ++ [CurrentTask s]) pre y post.
Hypothesis Hy : yielded s y r s'.
Hypothesis Hr' : ring s' (y :: post ++ List.filter (λ p, negb (task_quit s p)) pre).
Let w' : world := with_wtst s' (left_at fr w).

Lemma entered_task : y ∈ CurrentTask s :: l ∧ is_Some (tasks s !! y).
Proof.
  assert (Hin : y ∈ CurrentTask s :: l).
  { apply in_order. destruct Hp as (-> & _). apply elem_of_app. right. left. }
  split; [done|]. destruct (ring_task s _ y Hr Hin) as [t ->]. by eexists.
Qed.

Lemma standing_after z : z ∈ post ++ List.filter (λ p, negb (task_quit s p)) pre → standing w' z.
Proof.
  intros Hz. assert (Hzy : z ≠ y) by (intros ->; by apply ring_NoDup, NoDup_cons in Hr' as [Hn _]).
  assert (Hin : z ∈ CurrentTask s :: l).
  { apply in_order. destruct Hp as (-> & _). rewrite elem_of_app, elem_of_cons. apply elem_of_app in Hz as [Hz|Hz]; [tauto|].
    left. apply list_elem_of_In, List.filter_In in Hz as [Hz _]. by apply list_elem_of_In. }
  destruct (ring_task s' _ z Hr') as [t' Et']; [by right|]. destruct entered_task as [_ Hys].
  destruct (yielded_back s y r s' z t' Hys Hy Et') as (t & Et & _ & Hres). specialize (Hres Hzy).
  destruct (decide (z = CurrentTask s)) as [->|Hzc].
  - exists t', fr. split; [done|]. split; [apply lookup_insert_eq|]. by rewrite Hres.
  - apply elem_of_cons in Hin as [|Hin]; [done|]. destruct (Hl z Hin) as (u & frz & Eu & Ef & Hfit). change (tasks s !! z = Some u) in Eu.
    rewrite Et in Eu. injection Eu as ->. exists t', frz. split; [done|]. split; [|by rewrite Hres]. cbn. by rewrite lookup_insert_ne.
Qed.

Lemma entered_fits : entered_ok r w'.
Proof.
  destruct entered_task as [Hin [t Et]]. pose proof (yd_cur _ _ _ _ Hy) as Hc. unfold entered_ok. change (CurrentTask (w_tst w')) with (CurrentTask s'). rewrite Hc.
  destruct (decide (y = CurrentTask s)) as [Hyc|Hyc].
  - exists fr. change (w_frames w' !! y) with (<[CurrentTask s := fr]> (w_frames w) !! y). rewrite Hyc, lookup_insert_eq. split; [done|].
    destruct (yd_task _ _ _ _ Hy t Et) as (-> & _). unfold at_switch. by rewrite decide_True.
  - apply elem_of_cons in Hin as [|Hin]; [done|]. destruct (Hl y Hin) as (u & fry & Eu & Ef & Hfit). change (tasks s !! y = Some u) in Eu.
    rewrite Et in Eu. injection Eu as ->. exists fry. split; [cbn; by rewrite lookup_insert_ne by done|]. by rewrite (resume_point_of _ _ _ _ _ Hy Et Hyc).
Qed.

Lemma yielded_inv : kernel_inv w'.
Proof.
  destruct Hk as [H1 H2 H3 H4 [H5 H5'] _]. destruct entered_task as [_ Hys]. split; try done.
  - intros p t' Et'. destruct (yielded_back s y r s' p t' Hys Hy Et') as (t & Et & (Ha & Hs) & _). destruct (H4 p t Et) as [L1 L2].
    split; [congruence|]. unfold NSIG in *. destruct Hs as [->| ->]; [done|lia].
  - pose proof (yd_rest _ _ _ _ Hy) as Hrest. unfold tst_rest in Hrest. change (heap (w_tst w')) with (heap s').
    assert (heap s' = heap s) as -> by congruence. split; [done|]. intros p [t' Et']. destruct (yielded_back s y r s' p t' Hys Hy Et') as (t & Et & _).
    apply H5'. by exists t.
  - eexists. change (CurrentTask (w_tst w')) with (CurrentTask s'). rewrite (yd_cur _ _ _ _ Hy). split; [exact Hr'|]. intros z Hz. by apply standing_after.
Qed.
End Yield.

Lemma inv_yield w fr r s' :
  kernel_inv w → fits (CurrentTask (w_tst w)) InEnter fr → kern_sched_yield (w_tst w) = Ret (r, s') →
  let w' := with_wtst s' (left_at fr w) in kernel_inv w' ∧ entered_ok r w'.
Proof.
  intros Hk Hfr E. destruct (ki_ring _ Hk) as (l & Hr & Hl).
  destruct (yield_cases (w_tst w) l Hr (inv_signals _ Hk)) as [(pre & y & post & r1 & s1 & Hp & E1 & Hy & _ & Hr1)|[E1 _]]; [|congruence].
  rewrite E1 in E. injection E as -> ->. split; [by eapply yielded_inv|by eapply entered_fits].
Qed.

(** *** Going on *)

Lemma calm_finish f args : moves calm_kernel (finish_call f args).
Proof.
  destruct f, args as [|a [|b [|c [|d [|e args]]]]]; cbn [finish_call];
    unfold result, sys_wait4_resumed, sys_sched_yield_resumed, sys_rt_sigsuspend_resumed; moves.
Qed.
#[export] Hint Resolve calm_finish : moves.
Lemma calm_resume r : moves calm_world (resume_frame r).
Proof. unfold resume_frame, task_fork_resumed, sys_fork_resumed. moves. Qed.
#[export] Hint Resolve calm_resume : moves.

Lemma calm_entry r w : calm_world w (entry_state_of r w).
Proof. split; [by apply calm_same; [|apply Z.le_refl|]|done..]. Qed.
Lemma inv_move {A} (m : M world A) w a w' : moves calm_world m → m w = Ret (a, w') → kernel_inv w → kernel_inv w'.
Proof. intros Hm E. apply inv_calm. by eapply Hm. Qed.

Lemma inv_left w fr : kernel_inv w → kernel_inv (left_at fr w).
Proof.
  intros [H1 H2 H3 H4 H5 (l & Hr & Hl)]. split; try done. exists l. split; [exact Hr|]. intros z Hz. destruct (Hl z Hz) as (t & f & Et & Ef & Hf).
  exists t, f. split; [done|]. split; [|done]. cbn. rewrite lookup_insert_ne; [done|]. intros <-. apply ring_NoDup, NoDup_cons in Hr as [Hn _]. done.
Qed.

(** A call up to the switch: it returns at once, or yields. *)
Definition yields_or_returns (m : M tst (Z + resume_point)) : Prop := ∀ s x s', m s = Ret (x, s') →
  (∃ v, x = inl v ∧ calm s s') ∨ ∃ s1 r, x = inr r ∧ calm s s1 ∧ kern_sched_yield s1 = Ret (r, s').

Lemma yields_sigwait p s x s' : (r ← task_sigwait p; mret (inr (A := Z) r)) s = Ret (x, s') →
  ∃ s1 r, x = inr r ∧ calm s s1 ∧ kern_sched_yield s1 = Ret (r, s').
Proof.
  intros (r & s2 & E & [= <- <-])%bind_inv. unfold task_sigwait in E. apply bind_inv in E as ([] & s1 & E1 & E2). exists s1, r. split; [done|]. split; [|done].
  revert E1. apply (calm_upd_task p). by split.
Qed.
Lemma wait4_yields p o : yields_or_returns (sys_wait4 p o).
Proof.
  intros s x s' E. unfold sys_wait4 in E. apply bind_inv in E as (cur & s1 & E1 & E). pose proof (calm_current _ _ _ E1) as H1.
  destruct (_ && _); [injection E as <- <-; left; by eexists|]. right. apply bind_inv in E as ([] & s2 & E2 & E).
  assert (H2 : calm s1 s2) by (revert E2; apply calm_upd_current; by split). apply bind_inv in E as (c & s3 & [= <- <-] & E).
  destruct (yields_sigwait _ _ _ _ E) as (s4 & r & -> & H4 & E4). exists s4, r. split; [done|]. split; [|done]. do 2 (etransitivity; [done|]). done.
Qed.
Lemma sched_yield_yields : yields_or_returns (leaves sys_sched_yield).
Proof. intros s x s' (r & s2 & E & [= <- <-])%bind_inv. right. by exists s, r. Qed.
Lemma sigsuspend_yields : yields_or_returns (leaves sys_rt_sigsuspend).
Proof.
  intros s x s' E. right. unfold leaves, sys_rt_sigsuspend in E. rewrite bind_assoc in E. apply bind_inv in E as (c & s1 & [= <- <-] & E). by apply (yields_sigwait (CurrentTask s)).
Qed.

Lemma onTst_inv {A} (m : M tst A) w a w' : onTst m w = Ret (a, w') → ∃ t, m (w_tst w) = Ret (a, t) ∧ w' = with_wtst t w.
Proof.
  intros E. apply (zoom_inv (H := world_has_kernel)) in E as (k & E & ->). apply (zoom_inv (H := kernel_has_files)) in E as (f & E & ->).
  apply (zoom_inv (H := kf_has_tst)) in E as (t & E & ->). by exists t.
Qed.

Lemma inv_leave f args c m w res w' :
  kernel_inv w → waits f args = true → yields_or_returns m → leave_call f args c m w = Ret (res, w') → kernel_inv w'.
Proof.
  intros Hk Hw Hm E. unfold leave_call, save_frame in E. rewrite bind_assoc in E. rewrite (bind_ret _ _ _ _ _ (onTst_gets CurrentTask w)) in E.
  set (fr := mkFrame (AtCall f args) c) in E. rewrite (bind_ret _ _ _ tt (left_at fr w)) in E by done.
  apply bind_inv in E as (x & w1 & (t & E1 & ->)%onTst_inv & E). change (w_tst (left_at fr w)) with (w_tst w) in E1.
  destruct (Hm _ _ _ E1) as [(v & -> & Hc)|(s1 & r & -> & Hc & Ey)].
  - injection E as _ <-. apply (inv_calm (left_at fr w)); [|by apply inv_left]. by split.
  - set (w1 := with_wtst s1 w). assert (Hk1 : kernel_inv w1) by (apply (inv_calm w); [by split|done]).
    destruct (inv_yield w1 fr r t Hk1 Hw Ey) as [Hk2 _].
    assert (Ew : with_wtst t (left_at fr w) = with_wtst t (left_at fr w1)) by (unfold left_at; cbn; by rewrite (cm_cur _ _ Hc)).
    rewrite Ew in E. apply bind_inv in E as (c' & w2 & E2 & [= _ <-]). by apply (inv_move _ _ _ _ (calm_resume r) E2).
Qed.

(** *** Making a child *)

(** The program can be copied: its descriptors are in order and there is memory. *)
Definition forkable (w : world) : Prop := ∃ cur tbl,
  fd_ok (w_tst w) cur tbl ∧ fdnext cur ≤ fdcap cur ∧ (∀ d, d ∈ tbl → d ≠ 0 → is_Some (fdescrs (w_tst w) !! d)) ∧ can_clone w cur.

Lemma forkable_can_fork w l : kernel_inv w → ring (w_tst w) (CurrentTask (w_tst w) :: l) → forkable w → ∃ cur tbl, can_fork w l cur tbl ∧ fd_ok (w_tst w) cur tbl.
Proof.
  intros Hk Hr (cur & tbl & H1 & H2 & H3 & H4). destruct (ki_heap _ Hk) as [H0 Hh]. exists cur, tbl. split; [|done]. split; [done|done| |done].
  split; [done|]. intros p Hp. apply Hh. destruct (ring_task _ _ _ Hr Hp) as [t ->]. by eexists.
Qed.

Lemma relinked_full x y : relinked x y → sig_full x → sig_full y.
Proof. by intros (a & b & ->). Qed.

Section Forked.
Context (r : isrargs) (w : world) (l : list Z) (cur : task) (m : mach) (t : task).
Hypothesis Hk : kernel_inv w.
Hypothesis Hr : ring (w_tst w) (CurrentTask (w_tst w) :: l).
Hypothesis Hl : ∀ z, z ∈ l → standing w z.
Hypothesis Hcur : tasks (w_tst w) !! CurrentTask (w_tst w) = Some cur.
Hypothesis Hf : forked (k_mach (kernel_if false (w_k w))) l cur m t.
Let ch : Z := heap (w_tst w).

Lemma child_new z : z ∈ CurrentTask (w_tst w) :: l → z ≠ ch.
Proof.
  intros Hz ->. destruct (ki_heap _ Hk) as [_ Hh]. destruct (ring_task _ _ _ Hr Hz) as [x Ex]. pose proof (Hh ch ltac:(by eexists)). unfold ch in *. lia.
Qed.

Lemma forked_standing z : z ∈ ch :: l → standing (forked_world r m w) z.
Proof.
  intros Hz. destruct (decide (z = ch)) as [->|Hn].
  - exists t, (mkFrame (AtFork ch) (Running r)). split; [exact (fk_child _ _ _ _ _ Hf)|]. split; [apply lookup_insert_eq|].
    destruct (fk_id _ _ _ _ _ Hf) as (_ & _ & _ & ->). done.
  - apply elem_of_cons in Hz as [|Hz]; [done|]. destruct (Hl z Hz) as (x & fr & Ex & Ef & Hfit).
    assert (Hzc : z ≠ CurrentTask (w_tst w)) by (intros ->; by apply ring_NoDup, NoDup_cons in Hr as [? _]).
    destruct (fk_others _ _ _ _ _ Hf z x Hzc Hn Ex) as (y & Ey & (a & b & ->)). eexists _, fr. split; [exact Ey|]. split; [|exact Hfit].
    cbn. by rewrite lookup_insert_ne.
Qed.

Lemma forked_sig_full p x : tasks (m_tst m) !! p = Some x → sig_full x.
Proof.
  intros Ex. destruct (decide (p = ch)) as [->|Hn].
  - rewrite (fk_child _ _ _ _ _ Hf : tasks (m_tst m) !! ch = _) in Ex. injection Ex as <-. destruct (fk_signals _ _ _ _ _ Hf) as [H1 H2].
    unfold sig_full. rewrite H1, H2. exact (ki_signals _ Hk _ _ Hcur).
  - destruct (decide (p = CurrentTask (w_tst w))) as [->|Hc].
    + destruct (fk_parent _ _ _ _ _ Hf) as (c & Ec & Hc). change (tasks (m_tst m) !! CurrentTask (w_tst w) = Some c) in Ec. rewrite Ec in Ex. injection Ex as <-.
      apply (relinked_full _ _ Hc). exact (ki_signals _ Hk _ _ Hcur).
    + destruct (fk_back _ _ _ _ _ Hf p x Hc Hn Ex) as (y & Ey & Hy). apply (relinked_full _ _ Hy). exact (ki_signals _ Hk _ _ Ey).
Qed.

Lemma forked_below p : is_Some (tasks (m_tst m) !! p) → p < heap (m_tst m).
Proof.
  intros [x Ex]. pose proof (fk_heap _ _ _ _ _ Hf : ch < heap (m_tst m)) as Hh. destruct (decide (p = ch)) as [->|Hn]; [done|].
  assert (Hp : is_Some (tasks (w_tst w) !! p)).
  { destruct (decide (p = CurrentTask (w_tst w))) as [->|Hc]; [by eexists|]. destruct (fk_back _ _ _ _ _ Hf p x Hc Hn Ex) as (y & Ey & _). by exists y. }
  apply (proj2 (ki_heap _ Hk)) in Hp. unfold ch in *. lia.
Qed.

Lemma forked_inv : kernel_inv (forked_world r m w).
Proof.
  split; [apply Hk|apply Hk|apply Hk|exact forked_sig_full| |].
  - split; [|exact forked_below]. pose proof (fk_heap _ _ _ _ _ Hf : ch < heap (m_tst m)). pose proof (proj1 (ki_heap _ Hk)).
    change (NULL < heap (m_tst m)). unfold ch in *. lia.
  - exists (ch :: l). change (CurrentTask (w_tst (forked_world r m w))) with (CurrentTask (m_tst m)). rewrite (fk_cur _ _ _ _ _ Hf).
    split; [exact (fk_ring _ _ _ _ _ Hf)|exact forked_standing].
Qed.
End Forked.

Lemma inv_fork r w x w' : kernel_inv w → forkable w → call_fork (Running r) (world_if false w) = Ret (x, w') → kernel_inv w'.
Proof.
  intros Hk Hfk E. destruct (ki_ring _ Hk) as (l & Hr & Hl). destruct (forkable_can_fork w l Hk Hr Hfk) as (cur & tbl & Hc & Hfd).
  destruct (call_fork_ok r w l cur tbl Hc) as (m & t & Hf & E'). rewrite E' in E. injection E as _ <-.
  apply (forked_inv r w l cur m t); try done. apply Hfd.
Qed.

(** ** Steps *)

Section Kernel.
Context (junk eax_ : Z) (spin_regs : isrargs) (lx : libexec).
Hypothesis Hlib : calm_lib (lx_files lx).
Hypothesis Hmalloc : ∀ k, moves calm_mach (lx_malloc lx k).
Abbreviation run_trap := (run_trap junk eax_ lx).
Abbreviation isr := (isr junk eax_ lx).
Abbreviation trap := (trap junk eax_ lx).
Abbreviation tick := (tick junk eax_ spin_regs lx).

Lemma calm_idt regs : moves calm_world (onK (onInt (idt_handler regs))).
Proof.
  apply (moves_zoom (H := world_has_kernel) (λ k k', k_tst k' = k_tst k ∧ k_sc k' = k_sc k ∧ IDTCallbacks (k_intr k') = IDTCallbacks (k_intr k))).
  - intros w k (H1 & H2 & H3). split; [|cbn; by rewrite H2|exact H3|done]. change (w_tst (embed k w)) with (k_tst k). rewrite H1. reflexivity.
  - set (same := λ s s' : intrst, IDTCallbacks s' = IDTCallbacks s).
    apply (moves_zoom (H := kernel_has_intr) same); [by intros k i Hi|].
    assert (HR : PreOrder same) by (split; [by intros ?|intros x y z H1 H2; unfold same in *; congruence]).
    unfold idt_handler, pic_eoi, io_put8. moves; apply moves_modify; by intros [].
Qed.

Lemma idt_found regs w h w' : onK (onInt (idt_handler regs)) w = Ret (h, w') → lookupZ (IDTCallbacks (k_intr (w_k w))) (int_no regs) = Some h.
Proof.
  intros (k & E & _)%(zoom_inv (H := world_has_kernel)). apply (zoom_inv (H := kernel_has_intr)) in E as (i & E & _). change (proj (proj w)) with (k_intr (w_k w)) in E.
  unfold idt_handler in E. apply bind_inv in E as ([] & i1 & E1 & E). assert (H1 : IDTCallbacks i1 = IDTCallbacks (k_intr (w_k w))).
  { destruct (_ && _); [|by injection E1 as <-]. unfold pic_eoi in E1. destruct (INT_PIC2_BASE <? int_no regs); by injection E1 as <-. }
  rewrite <- H1. apply bind_inv in E as (i2 & i3 & [= <- <-] & E). apply bind_inv in E as (h1 & i4 & [Eh ->]%aget_inv & E). rewrite Eh.
  destruct (decide (h1 = NoHandler)) as [->|]; [by apply bind_inv in E as (? & ? & _ & [= <- _])|by injection E as <- _].
Qed.

(** The handlers that do not enter another task. *)
Lemma calm_page_fault a : moves calm_kernel (page_fault a).
Proof. unfold page_fault. moves. Qed.
Lemma calm_kbd : moves calm_files (onC kbd_intr).
Proof. apply calm_onC. Qed.
Hint Resolve calm_page_fault calm_kbd : moves.
Lemma calm_handle h regs c : h ≠ h_sched_preempt → h ≠ h_syscall_interrupt → moves calm_world (handle junk eax_ lx h regs c).
Proof. intros H1 H2. destruct h; try done; unfold handle; moves. Qed.

(** The timer. *)
Lemma inv_preempt c w c' w' : kernel_inv w → (save_frame (mkFrame AtTick c) ;; r ← onTst kern_sched_yield; resume_frame r) w = Ret (c', w') → kernel_inv w'.
Proof.
  intros Hk E. unfold save_frame in E. rewrite bind_assoc in E. rewrite (bind_ret _ _ _ _ _ (onTst_gets CurrentTask w)) in E.
  rewrite (bind_ret _ _ w tt (left_at (mkFrame AtTick c) w)) in E by done. apply bind_inv in E as (r & w1 & (t & Ey & ->)%onTst_inv & E).
  destruct (inv_yield w (mkFrame AtTick c) r t Hk) as [Hk1 _]; [done|exact Ey|]. by apply (inv_move _ _ _ _ (calm_resume r) E).
Qed.

Lemma inv_isr c regs w c' w' : kernel_inv w → lookupZ (IDTCallbacks (k_intr (w_k w))) (int_no regs) ≠ Some h_syscall_interrupt →
  isr c regs w = Ret (c', w') → kernel_inv w'.
Proof.
  intros Hk Hn E. unfold Traps.isr in E. apply bind_inv in E as ([] & w1 & E1 & E).
  assert (C1 : calm_world w w1) by (revert E1; apply calm_onTst; unfold intr_disable, set_intr; moves).
  apply bind_inv in E as (h & w2 & E2 & E). pose proof (inv_calm _ _ C1 Hk) as Hk1. pose proof (calm_idt _ _ _ _ E2) as C2.
  pose proof (inv_calm _ _ C2 Hk1) as Hk2. apply idt_found in E2. rewrite (cw_handlers _ _ C1) in E2.
  apply bind_inv in E as (c2 & w3 & E3 & E). apply (inv_move _ _ _ _ (calm_iret c2) E).
  destruct (decide (h = h_sched_preempt)) as [->|Hp]; [by apply (inv_preempt c w2 c2)|].
  apply (inv_move _ _ _ _ (calm_handle h regs c Hp ltac:(congruence)) E3 Hk2).
Qed.

(** A call. *)
Lemma inv_run_trap r f args w res w' : kernel_inv w → (f = f_fork → forkable w) →
  run_trap (Running r) f args (world_if false w) = Ret (res, w') → kernel_inv w'.
Proof.
  intros Hk Hfk E. pose proof (inv_calm _ _ (calm_world_if false w) Hk) as Hk0.
  assert (Hplain : (x ← onK (run_call junk eax_ f args); mret (inl x)) (world_if false w) = Ret (res, w') → kernel_inv w').
  { intros E'. refine (inv_move (x ← onK (run_call junk eax_ f args); mret (inl (B := ctx) x)) _ _ _ _ E' Hk0). moves. apply calm_onK, run_call_calm. }
  destruct f; try exact (Hplain E); destruct args as [|a [|b [|d [|e [|g args]]]]]; try exact (Hplain E); cbn [Traps.run_trap] in E.
  - apply bind_inv in E as ([] & w1 & E & [= _ <-]). exact (inv_move _ _ _ _ (calm_onTst _ (calm_exit (s32 a))) E Hk0).
  - exact (inv_move _ _ _ _ (calm_onK _ (calm_execve lx a b d Hlib Hmalloc)) E Hk0).
  - apply bind_inv in E as (x & w1 & E & [= _ <-]). by apply (inv_fork r w x w1 Hk (Hfk eq_refl)).
  - by apply (inv_leave f_sched_yield [] (Running r) _ _ res w' Hk0 eq_refl sched_yield_yields).
  - by apply (inv_leave f_wait4 [a; b; d; e] (Running r) _ _ res w' Hk0 eq_refl (wait4_yields (s32 a) (s32 d))).
  - by apply (inv_leave f_rt_sigsuspend [a; b] (Running r) _ _ res w' Hk0 eq_refl sigsuspend_yields).
Qed.

Lemma abi_fn_range n f : abi_fn n = Some f → 0 ≤ n < NUM_SYSCALLS.
Proof.
  assert (Hall : Forall (λ p, 0 ≤ p.1 < NUM_SYSCALLS) syscall_abi) by (apply (bool_decide_unpack _); by vm_compute).
  unfold abi_fn. induction Hall as [|[m x] l Hm _ IH]; [done|]. cbn [assocZ]. by destruct (Z.eqb_spec m n) as [->|].
Qed.

(** A number without a function is logged, one beyond the table is not survived. *)
Lemma trap_other r w : kernel_inv w → is_u32 (eax r) → abi_fn (eax r) = None →
  trap r w = if NUM_SYSCALLS <=? eax r then Fault OutOfBounds
             else iret (Running r) (embed (set_sclog (sclog (k_sc (w_k w)) ++ [UnhandledSyscall (eax r)]) (k_sc (w_k w))) (world_if false w)).
Proof.
  intros Hk He Hf. destruct (ki_calls _ Hk) as [Hs1 Hs2]. unfold Traps.trap. rewrite (isr_ok junk eax_ lx (Running r) (set_int INT_SYSCALL 0 r) w h_syscall_interrupt) by (done || apply Hk).
  assert (Ee : entry_state_of (set_int INT_SYSCALL 0 r) w = world_if false w).
  { unfold entry_state_of. cbn [int_no set_int]. change (_ && _) with false. cbn match. rewrite app_nil_r. destruct w as [[? [] ? ? ?] ? ?]. done. }
  rewrite Ee. unfold handle. rewrite bind_assoc.
  pose proof (syscall_dispatch_ok (run_trap (Running r)) (world_if false w) full_sctbl (set_int INT_SYSCALL 0 r) register_all_ok Hs1 Hs2 He) as E.
  cbn [eax set_int] in E. rewrite Hf in E. destruct (NUM_SYSCALLS <=? eax r); [by rewrite (bind_fault _ _ _ _ E)|].
  rewrite (bind_ret _ _ _ _ _ E). destruct r; done.
Qed.

Lemma inv_trap r w c' w' : kernel_inv w → is_u32 (eax r) → (abi_fn (eax r) = Some f_fork → forkable w) →
  trap r w = Ret (c', w') → kernel_inv w'.
Proof.
  intros Hk He Hfk E. destruct (abi_fn (eax r)) as [f|] eqn:Ef.
  - assert (Hn : 0 ≤ eax r < NUM_SYSCALLS) by (by apply abi_fn_range in Ef).
    rewrite (trap_eq junk eax_ lx r f w (ki_syscalls _ Hk) (ki_calls _ Hk) Hn Ef) in E. apply bind_inv in E as (res & w1 & E1 & E).
    apply (inv_move _ _ _ _ (calm_iret _) E). refine (inv_run_trap r f _ w res w1 Hk _ E1). intros ->. by apply Hfk.
  - rewrite (trap_other r w Hk He Ef) in E. destruct (_ <=? _); [done|]. apply (inv_move _ _ _ _ (calm_iret _) E).
    apply (inv_calm w); [|done]. split; [by apply calm_same; [|apply Z.le_refl|]|done..].
Qed.

(** The task waits for a child, and the address at which it wants the status can not be
    written in its memory. *)
Definition lost_status (w : world) (z : Z) : Prop := ∃ t a st b c x,
  tasks (w_tst w) !! z = Some t ∧ w_frames w !! z = Some (mkFrame (AtCall f_wait4 [a; st; b; c]) x) ∧
  ∀ v, umemcpy (mmu_view t) st (word_bytes (sigchldexit t)) 0 4 (m_vm (k_mach (w_k w))) ≠ Ret (tt, v).

(** Nobody can run. *)
Definition idle (w : world) : Prop := ∃ l, ring (w_tst w) (CurrentTask (w_tst w) :: l) ∧ ∀ p, p ∈ CurrentTask (w_tst w) :: l → task_runnable (w_tst w) p = false.

Lemma finish_cases f args w t : waits f args = true → tasks (w_tst w) !! CurrentTask (w_tst w) = Some t →
  (∃ x w', onK (finish_call f args) w = Ret (x, w')) ∨
  ∃ a st b c, f = f_wait4 ∧ args = [a; st; b; c] ∧
    ∀ v, umemcpy (mmu_view t) st (word_bytes (sigchldexit t)) 0 4 (m_vm (k_mach (w_k w))) ≠ Ret (tt, v).
Proof.
  intros Hw Et. destruct f; try done; destruct args as [|a [|st [|b [|c [|d args]]]]]; try done; [left; by eexists _, _| |left; by eexists _, _].
  cbn [finish_call]. set (bs := word_bytes (sigchldexit t)). set (g := λ ct, umemcpy ct st bs 0 4).
  assert (Ew : onTask sys_wait4_resumed (w_k w) = Ret ((sigchldexit t, sigchldpid t), w_k w)).
  { assert (E0 : sys_wait4_resumed (w_tst w) = Ret ((sigchldexit t, sigchldpid t), w_tst w)) by (unfold sys_wait4_resumed; by rewrite (bind_ret _ _ _ _ _ (current_ok _ t Et))).
    rewrite (onTask_ok _ _ _ _ E0). by destruct w as [[[] ? ? ? ?] ? ?]. }
  assert (Hv : cur_view (k_tst (w_k w)) = Some (mmu_view t)) by (unfold cur_view; change (k_tst (w_k w)) with (w_tst w); by rewrite Et).
  destruct (g (mmu_view t) (m_vm (k_mach (w_k w)))) as [[[] v]| | |] eqn:E.
  - left. exists (u32 (sigchldpid t)). eexists. apply onK_ok. rewrite (bind_ret _ _ _ _ _ Ew). cbn [fst snd].
    rewrite (bind_ret _ _ _ tt _ (onUser_ok g (w_k w) (mmu_view t) tt v Hv E)). reflexivity.
  - right. exists a, st, b, c. split; [done|]. split; [done|]. intros v E'. change (g (mmu_view t) (m_vm (k_mach (w_k w))) = Ret (tt, v)) in E'. congruence.
  - right. exists a, st, b, c. split; [done|]. split; [done|]. intros v E'. change (g (mmu_view t) (m_vm (k_mach (w_k w))) = Ret (tt, v)) in E'. congruence.
  - right. exists a, st, b, c. split; [done|]. split; [done|]. intros v E'. change (g (mmu_view t) (m_vm (k_mach (w_k w))) = Ret (tt, v)) in E'. congruence.
Qed.

(** The context a task goes back to is the one it left, but for the result of its call. *)
Definition back (fr : frame) (c : ctx) : Prop :=
  match fr_at fr with
  | AtTick => c = fr_ctx fr
  | AtCall _ _ => ∃ x, c = with_result (fr_ctx fr) x
  | AtFork _ => c = with_result (fr_ctx fr) 0
  end.

Lemma resume_cases r w t : entered_ok r w → tasks (w_tst w) !! CurrentTask (w_tst w) = Some t →
  (∃ fr c' w', resume_frame r w = Ret (c', w') ∧ w_frames w !! CurrentTask (w_tst w) = Some fr ∧ back fr c') ∨
  ∃ a st b c x, r = InEnter ∧ w_frames w !! CurrentTask (w_tst w) = Some (mkFrame (AtCall f_wait4 [a; st; b; c]) x) ∧
    ∀ v, umemcpy (mmu_view t) st (word_bytes (sigchldexit t)) 0 4 (m_vm (k_mach (w_k w))) ≠ Ret (tt, v).
Proof.
  intros ([p x] & Ef & Hfit) Et. rewrite (resume_frame_at r w _ Ef). cbn [fr_at fr_ctx]. destruct r, p as [|f args|ch]; try done; cbn in Hfit.
  - left. by eexists _, _, _.
  - destruct (finish_cases f args w t Hfit Et) as [(y & w' & E)|(a & st & b & c & -> & -> & H)].
    + left. eexists _, _, _. rewrite (bind_ret _ _ _ _ _ E). split; [reflexivity|]. split; [exact Ef|]. by exists y.
    + right. by exists a, st, b, c, x.
  - left. subst ch. eexists _, _, _. split; [|by split; [exact Ef|]].
    rewrite (bind_ret _ _ _ _ _ (onK_ok _ w _ _ (onMem_ok _ (w_k w) _ _ (fork_child_result (CurrentTask (w_tst w)) (k_mach (w_k w)) eq_refl)))). reflexivity.
Qed.

(** The task that was entered was waiting before. *)
Lemma lost_entered c w y t' s' a st b d x :
  yielded (w_tst w) y InEnter s' → is_Some (tasks (w_tst w) !! y) → tasks s' !! y = Some t' →
  w_frames (after_tick spin_regs c s' w) !! y = Some (mkFrame (AtCall f_wait4 [a; st; b; d]) x) →
  (∀ v, umemcpy (mmu_view t') st (word_bytes (sigchldexit t')) 0 4 (m_vm (k_mach (w_k w))) ≠ Ret (tt, v)) → lost_status w y.
Proof.
  intros Hy [t Et] Et' Ef Hm. cbn in Ef. assert (Hyc : y ≠ CurrentTask (w_tst w)) by (intros ->; by rewrite lookup_insert_eq in Ef).
  rewrite lookup_insert_ne in Ef by done. destruct (yielded_process _ _ _ _ _ Hy Et Hyc) as (t2 & Et2 & [Hd Hv]). rewrite Et2 in Et'. injection Et' as ->.
  exists t, a, st, b, d, x. split; [done|]. split; [exact Ef|]. rewrite <- Hv. unfold proc_data in Hd. assert (He : sigchldexit t' = sigchldexit t) by congruence. rewrite <- He. exact Hm.
Qed.

(** The next tick brings a task that can run back to its program. *)
Definition tick_returns (c : ctx) (w : world) : Prop := ∃ z fr c' w',
  tick c w = Ret (c', w') ∧ CurrentTask (w_tst w') = z ∧ task_runnable (w_tst w) z = true ∧
  w_frames (left_at (mkFrame AtTick c) w) !! z = Some fr ∧ back fr c'.

(** It does so; or nobody can run; or the wait of the task that was entered can not store
    the status. *)
Lemma tick_cases c w : kernel_inv w →
  tick_returns c w ∨ (tick c w = Diverge ∧ idle w) ∨ ∃ z, task_runnable (w_tst w) z = true ∧ lost_status w z.
Proof.
  intros Hk. set (w0 := entry_state_of (set_int INT_PIT 0 spin_regs) w). pose proof (inv_calm _ _ (calm_entry _ w) Hk : kernel_inv w0) as Hk0.
  destruct (ki_ring _ Hk0) as (l & Hr & Hl).
  destruct (yield_cases (w_tst w0) l Hr (inv_signals _ Hk0)) as [(pre & y & post & r & s' & Hp & E & Hy & _ & Hr')|[E Hall]].
  - set (w1 := after_tick spin_regs c s' w).
    assert (He : entered_ok r w1) by exact (entered_fits w0 (mkFrame AtTick c) l Hr Hl I pre y post r s' Hp Hy).
    destruct (ring_task s' _ y Hr') as [t' Et']; [left|]. pose proof (yd_cur _ _ _ _ Hy) as Hcur.
    assert (Et1 : tasks (w_tst w1) !! CurrentTask (w_tst w1) = Some t').
    { change (tasks s' !! CurrentTask s' = Some t'). by rewrite Hcur. }
    destruct (resume_cases r w1 t' He Et1) as [(fr & c' & w2 & E2 & Ef & Hb)|(a & st & b & d & x & -> & Ef & Hm)].
    + left. exists y, fr, c', (world_if (iret_flag c') w2). rewrite (tick_ok junk eax_ spin_regs lx c w r s' (ki_timer _ Hk) E).
      rewrite (bind_ret _ _ _ _ _ E2). split; [apply iret_ok|]. split; [|split; [exact (proj2 (proj2 Hp))|split; [|exact Hb]]].
      * change (CurrentTask (w_tst w2) = y). rewrite (cm_cur _ _ (cw_tst _ _ (calm_resume _ _ _ _ E2))). exact Hcur.
      * change (CurrentTask (w_tst w1)) with (CurrentTask s') in Ef. rewrite Hcur in Ef. exact Ef.
    + right. right. exists y. destruct Hp as (Ho & _ & Hrun). split; [exact Hrun|]. 
      apply (lost_entered c w0 y t' s' a st b d x Hy); [|done| |exact Hm].
      * unfold task_runnable in Hrun. by destruct (tasks (w_tst w0) !! y).
      * change (CurrentTask (w_tst w1)) with (CurrentTask s') in Ef. rewrite Hcur in Ef. exact Ef.
  - right. left. split; [|exists l; split; [by apply (ring_frame (w_tst w0))|exact Hall]].
    unfold Traps.tick. rewrite (isr_ok junk eax_ lx c (set_int INT_PIT 0 (match c with Running r => r | _ => spin_regs end)) w h_sched_preempt (ki_timer _ Hk)) by done.
    apply bind_diverge. unfold handle, save_frame. rewrite !bind_assoc. set (w2 := entry_state_of _ w).
    rewrite (bind_ret _ _ _ _ _ (onTst_gets CurrentTask w2)). rewrite (bind_ret _ _ w2 tt (left_at (mkFrame AtTick c) w2)) by done.
    apply bind_diverge. apply (zoom_diverge (H := world_has_kernel)), (zoom_diverge (H := kernel_has_files)), (zoom_diverge (H := kf_has_tst)). exact E.
Qed.

(** What may happen: a program computes, which changes its registers, its memory and, by
    a fault, the processor's register; the processor is interrupted; or a program makes a call.  Only
    steps that return: a fault ends the run. *)
Inductive kstep : ctx * world → ctx * world → Prop :=
| step_program c r v a w : c ≠ Exited → kstep (c, w) (Running r, mkWorld (mkKernel (with_vm v (k_mach (w_k w))) (k_intr (w_k w)) (k_sc (w_k w)) (k_fs (w_k w)) (k_cons (w_k w))) (w_frames w) a)
| step_interrupt c regs w c' w' : lookupZ (IDTCallbacks (k_intr (w_k w))) (int_no regs) ≠ Some h_syscall_interrupt →
    isr c regs w = Ret (c', w') → kstep (c, w) (c', w')
| step_call r w c' w' : is_u32 (eax r) → (abi_fn (eax r) = Some f_fork → forkable w) →
    trap r w = Ret (c', w') → kstep (Running r, w) (c', w').

Lemma kstep_inv x y : kstep x y → kernel_inv x.2 → kernel_inv y.2.
Proof.
  intros [c r v a w Hc|c regs w c' w' Hn E|r w c' w' He Hf E] Hk; cbn [snd] in *.
  - apply (inv_calm w); [|done]. split; [by apply calm_same; [|apply Z.le_refl|]|done..].
  - by apply (inv_isr c regs w c').
  - by apply (inv_trap r w c').
Qed.

Lemma run_inv x y : rtc kstep x y → kernel_inv x.2 → kernel_inv y.2.
Proof. induction 1 as [|x y z Hs _ IH]; [done|]. intros Hk. by apply IH, (kstep_inv x). Qed.
End Kernel.

(** ** From the start *)

(** The tasks alone. *)
Definition calm_tasks (k k' : kernel) : Prop := calm (k_tst k) (k_tst k').
#[export] Instance calm_tasks_preorder : PreOrder calm_tasks.
Proof. split; [intros k; exact (reflexivity (k_tst k))|]. intros k1 k2 k3 H1 H2. exact (transitivity (R := calm) H1 H2). Qed.
Lemma tasks_onFiles {A} (m : M kfiles A) : moves calm_files m → moves calm_tasks (onFiles m).
Proof. by apply (moves_zoom (H := kernel_has_files)). Qed.
Lemma tasks_onTask {A} (m : M tst A) : moves calm m → moves calm_tasks (onTask m).
Proof. intros Hm. apply tasks_onFiles. by apply calm_onT. Qed.
Lemma tasks_onFs {A} (m : M fst_ A) : moves calm_tasks (onFs m).
Proof. apply tasks_onFiles, calm_onF. Qed.
Lemma tasks_onSc {A} (m : M sctbl A) : moves calm_tasks (onSc m).
Proof. apply (moves_zoom_any (H := kernel_has_sctbl)). intros k t. exact (reflexivity (k_tst k)). Qed.
Lemma tasks_onInt {A} (m : M intrst A) : moves calm_tasks (onInt m).
Proof. apply (moves_zoom_any (H := kernel_has_intr)). intros k t. exact (reflexivity (k_tst k)). Qed.
#[export] Hint Resolve tasks_onFs tasks_onSc tasks_onInt : moves.
#[export] Hint Extern 2 (moves calm_tasks (onFiles _)) => (apply tasks_onFiles; moves) : moves.
#[export] Hint Extern 2 (moves calm_tasks (onTask _)) => (apply tasks_onTask; moves) : moves.

(** The streams of the C library do not touch the tasks. *)
Record calm_stdio (lib : libc) : Prop := {
  cs_fopen path mode : moves calm_tasks (fopen lib path mode);
  cs_printf x : moves calm_tasks (printf lib x)
}.

Lemma calm_console_register junk refs : moves calm_files (console_register junk refs).
Proof. unfold console_register. moves. Qed.
#[export] Hint Resolve calm_console_register : moves.
Lemma tasks_console_module junk refs : moves calm_tasks (console_module junk refs).
Proof. unfold console_module. moves. Qed.
#[export] Hint Resolve tasks_console_module : moves.

Section Start.
Context (lib : libc) (port_in : list (Z * Z) → Z → Z) (k k' : kernel) (cur : task).
Hypothesis Hbo : bootable k cur.
Hypothesis Hlib : calm_stdio lib.
Hypothesis Htasks : tasks (k_tst k) = {[KernelTask_ptr := cur]}.
Hypothesis Hheap : KernelTask_ptr < heap (k_tst k).
Hypothesis Hsig : sigpend cur = 0.

Lemma kmain_init_calm junk refs : kmain_init lib port_in junk refs (HdrAt 0) k = Ret (tt, k') → calm (started_tst cur (k_tst k)) (k_tst k').
Proof.
  destruct (start_components port_in k cur Hbo) as [tr E]. unfold kmain_init. rewrite E. clear E. set (k1 := mkKernel _ _ _ _ _). intros E.
  change (calm_tasks k1 k'). revert E.
  match goal with |- ?m k1 = _ → _ => assert (Hm : moves calm_tasks m) end.
  { unfold console_init, modules_init, run_modules, intr_enable, set_intr. destruct Hlib. moves; auto. }
  apply Hm.
Qed.

Lemma started_inv t : t = started_tst cur (k_tst k) → (∀ p u, tasks t !! p = Some u → p = KernelTask_ptr ∧ sig_full u) ∧
  NULL < heap t ∧ KernelTask_ptr < heap t ∧ ring t [KernelTask_ptr] ∧ CurrentTask t = KernelTask_ptr.
Proof.
  intros ->. destruct Hbo as [[Hc _] [H0 _] _ _]. split; [|split; [cbn; lia|split; [cbn; lia|split; [|exact Hc]]]].
  - intros p u E. cbn in E. rewrite Htasks in E. apply lookup_insert_Some in E as [[<- <-]|[Hn E]]; [split; [done|]|].
    + split; [done|]. cbn. rewrite Hsig. unfold NSIG. lia.
    + by apply lookup_singleton_Some in E as [<- _].
  - assert (El : tst_links (started_tst cur (k_tst k)) KernelTask_ptr = Some (KernelTask_ptr, KernelTask_ptr)).
    { unfold tst_links. cbn. by rewrite lookup_insert_eq. }
    split; [|split; [apply NoDup_singleton|by intros E%list_elem_of_singleton]].
    split; unfold nxt, prv; cbn [links tst_list]; by rewrite El.
Qed.

Lemma kmain_init_inv junk refs ird tty es kids shown frames a :
  kmain_init lib port_in junk refs (HdrAt 0) k = Ret (tt, k') → running k' ird tty es kids shown → kernel_inv (mkWorld k' frames a).
Proof.
  intros E Hr. pose proof (kmain_init_calm junk refs E) as Hc. destruct (started_inv _ eq_refl) as (H1 & H2 & H3 & H4 & H5).
  destruct (rn_handlers _ _ _ _ _ _ Hr) as (Hh1 & Hh2 & _). set (t0 := started_tst cur (k_tst k)) in *.
  assert (Hcur : CurrentTask (k_tst k') = KernelTask_ptr) by (rewrite (cm_cur _ _ Hc); exact H5).
  split; [exact Hh2|exact Hh1|change (same_calls (k_sc k') full_sctbl); by rewrite (rn_calls _ _ _ _ _ _ Hr)| | |].
  - intros p t Et. destruct (calm_lookup _ _ _ _ Hc Et) as (u & Eu & Hu). destruct (H1 p u Eu) as [_ Hs]. by apply Hu.
  - pose proof (cm_heap _ _ Hc). split; [change (NULL < heap (k_tst k')); lia|]. intros p [t Et].
    destruct (calm_lookup _ _ _ _ Hc Et) as (u & Eu & _). destruct (H1 p u Eu) as [-> _]. change (KernelTask_ptr < heap (k_tst k')). lia.
  - exists []. change (CurrentTask (w_tst _)) with (CurrentTask (k_tst k')). rewrite Hcur. split; [by apply (calm_ring _ _ _ Hc)|].
    intros z Hz. by apply not_elem_of_nil in Hz.
Qed.
End Start.

Lemma direct_calm : calm_stdio direct_libc.
Proof.
  split; intros; cbn; unfold direct_fopen, direct_puts; moves.
Qed.

(** C13: runs of the kernel.  From a state with the invariant, programs run, make calls and
    are interrupted, in any order and as often as they may; programs are loaded, fork where there
    is memory for it ([forkable]), wait and exit.  A run is of steps that return ([kstep]).  The state this comes to has the invariant, and the
    next tick of the timer goes to a task that can run, in the context in which it was left, the
    result of its call apart; unless no task can run, when the kernel loops in [kern_sched_yield],
    or a task that can run gave an address to wait4 that can not be written. *)
Theorem kernel_runs_on junk eax_ spin_regs lx c w c' w' :
  calm_lib (lx_files lx) → (∀ k, moves calm_mach (lx_malloc lx k)) →
  kernel_inv w → rtc (kstep junk eax_ lx) (c, w) (c', w') →
  kernel_inv w' ∧
  (tick_returns junk eax_ spin_regs lx c' w' ∨
   (tick junk eax_ spin_regs lx c' w' = Diverge ∧ idle w') ∨
   ∃ z, task_runnable (w_tst w') z = true ∧ lost_status w' z).
Proof.
  intros Hlib Hm Hk Hrun. assert (Hk' : kernel_inv w') by exact (run_inv junk eax_ lx Hlib Hm _ _ Hrun Hk).
  split; [done|]. by apply tick_cases.
Qed.

Lemma family_inv : kernel_inv family_world.
Proof.
  assert (Hone : ∀ p t, tasks fork_tst !! p = Some t → p = 1 ∧ t = fork_cur).
  { intros p t E. cbn in E. apply lookup_insert_Some in E as [[<- <-]|[_ E]]; [done|]. by rewrite lookup_empty in E. }
  split; try done.
  - intros p t E. by apply Hone in E as [_ ->].
  - split; [done|]. intros p [t E]. by apply Hone in E as [-> _].
  - exists []. split; [exact (pr_ring _ _ _ _ family_ready)|]. intros z Hz. by apply not_elem_of_nil in Hz.
Qed.

Lemma demo_lib_calm : calm_lib demo_filelib.
Proof. split; intros; unfold demo_filelib; cbn; moves. Qed.

Lemma family_forkable : forkable family_world.
Proof. destruct (pr_fds _ _ _ _ family_ready) as (H1 & H2 & H3). exists fork_cur, [6; 0; 0; 0]. do 3 (split; [done|]). exact family_clones. Qed.

(** The program forks. *)
Lemma kernel_runs_on_witness :
  ∃ w1, trap 0 0 demo_libexec (call_regs 2 0 0 0) family_world = Ret (Running (set_eax 2 (call_regs 2 0 0 0)), w1) ∧ kernel_inv w1.
Proof.
  assert (Hu : is_u32 (eax (call_regs 2 0 0 0))) by done.
  destruct (trap_fork 0 0 demo_libexec (call_regs 2 0 0 0) family_world [] fork_cur [6; 0; 0; 0] family_ready family_clones eq_refl) as (m & t & _ & E).
  assert (E2 : next_pid (w_tst family_world) = 2) by reflexivity. rewrite E2 in E. revert E. generalize (world_if (Z.testbit (eflags (call_regs 2 0 0 0)) IF_BIT) (forked_world (call_regs 2 0 0 0) m family_world)).
  intros w1 E. exists w1. split; [exact E|].
  destruct (kernel_runs_on 0 0 (call_regs 0 0 0 0) demo_libexec (Running (call_regs 2 0 0 0)) family_world (Running (set_eax 2 (call_regs 2 0 0 0))) w1) as [H _].
  - exact demo_lib_calm.
  - intros k. apply moves_ret, _.
  - exact family_inv.
  - apply rtc_once. exact (step_call 0 0 demo_libexec (call_regs 2 0 0 0) family_world _ w1 Hu (λ _, family_forkable) E).
  - exact H.
Defined.

(** C14: the kernel after its start.  [kmain] comes to the end of its initialisation, from what the
    loader and [arch_init] leave; and after whatever steps programs and interrupts take from then on (those of [kstep]), the
    next tick of the timer goes to a task that can run, in the context in which it was left; unless no
    task can run, or a task that can run gave an address to wait4 that can not be written. *)
Theorem kmain_runs_on lib {Hlib : Stdio lib} port_in junk_ eax_ spin_regs lx k cur es tr post junk refs :
  bootable k cur → ramdisk (k_fs k) es tr post → bytes junk → (3 < length junk)%nat →
  Z.of_nat (length (buffer (screen (k_cons k)))) = VGA_WINDOW →
  tasks (k_tst k) = {[KernelTask_ptr := cur]} → KernelTask_ptr < heap (k_tst k) → sigpend cur = 0 →
  calm_stdio lib → calm_lib (lx_files lx) → (∀ n, moves calm_mach (lx_malloc lx n)) →
  ∃ k', kmain_init lib port_in junk refs (HdrAt 0) k = Ret (tt, k') ∧
    ∀ r frames a c w, rtc (kstep junk_ eax_ lx) (Running r, mkWorld k' frames a) (c, w) →
      tick_returns junk_ eax_ spin_regs lx c w ∨ (tick junk_ eax_ spin_regs lx c w = Diverge ∧ idle w) ∨
      ∃ z, task_runnable (w_tst w) z = true ∧ lost_status w z.
Proof.
  intros Hbo Hrd Hj Hjl Hvga Ht Hh Hs Hcs Hcl Hm.
  destruct (kmain_init_ok lib port_in k cur es tr post junk refs Hbo Hrd Hj Hjl Hvga) as (k' & ird & tty & kids & E & Hr & _).
  exists k'. split; [exact E|]. intros r frames a c w Hrun. apply tick_cases.
  apply (run_inv junk_ eax_ lx Hcl Hm _ _ Hrun). exact (kmain_init_inv lib port_in k k' cur Hbo Hcs Ht Hh Hs junk refs ird tty es kids _ frames a E Hr).
Qed.

Lemma kmain_runs_on_witness :
  ∃ k', kmain_init direct_libc (λ _ _, 0xFF) [0; 0; 0; 0] 7 (HdrAt 0) (prog_kernel Mmu.demo_vm) = Ret (tt, k') ∧
    let w := mkWorld k' ∅ 0 in let c := Running (call_regs 0 0 0 0) in
    tick_returns 0 0 (call_regs 0 0 0 0) demo_libexec c w ∨ (tick 0 0 (call_regs 0 0 0 0) demo_libexec c w = Diverge ∧ idle w) ∨
    ∃ z, task_runnable (w_tst w) z = true ∧ lost_status w z.
Proof.
  destruct (kmain_runs_on direct_libc (λ _ _, 0xFF) 0 0 (call_regs 0 0 0 0) demo_libexec (prog_kernel Mmu.demo_vm) prog_task prog_es (demo_entry trailer_name []) [] [0; 0; 0; 0] 7)
    as (k' & E & H).
  - split; [done| |done|done]. split; [done|]. intros p [x Ex]. cbn in Ex. by rewrite lookup_empty in Ex.
  - split; [done| |by rewrite app_nil_r|].
    + apply (bool_decide_unpack _). vm_compute. exact I.
    + split; [|split]; [repeat constructor; apply (bool_decide_unpack _); vm_compute; exact I..|apply (bool_decide_unpack _); vm_compute; exact I].
  - apply (bool_decide_unpack _). vm_compute. exact I.
  - cbn. lia.
  - done.
  - done.
  - done.
  - done.
  - exact direct_calm.
  - exact demo_lib_calm.
  - intros n. apply moves_ret, _.
  - exists k'. split; [exact E|]. exact (H (call_regs 0 0 0 0) ∅ 0 _ _ (rtc_refl _ _)).
Defined.
